(* ===== verification/_CoqProject ===== *)
-Q . S2P
Prelude.v
Opcodes.v
OpcodeTables.v
Machine.v
LazyFlags.v
Memory.v
Paging.v
Access.v
Regs.v
Precise.v
Reference.v
Mode.v
Segment.v
SegLoad.v
Frame.v
Stack.v
FlagCtrl.v
CtrlPro.v
Exception.v
Delivery.v
Contract.v
Arith.v
Bcd.v
Logical.v
Mult.v
ShiftSpec.v
Shift.v
Bit.v
DataXfer.v
Coherence.v
Protect.v
SysCtrl.v
StringOps.v
PortIO.v
CtrlXfer.v
FarXfer.v
Rings.v
Decode.v
Operand.v
Handlers.v
Seal.v
Cpu.v
Reset.v
Execute.v
Fetch.v
