(* ===== verification/Prelude.v ===== *)
(** * A verification of the WhiteBochs processor

    The program is the x86 emulator of src/tools/WhiteBochs-old, the processor of
    Bochs cut down to run single instructions under a symbolic executor.  The
    development models it as its configuration compiles it: config.h (32-bit, CPU
    level 5, one processor, alignment checking; no VMX, no x86-64, no trace cache,
    no repeat speedups, no debugger) and Makefile.common ([WHITEBOCHS],
    [WHITEBOCHS_NO_TLB]).  Paths below are relative to that directory.

    ** The parts and how they interact

    [BX_CPU_C::cpu_loop] (cpu/cpu.cc) fetches an instruction at CS:EIP through a
    window on the current page of code and a cache of decoded instructions
    (cpu/icache.cc), decodes it with [fetchDecode32] (cpu/fetchdecode.cc) into a
    [bxInstruction_c], advances EIP and calls the handler that the table of
    cpu/ia_opcodes.h names.  Handlers (cpu/arith32.cc, cpu/ctrl_xfer32.cc, ...) work
    on the registers of [BX_CPU_C] and reach memory through segment checks
    (cpu/access32.cc), the page walk (cpu/paging.cc) and the memory vector
    (memory/memory.cc).  A handler that faults calls [exception()]
    (cpu/exception.cc), which delivers the exception through the interrupt table,
    possibly by a task switch (cpu/tasking.cc) and possibly raising further
    exceptions, and jumps back to the loop.  Arithmetic flags are not computed but
    recorded, and evaluated when read (cpu/lazy_flags.cc).

    ** Correspondence

    The state is the record [Machine.machine], one field per member of [BX_CPU_C]
    that is modelled, with the guest memory ([Memory.bx_mem_c]); a decoded
    instruction is [Machine.bxInstruction_c]; the names of types, members, functions
    and macros are those of the source.  A C function is a value of the state monad
    [Mach A = machine -> outcome machine A] defined here: [Ret a s] is a return,
    [Fault vector code s] the call of [exception()], which does not return to its
    caller, and [Crash] the end of the emulator process: a read or write outside the
    mapped guest memory or through a null pointer (the null host page of an empty
    TLB entry, a null resolver), a failed [BX_ASSERT] or a [BX_PANIC] in the files
    where they abort (those that include whitebochs.h; elsewhere the macros are
    empty), an assertion of the memory, and the places the C code declares
    unreachable.  Fixed-width integers are [Z] with the wrap-around written out
    ([wrap], [swrap]).

    - Prelude: fixed-width integers, the monad, the relations on it, tactics.
    - Machine: cpu/cpu.h, cpu/instr.h, cpu/descriptor.h, cpu/crregs.h,
      cpu/resolver.cc.  LazyFlags: cpu/lazy_flags.h, cpu/lazy_flags.cc.
    - Memory: memory/memory.cc.  Paging: cpu/paging.cc.  Access: cpu/access.cc,
      cpu/access32.cc.
    - Regs, Precise, Reference, Frame, Contract, Coherence: the lemmas, relations and
      reference instructions the components share.
    - Mode: EFLAGS and the caches of the processor mode (cpu/flag_ctrl_pro.cc,
      [handleCpuModeChange] of cpu/proc_ctrl.cc).  FlagCtrl: cpu/flag_ctrl.cc.
    - Segment, SegLoad: cpu/segment_ctrl_pro.cc, cpu/segment_ctrl.cc.
    - Stack: cpu/stack.h, cpu/stack16.cc, cpu/stack32.cc.
    - CtrlPro: cpu/ctrl_xfer_pro.cc, cpu/tasking.cc.  Exception, Delivery:
      cpu/exception.cc.
    - Arith, Bcd, Logical, Mult, ShiftSpec and Shift, Bit, DataXfer: the handlers of
      the files of those names, with cpu/load32.cc in DataXfer.
    - Protect: cpu/protect_ctrl.cc.  SysCtrl: cpu/crregs.cc, cpu/proc_ctrl.cc.
      StringOps: cpu/string.cc and the repeat loops of cpu/cpu.cc.  PortIO:
      cpu/io.cc.
    - CtrlXfer: the near transfers of cpu/ctrl_xfer16.cc and cpu/ctrl_xfer32.cc.
      FarXfer, Rings: their far handlers, cpu/jmp_far.cc, cpu/call_far.cc,
      cpu/ret_far.cc, cpu/iret.cc, cpu/vm8086.cc, cpu/soft_int.cc.
    - Opcodes, OpcodeTables, Decode, Operand: cpu/ia_opcodes.h, cpu/fetchdecode.h,
      cpu/fetchdecode_sse.h, cpu/fetchdecode_x87.h, cpu/fetchdecode.cc.
    - Handlers: all handlers in one table.  Seal: what they leave alone below ring 0.
    - Cpu: one turn of the loop and sequences of instructions.  Reset: cpu/init.cc.
    - Execute: the handlers of cpu/ia_opcodes.h and [init_FetchDecodeTables].  Fetch:
      [prefetch], cpu/icache.cc, cpu/icache.h, [cpu_loop], and [fetch_and_decode] of
      whitebochs.cc.

    ** What the theorems show

    - Refinement.  [norm] materialises pending flags.  [refines m m'] says that [m] on
      a state with pending flags does what [m'] does on the materialised one, faults
      included.  Every handler has a row in [Handlers.handler_table] with what it
      refines.  For the data instructions this is an instruction written
      independently, by operand, width and eager flags ([Arith.arith_correct],
      [Shift.shift_correct], ...).  For the rows made with [Contract.selves] (stack
      instructions, indirect jumps and calls, BOUND and far transfers) it is the
      handler itself: there refinement says only that pending flags make no
      difference, and what these handlers do is the subject of theorems of their own
      ([Stack.pusha_popa_correct], [CtrlXfer.near_transfers_bounded],
      [Rings.ring_protection]).
    - The loop.  [contract] (Contract) is what the loop relies on in a handler.  From it
      follow [Cpu.cpu_run_correct] for any sequence of decoded instructions and
      [Fetch.cpu_loop_correct] for the bytes in memory: the loop ends every turn,
      agrees with the specified instructions and keeps its invariant [cpu_ok].
      [Cpu.fault_restarts] and [Cpu.rep_fault_resumes] say from which state a fault is
      delivered.
    - Fetching and decoding: [Fetch.fetch_correct] on the bytes that are decoded,
      [Decode.decode_bounds], [Decode.decode_local] and [Decode.lock_prefix] on
      [fetchDecode32], [Operand.operand_roundtrip] on addressing modes.
    - Memory: the page walk is the architectural one, segment checks accept exactly
      what the architecture allows, and what is written is read back (Paging, Access).
    - Protection: rings, system registers, port permissions, segment loads (Rings, Seal,
      PortIO, SegLoad), and the consistency of the system registers from a reset on
      (Reset).
    - Exceptions: [exception()] and [interrupt()] call each other no deeper than five
      times; which pairs make a double fault; when the processor gives up (Exception).
      Giving up is the panic of a triple fault, [TripleFault] with the state it
      happens in.

    ** Fuel

    [Exception.exception_loop] takes the depth of nested exceptions; five is enough
    ([Exception.exception_terminates]), and the theorems on the loop hold for every
    fuel from five on.  [Decode.resolve_group] takes the depth of the group tables,
    which is four ([Decode.decode_bounds] shows that it never runs out).
    [StringOps.rep_loop] takes one more than the count of the instruction, and
    [StringOps.rep_iterate_ends] shows that the loop ends.  The bit scans take the
    width of the operand.

    ** What is not modelled

    The FPU, MMX, SSE and 3DNow! units and their handlers, CPUID, RDMSR, WRMSR and RSM
    (the loop stops at such an instruction, [Fetch.Unmodelled]); asynchronous events
    and devices ([handleAsyncEvent]: nothing raises any; an event pending from the
    start ends a repetition, as in the code); hardware breakpoints and the debugger
    hooks; the time-stamp counter; the TLB, which the configuration disables, but for
    the functions that still consult it and find its entries zero; long mode, PAE,
    VMX, SMM and the APIC, which are not compiled; the disassembler; the driver around
    the processor (command line, snapshot files, symbolic execution), which is file
    formats and I/O; and the rest of the repository (test kernel, KVM runner,
    scripts).  What a decoding that is refused leaves in the instruction buffer is a
    parameter of Fetch, since the code overwrites it before use or raises an
    exception. *)
From stdpp Require Import base numbers list gmap.
From Stdlib Require Import ZArith Lia.

#[export] Set Default Goal Selector "!".

Local Open Scope Z_scope.

(** ** Fixed-width integers

    A C object of unsigned type [BitNu] is a [Z] in [[0, 2^N)]; storing a value
    into it reduces it modulo [2^N] ([wrap N]).  The signed conversions
    [(BitNs) x] of the source are [swrap N].  [bx_bool] is [Bit32u]: a C truth
    value is a [Z], and a condition tests it with [nz]. *)

Definition wrap (w z : Z) : Z := z mod 2 ^ w.
Definition swrap (w z : Z) : Z := wrap w (z + 2 ^ (w - 1)) - 2 ^ (w - 1).

Abbreviation u8 := (wrap 8).
Abbreviation u16 := (wrap 16).
Abbreviation u32 := (wrap 32).
Abbreviation u64 := (wrap 64).
Abbreviation s8 := (swrap 8).
Abbreviation s16 := (swrap 16).
Abbreviation s32 := (swrap 32).
Abbreviation s64 := (swrap 64).

(** C truth: a value used as a condition, and a comparison used as a value. *)
Definition nz (z : Z) : bool := negb (z =? 0).

(** [instr] is one of the labels of a [switch] case. *)
Definition case_in (x : Z) (l : list Z) : bool := existsb (Z.eqb x) l.

Create HintDb wrap.

Lemma wrap_range w z : 0 <= w -> 0 <= wrap w z < 2 ^ w.
Proof. intros. unfold wrap. apply Z.mod_pos_bound. lia. Qed.
#[export] Hint Resolve wrap_range : wrap.

Lemma wrap_range_le w v z : 0 <= w <= v -> 0 <= wrap w z < 2 ^ v.
Proof. intros. pose proof (wrap_range w z). pose proof (Z.pow_le_mono_r 2 w v). lia. Qed.

Lemma wrap_small w z : 0 <= z < 2 ^ w -> wrap w z = z.
Proof. intros. unfold wrap. by apply Z.mod_small. Qed.


Lemma wrap_wrap w z : 0 <= w -> wrap w (wrap w z) = wrap w z.
Proof. intros. apply wrap_small. by apply wrap_range. Qed.

(** A narrower truncation absorbs a wider one. *)
Lemma wrap_wrap_le w v z : 0 <= w <= v -> wrap w (wrap v z) = wrap w z.
Proof.
  intros. unfold wrap. apply Z.mod_mod_divide.
  exists (2 ^ (v - w)). rewrite <-Z.pow_add_r by lia. f_equal. lia.
Qed.

Lemma wrap_add_l w a b : 0 <= w -> wrap w (wrap w a + b) = wrap w (a + b).
Proof. intros. unfold wrap. rewrite Zplus_mod_idemp_l. done. Qed.
Lemma wrap_add_r w a b : 0 <= w -> wrap w (a + wrap w b) = wrap w (a + b).
Proof. intros. unfold wrap. rewrite Zplus_mod_idemp_r. done. Qed.
Lemma wrap_sub_r w a b : 0 <= w -> wrap w (a - wrap w b) = wrap w (a - b).
Proof. intros. unfold wrap. rewrite Zminus_mod_idemp_r. done. Qed.
Lemma wrap_sub_l w a b : 0 <= w -> wrap w (wrap w a - b) = wrap w (a - b).
Proof. intros. unfold wrap. rewrite Zminus_mod_idemp_l. done. Qed.

Lemma swrap_range w z : 0 < w -> - 2 ^ (w - 1) <= swrap w z < 2 ^ (w - 1).
Proof.
  intros. unfold swrap. pose proof (wrap_range w (z + 2 ^ (w - 1))).
  replace (2 ^ w) with (2 * 2 ^ (w - 1)) in *; [lia|].
  rewrite <-Z.pow_succ_r by lia. f_equal. lia.
Qed.

Lemma pow2_double w : 0 < w -> 2 ^ w = 2 * 2 ^ (w - 1).
Proof. intros. rewrite <-Z.pow_succ_r by lia. f_equal. lia. Qed.

(** The signed reading of an in-range unsigned value. *)
Lemma swrap_unsigned w z :
  0 < w -> 0 <= z < 2 ^ w ->
  swrap w z = if z <? 2 ^ (w - 1) then z else z - 2 ^ w.
Proof.
  intros Hw Hz. unfold swrap, wrap. pose proof (pow2_double w Hw).
  destruct (Z.ltb_spec z (2 ^ (w - 1))).
  - rewrite Z.mod_small; lia.
  - replace (z + 2 ^ (w - 1)) with ((z - 2 ^ (w - 1)) + 1 * 2 ^ w) by lia.
    rewrite Z_mod_plus_full, Z.mod_small; lia.
Qed.

Lemma swrap_small w z : 0 < w -> - 2 ^ (w - 1) <= z < 2 ^ (w - 1) -> swrap w z = z.
Proof. intros Hw Hz. pose proof (pow2_double w Hw). unfold swrap, wrap. rewrite Z.mod_small; lia. Qed.

Lemma swrap_wrap w z : 0 <= w -> swrap w (wrap w z) = swrap w z.
Proof. intros. unfold swrap. by rewrite wrap_add_l. Qed.

Lemma wrap_swrap w v z : 0 <= v <= w -> wrap v (swrap w z) = wrap v z.
Proof.
  intros. rewrite <-(wrap_wrap_le v w), <-(wrap_wrap_le v w z) by lia. f_equal.
  unfold swrap. rewrite wrap_sub_l by lia. f_equal. lia.
Qed.

(** The low bits of a sign-extended value. *)
Lemma wrap_sext w v z : 0 <= v <= w -> w <= 32 -> wrap v (u32 (swrap w z)) = wrap v z.
Proof. intros. rewrite wrap_wrap_le, wrap_swrap by lia. done. Qed.

(** Sign extension to 32 bits, as [(bx_address)(BitNs) x] does it. *)
Lemma sext32 w z :
  0 < w <= 32 -> 0 <= z < 2 ^ w ->
  u32 (swrap w z) = if z <? 2 ^ (w - 1) then z else z - 2 ^ w + 2 ^ 32.
Proof.
  intros Hw Hz. rewrite swrap_unsigned by lia.
  pose proof (pow2_double w). pose proof (Z.pow_le_mono_r 2 w 32).
  destruct (Z.ltb_spec z (2 ^ (w - 1))).
  - apply wrap_small. lia.
  - unfold wrap. replace (z - 2 ^ w) with (z - 2 ^ w + 2 ^ 32 + (-1) * 2 ^ 32) by lia.
    rewrite Z_mod_plus_full, Z.mod_small; lia.
Qed.

(** Decide every integer comparison in the goal, and finish with [lia]. *)
Ltac zcases :=
  repeat match goal with
  | H : context [if ?x <? ?y then _ else _] |- _ => destruct (Z.ltb_spec x y); try lia
  | |- context [?x <? ?y] => destruct (Z.ltb_spec x y); try lia
  | |- context [?x <=? ?y] => destruct (Z.leb_spec x y); try lia
  | |- context [?x =? ?y] => destruct (Z.eqb_spec x y); try lia
  end; cbn [negb andb orb xorb Z.b2z]; try lia; try done.

(** Linear arithmetic with division and remainder by constants. *)
Ltac divlia := Z.to_euclidean_division_equations; lia.

(** ** Bits *)

Lemma testbit_wrap w z n : 0 <= w -> Z.testbit (wrap w z) n = (n <? w) && Z.testbit z n.
Proof.
  intros. unfold wrap. destruct (Z.ltb_spec n w).
  - destruct (decide (0 <= n)); [by apply Z.mod_pow2_bits_low|].
    by rewrite !Z.testbit_neg_r by lia.
  - by rewrite Z.mod_pow2_bits_high by lia.
Qed.

Lemma testbit_above w z n : 0 <= z < 2 ^ w -> 0 <= w <= n -> Z.testbit z n = false.
Proof. intros. rewrite <-(wrap_small w z), testbit_wrap by lia. by destruct (Z.ltb_spec n w); [lia|]. Qed.

Lemma testbit_msb w z : 0 < w -> 0 <= z < 2 ^ w -> Z.testbit z (w - 1) = (2 ^ (w - 1) <=? z).
Proof.
  intros Hw Hz. pose proof (pow2_double w Hw).
  rewrite Z.testbit_odd, Z.shiftr_div_pow2 by lia.
  destruct (Z.leb_spec (2 ^ (w - 1)) z) as [Hle|Hlt].
  - replace (z / 2 ^ (w - 1)) with 1; [done|].
    apply Z.div_unique with (r := z - 2 ^ (w - 1)); lia.
  - by rewrite Z.div_small by lia.
Qed.

(** Testing one bit with a mask. *)
Lemma land_mask_mod z n : 0 <= n -> Z.land z (Z.ones n) = z mod 2 ^ n.
Proof. apply Z.land_ones. Qed.

(** The two values a wrapped sum or difference can take. *)
Lemma wrap_add_cases w z : 0 <= w -> 0 <= z < 2 * 2 ^ w ->
  wrap w z = if z <? 2 ^ w then z else z - 2 ^ w.
Proof.
  intros. unfold wrap. destruct (Z.ltb_spec z (2 ^ w)); [apply Z.mod_small; lia|].
  symmetry. apply Z.mod_unique with (q := 1); lia.
Qed.
Lemma wrap_sub_cases w z : 0 <= w -> - 2 ^ w <= z < 2 ^ w ->
  wrap w z = if z <? 0 then z + 2 ^ w else z.
Proof.
  intros. unfold wrap. destruct (Z.ltb_spec z 0); [|apply Z.mod_small; lia].
  symmetry. apply Z.mod_unique with (q := -1); lia.
Qed.

Lemma nz_land_pow2 z n : 0 <= n -> nz (Z.land z (2 ^ n)) = Z.testbit z n.
Proof.
  intros Hn. unfold nz. destruct (Z.testbit z n) eqn:E.
  - apply negb_true_iff, Z.eqb_neq. intros H.
    apply (f_equal (fun x => Z.testbit x n)) in H.
    rewrite Z.land_spec, Z.pow2_bits_true, E, Z.testbit_0_l in H by lia. done.
  - apply negb_false_iff, Z.eqb_eq, Z.bits_inj'. intros m Hm.
    rewrite Z.land_spec, Z.testbit_0_l. destruct (decide (n = m)) as [->|].
    + by rewrite E.
    + by rewrite Z.pow2_bits_false, andb_false_r by lia.
Qed.

Lemma testbit_ldiff_pow2 z k n :
  0 <= k -> Z.testbit (Z.ldiff z (2 ^ k)) n = Z.testbit z n && negb (n =? k).
Proof. intros. by rewrite Z.ldiff_spec, Z.pow2_bits_eqb, Z.eqb_sym by lia. Qed.

Lemma testbit_b2z_shiftl b k n :
  0 <= k -> Z.testbit (Z.shiftl (Z.b2z b) k) n = b && (n =? k).
Proof.
  intros. rewrite Z.shiftl_mul_pow2 by lia. destruct b; cbn [Z.b2z].
  - by rewrite Z.mul_1_l, Z.pow2_bits_eqb, Z.eqb_sym by lia.
  - by rewrite Z.mul_0_l, Z.testbit_0_l.
Qed.

(** Bitwise operations stay in range. *)
Lemma bits_range w z :
  0 <= w -> 0 <= z -> (forall n, w <= n -> Z.testbit z n = false) -> 0 <= z < 2 ^ w.
Proof.
  intros Hw Hz H. assert (wrap w z = z) as <-; [|by apply wrap_range].
  apply Z.bits_inj'. intros n Hn. rewrite testbit_wrap by done.
  destruct (Z.ltb_spec n w); [done|]. by rewrite H.
Qed.
Lemma land_range w a b : 0 <= a < 2 ^ w -> 0 <= b -> 0 <= Z.land a b < 2 ^ w.
Proof.
  intros Ha Hb. destruct (decide (0 <= w)); [|rewrite Z.pow_neg_r in Ha; lia].
  apply bits_range; [done|apply Z.land_nonneg; lia|]. intros n Hn.
  by rewrite Z.land_spec, (testbit_above w a) by lia.
Qed.
Lemma lor_range w a b : 0 <= a < 2 ^ w -> 0 <= b < 2 ^ w -> 0 <= Z.lor a b < 2 ^ w.
Proof.
  intros Ha Hb. destruct (decide (0 <= w)); [|rewrite Z.pow_neg_r in Ha; lia].
  apply bits_range; [done|apply Z.lor_nonneg; lia|]. intros n Hn.
  by rewrite Z.lor_spec, (testbit_above w a), (testbit_above w b) by lia.
Qed.
Lemma lxor_range w a b : 0 <= a < 2 ^ w -> 0 <= b < 2 ^ w -> 0 <= Z.lxor a b < 2 ^ w.
Proof.
  intros Ha Hb. destruct (decide (0 <= w)); [|rewrite Z.pow_neg_r in Ha; lia].
  apply bits_range; [done|apply Z.lxor_nonneg; lia|]. intros n Hn.
  by rewrite Z.lxor_spec, (testbit_above w a), (testbit_above w b) by lia.
Qed.
Lemma wrap_lnot w a : 0 <= w -> 0 <= a < 2 ^ w -> wrap w (Z.lnot a) = 2 ^ w - 1 - a.
Proof.
  intros. unfold Z.lnot. unfold wrap. symmetry. apply Z.mod_unique with (q := -1); lia.
Qed.

(** A bool-valued word. *)
Lemma b2z_nz v : 0 <= v <= 1 -> Z.b2z (nz v) = v.
Proof. intros. assert (v = 0 \/ v = 1) as [-> | ->] by lia; done. Qed.
Lemma nz_b2z b : nz (Z.b2z b) = b.
Proof. by destruct b. Qed.
Lemma b2z_range b : 0 <= Z.b2z b <= 1.
Proof. destruct b; cbn; lia. Qed.

(** The carry into bit [n] of a sum. *)
Lemma testbit_add_carry a b c n :
  0 <= n -> 0 <= c <= 1 ->
  Z.testbit (a + b + c) n =
    xorb (xorb (Z.testbit a n) (Z.testbit b n)) (2 ^ n <=? a mod 2 ^ n + b mod 2 ^ n + c).
Proof.
  intros Hn Hc. rewrite !Z.testbit_odd, !Z.shiftr_div_pow2 by lia.
  pose proof (Z.mod_pos_bound a (2 ^ n)). pose proof (Z.mod_pos_bound b (2 ^ n)).
  assert ((a + b + c) / 2 ^ n =
    a / 2 ^ n + b / 2 ^ n + (a mod 2 ^ n + b mod 2 ^ n + c) / 2 ^ n) as ->.
  { rewrite (Z.div_mod a (2 ^ n)) at 1 by lia. rewrite (Z.div_mod b (2 ^ n)) at 1 by lia.
    rewrite <-Z.div_add_l by lia. f_equal. lia. }
  rewrite !Z.odd_add. f_equal.
  destruct (Z.leb_spec (2 ^ n) (a mod 2 ^ n + b mod 2 ^ n + c)).
  - replace ((a mod 2 ^ n + b mod 2 ^ n + c) / 2 ^ n) with 1; [done|].
    apply Z.div_unique with (r := a mod 2 ^ n + b mod 2 ^ n + c - 2 ^ n); lia.
  - by rewrite Z.div_small by lia.
Qed.

(** *** Fields of a word

    [field z lo len] is bits [lo .. lo + len - 1] of [z]; [zbits] proves that two
    words built from fields, shifts and masks are equal, bit by bit. *)
Definition field (z lo len : Z) : Z := z / 2 ^ lo mod 2 ^ len.

Lemma field_range z lo len : 0 <= len -> 0 <= field z lo len < 2 ^ len.
Proof. intros. apply Z.mod_pos_bound. lia. Qed.
Lemma testbit_field z lo len n :
  0 <= lo -> 0 <= len -> 0 <= n -> Z.testbit (field z lo len) n = (n <? len) && Z.testbit z (n + lo).
Proof.
  intros. unfold field. change (z / 2 ^ lo mod 2 ^ len) with (wrap len (z / 2 ^ lo)).
  by rewrite testbit_wrap, <-Z.shiftr_div_pow2, Z.shiftr_spec by lia.
Qed.
Lemma field_bit z n : 0 <= n -> field z n 1 = Z.b2z (Z.testbit z n).
Proof. intros. rewrite Z.testbit_spec' by lia. reflexivity. Qed.

(** A contiguous mask. *)
Definition mask_bits (lo len : Z) : Z := Z.shiftl (Z.ones len) lo.
Lemma testbit_mask_bits lo len n :
  0 <= lo -> 0 <= len -> 0 <= n -> Z.testbit (mask_bits lo len) n = (lo <=? n) && (n <? lo + len).
Proof.
  intros. unfold mask_bits. destruct (Z.leb_spec lo n).
  - rewrite Z.shiftl_spec, Z.testbit_ones_nonneg by lia. cbn. apply eq_true_iff_eq.
    rewrite !Z.ltb_lt. lia.
  - rewrite Z.shiftl_spec_low by lia. done.
Qed.

Lemma testbit_concat h l k n :
  0 <= k -> 0 <= l < 2 ^ k -> 0 <= n ->
  Z.testbit (l + 2 ^ k * h) n = if n <? k then Z.testbit l n else Z.testbit h (n - k).
Proof.
  intros Hk Hl Hn. replace (l + 2 ^ k * h) with (Z.lor l (Z.shiftl h k)).
  - rewrite Z.lor_spec. destruct (Z.ltb_spec n k).
    + by rewrite Z.shiftl_spec_low, orb_false_r by lia.
    + by rewrite Z.shiftl_spec, (testbit_above k l) by lia.
  - rewrite Z.shiftl_mul_pow2 by lia. rewrite (Z.mul_comm h). symmetry.
    rewrite <-Z.lxor_lor, Z.add_nocarry_lxor.
    1: done.
    all: apply Z.bits_inj'; intros m Hm; rewrite Z.land_spec, Z.testbit_0_l;
      rewrite (Z.mul_comm _ h), <-Z.shiftl_mul_pow2 by lia;
      (destruct (Z.ltb_spec m k); [by rewrite Z.shiftl_spec_low, andb_false_r by lia
                                  |by rewrite (testbit_above k l) by lia]).
Qed.

Ltac zbits_step :=
  match goal with
  | |- context [Z.testbit (Z.lor _ _) _] => rewrite Z.lor_spec
  | |- context [Z.testbit (Z.land _ _) _] => rewrite Z.land_spec
  | |- context [Z.testbit (Z.ldiff _ _) _] => rewrite Z.ldiff_spec
  | |- context [Z.testbit (Z.lxor _ _) _] => rewrite Z.lxor_spec
  | |- context [Z.testbit (mask_bits _ _) _] => rewrite testbit_mask_bits by lia
  | |- context [Z.testbit (field _ _ _) _] => rewrite testbit_field by lia
  | |- context [Z.testbit (wrap _ _) _] => rewrite testbit_wrap by lia
  | |- context [Z.testbit (Z.shiftr _ _) _] => rewrite Z.shiftr_spec by lia
  | |- context [Z.testbit (Z.shiftl _ _) _] => rewrite Z.shiftl_spec by lia
  | |- context [Z.testbit _ ?n] => is_neg_index n; rewrite (Z.testbit_neg_r _ n) by lia
  | |- context [Z.testbit _ (?a - ?b)] =>
      assert_fails (assert (0 <= a - b) by lia); destruct (Z.lt_ge_cases a b); [try (exfalso; lia)..]
  | |- context [?a <? ?b] => destruct (Z.ltb_spec a b); [try (exfalso; lia)..]
  | |- context [?a <=? ?b] => destruct (Z.leb_spec a b); [try (exfalso; lia)..]
  end
with is_neg_index n := assert_succeeds (assert (n < 0) by lia).
Ltac zbits_close :=
  repeat progress
    (cbn [andb orb negb xorb]; rewrite ?andb_true_r, ?andb_false_r, ?orb_false_r, ?orb_true_r);
  first [ reflexivity | exfalso; lia | (f_equal; lia)
        | (f_equal; first [reflexivity | f_equal; lia]) ].
Ltac zbits := apply Z.bits_inj'; intros ?n ?Hn; repeat zbits_step; zbits_close.

(** ** Effects

    An operation of the emulator runs on a state [S] and ends in one of three
    ways.  It returns a value; it calls [exception(vector, error_code)], which
    is declared [noreturn] and leaves the operation by [longjmp]; or the host
    process dies ([assert], [abort] or an access outside the memory the process
    has mapped). *)

Inductive outcome (S A : Type) : Type :=
  | Ret (a : A) (s : S)
  | Fault (vector error_code : Z) (s : S)
  | Crash.
Arguments Ret {S A} a s.
Arguments Fault {S A} vector error_code s.
Arguments Crash {S A}.

Definition M (S A : Type) : Type := S -> outcome S A.

#[export] Instance M_ret {S} : MRet (M S) := fun A a s => Ret a s.
#[export] Instance M_bind {S} : MBind (M S) := fun A B k m s =>
  match m s with
  | Ret a s' => k a s'
  | Fault v e s' => Fault v e s'
  | Crash => Crash
  end.

Definition gets {S A} (f : S -> A) : M S A := fun s => Ret (f s) s.
Definition modify {S} (f : S -> S) : M S unit := fun s => Ret tt (f s).
Definition raise {S A} (vector error_code : Z) : M S A := fun s => Fault vector error_code s.
Definition crash {S A} : M S A := fun _ => Crash.

(** [if (b) m] without an [else]. *)
Definition when {S} (b : bool) (m : M S unit) : M S unit := if b then m else mret tt.

(** The state map of an outcome. *)
Definition omap_state {S T A} (f : S -> T) (o : outcome S A) : outcome T A :=
  match o with
  | Ret a s => Ret a (f s)
  | Fault v e s => Fault v e (f s)
  | Crash => Crash
  end.

(** Weakest precondition: [Q] of a normal return, [E] of an exception, and no
    host crash. *)
Definition wp {S A} (m : M S A) (Q : A -> S -> Prop) (E : Z -> Z -> S -> Prop) (s : S) : Prop :=
  match m s with
  | Ret a s' => Q a s'
  | Fault v e s' => E v e s'
  | Crash => False
  end.

(** [I] holds in whatever state the operation leaves behind. *)
Definition preserves {S A} (I : S -> Prop) (m : M S A) : Prop :=
  forall s, I s ->
  match m s with
  | Ret _ s' | Fault _ _ s' => I s'
  | Crash => True
  end.

(** Every value the operation returns satisfies [P]. *)
Definition yields {S A} (m : M S A) (P : A -> Prop) : Prop :=
  forall s a s', m s = Ret a s' -> P a.

Create HintDb preserves discriminated.
#[export] Hint Constants Opaque : preserves.
Create HintDb yields discriminated.
#[export] Hint Constants Opaque : yields.

Lemma bind_Ret {S A B} (m : M S A) (k : A -> M S B) s a s' :
  m s = Ret a s' -> (m ≫= k) s = k a s'.
Proof. intros H. unfold mbind, M_bind. by rewrite H. Qed.

Lemma bind_Fault {S A B} (m : M S A) (k : A -> M S B) s v e s' :
  m s = Fault v e s' -> (m ≫= k) s = Fault v e s'.
Proof. intros H. unfold mbind, M_bind. by rewrite H. Qed.

Lemma bind_Crash {S A B} (m : M S A) (k : A -> M S B) s :
  m s = Crash -> (m ≫= k) s = Crash.
Proof. intros H. unfold mbind, M_bind. by rewrite H. Qed.

Lemma bind_gets {S A B} (f : S -> A) (k : A -> M S B) s : (gets f ≫= k) s = k (f s) s.
Proof. done. Qed.

Lemma bind_mret {S A B} (a : A) (k : A -> M S B) s : (mret a ≫= k) s = k a s.
Proof. done. Qed.

Lemma bind_modify {S B} (f : S -> S) (k : unit -> M S B) s : (modify f ≫= k) s = k tt (f s).
Proof. done. Qed.

Lemma Ret_inj {S A} (a a' : A) (s s' : S) : Ret a s = Ret a' s' -> a = a' /\ s = s'.
Proof. by intros [= -> ->]. Qed.

Lemma Fault_inj {S A} v v' e e' (s s' : S) :
  Fault (A := A) v e s = Fault v' e' s' -> v = v' /\ e = e' /\ s = s'.
Proof. by intros [= -> -> ->]. Qed.

Lemma wp_bind {S A B} (m : M S A) (k : A -> M S B) Q E s :
  wp (m ≫= k) Q E s <-> wp m (fun a s' => wp (k a) Q E s') E s.
Proof. unfold wp, mbind, M_bind. by destruct (m s). Qed.

Lemma wp_mono {S A} (m : M S A) (Q Q' : A -> S -> Prop) (E E' : Z -> Z -> S -> Prop) s :
  wp m Q E s -> (forall a s', Q a s' -> Q' a s') ->
  (forall v e s', E v e s' -> E' v e s') -> wp m Q' E' s.
Proof. unfold wp. intros H HQ HE. destruct (m s); auto. Qed.

Lemma preserves_ret {S A} (I : S -> Prop) (a : A) : preserves I (mret a).
Proof. by intros s Hs. Qed.

Lemma preserves_bind {S A B} (I : S -> Prop) (m : M S A) (k : A -> M S B) :
  preserves I m -> (forall a, preserves I (k a)) -> preserves I (m ≫= k).
Proof.
  intros Hm Hk s Hs. specialize (Hm s Hs). unfold mbind, M_bind.
  destruct (m s) as [a s'|v e s'|]; [|done|done]. by apply Hk.
Qed.

Lemma preserves_gets {S A} (I : S -> Prop) (f : S -> A) : preserves I (gets f).
Proof. by intros s Hs. Qed.

Lemma preserves_modify {S} (I : S -> Prop) (f : S -> S) :
  (forall s, I s -> I (f s)) -> preserves I (modify f).
Proof. intros Hf s Hs. by apply Hf. Qed.

Lemma preserves_raise {S A} (I : S -> Prop) v e : preserves I (raise (A := A) v e).
Proof. by intros s Hs. Qed.

Lemma preserves_crash {S A} (I : S -> Prop) : preserves I (crash (A := A)).
Proof. by intros s Hs. Qed.

Lemma preserves_when {S} (I : S -> Prop) b m : preserves I m -> preserves I (when b m).
Proof. intros. destruct b; [done|apply preserves_ret]. Qed.

Lemma preserves_if {S A} (I : S -> Prop) (b : bool) (m1 m2 : M S A) :
  preserves I m1 -> preserves I m2 -> preserves I (if b then m1 else m2).
Proof. by destruct b. Qed.

#[export] Hint Resolve preserves_ret preserves_gets preserves_raise preserves_crash
  preserves_when preserves_if : preserves.

(** Walk through the binds of an operation, closing the leaves with the lemmas
    of the [preserves] database. *)
Ltac preserves_step :=
  match goal with
  | |- forall _, _ => intros ?
  | |- preserves _ (mbind _ _) => apply preserves_bind
  | |- preserves _ (let _ := _ in _) => cbv zeta
  | |- preserves _ (match ?x with _ => _ end) => destruct x
  | |- preserves _ (when _ _) => apply preserves_when
  | |- preserves _ _ => solve [eauto with preserves]
  end.
Ltac preserves_tac := repeat preserves_step.

Lemma yields_ret {S A} (a : A) (P : A -> Prop) : P a -> yields (S := S) (mret a) P.
Proof. by intros H s b s' [= <- <-]. Qed.

Lemma yields_bind {S A B} (m : M S A) (k : A -> M S B) (P : B -> Prop) :
  (forall a, yields (k a) P) -> yields (m ≫= k) P.
Proof.
  intros Hk s b s' H. unfold mbind, M_bind in H.
  destruct (m s) as [a s1|v e s1|] eqn:E; [|done|done]. by eapply Hk.
Qed.

Lemma yields_bind_with {S A B} (m : M S A) (k : A -> M S B) (Q : A -> Prop) (P : B -> Prop) :
  yields m Q -> (forall a, Q a -> yields (k a) P) -> yields (m ≫= k) P.
Proof.
  intros Hm Hk s b s' H. unfold mbind, M_bind in H.
  destruct (m s) as [a s1|v e s1|] eqn:E; [|done|done]. eapply Hk; [by eapply Hm|done].
Qed.

Lemma yields_gets {S A} (f : S -> A) (P : A -> Prop) : (forall s, P (f s)) -> yields (gets f) P.
Proof. by intros H s b s' [= <- <-]. Qed.

Lemma yields_raise {S A} v e (P : A -> Prop) : yields (S := S) (raise v e) P.
Proof. done. Qed.
Lemma yields_crash {S A} (P : A -> Prop) : yields (S := S) crash P.
Proof. done. Qed.
Lemma yields_if {S A} (b : bool) (m1 m2 : M S A) P :
  yields m1 P -> yields m2 P -> yields (if b then m1 else m2) P.
Proof. by destruct b. Qed.
Lemma yields_mono {S A} (m : M S A) (P Q : A -> Prop) :
  yields m P -> (forall a, P a -> Q a) -> yields m Q.
Proof. intros Hm HPQ s a s' H. apply HPQ. by eapply Hm. Qed.

#[export] Hint Resolve yields_raise yields_crash yields_if : yields.

Ltac yields_step :=
  match goal with
  | |- forall _, _ => intros ?
  | |- yields (mbind _ _) _ => apply yields_bind
  | |- yields (let _ := _ in _) _ => cbv zeta
  | |- yields (match ?x with _ => _ end) _ => destruct x
  | |- yields _ _ => solve [eauto with yields]
  end.
Ltac yields_tac := repeat yields_step.
