(* ===== verification/Opcodes.v ===== *)
(** * Opcodes: the instructions the decoder knows

    The enumeration that cpu/instr.h makes of cpu/ia_opcodes.h (the entries the
    configuration compiles). *)

Inductive bx_ia_opcode : Set :=
  | BX_IA_ERROR | BX_IA_AAA | BX_IA_AAD | BX_IA_AAM | BX_IA_AAS | BX_IA_DAA | BX_IA_DAS | BX_IA_ADC_ALIb
  | BX_IA_ADC_AXIw | BX_IA_ADC_EAXId | BX_IA_ADC_EbGbM | BX_IA_ADC_EbIbM | BX_IA_ADC_EbIbR | BX_IA_ADC_EdGdM
  | BX_IA_ADC_EdIdM | BX_IA_ADC_EdIdR | BX_IA_ADC_EwGwM | BX_IA_ADC_EwIwM | BX_IA_ADC_EwIwR | BX_IA_ADC_GbEbM
  | BX_IA_ADC_GbEbR | BX_IA_ADC_GdEdM | BX_IA_ADC_GdEdR | BX_IA_ADC_GwEwM | BX_IA_ADC_GwEwR | BX_IA_ADD_ALIb
  | BX_IA_ADD_AXIw | BX_IA_ADD_EAXId | BX_IA_ADD_EbGbM | BX_IA_ADD_EbIbM | BX_IA_ADD_EbIbR | BX_IA_ADD_EdGdM
  | BX_IA_ADD_EdIdM | BX_IA_ADD_EdIdR | BX_IA_ADD_EwGwM | BX_IA_ADD_EwIwM | BX_IA_ADD_EwIwR | BX_IA_ADD_GbEbM
  | BX_IA_ADD_GbEbR | BX_IA_ADD_GdEdM | BX_IA_ADD_GdEdR | BX_IA_ADD_GwEwM | BX_IA_ADD_GwEwR | BX_IA_AND_ALIb
  | BX_IA_AND_AXIw | BX_IA_AND_EAXId | BX_IA_AND_EbGbM | BX_IA_AND_EbIbM | BX_IA_AND_EbIbR | BX_IA_AND_EdGdM
  | BX_IA_AND_EdIdM | BX_IA_AND_EdIdR | BX_IA_AND_EwGwM | BX_IA_AND_EwIwM | BX_IA_AND_EwIwR | BX_IA_AND_GbEbM
  | BX_IA_AND_GbEbR | BX_IA_AND_GdEdM | BX_IA_AND_GdEdR | BX_IA_AND_GwEwM | BX_IA_AND_GwEwR | BX_IA_ARPL_EwGw
  | BX_IA_BOUND_GdMa | BX_IA_BOUND_GwMa | BX_IA_BSF_GdEdR | BX_IA_BSF_GdEdM | BX_IA_BSF_GwEwR | BX_IA_BSF_GwEwM
  | BX_IA_BSR_GdEdR | BX_IA_BSR_GdEdM | BX_IA_BSR_GwEwR | BX_IA_BSR_GwEwM | BX_IA_BT_EdGdM | BX_IA_BT_EdGdR
  | BX_IA_BT_EdIbM | BX_IA_BT_EdIbR | BX_IA_BT_EwGwM | BX_IA_BT_EwGwR | BX_IA_BT_EwIbM | BX_IA_BT_EwIbR
  | BX_IA_BTC_EdGdM | BX_IA_BTC_EdGdR | BX_IA_BTC_EdIbM | BX_IA_BTC_EdIbR | BX_IA_BTC_EwGwM | BX_IA_BTC_EwGwR
  | BX_IA_BTC_EwIbM | BX_IA_BTC_EwIbR | BX_IA_BTR_EdGdM | BX_IA_BTR_EdGdR | BX_IA_BTR_EdIbM | BX_IA_BTR_EdIbR
  | BX_IA_BTR_EwGwM | BX_IA_BTR_EwGwR | BX_IA_BTR_EwIbM | BX_IA_BTR_EwIbR | BX_IA_BTS_EdGdM | BX_IA_BTS_EdGdR
  | BX_IA_BTS_EdIbM | BX_IA_BTS_EdIbR | BX_IA_BTS_EwGwM | BX_IA_BTS_EwGwR | BX_IA_BTS_EwIbM | BX_IA_BTS_EwIbR
  | BX_IA_CALL_EdM | BX_IA_CALL_EdR | BX_IA_CALL_EwM | BX_IA_CALL_EwR | BX_IA_CALL_Jd | BX_IA_CALL_Jw | BX_IA_CALL16_Ap
  | BX_IA_CALL16_Ep | BX_IA_CALL32_Ap | BX_IA_CALL32_Ep | BX_IA_CBW | BX_IA_CDQ | BX_IA_CLC | BX_IA_CLD
  | BX_IA_CLFLUSH | BX_IA_CLI | BX_IA_CLTS | BX_IA_CMC | BX_IA_CMP_ALIb | BX_IA_CMP_AXIw | BX_IA_CMP_EAXId
  | BX_IA_CMP_EbGbM | BX_IA_CMP_EbIbM | BX_IA_CMP_EbIbR | BX_IA_CMP_EdGdM | BX_IA_CMP_EdIdM | BX_IA_CMP_EdIdR
  | BX_IA_CMP_EwGwM | BX_IA_CMP_EwIwM | BX_IA_CMP_EwIwR | BX_IA_CMP_GbEbM | BX_IA_CMP_GbEbR | BX_IA_CMP_GdEdM
  | BX_IA_CMP_GdEdR | BX_IA_CMP_GwEwM | BX_IA_CMP_GwEwR | BX_IA_CMPXCHG_IBTS | BX_IA_CMPXCHG_XBTS | BX_IA_CWD
  | BX_IA_CWDE | BX_IA_DEC_EbM | BX_IA_DEC_EbR | BX_IA_DEC_EdR | BX_IA_DEC_EdM | BX_IA_DEC_ERX | BX_IA_DEC_EwR
  | BX_IA_DEC_EwM | BX_IA_DEC_RX | BX_IA_DIV_ALEbR | BX_IA_DIV_ALEbM | BX_IA_DIV_AXEwR | BX_IA_DIV_AXEwM
  | BX_IA_DIV_EAXEdR | BX_IA_DIV_EAXEdM | BX_IA_ENTER16_IwIb | BX_IA_ENTER32_IwIb | BX_IA_HLT | BX_IA_IDIV_ALEbR
  | BX_IA_IDIV_ALEbM | BX_IA_IDIV_AXEwR | BX_IA_IDIV_AXEwM | BX_IA_IDIV_EAXEdR | BX_IA_IDIV_EAXEdM | BX_IA_IMUL_ALEbR
  | BX_IA_IMUL_ALEbM | BX_IA_IMUL_AXEwR | BX_IA_IMUL_AXEwM | BX_IA_IMUL_EAXEdR | BX_IA_IMUL_EAXEdM | BX_IA_IMUL_GdEdR
  | BX_IA_IMUL_GdEdM | BX_IA_IMUL_GdEdIdR | BX_IA_IMUL_GdEdIdM | BX_IA_IMUL_GwEwR | BX_IA_IMUL_GwEwM
  | BX_IA_IMUL_GwEwIwR | BX_IA_IMUL_GwEwIwM | BX_IA_IN_ALDX | BX_IA_IN_ALIb | BX_IA_IN_AXDX | BX_IA_IN_AXIb
  | BX_IA_IN_EAXDX | BX_IA_IN_EAXIb | BX_IA_INC_EbM | BX_IA_INC_EbR | BX_IA_INC_EdR | BX_IA_INC_EdM | BX_IA_INC_ERX
  | BX_IA_INC_EwR | BX_IA_INC_EwM | BX_IA_INC_RX | BX_IA_INT_Ib | BX_IA_INT1 | BX_IA_INT3 | BX_IA_INTO | BX_IA_IRET16
  | BX_IA_IRET32 | BX_IA_JB_Jd | BX_IA_JB_Jw | BX_IA_JBE_Jd | BX_IA_JBE_Jw | BX_IA_JCXZ_Jb | BX_IA_JECXZ_Jb
  | BX_IA_JL_Jd | BX_IA_JL_Jw | BX_IA_JLE_Jd | BX_IA_JLE_Jw | BX_IA_JMP_Ap | BX_IA_JMP_EdM | BX_IA_JMP_EdR
  | BX_IA_JMP_EwM | BX_IA_JMP_EwR | BX_IA_JMP_Jd | BX_IA_JMP_Jw | BX_IA_JMP16_Ep | BX_IA_JMP32_Ep | BX_IA_JNB_Jd
  | BX_IA_JNB_Jw | BX_IA_JNBE_Jd | BX_IA_JNBE_Jw | BX_IA_JNL_Jd | BX_IA_JNL_Jw | BX_IA_JNLE_Jd | BX_IA_JNLE_Jw
  | BX_IA_JNO_Jd | BX_IA_JNO_Jw | BX_IA_JNP_Jd | BX_IA_JNP_Jw | BX_IA_JNS_Jd | BX_IA_JNS_Jw | BX_IA_JNZ_Jd
  | BX_IA_JNZ_Jw | BX_IA_JO_Jd | BX_IA_JO_Jw | BX_IA_JP_Jd | BX_IA_JP_Jw | BX_IA_JS_Jd | BX_IA_JS_Jw | BX_IA_JZ_Jd
  | BX_IA_JZ_Jw | BX_IA_LAHF | BX_IA_LAR_GvEw | BX_IA_LDS_GdMp | BX_IA_LDS_GwMp | BX_IA_LEA_GdM | BX_IA_LEA_GwM
  | BX_IA_LEAVE16 | BX_IA_LEAVE32 | BX_IA_LES_GdMp | BX_IA_LES_GwMp | BX_IA_LFS_GdMp | BX_IA_LFS_GwMp | BX_IA_LGDT_Ms
  | BX_IA_LGS_GdMp | BX_IA_LGS_GwMp | BX_IA_LIDT_Ms | BX_IA_LLDT_Ew | BX_IA_LMSW_Ew | BX_IA_LOOP16_Jb | BX_IA_LOOPE16_Jb
  | BX_IA_LOOPNE16_Jb | BX_IA_LOOP32_Jb | BX_IA_LOOPE32_Jb | BX_IA_LOOPNE32_Jb | BX_IA_LSL_GvEw | BX_IA_LSS_GdMp
  | BX_IA_LSS_GwMp | BX_IA_LTR_Ew | BX_IA_MOV_ALOd | BX_IA_MOV_AXOd | BX_IA_MOV_CdRd | BX_IA_MOV_DdRd | BX_IA_MOV_EAXOd
  | BX_IA_MOV_EbGbM | BX_IA_MOV_EbIbM | BX_IA_MOV_EbIbR | BX_IA_MOV_EdIdM | BX_IA_MOV_EdIdR | BX_IA_MOV_ERXId
  | BX_IA_MOV_EwGwM | BX_IA_MOV_EwIwM | BX_IA_MOV_EwIwR | BX_IA_MOV_EwSwM | BX_IA_MOV_EwSwR | BX_IA_MOV_GbEbM
  | BX_IA_MOV_GbEbR | BX_IA_MOV32_EdGdM | BX_IA_MOV32_GdEdM | BX_IA_MOV_GdEdR | BX_IA_MOV_GwEwM | BX_IA_MOV_GwEwR
  | BX_IA_MOV_OdAL | BX_IA_MOV_OdAX | BX_IA_MOV_OdEAX | BX_IA_MOV_RdCd | BX_IA_MOV_RdDd | BX_IA_MOV_RdTd
  | BX_IA_MOV_RHIb | BX_IA_MOV_RLIb | BX_IA_MOV_RXIw | BX_IA_MOV_SwEw | BX_IA_MOV_TdRd | BX_IA_MOVSX_GdEbM
  | BX_IA_MOVSX_GdEbR | BX_IA_MOVSX_GdEwM | BX_IA_MOVSX_GdEwR | BX_IA_MOVSX_GwEbM | BX_IA_MOVSX_GwEbR
  | BX_IA_MOVZX_GdEbM | BX_IA_MOVZX_GdEbR | BX_IA_MOVZX_GdEwM | BX_IA_MOVZX_GdEwR | BX_IA_MOVZX_GwEbM
  | BX_IA_MOVZX_GwEbR | BX_IA_MUL_ALEbR | BX_IA_MUL_ALEbM | BX_IA_MUL_AXEwR | BX_IA_MUL_AXEwM | BX_IA_MUL_EAXEdR
  | BX_IA_MUL_EAXEdM | BX_IA_NEG_EbM | BX_IA_NEG_EbR | BX_IA_NEG_EdM | BX_IA_NEG_EdR | BX_IA_NEG_EwM | BX_IA_NEG_EwR
  | BX_IA_NOP | BX_IA_PAUSE | BX_IA_NOT_EbM | BX_IA_NOT_EbR | BX_IA_NOT_EdM | BX_IA_NOT_EdR | BX_IA_NOT_EwM
  | BX_IA_NOT_EwR | BX_IA_OR_ALIb | BX_IA_OR_AXIw | BX_IA_OR_EAXId | BX_IA_OR_EbGbM | BX_IA_OR_EbIbM | BX_IA_OR_EbIbR
  | BX_IA_OR_EdGdM | BX_IA_OR_EdIdM | BX_IA_OR_EdIdR | BX_IA_OR_EwGwM | BX_IA_OR_EwIwM | BX_IA_OR_EwIwR | BX_IA_OR_GbEbM
  | BX_IA_OR_GbEbR | BX_IA_OR_GdEdM | BX_IA_OR_GdEdR | BX_IA_OR_GwEwM | BX_IA_OR_GwEwR | BX_IA_OUT_DXAL
  | BX_IA_OUT_DXAX | BX_IA_OUT_DXEAX | BX_IA_OUT_IbAL | BX_IA_OUT_IbAX | BX_IA_OUT_IbEAX | BX_IA_POP_EdM | BX_IA_POP_EdR
  | BX_IA_POP_ERX | BX_IA_POP_EwM | BX_IA_POP_EwR | BX_IA_POP_RX | BX_IA_POP16_DS | BX_IA_POP16_ES | BX_IA_POP16_FS
  | BX_IA_POP16_GS | BX_IA_POP16_SS | BX_IA_POP32_DS | BX_IA_POP32_ES | BX_IA_POP32_FS | BX_IA_POP32_GS | BX_IA_POP32_SS
  | BX_IA_POPAD16 | BX_IA_POPAD32 | BX_IA_POPF_Fd | BX_IA_POPF_Fw | BX_IA_PUSH_EdM | BX_IA_PUSH_EdR | BX_IA_PUSH_ERX
  | BX_IA_PUSH_EwM | BX_IA_PUSH_EwR | BX_IA_PUSH_Id | BX_IA_PUSH_Iw | BX_IA_PUSH_RX | BX_IA_PUSH16_CS | BX_IA_PUSH16_DS
  | BX_IA_PUSH16_ES | BX_IA_PUSH16_FS | BX_IA_PUSH16_GS | BX_IA_PUSH16_SS | BX_IA_PUSH32_CS | BX_IA_PUSH32_DS
  | BX_IA_PUSH32_ES | BX_IA_PUSH32_FS | BX_IA_PUSH32_GS | BX_IA_PUSH32_SS | BX_IA_PUSHAD16 | BX_IA_PUSHAD32
  | BX_IA_PUSHF_Fd | BX_IA_PUSHF_Fw | BX_IA_RCL_Eb | BX_IA_RCL_Ew | BX_IA_RCR_Eb | BX_IA_RCR_Ew | BX_IA_REP_CMPSB_XbYb
  | BX_IA_REP_CMPSD_XdYd | BX_IA_REP_CMPSW_XwYw | BX_IA_REP_INSB_YbDX | BX_IA_REP_INSD_YdDX | BX_IA_REP_INSW_YwDX
  | BX_IA_REP_LODSB_ALXb | BX_IA_REP_LODSD_EAXXd | BX_IA_REP_LODSW_AXXw | BX_IA_REP_MOVSB_XbYb | BX_IA_REP_MOVSD_XdYd
  | BX_IA_REP_MOVSW_XwYw | BX_IA_REP_OUTSB_DXXb | BX_IA_REP_OUTSD_DXXd | BX_IA_REP_OUTSW_DXXw | BX_IA_REP_SCASB_ALXb
  | BX_IA_REP_SCASD_EAXXd | BX_IA_REP_SCASW_AXXw | BX_IA_REP_STOSB_YbAL | BX_IA_REP_STOSD_YdEAX | BX_IA_REP_STOSW_YwAX
  | BX_IA_RETfar16 | BX_IA_RETfar16_Iw | BX_IA_RETfar32 | BX_IA_RETfar32_Iw | BX_IA_RETnear16 | BX_IA_RETnear16_Iw
  | BX_IA_RETnear32 | BX_IA_RETnear32_Iw | BX_IA_ROL_Eb | BX_IA_ROL_Ew | BX_IA_ROR_Eb | BX_IA_ROR_Ew | BX_IA_RCR_EdM
  | BX_IA_RCL_EdM | BX_IA_ROL_EdM | BX_IA_ROR_EdM | BX_IA_SAR_EdM | BX_IA_SHL_EdM | BX_IA_SHR_EdM | BX_IA_RCR_EdR
  | BX_IA_RCL_EdR | BX_IA_ROL_EdR | BX_IA_ROR_EdR | BX_IA_SAR_EdR | BX_IA_SHL_EdR | BX_IA_SHR_EdR | BX_IA_RSM
  | BX_IA_SAHF | BX_IA_SALC | BX_IA_SAR_Eb | BX_IA_SAR_Ew | BX_IA_SBB_ALIb | BX_IA_SBB_AXIw | BX_IA_SBB_EAXId
  | BX_IA_SBB_EbGbM | BX_IA_SBB_EbIbM | BX_IA_SBB_EbIbR | BX_IA_SBB_EdGdM | BX_IA_SBB_EdIdM | BX_IA_SBB_EdIdR
  | BX_IA_SBB_EwGwM | BX_IA_SBB_EwIwM | BX_IA_SBB_EwIwR | BX_IA_SBB_GbEbM | BX_IA_SBB_GbEbR | BX_IA_SBB_GdEdM
  | BX_IA_SBB_GdEdR | BX_IA_SBB_GwEwM | BX_IA_SBB_GwEwR | BX_IA_SETB_EbM | BX_IA_SETB_EbR | BX_IA_SETBE_EbM
  | BX_IA_SETBE_EbR | BX_IA_SETL_EbM | BX_IA_SETL_EbR | BX_IA_SETLE_EbM | BX_IA_SETLE_EbR | BX_IA_SETNB_EbM
  | BX_IA_SETNB_EbR | BX_IA_SETNBE_EbM | BX_IA_SETNBE_EbR | BX_IA_SETNL_EbM | BX_IA_SETNL_EbR | BX_IA_SETNLE_EbM
  | BX_IA_SETNLE_EbR | BX_IA_SETNO_EbM | BX_IA_SETNO_EbR | BX_IA_SETNP_EbM | BX_IA_SETNP_EbR | BX_IA_SETNS_EbM
  | BX_IA_SETNS_EbR | BX_IA_SETNZ_EbM | BX_IA_SETNZ_EbR | BX_IA_SETO_EbM | BX_IA_SETO_EbR | BX_IA_SETP_EbM
  | BX_IA_SETP_EbR | BX_IA_SETS_EbM | BX_IA_SETS_EbR | BX_IA_SETZ_EbM | BX_IA_SETZ_EbR | BX_IA_SGDT_Ms | BX_IA_SHL_Eb
  | BX_IA_SHL_Ew | BX_IA_SHLD_EdGdR | BX_IA_SHLD_EdGdM | BX_IA_SHLD_EwGwR | BX_IA_SHLD_EwGwM | BX_IA_SHR_Eb
  | BX_IA_SHR_Ew | BX_IA_SHRD_EdGdR | BX_IA_SHRD_EdGdM | BX_IA_SHRD_EwGwR | BX_IA_SHRD_EwGwM | BX_IA_SIDT_Ms
  | BX_IA_SLDT_Ew | BX_IA_SMSW_EwR | BX_IA_SMSW_EwM | BX_IA_STC | BX_IA_STD | BX_IA_STI | BX_IA_STR_Ew | BX_IA_SUB_ALIb
  | BX_IA_SUB_AXIw | BX_IA_SUB_EAXId | BX_IA_SUB_EbGbM | BX_IA_SUB_EbIbM | BX_IA_SUB_EbIbR | BX_IA_SUB_EdGdM
  | BX_IA_SUB_EdIdM | BX_IA_SUB_EdIdR | BX_IA_SUB_EwGwM | BX_IA_SUB_EwIwM | BX_IA_SUB_EwIwR | BX_IA_SUB_GbEbM
  | BX_IA_SUB_GbEbR | BX_IA_SUB_GdEdM | BX_IA_SUB_GdEdR | BX_IA_SUB_GwEwM | BX_IA_SUB_GwEwR | BX_IA_SYSENTER
  | BX_IA_SYSEXIT | BX_IA_TEST_ALIb | BX_IA_TEST_AXIw | BX_IA_TEST_EAXId | BX_IA_TEST_EbGbM | BX_IA_TEST_EbGbR
  | BX_IA_TEST_EbIbM | BX_IA_TEST_EbIbR | BX_IA_TEST_EdGdM | BX_IA_TEST_EdGdR | BX_IA_TEST_EdIdM | BX_IA_TEST_EdIdR
  | BX_IA_TEST_EwGwM | BX_IA_TEST_EwGwR | BX_IA_TEST_EwIwM | BX_IA_TEST_EwIwR | BX_IA_VERR_Ew | BX_IA_VERW_Ew
  | BX_IA_XCHG_EbGbM | BX_IA_XCHG_EbGbR | BX_IA_XCHG_EdGdM | BX_IA_XCHG_EdGdR | BX_IA_XCHG_ERXEAX | BX_IA_XCHG_EwGwM
  | BX_IA_XCHG_EwGwR | BX_IA_XCHG_RXAX | BX_IA_XLAT | BX_IA_XOR_ALIb | BX_IA_XOR_AXIw | BX_IA_XOR_EAXId
  | BX_IA_XOR_EbGbM | BX_IA_XOR_EbIbM | BX_IA_XOR_EbIbR | BX_IA_XOR_EdGdM | BX_IA_XOR_EdIdM | BX_IA_XOR_EdIdR
  | BX_IA_XOR_EwGwM | BX_IA_XOR_EwIwM | BX_IA_XOR_EwIwR | BX_IA_XOR_GbEbM | BX_IA_XOR_GbEbR | BX_IA_XOR_GdEdM
  | BX_IA_XOR_GdEdR | BX_IA_XOR_GwEwM | BX_IA_XOR_GwEwR | BX_IA_MONITOR | BX_IA_MWAIT | BX_IA_FWAIT | BX_IA_FLD_STi
  | BX_IA_FLD_SINGLE_REAL | BX_IA_FLD_DOUBLE_REAL | BX_IA_FLD_EXTENDED_REAL | BX_IA_FILD_WORD_INTEGER
  | BX_IA_FILD_DWORD_INTEGER | BX_IA_FILD_QWORD_INTEGER | BX_IA_FBLD_PACKED_BCD | BX_IA_FST_STi | BX_IA_FSTP_STi
  | BX_IA_FST_SINGLE_REAL | BX_IA_FSTP_SINGLE_REAL | BX_IA_FST_DOUBLE_REAL | BX_IA_FSTP_DOUBLE_REAL
  | BX_IA_FSTP_EXTENDED_REAL | BX_IA_FIST_WORD_INTEGER | BX_IA_FISTP_WORD_INTEGER | BX_IA_FIST_DWORD_INTEGER
  | BX_IA_FISTP_DWORD_INTEGER | BX_IA_FISTP_QWORD_INTEGER | BX_IA_FBSTP_PACKED_BCD | BX_IA_FISTTP16 | BX_IA_FISTTP32
  | BX_IA_FISTTP64 | BX_IA_FNINIT | BX_IA_FNCLEX | BX_IA_FRSTOR | BX_IA_FNSAVE | BX_IA_FLDENV | BX_IA_FNSTENV
  | BX_IA_FLDCW | BX_IA_FNSTCW | BX_IA_FNSTSW | BX_IA_FNSTSW_AX | BX_IA_FLD1 | BX_IA_FLDL2T | BX_IA_FLDL2E | BX_IA_FLDPI
  | BX_IA_FLDLG2 | BX_IA_FLDLN2 | BX_IA_FLDZ | BX_IA_FADD_ST0_STj | BX_IA_FADD_STi_ST0 | BX_IA_FADD_SINGLE_REAL
  | BX_IA_FADD_DOUBLE_REAL | BX_IA_FIADD_WORD_INTEGER | BX_IA_FIADD_DWORD_INTEGER | BX_IA_FMUL_ST0_STj
  | BX_IA_FMUL_STi_ST0 | BX_IA_FMUL_SINGLE_REAL | BX_IA_FMUL_DOUBLE_REAL | BX_IA_FIMUL_WORD_INTEGER
  | BX_IA_FIMUL_DWORD_INTEGER | BX_IA_FSUB_ST0_STj | BX_IA_FSUBR_ST0_STj | BX_IA_FSUB_STi_ST0 | BX_IA_FSUBR_STi_ST0
  | BX_IA_FSUB_SINGLE_REAL | BX_IA_FSUBR_SINGLE_REAL | BX_IA_FSUB_DOUBLE_REAL | BX_IA_FSUBR_DOUBLE_REAL
  | BX_IA_FISUB_WORD_INTEGER | BX_IA_FISUBR_WORD_INTEGER | BX_IA_FISUB_DWORD_INTEGER | BX_IA_FISUBR_DWORD_INTEGER
  | BX_IA_FDIV_ST0_STj | BX_IA_FDIVR_ST0_STj | BX_IA_FDIV_STi_ST0 | BX_IA_FDIVR_STi_ST0 | BX_IA_FDIV_SINGLE_REAL
  | BX_IA_FDIVR_SINGLE_REAL | BX_IA_FDIV_DOUBLE_REAL | BX_IA_FDIVR_DOUBLE_REAL | BX_IA_FIDIV_WORD_INTEGER
  | BX_IA_FIDIVR_WORD_INTEGER | BX_IA_FIDIV_DWORD_INTEGER | BX_IA_FIDIVR_DWORD_INTEGER | BX_IA_FCOM_STi
  | BX_IA_FCOMP_STi | BX_IA_FUCOM_STi | BX_IA_FUCOMP_STi | BX_IA_FCOMI_ST0_STj | BX_IA_FCOMIP_ST0_STj
  | BX_IA_FUCOMI_ST0_STj | BX_IA_FUCOMIP_ST0_STj | BX_IA_FCOM_SINGLE_REAL | BX_IA_FCOMP_SINGLE_REAL
  | BX_IA_FCOM_DOUBLE_REAL | BX_IA_FCOMP_DOUBLE_REAL | BX_IA_FICOM_WORD_INTEGER | BX_IA_FICOMP_WORD_INTEGER
  | BX_IA_FICOM_DWORD_INTEGER | BX_IA_FICOMP_DWORD_INTEGER | BX_IA_FCMOV_ST0_STj | BX_IA_FCOMPP | BX_IA_FUCOMPP
  | BX_IA_FXCH_STi | BX_IA_FNOP | BX_IA_FPLEGACY | BX_IA_FCHS | BX_IA_FABS | BX_IA_FTST | BX_IA_FXAM | BX_IA_FDECSTP
  | BX_IA_FINCSTP | BX_IA_FFREE_STi | BX_IA_FFREEP_STi | BX_IA_F2XM1 | BX_IA_FYL2X | BX_IA_FPTAN | BX_IA_FPATAN
  | BX_IA_FXTRACT | BX_IA_FPREM1 | BX_IA_FPREM | BX_IA_FYL2XP1 | BX_IA_FSQRT | BX_IA_FSINCOS | BX_IA_FRNDINT
  | BX_IA_FSCALE | BX_IA_FSIN | BX_IA_FCOS | BX_IA_CPUID | BX_IA_BSWAP_RX | BX_IA_BSWAP_ERX | BX_IA_INVD | BX_IA_WBINVD
  | BX_IA_XADD_EbGbM | BX_IA_XADD_EbGbR | BX_IA_XADD_EdGdM | BX_IA_XADD_EdGdR | BX_IA_XADD_EwGwM | BX_IA_XADD_EwGwR
  | BX_IA_CMPXCHG_EbGbM | BX_IA_CMPXCHG_EbGbR | BX_IA_CMPXCHG_EdGdM | BX_IA_CMPXCHG_EdGdR | BX_IA_CMPXCHG_EwGwM
  | BX_IA_CMPXCHG_EwGwR | BX_IA_INVLPG | BX_IA_CMPXCHG8B | BX_IA_WRMSR | BX_IA_RDMSR | BX_IA_RDTSC
  | BX_IA_PUNPCKLBW_PqQd | BX_IA_PUNPCKLWD_PqQd | BX_IA_PUNPCKLDQ_PqQd | BX_IA_PACKSSWB_PqQq | BX_IA_PCMPGTB_PqQq
  | BX_IA_PCMPGTW_PqQq | BX_IA_PCMPGTD_PqQq | BX_IA_PACKUSWB_PqQq | BX_IA_PUNPCKHBW_PqQq | BX_IA_PUNPCKHWD_PqQq
  | BX_IA_PUNPCKHDQ_PqQq | BX_IA_PACKSSDW_PqQq | BX_IA_MOVD_PqEdR | BX_IA_MOVD_PqEdM | BX_IA_MOVQ_PqQqR
  | BX_IA_MOVQ_PqQqM | BX_IA_PCMPEQB_PqQq | BX_IA_PCMPEQW_PqQq | BX_IA_PCMPEQD_PqQq | BX_IA_EMMS | BX_IA_MOVD_EdPdR
  | BX_IA_MOVD_EdPdM | BX_IA_MOVQ_QqPqR | BX_IA_MOVQ_QqPqM | BX_IA_PSRLW_PqQq | BX_IA_PSRLD_PqQq | BX_IA_PSRLQ_PqQq
  | BX_IA_PMULLW_PqQq | BX_IA_PSUBUSB_PqQq | BX_IA_PSUBUSW_PqQq | BX_IA_PAND_PqQq | BX_IA_PADDUSB_PqQq
  | BX_IA_PADDUSW_PqQq | BX_IA_PANDN_PqQq | BX_IA_PSRAW_PqQq | BX_IA_PSRAD_PqQq | BX_IA_PMULHW_PqQq | BX_IA_PSUBSB_PqQq
  | BX_IA_PSUBSW_PqQq | BX_IA_POR_PqQq | BX_IA_PADDSB_PqQq | BX_IA_PADDSW_PqQq | BX_IA_PXOR_PqQq | BX_IA_PSLLW_PqQq
  | BX_IA_PSLLD_PqQq | BX_IA_PSLLQ_PqQq | BX_IA_PMADDWD_PqQq | BX_IA_PSUBB_PqQq | BX_IA_PSUBW_PqQq | BX_IA_PSUBD_PqQq
  | BX_IA_PADDB_PqQq | BX_IA_PADDW_PqQq | BX_IA_PADDD_PqQq | BX_IA_PSRLW_PqIb | BX_IA_PSRAW_PqIb | BX_IA_PSLLW_PqIb
  | BX_IA_PSRLD_PqIb | BX_IA_PSRAD_PqIb | BX_IA_PSLLD_PqIb | BX_IA_PSRLQ_PqIb | BX_IA_PSLLQ_PqIb | BX_IA_FEMMS
  | BX_IA_PREFETCHW | BX_IA_CMOVB_GdEdM | BX_IA_CMOVB_GdEdR | BX_IA_CMOVB_GwEwM | BX_IA_CMOVB_GwEwR | BX_IA_CMOVBE_GdEdM
  | BX_IA_CMOVBE_GdEdR | BX_IA_CMOVBE_GwEwM | BX_IA_CMOVBE_GwEwR | BX_IA_CMOVL_GdEdM | BX_IA_CMOVL_GdEdR
  | BX_IA_CMOVL_GwEwM | BX_IA_CMOVL_GwEwR | BX_IA_CMOVLE_GdEdM | BX_IA_CMOVLE_GdEdR | BX_IA_CMOVLE_GwEwM
  | BX_IA_CMOVLE_GwEwR | BX_IA_CMOVNB_GdEdM | BX_IA_CMOVNB_GdEdR | BX_IA_CMOVNB_GwEwM | BX_IA_CMOVNB_GwEwR
  | BX_IA_CMOVNBE_GdEdM | BX_IA_CMOVNBE_GdEdR | BX_IA_CMOVNBE_GwEwM | BX_IA_CMOVNBE_GwEwR | BX_IA_CMOVNL_GdEdM
  | BX_IA_CMOVNL_GdEdR | BX_IA_CMOVNL_GwEwM | BX_IA_CMOVNL_GwEwR | BX_IA_CMOVNLE_GdEdM | BX_IA_CMOVNLE_GdEdR
  | BX_IA_CMOVNLE_GwEwM | BX_IA_CMOVNLE_GwEwR | BX_IA_CMOVNO_GdEdM | BX_IA_CMOVNO_GdEdR | BX_IA_CMOVNO_GwEwM
  | BX_IA_CMOVNO_GwEwR | BX_IA_CMOVNP_GdEdM | BX_IA_CMOVNP_GdEdR | BX_IA_CMOVNP_GwEwM | BX_IA_CMOVNP_GwEwR
  | BX_IA_CMOVNS_GdEdM | BX_IA_CMOVNS_GdEdR | BX_IA_CMOVNS_GwEwM | BX_IA_CMOVNS_GwEwR | BX_IA_CMOVNZ_GdEdM
  | BX_IA_CMOVNZ_GdEdR | BX_IA_CMOVNZ_GwEwM | BX_IA_CMOVNZ_GwEwR | BX_IA_CMOVO_GdEdM | BX_IA_CMOVO_GdEdR
  | BX_IA_CMOVO_GwEwM | BX_IA_CMOVO_GwEwR | BX_IA_CMOVP_GdEdM | BX_IA_CMOVP_GdEdR | BX_IA_CMOVP_GwEwM
  | BX_IA_CMOVP_GwEwR | BX_IA_CMOVS_GdEdM | BX_IA_CMOVS_GdEdR | BX_IA_CMOVS_GwEwM | BX_IA_CMOVS_GwEwR
  | BX_IA_CMOVZ_GdEdM | BX_IA_CMOVZ_GdEdR | BX_IA_CMOVZ_GwEwM | BX_IA_CMOVZ_GwEwR | BX_IA_RDPMC | BX_IA_UD2A
  | BX_IA_UD2B | BX_IA_FXSAVE | BX_IA_FXRSTOR | BX_IA_LDMXCSR | BX_IA_STMXCSR | BX_IA_PREFETCH | BX_IA_ANDPS_VpsWps
  | BX_IA_ORPS_VpsWps | BX_IA_XORPS_VpsWps | BX_IA_ANDNPS_VpsWps | BX_IA_MOVUPS_VpsWpsR | BX_IA_MOVUPS_VpsWpsM
  | BX_IA_MOVUPS_WpsVpsR | BX_IA_MOVUPS_WpsVpsM | BX_IA_MOVSS_VssWssR | BX_IA_MOVSS_VssWssM | BX_IA_MOVSS_WssVssM
  | BX_IA_MOVHLPS_VpsWpsR | BX_IA_MOVLPS_VpsMq | BX_IA_MOVLPS_MqVps | BX_IA_MOVLHPS_VpsWpsR | BX_IA_MOVHPS_VpsMq
  | BX_IA_MOVHPS_MqVps | BX_IA_MOVAPS_VpsWpsR | BX_IA_MOVAPS_VpsWpsM | BX_IA_MOVAPS_WpsVpsR | BX_IA_MOVAPS_WpsVpsM
  | BX_IA_CVTPI2PS_VpsQqR | BX_IA_CVTPI2PS_VpsQqM | BX_IA_CVTSI2SS_VssEdR | BX_IA_CVTSI2SS_VssEdM | BX_IA_MOVNTPS_MpsVps
  | BX_IA_CVTTPS2PI_PqWps | BX_IA_CVTTSS2SI_GdWss | BX_IA_CVTPS2PI_PqWps | BX_IA_CVTSS2SI_GdWss | BX_IA_UCOMISS_VssWss
  | BX_IA_COMISS_VpsWps | BX_IA_MOVMSKPS_GdVRps | BX_IA_SQRTPS_VpsWps | BX_IA_SQRTSS_VssWss | BX_IA_RSQRTPS_VpsWps
  | BX_IA_RSQRTSS_VssWss | BX_IA_RCPPS_VpsWps | BX_IA_RCPSS_VssWss | BX_IA_ADDPS_VpsWps | BX_IA_ADDSS_VssWss
  | BX_IA_MULPS_VpsWps | BX_IA_MULSS_VssWss | BX_IA_SUBPS_VpsWps | BX_IA_SUBSS_VssWss | BX_IA_MINPS_VpsWps
  | BX_IA_MINSS_VssWss | BX_IA_DIVPS_VpsWps | BX_IA_DIVSS_VssWss | BX_IA_MAXPS_VpsWps | BX_IA_MAXSS_VssWss
  | BX_IA_PSHUFW_PqQqIb | BX_IA_PSHUFLW_VdqWdqIb | BX_IA_CMPPS_VpsWpsIb | BX_IA_CMPSS_VssWssIb | BX_IA_PINSRW_PqEwIb
  | BX_IA_PEXTRW_GdPqIb | BX_IA_SHUFPS_VpsWpsIb | BX_IA_PMOVMSKB_GdPRq | BX_IA_PMINUB_PqQq | BX_IA_PMAXUB_PqQq
  | BX_IA_PAVGB_PqQq | BX_IA_PAVGW_PqQq | BX_IA_PMULHUW_PqQq | BX_IA_MOVNTQ_MqPq | BX_IA_PMINSW_PqQq | BX_IA_PMAXSW_PqQq
  | BX_IA_PSADBW_PqQq | BX_IA_MASKMOVQ_PqPRq | BX_IA_MOVSD_VsdWsdR | BX_IA_MOVSD_VsdWsdM | BX_IA_MOVSD_WsdVsdM
  | BX_IA_CVTPI2PD_VpdQqR | BX_IA_CVTPI2PD_VpdQqM | BX_IA_CVTSI2SD_VsdEdR | BX_IA_CVTSI2SD_VsdEdM
  | BX_IA_CVTTPD2PI_PqWpd | BX_IA_CVTTSD2SI_GdWsd | BX_IA_CVTPD2PI_PqWpd | BX_IA_CVTSD2SI_GdWsd | BX_IA_UCOMISD_VsdWsd
  | BX_IA_COMISD_VpdWpd | BX_IA_MOVMSKPD_GdVRpd | BX_IA_SQRTPD_VpdWpd | BX_IA_SQRTSD_VsdWsd | BX_IA_ADDPD_VpdWpd
  | BX_IA_ADDSD_VsdWsd | BX_IA_MULPD_VpdWpd | BX_IA_MULSD_VsdWsd | BX_IA_CVTPS2PD_VpsWps | BX_IA_CVTPD2PS_VpdWpd
  | BX_IA_CVTSD2SS_VsdWsd | BX_IA_CVTSS2SD_VssWss | BX_IA_CVTDQ2PS_VpsWdq | BX_IA_CVTPS2DQ_VdqWps
  | BX_IA_CVTTPS2DQ_VdqWps | BX_IA_SUBPD_VpdWpd | BX_IA_SUBSD_VsdWsd | BX_IA_MINPD_VpdWpd | BX_IA_MINSD_VsdWsd
  | BX_IA_DIVPD_VpdWpd | BX_IA_DIVSD_VsdWsd | BX_IA_MAXPD_VpdWpd | BX_IA_MAXSD_VsdWsd | BX_IA_UNPCKHPD_VpdWdq
  | BX_IA_UNPCKLPD_VpdWdq | BX_IA_PUNPCKHDQ_VdqWdq | BX_IA_PUNPCKLDQ_VdqWdq | BX_IA_MOVAPD_VpdWpdR
  | BX_IA_MOVAPD_VpdWpdM | BX_IA_MOVAPD_WpdVpdR | BX_IA_MOVAPD_WpdVpdM | BX_IA_MOVDQA_VdqWdqR | BX_IA_MOVDQA_VdqWdqM
  | BX_IA_MOVDQA_WdqVdqR | BX_IA_MOVDQA_WdqVdqM | BX_IA_MOVDQU_VdqWdqR | BX_IA_MOVDQU_VdqWdqM | BX_IA_MOVDQU_WdqVdqR
  | BX_IA_MOVDQU_WdqVdqM | BX_IA_MOVHPD_MqVsd | BX_IA_MOVHPD_VsdMq | BX_IA_MOVLPD_MqVsd | BX_IA_MOVLPD_VsdMq
  | BX_IA_MOVNTDQ_MdqVdq | BX_IA_MOVNTPD_MpdVpd | BX_IA_MOVUPD_VpdWpdR | BX_IA_MOVUPD_VpdWpdM | BX_IA_MOVUPD_WpdVpdR
  | BX_IA_MOVUPD_WpdVpdM | BX_IA_ANDNPD_VpdWpd | BX_IA_ANDPD_VpdWpd | BX_IA_ORPD_VpdWpd | BX_IA_PAND_VdqWdq
  | BX_IA_PANDN_VdqWdq | BX_IA_POR_VdqWdq | BX_IA_PXOR_VdqWdq | BX_IA_XORPD_VpdWpd | BX_IA_PUNPCKLBW_VdqWdq
  | BX_IA_PUNPCKLWD_VdqWdq | BX_IA_UNPCKLPS_VpsWdq | BX_IA_PACKSSWB_VdqWdq | BX_IA_PCMPGTB_VdqWdq | BX_IA_PCMPGTW_VdqWdq
  | BX_IA_PCMPGTD_VdqWdq | BX_IA_PACKUSWB_VdqWdq | BX_IA_PUNPCKHBW_VdqWdq | BX_IA_PUNPCKHWD_VdqWdq
  | BX_IA_UNPCKHPS_VpsWdq | BX_IA_PACKSSDW_VdqWdq | BX_IA_PUNPCKLQDQ_VdqWdq | BX_IA_PUNPCKHQDQ_VdqWdq
  | BX_IA_MOVD_VdqEdR | BX_IA_MOVD_VdqEdM | BX_IA_PSHUFD_VdqWdqIb | BX_IA_PSHUFHW_VdqWdqIb | BX_IA_PCMPEQB_VdqWdq
  | BX_IA_PCMPEQW_VdqWdq | BX_IA_PCMPEQD_VdqWdq | BX_IA_MOVD_EdVdR | BX_IA_MOVD_EdVdM | BX_IA_MOVQ_VqWqR
  | BX_IA_MOVQ_VqWqM | BX_IA_CMPPD_VpdWpdIb | BX_IA_CMPSD_VsdWsdIb | BX_IA_MOVNTI_MdGd | BX_IA_PINSRW_VdqEwIb
  | BX_IA_PEXTRW_GdUdqIb | BX_IA_SHUFPD_VpdWpdIb | BX_IA_PSRLW_VdqWdq | BX_IA_PSRLD_VdqWdq | BX_IA_PSRLQ_VdqWdq
  | BX_IA_PADDQ_PqQq | BX_IA_PADDQ_VdqWdq | BX_IA_PMULLW_VdqWdq | BX_IA_MOVQ_WqVqR | BX_IA_MOVQ_WqVqM
  | BX_IA_MOVDQ2Q_PqVRq | BX_IA_MOVQ2DQ_VdqQq | BX_IA_PMOVMSKB_GdUdq | BX_IA_PSUBUSB_VdqWdq | BX_IA_PSUBUSW_VdqWdq
  | BX_IA_PMINUB_VdqWdq | BX_IA_PADDUSB_VdqWdq | BX_IA_PADDUSW_VdqWdq | BX_IA_PMAXUB_VdqWdq | BX_IA_PAVGB_VdqWdq
  | BX_IA_PSRAW_VdqWdq | BX_IA_PSRAD_VdqWdq | BX_IA_PAVGW_VdqWdq | BX_IA_PMULHUW_VdqWdq | BX_IA_PMULHW_VdqWdq
  | BX_IA_CVTTPD2DQ_VqWpd | BX_IA_CVTPD2DQ_VqWpd | BX_IA_CVTDQ2PD_VpdWq | BX_IA_PSUBSB_VdqWdq | BX_IA_PSUBSW_VdqWdq
  | BX_IA_PMINSW_VdqWdq | BX_IA_PADDSB_VdqWdq | BX_IA_PADDSW_VdqWdq | BX_IA_PMAXSW_VdqWdq | BX_IA_PSLLW_VdqWdq
  | BX_IA_PSLLD_VdqWdq | BX_IA_PSLLQ_VdqWdq | BX_IA_PMULUDQ_PqQq | BX_IA_PMULUDQ_VdqWdq | BX_IA_PMADDWD_VdqWdq
  | BX_IA_PSADBW_VdqWdq | BX_IA_MASKMOVDQU_VdqUdq | BX_IA_PSUBB_VdqWdq | BX_IA_PSUBW_VdqWdq | BX_IA_PSUBD_VdqWdq
  | BX_IA_PSUBQ_PqQq | BX_IA_PSUBQ_VdqWdq | BX_IA_PADDB_VdqWdq | BX_IA_PADDW_VdqWdq | BX_IA_PADDD_VdqWdq
  | BX_IA_PSRLW_UdqIb | BX_IA_PSRAW_UdqIb | BX_IA_PSLLW_UdqIb | BX_IA_PSRLD_UdqIb | BX_IA_PSRAD_UdqIb
  | BX_IA_PSLLD_UdqIb | BX_IA_PSRLQ_UdqIb | BX_IA_PSRLDQ_UdqIb | BX_IA_PSLLQ_UdqIb | BX_IA_PSLLDQ_UdqIb | BX_IA_LFENCE
  | BX_IA_SFENCE | BX_IA_MFENCE | BX_IA_MOVDDUP_VpdWq | BX_IA_MOVSLDUP_VpsWps | BX_IA_MOVSHDUP_VpsWps
  | BX_IA_HADDPD_VpdWpd | BX_IA_HADDPS_VpsWps | BX_IA_HSUBPD_VpdWpd | BX_IA_HSUBPS_VpsWps | BX_IA_ADDSUBPD_VpdWpd
  | BX_IA_ADDSUBPS_VpsWps | BX_IA_LDDQU_VdqMdq | BX_IA_PSHUFB_PqQq | BX_IA_PHADDW_PqQq | BX_IA_PHADDD_PqQq
  | BX_IA_PHADDSW_PqQq | BX_IA_PMADDUBSW_PqQq | BX_IA_PHSUBSW_PqQq | BX_IA_PHSUBW_PqQq | BX_IA_PHSUBD_PqQq
  | BX_IA_PSIGNB_PqQq | BX_IA_PSIGNW_PqQq | BX_IA_PSIGND_PqQq | BX_IA_PMULHRSW_PqQq | BX_IA_PABSB_PqQq
  | BX_IA_PABSW_PqQq | BX_IA_PABSD_PqQq | BX_IA_PALIGNR_PqQqIb | BX_IA_PSHUFB_VdqWdq | BX_IA_PHADDW_VdqWdq
  | BX_IA_PHADDD_VdqWdq | BX_IA_PHADDSW_VdqWdq | BX_IA_PMADDUBSW_VdqWdq | BX_IA_PHSUBSW_VdqWdq | BX_IA_PHSUBW_VdqWdq
  | BX_IA_PHSUBD_VdqWdq | BX_IA_PSIGNB_VdqWdq | BX_IA_PSIGNW_VdqWdq | BX_IA_PSIGND_VdqWdq | BX_IA_PMULHRSW_VdqWdq
  | BX_IA_PABSB_VdqWdq | BX_IA_PABSW_VdqWdq | BX_IA_PABSD_VdqWdq | BX_IA_PALIGNR_VdqWdqIb | BX_IA_PBLENDVB_VdqWdq
  | BX_IA_BLENDVPS_VpsWps | BX_IA_BLENDVPD_VpdWpd | BX_IA_PTEST_VdqWdq | BX_IA_PMULDQ_VdqWdq | BX_IA_PCMPEQQ_VdqWdq
  | BX_IA_PACKUSDW_VdqWdq | BX_IA_PMOVSXBW_VdqWq | BX_IA_PMOVSXBD_VdqWd | BX_IA_PMOVSXBQ_VdqWw | BX_IA_PMOVSXWD_VdqWq
  | BX_IA_PMOVSXWQ_VdqWd | BX_IA_PMOVSXDQ_VdqWq | BX_IA_PMOVZXBW_VdqWq | BX_IA_PMOVZXBD_VdqWd | BX_IA_PMOVZXBQ_VdqWw
  | BX_IA_PMOVZXWD_VdqWq | BX_IA_PMOVZXWQ_VdqWd | BX_IA_PMOVZXDQ_VdqWq | BX_IA_PMINSB_VdqWdq | BX_IA_PMINSD_VdqWdq
  | BX_IA_PMINUW_VdqWdq | BX_IA_PMINUD_VdqWdq | BX_IA_PMAXSB_VdqWdq | BX_IA_PMAXSD_VdqWdq | BX_IA_PMAXUW_VdqWdq
  | BX_IA_PMAXUD_VdqWdq | BX_IA_PMULLD_VdqWdq | BX_IA_PHMINPOSUW_VdqWdq | BX_IA_ROUNDPS_VpsWpsIb
  | BX_IA_ROUNDPD_VpdWpdIb | BX_IA_ROUNDSS_VssWssIb | BX_IA_ROUNDSD_VsdWsdIb | BX_IA_BLENDPS_VpsWpsIb
  | BX_IA_BLENDPD_VpdWpdIb | BX_IA_PBLENDW_VdqWdqIb | BX_IA_PEXTRB_EbdVdqIb | BX_IA_PEXTRW_EwdVdqIb
  | BX_IA_PEXTRD_EdVdqIb | BX_IA_EXTRACTPS_EdVpsIb | BX_IA_PINSRB_VdqEbIb | BX_IA_INSERTPS_VpsWssIb
  | BX_IA_PINSRD_VdqEdIb | BX_IA_DPPS_VpsWpsIb | BX_IA_DPPD_VpdWpdIb | BX_IA_MPSADBW_VdqWdqIb | BX_IA_MOVNTDQA_VdqMdq
  | BX_IA_CRC32_GdEb | BX_IA_CRC32_GdEw | BX_IA_CRC32_GdEd | BX_IA_PCMPGTQ_VdqWdq | BX_IA_PCMPESTRM_VdqWdqIb
  | BX_IA_PCMPESTRI_VdqWdqIb | BX_IA_PCMPISTRM_VdqWdqIb | BX_IA_PCMPISTRI_VdqWdqIb | BX_IA_MOVBE_GwEw | BX_IA_MOVBE_GdEd
  | BX_IA_MOVBE_EwGw | BX_IA_MOVBE_EdGd | BX_IA_POPCNT_GdEdR | BX_IA_POPCNT_GdEdM | BX_IA_POPCNT_GwEwR
  | BX_IA_POPCNT_GwEwM | BX_IA_XRSTOR | BX_IA_XSAVE | BX_IA_XSETBV | BX_IA_XGETBV | BX_IA_AESIMC_VdqWdq
  | BX_IA_AESENC_VdqWdq | BX_IA_AESENCLAST_VdqWdq | BX_IA_AESDEC_VdqWdq | BX_IA_AESDECLAST_VdqWdq
  | BX_IA_AESKEYGENASSIST_VdqWdqIb | BX_IA_PCLMULQDQ_VdqWdqIb | BX_IA_VMXON_Mq | BX_IA_VMXOFF | BX_IA_VMCALL
  | BX_IA_VMLAUNCH | BX_IA_VMRESUME | BX_IA_VMCLEAR_Mq | BX_IA_VMPTRLD_Mq | BX_IA_VMPTRST_Mq | BX_IA_VMREAD_EdGd
  | BX_IA_VMWRITE_GdEd | BX_IA_INVEPT | BX_IA_INVVPID.
