(* ===== verification/OpcodeTables.v ===== *)
(** * OpcodeTables: the tables of the decoder

    cpu/fetchdecode.cc, cpu/fetchdecode.h, cpu/fetchdecode_x87.h and
    cpu/fetchdecode_sse.h, as the configuration compiles them.  An entry has the
    attributes of the opcode and either the instruction or, for a group, a further
    table, which the attribute [BxGroupX] says how to index.  The two main tables
    are for instructions with a register operand ([BxOpcodeInfo32R]) and with a
    memory operand ([BxOpcodeInfo32M]); each has 512 entries for 16-bit operands
    and 512 for 32-bit operands, 256 of them for opcodes after 0F. *)
From stdpp Require Import base list.
From Stdlib Require Import ZArith.
From S2P Require Import Opcodes.

Local Open Scope Z_scope.

(** ** The attributes (cpu/cpu.h) *)

Definition BxImmediate : Z := 0x000f.
Definition BxImmediate_I1 : Z := 0x0001.
Definition BxImmediate_Ib : Z := 0x0002.
Definition BxImmediate_Ib_SE : Z := 0x0003.
Definition BxImmediate_Iw : Z := 0x0004.
Definition BxImmediate_IbIb : Z := 0x0005.
Definition BxImmediate_IwIb : Z := 0x0006.
Definition BxImmediate_IwIw : Z := 0x0007.
Definition BxImmediate_IdIw : Z := 0x0008.
Definition BxImmediate_Id : Z := 0x0009.
Definition BxImmediate_O : Z := 0x000A.
Definition BxImmediate_BrOff8 : Z := 0x000B.
Definition BxImmediate_BrOff16 : Z := BxImmediate_Iw.
Definition BxImmediate_BrOff32 : Z := BxImmediate_Id.
Definition BxGroupX : Z := 0x00f0.
Definition BxGroupN : Z := 0x0010.
Definition BxPrefixSSE : Z := 0x0020.
Definition BxPrefixSSE66 : Z := 0x0030.
Definition BxPrefixSSEF2 : Z := 0x0040.
Definition BxPrefixSSEF3 : Z := 0x0050.
Definition BxFPEscape : Z := 0x0060.
Definition Bx3ByteOp : Z := 0x0070.
Definition BxOSizeGrp : Z := 0x0080.
Definition BxLockable : Z := 0x0100.
Definition BxArithDstRM : Z := 0x0200.
Definition BxTraceEnd : Z := 0.
Definition BxTraceJCC : Z := 0.

Definition BxGroup1 : Z := BxGroupN.
Definition BxGroup1A : Z := BxGroupN.
Definition BxGroup2 : Z := BxGroupN.
Definition BxGroup3 : Z := BxGroupN.
Definition BxGroup4 : Z := BxGroupN.
Definition BxGroup5 : Z := BxGroupN.
Definition BxGroup6 : Z := BxGroupN.
Definition BxGroup7 : Z := BxGroupN.
Definition BxGroup8 : Z := BxGroupN.
Definition BxGroup9 : Z := BxGroupN.
Definition BxGroup11 : Z := BxGroupN.
Definition BxGroup12 : Z := BxGroupN.
Definition BxGroup13 : Z := BxGroupN.
Definition BxGroup14 : Z := BxGroupN.
Definition BxGroup15 : Z := BxGroupN.
Definition BxGroupFP : Z := BxGroupN.

(** ** The entries (cpu/fetchdecode.h) *)

#[local] Unset Elimination Schemes.
Inductive BxOpcodeInfo_t : Type :=
  opcode_info (Attr : Z) (IA : bx_ia_opcode) (AnotherArray : list BxOpcodeInfo_t).
Definition Attr (e : BxOpcodeInfo_t) : Z := let 'opcode_info a _ _ := e in a.
Definition IA (e : BxOpcodeInfo_t) : bx_ia_opcode := let 'opcode_info _ i _ := e in i.
Definition AnotherArray (e : BxOpcodeInfo_t) : list BxOpcodeInfo_t := let 'opcode_info _ _ l := e in l.
Definition insn (a : Z) (i : bx_ia_opcode) : BxOpcodeInfo_t := opcode_info a i [].

(** ** Floating-point escapes (cpu/fetchdecode_x87.h) *)

Definition BxOpcodeInfo_FPGroupD8 : list BxOpcodeInfo_t := [
  insn 0 BX_IA_FADD_SINGLE_REAL; insn 0 BX_IA_FMUL_SINGLE_REAL; insn 0 BX_IA_FCOM_SINGLE_REAL;
  insn 0 BX_IA_FCOMP_SINGLE_REAL; insn 0 BX_IA_FSUB_SINGLE_REAL; insn 0 BX_IA_FSUBR_SINGLE_REAL;
  insn 0 BX_IA_FDIV_SINGLE_REAL; insn 0 BX_IA_FDIVR_SINGLE_REAL].
Definition BxOpcodeInfo_FloatingPointD8 : list BxOpcodeInfo_t := [
  insn 0 BX_IA_FADD_ST0_STj; insn 0 BX_IA_FMUL_ST0_STj; insn 0 BX_IA_FCOM_STi; insn 0 BX_IA_FCOMP_STi;
  insn 0 BX_IA_FSUB_ST0_STj; insn 0 BX_IA_FSUBR_ST0_STj; insn 0 BX_IA_FDIV_ST0_STj; insn 0 BX_IA_FDIVR_ST0_STj].
Definition BxOpcodeInfo_FPGroupD9 : list BxOpcodeInfo_t := [
  insn 0 BX_IA_FLD_SINGLE_REAL; insn 0 BX_IA_ERROR; insn 0 BX_IA_FST_SINGLE_REAL; insn 0 BX_IA_FSTP_SINGLE_REAL;
  insn 0 BX_IA_FLDENV; insn 0 BX_IA_FLDCW; insn 0 BX_IA_FNSTENV; insn 0 BX_IA_FNSTCW].
Definition BxOpcodeInfo_FloatingPointD9 : list BxOpcodeInfo_t := [
  insn 0 BX_IA_FLD_STi; insn 0 BX_IA_FLD_STi; insn 0 BX_IA_FLD_STi; insn 0 BX_IA_FLD_STi; insn 0 BX_IA_FLD_STi;
  insn 0 BX_IA_FLD_STi; insn 0 BX_IA_FLD_STi; insn 0 BX_IA_FLD_STi; insn 0 BX_IA_FXCH_STi; insn 0 BX_IA_FXCH_STi;
  insn 0 BX_IA_FXCH_STi; insn 0 BX_IA_FXCH_STi; insn 0 BX_IA_FXCH_STi; insn 0 BX_IA_FXCH_STi; insn 0 BX_IA_FXCH_STi;
  insn 0 BX_IA_FXCH_STi; insn 0 BX_IA_FNOP; insn 0 BX_IA_ERROR; insn 0 BX_IA_ERROR; insn 0 BX_IA_ERROR;
  insn 0 BX_IA_ERROR; insn 0 BX_IA_ERROR; insn 0 BX_IA_ERROR; insn 0 BX_IA_ERROR; insn 0 BX_IA_FSTP_STi;
  insn 0 BX_IA_FSTP_STi; insn 0 BX_IA_FSTP_STi; insn 0 BX_IA_FSTP_STi; insn 0 BX_IA_FSTP_STi; insn 0 BX_IA_FSTP_STi;
  insn 0 BX_IA_FSTP_STi; insn 0 BX_IA_FSTP_STi; insn 0 BX_IA_FCHS; insn 0 BX_IA_FABS; insn 0 BX_IA_ERROR;
  insn 0 BX_IA_ERROR; insn 0 BX_IA_FTST; insn 0 BX_IA_FXAM; insn 0 BX_IA_ERROR; insn 0 BX_IA_ERROR;
  insn 0 BX_IA_FLD1; insn 0 BX_IA_FLDL2T; insn 0 BX_IA_FLDL2E; insn 0 BX_IA_FLDPI; insn 0 BX_IA_FLDLG2;
  insn 0 BX_IA_FLDLN2; insn 0 BX_IA_FLDZ; insn 0 BX_IA_ERROR; insn 0 BX_IA_F2XM1; insn 0 BX_IA_FYL2X;
  insn 0 BX_IA_FPTAN; insn 0 BX_IA_FPATAN; insn 0 BX_IA_FXTRACT; insn 0 BX_IA_FPREM1; insn 0 BX_IA_FDECSTP;
  insn 0 BX_IA_FINCSTP; insn 0 BX_IA_FPREM; insn 0 BX_IA_FYL2XP1; insn 0 BX_IA_FSQRT; insn 0 BX_IA_FSINCOS;
  insn 0 BX_IA_FRNDINT; insn 0 BX_IA_FSCALE; insn 0 BX_IA_FSIN; insn 0 BX_IA_FCOS].
Definition BxOpcodeInfo_FPGroupDA : list BxOpcodeInfo_t := [
  insn 0 BX_IA_FIADD_DWORD_INTEGER; insn 0 BX_IA_FIMUL_DWORD_INTEGER; insn 0 BX_IA_FICOM_DWORD_INTEGER;
  insn 0 BX_IA_FICOMP_DWORD_INTEGER; insn 0 BX_IA_FISUB_DWORD_INTEGER; insn 0 BX_IA_FISUBR_DWORD_INTEGER;
  insn 0 BX_IA_FIDIV_DWORD_INTEGER; insn 0 BX_IA_FIDIVR_DWORD_INTEGER].
Definition BxOpcodeInfo_FloatingPointDA : list BxOpcodeInfo_t := [
  insn 0 BX_IA_FCMOV_ST0_STj; insn 0 BX_IA_FCMOV_ST0_STj; insn 0 BX_IA_FCMOV_ST0_STj; insn 0 BX_IA_FCMOV_ST0_STj;
  insn 0 BX_IA_FCMOV_ST0_STj; insn 0 BX_IA_FCMOV_ST0_STj; insn 0 BX_IA_FCMOV_ST0_STj; insn 0 BX_IA_FCMOV_ST0_STj;
  insn 0 BX_IA_FCMOV_ST0_STj; insn 0 BX_IA_FCMOV_ST0_STj; insn 0 BX_IA_FCMOV_ST0_STj; insn 0 BX_IA_FCMOV_ST0_STj;
  insn 0 BX_IA_FCMOV_ST0_STj; insn 0 BX_IA_FCMOV_ST0_STj; insn 0 BX_IA_FCMOV_ST0_STj; insn 0 BX_IA_FCMOV_ST0_STj;
  insn 0 BX_IA_FCMOV_ST0_STj; insn 0 BX_IA_FCMOV_ST0_STj; insn 0 BX_IA_FCMOV_ST0_STj; insn 0 BX_IA_FCMOV_ST0_STj;
  insn 0 BX_IA_FCMOV_ST0_STj; insn 0 BX_IA_FCMOV_ST0_STj; insn 0 BX_IA_FCMOV_ST0_STj; insn 0 BX_IA_FCMOV_ST0_STj;
  insn 0 BX_IA_FCMOV_ST0_STj; insn 0 BX_IA_FCMOV_ST0_STj; insn 0 BX_IA_FCMOV_ST0_STj; insn 0 BX_IA_FCMOV_ST0_STj;
  insn 0 BX_IA_FCMOV_ST0_STj; insn 0 BX_IA_FCMOV_ST0_STj; insn 0 BX_IA_FCMOV_ST0_STj; insn 0 BX_IA_FCMOV_ST0_STj;
  insn 0 BX_IA_ERROR; insn 0 BX_IA_ERROR; insn 0 BX_IA_ERROR; insn 0 BX_IA_ERROR; insn 0 BX_IA_ERROR;
  insn 0 BX_IA_ERROR; insn 0 BX_IA_ERROR; insn 0 BX_IA_ERROR; insn 0 BX_IA_ERROR; insn 0 BX_IA_FUCOMPP;
  insn 0 BX_IA_ERROR; insn 0 BX_IA_ERROR; insn 0 BX_IA_ERROR; insn 0 BX_IA_ERROR; insn 0 BX_IA_ERROR;
  insn 0 BX_IA_ERROR; insn 0 BX_IA_ERROR; insn 0 BX_IA_ERROR; insn 0 BX_IA_ERROR; insn 0 BX_IA_ERROR;
  insn 0 BX_IA_ERROR; insn 0 BX_IA_ERROR; insn 0 BX_IA_ERROR; insn 0 BX_IA_ERROR; insn 0 BX_IA_ERROR;
  insn 0 BX_IA_ERROR; insn 0 BX_IA_ERROR; insn 0 BX_IA_ERROR; insn 0 BX_IA_ERROR; insn 0 BX_IA_ERROR;
  insn 0 BX_IA_ERROR; insn 0 BX_IA_ERROR].
Definition BxOpcodeInfo_FPGroupDB : list BxOpcodeInfo_t := [
  insn 0 BX_IA_FILD_DWORD_INTEGER; insn 0 BX_IA_FISTTP32; insn 0 BX_IA_FIST_DWORD_INTEGER;
  insn 0 BX_IA_FISTP_DWORD_INTEGER; insn 0 BX_IA_ERROR; insn 0 BX_IA_FLD_EXTENDED_REAL; insn 0 BX_IA_ERROR;
  insn 0 BX_IA_FSTP_EXTENDED_REAL].
Definition BxOpcodeInfo_FloatingPointDB : list BxOpcodeInfo_t := [
  insn 0 BX_IA_FCMOV_ST0_STj; insn 0 BX_IA_FCMOV_ST0_STj; insn 0 BX_IA_FCMOV_ST0_STj; insn 0 BX_IA_FCMOV_ST0_STj;
  insn 0 BX_IA_FCMOV_ST0_STj; insn 0 BX_IA_FCMOV_ST0_STj; insn 0 BX_IA_FCMOV_ST0_STj; insn 0 BX_IA_FCMOV_ST0_STj;
  insn 0 BX_IA_FCMOV_ST0_STj; insn 0 BX_IA_FCMOV_ST0_STj; insn 0 BX_IA_FCMOV_ST0_STj; insn 0 BX_IA_FCMOV_ST0_STj;
  insn 0 BX_IA_FCMOV_ST0_STj; insn 0 BX_IA_FCMOV_ST0_STj; insn 0 BX_IA_FCMOV_ST0_STj; insn 0 BX_IA_FCMOV_ST0_STj;
  insn 0 BX_IA_FCMOV_ST0_STj; insn 0 BX_IA_FCMOV_ST0_STj; insn 0 BX_IA_FCMOV_ST0_STj; insn 0 BX_IA_FCMOV_ST0_STj;
  insn 0 BX_IA_FCMOV_ST0_STj; insn 0 BX_IA_FCMOV_ST0_STj; insn 0 BX_IA_FCMOV_ST0_STj; insn 0 BX_IA_FCMOV_ST0_STj;
  insn 0 BX_IA_FCMOV_ST0_STj; insn 0 BX_IA_FCMOV_ST0_STj; insn 0 BX_IA_FCMOV_ST0_STj; insn 0 BX_IA_FCMOV_ST0_STj;
  insn 0 BX_IA_FCMOV_ST0_STj; insn 0 BX_IA_FCMOV_ST0_STj; insn 0 BX_IA_FCMOV_ST0_STj; insn 0 BX_IA_FCMOV_ST0_STj;
  insn 0 BX_IA_FPLEGACY; insn 0 BX_IA_FPLEGACY; insn 0 BX_IA_FNCLEX; insn 0 BX_IA_FNINIT; insn 0 BX_IA_FPLEGACY;
  insn 0 BX_IA_ERROR; insn 0 BX_IA_ERROR; insn 0 BX_IA_ERROR; insn 0 BX_IA_FUCOMI_ST0_STj;
  insn 0 BX_IA_FUCOMI_ST0_STj; insn 0 BX_IA_FUCOMI_ST0_STj; insn 0 BX_IA_FUCOMI_ST0_STj; insn 0 BX_IA_FUCOMI_ST0_STj;
  insn 0 BX_IA_FUCOMI_ST0_STj; insn 0 BX_IA_FUCOMI_ST0_STj; insn 0 BX_IA_FUCOMI_ST0_STj; insn 0 BX_IA_FCOMI_ST0_STj;
  insn 0 BX_IA_FCOMI_ST0_STj; insn 0 BX_IA_FCOMI_ST0_STj; insn 0 BX_IA_FCOMI_ST0_STj; insn 0 BX_IA_FCOMI_ST0_STj;
  insn 0 BX_IA_FCOMI_ST0_STj; insn 0 BX_IA_FCOMI_ST0_STj; insn 0 BX_IA_FCOMI_ST0_STj; insn 0 BX_IA_ERROR;
  insn 0 BX_IA_ERROR; insn 0 BX_IA_ERROR; insn 0 BX_IA_ERROR; insn 0 BX_IA_ERROR; insn 0 BX_IA_ERROR;
  insn 0 BX_IA_ERROR; insn 0 BX_IA_ERROR].
Definition BxOpcodeInfo_FPGroupDC : list BxOpcodeInfo_t := [
  insn 0 BX_IA_FADD_DOUBLE_REAL; insn 0 BX_IA_FMUL_DOUBLE_REAL; insn 0 BX_IA_FCOM_DOUBLE_REAL;
  insn 0 BX_IA_FCOMP_DOUBLE_REAL; insn 0 BX_IA_FSUB_DOUBLE_REAL; insn 0 BX_IA_FSUBR_DOUBLE_REAL;
  insn 0 BX_IA_FDIV_DOUBLE_REAL; insn 0 BX_IA_FDIVR_DOUBLE_REAL].
Definition BxOpcodeInfo_FloatingPointDC : list BxOpcodeInfo_t := [
  insn 0 BX_IA_FADD_STi_ST0; insn 0 BX_IA_FMUL_STi_ST0; insn 0 BX_IA_FCOM_STi; insn 0 BX_IA_FCOMP_STi;
  insn 0 BX_IA_FSUBR_STi_ST0; insn 0 BX_IA_FSUB_STi_ST0; insn 0 BX_IA_FDIVR_STi_ST0; insn 0 BX_IA_FDIV_STi_ST0].
Definition BxOpcodeInfo_FPGroupDD : list BxOpcodeInfo_t := [
  insn 0 BX_IA_FLD_DOUBLE_REAL; insn 0 BX_IA_FISTTP64; insn 0 BX_IA_FST_DOUBLE_REAL; insn 0 BX_IA_FSTP_DOUBLE_REAL;
  insn 0 BX_IA_FRSTOR; insn 0 BX_IA_ERROR; insn 0 BX_IA_FNSAVE; insn 0 BX_IA_FNSTSW].
Definition BxOpcodeInfo_FloatingPointDD : list BxOpcodeInfo_t := [
  insn 0 BX_IA_FFREE_STi; insn 0 BX_IA_FXCH_STi; insn 0 BX_IA_FST_STi; insn 0 BX_IA_FSTP_STi; insn 0 BX_IA_FUCOM_STi;
  insn 0 BX_IA_FUCOMP_STi; insn 0 BX_IA_ERROR; insn 0 BX_IA_ERROR].
Definition BxOpcodeInfo_FPGroupDE : list BxOpcodeInfo_t := [
  insn 0 BX_IA_FIADD_WORD_INTEGER; insn 0 BX_IA_FIMUL_WORD_INTEGER; insn 0 BX_IA_FICOM_WORD_INTEGER;
  insn 0 BX_IA_FICOMP_WORD_INTEGER; insn 0 BX_IA_FISUB_WORD_INTEGER; insn 0 BX_IA_FISUBR_WORD_INTEGER;
  insn 0 BX_IA_FIDIV_WORD_INTEGER; insn 0 BX_IA_FIDIVR_WORD_INTEGER].
Definition BxOpcodeInfo_FloatingPointDE : list BxOpcodeInfo_t := [
  insn 0 BX_IA_FADD_STi_ST0; insn 0 BX_IA_FADD_STi_ST0; insn 0 BX_IA_FADD_STi_ST0; insn 0 BX_IA_FADD_STi_ST0;
  insn 0 BX_IA_FADD_STi_ST0; insn 0 BX_IA_FADD_STi_ST0; insn 0 BX_IA_FADD_STi_ST0; insn 0 BX_IA_FADD_STi_ST0;
  insn 0 BX_IA_FMUL_STi_ST0; insn 0 BX_IA_FMUL_STi_ST0; insn 0 BX_IA_FMUL_STi_ST0; insn 0 BX_IA_FMUL_STi_ST0;
  insn 0 BX_IA_FMUL_STi_ST0; insn 0 BX_IA_FMUL_STi_ST0; insn 0 BX_IA_FMUL_STi_ST0; insn 0 BX_IA_FMUL_STi_ST0;
  insn 0 BX_IA_FCOMP_STi; insn 0 BX_IA_FCOMP_STi; insn 0 BX_IA_FCOMP_STi; insn 0 BX_IA_FCOMP_STi;
  insn 0 BX_IA_FCOMP_STi; insn 0 BX_IA_FCOMP_STi; insn 0 BX_IA_FCOMP_STi; insn 0 BX_IA_FCOMP_STi; insn 0 BX_IA_ERROR;
  insn 0 BX_IA_FCOMPP; insn 0 BX_IA_ERROR; insn 0 BX_IA_ERROR; insn 0 BX_IA_ERROR; insn 0 BX_IA_ERROR;
  insn 0 BX_IA_ERROR; insn 0 BX_IA_ERROR; insn 0 BX_IA_FSUBR_STi_ST0; insn 0 BX_IA_FSUBR_STi_ST0;
  insn 0 BX_IA_FSUBR_STi_ST0; insn 0 BX_IA_FSUBR_STi_ST0; insn 0 BX_IA_FSUBR_STi_ST0; insn 0 BX_IA_FSUBR_STi_ST0;
  insn 0 BX_IA_FSUBR_STi_ST0; insn 0 BX_IA_FSUBR_STi_ST0; insn 0 BX_IA_FSUB_STi_ST0; insn 0 BX_IA_FSUB_STi_ST0;
  insn 0 BX_IA_FSUB_STi_ST0; insn 0 BX_IA_FSUB_STi_ST0; insn 0 BX_IA_FSUB_STi_ST0; insn 0 BX_IA_FSUB_STi_ST0;
  insn 0 BX_IA_FSUB_STi_ST0; insn 0 BX_IA_FSUB_STi_ST0; insn 0 BX_IA_FDIVR_STi_ST0; insn 0 BX_IA_FDIVR_STi_ST0;
  insn 0 BX_IA_FDIVR_STi_ST0; insn 0 BX_IA_FDIVR_STi_ST0; insn 0 BX_IA_FDIVR_STi_ST0; insn 0 BX_IA_FDIVR_STi_ST0;
  insn 0 BX_IA_FDIVR_STi_ST0; insn 0 BX_IA_FDIVR_STi_ST0; insn 0 BX_IA_FDIV_STi_ST0; insn 0 BX_IA_FDIV_STi_ST0;
  insn 0 BX_IA_FDIV_STi_ST0; insn 0 BX_IA_FDIV_STi_ST0; insn 0 BX_IA_FDIV_STi_ST0; insn 0 BX_IA_FDIV_STi_ST0;
  insn 0 BX_IA_FDIV_STi_ST0; insn 0 BX_IA_FDIV_STi_ST0].
Definition BxOpcodeInfo_FPGroupDF : list BxOpcodeInfo_t := [
  insn 0 BX_IA_FILD_WORD_INTEGER; insn 0 BX_IA_FISTTP16; insn 0 BX_IA_FIST_WORD_INTEGER;
  insn 0 BX_IA_FISTP_WORD_INTEGER; insn 0 BX_IA_FBLD_PACKED_BCD; insn 0 BX_IA_FILD_QWORD_INTEGER;
  insn 0 BX_IA_FBSTP_PACKED_BCD; insn 0 BX_IA_FISTP_QWORD_INTEGER].
Definition BxOpcodeInfo_FloatingPointDF : list BxOpcodeInfo_t := [
  insn 0 BX_IA_FFREEP_STi; insn 0 BX_IA_FFREEP_STi; insn 0 BX_IA_FFREEP_STi; insn 0 BX_IA_FFREEP_STi;
  insn 0 BX_IA_FFREEP_STi; insn 0 BX_IA_FFREEP_STi; insn 0 BX_IA_FFREEP_STi; insn 0 BX_IA_FFREEP_STi;
  insn 0 BX_IA_FXCH_STi; insn 0 BX_IA_FXCH_STi; insn 0 BX_IA_FXCH_STi; insn 0 BX_IA_FXCH_STi; insn 0 BX_IA_FXCH_STi;
  insn 0 BX_IA_FXCH_STi; insn 0 BX_IA_FXCH_STi; insn 0 BX_IA_FXCH_STi; insn 0 BX_IA_FSTP_STi; insn 0 BX_IA_FSTP_STi;
  insn 0 BX_IA_FSTP_STi; insn 0 BX_IA_FSTP_STi; insn 0 BX_IA_FSTP_STi; insn 0 BX_IA_FSTP_STi; insn 0 BX_IA_FSTP_STi;
  insn 0 BX_IA_FSTP_STi; insn 0 BX_IA_FSTP_STi; insn 0 BX_IA_FSTP_STi; insn 0 BX_IA_FSTP_STi; insn 0 BX_IA_FSTP_STi;
  insn 0 BX_IA_FSTP_STi; insn 0 BX_IA_FSTP_STi; insn 0 BX_IA_FSTP_STi; insn 0 BX_IA_FSTP_STi; insn 0 BX_IA_FNSTSW_AX;
  insn 0 BX_IA_ERROR; insn 0 BX_IA_ERROR; insn 0 BX_IA_ERROR; insn 0 BX_IA_ERROR; insn 0 BX_IA_ERROR;
  insn 0 BX_IA_ERROR; insn 0 BX_IA_ERROR; insn 0 BX_IA_FUCOMIP_ST0_STj; insn 0 BX_IA_FUCOMIP_ST0_STj;
  insn 0 BX_IA_FUCOMIP_ST0_STj; insn 0 BX_IA_FUCOMIP_ST0_STj; insn 0 BX_IA_FUCOMIP_ST0_STj;
  insn 0 BX_IA_FUCOMIP_ST0_STj; insn 0 BX_IA_FUCOMIP_ST0_STj; insn 0 BX_IA_FUCOMIP_ST0_STj;
  insn 0 BX_IA_FCOMIP_ST0_STj; insn 0 BX_IA_FCOMIP_ST0_STj; insn 0 BX_IA_FCOMIP_ST0_STj; insn 0 BX_IA_FCOMIP_ST0_STj;
  insn 0 BX_IA_FCOMIP_ST0_STj; insn 0 BX_IA_FCOMIP_ST0_STj; insn 0 BX_IA_FCOMIP_ST0_STj; insn 0 BX_IA_FCOMIP_ST0_STj;
  insn 0 BX_IA_ERROR; insn 0 BX_IA_ERROR; insn 0 BX_IA_ERROR; insn 0 BX_IA_ERROR; insn 0 BX_IA_ERROR;
  insn 0 BX_IA_ERROR; insn 0 BX_IA_ERROR; insn 0 BX_IA_ERROR].

(** ** Mandatory prefixes and three-byte opcodes (cpu/fetchdecode_sse.h) *)

Definition BxOpcodeGroupSSE_ERR : list BxOpcodeInfo_t := [
  insn 0 BX_IA_ERROR; insn 0 BX_IA_ERROR; insn 0 BX_IA_ERROR].
Definition BxOpcodeGroupSSE_PAUSE : list BxOpcodeInfo_t := [
  insn 0 BX_IA_NOP; insn 0 BX_IA_NOP; insn 0 BX_IA_PAUSE].
Definition BxOpcodeGroupSSE_0f10R : list BxOpcodeInfo_t := [
  insn 0 BX_IA_MOVUPD_VpdWpdR; insn 0 BX_IA_MOVSD_VsdWsdR; insn 0 BX_IA_MOVSS_VssWssR].
Definition BxOpcodeGroupSSE_0f10M : list BxOpcodeInfo_t := [
  insn 0 BX_IA_MOVUPD_VpdWpdM; insn 0 BX_IA_MOVSD_VsdWsdM; insn 0 BX_IA_MOVSS_VssWssM].
Definition BxOpcodeGroupSSE_0f11R : list BxOpcodeInfo_t := [
  insn 0 BX_IA_MOVUPD_WpdVpdR; insn BxArithDstRM BX_IA_MOVSD_VsdWsdR; insn BxArithDstRM BX_IA_MOVSS_VssWssR].
Definition BxOpcodeGroupSSE_0f11M : list BxOpcodeInfo_t := [
  insn 0 BX_IA_MOVUPD_WpdVpdM; insn 0 BX_IA_MOVSD_WsdVsdM; insn 0 BX_IA_MOVSS_WssVssM].
Definition BxOpcodeGroupSSE_0f12R : list BxOpcodeInfo_t := [
  insn 0 BX_IA_ERROR; insn 0 BX_IA_MOVDDUP_VpdWq; insn 0 BX_IA_MOVSLDUP_VpsWps].
Definition BxOpcodeGroupSSE_0f12M : list BxOpcodeInfo_t := [
  insn 0 BX_IA_MOVLPD_VsdMq; insn 0 BX_IA_MOVDDUP_VpdWq; insn 0 BX_IA_MOVSLDUP_VpsWps].
Definition BxOpcodeGroupSSE_0f13M : list BxOpcodeInfo_t := [
  insn 0 BX_IA_MOVLPD_MqVsd; insn 0 BX_IA_ERROR; insn 0 BX_IA_ERROR].
Definition BxOpcodeGroupSSE_0f14 : list BxOpcodeInfo_t := [
  insn 0 BX_IA_UNPCKLPD_VpdWdq; insn 0 BX_IA_ERROR; insn 0 BX_IA_ERROR].
Definition BxOpcodeGroupSSE_0f15 : list BxOpcodeInfo_t := [
  insn 0 BX_IA_UNPCKHPD_VpdWdq; insn 0 BX_IA_ERROR; insn 0 BX_IA_ERROR].
Definition BxOpcodeGroupSSE_0f16R : list BxOpcodeInfo_t := [
  insn 0 BX_IA_ERROR; insn 0 BX_IA_ERROR; insn 0 BX_IA_MOVSHDUP_VpsWps].
Definition BxOpcodeGroupSSE_0f16M : list BxOpcodeInfo_t := [
  insn 0 BX_IA_MOVHPD_VsdMq; insn 0 BX_IA_ERROR; insn 0 BX_IA_MOVSHDUP_VpsWps].
Definition BxOpcodeGroupSSE_0f17M : list BxOpcodeInfo_t := [
  insn 0 BX_IA_MOVHPD_MqVsd; insn 0 BX_IA_ERROR; insn 0 BX_IA_ERROR].
Definition BxOpcodeGroupSSE_0f28R : list BxOpcodeInfo_t := [
  insn 0 BX_IA_MOVAPD_VpdWpdR; insn 0 BX_IA_ERROR; insn 0 BX_IA_ERROR].
Definition BxOpcodeGroupSSE_0f28M : list BxOpcodeInfo_t := [
  insn 0 BX_IA_MOVAPD_VpdWpdM; insn 0 BX_IA_ERROR; insn 0 BX_IA_ERROR].
Definition BxOpcodeGroupSSE_0f29R : list BxOpcodeInfo_t := [
  insn 0 BX_IA_MOVAPD_WpdVpdR; insn 0 BX_IA_ERROR; insn 0 BX_IA_ERROR].
Definition BxOpcodeGroupSSE_0f29M : list BxOpcodeInfo_t := [
  insn 0 BX_IA_MOVAPD_WpdVpdM; insn 0 BX_IA_ERROR; insn 0 BX_IA_ERROR].
Definition BxOpcodeGroupSSE_0f2aR : list BxOpcodeInfo_t := [
  insn 0 BX_IA_CVTPI2PD_VpdQqR; insn 0 BX_IA_CVTSI2SD_VsdEdR; insn 0 BX_IA_CVTSI2SS_VssEdR].
Definition BxOpcodeGroupSSE_0f2aM : list BxOpcodeInfo_t := [
  insn 0 BX_IA_CVTPI2PD_VpdQqM; insn 0 BX_IA_CVTSI2SD_VsdEdM; insn 0 BX_IA_CVTSI2SS_VssEdM].
Definition BxOpcodeGroupSSE_0f2bM : list BxOpcodeInfo_t := [
  insn 0 BX_IA_MOVNTPD_MpdVpd; insn 0 BX_IA_ERROR; insn 0 BX_IA_ERROR].
Definition BxOpcodeGroupSSE_0f2c : list BxOpcodeInfo_t := [
  insn 0 BX_IA_CVTTPD2PI_PqWpd; insn 0 BX_IA_CVTTSD2SI_GdWsd; insn 0 BX_IA_CVTTSS2SI_GdWss].
Definition BxOpcodeGroupSSE_0f2d : list BxOpcodeInfo_t := [
  insn 0 BX_IA_CVTPD2PI_PqWpd; insn 0 BX_IA_CVTSD2SI_GdWsd; insn 0 BX_IA_CVTSS2SI_GdWss].
Definition BxOpcodeGroupSSE_0f2e : list BxOpcodeInfo_t := [
  insn 0 BX_IA_UCOMISD_VsdWsd; insn 0 BX_IA_ERROR; insn 0 BX_IA_ERROR].
Definition BxOpcodeGroupSSE_0f2f : list BxOpcodeInfo_t := [
  insn 0 BX_IA_COMISD_VpdWpd; insn 0 BX_IA_ERROR; insn 0 BX_IA_ERROR].
Definition BxOpcodeGroupSSE_0f50 : list BxOpcodeInfo_t := [
  insn 0 BX_IA_MOVMSKPD_GdVRpd; insn 0 BX_IA_ERROR; insn 0 BX_IA_ERROR].
Definition BxOpcodeGroupSSE_0f51 : list BxOpcodeInfo_t := [
  insn 0 BX_IA_SQRTPD_VpdWpd; insn 0 BX_IA_SQRTSD_VsdWsd; insn 0 BX_IA_SQRTSS_VssWss].
Definition BxOpcodeGroupSSE_0f52 : list BxOpcodeInfo_t := [
  insn 0 BX_IA_ERROR; insn 0 BX_IA_ERROR; insn 0 BX_IA_RSQRTSS_VssWss].
Definition BxOpcodeGroupSSE_0f53 : list BxOpcodeInfo_t := [
  insn 0 BX_IA_ERROR; insn 0 BX_IA_ERROR; insn 0 BX_IA_RCPSS_VssWss].
Definition BxOpcodeGroupSSE_0f54 : list BxOpcodeInfo_t := [
  insn 0 BX_IA_ANDPD_VpdWpd; insn 0 BX_IA_ERROR; insn 0 BX_IA_ERROR].
Definition BxOpcodeGroupSSE_0f55 : list BxOpcodeInfo_t := [
  insn 0 BX_IA_ANDNPD_VpdWpd; insn 0 BX_IA_ERROR; insn 0 BX_IA_ERROR].
Definition BxOpcodeGroupSSE_0f56 : list BxOpcodeInfo_t := [
  insn 0 BX_IA_ORPD_VpdWpd; insn 0 BX_IA_ERROR; insn 0 BX_IA_ERROR].
Definition BxOpcodeGroupSSE_0f57 : list BxOpcodeInfo_t := [
  insn 0 BX_IA_XORPD_VpdWpd; insn 0 BX_IA_ERROR; insn 0 BX_IA_ERROR].
Definition BxOpcodeGroupSSE_0f58 : list BxOpcodeInfo_t := [
  insn 0 BX_IA_ADDPD_VpdWpd; insn 0 BX_IA_ADDSD_VsdWsd; insn 0 BX_IA_ADDSS_VssWss].
Definition BxOpcodeGroupSSE_0f59 : list BxOpcodeInfo_t := [
  insn 0 BX_IA_MULPD_VpdWpd; insn 0 BX_IA_MULSD_VsdWsd; insn 0 BX_IA_MULSS_VssWss].
Definition BxOpcodeGroupSSE_0f5a : list BxOpcodeInfo_t := [
  insn 0 BX_IA_CVTPD2PS_VpdWpd; insn 0 BX_IA_CVTSD2SS_VsdWsd; insn 0 BX_IA_CVTSS2SD_VssWss].
Definition BxOpcodeGroupSSE_0f5b : list BxOpcodeInfo_t := [
  insn 0 BX_IA_CVTPS2DQ_VdqWps; insn 0 BX_IA_ERROR; insn 0 BX_IA_CVTTPS2DQ_VdqWps].
Definition BxOpcodeGroupSSE_0f5c : list BxOpcodeInfo_t := [
  insn 0 BX_IA_SUBPD_VpdWpd; insn 0 BX_IA_SUBSD_VsdWsd; insn 0 BX_IA_SUBSS_VssWss].
Definition BxOpcodeGroupSSE_0f5d : list BxOpcodeInfo_t := [
  insn 0 BX_IA_MINPD_VpdWpd; insn 0 BX_IA_MINSD_VsdWsd; insn 0 BX_IA_MINSS_VssWss].
Definition BxOpcodeGroupSSE_0f5e : list BxOpcodeInfo_t := [
  insn 0 BX_IA_DIVPD_VpdWpd; insn 0 BX_IA_DIVSD_VsdWsd; insn 0 BX_IA_DIVSS_VssWss].
Definition BxOpcodeGroupSSE_0f5f : list BxOpcodeInfo_t := [
  insn 0 BX_IA_MAXPD_VpdWpd; insn 0 BX_IA_MAXSD_VsdWsd; insn 0 BX_IA_MAXSS_VssWss].
Definition BxOpcodeGroupSSE_0f60 : list BxOpcodeInfo_t := [
  insn 0 BX_IA_PUNPCKLBW_VdqWdq; insn 0 BX_IA_ERROR; insn 0 BX_IA_ERROR].
Definition BxOpcodeGroupSSE_0f61 : list BxOpcodeInfo_t := [
  insn 0 BX_IA_PUNPCKLWD_VdqWdq; insn 0 BX_IA_ERROR; insn 0 BX_IA_ERROR].
Definition BxOpcodeGroupSSE_0f62 : list BxOpcodeInfo_t := [
  insn 0 BX_IA_PUNPCKLDQ_VdqWdq; insn 0 BX_IA_ERROR; insn 0 BX_IA_ERROR].
Definition BxOpcodeGroupSSE_0f63 : list BxOpcodeInfo_t := [
  insn 0 BX_IA_PACKSSWB_VdqWdq; insn 0 BX_IA_ERROR; insn 0 BX_IA_ERROR].
Definition BxOpcodeGroupSSE_0f64 : list BxOpcodeInfo_t := [
  insn 0 BX_IA_PCMPGTB_VdqWdq; insn 0 BX_IA_ERROR; insn 0 BX_IA_ERROR].
Definition BxOpcodeGroupSSE_0f65 : list BxOpcodeInfo_t := [
  insn 0 BX_IA_PCMPGTW_VdqWdq; insn 0 BX_IA_ERROR; insn 0 BX_IA_ERROR].
Definition BxOpcodeGroupSSE_0f66 : list BxOpcodeInfo_t := [
  insn 0 BX_IA_PCMPGTD_VdqWdq; insn 0 BX_IA_ERROR; insn 0 BX_IA_ERROR].
Definition BxOpcodeGroupSSE_0f67 : list BxOpcodeInfo_t := [
  insn 0 BX_IA_PACKUSWB_VdqWdq; insn 0 BX_IA_ERROR; insn 0 BX_IA_ERROR].
Definition BxOpcodeGroupSSE_0f68 : list BxOpcodeInfo_t := [
  insn 0 BX_IA_PUNPCKHBW_VdqWdq; insn 0 BX_IA_ERROR; insn 0 BX_IA_ERROR].
Definition BxOpcodeGroupSSE_0f69 : list BxOpcodeInfo_t := [
  insn 0 BX_IA_PUNPCKHWD_VdqWdq; insn 0 BX_IA_ERROR; insn 0 BX_IA_ERROR].
Definition BxOpcodeGroupSSE_0f6a : list BxOpcodeInfo_t := [
  insn 0 BX_IA_PUNPCKHDQ_VdqWdq; insn 0 BX_IA_ERROR; insn 0 BX_IA_ERROR].
Definition BxOpcodeGroupSSE_0f6b : list BxOpcodeInfo_t := [
  insn 0 BX_IA_PACKSSDW_VdqWdq; insn 0 BX_IA_ERROR; insn 0 BX_IA_ERROR].
Definition BxOpcodeGroupSSE_0f6eR : list BxOpcodeInfo_t := [
  insn 0 BX_IA_MOVD_VdqEdR; insn 0 BX_IA_ERROR; insn 0 BX_IA_ERROR].
Definition BxOpcodeGroupSSE_0f6eM : list BxOpcodeInfo_t := [
  insn 0 BX_IA_MOVD_VdqEdM; insn 0 BX_IA_ERROR; insn 0 BX_IA_ERROR].
Definition BxOpcodeGroupSSE_0f6fR : list BxOpcodeInfo_t := [
  insn 0 BX_IA_MOVDQA_VdqWdqR; insn 0 BX_IA_ERROR; insn 0 BX_IA_MOVDQU_VdqWdqR].
Definition BxOpcodeGroupSSE_0f6fM : list BxOpcodeInfo_t := [
  insn 0 BX_IA_MOVDQA_VdqWdqM; insn 0 BX_IA_ERROR; insn 0 BX_IA_MOVDQU_VdqWdqM].
Definition BxOpcodeGroupSSE_0f70 : list BxOpcodeInfo_t := [
  insn 0 BX_IA_PSHUFD_VdqWdqIb; insn 0 BX_IA_PSHUFLW_VdqWdqIb; insn 0 BX_IA_PSHUFHW_VdqWdqIb].
Definition BxOpcodeGroupSSE_0f74 : list BxOpcodeInfo_t := [
  insn 0 BX_IA_PCMPEQB_VdqWdq; insn 0 BX_IA_ERROR; insn 0 BX_IA_ERROR].
Definition BxOpcodeGroupSSE_0f75 : list BxOpcodeInfo_t := [
  insn 0 BX_IA_PCMPEQW_VdqWdq; insn 0 BX_IA_ERROR; insn 0 BX_IA_ERROR].
Definition BxOpcodeGroupSSE_0f76 : list BxOpcodeInfo_t := [
  insn 0 BX_IA_PCMPEQD_VdqWdq; insn 0 BX_IA_ERROR; insn 0 BX_IA_ERROR].
Definition BxOpcodeGroupSSE_0f7c : list BxOpcodeInfo_t := [
  insn 0 BX_IA_HADDPD_VpdWpd; insn 0 BX_IA_HADDPS_VpsWps; insn 0 BX_IA_ERROR].
Definition BxOpcodeGroupSSE_0f7d : list BxOpcodeInfo_t := [
  insn 0 BX_IA_HSUBPD_VpdWpd; insn 0 BX_IA_HSUBPS_VpsWps; insn 0 BX_IA_ERROR].
Definition BxOpcodeGroupSSE_0f7eR : list BxOpcodeInfo_t := [
  insn 0 BX_IA_MOVD_EdVdR; insn 0 BX_IA_ERROR; insn 0 BX_IA_MOVQ_VqWqR].
Definition BxOpcodeGroupSSE_0f7eM : list BxOpcodeInfo_t := [
  insn 0 BX_IA_MOVD_EdVdM; insn 0 BX_IA_ERROR; insn 0 BX_IA_MOVQ_VqWqM].
Definition BxOpcodeGroupSSE_0f7fR : list BxOpcodeInfo_t := [
  insn 0 BX_IA_MOVDQA_WdqVdqR; insn 0 BX_IA_ERROR; insn 0 BX_IA_MOVDQU_WdqVdqR].
Definition BxOpcodeGroupSSE_0f7fM : list BxOpcodeInfo_t := [
  insn 0 BX_IA_MOVDQA_WdqVdqM; insn 0 BX_IA_ERROR; insn 0 BX_IA_MOVDQU_WdqVdqM].
Definition BxOpcodeGroupSSE_0fc2 : list BxOpcodeInfo_t := [
  insn 0 BX_IA_CMPPD_VpdWpdIb; insn 0 BX_IA_CMPSD_VsdWsdIb; insn 0 BX_IA_CMPSS_VssWssIb].
Definition BxOpcodeGroupSSE_0fc4 : list BxOpcodeInfo_t := [
  insn 0 BX_IA_PINSRW_VdqEwIb; insn 0 BX_IA_ERROR; insn 0 BX_IA_ERROR].
Definition BxOpcodeGroupSSE_0fc5R : list BxOpcodeInfo_t := [
  insn 0 BX_IA_PEXTRW_GdUdqIb; insn 0 BX_IA_ERROR; insn 0 BX_IA_ERROR].
Definition BxOpcodeGroupSSE_0fc6 : list BxOpcodeInfo_t := [
  insn 0 BX_IA_SHUFPD_VpdWpdIb; insn 0 BX_IA_ERROR; insn 0 BX_IA_ERROR].
Definition BxOpcodeGroupSSE_0fd0 : list BxOpcodeInfo_t := [
  insn 0 BX_IA_ADDSUBPD_VpdWpd; insn 0 BX_IA_ADDSUBPS_VpsWps; insn 0 BX_IA_ERROR].
Definition BxOpcodeGroupSSE_0fd1 : list BxOpcodeInfo_t := [
  insn 0 BX_IA_PSRLW_VdqWdq; insn 0 BX_IA_ERROR; insn 0 BX_IA_ERROR].
Definition BxOpcodeGroupSSE_0fd2 : list BxOpcodeInfo_t := [
  insn 0 BX_IA_PSRLD_VdqWdq; insn 0 BX_IA_ERROR; insn 0 BX_IA_ERROR].
Definition BxOpcodeGroupSSE_0fd3 : list BxOpcodeInfo_t := [
  insn 0 BX_IA_PSRLQ_VdqWdq; insn 0 BX_IA_ERROR; insn 0 BX_IA_ERROR].
Definition BxOpcodeGroupSSE_0fd4 : list BxOpcodeInfo_t := [
  insn 0 BX_IA_PADDQ_VdqWdq; insn 0 BX_IA_ERROR; insn 0 BX_IA_ERROR].
Definition BxOpcodeGroupSSE_0fd5 : list BxOpcodeInfo_t := [
  insn 0 BX_IA_PMULLW_VdqWdq; insn 0 BX_IA_ERROR; insn 0 BX_IA_ERROR].
Definition BxOpcodeGroupSSE_0fd6R : list BxOpcodeInfo_t := [
  insn 0 BX_IA_MOVQ_WqVqR; insn 0 BX_IA_MOVDQ2Q_PqVRq; insn 0 BX_IA_MOVQ2DQ_VdqQq].
Definition BxOpcodeGroupSSE_0fd7 : list BxOpcodeInfo_t := [
  insn 0 BX_IA_PMOVMSKB_GdUdq; insn 0 BX_IA_ERROR; insn 0 BX_IA_ERROR].
Definition BxOpcodeGroupSSE_0fd8 : list BxOpcodeInfo_t := [
  insn 0 BX_IA_PSUBUSB_VdqWdq; insn 0 BX_IA_ERROR; insn 0 BX_IA_ERROR].
Definition BxOpcodeGroupSSE_0fd9 : list BxOpcodeInfo_t := [
  insn 0 BX_IA_PSUBUSW_VdqWdq; insn 0 BX_IA_ERROR; insn 0 BX_IA_ERROR].
Definition BxOpcodeGroupSSE_0fda : list BxOpcodeInfo_t := [
  insn 0 BX_IA_PMINUB_VdqWdq; insn 0 BX_IA_ERROR; insn 0 BX_IA_ERROR].
Definition BxOpcodeGroupSSE_0fdb : list BxOpcodeInfo_t := [
  insn 0 BX_IA_PAND_VdqWdq; insn 0 BX_IA_ERROR; insn 0 BX_IA_ERROR].
Definition BxOpcodeGroupSSE_0fdc : list BxOpcodeInfo_t := [
  insn 0 BX_IA_PADDUSB_VdqWdq; insn 0 BX_IA_ERROR; insn 0 BX_IA_ERROR].
Definition BxOpcodeGroupSSE_0fdd : list BxOpcodeInfo_t := [
  insn 0 BX_IA_PADDUSW_VdqWdq; insn 0 BX_IA_ERROR; insn 0 BX_IA_ERROR].
Definition BxOpcodeGroupSSE_0fde : list BxOpcodeInfo_t := [
  insn 0 BX_IA_PMAXUB_VdqWdq; insn 0 BX_IA_ERROR; insn 0 BX_IA_ERROR].
Definition BxOpcodeGroupSSE_0fdf : list BxOpcodeInfo_t := [
  insn 0 BX_IA_PANDN_VdqWdq; insn 0 BX_IA_ERROR; insn 0 BX_IA_ERROR].
Definition BxOpcodeGroupSSE_0fe0 : list BxOpcodeInfo_t := [
  insn 0 BX_IA_PAVGB_VdqWdq; insn 0 BX_IA_ERROR; insn 0 BX_IA_ERROR].
Definition BxOpcodeGroupSSE_0fe1 : list BxOpcodeInfo_t := [
  insn 0 BX_IA_PSRAW_VdqWdq; insn 0 BX_IA_ERROR; insn 0 BX_IA_ERROR].
Definition BxOpcodeGroupSSE_0fe2 : list BxOpcodeInfo_t := [
  insn 0 BX_IA_PSRAD_VdqWdq; insn 0 BX_IA_ERROR; insn 0 BX_IA_ERROR].
Definition BxOpcodeGroupSSE_0fe3 : list BxOpcodeInfo_t := [
  insn 0 BX_IA_PAVGW_VdqWdq; insn 0 BX_IA_ERROR; insn 0 BX_IA_ERROR].
Definition BxOpcodeGroupSSE_0fe4 : list BxOpcodeInfo_t := [
  insn 0 BX_IA_PMULHUW_VdqWdq; insn 0 BX_IA_ERROR; insn 0 BX_IA_ERROR].
Definition BxOpcodeGroupSSE_0fe5 : list BxOpcodeInfo_t := [
  insn 0 BX_IA_PMULHW_VdqWdq; insn 0 BX_IA_ERROR; insn 0 BX_IA_ERROR].
Definition BxOpcodeGroupSSE_0fe6 : list BxOpcodeInfo_t := [
  insn 0 BX_IA_CVTTPD2DQ_VqWpd; insn 0 BX_IA_CVTPD2DQ_VqWpd; insn 0 BX_IA_CVTDQ2PD_VpdWq].
Definition BxOpcodeGroupSSE_0fe7M : list BxOpcodeInfo_t := [
  insn 0 BX_IA_MOVNTDQ_MdqVdq; insn 0 BX_IA_ERROR; insn 0 BX_IA_ERROR].
Definition BxOpcodeGroupSSE_0fe8 : list BxOpcodeInfo_t := [
  insn 0 BX_IA_PSUBSB_VdqWdq; insn 0 BX_IA_ERROR; insn 0 BX_IA_ERROR].
Definition BxOpcodeGroupSSE_0fe9 : list BxOpcodeInfo_t := [
  insn 0 BX_IA_PSUBSW_VdqWdq; insn 0 BX_IA_ERROR; insn 0 BX_IA_ERROR].
Definition BxOpcodeGroupSSE_0fea : list BxOpcodeInfo_t := [
  insn 0 BX_IA_PMINSW_VdqWdq; insn 0 BX_IA_ERROR; insn 0 BX_IA_ERROR].
Definition BxOpcodeGroupSSE_0feb : list BxOpcodeInfo_t := [
  insn 0 BX_IA_POR_VdqWdq; insn 0 BX_IA_ERROR; insn 0 BX_IA_ERROR].
Definition BxOpcodeGroupSSE_0fec : list BxOpcodeInfo_t := [
  insn 0 BX_IA_PADDSB_VdqWdq; insn 0 BX_IA_ERROR; insn 0 BX_IA_ERROR].
Definition BxOpcodeGroupSSE_0fed : list BxOpcodeInfo_t := [
  insn 0 BX_IA_PADDSW_VdqWdq; insn 0 BX_IA_ERROR; insn 0 BX_IA_ERROR].
Definition BxOpcodeGroupSSE_0fee : list BxOpcodeInfo_t := [
  insn 0 BX_IA_PMAXSW_VdqWdq; insn 0 BX_IA_ERROR; insn 0 BX_IA_ERROR].
Definition BxOpcodeGroupSSE_0fef : list BxOpcodeInfo_t := [
  insn 0 BX_IA_PXOR_VdqWdq; insn 0 BX_IA_ERROR; insn 0 BX_IA_ERROR].
Definition BxOpcodeGroupSSE_0ff1 : list BxOpcodeInfo_t := [
  insn 0 BX_IA_PSLLW_VdqWdq; insn 0 BX_IA_ERROR; insn 0 BX_IA_ERROR].
Definition BxOpcodeGroupSSE_0ff2 : list BxOpcodeInfo_t := [
  insn 0 BX_IA_PSLLD_VdqWdq; insn 0 BX_IA_ERROR; insn 0 BX_IA_ERROR].
Definition BxOpcodeGroupSSE_0ff3 : list BxOpcodeInfo_t := [
  insn 0 BX_IA_PSLLQ_VdqWdq; insn 0 BX_IA_ERROR; insn 0 BX_IA_ERROR].
Definition BxOpcodeGroupSSE_0ff4 : list BxOpcodeInfo_t := [
  insn 0 BX_IA_PMULUDQ_VdqWdq; insn 0 BX_IA_ERROR; insn 0 BX_IA_ERROR].
Definition BxOpcodeGroupSSE_0ff5 : list BxOpcodeInfo_t := [
  insn 0 BX_IA_PMADDWD_VdqWdq; insn 0 BX_IA_ERROR; insn 0 BX_IA_ERROR].
Definition BxOpcodeGroupSSE_0ff6 : list BxOpcodeInfo_t := [
  insn 0 BX_IA_PSADBW_VdqWdq; insn 0 BX_IA_ERROR; insn 0 BX_IA_ERROR].
Definition BxOpcodeGroupSSE_0ff7R : list BxOpcodeInfo_t := [
  insn 0 BX_IA_MASKMOVDQU_VdqUdq; insn 0 BX_IA_ERROR; insn 0 BX_IA_ERROR].
Definition BxOpcodeGroupSSE_0ff8 : list BxOpcodeInfo_t := [
  insn 0 BX_IA_PSUBB_VdqWdq; insn 0 BX_IA_ERROR; insn 0 BX_IA_ERROR].
Definition BxOpcodeGroupSSE_0ff9 : list BxOpcodeInfo_t := [
  insn 0 BX_IA_PSUBW_VdqWdq; insn 0 BX_IA_ERROR; insn 0 BX_IA_ERROR].
Definition BxOpcodeGroupSSE_0ffa : list BxOpcodeInfo_t := [
  insn 0 BX_IA_PSUBD_VdqWdq; insn 0 BX_IA_ERROR; insn 0 BX_IA_ERROR].
Definition BxOpcodeGroupSSE_0ffb : list BxOpcodeInfo_t := [
  insn 0 BX_IA_PSUBQ_VdqWdq; insn 0 BX_IA_ERROR; insn 0 BX_IA_ERROR].
Definition BxOpcodeGroupSSE_0ffc : list BxOpcodeInfo_t := [
  insn 0 BX_IA_PADDB_VdqWdq; insn 0 BX_IA_ERROR; insn 0 BX_IA_ERROR].
Definition BxOpcodeGroupSSE_0ffd : list BxOpcodeInfo_t := [
  insn 0 BX_IA_PADDW_VdqWdq; insn 0 BX_IA_ERROR; insn 0 BX_IA_ERROR].
Definition BxOpcodeGroupSSE_0ffe : list BxOpcodeInfo_t := [
  insn 0 BX_IA_PADDD_VdqWdq; insn 0 BX_IA_ERROR; insn 0 BX_IA_ERROR].
Definition BxOpcodeGroupSSE_G1202 : list BxOpcodeInfo_t := [
  insn 0 BX_IA_PSRLW_UdqIb; insn 0 BX_IA_ERROR; insn 0 BX_IA_ERROR].
Definition BxOpcodeGroupSSE_G1204 : list BxOpcodeInfo_t := [
  insn 0 BX_IA_PSRAW_UdqIb; insn 0 BX_IA_ERROR; insn 0 BX_IA_ERROR].
Definition BxOpcodeGroupSSE_G1206 : list BxOpcodeInfo_t := [
  insn 0 BX_IA_PSLLW_UdqIb; insn 0 BX_IA_ERROR; insn 0 BX_IA_ERROR].
Definition BxOpcodeGroupSSE_G1302 : list BxOpcodeInfo_t := [
  insn 0 BX_IA_PSRLD_UdqIb; insn 0 BX_IA_ERROR; insn 0 BX_IA_ERROR].
Definition BxOpcodeGroupSSE_G1304 : list BxOpcodeInfo_t := [
  insn 0 BX_IA_PSRAD_UdqIb; insn 0 BX_IA_ERROR; insn 0 BX_IA_ERROR].
Definition BxOpcodeGroupSSE_G1306 : list BxOpcodeInfo_t := [
  insn 0 BX_IA_PSLLD_UdqIb; insn 0 BX_IA_ERROR; insn 0 BX_IA_ERROR].
Definition BxOpcodeGroupSSE_G1402 : list BxOpcodeInfo_t := [
  insn 0 BX_IA_PSRLQ_UdqIb; insn 0 BX_IA_ERROR; insn 0 BX_IA_ERROR].
Definition BxOpcodeGroupSSE_G1406 : list BxOpcodeInfo_t := [
  insn 0 BX_IA_PSLLQ_UdqIb; insn 0 BX_IA_ERROR; insn 0 BX_IA_ERROR].
Definition BxOpcodeGroupSSE_G9VMX6 : list BxOpcodeInfo_t := [
  insn 0 BX_IA_VMCLEAR_Mq; insn 0 BX_IA_ERROR; insn 0 BX_IA_VMXON_Mq].
Definition BxOpcodeGroupSSE_0f3800 : list BxOpcodeInfo_t := [
  insn 0 BX_IA_PSHUFB_VdqWdq; insn 0 BX_IA_ERROR; insn 0 BX_IA_ERROR].
Definition BxOpcodeGroupSSE_0f3801 : list BxOpcodeInfo_t := [
  insn 0 BX_IA_PHADDW_VdqWdq; insn 0 BX_IA_ERROR; insn 0 BX_IA_ERROR].
Definition BxOpcodeGroupSSE_0f3802 : list BxOpcodeInfo_t := [
  insn 0 BX_IA_PHADDD_VdqWdq; insn 0 BX_IA_ERROR; insn 0 BX_IA_ERROR].
Definition BxOpcodeGroupSSE_0f3803 : list BxOpcodeInfo_t := [
  insn 0 BX_IA_PHADDSW_VdqWdq; insn 0 BX_IA_ERROR; insn 0 BX_IA_ERROR].
Definition BxOpcodeGroupSSE_0f3804 : list BxOpcodeInfo_t := [
  insn 0 BX_IA_PMADDUBSW_VdqWdq; insn 0 BX_IA_ERROR; insn 0 BX_IA_ERROR].
Definition BxOpcodeGroupSSE_0f3805 : list BxOpcodeInfo_t := [
  insn 0 BX_IA_PHSUBW_VdqWdq; insn 0 BX_IA_ERROR; insn 0 BX_IA_ERROR].
Definition BxOpcodeGroupSSE_0f3806 : list BxOpcodeInfo_t := [
  insn 0 BX_IA_PHSUBD_VdqWdq; insn 0 BX_IA_ERROR; insn 0 BX_IA_ERROR].
Definition BxOpcodeGroupSSE_0f3807 : list BxOpcodeInfo_t := [
  insn 0 BX_IA_PHSUBSW_VdqWdq; insn 0 BX_IA_ERROR; insn 0 BX_IA_ERROR].
Definition BxOpcodeGroupSSE_0f3808 : list BxOpcodeInfo_t := [
  insn 0 BX_IA_PSIGNB_VdqWdq; insn 0 BX_IA_ERROR; insn 0 BX_IA_ERROR].
Definition BxOpcodeGroupSSE_0f3809 : list BxOpcodeInfo_t := [
  insn 0 BX_IA_PSIGNW_VdqWdq; insn 0 BX_IA_ERROR; insn 0 BX_IA_ERROR].
Definition BxOpcodeGroupSSE_0f380a : list BxOpcodeInfo_t := [
  insn 0 BX_IA_PSIGND_VdqWdq; insn 0 BX_IA_ERROR; insn 0 BX_IA_ERROR].
Definition BxOpcodeGroupSSE_0f380b : list BxOpcodeInfo_t := [
  insn 0 BX_IA_PMULHRSW_VdqWdq; insn 0 BX_IA_ERROR; insn 0 BX_IA_ERROR].
Definition BxOpcodeGroupSSE_0f381c : list BxOpcodeInfo_t := [
  insn 0 BX_IA_PABSB_VdqWdq; insn 0 BX_IA_ERROR; insn 0 BX_IA_ERROR].
Definition BxOpcodeGroupSSE_0f381d : list BxOpcodeInfo_t := [
  insn 0 BX_IA_PABSW_VdqWdq; insn 0 BX_IA_ERROR; insn 0 BX_IA_ERROR].
Definition BxOpcodeGroupSSE_0f381e : list BxOpcodeInfo_t := [
  insn 0 BX_IA_PABSD_VdqWdq; insn 0 BX_IA_ERROR; insn 0 BX_IA_ERROR].
Definition BxOpcodeGroupSSE_0f38f0 : list BxOpcodeInfo_t := [
  insn 0 BX_IA_ERROR; insn 0 BX_IA_CRC32_GdEb; insn 0 BX_IA_ERROR].
Definition BxOpcodeGroupOsize0f38f0 : list BxOpcodeInfo_t := [
  opcode_info BxPrefixSSE BX_IA_MOVBE_GwEw BxOpcodeGroupSSE_0f38f0;
  opcode_info BxPrefixSSE BX_IA_MOVBE_GdEd BxOpcodeGroupSSE_0f38f0].
Definition BxOpcodeGroupSSE_0f38f1w : list BxOpcodeInfo_t := [
  insn 0 BX_IA_ERROR; insn 0 BX_IA_CRC32_GdEw; insn 0 BX_IA_ERROR].
Definition BxOpcodeGroupSSE_0f38f1d : list BxOpcodeInfo_t := [
  insn 0 BX_IA_ERROR; insn 0 BX_IA_CRC32_GdEd; insn 0 BX_IA_ERROR].
Definition BxOpcodeGroupOsize0f38f1 : list BxOpcodeInfo_t := [
  opcode_info BxPrefixSSE BX_IA_MOVBE_EwGw BxOpcodeGroupSSE_0f38f1w;
  opcode_info BxPrefixSSE BX_IA_MOVBE_EdGd BxOpcodeGroupSSE_0f38f1d].
Definition BxOpcodeGroupSSE_0f3a0f : list BxOpcodeInfo_t := [
  insn 0 BX_IA_PALIGNR_VdqWdqIb; insn 0 BX_IA_ERROR; insn 0 BX_IA_ERROR].
Definition BxOpcode3ByteTable0f38 : list BxOpcodeInfo_t := [
  opcode_info BxPrefixSSE BX_IA_PSHUFB_PqQq BxOpcodeGroupSSE_0f3800;
  opcode_info BxPrefixSSE BX_IA_PHADDW_PqQq BxOpcodeGroupSSE_0f3801;
  opcode_info BxPrefixSSE BX_IA_PHADDD_PqQq BxOpcodeGroupSSE_0f3802;
  opcode_info BxPrefixSSE BX_IA_PHADDSW_PqQq BxOpcodeGroupSSE_0f3803;
  opcode_info BxPrefixSSE BX_IA_PMADDUBSW_PqQq BxOpcodeGroupSSE_0f3804;
  opcode_info BxPrefixSSE BX_IA_PHSUBW_PqQq BxOpcodeGroupSSE_0f3805;
  opcode_info BxPrefixSSE BX_IA_PHSUBD_PqQq BxOpcodeGroupSSE_0f3806;
  opcode_info BxPrefixSSE BX_IA_PHSUBSW_PqQq BxOpcodeGroupSSE_0f3807;
  opcode_info BxPrefixSSE BX_IA_PSIGNB_PqQq BxOpcodeGroupSSE_0f3808;
  opcode_info BxPrefixSSE BX_IA_PSIGNW_PqQq BxOpcodeGroupSSE_0f3809;
  opcode_info BxPrefixSSE BX_IA_PSIGND_PqQq BxOpcodeGroupSSE_0f380a;
  opcode_info BxPrefixSSE BX_IA_PMULHRSW_PqQq BxOpcodeGroupSSE_0f380b; insn 0 BX_IA_ERROR; insn 0 BX_IA_ERROR;
  insn 0 BX_IA_ERROR; insn 0 BX_IA_ERROR;
  insn BxPrefixSSE66 BX_IA_PBLENDVB_VdqWdq; insn 0 BX_IA_ERROR; insn 0 BX_IA_ERROR; insn 0 BX_IA_ERROR;
  insn BxPrefixSSE66 BX_IA_BLENDVPS_VpsWps; insn BxPrefixSSE66 BX_IA_BLENDVPD_VpdWpd; insn 0 BX_IA_ERROR;
  insn BxPrefixSSE66 BX_IA_PTEST_VdqWdq; insn 0 BX_IA_ERROR; insn 0 BX_IA_ERROR; insn 0 BX_IA_ERROR;
  insn 0 BX_IA_ERROR; opcode_info BxPrefixSSE BX_IA_PABSB_PqQq BxOpcodeGroupSSE_0f381c;
  opcode_info BxPrefixSSE BX_IA_PABSW_PqQq BxOpcodeGroupSSE_0f381d;
  opcode_info BxPrefixSSE BX_IA_PABSD_PqQq BxOpcodeGroupSSE_0f381e; insn 0 BX_IA_ERROR;
  insn BxPrefixSSE66 BX_IA_PMOVSXBW_VdqWq; insn BxPrefixSSE66 BX_IA_PMOVSXBD_VdqWd;
  insn BxPrefixSSE66 BX_IA_PMOVSXBQ_VdqWw; insn BxPrefixSSE66 BX_IA_PMOVSXWD_VdqWq;
  insn BxPrefixSSE66 BX_IA_PMOVSXWQ_VdqWd; insn BxPrefixSSE66 BX_IA_PMOVSXDQ_VdqWq; insn 0 BX_IA_ERROR;
  insn 0 BX_IA_ERROR; insn BxPrefixSSE66 BX_IA_PMULDQ_VdqWdq; insn BxPrefixSSE66 BX_IA_PCMPEQQ_VdqWdq;
  insn BxPrefixSSE66 BX_IA_MOVNTDQA_VdqMdq; insn BxPrefixSSE66 BX_IA_PACKUSDW_VdqWdq; insn 0 BX_IA_ERROR;
  insn 0 BX_IA_ERROR; insn 0 BX_IA_ERROR; insn 0 BX_IA_ERROR;
  insn BxPrefixSSE66 BX_IA_PMOVZXBW_VdqWq; insn BxPrefixSSE66 BX_IA_PMOVZXBD_VdqWd;
  insn BxPrefixSSE66 BX_IA_PMOVZXBQ_VdqWw; insn BxPrefixSSE66 BX_IA_PMOVZXWD_VdqWq;
  insn BxPrefixSSE66 BX_IA_PMOVZXWQ_VdqWd; insn BxPrefixSSE66 BX_IA_PMOVZXDQ_VdqWq; insn 0 BX_IA_ERROR;
  insn BxPrefixSSE66 BX_IA_PCMPGTQ_VdqWdq; insn BxPrefixSSE66 BX_IA_PMINSB_VdqWdq;
  insn BxPrefixSSE66 BX_IA_PMINSD_VdqWdq; insn BxPrefixSSE66 BX_IA_PMINUW_VdqWdq;
  insn BxPrefixSSE66 BX_IA_PMINUD_VdqWdq; insn BxPrefixSSE66 BX_IA_PMAXSB_VdqWdq;
  insn BxPrefixSSE66 BX_IA_PMAXSD_VdqWdq; insn BxPrefixSSE66 BX_IA_PMAXUW_VdqWdq;
  insn BxPrefixSSE66 BX_IA_PMAXUD_VdqWdq;
  insn BxPrefixSSE66 BX_IA_PMULLD_VdqWdq; insn BxPrefixSSE66 BX_IA_PHMINPOSUW_VdqWdq; insn 0 BX_IA_ERROR;
  insn 0 BX_IA_ERROR; insn 0 BX_IA_ERROR; insn 0 BX_IA_ERROR; insn 0 BX_IA_ERROR; insn 0 BX_IA_ERROR;
  insn 0 BX_IA_ERROR; insn 0 BX_IA_ERROR; insn 0 BX_IA_ERROR; insn 0 BX_IA_ERROR; insn 0 BX_IA_ERROR;
  insn 0 BX_IA_ERROR; insn 0 BX_IA_ERROR; insn 0 BX_IA_ERROR;
  insn 0 BX_IA_ERROR; insn 0 BX_IA_ERROR; insn 0 BX_IA_ERROR; insn 0 BX_IA_ERROR; insn 0 BX_IA_ERROR;
  insn 0 BX_IA_ERROR; insn 0 BX_IA_ERROR; insn 0 BX_IA_ERROR; insn 0 BX_IA_ERROR; insn 0 BX_IA_ERROR;
  insn 0 BX_IA_ERROR; insn 0 BX_IA_ERROR; insn 0 BX_IA_ERROR; insn 0 BX_IA_ERROR; insn 0 BX_IA_ERROR;
  insn 0 BX_IA_ERROR;
  insn 0 BX_IA_ERROR; insn 0 BX_IA_ERROR; insn 0 BX_IA_ERROR; insn 0 BX_IA_ERROR; insn 0 BX_IA_ERROR;
  insn 0 BX_IA_ERROR; insn 0 BX_IA_ERROR; insn 0 BX_IA_ERROR; insn 0 BX_IA_ERROR; insn 0 BX_IA_ERROR;
  insn 0 BX_IA_ERROR; insn 0 BX_IA_ERROR; insn 0 BX_IA_ERROR; insn 0 BX_IA_ERROR; insn 0 BX_IA_ERROR;
  insn 0 BX_IA_ERROR;
  insn 0 BX_IA_ERROR; insn 0 BX_IA_ERROR; insn 0 BX_IA_ERROR; insn 0 BX_IA_ERROR; insn 0 BX_IA_ERROR;
  insn 0 BX_IA_ERROR; insn 0 BX_IA_ERROR; insn 0 BX_IA_ERROR; insn 0 BX_IA_ERROR; insn 0 BX_IA_ERROR;
  insn 0 BX_IA_ERROR; insn 0 BX_IA_ERROR; insn 0 BX_IA_ERROR; insn 0 BX_IA_ERROR; insn 0 BX_IA_ERROR;
  insn 0 BX_IA_ERROR;
  insn (Z.lor BxPrefixSSE66 BxTraceEnd) BX_IA_INVEPT; insn (Z.lor BxPrefixSSE66 BxTraceEnd) BX_IA_INVVPID;
  insn 0 BX_IA_ERROR; insn 0 BX_IA_ERROR; insn 0 BX_IA_ERROR; insn 0 BX_IA_ERROR; insn 0 BX_IA_ERROR;
  insn 0 BX_IA_ERROR; insn 0 BX_IA_ERROR; insn 0 BX_IA_ERROR; insn 0 BX_IA_ERROR; insn 0 BX_IA_ERROR;
  insn 0 BX_IA_ERROR; insn 0 BX_IA_ERROR; insn 0 BX_IA_ERROR; insn 0 BX_IA_ERROR;
  insn 0 BX_IA_ERROR; insn 0 BX_IA_ERROR; insn 0 BX_IA_ERROR; insn 0 BX_IA_ERROR; insn 0 BX_IA_ERROR;
  insn 0 BX_IA_ERROR; insn 0 BX_IA_ERROR; insn 0 BX_IA_ERROR; insn 0 BX_IA_ERROR; insn 0 BX_IA_ERROR;
  insn 0 BX_IA_ERROR; insn 0 BX_IA_ERROR; insn 0 BX_IA_ERROR; insn 0 BX_IA_ERROR; insn 0 BX_IA_ERROR;
  insn 0 BX_IA_ERROR;
  insn 0 BX_IA_ERROR; insn 0 BX_IA_ERROR; insn 0 BX_IA_ERROR; insn 0 BX_IA_ERROR; insn 0 BX_IA_ERROR;
  insn 0 BX_IA_ERROR; insn 0 BX_IA_ERROR; insn 0 BX_IA_ERROR; insn 0 BX_IA_ERROR; insn 0 BX_IA_ERROR;
  insn 0 BX_IA_ERROR; insn 0 BX_IA_ERROR; insn 0 BX_IA_ERROR; insn 0 BX_IA_ERROR; insn 0 BX_IA_ERROR;
  insn 0 BX_IA_ERROR;
  insn 0 BX_IA_ERROR; insn 0 BX_IA_ERROR; insn 0 BX_IA_ERROR; insn 0 BX_IA_ERROR; insn 0 BX_IA_ERROR;
  insn 0 BX_IA_ERROR; insn 0 BX_IA_ERROR; insn 0 BX_IA_ERROR; insn 0 BX_IA_ERROR; insn 0 BX_IA_ERROR;
  insn 0 BX_IA_ERROR; insn 0 BX_IA_ERROR; insn 0 BX_IA_ERROR; insn 0 BX_IA_ERROR; insn 0 BX_IA_ERROR;
  insn 0 BX_IA_ERROR;
  insn 0 BX_IA_ERROR; insn 0 BX_IA_ERROR; insn 0 BX_IA_ERROR; insn 0 BX_IA_ERROR; insn 0 BX_IA_ERROR;
  insn 0 BX_IA_ERROR; insn 0 BX_IA_ERROR; insn 0 BX_IA_ERROR; insn 0 BX_IA_ERROR; insn 0 BX_IA_ERROR;
  insn 0 BX_IA_ERROR; insn 0 BX_IA_ERROR; insn 0 BX_IA_ERROR; insn 0 BX_IA_ERROR; insn 0 BX_IA_ERROR;
  insn 0 BX_IA_ERROR;
  insn 0 BX_IA_ERROR; insn 0 BX_IA_ERROR; insn 0 BX_IA_ERROR; insn 0 BX_IA_ERROR; insn 0 BX_IA_ERROR;
  insn 0 BX_IA_ERROR; insn 0 BX_IA_ERROR; insn 0 BX_IA_ERROR; insn 0 BX_IA_ERROR; insn 0 BX_IA_ERROR;
  insn 0 BX_IA_ERROR; insn BxPrefixSSE66 BX_IA_AESIMC_VdqWdq; insn BxPrefixSSE66 BX_IA_AESENC_VdqWdq;
  insn BxPrefixSSE66 BX_IA_AESENCLAST_VdqWdq; insn BxPrefixSSE66 BX_IA_AESDEC_VdqWdq;
  insn BxPrefixSSE66 BX_IA_AESDECLAST_VdqWdq;
  insn 0 BX_IA_ERROR; insn 0 BX_IA_ERROR; insn 0 BX_IA_ERROR; insn 0 BX_IA_ERROR; insn 0 BX_IA_ERROR;
  insn 0 BX_IA_ERROR; insn 0 BX_IA_ERROR; insn 0 BX_IA_ERROR; insn 0 BX_IA_ERROR; insn 0 BX_IA_ERROR;
  insn 0 BX_IA_ERROR; insn 0 BX_IA_ERROR; insn 0 BX_IA_ERROR; insn 0 BX_IA_ERROR; insn 0 BX_IA_ERROR;
  insn 0 BX_IA_ERROR;
  opcode_info BxOSizeGrp BX_IA_ERROR BxOpcodeGroupOsize0f38f0;
  opcode_info BxOSizeGrp BX_IA_ERROR BxOpcodeGroupOsize0f38f1; insn 0 BX_IA_ERROR; insn 0 BX_IA_ERROR;
  insn 0 BX_IA_ERROR; insn 0 BX_IA_ERROR; insn 0 BX_IA_ERROR; insn 0 BX_IA_ERROR; insn 0 BX_IA_ERROR;
  insn 0 BX_IA_ERROR; insn 0 BX_IA_ERROR; insn 0 BX_IA_ERROR; insn 0 BX_IA_ERROR; insn 0 BX_IA_ERROR;
  insn 0 BX_IA_ERROR; insn 0 BX_IA_ERROR].
Definition BxOpcode3ByteTable0f3a : list BxOpcodeInfo_t := [
  insn 0 BX_IA_ERROR; insn 0 BX_IA_ERROR; insn 0 BX_IA_ERROR; insn 0 BX_IA_ERROR; insn 0 BX_IA_ERROR;
  insn 0 BX_IA_ERROR; insn 0 BX_IA_ERROR; insn 0 BX_IA_ERROR; insn BxPrefixSSE66 BX_IA_ROUNDPS_VpsWpsIb;
  insn BxPrefixSSE66 BX_IA_ROUNDPD_VpdWpdIb; insn BxPrefixSSE66 BX_IA_ROUNDSS_VssWssIb;
  insn BxPrefixSSE66 BX_IA_ROUNDSD_VsdWsdIb; insn BxPrefixSSE66 BX_IA_BLENDPS_VpsWpsIb;
  insn BxPrefixSSE66 BX_IA_BLENDPD_VpdWpdIb; insn BxPrefixSSE66 BX_IA_PBLENDW_VdqWdqIb;
  opcode_info BxPrefixSSE BX_IA_PALIGNR_PqQqIb BxOpcodeGroupSSE_0f3a0f;
  insn 0 BX_IA_ERROR; insn 0 BX_IA_ERROR; insn 0 BX_IA_ERROR; insn 0 BX_IA_ERROR;
  insn BxPrefixSSE66 BX_IA_PEXTRB_EbdVdqIb; insn BxPrefixSSE66 BX_IA_PEXTRW_EwdVdqIb;
  insn BxPrefixSSE66 BX_IA_PEXTRD_EdVdqIb; insn BxPrefixSSE66 BX_IA_EXTRACTPS_EdVpsIb; insn 0 BX_IA_ERROR;
  insn 0 BX_IA_ERROR; insn 0 BX_IA_ERROR; insn 0 BX_IA_ERROR; insn 0 BX_IA_ERROR; insn 0 BX_IA_ERROR;
  insn 0 BX_IA_ERROR; insn 0 BX_IA_ERROR;
  insn BxPrefixSSE66 BX_IA_PINSRB_VdqEbIb; insn BxPrefixSSE66 BX_IA_INSERTPS_VpsWssIb;
  insn BxPrefixSSE66 BX_IA_PINSRD_VdqEdIb; insn 0 BX_IA_ERROR; insn 0 BX_IA_ERROR; insn 0 BX_IA_ERROR;
  insn 0 BX_IA_ERROR; insn 0 BX_IA_ERROR; insn 0 BX_IA_ERROR; insn 0 BX_IA_ERROR; insn 0 BX_IA_ERROR;
  insn 0 BX_IA_ERROR; insn 0 BX_IA_ERROR; insn 0 BX_IA_ERROR; insn 0 BX_IA_ERROR; insn 0 BX_IA_ERROR;
  insn 0 BX_IA_ERROR; insn 0 BX_IA_ERROR; insn 0 BX_IA_ERROR; insn 0 BX_IA_ERROR; insn 0 BX_IA_ERROR;
  insn 0 BX_IA_ERROR; insn 0 BX_IA_ERROR; insn 0 BX_IA_ERROR; insn 0 BX_IA_ERROR; insn 0 BX_IA_ERROR;
  insn 0 BX_IA_ERROR; insn 0 BX_IA_ERROR; insn 0 BX_IA_ERROR; insn 0 BX_IA_ERROR; insn 0 BX_IA_ERROR;
  insn 0 BX_IA_ERROR;
  insn BxPrefixSSE66 BX_IA_DPPS_VpsWpsIb; insn BxPrefixSSE66 BX_IA_DPPD_VpdWpdIb;
  insn BxPrefixSSE66 BX_IA_MPSADBW_VdqWdqIb; insn 0 BX_IA_ERROR; insn BxPrefixSSE66 BX_IA_PCLMULQDQ_VdqWdqIb;
  insn 0 BX_IA_ERROR; insn 0 BX_IA_ERROR; insn 0 BX_IA_ERROR; insn 0 BX_IA_ERROR; insn 0 BX_IA_ERROR;
  insn 0 BX_IA_ERROR; insn 0 BX_IA_ERROR; insn 0 BX_IA_ERROR; insn 0 BX_IA_ERROR; insn 0 BX_IA_ERROR;
  insn 0 BX_IA_ERROR;
  insn 0 BX_IA_ERROR; insn 0 BX_IA_ERROR; insn 0 BX_IA_ERROR; insn 0 BX_IA_ERROR; insn 0 BX_IA_ERROR;
  insn 0 BX_IA_ERROR; insn 0 BX_IA_ERROR; insn 0 BX_IA_ERROR; insn 0 BX_IA_ERROR; insn 0 BX_IA_ERROR;
  insn 0 BX_IA_ERROR; insn 0 BX_IA_ERROR; insn 0 BX_IA_ERROR; insn 0 BX_IA_ERROR; insn 0 BX_IA_ERROR;
  insn 0 BX_IA_ERROR;
  insn BxPrefixSSE66 BX_IA_PCMPESTRM_VdqWdqIb; insn BxPrefixSSE66 BX_IA_PCMPESTRI_VdqWdqIb;
  insn BxPrefixSSE66 BX_IA_PCMPISTRM_VdqWdqIb; insn BxPrefixSSE66 BX_IA_PCMPISTRI_VdqWdqIb; insn 0 BX_IA_ERROR;
  insn 0 BX_IA_ERROR; insn 0 BX_IA_ERROR; insn 0 BX_IA_ERROR; insn 0 BX_IA_ERROR; insn 0 BX_IA_ERROR;
  insn 0 BX_IA_ERROR; insn 0 BX_IA_ERROR; insn 0 BX_IA_ERROR; insn 0 BX_IA_ERROR; insn 0 BX_IA_ERROR;
  insn 0 BX_IA_ERROR;
  insn 0 BX_IA_ERROR; insn 0 BX_IA_ERROR; insn 0 BX_IA_ERROR; insn 0 BX_IA_ERROR; insn 0 BX_IA_ERROR;
  insn 0 BX_IA_ERROR; insn 0 BX_IA_ERROR; insn 0 BX_IA_ERROR; insn 0 BX_IA_ERROR; insn 0 BX_IA_ERROR;
  insn 0 BX_IA_ERROR; insn 0 BX_IA_ERROR; insn 0 BX_IA_ERROR; insn 0 BX_IA_ERROR; insn 0 BX_IA_ERROR;
  insn 0 BX_IA_ERROR;
  insn 0 BX_IA_ERROR; insn 0 BX_IA_ERROR; insn 0 BX_IA_ERROR; insn 0 BX_IA_ERROR; insn 0 BX_IA_ERROR;
  insn 0 BX_IA_ERROR; insn 0 BX_IA_ERROR; insn 0 BX_IA_ERROR; insn 0 BX_IA_ERROR; insn 0 BX_IA_ERROR;
  insn 0 BX_IA_ERROR; insn 0 BX_IA_ERROR; insn 0 BX_IA_ERROR; insn 0 BX_IA_ERROR; insn 0 BX_IA_ERROR;
  insn 0 BX_IA_ERROR;
  insn 0 BX_IA_ERROR; insn 0 BX_IA_ERROR; insn 0 BX_IA_ERROR; insn 0 BX_IA_ERROR; insn 0 BX_IA_ERROR;
  insn 0 BX_IA_ERROR; insn 0 BX_IA_ERROR; insn 0 BX_IA_ERROR; insn 0 BX_IA_ERROR; insn 0 BX_IA_ERROR;
  insn 0 BX_IA_ERROR; insn 0 BX_IA_ERROR; insn 0 BX_IA_ERROR; insn 0 BX_IA_ERROR; insn 0 BX_IA_ERROR;
  insn 0 BX_IA_ERROR;
  insn 0 BX_IA_ERROR; insn 0 BX_IA_ERROR; insn 0 BX_IA_ERROR; insn 0 BX_IA_ERROR; insn 0 BX_IA_ERROR;
  insn 0 BX_IA_ERROR; insn 0 BX_IA_ERROR; insn 0 BX_IA_ERROR; insn 0 BX_IA_ERROR; insn 0 BX_IA_ERROR;
  insn 0 BX_IA_ERROR; insn 0 BX_IA_ERROR; insn 0 BX_IA_ERROR; insn 0 BX_IA_ERROR; insn 0 BX_IA_ERROR;
  insn 0 BX_IA_ERROR;
  insn 0 BX_IA_ERROR; insn 0 BX_IA_ERROR; insn 0 BX_IA_ERROR; insn 0 BX_IA_ERROR; insn 0 BX_IA_ERROR;
  insn 0 BX_IA_ERROR; insn 0 BX_IA_ERROR; insn 0 BX_IA_ERROR; insn 0 BX_IA_ERROR; insn 0 BX_IA_ERROR;
  insn 0 BX_IA_ERROR; insn 0 BX_IA_ERROR; insn 0 BX_IA_ERROR; insn 0 BX_IA_ERROR; insn 0 BX_IA_ERROR;
  insn 0 BX_IA_ERROR;
  insn 0 BX_IA_ERROR; insn 0 BX_IA_ERROR; insn 0 BX_IA_ERROR; insn 0 BX_IA_ERROR; insn 0 BX_IA_ERROR;
  insn 0 BX_IA_ERROR; insn 0 BX_IA_ERROR; insn 0 BX_IA_ERROR; insn 0 BX_IA_ERROR; insn 0 BX_IA_ERROR;
  insn 0 BX_IA_ERROR; insn 0 BX_IA_ERROR; insn 0 BX_IA_ERROR; insn 0 BX_IA_ERROR; insn 0 BX_IA_ERROR;
  insn 0 BX_IA_ERROR;
  insn 0 BX_IA_ERROR; insn 0 BX_IA_ERROR; insn 0 BX_IA_ERROR; insn 0 BX_IA_ERROR; insn 0 BX_IA_ERROR;
  insn 0 BX_IA_ERROR; insn 0 BX_IA_ERROR; insn 0 BX_IA_ERROR; insn 0 BX_IA_ERROR; insn 0 BX_IA_ERROR;
  insn 0 BX_IA_ERROR; insn 0 BX_IA_ERROR; insn 0 BX_IA_ERROR; insn 0 BX_IA_ERROR; insn 0 BX_IA_ERROR;
  insn BxPrefixSSE66 BX_IA_AESKEYGENASSIST_VdqWdqIb;
  insn 0 BX_IA_ERROR; insn 0 BX_IA_ERROR; insn 0 BX_IA_ERROR; insn 0 BX_IA_ERROR; insn 0 BX_IA_ERROR;
  insn 0 BX_IA_ERROR; insn 0 BX_IA_ERROR; insn 0 BX_IA_ERROR; insn 0 BX_IA_ERROR; insn 0 BX_IA_ERROR;
  insn 0 BX_IA_ERROR; insn 0 BX_IA_ERROR; insn 0 BX_IA_ERROR; insn 0 BX_IA_ERROR; insn 0 BX_IA_ERROR;
  insn 0 BX_IA_ERROR;
  insn 0 BX_IA_ERROR; insn 0 BX_IA_ERROR; insn 0 BX_IA_ERROR; insn 0 BX_IA_ERROR; insn 0 BX_IA_ERROR;
  insn 0 BX_IA_ERROR; insn 0 BX_IA_ERROR; insn 0 BX_IA_ERROR; insn 0 BX_IA_ERROR; insn 0 BX_IA_ERROR;
  insn 0 BX_IA_ERROR; insn 0 BX_IA_ERROR; insn 0 BX_IA_ERROR; insn 0 BX_IA_ERROR; insn 0 BX_IA_ERROR;
  insn 0 BX_IA_ERROR].

(** ** Groups (cpu/fetchdecode.h) *)

Definition BxOpcodeInfoG1EbIbM : list BxOpcodeInfo_t := [
  insn BxLockable BX_IA_ADD_EbIbM; insn BxLockable BX_IA_OR_EbIbM; insn BxLockable BX_IA_ADC_EbIbM;
  insn BxLockable BX_IA_SBB_EbIbM; insn BxLockable BX_IA_AND_EbIbM; insn BxLockable BX_IA_SUB_EbIbM;
  insn BxLockable BX_IA_XOR_EbIbM; insn 0 BX_IA_CMP_EbIbM].
Definition BxOpcodeInfoG1EbIbR : list BxOpcodeInfo_t := [
  insn 0 BX_IA_ADD_EbIbR; insn 0 BX_IA_OR_EbIbR; insn 0 BX_IA_ADC_EbIbR; insn 0 BX_IA_SBB_EbIbR;
  insn 0 BX_IA_AND_EbIbR; insn 0 BX_IA_SUB_EbIbR; insn 0 BX_IA_XOR_EbIbR; insn 0 BX_IA_CMP_EbIbR].
Definition BxOpcodeInfoG1EwM : list BxOpcodeInfo_t := [
  insn BxLockable BX_IA_ADD_EwIwM; insn BxLockable BX_IA_OR_EwIwM; insn BxLockable BX_IA_ADC_EwIwM;
  insn BxLockable BX_IA_SBB_EwIwM; insn BxLockable BX_IA_AND_EwIwM; insn BxLockable BX_IA_SUB_EwIwM;
  insn BxLockable BX_IA_XOR_EwIwM; insn 0 BX_IA_CMP_EwIwM].
Definition BxOpcodeInfoG1EwR : list BxOpcodeInfo_t := [
  insn 0 BX_IA_ADD_EwIwR; insn 0 BX_IA_OR_EwIwR; insn 0 BX_IA_ADC_EwIwR; insn 0 BX_IA_SBB_EwIwR;
  insn 0 BX_IA_AND_EwIwR; insn 0 BX_IA_SUB_EwIwR; insn 0 BX_IA_XOR_EwIwR; insn 0 BX_IA_CMP_EwIwR].
Definition BxOpcodeInfoG1EdM : list BxOpcodeInfo_t := [
  insn BxLockable BX_IA_ADD_EdIdM; insn BxLockable BX_IA_OR_EdIdM; insn BxLockable BX_IA_ADC_EdIdM;
  insn BxLockable BX_IA_SBB_EdIdM; insn BxLockable BX_IA_AND_EdIdM; insn BxLockable BX_IA_SUB_EdIdM;
  insn BxLockable BX_IA_XOR_EdIdM; insn 0 BX_IA_CMP_EdIdM].
Definition BxOpcodeInfoG1EdR : list BxOpcodeInfo_t := [
  insn 0 BX_IA_ADD_EdIdR; insn 0 BX_IA_OR_EdIdR; insn 0 BX_IA_ADC_EdIdR; insn 0 BX_IA_SBB_EdIdR;
  insn 0 BX_IA_AND_EdIdR; insn 0 BX_IA_SUB_EdIdR; insn 0 BX_IA_XOR_EdIdR; insn 0 BX_IA_CMP_EdIdR].
Definition BxOpcodeInfoG1AEwR : list BxOpcodeInfo_t := [
  insn 0 BX_IA_POP_EwR; insn 0 BX_IA_ERROR; insn 0 BX_IA_ERROR; insn 0 BX_IA_ERROR; insn 0 BX_IA_ERROR;
  insn 0 BX_IA_ERROR; insn 0 BX_IA_ERROR; insn 0 BX_IA_ERROR].
Definition BxOpcodeInfoG1AEwM : list BxOpcodeInfo_t := [
  insn 0 BX_IA_POP_EwM; insn 0 BX_IA_ERROR; insn 0 BX_IA_ERROR; insn 0 BX_IA_ERROR; insn 0 BX_IA_ERROR;
  insn 0 BX_IA_ERROR; insn 0 BX_IA_ERROR; insn 0 BX_IA_ERROR].
Definition BxOpcodeInfoG1AEdR : list BxOpcodeInfo_t := [
  insn 0 BX_IA_POP_EdR; insn 0 BX_IA_ERROR; insn 0 BX_IA_ERROR; insn 0 BX_IA_ERROR; insn 0 BX_IA_ERROR;
  insn 0 BX_IA_ERROR; insn 0 BX_IA_ERROR; insn 0 BX_IA_ERROR].
Definition BxOpcodeInfoG1AEdM : list BxOpcodeInfo_t := [
  insn 0 BX_IA_POP_EdM; insn 0 BX_IA_ERROR; insn 0 BX_IA_ERROR; insn 0 BX_IA_ERROR; insn 0 BX_IA_ERROR;
  insn 0 BX_IA_ERROR; insn 0 BX_IA_ERROR; insn 0 BX_IA_ERROR].
Definition BxOpcodeInfoG2Eb : list BxOpcodeInfo_t := [
  insn 0 BX_IA_ROL_Eb; insn 0 BX_IA_ROR_Eb; insn 0 BX_IA_RCL_Eb; insn 0 BX_IA_RCR_Eb; insn 0 BX_IA_SHL_Eb;
  insn 0 BX_IA_SHR_Eb; insn 0 BX_IA_SHL_Eb; insn 0 BX_IA_SAR_Eb].
Definition BxOpcodeInfoG2Ew : list BxOpcodeInfo_t := [
  insn 0 BX_IA_ROL_Ew; insn 0 BX_IA_ROR_Ew; insn 0 BX_IA_RCL_Ew; insn 0 BX_IA_RCR_Ew; insn 0 BX_IA_SHL_Ew;
  insn 0 BX_IA_SHR_Ew; insn 0 BX_IA_SHL_Ew; insn 0 BX_IA_SAR_Ew].
Definition BxOpcodeInfoG2EdM : list BxOpcodeInfo_t := [
  insn 0 BX_IA_ROL_EdM; insn 0 BX_IA_ROR_EdM; insn 0 BX_IA_RCL_EdM; insn 0 BX_IA_RCR_EdM; insn 0 BX_IA_SHL_EdM;
  insn 0 BX_IA_SHR_EdM; insn 0 BX_IA_SHL_EdM; insn 0 BX_IA_SAR_EdM].
Definition BxOpcodeInfoG2EdR : list BxOpcodeInfo_t := [
  insn 0 BX_IA_ROL_EdR; insn 0 BX_IA_ROR_EdR; insn 0 BX_IA_RCL_EdR; insn 0 BX_IA_RCR_EdR; insn 0 BX_IA_SHL_EdR;
  insn 0 BX_IA_SHR_EdR; insn 0 BX_IA_SHL_EdR; insn 0 BX_IA_SAR_EdR].
Definition BxOpcodeInfoG3EbM : list BxOpcodeInfo_t := [
  insn BxImmediate_Ib BX_IA_TEST_EbIbM; insn BxImmediate_Ib BX_IA_TEST_EbIbM; insn BxLockable BX_IA_NOT_EbM;
  insn BxLockable BX_IA_NEG_EbM; insn 0 BX_IA_MUL_ALEbM; insn 0 BX_IA_IMUL_ALEbM; insn 0 BX_IA_DIV_ALEbM;
  insn 0 BX_IA_IDIV_ALEbM].
Definition BxOpcodeInfoG3EbR : list BxOpcodeInfo_t := [
  insn BxImmediate_Ib BX_IA_TEST_EbIbR; insn BxImmediate_Ib BX_IA_TEST_EbIbR; insn 0 BX_IA_NOT_EbR;
  insn 0 BX_IA_NEG_EbR; insn 0 BX_IA_MUL_ALEbR; insn 0 BX_IA_IMUL_ALEbR; insn 0 BX_IA_DIV_ALEbR;
  insn 0 BX_IA_IDIV_ALEbR].
Definition BxOpcodeInfoG3EwM : list BxOpcodeInfo_t := [
  insn BxImmediate_Iw BX_IA_TEST_EwIwM; insn BxImmediate_Iw BX_IA_TEST_EwIwM; insn BxLockable BX_IA_NOT_EwM;
  insn BxLockable BX_IA_NEG_EwM; insn 0 BX_IA_MUL_AXEwM; insn 0 BX_IA_IMUL_AXEwM; insn 0 BX_IA_DIV_AXEwM;
  insn 0 BX_IA_IDIV_AXEwM].
Definition BxOpcodeInfoG3EwR : list BxOpcodeInfo_t := [
  insn BxImmediate_Iw BX_IA_TEST_EwIwR; insn BxImmediate_Iw BX_IA_TEST_EwIwR; insn 0 BX_IA_NOT_EwR;
  insn 0 BX_IA_NEG_EwR; insn 0 BX_IA_MUL_AXEwR; insn 0 BX_IA_IMUL_AXEwR; insn 0 BX_IA_DIV_AXEwR;
  insn 0 BX_IA_IDIV_AXEwR].
Definition BxOpcodeInfoG3EdM : list BxOpcodeInfo_t := [
  insn BxImmediate_Id BX_IA_TEST_EdIdM; insn BxImmediate_Id BX_IA_TEST_EdIdM; insn BxLockable BX_IA_NOT_EdM;
  insn BxLockable BX_IA_NEG_EdM; insn 0 BX_IA_MUL_EAXEdM; insn 0 BX_IA_IMUL_EAXEdM; insn 0 BX_IA_DIV_EAXEdM;
  insn 0 BX_IA_IDIV_EAXEdM].
Definition BxOpcodeInfoG3EdR : list BxOpcodeInfo_t := [
  insn BxImmediate_Id BX_IA_TEST_EdIdR; insn BxImmediate_Id BX_IA_TEST_EdIdR; insn 0 BX_IA_NOT_EdR;
  insn 0 BX_IA_NEG_EdR; insn 0 BX_IA_MUL_EAXEdR; insn 0 BX_IA_IMUL_EAXEdR; insn 0 BX_IA_DIV_EAXEdR;
  insn 0 BX_IA_IDIV_EAXEdR].
Definition BxOpcodeInfoG4M : list BxOpcodeInfo_t := [
  insn BxLockable BX_IA_INC_EbM; insn BxLockable BX_IA_DEC_EbM; insn 0 BX_IA_ERROR; insn 0 BX_IA_ERROR;
  insn 0 BX_IA_ERROR; insn 0 BX_IA_ERROR; insn 0 BX_IA_ERROR; insn 0 BX_IA_ERROR].
Definition BxOpcodeInfoG4R : list BxOpcodeInfo_t := [
  insn 0 BX_IA_INC_EbR; insn 0 BX_IA_DEC_EbR; insn 0 BX_IA_ERROR; insn 0 BX_IA_ERROR; insn 0 BX_IA_ERROR;
  insn 0 BX_IA_ERROR; insn 0 BX_IA_ERROR; insn 0 BX_IA_ERROR].
Definition BxOpcodeInfoG5wM : list BxOpcodeInfo_t := [
  insn BxLockable BX_IA_INC_EwM; insn BxLockable BX_IA_DEC_EwM; insn BxTraceEnd BX_IA_CALL_EwM;
  insn BxTraceEnd BX_IA_CALL16_Ep; insn BxTraceEnd BX_IA_JMP_EwM; insn BxTraceEnd BX_IA_JMP16_Ep;
  insn 0 BX_IA_PUSH_EwM; insn 0 BX_IA_ERROR].
Definition BxOpcodeInfoG5wR : list BxOpcodeInfo_t := [
  insn 0 BX_IA_INC_EwR; insn 0 BX_IA_DEC_EwR; insn BxTraceEnd BX_IA_CALL_EwR; insn 0 BX_IA_ERROR;
  insn BxTraceEnd BX_IA_JMP_EwR; insn 0 BX_IA_ERROR; insn 0 BX_IA_PUSH_EwR; insn 0 BX_IA_ERROR].
Definition BxOpcodeInfoG5dM : list BxOpcodeInfo_t := [
  insn BxLockable BX_IA_INC_EdM; insn BxLockable BX_IA_DEC_EdM; insn BxTraceEnd BX_IA_CALL_EdM;
  insn BxTraceEnd BX_IA_CALL32_Ep; insn BxTraceEnd BX_IA_JMP_EdM; insn BxTraceEnd BX_IA_JMP32_Ep;
  insn 0 BX_IA_PUSH_EdM; insn 0 BX_IA_ERROR].
Definition BxOpcodeInfoG5dR : list BxOpcodeInfo_t := [
  insn 0 BX_IA_INC_EdR; insn 0 BX_IA_DEC_EdR; insn BxTraceEnd BX_IA_CALL_EdR; insn 0 BX_IA_ERROR;
  insn BxTraceEnd BX_IA_JMP_EdR; insn 0 BX_IA_ERROR; insn 0 BX_IA_PUSH_EdR; insn 0 BX_IA_ERROR].
Definition BxOpcodeInfoG6 : list BxOpcodeInfo_t := [
  insn 0 BX_IA_SLDT_Ew; insn 0 BX_IA_STR_Ew; insn 0 BX_IA_LLDT_Ew; insn 0 BX_IA_LTR_Ew; insn 0 BX_IA_VERR_Ew;
  insn 0 BX_IA_VERW_Ew; insn 0 BX_IA_ERROR; insn 0 BX_IA_ERROR].
Definition BxOpcodeInfoG7R : list BxOpcodeInfo_t := [
  insn 0 BX_IA_ERROR; opcode_info (Z.lor BxTraceEnd BxPrefixSSE) BX_IA_VMCALL BxOpcodeGroupSSE_ERR;
  opcode_info (Z.lor BxTraceEnd BxPrefixSSE) BX_IA_VMLAUNCH BxOpcodeGroupSSE_ERR;
  opcode_info (Z.lor BxTraceEnd BxPrefixSSE) BX_IA_VMRESUME BxOpcodeGroupSSE_ERR;
  opcode_info (Z.lor BxTraceEnd BxPrefixSSE) BX_IA_VMXOFF BxOpcodeGroupSSE_ERR; insn 0 BX_IA_ERROR;
  insn 0 BX_IA_ERROR; insn 0 BX_IA_ERROR; opcode_info BxPrefixSSE BX_IA_MONITOR BxOpcodeGroupSSE_ERR;
  opcode_info (Z.lor BxPrefixSSE BxTraceEnd) BX_IA_MWAIT BxOpcodeGroupSSE_ERR; insn 0 BX_IA_ERROR;
  insn 0 BX_IA_ERROR; insn 0 BX_IA_ERROR; insn 0 BX_IA_ERROR; insn 0 BX_IA_ERROR; insn 0 BX_IA_ERROR;
  opcode_info BxPrefixSSE BX_IA_XGETBV BxOpcodeGroupSSE_ERR;
  opcode_info BxPrefixSSE BX_IA_XSETBV BxOpcodeGroupSSE_ERR; insn 0 BX_IA_ERROR; insn 0 BX_IA_ERROR;
  insn 0 BX_IA_ERROR; insn 0 BX_IA_ERROR; insn 0 BX_IA_ERROR; insn 0 BX_IA_ERROR; insn 0 BX_IA_ERROR;
  insn 0 BX_IA_ERROR; insn 0 BX_IA_ERROR; insn 0 BX_IA_ERROR; insn 0 BX_IA_ERROR; insn 0 BX_IA_ERROR;
  insn 0 BX_IA_ERROR; insn 0 BX_IA_ERROR; insn 0 BX_IA_SMSW_EwR; insn 0 BX_IA_SMSW_EwR; insn 0 BX_IA_SMSW_EwR;
  insn 0 BX_IA_SMSW_EwR; insn 0 BX_IA_SMSW_EwR; insn 0 BX_IA_SMSW_EwR; insn 0 BX_IA_SMSW_EwR; insn 0 BX_IA_SMSW_EwR;
  insn 0 BX_IA_ERROR; insn 0 BX_IA_ERROR; insn 0 BX_IA_ERROR; insn 0 BX_IA_ERROR; insn 0 BX_IA_ERROR;
  insn 0 BX_IA_ERROR; insn 0 BX_IA_ERROR; insn 0 BX_IA_ERROR; insn BxTraceEnd BX_IA_LMSW_Ew;
  insn BxTraceEnd BX_IA_LMSW_Ew; insn BxTraceEnd BX_IA_LMSW_Ew; insn BxTraceEnd BX_IA_LMSW_Ew;
  insn BxTraceEnd BX_IA_LMSW_Ew; insn BxTraceEnd BX_IA_LMSW_Ew; insn BxTraceEnd BX_IA_LMSW_Ew;
  insn BxTraceEnd BX_IA_LMSW_Ew; insn 0 BX_IA_ERROR; insn 0 BX_IA_ERROR; insn 0 BX_IA_ERROR; insn 0 BX_IA_ERROR;
  insn 0 BX_IA_ERROR; insn 0 BX_IA_ERROR; insn 0 BX_IA_ERROR; insn 0 BX_IA_ERROR].
Definition BxOpcodeInfoG7M : list BxOpcodeInfo_t := [
  insn 0 BX_IA_SGDT_Ms; insn 0 BX_IA_SIDT_Ms; insn 0 BX_IA_LGDT_Ms; insn 0 BX_IA_LIDT_Ms; insn 0 BX_IA_SMSW_EwM;
  insn 0 BX_IA_ERROR; insn BxTraceEnd BX_IA_LMSW_Ew; insn BxTraceEnd BX_IA_INVLPG].
Definition BxOpcodeInfoG8EwIbM : list BxOpcodeInfo_t := [
  insn 0 BX_IA_ERROR; insn 0 BX_IA_ERROR; insn 0 BX_IA_ERROR; insn 0 BX_IA_ERROR; insn BxImmediate_Ib BX_IA_BT_EwIbM;
  insn (Z.lor BxImmediate_Ib BxLockable) BX_IA_BTS_EwIbM; insn (Z.lor BxImmediate_Ib BxLockable) BX_IA_BTR_EwIbM;
  insn (Z.lor BxImmediate_Ib BxLockable) BX_IA_BTC_EwIbM].
Definition BxOpcodeInfoG8EwIbR : list BxOpcodeInfo_t := [
  insn 0 BX_IA_ERROR; insn 0 BX_IA_ERROR; insn 0 BX_IA_ERROR; insn 0 BX_IA_ERROR; insn BxImmediate_Ib BX_IA_BT_EwIbR;
  insn BxImmediate_Ib BX_IA_BTS_EwIbR; insn BxImmediate_Ib BX_IA_BTR_EwIbR; insn BxImmediate_Ib BX_IA_BTC_EwIbR].
Definition BxOpcodeInfoG8EdIbM : list BxOpcodeInfo_t := [
  insn 0 BX_IA_ERROR; insn 0 BX_IA_ERROR; insn 0 BX_IA_ERROR; insn 0 BX_IA_ERROR; insn BxImmediate_Ib BX_IA_BT_EdIbM;
  insn (Z.lor BxImmediate_Ib BxLockable) BX_IA_BTS_EdIbM; insn (Z.lor BxImmediate_Ib BxLockable) BX_IA_BTR_EdIbM;
  insn (Z.lor BxImmediate_Ib BxLockable) BX_IA_BTC_EdIbM].
Definition BxOpcodeInfoG8EdIbR : list BxOpcodeInfo_t := [
  insn 0 BX_IA_ERROR; insn 0 BX_IA_ERROR; insn 0 BX_IA_ERROR; insn 0 BX_IA_ERROR; insn BxImmediate_Ib BX_IA_BT_EdIbR;
  insn BxImmediate_Ib BX_IA_BTS_EdIbR; insn BxImmediate_Ib BX_IA_BTR_EdIbR; insn BxImmediate_Ib BX_IA_BTC_EdIbR].
Definition BxOpcodeInfoG9M : list BxOpcodeInfo_t := [
  insn 0 BX_IA_ERROR; insn BxLockable BX_IA_CMPXCHG8B; insn 0 BX_IA_ERROR; insn 0 BX_IA_ERROR; insn 0 BX_IA_ERROR;
  insn 0 BX_IA_ERROR; opcode_info BxPrefixSSE BX_IA_VMPTRLD_Mq BxOpcodeGroupSSE_G9VMX6;
  opcode_info BxPrefixSSE BX_IA_VMPTRST_Mq BxOpcodeGroupSSE_ERR].
Definition BxOpcodeInfoG11EbR : list BxOpcodeInfo_t := [
  insn BxImmediate_Ib BX_IA_MOV_EbIbR; insn 0 BX_IA_ERROR; insn 0 BX_IA_ERROR; insn 0 BX_IA_ERROR;
  insn 0 BX_IA_ERROR; insn 0 BX_IA_ERROR; insn 0 BX_IA_ERROR; insn 0 BX_IA_ERROR].
Definition BxOpcodeInfoG11EbM : list BxOpcodeInfo_t := [
  insn BxImmediate_Ib BX_IA_MOV_EbIbM; insn 0 BX_IA_ERROR; insn 0 BX_IA_ERROR; insn 0 BX_IA_ERROR;
  insn 0 BX_IA_ERROR; insn 0 BX_IA_ERROR; insn 0 BX_IA_ERROR; insn 0 BX_IA_ERROR].
Definition BxOpcodeInfoG11EwR : list BxOpcodeInfo_t := [
  insn BxImmediate_Iw BX_IA_MOV_EwIwR; insn 0 BX_IA_ERROR; insn 0 BX_IA_ERROR; insn 0 BX_IA_ERROR;
  insn 0 BX_IA_ERROR; insn 0 BX_IA_ERROR; insn 0 BX_IA_ERROR; insn 0 BX_IA_ERROR].
Definition BxOpcodeInfoG11EwM : list BxOpcodeInfo_t := [
  insn BxImmediate_Iw BX_IA_MOV_EwIwM; insn 0 BX_IA_ERROR; insn 0 BX_IA_ERROR; insn 0 BX_IA_ERROR;
  insn 0 BX_IA_ERROR; insn 0 BX_IA_ERROR; insn 0 BX_IA_ERROR; insn 0 BX_IA_ERROR].
Definition BxOpcodeInfoG11EdR : list BxOpcodeInfo_t := [
  insn BxImmediate_Id BX_IA_MOV_EdIdR; insn 0 BX_IA_ERROR; insn 0 BX_IA_ERROR; insn 0 BX_IA_ERROR;
  insn 0 BX_IA_ERROR; insn 0 BX_IA_ERROR; insn 0 BX_IA_ERROR; insn 0 BX_IA_ERROR].
Definition BxOpcodeInfoG11EdM : list BxOpcodeInfo_t := [
  insn BxImmediate_Id BX_IA_MOV_EdIdM; insn 0 BX_IA_ERROR; insn 0 BX_IA_ERROR; insn 0 BX_IA_ERROR;
  insn 0 BX_IA_ERROR; insn 0 BX_IA_ERROR; insn 0 BX_IA_ERROR; insn 0 BX_IA_ERROR].
Definition BxOpcodeInfoG12R : list BxOpcodeInfo_t := [
  insn 0 BX_IA_ERROR; insn 0 BX_IA_ERROR;
  opcode_info (Z.lor BxImmediate_Ib BxPrefixSSE) BX_IA_PSRLW_PqIb BxOpcodeGroupSSE_G1202; insn 0 BX_IA_ERROR;
  opcode_info (Z.lor BxImmediate_Ib BxPrefixSSE) BX_IA_PSRAW_PqIb BxOpcodeGroupSSE_G1204; insn 0 BX_IA_ERROR;
  opcode_info (Z.lor BxImmediate_Ib BxPrefixSSE) BX_IA_PSLLW_PqIb BxOpcodeGroupSSE_G1206; insn 0 BX_IA_ERROR].
Definition BxOpcodeInfoG13R : list BxOpcodeInfo_t := [
  insn 0 BX_IA_ERROR; insn 0 BX_IA_ERROR;
  opcode_info (Z.lor BxImmediate_Ib BxPrefixSSE) BX_IA_PSRLD_PqIb BxOpcodeGroupSSE_G1302; insn 0 BX_IA_ERROR;
  opcode_info (Z.lor BxImmediate_Ib BxPrefixSSE) BX_IA_PSRAD_PqIb BxOpcodeGroupSSE_G1304; insn 0 BX_IA_ERROR;
  opcode_info (Z.lor BxImmediate_Ib BxPrefixSSE) BX_IA_PSLLD_PqIb BxOpcodeGroupSSE_G1306; insn 0 BX_IA_ERROR].
Definition BxOpcodeInfoG14R : list BxOpcodeInfo_t := [
  insn 0 BX_IA_ERROR; insn 0 BX_IA_ERROR;
  opcode_info (Z.lor BxImmediate_Ib BxPrefixSSE) BX_IA_PSRLQ_PqIb BxOpcodeGroupSSE_G1402;
  insn (Z.lor BxImmediate_Ib BxPrefixSSE66) BX_IA_PSRLDQ_UdqIb; insn 0 BX_IA_ERROR; insn 0 BX_IA_ERROR;
  opcode_info (Z.lor BxImmediate_Ib BxPrefixSSE) BX_IA_PSLLQ_PqIb BxOpcodeGroupSSE_G1406;
  insn (Z.lor BxImmediate_Ib BxPrefixSSE66) BX_IA_PSLLDQ_UdqIb].
Definition BxOpcodeInfoG15M : list BxOpcodeInfo_t := [
  opcode_info BxPrefixSSE BX_IA_FXSAVE BxOpcodeGroupSSE_ERR;
  opcode_info BxPrefixSSE BX_IA_FXRSTOR BxOpcodeGroupSSE_ERR;
  opcode_info BxPrefixSSE BX_IA_LDMXCSR BxOpcodeGroupSSE_ERR;
  opcode_info BxPrefixSSE BX_IA_STMXCSR BxOpcodeGroupSSE_ERR;
  opcode_info BxPrefixSSE BX_IA_XSAVE BxOpcodeGroupSSE_ERR;
  opcode_info BxPrefixSSE BX_IA_XRSTOR BxOpcodeGroupSSE_ERR; insn 0 BX_IA_ERROR;
  opcode_info BxPrefixSSE BX_IA_CLFLUSH BxOpcodeGroupSSE_ERR].
Definition BxOpcodeInfoG15R : list BxOpcodeInfo_t := [
  insn 0 BX_IA_ERROR; insn 0 BX_IA_ERROR; insn 0 BX_IA_ERROR; insn 0 BX_IA_ERROR; insn 0 BX_IA_ERROR;
  opcode_info BxPrefixSSE BX_IA_LFENCE BxOpcodeGroupSSE_ERR;
  opcode_info BxPrefixSSE BX_IA_MFENCE BxOpcodeGroupSSE_ERR; opcode_info BxPrefixSSE BX_IA_SFENCE BxOpcodeGroupSSE_ERR].

(** ** The main tables (cpu/fetchdecode.cc) *)

Definition BxOpcodeInfo32R_16 : list BxOpcodeInfo_t := [
  insn BxArithDstRM BX_IA_ADD_GbEbR; insn BxArithDstRM BX_IA_ADD_GwEwR; insn 0 BX_IA_ADD_GbEbR;
  insn 0 BX_IA_ADD_GwEwR; insn BxImmediate_Ib BX_IA_ADD_ALIb; insn BxImmediate_Iw BX_IA_ADD_AXIw;
  insn 0 BX_IA_PUSH16_ES; insn 0 BX_IA_POP16_ES; insn BxArithDstRM BX_IA_OR_GbEbR; insn BxArithDstRM BX_IA_OR_GwEwR;
  insn 0 BX_IA_OR_GbEbR; insn 0 BX_IA_OR_GwEwR; insn BxImmediate_Ib BX_IA_OR_ALIb; insn BxImmediate_Iw BX_IA_OR_AXIw;
  insn 0 BX_IA_PUSH16_CS; insn 0 BX_IA_ERROR;
  insn BxArithDstRM BX_IA_ADC_GbEbR; insn BxArithDstRM BX_IA_ADC_GwEwR; insn 0 BX_IA_ADC_GbEbR;
  insn 0 BX_IA_ADC_GwEwR; insn BxImmediate_Ib BX_IA_ADC_ALIb; insn BxImmediate_Iw BX_IA_ADC_AXIw;
  insn 0 BX_IA_PUSH16_SS; insn BxTraceEnd BX_IA_POP16_SS; insn BxArithDstRM BX_IA_SBB_GbEbR;
  insn BxArithDstRM BX_IA_SBB_GwEwR; insn 0 BX_IA_SBB_GbEbR; insn 0 BX_IA_SBB_GwEwR;
  insn BxImmediate_Ib BX_IA_SBB_ALIb; insn BxImmediate_Iw BX_IA_SBB_AXIw; insn 0 BX_IA_PUSH16_DS;
  insn 0 BX_IA_POP16_DS;
  insn BxArithDstRM BX_IA_AND_GbEbR; insn BxArithDstRM BX_IA_AND_GwEwR; insn 0 BX_IA_AND_GbEbR;
  insn 0 BX_IA_AND_GwEwR; insn BxImmediate_Ib BX_IA_AND_ALIb; insn BxImmediate_Iw BX_IA_AND_AXIw; insn 0 BX_IA_ERROR;
  insn 0 BX_IA_DAA; insn BxArithDstRM BX_IA_SUB_GbEbR; insn BxArithDstRM BX_IA_SUB_GwEwR; insn 0 BX_IA_SUB_GbEbR;
  insn 0 BX_IA_SUB_GwEwR; insn BxImmediate_Ib BX_IA_SUB_ALIb; insn BxImmediate_Iw BX_IA_SUB_AXIw; insn 0 BX_IA_ERROR;
  insn 0 BX_IA_DAS;
  insn BxArithDstRM BX_IA_XOR_GbEbR; insn BxArithDstRM BX_IA_XOR_GwEwR; insn 0 BX_IA_XOR_GbEbR;
  insn 0 BX_IA_XOR_GwEwR; insn BxImmediate_Ib BX_IA_XOR_ALIb; insn BxImmediate_Iw BX_IA_XOR_AXIw; insn 0 BX_IA_ERROR;
  insn 0 BX_IA_AAA; insn BxArithDstRM BX_IA_CMP_GbEbR; insn BxArithDstRM BX_IA_CMP_GwEwR; insn 0 BX_IA_CMP_GbEbR;
  insn 0 BX_IA_CMP_GwEwR; insn BxImmediate_Ib BX_IA_CMP_ALIb; insn BxImmediate_Iw BX_IA_CMP_AXIw; insn 0 BX_IA_ERROR;
  insn 0 BX_IA_AAS;
  insn 0 BX_IA_INC_RX; insn 0 BX_IA_INC_RX; insn 0 BX_IA_INC_RX; insn 0 BX_IA_INC_RX; insn 0 BX_IA_INC_RX;
  insn 0 BX_IA_INC_RX; insn 0 BX_IA_INC_RX; insn 0 BX_IA_INC_RX; insn 0 BX_IA_DEC_RX; insn 0 BX_IA_DEC_RX;
  insn 0 BX_IA_DEC_RX; insn 0 BX_IA_DEC_RX; insn 0 BX_IA_DEC_RX; insn 0 BX_IA_DEC_RX; insn 0 BX_IA_DEC_RX;
  insn 0 BX_IA_DEC_RX;
  insn 0 BX_IA_PUSH_RX; insn 0 BX_IA_PUSH_RX; insn 0 BX_IA_PUSH_RX; insn 0 BX_IA_PUSH_RX; insn 0 BX_IA_PUSH_RX;
  insn 0 BX_IA_PUSH_RX; insn 0 BX_IA_PUSH_RX; insn 0 BX_IA_PUSH_RX; insn 0 BX_IA_POP_RX; insn 0 BX_IA_POP_RX;
  insn 0 BX_IA_POP_RX; insn 0 BX_IA_POP_RX; insn 0 BX_IA_POP_RX; insn 0 BX_IA_POP_RX; insn 0 BX_IA_POP_RX;
  insn 0 BX_IA_POP_RX;
  insn 0 BX_IA_PUSHAD16; insn 0 BX_IA_POPAD16; insn 0 BX_IA_ERROR; insn 0 BX_IA_ARPL_EwGw; insn 0 BX_IA_ERROR;
  insn 0 BX_IA_ERROR; insn 0 BX_IA_ERROR; insn 0 BX_IA_ERROR; insn BxImmediate_Iw BX_IA_PUSH_Iw;
  insn BxImmediate_Iw BX_IA_IMUL_GwEwIwR; insn BxImmediate_Ib_SE BX_IA_PUSH_Iw;
  insn BxImmediate_Ib_SE BX_IA_IMUL_GwEwIwR; insn 0 BX_IA_REP_INSB_YbDX; insn 0 BX_IA_REP_INSW_YwDX;
  insn 0 BX_IA_REP_OUTSB_DXXb; insn 0 BX_IA_REP_OUTSW_DXXw;
  insn (Z.lor BxImmediate_BrOff8 BxTraceJCC) BX_IA_JO_Jw; insn (Z.lor BxImmediate_BrOff8 BxTraceJCC) BX_IA_JNO_Jw;
  insn (Z.lor BxImmediate_BrOff8 BxTraceJCC) BX_IA_JB_Jw; insn (Z.lor BxImmediate_BrOff8 BxTraceJCC) BX_IA_JNB_Jw;
  insn (Z.lor BxImmediate_BrOff8 BxTraceJCC) BX_IA_JZ_Jw; insn (Z.lor BxImmediate_BrOff8 BxTraceJCC) BX_IA_JNZ_Jw;
  insn (Z.lor BxImmediate_BrOff8 BxTraceJCC) BX_IA_JBE_Jw; insn (Z.lor BxImmediate_BrOff8 BxTraceJCC) BX_IA_JNBE_Jw;
  insn (Z.lor BxImmediate_BrOff8 BxTraceJCC) BX_IA_JS_Jw; insn (Z.lor BxImmediate_BrOff8 BxTraceJCC) BX_IA_JNS_Jw;
  insn (Z.lor BxImmediate_BrOff8 BxTraceJCC) BX_IA_JP_Jw; insn (Z.lor BxImmediate_BrOff8 BxTraceJCC) BX_IA_JNP_Jw;
  insn (Z.lor BxImmediate_BrOff8 BxTraceJCC) BX_IA_JL_Jw; insn (Z.lor BxImmediate_BrOff8 BxTraceJCC) BX_IA_JNL_Jw;
  insn (Z.lor BxImmediate_BrOff8 BxTraceJCC) BX_IA_JLE_Jw; insn (Z.lor BxImmediate_BrOff8 BxTraceJCC) BX_IA_JNLE_Jw;
  opcode_info (Z.lor BxGroup1 BxImmediate_Ib) BX_IA_ERROR BxOpcodeInfoG1EbIbR;
  opcode_info (Z.lor BxGroup1 BxImmediate_Iw) BX_IA_ERROR BxOpcodeInfoG1EwR;
  opcode_info (Z.lor BxGroup1 BxImmediate_Ib) BX_IA_ERROR BxOpcodeInfoG1EbIbR;
  opcode_info (Z.lor BxGroup1 BxImmediate_Ib_SE) BX_IA_ERROR BxOpcodeInfoG1EwR; insn 0 BX_IA_TEST_EbGbR;
  insn 0 BX_IA_TEST_EwGwR; insn 0 BX_IA_XCHG_EbGbR; insn 0 BX_IA_XCHG_EwGwR; insn BxArithDstRM BX_IA_MOV_GbEbR;
  insn BxArithDstRM BX_IA_MOV_GwEwR; insn 0 BX_IA_MOV_GbEbR; insn 0 BX_IA_MOV_GwEwR; insn 0 BX_IA_MOV_EwSwR;
  insn 0 BX_IA_ERROR; insn 0 BX_IA_MOV_SwEw; opcode_info BxGroup1A BX_IA_ERROR BxOpcodeInfoG1AEwR;
  opcode_info BxPrefixSSE BX_IA_NOP BxOpcodeGroupSSE_PAUSE; insn 0 BX_IA_XCHG_RXAX; insn 0 BX_IA_XCHG_RXAX;
  insn 0 BX_IA_XCHG_RXAX; insn 0 BX_IA_XCHG_RXAX; insn 0 BX_IA_XCHG_RXAX; insn 0 BX_IA_XCHG_RXAX;
  insn 0 BX_IA_XCHG_RXAX; insn 0 BX_IA_CBW; insn 0 BX_IA_CWD;
  insn (Z.lor BxImmediate_IwIw BxTraceEnd) BX_IA_CALL16_Ap; insn 0 BX_IA_FWAIT; insn 0 BX_IA_PUSHF_Fw;
  insn 0 BX_IA_POPF_Fw; insn 0 BX_IA_SAHF; insn 0 BX_IA_LAHF;
  insn BxImmediate_O BX_IA_MOV_ALOd; insn BxImmediate_O BX_IA_MOV_AXOd; insn BxImmediate_O BX_IA_MOV_OdAL;
  insn BxImmediate_O BX_IA_MOV_OdAX; insn 0 BX_IA_REP_MOVSB_XbYb; insn 0 BX_IA_REP_MOVSW_XwYw;
  insn 0 BX_IA_REP_CMPSB_XbYb; insn 0 BX_IA_REP_CMPSW_XwYw; insn BxImmediate_Ib BX_IA_TEST_ALIb;
  insn BxImmediate_Iw BX_IA_TEST_AXIw; insn 0 BX_IA_REP_STOSB_YbAL; insn 0 BX_IA_REP_STOSW_YwAX;
  insn 0 BX_IA_REP_LODSB_ALXb; insn 0 BX_IA_REP_LODSW_AXXw; insn 0 BX_IA_REP_SCASB_ALXb; insn 0 BX_IA_REP_SCASW_AXXw;
  insn BxImmediate_Ib BX_IA_MOV_RLIb; insn BxImmediate_Ib BX_IA_MOV_RLIb; insn BxImmediate_Ib BX_IA_MOV_RLIb;
  insn BxImmediate_Ib BX_IA_MOV_RLIb; insn BxImmediate_Ib BX_IA_MOV_RHIb; insn BxImmediate_Ib BX_IA_MOV_RHIb;
  insn BxImmediate_Ib BX_IA_MOV_RHIb; insn BxImmediate_Ib BX_IA_MOV_RHIb; insn BxImmediate_Iw BX_IA_MOV_RXIw;
  insn BxImmediate_Iw BX_IA_MOV_RXIw; insn BxImmediate_Iw BX_IA_MOV_RXIw; insn BxImmediate_Iw BX_IA_MOV_RXIw;
  insn BxImmediate_Iw BX_IA_MOV_RXIw; insn BxImmediate_Iw BX_IA_MOV_RXIw; insn BxImmediate_Iw BX_IA_MOV_RXIw;
  insn BxImmediate_Iw BX_IA_MOV_RXIw;
  opcode_info (Z.lor BxGroup2 BxImmediate_Ib) BX_IA_ERROR BxOpcodeInfoG2Eb;
  opcode_info (Z.lor BxGroup2 BxImmediate_Ib) BX_IA_ERROR BxOpcodeInfoG2Ew;
  insn (Z.lor BxImmediate_Iw BxTraceEnd) BX_IA_RETnear16_Iw; insn BxTraceEnd BX_IA_RETnear16; insn 0 BX_IA_ERROR;
  insn 0 BX_IA_ERROR; opcode_info BxGroup11 BX_IA_ERROR BxOpcodeInfoG11EbR;
  opcode_info BxGroup11 BX_IA_ERROR BxOpcodeInfoG11EwR; insn BxImmediate_IwIb BX_IA_ENTER16_IwIb;
  insn 0 BX_IA_LEAVE16; insn (Z.lor BxImmediate_Iw BxTraceEnd) BX_IA_RETfar16_Iw; insn BxTraceEnd BX_IA_RETfar16;
  insn BxTraceEnd BX_IA_INT3; insn (Z.lor BxImmediate_Ib BxTraceEnd) BX_IA_INT_Ib; insn BxTraceEnd BX_IA_INTO;
  insn BxTraceEnd BX_IA_IRET16;
  opcode_info (Z.lor BxGroup2 BxImmediate_I1) BX_IA_ERROR BxOpcodeInfoG2Eb;
  opcode_info (Z.lor BxGroup2 BxImmediate_I1) BX_IA_ERROR BxOpcodeInfoG2Ew;
  opcode_info BxGroup2 BX_IA_ERROR BxOpcodeInfoG2Eb; opcode_info BxGroup2 BX_IA_ERROR BxOpcodeInfoG2Ew;
  insn BxImmediate_Ib BX_IA_AAM; insn BxImmediate_Ib BX_IA_AAD; insn 0 BX_IA_SALC; insn 0 BX_IA_XLAT;
  opcode_info BxGroupN BX_IA_ERROR BxOpcodeInfo_FloatingPointD8;
  opcode_info BxFPEscape BX_IA_ERROR BxOpcodeInfo_FloatingPointD9;
  opcode_info BxFPEscape BX_IA_ERROR BxOpcodeInfo_FloatingPointDA;
  opcode_info BxFPEscape BX_IA_ERROR BxOpcodeInfo_FloatingPointDB;
  opcode_info BxGroupN BX_IA_ERROR BxOpcodeInfo_FloatingPointDC;
  opcode_info BxGroupN BX_IA_ERROR BxOpcodeInfo_FloatingPointDD;
  opcode_info BxFPEscape BX_IA_ERROR BxOpcodeInfo_FloatingPointDE;
  opcode_info BxFPEscape BX_IA_ERROR BxOpcodeInfo_FloatingPointDF;
  insn (Z.lor BxImmediate_BrOff8 BxTraceEnd) BX_IA_LOOPNE16_Jb;
  insn (Z.lor BxImmediate_BrOff8 BxTraceEnd) BX_IA_LOOPE16_Jb;
  insn (Z.lor BxImmediate_BrOff8 BxTraceEnd) BX_IA_LOOP16_Jb;
  insn (Z.lor BxImmediate_BrOff8 BxTraceEnd) BX_IA_JCXZ_Jb; insn BxImmediate_Ib BX_IA_IN_ALIb;
  insn BxImmediate_Ib BX_IA_IN_AXIb; insn BxImmediate_Ib BX_IA_OUT_IbAL; insn BxImmediate_Ib BX_IA_OUT_IbAX;
  insn (Z.lor BxImmediate_BrOff16 BxTraceEnd) BX_IA_CALL_Jw;
  insn (Z.lor BxImmediate_BrOff16 BxTraceEnd) BX_IA_JMP_Jw; insn (Z.lor BxImmediate_IwIw BxTraceEnd) BX_IA_JMP_Ap;
  insn (Z.lor BxImmediate_BrOff8 BxTraceEnd) BX_IA_JMP_Jw; insn 0 BX_IA_IN_ALDX; insn 0 BX_IA_IN_AXDX;
  insn 0 BX_IA_OUT_DXAL; insn 0 BX_IA_OUT_DXAX;
  insn 0 BX_IA_ERROR; insn BxTraceEnd BX_IA_INT1; insn 0 BX_IA_ERROR; insn 0 BX_IA_ERROR; insn BxTraceEnd BX_IA_HLT;
  insn 0 BX_IA_CMC; opcode_info BxGroup3 BX_IA_ERROR BxOpcodeInfoG3EbR;
  opcode_info BxGroup3 BX_IA_ERROR BxOpcodeInfoG3EwR; insn 0 BX_IA_CLC; insn 0 BX_IA_STC; insn 0 BX_IA_CLI;
  insn 0 BX_IA_STI; insn 0 BX_IA_CLD; insn 0 BX_IA_STD; opcode_info BxGroup4 BX_IA_ERROR BxOpcodeInfoG4R;
  opcode_info BxGroup5 BX_IA_ERROR BxOpcodeInfoG5wR].
Definition BxOpcodeInfo32R_16_0F : list BxOpcodeInfo_t := [
  opcode_info BxGroup6 BX_IA_ERROR BxOpcodeInfoG6; opcode_info BxFPEscape BX_IA_ERROR BxOpcodeInfoG7R;
  insn 0 BX_IA_LAR_GvEw; insn 0 BX_IA_LSL_GvEw; insn 0 BX_IA_ERROR; insn 0 BX_IA_ERROR; insn 0 BX_IA_CLTS;
  insn 0 BX_IA_ERROR; insn BxTraceEnd BX_IA_INVD; insn BxTraceEnd BX_IA_WBINVD; insn 0 BX_IA_ERROR;
  insn BxTraceEnd BX_IA_UD2A; insn 0 BX_IA_ERROR; insn 0 BX_IA_PREFETCHW; insn 0 BX_IA_FEMMS; insn 0 BX_IA_ERROR;
  opcode_info BxPrefixSSE BX_IA_MOVUPS_VpsWpsR BxOpcodeGroupSSE_0f10R;
  opcode_info BxPrefixSSE BX_IA_MOVUPS_WpsVpsR BxOpcodeGroupSSE_0f11R;
  opcode_info BxPrefixSSE BX_IA_MOVHLPS_VpsWpsR BxOpcodeGroupSSE_0f12R; insn 0 BX_IA_ERROR;
  opcode_info BxPrefixSSE BX_IA_UNPCKLPS_VpsWdq BxOpcodeGroupSSE_0f14;
  opcode_info BxPrefixSSE BX_IA_UNPCKHPS_VpsWdq BxOpcodeGroupSSE_0f15;
  opcode_info BxPrefixSSE BX_IA_MOVLHPS_VpsWpsR BxOpcodeGroupSSE_0f16R; insn 0 BX_IA_ERROR; insn 0 BX_IA_ERROR;
  insn 0 BX_IA_ERROR; insn 0 BX_IA_ERROR; insn 0 BX_IA_ERROR; insn 0 BX_IA_ERROR; insn 0 BX_IA_ERROR;
  insn 0 BX_IA_ERROR; insn 0 BX_IA_ERROR;
  insn 0 BX_IA_MOV_RdCd; insn 0 BX_IA_MOV_RdDd; insn BxTraceEnd BX_IA_MOV_CdRd; insn BxTraceEnd BX_IA_MOV_DdRd;
  insn BxTraceEnd BX_IA_MOV_RdTd; insn 0 BX_IA_ERROR; insn BxTraceEnd BX_IA_MOV_TdRd; insn 0 BX_IA_ERROR;
  opcode_info BxPrefixSSE BX_IA_MOVAPS_VpsWpsR BxOpcodeGroupSSE_0f28R;
  opcode_info BxPrefixSSE BX_IA_MOVAPS_WpsVpsR BxOpcodeGroupSSE_0f29R;
  opcode_info BxPrefixSSE BX_IA_CVTPI2PS_VpsQqR BxOpcodeGroupSSE_0f2aR; insn 0 BX_IA_ERROR;
  opcode_info BxPrefixSSE BX_IA_CVTTPS2PI_PqWps BxOpcodeGroupSSE_0f2c;
  opcode_info BxPrefixSSE BX_IA_CVTPS2PI_PqWps BxOpcodeGroupSSE_0f2d;
  opcode_info BxPrefixSSE BX_IA_UCOMISS_VssWss BxOpcodeGroupSSE_0f2e;
  opcode_info BxPrefixSSE BX_IA_COMISS_VpsWps BxOpcodeGroupSSE_0f2f;
  insn 0 BX_IA_WRMSR; insn 0 BX_IA_RDTSC; insn 0 BX_IA_RDMSR; insn 0 BX_IA_RDPMC; insn BxTraceEnd BX_IA_SYSENTER;
  insn BxTraceEnd BX_IA_SYSEXIT; insn 0 BX_IA_ERROR; insn 0 BX_IA_ERROR;
  opcode_info Bx3ByteOp BX_IA_ERROR BxOpcode3ByteTable0f38; insn 0 BX_IA_ERROR;
  opcode_info (Z.lor Bx3ByteOp BxImmediate_Ib) BX_IA_ERROR BxOpcode3ByteTable0f3a; insn 0 BX_IA_ERROR;
  insn 0 BX_IA_ERROR; insn 0 BX_IA_ERROR; insn 0 BX_IA_ERROR; insn 0 BX_IA_ERROR;
  insn 0 BX_IA_CMOVO_GwEwR; insn 0 BX_IA_CMOVNO_GwEwR; insn 0 BX_IA_CMOVB_GwEwR; insn 0 BX_IA_CMOVNB_GwEwR;
  insn 0 BX_IA_CMOVZ_GwEwR; insn 0 BX_IA_CMOVNZ_GwEwR; insn 0 BX_IA_CMOVBE_GwEwR; insn 0 BX_IA_CMOVNBE_GwEwR;
  insn 0 BX_IA_CMOVS_GwEwR; insn 0 BX_IA_CMOVNS_GwEwR; insn 0 BX_IA_CMOVP_GwEwR; insn 0 BX_IA_CMOVNP_GwEwR;
  insn 0 BX_IA_CMOVL_GwEwR; insn 0 BX_IA_CMOVNL_GwEwR; insn 0 BX_IA_CMOVLE_GwEwR; insn 0 BX_IA_CMOVNLE_GwEwR;
  opcode_info BxPrefixSSE BX_IA_MOVMSKPS_GdVRps BxOpcodeGroupSSE_0f50;
  opcode_info BxPrefixSSE BX_IA_SQRTPS_VpsWps BxOpcodeGroupSSE_0f51;
  opcode_info BxPrefixSSE BX_IA_RSQRTPS_VpsWps BxOpcodeGroupSSE_0f52;
  opcode_info BxPrefixSSE BX_IA_RCPPS_VpsWps BxOpcodeGroupSSE_0f53;
  opcode_info BxPrefixSSE BX_IA_ANDPS_VpsWps BxOpcodeGroupSSE_0f54;
  opcode_info BxPrefixSSE BX_IA_ANDNPS_VpsWps BxOpcodeGroupSSE_0f55;
  opcode_info BxPrefixSSE BX_IA_ORPS_VpsWps BxOpcodeGroupSSE_0f56;
  opcode_info BxPrefixSSE BX_IA_XORPS_VpsWps BxOpcodeGroupSSE_0f57;
  opcode_info BxPrefixSSE BX_IA_ADDPS_VpsWps BxOpcodeGroupSSE_0f58;
  opcode_info BxPrefixSSE BX_IA_MULPS_VpsWps BxOpcodeGroupSSE_0f59;
  opcode_info BxPrefixSSE BX_IA_CVTPS2PD_VpsWps BxOpcodeGroupSSE_0f5a;
  opcode_info BxPrefixSSE BX_IA_CVTDQ2PS_VpsWdq BxOpcodeGroupSSE_0f5b;
  opcode_info BxPrefixSSE BX_IA_SUBPS_VpsWps BxOpcodeGroupSSE_0f5c;
  opcode_info BxPrefixSSE BX_IA_MINPS_VpsWps BxOpcodeGroupSSE_0f5d;
  opcode_info BxPrefixSSE BX_IA_DIVPS_VpsWps BxOpcodeGroupSSE_0f5e;
  opcode_info BxPrefixSSE BX_IA_MAXPS_VpsWps BxOpcodeGroupSSE_0f5f;
  opcode_info BxPrefixSSE BX_IA_PUNPCKLBW_PqQd BxOpcodeGroupSSE_0f60;
  opcode_info BxPrefixSSE BX_IA_PUNPCKLWD_PqQd BxOpcodeGroupSSE_0f61;
  opcode_info BxPrefixSSE BX_IA_PUNPCKLDQ_PqQd BxOpcodeGroupSSE_0f62;
  opcode_info BxPrefixSSE BX_IA_PACKSSWB_PqQq BxOpcodeGroupSSE_0f63;
  opcode_info BxPrefixSSE BX_IA_PCMPGTB_PqQq BxOpcodeGroupSSE_0f64;
  opcode_info BxPrefixSSE BX_IA_PCMPGTW_PqQq BxOpcodeGroupSSE_0f65;
  opcode_info BxPrefixSSE BX_IA_PCMPGTD_PqQq BxOpcodeGroupSSE_0f66;
  opcode_info BxPrefixSSE BX_IA_PACKUSWB_PqQq BxOpcodeGroupSSE_0f67;
  opcode_info BxPrefixSSE BX_IA_PUNPCKHBW_PqQq BxOpcodeGroupSSE_0f68;
  opcode_info BxPrefixSSE BX_IA_PUNPCKHWD_PqQq BxOpcodeGroupSSE_0f69;
  opcode_info BxPrefixSSE BX_IA_PUNPCKHDQ_PqQq BxOpcodeGroupSSE_0f6a;
  opcode_info BxPrefixSSE BX_IA_PACKSSDW_PqQq BxOpcodeGroupSSE_0f6b; insn BxPrefixSSE66 BX_IA_PUNPCKLQDQ_VdqWdq;
  insn BxPrefixSSE66 BX_IA_PUNPCKHQDQ_VdqWdq; opcode_info BxPrefixSSE BX_IA_MOVD_PqEdR BxOpcodeGroupSSE_0f6eR;
  opcode_info BxPrefixSSE BX_IA_MOVQ_PqQqR BxOpcodeGroupSSE_0f6fR;
  opcode_info (Z.lor BxPrefixSSE BxImmediate_Ib) BX_IA_PSHUFW_PqQqIb BxOpcodeGroupSSE_0f70;
  opcode_info BxGroup12 BX_IA_ERROR BxOpcodeInfoG12R; opcode_info BxGroup13 BX_IA_ERROR BxOpcodeInfoG13R;
  opcode_info BxGroup14 BX_IA_ERROR BxOpcodeInfoG14R;
  opcode_info BxPrefixSSE BX_IA_PCMPEQB_PqQq BxOpcodeGroupSSE_0f74;
  opcode_info BxPrefixSSE BX_IA_PCMPEQW_PqQq BxOpcodeGroupSSE_0f75;
  opcode_info BxPrefixSSE BX_IA_PCMPEQD_PqQq BxOpcodeGroupSSE_0f76;
  opcode_info BxPrefixSSE BX_IA_EMMS BxOpcodeGroupSSE_ERR;
  opcode_info BxPrefixSSE BX_IA_VMREAD_EdGd BxOpcodeGroupSSE_ERR;
  opcode_info BxPrefixSSE BX_IA_VMWRITE_GdEd BxOpcodeGroupSSE_ERR; insn 0 BX_IA_ERROR; insn 0 BX_IA_ERROR;
  opcode_info BxPrefixSSE BX_IA_ERROR BxOpcodeGroupSSE_0f7c;
  opcode_info BxPrefixSSE BX_IA_ERROR BxOpcodeGroupSSE_0f7d;
  opcode_info BxPrefixSSE BX_IA_MOVD_EdPdR BxOpcodeGroupSSE_0f7eR;
  opcode_info BxPrefixSSE BX_IA_MOVQ_QqPqR BxOpcodeGroupSSE_0f7fR;
  insn (Z.lor BxImmediate_BrOff16 BxTraceJCC) BX_IA_JO_Jw; insn (Z.lor BxImmediate_BrOff16 BxTraceJCC) BX_IA_JNO_Jw;
  insn (Z.lor BxImmediate_BrOff16 BxTraceJCC) BX_IA_JB_Jw; insn (Z.lor BxImmediate_BrOff16 BxTraceJCC) BX_IA_JNB_Jw;
  insn (Z.lor BxImmediate_BrOff16 BxTraceJCC) BX_IA_JZ_Jw; insn (Z.lor BxImmediate_BrOff16 BxTraceJCC) BX_IA_JNZ_Jw;
  insn (Z.lor BxImmediate_BrOff16 BxTraceJCC) BX_IA_JBE_Jw;
  insn (Z.lor BxImmediate_BrOff16 BxTraceJCC) BX_IA_JNBE_Jw; insn (Z.lor BxImmediate_BrOff16 BxTraceJCC) BX_IA_JS_Jw;
  insn (Z.lor BxImmediate_BrOff16 BxTraceJCC) BX_IA_JNS_Jw; insn (Z.lor BxImmediate_BrOff16 BxTraceJCC) BX_IA_JP_Jw;
  insn (Z.lor BxImmediate_BrOff16 BxTraceJCC) BX_IA_JNP_Jw; insn (Z.lor BxImmediate_BrOff16 BxTraceJCC) BX_IA_JL_Jw;
  insn (Z.lor BxImmediate_BrOff16 BxTraceJCC) BX_IA_JNL_Jw; insn (Z.lor BxImmediate_BrOff16 BxTraceJCC) BX_IA_JLE_Jw;
  insn (Z.lor BxImmediate_BrOff16 BxTraceJCC) BX_IA_JNLE_Jw;
  insn 0 BX_IA_SETO_EbR; insn 0 BX_IA_SETNO_EbR; insn 0 BX_IA_SETB_EbR; insn 0 BX_IA_SETNB_EbR;
  insn 0 BX_IA_SETZ_EbR; insn 0 BX_IA_SETNZ_EbR; insn 0 BX_IA_SETBE_EbR; insn 0 BX_IA_SETNBE_EbR;
  insn 0 BX_IA_SETS_EbR; insn 0 BX_IA_SETNS_EbR; insn 0 BX_IA_SETP_EbR; insn 0 BX_IA_SETNP_EbR;
  insn 0 BX_IA_SETL_EbR; insn 0 BX_IA_SETNL_EbR; insn 0 BX_IA_SETLE_EbR; insn 0 BX_IA_SETNLE_EbR;
  insn 0 BX_IA_PUSH16_FS; insn 0 BX_IA_POP16_FS; insn 0 BX_IA_CPUID; insn 0 BX_IA_BT_EwGwR;
  insn BxImmediate_Ib BX_IA_SHLD_EwGwR; insn 0 BX_IA_SHLD_EwGwR; insn BxTraceEnd BX_IA_CMPXCHG_XBTS;
  insn BxTraceEnd BX_IA_CMPXCHG_IBTS; insn 0 BX_IA_PUSH16_GS; insn 0 BX_IA_POP16_GS; insn BxTraceEnd BX_IA_RSM;
  insn 0 BX_IA_BTS_EwGwR; insn BxImmediate_Ib BX_IA_SHRD_EwGwR; insn 0 BX_IA_SHRD_EwGwR;
  opcode_info BxGroup15 BX_IA_ERROR BxOpcodeInfoG15R; insn 0 BX_IA_IMUL_GwEwR;
  insn 0 BX_IA_CMPXCHG_EbGbR; insn 0 BX_IA_CMPXCHG_EwGwR; insn 0 BX_IA_ERROR; insn 0 BX_IA_BTR_EwGwR;
  insn 0 BX_IA_ERROR; insn 0 BX_IA_ERROR; insn 0 BX_IA_MOVZX_GwEbR; insn 0 BX_IA_MOV_GwEwR;
  insn BxPrefixSSEF3 BX_IA_POPCNT_GwEwR; insn 0 BX_IA_UD2B; opcode_info BxGroup8 BX_IA_ERROR BxOpcodeInfoG8EwIbR;
  insn 0 BX_IA_BTC_EwGwR; insn 0 BX_IA_BSF_GwEwR; insn 0 BX_IA_BSR_GwEwR; insn 0 BX_IA_MOVSX_GwEbR;
  insn 0 BX_IA_MOV_GwEwR;
  insn 0 BX_IA_XADD_EbGbR; insn 0 BX_IA_XADD_EwGwR;
  opcode_info (Z.lor BxPrefixSSE BxImmediate_Ib) BX_IA_CMPPS_VpsWpsIb BxOpcodeGroupSSE_0fc2; insn 0 BX_IA_ERROR;
  opcode_info (Z.lor BxPrefixSSE BxImmediate_Ib) BX_IA_PINSRW_PqEwIb BxOpcodeGroupSSE_0fc4;
  opcode_info (Z.lor BxPrefixSSE BxImmediate_Ib) BX_IA_PEXTRW_GdPqIb BxOpcodeGroupSSE_0fc5R;
  opcode_info (Z.lor BxPrefixSSE BxImmediate_Ib) BX_IA_SHUFPS_VpsWpsIb BxOpcodeGroupSSE_0fc6; insn 0 BX_IA_ERROR;
  insn 0 BX_IA_BSWAP_RX; insn 0 BX_IA_BSWAP_RX; insn 0 BX_IA_BSWAP_RX; insn 0 BX_IA_BSWAP_RX; insn 0 BX_IA_BSWAP_RX;
  insn 0 BX_IA_BSWAP_RX; insn 0 BX_IA_BSWAP_RX; insn 0 BX_IA_BSWAP_RX;
  opcode_info BxPrefixSSE BX_IA_ERROR BxOpcodeGroupSSE_0fd0;
  opcode_info BxPrefixSSE BX_IA_PSRLW_PqQq BxOpcodeGroupSSE_0fd1;
  opcode_info BxPrefixSSE BX_IA_PSRLD_PqQq BxOpcodeGroupSSE_0fd2;
  opcode_info BxPrefixSSE BX_IA_PSRLQ_PqQq BxOpcodeGroupSSE_0fd3;
  opcode_info BxPrefixSSE BX_IA_PADDQ_PqQq BxOpcodeGroupSSE_0fd4;
  opcode_info BxPrefixSSE BX_IA_PMULLW_PqQq BxOpcodeGroupSSE_0fd5;
  opcode_info BxPrefixSSE BX_IA_ERROR BxOpcodeGroupSSE_0fd6R;
  opcode_info BxPrefixSSE BX_IA_PMOVMSKB_GdPRq BxOpcodeGroupSSE_0fd7;
  opcode_info BxPrefixSSE BX_IA_PSUBUSB_PqQq BxOpcodeGroupSSE_0fd8;
  opcode_info BxPrefixSSE BX_IA_PSUBUSW_PqQq BxOpcodeGroupSSE_0fd9;
  opcode_info BxPrefixSSE BX_IA_PMINUB_PqQq BxOpcodeGroupSSE_0fda;
  opcode_info BxPrefixSSE BX_IA_PAND_PqQq BxOpcodeGroupSSE_0fdb;
  opcode_info BxPrefixSSE BX_IA_PADDUSB_PqQq BxOpcodeGroupSSE_0fdc;
  opcode_info BxPrefixSSE BX_IA_PADDUSW_PqQq BxOpcodeGroupSSE_0fdd;
  opcode_info BxPrefixSSE BX_IA_PMAXUB_PqQq BxOpcodeGroupSSE_0fde;
  opcode_info BxPrefixSSE BX_IA_PANDN_PqQq BxOpcodeGroupSSE_0fdf;
  opcode_info BxPrefixSSE BX_IA_PAVGB_PqQq BxOpcodeGroupSSE_0fe0;
  opcode_info BxPrefixSSE BX_IA_PSRAW_PqQq BxOpcodeGroupSSE_0fe1;
  opcode_info BxPrefixSSE BX_IA_PSRAD_PqQq BxOpcodeGroupSSE_0fe2;
  opcode_info BxPrefixSSE BX_IA_PAVGW_PqQq BxOpcodeGroupSSE_0fe3;
  opcode_info BxPrefixSSE BX_IA_PMULHUW_PqQq BxOpcodeGroupSSE_0fe4;
  opcode_info BxPrefixSSE BX_IA_PMULHW_PqQq BxOpcodeGroupSSE_0fe5;
  opcode_info BxPrefixSSE BX_IA_ERROR BxOpcodeGroupSSE_0fe6; insn 0 BX_IA_ERROR;
  opcode_info BxPrefixSSE BX_IA_PSUBSB_PqQq BxOpcodeGroupSSE_0fe8;
  opcode_info BxPrefixSSE BX_IA_PSUBSW_PqQq BxOpcodeGroupSSE_0fe9;
  opcode_info BxPrefixSSE BX_IA_PMINSW_PqQq BxOpcodeGroupSSE_0fea;
  opcode_info BxPrefixSSE BX_IA_POR_PqQq BxOpcodeGroupSSE_0feb;
  opcode_info BxPrefixSSE BX_IA_PADDSB_PqQq BxOpcodeGroupSSE_0fec;
  opcode_info BxPrefixSSE BX_IA_PADDSW_PqQq BxOpcodeGroupSSE_0fed;
  opcode_info BxPrefixSSE BX_IA_PMAXSW_PqQq BxOpcodeGroupSSE_0fee;
  opcode_info BxPrefixSSE BX_IA_PXOR_PqQq BxOpcodeGroupSSE_0fef;
  insn 0 BX_IA_ERROR; opcode_info BxPrefixSSE BX_IA_PSLLW_PqQq BxOpcodeGroupSSE_0ff1;
  opcode_info BxPrefixSSE BX_IA_PSLLD_PqQq BxOpcodeGroupSSE_0ff2;
  opcode_info BxPrefixSSE BX_IA_PSLLQ_PqQq BxOpcodeGroupSSE_0ff3;
  opcode_info BxPrefixSSE BX_IA_PMULUDQ_PqQq BxOpcodeGroupSSE_0ff4;
  opcode_info BxPrefixSSE BX_IA_PMADDWD_PqQq BxOpcodeGroupSSE_0ff5;
  opcode_info BxPrefixSSE BX_IA_PSADBW_PqQq BxOpcodeGroupSSE_0ff6;
  opcode_info BxPrefixSSE BX_IA_MASKMOVQ_PqPRq BxOpcodeGroupSSE_0ff7R;
  opcode_info BxPrefixSSE BX_IA_PSUBB_PqQq BxOpcodeGroupSSE_0ff8;
  opcode_info BxPrefixSSE BX_IA_PSUBW_PqQq BxOpcodeGroupSSE_0ff9;
  opcode_info BxPrefixSSE BX_IA_PSUBD_PqQq BxOpcodeGroupSSE_0ffa;
  opcode_info BxPrefixSSE BX_IA_PSUBQ_PqQq BxOpcodeGroupSSE_0ffb;
  opcode_info BxPrefixSSE BX_IA_PADDB_PqQq BxOpcodeGroupSSE_0ffc;
  opcode_info BxPrefixSSE BX_IA_PADDW_PqQq BxOpcodeGroupSSE_0ffd;
  opcode_info BxPrefixSSE BX_IA_PADDD_PqQq BxOpcodeGroupSSE_0ffe; insn 0 BX_IA_ERROR].
Definition BxOpcodeInfo32R_32 : list BxOpcodeInfo_t := [
  insn BxArithDstRM BX_IA_ADD_GbEbR; insn BxArithDstRM BX_IA_ADD_GdEdR; insn 0 BX_IA_ADD_GbEbR;
  insn 0 BX_IA_ADD_GdEdR; insn BxImmediate_Ib BX_IA_ADD_ALIb; insn BxImmediate_Id BX_IA_ADD_EAXId;
  insn 0 BX_IA_PUSH32_ES; insn 0 BX_IA_POP32_ES; insn BxArithDstRM BX_IA_OR_GbEbR; insn BxArithDstRM BX_IA_OR_GdEdR;
  insn 0 BX_IA_OR_GbEbR; insn 0 BX_IA_OR_GdEdR; insn BxImmediate_Ib BX_IA_OR_ALIb;
  insn BxImmediate_Id BX_IA_OR_EAXId; insn 0 BX_IA_PUSH32_CS; insn 0 BX_IA_ERROR;
  insn BxArithDstRM BX_IA_ADC_GbEbR; insn BxArithDstRM BX_IA_ADC_GdEdR; insn 0 BX_IA_ADC_GbEbR;
  insn 0 BX_IA_ADC_GdEdR; insn BxImmediate_Ib BX_IA_ADC_ALIb; insn BxImmediate_Id BX_IA_ADC_EAXId;
  insn 0 BX_IA_PUSH32_SS; insn BxTraceEnd BX_IA_POP32_SS; insn BxArithDstRM BX_IA_SBB_GbEbR;
  insn BxArithDstRM BX_IA_SBB_GdEdR; insn 0 BX_IA_SBB_GbEbR; insn 0 BX_IA_SBB_GdEdR;
  insn BxImmediate_Ib BX_IA_SBB_ALIb; insn BxImmediate_Id BX_IA_SBB_EAXId; insn 0 BX_IA_PUSH32_DS;
  insn 0 BX_IA_POP32_DS;
  insn BxArithDstRM BX_IA_AND_GbEbR; insn BxArithDstRM BX_IA_AND_GdEdR; insn 0 BX_IA_AND_GbEbR;
  insn 0 BX_IA_AND_GdEdR; insn BxImmediate_Ib BX_IA_AND_ALIb; insn BxImmediate_Id BX_IA_AND_EAXId;
  insn 0 BX_IA_ERROR; insn 0 BX_IA_DAA; insn BxArithDstRM BX_IA_SUB_GbEbR; insn BxArithDstRM BX_IA_SUB_GdEdR;
  insn 0 BX_IA_SUB_GbEbR; insn 0 BX_IA_SUB_GdEdR; insn BxImmediate_Ib BX_IA_SUB_ALIb;
  insn BxImmediate_Id BX_IA_SUB_EAXId; insn 0 BX_IA_ERROR; insn 0 BX_IA_DAS;
  insn BxArithDstRM BX_IA_XOR_GbEbR; insn BxArithDstRM BX_IA_XOR_GdEdR; insn 0 BX_IA_XOR_GbEbR;
  insn 0 BX_IA_XOR_GdEdR; insn BxImmediate_Ib BX_IA_XOR_ALIb; insn BxImmediate_Id BX_IA_XOR_EAXId;
  insn 0 BX_IA_ERROR; insn 0 BX_IA_AAA; insn BxArithDstRM BX_IA_CMP_GbEbR; insn BxArithDstRM BX_IA_CMP_GdEdR;
  insn 0 BX_IA_CMP_GbEbR; insn 0 BX_IA_CMP_GdEdR; insn BxImmediate_Ib BX_IA_CMP_ALIb;
  insn BxImmediate_Id BX_IA_CMP_EAXId; insn 0 BX_IA_ERROR; insn 0 BX_IA_AAS;
  insn 0 BX_IA_INC_ERX; insn 0 BX_IA_INC_ERX; insn 0 BX_IA_INC_ERX; insn 0 BX_IA_INC_ERX; insn 0 BX_IA_INC_ERX;
  insn 0 BX_IA_INC_ERX; insn 0 BX_IA_INC_ERX; insn 0 BX_IA_INC_ERX; insn 0 BX_IA_DEC_ERX; insn 0 BX_IA_DEC_ERX;
  insn 0 BX_IA_DEC_ERX; insn 0 BX_IA_DEC_ERX; insn 0 BX_IA_DEC_ERX; insn 0 BX_IA_DEC_ERX; insn 0 BX_IA_DEC_ERX;
  insn 0 BX_IA_DEC_ERX;
  insn 0 BX_IA_PUSH_ERX; insn 0 BX_IA_PUSH_ERX; insn 0 BX_IA_PUSH_ERX; insn 0 BX_IA_PUSH_ERX; insn 0 BX_IA_PUSH_ERX;
  insn 0 BX_IA_PUSH_ERX; insn 0 BX_IA_PUSH_ERX; insn 0 BX_IA_PUSH_ERX; insn 0 BX_IA_POP_ERX; insn 0 BX_IA_POP_ERX;
  insn 0 BX_IA_POP_ERX; insn 0 BX_IA_POP_ERX; insn 0 BX_IA_POP_ERX; insn 0 BX_IA_POP_ERX; insn 0 BX_IA_POP_ERX;
  insn 0 BX_IA_POP_ERX;
  insn 0 BX_IA_PUSHAD32; insn 0 BX_IA_POPAD32; insn 0 BX_IA_ERROR; insn 0 BX_IA_ARPL_EwGw; insn 0 BX_IA_ERROR;
  insn 0 BX_IA_ERROR; insn 0 BX_IA_ERROR; insn 0 BX_IA_ERROR; insn BxImmediate_Id BX_IA_PUSH_Id;
  insn BxImmediate_Id BX_IA_IMUL_GdEdIdR; insn BxImmediate_Ib_SE BX_IA_PUSH_Id;
  insn BxImmediate_Ib_SE BX_IA_IMUL_GdEdIdR; insn 0 BX_IA_REP_INSB_YbDX; insn 0 BX_IA_REP_INSD_YdDX;
  insn 0 BX_IA_REP_OUTSB_DXXb; insn 0 BX_IA_REP_OUTSD_DXXd;
  insn (Z.lor BxImmediate_BrOff8 BxTraceJCC) BX_IA_JO_Jd; insn (Z.lor BxImmediate_BrOff8 BxTraceJCC) BX_IA_JNO_Jd;
  insn (Z.lor BxImmediate_BrOff8 BxTraceJCC) BX_IA_JB_Jd; insn (Z.lor BxImmediate_BrOff8 BxTraceJCC) BX_IA_JNB_Jd;
  insn (Z.lor BxImmediate_BrOff8 BxTraceJCC) BX_IA_JZ_Jd; insn (Z.lor BxImmediate_BrOff8 BxTraceJCC) BX_IA_JNZ_Jd;
  insn (Z.lor BxImmediate_BrOff8 BxTraceJCC) BX_IA_JBE_Jd; insn (Z.lor BxImmediate_BrOff8 BxTraceJCC) BX_IA_JNBE_Jd;
  insn (Z.lor BxImmediate_BrOff8 BxTraceJCC) BX_IA_JS_Jd; insn (Z.lor BxImmediate_BrOff8 BxTraceJCC) BX_IA_JNS_Jd;
  insn (Z.lor BxImmediate_BrOff8 BxTraceJCC) BX_IA_JP_Jd; insn (Z.lor BxImmediate_BrOff8 BxTraceJCC) BX_IA_JNP_Jd;
  insn (Z.lor BxImmediate_BrOff8 BxTraceJCC) BX_IA_JL_Jd; insn (Z.lor BxImmediate_BrOff8 BxTraceJCC) BX_IA_JNL_Jd;
  insn (Z.lor BxImmediate_BrOff8 BxTraceJCC) BX_IA_JLE_Jd; insn (Z.lor BxImmediate_BrOff8 BxTraceJCC) BX_IA_JNLE_Jd;
  opcode_info (Z.lor BxGroup1 BxImmediate_Ib) BX_IA_ERROR BxOpcodeInfoG1EbIbR;
  opcode_info (Z.lor BxGroup1 BxImmediate_Id) BX_IA_ERROR BxOpcodeInfoG1EdR;
  opcode_info (Z.lor BxGroup1 BxImmediate_Ib) BX_IA_ERROR BxOpcodeInfoG1EbIbR;
  opcode_info (Z.lor BxGroup1 BxImmediate_Ib_SE) BX_IA_ERROR BxOpcodeInfoG1EdR; insn 0 BX_IA_TEST_EbGbR;
  insn 0 BX_IA_TEST_EdGdR; insn 0 BX_IA_XCHG_EbGbR; insn 0 BX_IA_XCHG_EdGdR; insn BxArithDstRM BX_IA_MOV_GbEbR;
  insn BxArithDstRM BX_IA_MOV_GdEdR; insn 0 BX_IA_MOV_GbEbR; insn 0 BX_IA_MOV_GdEdR; insn 0 BX_IA_MOV_EwSwR;
  insn 0 BX_IA_ERROR; insn 0 BX_IA_MOV_SwEw; opcode_info BxGroup1A BX_IA_ERROR BxOpcodeInfoG1AEdR;
  opcode_info BxPrefixSSE BX_IA_NOP BxOpcodeGroupSSE_PAUSE; insn 0 BX_IA_XCHG_ERXEAX; insn 0 BX_IA_XCHG_ERXEAX;
  insn 0 BX_IA_XCHG_ERXEAX; insn 0 BX_IA_XCHG_ERXEAX; insn 0 BX_IA_XCHG_ERXEAX; insn 0 BX_IA_XCHG_ERXEAX;
  insn 0 BX_IA_XCHG_ERXEAX; insn 0 BX_IA_CWDE; insn 0 BX_IA_CDQ;
  insn (Z.lor BxImmediate_IdIw BxTraceEnd) BX_IA_CALL32_Ap; insn 0 BX_IA_FWAIT; insn 0 BX_IA_PUSHF_Fd;
  insn 0 BX_IA_POPF_Fd; insn 0 BX_IA_SAHF; insn 0 BX_IA_LAHF;
  insn BxImmediate_O BX_IA_MOV_ALOd; insn BxImmediate_O BX_IA_MOV_EAXOd; insn BxImmediate_O BX_IA_MOV_OdAL;
  insn BxImmediate_O BX_IA_MOV_OdEAX; insn 0 BX_IA_REP_MOVSB_XbYb; insn 0 BX_IA_REP_MOVSD_XdYd;
  insn 0 BX_IA_REP_CMPSB_XbYb; insn 0 BX_IA_REP_CMPSD_XdYd; insn BxImmediate_Ib BX_IA_TEST_ALIb;
  insn BxImmediate_Id BX_IA_TEST_EAXId; insn 0 BX_IA_REP_STOSB_YbAL; insn 0 BX_IA_REP_STOSD_YdEAX;
  insn 0 BX_IA_REP_LODSB_ALXb; insn 0 BX_IA_REP_LODSD_EAXXd; insn 0 BX_IA_REP_SCASB_ALXb;
  insn 0 BX_IA_REP_SCASD_EAXXd;
  insn BxImmediate_Ib BX_IA_MOV_RLIb; insn BxImmediate_Ib BX_IA_MOV_RLIb; insn BxImmediate_Ib BX_IA_MOV_RLIb;
  insn BxImmediate_Ib BX_IA_MOV_RLIb; insn BxImmediate_Ib BX_IA_MOV_RHIb; insn BxImmediate_Ib BX_IA_MOV_RHIb;
  insn BxImmediate_Ib BX_IA_MOV_RHIb; insn BxImmediate_Ib BX_IA_MOV_RHIb; insn BxImmediate_Id BX_IA_MOV_ERXId;
  insn BxImmediate_Id BX_IA_MOV_ERXId; insn BxImmediate_Id BX_IA_MOV_ERXId; insn BxImmediate_Id BX_IA_MOV_ERXId;
  insn BxImmediate_Id BX_IA_MOV_ERXId; insn BxImmediate_Id BX_IA_MOV_ERXId; insn BxImmediate_Id BX_IA_MOV_ERXId;
  insn BxImmediate_Id BX_IA_MOV_ERXId;
  opcode_info (Z.lor BxGroup2 BxImmediate_Ib) BX_IA_ERROR BxOpcodeInfoG2Eb;
  opcode_info (Z.lor BxGroup2 BxImmediate_Ib) BX_IA_ERROR BxOpcodeInfoG2EdR;
  insn (Z.lor BxImmediate_Iw BxTraceEnd) BX_IA_RETnear32_Iw; insn BxTraceEnd BX_IA_RETnear32; insn 0 BX_IA_ERROR;
  insn 0 BX_IA_ERROR; opcode_info BxGroup11 BX_IA_ERROR BxOpcodeInfoG11EbR;
  opcode_info BxGroup11 BX_IA_ERROR BxOpcodeInfoG11EdR; insn BxImmediate_IwIb BX_IA_ENTER32_IwIb;
  insn 0 BX_IA_LEAVE32; insn (Z.lor BxImmediate_Iw BxTraceEnd) BX_IA_RETfar32_Iw; insn BxTraceEnd BX_IA_RETfar32;
  insn BxTraceEnd BX_IA_INT3; insn (Z.lor BxImmediate_Ib BxTraceEnd) BX_IA_INT_Ib; insn BxTraceEnd BX_IA_INTO;
  insn BxTraceEnd BX_IA_IRET32;
  opcode_info (Z.lor BxGroup2 BxImmediate_I1) BX_IA_ERROR BxOpcodeInfoG2Eb;
  opcode_info (Z.lor BxGroup2 BxImmediate_I1) BX_IA_ERROR BxOpcodeInfoG2EdR;
  opcode_info BxGroup2 BX_IA_ERROR BxOpcodeInfoG2Eb; opcode_info BxGroup2 BX_IA_ERROR BxOpcodeInfoG2EdR;
  insn BxImmediate_Ib BX_IA_AAM; insn BxImmediate_Ib BX_IA_AAD; insn 0 BX_IA_SALC; insn 0 BX_IA_XLAT;
  opcode_info BxGroupN BX_IA_ERROR BxOpcodeInfo_FloatingPointD8;
  opcode_info BxFPEscape BX_IA_ERROR BxOpcodeInfo_FloatingPointD9;
  opcode_info BxFPEscape BX_IA_ERROR BxOpcodeInfo_FloatingPointDA;
  opcode_info BxFPEscape BX_IA_ERROR BxOpcodeInfo_FloatingPointDB;
  opcode_info BxGroupN BX_IA_ERROR BxOpcodeInfo_FloatingPointDC;
  opcode_info BxGroupN BX_IA_ERROR BxOpcodeInfo_FloatingPointDD;
  opcode_info BxFPEscape BX_IA_ERROR BxOpcodeInfo_FloatingPointDE;
  opcode_info BxFPEscape BX_IA_ERROR BxOpcodeInfo_FloatingPointDF;
  insn (Z.lor BxImmediate_BrOff8 BxTraceEnd) BX_IA_LOOPNE32_Jb;
  insn (Z.lor BxImmediate_BrOff8 BxTraceEnd) BX_IA_LOOPE32_Jb;
  insn (Z.lor BxImmediate_BrOff8 BxTraceEnd) BX_IA_LOOP32_Jb;
  insn (Z.lor BxImmediate_BrOff8 BxTraceEnd) BX_IA_JECXZ_Jb; insn BxImmediate_Ib BX_IA_IN_ALIb;
  insn BxImmediate_Ib BX_IA_IN_EAXIb; insn BxImmediate_Ib BX_IA_OUT_IbAL; insn BxImmediate_Ib BX_IA_OUT_IbEAX;
  insn (Z.lor BxImmediate_BrOff32 BxTraceEnd) BX_IA_CALL_Jd;
  insn (Z.lor BxImmediate_BrOff32 BxTraceEnd) BX_IA_JMP_Jd; insn (Z.lor BxImmediate_IdIw BxTraceEnd) BX_IA_JMP_Ap;
  insn (Z.lor BxImmediate_BrOff8 BxTraceEnd) BX_IA_JMP_Jd; insn 0 BX_IA_IN_ALDX; insn 0 BX_IA_IN_EAXDX;
  insn 0 BX_IA_OUT_DXAL; insn 0 BX_IA_OUT_DXEAX;
  insn 0 BX_IA_ERROR; insn BxTraceEnd BX_IA_INT1; insn 0 BX_IA_ERROR; insn 0 BX_IA_ERROR; insn BxTraceEnd BX_IA_HLT;
  insn 0 BX_IA_CMC; opcode_info BxGroup3 BX_IA_ERROR BxOpcodeInfoG3EbR;
  opcode_info BxGroup3 BX_IA_ERROR BxOpcodeInfoG3EdR; insn 0 BX_IA_CLC; insn 0 BX_IA_STC; insn 0 BX_IA_CLI;
  insn 0 BX_IA_STI; insn 0 BX_IA_CLD; insn 0 BX_IA_STD; opcode_info BxGroup5 BX_IA_ERROR BxOpcodeInfoG4R;
  opcode_info BxGroup5 BX_IA_ERROR BxOpcodeInfoG5dR].
Definition BxOpcodeInfo32R_32_0F : list BxOpcodeInfo_t := [
  opcode_info BxGroup6 BX_IA_ERROR BxOpcodeInfoG6; opcode_info BxFPEscape BX_IA_ERROR BxOpcodeInfoG7R;
  insn 0 BX_IA_LAR_GvEw; insn 0 BX_IA_LSL_GvEw; insn 0 BX_IA_ERROR; insn 0 BX_IA_ERROR; insn 0 BX_IA_CLTS;
  insn 0 BX_IA_ERROR; insn BxTraceEnd BX_IA_INVD; insn BxTraceEnd BX_IA_WBINVD; insn 0 BX_IA_ERROR;
  insn BxTraceEnd BX_IA_UD2A; insn 0 BX_IA_ERROR; insn 0 BX_IA_PREFETCHW; insn 0 BX_IA_FEMMS; insn 0 BX_IA_ERROR;
  opcode_info BxPrefixSSE BX_IA_MOVUPS_VpsWpsR BxOpcodeGroupSSE_0f10R;
  opcode_info BxPrefixSSE BX_IA_MOVUPS_WpsVpsR BxOpcodeGroupSSE_0f11R;
  opcode_info BxPrefixSSE BX_IA_MOVHLPS_VpsWpsR BxOpcodeGroupSSE_0f12R; insn 0 BX_IA_ERROR;
  opcode_info BxPrefixSSE BX_IA_UNPCKLPS_VpsWdq BxOpcodeGroupSSE_0f14;
  opcode_info BxPrefixSSE BX_IA_UNPCKHPS_VpsWdq BxOpcodeGroupSSE_0f15;
  opcode_info BxPrefixSSE BX_IA_MOVLHPS_VpsWpsR BxOpcodeGroupSSE_0f16R; insn 0 BX_IA_ERROR; insn 0 BX_IA_ERROR;
  insn 0 BX_IA_ERROR; insn 0 BX_IA_ERROR; insn 0 BX_IA_ERROR; insn 0 BX_IA_ERROR; insn 0 BX_IA_ERROR;
  insn 0 BX_IA_ERROR; insn 0 BX_IA_ERROR;
  insn 0 BX_IA_MOV_RdCd; insn 0 BX_IA_MOV_RdDd; insn BxTraceEnd BX_IA_MOV_CdRd; insn BxTraceEnd BX_IA_MOV_DdRd;
  insn BxTraceEnd BX_IA_MOV_RdTd; insn 0 BX_IA_ERROR; insn BxTraceEnd BX_IA_MOV_TdRd; insn 0 BX_IA_ERROR;
  opcode_info BxPrefixSSE BX_IA_MOVAPS_VpsWpsR BxOpcodeGroupSSE_0f28R;
  opcode_info BxPrefixSSE BX_IA_MOVAPS_WpsVpsR BxOpcodeGroupSSE_0f29R;
  opcode_info BxPrefixSSE BX_IA_CVTPI2PS_VpsQqR BxOpcodeGroupSSE_0f2aR; insn 0 BX_IA_ERROR;
  opcode_info BxPrefixSSE BX_IA_CVTTPS2PI_PqWps BxOpcodeGroupSSE_0f2c;
  opcode_info BxPrefixSSE BX_IA_CVTPS2PI_PqWps BxOpcodeGroupSSE_0f2d;
  opcode_info BxPrefixSSE BX_IA_UCOMISS_VssWss BxOpcodeGroupSSE_0f2e;
  opcode_info BxPrefixSSE BX_IA_COMISS_VpsWps BxOpcodeGroupSSE_0f2f;
  insn 0 BX_IA_WRMSR; insn 0 BX_IA_RDTSC; insn 0 BX_IA_RDMSR; insn 0 BX_IA_RDPMC; insn BxTraceEnd BX_IA_SYSENTER;
  insn BxTraceEnd BX_IA_SYSEXIT; insn 0 BX_IA_ERROR; insn 0 BX_IA_ERROR;
  opcode_info Bx3ByteOp BX_IA_ERROR BxOpcode3ByteTable0f38; insn 0 BX_IA_ERROR;
  opcode_info (Z.lor Bx3ByteOp BxImmediate_Ib) BX_IA_ERROR BxOpcode3ByteTable0f3a; insn 0 BX_IA_ERROR;
  insn 0 BX_IA_ERROR; insn 0 BX_IA_ERROR; insn 0 BX_IA_ERROR; insn 0 BX_IA_ERROR;
  insn 0 BX_IA_CMOVO_GdEdR; insn 0 BX_IA_CMOVNO_GdEdR; insn 0 BX_IA_CMOVB_GdEdR; insn 0 BX_IA_CMOVNB_GdEdR;
  insn 0 BX_IA_CMOVZ_GdEdR; insn 0 BX_IA_CMOVNZ_GdEdR; insn 0 BX_IA_CMOVBE_GdEdR; insn 0 BX_IA_CMOVNBE_GdEdR;
  insn 0 BX_IA_CMOVS_GdEdR; insn 0 BX_IA_CMOVNS_GdEdR; insn 0 BX_IA_CMOVP_GdEdR; insn 0 BX_IA_CMOVNP_GdEdR;
  insn 0 BX_IA_CMOVL_GdEdR; insn 0 BX_IA_CMOVNL_GdEdR; insn 0 BX_IA_CMOVLE_GdEdR; insn 0 BX_IA_CMOVNLE_GdEdR;
  opcode_info BxPrefixSSE BX_IA_MOVMSKPS_GdVRps BxOpcodeGroupSSE_0f50;
  opcode_info BxPrefixSSE BX_IA_SQRTPS_VpsWps BxOpcodeGroupSSE_0f51;
  opcode_info BxPrefixSSE BX_IA_RSQRTPS_VpsWps BxOpcodeGroupSSE_0f52;
  opcode_info BxPrefixSSE BX_IA_RCPPS_VpsWps BxOpcodeGroupSSE_0f53;
  opcode_info BxPrefixSSE BX_IA_ANDPS_VpsWps BxOpcodeGroupSSE_0f54;
  opcode_info BxPrefixSSE BX_IA_ANDNPS_VpsWps BxOpcodeGroupSSE_0f55;
  opcode_info BxPrefixSSE BX_IA_ORPS_VpsWps BxOpcodeGroupSSE_0f56;
  opcode_info BxPrefixSSE BX_IA_XORPS_VpsWps BxOpcodeGroupSSE_0f57;
  opcode_info BxPrefixSSE BX_IA_ADDPS_VpsWps BxOpcodeGroupSSE_0f58;
  opcode_info BxPrefixSSE BX_IA_MULPS_VpsWps BxOpcodeGroupSSE_0f59;
  opcode_info BxPrefixSSE BX_IA_CVTPS2PD_VpsWps BxOpcodeGroupSSE_0f5a;
  opcode_info BxPrefixSSE BX_IA_CVTDQ2PS_VpsWdq BxOpcodeGroupSSE_0f5b;
  opcode_info BxPrefixSSE BX_IA_SUBPS_VpsWps BxOpcodeGroupSSE_0f5c;
  opcode_info BxPrefixSSE BX_IA_MINPS_VpsWps BxOpcodeGroupSSE_0f5d;
  opcode_info BxPrefixSSE BX_IA_DIVPS_VpsWps BxOpcodeGroupSSE_0f5e;
  opcode_info BxPrefixSSE BX_IA_MAXPS_VpsWps BxOpcodeGroupSSE_0f5f;
  opcode_info BxPrefixSSE BX_IA_PUNPCKLBW_PqQd BxOpcodeGroupSSE_0f60;
  opcode_info BxPrefixSSE BX_IA_PUNPCKLWD_PqQd BxOpcodeGroupSSE_0f61;
  opcode_info BxPrefixSSE BX_IA_PUNPCKLDQ_PqQd BxOpcodeGroupSSE_0f62;
  opcode_info BxPrefixSSE BX_IA_PACKSSWB_PqQq BxOpcodeGroupSSE_0f63;
  opcode_info BxPrefixSSE BX_IA_PCMPGTB_PqQq BxOpcodeGroupSSE_0f64;
  opcode_info BxPrefixSSE BX_IA_PCMPGTW_PqQq BxOpcodeGroupSSE_0f65;
  opcode_info BxPrefixSSE BX_IA_PCMPGTD_PqQq BxOpcodeGroupSSE_0f66;
  opcode_info BxPrefixSSE BX_IA_PACKUSWB_PqQq BxOpcodeGroupSSE_0f67;
  opcode_info BxPrefixSSE BX_IA_PUNPCKHBW_PqQq BxOpcodeGroupSSE_0f68;
  opcode_info BxPrefixSSE BX_IA_PUNPCKHWD_PqQq BxOpcodeGroupSSE_0f69;
  opcode_info BxPrefixSSE BX_IA_PUNPCKHDQ_PqQq BxOpcodeGroupSSE_0f6a;
  opcode_info BxPrefixSSE BX_IA_PACKSSDW_PqQq BxOpcodeGroupSSE_0f6b; insn BxPrefixSSE66 BX_IA_PUNPCKLQDQ_VdqWdq;
  insn BxPrefixSSE66 BX_IA_PUNPCKHQDQ_VdqWdq; opcode_info BxPrefixSSE BX_IA_MOVD_PqEdR BxOpcodeGroupSSE_0f6eR;
  opcode_info BxPrefixSSE BX_IA_MOVQ_PqQqR BxOpcodeGroupSSE_0f6fR;
  opcode_info (Z.lor BxPrefixSSE BxImmediate_Ib) BX_IA_PSHUFW_PqQqIb BxOpcodeGroupSSE_0f70;
  opcode_info BxGroup12 BX_IA_ERROR BxOpcodeInfoG12R; opcode_info BxGroup13 BX_IA_ERROR BxOpcodeInfoG13R;
  opcode_info BxGroup14 BX_IA_ERROR BxOpcodeInfoG14R;
  opcode_info BxPrefixSSE BX_IA_PCMPEQB_PqQq BxOpcodeGroupSSE_0f74;
  opcode_info BxPrefixSSE BX_IA_PCMPEQW_PqQq BxOpcodeGroupSSE_0f75;
  opcode_info BxPrefixSSE BX_IA_PCMPEQD_PqQq BxOpcodeGroupSSE_0f76;
  opcode_info BxPrefixSSE BX_IA_EMMS BxOpcodeGroupSSE_ERR;
  opcode_info BxPrefixSSE BX_IA_VMREAD_EdGd BxOpcodeGroupSSE_ERR;
  opcode_info BxPrefixSSE BX_IA_VMWRITE_GdEd BxOpcodeGroupSSE_ERR; insn 0 BX_IA_ERROR; insn 0 BX_IA_ERROR;
  opcode_info BxPrefixSSE BX_IA_ERROR BxOpcodeGroupSSE_0f7c;
  opcode_info BxPrefixSSE BX_IA_ERROR BxOpcodeGroupSSE_0f7d;
  opcode_info BxPrefixSSE BX_IA_MOVD_EdPdR BxOpcodeGroupSSE_0f7eR;
  opcode_info BxPrefixSSE BX_IA_MOVQ_QqPqR BxOpcodeGroupSSE_0f7fR;
  insn (Z.lor BxImmediate_BrOff32 BxTraceJCC) BX_IA_JO_Jd; insn (Z.lor BxImmediate_BrOff32 BxTraceJCC) BX_IA_JNO_Jd;
  insn (Z.lor BxImmediate_BrOff32 BxTraceJCC) BX_IA_JB_Jd; insn (Z.lor BxImmediate_BrOff32 BxTraceJCC) BX_IA_JNB_Jd;
  insn (Z.lor BxImmediate_BrOff32 BxTraceJCC) BX_IA_JZ_Jd; insn (Z.lor BxImmediate_BrOff32 BxTraceJCC) BX_IA_JNZ_Jd;
  insn (Z.lor BxImmediate_BrOff32 BxTraceJCC) BX_IA_JBE_Jd;
  insn (Z.lor BxImmediate_BrOff32 BxTraceJCC) BX_IA_JNBE_Jd; insn (Z.lor BxImmediate_BrOff32 BxTraceJCC) BX_IA_JS_Jd;
  insn (Z.lor BxImmediate_BrOff32 BxTraceJCC) BX_IA_JNS_Jd; insn (Z.lor BxImmediate_BrOff32 BxTraceJCC) BX_IA_JP_Jd;
  insn (Z.lor BxImmediate_BrOff32 BxTraceJCC) BX_IA_JNP_Jd; insn (Z.lor BxImmediate_BrOff32 BxTraceJCC) BX_IA_JL_Jd;
  insn (Z.lor BxImmediate_BrOff32 BxTraceJCC) BX_IA_JNL_Jd; insn (Z.lor BxImmediate_BrOff32 BxTraceJCC) BX_IA_JLE_Jd;
  insn (Z.lor BxImmediate_BrOff32 BxTraceJCC) BX_IA_JNLE_Jd;
  insn 0 BX_IA_SETO_EbR; insn 0 BX_IA_SETNO_EbR; insn 0 BX_IA_SETB_EbR; insn 0 BX_IA_SETNB_EbR;
  insn 0 BX_IA_SETZ_EbR; insn 0 BX_IA_SETNZ_EbR; insn 0 BX_IA_SETBE_EbR; insn 0 BX_IA_SETNBE_EbR;
  insn 0 BX_IA_SETS_EbR; insn 0 BX_IA_SETNS_EbR; insn 0 BX_IA_SETP_EbR; insn 0 BX_IA_SETNP_EbR;
  insn 0 BX_IA_SETL_EbR; insn 0 BX_IA_SETNL_EbR; insn 0 BX_IA_SETLE_EbR; insn 0 BX_IA_SETNLE_EbR;
  insn 0 BX_IA_PUSH32_FS; insn 0 BX_IA_POP32_FS; insn 0 BX_IA_CPUID; insn 0 BX_IA_BT_EdGdR;
  insn BxImmediate_Ib BX_IA_SHLD_EdGdR; insn 0 BX_IA_SHLD_EdGdR; insn BxTraceEnd BX_IA_CMPXCHG_XBTS;
  insn BxTraceEnd BX_IA_CMPXCHG_IBTS; insn 0 BX_IA_PUSH32_GS; insn 0 BX_IA_POP32_GS; insn BxTraceEnd BX_IA_RSM;
  insn 0 BX_IA_BTS_EdGdR; insn BxImmediate_Ib BX_IA_SHRD_EdGdR; insn 0 BX_IA_SHRD_EdGdR;
  opcode_info BxGroup15 BX_IA_ERROR BxOpcodeInfoG15R; insn 0 BX_IA_IMUL_GdEdR;
  insn 0 BX_IA_CMPXCHG_EbGbR; insn 0 BX_IA_CMPXCHG_EdGdR; insn 0 BX_IA_ERROR; insn 0 BX_IA_BTR_EdGdR;
  insn 0 BX_IA_ERROR; insn 0 BX_IA_ERROR; insn 0 BX_IA_MOVZX_GdEbR; insn 0 BX_IA_MOVZX_GdEwR;
  insn BxPrefixSSEF3 BX_IA_POPCNT_GdEdR; insn BxTraceEnd BX_IA_UD2B;
  opcode_info BxGroup8 BX_IA_ERROR BxOpcodeInfoG8EdIbR; insn 0 BX_IA_BTC_EdGdR; insn 0 BX_IA_BSF_GdEdR;
  insn 0 BX_IA_BSR_GdEdR; insn 0 BX_IA_MOVSX_GdEbR; insn 0 BX_IA_MOVSX_GdEwR;
  insn 0 BX_IA_XADD_EbGbR; insn 0 BX_IA_XADD_EdGdR;
  opcode_info (Z.lor BxPrefixSSE BxImmediate_Ib) BX_IA_CMPPS_VpsWpsIb BxOpcodeGroupSSE_0fc2; insn 0 BX_IA_ERROR;
  opcode_info (Z.lor BxPrefixSSE BxImmediate_Ib) BX_IA_PINSRW_PqEwIb BxOpcodeGroupSSE_0fc4;
  opcode_info (Z.lor BxPrefixSSE BxImmediate_Ib) BX_IA_PEXTRW_GdPqIb BxOpcodeGroupSSE_0fc5R;
  opcode_info (Z.lor BxPrefixSSE BxImmediate_Ib) BX_IA_SHUFPS_VpsWpsIb BxOpcodeGroupSSE_0fc6; insn 0 BX_IA_ERROR;
  insn 0 BX_IA_BSWAP_ERX; insn 0 BX_IA_BSWAP_ERX; insn 0 BX_IA_BSWAP_ERX; insn 0 BX_IA_BSWAP_ERX;
  insn 0 BX_IA_BSWAP_ERX; insn 0 BX_IA_BSWAP_ERX; insn 0 BX_IA_BSWAP_ERX; insn 0 BX_IA_BSWAP_ERX;
  opcode_info BxPrefixSSE BX_IA_ERROR BxOpcodeGroupSSE_0fd0;
  opcode_info BxPrefixSSE BX_IA_PSRLW_PqQq BxOpcodeGroupSSE_0fd1;
  opcode_info BxPrefixSSE BX_IA_PSRLD_PqQq BxOpcodeGroupSSE_0fd2;
  opcode_info BxPrefixSSE BX_IA_PSRLQ_PqQq BxOpcodeGroupSSE_0fd3;
  opcode_info BxPrefixSSE BX_IA_PADDQ_PqQq BxOpcodeGroupSSE_0fd4;
  opcode_info BxPrefixSSE BX_IA_PMULLW_PqQq BxOpcodeGroupSSE_0fd5;
  opcode_info BxPrefixSSE BX_IA_ERROR BxOpcodeGroupSSE_0fd6R;
  opcode_info BxPrefixSSE BX_IA_PMOVMSKB_GdPRq BxOpcodeGroupSSE_0fd7;
  opcode_info BxPrefixSSE BX_IA_PSUBUSB_PqQq BxOpcodeGroupSSE_0fd8;
  opcode_info BxPrefixSSE BX_IA_PSUBUSW_PqQq BxOpcodeGroupSSE_0fd9;
  opcode_info BxPrefixSSE BX_IA_PMINUB_PqQq BxOpcodeGroupSSE_0fda;
  opcode_info BxPrefixSSE BX_IA_PAND_PqQq BxOpcodeGroupSSE_0fdb;
  opcode_info BxPrefixSSE BX_IA_PADDUSB_PqQq BxOpcodeGroupSSE_0fdc;
  opcode_info BxPrefixSSE BX_IA_PADDUSW_PqQq BxOpcodeGroupSSE_0fdd;
  opcode_info BxPrefixSSE BX_IA_PMAXUB_PqQq BxOpcodeGroupSSE_0fde;
  opcode_info BxPrefixSSE BX_IA_PANDN_PqQq BxOpcodeGroupSSE_0fdf;
  opcode_info BxPrefixSSE BX_IA_PAVGB_PqQq BxOpcodeGroupSSE_0fe0;
  opcode_info BxPrefixSSE BX_IA_PSRAW_PqQq BxOpcodeGroupSSE_0fe1;
  opcode_info BxPrefixSSE BX_IA_PSRAD_PqQq BxOpcodeGroupSSE_0fe2;
  opcode_info BxPrefixSSE BX_IA_PAVGW_PqQq BxOpcodeGroupSSE_0fe3;
  opcode_info BxPrefixSSE BX_IA_PMULHUW_PqQq BxOpcodeGroupSSE_0fe4;
  opcode_info BxPrefixSSE BX_IA_PMULHW_PqQq BxOpcodeGroupSSE_0fe5;
  opcode_info BxPrefixSSE BX_IA_ERROR BxOpcodeGroupSSE_0fe6; insn 0 BX_IA_ERROR;
  opcode_info BxPrefixSSE BX_IA_PSUBSB_PqQq BxOpcodeGroupSSE_0fe8;
  opcode_info BxPrefixSSE BX_IA_PSUBSW_PqQq BxOpcodeGroupSSE_0fe9;
  opcode_info BxPrefixSSE BX_IA_PMINSW_PqQq BxOpcodeGroupSSE_0fea;
  opcode_info BxPrefixSSE BX_IA_POR_PqQq BxOpcodeGroupSSE_0feb;
  opcode_info BxPrefixSSE BX_IA_PADDSB_PqQq BxOpcodeGroupSSE_0fec;
  opcode_info BxPrefixSSE BX_IA_PADDSW_PqQq BxOpcodeGroupSSE_0fed;
  opcode_info BxPrefixSSE BX_IA_PMAXSW_PqQq BxOpcodeGroupSSE_0fee;
  opcode_info BxPrefixSSE BX_IA_PXOR_PqQq BxOpcodeGroupSSE_0fef;
  insn 0 BX_IA_ERROR; opcode_info BxPrefixSSE BX_IA_PSLLW_PqQq BxOpcodeGroupSSE_0ff1;
  opcode_info BxPrefixSSE BX_IA_PSLLD_PqQq BxOpcodeGroupSSE_0ff2;
  opcode_info BxPrefixSSE BX_IA_PSLLQ_PqQq BxOpcodeGroupSSE_0ff3;
  opcode_info BxPrefixSSE BX_IA_PMULUDQ_PqQq BxOpcodeGroupSSE_0ff4;
  opcode_info BxPrefixSSE BX_IA_PMADDWD_PqQq BxOpcodeGroupSSE_0ff5;
  opcode_info BxPrefixSSE BX_IA_PSADBW_PqQq BxOpcodeGroupSSE_0ff6;
  opcode_info BxPrefixSSE BX_IA_MASKMOVQ_PqPRq BxOpcodeGroupSSE_0ff7R;
  opcode_info BxPrefixSSE BX_IA_PSUBB_PqQq BxOpcodeGroupSSE_0ff8;
  opcode_info BxPrefixSSE BX_IA_PSUBW_PqQq BxOpcodeGroupSSE_0ff9;
  opcode_info BxPrefixSSE BX_IA_PSUBD_PqQq BxOpcodeGroupSSE_0ffa;
  opcode_info BxPrefixSSE BX_IA_PSUBQ_PqQq BxOpcodeGroupSSE_0ffb;
  opcode_info BxPrefixSSE BX_IA_PADDB_PqQq BxOpcodeGroupSSE_0ffc;
  opcode_info BxPrefixSSE BX_IA_PADDW_PqQq BxOpcodeGroupSSE_0ffd;
  opcode_info BxPrefixSSE BX_IA_PADDD_PqQq BxOpcodeGroupSSE_0ffe; insn 0 BX_IA_ERROR].
Definition BxOpcodeInfo32R : list BxOpcodeInfo_t :=
  BxOpcodeInfo32R_16 ++ BxOpcodeInfo32R_16_0F ++ BxOpcodeInfo32R_32 ++ BxOpcodeInfo32R_32_0F.

Definition BxOpcodeInfo32M_16 : list BxOpcodeInfo_t := [
  insn BxLockable BX_IA_ADD_EbGbM; insn BxLockable BX_IA_ADD_EwGwM; insn 0 BX_IA_ADD_GbEbM; insn 0 BX_IA_ADD_GwEwM;
  insn BxImmediate_Ib BX_IA_ADD_ALIb; insn BxImmediate_Iw BX_IA_ADD_AXIw; insn 0 BX_IA_PUSH16_ES;
  insn 0 BX_IA_POP16_ES; insn BxLockable BX_IA_OR_EbGbM; insn BxLockable BX_IA_OR_EwGwM; insn 0 BX_IA_OR_GbEbM;
  insn 0 BX_IA_OR_GwEwM; insn BxImmediate_Ib BX_IA_OR_ALIb; insn BxImmediate_Iw BX_IA_OR_AXIw;
  insn 0 BX_IA_PUSH16_CS; insn 0 BX_IA_ERROR;
  insn BxLockable BX_IA_ADC_EbGbM; insn BxLockable BX_IA_ADC_EwGwM; insn 0 BX_IA_ADC_GbEbM; insn 0 BX_IA_ADC_GwEwM;
  insn BxImmediate_Ib BX_IA_ADC_ALIb; insn BxImmediate_Iw BX_IA_ADC_AXIw; insn 0 BX_IA_PUSH16_SS;
  insn BxTraceEnd BX_IA_POP16_SS; insn BxLockable BX_IA_SBB_EbGbM; insn BxLockable BX_IA_SBB_EwGwM;
  insn 0 BX_IA_SBB_GbEbM; insn 0 BX_IA_SBB_GwEwM; insn BxImmediate_Ib BX_IA_SBB_ALIb;
  insn BxImmediate_Iw BX_IA_SBB_AXIw; insn 0 BX_IA_PUSH16_DS; insn 0 BX_IA_POP16_DS;
  insn BxLockable BX_IA_AND_EbGbM; insn BxLockable BX_IA_AND_EwGwM; insn 0 BX_IA_AND_GbEbM; insn 0 BX_IA_AND_GwEwM;
  insn BxImmediate_Ib BX_IA_AND_ALIb; insn BxImmediate_Iw BX_IA_AND_AXIw; insn 0 BX_IA_ERROR; insn 0 BX_IA_DAA;
  insn BxLockable BX_IA_SUB_EbGbM; insn BxLockable BX_IA_SUB_EwGwM; insn 0 BX_IA_SUB_GbEbM; insn 0 BX_IA_SUB_GwEwM;
  insn BxImmediate_Ib BX_IA_SUB_ALIb; insn BxImmediate_Iw BX_IA_SUB_AXIw; insn 0 BX_IA_ERROR; insn 0 BX_IA_DAS;
  insn BxLockable BX_IA_XOR_EbGbM; insn BxLockable BX_IA_XOR_EwGwM; insn 0 BX_IA_XOR_GbEbM; insn 0 BX_IA_XOR_GwEwM;
  insn BxImmediate_Ib BX_IA_XOR_ALIb; insn BxImmediate_Iw BX_IA_XOR_AXIw; insn 0 BX_IA_ERROR; insn 0 BX_IA_AAA;
  insn 0 BX_IA_CMP_EbGbM; insn 0 BX_IA_CMP_EwGwM; insn 0 BX_IA_CMP_GbEbM; insn 0 BX_IA_CMP_GwEwM;
  insn BxImmediate_Ib BX_IA_CMP_ALIb; insn BxImmediate_Iw BX_IA_CMP_AXIw; insn 0 BX_IA_ERROR; insn 0 BX_IA_AAS;
  insn 0 BX_IA_INC_RX; insn 0 BX_IA_INC_RX; insn 0 BX_IA_INC_RX; insn 0 BX_IA_INC_RX; insn 0 BX_IA_INC_RX;
  insn 0 BX_IA_INC_RX; insn 0 BX_IA_INC_RX; insn 0 BX_IA_INC_RX; insn 0 BX_IA_DEC_RX; insn 0 BX_IA_DEC_RX;
  insn 0 BX_IA_DEC_RX; insn 0 BX_IA_DEC_RX; insn 0 BX_IA_DEC_RX; insn 0 BX_IA_DEC_RX; insn 0 BX_IA_DEC_RX;
  insn 0 BX_IA_DEC_RX;
  insn 0 BX_IA_PUSH_RX; insn 0 BX_IA_PUSH_RX; insn 0 BX_IA_PUSH_RX; insn 0 BX_IA_PUSH_RX; insn 0 BX_IA_PUSH_RX;
  insn 0 BX_IA_PUSH_RX; insn 0 BX_IA_PUSH_RX; insn 0 BX_IA_PUSH_RX; insn 0 BX_IA_POP_RX; insn 0 BX_IA_POP_RX;
  insn 0 BX_IA_POP_RX; insn 0 BX_IA_POP_RX; insn 0 BX_IA_POP_RX; insn 0 BX_IA_POP_RX; insn 0 BX_IA_POP_RX;
  insn 0 BX_IA_POP_RX;
  insn 0 BX_IA_PUSHAD16; insn 0 BX_IA_POPAD16; insn 0 BX_IA_BOUND_GwMa; insn 0 BX_IA_ARPL_EwGw; insn 0 BX_IA_ERROR;
  insn 0 BX_IA_ERROR; insn 0 BX_IA_ERROR; insn 0 BX_IA_ERROR; insn BxImmediate_Iw BX_IA_PUSH_Iw;
  insn BxImmediate_Iw BX_IA_IMUL_GwEwIwM; insn BxImmediate_Ib_SE BX_IA_PUSH_Iw;
  insn BxImmediate_Ib_SE BX_IA_IMUL_GwEwIwM; insn 0 BX_IA_REP_INSB_YbDX; insn 0 BX_IA_REP_INSW_YwDX;
  insn 0 BX_IA_REP_OUTSB_DXXb; insn 0 BX_IA_REP_OUTSW_DXXw;
  insn (Z.lor BxImmediate_BrOff8 BxTraceJCC) BX_IA_JO_Jw; insn (Z.lor BxImmediate_BrOff8 BxTraceJCC) BX_IA_JNO_Jw;
  insn (Z.lor BxImmediate_BrOff8 BxTraceJCC) BX_IA_JB_Jw; insn (Z.lor BxImmediate_BrOff8 BxTraceJCC) BX_IA_JNB_Jw;
  insn (Z.lor BxImmediate_BrOff8 BxTraceJCC) BX_IA_JZ_Jw; insn (Z.lor BxImmediate_BrOff8 BxTraceJCC) BX_IA_JNZ_Jw;
  insn (Z.lor BxImmediate_BrOff8 BxTraceJCC) BX_IA_JBE_Jw; insn (Z.lor BxImmediate_BrOff8 BxTraceJCC) BX_IA_JNBE_Jw;
  insn (Z.lor BxImmediate_BrOff8 BxTraceJCC) BX_IA_JS_Jw; insn (Z.lor BxImmediate_BrOff8 BxTraceJCC) BX_IA_JNS_Jw;
  insn (Z.lor BxImmediate_BrOff8 BxTraceJCC) BX_IA_JP_Jw; insn (Z.lor BxImmediate_BrOff8 BxTraceJCC) BX_IA_JNP_Jw;
  insn (Z.lor BxImmediate_BrOff8 BxTraceJCC) BX_IA_JL_Jw; insn (Z.lor BxImmediate_BrOff8 BxTraceJCC) BX_IA_JNL_Jw;
  insn (Z.lor BxImmediate_BrOff8 BxTraceJCC) BX_IA_JLE_Jw; insn (Z.lor BxImmediate_BrOff8 BxTraceJCC) BX_IA_JNLE_Jw;
  opcode_info (Z.lor BxGroup1 BxImmediate_Ib) BX_IA_ERROR BxOpcodeInfoG1EbIbM;
  opcode_info (Z.lor BxGroup1 BxImmediate_Iw) BX_IA_ERROR BxOpcodeInfoG1EwM;
  opcode_info (Z.lor BxGroup1 BxImmediate_Ib) BX_IA_ERROR BxOpcodeInfoG1EbIbM;
  opcode_info (Z.lor BxGroup1 BxImmediate_Ib_SE) BX_IA_ERROR BxOpcodeInfoG1EwM; insn 0 BX_IA_TEST_EbGbM;
  insn 0 BX_IA_TEST_EwGwM; insn BxLockable BX_IA_XCHG_EbGbM; insn BxLockable BX_IA_XCHG_EwGwM;
  insn 0 BX_IA_MOV_EbGbM; insn 0 BX_IA_MOV_EwGwM; insn 0 BX_IA_MOV_GbEbM; insn 0 BX_IA_MOV_GwEwM;
  insn 0 BX_IA_MOV_EwSwM; insn 0 BX_IA_LEA_GwM; insn 0 BX_IA_MOV_SwEw;
  opcode_info BxGroup1A BX_IA_ERROR BxOpcodeInfoG1AEwM;
  opcode_info BxPrefixSSE BX_IA_NOP BxOpcodeGroupSSE_PAUSE; insn 0 BX_IA_XCHG_RXAX; insn 0 BX_IA_XCHG_RXAX;
  insn 0 BX_IA_XCHG_RXAX; insn 0 BX_IA_XCHG_RXAX; insn 0 BX_IA_XCHG_RXAX; insn 0 BX_IA_XCHG_RXAX;
  insn 0 BX_IA_XCHG_RXAX; insn 0 BX_IA_CBW; insn 0 BX_IA_CWD;
  insn (Z.lor BxImmediate_IwIw BxTraceEnd) BX_IA_CALL16_Ap; insn 0 BX_IA_FWAIT; insn 0 BX_IA_PUSHF_Fw;
  insn 0 BX_IA_POPF_Fw; insn 0 BX_IA_SAHF; insn 0 BX_IA_LAHF;
  insn BxImmediate_O BX_IA_MOV_ALOd; insn BxImmediate_O BX_IA_MOV_AXOd; insn BxImmediate_O BX_IA_MOV_OdAL;
  insn BxImmediate_O BX_IA_MOV_OdAX; insn 0 BX_IA_REP_MOVSB_XbYb; insn 0 BX_IA_REP_MOVSW_XwYw;
  insn 0 BX_IA_REP_CMPSB_XbYb; insn 0 BX_IA_REP_CMPSW_XwYw; insn BxImmediate_Ib BX_IA_TEST_ALIb;
  insn BxImmediate_Iw BX_IA_TEST_AXIw; insn 0 BX_IA_REP_STOSB_YbAL; insn 0 BX_IA_REP_STOSW_YwAX;
  insn 0 BX_IA_REP_LODSB_ALXb; insn 0 BX_IA_REP_LODSW_AXXw; insn 0 BX_IA_REP_SCASB_ALXb; insn 0 BX_IA_REP_SCASW_AXXw;
  insn BxImmediate_Ib BX_IA_MOV_RLIb; insn BxImmediate_Ib BX_IA_MOV_RLIb; insn BxImmediate_Ib BX_IA_MOV_RLIb;
  insn BxImmediate_Ib BX_IA_MOV_RLIb; insn BxImmediate_Ib BX_IA_MOV_RHIb; insn BxImmediate_Ib BX_IA_MOV_RHIb;
  insn BxImmediate_Ib BX_IA_MOV_RHIb; insn BxImmediate_Ib BX_IA_MOV_RHIb; insn BxImmediate_Iw BX_IA_MOV_RXIw;
  insn BxImmediate_Iw BX_IA_MOV_RXIw; insn BxImmediate_Iw BX_IA_MOV_RXIw; insn BxImmediate_Iw BX_IA_MOV_RXIw;
  insn BxImmediate_Iw BX_IA_MOV_RXIw; insn BxImmediate_Iw BX_IA_MOV_RXIw; insn BxImmediate_Iw BX_IA_MOV_RXIw;
  insn BxImmediate_Iw BX_IA_MOV_RXIw;
  opcode_info (Z.lor BxGroup2 BxImmediate_Ib) BX_IA_ERROR BxOpcodeInfoG2Eb;
  opcode_info (Z.lor BxGroup2 BxImmediate_Ib) BX_IA_ERROR BxOpcodeInfoG2Ew;
  insn (Z.lor BxImmediate_Iw BxTraceEnd) BX_IA_RETnear16_Iw; insn BxTraceEnd BX_IA_RETnear16; insn 0 BX_IA_LES_GwMp;
  insn 0 BX_IA_LDS_GwMp; opcode_info BxGroup11 BX_IA_ERROR BxOpcodeInfoG11EbM;
  opcode_info BxGroup11 BX_IA_ERROR BxOpcodeInfoG11EwM; insn BxImmediate_IwIb BX_IA_ENTER16_IwIb;
  insn 0 BX_IA_LEAVE16; insn (Z.lor BxImmediate_Iw BxTraceEnd) BX_IA_RETfar16_Iw; insn BxTraceEnd BX_IA_RETfar16;
  insn BxTraceEnd BX_IA_INT3; insn (Z.lor BxImmediate_Ib BxTraceEnd) BX_IA_INT_Ib; insn BxTraceEnd BX_IA_INTO;
  insn BxTraceEnd BX_IA_IRET16;
  opcode_info (Z.lor BxGroup2 BxImmediate_I1) BX_IA_ERROR BxOpcodeInfoG2Eb;
  opcode_info (Z.lor BxGroup2 BxImmediate_I1) BX_IA_ERROR BxOpcodeInfoG2Ew;
  opcode_info BxGroup2 BX_IA_ERROR BxOpcodeInfoG2Eb; opcode_info BxGroup2 BX_IA_ERROR BxOpcodeInfoG2Ew;
  insn BxImmediate_Ib BX_IA_AAM; insn BxImmediate_Ib BX_IA_AAD; insn 0 BX_IA_SALC; insn 0 BX_IA_XLAT;
  opcode_info BxGroupFP BX_IA_ERROR BxOpcodeInfo_FPGroupD8; opcode_info BxGroupFP BX_IA_ERROR BxOpcodeInfo_FPGroupD9;
  opcode_info BxGroupFP BX_IA_ERROR BxOpcodeInfo_FPGroupDA; opcode_info BxGroupFP BX_IA_ERROR BxOpcodeInfo_FPGroupDB;
  opcode_info BxGroupFP BX_IA_ERROR BxOpcodeInfo_FPGroupDC; opcode_info BxGroupFP BX_IA_ERROR BxOpcodeInfo_FPGroupDD;
  opcode_info BxGroupFP BX_IA_ERROR BxOpcodeInfo_FPGroupDE; opcode_info BxGroupFP BX_IA_ERROR BxOpcodeInfo_FPGroupDF;
  insn (Z.lor BxImmediate_BrOff8 BxTraceEnd) BX_IA_LOOPNE16_Jb;
  insn (Z.lor BxImmediate_BrOff8 BxTraceEnd) BX_IA_LOOPE16_Jb;
  insn (Z.lor BxImmediate_BrOff8 BxTraceEnd) BX_IA_LOOP16_Jb;
  insn (Z.lor BxImmediate_BrOff8 BxTraceEnd) BX_IA_JCXZ_Jb; insn BxImmediate_Ib BX_IA_IN_ALIb;
  insn BxImmediate_Ib BX_IA_IN_AXIb; insn BxImmediate_Ib BX_IA_OUT_IbAL; insn BxImmediate_Ib BX_IA_OUT_IbAX;
  insn (Z.lor BxImmediate_BrOff16 BxTraceEnd) BX_IA_CALL_Jw;
  insn (Z.lor BxImmediate_BrOff16 BxTraceEnd) BX_IA_JMP_Jw; insn (Z.lor BxImmediate_IwIw BxTraceEnd) BX_IA_JMP_Ap;
  insn (Z.lor BxImmediate_BrOff8 BxTraceEnd) BX_IA_JMP_Jw; insn 0 BX_IA_IN_ALDX; insn 0 BX_IA_IN_AXDX;
  insn 0 BX_IA_OUT_DXAL; insn 0 BX_IA_OUT_DXAX;
  insn 0 BX_IA_ERROR; insn BxTraceEnd BX_IA_INT1; insn 0 BX_IA_ERROR; insn 0 BX_IA_ERROR; insn BxTraceEnd BX_IA_HLT;
  insn 0 BX_IA_CMC; opcode_info BxGroup3 BX_IA_ERROR BxOpcodeInfoG3EbM;
  opcode_info BxGroup3 BX_IA_ERROR BxOpcodeInfoG3EwM; insn 0 BX_IA_CLC; insn 0 BX_IA_STC; insn 0 BX_IA_CLI;
  insn 0 BX_IA_STI; insn 0 BX_IA_CLD; insn 0 BX_IA_STD; opcode_info BxGroup4 BX_IA_ERROR BxOpcodeInfoG4M;
  opcode_info BxGroup5 BX_IA_ERROR BxOpcodeInfoG5wM].
Definition BxOpcodeInfo32M_16_0F : list BxOpcodeInfo_t := [
  opcode_info BxGroup6 BX_IA_ERROR BxOpcodeInfoG6; opcode_info BxGroup7 BX_IA_ERROR BxOpcodeInfoG7M;
  insn 0 BX_IA_LAR_GvEw; insn 0 BX_IA_LSL_GvEw; insn 0 BX_IA_ERROR; insn 0 BX_IA_ERROR; insn 0 BX_IA_CLTS;
  insn 0 BX_IA_ERROR; insn BxTraceEnd BX_IA_INVD; insn BxTraceEnd BX_IA_WBINVD; insn 0 BX_IA_ERROR;
  insn BxTraceEnd BX_IA_UD2A; insn 0 BX_IA_ERROR; insn 0 BX_IA_PREFETCHW; insn 0 BX_IA_FEMMS; insn 0 BX_IA_ERROR;
  opcode_info BxPrefixSSE BX_IA_MOVUPS_VpsWpsM BxOpcodeGroupSSE_0f10M;
  opcode_info BxPrefixSSE BX_IA_MOVUPS_WpsVpsM BxOpcodeGroupSSE_0f11M;
  opcode_info BxPrefixSSE BX_IA_MOVLPS_VpsMq BxOpcodeGroupSSE_0f12M;
  opcode_info BxPrefixSSE BX_IA_MOVLPS_MqVps BxOpcodeGroupSSE_0f13M;
  opcode_info BxPrefixSSE BX_IA_UNPCKLPS_VpsWdq BxOpcodeGroupSSE_0f14;
  opcode_info BxPrefixSSE BX_IA_UNPCKHPS_VpsWdq BxOpcodeGroupSSE_0f15;
  opcode_info BxPrefixSSE BX_IA_MOVHPS_VpsMq BxOpcodeGroupSSE_0f16M;
  opcode_info BxPrefixSSE BX_IA_MOVHPS_MqVps BxOpcodeGroupSSE_0f17M; insn 0 BX_IA_ERROR; insn 0 BX_IA_ERROR;
  insn 0 BX_IA_ERROR; insn 0 BX_IA_ERROR; insn 0 BX_IA_ERROR; insn 0 BX_IA_ERROR; insn 0 BX_IA_ERROR;
  insn 0 BX_IA_ERROR;
  insn 0 BX_IA_MOV_RdCd; insn 0 BX_IA_MOV_RdDd; insn BxTraceEnd BX_IA_MOV_CdRd; insn BxTraceEnd BX_IA_MOV_DdRd;
  insn BxTraceEnd BX_IA_MOV_RdTd; insn 0 BX_IA_ERROR; insn BxTraceEnd BX_IA_MOV_TdRd; insn 0 BX_IA_ERROR;
  opcode_info BxPrefixSSE BX_IA_MOVAPS_VpsWpsM BxOpcodeGroupSSE_0f28M;
  opcode_info BxPrefixSSE BX_IA_MOVAPS_WpsVpsM BxOpcodeGroupSSE_0f29M;
  opcode_info BxPrefixSSE BX_IA_CVTPI2PS_VpsQqM BxOpcodeGroupSSE_0f2aM;
  opcode_info BxPrefixSSE BX_IA_MOVNTPS_MpsVps BxOpcodeGroupSSE_0f2bM;
  opcode_info BxPrefixSSE BX_IA_CVTTPS2PI_PqWps BxOpcodeGroupSSE_0f2c;
  opcode_info BxPrefixSSE BX_IA_CVTPS2PI_PqWps BxOpcodeGroupSSE_0f2d;
  opcode_info BxPrefixSSE BX_IA_UCOMISS_VssWss BxOpcodeGroupSSE_0f2e;
  opcode_info BxPrefixSSE BX_IA_COMISS_VpsWps BxOpcodeGroupSSE_0f2f;
  insn 0 BX_IA_WRMSR; insn 0 BX_IA_RDTSC; insn 0 BX_IA_RDMSR; insn 0 BX_IA_RDPMC; insn BxTraceEnd BX_IA_SYSENTER;
  insn BxTraceEnd BX_IA_SYSEXIT; insn 0 BX_IA_ERROR; insn 0 BX_IA_ERROR;
  opcode_info Bx3ByteOp BX_IA_ERROR BxOpcode3ByteTable0f38; insn 0 BX_IA_ERROR;
  opcode_info (Z.lor Bx3ByteOp BxImmediate_Ib) BX_IA_ERROR BxOpcode3ByteTable0f3a; insn 0 BX_IA_ERROR;
  insn 0 BX_IA_ERROR; insn 0 BX_IA_ERROR; insn 0 BX_IA_ERROR; insn 0 BX_IA_ERROR;
  insn 0 BX_IA_CMOVO_GwEwM; insn 0 BX_IA_CMOVNO_GwEwM; insn 0 BX_IA_CMOVB_GwEwM; insn 0 BX_IA_CMOVNB_GwEwM;
  insn 0 BX_IA_CMOVZ_GwEwM; insn 0 BX_IA_CMOVNZ_GwEwM; insn 0 BX_IA_CMOVBE_GwEwM; insn 0 BX_IA_CMOVNBE_GwEwM;
  insn 0 BX_IA_CMOVS_GwEwM; insn 0 BX_IA_CMOVNS_GwEwM; insn 0 BX_IA_CMOVP_GwEwM; insn 0 BX_IA_CMOVNP_GwEwM;
  insn 0 BX_IA_CMOVL_GwEwM; insn 0 BX_IA_CMOVNL_GwEwM; insn 0 BX_IA_CMOVLE_GwEwM; insn 0 BX_IA_CMOVNLE_GwEwM;
  insn 0 BX_IA_ERROR; opcode_info BxPrefixSSE BX_IA_SQRTPS_VpsWps BxOpcodeGroupSSE_0f51;
  opcode_info BxPrefixSSE BX_IA_RSQRTPS_VpsWps BxOpcodeGroupSSE_0f52;
  opcode_info BxPrefixSSE BX_IA_RCPPS_VpsWps BxOpcodeGroupSSE_0f53;
  opcode_info BxPrefixSSE BX_IA_ANDPS_VpsWps BxOpcodeGroupSSE_0f54;
  opcode_info BxPrefixSSE BX_IA_ANDNPS_VpsWps BxOpcodeGroupSSE_0f55;
  opcode_info BxPrefixSSE BX_IA_ORPS_VpsWps BxOpcodeGroupSSE_0f56;
  opcode_info BxPrefixSSE BX_IA_XORPS_VpsWps BxOpcodeGroupSSE_0f57;
  opcode_info BxPrefixSSE BX_IA_ADDPS_VpsWps BxOpcodeGroupSSE_0f58;
  opcode_info BxPrefixSSE BX_IA_MULPS_VpsWps BxOpcodeGroupSSE_0f59;
  opcode_info BxPrefixSSE BX_IA_CVTPS2PD_VpsWps BxOpcodeGroupSSE_0f5a;
  opcode_info BxPrefixSSE BX_IA_CVTDQ2PS_VpsWdq BxOpcodeGroupSSE_0f5b;
  opcode_info BxPrefixSSE BX_IA_SUBPS_VpsWps BxOpcodeGroupSSE_0f5c;
  opcode_info BxPrefixSSE BX_IA_MINPS_VpsWps BxOpcodeGroupSSE_0f5d;
  opcode_info BxPrefixSSE BX_IA_DIVPS_VpsWps BxOpcodeGroupSSE_0f5e;
  opcode_info BxPrefixSSE BX_IA_MAXPS_VpsWps BxOpcodeGroupSSE_0f5f;
  opcode_info BxPrefixSSE BX_IA_PUNPCKLBW_PqQd BxOpcodeGroupSSE_0f60;
  opcode_info BxPrefixSSE BX_IA_PUNPCKLWD_PqQd BxOpcodeGroupSSE_0f61;
  opcode_info BxPrefixSSE BX_IA_PUNPCKLDQ_PqQd BxOpcodeGroupSSE_0f62;
  opcode_info BxPrefixSSE BX_IA_PACKSSWB_PqQq BxOpcodeGroupSSE_0f63;
  opcode_info BxPrefixSSE BX_IA_PCMPGTB_PqQq BxOpcodeGroupSSE_0f64;
  opcode_info BxPrefixSSE BX_IA_PCMPGTW_PqQq BxOpcodeGroupSSE_0f65;
  opcode_info BxPrefixSSE BX_IA_PCMPGTD_PqQq BxOpcodeGroupSSE_0f66;
  opcode_info BxPrefixSSE BX_IA_PACKUSWB_PqQq BxOpcodeGroupSSE_0f67;
  opcode_info BxPrefixSSE BX_IA_PUNPCKHBW_PqQq BxOpcodeGroupSSE_0f68;
  opcode_info BxPrefixSSE BX_IA_PUNPCKHWD_PqQq BxOpcodeGroupSSE_0f69;
  opcode_info BxPrefixSSE BX_IA_PUNPCKHDQ_PqQq BxOpcodeGroupSSE_0f6a;
  opcode_info BxPrefixSSE BX_IA_PACKSSDW_PqQq BxOpcodeGroupSSE_0f6b; insn BxPrefixSSE66 BX_IA_PUNPCKLQDQ_VdqWdq;
  insn BxPrefixSSE66 BX_IA_PUNPCKHQDQ_VdqWdq; opcode_info BxPrefixSSE BX_IA_MOVD_PqEdM BxOpcodeGroupSSE_0f6eM;
  opcode_info BxPrefixSSE BX_IA_MOVQ_PqQqM BxOpcodeGroupSSE_0f6fM;
  opcode_info (Z.lor BxPrefixSSE BxImmediate_Ib) BX_IA_PSHUFW_PqQqIb BxOpcodeGroupSSE_0f70; insn 0 BX_IA_ERROR;
  insn 0 BX_IA_ERROR; insn 0 BX_IA_ERROR; opcode_info BxPrefixSSE BX_IA_PCMPEQB_PqQq BxOpcodeGroupSSE_0f74;
  opcode_info BxPrefixSSE BX_IA_PCMPEQW_PqQq BxOpcodeGroupSSE_0f75;
  opcode_info BxPrefixSSE BX_IA_PCMPEQD_PqQq BxOpcodeGroupSSE_0f76;
  opcode_info BxPrefixSSE BX_IA_EMMS BxOpcodeGroupSSE_ERR;
  opcode_info BxPrefixSSE BX_IA_VMREAD_EdGd BxOpcodeGroupSSE_ERR;
  opcode_info BxPrefixSSE BX_IA_VMWRITE_GdEd BxOpcodeGroupSSE_ERR; insn 0 BX_IA_ERROR; insn 0 BX_IA_ERROR;
  opcode_info BxPrefixSSE BX_IA_ERROR BxOpcodeGroupSSE_0f7c;
  opcode_info BxPrefixSSE BX_IA_ERROR BxOpcodeGroupSSE_0f7d;
  opcode_info BxPrefixSSE BX_IA_MOVD_EdPdM BxOpcodeGroupSSE_0f7eM;
  opcode_info BxPrefixSSE BX_IA_MOVQ_QqPqM BxOpcodeGroupSSE_0f7fM;
  insn (Z.lor BxImmediate_BrOff16 BxTraceJCC) BX_IA_JO_Jw; insn (Z.lor BxImmediate_BrOff16 BxTraceJCC) BX_IA_JNO_Jw;
  insn (Z.lor BxImmediate_BrOff16 BxTraceJCC) BX_IA_JB_Jw; insn (Z.lor BxImmediate_BrOff16 BxTraceJCC) BX_IA_JNB_Jw;
  insn (Z.lor BxImmediate_BrOff16 BxTraceJCC) BX_IA_JZ_Jw; insn (Z.lor BxImmediate_BrOff16 BxTraceJCC) BX_IA_JNZ_Jw;
  insn (Z.lor BxImmediate_BrOff16 BxTraceJCC) BX_IA_JBE_Jw;
  insn (Z.lor BxImmediate_BrOff16 BxTraceJCC) BX_IA_JNBE_Jw; insn (Z.lor BxImmediate_BrOff16 BxTraceJCC) BX_IA_JS_Jw;
  insn (Z.lor BxImmediate_BrOff16 BxTraceJCC) BX_IA_JNS_Jw; insn (Z.lor BxImmediate_BrOff16 BxTraceJCC) BX_IA_JP_Jw;
  insn (Z.lor BxImmediate_BrOff16 BxTraceJCC) BX_IA_JNP_Jw; insn (Z.lor BxImmediate_BrOff16 BxTraceJCC) BX_IA_JL_Jw;
  insn (Z.lor BxImmediate_BrOff16 BxTraceJCC) BX_IA_JNL_Jw; insn (Z.lor BxImmediate_BrOff16 BxTraceJCC) BX_IA_JLE_Jw;
  insn (Z.lor BxImmediate_BrOff16 BxTraceJCC) BX_IA_JNLE_Jw;
  insn 0 BX_IA_SETO_EbM; insn 0 BX_IA_SETNO_EbM; insn 0 BX_IA_SETB_EbM; insn 0 BX_IA_SETNB_EbM;
  insn 0 BX_IA_SETZ_EbM; insn 0 BX_IA_SETNZ_EbM; insn 0 BX_IA_SETBE_EbM; insn 0 BX_IA_SETNBE_EbM;
  insn 0 BX_IA_SETS_EbM; insn 0 BX_IA_SETNS_EbM; insn 0 BX_IA_SETP_EbM; insn 0 BX_IA_SETNP_EbM;
  insn 0 BX_IA_SETL_EbM; insn 0 BX_IA_SETNL_EbM; insn 0 BX_IA_SETLE_EbM; insn 0 BX_IA_SETNLE_EbM;
  insn 0 BX_IA_PUSH16_FS; insn 0 BX_IA_POP16_FS; insn 0 BX_IA_CPUID; insn 0 BX_IA_BT_EwGwM;
  insn BxImmediate_Ib BX_IA_SHLD_EwGwM; insn 0 BX_IA_SHLD_EwGwM; insn BxTraceEnd BX_IA_CMPXCHG_XBTS;
  insn BxTraceEnd BX_IA_CMPXCHG_IBTS; insn 0 BX_IA_PUSH16_GS; insn 0 BX_IA_POP16_GS; insn BxTraceEnd BX_IA_RSM;
  insn BxLockable BX_IA_BTS_EwGwM; insn BxImmediate_Ib BX_IA_SHRD_EwGwM; insn 0 BX_IA_SHRD_EwGwM;
  opcode_info BxGroup15 BX_IA_ERROR BxOpcodeInfoG15M; insn 0 BX_IA_IMUL_GwEwM;
  insn BxLockable BX_IA_CMPXCHG_EbGbM; insn BxLockable BX_IA_CMPXCHG_EwGwM; insn 0 BX_IA_LSS_GwMp;
  insn BxLockable BX_IA_BTR_EwGwM; insn 0 BX_IA_LFS_GwMp; insn 0 BX_IA_LGS_GwMp; insn 0 BX_IA_MOVZX_GwEbM;
  insn 0 BX_IA_MOV_GwEwM; insn BxPrefixSSEF3 BX_IA_POPCNT_GwEwM; insn BxTraceEnd BX_IA_UD2B;
  opcode_info BxGroup8 BX_IA_ERROR BxOpcodeInfoG8EwIbM; insn BxLockable BX_IA_BTC_EwGwM; insn 0 BX_IA_BSF_GwEwM;
  insn 0 BX_IA_BSR_GwEwM; insn 0 BX_IA_MOVSX_GwEbM; insn 0 BX_IA_MOV_GwEwM;
  insn BxLockable BX_IA_XADD_EbGbM; insn BxLockable BX_IA_XADD_EwGwM;
  opcode_info (Z.lor BxPrefixSSE BxImmediate_Ib) BX_IA_CMPPS_VpsWpsIb BxOpcodeGroupSSE_0fc2;
  opcode_info BxPrefixSSE BX_IA_MOVNTI_MdGd BxOpcodeGroupSSE_ERR;
  opcode_info (Z.lor BxPrefixSSE BxImmediate_Ib) BX_IA_PINSRW_PqEwIb BxOpcodeGroupSSE_0fc4; insn 0 BX_IA_ERROR;
  opcode_info (Z.lor BxPrefixSSE BxImmediate_Ib) BX_IA_SHUFPS_VpsWpsIb BxOpcodeGroupSSE_0fc6;
  opcode_info BxGroup9 BX_IA_ERROR BxOpcodeInfoG9M; insn 0 BX_IA_BSWAP_RX; insn 0 BX_IA_BSWAP_RX;
  insn 0 BX_IA_BSWAP_RX; insn 0 BX_IA_BSWAP_RX; insn 0 BX_IA_BSWAP_RX; insn 0 BX_IA_BSWAP_RX; insn 0 BX_IA_BSWAP_RX;
  insn 0 BX_IA_BSWAP_RX;
  opcode_info BxPrefixSSE BX_IA_ERROR BxOpcodeGroupSSE_0fd0;
  opcode_info BxPrefixSSE BX_IA_PSRLW_PqQq BxOpcodeGroupSSE_0fd1;
  opcode_info BxPrefixSSE BX_IA_PSRLD_PqQq BxOpcodeGroupSSE_0fd2;
  opcode_info BxPrefixSSE BX_IA_PSRLQ_PqQq BxOpcodeGroupSSE_0fd3;
  opcode_info BxPrefixSSE BX_IA_PADDQ_PqQq BxOpcodeGroupSSE_0fd4;
  opcode_info BxPrefixSSE BX_IA_PMULLW_PqQq BxOpcodeGroupSSE_0fd5; insn BxPrefixSSE66 BX_IA_MOVQ_WqVqM;
  insn 0 BX_IA_ERROR; opcode_info BxPrefixSSE BX_IA_PSUBUSB_PqQq BxOpcodeGroupSSE_0fd8;
  opcode_info BxPrefixSSE BX_IA_PSUBUSW_PqQq BxOpcodeGroupSSE_0fd9;
  opcode_info BxPrefixSSE BX_IA_PMINUB_PqQq BxOpcodeGroupSSE_0fda;
  opcode_info BxPrefixSSE BX_IA_PAND_PqQq BxOpcodeGroupSSE_0fdb;
  opcode_info BxPrefixSSE BX_IA_PADDUSB_PqQq BxOpcodeGroupSSE_0fdc;
  opcode_info BxPrefixSSE BX_IA_PADDUSW_PqQq BxOpcodeGroupSSE_0fdd;
  opcode_info BxPrefixSSE BX_IA_PMAXUB_PqQq BxOpcodeGroupSSE_0fde;
  opcode_info BxPrefixSSE BX_IA_PANDN_PqQq BxOpcodeGroupSSE_0fdf;
  opcode_info BxPrefixSSE BX_IA_PAVGB_PqQq BxOpcodeGroupSSE_0fe0;
  opcode_info BxPrefixSSE BX_IA_PSRAW_PqQq BxOpcodeGroupSSE_0fe1;
  opcode_info BxPrefixSSE BX_IA_PSRAD_PqQq BxOpcodeGroupSSE_0fe2;
  opcode_info BxPrefixSSE BX_IA_PAVGW_PqQq BxOpcodeGroupSSE_0fe3;
  opcode_info BxPrefixSSE BX_IA_PMULHUW_PqQq BxOpcodeGroupSSE_0fe4;
  opcode_info BxPrefixSSE BX_IA_PMULHW_PqQq BxOpcodeGroupSSE_0fe5;
  opcode_info BxPrefixSSE BX_IA_ERROR BxOpcodeGroupSSE_0fe6;
  opcode_info BxPrefixSSE BX_IA_MOVNTQ_MqPq BxOpcodeGroupSSE_0fe7M;
  opcode_info BxPrefixSSE BX_IA_PSUBSB_PqQq BxOpcodeGroupSSE_0fe8;
  opcode_info BxPrefixSSE BX_IA_PSUBSW_PqQq BxOpcodeGroupSSE_0fe9;
  opcode_info BxPrefixSSE BX_IA_PMINSW_PqQq BxOpcodeGroupSSE_0fea;
  opcode_info BxPrefixSSE BX_IA_POR_PqQq BxOpcodeGroupSSE_0feb;
  opcode_info BxPrefixSSE BX_IA_PADDSB_PqQq BxOpcodeGroupSSE_0fec;
  opcode_info BxPrefixSSE BX_IA_PADDSW_PqQq BxOpcodeGroupSSE_0fed;
  opcode_info BxPrefixSSE BX_IA_PMAXSW_PqQq BxOpcodeGroupSSE_0fee;
  opcode_info BxPrefixSSE BX_IA_PXOR_PqQq BxOpcodeGroupSSE_0fef;
  insn BxPrefixSSEF2 BX_IA_LDDQU_VdqMdq; opcode_info BxPrefixSSE BX_IA_PSLLW_PqQq BxOpcodeGroupSSE_0ff1;
  opcode_info BxPrefixSSE BX_IA_PSLLD_PqQq BxOpcodeGroupSSE_0ff2;
  opcode_info BxPrefixSSE BX_IA_PSLLQ_PqQq BxOpcodeGroupSSE_0ff3;
  opcode_info BxPrefixSSE BX_IA_PMULUDQ_PqQq BxOpcodeGroupSSE_0ff4;
  opcode_info BxPrefixSSE BX_IA_PMADDWD_PqQq BxOpcodeGroupSSE_0ff5;
  opcode_info BxPrefixSSE BX_IA_PSADBW_PqQq BxOpcodeGroupSSE_0ff6; insn 0 BX_IA_ERROR;
  opcode_info BxPrefixSSE BX_IA_PSUBB_PqQq BxOpcodeGroupSSE_0ff8;
  opcode_info BxPrefixSSE BX_IA_PSUBW_PqQq BxOpcodeGroupSSE_0ff9;
  opcode_info BxPrefixSSE BX_IA_PSUBD_PqQq BxOpcodeGroupSSE_0ffa;
  opcode_info BxPrefixSSE BX_IA_PSUBQ_PqQq BxOpcodeGroupSSE_0ffb;
  opcode_info BxPrefixSSE BX_IA_PADDB_PqQq BxOpcodeGroupSSE_0ffc;
  opcode_info BxPrefixSSE BX_IA_PADDW_PqQq BxOpcodeGroupSSE_0ffd;
  opcode_info BxPrefixSSE BX_IA_PADDD_PqQq BxOpcodeGroupSSE_0ffe; insn 0 BX_IA_ERROR].
Definition BxOpcodeInfo32M_32 : list BxOpcodeInfo_t := [
  insn BxLockable BX_IA_ADD_EbGbM; insn BxLockable BX_IA_ADD_EdGdM; insn 0 BX_IA_ADD_GbEbM; insn 0 BX_IA_ADD_GdEdM;
  insn BxImmediate_Ib BX_IA_ADD_ALIb; insn BxImmediate_Id BX_IA_ADD_EAXId; insn 0 BX_IA_PUSH32_ES;
  insn 0 BX_IA_POP32_ES; insn BxLockable BX_IA_OR_EbGbM; insn BxLockable BX_IA_OR_EdGdM; insn 0 BX_IA_OR_GbEbM;
  insn 0 BX_IA_OR_GdEdM; insn BxImmediate_Ib BX_IA_OR_ALIb; insn BxImmediate_Id BX_IA_OR_EAXId;
  insn 0 BX_IA_PUSH32_CS; insn 0 BX_IA_ERROR;
  insn BxLockable BX_IA_ADC_EbGbM; insn BxLockable BX_IA_ADC_EdGdM; insn 0 BX_IA_ADC_GbEbM; insn 0 BX_IA_ADC_GdEdM;
  insn BxImmediate_Ib BX_IA_ADC_ALIb; insn BxImmediate_Id BX_IA_ADC_EAXId; insn 0 BX_IA_PUSH32_SS;
  insn BxTraceEnd BX_IA_POP32_SS; insn BxLockable BX_IA_SBB_EbGbM; insn BxLockable BX_IA_SBB_EdGdM;
  insn 0 BX_IA_SBB_GbEbM; insn 0 BX_IA_SBB_GdEdM; insn BxImmediate_Ib BX_IA_SBB_ALIb;
  insn BxImmediate_Id BX_IA_SBB_EAXId; insn 0 BX_IA_PUSH32_DS; insn 0 BX_IA_POP32_DS;
  insn BxLockable BX_IA_AND_EbGbM; insn BxLockable BX_IA_AND_EdGdM; insn 0 BX_IA_AND_GbEbM; insn 0 BX_IA_AND_GdEdM;
  insn BxImmediate_Ib BX_IA_AND_ALIb; insn BxImmediate_Id BX_IA_AND_EAXId; insn 0 BX_IA_ERROR; insn 0 BX_IA_DAA;
  insn BxLockable BX_IA_SUB_EbGbM; insn BxLockable BX_IA_SUB_EdGdM; insn 0 BX_IA_SUB_GbEbM; insn 0 BX_IA_SUB_GdEdM;
  insn BxImmediate_Ib BX_IA_SUB_ALIb; insn BxImmediate_Id BX_IA_SUB_EAXId; insn 0 BX_IA_ERROR; insn 0 BX_IA_DAS;
  insn BxLockable BX_IA_XOR_EbGbM; insn BxLockable BX_IA_XOR_EdGdM; insn 0 BX_IA_XOR_GbEbM; insn 0 BX_IA_XOR_GdEdM;
  insn BxImmediate_Ib BX_IA_XOR_ALIb; insn BxImmediate_Id BX_IA_XOR_EAXId; insn 0 BX_IA_ERROR; insn 0 BX_IA_AAA;
  insn 0 BX_IA_CMP_EbGbM; insn 0 BX_IA_CMP_EdGdM; insn 0 BX_IA_CMP_GbEbM; insn 0 BX_IA_CMP_GdEdM;
  insn BxImmediate_Ib BX_IA_CMP_ALIb; insn BxImmediate_Id BX_IA_CMP_EAXId; insn 0 BX_IA_ERROR; insn 0 BX_IA_AAS;
  insn 0 BX_IA_INC_ERX; insn 0 BX_IA_INC_ERX; insn 0 BX_IA_INC_ERX; insn 0 BX_IA_INC_ERX; insn 0 BX_IA_INC_ERX;
  insn 0 BX_IA_INC_ERX; insn 0 BX_IA_INC_ERX; insn 0 BX_IA_INC_ERX; insn 0 BX_IA_DEC_ERX; insn 0 BX_IA_DEC_ERX;
  insn 0 BX_IA_DEC_ERX; insn 0 BX_IA_DEC_ERX; insn 0 BX_IA_DEC_ERX; insn 0 BX_IA_DEC_ERX; insn 0 BX_IA_DEC_ERX;
  insn 0 BX_IA_DEC_ERX;
  insn 0 BX_IA_PUSH_ERX; insn 0 BX_IA_PUSH_ERX; insn 0 BX_IA_PUSH_ERX; insn 0 BX_IA_PUSH_ERX; insn 0 BX_IA_PUSH_ERX;
  insn 0 BX_IA_PUSH_ERX; insn 0 BX_IA_PUSH_ERX; insn 0 BX_IA_PUSH_ERX; insn 0 BX_IA_POP_ERX; insn 0 BX_IA_POP_ERX;
  insn 0 BX_IA_POP_ERX; insn 0 BX_IA_POP_ERX; insn 0 BX_IA_POP_ERX; insn 0 BX_IA_POP_ERX; insn 0 BX_IA_POP_ERX;
  insn 0 BX_IA_POP_ERX;
  insn 0 BX_IA_PUSHAD32; insn 0 BX_IA_POPAD32; insn 0 BX_IA_BOUND_GdMa; insn 0 BX_IA_ARPL_EwGw; insn 0 BX_IA_ERROR;
  insn 0 BX_IA_ERROR; insn 0 BX_IA_ERROR; insn 0 BX_IA_ERROR; insn BxImmediate_Id BX_IA_PUSH_Id;
  insn BxImmediate_Id BX_IA_IMUL_GdEdIdM; insn BxImmediate_Ib_SE BX_IA_PUSH_Id;
  insn BxImmediate_Ib_SE BX_IA_IMUL_GdEdIdM; insn 0 BX_IA_REP_INSB_YbDX; insn 0 BX_IA_REP_INSD_YdDX;
  insn 0 BX_IA_REP_OUTSB_DXXb; insn 0 BX_IA_REP_OUTSD_DXXd;
  insn (Z.lor BxImmediate_BrOff8 BxTraceJCC) BX_IA_JO_Jd; insn (Z.lor BxImmediate_BrOff8 BxTraceJCC) BX_IA_JNO_Jd;
  insn (Z.lor BxImmediate_BrOff8 BxTraceJCC) BX_IA_JB_Jd; insn (Z.lor BxImmediate_BrOff8 BxTraceJCC) BX_IA_JNB_Jd;
  insn (Z.lor BxImmediate_BrOff8 BxTraceJCC) BX_IA_JZ_Jd; insn (Z.lor BxImmediate_BrOff8 BxTraceJCC) BX_IA_JNZ_Jd;
  insn (Z.lor BxImmediate_BrOff8 BxTraceJCC) BX_IA_JBE_Jd; insn (Z.lor BxImmediate_BrOff8 BxTraceJCC) BX_IA_JNBE_Jd;
  insn (Z.lor BxImmediate_BrOff8 BxTraceJCC) BX_IA_JS_Jd; insn (Z.lor BxImmediate_BrOff8 BxTraceJCC) BX_IA_JNS_Jd;
  insn (Z.lor BxImmediate_BrOff8 BxTraceJCC) BX_IA_JP_Jd; insn (Z.lor BxImmediate_BrOff8 BxTraceJCC) BX_IA_JNP_Jd;
  insn (Z.lor BxImmediate_BrOff8 BxTraceJCC) BX_IA_JL_Jd; insn (Z.lor BxImmediate_BrOff8 BxTraceJCC) BX_IA_JNL_Jd;
  insn (Z.lor BxImmediate_BrOff8 BxTraceJCC) BX_IA_JLE_Jd; insn (Z.lor BxImmediate_BrOff8 BxTraceJCC) BX_IA_JNLE_Jd;
  opcode_info (Z.lor BxGroup1 BxImmediate_Ib) BX_IA_ERROR BxOpcodeInfoG1EbIbM;
  opcode_info (Z.lor BxGroup1 BxImmediate_Id) BX_IA_ERROR BxOpcodeInfoG1EdM;
  opcode_info (Z.lor BxGroup1 BxImmediate_Ib) BX_IA_ERROR BxOpcodeInfoG1EbIbM;
  opcode_info (Z.lor BxGroup1 BxImmediate_Ib_SE) BX_IA_ERROR BxOpcodeInfoG1EdM; insn 0 BX_IA_TEST_EbGbM;
  insn 0 BX_IA_TEST_EdGdM; insn BxLockable BX_IA_XCHG_EbGbM; insn BxLockable BX_IA_XCHG_EdGdM;
  insn 0 BX_IA_MOV_EbGbM; insn 0 BX_IA_MOV32_EdGdM; insn 0 BX_IA_MOV_GbEbM; insn 0 BX_IA_MOV32_GdEdM;
  insn 0 BX_IA_MOV_EwSwM; insn 0 BX_IA_LEA_GdM; insn 0 BX_IA_MOV_SwEw;
  opcode_info BxGroup1A BX_IA_ERROR BxOpcodeInfoG1AEdM;
  opcode_info BxPrefixSSE BX_IA_NOP BxOpcodeGroupSSE_PAUSE; insn 0 BX_IA_XCHG_ERXEAX; insn 0 BX_IA_XCHG_ERXEAX;
  insn 0 BX_IA_XCHG_ERXEAX; insn 0 BX_IA_XCHG_ERXEAX; insn 0 BX_IA_XCHG_ERXEAX; insn 0 BX_IA_XCHG_ERXEAX;
  insn 0 BX_IA_XCHG_ERXEAX; insn 0 BX_IA_CWDE; insn 0 BX_IA_CDQ;
  insn (Z.lor BxImmediate_IdIw BxTraceEnd) BX_IA_CALL32_Ap; insn 0 BX_IA_FWAIT; insn 0 BX_IA_PUSHF_Fd;
  insn 0 BX_IA_POPF_Fd; insn 0 BX_IA_SAHF; insn 0 BX_IA_LAHF;
  insn BxImmediate_O BX_IA_MOV_ALOd; insn BxImmediate_O BX_IA_MOV_EAXOd; insn BxImmediate_O BX_IA_MOV_OdAL;
  insn BxImmediate_O BX_IA_MOV_OdEAX; insn 0 BX_IA_REP_MOVSB_XbYb; insn 0 BX_IA_REP_MOVSD_XdYd;
  insn 0 BX_IA_REP_CMPSB_XbYb; insn 0 BX_IA_REP_CMPSD_XdYd; insn BxImmediate_Ib BX_IA_TEST_ALIb;
  insn BxImmediate_Id BX_IA_TEST_EAXId; insn 0 BX_IA_REP_STOSB_YbAL; insn 0 BX_IA_REP_STOSD_YdEAX;
  insn 0 BX_IA_REP_LODSB_ALXb; insn 0 BX_IA_REP_LODSD_EAXXd; insn 0 BX_IA_REP_SCASB_ALXb;
  insn 0 BX_IA_REP_SCASD_EAXXd;
  insn BxImmediate_Ib BX_IA_MOV_RLIb; insn BxImmediate_Ib BX_IA_MOV_RLIb; insn BxImmediate_Ib BX_IA_MOV_RLIb;
  insn BxImmediate_Ib BX_IA_MOV_RLIb; insn BxImmediate_Ib BX_IA_MOV_RHIb; insn BxImmediate_Ib BX_IA_MOV_RHIb;
  insn BxImmediate_Ib BX_IA_MOV_RHIb; insn BxImmediate_Ib BX_IA_MOV_RHIb; insn BxImmediate_Id BX_IA_MOV_ERXId;
  insn BxImmediate_Id BX_IA_MOV_ERXId; insn BxImmediate_Id BX_IA_MOV_ERXId; insn BxImmediate_Id BX_IA_MOV_ERXId;
  insn BxImmediate_Id BX_IA_MOV_ERXId; insn BxImmediate_Id BX_IA_MOV_ERXId; insn BxImmediate_Id BX_IA_MOV_ERXId;
  insn BxImmediate_Id BX_IA_MOV_ERXId;
  opcode_info (Z.lor BxGroup2 BxImmediate_Ib) BX_IA_ERROR BxOpcodeInfoG2Eb;
  opcode_info (Z.lor BxGroup2 BxImmediate_Ib) BX_IA_ERROR BxOpcodeInfoG2EdM;
  insn (Z.lor BxImmediate_Iw BxTraceEnd) BX_IA_RETnear32_Iw; insn BxTraceEnd BX_IA_RETnear32; insn 0 BX_IA_LES_GdMp;
  insn 0 BX_IA_LDS_GdMp; opcode_info BxGroup11 BX_IA_ERROR BxOpcodeInfoG11EbM;
  opcode_info BxGroup11 BX_IA_ERROR BxOpcodeInfoG11EdM; insn BxImmediate_IwIb BX_IA_ENTER32_IwIb;
  insn 0 BX_IA_LEAVE32; insn (Z.lor BxImmediate_Iw BxTraceEnd) BX_IA_RETfar32_Iw; insn BxTraceEnd BX_IA_RETfar32;
  insn BxTraceEnd BX_IA_INT3; insn (Z.lor BxImmediate_Ib BxTraceEnd) BX_IA_INT_Ib; insn BxTraceEnd BX_IA_INTO;
  insn BxTraceEnd BX_IA_IRET32;
  opcode_info (Z.lor BxGroup2 BxImmediate_I1) BX_IA_ERROR BxOpcodeInfoG2Eb;
  opcode_info (Z.lor BxGroup2 BxImmediate_I1) BX_IA_ERROR BxOpcodeInfoG2EdM;
  opcode_info BxGroup2 BX_IA_ERROR BxOpcodeInfoG2Eb; opcode_info BxGroup2 BX_IA_ERROR BxOpcodeInfoG2EdM;
  insn BxImmediate_Ib BX_IA_AAM; insn BxImmediate_Ib BX_IA_AAD; insn 0 BX_IA_SALC; insn 0 BX_IA_XLAT;
  opcode_info BxGroupFP BX_IA_ERROR BxOpcodeInfo_FPGroupD8; opcode_info BxGroupFP BX_IA_ERROR BxOpcodeInfo_FPGroupD9;
  opcode_info BxGroupFP BX_IA_ERROR BxOpcodeInfo_FPGroupDA; opcode_info BxGroupFP BX_IA_ERROR BxOpcodeInfo_FPGroupDB;
  opcode_info BxGroupFP BX_IA_ERROR BxOpcodeInfo_FPGroupDC; opcode_info BxGroupFP BX_IA_ERROR BxOpcodeInfo_FPGroupDD;
  opcode_info BxGroupFP BX_IA_ERROR BxOpcodeInfo_FPGroupDE; opcode_info BxGroupFP BX_IA_ERROR BxOpcodeInfo_FPGroupDF;
  insn (Z.lor BxImmediate_BrOff8 BxTraceEnd) BX_IA_LOOPNE32_Jb;
  insn (Z.lor BxImmediate_BrOff8 BxTraceEnd) BX_IA_LOOPE32_Jb;
  insn (Z.lor BxImmediate_BrOff8 BxTraceEnd) BX_IA_LOOP32_Jb;
  insn (Z.lor BxImmediate_BrOff8 BxTraceEnd) BX_IA_JECXZ_Jb; insn BxImmediate_Ib BX_IA_IN_ALIb;
  insn BxImmediate_Ib BX_IA_IN_EAXIb; insn BxImmediate_Ib BX_IA_OUT_IbAL; insn BxImmediate_Ib BX_IA_OUT_IbEAX;
  insn (Z.lor BxImmediate_BrOff32 BxTraceEnd) BX_IA_CALL_Jd;
  insn (Z.lor BxImmediate_BrOff32 BxTraceEnd) BX_IA_JMP_Jd; insn (Z.lor BxImmediate_IdIw BxTraceEnd) BX_IA_JMP_Ap;
  insn (Z.lor BxImmediate_BrOff8 BxTraceEnd) BX_IA_JMP_Jd; insn 0 BX_IA_IN_ALDX; insn 0 BX_IA_IN_EAXDX;
  insn 0 BX_IA_OUT_DXAL; insn 0 BX_IA_OUT_DXEAX;
  insn 0 BX_IA_ERROR; insn BxTraceEnd BX_IA_INT1; insn 0 BX_IA_ERROR; insn 0 BX_IA_ERROR; insn BxTraceEnd BX_IA_HLT;
  insn 0 BX_IA_CMC; opcode_info BxGroup3 BX_IA_ERROR BxOpcodeInfoG3EbM;
  opcode_info BxGroup3 BX_IA_ERROR BxOpcodeInfoG3EdM; insn 0 BX_IA_CLC; insn 0 BX_IA_STC; insn 0 BX_IA_CLI;
  insn 0 BX_IA_STI; insn 0 BX_IA_CLD; insn 0 BX_IA_STD; opcode_info BxGroup4 BX_IA_ERROR BxOpcodeInfoG4M;
  opcode_info BxGroup5 BX_IA_ERROR BxOpcodeInfoG5dM].
Definition BxOpcodeInfo32M_32_0F : list BxOpcodeInfo_t := [
  opcode_info BxGroup6 BX_IA_ERROR BxOpcodeInfoG6; opcode_info BxGroup7 BX_IA_ERROR BxOpcodeInfoG7M;
  insn 0 BX_IA_LAR_GvEw; insn 0 BX_IA_LSL_GvEw; insn 0 BX_IA_ERROR; insn 0 BX_IA_ERROR; insn 0 BX_IA_CLTS;
  insn 0 BX_IA_ERROR; insn BxTraceEnd BX_IA_INVD; insn BxTraceEnd BX_IA_WBINVD; insn 0 BX_IA_ERROR;
  insn BxTraceEnd BX_IA_UD2A; insn 0 BX_IA_ERROR; insn 0 BX_IA_PREFETCHW; insn 0 BX_IA_FEMMS; insn 0 BX_IA_ERROR;
  opcode_info BxPrefixSSE BX_IA_MOVUPS_VpsWpsM BxOpcodeGroupSSE_0f10M;
  opcode_info BxPrefixSSE BX_IA_MOVUPS_WpsVpsM BxOpcodeGroupSSE_0f11M;
  opcode_info BxPrefixSSE BX_IA_MOVLPS_VpsMq BxOpcodeGroupSSE_0f12M;
  opcode_info BxPrefixSSE BX_IA_MOVLPS_MqVps BxOpcodeGroupSSE_0f13M;
  opcode_info BxPrefixSSE BX_IA_UNPCKLPS_VpsWdq BxOpcodeGroupSSE_0f14;
  opcode_info BxPrefixSSE BX_IA_UNPCKHPS_VpsWdq BxOpcodeGroupSSE_0f15;
  opcode_info BxPrefixSSE BX_IA_MOVHPS_VpsMq BxOpcodeGroupSSE_0f16M;
  opcode_info BxPrefixSSE BX_IA_MOVHPS_MqVps BxOpcodeGroupSSE_0f17M; insn 0 BX_IA_ERROR; insn 0 BX_IA_ERROR;
  insn 0 BX_IA_ERROR; insn 0 BX_IA_ERROR; insn 0 BX_IA_ERROR; insn 0 BX_IA_ERROR; insn 0 BX_IA_ERROR;
  insn 0 BX_IA_ERROR;
  insn 0 BX_IA_MOV_RdCd; insn 0 BX_IA_MOV_RdDd; insn BxTraceEnd BX_IA_MOV_CdRd; insn BxTraceEnd BX_IA_MOV_DdRd;
  insn BxTraceEnd BX_IA_MOV_RdTd; insn 0 BX_IA_ERROR; insn BxTraceEnd BX_IA_MOV_TdRd; insn 0 BX_IA_ERROR;
  opcode_info BxPrefixSSE BX_IA_MOVAPS_VpsWpsM BxOpcodeGroupSSE_0f28M;
  opcode_info BxPrefixSSE BX_IA_MOVAPS_WpsVpsM BxOpcodeGroupSSE_0f29M;
  opcode_info BxPrefixSSE BX_IA_CVTPI2PS_VpsQqM BxOpcodeGroupSSE_0f2aM;
  opcode_info BxPrefixSSE BX_IA_MOVNTPS_MpsVps BxOpcodeGroupSSE_0f2bM;
  opcode_info BxPrefixSSE BX_IA_CVTTPS2PI_PqWps BxOpcodeGroupSSE_0f2c;
  opcode_info BxPrefixSSE BX_IA_CVTPS2PI_PqWps BxOpcodeGroupSSE_0f2d;
  opcode_info BxPrefixSSE BX_IA_UCOMISS_VssWss BxOpcodeGroupSSE_0f2e;
  opcode_info BxPrefixSSE BX_IA_COMISS_VpsWps BxOpcodeGroupSSE_0f2f;
  insn 0 BX_IA_WRMSR; insn 0 BX_IA_RDTSC; insn 0 BX_IA_RDMSR; insn 0 BX_IA_RDPMC; insn BxTraceEnd BX_IA_SYSENTER;
  insn BxTraceEnd BX_IA_SYSEXIT; insn 0 BX_IA_ERROR; insn 0 BX_IA_ERROR;
  opcode_info Bx3ByteOp BX_IA_ERROR BxOpcode3ByteTable0f38; insn 0 BX_IA_ERROR;
  opcode_info (Z.lor Bx3ByteOp BxImmediate_Ib) BX_IA_ERROR BxOpcode3ByteTable0f3a; insn 0 BX_IA_ERROR;
  insn 0 BX_IA_ERROR; insn 0 BX_IA_ERROR; insn 0 BX_IA_ERROR; insn 0 BX_IA_ERROR;
  insn 0 BX_IA_CMOVO_GdEdM; insn 0 BX_IA_CMOVNO_GdEdM; insn 0 BX_IA_CMOVB_GdEdM; insn 0 BX_IA_CMOVNB_GdEdM;
  insn 0 BX_IA_CMOVZ_GdEdM; insn 0 BX_IA_CMOVNZ_GdEdM; insn 0 BX_IA_CMOVBE_GdEdM; insn 0 BX_IA_CMOVNBE_GdEdM;
  insn 0 BX_IA_CMOVS_GdEdM; insn 0 BX_IA_CMOVNS_GdEdM; insn 0 BX_IA_CMOVP_GdEdM; insn 0 BX_IA_CMOVNP_GdEdM;
  insn 0 BX_IA_CMOVL_GdEdM; insn 0 BX_IA_CMOVNL_GdEdM; insn 0 BX_IA_CMOVLE_GdEdM; insn 0 BX_IA_CMOVNLE_GdEdM;
  insn 0 BX_IA_ERROR; opcode_info BxPrefixSSE BX_IA_SQRTPS_VpsWps BxOpcodeGroupSSE_0f51;
  opcode_info BxPrefixSSE BX_IA_RSQRTPS_VpsWps BxOpcodeGroupSSE_0f52;
  opcode_info BxPrefixSSE BX_IA_RCPPS_VpsWps BxOpcodeGroupSSE_0f53;
  opcode_info BxPrefixSSE BX_IA_ANDPS_VpsWps BxOpcodeGroupSSE_0f54;
  opcode_info BxPrefixSSE BX_IA_ANDNPS_VpsWps BxOpcodeGroupSSE_0f55;
  opcode_info BxPrefixSSE BX_IA_ORPS_VpsWps BxOpcodeGroupSSE_0f56;
  opcode_info BxPrefixSSE BX_IA_XORPS_VpsWps BxOpcodeGroupSSE_0f57;
  opcode_info BxPrefixSSE BX_IA_ADDPS_VpsWps BxOpcodeGroupSSE_0f58;
  opcode_info BxPrefixSSE BX_IA_MULPS_VpsWps BxOpcodeGroupSSE_0f59;
  opcode_info BxPrefixSSE BX_IA_CVTPS2PD_VpsWps BxOpcodeGroupSSE_0f5a;
  opcode_info BxPrefixSSE BX_IA_CVTDQ2PS_VpsWdq BxOpcodeGroupSSE_0f5b;
  opcode_info BxPrefixSSE BX_IA_SUBPS_VpsWps BxOpcodeGroupSSE_0f5c;
  opcode_info BxPrefixSSE BX_IA_MINPS_VpsWps BxOpcodeGroupSSE_0f5d;
  opcode_info BxPrefixSSE BX_IA_DIVPS_VpsWps BxOpcodeGroupSSE_0f5e;
  opcode_info BxPrefixSSE BX_IA_MAXPS_VpsWps BxOpcodeGroupSSE_0f5f;
  opcode_info BxPrefixSSE BX_IA_PUNPCKLBW_PqQd BxOpcodeGroupSSE_0f60;
  opcode_info BxPrefixSSE BX_IA_PUNPCKLWD_PqQd BxOpcodeGroupSSE_0f61;
  opcode_info BxPrefixSSE BX_IA_PUNPCKLDQ_PqQd BxOpcodeGroupSSE_0f62;
  opcode_info BxPrefixSSE BX_IA_PACKSSWB_PqQq BxOpcodeGroupSSE_0f63;
  opcode_info BxPrefixSSE BX_IA_PCMPGTB_PqQq BxOpcodeGroupSSE_0f64;
  opcode_info BxPrefixSSE BX_IA_PCMPGTW_PqQq BxOpcodeGroupSSE_0f65;
  opcode_info BxPrefixSSE BX_IA_PCMPGTD_PqQq BxOpcodeGroupSSE_0f66;
  opcode_info BxPrefixSSE BX_IA_PACKUSWB_PqQq BxOpcodeGroupSSE_0f67;
  opcode_info BxPrefixSSE BX_IA_PUNPCKHBW_PqQq BxOpcodeGroupSSE_0f68;
  opcode_info BxPrefixSSE BX_IA_PUNPCKHWD_PqQq BxOpcodeGroupSSE_0f69;
  opcode_info BxPrefixSSE BX_IA_PUNPCKHDQ_PqQq BxOpcodeGroupSSE_0f6a;
  opcode_info BxPrefixSSE BX_IA_PACKSSDW_PqQq BxOpcodeGroupSSE_0f6b; insn BxPrefixSSE66 BX_IA_PUNPCKLQDQ_VdqWdq;
  insn BxPrefixSSE66 BX_IA_PUNPCKHQDQ_VdqWdq; opcode_info BxPrefixSSE BX_IA_MOVD_PqEdM BxOpcodeGroupSSE_0f6eM;
  opcode_info BxPrefixSSE BX_IA_MOVQ_PqQqM BxOpcodeGroupSSE_0f6fM;
  opcode_info (Z.lor BxPrefixSSE BxImmediate_Ib) BX_IA_PSHUFW_PqQqIb BxOpcodeGroupSSE_0f70; insn 0 BX_IA_ERROR;
  insn 0 BX_IA_ERROR; insn 0 BX_IA_ERROR; opcode_info BxPrefixSSE BX_IA_PCMPEQB_PqQq BxOpcodeGroupSSE_0f74;
  opcode_info BxPrefixSSE BX_IA_PCMPEQW_PqQq BxOpcodeGroupSSE_0f75;
  opcode_info BxPrefixSSE BX_IA_PCMPEQD_PqQq BxOpcodeGroupSSE_0f76;
  opcode_info BxPrefixSSE BX_IA_EMMS BxOpcodeGroupSSE_ERR;
  opcode_info BxPrefixSSE BX_IA_VMREAD_EdGd BxOpcodeGroupSSE_ERR;
  opcode_info BxPrefixSSE BX_IA_VMWRITE_GdEd BxOpcodeGroupSSE_ERR; insn 0 BX_IA_ERROR; insn 0 BX_IA_ERROR;
  opcode_info BxPrefixSSE BX_IA_ERROR BxOpcodeGroupSSE_0f7c;
  opcode_info BxPrefixSSE BX_IA_ERROR BxOpcodeGroupSSE_0f7d;
  opcode_info BxPrefixSSE BX_IA_MOVD_EdPdM BxOpcodeGroupSSE_0f7eM;
  opcode_info BxPrefixSSE BX_IA_MOVQ_QqPqM BxOpcodeGroupSSE_0f7fM;
  insn (Z.lor BxImmediate_BrOff32 BxTraceJCC) BX_IA_JO_Jd; insn (Z.lor BxImmediate_BrOff32 BxTraceJCC) BX_IA_JNO_Jd;
  insn (Z.lor BxImmediate_BrOff32 BxTraceJCC) BX_IA_JB_Jd; insn (Z.lor BxImmediate_BrOff32 BxTraceJCC) BX_IA_JNB_Jd;
  insn (Z.lor BxImmediate_BrOff32 BxTraceJCC) BX_IA_JZ_Jd; insn (Z.lor BxImmediate_BrOff32 BxTraceJCC) BX_IA_JNZ_Jd;
  insn (Z.lor BxImmediate_BrOff32 BxTraceJCC) BX_IA_JBE_Jd;
  insn (Z.lor BxImmediate_BrOff32 BxTraceJCC) BX_IA_JNBE_Jd; insn (Z.lor BxImmediate_BrOff32 BxTraceJCC) BX_IA_JS_Jd;
  insn (Z.lor BxImmediate_BrOff32 BxTraceJCC) BX_IA_JNS_Jd; insn (Z.lor BxImmediate_BrOff32 BxTraceJCC) BX_IA_JP_Jd;
  insn (Z.lor BxImmediate_BrOff32 BxTraceJCC) BX_IA_JNP_Jd; insn (Z.lor BxImmediate_BrOff32 BxTraceJCC) BX_IA_JL_Jd;
  insn (Z.lor BxImmediate_BrOff32 BxTraceJCC) BX_IA_JNL_Jd; insn (Z.lor BxImmediate_BrOff32 BxTraceJCC) BX_IA_JLE_Jd;
  insn (Z.lor BxImmediate_BrOff32 BxTraceJCC) BX_IA_JNLE_Jd;
  insn 0 BX_IA_SETO_EbM; insn 0 BX_IA_SETNO_EbM; insn 0 BX_IA_SETB_EbM; insn 0 BX_IA_SETNB_EbM;
  insn 0 BX_IA_SETZ_EbM; insn 0 BX_IA_SETNZ_EbM; insn 0 BX_IA_SETBE_EbM; insn 0 BX_IA_SETNBE_EbM;
  insn 0 BX_IA_SETS_EbM; insn 0 BX_IA_SETNS_EbM; insn 0 BX_IA_SETP_EbM; insn 0 BX_IA_SETNP_EbM;
  insn 0 BX_IA_SETL_EbM; insn 0 BX_IA_SETNL_EbM; insn 0 BX_IA_SETLE_EbM; insn 0 BX_IA_SETNLE_EbM;
  insn 0 BX_IA_PUSH32_FS; insn 0 BX_IA_POP32_FS; insn 0 BX_IA_CPUID; insn 0 BX_IA_BT_EdGdM;
  insn BxImmediate_Ib BX_IA_SHLD_EdGdM; insn 0 BX_IA_SHLD_EdGdM; insn BxTraceEnd BX_IA_CMPXCHG_XBTS;
  insn BxTraceEnd BX_IA_CMPXCHG_IBTS; insn 0 BX_IA_PUSH32_GS; insn 0 BX_IA_POP32_GS; insn BxTraceEnd BX_IA_RSM;
  insn BxLockable BX_IA_BTS_EdGdM; insn BxImmediate_Ib BX_IA_SHRD_EdGdM; insn 0 BX_IA_SHRD_EdGdM;
  opcode_info BxGroup15 BX_IA_ERROR BxOpcodeInfoG15M; insn 0 BX_IA_IMUL_GdEdM;
  insn BxLockable BX_IA_CMPXCHG_EbGbM; insn BxLockable BX_IA_CMPXCHG_EdGdM; insn 0 BX_IA_LSS_GdMp;
  insn BxLockable BX_IA_BTR_EdGdM; insn 0 BX_IA_LFS_GdMp; insn 0 BX_IA_LGS_GdMp; insn 0 BX_IA_MOVZX_GdEbM;
  insn 0 BX_IA_MOVZX_GdEwM; insn BxPrefixSSEF3 BX_IA_POPCNT_GdEdM; insn BxTraceEnd BX_IA_UD2B;
  opcode_info BxGroup8 BX_IA_ERROR BxOpcodeInfoG8EdIbM; insn BxLockable BX_IA_BTC_EdGdM; insn 0 BX_IA_BSF_GdEdM;
  insn 0 BX_IA_BSR_GdEdM; insn 0 BX_IA_MOVSX_GdEbM; insn 0 BX_IA_MOVSX_GdEwM;
  insn BxLockable BX_IA_XADD_EbGbM; insn BxLockable BX_IA_XADD_EdGdM;
  opcode_info (Z.lor BxPrefixSSE BxImmediate_Ib) BX_IA_CMPPS_VpsWpsIb BxOpcodeGroupSSE_0fc2;
  opcode_info BxPrefixSSE BX_IA_MOVNTI_MdGd BxOpcodeGroupSSE_ERR;
  opcode_info (Z.lor BxPrefixSSE BxImmediate_Ib) BX_IA_PINSRW_PqEwIb BxOpcodeGroupSSE_0fc4; insn 0 BX_IA_ERROR;
  opcode_info (Z.lor BxPrefixSSE BxImmediate_Ib) BX_IA_SHUFPS_VpsWpsIb BxOpcodeGroupSSE_0fc6;
  opcode_info BxGroup9 BX_IA_ERROR BxOpcodeInfoG9M; insn 0 BX_IA_BSWAP_ERX; insn 0 BX_IA_BSWAP_ERX;
  insn 0 BX_IA_BSWAP_ERX; insn 0 BX_IA_BSWAP_ERX; insn 0 BX_IA_BSWAP_ERX; insn 0 BX_IA_BSWAP_ERX;
  insn 0 BX_IA_BSWAP_ERX; insn 0 BX_IA_BSWAP_ERX;
  opcode_info BxPrefixSSE BX_IA_ERROR BxOpcodeGroupSSE_0fd0;
  opcode_info BxPrefixSSE BX_IA_PSRLW_PqQq BxOpcodeGroupSSE_0fd1;
  opcode_info BxPrefixSSE BX_IA_PSRLD_PqQq BxOpcodeGroupSSE_0fd2;
  opcode_info BxPrefixSSE BX_IA_PSRLQ_PqQq BxOpcodeGroupSSE_0fd3;
  opcode_info BxPrefixSSE BX_IA_PADDQ_PqQq BxOpcodeGroupSSE_0fd4;
  opcode_info BxPrefixSSE BX_IA_PMULLW_PqQq BxOpcodeGroupSSE_0fd5; insn BxPrefixSSE66 BX_IA_MOVQ_WqVqM;
  insn 0 BX_IA_ERROR; opcode_info BxPrefixSSE BX_IA_PSUBUSB_PqQq BxOpcodeGroupSSE_0fd8;
  opcode_info BxPrefixSSE BX_IA_PSUBUSW_PqQq BxOpcodeGroupSSE_0fd9;
  opcode_info BxPrefixSSE BX_IA_PMINUB_PqQq BxOpcodeGroupSSE_0fda;
  opcode_info BxPrefixSSE BX_IA_PAND_PqQq BxOpcodeGroupSSE_0fdb;
  opcode_info BxPrefixSSE BX_IA_PADDUSB_PqQq BxOpcodeGroupSSE_0fdc;
  opcode_info BxPrefixSSE BX_IA_PADDUSW_PqQq BxOpcodeGroupSSE_0fdd;
  opcode_info BxPrefixSSE BX_IA_PMAXUB_PqQq BxOpcodeGroupSSE_0fde;
  opcode_info BxPrefixSSE BX_IA_PANDN_PqQq BxOpcodeGroupSSE_0fdf;
  opcode_info BxPrefixSSE BX_IA_PAVGB_PqQq BxOpcodeGroupSSE_0fe0;
  opcode_info BxPrefixSSE BX_IA_PSRAW_PqQq BxOpcodeGroupSSE_0fe1;
  opcode_info BxPrefixSSE BX_IA_PSRAD_PqQq BxOpcodeGroupSSE_0fe2;
  opcode_info BxPrefixSSE BX_IA_PAVGW_PqQq BxOpcodeGroupSSE_0fe3;
  opcode_info BxPrefixSSE BX_IA_PMULHUW_PqQq BxOpcodeGroupSSE_0fe4;
  opcode_info BxPrefixSSE BX_IA_PMULHW_PqQq BxOpcodeGroupSSE_0fe5;
  opcode_info BxPrefixSSE BX_IA_ERROR BxOpcodeGroupSSE_0fe6;
  opcode_info BxPrefixSSE BX_IA_MOVNTQ_MqPq BxOpcodeGroupSSE_0fe7M;
  opcode_info BxPrefixSSE BX_IA_PSUBSB_PqQq BxOpcodeGroupSSE_0fe8;
  opcode_info BxPrefixSSE BX_IA_PSUBSW_PqQq BxOpcodeGroupSSE_0fe9;
  opcode_info BxPrefixSSE BX_IA_PMINSW_PqQq BxOpcodeGroupSSE_0fea;
  opcode_info BxPrefixSSE BX_IA_POR_PqQq BxOpcodeGroupSSE_0feb;
  opcode_info BxPrefixSSE BX_IA_PADDSB_PqQq BxOpcodeGroupSSE_0fec;
  opcode_info BxPrefixSSE BX_IA_PADDSW_PqQq BxOpcodeGroupSSE_0fed;
  opcode_info BxPrefixSSE BX_IA_PMAXSW_PqQq BxOpcodeGroupSSE_0fee;
  opcode_info BxPrefixSSE BX_IA_PXOR_PqQq BxOpcodeGroupSSE_0fef;
  insn BxPrefixSSEF2 BX_IA_LDDQU_VdqMdq; opcode_info BxPrefixSSE BX_IA_PSLLW_PqQq BxOpcodeGroupSSE_0ff1;
  opcode_info BxPrefixSSE BX_IA_PSLLD_PqQq BxOpcodeGroupSSE_0ff2;
  opcode_info BxPrefixSSE BX_IA_PSLLQ_PqQq BxOpcodeGroupSSE_0ff3;
  opcode_info BxPrefixSSE BX_IA_PMULUDQ_PqQq BxOpcodeGroupSSE_0ff4;
  opcode_info BxPrefixSSE BX_IA_PMADDWD_PqQq BxOpcodeGroupSSE_0ff5;
  opcode_info BxPrefixSSE BX_IA_PSADBW_PqQq BxOpcodeGroupSSE_0ff6; insn 0 BX_IA_ERROR;
  opcode_info BxPrefixSSE BX_IA_PSUBB_PqQq BxOpcodeGroupSSE_0ff8;
  opcode_info BxPrefixSSE BX_IA_PSUBW_PqQq BxOpcodeGroupSSE_0ff9;
  opcode_info BxPrefixSSE BX_IA_PSUBD_PqQq BxOpcodeGroupSSE_0ffa;
  opcode_info BxPrefixSSE BX_IA_PSUBQ_PqQq BxOpcodeGroupSSE_0ffb;
  opcode_info BxPrefixSSE BX_IA_PADDB_PqQq BxOpcodeGroupSSE_0ffc;
  opcode_info BxPrefixSSE BX_IA_PADDW_PqQq BxOpcodeGroupSSE_0ffd;
  opcode_info BxPrefixSSE BX_IA_PADDD_PqQq BxOpcodeGroupSSE_0ffe; insn 0 BX_IA_ERROR].
Definition BxOpcodeInfo32M : list BxOpcodeInfo_t :=
  BxOpcodeInfo32M_16 ++ BxOpcodeInfo32M_16_0F ++ BxOpcodeInfo32M_32 ++ BxOpcodeInfo32M_32_0F.
