(* ===== verification/Machine.v ===== *)
(** * Machine: the state of the emulated processor

    The members of [BX_CPU_C] (tools/WhiteBochs-old/cpu/cpu.h), the decoded
    instruction [bxInstruction_c] (cpu/instr.h), the register-file macros of
    cpu.h and the mode helpers of cpu.h and cpu/proc_ctrl.cc, for the
    configuration the repository builds (config.h: 32-bit, CPU level 5, one
    processor, alignment checking, no VMX; Makefile.common: [WHITEBOCHS],
    [WHITEBOCHS_NO_TLB]). *)
From stdpp Require Import base numbers list gmap.
From Stdlib Require Import ZArith Lia.
From S2P Require Import Prelude Opcodes.

Local Open Scope Z_scope.

(** ** State *)

(** *** Segmentation state (cpu/descriptor.h) *)

(** The 16-bit selector and the fields extracted from it. *)
Record bx_selector_t : Type := mk_selector {
  sel_value : Z;
  sel_index : Z;
  sel_ti : Z;
  sel_rpl : Z
}.

Definition with_sel_value (x : Z) (r : bx_selector_t) : bx_selector_t :=
  mk_selector x
    (sel_index r) (sel_ti r) (sel_rpl r).
Definition with_sel_index (x : Z) (r : bx_selector_t) : bx_selector_t :=
  mk_selector
    (sel_value r) x (sel_ti r) (sel_rpl r).
Definition with_sel_ti (x : Z) (r : bx_selector_t) : bx_selector_t :=
  mk_selector (sel_value
    r) (sel_index r) x (sel_rpl r).
Definition with_sel_rpl (x : Z) (r : bx_selector_t) : bx_selector_t :=
  mk_selector (sel_value
    r) (sel_index r) (sel_ti r) x.

(** A descriptor cache.  The trailing fields are the storage of the union [u],
    laid out as in the 32-bit build: [u.segment] is the five words [base],
    [limit_scaled], [g], [d_b], [avl]; [u.gate] and [u.taskgate] overlay the
    first two of them (see [gate_dest_selector] and its siblings below). *)
Record bx_descriptor_t : Type := mk_descriptor {
  desc_valid : Z;
  desc_p : Z;
  desc_dpl : Z;
  desc_segment : Z;
  desc_type : Z;
  seg_base : Z;
  seg_limit_scaled : Z;
  seg_g : Z;
  seg_d_b : Z;
  seg_avl : Z
}.

Definition with_desc_valid (x : Z) (r : bx_descriptor_t) : bx_descriptor_t :=
  mk_descriptor x
    (desc_p r) (desc_dpl r) (desc_segment r) (desc_type r) (seg_base r) (seg_limit_scaled r)
    (seg_g r) (seg_d_b r) (seg_avl r).
Definition with_desc_p (x : Z) (r : bx_descriptor_t) : bx_descriptor_t :=
  mk_descriptor
    (desc_valid r) x (desc_dpl r) (desc_segment r) (desc_type r) (seg_base r) (seg_limit_scaled
    r) (seg_g r) (seg_d_b r) (seg_avl r).
Definition with_desc_dpl (x : Z) (r : bx_descriptor_t) : bx_descriptor_t :=
  mk_descriptor
    (desc_valid r) (desc_p r) x (desc_segment r) (desc_type r) (seg_base r) (seg_limit_scaled r)
    (seg_g r) (seg_d_b r) (seg_avl r).
Definition with_desc_segment (x : Z) (r : bx_descriptor_t) : bx_descriptor_t :=
  mk_descriptor
    (desc_valid r) (desc_p r) (desc_dpl r) x (desc_type r) (seg_base r) (seg_limit_scaled r)
    (seg_g r) (seg_d_b r) (seg_avl r).
Definition with_desc_type (x : Z) (r : bx_descriptor_t) : bx_descriptor_t :=
  mk_descriptor
    (desc_valid r) (desc_p r) (desc_dpl r) (desc_segment r) x (seg_base r) (seg_limit_scaled r)
    (seg_g r) (seg_d_b r) (seg_avl r).
Definition with_seg_base (x : Z) (r : bx_descriptor_t) : bx_descriptor_t :=
  mk_descriptor
    (desc_valid r) (desc_p r) (desc_dpl r) (desc_segment r) (desc_type r) x (seg_limit_scaled r)
    (seg_g r) (seg_d_b r) (seg_avl r).
Definition with_seg_limit_scaled (x : Z) (r : bx_descriptor_t) : bx_descriptor_t :=
 
    mk_descriptor (desc_valid r) (desc_p r) (desc_dpl r) (desc_segment r) (desc_type r)
    (seg_base r) x (seg_g r) (seg_d_b r) (seg_avl r).
Definition with_seg_g (x : Z) (r : bx_descriptor_t) : bx_descriptor_t :=
  mk_descriptor
    (desc_valid r) (desc_p r) (desc_dpl r) (desc_segment r) (desc_type r) (seg_base r)
    (seg_limit_scaled r) x (seg_d_b r) (seg_avl r).
Definition with_seg_d_b (x : Z) (r : bx_descriptor_t) : bx_descriptor_t :=
  mk_descriptor
    (desc_valid r) (desc_p r) (desc_dpl r) (desc_segment r) (desc_type r) (seg_base r)
    (seg_limit_scaled r) (seg_g r) x (seg_avl r).
Definition with_seg_avl (x : Z) (r : bx_descriptor_t) : bx_descriptor_t :=
  mk_descriptor
    (desc_valid r) (desc_p r) (desc_dpl r) (desc_segment r) (desc_type r) (seg_base r)
    (seg_limit_scaled r) (seg_g r) (seg_d_b r) x.


Record bx_segment_reg_t : Type := mk_segment_reg {
  selector : bx_selector_t;
  cache : bx_descriptor_t
}.

Definition with_selector (x : bx_selector_t) (r : bx_segment_reg_t) : bx_segment_reg_t :=
 
    mk_segment_reg x (cache r).
Definition with_cache (x : bx_descriptor_t) (r : bx_segment_reg_t) : bx_segment_reg_t :=
 
    mk_segment_reg (selector r) x.

(** GDTR and IDTR. *)
Record bx_global_segment_reg_t : Type := mk_global_segment_reg {
  gseg_base : Z;
  gseg_limit : Z
}.

(** *** Lazy flags state (cpu/lazy_flags.h) *)
Record bx_lf_flags_entry : Type := mk_lf_flags {
  lf_op1 : Z;
  lf_op2 : Z;
  lf_result : Z;
  lf_instr : Z
}.

Definition with_lf_op1 (x : Z) (r : bx_lf_flags_entry) : bx_lf_flags_entry :=
  mk_lf_flags x
    (lf_op2 r) (lf_result r) (lf_instr r).
Definition with_lf_op2 (x : Z) (r : bx_lf_flags_entry) : bx_lf_flags_entry :=
  mk_lf_flags
    (lf_op1 r) x (lf_result r) (lf_instr r).
Definition with_lf_result (x : Z) (r : bx_lf_flags_entry) : bx_lf_flags_entry :=
  mk_lf_flags
    (lf_op1 r) (lf_op2 r) x (lf_instr r).
Definition with_lf_instr (x : Z) (r : bx_lf_flags_entry) : bx_lf_flags_entry :=
  mk_lf_flags
    (lf_op1 r) (lf_op2 r) (lf_result r) x.

(** *** Address translation state (cpu/cpu.h) *)
Record bx_TLB_entry : Type := mk_TLB_entry {
  tlb_lpf : Z;
  tlb_ppf : Z;
  tlb_hostPageAddr : Z;
  tlb_accessBits : Z;
  tlb_lpf_mask : Z
}.

(** The translation a read-modify-write keeps between its read and its write. *)
Record address_xlation_t : Type := mk_address_xlation {
  xl_rm_addr : Z;
  xl_paddress1 : Z;
  xl_paddress2 : Z;
  xl_len1 : Z;
  xl_len2 : Z;
  xl_pages : Z
}.

Definition with_xl_rm_addr (x : Z) (r : address_xlation_t) : address_xlation_t :=
 
    mk_address_xlation x (xl_paddress1 r) (xl_paddress2 r) (xl_len1 r) (xl_len2 r) (xl_pages r).
Definition with_xl_paddress1 (x : Z) (r : address_xlation_t) : address_xlation_t :=
 
    mk_address_xlation (xl_rm_addr r) x (xl_paddress2 r) (xl_len1 r) (xl_len2 r) (xl_pages r).
Definition with_xl_paddress2 (x : Z) (r : address_xlation_t) : address_xlation_t :=
 
    mk_address_xlation (xl_rm_addr r) (xl_paddress1 r) x (xl_len1 r) (xl_len2 r) (xl_pages r).
Definition with_xl_len1 (x : Z) (r : address_xlation_t) : address_xlation_t :=
 
    mk_address_xlation (xl_rm_addr r) (xl_paddress1 r) (xl_paddress2 r) x (xl_len2 r) (xl_pages
    r).
Definition with_xl_len2 (x : Z) (r : address_xlation_t) : address_xlation_t :=
 
    mk_address_xlation (xl_rm_addr r) (xl_paddress1 r) (xl_paddress2 r) (xl_len1 r) x (xl_pages
    r).
Definition with_xl_pages (x : Z) (r : address_xlation_t) : address_xlation_t :=
 
    mk_address_xlation (xl_rm_addr r) (xl_paddress1 r) (xl_paddress2 r) (xl_len1 r) (xl_len2 r)
    x.

(** *** Guest physical memory (memory/memory.h): the bytes of [vector] that are
    not zero, and [len]. *)
Record bx_mem_c : Type := mk_mem {
  mem_vector : gmap Z Z;
  mem_len : Z
}.

Definition with_mem_vector (x : gmap Z Z) (r : bx_mem_c) : bx_mem_c :=
  mk_mem x (mem_len r).
Definition with_mem_len (x : Z) (r : bx_mem_c) : bx_mem_c :=
  mk_mem (mem_vector r) x.

(** *** The whole machine: the members of [BX_CPU_C] the modelled code uses, and
    the memory object [bx_mem]. *)
Record machine : Type := mk_machine {
  gen_reg : list Z;
  eflags : Z;
  lf_flags_status : Z;
  oszapc : bx_lf_flags_entry;
  prev_rip : Z;
  prev_rsp : Z;
  speculative_rsp : Z;
  inhibit_mask : Z;
  sregs : list bx_segment_reg_t;
  gdtr : bx_global_segment_reg_t;
  idtr : bx_global_segment_reg_t;
  ldtr : bx_segment_reg_t;
  tr : bx_segment_reg_t;
  dr : list Z;
  dr6 : Z;
  dr7 : Z;
  cr0 : Z;
  cr2 : Z;
  cr3 : Z;
  cr4 : Z;
  EXT : Z;
  errorno : Z;
  curr_exception : Z;
  debug_trap : Z;
  async_event : Z;
  cpu_mode : Z;
  user_pl : Z;
  alignment_check_mask : Z;
  fetchModeMask : Z;
  eipPageWindowSize : Z;
  TLB : gmap Z bx_TLB_entry;
  TLB_split_large : Z;
  address_xlation : address_xlation_t;
  memory : bx_mem_c;
  disable_NMI : Z;
  activity_state : Z;
  eipPageBias : Z;
  pAddrPage : Z;
  eipFetchPtr : Z;
  isa_extensions_bitmask : Z
}.

Definition with_gen_reg (x : list Z) (r : machine) : machine :=
  mk_machine x (eflags r) (lf_flags_status r) (oszapc r) (prev_rip r) (prev_rsp r)
    (speculative_rsp r) (inhibit_mask r) (sregs r) (gdtr r) (idtr r) (ldtr r) (tr r) (dr r)
    (dr6 r) (dr7 r) (cr0 r) (cr2 r) (cr3 r) (cr4 r) (EXT r) (errorno r) (curr_exception r)
    (debug_trap r) (async_event r) (cpu_mode r) (user_pl r) (alignment_check_mask r)
    (fetchModeMask r) (eipPageWindowSize r) (TLB r) (TLB_split_large r) (address_xlation r)
    (memory r) (disable_NMI r) (activity_state r) (eipPageBias r) (pAddrPage r) (eipFetchPtr r)
    (isa_extensions_bitmask r).
Definition with_eflags (x : Z) (r : machine) : machine :=
  mk_machine (gen_reg r) x (lf_flags_status r) (oszapc r) (prev_rip r) (prev_rsp r)
    (speculative_rsp r) (inhibit_mask r) (sregs r) (gdtr r) (idtr r) (ldtr r) (tr r) (dr r)
    (dr6 r) (dr7 r) (cr0 r) (cr2 r) (cr3 r) (cr4 r) (EXT r) (errorno r) (curr_exception r)
    (debug_trap r) (async_event r) (cpu_mode r) (user_pl r) (alignment_check_mask r)
    (fetchModeMask r) (eipPageWindowSize r) (TLB r) (TLB_split_large r) (address_xlation r)
    (memory r) (disable_NMI r) (activity_state r) (eipPageBias r) (pAddrPage r) (eipFetchPtr r)
    (isa_extensions_bitmask r).
Definition with_lf_flags_status (x : Z) (r : machine) : machine :=
  mk_machine (gen_reg r) (eflags r) x (oszapc r) (prev_rip r) (prev_rsp r) (speculative_rsp r)
    (inhibit_mask r) (sregs r) (gdtr r) (idtr r) (ldtr r) (tr r) (dr r) (dr6 r) (dr7 r) (cr0 r)
    (cr2 r) (cr3 r) (cr4 r) (EXT r) (errorno r) (curr_exception r) (debug_trap r)
    (async_event r) (cpu_mode r) (user_pl r) (alignment_check_mask r) (fetchModeMask r)
    (eipPageWindowSize r) (TLB r) (TLB_split_large r) (address_xlation r) (memory r)
    (disable_NMI r) (activity_state r) (eipPageBias r) (pAddrPage r) (eipFetchPtr r)
    (isa_extensions_bitmask r).
Definition with_oszapc (x : bx_lf_flags_entry) (r : machine) : machine :=
  mk_machine (gen_reg r) (eflags r) (lf_flags_status r) x (prev_rip r) (prev_rsp r)
    (speculative_rsp r) (inhibit_mask r) (sregs r) (gdtr r) (idtr r) (ldtr r) (tr r) (dr r)
    (dr6 r) (dr7 r) (cr0 r) (cr2 r) (cr3 r) (cr4 r) (EXT r) (errorno r) (curr_exception r)
    (debug_trap r) (async_event r) (cpu_mode r) (user_pl r) (alignment_check_mask r)
    (fetchModeMask r) (eipPageWindowSize r) (TLB r) (TLB_split_large r) (address_xlation r)
    (memory r) (disable_NMI r) (activity_state r) (eipPageBias r) (pAddrPage r) (eipFetchPtr r)
    (isa_extensions_bitmask r).
Definition with_prev_rip (x : Z) (r : machine) : machine :=
  mk_machine (gen_reg r) (eflags r) (lf_flags_status r) (oszapc r) x (prev_rsp r)
    (speculative_rsp r) (inhibit_mask r) (sregs r) (gdtr r) (idtr r) (ldtr r) (tr r) (dr r)
    (dr6 r) (dr7 r) (cr0 r) (cr2 r) (cr3 r) (cr4 r) (EXT r) (errorno r) (curr_exception r)
    (debug_trap r) (async_event r) (cpu_mode r) (user_pl r) (alignment_check_mask r)
    (fetchModeMask r) (eipPageWindowSize r) (TLB r) (TLB_split_large r) (address_xlation r)
    (memory r) (disable_NMI r) (activity_state r) (eipPageBias r) (pAddrPage r) (eipFetchPtr r)
    (isa_extensions_bitmask r).
Definition with_prev_rsp (x : Z) (r : machine) : machine :=
  mk_machine (gen_reg r) (eflags r) (lf_flags_status r) (oszapc r) (prev_rip r) x
    (speculative_rsp r) (inhibit_mask r) (sregs r) (gdtr r) (idtr r) (ldtr r) (tr r) (dr r)
    (dr6 r) (dr7 r) (cr0 r) (cr2 r) (cr3 r) (cr4 r) (EXT r) (errorno r) (curr_exception r)
    (debug_trap r) (async_event r) (cpu_mode r) (user_pl r) (alignment_check_mask r)
    (fetchModeMask r) (eipPageWindowSize r) (TLB r) (TLB_split_large r) (address_xlation r)
    (memory r) (disable_NMI r) (activity_state r) (eipPageBias r) (pAddrPage r) (eipFetchPtr r)
    (isa_extensions_bitmask r).
Definition with_speculative_rsp (x : Z) (r : machine) : machine :=
  mk_machine (gen_reg r) (eflags r) (lf_flags_status r) (oszapc r) (prev_rip r) (prev_rsp r) x
    (inhibit_mask r) (sregs r) (gdtr r) (idtr r) (ldtr r) (tr r) (dr r) (dr6 r) (dr7 r) (cr0 r)
    (cr2 r) (cr3 r) (cr4 r) (EXT r) (errorno r) (curr_exception r) (debug_trap r)
    (async_event r) (cpu_mode r) (user_pl r) (alignment_check_mask r) (fetchModeMask r)
    (eipPageWindowSize r) (TLB r) (TLB_split_large r) (address_xlation r) (memory r)
    (disable_NMI r) (activity_state r) (eipPageBias r) (pAddrPage r) (eipFetchPtr r)
    (isa_extensions_bitmask r).
Definition with_inhibit_mask (x : Z) (r : machine) : machine :=
  mk_machine (gen_reg r) (eflags r) (lf_flags_status r) (oszapc r) (prev_rip r) (prev_rsp r)
    (speculative_rsp r) x (sregs r) (gdtr r) (idtr r) (ldtr r) (tr r) (dr r) (dr6 r) (dr7 r)
    (cr0 r) (cr2 r) (cr3 r) (cr4 r) (EXT r) (errorno r) (curr_exception r) (debug_trap r)
    (async_event r) (cpu_mode r) (user_pl r) (alignment_check_mask r) (fetchModeMask r)
    (eipPageWindowSize r) (TLB r) (TLB_split_large r) (address_xlation r) (memory r)
    (disable_NMI r) (activity_state r) (eipPageBias r) (pAddrPage r) (eipFetchPtr r)
    (isa_extensions_bitmask r).
Definition with_sregs (x : list bx_segment_reg_t) (r : machine) : machine :=
  mk_machine (gen_reg r) (eflags r) (lf_flags_status r) (oszapc r) (prev_rip r) (prev_rsp r)
    (speculative_rsp r) (inhibit_mask r) x (gdtr r) (idtr r) (ldtr r) (tr r) (dr r) (dr6 r)
    (dr7 r) (cr0 r) (cr2 r) (cr3 r) (cr4 r) (EXT r) (errorno r) (curr_exception r)
    (debug_trap r) (async_event r) (cpu_mode r) (user_pl r) (alignment_check_mask r)
    (fetchModeMask r) (eipPageWindowSize r) (TLB r) (TLB_split_large r) (address_xlation r)
    (memory r) (disable_NMI r) (activity_state r) (eipPageBias r) (pAddrPage r) (eipFetchPtr r)
    (isa_extensions_bitmask r).
Definition with_gdtr (x : bx_global_segment_reg_t) (r : machine) : machine :=
  mk_machine (gen_reg r) (eflags r) (lf_flags_status r) (oszapc r) (prev_rip r) (prev_rsp r)
    (speculative_rsp r) (inhibit_mask r) (sregs r) x (idtr r) (ldtr r) (tr r) (dr r) (dr6 r)
    (dr7 r) (cr0 r) (cr2 r) (cr3 r) (cr4 r) (EXT r) (errorno r) (curr_exception r)
    (debug_trap r) (async_event r) (cpu_mode r) (user_pl r) (alignment_check_mask r)
    (fetchModeMask r) (eipPageWindowSize r) (TLB r) (TLB_split_large r) (address_xlation r)
    (memory r) (disable_NMI r) (activity_state r) (eipPageBias r) (pAddrPage r) (eipFetchPtr r)
    (isa_extensions_bitmask r).
Definition with_idtr (x : bx_global_segment_reg_t) (r : machine) : machine :=
  mk_machine (gen_reg r) (eflags r) (lf_flags_status r) (oszapc r) (prev_rip r) (prev_rsp r)
    (speculative_rsp r) (inhibit_mask r) (sregs r) (gdtr r) x (ldtr r) (tr r) (dr r) (dr6 r)
    (dr7 r) (cr0 r) (cr2 r) (cr3 r) (cr4 r) (EXT r) (errorno r) (curr_exception r)
    (debug_trap r) (async_event r) (cpu_mode r) (user_pl r) (alignment_check_mask r)
    (fetchModeMask r) (eipPageWindowSize r) (TLB r) (TLB_split_large r) (address_xlation r)
    (memory r) (disable_NMI r) (activity_state r) (eipPageBias r) (pAddrPage r) (eipFetchPtr r)
    (isa_extensions_bitmask r).
Definition with_ldtr (x : bx_segment_reg_t) (r : machine) : machine :=
  mk_machine (gen_reg r) (eflags r) (lf_flags_status r) (oszapc r) (prev_rip r) (prev_rsp r)
    (speculative_rsp r) (inhibit_mask r) (sregs r) (gdtr r) (idtr r) x (tr r) (dr r) (dr6 r)
    (dr7 r) (cr0 r) (cr2 r) (cr3 r) (cr4 r) (EXT r) (errorno r) (curr_exception r)
    (debug_trap r) (async_event r) (cpu_mode r) (user_pl r) (alignment_check_mask r)
    (fetchModeMask r) (eipPageWindowSize r) (TLB r) (TLB_split_large r) (address_xlation r)
    (memory r) (disable_NMI r) (activity_state r) (eipPageBias r) (pAddrPage r) (eipFetchPtr r)
    (isa_extensions_bitmask r).
Definition with_tr (x : bx_segment_reg_t) (r : machine) : machine :=
  mk_machine (gen_reg r) (eflags r) (lf_flags_status r) (oszapc r) (prev_rip r) (prev_rsp r)
    (speculative_rsp r) (inhibit_mask r) (sregs r) (gdtr r) (idtr r) (ldtr r) x (dr r) (dr6 r)
    (dr7 r) (cr0 r) (cr2 r) (cr3 r) (cr4 r) (EXT r) (errorno r) (curr_exception r)
    (debug_trap r) (async_event r) (cpu_mode r) (user_pl r) (alignment_check_mask r)
    (fetchModeMask r) (eipPageWindowSize r) (TLB r) (TLB_split_large r) (address_xlation r)
    (memory r) (disable_NMI r) (activity_state r) (eipPageBias r) (pAddrPage r) (eipFetchPtr r)
    (isa_extensions_bitmask r).
Definition with_dr (x : list Z) (r : machine) : machine :=
  mk_machine (gen_reg r) (eflags r) (lf_flags_status r) (oszapc r) (prev_rip r) (prev_rsp r)
    (speculative_rsp r) (inhibit_mask r) (sregs r) (gdtr r) (idtr r) (ldtr r) (tr r) x (dr6 r)
    (dr7 r) (cr0 r) (cr2 r) (cr3 r) (cr4 r) (EXT r) (errorno r) (curr_exception r)
    (debug_trap r) (async_event r) (cpu_mode r) (user_pl r) (alignment_check_mask r)
    (fetchModeMask r) (eipPageWindowSize r) (TLB r) (TLB_split_large r) (address_xlation r)
    (memory r) (disable_NMI r) (activity_state r) (eipPageBias r) (pAddrPage r) (eipFetchPtr r)
    (isa_extensions_bitmask r).
Definition with_dr6 (x : Z) (r : machine) : machine :=
  mk_machine (gen_reg r) (eflags r) (lf_flags_status r) (oszapc r) (prev_rip r) (prev_rsp r)
    (speculative_rsp r) (inhibit_mask r) (sregs r) (gdtr r) (idtr r) (ldtr r) (tr r) (dr r) x
    (dr7 r) (cr0 r) (cr2 r) (cr3 r) (cr4 r) (EXT r) (errorno r) (curr_exception r)
    (debug_trap r) (async_event r) (cpu_mode r) (user_pl r) (alignment_check_mask r)
    (fetchModeMask r) (eipPageWindowSize r) (TLB r) (TLB_split_large r) (address_xlation r)
    (memory r) (disable_NMI r) (activity_state r) (eipPageBias r) (pAddrPage r) (eipFetchPtr r)
    (isa_extensions_bitmask r).
Definition with_dr7 (x : Z) (r : machine) : machine :=
  mk_machine (gen_reg r) (eflags r) (lf_flags_status r) (oszapc r) (prev_rip r) (prev_rsp r)
    (speculative_rsp r) (inhibit_mask r) (sregs r) (gdtr r) (idtr r) (ldtr r) (tr r) (dr r)
    (dr6 r) x (cr0 r) (cr2 r) (cr3 r) (cr4 r) (EXT r) (errorno r) (curr_exception r)
    (debug_trap r) (async_event r) (cpu_mode r) (user_pl r) (alignment_check_mask r)
    (fetchModeMask r) (eipPageWindowSize r) (TLB r) (TLB_split_large r) (address_xlation r)
    (memory r) (disable_NMI r) (activity_state r) (eipPageBias r) (pAddrPage r) (eipFetchPtr r)
    (isa_extensions_bitmask r).
Definition with_cr0 (x : Z) (r : machine) : machine :=
  mk_machine (gen_reg r) (eflags r) (lf_flags_status r) (oszapc r) (prev_rip r) (prev_rsp r)
    (speculative_rsp r) (inhibit_mask r) (sregs r) (gdtr r) (idtr r) (ldtr r) (tr r) (dr r)
    (dr6 r) (dr7 r) x (cr2 r) (cr3 r) (cr4 r) (EXT r) (errorno r) (curr_exception r)
    (debug_trap r) (async_event r) (cpu_mode r) (user_pl r) (alignment_check_mask r)
    (fetchModeMask r) (eipPageWindowSize r) (TLB r) (TLB_split_large r) (address_xlation r)
    (memory r) (disable_NMI r) (activity_state r) (eipPageBias r) (pAddrPage r) (eipFetchPtr r)
    (isa_extensions_bitmask r).
Definition with_cr2 (x : Z) (r : machine) : machine :=
  mk_machine (gen_reg r) (eflags r) (lf_flags_status r) (oszapc r) (prev_rip r) (prev_rsp r)
    (speculative_rsp r) (inhibit_mask r) (sregs r) (gdtr r) (idtr r) (ldtr r) (tr r) (dr r)
    (dr6 r) (dr7 r) (cr0 r) x (cr3 r) (cr4 r) (EXT r) (errorno r) (curr_exception r)
    (debug_trap r) (async_event r) (cpu_mode r) (user_pl r) (alignment_check_mask r)
    (fetchModeMask r) (eipPageWindowSize r) (TLB r) (TLB_split_large r) (address_xlation r)
    (memory r) (disable_NMI r) (activity_state r) (eipPageBias r) (pAddrPage r) (eipFetchPtr r)
    (isa_extensions_bitmask r).
Definition with_cr3 (x : Z) (r : machine) : machine :=
  mk_machine (gen_reg r) (eflags r) (lf_flags_status r) (oszapc r) (prev_rip r) (prev_rsp r)
    (speculative_rsp r) (inhibit_mask r) (sregs r) (gdtr r) (idtr r) (ldtr r) (tr r) (dr r)
    (dr6 r) (dr7 r) (cr0 r) (cr2 r) x (cr4 r) (EXT r) (errorno r) (curr_exception r)
    (debug_trap r) (async_event r) (cpu_mode r) (user_pl r) (alignment_check_mask r)
    (fetchModeMask r) (eipPageWindowSize r) (TLB r) (TLB_split_large r) (address_xlation r)
    (memory r) (disable_NMI r) (activity_state r) (eipPageBias r) (pAddrPage r) (eipFetchPtr r)
    (isa_extensions_bitmask r).
Definition with_cr4 (x : Z) (r : machine) : machine :=
  mk_machine (gen_reg r) (eflags r) (lf_flags_status r) (oszapc r) (prev_rip r) (prev_rsp r)
    (speculative_rsp r) (inhibit_mask r) (sregs r) (gdtr r) (idtr r) (ldtr r) (tr r) (dr r)
    (dr6 r) (dr7 r) (cr0 r) (cr2 r) (cr3 r) x (EXT r) (errorno r) (curr_exception r)
    (debug_trap r) (async_event r) (cpu_mode r) (user_pl r) (alignment_check_mask r)
    (fetchModeMask r) (eipPageWindowSize r) (TLB r) (TLB_split_large r) (address_xlation r)
    (memory r) (disable_NMI r) (activity_state r) (eipPageBias r) (pAddrPage r) (eipFetchPtr r)
    (isa_extensions_bitmask r).
Definition with_EXT (x : Z) (r : machine) : machine :=
  mk_machine (gen_reg r) (eflags r) (lf_flags_status r) (oszapc r) (prev_rip r) (prev_rsp r)
    (speculative_rsp r) (inhibit_mask r) (sregs r) (gdtr r) (idtr r) (ldtr r) (tr r) (dr r)
    (dr6 r) (dr7 r) (cr0 r) (cr2 r) (cr3 r) (cr4 r) x (errorno r) (curr_exception r)
    (debug_trap r) (async_event r) (cpu_mode r) (user_pl r) (alignment_check_mask r)
    (fetchModeMask r) (eipPageWindowSize r) (TLB r) (TLB_split_large r) (address_xlation r)
    (memory r) (disable_NMI r) (activity_state r) (eipPageBias r) (pAddrPage r) (eipFetchPtr r)
    (isa_extensions_bitmask r).
Definition with_errorno (x : Z) (r : machine) : machine :=
  mk_machine (gen_reg r) (eflags r) (lf_flags_status r) (oszapc r) (prev_rip r) (prev_rsp r)
    (speculative_rsp r) (inhibit_mask r) (sregs r) (gdtr r) (idtr r) (ldtr r) (tr r) (dr r)
    (dr6 r) (dr7 r) (cr0 r) (cr2 r) (cr3 r) (cr4 r) (EXT r) x (curr_exception r) (debug_trap r)
    (async_event r) (cpu_mode r) (user_pl r) (alignment_check_mask r) (fetchModeMask r)
    (eipPageWindowSize r) (TLB r) (TLB_split_large r) (address_xlation r) (memory r)
    (disable_NMI r) (activity_state r) (eipPageBias r) (pAddrPage r) (eipFetchPtr r)
    (isa_extensions_bitmask r).
Definition with_curr_exception (x : Z) (r : machine) : machine :=
  mk_machine (gen_reg r) (eflags r) (lf_flags_status r) (oszapc r) (prev_rip r) (prev_rsp r)
    (speculative_rsp r) (inhibit_mask r) (sregs r) (gdtr r) (idtr r) (ldtr r) (tr r) (dr r)
    (dr6 r) (dr7 r) (cr0 r) (cr2 r) (cr3 r) (cr4 r) (EXT r) (errorno r) x (debug_trap r)
    (async_event r) (cpu_mode r) (user_pl r) (alignment_check_mask r) (fetchModeMask r)
    (eipPageWindowSize r) (TLB r) (TLB_split_large r) (address_xlation r) (memory r)
    (disable_NMI r) (activity_state r) (eipPageBias r) (pAddrPage r) (eipFetchPtr r)
    (isa_extensions_bitmask r).
Definition with_debug_trap (x : Z) (r : machine) : machine :=
  mk_machine (gen_reg r) (eflags r) (lf_flags_status r) (oszapc r) (prev_rip r) (prev_rsp r)
    (speculative_rsp r) (inhibit_mask r) (sregs r) (gdtr r) (idtr r) (ldtr r) (tr r) (dr r)
    (dr6 r) (dr7 r) (cr0 r) (cr2 r) (cr3 r) (cr4 r) (EXT r) (errorno r) (curr_exception r) x
    (async_event r) (cpu_mode r) (user_pl r) (alignment_check_mask r) (fetchModeMask r)
    (eipPageWindowSize r) (TLB r) (TLB_split_large r) (address_xlation r) (memory r)
    (disable_NMI r) (activity_state r) (eipPageBias r) (pAddrPage r) (eipFetchPtr r)
    (isa_extensions_bitmask r).
Definition with_async_event (x : Z) (r : machine) : machine :=
  mk_machine (gen_reg r) (eflags r) (lf_flags_status r) (oszapc r) (prev_rip r) (prev_rsp r)
    (speculative_rsp r) (inhibit_mask r) (sregs r) (gdtr r) (idtr r) (ldtr r) (tr r) (dr r)
    (dr6 r) (dr7 r) (cr0 r) (cr2 r) (cr3 r) (cr4 r) (EXT r) (errorno r) (curr_exception r)
    (debug_trap r) x (cpu_mode r) (user_pl r) (alignment_check_mask r) (fetchModeMask r)
    (eipPageWindowSize r) (TLB r) (TLB_split_large r) (address_xlation r) (memory r)
    (disable_NMI r) (activity_state r) (eipPageBias r) (pAddrPage r) (eipFetchPtr r)
    (isa_extensions_bitmask r).
Definition with_cpu_mode (x : Z) (r : machine) : machine :=
  mk_machine (gen_reg r) (eflags r) (lf_flags_status r) (oszapc r) (prev_rip r) (prev_rsp r)
    (speculative_rsp r) (inhibit_mask r) (sregs r) (gdtr r) (idtr r) (ldtr r) (tr r) (dr r)
    (dr6 r) (dr7 r) (cr0 r) (cr2 r) (cr3 r) (cr4 r) (EXT r) (errorno r) (curr_exception r)
    (debug_trap r) (async_event r) x (user_pl r) (alignment_check_mask r) (fetchModeMask r)
    (eipPageWindowSize r) (TLB r) (TLB_split_large r) (address_xlation r) (memory r)
    (disable_NMI r) (activity_state r) (eipPageBias r) (pAddrPage r) (eipFetchPtr r)
    (isa_extensions_bitmask r).
Definition with_user_pl (x : Z) (r : machine) : machine :=
  mk_machine (gen_reg r) (eflags r) (lf_flags_status r) (oszapc r) (prev_rip r) (prev_rsp r)
    (speculative_rsp r) (inhibit_mask r) (sregs r) (gdtr r) (idtr r) (ldtr r) (tr r) (dr r)
    (dr6 r) (dr7 r) (cr0 r) (cr2 r) (cr3 r) (cr4 r) (EXT r) (errorno r) (curr_exception r)
    (debug_trap r) (async_event r) (cpu_mode r) x (alignment_check_mask r) (fetchModeMask r)
    (eipPageWindowSize r) (TLB r) (TLB_split_large r) (address_xlation r) (memory r)
    (disable_NMI r) (activity_state r) (eipPageBias r) (pAddrPage r) (eipFetchPtr r)
    (isa_extensions_bitmask r).
Definition with_alignment_check_mask (x : Z) (r : machine) : machine :=
  mk_machine (gen_reg r) (eflags r) (lf_flags_status r) (oszapc r) (prev_rip r) (prev_rsp r)
    (speculative_rsp r) (inhibit_mask r) (sregs r) (gdtr r) (idtr r) (ldtr r) (tr r) (dr r)
    (dr6 r) (dr7 r) (cr0 r) (cr2 r) (cr3 r) (cr4 r) (EXT r) (errorno r) (curr_exception r)
    (debug_trap r) (async_event r) (cpu_mode r) (user_pl r) x (fetchModeMask r)
    (eipPageWindowSize r) (TLB r) (TLB_split_large r) (address_xlation r) (memory r)
    (disable_NMI r) (activity_state r) (eipPageBias r) (pAddrPage r) (eipFetchPtr r)
    (isa_extensions_bitmask r).
Definition with_fetchModeMask (x : Z) (r : machine) : machine :=
  mk_machine (gen_reg r) (eflags r) (lf_flags_status r) (oszapc r) (prev_rip r) (prev_rsp r)
    (speculative_rsp r) (inhibit_mask r) (sregs r) (gdtr r) (idtr r) (ldtr r) (tr r) (dr r)
    (dr6 r) (dr7 r) (cr0 r) (cr2 r) (cr3 r) (cr4 r) (EXT r) (errorno r) (curr_exception r)
    (debug_trap r) (async_event r) (cpu_mode r) (user_pl r) (alignment_check_mask r) x
    (eipPageWindowSize r) (TLB r) (TLB_split_large r) (address_xlation r) (memory r)
    (disable_NMI r) (activity_state r) (eipPageBias r) (pAddrPage r) (eipFetchPtr r)
    (isa_extensions_bitmask r).
Definition with_eipPageWindowSize (x : Z) (r : machine) : machine :=
  mk_machine (gen_reg r) (eflags r) (lf_flags_status r) (oszapc r) (prev_rip r) (prev_rsp r)
    (speculative_rsp r) (inhibit_mask r) (sregs r) (gdtr r) (idtr r) (ldtr r) (tr r) (dr r)
    (dr6 r) (dr7 r) (cr0 r) (cr2 r) (cr3 r) (cr4 r) (EXT r) (errorno r) (curr_exception r)
    (debug_trap r) (async_event r) (cpu_mode r) (user_pl r) (alignment_check_mask r)
    (fetchModeMask r) x (TLB r) (TLB_split_large r) (address_xlation r) (memory r)
    (disable_NMI r) (activity_state r) (eipPageBias r) (pAddrPage r) (eipFetchPtr r)
    (isa_extensions_bitmask r).
Definition with_TLB (x : gmap Z bx_TLB_entry) (r : machine) : machine :=
  mk_machine (gen_reg r) (eflags r) (lf_flags_status r) (oszapc r) (prev_rip r) (prev_rsp r)
    (speculative_rsp r) (inhibit_mask r) (sregs r) (gdtr r) (idtr r) (ldtr r) (tr r) (dr r)
    (dr6 r) (dr7 r) (cr0 r) (cr2 r) (cr3 r) (cr4 r) (EXT r) (errorno r) (curr_exception r)
    (debug_trap r) (async_event r) (cpu_mode r) (user_pl r) (alignment_check_mask r)
    (fetchModeMask r) (eipPageWindowSize r) x (TLB_split_large r) (address_xlation r) (memory r)
    (disable_NMI r) (activity_state r) (eipPageBias r) (pAddrPage r) (eipFetchPtr r)
    (isa_extensions_bitmask r).
Definition with_TLB_split_large (x : Z) (r : machine) : machine :=
  mk_machine (gen_reg r) (eflags r) (lf_flags_status r) (oszapc r) (prev_rip r) (prev_rsp r)
    (speculative_rsp r) (inhibit_mask r) (sregs r) (gdtr r) (idtr r) (ldtr r) (tr r) (dr r)
    (dr6 r) (dr7 r) (cr0 r) (cr2 r) (cr3 r) (cr4 r) (EXT r) (errorno r) (curr_exception r)
    (debug_trap r) (async_event r) (cpu_mode r) (user_pl r) (alignment_check_mask r)
    (fetchModeMask r) (eipPageWindowSize r) (TLB r) x (address_xlation r) (memory r)
    (disable_NMI r) (activity_state r) (eipPageBias r) (pAddrPage r) (eipFetchPtr r)
    (isa_extensions_bitmask r).
Definition with_address_xlation (x : address_xlation_t) (r : machine) : machine :=
  mk_machine (gen_reg r) (eflags r) (lf_flags_status r) (oszapc r) (prev_rip r) (prev_rsp r)
    (speculative_rsp r) (inhibit_mask r) (sregs r) (gdtr r) (idtr r) (ldtr r) (tr r) (dr r)
    (dr6 r) (dr7 r) (cr0 r) (cr2 r) (cr3 r) (cr4 r) (EXT r) (errorno r) (curr_exception r)
    (debug_trap r) (async_event r) (cpu_mode r) (user_pl r) (alignment_check_mask r)
    (fetchModeMask r) (eipPageWindowSize r) (TLB r) (TLB_split_large r) x (memory r)
    (disable_NMI r) (activity_state r) (eipPageBias r) (pAddrPage r) (eipFetchPtr r)
    (isa_extensions_bitmask r).
Definition with_memory (x : bx_mem_c) (r : machine) : machine :=
  mk_machine (gen_reg r) (eflags r) (lf_flags_status r) (oszapc r) (prev_rip r) (prev_rsp r)
    (speculative_rsp r) (inhibit_mask r) (sregs r) (gdtr r) (idtr r) (ldtr r) (tr r) (dr r)
    (dr6 r) (dr7 r) (cr0 r) (cr2 r) (cr3 r) (cr4 r) (EXT r) (errorno r) (curr_exception r)
    (debug_trap r) (async_event r) (cpu_mode r) (user_pl r) (alignment_check_mask r)
    (fetchModeMask r) (eipPageWindowSize r) (TLB r) (TLB_split_large r) (address_xlation r) x
    (disable_NMI r) (activity_state r) (eipPageBias r) (pAddrPage r) (eipFetchPtr r)
    (isa_extensions_bitmask r).
Definition with_disable_NMI (x : Z) (r : machine) : machine :=
  mk_machine (gen_reg r) (eflags r) (lf_flags_status r) (oszapc r) (prev_rip r) (prev_rsp r)
    (speculative_rsp r) (inhibit_mask r) (sregs r) (gdtr r) (idtr r) (ldtr r) (tr r) (dr r)
    (dr6 r) (dr7 r) (cr0 r) (cr2 r) (cr3 r) (cr4 r) (EXT r) (errorno r) (curr_exception r)
    (debug_trap r) (async_event r) (cpu_mode r) (user_pl r) (alignment_check_mask r)
    (fetchModeMask r) (eipPageWindowSize r) (TLB r) (TLB_split_large r) (address_xlation r)
    (memory r) x (activity_state r) (eipPageBias r) (pAddrPage r) (eipFetchPtr r)
    (isa_extensions_bitmask r).
Definition with_activity_state (x : Z) (r : machine) : machine :=
  mk_machine (gen_reg r) (eflags r) (lf_flags_status r) (oszapc r) (prev_rip r) (prev_rsp r)
    (speculative_rsp r) (inhibit_mask r) (sregs r) (gdtr r) (idtr r) (ldtr r) (tr r) (dr r)
    (dr6 r) (dr7 r) (cr0 r) (cr2 r) (cr3 r) (cr4 r) (EXT r) (errorno r) (curr_exception r)
    (debug_trap r) (async_event r) (cpu_mode r) (user_pl r) (alignment_check_mask r)
    (fetchModeMask r) (eipPageWindowSize r) (TLB r) (TLB_split_large r) (address_xlation r)
    (memory r) (disable_NMI r) x (eipPageBias r) (pAddrPage r) (eipFetchPtr r)
    (isa_extensions_bitmask r).
Definition with_eipPageBias (x : Z) (r : machine) : machine :=
  mk_machine (gen_reg r) (eflags r) (lf_flags_status r) (oszapc r) (prev_rip r) (prev_rsp r)
    (speculative_rsp r) (inhibit_mask r) (sregs r) (gdtr r) (idtr r) (ldtr r) (tr r) (dr r)
    (dr6 r) (dr7 r) (cr0 r) (cr2 r) (cr3 r) (cr4 r) (EXT r) (errorno r) (curr_exception r)
    (debug_trap r) (async_event r) (cpu_mode r) (user_pl r) (alignment_check_mask r)
    (fetchModeMask r) (eipPageWindowSize r) (TLB r) (TLB_split_large r) (address_xlation r)
    (memory r) (disable_NMI r) (activity_state r) x (pAddrPage r) (eipFetchPtr r)
    (isa_extensions_bitmask r).
Definition with_pAddrPage (x : Z) (r : machine) : machine :=
  mk_machine (gen_reg r) (eflags r) (lf_flags_status r) (oszapc r) (prev_rip r) (prev_rsp r)
    (speculative_rsp r) (inhibit_mask r) (sregs r) (gdtr r) (idtr r) (ldtr r) (tr r) (dr r)
    (dr6 r) (dr7 r) (cr0 r) (cr2 r) (cr3 r) (cr4 r) (EXT r) (errorno r) (curr_exception r)
    (debug_trap r) (async_event r) (cpu_mode r) (user_pl r) (alignment_check_mask r)
    (fetchModeMask r) (eipPageWindowSize r) (TLB r) (TLB_split_large r) (address_xlation r)
    (memory r) (disable_NMI r) (activity_state r) (eipPageBias r) x (eipFetchPtr r)
    (isa_extensions_bitmask r).
Definition with_eipFetchPtr (x : Z) (r : machine) : machine :=
  mk_machine (gen_reg r) (eflags r) (lf_flags_status r) (oszapc r) (prev_rip r) (prev_rsp r)
    (speculative_rsp r) (inhibit_mask r) (sregs r) (gdtr r) (idtr r) (ldtr r) (tr r) (dr r)
    (dr6 r) (dr7 r) (cr0 r) (cr2 r) (cr3 r) (cr4 r) (EXT r) (errorno r) (curr_exception r)
    (debug_trap r) (async_event r) (cpu_mode r) (user_pl r) (alignment_check_mask r)
    (fetchModeMask r) (eipPageWindowSize r) (TLB r) (TLB_split_large r) (address_xlation r)
    (memory r) (disable_NMI r) (activity_state r) (eipPageBias r) (pAddrPage r) x
    (isa_extensions_bitmask r).
Definition with_isa_extensions_bitmask (x : Z) (r : machine) : machine :=
  mk_machine (gen_reg r) (eflags r) (lf_flags_status r) (oszapc r) (prev_rip r) (prev_rsp r)
    (speculative_rsp r) (inhibit_mask r) (sregs r) (gdtr r) (idtr r) (ldtr r) (tr r) (dr r)
    (dr6 r) (dr7 r) (cr0 r) (cr2 r) (cr3 r) (cr4 r) (EXT r) (errorno r) (curr_exception r)
    (debug_trap r) (async_event r) (cpu_mode r) (user_pl r) (alignment_check_mask r)
    (fetchModeMask r) (eipPageWindowSize r) (TLB r) (TLB_split_large r) (address_xlation r)
    (memory r) (disable_NMI r) (activity_state r) (eipPageBias r) (pAddrPage r) (eipFetchPtr r)
    x.

(** Reduce projections of updated records. *)
Ltac msimpl :=
  cbn [sel_value with_sel_value sel_index with_sel_index sel_ti with_sel_ti sel_rpl with_sel_rpl
       desc_valid with_desc_valid desc_p with_desc_p desc_dpl with_desc_dpl desc_segment
       with_desc_segment desc_type with_desc_type seg_base with_seg_base seg_limit_scaled
       with_seg_limit_scaled seg_g with_seg_g seg_d_b with_seg_d_b seg_avl with_seg_avl selector
       with_selector cache with_cache gseg_base gseg_limit lf_op1 lf_op2 lf_result lf_instr
       with_lf_op1 with_lf_op2 with_lf_result with_lf_instr tlb_lpf tlb_ppf tlb_hostPageAddr
       tlb_accessBits tlb_lpf_mask xl_rm_addr with_xl_rm_addr xl_paddress1 with_xl_paddress1
       xl_paddress2 with_xl_paddress2 xl_len1 with_xl_len1 xl_len2 with_xl_len2 xl_pages
       with_xl_pages mem_vector with_mem_vector mem_len with_mem_len gen_reg with_gen_reg eflags
       with_eflags lf_flags_status with_lf_flags_status oszapc with_oszapc prev_rip
       with_prev_rip prev_rsp with_prev_rsp speculative_rsp with_speculative_rsp inhibit_mask
       with_inhibit_mask sregs with_sregs gdtr with_gdtr idtr with_idtr ldtr with_ldtr tr
       with_tr dr with_dr dr6 with_dr6 dr7 with_dr7 cr0 with_cr0 cr2 with_cr2 cr3 with_cr3 cr4
       with_cr4 EXT with_EXT errorno with_errorno curr_exception with_curr_exception debug_trap
       with_debug_trap async_event with_async_event cpu_mode with_cpu_mode user_pl with_user_pl
       alignment_check_mask with_alignment_check_mask fetchModeMask with_fetchModeMask
       eipPageWindowSize with_eipPageWindowSize TLB with_TLB TLB_split_large
       with_TLB_split_large address_xlation with_address_xlation memory with_memory
       disable_NMI with_disable_NMI activity_state with_activity_state
       eipPageBias with_eipPageBias pAddrPage with_pAddrPage
       eipFetchPtr with_eipFetchPtr isa_extensions_bitmask with_isa_extensions_bitmask].
Ltac msimpl_in_all :=
  cbn [sel_value with_sel_value sel_index with_sel_index sel_ti with_sel_ti sel_rpl with_sel_rpl
       desc_valid with_desc_valid desc_p with_desc_p desc_dpl with_desc_dpl desc_segment
       with_desc_segment desc_type with_desc_type seg_base with_seg_base seg_limit_scaled
       with_seg_limit_scaled seg_g with_seg_g seg_d_b with_seg_d_b seg_avl with_seg_avl selector
       with_selector cache with_cache gseg_base gseg_limit lf_op1 lf_op2 lf_result lf_instr
       with_lf_op1 with_lf_op2 with_lf_result with_lf_instr tlb_lpf tlb_ppf tlb_hostPageAddr
       tlb_accessBits tlb_lpf_mask xl_rm_addr with_xl_rm_addr xl_paddress1 with_xl_paddress1
       xl_paddress2 with_xl_paddress2 xl_len1 with_xl_len1 xl_len2 with_xl_len2 xl_pages
       with_xl_pages mem_vector with_mem_vector mem_len with_mem_len gen_reg with_gen_reg eflags
       with_eflags lf_flags_status with_lf_flags_status oszapc with_oszapc prev_rip
       with_prev_rip prev_rsp with_prev_rsp speculative_rsp with_speculative_rsp inhibit_mask
       with_inhibit_mask sregs with_sregs gdtr with_gdtr idtr with_idtr ldtr with_ldtr tr
       with_tr dr with_dr dr6 with_dr6 dr7 with_dr7 cr0 with_cr0 cr2 with_cr2 cr3 with_cr3 cr4
       with_cr4 EXT with_EXT errorno with_errorno curr_exception with_curr_exception debug_trap
       with_debug_trap async_event with_async_event cpu_mode with_cpu_mode user_pl with_user_pl
       alignment_check_mask with_alignment_check_mask fetchModeMask with_fetchModeMask
       eipPageWindowSize with_eipPageWindowSize TLB with_TLB TLB_split_large
       with_TLB_split_large address_xlation with_address_xlation memory with_memory
       disable_NMI with_disable_NMI activity_state with_activity_state
       eipPageBias with_eipPageBias pAddrPage with_pAddrPage
       eipFetchPtr with_eipFetchPtr isa_extensions_bitmask with_isa_extensions_bitmask] in *.

Abbreviation Mach := (M machine).

(** [exception()] ends the operation. *)
Abbreviation exception := (raise (S := machine)).

(** ** Constants (cpu/cpu.h) *)

Definition BX_SEG_REG_ES := 0.
Definition BX_SEG_REG_CS := 1.
Definition BX_SEG_REG_SS := 2.
Definition BX_SEG_REG_DS := 3.
Definition BX_SEG_REG_FS := 4.
Definition BX_SEG_REG_GS := 5.

Definition BX_GENERAL_REGISTERS := 8.
Definition BX_32BIT_REG_EIP := 8.
Definition BX_NIL_REGISTER := 9.
Definition BX_TMP_REGISTER := 10.

Definition BX_DE_EXCEPTION := 0.
Definition BX_DB_EXCEPTION := 1.
Definition BX_BP_EXCEPTION := 3.
Definition BX_OF_EXCEPTION := 4.
Definition BX_BR_EXCEPTION := 5.
Definition BX_UD_EXCEPTION := 6.
Definition BX_NM_EXCEPTION := 7.
Definition BX_DF_EXCEPTION := 8.
Definition BX_TS_EXCEPTION := 10.
Definition BX_NP_EXCEPTION := 11.
Definition BX_SS_EXCEPTION := 12.
Definition BX_GP_EXCEPTION := 13.
Definition BX_PF_EXCEPTION := 14.
Definition BX_AC_EXCEPTION := 17.

Definition BX_MODE_IA32_REAL := 0.
Definition BX_MODE_IA32_V8086 := 1.
Definition BX_MODE_IA32_PROTECTED := 2.

Definition BX_READ := 0.
Definition BX_WRITE := 1.
Definition BX_EXECUTE := 2.
Definition BX_RW := 3.

(** ** The decoded instruction (cpu/instr.h)

    [metaData] is its named bytes; the trailing union is its two 32-bit words,
    so that [Id]/[Iw]/[Ib] read the first and [displ32u]/[displ16u]/[Iw2]/[Ib2]
    the second.  The function pointer [ResolveModrm] is null or one of the three
    resolvers of cpu/resolver.cc; calling it when it is null stops the emulator. *)

Inductive resolver : Type :=
  | ResolveNull
  | Resolve16BaseIndex
  | Resolve32Base
  | Resolve32BaseIndex.

Record bxInstruction_c : Type := mk_instruction {
  ResolveModrm : resolver;
  ia_opcode : bx_ia_opcode;
  ilen : Z;
  metaInfo1 : Z;
  i_seg : Z;
  i_b1 : Z;
  i_nnn : Z;
  i_rm : Z;
  sibBase : Z;
  sibIndex : Z;
  sibScale : Z;
  i_modrm : Z;
  form_w0 : Z;
  form_w1 : Z
}.

Definition opcodeReg (i : bxInstruction_c) : Z := i_rm i.
Definition Id (i : bxInstruction_c) : Z := u32 (form_w0 i).
Definition Iw (i : bxInstruction_c) : Z := u16 (form_w0 i).
Definition Ib (i : bxInstruction_c) : Z := u8 (form_w0 i).
Definition Iw2 (i : bxInstruction_c) : Z := u16 (form_w1 i).
Definition Ib2 (i : bxInstruction_c) : Z := u8 (form_w1 i).
Definition displ32s (i : bxInstruction_c) : Z := s32 (form_w1 i).
Definition displ16s (i : bxInstruction_c) : Z := s16 (form_w1 i).
Definition os32L (i : bxInstruction_c) : Z := Z.land (metaInfo1 i) (2 ^ 3).
Definition as32L (i : bxInstruction_c) : Z := Z.land (metaInfo1 i) (2 ^ 4).
Definition repUsedL (i : bxInstruction_c) : Z := Z.land (metaInfo1 i) 3.
Definition repUsedValue (i : bxInstruction_c) : Z := Z.land (metaInfo1 i) 3.
Definition modC0 (i : bxInstruction_c) : Z := Z.land (metaInfo1 i) (2 ^ 2).

(** ** The register file (cpu/cpu.h)

    [gen_reg] is the array of eleven unions; an element is its [dword.erx]
    view, and [word.rx], [byte.rl], [byte.rh] are the little-endian overlays.
    An index comes from the decoder and is below eleven. *)

Definition reg (n : Z) (s : machine) : Z := nth (Z.to_nat n) (gen_reg s) 0.
Definition set_reg (n v : Z) (s : machine) : machine :=
  with_gen_reg (<[Z.to_nat n := v]> (gen_reg s)) s.

Definition erx (v : Z) : Z := u32 v.
Definition rx (v : Z) : Z := u16 v.
Definition rl (v : Z) : Z := u8 v.
Definition rh (v : Z) : Z := u8 (v / 2 ^ 8).

Definition put_erx (v x : Z) : Z := u32 x.
Definition put_rx (v x : Z) : Z := v / 2 ^ 16 * 2 ^ 16 + u16 x.
Definition put_rl (v x : Z) : Z := v / 2 ^ 8 * 2 ^ 8 + u8 x.
Definition put_rh (v x : Z) : Z := v / 2 ^ 16 * 2 ^ 16 + u8 x * 2 ^ 8 + u8 v.

Definition BX_READ_8BIT_REGx (index : Z) : Mach Z :=
  if nz (Z.land index 4) then gets (fun s => rh (reg (index - 4) s))
  else gets (fun s => rl (reg index s)).
Definition BX_READ_16BIT_REG (index : Z) : Mach Z := gets (fun s => rx (reg index s)).
Definition BX_READ_32BIT_REG (index : Z) : Mach Z := gets (fun s => erx (reg index s)).

Definition BX_WRITE_8BIT_REGH (index val : Z) : Mach unit :=
  modify (fun s => set_reg index (put_rh (reg index s) val) s).
Definition BX_WRITE_8BIT_REGx (index val : Z) : Mach unit :=
  if nz (Z.land index 4) then
    modify (fun s => set_reg (index - 4) (put_rh (reg (index - 4) s) val) s)
  else modify (fun s => set_reg index (put_rl (reg index s) val) s).
Definition BX_WRITE_16BIT_REG (index val : Z) : Mach unit :=
  modify (fun s => set_reg index (put_rx (reg index s) val) s).
Definition BX_WRITE_32BIT_REGZ (index val : Z) : Mach unit :=
  modify (fun s => set_reg index (put_erx (reg index s) val) s).

(** Named registers. *)
Definition AL : Mach Z := gets (fun s => rl (reg 0 s)).
Definition CL : Mach Z := gets (fun s => rl (reg 1 s)).
Definition AH : Mach Z := gets (fun s => rh (reg 0 s)).
Definition TMP8L : Mach Z := gets (fun s => rl (reg BX_TMP_REGISTER s)).
Definition AX : Mach Z := BX_READ_16BIT_REG 0.
Definition CX : Mach Z := BX_READ_16BIT_REG 1.
Definition DX : Mach Z := BX_READ_16BIT_REG 2.
Definition BX : Mach Z := BX_READ_16BIT_REG 3.
Definition SP : Mach Z := BX_READ_16BIT_REG 4.
Definition BP : Mach Z := BX_READ_16BIT_REG 5.
Definition SI : Mach Z := BX_READ_16BIT_REG 6.
Definition DI : Mach Z := BX_READ_16BIT_REG 7.
Definition TMP16 : Mach Z := BX_READ_16BIT_REG BX_TMP_REGISTER.
Definition EAX : Mach Z := BX_READ_32BIT_REG 0.
Definition ECX : Mach Z := BX_READ_32BIT_REG 1.
Definition EDX : Mach Z := BX_READ_32BIT_REG 2.
Definition EBX : Mach Z := BX_READ_32BIT_REG 3.
Definition ESP : Mach Z := BX_READ_32BIT_REG 4.
Definition EBP : Mach Z := BX_READ_32BIT_REG 5.
Definition ESI : Mach Z := BX_READ_32BIT_REG 6.
Definition EDI : Mach Z := BX_READ_32BIT_REG 7.
Definition IP : Mach Z := BX_READ_16BIT_REG BX_32BIT_REG_EIP.
Definition EIP : Mach Z := BX_READ_32BIT_REG BX_32BIT_REG_EIP.
Definition TMP32 : Mach Z := BX_READ_32BIT_REG BX_TMP_REGISTER.

Definition set_AL (v : Z) : Mach unit :=
  modify (fun s => set_reg 0 (put_rl (reg 0 s) v) s).
Definition set_AH (v : Z) : Mach unit :=
  modify (fun s => set_reg 0 (put_rh (reg 0 s) v) s).
Definition set_TMP8L (v : Z) : Mach unit :=
  modify (fun s => set_reg BX_TMP_REGISTER (put_rl (reg BX_TMP_REGISTER s) v) s).
Definition set_AX (v : Z) : Mach unit := BX_WRITE_16BIT_REG 0 v.
Definition set_CX (v : Z) : Mach unit := BX_WRITE_16BIT_REG 1 v.
Definition set_DX (v : Z) : Mach unit := BX_WRITE_16BIT_REG 2 v.
Definition set_BX (v : Z) : Mach unit := BX_WRITE_16BIT_REG 3 v.
Definition set_SP (v : Z) : Mach unit := BX_WRITE_16BIT_REG 4 v.
Definition set_BP (v : Z) : Mach unit := BX_WRITE_16BIT_REG 5 v.
Definition set_SI (v : Z) : Mach unit := BX_WRITE_16BIT_REG 6 v.
Definition set_DI (v : Z) : Mach unit := BX_WRITE_16BIT_REG 7 v.
Definition set_TMP16 (v : Z) : Mach unit := BX_WRITE_16BIT_REG BX_TMP_REGISTER v.
Definition set_EAX (v : Z) : Mach unit := BX_WRITE_32BIT_REGZ 0 v.
Definition set_ECX (v : Z) : Mach unit := BX_WRITE_32BIT_REGZ 1 v.
Definition set_EDX (v : Z) : Mach unit := BX_WRITE_32BIT_REGZ 2 v.
Definition set_EBX (v : Z) : Mach unit := BX_WRITE_32BIT_REGZ 3 v.
Definition set_ESP (v : Z) : Mach unit := BX_WRITE_32BIT_REGZ 4 v.
Definition set_EBP (v : Z) : Mach unit := BX_WRITE_32BIT_REGZ 5 v.
Definition set_ESI (v : Z) : Mach unit := BX_WRITE_32BIT_REGZ 6 v.
Definition set_EDI (v : Z) : Mach unit := BX_WRITE_32BIT_REGZ 7 v.
Definition set_IP (v : Z) : Mach unit := BX_WRITE_16BIT_REG BX_32BIT_REG_EIP v.
Definition set_EIP (v : Z) : Mach unit := BX_WRITE_32BIT_REGZ BX_32BIT_REG_EIP v.
Definition set_TMP32 (v : Z) : Mach unit := BX_WRITE_32BIT_REGZ BX_TMP_REGISTER v.

(** ** Effective addresses (cpu/resolver.cc) *)

Definition BxResolve16BaseIndex (i : bxInstruction_c) : Mach Z :=
  b ← BX_READ_16BIT_REG (sibBase i);
  x ← BX_READ_16BIT_REG (sibIndex i);
  mret (u16 (b + x + displ16s i)).

Definition BxResolve32Base (i : bxInstruction_c) : Mach Z :=
  b ← BX_READ_32BIT_REG (sibBase i);
  mret (u32 (b + displ32s i)).

Definition BxResolve32BaseIndex (i : bxInstruction_c) : Mach Z :=
  b ← BX_READ_32BIT_REG (sibBase i);
  x ← BX_READ_32BIT_REG (sibIndex i);
  mret (u32 (b + u32 (Z.shiftl x (sibScale i)) + displ32s i)).

(** [BX_CPU_CALL_METHODR(i->ResolveModrm, (i))] *)
Definition resolve (i : bxInstruction_c) : Mach Z :=
  match ResolveModrm i with
  | ResolveNull => crash
  | Resolve16BaseIndex => BxResolve16BaseIndex i
  | Resolve32Base => BxResolve32Base i
  | Resolve32BaseIndex => BxResolve32BaseIndex i
  end.

(** ** Segments, privilege and mode (cpu/cpu.h, cpu/proc_ctrl.cc) *)

Definition null_segment_reg : bx_segment_reg_t :=
  mk_segment_reg (mk_selector 0 0 0 0) (mk_descriptor 0 0 0 0 0 0 0 0 0 0).

Definition sreg (n : Z) (s : machine) : bx_segment_reg_t :=
  nth (Z.to_nat n) (sregs s) null_segment_reg.
Definition set_sreg (n : Z) (v : bx_segment_reg_t) (s : machine) : machine :=
  with_sregs (<[Z.to_nat n := v]> (sregs s)) s.

Definition CPL (s : machine) : Z := sel_rpl (selector (sreg BX_SEG_REG_CS s)).

Definition get_laddr32 (seg offset : Z) : Mach Z :=
  gets (fun s => u32 (seg_base (cache (sreg seg s)) + offset)).

Definition real_mode (s : machine) : bool := cpu_mode s =? BX_MODE_IA32_REAL.
Definition v8086_mode (s : machine) : bool := cpu_mode s =? BX_MODE_IA32_V8086.
Definition protected_mode (s : machine) : bool := BX_MODE_IA32_PROTECTED <=? cpu_mode s.

(** Control-register bits (cpu/crregs.h). *)
Definition cr_bit (bitnum val32 : Z) : Z := Z.land 1 (Z.shiftr val32 bitnum).
Definition cr0_get_PE (s : machine) : Z := cr_bit 0 (cr0 s).
Definition cr0_get_WP (s : machine) : Z := cr_bit 16 (cr0 s).
Definition cr0_get_AM (s : machine) : Z := cr_bit 18 (cr0 s).
Definition cr0_get_PG (s : machine) : Z := cr_bit 31 (cr0 s).
Definition cr4_get_PSE (s : machine) : Z := cr_bit 4 (cr4 s).

(** The zero-initialised [bx_cpu] with [len] bytes of guest memory. *)
Definition null_descriptor : bx_descriptor_t := cache null_segment_reg.
Definition machine_zero (len : Z) : machine :=
  mk_machine (replicate 11 0) 0 0 (mk_lf_flags 0 0 0 0) 0 0 0 0 (replicate 6 null_segment_reg)
    (mk_global_segment_reg 0 0) (mk_global_segment_reg 0 0) null_segment_reg null_segment_reg
    (replicate 4 0) 0 0 0 0 0 0 0 0 0 0 0 0 0 0 0 0 ∅ 0 (mk_address_xlation 0 0 0 0 0 0)
    (mk_mem ∅ len) 0 0 0 0 0 0.
