(* ===== verification/LazyFlags.v ===== *)
(** * LazyFlags: the lazily evaluated arithmetic flags

    cpu/lazy_flags.h, cpu/lazy_flags.cc and the flag accessors of cpu/cpu.h.
    An arithmetic handler does not compute OF, SF, ZF, AF, PF and CF: it
    records its operands, its result and a code naming the operation in
    [oszapc] and marks the flags as pending in [lf_flags_status].  A flag is
    computed from the record when somebody reads it.

    The second half relates the two representations: [norm] materialises the
    pending flags, and [refines m m'] says that [m] does on the lazy state what
    [m'] does on the materialised one. *)
From stdpp Require Import base numbers list gmap.
From Stdlib Require Import ZArith Lia.
From S2P Require Import Prelude Machine.

Local Open Scope Z_scope.

(** ** Operation codes (cpu/lazy_flags.h) *)

Definition BX_LF_INSTR_ADD8 := 1.
Definition BX_LF_INSTR_ADC8 := 2.
Definition BX_LF_INSTR_ADD16 := 3.
Definition BX_LF_INSTR_ADC16 := 4.
Definition BX_LF_INSTR_ADD32 := 5.
Definition BX_LF_INSTR_ADC32 := 6.
Definition BX_LF_INSTR_ADD_ADC8 (cf : Z) := 1 + cf.
Definition BX_LF_INSTR_ADD_ADC16 (cf : Z) := 3 + cf.
Definition BX_LF_INSTR_ADD_ADC32 (cf : Z) := 5 + cf.
Definition BX_LF_INSTR_SUB8 := 9.
Definition BX_LF_INSTR_SBB8 := 10.
Definition BX_LF_INSTR_SUB16 := 11.
Definition BX_LF_INSTR_SBB16 := 12.
Definition BX_LF_INSTR_SUB32 := 13.
Definition BX_LF_INSTR_SBB32 := 14.
Definition BX_LF_INSTR_SUB_SBB8 (cf : Z) := 9 + cf.
Definition BX_LF_INSTR_SUB_SBB16 (cf : Z) := 11 + cf.
Definition BX_LF_INSTR_SUB_SBB32 (cf : Z) := 13 + cf.
Definition BX_LF_INSTR_INC8 := 17.
Definition BX_LF_INSTR_INC16 := 18.
Definition BX_LF_INSTR_INC32 := 19.
Definition BX_LF_INSTR_DEC8 := 21.
Definition BX_LF_INSTR_DEC16 := 22.
Definition BX_LF_INSTR_DEC32 := 23.
Definition BX_LF_INSTR_NEG8 := 25.
Definition BX_LF_INSTR_NEG16 := 26.
Definition BX_LF_INSTR_NEG32 := 27.
Definition BX_LF_INSTR_LOGIC8 := 29.
Definition BX_LF_INSTR_LOGIC16 := 30.
Definition BX_LF_INSTR_LOGIC32 := 31.
Definition BX_LF_SIGN_BIT := 31.

(** ** Flag masks (cpu/cpu.h) *)

Definition EFlagsCFMask : Z := 2 ^ 0.
Definition EFlagsPFMask : Z := 2 ^ 2.
Definition EFlagsAFMask : Z := 2 ^ 4.
Definition EFlagsZFMask : Z := 2 ^ 6.
Definition EFlagsSFMask : Z := 2 ^ 7.
Definition EFlagsTFMask : Z := 2 ^ 8.
Definition EFlagsIFMask : Z := 2 ^ 9.
Definition EFlagsDFMask : Z := 2 ^ 10.
Definition EFlagsOFMask : Z := 2 ^ 11.
Definition EFlagsIOPLMask : Z := 3 * 2 ^ 12.
Definition EFlagsNTMask : Z := 2 ^ 14.
Definition EFlagsRFMask : Z := 2 ^ 16.
Definition EFlagsVMMask : Z := 2 ^ 17.
Definition EFlagsACMask : Z := 2 ^ 18.
Definition EFlagsVIFMask : Z := 2 ^ 19.
Definition EFlagsVIPMask : Z := 2 ^ 20.
Definition EFlagsIDMask : Z := 2 ^ 21.

(** [a | b | ...] *)
Definition mask_of (l : list Z) : Z := foldr Z.lor 0 l.

Definition EFlagsOSZAPCMask : Z :=
  mask_of [EFlagsCFMask; EFlagsPFMask; EFlagsAFMask; EFlagsZFMask; EFlagsSFMask; EFlagsOFMask].
Definition EFlagsOSZAPMask : Z :=
  mask_of [EFlagsPFMask; EFlagsAFMask; EFlagsZFMask; EFlagsSFMask; EFlagsOFMask].

(** ** Recording an operation (cpu/lazy_flags.h) *)

Definition SET_FLAGS_OSZAPC_SIZE (size op1 op2 result ins : Z) : Mach unit :=
  modify (fun s =>
    with_lf_flags_status EFlagsOSZAPCMask
      (with_oszapc (mk_lf_flags (u32 (swrap size op1)) (u32 (swrap size op2))
                      (u32 (swrap size result)) ins) s)).

Definition SET_FLAGS_OSZAPC_RESULT_SIZE (size result ins : Z) : Mach unit :=
  modify (fun s =>
    with_lf_flags_status EFlagsOSZAPCMask
      (with_oszapc (with_lf_instr ins (with_lf_result (u32 (swrap size result)) (oszapc s))) s)).

Definition SET_FLAGS_OSZAPC_8 := SET_FLAGS_OSZAPC_SIZE 8.
Definition SET_FLAGS_OSZAPC_16 := SET_FLAGS_OSZAPC_SIZE 16.
Definition SET_FLAGS_OSZAPC_32 := SET_FLAGS_OSZAPC_SIZE 32.
Definition SET_FLAGS_OSZAPC_RESULT_8 := SET_FLAGS_OSZAPC_RESULT_SIZE 8.
Definition SET_FLAGS_OSZAPC_RESULT_16 := SET_FLAGS_OSZAPC_RESULT_SIZE 16.
Definition SET_FLAGS_OSZAPC_RESULT_32 := SET_FLAGS_OSZAPC_RESULT_SIZE 32.
Definition SET_FLAGS_OSZAPC_LOGIC_8 (r : Z) := SET_FLAGS_OSZAPC_RESULT_8 r BX_LF_INSTR_LOGIC8.
Definition SET_FLAGS_OSZAPC_LOGIC_16 (r : Z) := SET_FLAGS_OSZAPC_RESULT_16 r BX_LF_INSTR_LOGIC16.
Definition SET_FLAGS_OSZAPC_LOGIC_32 (r : Z) := SET_FLAGS_OSZAPC_RESULT_32 r BX_LF_INSTR_LOGIC32.
Definition SET_FLAGS_OSZAPC_ADD_8 (a b r : Z) := SET_FLAGS_OSZAPC_8 a b r BX_LF_INSTR_ADD8.
Definition SET_FLAGS_OSZAPC_ADD_16 (a b r : Z) := SET_FLAGS_OSZAPC_16 a b r BX_LF_INSTR_ADD16.
Definition SET_FLAGS_OSZAPC_ADD_32 (a b r : Z) := SET_FLAGS_OSZAPC_32 a b r BX_LF_INSTR_ADD32.
Definition SET_FLAGS_OSZAPC_SUB_8 (a b r : Z) := SET_FLAGS_OSZAPC_8 a b r BX_LF_INSTR_SUB8.
Definition SET_FLAGS_OSZAPC_SUB_16 (a b r : Z) := SET_FLAGS_OSZAPC_16 a b r BX_LF_INSTR_SUB16.
Definition SET_FLAGS_OSZAPC_SUB_32 (a b r : Z) := SET_FLAGS_OSZAPC_32 a b r BX_LF_INSTR_SUB32.

(** ** Computing a pending flag (cpu/lazy_flags.cc, cpu/cpu.h) *)

(** The initialiser of [bx_parity_lookup], row by row. *)
Definition parity_row_e : list Z := [1; 0; 0; 1; 0; 1; 1; 0; 0; 1; 1; 0; 1; 0; 0; 1].
Definition parity_row_o : list Z := [0; 1; 1; 0; 1; 0; 0; 1; 1; 0; 0; 1; 0; 1; 1; 0].
Definition bx_parity_lookup : list Z :=
  parity_row_e ++ parity_row_o ++ parity_row_o ++ parity_row_e ++
  parity_row_o ++ parity_row_e ++ parity_row_e ++ parity_row_o ++
  parity_row_o ++ parity_row_e ++ parity_row_e ++ parity_row_o ++
  parity_row_e ++ parity_row_o ++ parity_row_o ++ parity_row_e.

Definition op1_8 (e : bx_lf_flags_entry) : Z := u8 (lf_op1 e).
Definition op2_8 (e : bx_lf_flags_entry) : Z := u8 (lf_op2 e).
Definition result_8 (e : bx_lf_flags_entry) : Z := u8 (lf_result e).
Definition op1_16 (e : bx_lf_flags_entry) : Z := u16 (lf_op1 e).
Definition op2_16 (e : bx_lf_flags_entry) : Z := u16 (lf_op2 e).
Definition result_16 (e : bx_lf_flags_entry) : Z := u16 (lf_result e).
Definition op1_32 (e : bx_lf_flags_entry) : Z := u32 (lf_op1 e).
Definition op2_32 (e : bx_lf_flags_entry) : Z := u32 (lf_op2 e).
Definition result_32 (e : bx_lf_flags_entry) : Z := u32 (lf_result e).

Definition get_CFLazy (e : bx_lf_flags_entry) : Z :=
  let instr := lf_instr e in
  if case_in instr [BX_LF_INSTR_ADD8; BX_LF_INSTR_ADD16; BX_LF_INSTR_ADD32] then
    Z.b2z (result_32 e <? op1_32 e)
  else if case_in instr [BX_LF_INSTR_ADC8; BX_LF_INSTR_ADC16; BX_LF_INSTR_ADC32] then
    Z.b2z (result_32 e <=? op1_32 e)
  else if case_in instr [BX_LF_INSTR_SUB8; BX_LF_INSTR_SUB16; BX_LF_INSTR_SUB32] then
    Z.b2z (op1_32 e <? op2_32 e)
  else if case_in instr [BX_LF_INSTR_SBB8] then
    Z.b2z ((op1_8 e <? result_8 e) || (op2_8 e =? 0xff))
  else if case_in instr [BX_LF_INSTR_SBB16] then
    Z.b2z ((op1_16 e <? result_16 e) || (op2_16 e =? 0xffff))
  else if case_in instr [BX_LF_INSTR_SBB32] then
    Z.b2z ((op1_32 e <? result_32 e) || (op2_32 e =? 0xffffffff))
  else if case_in instr [BX_LF_INSTR_NEG8; BX_LF_INSTR_NEG16; BX_LF_INSTR_NEG32] then
    Z.b2z (negb (result_32 e =? 0))
  else if case_in instr [BX_LF_INSTR_LOGIC8; BX_LF_INSTR_LOGIC16; BX_LF_INSTR_LOGIC32] then 0
  else 0.

Definition get_AFLazy (e : bx_lf_flags_entry) : Z :=
  let instr := lf_instr e in
  if case_in instr
       [BX_LF_INSTR_ADD8; BX_LF_INSTR_ADC8; BX_LF_INSTR_SUB8; BX_LF_INSTR_SBB8;
        BX_LF_INSTR_ADD16; BX_LF_INSTR_ADC16; BX_LF_INSTR_SUB16; BX_LF_INSTR_SBB16;
        BX_LF_INSTR_ADD32; BX_LF_INSTR_ADC32; BX_LF_INSTR_SUB32; BX_LF_INSTR_SBB32] then
    Z.land (Z.lxor (Z.lxor (op1_8 e) (op2_8 e)) (result_8 e)) 0x10
  else if case_in instr [BX_LF_INSTR_NEG8; BX_LF_INSTR_NEG16; BX_LF_INSTR_NEG32] then
    Z.b2z (negb (Z.land (result_8 e) 0xf =? 0))
  else if case_in instr [BX_LF_INSTR_INC8; BX_LF_INSTR_INC16; BX_LF_INSTR_INC32] then
    Z.b2z (Z.land (result_8 e) 0xf =? 0)
  else if case_in instr [BX_LF_INSTR_DEC8; BX_LF_INSTR_DEC16; BX_LF_INSTR_DEC32] then
    Z.b2z (Z.land (result_8 e) 0xf =? 0xf)
  else if case_in instr [BX_LF_INSTR_LOGIC8; BX_LF_INSTR_LOGIC16; BX_LF_INSTR_LOGIC32] then 0
  else 0.

Definition GET_ADD_OVERFLOW (op1 op2 result mask : Z) : Z :=
  Z.b2z (nz (Z.land (Z.land (Z.lxor op1 result) (Z.lxor op2 result)) mask)).
Definition GET_SUB_OVERFLOW (op1 op2 result mask : Z) : Z :=
  Z.b2z (nz (Z.land (Z.land (Z.lxor op1 op2) (Z.lxor op1 result)) mask)).

Definition get_OFLazy (e : bx_lf_flags_entry) : Z :=
  let instr := lf_instr e in
  if case_in instr [BX_LF_INSTR_ADD8; BX_LF_INSTR_ADC8; BX_LF_INSTR_ADD16;
                    BX_LF_INSTR_ADC16; BX_LF_INSTR_ADD32; BX_LF_INSTR_ADC32] then
    GET_ADD_OVERFLOW (op1_32 e) (op2_32 e) (result_32 e) 0x80000000
  else if case_in instr [BX_LF_INSTR_SUB8; BX_LF_INSTR_SBB8; BX_LF_INSTR_SUB16;
                         BX_LF_INSTR_SBB16; BX_LF_INSTR_SUB32; BX_LF_INSTR_SBB32] then
    GET_SUB_OVERFLOW (op1_32 e) (op2_32 e) (result_32 e) 0x80000000
  else if case_in instr [BX_LF_INSTR_LOGIC8; BX_LF_INSTR_LOGIC16; BX_LF_INSTR_LOGIC32] then 0
  else if case_in instr [BX_LF_INSTR_NEG8; BX_LF_INSTR_INC8] then Z.b2z (result_8 e =? 0x80)
  else if case_in instr [BX_LF_INSTR_NEG16; BX_LF_INSTR_INC16] then Z.b2z (result_16 e =? 0x8000)
  else if case_in instr [BX_LF_INSTR_NEG32; BX_LF_INSTR_INC32] then
    Z.b2z (result_32 e =? 0x80000000)
  else if case_in instr [BX_LF_INSTR_DEC8] then Z.b2z (result_8 e =? 0x7f)
  else if case_in instr [BX_LF_INSTR_DEC16] then Z.b2z (result_16 e =? 0x7fff)
  else if case_in instr [BX_LF_INSTR_DEC32] then Z.b2z (result_32 e =? 0x7fffffff)
  else 0.

Definition get_ZFLazy (e : bx_lf_flags_entry) : Z := Z.b2z (lf_result e =? 0).
Definition get_SFLazy (e : bx_lf_flags_entry) : Z := Z.shiftr (lf_result e) BX_LF_SIGN_BIT.
Definition get_PFLazy (e : bx_lf_flags_entry) : Z :=
  nth (Z.to_nat (u8 (lf_result e))) bx_parity_lookup 0.

(** ** Flag accessors (cpu/cpu.h: [ArithmeticalFlag])

    The macro is instantiated at six flags; [lfMask] and [eflagsBitShift] are
    its arguments. *)

Inductive aflag : Type := OF | SF | ZF | AF | PF | CF.

Definition eflagsBitShift (f : aflag) : Z :=
  match f with OF => 11 | SF => 7 | ZF => 6 | AF => 4 | PF => 2 | CF => 0 end.
Definition lfMask (f : aflag) : Z :=
  match f with
  | OF => EFlagsOFMask | SF => EFlagsSFMask | ZF => EFlagsZFMask
  | AF => EFlagsAFMask | PF => EFlagsPFMask | CF => EFlagsCFMask
  end.
Definition getLazy (f : aflag) (e : bx_lf_flags_entry) : Z :=
  match f with
  | OF => get_OFLazy e | SF => get_SFLazy e | ZF => get_ZFLazy e
  | AF => get_AFLazy e | PF => get_PFLazy e | CF => get_CFLazy e
  end.

Definition getB_flag (f : aflag) (s : machine) : Z :=
  if Z.land (lf_flags_status s) (lfMask f) =? 0 then
    Z.land (Z.shiftr (eflags s) (eflagsBitShift f)) 1
  else Z.b2z (nz (getLazy f (oszapc s))).

Definition get_flag (f : aflag) (s : machine) : Z :=
  if Z.land (lf_flags_status s) (lfMask f) =? 0 then Z.land (eflags s) (lfMask f)
  else getLazy f (oszapc s).

Definition set_flag (f : aflag) (val : Z) : Mach unit :=
  modify (fun s =>
    with_eflags (Z.lor (Z.ldiff (eflags s) (lfMask f)) (u32 (Z.shiftl val (eflagsBitShift f))))
      (with_lf_flags_status (Z.ldiff (lf_flags_status s) (lfMask f)) s)).

Definition clear_flag (f : aflag) : Mach unit :=
  modify (fun s =>
    with_eflags (Z.ldiff (eflags s) (lfMask f))
      (with_lf_flags_status (Z.ldiff (lf_flags_status s) (lfMask f)) s)).

Definition assert_flag (f : aflag) : Mach unit :=
  modify (fun s =>
    with_eflags (Z.lor (eflags s) (lfMask f))
      (with_lf_flags_status (Z.ldiff (lf_flags_status s) (lfMask f)) s)).

Definition force_flag (f : aflag) : Mach unit :=
  b ← gets (fun s => nz (Z.land (lf_flags_status s) (lfMask f)));
  when b (v ← gets (fun s => Z.b2z (nz (getLazy f (oszapc s)))); set_flag f v).

Definition set_PF_base (val : Z) : Mach unit :=
  modify (fun s =>
    with_eflags (Z.lor (Z.ldiff (eflags s) (2 ^ 2))
                   (Z.shiftl (nth (Z.to_nat (u8 val)) bx_parity_lookup 0) 2))
      (with_lf_flags_status (Z.ldiff (lf_flags_status s) EFlagsPFMask) s)).

Definition setEFlagsOSZAPC (flags32 : Z) : Mach unit :=
  modify (fun s =>
    with_lf_flags_status 0
      (with_eflags (Z.lor (Z.ldiff (eflags s) EFlagsOSZAPCMask)
                      (Z.land flags32 EFlagsOSZAPCMask)) s)).

Definition ASSERT_FLAGS_OxxxxC : Mach unit :=
  modify (fun s =>
    with_lf_flags_status (Z.ldiff (lf_flags_status s) (Z.lor EFlagsOFMask EFlagsCFMask))
      (with_eflags (Z.lor (eflags s) (Z.lor EFlagsOFMask EFlagsCFMask)) s)).

Definition SET_FLAGS_OxxxxC (new_of new_cf : Z) : Mach unit :=
  modify (fun s =>
    with_lf_flags_status (Z.ldiff (lf_flags_status s) (Z.lor EFlagsOFMask EFlagsCFMask))
      (with_eflags (Z.lor (Z.ldiff (eflags s) (Z.lor EFlagsOFMask EFlagsCFMask))
                      (u32 (Z.lor (Z.shiftl new_of 11) new_cf))) s)).

(** INC and DEC leave CF alone: its pending value is stored first. *)
Definition SET_FLAGS_OSZAP_RESULT_SIZE (size result ins : Z) : Mach unit :=
  force_flag CF;;
  modify (fun s =>
    with_lf_flags_status EFlagsOSZAPMask
      (with_oszapc (with_lf_instr ins (with_lf_result (u32 (swrap size result)) (oszapc s))) s)).

Definition SET_FLAGS_OSZAPC_INC_8 (r : Z) := SET_FLAGS_OSZAP_RESULT_SIZE 8 r BX_LF_INSTR_INC8.
Definition SET_FLAGS_OSZAPC_INC_16 (r : Z) := SET_FLAGS_OSZAP_RESULT_SIZE 16 r BX_LF_INSTR_INC16.
Definition SET_FLAGS_OSZAPC_INC_32 (r : Z) := SET_FLAGS_OSZAP_RESULT_SIZE 32 r BX_LF_INSTR_INC32.
Definition SET_FLAGS_OSZAPC_DEC_8 (r : Z) := SET_FLAGS_OSZAP_RESULT_SIZE 8 r BX_LF_INSTR_DEC8.
Definition SET_FLAGS_OSZAPC_DEC_16 (r : Z) := SET_FLAGS_OSZAP_RESULT_SIZE 16 r BX_LF_INSTR_DEC16.
Definition SET_FLAGS_OSZAPC_DEC_32 (r : Z) := SET_FLAGS_OSZAP_RESULT_SIZE 32 r BX_LF_INSTR_DEC32.

(** cpu/flag_ctrl_pro.cc *)
Definition force_flags : Mach Z :=
  status ← gets lf_flags_status;
  when (nz status)
    (newflags ← gets (fun s =>
       mask_of [if nz (get_flag CF s) then EFlagsCFMask else 0;
                if nz (get_flag PF s) then EFlagsPFMask else 0;
                if nz (get_flag AF s) then EFlagsAFMask else 0;
                if nz (get_flag ZF s) then EFlagsZFMask else 0;
                if nz (get_flag SF s) then EFlagsSFMask else 0;
                if nz (get_flag OF s) then EFlagsOFMask else 0]);
     setEFlagsOSZAPC newflags);;
  gets eflags.

Definition read_eflags : Mach Z := force_flags.

(** ** The flags an operation means to set *)

(** The reference semantics of the flags at width [w]: what the Intel manual
    says of a sum with carry-in [c], a difference with borrow-in [c], and a
    logical result. *)
Definition flags : Type := aflag -> bool.

Definition even_parity (z : Z) : bool :=
  negb (foldr xorb false (Z.testbit z <$> seqZ 0 8)).

Definition result_flags (w r : Z) (ov af cf : bool) : flags := fun f =>
  match f with
  | OF => ov | SF => 2 ^ (w - 1) <=? r | ZF => r =? 0
  | AF => af | PF => even_parity r | CF => cf
  end.

(** A signed value fits in [w] bits. *)
Definition fits_signed (w z : Z) : bool := (- 2 ^ (w - 1) <=? z) && (z <? 2 ^ (w - 1)).

Definition add_flags (w a b c : Z) : flags :=
  result_flags w (wrap w (a + b + c))
    (negb (fits_signed w (swrap w a + swrap w b + c)))
    (16 <=? a mod 16 + b mod 16 + c)
    (2 ^ w <=? a + b + c).

Definition sub_flags (w a b c : Z) : flags :=
  result_flags w (wrap w (a - b - c))
    (negb (fits_signed w (swrap w a - swrap w b - c)))
    (a mod 16 <? b mod 16 + c)
    (a <? b + c).

Definition logic_flags (w r : Z) : flags := result_flags w r false false false.

(** INC and DEC: everything but CF, which keeps its old value. *)
Definition keep_CF (fl : flags) (cf : bool) : flags := fun f =>
  match f with CF => cf | _ => fl f end.

(** ** Lazy and materialised states *)

Definition aflags : list aflag := [OF; SF; ZF; AF; PF; CF].

Definition put_bit (z n : Z) (b : bool) : Z := if b then Z.setbit z n else Z.clearbit z n.

(** [z] with the six flag bits given by [fl]. *)
Definition put_flags (fl : flags) (z : Z) : Z :=
  foldr (fun f acc => put_bit acc (eflagsBitShift f) (fl f)) z aflags.

(** The value of a flag, pending or not. *)
Definition flag (f : aflag) (s : machine) : bool := nz (getB_flag f s).

Definition lf_none : bx_lf_flags_entry := mk_lf_flags 0 0 0 0.

(** The materialised state: the architectural value of EFLAGS, nothing
    pending. *)
Definition norm (s : machine) : machine :=
  with_oszapc lf_none
    (with_lf_flags_status 0 (with_eflags (put_flags (fun f => flag f s) (eflags s)) s)).

(** [m] on the lazy state is [m'] on the materialised one. *)
Definition refines {A} (m m' : Mach A) : Prop :=
  forall s, omap_state norm (m s) = m' (norm s).

(** The eager way to set the six flags, as a function of the old state. *)
Definition update_flags (fl : machine -> flags) : Mach unit :=
  modify (fun s => with_eflags (put_flags (fl s) (eflags s)) s).
Definition write_arith_flags (fl : flags) : Mach unit := update_flags (fun _ => fl).

#[export] Instance aflag_eq_dec : EqDecision aflag.
Proof. solve_decision. Defined.

(** Set some flags, leave the others. *)
Definition override (l : list (aflag * bool)) (s : machine) : flags := fun g =>
  match find (fun p => bool_decide (p.1 = g)) l with
  | Some p => p.2
  | None => flag g s
  end.

(** The state without its arithmetic flags. *)
Definition core (s : machine) : machine :=
  with_oszapc lf_none (with_lf_flags_status 0 (with_eflags 0 s)).

(** The operation codes a 32-bit build can record. *)
Definition lf_codes : list Z :=
  [1; 2; 3; 4; 5; 6; 9; 10; 11; 12; 13; 14; 17; 18; 19; 21; 22; 23; 25; 26; 27; 29; 30; 31].
Definition lf_no_carry : list Z := [17; 18; 19; 21; 22; 23].

(** What holds of the pending-flags record: only the six flags are ever
    pending; while one is, the code is known to the three [switch] statements;
    and CF is never pending on a code that does not define it. *)
Definition lazy_wf (s : machine) : Prop :=
  Z.ldiff (lf_flags_status s) EFlagsOSZAPCMask = 0 /\
  (lf_flags_status s <> 0 -> case_in (lf_instr (oszapc s)) lf_codes = true) /\
  (Z.land (lf_flags_status s) EFlagsCFMask <> 0 ->
   case_in (lf_instr (oszapc s)) lf_no_carry = false).

(** *** Bits of the flag word *)

Lemma lfMask_pow2 f : lfMask f = 2 ^ eflagsBitShift f.
Proof. by destruct f. Qed.

Lemma eflagsBitShift_range f : 0 <= eflagsBitShift f < 12.
Proof. destruct f; cbn; lia. Qed.

Lemma eflagsBitShift_inj f g : eflagsBitShift f = eflagsBitShift g -> f = g.
Proof. by destruct f, g. Qed.

Lemma testbit_put_bit z n b m :
  0 <= n -> Z.testbit (put_bit z n b) m = if m =? n then b else Z.testbit z m.
Proof.
  intros Hn. unfold put_bit. destruct b, (Z.eqb_spec m n) as [->|].
  - by apply Z.setbit_eq.
  - by apply Z.setbit_neq; auto.
  - by apply Z.clearbit_eq.
  - by apply Z.clearbit_neq; auto.
Qed.

Lemma testbit_put_flags fl z n :
  Z.testbit (put_flags fl z) n =
    if n =? 11 then fl OF else if n =? 7 then fl SF else if n =? 6 then fl ZF
    else if n =? 4 then fl AF else if n =? 2 then fl PF else if n =? 0 then fl CF
    else Z.testbit z n.
Proof. unfold put_flags. cbn [foldr aflags]. by rewrite !testbit_put_bit by (cbn; lia). Qed.

Lemma testbit_put_flags_flag fl z f : Z.testbit (put_flags fl z) (eflagsBitShift f) = fl f.
Proof. rewrite testbit_put_flags. by destruct f. Qed.

Lemma testbit_put_flags_other fl z n :
  (forall f, n <> eflagsBitShift f) -> Z.testbit (put_flags fl z) n = Z.testbit z n.
Proof.
  intros H. rewrite testbit_put_flags.
  rewrite !(proj2 (Z.eqb_neq n _)); [done|..];
    [apply (H CF)|apply (H PF)|apply (H AF)|apply (H ZF)|apply (H SF)|apply (H OF)].
Qed.

Lemma put_flags_ext fl fl' z : (forall f, fl f = fl' f) -> put_flags fl z = put_flags fl' z.
Proof. intros H. unfold put_flags. cbn [foldr aflags]. by rewrite !H. Qed.

(** A position is one of the six flags or not. *)
Lemma flag_position n : (exists f, n = eflagsBitShift f) \/ (forall f, n <> eflagsBitShift f).
Proof.
  destruct (decide (n ∈ eflagsBitShift <$> aflags)) as [Hin|Hout].
  - left. apply list_elem_of_fmap in Hin as (f & -> & _). eauto.
  - right. intros f ->. apply Hout, list_elem_of_fmap. exists f. split; [done|].
    destruct f; cbn; set_solver.
Qed.

(** Two flag words are equal if they agree on the six flags and outside. *)
Lemma flag_word_ext a b :
  (forall f, Z.testbit a (eflagsBitShift f) = Z.testbit b (eflagsBitShift f)) ->
  (forall n, 0 <= n -> (forall f, n <> eflagsBitShift f) -> Z.testbit a n = Z.testbit b n) ->
  a = b.
Proof.
  intros Hf Hn. apply Z.bits_inj'. intros n Hp.
  destruct (flag_position n) as [[f ->]|]; auto.
Qed.

Lemma testbit_OSZAPCMask n :
  Z.testbit EFlagsOSZAPCMask n = existsb (fun f => n =? eflagsBitShift f) aflags.
Proof.
  unfold EFlagsOSZAPCMask, mask_of. cbn [foldr existsb aflags eflagsBitShift].
  rewrite !Z.lor_spec, Z.testbit_0_l. unfold EFlagsCFMask, EFlagsPFMask, EFlagsAFMask,
    EFlagsZFMask, EFlagsSFMask, EFlagsOFMask.
  rewrite !Z.pow2_bits_eqb by lia. rewrite !(Z.eqb_sym _ n).
  by destruct (n =? 0), (n =? 2), (n =? 4), (n =? 6), (n =? 7), (n =? 11).
Qed.

Lemma testbit_OSZAPCMask_flag f : Z.testbit EFlagsOSZAPCMask (eflagsBitShift f) = true.
Proof. by destruct f. Qed.

Lemma testbit_OSZAPCMask_other n :
  (forall f, n <> eflagsBitShift f) -> Z.testbit EFlagsOSZAPCMask n = false.
Proof.
  intros H. rewrite testbit_OSZAPCMask. cbn [existsb aflags].
  by rewrite !(proj2 (Z.eqb_neq _ _) (H _)).
Qed.

(** *** Reading a flag *)

Lemma flag_spec f s :
  flag f s = if Z.testbit (lf_flags_status s) (eflagsBitShift f) then
               nz (getLazy f (oszapc s))
             else Z.testbit (eflags s) (eflagsBitShift f).
Proof.
  unfold flag, getB_flag. pose proof (eflagsBitShift_range f).
  pose proof (nz_land_pow2 (lf_flags_status s) (eflagsBitShift f)) as H1.
  rewrite <-lfMask_pow2 in H1. rewrite <-H1 by lia. unfold nz at 3.
  destruct (Z.land _ (lfMask f) =? 0); cbn [negb].
  - rewrite Z.testbit_odd, <-Z.bit0_odd. by rewrite <-(nz_land_pow2 _ 0) by lia.
  - by destruct (nz (getLazy _ _)).
Qed.

Lemma get_flag_flag f s : nz (get_flag f s) = flag f s.
Proof.
  rewrite flag_spec. unfold get_flag. pose proof (eflagsBitShift_range f).
  rewrite lfMask_pow2. rewrite <-!nz_land_pow2 by lia. unfold nz at 2.
  by destruct (Z.land (lf_flags_status s) _ =? 0).
Qed.

Lemma getB_flag_b2z f s : getB_flag f s = Z.b2z (flag f s).
Proof.
  unfold flag, getB_flag. destruct (_ =? 0); [|by destruct (nz (getLazy _ _))].
  change 1 with (Z.ones 1). rewrite Z.land_ones by lia.
  pose proof (Z.mod_pos_bound (eflags s ≫ eflagsBitShift f) (2 ^ 1)).
  assert (eflags s ≫ eflagsBitShift f mod 2 ^ 1 = 0 \/
          eflags s ≫ eflagsBitShift f mod 2 ^ 1 = 1) as [-> | ->] by lia; done.
Qed.

Lemma flag_norm f s : flag f (norm s) = flag f s.
Proof. rewrite (flag_spec f (norm s)). unfold norm. msimpl.
  by rewrite Z.testbit_0_l, testbit_put_flags_flag. Qed.

Lemma getB_flag_norm f s : getB_flag f (norm s) = getB_flag f s.
Proof. by rewrite !getB_flag_b2z, flag_norm. Qed.

Lemma testbit_eflags_norm s n :
  (forall f, n <> eflagsBitShift f) -> Z.testbit (eflags (norm s)) n = Z.testbit (eflags s) n.
Proof. intros. unfold norm. msimpl. by apply testbit_put_flags_other. Qed.

(** *** Refinement *)

Create HintDb refines discriminated.
#[export] Hint Constants Opaque : refines.

Lemma norm_ext s s' :
  core s = core s' -> (forall f, flag f s = flag f s') ->
  (forall n, 0 <= n -> (forall f, n <> eflagsBitShift f) ->
     Z.testbit (eflags s) n = Z.testbit (eflags s') n) ->
  norm s = norm s'.
Proof.
  intros Hc Hf Hn.
  assert (forall s, norm s = with_eflags (put_flags (fun f => flag f s) (eflags s)) (core s))
    as Hnorm by done.
  rewrite !Hnorm, Hc. f_equal. apply flag_word_ext.
  - intros f. by rewrite !testbit_put_flags_flag.
  - intros n Hp Hno. rewrite !testbit_put_flags_other by done. auto.
Qed.

(** A state with nothing pending is its own materialisation. *)
Lemma norm_known s : lf_flags_status s = 0 -> oszapc s = lf_none -> norm s = s.
Proof.
  intros Hs Ho. unfold norm. replace (put_flags _ _) with (eflags s).
  - destruct s. cbn in *. by subst.
  - apply flag_word_ext.
    + intros f. by rewrite testbit_put_flags_flag, flag_spec, Hs, Z.testbit_0_l.
    + intros n ? ?. by rewrite testbit_put_flags_other.
Qed.

(** The one lemma behind every flag writer: a state change that only touches
    the flags, and gives them the values [fl], is the eager update. *)
Lemma norm_update s s' (fl : flags) :
  core s' = core s -> (forall g, flag g s' = fl g) ->
  (forall n, 0 <= n -> (forall g, n <> eflagsBitShift g) ->
     Z.testbit (eflags s') n = Z.testbit (eflags s) n) ->
  norm s' = with_eflags (put_flags fl (eflags (norm s))) (norm s).
Proof.
  intros Hc Hf Hn.
  remember (with_eflags (put_flags fl (eflags (norm s))) (norm s)) as s1 eqn:E.
  rewrite <-(norm_known s1) by by subst s1.
  apply norm_ext.
  - subst s1. by rewrite Hc.
  - intros g. rewrite Hf, (flag_spec g s1). subst s1. msimpl.
    by rewrite Z.testbit_0_l, testbit_put_flags_flag.
  - intros n ? ?. rewrite Hn by done. subst s1. msimpl.
    by rewrite testbit_put_flags_other, testbit_eflags_norm.
Qed.

Lemma refines_update_flags (f : machine -> machine) (fl : machine -> flags) :
  (forall s, core (f s) = core s) ->
  (forall s g, flag g (f s) = fl (norm s) g) ->
  (forall s n, 0 <= n -> (forall g, n <> eflagsBitShift g) ->
     Z.testbit (eflags (f s)) n = Z.testbit (eflags s) n) ->
  refines (modify f) (update_flags fl).
Proof.
  intros Hc Hf Hn s. unfold update_flags, modify. cbn [omap_state]. f_equal.
  apply norm_update; auto.
Qed.

Lemma refines_ret {A} (a : A) : refines (mret a) (mret a).
Proof. by intros s. Qed.

Lemma refines_bind {A B} (m m' : Mach A) (k k' : A -> Mach B) :
  refines m m' -> (forall a, refines (k a) (k' a)) -> refines (m ≫= k) (m' ≫= k').
Proof.
  intros Hm Hk s. specialize (Hm s). unfold mbind, M_bind. rewrite <-Hm.
  destruct (m s) as [a s'|v e s'|]; cbn; [apply Hk|done|done].
Qed.

Lemma refines_bind_yields {A B} (m m' : Mach A) (k k' : A -> Mach B) (P : A -> Prop) :
  refines m m' -> yields m P -> (forall a, P a -> refines (k a) (k' a)) ->
  refines (m ≫= k) (m' ≫= k').
Proof.
  intros Hm Hy Hk s. specialize (Hm s). specialize (Hy s). unfold mbind, M_bind. rewrite <-Hm.
  destruct (m s) as [a s'|v e s'|]; cbn; [apply Hk; by eapply Hy|done|done].
Qed.

Lemma refines_gets {A} (f g : machine -> A) :
  (forall s, f s = g (norm s)) -> refines (gets f) (gets g).
Proof. intros H s. cbn. by rewrite H. Qed.

Lemma refines_modify (f : machine -> machine) :
  (forall s, norm (f s) = f (norm s)) -> refines (modify f) (modify f).
Proof. intros H s. cbn. by rewrite H. Qed.

Lemma refines_raise {A} v e : refines (raise (A := A) v e) (raise v e).
Proof. by intros s. Qed.

Lemma refines_crash {A} : refines (crash (A := A)) crash.
Proof. by intros s. Qed.

Lemma refines_if {A} (b : bool) (m1 m2 m1' m2' : Mach A) :
  refines m1 m1' -> refines m2 m2' ->
  refines (if b then m1 else m2) (if b then m1' else m2').
Proof. by destruct b. Qed.

Lemma refines_when (b : bool) (m m' : Mach unit) :
  refines m m' -> refines (when b m) (when b m').
Proof. intros. destruct b; [done|apply refines_ret]. Qed.

#[export] Hint Resolve refines_ret refines_raise refines_crash refines_when refines_if : refines.

(** Walk through two operations of the same shape.  A leaf is closed by the
    [refines] database, or is a read or an update that does not look at the
    arithmetic flags, for which both sides compute to the same state. *)
Ltac refines_step :=
  match goal with
  | |- forall _, _ => intros ?
  | |- refines (mbind _ _) (mbind _ _) => apply refines_bind
  | |- refines (let _ := _ in _) _ => cbv zeta
  | |- refines (when _ _) (when _ _) => apply refines_when
  | |- refines (match ?x with _ => _ end) _ => destruct x
  | |- refines (gets _) (gets _) => apply refines_gets; intros ?; reflexivity
  | |- refines (modify _) (modify _) => apply refines_modify; intros ?; reflexivity
  | |- refines _ _ => solve [eauto with refines]
  end.
Ltac refines_tac := repeat refines_step.

(** Both sides related by pointwise-equal flags. *)
Lemma update_flags_ext fl fl' s :
  (forall g, fl s g = fl' s g) -> update_flags fl s = update_flags fl' s.
Proof. intros H. unfold update_flags, modify. do 2 f_equal. by apply put_flags_ext. Qed.

(** *** The flag writers are eager updates *)

(** The common shape: the bits of the flags in [l] stop being pending and get
    their value, every other bit stays. *)
Lemma refines_flag_bits (f : machine -> machine) (l : list (aflag * bool)) :
  (forall s, core (f s) = core s) -> (forall s, oszapc (f s) = oszapc s) ->
  (forall s n, 0 <= n -> Z.testbit (lf_flags_status (f s)) n =
     Z.testbit (lf_flags_status s) n && negb (existsb (fun p => n =? eflagsBitShift p.1) l)) ->
  (forall s n, 0 <= n -> Z.testbit (eflags (f s)) n =
     match find (fun p => n =? eflagsBitShift p.1) l with
     | Some p => p.2 | None => Z.testbit (eflags s) n end) ->
  refines (modify f) (update_flags (override l)).
Proof.
  intros Hc Ho Hst He. apply refines_update_flags; [done|..].
  - intros s g. pose proof (eflagsBitShift_range g).
    rewrite flag_spec, Ho, Hst, He by lia. unfold override. rewrite flag_norm, flag_spec.
    clear. induction l as [|[h b] l IH]; cbn; [by rewrite andb_true_r|].
    destruct (Z.eqb_spec (eflagsBitShift g) (eflagsBitShift h)) as [E|E]; cbn.
    + apply eflagsBitShift_inj in E as ->. by rewrite andb_false_r, bool_decide_true.
    + rewrite bool_decide_false by congruence. apply IH.
  - intros s n ? Hn. rewrite He by done.
    clear -Hn. induction l as [|[h b] l IH]; cbn; [done|].
    by rewrite (proj2 (Z.eqb_neq _ _) (Hn h)).
Qed.

(** Bit arithmetic of the writers, position by position. *)
Ltac flag_bits :=
  intros s n Hn; msimpl; cbn [find existsb fst snd Z.b2z eflagsBitShift];
  rewrite ?Z.lor_spec, ?Z.ldiff_spec, ?testbit_wrap, ?Z.lor_spec, ?testbit_b2z_shiftl,
    ?Z.pow2_bits_eqb, ?Z.testbit_0_l by lia;
  rewrite ?(Z.eqb_sym n);
  repeat match goal with |- context [?a =? n] => destruct (Z.eqb_spec a n) as [<-|_] end;
  rewrite ?andb_true_r, ?andb_false_r, ?orb_false_r, ?orb_true_r, ?orb_diag; cbn; try done.

Lemma set_flag_refines f val :
  0 <= val <= 1 -> refines (set_flag f val) (update_flags (override [(f, nz val)])).
Proof.
  intros Hv. rewrite <-(b2z_nz val) at 1 by done. generalize (nz val) as b. clear. intros b.
  unfold set_flag. rewrite lfMask_pow2. pose proof (eflagsBitShift_range f).
  apply refines_flag_bits; try done; flag_bits.
  rewrite (proj2 (Z.ltb_lt (eflagsBitShift f) 32)) by lia. by destruct b.
Qed.

Lemma clear_flag_refines f : refines (clear_flag f) (update_flags (override [(f, false)])).
Proof.
  unfold clear_flag. rewrite lfMask_pow2. pose proof (eflagsBitShift_range f).
  apply refines_flag_bits; try done; flag_bits.
Qed.

Lemma assert_flag_refines f : refines (assert_flag f) (update_flags (override [(f, true)])).
Proof.
  unfold assert_flag. rewrite lfMask_pow2. pose proof (eflagsBitShift_range f).
  apply refines_flag_bits; try done; flag_bits.
Qed.

Lemma set_OxxxxC_refines new_of new_cf :
  0 <= new_of <= 1 -> 0 <= new_cf <= 1 ->
  refines (SET_FLAGS_OxxxxC new_of new_cf)
    (update_flags (override [(OF, nz new_of); (CF, nz new_cf)])).
Proof.
  intros Ho Hc. rewrite <-(b2z_nz new_of), <-(b2z_nz new_cf) at 1 by done.
  generalize (nz new_of) as a, (nz new_cf) as b. clear. intros a b.
  unfold SET_FLAGS_OxxxxC, EFlagsOFMask, EFlagsCFMask.
  rewrite <-(Z.shiftl_0_r (Z.b2z b)).
  apply refines_flag_bits; try done; flag_bits.
Qed.

Lemma assert_OxxxxC_refines :
  refines ASSERT_FLAGS_OxxxxC (update_flags (override [(OF, true); (CF, true)])).
Proof.
  unfold ASSERT_FLAGS_OxxxxC, EFlagsOFMask, EFlagsCFMask.
  apply refines_flag_bits; try done; flag_bits.
Qed.

Lemma set_oszapc_refines size a b r ins fl :
  (forall f, nz (getLazy f (mk_lf_flags (u32 (swrap size a)) (u32 (swrap size b))
                              (u32 (swrap size r)) ins)) = fl f) ->
  refines (SET_FLAGS_OSZAPC_SIZE size a b r ins) (write_arith_flags fl).
Proof.
  intros H. apply refines_update_flags; try done.
  intros s g. rewrite flag_spec. msimpl. by rewrite testbit_OSZAPCMask_flag.
Qed.

Lemma set_oszapc_result_refines size r ins fl :
  (forall x y f, nz (getLazy f (mk_lf_flags x y (u32 (swrap size r)) ins)) = fl f) ->
  refines (SET_FLAGS_OSZAPC_RESULT_SIZE size r ins) (write_arith_flags fl).
Proof.
  intros H. apply refines_update_flags; try done.
  intros s g. rewrite flag_spec. msimpl. rewrite testbit_OSZAPCMask_flag. apply H.
Qed.

Lemma force_flag_state f s :
  exists s', force_flag f s = Ret tt s' /\ norm s' = norm s /\ oszapc s' = oszapc s /\
    core s' = core s /\ Z.testbit (eflags s') (eflagsBitShift f) = flag f s /\
    (forall n, 0 <= n -> n <> eflagsBitShift f -> Z.testbit (eflags s') n = Z.testbit (eflags s) n).
Proof.
  unfold force_flag, mbind, M_bind, gets. pose proof (eflagsBitShift_range f).
  pose proof (nz_land_pow2 (lf_flags_status s) (eflagsBitShift f)) as Hp.
  rewrite <-lfMask_pow2 in Hp. rewrite Hp by lia. pose proof (flag_spec f s) as Hf.
  destruct (Z.testbit (lf_flags_status s) (eflagsBitShift f)); cbn [when].
  - set (b := nz (getLazy f (oszapc s))) in *.
    set (e := Z.lor (Z.ldiff (eflags s) (lfMask f)) (u32 (Z.b2z b ≪ eflagsBitShift f))).
    assert (forall n, 0 <= n -> Z.testbit e n =
              if n =? eflagsBitShift f then b else Z.testbit (eflags s) n) as He.
    { intros n ?. subst e. rewrite Z.lor_spec, testbit_wrap, lfMask_pow2, testbit_ldiff_pow2,
        testbit_b2z_shiftl by lia. destruct (Z.eqb_spec n (eflagsBitShift f)) as [->|].
      - rewrite (proj2 (Z.ltb_lt _ 32)) by lia. by rewrite andb_false_r, andb_true_r.
      - by rewrite !andb_false_r, andb_true_r, orb_false_r. }
    eexists. split; [done|]. split; [apply norm_ext|split; [done|split; [done|]]];
      msimpl; fold e; try done.
    + intros g. pose proof (eflagsBitShift_range g). rewrite !flag_spec. msimpl.
      fold e. rewrite lfMask_pow2, testbit_ldiff_pow2, He by lia.
      destruct (Z.eqb_spec (eflagsBitShift g) (eflagsBitShift f)) as [E|E].
      * apply eflagsBitShift_inj in E as ->. rewrite andb_false_r. subst b.
        by rewrite <-flag_spec, Hf.
      * by rewrite andb_true_r.
    + intros n ? Hn. rewrite He by done. by rewrite (proj2 (Z.eqb_neq _ _) (Hn f)).
    + split.
      * by rewrite He, Z.eqb_refl by lia.
      * intros n ? Hn. by rewrite He, (proj2 (Z.eqb_neq _ _) Hn).
  - exists s. by rewrite Hf.
Qed.

Lemma set_oszap_result_refines size r ins (fl : flags) :
  (forall x y f, f <> CF -> nz (getLazy f (mk_lf_flags x y (u32 (swrap size r)) ins)) = fl f) ->
  refines (SET_FLAGS_OSZAP_RESULT_SIZE size r ins)
    (update_flags (fun s => keep_CF fl (flag CF s))).
Proof.
  intros H s. unfold SET_FLAGS_OSZAP_RESULT_SIZE.
  destruct (force_flag_state CF s) as (s1 & E & Hn & Ho & Hc & Hcf & Hot).
  rewrite (bind_Ret _ _ _ _ _ E). unfold update_flags, modify. cbn [omap_state]. f_equal.
  apply norm_update.
  - by transitivity (core s1).
  - intros g. rewrite flag_spec. msimpl.
    destruct (decide (g = CF)) as [->|Hg].
    + change (keep_CF fl (flag CF (norm s)) CF) with (flag CF (norm s)).
      by rewrite flag_norm, <-Hcf.
    + replace (Z.testbit EFlagsOSZAPMask (eflagsBitShift g)) with true by by destruct g.
      etransitivity; [by apply H|by destruct g].
  - intros n ? Hno. msimpl. by apply Hot.
Qed.

Lemma setEFlagsOSZAPC_refines v :
  refines (setEFlagsOSZAPC v) (write_arith_flags (fun f => Z.testbit v (eflagsBitShift f))).
Proof.
  apply refines_update_flags; [done|..].
  - intros s g. rewrite flag_spec. msimpl.
    rewrite Z.testbit_0_l, Z.lor_spec, Z.ldiff_spec, Z.land_spec, testbit_OSZAPCMask_flag.
    by rewrite andb_false_r, andb_true_r.
  - intros s n ? Hn. msimpl.
    rewrite Z.lor_spec, Z.ldiff_spec, Z.land_spec, testbit_OSZAPCMask_other by done.
    by rewrite andb_false_r, andb_true_r, orb_false_r.
Qed.

Lemma newflags_bits s f :
  Z.testbit (mask_of [if nz (get_flag CF s) then EFlagsCFMask else 0;
                      if nz (get_flag PF s) then EFlagsPFMask else 0;
                      if nz (get_flag AF s) then EFlagsAFMask else 0;
                      if nz (get_flag ZF s) then EFlagsZFMask else 0;
                      if nz (get_flag SF s) then EFlagsSFMask else 0;
                      if nz (get_flag OF s) then EFlagsOFMask else 0]) (eflagsBitShift f) =
  flag f s.
Proof.
  rewrite !get_flag_flag. unfold mask_of. cbn [foldr]. rewrite !Z.lor_spec, Z.testbit_0_l.
  destruct f; cbn [eflagsBitShift];
    destruct (flag CF s), (flag PF s), (flag AF s), (flag ZF s), (flag SF s), (flag OF s);
    reflexivity.
Qed.

(** What [force_flags] does, exactly. *)
Lemma force_flags_eq s :
  force_flags s =
    Ret (eflags (norm s))
      (if nz (lf_flags_status s) then with_lf_flags_status 0 (with_eflags (eflags (norm s)) s)
       else s).
Proof.
  unfold force_flags, mbind, M_bind, gets. pose proof (newflags_bits s) as Hb.
  destruct (nz (lf_flags_status s)) eqn:E; cbn [when].
  - unfold setEFlagsOSZAPC, modify. set (nf := mask_of _) in *. msimpl.
    enough (Z.lor (Z.ldiff (eflags s) EFlagsOSZAPCMask) (Z.land nf EFlagsOSZAPCMask) =
            eflags (norm s)) as -> by done.
    apply flag_word_ext; unfold norm; msimpl.
    + intros f. rewrite testbit_put_flags_flag, Z.lor_spec, Z.ldiff_spec, Z.land_spec,
        testbit_OSZAPCMask_flag, Hb. by rewrite andb_false_r, andb_true_r.
    + intros n ? Hn. rewrite testbit_put_flags_other, Z.lor_spec, Z.ldiff_spec, Z.land_spec,
        testbit_OSZAPCMask_other by done. by rewrite andb_false_r, andb_true_r, orb_false_r.
  - unfold mret, M_ret. f_equal. apply flag_word_ext; unfold norm; msimpl.
    + intros f. rewrite testbit_put_flags_flag, flag_spec.
      apply negb_false_iff, Z.eqb_eq in E. by rewrite E, Z.testbit_0_l.
    + intros n ? Hn. by rewrite testbit_put_flags_other.
Qed.

Lemma force_flags_refines : refines force_flags (gets eflags).
Proof.
  intros s. rewrite force_flags_eq. cbn [omap_state gets]. unfold gets. f_equal.
  destruct (nz _); [|done]. apply norm_ext; [done|..].
  - intros f. rewrite flag_spec. msimpl. unfold norm. msimpl.
    by rewrite Z.testbit_0_l, testbit_put_flags_flag.
  - intros n ? ?. msimpl. by rewrite testbit_eflags_norm.
Qed.

(** *** The recorded operations define the right flags *)

Definition width (w : Z) : Prop := w = 8 \/ w = 16 \/ w = 32.

Lemma even_parity_u8 z : even_parity (u8 z) = even_parity z.
Proof.
  unfold even_parity. do 2 f_equal. apply list_fmap_ext. intros i x Hx.
  apply lookup_seqZ in Hx as [-> ?]. rewrite testbit_wrap by lia.
  by rewrite (proj2 (Z.ltb_lt _ 8)) by lia.
Qed.

Lemma parity_lookup_all :
  forallb (fun k => Z.eqb (nth (Z.to_nat k) bx_parity_lookup 0) (Z.b2z (even_parity k)))
    (seqZ 0 256) = true.
Proof. vm_compute. reflexivity. Qed.

Lemma parity_lookup_u8 z :
  nth (Z.to_nat (u8 z)) bx_parity_lookup 0 = Z.b2z (even_parity z).
Proof.
  rewrite <-even_parity_u8. pose proof (wrap_range 8 z). generalize dependent (u8 z). intros k Hk.
  pose proof parity_lookup_all as H. rewrite forallb_forall in H.
  apply Z.eqb_eq, H. apply list_elem_of_In, elem_of_seqZ. lia.
Qed.

(** ZF, SF and PF come from the sign-extended result. *)
Lemma lazy_result_flags w r x y ins ov af cf f :
  width w -> 0 <= r < 2 ^ w -> f <> OF -> f <> AF -> f <> CF ->
  nz (getLazy f (mk_lf_flags x y (u32 (swrap w r)) ins)) = result_flags w r ov af cf f.
Proof.
  intros Hw Hr ???. destruct f; try done; cbn [getLazy result_flags].
  - unfold get_SFLazy, BX_LF_SIGN_BIT. cbn [lf_result]. rewrite Z.shiftr_div_pow2, sext32 by (destruct Hw; lia).
    destruct (Z.ltb_spec r (2 ^ (w - 1))), (Z.leb_spec (2 ^ (w - 1)) r); try lia.
    + rewrite Z.div_small; [done|]. destruct Hw as [->|[->| ->]]; cbn in *; lia.
    + replace (_ / _) with 1; [done|]. apply Z.div_unique with (r := r - 2 ^ w + 2 ^ 31);
        destruct Hw as [->|[->| ->]]; cbn in *; lia.
  - unfold get_ZFLazy. cbn [lf_result]. rewrite nz_b2z, sext32 by (destruct Hw; lia).
    destruct Hw as [->|[->| ->]]; cbn in *;
      case_match; lia.
  - unfold get_PFLazy. cbn [lf_result]. rewrite parity_lookup_u8, nz_b2z.
    rewrite <-even_parity_u8, wrap_sext, even_parity_u8 by (destruct Hw; lia). done.
Qed.

(** Bit 31 of a sign-extended value is its sign. *)
Lemma testbit_sext w z :
  width w -> 0 <= z < 2 ^ w -> Z.testbit (u32 (swrap w z)) 31 = (2 ^ (w - 1) <=? z).
Proof.
  intros Hw Hz. rewrite (testbit_msb 32) by (try apply wrap_range; lia).
  rewrite sext32 by (destruct Hw; lia).
  destruct Hw as [->|[->| ->]]; cbn in *; case_match; lia.
Qed.

Definition add_code (w : Z) : Z := if w =? 8 then 1 else if w =? 16 then 3 else 5.
Definition sub_code (w : Z) : Z := if w =? 8 then 9 else if w =? 16 then 11 else 13.

(** What the three [switch] statements select for a sum and a difference. *)
Lemma add_code_selects w c x y r :
  width w -> 0 <= c <= 1 ->
  let e := mk_lf_flags x y r (add_code w + c) in
  get_OFLazy e = GET_ADD_OVERFLOW (op1_32 e) (op2_32 e) (result_32 e) (2 ^ 31) /\
  get_AFLazy e = Z.land (Z.lxor (Z.lxor (op1_8 e) (op2_8 e)) (result_8 e)) (2 ^ 4) /\
  get_CFLazy e = Z.b2z (if c =? 0 then result_32 e <? op1_32 e else result_32 e <=? op1_32 e).
Proof.
  intros Hw Hc e. assert (c = 0 \/ c = 1) as [-> | ->] by lia;
    by destruct Hw as [->|[->| ->]].
Qed.

Lemma sub_code_selects w c x y r :
  width w -> 0 <= c <= 1 ->
  let e := mk_lf_flags x y r (sub_code w + c) in
  get_OFLazy e = GET_SUB_OVERFLOW (op1_32 e) (op2_32 e) (result_32 e) (2 ^ 31) /\
  get_AFLazy e = Z.land (Z.lxor (Z.lxor (op1_8 e) (op2_8 e)) (result_8 e)) (2 ^ 4) /\
  get_CFLazy e = Z.b2z (if c =? 0 then op1_32 e <? op2_32 e
                        else (wrap w x <? wrap w r) || (wrap w y =? 2 ^ w - 1)).
Proof.
  intros Hw Hc e. assert (c = 0 \/ c = 1) as [-> | ->] by lia;
    by destruct Hw as [->|[->| ->]].
Qed.

(** The half-carry bit of a sum, from the operands and the wrapped result. *)
Lemma half_carry w a b c :
  width w -> 0 <= c <= 1 ->
  xorb (xorb (Z.testbit (u8 a) 4) (Z.testbit (u8 b) 4))
    (Z.testbit (u8 (wrap w (a + b + c))) 4) = (16 <=? a mod 16 + b mod 16 + c).
Proof.
  intros Hw Hc. rewrite wrap_wrap_le by (destruct Hw; lia).
  rewrite !testbit_wrap by lia. cbn [Z.ltb Z.compare Pos.compare Pos.compare_cont andb].
  rewrite (testbit_add_carry a b c 4) by lia. change (2 ^ 4) with 16.
  by destruct (Z.testbit a 4), (Z.testbit b 4), (_ <=? _).
Qed.

Lemma half_borrow w a b c :
  width w -> 0 <= c <= 1 ->
  xorb (xorb (Z.testbit (u8 a) 4) (Z.testbit (u8 b) 4))
    (Z.testbit (u8 (wrap w (a - b - c))) 4) = (a mod 16 <? b mod 16 + c).
Proof.
  intros Hw Hc. rewrite wrap_wrap_le by (destruct Hw; lia).
  rewrite !testbit_wrap by lia. cbn [Z.ltb Z.compare Pos.compare Pos.compare_cont andb].
  replace a with ((a - b - c) + b + c) at 1 by lia.
  rewrite (testbit_add_carry (a - b - c) b c 4) by lia. change (2 ^ 4) with 16.
  replace (a mod 16 <? b mod 16 + c) with (16 <=? (a - b - c) mod 16 + b mod 16 + c).
  - by destruct (Z.testbit (a - b - c) 4), (Z.testbit b 4), (_ <=? _).
  - apply eq_true_iff_eq. rewrite Z.leb_le, Z.ltb_lt. Z.to_euclidean_division_equations. lia.
Qed.

Lemma lazy_add w a b c f :
  width w -> 0 <= a < 2 ^ w -> 0 <= b < 2 ^ w -> 0 <= c <= 1 ->
  nz (getLazy f (mk_lf_flags (u32 (swrap w a)) (u32 (swrap w b))
                   (u32 (swrap w (wrap w (a + b + c)))) (add_code w + c))) =
  add_flags w a b c f.
Proof.
  intros Hw Ha Hb Hc. assert (0 <= wrap w (a + b + c) < 2 ^ w) as Hr
    by (apply wrap_range; destruct Hw; lia).
  destruct (add_code_selects w c (u32 (swrap w a)) (u32 (swrap w b))
              (u32 (swrap w (wrap w (a + b + c)))) Hw Hc) as (Hof & Haf & Hcf).
  unfold op1_32, op2_32, result_32, op1_8, op2_8, result_8 in *.
  cbn [lf_op1 lf_op2 lf_result] in *. rewrite !wrap_wrap in * by lia.
  destruct f; try (by apply lazy_result_flags); unfold add_flags; cbn [result_flags getLazy].
  - rewrite Hof. unfold GET_ADD_OVERFLOW. rewrite nz_b2z, nz_land_pow2, Z.land_spec, !Z.lxor_spec,
      !testbit_sext by (done || lia).
    rewrite !swrap_unsigned, wrap_add_cases by (destruct Hw; lia). unfold fits_signed.
    destruct Hw as [->|[->| ->]]; zcases.
  - rewrite Haf, nz_land_pow2, !Z.lxor_spec, !wrap_sext by (destruct Hw; lia).
    by apply half_carry.
  - rewrite Hcf, nz_b2z, !sext32, wrap_add_cases by (destruct Hw; lia).
    destruct Hw as [->|[->| ->]]; zcases.
Qed.

Lemma lazy_sub w a b c f :
  width w -> 0 <= a < 2 ^ w -> 0 <= b < 2 ^ w -> 0 <= c <= 1 ->
  nz (getLazy f (mk_lf_flags (u32 (swrap w a)) (u32 (swrap w b))
                   (u32 (swrap w (wrap w (a - b - c)))) (sub_code w + c))) =
  sub_flags w a b c f.
Proof.
  intros Hw Ha Hb Hc. assert (0 <= wrap w (a - b - c) < 2 ^ w) as Hr
    by (apply wrap_range; destruct Hw; lia).
  destruct (sub_code_selects w c (u32 (swrap w a)) (u32 (swrap w b))
              (u32 (swrap w (wrap w (a - b - c)))) Hw Hc) as (Hof & Haf & Hcf).
  unfold op1_32, op2_32, result_32, op1_8, op2_8, result_8 in *.
  cbn [lf_op1 lf_op2 lf_result] in *. rewrite !wrap_wrap in * by lia.
  destruct f; try (by apply lazy_result_flags); unfold sub_flags; cbn [result_flags getLazy].
  - rewrite Hof. unfold GET_SUB_OVERFLOW. rewrite nz_b2z, nz_land_pow2, Z.land_spec, !Z.lxor_spec,
      !testbit_sext by (done || lia).
    rewrite !swrap_unsigned, wrap_sub_cases by (destruct Hw; lia). unfold fits_signed.
    destruct Hw as [->|[->| ->]]; zcases.
  - rewrite Haf, nz_land_pow2, !Z.lxor_spec, !wrap_sext by (destruct Hw; lia).
    by apply half_borrow.
  - rewrite Hcf, nz_b2z, !wrap_sext, wrap_wrap, !(wrap_small w a), !(wrap_small w b), !sext32,
      wrap_sub_cases by (destruct Hw; lia).
    destruct Hw as [->|[->| ->]]; zcases.
Qed.

Definition inc_code (w : Z) : Z := if w =? 8 then 17 else if w =? 16 then 18 else 19.
Definition dec_code (w : Z) : Z := if w =? 8 then 21 else if w =? 16 then 22 else 23.
Definition neg_code (w : Z) : Z := if w =? 8 then 25 else if w =? 16 then 26 else 27.
Definition logic_code (w : Z) : Z := if w =? 8 then 29 else if w =? 16 then 30 else 31.

Lemma land_15 z : Z.land (u8 z) 15 = z mod 16.
Proof.
  change 15 with (Z.ones 4). rewrite Z.land_ones by lia. change (2 ^ 4) with 16.
  unfold wrap. Z.to_euclidean_division_equations. lia.
Qed.

(** The [switch] cases of the result-only operations, once the recorded result
    is the sign extension of [r]. *)
Lemma inc_code_selects w x y r :
  width w -> 0 <= r < 2 ^ w ->
  let e := mk_lf_flags x y (u32 (swrap w r)) (inc_code w) in
  get_OFLazy e = Z.b2z (r =? 2 ^ (w - 1)) /\ get_AFLazy e = Z.b2z (r mod 16 =? 0).
Proof.
  intros Hw Hr e. rewrite <-land_15. subst e.
  destruct Hw as [->|[->| ->]]; cbn -[Z.pow Z.land Z.shiftr wrap swrap];
    unfold result_8, result_16, result_32; cbn [lf_result];
    by rewrite !wrap_sext, ?(wrap_small _ r) by lia.
Qed.

Lemma dec_code_selects w x y r :
  width w -> 0 <= r < 2 ^ w ->
  let e := mk_lf_flags x y (u32 (swrap w r)) (dec_code w) in
  get_OFLazy e = Z.b2z (r =? 2 ^ (w - 1) - 1) /\ get_AFLazy e = Z.b2z (r mod 16 =? 15).
Proof.
  intros Hw Hr e. rewrite <-land_15. subst e.
  destruct Hw as [->|[->| ->]]; cbn -[Z.pow Z.land Z.shiftr wrap swrap];
    unfold result_8, result_16, result_32; cbn [lf_result];
    by rewrite !wrap_sext, ?(wrap_small _ r) by lia.
Qed.

Lemma neg_code_selects w x y r :
  width w -> 0 <= r < 2 ^ w ->
  let e := mk_lf_flags x y (u32 (swrap w r)) (neg_code w) in
  get_OFLazy e = Z.b2z (r =? 2 ^ (w - 1)) /\ get_AFLazy e = Z.b2z (negb (r mod 16 =? 0)) /\
  get_CFLazy e = Z.b2z (negb (r =? 0)).
Proof.
  intros Hw Hr e. rewrite <-land_15. subst e.
  destruct Hw as [->|[->| ->]]; cbn -[Z.pow Z.land Z.shiftr wrap swrap];
    unfold result_8, result_16, result_32; cbn [lf_result];
    (split; [|split]); try (by rewrite !wrap_sext, ?(wrap_small _ r) by lia);
    rewrite wrap_wrap, sext32 by lia; zcases.
Qed.

Lemma mod16_wrap w z : width w -> wrap w z mod 16 = z mod 16.
Proof. intros Hw. change 16 with (2 ^ 4). apply (wrap_wrap_le 4). destruct Hw; lia. Qed.

Lemma swrap_1 w : width w -> swrap w 1 = 1.
Proof. by intros [->|[->| ->]]. Qed.
Lemma swrap_0 w : width w -> swrap w 0 = 0.
Proof. by intros [->|[->| ->]]. Qed.

Lemma lazy_inc w a x y f :
  width w -> 0 <= a < 2 ^ w -> f <> CF ->
  nz (getLazy f (mk_lf_flags x y (u32 (swrap w (wrap w (a + 1)))) (inc_code w))) =
  add_flags w a 1 0 f.
Proof.
  intros Hw Ha Hf. assert (0 <= wrap w (a + 1) < 2 ^ w) as Hr
    by (apply wrap_range; destruct Hw; lia).
  destruct (inc_code_selects w x y _ Hw Hr) as (Hof & Haf).
  unfold add_flags. rewrite Z.add_0_r.
  destruct f; try (by apply lazy_result_flags); try done; cbn [result_flags getLazy].
  - rewrite Hof, nz_b2z, swrap_1, swrap_unsigned, wrap_add_cases by (done || destruct Hw; lia).
    unfold fits_signed. destruct Hw as [->|[->| ->]]; zcases.
  - rewrite Haf, nz_b2z, mod16_wrap by done.
    zcases; Z.to_euclidean_division_equations; lia.
Qed.

Lemma lazy_dec w a x y f :
  width w -> 0 <= a < 2 ^ w -> f <> CF ->
  nz (getLazy f (mk_lf_flags x y (u32 (swrap w (wrap w (a - 1)))) (dec_code w))) =
  sub_flags w a 1 0 f.
Proof.
  intros Hw Ha Hf. assert (0 <= wrap w (a - 1) < 2 ^ w) as Hr
    by (apply wrap_range; destruct Hw; lia).
  destruct (dec_code_selects w x y _ Hw Hr) as (Hof & Haf).
  unfold sub_flags. rewrite Z.sub_0_r.
  destruct f; try (by apply lazy_result_flags); try done; cbn [result_flags getLazy].
  - rewrite Hof, nz_b2z, ?swrap_1, ?swrap_0, swrap_unsigned, wrap_sub_cases by (done || destruct Hw; lia).
    unfold fits_signed. destruct Hw as [->|[->| ->]]; zcases.
  - rewrite Haf, nz_b2z, mod16_wrap by done.
    zcases; Z.to_euclidean_division_equations; lia.
Qed.

Lemma lazy_neg w a x y f :
  width w -> 0 <= a < 2 ^ w ->
  nz (getLazy f (mk_lf_flags x y (u32 (swrap w (wrap w (- a)))) (neg_code w))) =
  sub_flags w 0 a 0 f.
Proof.
  intros Hw Ha. assert (0 <= wrap w (- a) < 2 ^ w) as Hr
    by (apply wrap_range; destruct Hw; lia).
  destruct (neg_code_selects w x y _ Hw Hr) as (Hof & Haf & Hcf).
  unfold sub_flags. replace (0 - a - 0) with (- a) by lia.
  destruct f; try (by apply lazy_result_flags); cbn [result_flags getLazy].
  - rewrite Hof, nz_b2z, ?swrap_1, ?swrap_0, swrap_unsigned, wrap_sub_cases by (done || destruct Hw; lia).
    unfold fits_signed. destruct Hw as [->|[->| ->]]; zcases.
  - rewrite Haf, nz_b2z, mod16_wrap by done. change (0 mod 16) with 0.
    zcases; Z.to_euclidean_division_equations; lia.
  - rewrite Hcf, nz_b2z, wrap_sub_cases by (destruct Hw; lia).
    destruct Hw as [->|[->| ->]]; zcases.
Qed.

Lemma lazy_logic w r x y f :
  width w -> 0 <= r < 2 ^ w ->
  nz (getLazy f (mk_lf_flags x y (u32 (swrap w r)) (logic_code w))) = logic_flags w r f.
Proof.
  intros Hw Hr. unfold logic_flags.
  destruct f; try (by apply lazy_result_flags); by destruct Hw as [->|[->| ->]].
Qed.

(** ** Recording an operation is the eager flag update *)

Lemma width_nonneg w : width w -> 0 < w.
Proof. intros [->|[->| ->]]; lia. Qed.

Section Recorded.
Context (w : Z) (Hw : width w).

Lemma set_add_refines a b c r ins :
  0 <= a < 2 ^ w -> 0 <= b < 2 ^ w -> 0 <= c <= 1 ->
  r = wrap w (a + b + c) -> ins = add_code w + c ->
  refines (SET_FLAGS_OSZAPC_SIZE w a b r ins) (write_arith_flags (add_flags w a b c)).
Proof. intros Ha Hb Hc -> ->. apply set_oszapc_refines. intros f. by apply lazy_add. Qed.

Lemma set_sub_refines a b c r ins :
  0 <= a < 2 ^ w -> 0 <= b < 2 ^ w -> 0 <= c <= 1 ->
  r = wrap w (a - b - c) -> ins = sub_code w + c ->
  refines (SET_FLAGS_OSZAPC_SIZE w a b r ins) (write_arith_flags (sub_flags w a b c)).
Proof. intros Ha Hb Hc -> ->. apply set_oszapc_refines. intros f. by apply lazy_sub. Qed.

Lemma set_neg_refines a r ins :
  0 <= a < 2 ^ w -> r = wrap w (- a) -> ins = neg_code w ->
  refines (SET_FLAGS_OSZAPC_RESULT_SIZE w r ins) (write_arith_flags (sub_flags w 0 a 0)).
Proof. intros Ha -> ->. apply set_oszapc_result_refines. intros x y f. by apply lazy_neg. Qed.

Lemma set_logic_refines r ins :
  0 <= r < 2 ^ w -> ins = logic_code w ->
  refines (SET_FLAGS_OSZAPC_RESULT_SIZE w r ins) (write_arith_flags (logic_flags w r)).
Proof. intros Hr ->. apply set_oszapc_result_refines. intros x y f. by apply lazy_logic. Qed.

(** INC and DEC: every flag but CF. *)
Definition update_keep_CF (fl : flags) : Mach unit :=
  update_flags (fun s => keep_CF fl (flag CF s)).

Lemma set_inc_refines a r ins :
  0 <= a < 2 ^ w -> r = wrap w (a + 1) -> ins = inc_code w ->
  refines (SET_FLAGS_OSZAP_RESULT_SIZE w r ins) (update_keep_CF (add_flags w a 1 0)).
Proof. intros Ha -> ->. apply set_oszap_result_refines. intros x y f Hf. by apply lazy_inc. Qed.

Lemma set_dec_refines a r ins :
  0 <= a < 2 ^ w -> r = wrap w (a - 1) -> ins = dec_code w ->
  refines (SET_FLAGS_OSZAP_RESULT_SIZE w r ins) (update_keep_CF (sub_flags w a 1 0)).
Proof. intros Ha -> ->. apply set_oszap_result_refines. intros x y f Hf. by apply lazy_dec. Qed.

End Recorded.

(** ** What the flag getters return after an operation was recorded *)

Lemma refines_write_flags m fl s :
  refines m (write_arith_flags fl) ->
  match m s with Ret _ s' => forall f, getB_flag f s' = Z.b2z (fl f) | _ => False end.
Proof.
  intros H. specialize (H s). destruct (m s) as [[] s'|v e s'|]; try done. intros f.
  apply Ret_inj in H as [_ H]. rewrite <-getB_flag_norm, H, getB_flag_b2z, flag_spec. msimpl.
  unfold norm. msimpl. by rewrite Z.testbit_0_l, testbit_put_flags_flag.
Qed.
Lemma refines_update_flags_inv m fl s :
  refines m (update_flags fl) ->
  match m s with Ret _ s' => forall f, getB_flag f s' = Z.b2z (fl (norm s) f) | _ => False end.
Proof.
  intros H. specialize (H s). destruct (m s) as [[] s'|v e s'|]; try done. intros f.
  apply Ret_inj in H as [_ H]. rewrite <-getB_flag_norm, H, getB_flag_b2z, flag_spec. msimpl.
  by rewrite Z.testbit_0_l, testbit_put_flags_flag.
Qed.

(** C30: after ADD, ADC, SUB, SBB, CMP, NEG or a logical operation was recorded
    for later, at each of the three operand widths and from any state, the flag
    getters return the carry, the borrow, the signed overflow, the half carry,
    the parity, the zero and the sign of the operation. *)
Theorem lazy_flags_correct w a b c f s :
  width w -> 0 <= a < 2 ^ w -> 0 <= b < 2 ^ w -> 0 <= c <= 1 ->
  match SET_FLAGS_OSZAPC_SIZE w a b (wrap w (a + b + c)) (add_code w + c) s with
  | Ret _ s' => getB_flag f s' = Z.b2z (add_flags w a b c f) | _ => False end /\
  match SET_FLAGS_OSZAPC_SIZE w a b (wrap w (a - b - c)) (sub_code w + c) s with
  | Ret _ s' => getB_flag f s' = Z.b2z (sub_flags w a b c f) | _ => False end /\
  match SET_FLAGS_OSZAPC_RESULT_SIZE w (wrap w (- a)) (neg_code w) s with
  | Ret _ s' => getB_flag f s' = Z.b2z (sub_flags w 0 a 0 f) | _ => False end /\
  match SET_FLAGS_OSZAPC_RESULT_SIZE w a (logic_code w) s with
  | Ret _ s' => getB_flag f s' = Z.b2z (logic_flags w a f) | _ => False end.
Proof.
  intros Hw Ha Hb Hc. split_and!.
  - pose proof (refines_write_flags _ _ s (set_add_refines w Hw a b c _ _ Ha Hb Hc eq_refl eq_refl)).
    by destruct (SET_FLAGS_OSZAPC_SIZE _ _ _ _ _ s).
  - pose proof (refines_write_flags _ _ s (set_sub_refines w Hw a b c _ _ Ha Hb Hc eq_refl eq_refl)).
    by destruct (SET_FLAGS_OSZAPC_SIZE _ _ _ _ _ s).
  - pose proof (refines_write_flags _ _ s (set_neg_refines w Hw a _ _ Ha eq_refl eq_refl)).
    by destruct (SET_FLAGS_OSZAPC_RESULT_SIZE _ _ _ s).
  - pose proof (refines_write_flags _ _ s (set_logic_refines w Hw a _ Ha eq_refl)).
    by destruct (SET_FLAGS_OSZAPC_RESULT_SIZE _ _ _ s).
Qed.
Lemma lazy_flags_correct_witness :
  match SET_FLAGS_OSZAPC_SIZE 8 0x7f 0x01 (wrap 8 (0x7f + 0x01 + 0)) (add_code 8 + 0) (machine_zero 0) with
  | Ret _ s' => getB_flag OF s' = Z.b2z (add_flags 8 0x7f 0x01 0 OF) | _ => False end.
Proof. apply (lazy_flags_correct 8 0x7f 0x01 0 OF (machine_zero 0)); [by left|lia..]. Defined.

(** INC and DEC leave CF as it was, whether it was stored or pending, and
    set the other five flags like an addition or subtraction of one. *)
Theorem lazy_inc_dec_correct w a f s :
  width w -> 0 <= a < 2 ^ w ->
  match SET_FLAGS_OSZAP_RESULT_SIZE w (wrap w (a + 1)) (inc_code w) s with
  | Ret _ s' => getB_flag f s' =
      match f with CF => getB_flag CF s | _ => Z.b2z (add_flags w a 1 0 f) end
  | _ => False end /\
  match SET_FLAGS_OSZAP_RESULT_SIZE w (wrap w (a - 1)) (dec_code w) s with
  | Ret _ s' => getB_flag f s' =
      match f with CF => getB_flag CF s | _ => Z.b2z (sub_flags w a 1 0 f) end
  | _ => False end.
Proof.
  intros Hw Ha. split.
  - pose proof (refines_update_flags_inv _ _ s (set_inc_refines w Hw a _ _ Ha eq_refl eq_refl)) as H.
    destruct (SET_FLAGS_OSZAP_RESULT_SIZE _ _ _ s); try done. rewrite H, (getB_flag_b2z CF s).
    unfold keep_CF. rewrite flag_norm. by destruct f.
  - pose proof (refines_update_flags_inv _ _ s (set_dec_refines w Hw a _ _ Ha eq_refl eq_refl)) as H.
    destruct (SET_FLAGS_OSZAP_RESULT_SIZE _ _ _ s); try done. rewrite H, (getB_flag_b2z CF s).
    unfold keep_CF. rewrite flag_norm. by destruct f.
Qed.
Lemma lazy_inc_dec_correct_witness :
  match SET_FLAGS_OSZAP_RESULT_SIZE 8 (wrap 8 (0x7f + 1)) (inc_code 8) (machine_zero 0) with
  | Ret _ s' => getB_flag OF s' = Z.b2z (add_flags 8 0x7f 1 0 OF) | _ => False end.
Proof. apply (lazy_inc_dec_correct 8 0x7f OF (machine_zero 0)); [by left|lia]. Defined.

(** [force_flags] computes the architectural EFLAGS: it returns the word
    with every pending flag filled in and the other bits unchanged, stores it,
    leaves nothing pending and changes no flag. *)
Theorem force_flags_correct s :
  match force_flags s with
  | Ret e s' =>
      e = eflags s' /\ (forall f, Z.testbit e (eflagsBitShift f) = flag f s) /\
      (forall n, 0 <= n -> (forall f, n <> eflagsBitShift f) -> Z.testbit e n = Z.testbit (eflags s) n) /\
      (forall f, flag f s' = flag f s) /\ lf_flags_status s' = 0
  | _ => False
  end.
Proof.
  pose proof (force_flags_refines s) as H. rewrite force_flags_eq in *. apply Ret_inj in H as [_ H].
  assert (lf_flags_status s = 0 -> eflags (norm s) = eflags s) as E0.
  { intros E. apply flag_word_ext; unfold norm; msimpl; intros.
    - by rewrite testbit_put_flags_flag, flag_spec, E, Z.testbit_0_l.
    - by rewrite testbit_put_flags_other. }
  split_and!.
  - destruct (nz _) eqn:E; [done|]. apply E0. by apply negb_false_iff, Z.eqb_eq in E.
  - intros f. unfold norm. msimpl. apply testbit_put_flags_flag.
  - intros n _ Hn. by apply testbit_eflags_norm.
  - intros f. rewrite <-flag_norm, H. apply flag_norm.
  - destruct (nz _) eqn:E; [done|]. by apply negb_false_iff, Z.eqb_eq in E.
Qed.
