(* ===== verification/Memory.v ===== *)
(** * Memory: the guest's physical memory

    [BX_MEM_C] of memory/memory.cc and the three physical accessors of
    cpu/paging.cc.  The guest memory is a region of [len + 4096] bytes that
    [init_memory] maps at the host address 0x70000000; the map is anonymous,
    so every byte starts at zero.  [vector] is that region; an absent key is a
    byte never written.  An access that leaves the region touches memory the
    emulator did not map: the model stops with [Crash]. *)
From stdpp Require Import base numbers list gmap.
From Stdlib Require Import ZArith Lia.
From S2P Require Import Prelude Machine LazyFlags.

Local Open Scope Z_scope.

(** ** Little-endian byte images of integers *)

Fixpoint le_split (n : nat) (v : Z) : list Z :=
  match n with
  | O => []
  | S n => u8 v :: le_split n (v / 2 ^ 8)
  end.

Fixpoint le_combine (l : list Z) : Z :=
  match l with
  | [] => 0
  | b :: l => u8 b + 2 ^ 8 * le_combine l
  end.

(** ** The region *)

Definition mem_byte (m : gmap Z Z) (a : Z) : Z := u8 (default 0 (m !! a)).

Definition mem_bytes (m : gmap Z Z) (a : Z) (n : nat) : list Z :=
  mem_byte m <$> seqZ a (Z.of_nat n).

Fixpoint mem_store (m : gmap Z Z) (a : Z) (l : list Z) : gmap Z Z :=
  match l with
  | [] => m
  | b :: l => mem_store (<[a := u8 b]> m) (a + 1) l
  end.

(** [addr .. addr+len) lies in the mapped region. *)
Definition mapped (s : machine) (addr len : Z) : bool :=
  (0 <=? addr) && (addr + len <=? mem_len (memory s) + 4096).

(** memory/memory.cc *)
Definition init_memory (guest : Z) : bx_mem_c := mk_mem ∅ guest.

Definition readPhysicalPage (addr : Z) (len : nat) : Mach (list Z) :=
  ok ← gets (fun s => mapped s addr (Z.of_nat len));
  if ok : bool then gets (fun s => mem_bytes (mem_vector (memory s)) addr len) else crash.

Definition writePhysicalPage (addr : Z) (data : list Z) : Mach unit :=
  ok ← gets (fun s => mapped s addr (Z.of_nat (length data)));
  if ok : bool then
    modify (fun s => with_memory
      (with_mem_vector (mem_store (mem_vector (memory s)) addr data) (memory s)) s)
  else crash.

(** [assert(addr < len)], then the host address of the byte. *)
Definition physmem_base : Z := 0x70000000.
Definition getHostMemAddr (addr : Z) : Mach Z :=
  ok ← gets (fun s => addr <? mem_len (memory s));
  if ok : bool then mret (physmem_base + addr) else crash.

(** ** Physical accessors (cpu/paging.cc)

    [lapic.is_selected] is false in this build (cpu/apic.cc), so both go to
    memory.  A value of [len] bytes is its little-endian image. *)
Definition access_write_physical (paddr : Z) (data : list Z) : Mach unit :=
  writePhysicalPage paddr data.
Definition access_read_physical (paddr : Z) (len : nat) : Mach (list Z) :=
  readPhysicalPage paddr len.

Definition read_physical (paddr : Z) (len : nat) : Mach Z :=
  l ← access_read_physical paddr len; mret (le_combine l).
Definition write_physical (paddr : Z) (len : nat) (v : Z) : Mach unit :=
  access_write_physical paddr (le_split len v).

(** A dereference of a host pointer: the pointers the emulator forms are into
    the guest region, any other is outside what it mapped. *)
Definition host_read (hostAddr : Z) (len : nat) : Mach Z :=
  read_physical (hostAddr - physmem_base) len.
Definition host_write (hostAddr : Z) (len : nat) (v : Z) : Mach unit :=
  write_physical (hostAddr - physmem_base) len v.

(** ** Lemmas *)

Lemma le_split_length n v : length (le_split n v) = n.
Proof. revert v. induction n as [|n IH]; intros v; cbn; [done|]. by rewrite IH. Qed.

Lemma le_combine_range l : 0 <= le_combine l < 2 ^ (8 * Z.of_nat (length l)).
Proof.
  induction l as [|b l IH]; cbn [le_combine length]; [done|].
  pose proof (wrap_range 8 b).
  replace (8 * Z.of_nat (S (length l))) with (8 + 8 * Z.of_nat (length l)) by lia.
  rewrite Z.pow_add_r by lia. nia.
Qed.

(** The round trip of an integer through its byte image. *)
Lemma le_combine_split n v : le_combine (le_split n v) = wrap (8 * Z.of_nat n) v.
Proof.
  revert v. induction n as [|n IH]; intros v; cbn [le_split le_combine].
  - unfold wrap. by rewrite Z.mod_1_r.
  - rewrite IH, wrap_wrap by lia. unfold wrap.
    replace (8 * Z.of_nat (S n)) with (8 + 8 * Z.of_nat n) by lia.
    rewrite Z.pow_add_r, Z.rem_mul_r by lia. done.
Qed.

Lemma le_split_combine l :
  Forall (fun b => 0 <= b < 2 ^ 8) l -> le_split (length l) (le_combine l) = l.
Proof.
  induction 1 as [|b l Hb Hl IH]; cbn [le_split le_combine length]; [done|].
  rewrite (wrap_small 8 b) by done. f_equal.
  - unfold wrap. rewrite Z.mul_comm, Z.mod_add, Z.mod_small by lia. done.
  - rewrite (Z.add_comm b), Z.mul_comm, Z.div_add_l, Z.div_small by lia.
    by rewrite Z.add_0_r.
Qed.

Lemma mem_store_lookup m a l b :
  mem_byte (mem_store m a l) b =
    if (a <=? b) && (b <? a + Z.of_nat (length l))
    then u8 (nth (Z.to_nat (b - a)) l 0) else mem_byte m b.
Proof.
  revert m a. induction l as [|x l IH]; intros m a; cbn [mem_store length nth].
  - destruct (Z.leb_spec a b), (Z.ltb_spec b (a + Z.of_nat 0)); done || lia.
  - rewrite IH. destruct (Z.eq_dec a b) as [<-|Hne].
    + rewrite (proj2 (Z.leb_gt (a + 1) a)), Z.leb_refl by lia. cbn [andb].
      rewrite (proj2 (Z.ltb_lt a (a + Z.of_nat (S (length l))))), Z.sub_diag by lia.
      unfold mem_byte. rewrite lookup_insert_eq. cbn. by rewrite wrap_wrap by lia.
    + replace (mem_byte (<[a:=u8 x]> m) b) with (mem_byte m b)
        by (unfold mem_byte; by rewrite lookup_insert_ne).
      replace (Z.to_nat (b - a)) with (if a <? b then S (Z.to_nat (b - (a + 1))) else O)
        by (destruct (Z.ltb_spec a b); lia).
      zcases.
Qed.

Lemma mem_bytes_length m a n : length (mem_bytes m a n) = n.
Proof. unfold mem_bytes. rewrite length_fmap, length_seqZ. lia. Qed.

Lemma mem_bytes_range m a n : Forall (fun b => 0 <= b < 2 ^ 8) (mem_bytes m a n).
Proof. apply Forall_fmap, Forall_forall. intros x _. by apply wrap_range. Qed.

(** What was stored is read back. *)
Lemma mem_bytes_store_eq m a l :
  Forall (fun b => 0 <= b < 2 ^ 8) l -> mem_bytes (mem_store m a l) a (length l) = l.
Proof.
  intros Hl. apply list_eq. intros i. unfold mem_bytes. rewrite list_lookup_fmap.
  destruct (lt_dec i (length l)) as [Hi|Hi].
  - rewrite lookup_seqZ_lt by lia. cbn. rewrite mem_store_lookup.
    destruct (lookup_lt_is_Some_2 l i Hi) as [x Hx].
    rewrite (proj2 (Z.leb_le _ _)), (proj2 (Z.ltb_lt _ _)) by lia. cbn.
    replace (Z.to_nat (a + Z.of_nat i - a)) with i by lia.
    rewrite Hx, (nth_lookup_Some _ _ _ _ Hx). f_equal.
    apply wrap_small. by eapply Forall_lookup_1 in Hl.
  - rewrite lookup_ge_None_2 by (rewrite length_seqZ; lia). symmetry.
    apply lookup_ge_None_2. lia.
Qed.

(** What was not stored to keeps its value. *)
Lemma mem_bytes_store_ne m a l b n :
  b + Z.of_nat n <= a \/ a + Z.of_nat (length l) <= b ->
  mem_bytes (mem_store m a l) b n = mem_bytes m b n.
Proof.
  intros Hd. unfold mem_bytes. apply list_fmap_ext. intros i x Hx.
  apply lookup_seqZ in Hx as [-> ?]. rewrite mem_store_lookup. zcases.
Qed.

(** Physical accesses do not look at the flags. *)
Lemma readPhysicalPage_refines a n : refines (readPhysicalPage a n) (readPhysicalPage a n).
Proof. unfold readPhysicalPage. refines_tac. Qed.
Lemma writePhysicalPage_refines a l : refines (writePhysicalPage a l) (writePhysicalPage a l).
Proof. unfold writePhysicalPage. refines_tac. Qed.
#[export] Hint Resolve readPhysicalPage_refines writePhysicalPage_refines : refines.

Lemma read_physical_refines a n : refines (read_physical a n) (read_physical a n).
Proof. unfold read_physical, access_read_physical. refines_tac. Qed.
Lemma write_physical_refines a n v : refines (write_physical a n v) (write_physical a n v).
Proof. unfold write_physical, access_write_physical. refines_tac. Qed.
#[export] Hint Resolve read_physical_refines write_physical_refines : refines.

(** A value of [n] bytes is in range. *)
Lemma read_physical_yields a n :
  yields (read_physical a n) (fun v => 0 <= v < 2 ^ (8 * Z.of_nat n)).
Proof.
  unfold read_physical, access_read_physical, readPhysicalPage.
  apply (yields_bind_with _ _ (fun l => length l = n)).
  - apply yields_bind. intros []; [apply yields_gets; intros s; apply mem_bytes_length|done].
  - intros l <-. apply yields_ret, le_combine_range.
Qed.
#[export] Hint Resolve read_physical_yields : yields.
