(* ===== verification/Paging.v ===== *)
(** * Paging: linear to physical translation

    cpu/paging.cc in the configuration without a TLB: the two-level walk of
    [translate_linear] with its permission table, its page faults and its
    accessed/dirty updates, the debugger's walk [dbg_xlate_linear2phy] that
    the exploration driver uses to find page-table entries, and the linear
    accessors [access_read_linear] / [access_write_linear] that split an
    access at a page boundary. *)
From stdpp Require Import base numbers list gmap.
From Stdlib Require Import ZArith Lia.
From S2P Require Import Prelude Machine LazyFlags Memory.

Local Open Scope Z_scope.

(** ** Constants and masks *)

Definition PAGE_OFFSET (laddr : Z) : Z := Z.land laddr 0xfff.
Definition LPFOf (laddr : Z) : Z := Z.land laddr 0xfffff000.
Definition BX_CR3_PAGING_MASK : Z := 0x000ffffffffff000.
Definition BX_PHY_ADDRESS_WIDTH : Z := 32.
Definition PAGING_PDE4M_RESERVED_BITS : Z :=
  Z.shiftl (Z.shiftl 1 (41 - BX_PHY_ADDRESS_WIDTH) - 1) (13 + BX_PHY_ADDRESS_WIDTH - 32).

Definition ERROR_NOT_PRESENT : Z := 0x00.
Definition ERROR_PROTECTION : Z := 0x01.
Definition ERROR_RESERVED : Z := 0x08.

Definition BX_LEVEL_PDE : Z := 1.

Definition priv_check : list Z :=
  [1; 1; 1; 1; 1; 1; 1; 1; 0; 0; 0; 0; 1; 0; 1; 1;
   1; 0; 1; 1; 1; 0; 1; 1; 0; 0; 0; 0; 1; 0; 1; 1].

(** ** The walk *)

Definition page_fault {A} (fault laddr user rw : Z) : Mach A :=
  let isWrite := Z.land rw 1 in
  let error_code := Z.lor fault (Z.lor (Z.shiftl user 2) (Z.shiftl isWrite 1)) in
  modify (with_cr2 laddr);;
  exception BX_PF_EXCEPTION error_code.

(** The index into [priv_check]. *)
Definition priv_index (wp pl combined_access isWrite : Z) : Z :=
  Z.lor (Z.shiftl wp 4) (Z.lor (Z.shiftl pl 3) (Z.lor combined_access isWrite)).

(** The 4M branch: the page frame and the linear-page mask. *)
Definition translate_PDE4M (laddr pl rw pde_addr pde : Z) : Mach (Z * Z) :=
  let isWrite := Z.land rw 1 in
  when (nz (Z.land pde PAGING_PDE4M_RESERVED_BITS))
    (page_fault (Z.lor ERROR_RESERVED ERROR_PROTECTION) laddr pl rw);;
  let combined_access := Z.land pde 0x06 in
  wp ← gets cr0_get_WP;
  when (nth (Z.to_nat (priv_index wp pl combined_access isWrite)) priv_check 0 =? 0)
    (page_fault ERROR_PROTECTION laddr pl rw);;
  pde ← (if negb (nz (Z.land pde 0x20)) || (nz isWrite && negb (nz (Z.land pde 0x40))) then
           let pde := Z.lor pde (Z.lor 0x20 (Z.shiftl isWrite 6)) in
           write_physical pde_addr 4 pde;; mret pde
         else mret pde);
  mret (Z.lor (Z.land pde 0xffc00000) (Z.land laddr 0x003ff000), 0x3fffff).

(** The 4K branch. *)
Definition translate_PTE (laddr pl rw pde_addr pde : Z) : Mach (Z * Z) :=
  let isWrite := Z.land rw 1 in
  let pte_addr := Z.lor (Z.land pde 0xfffff000) (Z.shiftr (Z.land laddr 0x003ff000) 10) in
  pte ← read_physical pte_addr 4;
  when (negb (nz (Z.land pte 0x1))) (page_fault ERROR_NOT_PRESENT laddr pl rw);;
  let combined_access := Z.land (Z.land pde pte) 0x06 in
  wp ← gets cr0_get_WP;
  when (nth (Z.to_nat (priv_index wp pl combined_access isWrite)) priv_check 0 =? 0)
    (page_fault ERROR_PROTECTION laddr pl rw);;
  when (negb (nz (Z.land pde 0x20))) (write_physical pde_addr 4 (Z.lor pde 0x20));;
  pte ← (if negb (nz (Z.land pte 0x20)) || (nz isWrite && negb (nz (Z.land pte 0x40))) then
           let pte := Z.lor pte (Z.lor 0x20 (Z.shiftl isWrite 6)) in
           write_physical pte_addr 4 pte;; mret pte
         else mret pte);
  mret (Z.land pte 0xfffff000, 0xfff).

Definition translate_linear (laddr curr_pl rw : Z) : Mach Z :=
  let poffset := PAGE_OFFSET laddr in
  let pl := Z.b2z (curr_pl =? 3) in
  let lpf := LPFOf laddr in
  pg ← gets cr0_get_PG;
  ppf ← (if nz pg then
    cr3 ← gets cr3;
    let cr3_masked := u32 (Z.land cr3 BX_CR3_PAGING_MASK) in
    let pde_addr := Z.lor cr3_masked (Z.shiftr (Z.land laddr 0xffc00000) 20) in
    pde ← read_physical pde_addr 4;
    when (negb (nz (Z.land pde 0x1))) (page_fault ERROR_NOT_PRESENT laddr pl rw);;
    pse ← gets cr4_get_PSE;
    r ← (if nz (Z.land pde 0x80) && nz pse then translate_PDE4M laddr pl rw pde_addr pde
         else translate_PTE laddr pl rw pde_addr pde);
    let '(ppf, lpf_mask) := r in
    when (0xfff <? lpf_mask) (modify (with_TLB_split_large 1));;
    mret ppf
  else mret lpf);
  mret (Z.lor ppf poffset).

Definition dtranslate_linear := translate_linear.

(** The debugger's walk: [Some phy], or [None] for its [page_fault:] exit.  The
    loop runs at the levels PDE and PTE. *)
Fixpoint dbg_walk (levels : list Z) (laddr pt_address offset_mask : Z) : Mach (option (Z * Z)) :=
  match levels with
  | [] => mret (Some (pt_address, offset_mask))
  | level :: levels =>
      let pt_address := u32 (pt_address + Z.land (Z.shiftr laddr (10 + 10 * level)) 0xffc) in
      pte ← read_physical pt_address 4;
      if negb (nz (Z.land pte 1)) then mret None else
      let pt_address := Z.land pte 0xfffff000 in
      if (level =? BX_LEVEL_PDE) && nz (Z.land pte 0x80) then mret (Some (pt_address, 0x3fffff))
      else dbg_walk levels laddr pt_address offset_mask
  end.

Definition dbg_xlate_linear2phy (laddr : Z) : Mach (option Z) :=
  pg ← gets cr0_get_PG;
  if negb (nz pg) then mret (Some laddr) else
  cr3 ← gets cr3;
  let pt_address := u32 (Z.land cr3 BX_CR3_PAGING_MASK) in
  r ← dbg_walk [1; 0] laddr pt_address 0xfff;
  match r with
  | Some (pt_address, offset_mask) => mret (Some (u32 (pt_address + Z.land laddr offset_mask)))
  | None => mret None
  end.

(** [TLB_flush] and [TLB_invlpg] are empty without a TLB. *)
Definition TLB_flush : Mach unit := mret tt.
Definition TLB_invlpg (laddr : Z) : Mach unit := mret tt.

Definition INVLPG (i : bxInstruction_c) : Mach unit :=
  b ← gets (fun s => negb (real_mode s) && negb (CPL s =? 0));
  when b (exception BX_GP_EXCEPTION 0);;
  eaddr ← resolve i;
  laddr ← get_laddr32 (i_seg i) eaddr;
  TLB_invlpg laddr.

(** ** Linear accesses *)

Definition set_xlation (f : address_xlation_t -> address_xlation_t) : Mach unit :=
  modify (fun s => with_address_xlation (f (address_xlation s)) s).

(** The part of the two accessors that finds the physical pages: [paddress1],
    [pages] and, for an access across two pages, [len1], [len2], [paddress2]. *)
Definition xlate_access (laddr : Z) (len : nat) (curr_pl rw : Z) : Mach unit :=
  let pageOffset := PAGE_OFFSET laddr in
  p1 ← dtranslate_linear laddr curr_pl rw;
  set_xlation (with_xl_paddress1 p1);;
  if pageOffset + Z.of_nat len <=? 4096 then set_xlation (with_xl_pages 1)
  else
    let len1 := 4096 - pageOffset in
    set_xlation (fun x => with_xl_pages 2 (with_xl_len2 (Z.of_nat len - len1) (with_xl_len1 len1 x)));;
    p2 ← dtranslate_linear (u32 (laddr + len1)) curr_pl rw;
    set_xlation (with_xl_paddress2 p2).

Definition access_write_linear (laddr : Z) (len : nat) (curr_pl : Z) (data : Z) : Mach unit :=
  xlate_access laddr len curr_pl BX_WRITE;;
  x ← gets address_xlation;
  if PAGE_OFFSET laddr + Z.of_nat len <=? 4096 then
    access_write_physical (xl_paddress1 x) (le_split len data)
  else
    access_write_physical (xl_paddress1 x) (take (Z.to_nat (xl_len1 x)) (le_split len data));;
    access_write_physical (xl_paddress2 x) (drop (Z.to_nat (xl_len1 x)) (le_split len data)).

Definition access_read_linear (laddr : Z) (len : nat) (curr_pl xlate_rw : Z) : Mach Z :=
  xlate_access laddr len curr_pl xlate_rw;;
  x ← gets address_xlation;
  if PAGE_OFFSET laddr + Z.of_nat len <=? 4096 then
    data ← access_read_physical (xl_paddress1 x) len;
    mret (le_combine data)
  else
    data1 ← access_read_physical (xl_paddress1 x) (Z.to_nat (xl_len1 x));
    data2 ← access_read_physical (xl_paddress2 x) (Z.to_nat (xl_len2 x));
    mret (le_combine (data1 ++ data2)).

(** ** Reference semantics of the walk

    The two-level walk as the architecture describes it: table addresses by
    arithmetic on the linear address, entry fields by bit number, permission
    as a rule instead of a table. *)

Definition perm_ok (wp user us rw write : bool) : bool :=
  if user then us && (negb write || rw) else negb write || negb wp || rw.

Definition pf_code (present user write reserved : bool) : Z :=
  Z.b2z present + 2 * Z.b2z write + 4 * Z.b2z user + 8 * Z.b2z reserved.

Definition pde_address (cr3 laddr : Z) : Z := cr3 / 2 ^ 12 * 2 ^ 12 + 4 * (laddr / 2 ^ 22).
Definition pte_address (pde laddr : Z) : Z :=
  pde / 2 ^ 12 * 2 ^ 12 + 4 * (laddr / 2 ^ 12 mod 2 ^ 10).

(** Accessed (bit 5) and, for a write, dirty (bit 6). *)
Definition mark (e : Z) (write : bool) : Z :=
  if write then Z.setbit (Z.setbit e 5) 6 else Z.setbit e 5.
Definition marked (e : Z) (write : bool) : bool :=
  Z.testbit e 5 && (negb write || Z.testbit e 6).
Definition touch (a e : Z) (write : bool) : list (Z * Z) :=
  if marked e write then [] else [(a, mark e write)].
Definition touched (e : Z) (write : bool) : Z := if marked e write then e else mark e write.

Inductive walk_result : Type :=
  | WalkFault (code : Z)
  | WalkOk (paddr : Z) (large : bool) (updates : list (Z * Z)).

(** The bits of a 4M entry that must be zero, by the table above the code that
    checks them: 21 to 13, and 12 where there is no PAT, as on a processor of
    level 5.  The code checks only 21 to 13. *)
Definition reserved_4M (pde : Z) : bool := negb (pde / 2 ^ 12 mod 2 ^ 10 =? 0).
Definition checked_4M (pde : Z) : bool := negb (pde / 2 ^ 13 mod 2 ^ 9 =? 0).

Definition page_walk (reserved : Z -> bool) (rd : Z -> Z) (cr3 : Z) (wp pse : bool) (laddr : Z) (user write : bool)
    : walk_result :=
  let pde := rd (pde_address cr3 laddr) in
  if negb (Z.testbit pde 0) then WalkFault (pf_code false user write false)
  else if Z.testbit pde 7 && pse then
    if reserved pde then WalkFault (pf_code true user write true)
    else if negb (perm_ok wp user (Z.testbit pde 2) (Z.testbit pde 1) write) then
      WalkFault (pf_code true user write false)
    else WalkOk (pde / 2 ^ 22 * 2 ^ 22 + laddr mod 2 ^ 22) true
           (touch (pde_address cr3 laddr) pde write)
  else
    let pte := rd (pte_address pde laddr) in
    if negb (Z.testbit pte 0) then WalkFault (pf_code false user write false)
    else if negb (perm_ok wp user (Z.testbit pde 2 && Z.testbit pte 2)
                    (Z.testbit pde 1 && Z.testbit pte 1) write) then
      WalkFault (pf_code true user write false)
    else WalkOk (pte / 2 ^ 12 * 2 ^ 12 + laddr mod 2 ^ 12) false
           (touch (pde_address cr3 laddr) pde false ++ touch (pte_address pde laddr) pte write).

(** A 4-byte physical read of a state, and its update by a list of stores. *)
Definition phys_dword (s : machine) (a : Z) : Z :=
  le_combine (mem_bytes (mem_vector (memory s)) a 4).

Definition store_dwords (ws : list (Z * Z)) (s : machine) : machine :=
  foldl (fun s w => with_memory (with_mem_vector
    (mem_store (mem_vector (memory s)) w.1 (le_split 4 w.2)) (memory s)) s) s ws.

(** *** Masks as arithmetic *)

Lemma land_high_mask m x n : 0 <= n <= m -> 0 <= x < 2 ^ m ->
  Z.land x (2 ^ m - 2 ^ n) = x / 2 ^ n * 2 ^ n.
Proof.
  intros Hn Hx. apply Z.bits_inj'. intros i Hi.
  replace (2 ^ m - 2 ^ n) with (Z.shiftl (Z.ones (m - n)) n).
  2:{ rewrite Z.shiftl_mul_pow2, Z.ones_equiv by lia.
      replace (2 ^ m) with (2 ^ (m - n) * 2 ^ n) by (rewrite <-Z.pow_add_r by lia; f_equal; lia).
      lia. }
  rewrite <-Z.shiftl_mul_pow2, <-Z.shiftr_div_pow2, Z.land_spec, !Z.shiftl_spec by lia.
  destruct (Z.ltb_spec i n).
  - rewrite !(Z.testbit_neg_r _ (i - n)) by lia. by rewrite andb_false_r.
  - rewrite Z.shiftr_spec, Z.sub_add by lia. rewrite Z.testbit_ones by lia.
    destruct (Z.ltb_spec (i - n) (m - n)).
    + by rewrite (proj2 (Z.leb_le 0 (i - n))), andb_true_r by lia.
    + rewrite (testbit_above m x i) by lia. done.
Qed.

Lemma lor_disjoint_add a b n : 0 <= n -> a mod 2 ^ n = 0 -> 0 <= b < 2 ^ n -> Z.lor a b = a + b.
Proof.
  intros Hn Ha Hb. rewrite <-Z.add_lor_land. enough (Z.land a b = 0) as -> by lia.
  apply Z.bits_inj'. intros i Hi.
  rewrite Z.land_spec, Z.testbit_0_l. destruct (Z.ltb_spec i n).
  - replace (Z.testbit a i) with false; [done|].
    rewrite (Z.div_mod a (2 ^ n)), Ha, Z.add_0_r, Z.mul_comm, <-Z.shiftl_mul_pow2 by lia.
    by rewrite Z.shiftl_spec_low.
  - by rewrite (testbit_above n b i), andb_false_r by lia.
Qed.

Lemma land_offset x n : 0 <= n -> Z.land x (2 ^ n - 1) = x mod 2 ^ n.
Proof. intros. rewrite <-Z.land_ones, Z.ones_equiv by lia. f_equal. Qed.

Lemma pde_address_eq cr3 laddr :
  0 <= cr3 < 2 ^ 32 -> 0 <= laddr < 2 ^ 32 ->
  Z.lor (u32 (Z.land cr3 BX_CR3_PAGING_MASK)) (Z.shiftr (Z.land laddr 0xffc00000) 20) =
  pde_address cr3 laddr.
Proof.
  intros Hc Hl. unfold pde_address.
  change BX_CR3_PAGING_MASK with (2 ^ 52 - 2 ^ 12). change 0xffc00000 with (2 ^ 32 - 2 ^ 22).
  rewrite !land_high_mask by lia. rewrite Z.shiftr_div_pow2, wrap_small by divlia.
  change (2 ^ 22) with (4 * 2 ^ 20) at 2. rewrite Z.mul_assoc, Z.div_mul by lia.
  rewrite (Z.mul_comm _ 4). apply (lor_disjoint_add _ _ 12); [lia|by rewrite Z.mod_mul by lia|divlia].
Qed.

Lemma land_pte_field laddr :
  Z.land laddr 0x003ff000 = laddr / 2 ^ 12 mod 2 ^ 10 * 2 ^ 12.
Proof.
  change 0x003ff000 with (Z.land (2 ^ 22 - 1) (2 ^ 22 - 2 ^ 12)).
  rewrite Z.land_assoc, land_offset, land_high_mask by (apply wrap_range || lia; lia).
  f_equal. change (2 ^ 22) with (2 ^ 12 * 2 ^ 10). by rewrite Z.rem_mul_r, Z.mul_comm,
    Z.div_add, Z.div_small by (apply wrap_range || lia; lia).
Qed.

Lemma pte_address_eq pde laddr :
  0 <= pde < 2 ^ 32 ->
  Z.lor (Z.land pde 0xfffff000) (Z.shiftr (Z.land laddr 0x003ff000) 10) = pte_address pde laddr.
Proof.
  intros Hp. unfold pte_address. rewrite land_pte_field.
  change 0xfffff000 with (2 ^ 32 - 2 ^ 12). rewrite land_high_mask, Z.shiftr_div_pow2 by lia.
  change (2 ^ 12) with (4 * 2 ^ 10) at 4. rewrite Z.mul_assoc, Z.div_mul, (Z.mul_comm _ 4) by lia.
  pose proof (Z.mod_pos_bound (laddr / 2 ^ 12) (2 ^ 10)).
  apply (lor_disjoint_add _ _ 12); [lia|by rewrite Z.mod_mul by lia|lia].
Qed.

Lemma reserved_eq pde :
  nz (Z.land pde PAGING_PDE4M_RESERVED_BITS) = negb (pde / 2 ^ 13 mod 2 ^ 9 =? 0).
Proof.
  unfold nz. f_equal. change PAGING_PDE4M_RESERVED_BITS with (Z.shiftl (2 ^ 9 - 1) 13).
  replace (Z.land pde (Z.shiftl (2 ^ 9 - 1) 13)) with (Z.shiftl (Z.land (Z.shiftr pde 13) (2 ^ 9 - 1)) 13).
  - rewrite land_offset, Z.shiftr_div_pow2, Z.shiftl_mul_pow2 by lia.
    zcases.
  - apply Z.bits_inj'. intros i Hi. rewrite Z.land_spec, !Z.shiftl_spec by lia.
    destruct (Z.ltb_spec i 13).
    + rewrite !(Z.testbit_neg_r _ (i - 13)) by lia. by rewrite andb_false_r.
    + rewrite Z.land_spec, Z.shiftr_spec by lia. by rewrite Z.sub_add.
Qed.

(** The bits of an entry that carry permission. *)
Lemma land_6 e : Z.land e 6 = 4 * Z.b2z (Z.testbit e 2) + 2 * Z.b2z (Z.testbit e 1).
Proof.
  apply Z.bits_inj'. intros i Hi. rewrite Z.land_spec.
  destruct (Z.ltb_spec i 3).
  - assert (i = 0 \/ i = 1 \/ i = 2) as [->|[-> | ->]] by lia;
      destruct (Z.testbit e 2), (Z.testbit e 1); cbn; by rewrite ?andb_false_r, ?andb_true_r.
  - assert (0 <= 4 * Z.b2z (Z.testbit e 2) + 2 * Z.b2z (Z.testbit e 1) < 2 ^ 3)
      by (destruct (Z.testbit e 2), (Z.testbit e 1); cbn [Z.b2z]; lia).
    rewrite (testbit_above 3 6 i), andb_false_r by lia. symmetry. apply (testbit_above 3); lia.
Qed.

Lemma priv_check_perm wp user us rw write :
  nth (Z.to_nat (priv_index (Z.b2z wp) (Z.b2z user) (4 * Z.b2z us + 2 * Z.b2z rw) (Z.b2z write)))
    priv_check 0 = Z.b2z (perm_ok wp user us rw write).
Proof. by destruct wp, user, us, rw, write. Qed.

Lemma land_1 z : Z.land z 1 = Z.b2z (Z.testbit z 0).
Proof.
  change 1 with (Z.ones 1). rewrite Z.land_ones, Z.bit0_odd by lia.
  change (2 ^ 1) with 2. rewrite Zmod_odd. by destruct (Z.odd z).
Qed.

Lemma mark_eq e write :
  Z.lor e (Z.lor 0x20 (Z.shiftl (Z.b2z write) 6)) = mark e write.
Proof.
  unfold mark. rewrite !Z.setbit_spec'. destruct write; [|done].
  by rewrite <-Z.lor_assoc.
Qed.

Lemma mark_range e write : 0 <= e < 2 ^ 32 -> 0 <= mark e write < 2 ^ 32.
Proof.
  intros He. rewrite <-mark_eq. split.
  - apply Z.lor_nonneg. split; [lia|]. by destruct write.
  - destruct (Z.eq_dec (Z.lor e (Z.lor 0x20 (Z.shiftl (Z.b2z write) 6))) 0) as [->|Hne]; [lia|].
    apply Z.log2_lt_cancel. rewrite Z.log2_pow2, Z.log2_lor by (lia || by destruct write).
    apply Z.max_lub_lt; [|by destruct write].
    destruct (Z.eq_dec e 0) as [->|]; [done|]. apply Z.log2_lt_pow2; lia.
Qed.

(** Marking an entry does not move the page it maps. *)
Lemma mark_frame e write n : 7 <= n -> mark e write / 2 ^ n = e / 2 ^ n.
Proof.
  intros Hn. rewrite <-!Z.shiftr_div_pow2 by lia. apply Z.bits_inj'. intros i Hi.
  rewrite !Z.shiftr_spec by lia. unfold mark.
  destruct write; rewrite ?Z.setbit_neq by lia; done.
Qed.

Lemma mark_low e write n : 0 <= n < 5 -> Z.testbit (mark e write) n = Z.testbit e n.
Proof. intros Hn. unfold mark. by destruct write; rewrite ?Z.setbit_neq by lia. Qed.

Lemma cr_bit_b2z n v : 0 <= n -> cr_bit n v = Z.b2z (Z.testbit v n).
Proof. intros. unfold cr_bit. by rewrite Z.land_comm, land_1, Z.shiftr_spec, Z.add_0_l by lia. Qed.

Lemma phys_dword_range s a : 0 <= phys_dword s a < 2 ^ 32.
Proof. unfold phys_dword. pose proof (le_combine_range (mem_bytes (mem_vector (memory s)) a 4)).
  by rewrite mem_bytes_length in *. Qed.

Lemma read_physical_eq s a :
  mapped s a 4 = true -> read_physical a 4 s = Ret (phys_dword s a) s.
Proof.
  intros H. unfold read_physical, access_read_physical, readPhysicalPage, mbind, M_bind, gets.
  change (Z.of_nat 4) with 4. by rewrite H.
Qed.

Lemma write_physical_eq s a v :
  mapped s a 4 = true -> write_physical a 4 v s = Ret tt (store_dwords [(a, v)] s).
Proof.
  intros H. unfold write_physical, access_write_physical, writePhysicalPage, mbind, M_bind, gets.
  rewrite le_split_length. change (Z.of_nat 4) with 4. by rewrite H.
Qed.

(** The error code of a fault. *)
Lemma page_fault_eq {A} (s : machine) present reserved laddr user rw :
  (reserved = true -> present = true) ->
  page_fault (A := A) (Z.b2z present + 8 * Z.b2z reserved) laddr (Z.b2z user) rw s =
  Fault BX_PF_EXCEPTION (pf_code present user (Z.testbit rw 0) reserved) (with_cr2 laddr s).
Proof.
  intros Hr. unfold page_fault. rewrite land_1.
  unfold mbind, M_bind, modify, raise. f_equal.
  destruct present, reserved, user, (Z.testbit rw 0); try done; by specialize (Hr eq_refl).
Qed.

Lemma touch_cond e write :
  negb (nz (Z.land e 0x20)) || (nz (Z.b2z write) && negb (nz (Z.land e 0x40))) =
  negb (marked e write).
Proof.
  change 0x20 with (2 ^ 5). change 0x40 with (2 ^ 6). rewrite !nz_land_pow2, nz_b2z by lia.
  unfold marked. by destruct (Z.testbit e 5), (Z.testbit e 6), write.
Qed.

(** The accessed/dirty update of one entry. *)
Lemma touch_step s a e write {A} (k : Z -> Mach A) :
  mapped s a 4 = true ->
  ((if negb (marked e write) then write_physical a 4 (mark e write);; mret (mark e write)
    else mret e) ≫= k) s =
  k (touched e write) (store_dwords (touch a e write) s).
Proof.
  intros Hm. unfold touch, touched. destruct (marked e write); cbn [negb]; [done|].
  unfold mbind, M_bind. rewrite write_physical_eq by done. done.
Qed.

Lemma touch_frame e write n :
  7 <= n -> touched e write / 2 ^ n = e / 2 ^ n.
Proof. intros. unfold touched. destruct (marked e write); [done|by apply mark_frame]. Qed.

Lemma touch_range e write :
  0 <= e < 2 ^ 32 -> 0 <= touched e write < 2 ^ 32.
Proof. intros. unfold touched. destruct (marked e write); [done|by apply mark_range]. Qed.

Definition wp_of (s : machine) : bool := Z.testbit (cr0 s) 16.
Definition pse_of (s : machine) : bool := Z.testbit (cr4 s) 4.

Lemma translate_PDE4M_eq s laddr user rw pde_addr pde :
  mapped s pde_addr 4 = true -> 0 <= pde < 2 ^ 32 ->
  translate_PDE4M laddr (Z.b2z user) rw pde_addr pde s =
    if negb (pde / 2 ^ 13 mod 2 ^ 9 =? 0) then
      Fault BX_PF_EXCEPTION (pf_code true user (Z.testbit rw 0) true) (with_cr2 laddr s)
    else if negb (perm_ok (wp_of s) user (Z.testbit pde 2) (Z.testbit pde 1) (Z.testbit rw 0)) then
      Fault BX_PF_EXCEPTION (pf_code true user (Z.testbit rw 0) false) (with_cr2 laddr s)
    else Ret (pde / 2 ^ 22 * 2 ^ 22 + laddr / 2 ^ 12 mod 2 ^ 10 * 2 ^ 12, 0x3fffff)
           (store_dwords (touch pde_addr pde (Z.testbit rw 0)) s).
Proof.
  intros Hm Hp. unfold translate_PDE4M. rewrite reserved_eq, land_1.
  change (Z.lor ERROR_RESERVED ERROR_PROTECTION) with (Z.b2z true + 8 * Z.b2z true).
  change ERROR_PROTECTION with (Z.b2z true + 8 * Z.b2z false).
  destruct (negb (pde / 2 ^ 13 mod 2 ^ 9 =? 0)).
  { apply bind_Fault. by apply (page_fault_eq s true true). }
  erewrite bind_Ret by done. erewrite bind_Ret by done. cbv zeta.
  unfold cr0_get_WP. rewrite cr_bit_b2z, land_6, priv_check_perm by lia. unfold wp_of.
  destruct (perm_ok _ _ _ _ _); cbn [negb Z.b2z Z.eqb].
  2:{ apply bind_Fault. by apply (page_fault_eq s true false). }
  erewrite bind_Ret by done. rewrite touch_cond, mark_eq, touch_step by done.
  unfold mret, M_ret. do 2 f_equal.
  rewrite land_pte_field. change 0xffc00000 with (2 ^ 32 - 2 ^ 22).
  rewrite land_high_mask, touch_frame by (by apply touch_range || lia).
  apply (lor_disjoint_add _ _ 22); [lia|by rewrite Z.mod_mul by lia|divlia].
Qed.

Lemma store_dwords_mapped ws s a n : mapped (store_dwords ws s) a n = mapped s a n.
Proof.
  unfold store_dwords. revert s. induction ws as [|w ws IH]; intros s; cbn; [done|]. by rewrite IH.
Qed.

Lemma store_dwords_app ws ws' s : store_dwords (ws ++ ws') s = store_dwords ws' (store_dwords ws s).
Proof. unfold store_dwords. apply foldl_app. Qed.

Lemma land_6_and d t :
  Z.land (Z.land d t) 6 =
  4 * Z.b2z (Z.testbit d 2 && Z.testbit t 2) + 2 * Z.b2z (Z.testbit d 1 && Z.testbit t 1).
Proof. by rewrite land_6, !Z.land_spec. Qed.

Lemma translate_PTE_eq s laddr user rw pde_addr pde :
  let pte_addr := pte_address pde laddr in
  let pte := phys_dword s pte_addr in
  mapped s pde_addr 4 = true -> mapped s pte_addr 4 = true -> 0 <= pde < 2 ^ 32 ->
  translate_PTE laddr (Z.b2z user) rw pde_addr pde s =
    if negb (Z.testbit pte 0) then
      Fault BX_PF_EXCEPTION (pf_code false user (Z.testbit rw 0) false) (with_cr2 laddr s)
    else if negb (perm_ok (wp_of s) user (Z.testbit pde 2 && Z.testbit pte 2)
                    (Z.testbit pde 1 && Z.testbit pte 1) (Z.testbit rw 0)) then
      Fault BX_PF_EXCEPTION (pf_code true user (Z.testbit rw 0) false) (with_cr2 laddr s)
    else Ret (pte / 2 ^ 12 * 2 ^ 12, 0xfff)
           (store_dwords (touch pde_addr pde false ++ touch pte_addr pte (Z.testbit rw 0)) s).
Proof.
  intros pte_addr pte Hm Hm' Hp. unfold translate_PTE. rewrite land_1, pte_address_eq by done.
  fold pte_addr. erewrite bind_Ret by by apply read_physical_eq. fold pte. cbv zeta.
  change 0x1 with (2 ^ 0) at 1. rewrite nz_land_pow2 by lia.
  change ERROR_PROTECTION with (Z.b2z true + 8 * Z.b2z false).
  change ERROR_NOT_PRESENT with (Z.b2z false + 8 * Z.b2z false).
  destruct (negb (Z.testbit pte 0)).
  { apply bind_Fault. by apply (page_fault_eq s false false). }
  erewrite bind_Ret by done. erewrite bind_Ret by done.
  unfold cr0_get_WP. rewrite cr_bit_b2z, land_6_and, priv_check_perm by lia. fold (wp_of s).
  destruct (perm_ok _ _ _ _ _); cbn [negb Z.b2z Z.eqb].
  2:{ apply bind_Fault. by apply (page_fault_eq s true false). }
  erewrite bind_Ret by done.
  assert (when (negb (nz (Z.land pde 32))) (write_physical pde_addr 4 (Z.lor pde 32)) s =
          Ret tt (store_dwords (touch pde_addr pde false) s)) as Hw.
  { pose proof (mark_eq pde false) as Hmk. pose proof (touch_cond pde false) as Hc.
    change (Z.lor 0x20 (Z.shiftl (Z.b2z false) 6)) with 32 in Hmk. rewrite Hmk.
    change (nz (Z.b2z false)) with false in Hc. cbn [andb] in Hc. rewrite orb_false_r in Hc.
    rewrite Hc. unfold touch. destruct (marked pde false); cbn [negb when]; [done|].
    by apply write_physical_eq. }
  erewrite bind_Ret by exact Hw. rewrite touch_cond, mark_eq, touch_step
    by by rewrite store_dwords_mapped.
  rewrite <-store_dwords_app. unfold mret, M_ret. do 2 f_equal.
  change 0xfffff000 with (2 ^ 32 - 2 ^ 12).
  rewrite land_high_mask, touch_frame by (apply touch_range, phys_dword_range || lia). done.
Qed.

(** The entries the walk reads are inside the mapped region. *)
Definition walk_mapped (s : machine) (laddr : Z) : bool :=
  let pde_addr := pde_address (cr3 s) laddr in
  let pde := phys_dword s pde_addr in
  mapped s pde_addr 4 &&
  (negb (Z.testbit pde 0) || (Z.testbit pde 7 && pse_of s) || mapped s (pte_address pde laddr) 4).

(** The state after a walk. *)
Definition after_walk (large : bool) (ws : list (Z * Z)) (s : machine) : machine :=
  let s' := store_dwords ws s in if large then with_TLB_split_large 1 s' else s'.

Definition walk_of (s : machine) (laddr curr_pl rw : Z) : walk_result :=
  page_walk checked_4M (phys_dword s) (cr3 s) (wp_of s) (pse_of s) laddr (curr_pl =? 3) (Z.testbit rw 0).

Lemma LPFOf_offset laddr : 0 <= laddr < 2 ^ 32 -> Z.lor (LPFOf laddr) (PAGE_OFFSET laddr) = laddr.
Proof.
  intros Hl. unfold LPFOf, PAGE_OFFSET. change 0xfffff000 with (2 ^ 32 - 2 ^ 12).
  change 0xfff with (2 ^ 12 - 1). rewrite land_high_mask, land_offset by lia.
  rewrite (lor_disjoint_add _ _ 12); [|lia|by rewrite Z.mod_mul by lia|divlia]. divlia.
Qed.

Lemma translate_linear_nopaging s laddr curr_pl rw :
  0 <= laddr < 2 ^ 32 -> Z.testbit (cr0 s) 31 = false ->
  translate_linear laddr curr_pl rw s = Ret laddr s.
Proof.
  intros Hl Hpg. unfold translate_linear. erewrite bind_Ret by done.
  unfold cr0_get_PG. rewrite cr_bit_b2z, Hpg by lia. cbn [Z.b2z nz Z.eqb negb].
  erewrite bind_Ret by done. unfold mret, M_ret. by rewrite LPFOf_offset.
Qed.

Lemma translate_linear_walk s laddr curr_pl rw :
  0 <= laddr < 2 ^ 32 -> 0 <= cr3 s < 2 ^ 32 -> Z.testbit (cr0 s) 31 = true ->
  walk_mapped s laddr = true ->
  translate_linear laddr curr_pl rw s =
    match walk_of s laddr curr_pl rw with
    | WalkFault code => Fault BX_PF_EXCEPTION code (with_cr2 laddr s)
    | WalkOk paddr large ws => Ret paddr (after_walk large ws s)
    end.
Proof.
  intros Hl Hc Hpg Hm. apply andb_true_iff in Hm as [Hm1 Hm2].
  set (pde_addr := pde_address (cr3 s) laddr) in *. set (pde := phys_dword s pde_addr) in *.
  assert (0 <= pde < 2 ^ 32) as Hp by apply phys_dword_range.
  unfold translate_linear, walk_of, page_walk, checked_4M. fold pde_addr. fold pde.
  erewrite bind_Ret by done. unfold cr0_get_PG. rewrite cr_bit_b2z, Hpg by lia.
  cbn [Z.b2z nz Z.eqb negb]. unfold mbind at 1. unfold M_bind at 1.
  erewrite bind_Ret by done. cbv zeta. rewrite pde_address_eq by done. fold pde_addr.
  erewrite bind_Ret by by apply read_physical_eq. fold pde.
  change (Z.land pde 1) with (Z.land pde (2 ^ 0)). change 0x80 with (2 ^ 7).
  rewrite !nz_land_pow2 by lia.
  change ERROR_NOT_PRESENT with (Z.b2z false + 8 * Z.b2z false).
  destruct (negb (Z.testbit pde 0)); cbn [orb] in Hm2.
  { erewrite bind_Fault; [done|]. by apply (page_fault_eq s false false). }
  erewrite bind_Ret by done. erewrite bind_Ret by done.
  unfold cr4_get_PSE. rewrite cr_bit_b2z, nz_b2z by lia. fold (pse_of s).
  destruct (Z.testbit pde 7 && pse_of s); cbn [orb] in Hm2.
  - pose proof (translate_PDE4M_eq s laddr (curr_pl =? 3) rw pde_addr pde Hm1 Hp) as E.
    destruct (negb (_ =? 0)); [by rewrite (bind_Fault _ _ _ _ _ _ E)|].
    destruct (negb (perm_ok _ _ _ _ _)); [by rewrite (bind_Fault _ _ _ _ _ _ E)|].
    rewrite (bind_Ret _ _ _ _ _ E). cbn [after_walk]. unfold mret, M_ret. cbn. f_equal.
    unfold PAGE_OFFSET. change 0xfff with (2 ^ 12 - 1). rewrite land_offset by lia.
    rewrite (lor_disjoint_add _ _ 12); [divlia|lia| |divlia].
    rewrite <-(Z.mod_mul (pde / 2 ^ 22 * 2 ^ 10 + laddr / 2 ^ 12 mod 2 ^ 10) (2 ^ 12)) by lia.
    f_equal. lia.
  - pose proof (translate_PTE_eq s laddr (curr_pl =? 3) rw pde_addr pde Hm1 Hm2 Hp) as E.
    destruct (negb (Z.testbit _ 0)); [by rewrite (bind_Fault _ _ _ _ _ _ E)|].
    destruct (negb (perm_ok _ _ _ _ _)); [by rewrite (bind_Fault _ _ _ _ _ _ E)|].
    rewrite (bind_Ret _ _ _ _ _ E). unfold mret, M_ret. cbn. f_equal.
    unfold PAGE_OFFSET. change 0xfff with (2 ^ 12 - 1). rewrite land_offset by lia.
    apply (lor_disjoint_add _ _ 12); [lia|by rewrite Z.mod_mul by lia|divlia].
Qed.

(** *** Accessed and dirty bits *)

Lemma touched_bits e write n :
  n <> 5 -> n <> 6 -> Z.testbit (touched e write) n = Z.testbit e n.
Proof.
  intros. unfold touched, mark. destruct (marked e write), write; rewrite ?Z.setbit_neq by lia; done.
Qed.

Lemma touched_marked e write : marked (touched e write) write = true.
Proof.
  unfold touched. destruct (marked e write) eqn:E; [done|]. unfold marked, mark.
  destruct write; rewrite ?Z.setbit_eq by lia; [|done].
  by rewrite Z.setbit_neq, Z.setbit_eq by lia.
Qed.

Lemma marked_read e write : marked e write = true -> marked e false = true.
Proof. unfold marked. by destruct (Z.testbit e 5). Qed.

Lemma pte_address_touched e write laddr : pte_address (touched e write) laddr = pte_address e laddr.
Proof. unfold pte_address. by rewrite touch_frame by lia. Qed.

Lemma aligned_bytes m a v b :
  a mod 4 = 0 -> b mod 4 = 0 ->
  le_combine (mem_bytes (mem_store m a (le_split 4 v)) b 4) =
    if b =? a then u32 v else le_combine (mem_bytes m b 4).
Proof.
  intros Ha Hb. destruct (Z.eqb_spec b a) as [->|Hne].
  - rewrite <-(le_split_length 4 v) at 2. rewrite mem_bytes_store_eq.
    + apply (le_combine_split 4).
    + cbn. repeat constructor; apply wrap_range; lia.
  - rewrite mem_bytes_store_ne; [done|]. rewrite le_split_length. divlia.
Qed.

(** Updating one aligned entry. *)
Lemma phys_dword_touch s a e write b :
  a mod 4 = 0 -> b mod 4 = 0 -> 0 <= e < 2 ^ 32 ->
  phys_dword (store_dwords (touch a e write) s) b =
    if (b =? a) && negb (marked e write) then mark e write else phys_dword s b.
Proof.
  intros Ha Hb He. unfold touch. destruct (marked _ write); cbn [negb].
  - by rewrite andb_false_r.
  - unfold phys_dword at 1. cbn [store_dwords foldl fst snd]. msimpl.
    rewrite aligned_bytes, andb_true_r by done. by rewrite wrap_small by by apply mark_range.
Qed.

(** Updating the two entries of a walk, which may be one and the same. *)
Lemma phys_dword_touch2 s a b write :
  let s' := store_dwords (touch a (phys_dword s a) false ++ touch b (phys_dword s b) write) s in
  a mod 4 = 0 -> b mod 4 = 0 ->
  (exists w, phys_dword s' a = touched (phys_dword s a) w) /\
  phys_dword s' b = touched (phys_dword s b) write.
Proof.
  intros s' Ha Hb. subst s'. rewrite store_dwords_app.
  rewrite !phys_dword_touch, !Z.eqb_refl by (done || apply phys_dword_range). cbn [andb].
  unfold touched. destruct (Z.eqb_spec b a) as [->|Hne].
  - rewrite Z.eqb_refl. cbn [andb].
    destruct (marked _ write) eqn:E; cbn [negb].
    + rewrite (marked_read _ _ E). cbn [negb]. split; [exists write; by rewrite E|done].
    + split; [exists write; by rewrite E|done].
  - rewrite (proj2 (Z.eqb_neq a b)) by lia. cbn [andb]. split.
    + exists false. by destruct (marked _ false).
    + by destruct (marked _ write).
Qed.

Lemma pde_address_aligned cr3 laddr : pde_address cr3 laddr mod 4 = 0.
Proof. unfold pde_address. divlia. Qed.
Lemma pte_address_aligned pde laddr : pte_address pde laddr mod 4 = 0.
Proof. unfold pte_address. divlia. Qed.

Lemma store_dwords_cr ws s :
  cr0 (store_dwords ws s) = cr0 s /\ cr3 (store_dwords ws s) = cr3 s /\
  cr4 (store_dwords ws s) = cr4 s.
Proof.
  unfold store_dwords. revert s. induction ws as [|w ws IH]; intros s; cbn [foldl]; [done|].
  match goal with |- context [foldl _ ?s0 ws] => by destruct (IH s0) as (-> & -> & ->) end.
Qed.

Lemma phys_dword_after_walk large ws s a :
  phys_dword (after_walk large ws s) a = phys_dword (store_dwords ws s) a.
Proof. by destruct large. Qed.

(** A completed walk, repeated, finds the same page and has nothing to mark. *)
Lemma page_walk_again s laddr user write pa large ws :
  let s' := store_dwords ws s in
  page_walk checked_4M (phys_dword s) (cr3 s) (wp_of s) (pse_of s) laddr user write = WalkOk pa large ws ->
  page_walk checked_4M (phys_dword s') (cr3 s) (wp_of s) (pse_of s) laddr user write = WalkOk pa large [].
Proof.
  intros s'. unfold page_walk, checked_4M.
  set (A := pde_address (cr3 s) laddr). set (pde := phys_dword s A).
  pose proof (pde_address_aligned (cr3 s) laddr) as HA. fold A in HA.
  destruct (Z.testbit pde 0) eqn:HP; [|done]. cbn [negb].
  destruct (Z.testbit pde 7 && pse_of s) eqn:H7.
  - destruct (_ =? 0) eqn:Hres; [|done]. destruct (perm_ok _ _ _ _ _) eqn:Hperm; [|done].
    cbn [negb]. intros [= <- <- <-].
    assert (phys_dword s' A = touched pde write) as ->
      by (subst s'; rewrite phys_dword_touch, Z.eqb_refl by (done || apply phys_dword_range);
          unfold touched; by destruct (marked pde write)).
    rewrite !touched_bits, !touch_frame, HP, H7, Hres, Hperm by lia. cbn [negb].
    unfold touch. by rewrite touched_marked.
  - set (B := pte_address pde laddr). set (pte := phys_dword s B).
    pose proof (pte_address_aligned pde laddr) as HB. fold B in HB.
    destruct (Z.testbit pte 0) eqn:HPt; [|done]. destruct (perm_ok _ _ _ _ _) eqn:Hperm; [|done].
    cbn [negb]. intros [= <- <- <-].
    destruct (phys_dword_touch2 s A B write HA HB) as [[w Hpde] Hpte].
    fold pde pte in Hpde, Hpte. fold s' in Hpde, Hpte. rewrite Hpde.
    rewrite !touched_bits, HP, H7, pte_address_touched by lia. fold B. rewrite Hpte.
    rewrite !touched_bits, HPt, Hperm, touch_frame by lia. cbn [negb].
    unfold touch. by rewrite touched_marked, (marked_read _ _ (touched_marked pde w)).
Qed.

Lemma wp_pse_after_walk large ws s :
  wp_of (after_walk large ws s) = wp_of s /\ pse_of (after_walk large ws s) = pse_of s /\
  cr3 (after_walk large ws s) = cr3 s /\ cr0 (after_walk large ws s) = cr0 s.
Proof.
  unfold wp_of, pse_of. destruct (store_dwords_cr ws s) as (H0 & H3 & H4).
  destruct large; cbn [after_walk]; msimpl; by rewrite H0, H3, H4.
Qed.

(** The walk of the state a walk leaves behind. *)
Lemma walk_of_again s laddr curr_pl rw pa large ws :
  walk_of s laddr curr_pl rw = WalkOk pa large ws ->
  walk_of (after_walk large ws s) laddr curr_pl rw = WalkOk pa large [].
Proof.
  unfold walk_of. intros H. apply page_walk_again in H.
  destruct (wp_pse_after_walk large ws s) as (-> & -> & -> & _). by destruct large.
Qed.

(** The entries a walk reads, in the state it leaves behind. *)
Lemma walk_mapped_again s laddr curr_pl rw pa large ws :
  walk_mapped s laddr = true -> walk_of s laddr curr_pl rw = WalkOk pa large ws ->
  walk_mapped (after_walk large ws s) laddr = true.
Proof.
  intros Hm Hw. unfold walk_mapped in *. apply andb_true_iff in Hm as [Hm1 Hm2].
  destruct (wp_pse_after_walk large ws s) as (_ & -> & -> & _).
  assert (forall a n, mapped (after_walk large ws s) a n = mapped s a n) as Hmap
    by (intros a n; destruct large; apply store_dwords_mapped).
  rewrite !Hmap, Hm1, phys_dword_after_walk. cbn [andb].
  set (A := pde_address (cr3 s) laddr) in *. pose proof (pde_address_aligned (cr3 s) laddr) as HA.
  fold A in HA.
  enough (exists w, phys_dword (store_dwords ws s) A = touched (phys_dword s A) w) as [w ->].
  { by rewrite !touched_bits, pte_address_touched by lia. }
  unfold walk_of, page_walk, checked_4M in Hw. fold A in Hw.
  destruct (negb _); [done|]. destruct (_ && _).
  - destruct (negb _); [done|]. destruct (negb _); [done|]. injection Hw as <- <- <-.
    exists (Z.testbit rw 0). rewrite phys_dword_touch, Z.eqb_refl by (done || apply phys_dword_range).
    unfold touched. by destruct (marked _ _).
  - destruct (negb _); [done|]. destruct (negb _); [done|]. injection Hw as <- <- <-.
    apply phys_dword_touch2; [done|apply pte_address_aligned].
Qed.

Lemma after_walk_again large ws s :
  after_walk large [] (after_walk large ws s) = after_walk large ws s.
Proof. by destruct large. Qed.

(** *** The debugger's walk *)

Lemma dbg_index_pde laddr :
  0 <= laddr < 2 ^ 32 -> Z.land (Z.shiftr laddr (10 + 10 * 1)) 0xffc = 4 * (laddr / 2 ^ 22).
Proof.
  intros. change 0xffc with (2 ^ 12 - 2 ^ 2). rewrite Z.shiftr_div_pow2 by lia.
  rewrite land_high_mask by (try lia; divlia). divlia.
Qed.

Lemma dbg_index_pte laddr :
  Z.land (Z.shiftr laddr (10 + 10 * 0)) 0xffc = 4 * (laddr / 2 ^ 12 mod 2 ^ 10).
Proof.
  change 0xffc with (Z.land (2 ^ 12 - 1) (2 ^ 12 - 2 ^ 2)). rewrite Z.shiftr_div_pow2 by lia.
  rewrite Z.land_assoc, land_offset, land_high_mask by (try lia; divlia). divlia.
Qed.

Lemma page_frame_mask e : 0 <= e < 2 ^ 32 -> Z.land e 0xfffff000 = e / 2 ^ 12 * 2 ^ 12.
Proof. intros. change 0xfffff000 with (2 ^ 32 - 2 ^ 12). by apply land_high_mask. Qed.

Lemma dbg_xlate_eq s laddr :
  let pde := phys_dword s (pde_address (cr3 s) laddr) in
  let pte := phys_dword s (pte_address pde laddr) in
  0 <= laddr < 2 ^ 32 -> 0 <= cr3 s < 2 ^ 32 -> Z.testbit (cr0 s) 31 = true ->
  mapped s (pde_address (cr3 s) laddr) 4 = true ->
  Z.testbit pde 7 = true \/ mapped s (pte_address pde laddr) 4 = true ->
  dbg_xlate_linear2phy laddr s =
    Ret (if negb (Z.testbit pde 0) then None
         else if Z.testbit pde 7 then Some (u32 (pde / 2 ^ 12 * 2 ^ 12 + laddr mod 2 ^ 22))
         else if negb (Z.testbit pte 0) then None
         else Some (pte / 2 ^ 12 * 2 ^ 12 + laddr mod 2 ^ 12)) s.
Proof.
  intros pde pte Hl Hc Hpg Hm1 Hm2.
  pose proof (phys_dword_range s (pde_address (cr3 s) laddr)) as Hpde. fold pde in Hpde.
  pose proof (phys_dword_range s (pte_address pde laddr)) as Hpte. fold pte in Hpte.
  unfold dbg_xlate_linear2phy. erewrite bind_Ret by done.
  unfold cr0_get_PG. rewrite cr_bit_b2z, Hpg by lia. cbn [Z.b2z nz Z.eqb negb].
  erewrite bind_Ret by done. cbv zeta. cbn [dbg_walk].
  rewrite dbg_index_pde by done. change BX_CR3_PAGING_MASK with (2 ^ 52 - 2 ^ 12).
  rewrite land_high_mask, (wrap_small 32 (_ / _ * _)) by (try lia; divlia).
  rewrite wrap_small by divlia. fold (pde_address (cr3 s) laddr).
  unfold mbind at 1. unfold M_bind at 1. erewrite bind_Ret by by apply read_physical_eq.
  fold pde. change (Z.land pde 1) with (Z.land pde (2 ^ 0)). change 0x80 with (2 ^ 7).
  rewrite !nz_land_pow2 by lia.
  destruct (negb (Z.testbit pde 0)); [done|]. cbn [BX_LEVEL_PDE Z.eqb Pos.eqb andb].
  rewrite page_frame_mask by done.
  destruct (Z.testbit pde 7).
  { unfold mret at 1, M_ret at 1. cbn [fst snd]. change 0x3fffff with (2 ^ 22 - 1).
    by rewrite land_offset by lia. }
  destruct Hm2 as [|Hm2]; [done|].
  rewrite dbg_index_pte, wrap_small by divlia. fold (pte_address pde laddr).
  erewrite bind_Ret by by apply read_physical_eq. fold pte.
  change (Z.land pte 1) with (Z.land pte (2 ^ 0)). rewrite nz_land_pow2 by lia.
  destruct (negb (Z.testbit pte 0)); [done|].
  unfold mret at 1, M_ret at 1. cbn [BX_LEVEL_PDE Z.eqb andb]. unfold mret, M_ret.
  change 0xfff with (2 ^ 12 - 1). rewrite page_frame_mask, land_offset by lia.
  by rewrite wrap_small by divlia.
Qed.

(** *** Translation does not look at the arithmetic flags *)

Lemma page_fault_refines {A} f l u r : refines (page_fault (A := A) f l u r) (page_fault f l u r).
Proof. unfold page_fault. refines_tac. Qed.
#[export] Hint Resolve page_fault_refines : refines.

Lemma translate_PDE4M_refines l p r a d : refines (translate_PDE4M l p r a d) (translate_PDE4M l p r a d).
Proof. unfold translate_PDE4M. refines_tac. Qed.
Lemma translate_PTE_refines l p r a d : refines (translate_PTE l p r a d) (translate_PTE l p r a d).
Proof. unfold translate_PTE. refines_tac. Qed.
#[export] Hint Resolve translate_PDE4M_refines translate_PTE_refines : refines.

Lemma translate_linear_refines l p r : refines (translate_linear l p r) (translate_linear l p r).
Proof. unfold translate_linear. refines_tac. Qed.
#[export] Hint Resolve translate_linear_refines : refines.

Lemma xlate_access_refines l n p r : refines (xlate_access l n p r) (xlate_access l n p r).
Proof. unfold xlate_access, dtranslate_linear, set_xlation. refines_tac. Qed.
#[export] Hint Resolve xlate_access_refines : refines.

Lemma access_write_linear_refines l n p d :
  refines (access_write_linear l n p d) (access_write_linear l n p d).
Proof. unfold access_write_linear, access_write_physical. refines_tac. Qed.
Lemma access_read_linear_refines l n p r :
  refines (access_read_linear l n p r) (access_read_linear l n p r).
Proof. unfold access_read_linear, access_read_physical. refines_tac. Qed.
#[export] Hint Resolve access_write_linear_refines access_read_linear_refines : refines.

(** *** The two pages of an access *)

(** What a page walk leaves alone. *)
Definition walk_frame (s0 s : machine) : Prop := address_xlation s = address_xlation s0.

Lemma page_fault_frame {A} s0 f l u r : preserves (walk_frame s0) (page_fault (A := A) f l u r).
Proof. unfold page_fault. preserves_tac. by apply preserves_modify. Qed.
Lemma write_physical_frame s0 a n v : preserves (walk_frame s0) (write_physical a n v).
Proof.
  unfold write_physical, access_write_physical, writePhysicalPage. preserves_tac.
  by apply preserves_modify.
Qed.
Lemma read_physical_frame s0 a n : preserves (walk_frame s0) (read_physical a n).
Proof. unfold read_physical, access_read_physical, readPhysicalPage. preserves_tac. Qed.

Section Frame.
#[local] Hint Resolve page_fault_frame write_physical_frame read_physical_frame : preserves.

Lemma translate_linear_frame s0 l p r : preserves (walk_frame s0) (translate_linear l p r).
Proof.
  unfold translate_linear, translate_PDE4M, translate_PTE. preserves_tac.
  by apply preserves_modify.
Qed.
End Frame.

Lemma translate_linear_xlation l p r s a s' :
  translate_linear l p r s = Ret a s' -> address_xlation s' = address_xlation s.
Proof. intros H. pose proof (translate_linear_frame s l p r s) as F. rewrite H in F. by apply F. Qed.

(** The lengths recorded for an access across two pages. *)
Lemma xlate_access_lens laddr len pl rw s s' :
  xlate_access laddr len pl rw s = Ret tt s' ->
  (PAGE_OFFSET laddr + Z.of_nat len <=? 4096) = false ->
  xl_len1 (address_xlation s') = 4096 - PAGE_OFFSET laddr /\
  xl_len2 (address_xlation s') = Z.of_nat len - (4096 - PAGE_OFFSET laddr) /\
  xl_pages (address_xlation s') = 2.
Proof.
  unfold xlate_access, dtranslate_linear. intros H E. unfold mbind, M_bind in H.
  destruct (translate_linear laddr pl rw s) as [p1 s1|? ? ?|]; [|done|done]. cbn in H.
  rewrite E in H.
  destruct (translate_linear _ pl rw _) as [p2 s2|? ? ?|] eqn:E2; [|done|done]. cbn in H.
  apply translate_linear_xlation in E2. injection H as <-. msimpl. rewrite E2. done.
Qed.

Lemma PAGE_OFFSET_range laddr : 0 <= PAGE_OFFSET laddr < 4096.
Proof. unfold PAGE_OFFSET. change 0xfff with (2 ^ 12 - 1). rewrite land_offset by lia. divlia. Qed.

Lemma readPhysicalPage_length a n : yields (readPhysicalPage a n) (fun l => length l = n).
Proof.
  apply yields_bind. intros []; [apply yields_gets; intros s; apply mem_bytes_length|done].
Qed.

Lemma access_read_linear_yields laddr n pl rw :
  yields (access_read_linear laddr n pl rw) (fun v => 0 <= v < 2 ^ (8 * Z.of_nat n)).
Proof.
  intros s v s'. unfold access_read_linear, mbind at 1, M_bind at 1.
  destruct (xlate_access laddr n pl rw s) as [[] s1|? ? ?|] eqn:E; [|done|done].
  unfold mbind at 1, M_bind at 1, gets. pose proof (xlate_access_lens _ _ _ _ _ _ E) as Hlen.
  destruct (_ <=? 4096) eqn:Ep.
  - revert s1 E Hlen v s'. intros s1 _ _.
    assert (yields (data ← access_read_physical (xl_paddress1 (address_xlation s1)) n;
      mret (le_combine data)) (fun v => 0 <= v < 2 ^ (8 * Z.of_nat n))) as Hy.
    { eapply yields_bind_with; [apply readPhysicalPage_length|].
      intros l <-. apply yields_ret, le_combine_range. }
    intros v s' H. by eapply Hy.
  - destruct Hlen as (H1 & H2 & _); [done|]. pose proof (PAGE_OFFSET_range laddr).
    apply Z.leb_gt in Ep. unfold mbind, M_bind.
    destruct (access_read_physical _ (Z.to_nat (xl_len1 _)) _) as [d1 ?|? ? ?|] eqn:D1; [|done|done].
    destruct (access_read_physical _ (Z.to_nat (xl_len2 _)) _) as [d2 ?|? ? ?|] eqn:D2; [|done|done].
    apply readPhysicalPage_length in D1, D2. intros [= <- _].
    replace n with (length (d1 ++ d2)) by (rewrite length_app; lia). apply le_combine_range.
Qed.
#[export] Hint Resolve access_read_linear_yields : yields.

(** *** A page directory to try things on

    One 4K page: linear 0x000 is mapped to physical 0x3000, user, writable, not
    accessed yet. *)
Definition paged_machine : machine :=
  store_dwords [(0x1000, 0x2007); (0x2000, 0x3007)]
    (with_cr3 0x1000 (with_cr0 0x80000001 (machine_zero 0x4000))).

(** One 4M page at physical 0 with bit 12 of its entry set. *)
Definition pse_machine : machine :=
  store_dwords [(0x1000, 0x1081)]
    (with_cr4 0x10 (with_cr3 0x1000 (with_cr0 0x80000001 (machine_zero 0x4000)))).

(** ** Properties *)

Lemma reserved_checked pde : Z.testbit pde 12 = false -> reserved_4M pde = checked_4M pde.
Proof.
  intros H. pose proof (Z.testbit_spec' pde 12) as Hs. rewrite H in Hs. cbn [Z.b2z] in Hs.
  unfold reserved_4M, checked_4M. f_equal. apply eq_true_iff_eq. rewrite !Z.eqb_eq. divlia.
Qed.
Lemma reserved_walk s laddr curr_pl rw :
  let pde := phys_dword s (pde_address (cr3 s) laddr) in
  (Z.testbit pde 7 && pse_of s = true -> Z.testbit pde 12 = false) ->
  walk_of s laddr curr_pl rw =
    page_walk reserved_4M (phys_dword s) (cr3 s) (wp_of s) (pse_of s) laddr (curr_pl =? 3) (Z.testbit rw 0).
Proof.
  intros pde H. unfold walk_of, page_walk. fold pde. destruct (Z.testbit pde 7 && pse_of s); [|done].
  by rewrite (reserved_checked pde (H eq_refl)).
Qed.
(** With bit 12 set the code translates where the table asks for a page fault. *)
Lemma reserved_bit_accepted :
  page_walk reserved_4M (phys_dword pse_machine) 0x1000 false true 0 false false = WalkFault 9 /\
  exists s', translate_linear 0 0 BX_READ pse_machine = Ret 0 s'.
Proof. split; [reflexivity|]. eexists. vm_compute. reflexivity. Qed.

(** C6: [translate_linear] is the architectural translation, wherever the entries
    it reads are inside the memory and, for a 4M page, bit 12 of the entry is
    clear (the table above the code has it reserved, the code does not look at it).
    With paging off it is the identity.  With paging on it agrees with the
    reference walk on every branch: the same page faults with the same error code
    and CR2, the same physical address, and no change to memory but the accessed
    and dirty bits the reference sets. *)
Theorem translate_linear_correct s laddr curr_pl rw :
  let pde := phys_dword s (pde_address (cr3 s) laddr) in
  0 <= laddr < 2 ^ 32 -> 0 <= cr3 s < 2 ^ 32 -> walk_mapped s laddr = true ->
  (Z.testbit pde 7 && pse_of s = true -> Z.testbit pde 12 = false) ->
  translate_linear laddr curr_pl rw s =
    if Z.testbit (cr0 s) 31 then
      match page_walk reserved_4M (phys_dword s) (cr3 s) (wp_of s) (pse_of s) laddr (curr_pl =? 3)
              (Z.testbit rw 0) with
      | WalkFault code => Fault BX_PF_EXCEPTION code (with_cr2 laddr s)
      | WalkOk paddr large ws => Ret paddr (after_walk large ws s)
      end
    else Ret laddr s.
Proof.
  intros pde Hl Hc Hm H12. destruct (Z.testbit (cr0 s) 31) eqn:E; [|by apply translate_linear_nopaging].
  rewrite translate_linear_walk by done. by rewrite (reserved_walk s laddr curr_pl rw H12).
Qed.

(** C27: a translation that succeeds can be repeated: the same access finds the
    same physical address, and the page tables are already marked, so the
    second walk changes nothing.  This is what makes running without a TLB
    sound. *)
Theorem translate_linear_repeat s laddr curr_pl rw pa s' :
  0 <= laddr < 2 ^ 32 -> 0 <= cr3 s < 2 ^ 32 -> walk_mapped s laddr = true ->
  translate_linear laddr curr_pl rw s = Ret pa s' ->
  translate_linear laddr curr_pl rw s' = Ret pa s'.
Proof.
  intros Hl Hc Hm. destruct (Z.testbit (cr0 s) 31) eqn:E.
  2:{ rewrite translate_linear_nopaging by done. intros [= <- <-].
      by apply translate_linear_nopaging. }
  rewrite translate_linear_walk by done.
  destruct (walk_of s laddr curr_pl rw) as [|pa' large ws] eqn:Hw; [done|]. intros [= <- <-].
  destruct (wp_pse_after_walk large ws s) as (_ & _ & E3 & E0).
  rewrite translate_linear_walk; rewrite ?E3, ?E0; try done.
  - by rewrite (walk_of_again _ _ _ _ _ _ _ Hw), after_walk_again.
  - by eapply walk_mapped_again.
Qed.

(** C28: wherever [translate_linear] succeeds, the walk the exploration driver
    uses ([dbg_xlate_linear2phy]) finds the same physical address, provided
    PDE.PS is only set when CR4.PSE is and bit 12 of a 4M entry is clear; and
    it leaves the state alone. *)
Theorem dbg_xlate_agrees s laddr curr_pl rw pa s' :
  let pde := phys_dword s (pde_address (cr3 s) laddr) in
  0 <= laddr < 2 ^ 32 -> 0 <= cr3 s < 2 ^ 32 -> walk_mapped s laddr = true ->
  (Z.testbit pde 7 = true -> pse_of s = true /\ Z.testbit pde 12 = false) ->
  translate_linear laddr curr_pl rw s = Ret pa s' ->
  dbg_xlate_linear2phy laddr s = Ret (Some pa) s.
Proof.
  intros pde Hl Hc Hm Hps. destruct (Z.testbit (cr0 s) 31) eqn:Hpg.
  2:{ rewrite translate_linear_nopaging by done. intros [= <- <-].
      unfold dbg_xlate_linear2phy. erewrite bind_Ret by done.
      unfold cr0_get_PG. by rewrite cr_bit_b2z, Hpg by lia. }
  rewrite translate_linear_walk by done. unfold walk_of, page_walk, checked_4M. fold pde.
  unfold walk_mapped in Hm. fold pde in Hm. apply andb_true_iff in Hm as [Hm1 Hm2].
  destruct (negb (Z.testbit pde 0)) eqn:Hpr; [by intros|]. cbn [orb] in Hm2.
  intros Hw. rewrite dbg_xlate_eq; try done; fold pde.
  2:{ apply orb_true_iff in Hm2 as [[? _]%andb_true_iff|?]; auto. }
  rewrite Hpr. clear Hpr.
  destruct (Z.testbit pde 7); cbn [andb] in Hw.
  - destruct Hps as [Hpse Hb]; [done|]. rewrite Hpse in Hw.
    destruct (negb (_ =? 0)) eqn:Hres; [done|]. destruct (negb (perm_ok _ _ _ _ _)); [done|].
    injection Hw as <- _. do 2 f_equal.
    apply negb_false_iff, Z.eqb_eq in Hres.
    pose proof (Z.testbit_spec' pde 12) as Hs. rewrite Hb in Hs. cbn [Z.b2z] in Hs.
    pose proof (phys_dword_range s (pde_address (cr3 s) laddr)) as Hr. fold pde in Hr.
    rewrite wrap_small by divlia. divlia.
  - destruct (negb (Z.testbit _ 0)); [done|]. destruct (negb (perm_ok _ _ _ _ _)); [done|].
    by injection Hw as <- _.
Qed.

Lemma translate_linear_correct_witness :
  exists s', translate_linear 0x123 3 BX_WRITE paged_machine = Ret 0x3123 s' /\
             phys_dword s' 0x2000 = 0x3067.
Proof.
  eexists. split.
  - etransitivity; [apply (translate_linear_correct paged_machine); vm_compute; split; congruence|].
    vm_compute. reflexivity.
  - vm_compute. reflexivity.
Defined.

Lemma translate_linear_repeat_witness :
  exists s', translate_linear 0x123 3 BX_WRITE paged_machine = Ret 0x3123 s' /\
             translate_linear 0x123 3 BX_WRITE s' = Ret 0x3123 s'.
Proof.
  eexists. split; [vm_compute; reflexivity|].
  apply (translate_linear_repeat paged_machine); vm_compute; try reflexivity; split; congruence.
Defined.

Lemma dbg_xlate_agrees_witness :
  dbg_xlate_linear2phy 0x123 paged_machine = Ret (Some 0x3123) paged_machine.
Proof.
  eapply (dbg_xlate_agrees paged_machine 0x123 3 BX_WRITE);
    vm_compute; try reflexivity; split; congruence.
Defined.

(** The two walks differ on a 4M page whose entry has bit 12 set: the
    processor's walk ignores the bit, the driver's adds it to the address. *)
Theorem dbg_xlate_differs :
  exists s' : machine,
    translate_linear 0 0 BX_READ pse_machine = Ret 0 s' /\
    dbg_xlate_linear2phy 0 pse_machine = Ret (Some 0x1000) pse_machine.
Proof. eexists. split; vm_compute; reflexivity. Qed.
