(* ===== verification/Access.v ===== *)
(** * Access: segmented memory accesses

    cpu/access.cc (segment checks, accesses by linear address for the system)
    and cpu/access32.cc (reads, writes and read-modify-writes through a segment
    register).  A segment register caches, in two bits of [cache.valid], that
    reads or writes through it have passed the full check once; later accesses
    then only compare the offset with the limit. *)
From stdpp Require Import base numbers list gmap.
From Stdlib Require Import ZArith Lia.
From S2P Require Import Prelude Machine LazyFlags Memory Paging.

Local Open Scope Z_scope.

Definition SegValidCache : Z := 0x01.
Definition SegAccessROK : Z := 0x02.
Definition SegAccessWOK : Z := 0x04.

(** ** Segment checks (cpu/access.cc)

    The checks take the segment register by reference and may set its cache
    bits: they return the verdict and the register. *)

Definition mark_access (bits : Z) (seg : bx_segment_reg_t) : bx_segment_reg_t :=
  with_cache (with_desc_valid (Z.lor (desc_valid (cache seg)) bits) (cache seg)) seg.

(** [offset > limit_scaled - length + 1 || length-1 > limit_scaled], in 32 bits. *)
Definition beyond_limit (seg : bx_segment_reg_t) (offset length : Z) : bool :=
  let limit := seg_limit_scaled (cache seg) in
  (u32 (limit - length + 1) <? offset) || (limit <? u32 (length - 1)).

(** The expand-down test. *)
Definition beyond_limit_ED (seg : bx_segment_reg_t) (offset length : Z) : bool :=
  let upper_limit := if nz (seg_d_b (cache seg)) then 0xffffffff else 0x0000ffff in
  (offset <=? seg_limit_scaled (cache seg)) || (upper_limit <? offset) ||
  (u32 (upper_limit - offset) <? u32 (length - 1)).

Definition write_virtual_checks (seg : bx_segment_reg_t) (offset length : Z)
    : bool * bx_segment_reg_t :=
  let c := cache seg in
  if desc_valid c =? 0 then (false, seg)
  else if desc_p c =? 0 then (false, seg)
  else if case_in (desc_type c) [0; 1; 4; 5; 8; 9; 10; 11; 12; 13; 14; 15] then (false, seg)
  else if case_in (desc_type c) [2; 3] then
    if beyond_limit seg offset length then (false, seg)
    else if 15 <=? seg_limit_scaled c then (true, mark_access (Z.lor SegAccessROK SegAccessWOK) seg)
    else (true, seg)
  else if case_in (desc_type c) [6; 7] then
    if beyond_limit_ED seg offset length then (false, seg) else (true, seg)
  else (true, seg).

Definition read_virtual_checks (seg : bx_segment_reg_t) (offset length : Z)
    : bool * bx_segment_reg_t :=
  let c := cache seg in
  if desc_valid c =? 0 then (false, seg)
  else if desc_p c =? 0 then (false, seg)
  else if case_in (desc_type c) [0; 1; 2; 3; 10; 11; 14; 15] then
    if beyond_limit seg offset length then (false, seg)
    else if 15 <=? seg_limit_scaled c then (true, mark_access SegAccessROK seg)
    else (true, seg)
  else if case_in (desc_type c) [4; 5; 6; 7] then
    if beyond_limit_ED seg offset length then (false, seg) else (true, seg)
  else if case_in (desc_type c) [8; 9; 12; 13] then (false, seg)
  else (true, seg).

Definition execute_virtual_checks (seg : bx_segment_reg_t) (offset length : Z)
    : bool * bx_segment_reg_t :=
  let c := cache seg in
  if desc_valid c =? 0 then (false, seg)
  else if desc_p c =? 0 then (false, seg)
  else if case_in (desc_type c) [0; 1; 2; 3; 10; 11; 14; 15] then
    if beyond_limit seg offset length then (false, seg)
    else if 15 <=? seg_limit_scaled c then (true, mark_access SegAccessROK seg)
    else (true, seg)
  else if case_in (desc_type c) [8; 9; 12; 13] then
    if beyond_limit seg offset length then (false, seg) else (true, seg)
  else if case_in (desc_type c) [4; 5; 6; 7] then
    if beyond_limit_ED seg offset length then (false, seg) else (true, seg)
  else (true, seg).

Definition int_number (s : Z) : Z :=
  if s =? BX_SEG_REG_SS then BX_SS_EXCEPTION else BX_GP_EXCEPTION.

(** ** Accesses through a segment register (cpu/access32.cc)

    The functions for 1, 2, 4 and 8 bytes differ in the comparison of the fast
    path ([fast_limit_ok]) and in the alignment check, which bytes do not have. *)

Definition fast_limit_ok (len : nat) (offset limit : Z) : bool :=
  match len with
  | 1%nat => offset <=? limit
  | 2%nat => offset <? limit
  | 4%nat => offset <? u32 (limit - 2)
  | _ => offset <=? u32 (limit - 7)
  end.

Definition alignment_ok (len : nat) (laddr : Z) : Mach unit :=
  if (len =? 1)%nat then mret tt else
  ac ← gets alignment_check_mask;
  when (nz ac && nz (Z.land laddr (Z.of_nat len - 1))) (exception BX_AC_EXCEPTION 0).

(** The checks in front of the label [accessOK]. *)
Definition segment_checks (right : Z)
    (checks : bx_segment_reg_t -> Z -> Z -> bool * bx_segment_reg_t)
    (len : nat) (s offset : Z) : Mach unit :=
  seg ← gets (sreg s);
  if nz (Z.land (desc_valid (cache seg)) right) then
    when (negb (fast_limit_ok len offset (seg_limit_scaled (cache seg))))
      (exception (int_number s) 0)
  else
    let '(ok, seg') := checks seg offset (Z.of_nat len) in
    modify (set_sreg s seg');;
    when (negb ok) (exception (int_number s) 0).

Definition write_virtual_32 (len : nat) (s offset data : Z) : Mach unit :=
  segment_checks SegAccessWOK write_virtual_checks len s offset;;
  laddr ← get_laddr32 s offset;
  alignment_ok len laddr;;
  cpl ← gets CPL;
  access_write_linear laddr len cpl data.

Definition write_virtual_byte_32 := write_virtual_32 1.
Definition write_virtual_word_32 := write_virtual_32 2.
Definition write_virtual_dword_32 := write_virtual_32 4.
Definition write_virtual_qword_32 := write_virtual_32 8.

Definition read_virtual_32 (len : nat) (s offset : Z) : Mach Z :=
  segment_checks SegAccessROK read_virtual_checks len s offset;;
  laddr ← get_laddr32 s offset;
  alignment_ok len laddr;;
  cpl ← gets CPL;
  access_read_linear laddr len cpl BX_READ.

Definition read_virtual_byte_32 := read_virtual_32 1.
Definition read_virtual_word_32 := read_virtual_32 2.
Definition read_virtual_dword_32 := read_virtual_32 4.
Definition read_virtual_qword_32 := read_virtual_32 8.

(** *** Read-modify-write *)

(** The TLB slot of an address; [BX_TLB_INDEX_OF(lpf, len)]. *)
Definition BX_TLB_INDEX_OF (lpf len : Z) : Z :=
  Z.shiftr (Z.land (u32 (lpf + len)) (Z.shiftl (1024 - 1) 12)) 12.

Definition tlb_entry_zero : bx_TLB_entry := mk_TLB_entry 0 0 0 0 0.
Definition tlb_entry (index : Z) (s : machine) : bx_TLB_entry :=
  default tlb_entry_zero (TLB s !! index).

(** The byte version is compiled with the TLB lookup: its guard is [#ifdef]
    where the others have [#ifndef]. *)
Definition read_RMW_virtual_byte_32 (s offset : Z) : Mach Z :=
  segment_checks SegAccessWOK write_virtual_checks 1 s offset;;
  laddr ← get_laddr32 s offset;
  tlbEntry ← gets (tlb_entry (BX_TLB_INDEX_OF laddr 0));
  user ← gets user_pl;
  if (tlb_lpf tlbEntry =? LPFOf laddr) &&
     negb (nz (Z.land (tlb_accessBits tlbEntry) (Z.lor 0x2 user))) then
    let hostAddr := Z.lor (tlb_hostPageAddr tlbEntry) (PAGE_OFFSET laddr) in
    data ← host_read hostAddr 1;
    set_xlation (with_xl_pages hostAddr);;
    mret data
  else
    cpl ← gets CPL;
    access_read_linear laddr 1 cpl BX_RW.

Definition read_RMW_virtual_32 (len : nat) (s offset : Z) : Mach Z :=
  segment_checks SegAccessWOK write_virtual_checks len s offset;;
  laddr ← get_laddr32 s offset;
  alignment_ok len laddr;;
  cpl ← gets CPL;
  access_read_linear laddr len cpl BX_RW.

Definition read_RMW_virtual_word_32 := read_RMW_virtual_32 2.
Definition read_RMW_virtual_dword_32 := read_RMW_virtual_32 4.
Definition read_RMW_virtual_qword_32 := read_RMW_virtual_32 8.

Definition write_RMW_virtual_byte (val8 : Z) : Mach unit :=
  x ← gets address_xlation;
  if 2 <? xl_pages x then host_write (xl_pages x) 1 val8
  else access_write_physical (xl_paddress1 x) (le_split 1 val8).

Definition write_RMW_virtual_word (val16 : Z) : Mach unit :=
  x ← gets address_xlation;
  if 2 <? xl_pages x then host_write (xl_pages x) 2 val16
  else if xl_pages x =? 1 then access_write_physical (xl_paddress1 x) (le_split 2 val16)
  else
    access_write_physical (xl_paddress1 x) (take 1 (le_split 2 val16));;
    access_write_physical (xl_paddress2 x) (drop 1 (le_split 2 val16)).

(** The four- and eight-byte versions: [len1] bytes to the first page, the rest
    to the second. *)
Definition write_RMW_virtual (len : nat) (val : Z) : Mach unit :=
  x ← gets address_xlation;
  if 2 <? xl_pages x then host_write (xl_pages x) len val
  else if xl_pages x =? 1 then access_write_physical (xl_paddress1 x) (le_split len val)
  else
    access_write_physical (xl_paddress1 x) (take (Z.to_nat (xl_len1 x)) (le_split len val));;
    access_write_physical (xl_paddress2 x)
      (take (Z.to_nat (xl_len2 x)) (drop (Z.to_nat (xl_len1 x)) (le_split len val))).

Definition write_RMW_virtual_dword := write_RMW_virtual 4.
Definition write_RMW_virtual_qword := write_RMW_virtual 8.

(** *** Writes to a stack that is not loaded yet

    The segment register is a local of the caller; it is returned with its
    cache bits updated. *)
Definition write_new_stack_32 (len : nat) (seg : bx_segment_reg_t) (offset curr_pl data : Z)
    : Mach bx_segment_reg_t :=
  cpl ← gets CPL;
  let error_code := if negb (sel_rpl (selector seg) =? cpl)
                    then Z.land (sel_value (selector seg)) 0xfffc else 0 in
  seg' ← (if nz (Z.land (desc_valid (cache seg)) SegAccessWOK) then
            when (negb (fast_limit_ok len offset (seg_limit_scaled (cache seg))))
              (exception BX_SS_EXCEPTION error_code);;
            mret seg
          else
            let '(ok, seg') := write_virtual_checks seg offset (Z.of_nat len) in
            when (negb ok) (exception BX_SS_EXCEPTION error_code);;
            mret seg');
  let laddr := u32 (seg_base (cache seg) + offset) in
  let user := curr_pl =? 3 in
  ac ← gets alignment_check_mask;
  when (nz ac && user && nz (Z.land laddr (Z.of_nat len - 1))) (exception BX_AC_EXCEPTION 0);;
  access_write_linear laddr len curr_pl data;;
  mret seg'.

Definition write_new_stack_word_32 := write_new_stack_32 2.
Definition write_new_stack_dword_32 := write_new_stack_32 4.
Definition write_new_stack_qword_32 := write_new_stack_32 8.

(** ** System accesses by linear address (cpu/access.cc)

    These have the TLB lookup in every build. *)
Definition system_read (len : nat) (laddr : Z) : Mach Z :=
  tlbEntry ← gets (tlb_entry (BX_TLB_INDEX_OF laddr (Z.of_nat len - 1)));
  if tlb_lpf tlbEntry =? LPFOf laddr then
    host_read (Z.lor (tlb_hostPageAddr tlbEntry) (PAGE_OFFSET laddr)) len
  else access_read_linear laddr len 0 BX_READ.

Definition system_read_byte := system_read 1.
Definition system_read_word := system_read 2.
Definition system_read_dword := system_read 4.
Definition system_read_qword := system_read 8.

Definition system_write (len : nat) (laddr data : Z) : Mach unit :=
  tlbEntry ← gets (tlb_entry (BX_TLB_INDEX_OF laddr (Z.of_nat len - 1)));
  if (tlb_lpf tlbEntry =? LPFOf laddr) && negb (nz (Z.land (tlb_accessBits tlbEntry) 0x2)) then
    host_write (Z.lor (tlb_hostPageAddr tlbEntry) (PAGE_OFFSET laddr)) len data
  else access_write_linear laddr len 0 data.

Definition system_write_byte := system_write 1.
Definition system_write_word := system_write 2.
Definition system_write_dword := system_write 4.

(** A host pointer to a byte of guest memory, or 0. *)
Definition v2h_byte (mask laddr : Z) : Mach Z :=
  tlbEntry ← gets (tlb_entry (BX_TLB_INDEX_OF laddr 0));
  if (tlb_lpf tlbEntry =? LPFOf laddr) && negb (nz (Z.land (tlb_accessBits tlbEntry) mask)) then
    mret (Z.lor (tlb_hostPageAddr tlbEntry) (PAGE_OFFSET laddr))
  else mret 0.
Definition v2h_read_byte (laddr user : Z) : Mach Z := v2h_byte user laddr.
Definition v2h_write_byte (laddr user : Z) : Mach Z := v2h_byte (Z.lor 0x2 user) laddr.

(** ** What the segment checks decide

    The architectural rule: the segment is usable, its type allows the access,
    and every byte of it lies in the segment. *)

Definition type_code (t : Z) : bool := Z.testbit t 3.
Definition type_expand_down (t : Z) : bool := negb (type_code t) && Z.testbit t 2.
Definition type_writable (t : Z) : bool := negb (type_code t) && Z.testbit t 1.
Definition type_readable (t : Z) : bool := negb (type_code t) || Z.testbit t 1.

Definition in_segment (c : bx_descriptor_t) (offset length : Z) : bool :=
  if type_expand_down (desc_type c) then
    (seg_limit_scaled c <? offset) &&
    (offset + length - 1 <=? if nz (seg_d_b c) then 0xffffffff else 0xffff)
  else offset + length - 1 <=? seg_limit_scaled c.

Definition usable (c : bx_descriptor_t) : bool := nz (desc_valid c) && nz (desc_p c).

Definition allows_write (c : bx_descriptor_t) (offset length : Z) : bool :=
  usable c && type_writable (desc_type c) && in_segment c offset length.
Definition allows_read (c : bx_descriptor_t) (offset length : Z) : bool :=
  usable c && type_readable (desc_type c) && in_segment c offset length.
Definition allows_execute (c : bx_descriptor_t) (offset length : Z) : bool :=
  usable c && in_segment c offset length.

(** The invariant of a loaded segment register: its fields are in range, and a
    cache bit is only set on a present expand-up segment of a suitable type
    that is at least 16 bytes long. *)
Definition in32 (z : Z) : Prop := 0 <= z < 2 ^ 32.

Definition cache_ok (c : bx_descriptor_t) : Prop :=
  in32 (seg_base c) /\ in32 (seg_limit_scaled c) /\ 0 <= desc_type c < 16 /\
  (nz (Z.land (desc_valid c) SegAccessROK) = true ->
     usable c = true /\ type_readable (desc_type c) = true /\
     type_expand_down (desc_type c) = false /\ 15 <= seg_limit_scaled c) /\
  (nz (Z.land (desc_valid c) SegAccessWOK) = true ->
     usable c = true /\ type_writable (desc_type c) = true /\
     type_expand_down (desc_type c) = false /\ 15 <= seg_limit_scaled c).

(** *** Lemmas *)

Lemma beyond_limit_spec seg offset length :
  in32 (seg_limit_scaled (cache seg)) -> in32 offset -> 1 <= length <= 16 ->
  beyond_limit seg offset length = negb (offset + length - 1 <=? seg_limit_scaled (cache seg)).
Proof.
  unfold in32, beyond_limit. intros Hl Ho Hn.
  rewrite (wrap_small 32 (length - 1)) by lia.
  rewrite wrap_sub_cases by lia. zcases.
Qed.

Lemma beyond_limit_ED_spec seg offset length :
  in32 (seg_limit_scaled (cache seg)) -> in32 offset -> 1 <= length <= 16 ->
  beyond_limit_ED seg offset length =
    negb ((seg_limit_scaled (cache seg) <? offset) &&
          (offset + length - 1 <=? if nz (seg_d_b (cache seg)) then 0xffffffff else 0xffff)).
Proof.
  unfold in32, beyond_limit_ED. intros Hl Ho Hn.
  rewrite (wrap_small 32 (length - 1)) by lia.
  destruct (nz _); rewrite wrap_sub_cases by lia; zcases.
Qed.

(** Split on the sixteen descriptor types. *)
Lemma type_cases t : 0 <= t < 16 ->
  t ∈ [0; 1; 2; 3; 4; 5; 6; 7; 8; 9; 10; 11; 12; 13; 14; 15].
Proof. intros. change [0; 1; 2; 3; 4; 5; 6; 7; 8; 9; 10; 11; 12; 13; 14; 15] with (seqZ 0 16).
  apply elem_of_seqZ. lia. Qed.

Ltac split_type t H :=
  apply type_cases in H; repeat (apply elem_of_cons in H as [H|H]; [rewrite H in *|]);
  [..|by apply elem_of_nil in H].

Section Checks.
Context (seg : bx_segment_reg_t) (offset length : Z).
Context (Hl : in32 (seg_limit_scaled (cache seg))) (Ho : in32 offset) (Hn : 1 <= length <= 16)
  (Ht : 0 <= desc_type (cache seg) < 16).

(** Decide each comparison as a boolean. *)
Ltac split_cmp :=
  repeat match goal with
  | |- context [?x <=? ?y] => destruct (x <=? y)
  | |- context [?x <? ?y] => destruct (x <? y)
  | |- context [?x =? ?y] => destruct (x =? y)
  end.
Ltac check_cases :=
  unfold usable, in_segment;
  rewrite ?beyond_limit_spec, ?beyond_limit_ED_spec by done; unfold nz;
  destruct (desc_valid (cache seg) =? 0); [done|]; destruct (desc_p (cache seg) =? 0); [done|];
  revert Ht; generalize (desc_type (cache seg)) as t; intros t Ht;
  split_type t Ht; cbn -[Z.ltb Z.leb Z.add Z.sub]; split_cmp; done.

Lemma write_virtual_checks_fst :
  fst (write_virtual_checks seg offset length) = allows_write (cache seg) offset length.
Proof using Hl Ho Hn Ht. unfold write_virtual_checks, allows_write. check_cases. Qed.

Lemma read_virtual_checks_fst :
  fst (read_virtual_checks seg offset length) = allows_read (cache seg) offset length.
Proof using Hl Ho Hn Ht. unfold read_virtual_checks, allows_read. check_cases. Qed.

Lemma execute_virtual_checks_fst :
  fst (execute_virtual_checks seg offset length) = allows_execute (cache seg) offset length.
Proof using Hl Ho Hn Ht. unfold execute_virtual_checks, allows_execute. check_cases. Qed.
End Checks.

(** *** The fast path *)

Definition access_len (len : nat) : Prop := (len = 1 \/ len = 2 \/ len = 4 \/ len = 8)%nat.

(** The short comparison of the fast path is the full limit check, because the
    cache bits are only set on segments of at least 16 bytes. *)
Lemma fast_limit_ok_spec len offset limit :
  access_len len -> in32 offset -> in32 limit -> 15 <= limit ->
  fast_limit_ok len offset limit = (offset + Z.of_nat len - 1 <=? limit).
Proof.
  unfold in32. intros [->|[->|[->| ->]]] Ho Hl H; cbn -[Z.leb Z.ltb Z.add Z.sub Z.pow];
    rewrite ?wrap_small by lia; zcases.
Qed.

Lemma mark_access_0 seg : mark_access 0 seg = seg.
Proof. unfold mark_access. rewrite Z.lor_0_r. by destruct seg as [? []]. Qed.

Lemma sreg_in_range n s : (Z.to_nat n < length (sregs s))%nat -> sregs s !! Z.to_nat n = Some (sreg n s).
Proof.
  intros H. destruct (lookup_lt_is_Some_2 _ _ H) as [x Hx]. unfold sreg.
  by rewrite (nth_lookup_Some _ _ _ _ Hx).
Qed.

Lemma set_sreg_id n s : (Z.to_nat n < length (sregs s))%nat -> set_sreg n (sreg n s) s = s.
Proof.
  intros H. unfold set_sreg. rewrite list_insert_id by by apply sreg_in_range. by destruct s.
Qed.

(** A set cache bit means that the register passes the type check. *)
Lemma fast_write c offset length :
  cache_ok c -> nz (Z.land (desc_valid c) SegAccessWOK) = true ->
  allows_write c offset length = (offset + length - 1 <=? seg_limit_scaled c).
Proof.
  intros (_ & _ & _ & _ & H) Hw. destruct (H Hw) as (Hu & Ht & He & _).
  unfold allows_write, in_segment. by rewrite Hu, Ht, He.
Qed.

Lemma fast_read c offset length :
  cache_ok c -> nz (Z.land (desc_valid c) SegAccessROK) = true ->
  allows_read c offset length = (offset + length - 1 <=? seg_limit_scaled c).
Proof.
  intros (_ & _ & _ & H & _) Hw. destruct (H Hw) as (Hu & Ht & He & _).
  unfold allows_read, in_segment. by rewrite Hu, Ht, He.
Qed.

(** The register a check returns is the register with some cache bits set. *)
Lemma write_virtual_checks_snd seg offset length :
  exists bits, snd (write_virtual_checks seg offset length) = mark_access bits seg /\
    (fst (write_virtual_checks seg offset length) = false -> bits = 0).
Proof.
  unfold write_virtual_checks.
  repeat match goal with |- context [if ?b then _ else _] => destruct b end; cbn;
    first [by exists 0; rewrite mark_access_0 | by exists (Z.lor SegAccessROK SegAccessWOK)].
Qed.
Lemma read_virtual_checks_snd seg offset length :
  exists bits, snd (read_virtual_checks seg offset length) = mark_access bits seg /\
    (fst (read_virtual_checks seg offset length) = false -> bits = 0).
Proof.
  unfold read_virtual_checks.
  repeat match goal with |- context [if ?b then _ else _] => destruct b end; cbn;
    first [by exists 0; rewrite mark_access_0 | by exists SegAccessROK].
Qed.

(** [segment_checks], for any pair of a cache bit and a check that decide the
    same rule. *)
Lemma segment_checks_spec right checks allows len n offset s :
  let c := cache (sreg n s) in
  (nz (Z.land (desc_valid c) right) = true ->
     allows = (offset + Z.of_nat len - 1 <=? seg_limit_scaled c) /\ 15 <= seg_limit_scaled c) ->
  fst (checks (sreg n s) offset (Z.of_nat len)) = allows ->
  (exists bits, snd (checks (sreg n s) offset (Z.of_nat len)) = mark_access bits (sreg n s) /\
     (fst (checks (sreg n s) offset (Z.of_nat len)) = false -> bits = 0)) ->
  access_len len -> in32 offset -> in32 (seg_limit_scaled c) ->
  (Z.to_nat n < length (sregs s))%nat ->
  exists bits, segment_checks right checks len n offset s =
    if allows : bool then Ret tt (set_sreg n (mark_access bits (sreg n s)) s)
    else Fault (int_number n) 0 s.
Proof.
  intros c Hfast Hfst (bits & Hsnd & Hbits) Hlen Ho Hl Hn. unfold segment_checks. erewrite bind_Ret by done. fold c.
  destruct (nz (Z.land (desc_valid c) right)).
  - destruct (Hfast eq_refl) as [-> H15]. rewrite fast_limit_ok_spec by done.
    exists 0. rewrite mark_access_0, set_sreg_id by done. by destruct (_ <=? _).
  - destruct (checks (sreg n s) offset (Z.of_nat len)) as [ok seg'] eqn:E. cbn in Hfst, Hsnd, Hbits.
    subst ok seg'. exists bits. erewrite bind_Ret by done. destruct allows; [done|].
    rewrite (Hbits eq_refl), mark_access_0, set_sreg_id by done. done.
Qed.

(** *** The invariant of the machine *)

Definition wf (s : machine) : Prop :=
  (length (gen_reg s) = 11%nat /\ Forall in32 (gen_reg s)) /\
  (length (sregs s) = 6%nat /\ Forall (fun r => cache_ok (cache r)) (sregs s)) /\
  in32 (cr3 s) /\ TLB s = ∅ /\ 0 <= cpu_mode s <= BX_MODE_IA32_PROTECTED /\ lazy_wf s.

Lemma lor_bit_cases v b m : nz (Z.land (Z.lor v b) m) = nz (Z.land v m) || nz (Z.land b m).
Proof.
  unfold nz. rewrite Z.land_lor_distr_l, <-negb_andb. f_equal.
  apply eq_true_iff_eq. rewrite andb_true_iff, !Z.eqb_eq. apply Z.lor_eq_0_iff.
Qed.

(** Setting cache bits on a register that passed the check. *)
Lemma mark_access_ok bits seg :
  cache_ok (cache seg) -> usable (cache seg) = true ->
  type_expand_down (desc_type (cache seg)) = false -> 15 <= seg_limit_scaled (cache seg) ->
  type_readable (desc_type (cache seg)) = true ->
  (nz (Z.land bits SegAccessWOK) = true -> type_writable (desc_type (cache seg)) = true) ->
  cache_ok (cache (mark_access bits seg)).
Proof.
  intros (Hb & Hl & Ht & Hr & Hw) Hu He H15 Hrd Hwr. unfold mark_access, cache_ok. msimpl.
  assert (usable (with_desc_valid (Z.lor (desc_valid (cache seg)) bits) (cache seg)) = true) as Hu'.
  { unfold usable, nz in *. msimpl. apply andb_true_iff in Hu as [Hv ->]. rewrite andb_true_r.
    apply negb_true_iff, Z.eqb_neq in Hv. apply negb_true_iff, Z.eqb_neq.
    intros [? ?]%Z.lor_eq_0_iff. done. }
  split; [done|]. split; [done|]. split; [done|]. split; [done|].
  intros Hx. rewrite lor_bit_cases in Hx. split; [done|].
  apply orb_true_iff in Hx as [Hx|Hx]; [by destruct (Hw Hx) as (_ & ? & _)|by rewrite Hwr].
Qed.

Lemma write_virtual_checks_ok seg offset length :
  cache_ok (cache seg) -> cache_ok (cache (snd (write_virtual_checks seg offset length))).
Proof.
  intros H. unfold write_virtual_checks.
  destruct (desc_valid (cache seg) =? 0) eqn:Hv; [done|].
  destruct (desc_p (cache seg) =? 0) eqn:Hp; [done|].
  destruct (case_in _ [0; 1; 4; 5; 8; 9; 10; 11; 12; 13; 14; 15]); [done|].
  destruct (case_in _ [2; 3]) eqn:Ht; [|by repeat case_match].
  destruct (beyond_limit _ _ _); [done|]. destruct (Z.leb_spec 15 (seg_limit_scaled (cache seg))); [|done].
  cbn [case_in existsb] in Ht. rewrite orb_false_r in Ht.
  apply orb_true_iff in Ht as [Ht%Z.eqb_eq|Ht%Z.eqb_eq];
    apply mark_access_ok; rewrite ?Ht; try done; unfold usable, nz; by rewrite Hv, Hp.
Qed.

Lemma read_virtual_checks_ok seg offset length :
  cache_ok (cache seg) -> cache_ok (cache (snd (read_virtual_checks seg offset length))).
Proof.
  intros H. unfold read_virtual_checks.
  destruct (desc_valid (cache seg) =? 0) eqn:Hv; [done|].
  destruct (desc_p (cache seg) =? 0) eqn:Hp; [done|].
  destruct (case_in _ [0; 1; 2; 3; 10; 11; 14; 15]) eqn:Ht; [|by repeat case_match].
  destruct (beyond_limit _ _ _); [done|]. destruct (Z.leb_spec 15 (seg_limit_scaled (cache seg))); [|done].
  cbn [case_in existsb snd] in *. rewrite !orb_true_iff, !Z.eqb_eq in Ht.
  destruct Ht as [Ht|[Ht|[Ht|[Ht|[Ht|[Ht|[Ht|[Ht|?]]]]]]]]; try done;
    apply mark_access_ok; rewrite ?Ht; try done; unfold usable, nz; by rewrite Hv, Hp.
Qed.

Lemma set_sreg_wf n seg s : wf s -> cache_ok (cache seg) -> wf (set_sreg n seg s).
Proof.
  intros (? & (Hl & Hf) & ?) Hc. split; [done|]. split; [|done]. unfold set_sreg. msimpl. split.
  - by rewrite length_insert.
  - by apply Forall_insert.
Qed.

Lemma null_segment_ok : cache_ok (cache null_segment_reg).
Proof. unfold cache_ok, in32. cbn. repeat split; (lia || done). Qed.

Lemma sreg_ok n s : wf s -> cache_ok (cache (sreg n s)).
Proof.
  intros (_ & (Hl & Hf) & _). unfold sreg. destruct (decide (Z.to_nat n < length (sregs s))%nat) as [H|H].
  - destruct (lookup_lt_is_Some_2 _ _ H) as [x Hx]. rewrite (nth_lookup_Some _ _ _ _ Hx).
    by eapply Forall_lookup_1 in Hf.
  - rewrite nth_overflow by lia. apply null_segment_ok.
Qed.

(** *** Every access keeps the invariant *)

(** A change to a component the invariant does not mention. *)
Ltac wf_modify := apply preserves_modify; intros ? ?; assumption.

Lemma page_fault_wf {A} f l u r : preserves wf (page_fault (A := A) f l u r).
Proof. unfold page_fault. preserves_tac. wf_modify. Qed.
Lemma write_physical_wf a n v : preserves wf (write_physical a n v).
Proof.
  unfold write_physical, access_write_physical, writePhysicalPage. preserves_tac. wf_modify.
Qed.
Lemma access_write_physical_wf a l : preserves wf (access_write_physical a l).
Proof. unfold access_write_physical, writePhysicalPage. preserves_tac. wf_modify. Qed.
Lemma access_read_physical_wf a n : preserves wf (access_read_physical a n).
Proof. unfold access_read_physical, readPhysicalPage. preserves_tac. Qed.
#[export] Hint Resolve page_fault_wf write_physical_wf access_write_physical_wf
  access_read_physical_wf : preserves.
Lemma read_physical_wf a n : preserves wf (read_physical a n).
Proof. unfold read_physical. preserves_tac. Qed.
#[export] Hint Resolve read_physical_wf : preserves.
Lemma translate_linear_wf l p r : preserves wf (translate_linear l p r).
Proof. unfold translate_linear, translate_PDE4M, translate_PTE. preserves_tac. wf_modify. Qed.
Lemma set_xlation_wf f : preserves wf (set_xlation f).
Proof. wf_modify. Qed.
#[export] Hint Resolve translate_linear_wf set_xlation_wf : preserves.
Lemma xlate_access_wf l n p r : preserves wf (xlate_access l n p r).
Proof. unfold xlate_access, dtranslate_linear. preserves_tac. Qed.
#[export] Hint Resolve xlate_access_wf : preserves.
Lemma access_write_linear_wf l n p d : preserves wf (access_write_linear l n p d).
Proof. unfold access_write_linear. preserves_tac. Qed.
Lemma access_read_linear_wf l n p r : preserves wf (access_read_linear l n p r).
Proof. unfold access_read_linear. preserves_tac. Qed.
#[export] Hint Resolve access_write_linear_wf access_read_linear_wf : preserves.

Lemma segment_checks_wf right checks len n offset :
  (forall seg o l, cache_ok (cache seg) -> cache_ok (cache (snd (checks seg o l)))) ->
  preserves wf (segment_checks right checks len n offset).
Proof.
  intros Hc. unfold segment_checks. intros s Hs.
  unfold mbind, M_bind, gets. specialize (Hc (sreg n s) offset (Z.of_nat len) (sreg_ok n s Hs)).
  destruct (nz _); [by apply preserves_when; [apply preserves_raise|]|].
  destruct (checks _ _ _) as [ok seg']. cbn in Hc |- *.
  apply preserves_when; [apply preserves_raise|]. by apply set_sreg_wf.
Qed.

Lemma write_checks_wf len n offset :
  preserves wf (segment_checks SegAccessWOK write_virtual_checks len n offset).
Proof. apply segment_checks_wf, write_virtual_checks_ok. Qed.
Lemma read_checks_wf len n offset :
  preserves wf (segment_checks SegAccessROK read_virtual_checks len n offset).
Proof. apply segment_checks_wf, read_virtual_checks_ok. Qed.
Lemma alignment_ok_wf len laddr : preserves wf (alignment_ok len laddr).
Proof. unfold alignment_ok. preserves_tac. Qed.
Lemma get_laddr32_wf seg offset : preserves wf (get_laddr32 seg offset).
Proof. unfold get_laddr32. preserves_tac. Qed.
#[export] Hint Resolve write_checks_wf read_checks_wf alignment_ok_wf get_laddr32_wf : preserves.

Lemma write_virtual_32_wf len n offset d : preserves wf (write_virtual_32 len n offset d).
Proof. unfold write_virtual_32. preserves_tac. Qed.
Lemma read_virtual_32_wf len n offset : preserves wf (read_virtual_32 len n offset).
Proof. unfold read_virtual_32. preserves_tac. Qed.
Lemma read_RMW_virtual_32_wf len n offset : preserves wf (read_RMW_virtual_32 len n offset).
Proof. unfold read_RMW_virtual_32. preserves_tac. Qed.
Lemma read_RMW_virtual_byte_32_wf n offset : preserves wf (read_RMW_virtual_byte_32 n offset).
Proof. unfold read_RMW_virtual_byte_32, host_read. preserves_tac. Qed.
Lemma write_RMW_virtual_byte_wf v : preserves wf (write_RMW_virtual_byte v).
Proof. unfold write_RMW_virtual_byte, host_write. preserves_tac. Qed.
Lemma write_RMW_virtual_word_wf v : preserves wf (write_RMW_virtual_word v).
Proof. unfold write_RMW_virtual_word, host_write. preserves_tac. Qed.
Lemma write_RMW_virtual_wf len v : preserves wf (write_RMW_virtual len v).
Proof. unfold write_RMW_virtual, host_write. preserves_tac. Qed.
Lemma write_new_stack_32_wf len seg o p d : preserves wf (write_new_stack_32 len seg o p d).
Proof. unfold write_new_stack_32. preserves_tac. Qed.
Lemma system_read_wf len l : preserves wf (system_read len l).
Proof. unfold system_read, host_read. preserves_tac. Qed.
Lemma system_write_wf len l d : preserves wf (system_write len l d).
Proof. unfold system_write, host_write. preserves_tac. Qed.
#[export] Hint Resolve write_virtual_32_wf read_virtual_32_wf read_RMW_virtual_32_wf
  read_RMW_virtual_byte_32_wf write_RMW_virtual_byte_wf write_RMW_virtual_word_wf
  write_RMW_virtual_wf write_new_stack_32_wf system_read_wf system_write_wf : preserves.

(** *** No access looks at the arithmetic flags *)

Lemma segment_checks_refines r c len n o :
  refines (segment_checks r c len n o) (segment_checks r c len n o).
Proof. unfold segment_checks. refines_tac. Qed.
Lemma alignment_ok_refines len laddr : refines (alignment_ok len laddr) (alignment_ok len laddr).
Proof. unfold alignment_ok. refines_tac. Qed.
Lemma get_laddr32_refines seg o : refines (get_laddr32 seg o) (get_laddr32 seg o).
Proof. unfold get_laddr32. refines_tac. Qed.
#[export] Hint Resolve segment_checks_refines alignment_ok_refines get_laddr32_refines : refines.

Lemma write_virtual_32_refines len n o d : refines (write_virtual_32 len n o d) (write_virtual_32 len n o d).
Proof. unfold write_virtual_32. refines_tac. Qed.
Lemma read_virtual_32_refines len n o : refines (read_virtual_32 len n o) (read_virtual_32 len n o).
Proof. unfold read_virtual_32. refines_tac. Qed.
Lemma read_RMW_virtual_32_refines len n o :
  refines (read_RMW_virtual_32 len n o) (read_RMW_virtual_32 len n o).
Proof. unfold read_RMW_virtual_32. refines_tac. Qed.
Lemma read_RMW_virtual_byte_32_refines n o :
  refines (read_RMW_virtual_byte_32 n o) (read_RMW_virtual_byte_32 n o).
Proof. unfold read_RMW_virtual_byte_32, host_read, set_xlation. refines_tac. Qed.
Lemma write_RMW_virtual_byte_refines v : refines (write_RMW_virtual_byte v) (write_RMW_virtual_byte v).
Proof. unfold write_RMW_virtual_byte, host_write, access_write_physical. refines_tac. Qed.
Lemma write_RMW_virtual_word_refines v : refines (write_RMW_virtual_word v) (write_RMW_virtual_word v).
Proof. unfold write_RMW_virtual_word, host_write, access_write_physical. refines_tac. Qed.
Lemma write_RMW_virtual_refines len v : refines (write_RMW_virtual len v) (write_RMW_virtual len v).
Proof. unfold write_RMW_virtual, host_write, access_write_physical. refines_tac. Qed.
#[export] Hint Resolve write_virtual_32_refines read_virtual_32_refines read_RMW_virtual_32_refines
  read_RMW_virtual_byte_32_refines write_RMW_virtual_byte_refines write_RMW_virtual_word_refines
  write_RMW_virtual_refines : refines.

(** *** Every read returns a value of its width *)

Lemma read_virtual_32_yields len n o :
  yields (read_virtual_32 len n o) (fun v => 0 <= v < 2 ^ (8 * Z.of_nat len)).
Proof. unfold read_virtual_32. yields_tac. Qed.
Lemma read_RMW_virtual_32_yields len n o :
  yields (read_RMW_virtual_32 len n o) (fun v => 0 <= v < 2 ^ (8 * Z.of_nat len)).
Proof. unfold read_RMW_virtual_32. yields_tac. Qed.
Lemma read_RMW_virtual_byte_32_yields n o :
  yields (read_RMW_virtual_byte_32 n o) (fun v => 0 <= v < 2 ^ 8).
Proof.
  unfold read_RMW_virtual_byte_32, host_read.
  do 4 (apply yields_bind; intros ?). destruct (_ && _).
  - eapply yields_bind_with; [apply read_physical_yields|]. intros v Hv. apply yields_bind.
    intros _. by apply yields_ret.
  - apply yields_bind. intros ?. apply (access_read_linear_yields _ 1).
Qed.
#[export] Hint Resolve read_virtual_32_yields read_RMW_virtual_32_yields
  read_RMW_virtual_byte_32_yields : yields.

(** *** Linear accesses without paging *)

Section NoPaging.
Context (laddr : Z) (len : nat) (s : machine).
Context (Hl : in32 laddr) (Hpg : Z.testbit (cr0 s) 31 = false).

(** The second page of an access that crosses a page. *)
Let len1 : Z := 4096 - PAGE_OFFSET laddr.
Let laddr2 : Z := u32 (laddr + len1).
Let crosses : bool := negb (PAGE_OFFSET laddr + Z.of_nat len <=? 4096).

Lemma xlate_access_nopaging pl rw :
  exists x, xlate_access laddr len pl rw s = Ret tt (with_address_xlation x s) /\
    xl_paddress1 x = laddr /\
    (crosses = true -> xl_paddress2 x = laddr2 /\ xl_len1 x = len1 /\ xl_len2 x = Z.of_nat len - len1).
Proof using Hl Hpg.
  unfold xlate_access, dtranslate_linear. unfold in32 in Hl.
  rewrite (bind_Ret _ _ _ _ _ (translate_linear_nopaging s laddr pl rw Hl Hpg)).
  unfold set_xlation, mbind, M_bind, modify. subst crosses.
  destruct (_ <=? 4096) eqn:E; cbn [negb].
  - eexists. by split; [msimpl; reflexivity|].
  - rewrite translate_linear_nopaging; [|apply wrap_range; lia|done].
    eexists. split; [msimpl; reflexivity|]. done.
Qed.

End NoPaging.

Definition mem_of (s : machine) : gmap Z Z := mem_vector (memory s).

Lemma access_read_physical_Ret a n l (s1 s2 : machine) :
  access_read_physical a n s1 = Ret l s2 <->
  mapped s1 a (Z.of_nat n) = true /\ l = mem_bytes (mem_of s1) a n /\ s2 = s1.
Proof.
  unfold access_read_physical, readPhysicalPage, mbind, M_bind, gets.
  destruct (mapped _ _ _); [|by split; [done|intros (? & _)]].
  split; [by intros [= <- <-]|by intros (_ & -> & ->)].
Qed.

Lemma access_write_physical_Ret a l (s1 s2 : machine) :
  access_write_physical a l s1 = Ret tt s2 <->
  mapped s1 a (Z.of_nat (length l)) = true /\
  s2 = with_memory (with_mem_vector (mem_store (mem_of s1) a l) (memory s1)) s1.
Proof.
  unfold access_write_physical, writePhysicalPage, mbind, M_bind, gets, modify.
  destruct (mapped _ _ _); [|by split; [done|intros (? & _)]].
  split; [by intros [= <-]|by intros (_ & ->)].
Qed.

(** The bytes of a value, split over two pages, read back in order. *)
Lemma mem_bytes_two m a1 a2 l1 l2 :
  Forall (fun b => 0 <= b < 2 ^ 8) l1 -> Forall (fun b => 0 <= b < 2 ^ 8) l2 ->
  a1 + Z.of_nat (length l1) <= a2 \/ a2 + Z.of_nat (length l2) <= a1 ->
  mem_bytes (mem_store (mem_store m a1 l1) a2 l2) a1 (length l1) = l1 /\
  mem_bytes (mem_store (mem_store m a1 l1) a2 l2) a2 (length l2) = l2.
Proof.
  intros H1 H2 Hd. split; [|by apply mem_bytes_store_eq].
  rewrite mem_bytes_store_ne by done. by apply mem_bytes_store_eq.
Qed.

Lemma le_split_range n v : Forall (fun b => 0 <= b < 2 ^ 8) (le_split n v).
Proof.
  revert v. induction n as [|n IH]; intros v; cbn; constructor; [apply wrap_range; lia|apply IH].
Qed.

Lemma mapped_same s s' a n : mem_len (memory s') = mem_len (memory s) -> mapped s' a n = mapped s a n.
Proof. unfold mapped. by intros ->. Qed.

(** Where the bytes of an access go without paging. *)
Definition first_len (laddr : Z) (len : nat) : nat :=
  if PAGE_OFFSET laddr + Z.of_nat len <=? 4096 then len else Z.to_nat (4096 - PAGE_OFFSET laddr).
Definition second_addr (laddr : Z) : Z := u32 (laddr + (4096 - PAGE_OFFSET laddr)).

Lemma first_len_le laddr len : (first_len laddr len <= len)%nat.
Proof.
  unfold first_len. pose proof (PAGE_OFFSET_range laddr). destruct (Z.leb_spec (PAGE_OFFSET laddr + Z.of_nat len) 4096); lia.
Qed.

Lemma access_write_linear_nopaging laddr len pl d s s' :
  let n1 := first_len laddr len in let a2 := second_addr laddr in
  let data := le_split len d in
  in32 laddr -> Z.testbit (cr0 s) 31 = false ->
  access_write_linear laddr len pl d s = Ret tt s' ->
  mapped s laddr (Z.of_nat n1) = true /\
  (n1 = len \/ mapped s a2 (Z.of_nat (len - n1)) = true) /\
  exists x, s' = with_memory (with_mem_vector
    (mem_store (mem_store (mem_of s) laddr (take n1 data)) a2 (drop n1 data)) (memory s))
    (with_address_xlation x s).
Proof.
  intros n1 a2 data Hl Hpg. unfold access_write_linear.
  destruct (xlate_access_nopaging laddr len s Hl Hpg pl BX_WRITE) as (x & E & Hp1 & Hp2).
  rewrite (bind_Ret _ _ _ _ _ E). erewrite bind_Ret by done. msimpl. rewrite Hp1.
  pose proof (le_split_length len d) as Hlen. fold data in Hlen |- *.
  pose proof (first_len_le laddr len) as Hle. fold n1 in Hle. unfold n1, first_len in *.
  destruct (_ <=? 4096); cbn [negb] in Hp2.
  - intros [Hm ->]%access_write_physical_Ret. rewrite Hlen in Hm. split; [done|]. split; [by left|].
    exists x. rewrite take_ge, drop_ge by lia. done.
  - destruct (Hp2 eq_refl) as (-> & -> & _). intros H. unfold mbind, M_bind in H.
    destruct (access_write_physical laddr _ _) as [[] s1|? ? ?|] eqn:E1; [|done|done].
    apply access_write_physical_Ret in E1 as [Hm1 ->].
    apply access_write_physical_Ret in H as [Hm2 ->].
    rewrite length_take, Hlen, Nat.min_l in Hm1 by lia. rewrite length_drop, Hlen in Hm2.
    split; [done|]. split; [by right|]. by exists x.
Qed.

Lemma access_read_linear_nopaging laddr len pl s :
  let n1 := first_len laddr len in let a2 := second_addr laddr in
  in32 laddr -> Z.testbit (cr0 s) 31 = false ->
  mapped s laddr (Z.of_nat n1) = true ->
  (n1 = len \/ mapped s a2 (Z.of_nat (len - n1)) = true) ->
  exists x, access_read_linear laddr len pl BX_READ s =
    Ret (le_combine (mem_bytes (mem_of s) laddr n1 ++ mem_bytes (mem_of s) a2 (len - n1)))
      (with_address_xlation x s).
Proof.
  intros n1 a2 Hl Hpg Hm1 Hm2. unfold access_read_linear.
  destruct (xlate_access_nopaging laddr len s Hl Hpg pl BX_READ) as (x & E & Hp1 & Hp2).
  rewrite (bind_Ret _ _ _ _ _ E). erewrite bind_Ret by done. msimpl. rewrite Hp1.
  pose proof (PAGE_OFFSET_range laddr) as Hoff.
  exists x. unfold n1, first_len in *. destruct (Z.leb_spec (PAGE_OFFSET laddr + Z.of_nat len) 4096) as [Hc|Hc].
  - erewrite bind_Ret by by apply access_read_physical_Ret.
    unfold mret, M_ret, mem_of. msimpl. by rewrite Nat.sub_diag, app_nil_r.
  - destruct (Hp2 eq_refl) as (-> & -> & ->). fold (second_addr laddr).
    destruct Hm2 as [?|Hm2]; [lia|].
    replace (Z.to_nat (Z.of_nat len - (4096 - PAGE_OFFSET laddr)))
      with (len - Z.to_nat (4096 - PAGE_OFFSET laddr))%nat by lia.
    erewrite bind_Ret by by apply access_read_physical_Ret.
    erewrite bind_Ret by by apply access_read_physical_Ret. done.
Qed.

(** Without paging, what a linear write stores a linear read returns. *)
Lemma linear_write_read laddr len pl d s s' :
  in32 laddr -> Z.testbit (cr0 s) 31 = false -> (len <= 8)%nat ->
  access_write_linear laddr len pl d s = Ret tt s' ->
  (exists x, s' = with_memory (memory s') (with_address_xlation x s)) /\
  forall s2 pl', memory s2 = memory s' -> cr0 s2 = cr0 s ->
    exists x, access_read_linear laddr len pl' BX_READ s2 =
      Ret (wrap (8 * Z.of_nat len) d) (with_address_xlation x s2).
Proof.
  intros Hl Hpg Hn H. apply access_write_linear_nopaging in H as (Hm1 & Hm2 & x & ->); [|done..].
  split; [by exists x|]. intros s2 pl' Hmem Hcr. msimpl_in_all.
  set (n1 := first_len laddr len) in *. pose proof (first_len_le laddr len) as Hle. fold n1 in Hle.
  assert (forall a n, mapped s2 a n = mapped s a n) as Hmap
    by (intros; apply mapped_same; by rewrite Hmem).
  destruct (access_read_linear_nopaging laddr len pl' s2) as [y ->]; fold n1; rewrite ?Hmap, ?Hcr; try done.
  exists y. f_equal. unfold mem_of at 1 2. rewrite Hmem. msimpl.
  pose proof (le_split_length len d) as Hlen. pose proof (le_split_range len d) as Hb.
  destruct (mem_bytes_two (mem_of s) laddr (second_addr laddr) (take n1 (le_split len d))
    (drop n1 (le_split len d))) as [E1 E2]; [by apply Forall_take|by apply Forall_drop| |].
  - rewrite length_take, length_drop, Hlen, Nat.min_l by lia. unfold in32 in Hl.
    pose proof (PAGE_OFFSET_range laddr). unfold n1, first_len, second_addr in *.
    rewrite wrap_add_cases by lia.
    destruct (Z.leb_spec (PAGE_OFFSET laddr + Z.of_nat len) 4096),
      (Z.ltb_spec (laddr + (4096 - PAGE_OFFSET laddr)) (2 ^ 32)); lia.
  - rewrite length_take, Hlen, Nat.min_l in E1 by lia. rewrite length_drop, Hlen in E2.
    by rewrite E1, E2, take_drop, le_combine_split.
Qed.

(** *** The checks of a well-formed machine *)

Lemma wf_sregs_length s n : wf s -> 0 <= n < 6 -> (Z.to_nat n < length (sregs s))%nat.
Proof. intros (_ & (-> & _) & _) ?. lia. Qed.

Lemma access_len_range len : access_len len -> 1 <= Z.of_nat len <= 16.
Proof. unfold access_len. lia. Qed.

Lemma write_segment_checks s n offset len :
  wf s -> 0 <= n < 6 -> in32 offset -> access_len len ->
  exists bits, segment_checks SegAccessWOK write_virtual_checks len n offset s =
    if allows_write (cache (sreg n s)) offset (Z.of_nat len)
    then Ret tt (set_sreg n (mark_access bits (sreg n s)) s) else Fault (int_number n) 0 s.
Proof.
  intros Hwf Hn Ho Hlen. pose proof (sreg_ok n s Hwf) as Hc.
  pose proof Hc as (_ & Hlim & Ht & _ & Hw).
  apply segment_checks_spec; try done.
  - intros Hv. split; [by apply fast_write|]. by destruct (Hw Hv) as (_ & _ & _ & ?).
  - apply write_virtual_checks_fst; try done. by apply access_len_range.
  - apply write_virtual_checks_snd.
  - by apply wf_sregs_length.
Qed.

Lemma read_segment_checks s n offset len :
  wf s -> 0 <= n < 6 -> in32 offset -> access_len len ->
  exists bits, segment_checks SegAccessROK read_virtual_checks len n offset s =
    if allows_read (cache (sreg n s)) offset (Z.of_nat len)
    then Ret tt (set_sreg n (mark_access bits (sreg n s)) s) else Fault (int_number n) 0 s.
Proof.
  intros Hwf Hn Ho Hlen. pose proof (sreg_ok n s Hwf) as Hc.
  pose proof Hc as (_ & Hlim & Ht & Hr & _).
  apply segment_checks_spec; try done.
  - intros Hv. split; [by apply fast_read|]. by destruct (Hr Hv) as (_ & _ & _ & ?).
  - apply read_virtual_checks_fst; try done. by apply access_len_range.
  - apply read_virtual_checks_snd.
  - by apply wf_sregs_length.
Qed.

Lemma sreg_set_sreg n seg s :
  (Z.to_nat n < length (sregs s))%nat -> sreg n (set_sreg n seg s) = seg.
Proof.
  intros H. unfold sreg, set_sreg. msimpl. apply nth_lookup_Some.
  by apply list_lookup_insert_eq.
Qed.

(** The alignment check reads one field and changes nothing. *)
Lemma alignment_ok_Ret len laddr s s' : alignment_ok len laddr s = Ret tt s' -> s' = s.
Proof.
  unfold alignment_ok. destruct (len =? 1)%nat; [by intros [= <-]|].
  unfold mbind, M_bind, gets. destruct (_ && _); [done|by intros [= <-]].
Qed.
Lemma alignment_ok_same s s' len laddr :
  alignment_check_mask s' = alignment_check_mask s ->
  alignment_ok len laddr s = Ret tt s -> alignment_ok len laddr s' = Ret tt s'.
Proof.
  unfold alignment_ok. destruct (len =? 1)%nat; [done|].
  unfold mbind, M_bind, gets. intros ->. by destruct (_ && _).
Qed.

Lemma allows_write_read c o l bits :
  allows_write c o l = true ->
  allows_read (with_desc_valid (Z.lor (desc_valid c) bits) c) o l = true.
Proof.
  unfold allows_write, allows_read, usable, type_writable, type_readable, nz. msimpl.
  rewrite !andb_true_iff, orb_true_iff, !negb_true_iff, !Z.eqb_neq.
  intros (((Hv & Hp) & (Ht & _)) & Hi). repeat split; try done; [|by left].
  by intros [? ?]%Z.lor_eq_0_iff.
Qed.

(** ** Properties *)

(** C13: a write (read) through a segment register passes the segment checks
    exactly when the segment is present and valid, its type allows writing
    (reading), and every byte of the access lies inside the segment, expand-down
    segments included.  Otherwise it raises #SS for SS and #GP for the others
    and changes nothing.  This covers the fast path, whose shorter comparison
    relies on the cache bits only being set for segments of 16 bytes or more. *)
Theorem segment_checks_correct s n offset len :
  wf s -> 0 <= n < 6 -> in32 offset -> access_len len ->
  (exists bits, segment_checks SegAccessWOK write_virtual_checks len n offset s =
     if allows_write (cache (sreg n s)) offset (Z.of_nat len)
     then Ret tt (set_sreg n (mark_access bits (sreg n s)) s) else Fault (int_number n) 0 s) /\
  (exists bits, segment_checks SegAccessROK read_virtual_checks len n offset s =
     if allows_read (cache (sreg n s)) offset (Z.of_nat len)
     then Ret tt (set_sreg n (mark_access bits (sreg n s)) s) else Fault (int_number n) 0 s).
Proof.
  intros. split; [by apply write_segment_checks|by apply read_segment_checks].
Qed.

Lemma write_read_virtual s n offset len d s' :
  wf s -> 0 <= n < 6 -> in32 offset -> access_len len -> Z.testbit (cr0 s) 31 = false ->
  write_virtual_32 len n offset d s = Ret tt s' ->
  exists s'', read_virtual_32 len n offset s' = Ret (wrap (8 * Z.of_nat len) d) s''.
Proof.
  intros Hwf Hn Ho Hlen Hpg. pose proof (wf_sregs_length s n Hwf Hn) as Hln.
  intros Hw. pose proof (write_virtual_32_wf len n offset d s Hwf) as Hwf'. rewrite Hw in Hwf'.
  unfold write_virtual_32 in Hw.
  destruct (write_segment_checks s n offset len Hwf Hn Ho Hlen) as [bits E].
  unfold mbind, M_bind in Hw. rewrite E in Hw.
  destruct (allows_write _ _ _) eqn:Ha; [|done].
  set (s1 := set_sreg n (mark_access bits (sreg n s)) s) in *.
  assert (sreg n s1 = mark_access bits (sreg n s)) as Hs1 by by apply sreg_set_sreg.
  unfold get_laddr32, gets in Hw. rewrite Hs1 in Hw.
  set (laddr := u32 (seg_base (cache (mark_access bits (sreg n s))) + offset)) in *.
  assert (in32 laddr) as Hl by (apply wrap_range; lia).
  destruct (alignment_ok len laddr s1) as [[] s1'|? ? ?|] eqn:Hal; [|done|done].
  pose proof (alignment_ok_Ret _ _ _ _ Hal) as ->.
  apply linear_write_read in Hw as [[x Hs'] Hrd];
    [|done|exact Hpg|unfold access_len in Hlen; lia].
  unfold read_virtual_32.
  destruct (read_segment_checks s' n offset len Hwf' Hn Ho Hlen) as [bits' E'].
  assert (sreg n s' = mark_access bits (sreg n s)) as Hsr.
  { rewrite Hs'. by transitivity (sreg n s1). }
  rewrite Hsr in E'. unfold mark_access at 1 in E'. msimpl_in_all.
  rewrite (allows_write_read _ _ _ bits Ha) in E'. rewrite (bind_Ret _ _ _ _ _ E').
  set (s2 := set_sreg _ _ s').
  assert ((Z.to_nat n < length (sregs s'))%nat) as Hln' by by apply wf_sregs_length.
  assert (sreg n s2 = mark_access bits' (mark_access bits (sreg n s))) as Hs2
    by by apply sreg_set_sreg.
  erewrite bind_Ret by done. rewrite Hs2.
  change (u32 (seg_base (cache (mark_access bits' (mark_access bits (sreg n s)))) + offset))
    with laddr.
  assert (alignment_ok len laddr s2 = Ret tt s2) as Hal2
    by (apply (alignment_ok_same s1); [by unfold s2; rewrite Hs'|done]).
  rewrite (bind_Ret _ _ _ _ _ Hal2). erewrite bind_Ret by done.
  destruct (Hrd s2 (CPL s2)) as [y ->]; [done|by unfold s2; rewrite Hs'|]. by eexists.
Qed.

(** C29: without paging, a value written through a segment register is read
    back through it, for every width, also when the access crosses a page or
    wraps at the end of the address space. *)
Theorem write_then_read s n offset len d s' :
  wf s -> 0 <= n < 6 -> in32 offset -> access_len len -> Z.testbit (cr0 s) 31 = false ->
  write_virtual_32 len n offset d s = Ret tt s' ->
  exists s'', read_virtual_32 len n offset s' = Ret (wrap (8 * Z.of_nat len) d) s''.
Proof. apply write_read_virtual. Qed.

(** *** The TLB that is never filled *)

Lemma LPFOf_zero laddr : in32 laddr -> (0 =? LPFOf laddr) = (laddr <? 4096).
Proof.
  unfold in32, LPFOf. intros H. change 0xfffff000 with (2 ^ 32 - 2 ^ 12).
  rewrite land_high_mask by lia. zcases; divlia.
Qed.

(** A page offset is not a host address of guest memory. *)
Lemma host_read_null laddr len s : host_read (PAGE_OFFSET laddr) len s = Crash.
Proof.
  pose proof (PAGE_OFFSET_range laddr). unfold host_read, read_physical, access_read_physical,
    readPhysicalPage, mbind, M_bind, gets, mapped, physmem_base.
  by rewrite (proj2 (Z.leb_gt _ _)) by lia.
Qed.

Lemma tlb_entry_empty s i : TLB s = ∅ -> tlb_entry i s = tlb_entry_zero.
Proof. unfold tlb_entry. by intros ->. Qed.

Lemma wf_TLB s : wf s -> TLB s = ∅.
Proof. by intros (_ & _ & _ & ? & _). Qed.

(** C39: the byte read-modify-write is compiled with the TLB lookup that this
    build removes everywhere else.  No TLB entry is ever filled, so a zero entry
    matches linear page 0 and the emulator dereferences a null host page.  On
    every other page the lookup misses, and the function is the same as those
    for words and double words. *)
Theorem read_RMW_byte_null_page s n offset :
  wf s -> 0 <= n < 6 -> in32 offset ->
  read_RMW_virtual_byte_32 n offset s =
    if allows_write (cache (sreg n s)) offset 1 &&
       (u32 (seg_base (cache (sreg n s)) + offset) <? 4096)
    then Crash else read_RMW_virtual_32 1 n offset s.
Proof.
  intros Hwf Hn Ho. unfold read_RMW_virtual_byte_32, read_RMW_virtual_32.
  destruct (write_segment_checks s n offset 1 Hwf Hn Ho) as [bits E]; [by left|].
  change (Z.of_nat 1) with 1 in E. unfold mbind, M_bind. rewrite E.
  destruct (allows_write _ _ _); [|done]. cbn [andb].
  set (s1 := set_sreg _ _ s). unfold get_laddr32, gets.
  assert (sreg n s1 = mark_access bits (sreg n s)) as ->
    by by apply sreg_set_sreg, wf_sregs_length.
  change (seg_base (cache (mark_access bits (sreg n s)))) with (seg_base (cache (sreg n s))).
  set (laddr := u32 _). assert (in32 laddr) as Hl by (apply wrap_range; lia).
  rewrite tlb_entry_empty by exact (wf_TLB s Hwf). cbn [tlb_lpf tlb_entry_zero tlb_accessBits].
  rewrite LPFOf_zero, Z.land_0_l by done. cbn [nz Z.eqb negb]. rewrite andb_true_r.
  destruct (laddr <? 4096); [|done].
  cbn [tlb_hostPageAddr]. rewrite Z.lor_0_l. by rewrite host_read_null.
Qed.

(** C40: the same holds of the accesses the processor makes on its own behalf
    (descriptor tables, task state, interrupt gates): linear page 0 crashes the
    emulator, everything else goes through the page walk. *)
Theorem system_read_null_page s len laddr :
  wf s -> in32 laddr ->
  system_read len laddr s =
    if laddr <? 4096 then Crash else access_read_linear laddr len 0 BX_READ s.
Proof.
  intros Hwf Hl. unfold system_read. erewrite bind_Ret by done.
  rewrite tlb_entry_empty by exact (wf_TLB s Hwf). cbn [tlb_lpf tlb_entry_zero].
  rewrite LPFOf_zero by done. destruct (laddr <? 4096); [|done].
  cbn [tlb_hostPageAddr]. rewrite Z.lor_0_l. apply host_read_null.
Qed.

(** ** A flat machine to try things on: protected mode, every segment a present
    read/write segment of 4G, 64K of memory. *)
Definition flat_descriptor : bx_descriptor_t :=
  mk_descriptor SegValidCache 1 0 1 3 0 0xffffffff 1 1 0.
Definition flat_machine : machine :=
  with_sregs (replicate 6 (mk_segment_reg (mk_selector 0x10 2 0 0) flat_descriptor))
    (with_fetchModeMask 1 (with_cpu_mode BX_MODE_IA32_PROTECTED (with_cr0 1 (machine_zero 0x10000)))).

Lemma flat_machine_wf : wf flat_machine.
Proof.
  unfold wf, flat_machine. msimpl. split; [|split].
  - split; [done|]. repeat constructor; done.
  - split; [done|]. apply Forall_replicate. unfold cache_ok, in32. cbn. repeat split; (lia || done).
  - repeat split; (done || lia).
Qed.

Lemma segment_checks_correct_witness :
  exists bits, segment_checks SegAccessWOK write_virtual_checks 4 BX_SEG_REG_DS 0xfffffffd flat_machine =
    Fault BX_GP_EXCEPTION 0 flat_machine /\ bits = 0.
Proof.
  destruct (segment_checks_correct flat_machine BX_SEG_REG_DS 0xfffffffd 4) as [[bits H] _].
  - apply flat_machine_wf.
  - split; vm_compute; congruence.
  - split; vm_compute; congruence.
  - right. right. by left.
  - exists 0. split; [exact H|done].
Defined.

Lemma write_then_read_witness :
  exists s' s'', write_virtual_32 4 BX_SEG_REG_DS 0xffe 0x12345678 flat_machine = Ret tt s' /\
    read_virtual_32 4 BX_SEG_REG_DS 0xffe s' = Ret 0x12345678 s''.
Proof.
  destruct (write_virtual_32 4 BX_SEG_REG_DS 0xffe 0x12345678 flat_machine) as [[] s'|? ? ?|] eqn:E;
    [|vm_compute in E; discriminate E..].
  exists s'. destruct (write_then_read flat_machine BX_SEG_REG_DS 0xffe 4 0x12345678 s') as [s'' H].
  - apply flat_machine_wf.
  - split; vm_compute; congruence.
  - split; vm_compute; congruence.
  - right. right. by left.
  - reflexivity.
  - exact E.
  - exists s''. split; [reflexivity|exact H].
Defined.

Lemma read_RMW_byte_null_page_witness :
  read_RMW_virtual_byte_32 BX_SEG_REG_DS 0x10 flat_machine = Crash /\
  exists s', read_RMW_virtual_32 2 BX_SEG_REG_DS 0x10 flat_machine = Ret 0 s'.
Proof.
  split.
  - etransitivity; [apply (read_RMW_byte_null_page flat_machine BX_SEG_REG_DS 0x10)|].
    + apply flat_machine_wf.
    + split; vm_compute; congruence.
    + split; vm_compute; congruence.
    + vm_compute. reflexivity.
  - eexists. vm_compute. reflexivity.
Defined.

Lemma system_read_null_page_witness : system_read 8 0x800 flat_machine = Crash.
Proof.
  etransitivity; [apply (system_read_null_page flat_machine 8 0x800)|].
  - apply flat_machine_wf.
  - split; vm_compute; congruence.
  - reflexivity.
Defined.
