(* ===== verification/Regs.v ===== *)
(** * Regs: registers, addresses and flags under the two relations

    The lemmas the instruction handlers share.  A register read or write is
    described once, by a class, and its instances are the register macros of
    cpu/cpu.h; effective addresses and the flag writers follow.  The tactics at
    the end walk through a handler, carrying the range of every value read. *)
From stdpp Require Import base numbers list gmap.
From Stdlib Require Import ZArith Lia.
From S2P Require Import Prelude Opcodes Machine LazyFlags Memory Paging Access.

Local Open Scope Z_scope.

(** ** Register reads and writes *)

(** [m] reads a [w]-bit value from the register file and nothing else. *)
Class RegRead (w : Z) (m : Mach Z) : Prop :=
  reg_read : exists f : list Z -> Z,
    (forall s, m s = Ret (f (gen_reg s)) s) /\ (forall l, 0 <= f l < 2 ^ w).

Definition regs_ok (l : list Z) : Prop := length l = 11%nat /\ Forall in32 l.

(** [m] changes the register file, keeps its shape, and touches nothing else. *)
Class RegWrite (m : Mach unit) : Prop :=
  reg_write : exists f : list Z -> list Z,
    (forall s, m s = Ret tt (with_gen_reg (f (gen_reg s)) s)) /\
    (forall l, regs_ok l -> regs_ok (f l)).

Lemma gets_RegRead w (n : Z) (g : Z -> Z) :
  (forall v, 0 <= g v < 2 ^ w) -> RegRead w (gets (fun s => g (reg n s))).
Proof. intros H. exists (fun l => g (nth (Z.to_nat n) l 0)). split; [done|]. intros. apply H. Qed.

Lemma nth_in32 n l : Forall in32 l -> in32 (nth n l 0).
Proof.
  intros H. destruct (l !! n) as [v|] eqn:E.
  - rewrite (nth_lookup_Some _ _ _ _ E). by eapply Forall_lookup_1 in H.
  - rewrite nth_overflow by (by apply lookup_ge_None). unfold in32. lia.
Qed.

Lemma modify_RegWrite (n : Z) (g : Z -> Z) :
  (forall v, in32 v -> in32 (g v)) ->
  RegWrite (modify (fun s => set_reg n (g (reg n s)) s)).
Proof.
  intros H. exists (fun l => <[Z.to_nat n := g (nth (Z.to_nat n) l 0)]> l).
  split; [done|]. intros l [Hl Hf]. split; [by rewrite length_insert|].
  apply Forall_insert; [done|]. by apply H, nth_in32.
Qed.

Lemma put_erx_range x v : in32 v -> in32 (put_erx v x).
Proof. intros _. apply wrap_range. lia. Qed.
Lemma put_rx_range x v : in32 v -> in32 (put_rx v x).
Proof. unfold in32, put_rx. pose proof (wrap_range 16 x). intros. divlia. Qed.
Lemma put_rl_range x v : in32 v -> in32 (put_rl v x).
Proof. unfold in32, put_rl. pose proof (wrap_range 8 x). intros. divlia. Qed.
Lemma put_rh_range x v : in32 v -> in32 (put_rh v x).
Proof.
  unfold in32, put_rh. pose proof (wrap_range 8 x). pose proof (wrap_range 8 v). intros. divlia.
Qed.

#[export] Instance BX_READ_8BIT_REGx_read n : RegRead 8 (BX_READ_8BIT_REGx n).
Proof.
  unfold BX_READ_8BIT_REGx. destruct (nz _); apply gets_RegRead; intros; by apply wrap_range.
Qed.
#[export] Instance BX_READ_16BIT_REG_read n : RegRead 16 (BX_READ_16BIT_REG n).
Proof. apply gets_RegRead. intros. by apply wrap_range. Qed.
#[export] Instance BX_READ_32BIT_REG_read n : RegRead 32 (BX_READ_32BIT_REG n).
Proof. apply gets_RegRead. intros. by apply wrap_range. Qed.
#[export] Instance BX_WRITE_8BIT_REGx_write n v : RegWrite (BX_WRITE_8BIT_REGx n v).
Proof.
  unfold BX_WRITE_8BIT_REGx. destruct (nz _).
  - apply (modify_RegWrite _ (fun x => put_rh x v)), put_rh_range.
  - apply (modify_RegWrite _ (fun x => put_rl x v)), put_rl_range.
Qed.
#[export] Instance BX_WRITE_16BIT_REG_write n v : RegWrite (BX_WRITE_16BIT_REG n v).
Proof. apply (modify_RegWrite n (fun x => put_rx x v)), put_rx_range. Qed.
#[export] Instance BX_WRITE_32BIT_REGZ_write n v : RegWrite (BX_WRITE_32BIT_REGZ n v).
Proof. apply (modify_RegWrite n (fun x => put_erx x v)), put_erx_range. Qed.

#[export] Instance rl_read n : RegRead 8 (gets (fun s => rl (reg n s))).
Proof. apply gets_RegRead. intros. by apply wrap_range. Qed.
#[export] Instance rh_read n : RegRead 8 (gets (fun s => rh (reg n s))).
Proof. apply gets_RegRead. intros. by apply wrap_range. Qed.
#[export] Instance rl_write n v : RegWrite (modify (fun s => set_reg n (put_rl (reg n s) v) s)).
Proof. apply (modify_RegWrite n (fun x => put_rl x v)), put_rl_range. Qed.
#[export] Instance rh_write n v : RegWrite (modify (fun s => set_reg n (put_rh (reg n s) v) s)).
Proof. apply (modify_RegWrite n (fun x => put_rh x v)), put_rh_range. Qed.

(** The named registers unfold to these. *)
#[export] Hint Unfold BX_WRITE_8BIT_REGH AL CL AH TMP8L AX CX DX BX SP BP SI DI TMP16
  EAX ECX EDX EBX ESP EBP ESI EDI EIP IP TMP32
  set_AL set_AH set_TMP8L set_AX set_CX set_DX set_BX set_SP set_BP set_SI set_DI set_TMP16
  set_EAX set_ECX set_EDX set_EBX set_ESP set_EBP set_ESI set_EDI set_EIP set_IP set_TMP32
  : typeclass_instances.

Lemma RegRead_refines w m : RegRead w m -> refines m m.
Proof. intros (f & Hm & _) s. rewrite !Hm. done. Qed.
Lemma RegRead_yields w m : RegRead w m -> yields m (fun v => 0 <= v < 2 ^ w).
Proof. intros (f & Hm & Hr) s v s' H. rewrite Hm in H. by injection H as <- <-. Qed.
Lemma RegRead_preserves w m I : RegRead w m -> preserves I m.
Proof. intros (f & Hm & _) s Hs. by rewrite Hm. Qed.
Lemma RegWrite_refines m : RegWrite m -> refines m m.
Proof. intros (f & Hm & _) s. by rewrite !Hm. Qed.
Lemma RegWrite_wf m : RegWrite m -> preserves wf m.
Proof. intros (f & Hm & Hr) s (Hg & Hs). rewrite Hm. split; [by apply Hr|done]. Qed.

#[export] Hint Extern 1 (refines _ _) =>
  first [eapply RegRead_refines; typeclasses eauto | eapply RegWrite_refines; typeclasses eauto]
  : refines.
#[export] Hint Extern 1 (yields _ _) => eapply RegRead_yields; typeclasses eauto : yields.
#[export] Hint Extern 1 (preserves _ _) =>
  first [eapply RegRead_preserves; typeclasses eauto | eapply RegWrite_wf; typeclasses eauto]
  : preserves.

(** ** Effective addresses *)

Lemma resolve_refines i : refines (resolve i) (resolve i).
Proof.
  unfold resolve, BxResolve16BaseIndex, BxResolve32Base, BxResolve32BaseIndex. refines_tac.
Qed.
Lemma resolve_wf i : preserves wf (resolve i).
Proof.
  unfold resolve, BxResolve16BaseIndex, BxResolve32Base, BxResolve32BaseIndex. preserves_tac.
Qed.
Lemma resolve_yields i : yields (resolve i) in32.
Proof.
  unfold resolve, BxResolve16BaseIndex, BxResolve32Base, BxResolve32BaseIndex.
  destruct (ResolveModrm i); [apply yields_crash|..]; repeat (apply yields_bind; intros ?); apply yields_ret.
  - eapply wrap_range_le; lia.
  - by apply wrap_range.
  - by apply wrap_range.
Qed.
#[export] Hint Resolve resolve_refines : refines.
#[export] Hint Resolve resolve_wf : preserves.
#[export] Hint Resolve resolve_yields : yields.

(** ** Reading a flag *)

Lemma getB_flag_refines f : refines (gets (getB_flag f)) (gets (getB_flag f)).
Proof. apply refines_gets. intros s. by rewrite getB_flag_norm. Qed.
Lemma getB_flag_yields f : yields (gets (getB_flag f)) (fun v => 0 <= v <= 1).
Proof. apply yields_gets. intros s. rewrite getB_flag_b2z. apply b2z_range. Qed.
#[export] Hint Resolve getB_flag_refines : refines.
#[export] Hint Resolve getB_flag_yields : yields.

(** ** The flag writers keep the record well formed *)

(** Fewer flags pending, the record untouched. *)
Lemma lazy_wf_shrink s st e :
  (forall n, 0 <= n -> Z.testbit st n = true -> Z.testbit (lf_flags_status s) n = true) ->
  lazy_wf s -> lazy_wf (with_eflags e (with_lf_flags_status st s)).
Proof.
  intros Hsub (Hm & Hc & Hn). unfold lazy_wf. msimpl. split; [|split].
  - apply Z.bits_inj'. intros n Hp. rewrite Z.ldiff_spec, Z.testbit_0_l.
    destruct (Z.testbit st n) eqn:E; [|done]. apply Hsub in E; [|done].
    apply (f_equal (fun x => Z.testbit x n)) in Hm.
    by rewrite Z.ldiff_spec, Z.testbit_0_l, E in Hm.
  - intros H. apply Hc. intros H0. apply H. apply Z.bits_inj'. intros n Hp.
    destruct (Z.testbit st n) eqn:E; [|by rewrite Z.testbit_0_l].
    apply Hsub in E; [|done]. by rewrite H0 in E.
  - intros H. apply Hn. pose proof (nz_land_pow2 st 0 ltac:(lia)) as H1.
    pose proof (nz_land_pow2 (lf_flags_status s) 0 ltac:(lia)) as H2. unfold nz in H1, H2.
    intros H0. change EFlagsCFMask with (2 ^ 0) in *. rewrite H0 in H2. cbn [negb Z.eqb] in H2.
    destruct (Z.eqb_spec (Z.land st (2 ^ 0)) 0); [done|]. cbn [negb] in H1.
    symmetry in H1. apply Hsub in H1; [congruence|lia].
Qed.

Lemma wf_lazy s s' : wf s -> core s' = core s -> lazy_wf s' -> wf s'.
Proof.
  intros (H1 & H2 & H3 & H4 & H5 & _) Hc Hl. unfold wf.
  change (gen_reg s') with (gen_reg (core s')). change (sregs s') with (sregs (core s')).
  change (cr3 s') with (cr3 (core s')). change (TLB s') with (TLB (core s')).
  change (cpu_mode s') with (cpu_mode (core s')). by rewrite Hc.
Qed.

(** A writer that only takes flags out of the pending set. *)
Lemma flag_shrink_wf (f : machine -> machine) :
  (forall s, exists e st, f s = with_eflags e (with_lf_flags_status st s) /\
     forall n, 0 <= n -> Z.testbit st n = true -> Z.testbit (lf_flags_status s) n = true) ->
  preserves wf (modify f).
Proof.
  intros H. apply preserves_modify. intros s Hw. destruct (H s) as (e & st & -> & Hn).
  eapply wf_lazy; [done|done|]. apply lazy_wf_shrink; [done|]. by destruct Hw as (_ & _ & _ & _ & _ & ?).
Qed.

Lemma testbit_ldiff_sub a b n : Z.testbit (Z.ldiff a b) n = true -> Z.testbit a n = true.
Proof. rewrite Z.ldiff_spec. by intros [? _]%andb_true_iff. Qed.

Ltac shrink_tac :=
  apply flag_shrink_wf; intros s; do 2 eexists; split; [reflexivity|];
  intros n _; first [apply testbit_ldiff_sub | by rewrite Z.testbit_0_l].

Lemma set_flag_wf f v : preserves wf (set_flag f v).
Proof. shrink_tac. Qed.
Lemma clear_flag_wf f : preserves wf (clear_flag f).
Proof. shrink_tac. Qed.
Lemma assert_flag_wf f : preserves wf (assert_flag f).
Proof. shrink_tac. Qed.
Lemma set_PF_base_wf v : preserves wf (set_PF_base v).
Proof. shrink_tac. Qed.
Lemma setEFlagsOSZAPC_wf v : preserves wf (setEFlagsOSZAPC v).
Proof. shrink_tac. Qed.
Lemma ASSERT_FLAGS_OxxxxC_wf : preserves wf ASSERT_FLAGS_OxxxxC.
Proof. shrink_tac. Qed.
Lemma SET_FLAGS_OxxxxC_wf a b : preserves wf (SET_FLAGS_OxxxxC a b).
Proof. shrink_tac. Qed.
#[export] Hint Resolve set_flag_wf clear_flag_wf assert_flag_wf set_PF_base_wf
  setEFlagsOSZAPC_wf ASSERT_FLAGS_OxxxxC_wf SET_FLAGS_OxxxxC_wf : preserves.
Lemma force_flag_wf f : preserves wf (force_flag f).
Proof. unfold force_flag. preserves_tac. Qed.
Lemma force_flags_wf : preserves wf force_flags.
Proof. unfold force_flags. preserves_tac. Qed.
#[export] Hint Resolve force_flag_wf force_flags_wf : preserves.

(** The codes a handler records. *)
Definition carry_code (ins : Z) : bool := case_in ins lf_codes && negb (case_in ins lf_no_carry).

Lemma set_oszapc_wf size a b r ins :
  carry_code ins = true -> preserves wf (SET_FLAGS_OSZAPC_SIZE size a b r ins).
Proof.
  intros [H1 H2%negb_true_iff]%andb_true_iff. apply preserves_modify. intros s Hw.
  eapply wf_lazy; [done|done|]. by split.
Qed.
Lemma set_oszapc_result_wf size r ins :
  carry_code ins = true -> preserves wf (SET_FLAGS_OSZAPC_RESULT_SIZE size r ins).
Proof.
  intros [H1 H2%negb_true_iff]%andb_true_iff. apply preserves_modify. intros s Hw.
  eapply wf_lazy; [done|done|]. by split.
Qed.
Lemma set_oszap_result_wf size r ins :
  case_in ins lf_codes = true -> preserves wf (SET_FLAGS_OSZAP_RESULT_SIZE size r ins).
Proof.
  intros H. apply preserves_bind; [apply force_flag_wf|]. intros _.
  apply preserves_modify. intros s Hw. eapply wf_lazy; [done|done|]. by split.
Qed.
Lemma adc_sbb_code_carry c k :
  In k [1; 3; 5; 9; 11; 13] -> 0 <= c <= 1 -> carry_code (k + c) = true.
Proof.
  intros Hk Hc. assert (c = 0 \/ c = 1) as [-> | ->] by lia;
    repeat (destruct Hk as [<-|Hk]; [done|]); done.
Qed.

(** ** The invariant across a handler *)

Lemma preserves_bind_yields {A B} (I : machine -> Prop) (m : Mach A) (k : A -> Mach B) (P : A -> Prop) :
  preserves I m -> yields m P -> (forall a, P a -> preserves I (k a)) -> preserves I (m ≫= k).
Proof.
  intros Hm Hy Hk s Hs. specialize (Hm s Hs). specialize (Hy s). unfold mbind, M_bind.
  destruct (m s) as [a s'|v e s'|]; [|done|done]. apply Hk; [by eapply Hy|done].
Qed.

Ltac code_tac := first [reflexivity | apply adc_sbb_code_carry; [cbn; tauto|assumption]].
#[export] Hint Extern 1 (preserves wf (SET_FLAGS_OSZAPC_SIZE _ _ _ _ _)) =>
  apply set_oszapc_wf; code_tac : preserves.
#[export] Hint Extern 1 (preserves wf (SET_FLAGS_OSZAPC_RESULT_SIZE _ _ _)) =>
  apply set_oszapc_result_wf; code_tac : preserves.
#[export] Hint Extern 1 (preserves wf (SET_FLAGS_OSZAP_RESULT_SIZE _ _ _)) =>
  apply set_oszap_result_wf; reflexivity : preserves.

Ltac wf_step :=
  match goal with
  | |- forall _, _ => intros ?
  | |- preserves _ (mbind _ _) =>
      first [ eapply preserves_bind_yields;
                [solve [eauto with preserves]|solve [eauto with yields]|intros ? ?]
            | apply preserves_bind ]
  | |- preserves _ (let _ := _ in _) => cbv zeta
  | |- preserves _ (match ?x with _ => _ end) => destruct x
  | |- preserves _ (when _ _) => apply preserves_when
  | |- preserves _ _ => solve [eauto with preserves]
  end; cbv beta in *.
Ltac wf_tac := repeat wf_step.

(** ** A machine and an instruction to evaluate handlers on

    Flat segments, no paging, the given registers; an instruction with register
    operands [rm] and [nnn], first opcode byte [b1] and immediate [imm]. *)
Definition demo_machine (regs : list Z) : machine := with_gen_reg regs flat_machine.
Definition demo_instruction (b1 nnn rm imm : Z) : bxInstruction_c :=
  mk_instruction Resolve32Base BX_IA_ERROR 2 4 BX_SEG_REG_DS b1 nnn rm 0 0 0 0xc0 imm 0.

Lemma demo_machine_wf l : regs_ok l -> wf (demo_machine l).
Proof. intros Hl. destruct flat_machine_wf as [_ H]. by split. Qed.
