(* ===== verification/Precise.v ===== *)
(** * Precise: faults before changes

    A handler that raises an exception is restarted, so it must not have
    changed the architectural registers or flags before.  [quiet] operations
    never change them; [nofault] operations never raise; [precise] ones do not
    raise after a change. *)
From stdpp Require Import base numbers list gmap.
From Stdlib Require Import ZArith Lia.
From S2P Require Import Prelude Machine LazyFlags Memory Paging Access Regs.

Local Open Scope Z_scope.


(** What a program can see of the registers: the general registers and EIP, not
    the emulator's temporary; EFLAGS; the selectors. *)
Definition arch (s : machine) : list Z * Z * list bx_selector_t :=
  (take 9 (gen_reg s), eflags (norm s), selector <$> sregs s).

Definition quiet {A} (m : Mach A) : Prop :=
  forall s, match m s with Ret _ s' | Fault _ _ s' => arch s' = arch s | Crash => True end.
Definition nofault {A} (m : Mach A) : Prop :=
  forall s, match m s with Fault _ _ _ => False | _ => True end.
Definition precise {A} (m : Mach A) : Prop :=
  forall s v e s', m s = Fault v e s' -> arch s' = arch s.

Create HintDb quiet discriminated.
#[export] Hint Constants Opaque : quiet.
Create HintDb nofault discriminated.
#[export] Hint Constants Opaque : nofault.

Lemma quiet_ret {A} (a : A) : quiet (mret a).
Proof. by intros s. Qed.
Lemma quiet_gets {A} (f : machine -> A) : quiet (gets f).
Proof. by intros s. Qed.
Lemma quiet_raise {A} v e : quiet (raise (A := A) v e).
Proof. by intros s. Qed.
Lemma quiet_crash {A} : quiet (crash (A := A)).
Proof. by intros s. Qed.
Lemma quiet_bind {A B} (m : Mach A) (k : A -> Mach B) :
  quiet m -> (forall a, quiet (k a)) -> quiet (m ≫= k).
Proof.
  intros Hm Hk s. specialize (Hm s). unfold mbind, M_bind.
  destruct (m s) as [a s'|v e s'|]; [|done|done]. specialize (Hk a s').
  destruct (k a s'); [congruence|congruence|done].
Qed.
Lemma quiet_when b m : quiet m -> quiet (when b m).
Proof. intros. destruct b; [done|apply quiet_ret]. Qed.
Lemma quiet_modify f : (forall s, arch (f s) = arch s) -> quiet (modify f).
Proof. intros H s. apply H. Qed.
Lemma RegRead_quiet w m : RegRead w m -> quiet m.
Proof. intros (f & Hm & _) s. by rewrite Hm. Qed.
#[export] Hint Resolve quiet_ret quiet_gets quiet_raise quiet_crash : quiet.
#[export] Hint Extern 1 (quiet _) => eapply RegRead_quiet; typeclasses eauto : quiet.

Ltac quiet_step :=
  match goal with
  | |- forall _, _ => intros ?
  | |- quiet (mbind _ _) => apply quiet_bind
  | |- quiet (let _ := _ in _) => cbv zeta
  | |- quiet (match ?x with _ => _ end) => destruct x
  | |- quiet (when _ _) => apply quiet_when
  | |- quiet (modify _) => apply quiet_modify; intros ?; reflexivity
  | |- quiet _ => solve [eauto with quiet]
  end.
Ltac quiet_tac := repeat quiet_step.

Lemma nofault_bind {A B} (m : Mach A) (k : A -> Mach B) :
  nofault m -> (forall a, nofault (k a)) -> nofault (m ≫= k).
Proof.
  intros Hm Hk s. specialize (Hm s). unfold mbind, M_bind.
  destruct (m s) as [a s'|v e s'|]; [apply Hk|done|done].
Qed.
Lemma nofault_when b m : nofault m -> nofault (when b m).
Proof. intros. by destruct b. Qed.
Lemma nofault_ret {A} (a : A) : nofault (mret a).
Proof. by intros s. Qed.
Lemma nofault_gets {A} (f : machine -> A) : nofault (gets f).
Proof. by intros s. Qed.
Lemma nofault_modify f : nofault (modify f).
Proof. by intros s. Qed.
Lemma nofault_crash {A} : nofault (crash (A := A)).
Proof. by intros s. Qed.
Lemma RegRead_nofault w m : RegRead w m -> nofault m.
Proof. intros (f & Hm & _) s. by rewrite Hm. Qed.
Lemma RegWrite_nofault m : RegWrite m -> nofault m.
Proof. intros (f & Hm & _) s. by rewrite Hm. Qed.
#[export] Hint Resolve nofault_ret nofault_gets nofault_modify nofault_crash : nofault.
#[export] Hint Extern 1 (nofault _) =>
  first [eapply RegRead_nofault; typeclasses eauto | eapply RegWrite_nofault; typeclasses eauto]
  : nofault.

Ltac nofault_step :=
  match goal with
  | |- forall _, _ => intros ?
  | |- nofault (mbind _ _) => apply nofault_bind
  | |- nofault (let _ := _ in _) => cbv zeta
  | |- nofault (match ?x with _ => _ end) => destruct x
  | |- nofault (when _ _) => apply nofault_when
  | |- nofault _ => solve [eauto with nofault]
  end.
Ltac nofault_tac := repeat nofault_step.

Lemma precise_quiet {A} (m : Mach A) : quiet m -> precise m.
Proof. intros H s v e s' E. specialize (H s). by rewrite E in H. Qed.
Lemma precise_nofault {A} (m : Mach A) : nofault m -> precise m.
Proof. intros H s v e s' E. specialize (H s). by rewrite E in H. Qed.
Lemma precise_bind_quiet {A B} (m : Mach A) (k : A -> Mach B) :
  quiet m -> (forall a, precise (k a)) -> precise (m ≫= k).
Proof.
  intros Hm Hk s v e s' E. specialize (Hm s). unfold mbind, M_bind in E.
  destruct (m s) as [a s1|v1 e1 s1|] eqn:E1.
  - rewrite <-Hm. by eapply Hk.
  - by injection E as _ _ <-.
  - done.
Qed.
Lemma precise_bind_nofault {A B} (m : Mach A) (k : A -> Mach B) :
  precise m -> (forall a, nofault (k a)) -> precise (m ≫= k).
Proof.
  intros Hm Hk s v e s' E. unfold mbind, M_bind in E.
  destruct (m s) as [a s1|v1 e1 s1|] eqn:E1.
  - specialize (Hk a s1). by rewrite E in Hk.
  - injection E as _ _ <-. by eapply Hm.
  - done.
Qed.
Lemma precise_when b m : precise m -> precise (when b m).
Proof. intros. by destruct b. Qed.

(** Reads first, then the changes. *)
Create HintDb precise discriminated.
#[export] Hint Constants Opaque : precise.
Ltac precise_step :=
  match goal with
  | |- forall _, _ => intros ?
  | |- precise (let _ := _ in _) => cbv zeta
  | |- precise (match ?x with _ => _ end) => destruct x
  | |- precise _ => solve [eauto with precise]
  | |- precise (when _ _) => apply precise_when
  | |- precise (mbind _ _) =>
      first [ apply precise_bind_quiet; [solve [quiet_tac]|intros ?]
            | apply precise_bind_nofault; [|solve [nofault_tac]] ]
  | |- precise _ => first [ apply precise_quiet; solve [quiet_tac]
                          | apply precise_nofault; solve [nofault_tac] ]
  end.
Ltac precise_tac := repeat precise_step.

(** *** Memory accesses are quiet *)

Lemma page_fault_quiet {A} f l u r : quiet (page_fault (A := A) f l u r).
Proof. unfold page_fault. quiet_tac. Qed.
Lemma access_write_physical_quiet a l : quiet (access_write_physical a l).
Proof. unfold access_write_physical, writePhysicalPage. quiet_tac. Qed.
Lemma access_read_physical_quiet a n : quiet (access_read_physical a n).
Proof. unfold access_read_physical, readPhysicalPage. quiet_tac. Qed.
#[export] Hint Resolve page_fault_quiet access_write_physical_quiet access_read_physical_quiet : quiet.
Lemma write_physical_quiet a n v : quiet (write_physical a n v).
Proof. unfold write_physical. quiet_tac. Qed.
Lemma read_physical_quiet a n : quiet (read_physical a n).
Proof. unfold read_physical. quiet_tac. Qed.
#[export] Hint Resolve write_physical_quiet read_physical_quiet : quiet.
Lemma translate_linear_quiet l p r : quiet (translate_linear l p r).
Proof. unfold translate_linear, translate_PDE4M, translate_PTE. quiet_tac. Qed.
#[export] Hint Resolve translate_linear_quiet : quiet.
Lemma xlate_access_quiet l n p r : quiet (xlate_access l n p r).
Proof. unfold xlate_access, dtranslate_linear, set_xlation. quiet_tac. Qed.
#[export] Hint Resolve xlate_access_quiet : quiet.
Lemma access_write_linear_quiet l n p d : quiet (access_write_linear l n p d).
Proof. unfold access_write_linear. quiet_tac. Qed.
Lemma access_read_linear_quiet l n p r : quiet (access_read_linear l n p r).
Proof. unfold access_read_linear. quiet_tac. Qed.
#[export] Hint Resolve access_write_linear_quiet access_read_linear_quiet : quiet.

Lemma set_sreg_arch n seg s :
  selector seg = selector (sreg n s) -> arch (set_sreg n seg s) = arch s.
Proof.
  intros H. unfold arch. f_equal. unfold set_sreg. msimpl. rewrite list_fmap_insert, H.
  destruct (decide (Z.to_nat n < length (sregs s))%nat) as [Hlt|Hge].
  - apply list_insert_id. by rewrite list_lookup_fmap, sreg_in_range.
  - rewrite list_insert_ge; [done|]. rewrite length_fmap. lia.
Qed.

Lemma segment_checks_quiet r c len n o :
  (forall seg o l, selector (snd (c seg o l)) = selector seg) ->
  quiet (segment_checks r c len n o).
Proof.
  intros Hc. unfold segment_checks. intros s.
  unfold mbind, M_bind, gets. cbn [when].
  unfold mret, M_ret.
  destruct (nz _); [by destruct (negb _)|].
  specialize (Hc (sreg n s) o (Z.of_nat len)).
  destruct (c (sreg n s) o (Z.of_nat len)) as [ok seg'].
  unfold modify. cbn [snd] in Hc. apply (set_sreg_arch n) in Hc. by destruct (negb ok).
Qed.
Lemma write_virtual_checks_sel seg o l : selector (snd (write_virtual_checks seg o l)) = selector seg.
Proof. unfold write_virtual_checks. by repeat case_match. Qed.
Lemma read_virtual_checks_sel seg o l : selector (snd (read_virtual_checks seg o l)) = selector seg.
Proof. unfold read_virtual_checks. by repeat case_match. Qed.
#[export] Hint Resolve segment_checks_quiet write_virtual_checks_sel read_virtual_checks_sel : quiet.

Lemma write_virtual_32_quiet len n o d : quiet (write_virtual_32 len n o d).
Proof. unfold write_virtual_32, get_laddr32, alignment_ok. quiet_tac. Qed.
Lemma read_virtual_32_quiet len n o : quiet (read_virtual_32 len n o).
Proof. unfold read_virtual_32, get_laddr32, alignment_ok. quiet_tac. Qed.
Lemma read_RMW_virtual_32_quiet len n o : quiet (read_RMW_virtual_32 len n o).
Proof. unfold read_RMW_virtual_32, get_laddr32, alignment_ok. quiet_tac. Qed.
Lemma read_RMW_virtual_byte_32_quiet n o : quiet (read_RMW_virtual_byte_32 n o).
Proof. unfold read_RMW_virtual_byte_32, get_laddr32, host_read, set_xlation. quiet_tac. Qed.
Lemma resolve_quiet i : quiet (resolve i).
Proof.
  unfold resolve, BxResolve16BaseIndex, BxResolve32Base, BxResolve32BaseIndex. quiet_tac.
Qed.
#[export] Hint Resolve write_virtual_32_quiet read_virtual_32_quiet read_RMW_virtual_32_quiet
  read_RMW_virtual_byte_32_quiet resolve_quiet : quiet.

(** Once translated, the write of a read-modify-write does not fault. *)
Lemma access_write_physical_nofault a l : nofault (access_write_physical a l).
Proof. unfold access_write_physical, writePhysicalPage. nofault_tac. Qed.
#[export] Hint Resolve access_write_physical_nofault : nofault.
Lemma write_RMW_virtual_byte_nofault v : nofault (write_RMW_virtual_byte v).
Proof. unfold write_RMW_virtual_byte, host_write, write_physical. nofault_tac. Qed.
Lemma write_RMW_virtual_word_nofault v : nofault (write_RMW_virtual_word v).
Proof. unfold write_RMW_virtual_word, host_write, write_physical. nofault_tac. Qed.
Lemma write_RMW_virtual_nofault len v : nofault (write_RMW_virtual len v).
Proof. unfold write_RMW_virtual, host_write, write_physical. nofault_tac. Qed.
#[export] Hint Resolve write_RMW_virtual_byte_nofault write_RMW_virtual_word_nofault
  write_RMW_virtual_nofault : nofault.

Lemma set_oszapc_nofault w a b r ins : nofault (SET_FLAGS_OSZAPC_SIZE w a b r ins).
Proof. apply nofault_modify. Qed.
Lemma set_oszapc_result_nofault w r ins : nofault (SET_FLAGS_OSZAPC_RESULT_SIZE w r ins).
Proof. apply nofault_modify. Qed.
Lemma set_oszap_result_nofault w r ins : nofault (SET_FLAGS_OSZAP_RESULT_SIZE w r ins).
Proof. unfold SET_FLAGS_OSZAP_RESULT_SIZE, force_flag, set_flag. nofault_tac. Qed.
Lemma set_flag_nofault f v : nofault (set_flag f v).
Proof. apply nofault_modify. Qed.
Lemma clear_flag_nofault f : nofault (clear_flag f).
Proof. apply nofault_modify. Qed.
Lemma assert_flag_nofault f : nofault (assert_flag f).
Proof. apply nofault_modify. Qed.
Lemma set_PF_base_nofault v : nofault (set_PF_base v).
Proof. apply nofault_modify. Qed.
Lemma SET_FLAGS_OxxxxC_nofault a b : nofault (SET_FLAGS_OxxxxC a b).
Proof. apply nofault_modify. Qed.
Lemma setEFlagsOSZAPC_nofault v : nofault (setEFlagsOSZAPC v).
Proof. apply nofault_modify. Qed.
Lemma ASSERT_FLAGS_OxxxxC_nofault : nofault ASSERT_FLAGS_OxxxxC.
Proof. apply nofault_modify. Qed.
#[export] Hint Resolve set_oszapc_nofault set_oszapc_result_nofault set_oszap_result_nofault
  set_flag_nofault clear_flag_nofault assert_flag_nofault set_PF_base_nofault
  SET_FLAGS_OxxxxC_nofault ASSERT_FLAGS_OxxxxC_nofault setEFlagsOSZAPC_nofault : nofault.

(** ** Tactics for the handlers

    The macros that only fix a width are unfolded first; the hint databases
    unfold nothing. *)
Ltac unfold_widths :=
  cbv beta iota zeta delta [
    write_virtual_byte_32 write_virtual_word_32 write_virtual_dword_32 write_virtual_qword_32
    read_virtual_byte_32 read_virtual_word_32 read_virtual_dword_32 read_virtual_qword_32
    read_RMW_virtual_word_32 read_RMW_virtual_dword_32 read_RMW_virtual_qword_32
    write_RMW_virtual_dword write_RMW_virtual_qword
    SET_FLAGS_OSZAPC_8 SET_FLAGS_OSZAPC_16 SET_FLAGS_OSZAPC_32
    SET_FLAGS_OSZAPC_RESULT_8 SET_FLAGS_OSZAPC_RESULT_16 SET_FLAGS_OSZAPC_RESULT_32
    SET_FLAGS_OSZAPC_LOGIC_8 SET_FLAGS_OSZAPC_LOGIC_16 SET_FLAGS_OSZAPC_LOGIC_32
    SET_FLAGS_OSZAPC_ADD_8 SET_FLAGS_OSZAPC_ADD_16 SET_FLAGS_OSZAPC_ADD_32
    SET_FLAGS_OSZAPC_SUB_8 SET_FLAGS_OSZAPC_SUB_16 SET_FLAGS_OSZAPC_SUB_32
    SET_FLAGS_OSZAPC_INC_8 SET_FLAGS_OSZAPC_INC_16 SET_FLAGS_OSZAPC_INC_32
    SET_FLAGS_OSZAPC_DEC_8 SET_FLAGS_OSZAPC_DEC_16 SET_FLAGS_OSZAPC_DEC_32 ].

#[export] Hint Opaque
  read_virtual_32 write_virtual_32 read_RMW_virtual_32 read_RMW_virtual_byte_32
  write_RMW_virtual write_RMW_virtual_byte write_RMW_virtual_word resolve
  SET_FLAGS_OSZAPC_SIZE SET_FLAGS_OSZAPC_RESULT_SIZE SET_FLAGS_OSZAP_RESULT_SIZE
  gets modify raise crash when : typeclass_instances.

(** Table rows: the first component of a row is the handler. *)
Ltac wf_handler :=
  intros i; cbn [fst];
  match goal with |- preserves wf (?h _) => unfold h end;
  unfold_widths; wf_tac.
Ltac precise_handler :=
  intros i; cbn [fst];
  match goal with |- precise (?h _) => unfold h end;
  unfold_widths; precise_tac.
