(* ===== verification/Reference.v ===== *)
(** * Reference: operands and eager instructions

    What the instruction handlers are compared with: an instruction reads its
    operands, computes at a width, stores the result and sets the flags at once.
    The operands are named by [place]; the flags are those of LazyFlags. *)
From stdpp Require Import base numbers list gmap.
From Stdlib Require Import ZArith Lia.
From S2P Require Import Prelude Machine LazyFlags Memory Paging Access Regs Precise.

Local Open Scope Z_scope.

(** ** Operands *)

(** A register, chosen by a field of the instruction; the memory operand of the
    ModRM byte; whichever of the two the ModRM byte names; an immediate. *)
Inductive place : Type :=
  | Reg (n : bxInstruction_c -> Z)
  | Mem
  | RM
  | Imm.

(** The accumulator: AL, AX or EAX. *)
Definition Acc : place := Reg (fun _ => 0).

Definition read_reg (w n : Z) : Mach Z :=
  match w with
  | 8 => BX_READ_8BIT_REGx n | 16 => BX_READ_16BIT_REG n | _ => BX_READ_32BIT_REG n
  end.
Definition write_reg (w n v : Z) : Mach unit :=
  match w with
  | 8 => BX_WRITE_8BIT_REGx n v | 16 => BX_WRITE_16BIT_REG n v | _ => BX_WRITE_32BIT_REGZ n v
  end.

Definition read_mem (w seg offset : Z) : Mach Z :=
  match w with
  | 8 => read_virtual_byte_32 seg offset
  | 16 => read_virtual_word_32 seg offset
  | _ => read_virtual_dword_32 seg offset
  end.
Definition write_mem (w seg offset v : Z) : Mach unit :=
  match w with
  | 8 => write_virtual_byte_32 seg offset v
  | 16 => write_virtual_word_32 seg offset v
  | _ => write_virtual_dword_32 seg offset v
  end.
Definition read_rmw (w seg offset : Z) : Mach Z :=
  match w with
  | 8 => read_RMW_virtual_byte_32 seg offset
  | 16 => read_RMW_virtual_word_32 seg offset
  | _ => read_RMW_virtual_dword_32 seg offset
  end.
Definition write_rmw (w v : Z) : Mach unit :=
  match w with
  | 8 => write_RMW_virtual_byte v
  | 16 => write_RMW_virtual_word v
  | _ => write_RMW_virtual_dword v
  end.

(** Read an operand that is only read. *)
Definition fetch (w : Z) (p : place) (i : bxInstruction_c) : Mach Z :=
  match p with
  | Reg n => read_reg w (n i)
  | Mem => eaddr ← resolve i; read_mem w (i_seg i) eaddr
  | RM => if nz (modC0 i) then read_reg w (i_rm i)
          else eaddr ← resolve i; read_mem w (i_seg i) eaddr
  | Imm => mret (wrap w (form_w0 i))
  end.

(** Read an operand that is written back, and write it back. *)
Definition fetch_rmw (w : Z) (p : place) (i : bxInstruction_c) : Mach Z :=
  match p with
  | Mem => eaddr ← resolve i; read_rmw w (i_seg i) eaddr
  | RM => if nz (modC0 i) then read_reg w (i_rm i)
          else eaddr ← resolve i; read_rmw w (i_seg i) eaddr
  | _ => fetch w p i
  end.
Definition store_rmw (w : Z) (p : place) (v : Z) (i : bxInstruction_c) : Mach unit :=
  match p with
  | Reg n => write_reg w (n i) v
  | Mem => write_rmw w v
  | RM => if nz (modC0 i) then write_reg w (i_rm i) v else write_rmw w v
  | Imm => mret tt
  end.

(** ** Eager instructions *)

Inductive alu : Type := ADD | ADC | SUB | SBB | CMP | AND | OR | XOR | TEST.

Definition alu_result (op : alu) (w a b c : Z) : Z :=
  match op with
  | ADD => wrap w (a + b) | ADC => wrap w (a + b + c)
  | SUB | CMP => wrap w (a - b) | SBB => wrap w (a - (b + c))
  | AND | TEST => Z.land a b | OR => Z.lor a b | XOR => Z.lxor a b
  end.
Definition alu_flags (op : alu) (w a b c : Z) : flags :=
  match op with
  | ADD => add_flags w a b 0 | ADC => add_flags w a b c
  | SUB | CMP => sub_flags w a b 0 | SBB => sub_flags w a b c
  | AND | TEST | OR | XOR => logic_flags w (alu_result op w a b c)
  end.
Definition alu_carry (op : alu) : bool := match op with ADC | SBB => true | _ => false end.
Definition alu_writes (op : alu) : bool := match op with CMP | TEST => false | _ => true end.

(** The carry-in of the instructions that have one. *)
Definition carry_in (op : alu) : Mach Z :=
  if alu_carry op then gets (getB_flag CF) else mret 0.

(** [dst := dst op src] *)
Definition ref_alu (op : alu) (w : Z) (dst src : place) (i : bxInstruction_c) : Mach unit :=
  c ← carry_in op;
  a ← (if alu_writes op then fetch_rmw w dst i else fetch w dst i);
  b ← fetch w src i;
  (if alu_writes op then store_rmw w dst (alu_result op w a b c) i else mret tt);;
  write_arith_flags (alu_flags op w a b c).

(** [dst := dst + 1], [dst := dst - 1]: CF is not touched. *)
Definition ref_inc (w : Z) (dst : place) (i : bxInstruction_c) : Mach unit :=
  a ← fetch_rmw w dst i;
  store_rmw w dst (wrap w (a + 1)) i;;
  update_keep_CF (add_flags w a 1 0).
Definition ref_dec (w : Z) (dst : place) (i : bxInstruction_c) : Mach unit :=
  a ← fetch_rmw w dst i;
  store_rmw w dst (wrap w (a - 1)) i;;
  update_keep_CF (sub_flags w a 1 0).

(** [dst := 0 - dst] and [dst := ~dst]; NOT sets no flags. *)
Definition ref_neg (w : Z) (dst : place) (i : bxInstruction_c) : Mach unit :=
  a ← fetch_rmw w dst i;
  store_rmw w dst (wrap w (0 - a)) i;;
  write_arith_flags (sub_flags w 0 a 0).
Definition ref_not (w : Z) (dst : place) (i : bxInstruction_c) : Mach unit :=
  a ← fetch_rmw w dst i;
  store_rmw w dst (2 ^ w - 1 - a) i.

(** [src, dst := dst, dst + src]; the sum is written last when both are
    registers. *)
Definition ref_xadd (w : Z) (dst : place) (src : bxInstruction_c -> Z) (i : bxInstruction_c)
    : Mach unit :=
  a ← fetch_rmw w dst i;
  b ← fetch w (Reg src) i;
  (if dst is Mem then
     write_rmw w (wrap w (a + b));; write_reg w (src i) a
   else
     write_reg w (src i) a;; store_rmw w dst (wrap w (a + b)) i);;
  write_arith_flags (add_flags w a b 0).

(** Compare the accumulator with [dst]; equal: [dst := src], otherwise
    [acc := dst]. *)
Definition ref_cmpxchg (w : Z) (dst : place) (src : bxInstruction_c -> Z) (i : bxInstruction_c)
    : Mach unit :=
  a ← fetch_rmw w dst i;
  acc ← read_reg w 0;
  write_arith_flags (sub_flags w acc a 0);;
  if acc =? a then b ← fetch w (Reg src) i; store_rmw w dst b i
  else write_reg w 0 a.

(** The accumulator sign-extended to twice its width, in place (CBW, CWDE) or
    with the high half in DX/EDX (CWD, CDQ). *)
Definition ref_sext (w : Z) (_ : bxInstruction_c) : Mach unit :=
  a ← read_reg w 0; write_reg (2 * w) 0 (wrap (2 * w) (swrap w a)).
Definition ref_sext_high (w : Z) (_ : bxInstruction_c) : Mach unit :=
  a ← read_reg w 0; write_reg w 2 (wrap (2 * w) (swrap w a) / 2 ^ w).

(** The 64-bit compare and exchange of EDX:EAX, ECX:EBX and memory. *)
Definition ref_cmpxchg8b (i : bxInstruction_c) : Mach unit :=
  eaddr ← resolve i;
  m ← read_RMW_virtual_qword_32 (i_seg i) eaddr;
  edx ← EDX; eax ← EAX;
  if m =? edx * 2 ^ 32 + eax then
    ecx ← ECX; ebx ← EBX;
    write_RMW_virtual_qword (ecx * 2 ^ 32 + ebx);;
    update_flags (override [(ZF, true)])
  else
    set_EAX (m mod 2 ^ 32);; set_EDX (m / 2 ^ 32);;
    update_flags (override [(ZF, false)]).

Definition ref_ud (_ : bxInstruction_c) : Mach unit := exception BX_UD_EXCEPTION 0.

(** Multiplication: the double-width product of the accumulator, or the
    truncated product of two operands.  OF and CF say that the product does not
    fit; SF, ZF and PF are those of the low half, AF is cleared. *)
Definition product (signed : bool) (w a b : Z) : Z :=
  if signed then swrap w a * swrap w b else a * b.
Definition product_fits (signed : bool) (w p : Z) : bool :=
  if signed then fits_signed w p else p <? 2 ^ w.
Definition mul_flags (signed : bool) (w p : Z) : flags :=
  result_flags w (wrap w p) (negb (product_fits signed w p)) false (negb (product_fits signed w p)).

Definition ref_mul (signed : bool) (w : Z) (i : bxInstruction_c) : Mach unit :=
  a ← read_reg w 0;
  b ← read_reg w (i_rm i);
  let p := product signed w a b in
  match w with
  | 8 => set_AX (wrap 16 p)
  | _ => write_reg w 0 (wrap w p);; write_reg w 2 (wrap w (p / 2 ^ w))
  end;;
  write_arith_flags (mul_flags signed w p).

Definition ref_imul (w : Z) (src1 src2 : place) (i : bxInstruction_c) : Mach unit :=
  a ← fetch w src1 i;
  b ← fetch w src2 i;
  let p := product true w a b in
  write_reg w (i_nnn i) (wrap w p);;
  write_arith_flags (mul_flags true w p).

(** Division of the double-width accumulator: #DE when the divisor is zero or
    the quotient does not fit. *)
Definition wide_acc (w : Z) : Mach Z :=
  match w with
  | 8 => AX
  | _ => hi ← read_reg w 2; lo ← read_reg w 0; mret (hi * 2 ^ w + lo)
  end.
Definition set_quotient (w q r : Z) : Mach unit :=
  match w with
  | 8 => set_AL (wrap 8 q);; set_AH (wrap 8 r)
  | _ => write_reg w 0 (wrap w q);; write_reg w 2 (wrap w r)
  end.

Definition ref_div (w : Z) (i : bxInstruction_c) : Mach unit :=
  b ← read_reg w (i_rm i);
  if b =? 0 then exception BX_DE_EXCEPTION 0 else
  n ← wide_acc w;
  if n / b <? 2 ^ w then set_quotient w (n / b) (n mod b)
  else exception BX_DE_EXCEPTION 0.

Definition ref_idiv (w : Z) (i : bxInstruction_c) : Mach unit :=
  n ← wide_acc w;
  b ← read_reg w (i_rm i);
  let n := swrap (2 * w) n in
  let b := swrap w b in
  if b =? 0 then exception BX_DE_EXCEPTION 0
  else if fits_signed w (Z.quot n b) then set_quotient w (Z.quot n b) (Z.rem n b)
  else exception BX_DE_EXCEPTION 0.

(** A table of handlers with the instruction each one implements. *)
Definition handler : Type := bxInstruction_c -> Mach unit.
Definition implements (p : handler * handler) : Prop := forall i, refines (p.1 i) (p.2 i).
Definition keeps_wf (p : handler * handler) : Prop := forall i, preserves wf (p.1 i).
Definition is_precise (p : handler * handler) : Prop := forall i, precise (p.1 i).

(** ** Proving that a handler implements its instruction *)

Lemma refines_assoc_r {A B C} (m : Mach C) (m1 : Mach A) (k1 : A -> Mach B) (k2 : B -> Mach C) :
  refines m (m1 ≫= fun x => k1 x ≫= k2) -> refines m ((m1 ≫= k1) ≫= k2).
Proof. intros H s. rewrite (H s). unfold mbind, M_bind. by destruct (m1 _). Qed.
Lemma refines_assoc_l {A B C} (m : Mach C) (m1 : Mach A) (k1 : A -> Mach B) (k2 : B -> Mach C) :
  refines (m1 ≫= fun x => k1 x ≫= k2) m -> refines ((m1 ≫= k1) ≫= k2) m.
Proof. intros H s. rewrite <-(H s). unfold mbind, M_bind. by destruct (m1 s). Qed.
Lemma refines_ret_r {A B} (m : Mach B) (a : A) (k : A -> Mach B) :
  refines m (k a) -> refines m (mret a ≫= k).
Proof. done. Qed.
Lemma refines_ret_l {A B} (m : Mach B) (a : A) (k : A -> Mach B) :
  refines (k a) m -> refines (mret a ≫= k) m.
Proof. done. Qed.

(** The eager side may be replaced by what it does on materialised states. *)
Lemma refines_ext {A} (m m' m'' : Mach A) :
  refines m m' -> (forall s, m' (norm s) = m'' (norm s)) -> refines m m''.
Proof. intros H E s. by rewrite H. Qed.

(** [if (b) exception(..); k] *)
Lemma refines_when_raise {B} (b : bool) v e (k k' : Mach B) :
  (b = false -> refines k k') ->
  refines (when b (raise v e);; k) (if b then raise v e else k').
Proof. intros H. destruct b; [done|]. by apply refines_ret_l, H. Qed.

(** [if (!b) exception(..); k] *)
Lemma refines_unless_raise {B} (b : bool) v e (k k' : Mach B) :
  (b = true -> refines k k') ->
  refines (when (negb b) (raise v e);; k) (if b then k' else raise v e).
Proof. intros H. destruct b; [|done]. by apply refines_ret_l, H. Qed.

(** Setting the six flags and then some of them again. *)
Definition amend (l : list (aflag * bool)) (fl : flags) : flags := fun g =>
  match find (fun p => bool_decide (p.1 = g)) l with Some p => p.2 | None => fl g end.

Lemma put_flags_put fl fl' z : put_flags fl (put_flags fl' z) = put_flags fl z.
Proof.
  apply flag_word_ext.
  - intros f. by rewrite !testbit_put_flags_flag.
  - intros n ? ?. by rewrite !testbit_put_flags_other.
Qed.

Lemma write_then_override fl l s :
  (write_arith_flags fl;; update_flags (override l)) (norm s) =
  write_arith_flags (amend l fl) (norm s).
Proof.
  unfold write_arith_flags, update_flags, modify, mbind, M_bind. f_equal.
  remember (norm s) as t eqn:Et.
  assert (forall a b, with_eflags a (with_eflags b t) = with_eflags a t) as -> by done.
  f_equal. msimpl. rewrite put_flags_put. apply put_flags_ext. intros g.
  unfold override, amend. destruct (find _ _); [done|].
  rewrite flag_spec. msimpl. subst t. unfold norm. msimpl.
  by rewrite Z.testbit_0_l, testbit_put_flags_flag.
Qed.

(** The six flags of a result, amended by later flag writers. *)
Lemma refines_amend (m m2 : Mach unit) fl l fl' :
  refines m (write_arith_flags fl) -> refines m2 (update_flags (override l)) ->
  (forall g, amend l fl g = fl' g) -> refines (m;; m2) (write_arith_flags fl').
Proof.
  intros H1 H2 E. eapply refines_ext; [apply refines_bind; [exact H1|intros ?; exact H2]|].
  intros s. rewrite write_then_override. by apply update_flags_ext.
Qed.
Lemma refines_reassoc_l {A B C} (m : Mach C) (m1 : Mach A) (k1 : A -> Mach B) (k2 : B -> Mach C) :
  refines ((m1 ≫= k1) ≫= k2) m -> refines (m1 ≫= fun x => k1 x ≫= k2) m.
Proof. intros H s. rewrite <-(H s). unfold mbind, M_bind. by destruct (m1 s). Qed.

Lemma logic_then_assert_refines w r ins (b : bool) :
  width w -> 0 <= r < 2 ^ w -> ins = logic_code w ->
  refines (SET_FLAGS_OSZAPC_RESULT_SIZE w r ins;; when b ASSERT_FLAGS_OxxxxC)
    (write_arith_flags (result_flags w r b false b)).
Proof.
  intros Hw Hr Hi. destruct b; cbn [when].
  - eapply refines_ext; [apply refines_bind; [by apply set_logic_refines|intros ?; apply assert_OxxxxC_refines]|].
    intros s. rewrite write_then_override. apply update_flags_ext. intros g. by destruct g.
  - eapply refines_ext; [apply refines_bind; [by apply set_logic_refines|intros ?; apply refines_ret]|].
    done.
Qed.

(** The range of a value read, in whichever form the lemma at hand wants it. *)
Ltac range_tac :=
  match goal with
  | |- 0 <= wrap _ _ < _ => apply wrap_range; lia
  | |- 0 <= Z.land _ _ < _ => apply land_range; [range_tac|]; range_tac
  | |- 0 <= wrap _ _ => apply wrap_range; lia
  | |- 0 <= Z.lor _ _ < _ => apply lor_range; [range_tac|]; range_tac
  | |- 0 <= Z.lxor _ _ < _ => apply lxor_range; [range_tac|]; range_tac
  | |- _ => first [assumption | lia | apply wrap_range; lia]
  end.

Ltac width_tac := first [left; reflexivity | right; left; reflexivity | right; right; reflexivity].

(** The results agree modulo [2^w]. *)
Ltac result_tac := first [reflexivity | (f_equal; lia)].

(** A recorded operation against the flags of the reference. *)
Ltac flags_tac :=
  match goal with
  | |- refines _ (write_arith_flags (add_flags _ _ _ _)) =>
      apply set_add_refines; [width_tac|range_tac|range_tac|range_tac|result_tac|reflexivity]
  | |- refines _ (write_arith_flags (sub_flags _ 0 _ 0)) =>
      apply set_neg_refines; [width_tac|range_tac|result_tac|reflexivity]
  | |- refines _ (write_arith_flags (sub_flags _ _ _ _)) =>
      apply set_sub_refines; [width_tac|range_tac|range_tac|range_tac|result_tac|reflexivity]
  | |- refines _ (write_arith_flags (logic_flags _ _)) =>
      apply set_logic_refines; [width_tac|range_tac|reflexivity]
  | |- refines _ (write_arith_flags (mul_flags _ _ _)) =>
      unfold mul_flags, product_fits; apply logic_then_assert_refines;
      [width_tac|range_tac|reflexivity]
  | |- refines _ (update_keep_CF (add_flags _ _ _ _)) =>
      apply set_inc_refines; [width_tac|range_tac|result_tac|reflexivity]
  | |- refines _ (update_keep_CF (sub_flags _ _ _ _)) =>
      apply set_dec_refines; [width_tac|range_tac|result_tac|reflexivity]
  end.

Lemma wrap_neg_swrap w a : 0 < w -> wrap w (- swrap w a) = wrap w (0 - a).
Proof.
  intros. replace (- swrap w a) with (0 - swrap w a) by lia.
  rewrite <-(wrap_sub_r w 0 (swrap w a)), wrap_swrap, wrap_sub_r by lia. done.
Qed.
Lemma wrap_sub_eqb w a b :
  0 < w -> 0 <= a < 2 ^ w -> 0 <= b < 2 ^ w -> (wrap w (a - b) =? 0) = (a =? b).
Proof. intros. rewrite wrap_sub_cases by lia. zcases. Qed.

(** One step through a handler and its reference. *)
Ltac handler_step :=
  match goal with
  | |- forall _, _ => intros ?
  | |- context [wrap ?w (- swrap ?w ?a)] => rewrite (wrap_neg_swrap w a) by lia
  | |- context [wrap ?w (Z.lnot ?a)] => rewrite (wrap_lnot w a) by range_tac
  | |- context [wrap ?w (?a - ?b) =? 0] => rewrite (wrap_sub_eqb w a b) by range_tac
  | |- refines (mbind _ (mbind _ _)) _ => apply refines_assoc_l
  | |- refines _ (mbind _ (mbind _ _)) => apply refines_assoc_r
  | |- refines (mbind _ (mret _)) _ => apply refines_ret_l
  | |- refines _ (mbind _ (mret _)) => apply refines_ret_r
  | |- refines (mbind _ _) (mbind _ _) =>
      first [ eapply refines_bind_yields; [solve [eauto with refines]|solve [eauto with yields]|intros ? ?]
            | apply refines_bind; [first [solve [eauto with refines] | flags_tac]|intros ?] ]
  | |- refines (if ?b then _ else _) _ => destruct b
  | |- refines _ _ => flags_tac
  | |- refines _ _ => solve [eauto with refines]
  end; cbv beta zeta in *.

(** Flag writers with a fixed list of flags. *)
#[export] Hint Resolve set_flag_refines clear_flag_refines assert_flag_refines
  set_OxxxxC_refines assert_OxxxxC_refines force_flags_refines : refines.

Ltac reference_unfold :=
  cbv beta iota zeta delta [ref_alu ref_inc ref_dec ref_neg ref_not ref_xadd ref_cmpxchg
       ref_sext ref_sext_high ref_cmpxchg8b ref_ud
       ref_mul ref_imul ref_div ref_idiv wide_acc set_quotient product carry_in alu_carry alu_writes
       alu_result alu_flags fetch fetch_rmw store_rmw read_reg write_reg read_mem write_mem
       read_rmw write_rmw Acc Ib Iw Id].

Ltac handler_intro :=
  intros i; cbn [fst snd];
  match goal with |- refines (?h _) _ => unfold h end;
  reference_unfold; unfold_widths.

(** Rows that need an argument of their own are proved first and registered
    here. *)
Create HintDb implements discriminated.
#[export] Hint Constants Opaque : implements.

Ltac handler_tac :=
  first [solve [eauto 1 with implements] | handler_intro; repeat handler_step].

Lemma sext_high w a :
  0 < w -> 0 <= a < 2 ^ w ->
  wrap (2 * w) (swrap w a) / 2 ^ w = if nz (Z.land a (2 ^ (w - 1))) then 2 ^ w - 1 else 0.
Proof.
  intros Hw Ha. rewrite nz_land_pow2, testbit_msb, swrap_unsigned by lia.
  pose proof (pow2_double w Hw). assert (2 ^ (2 * w) = 2 ^ w * 2 ^ w) as E
    by (rewrite <-Z.pow_add_r by lia; f_equal; lia).
  destruct (Z.ltb_spec a (2 ^ (w - 1))), (Z.leb_spec (2 ^ (w - 1)) a); try lia.
  - rewrite wrap_small by (rewrite E; nia). apply Z.div_small. lia.
  - symmetry. apply Z.div_unique with (r := a); [lia|].
    rewrite wrap_sub_cases by (rewrite ?E; nia). rewrite E. zcases.
Qed.

Lemma lor_shiftl_add h l n : 0 <= n -> 0 <= l < 2 ^ n -> Z.lor (Z.shiftl h n) l = h * 2 ^ n + l.
Proof.
  intros. rewrite Z.shiftl_mul_pow2 by lia. apply lor_disjoint_add with (n := n); [lia| |lia].
  apply Z_mod_mult.
Qed.

(** Walk down a table. *)
Ltac table_tac tac := repeat apply Forall_cons_2; [tac.. | apply Forall_nil; done].

(** ** Flags before or after the store

    Some handlers set the flags before they store a result that can no longer
    fault.  The order makes no difference to the state. *)

Definition flagless {A} (m : Mach A) : Prop := forall (F : flags -> flags) s,
  (update_flags (fun s => F (fun f => flag f s));; m) s =
  (a ← m; update_flags (fun s => F (fun f => flag f s));; mret a) s.

Lemma flagless_bind {A B} (m : Mach A) (k : A -> Mach B) :
  flagless m -> (forall a, flagless (k a)) -> flagless (m ≫= k).
Proof.
  intros Hm Hk F s. specialize (Hm F s). unfold mbind, M_bind in *. cbn in *. rewrite Hm.
  destruct (m s) as [a s'| |]; [|done|done]. apply (Hk a F s').
Qed.
Lemma flagless_if {A} (b : bool) (m m' : Mach A) : flagless m -> flagless m' -> flagless (if b then m else m').
Proof. by destruct b. Qed.
Lemma flagless_gets {A} (f : machine -> A) : (forall e s, f (with_eflags e s) = f s) -> flagless (gets f).
Proof. intros H F s. unfold mbind, M_bind, gets, update_flags, modify. cbn. by rewrite H. Qed.
Lemma flagless_modify f :
  (forall s F, (fun t => with_eflags (put_flags (F (fun g => flag g t)) (eflags t)) t) (f s) =
               f (with_eflags (put_flags (F (fun g => flag g s)) (eflags s)) s)) ->
  flagless (modify f).
Proof. intros H F s. unfold mbind, M_bind, update_flags, modify. cbn. f_equal. symmetry. apply H. Qed.

Lemma access_write_physical_flagless a l : flagless (access_write_physical a l).
Proof.
  apply flagless_bind; [by apply flagless_gets|]. intros ok.
  apply flagless_if; [by apply flagless_modify|done].
Qed.
Lemma RegWrite_flagless m : RegWrite m -> flagless m.
Proof.
  intros (f & Hm & _) F s. unfold mbind, M_bind, update_flags, modify. cbn. by rewrite !Hm.
Qed.

Create HintDb flagless discriminated.
#[export] Hint Constants Opaque : flagless.
#[export] Hint Extern 1 (flagless _) => eapply RegWrite_flagless; typeclasses eauto : flagless.

Lemma write_RMW_virtual_byte_flagless v : flagless (write_RMW_virtual_byte v).
Proof.
  apply flagless_bind; [by apply flagless_gets|]. intros x.
  apply flagless_if; apply access_write_physical_flagless.
Qed.
Lemma write_RMW_virtual_word_flagless v : flagless (write_RMW_virtual_word v).
Proof.
  apply flagless_bind; [by apply flagless_gets|]. intros x.
  apply flagless_if; [apply access_write_physical_flagless|].
  apply flagless_if; [apply access_write_physical_flagless|].
  apply flagless_bind; [|intros _]; apply access_write_physical_flagless.
Qed.
Lemma write_RMW_virtual_flagless len v : flagless (write_RMW_virtual len v).
Proof.
  apply flagless_bind; [by apply flagless_gets|]. intros x.
  apply flagless_if; [apply access_write_physical_flagless|].
  apply flagless_if; [apply access_write_physical_flagless|].
  apply flagless_bind; [|intros _]; apply access_write_physical_flagless.
Qed.
#[export] Hint Resolve write_RMW_virtual_byte_flagless write_RMW_virtual_word_flagless
  write_RMW_virtual_flagless : flagless.

Lemma refines_swap (m st st' : Mach unit) (F : flags -> flags) :
  refines m (update_flags (fun s => F (fun f => flag f s))) -> refines st st' -> flagless st' ->
  refines (m;; st) (st';; update_flags (fun s => F (fun f => flag f s))).
Proof.
  intros Hm Hst Hf. eapply refines_ext; [apply refines_bind; [exact Hm|intros ?; exact Hst]|].
  intros s. rewrite Hf. unfold mbind, M_bind. by destruct (st' (norm s)) as [[] ?| |].
Qed.
Lemma refines_swap_override (m st st' : Mach unit) l :
  refines m (update_flags (override l)) -> refines st st' -> flagless st' ->
  refines (m;; st) (st';; update_flags (override l)).
Proof. apply (refines_swap m st st' (amend l)). Qed.
Lemma refines_swap_write (m st st' : Mach unit) fl :
  refines m (write_arith_flags fl) -> refines st st' -> flagless st' ->
  refines (m;; st) (st';; write_arith_flags fl).
Proof. apply (refines_swap m st st' (fun _ => fl)). Qed.

(** ** Operands *)

Section Operand.
Context (w : Z) (Hw : width w) (p : place) (i : bxInstruction_c).

Lemma read_reg_refines n : refines (read_reg w n) (read_reg w n).
Proof. destruct Hw as [->|[->| ->]]; cbv [read_reg]; eauto with refines. Qed.
Lemma read_reg_yields n : yields (read_reg w n) (fun v => 0 <= v < 2 ^ w).
Proof. destruct Hw as [->|[->| ->]]; cbv [read_reg]; eauto with yields. Qed.
Lemma read_rmw_refines n o : refines (read_rmw w n o) (read_rmw w n o).
Proof. destruct Hw as [->|[->| ->]]; reference_unfold; unfold_widths; eauto with refines. Qed.
Lemma read_rmw_yields n o : yields (read_rmw w n o) (fun v => 0 <= v < 2 ^ w).
Proof.
  destruct Hw as [->|[->| ->]]; reference_unfold; [apply read_RMW_virtual_byte_32_yields|..];
    apply read_RMW_virtual_32_yields.
Qed.

Lemma fetch_rmw_refines : p = Mem \/ p = RM \/ p = Reg i_rm -> refines (fetch_rmw w p i) (fetch_rmw w p i).
Proof.
  intros [->|[->| ->]]; cbn [fetch_rmw fetch].
  - apply refines_bind; [apply resolve_refines|]. intros ?. apply read_rmw_refines.
  - apply refines_if; [apply read_reg_refines|].
    apply refines_bind; [apply resolve_refines|]. intros ?. apply read_rmw_refines.
  - apply read_reg_refines.
Qed.
Lemma fetch_rmw_yields :
  p = Mem \/ p = RM \/ p = Reg i_rm -> yields (fetch_rmw w p i) (fun v => 0 <= v < 2 ^ w).
Proof.
  intros [->|[->| ->]]; cbn [fetch_rmw fetch].
  - apply yields_bind. intros ?. apply read_rmw_yields.
  - apply yields_if; [apply read_reg_yields|]. apply yields_bind. intros ?. apply read_rmw_yields.
  - apply read_reg_yields.
Qed.
Lemma store_rmw_refines v :
  p = Mem \/ p = RM \/ p = Reg i_rm -> refines (store_rmw w p v i) (store_rmw w p v i).
Proof.
  intros [->|[->| ->]]; destruct Hw as [->|[->| ->]]; reference_unfold; unfold_widths;
    try apply refines_if; eauto with refines.
Qed.
Lemma store_rmw_flagless v :
  p = Mem \/ p = RM \/ p = Reg i_rm -> flagless (store_rmw w p v i).
Proof.
  intros [->|[->| ->]]; destruct Hw as [->|[->| ->]]; reference_unfold; unfold_widths;
    try apply flagless_if; eauto with flagless.
Qed.
End Operand.

Ltac place_tac := first [left; reflexivity | right; left; reflexivity | right; right; reflexivity].

(** Find a row of a table by its handler. *)
Ltac row_tac := repeat first [left | right].
