(* ===== verification/Mode.v ===== *)
(** * Mode: system flags and the state derived from them

    The accessors of the EFLAGS bits that are never lazy (the macros
    [IMPLEMENT_EFLAG_ACCESSOR] and its variants in cpu/cpu.h), the functions
    that recompute what the emulator caches about the processor mode
    (cpu/proc_ctrl.cc: [handleCpuModeChange], [handleAlignmentCheck]; cpu/cpu.h:
    [updateFetchModeMask]), and the writers of the whole EFLAGS register
    (cpu/flag_ctrl_pro.cc).

    [cpu_mode], [user_pl], [fetchModeMask] and [alignment_check_mask] are caches
    of facts that CR0, EFLAGS and CS determine.  [coherent] says that the caches
    are right, and the lemmas at the end show which operations cannot disturb
    them ([steady]) and that the others put them right again. *)
From stdpp Require Import base numbers list gmap.
From Stdlib Require Import ZArith Lia.
From S2P Require Import Prelude Machine LazyFlags Memory Paging Access Regs Precise Reference.

Local Open Scope Z_scope.

(** ** EFLAGS accessors (cpu/cpu.h) *)

Definition getB_eflag (bitnum : Z) (s : machine) : Z := Z.land 1 (Z.shiftr (eflags s) bitnum).
Definition get_eflag (bitnum : Z) (s : machine) : Z := Z.land (eflags s) (2 ^ bitnum).
Definition assert_eflag (bitnum : Z) : Mach unit :=
  modify (fun s => with_eflags (Z.lor (eflags s) (2 ^ bitnum)) s).
Definition clear_eflag (bitnum : Z) : Mach unit :=
  modify (fun s => with_eflags (Z.ldiff (eflags s) (2 ^ bitnum)) s).
Definition set_eflag (bitnum val : Z) : Mach unit :=
  modify (fun s =>
    with_eflags (Z.lor (Z.ldiff (eflags s) (2 ^ bitnum)) (u32 (Z.shiftl val bitnum))) s).

Definition get_ID := get_eflag 21.
Definition get_VIP := get_eflag 20.
Definition get_VIF := get_eflag 19.
Definition get_AC := get_eflag 18.
Definition get_VM := get_eflag 17.
Definition get_RF := get_eflag 16.
Definition get_NT := get_eflag 14.
Definition get_DF := get_eflag 10.
Definition get_IF := get_eflag 9.
Definition get_TF := get_eflag 8.

Definition get_IOPL (s : machine) : Z := Z.land 3 (Z.shiftr (eflags s) 12).
Definition set_IOPL (val : Z) : Mach unit :=
  modify (fun s => with_eflags (Z.ldiff (eflags s) (3 * 2 ^ 12)) s);;
  modify (fun s => with_eflags (Z.lor (eflags s) (Z.shiftl (Z.land 3 val) 12)) s).

Definition assert_VIF := assert_eflag 19.
Definition clear_VIF := clear_eflag 19.
Definition assert_NT := assert_eflag 14.
Definition clear_NT := clear_eflag 14.
Definition assert_DF := assert_eflag 10.
Definition clear_DF := clear_eflag 10.

(** RF, IF and TF: setting one asks for the event loop. *)
Definition assert_eflag_async (bitnum : Z) : Mach unit :=
  modify (with_async_event 1);; assert_eflag bitnum.
Definition set_eflag_async (bitnum val : Z) : Mach unit :=
  when (nz val) (modify (with_async_event 1));; set_eflag bitnum val.
Definition assert_RF := assert_eflag_async 16.
Definition clear_RF := clear_eflag 16.
Definition assert_IF := assert_eflag_async 9.
Definition clear_IF := clear_eflag 9.
Definition assert_TF := assert_eflag_async 8.
Definition clear_TF := clear_eflag 8.

(** ** The caches of the mode *)

(** cpu/cpu.h *)
Definition updateFetchModeMask : Mach unit :=
  modify (fun s =>
    with_user_pl (Z.b2z (sel_rpl (selector (sreg BX_SEG_REG_CS s)) =? 3))
      (with_fetchModeMask (seg_d_b (cache (sreg BX_SEG_REG_CS s))) s)).
Definition invalidate_prefetch_q : Mach unit := modify (with_eipPageWindowSize 0).

(** cpu/proc_ctrl.cc *)
Definition handleAlignmentCheck : Mach unit :=
  on ← gets (fun s => (CPL s =? 3) && nz (cr0_get_AM s) && nz (get_AC s));
  mask ← gets alignment_check_mask;
  if (on : bool) then when (mask =? 0) (modify (with_alignment_check_mask 0xF))
  else when (negb (mask =? 0)) (modify (with_alignment_check_mask 0)).

Definition BX_DATA_READ_WRITE_ACCESSED : Z := 0x3.

(** whitebochs.h: [abort()] where it is false. *)
Definition BX_ASSERT (x : bool) : Mach unit := if x then mret tt else crash.
Abbreviation BX_PANIC := (crash (A := unit)).

Definition handleCpuModeChange : Mach unit :=
  pe ← gets cr0_get_PE;
  (if nz pe then
     vm ← gets get_VM;
     if nz vm then modify (with_cpu_mode BX_MODE_IA32_V8086)
     else modify (with_cpu_mode BX_MODE_IA32_PROTECTED)
   else
     modify (with_cpu_mode BX_MODE_IA32_REAL);;
     modify (fun s =>
       let cs := sreg BX_SEG_REG_CS s in
       set_sreg BX_SEG_REG_CS
         (with_cache (with_desc_type BX_DATA_READ_WRITE_ACCESSED
            (with_desc_segment 1 (with_desc_p 1 (cache cs)))) cs) s);;
     cpl ← gets CPL;
     BX_ASSERT (cpl =? 0));;
  updateFetchModeMask.

(** The accessors of AC and VM, which keep the caches. *)
Definition assert_AC : Mach unit := assert_eflag 18;; handleAlignmentCheck.
Definition clear_AC : Mach unit := clear_eflag 18;; modify (with_alignment_check_mask 0).
Definition set_AC (val : Z) : Mach unit := set_eflag 18 val;; handleAlignmentCheck.
Definition set_VM (val : Z) : Mach unit := set_eflag 17 val;; handleCpuModeChange.
Definition assert_VM : Mach unit := set_VM 1.
Definition clear_VM : Mach unit := set_VM 0.

(** ** Writing EFLAGS as a whole (cpu/flag_ctrl_pro.cc) *)

Definition setEFlags (val : Z) : Mach unit :=
  when (nz (Z.land val (Z.lor EFlagsTFMask EFlagsRFMask))) (modify (with_async_event 1));;
  when (nz (Z.land val EFlagsIFMask))
    (if_ ← gets get_IF; when (negb (nz if_)) (modify (with_async_event 1)));;
  modify (with_eflags val);;
  modify (with_lf_flags_status 0);;
  handleAlignmentCheck;;
  handleCpuModeChange.

Definition supportMask : Z :=
  Z.lor (Z.lor 0x00037fd5 (Z.lor EFlagsIDMask EFlagsACMask)) (Z.lor EFlagsVIPMask EFlagsVIFMask).

Definition writeEFlags (flags changeMask : Z) : Mach unit :=
  let changeMask := Z.land changeMask supportMask in
  newEFlags ← gets (fun s => Z.lor (Z.ldiff (eflags s) changeMask) (Z.land flags changeMask));
  setEFlags newEFlags.

Definition write_flags (flags change_IOPL change_IF : Z) : Mach unit :=
  let changeMask := Z.lor 0x0dd5 EFlagsNTMask in
  let changeMask := if nz change_IOPL then Z.lor changeMask EFlagsIOPLMask else changeMask in
  let changeMask := if nz change_IF then Z.lor changeMask EFlagsIFMask else changeMask in
  writeEFlags flags changeMask.

(** ** Coherence of the caches *)

Definition mode_of (s : machine) : Z :=
  if Z.testbit (cr0 s) 0 then
    if Z.testbit (eflags s) 17 then BX_MODE_IA32_V8086 else BX_MODE_IA32_PROTECTED
  else BX_MODE_IA32_REAL.
Definition checks_alignment (s : machine) : bool :=
  (CPL s =? 3) && Z.testbit (cr0 s) 18 && Z.testbit (eflags s) 18.

(** Real mode is at level 0: what [handleCpuModeChange()] asserts. *)
Definition real_level (s : machine) : Prop := Z.testbit (cr0 s) 0 = false -> CPL s = 0.

Definition coherent (s : machine) : Prop :=
  cpu_mode s = mode_of s /\
  user_pl s = Z.b2z (CPL s =? 3) /\
  fetchModeMask s = seg_d_b (cache (sreg BX_SEG_REG_CS s)) /\
  alignment_check_mask s = (if checks_alignment s then 0xF else 0).

(** The registers only system instructions and task switches write. *)
Definition sysregs (s : machine) :
    bx_global_segment_reg_t * bx_global_segment_reg_t * bx_segment_reg_t * bx_segment_reg_t *
    list Z * Z * Z * Z * Z * Z :=
  (gdtr s, idtr s, ldtr s, tr s, dr s, dr6 s, dr7 s, cr3 s, activity_state s, isa_extensions_bitmask s).

(** Everything [coherent] talks about, CR4, the stack pointer saved by the
    instructions that change it before their last access, what [exception()]
    restarts and combines by, and the system registers. *)
Definition control (s : machine) :=
  ((speculative_rsp s, prev_rsp s, cr4 s, cr0 s), (errorno s, curr_exception s, prev_rip s),
   (Z.testbit (eflags s) 17, Z.testbit (eflags s) 18),
   (CPL s, seg_d_b (cache (sreg BX_SEG_REG_CS s))),
   (cpu_mode s, user_pl s, fetchModeMask s, alignment_check_mask s), sysregs s).

(** [m] leaves all of it alone, however it ends. *)
Definition steady {A} (m : Mach A) : Prop :=
  forall s, match m s with Ret _ s' | Fault _ _ s' => control s' = control s | Crash => True end.

Lemma coherent_control s s' : control s' = control s -> coherent s -> coherent s'.
Proof.
  unfold control, coherent, mode_of, checks_alignment.
  rewrite !pair_equal_spec.
  by intros [[[[[[_ ->] _] [-> ->]] [-> ->]] [[[-> ->] ->] ->]] _].
Qed.
Lemma steady_coherent {A} (m : Mach A) : steady m -> preserves coherent m.
Proof.
  intros Hm s Hs. specialize (Hm s). destruct (m s); try done; by eapply coherent_control.
Qed.

Create HintDb steady discriminated.
#[export] Hint Constants Opaque : steady.

Lemma steady_ret {A} (a : A) : steady (mret a).
Proof. by intros s. Qed.
Lemma steady_gets {A} (f : machine -> A) : steady (gets f).
Proof. by intros s. Qed.
Lemma steady_raise {A} v e : steady (raise (A := A) v e).
Proof. by intros s. Qed.
Lemma steady_crash {A} : steady (crash (A := A)).
Proof. by intros s. Qed.
Lemma steady_modify f : (forall s, control (f s) = control s) -> steady (modify f).
Proof. intros H s. apply H. Qed.
Lemma steady_bind {A B} (m : Mach A) (k : A -> Mach B) :
  steady m -> (forall a, steady (k a)) -> steady (m ≫= k).
Proof.
  intros Hm Hk s. specialize (Hm s). unfold mbind, M_bind.
  destruct (m s) as [a s'|v e s'|]; [|done|done]. specialize (Hk a s').
  destruct (k a s'); [congruence|congruence|done].
Qed.
Lemma steady_when b m : steady m -> steady (when b m).
Proof. intros. destruct b; [done|apply steady_ret]. Qed.
Lemma RegRead_steady w m : RegRead w m -> steady m.
Proof. intros (f & Hm & _) s. by rewrite Hm. Qed.
Lemma RegWrite_steady m : RegWrite m -> steady m.
Proof. intros (f & Hm & _) s. by rewrite Hm. Qed.
#[export] Hint Resolve steady_ret steady_gets steady_raise steady_crash : steady.
#[export] Hint Extern 1 (steady _) =>
  first [eapply RegRead_steady; typeclasses eauto | eapply RegWrite_steady; typeclasses eauto] : steady.

Ltac steady_step :=
  match goal with
  | |- forall _, _ => intros ?
  | |- steady (mbind _ _) => apply steady_bind
  | |- steady (let _ := _ in _) => cbv zeta
  | |- steady (match ?x with _ => _ end) => destruct x
  | |- steady (when _ _) => apply steady_when
  | |- steady (modify _) => apply steady_modify; intros ?; reflexivity
  | |- steady _ => solve [eauto with steady]
  end.
Ltac steady_tac := repeat steady_step.

(** *** Memory accesses are steady *)

Lemma page_fault_steady {A} f l u r : steady (page_fault (A := A) f l u r).
Proof. unfold page_fault. steady_tac. Qed.
Lemma access_write_physical_steady a l : steady (access_write_physical a l).
Proof. unfold access_write_physical, writePhysicalPage. steady_tac. Qed.
Lemma access_read_physical_steady a n : steady (access_read_physical a n).
Proof. unfold access_read_physical, readPhysicalPage. steady_tac. Qed.
#[export] Hint Resolve page_fault_steady access_write_physical_steady access_read_physical_steady : steady.
Lemma write_physical_steady a n v : steady (write_physical a n v).
Proof. unfold write_physical. steady_tac. Qed.
Lemma read_physical_steady a n : steady (read_physical a n).
Proof. unfold read_physical. steady_tac. Qed.
#[export] Hint Resolve write_physical_steady read_physical_steady : steady.
Lemma translate_linear_steady l p r : steady (translate_linear l p r).
Proof. unfold translate_linear, translate_PDE4M, translate_PTE. steady_tac. Qed.
#[export] Hint Resolve translate_linear_steady : steady.
Lemma xlate_access_steady l n p r : steady (xlate_access l n p r).
Proof. unfold xlate_access, dtranslate_linear, set_xlation. steady_tac. Qed.
#[export] Hint Resolve xlate_access_steady : steady.
Lemma access_write_linear_steady l n p d : steady (access_write_linear l n p d).
Proof. unfold access_write_linear. steady_tac. Qed.
Lemma access_read_linear_steady l n p r : steady (access_read_linear l n p r).
Proof. unfold access_read_linear. steady_tac. Qed.
#[export] Hint Resolve access_write_linear_steady access_read_linear_steady : steady.

(** A segment register replaced by one with the same RPL and default size. *)
Lemma set_sreg_control n seg s :
  sel_rpl (selector seg) = sel_rpl (selector (sreg n s)) ->
  seg_d_b (cache seg) = seg_d_b (cache (sreg n s)) -> control (set_sreg n seg s) = control s.
Proof.
  intros Hr Hd. unfold control, CPL.
  assert (sreg BX_SEG_REG_CS (set_sreg n seg s) =
          if decide (Z.to_nat n = 1%nat /\ (1 < length (sregs s))%nat)
          then seg else sreg BX_SEG_REG_CS s) as ->.
  { unfold sreg, set_sreg. msimpl. change (Z.to_nat BX_SEG_REG_CS) with 1%nat.
    destruct (decide _) as [[-> Hl]|Hn].
    - by rewrite (nth_lookup_Some _ _ _ seg) by (by apply list_lookup_insert_eq).
    - rewrite !nth_lookup. f_equal. destruct (decide (Z.to_nat n = 1%nat)) as [E|E].
      + rewrite E, list_insert_ge; [done|]. lia.
      + by rewrite list_lookup_insert_ne. }
  destruct (decide _) as [[E _]|_]; [|done].
  assert (sreg n s = sreg BX_SEG_REG_CS s) as Hs by (unfold sreg; by rewrite E).
  rewrite Hs in Hr, Hd. by rewrite Hr, Hd.
Qed.

Lemma write_virtual_checks_d_b seg o l : seg_d_b (cache (snd (write_virtual_checks seg o l))) = seg_d_b (cache seg).
Proof. unfold write_virtual_checks. by repeat case_match. Qed.
Lemma read_virtual_checks_d_b seg o l : seg_d_b (cache (snd (read_virtual_checks seg o l))) = seg_d_b (cache seg).
Proof. unfold read_virtual_checks. by repeat case_match. Qed.

Lemma segment_checks_steady r c len n o :
  (forall seg o l, selector (snd (c seg o l)) = selector seg) ->
  (forall seg o l, seg_d_b (cache (snd (c seg o l))) = seg_d_b (cache seg)) ->
  steady (segment_checks r c len n o).
Proof.
  intros Hc Hd. unfold segment_checks. intros s.
  unfold mbind, M_bind, gets. cbn [when].
  unfold mret, M_ret.
  destruct (nz _); [by destruct (negb _)|].
  specialize (Hc (sreg n s) o (Z.of_nat len)). specialize (Hd (sreg n s) o (Z.of_nat len)).
  destruct (c (sreg n s) o (Z.of_nat len)) as [ok seg'].
  unfold modify. cbn [snd] in Hc, Hd.
  pose proof (set_sreg_control n seg' s ltac:(by rewrite Hc) Hd). by destruct (negb ok).
Qed.
#[export] Hint Resolve segment_checks_steady write_virtual_checks_sel read_virtual_checks_sel
  write_virtual_checks_d_b read_virtual_checks_d_b : steady.

Lemma write_virtual_32_steady len n o d : steady (write_virtual_32 len n o d).
Proof. unfold write_virtual_32, get_laddr32, alignment_ok. steady_tac. Qed.
Lemma read_virtual_32_steady len n o : steady (read_virtual_32 len n o).
Proof. unfold read_virtual_32, get_laddr32, alignment_ok. steady_tac. Qed.
Lemma read_RMW_virtual_32_steady len n o : steady (read_RMW_virtual_32 len n o).
Proof. unfold read_RMW_virtual_32, get_laddr32, alignment_ok. steady_tac. Qed.
Lemma read_RMW_virtual_byte_32_steady n o : steady (read_RMW_virtual_byte_32 n o).
Proof. unfold read_RMW_virtual_byte_32, get_laddr32, host_read, set_xlation. steady_tac. Qed.
Lemma write_RMW_virtual_byte_steady v : steady (write_RMW_virtual_byte v).
Proof. unfold write_RMW_virtual_byte, host_write. steady_tac. Qed.
Lemma write_RMW_virtual_word_steady v : steady (write_RMW_virtual_word v).
Proof. unfold write_RMW_virtual_word, host_write. steady_tac. Qed.
Lemma write_RMW_virtual_steady len v : steady (write_RMW_virtual len v).
Proof. unfold write_RMW_virtual, host_write. steady_tac. Qed.
Lemma system_read_steady len l : steady (system_read len l).
Proof. unfold system_read, host_read. steady_tac. Qed.
Lemma system_write_steady len l d : steady (system_write len l d).
Proof. unfold system_write, host_write. steady_tac. Qed.
Lemma resolve_steady i : steady (resolve i).
Proof.
  unfold resolve, BxResolve16BaseIndex, BxResolve32Base, BxResolve32BaseIndex. steady_tac.
Qed.
#[export] Hint Resolve write_virtual_32_steady read_virtual_32_steady read_RMW_virtual_32_steady
  read_RMW_virtual_byte_32_steady write_RMW_virtual_byte_steady write_RMW_virtual_word_steady
  write_RMW_virtual_steady system_read_steady system_write_steady resolve_steady : steady.

(** *** Through the materialisation of the flags

    [control] does not look at the lazy flags, so a handler is steady when the
    reference instruction it refines is. *)

Lemma control_norm s : control (norm s) = control s.
Proof.
  unfold control. rewrite !testbit_eflags_norm by (by intros []). done.
Qed.
Lemma refines_steady {A} (m m' : Mach A) : refines m m' -> steady m' -> steady m.
Proof.
  intros Hr Hs s. specialize (Hr s). specialize (Hs (norm s)). rewrite <-Hr, (control_norm s) in Hs.
  by destruct (m s); cbn [omap_state] in Hs; rewrite ?control_norm in Hs.
Qed.
Lemma update_flags_steady fl : steady (update_flags fl).
Proof.
  apply steady_modify. intros s. unfold control, CPL, sreg. msimpl.
  by rewrite !testbit_put_flags_other by (by intros []).
Qed.
#[export] Hint Resolve update_flags_steady : steady.
Lemma write_arith_flags_steady fl : steady (write_arith_flags fl).
Proof. apply update_flags_steady. Qed.
#[export] Hint Resolve write_arith_flags_steady : steady.

(** *** Recomputing the caches *)

Lemma getB_eflag_spec n s : 0 <= n -> getB_eflag n s = Z.b2z (Z.testbit (eflags s) n).
Proof. apply cr_bit_b2z. Qed.
Lemma get_eflag_spec n s : 0 <= n -> nz (get_eflag n s) = Z.testbit (eflags s) n.
Proof. apply nz_land_pow2. Qed.
Lemma nz_cr_bit n v : 0 <= n -> nz (cr_bit n v) = Z.testbit v n.
Proof. intros. by rewrite cr_bit_b2z, nz_b2z. Qed.

Lemma handleAlignmentCheck_eq s :
  alignment_check_mask s = 0 \/ alignment_check_mask s = 0xF ->
  handleAlignmentCheck s =
    Ret tt (with_alignment_check_mask (if checks_alignment s then 0xF else 0) s).
Proof.
  intros H. unfold handleAlignmentCheck, gets, cr0_get_AM, get_AC, mbind, M_bind.
  rewrite nz_cr_bit, get_eflag_spec by lia. fold (checks_alignment s).
  destruct H as [H|H]; rewrite H; destruct (checks_alignment s); cbn; unfold mret, M_ret;
    f_equal; destruct s; cbn in *; by subst.
Qed.

(** The CS that real mode imposes. *)
Definition real_cs (s : machine) : machine :=
  let cs := sreg BX_SEG_REG_CS s in
  set_sreg BX_SEG_REG_CS (with_cache (with_desc_type BX_DATA_READ_WRITE_ACCESSED
    (with_desc_segment 1 (with_desc_p 1 (cache cs)))) cs) s.

Lemma real_cs_control s : control (real_cs s) = control s.
Proof. by apply set_sreg_control. Qed.
Lemma real_cs_CPL s : CPL (real_cs s) = CPL s.
Proof. pose proof (real_cs_control s) as H. unfold control in H.
  rewrite !pair_equal_spec in H. apply H.
Qed.

Lemma handleCpuModeChange_eq s :
  handleCpuModeChange s =
    let s1 := with_cpu_mode (mode_of s) s in
    if Z.testbit (cr0 s) 0 then updateFetchModeMask s1
    else if CPL s =? 0 then updateFetchModeMask (real_cs s1) else Crash.
Proof.
  unfold handleCpuModeChange, gets, cr0_get_PE, get_VM, mode_of, mbind, M_bind.
  rewrite nz_cr_bit by lia.
  destruct (Z.testbit (cr0 s) 0); cbn [negb andb]; cbv beta iota.
  - rewrite get_eflag_spec by lia. by destruct (Z.testbit (eflags s) 17).
  - unfold modify. fold (real_cs (with_cpu_mode BX_MODE_IA32_REAL s)).
    rewrite (real_cs_CPL (with_cpu_mode BX_MODE_IA32_REAL s)).
    change (CPL (with_cpu_mode BX_MODE_IA32_REAL s)) with (CPL s). unfold BX_ASSERT. by destruct (CPL s =? 0).
Qed.
Lemma handleCpuModeChange_run s :
  real_level s ->
  handleCpuModeChange s =
    updateFetchModeMask (if Z.testbit (cr0 s) 0 then with_cpu_mode (mode_of s) s else real_cs (with_cpu_mode (mode_of s) s)).
Proof. intros H. rewrite handleCpuModeChange_eq. cbv zeta. destruct (Z.testbit (cr0 s) 0) eqn:E; [done|]. by rewrite (H E). Qed.

(** Whatever the caches held before, they are right afterwards; the alignment
    mask is the business of [handleAlignmentCheck]. *)
Lemma handleCpuModeChange_returns s :
  alignment_check_mask s = (if checks_alignment s then 0xF else 0) -> real_level s ->
  match handleCpuModeChange s with
  | Ret _ s' => coherent s'
  | _ => False
  end.
Proof.
  intros Ha Hl. rewrite handleCpuModeChange_run by done.
  set (s1 := with_cpu_mode (mode_of s) s).
  set (s2 := if Z.testbit (cr0 s) 0 then s1 else real_cs s1).
  assert (control s2 = control s1) as Hc by (unfold s2; destruct (Z.testbit (cr0 s) 0); [done|apply real_cs_control]).
  unfold control in Hc. rewrite !pair_equal_spec in Hc.
  destruct Hc as [[[[[[_ H1] _] [H2 H3]] [H4 H5]] [[[H6 H7] H8] H9]] _].
  unfold updateFetchModeMask, modify. unfold coherent, mode_of, checks_alignment, CPL, sreg.
  msimpl. unfold CPL, sreg in H4. split; [|split; [|split]]; try done.
  - rewrite H6, H1, H2. done.
  - rewrite H9, H4, H1, H3. apply Ha.
Qed.
Lemma handleCpuModeChange_coherent s :
  alignment_check_mask s = (if checks_alignment s then 0xF else 0) ->
  match handleCpuModeChange s with
  | Ret _ s' => coherent s'
  | Fault _ _ _ => False
  | Crash => True
  end.
Proof.
  intros Ha. pose proof (handleCpuModeChange_returns s Ha) as H. revert H. unfold real_level.
  rewrite handleCpuModeChange_eq. cbv zeta. destruct (Z.testbit (cr0 s) 0); [by intros H; apply H|].
  destruct (Z.eqb_spec (CPL s) 0); [by intros H; apply H|done].
Qed.

Lemma checks_alignment_mode m s : checks_alignment (with_cpu_mode m s) = checks_alignment s.
Proof. done. Qed.

(** [setEFlags] without its requests for the event loop. *)
Lemma setEFlags_eq val s :
  exists a, setEFlags val s =
    (handleAlignmentCheck;; handleCpuModeChange)
      (with_lf_flags_status 0 (with_eflags val (with_async_event a s))).
Proof.
  unfold setEFlags, gets, modify, when, mbind, M_bind, mret, M_ret.
  assert (with_async_event (async_event s) s = s) as Hs by by destruct s.
  destruct (nz (Z.land val (Z.lor _ _))); destruct (nz (Z.land val EFlagsIFMask));
    cbv beta iota; try destruct (negb _); cbv beta iota;
    first [by exists 1 | exists (async_event s); by rewrite Hs].
Qed.

Lemma setEFlags_coherent val s :
  coherent s -> real_level s ->
  match setEFlags val s with
  | Ret _ s' => coherent s' /\ eflags s' = val /\ lf_flags_status s' = 0 /\ gen_reg s' = gen_reg s
  | _ => False
  end.
Proof.
  intros (_ & _ & _ & Ha) Hl. destruct (setEFlags_eq val s) as [a ->].
  set (s0 := with_lf_flags_status 0 _).
  rewrite (bind_Ret _ _ _ _ _ (handleAlignmentCheck_eq s0
    ltac:(change (alignment_check_mask s0) with (alignment_check_mask s); rewrite Ha;
          destruct (checks_alignment s); tauto))).
  set (s1 := with_alignment_check_mask _ s0).
  pose proof (handleCpuModeChange_returns s1 eq_refl Hl) as H. revert H.
  rewrite (handleCpuModeChange_run s1 Hl). set (s2 := if Z.testbit (cr0 s1) 0 then _ else _).
  intros H. split; [done|].
  unfold updateFetchModeMask, modify. msimpl. subst s2. by destruct (Z.testbit (cr0 s1) 0).
Qed.

Lemma setEFlags_keeps val : preserves coherent (setEFlags val).
Proof.
  intros s (_ & _ & _ & Ha). destruct (setEFlags_eq val s) as [a ->]. set (s0 := with_lf_flags_status 0 _).
  rewrite (bind_Ret _ _ _ _ _ (handleAlignmentCheck_eq s0
    ltac:(change (alignment_check_mask s0) with (alignment_check_mask s); rewrite Ha;
          destruct (checks_alignment s); tauto))).
  set (s1 := with_alignment_check_mask _ s0).
  pose proof (handleCpuModeChange_coherent s1 eq_refl) as H. by destruct (handleCpuModeChange s1).
Qed.

(** *** The mode functions under the other relations *)

Lemma eflags_bit_refines n :
  0 <= n -> (forall f, n <> eflagsBitShift f) -> refines (gets (get_eflag n)) (gets (get_eflag n)).
Proof.
  intros Hn Hf. apply refines_gets. intros s. unfold get_eflag.
  apply Z.bits_inj'. intros m Hm. rewrite !Z.land_spec, Z.pow2_bits_eqb by lia.
  destruct (Z.eqb_spec n m) as [->|]; [|by rewrite !andb_false_r].
  by rewrite testbit_eflags_norm.
Qed.
Lemma get_IOPL_norm s : get_IOPL (norm s) = get_IOPL s.
Proof.
  unfold get_IOPL. apply Z.bits_inj'. intros m Hm. rewrite !Z.land_spec, !Z.shiftr_spec by lia.
  change 3 with (Z.ones 2). rewrite Z.testbit_ones_nonneg by lia.
  destruct (Z.ltb_spec m 2); [|done]. rewrite testbit_eflags_norm; [done|].
  intros f. pose proof (eflagsBitShift_range f). lia.
Qed.
Ltac eflag_bit := apply eflags_bit_refines; [lia|by intros []].
#[export] Hint Extern 1 (refines (gets get_ID) _) => eflag_bit : refines.
#[export] Hint Extern 1 (refines (gets get_VIP) _) => eflag_bit : refines.
#[export] Hint Extern 1 (refines (gets get_VIF) _) => eflag_bit : refines.
#[export] Hint Extern 1 (refines (gets get_AC) _) => eflag_bit : refines.
#[export] Hint Extern 1 (refines (gets get_VM) _) => eflag_bit : refines.
#[export] Hint Extern 1 (refines (gets get_IF) _) => eflag_bit : refines.
#[export] Hint Extern 1 (refines (gets get_DF) _) => eflag_bit : refines.
Lemma get_IOPL_refines : refines (gets get_IOPL) (gets get_IOPL).
Proof. apply refines_gets. intros s. by rewrite get_IOPL_norm. Qed.
#[export] Hint Resolve get_IOPL_refines : refines.

(** An update of a flag that is never lazy. *)
Lemma refines_other_bits (f : machine -> machine) (e : Z -> Z) :
  (forall s, f s = with_eflags (e (eflags s)) s) ->
  (forall z g, Z.testbit (e z) (eflagsBitShift g) = Z.testbit z (eflagsBitShift g)) ->
  (forall z z' n, (forall g, n <> eflagsBitShift g) -> Z.testbit z n = Z.testbit z' n ->
     Z.testbit (e z) n = Z.testbit (e z') n) ->
  refines (modify f) (modify f).
Proof.
  intros Hf He Ho. apply refines_modify. intros s. rewrite !Hf.
  rewrite <-(norm_known (with_eflags (e (eflags (norm s))) (norm s))) by done.
  apply norm_ext; [done| |].
  - intros g. rewrite (flag_spec g). symmetry. rewrite (flag_spec g). msimpl.
    rewrite Z.testbit_0_l, !He. change (eflags (norm s)) with (put_flags (fun f => flag f s) (eflags s)).
    rewrite testbit_put_flags_flag. apply (flag_spec g s).
  - intros n Hn Hg. msimpl. apply Ho; [done|]. by rewrite testbit_eflags_norm.
Qed.
Lemma assert_eflag_refines n :
  0 <= n -> (forall f, n <> eflagsBitShift f) -> refines (assert_eflag n) (assert_eflag n).
Proof.
  intros Hn Hf. apply refines_other_bits with (e := fun z => Z.lor z (2 ^ n)); [done| |].
  - intros z g. specialize (Hf g). rewrite Z.lor_spec, Z.pow2_bits_false by lia. by rewrite orb_false_r.
  - intros z z' m _ H. by rewrite !Z.lor_spec, H.
Qed.
Lemma clear_eflag_refines n :
  0 <= n -> (forall f, n <> eflagsBitShift f) -> refines (clear_eflag n) (clear_eflag n).
Proof.
  intros Hn Hf. apply refines_other_bits with (e := fun z => Z.ldiff z (2 ^ n)); [done| |].
  - intros z g. specialize (Hf g). rewrite Z.ldiff_spec, Z.pow2_bits_false by lia. by rewrite andb_true_r.
  - intros z z' m _ H. by rewrite !Z.ldiff_spec, H.
Qed.
#[export] Hint Extern 1 (refines (assert_eflag _) _) =>
  apply assert_eflag_refines; [lia|by intros []] : refines.
#[export] Hint Extern 1 (refines (clear_eflag _) _) =>
  apply clear_eflag_refines; [lia|by intros []] : refines.

Lemma handleAlignmentCheck_refines : refines handleAlignmentCheck handleAlignmentCheck.
Proof.
  unfold handleAlignmentCheck. apply refines_bind; [|refines_tac].
  apply refines_gets. intros s. unfold get_AC. by rewrite !get_eflag_spec, testbit_eflags_norm by (lia || by intros []).
Qed.
Lemma updateFetchModeMask_refines : refines updateFetchModeMask updateFetchModeMask.
Proof. unfold updateFetchModeMask. refines_tac. Qed.
#[export] Hint Resolve handleAlignmentCheck_refines updateFetchModeMask_refines : refines.
Lemma BX_ASSERT_refines b : refines (BX_ASSERT b) (BX_ASSERT b).
Proof. unfold BX_ASSERT. refines_tac. Qed.
Lemma BX_ASSERT_nofault b : nofault (BX_ASSERT b).
Proof. unfold BX_ASSERT. nofault_tac. Qed.
Lemma BX_ASSERT_steady b : steady (BX_ASSERT b).
Proof. unfold BX_ASSERT. steady_tac. Qed.
Lemma BX_ASSERT_preserves I b : preserves I (BX_ASSERT b).
Proof. unfold BX_ASSERT. preserves_tac. Qed.
#[export] Hint Resolve BX_ASSERT_refines : refines.
#[export] Hint Resolve BX_ASSERT_nofault : nofault.
#[export] Hint Resolve BX_ASSERT_steady : steady.
#[export] Hint Resolve BX_ASSERT_preserves : preserves.
Lemma handleCpuModeChange_refines : refines handleCpuModeChange handleCpuModeChange.
Proof. unfold handleCpuModeChange. refines_tac. Qed.
#[export] Hint Resolve handleCpuModeChange_refines : refines.

Lemma setEFlags_refines val : refines (setEFlags val) (setEFlags val).
Proof.
  unfold setEFlags. do 2 (apply refines_bind; [solve [refines_tac]|intros _]).
  assert (refines (handleAlignmentCheck;; handleCpuModeChange)
                  (handleAlignmentCheck;; handleCpuModeChange)) as Hr by refines_tac.
  intros s. specialize (Hr (with_lf_flags_status 0 (with_eflags val s))).
  replace (norm (with_lf_flags_status 0 (with_eflags val s)))
    with (with_lf_flags_status 0 (with_eflags val (norm s))) in Hr; [exact Hr|].
  rewrite <-(norm_known (with_lf_flags_status 0 (with_eflags val (norm s)))) by done.
  apply norm_ext; [done| |done]. intros f. rewrite !(flag_spec f). msimpl.
  by rewrite Z.testbit_0_l.
Qed.
#[export] Hint Resolve setEFlags_refines : refines.

(** Writing EFLAGS is safe on pending flags because every mask covers them. *)
Definition covers_flags (mask : Z) : bool := Z.ldiff EFlagsOSZAPCMask mask =? 0.

Lemma covers_flags_bit mask f : covers_flags mask = true -> Z.testbit mask (eflagsBitShift f) = true.
Proof.
  intros H%Z.eqb_eq%(f_equal (fun z => Z.testbit z (eflagsBitShift f))).
  rewrite Z.ldiff_spec, testbit_OSZAPCMask_flag, Z.testbit_0_l in H.
  by destruct (Z.testbit mask _).
Qed.
Lemma supportMask_flag f : Z.testbit supportMask (eflagsBitShift f) = true.
Proof. by destruct f. Qed.

(** The value written, on the architectural flags. *)
Lemma written_eflags flags mask s :
  covers_flags mask = true ->
  Z.lor (Z.ldiff (eflags s) (Z.land mask supportMask)) (Z.land flags (Z.land mask supportMask)) =
  Z.lor (Z.ldiff (eflags (norm s)) (Z.land mask supportMask)) (Z.land flags (Z.land mask supportMask)).
Proof.
  intros Hm. apply flag_word_ext.
  - intros f. rewrite !Z.lor_spec, !Z.ldiff_spec, !Z.land_spec, supportMask_flag, (covers_flags_bit mask f Hm).
    cbn [andb negb]. by rewrite !andb_false_r.
  - intros n Hn Hf. by rewrite !Z.lor_spec, !Z.ldiff_spec, testbit_eflags_norm by done.
Qed.
Lemma writeEFlags_refines flags mask :
  covers_flags mask = true -> refines (writeEFlags flags mask) (writeEFlags flags mask).
Proof.
  intros Hm. unfold writeEFlags. cbv zeta. apply refines_bind; [|intros v; apply setEFlags_refines].
  apply refines_gets. intros s. by apply written_eflags.
Qed.
Lemma write_flags_refines flags a b : refines (write_flags flags a b) (write_flags flags a b).
Proof.
  unfold write_flags. cbv zeta. apply writeEFlags_refines. by destruct (nz a), (nz b).
Qed.
#[export] Hint Resolve write_flags_refines : refines.

(** **** The invariant *)

Lemma real_cs_wf s : wf s -> wf (real_cs s).
Proof.
  intros Hw. apply set_sreg_wf; [done|]. destruct (sreg_ok BX_SEG_REG_CS s Hw) as (Hb & Hl & _ & Hr & Hwr).
  unfold cache_ok, usable in *. msimpl. split; [done|]. split; [done|]. split; [done|].
  assert (forall b, nz (desc_valid (cache (sreg BX_SEG_REG_CS s))) && b = true ->
    nz (desc_valid (cache (sreg BX_SEG_REG_CS s))) && nz 1 = true) as Hu
    by (intros b; by destruct (nz (desc_valid _))).
  split; intros Hx; [destruct (Hr Hx) as (? & _ & _ & ?)|destruct (Hwr Hx) as (? & _ & _ & ?)];
    by eauto 6.
Qed.
Lemma updateFetchModeMask_wf : preserves wf updateFetchModeMask.
Proof. wf_modify. Qed.
Lemma handleAlignmentCheck_wf : preserves wf handleAlignmentCheck.
Proof.
  unfold handleAlignmentCheck. apply preserves_bind; [apply preserves_gets|intros on].
  apply preserves_bind; [apply preserves_gets|intros m].
  destruct on; apply preserves_when; wf_modify.
Qed.
Lemma cpu_mode_wf m : 0 <= m <= BX_MODE_IA32_PROTECTED -> preserves wf (modify (with_cpu_mode m)).
Proof. intros Hm. apply preserves_modify. intros s (? & ? & ? & ? & _ & ?).
  split; [done|]. split; [done|]. split; [done|]. split; [done|]. by split. Qed.
Lemma handleCpuModeChange_wf : preserves wf handleCpuModeChange.
Proof.
  unfold handleCpuModeChange. apply preserves_bind; [apply preserves_gets|intros pe].
  apply preserves_bind; [|intros _; apply updateFetchModeMask_wf]. destruct (nz pe).
  - apply preserves_bind; [apply preserves_gets|intros vm].
    destruct (nz vm); apply cpu_mode_wf; unfold BX_MODE_IA32_V8086, BX_MODE_IA32_PROTECTED; lia.
  - apply preserves_bind; [apply cpu_mode_wf; unfold BX_MODE_IA32_REAL, BX_MODE_IA32_PROTECTED; lia|intros _].
    apply preserves_bind; [apply preserves_modify; exact real_cs_wf|intros _]. preserves_tac.
Qed.
#[export] Hint Resolve updateFetchModeMask_wf handleAlignmentCheck_wf handleCpuModeChange_wf : preserves.
Lemma setEFlags_wf val : preserves wf (setEFlags val).
Proof.
  intros s Hw. destruct (setEFlags_eq val s) as [a ->].
  assert (preserves wf (handleAlignmentCheck;; handleCpuModeChange)) as Hp by preserves_tac.
  apply Hp. eapply wf_lazy; [exact (Hw : wf (with_async_event a s))|done|].
  split; [done|]. split; by intros [].
Qed.
Lemma writeEFlags_wf flags mask : preserves wf (writeEFlags flags mask).
Proof. unfold writeEFlags. apply preserves_bind; [apply preserves_gets|intros ?; apply setEFlags_wf]. Qed.
#[export] Hint Resolve setEFlags_wf writeEFlags_wf : preserves.

Lemma handleAlignmentCheck_nofault : nofault handleAlignmentCheck.
Proof. unfold handleAlignmentCheck. nofault_tac. Qed.
Lemma handleCpuModeChange_nofault : nofault handleCpuModeChange.
Proof. unfold handleCpuModeChange, updateFetchModeMask. nofault_tac. Qed.
#[export] Hint Resolve handleAlignmentCheck_nofault handleCpuModeChange_nofault : nofault.
Lemma setEFlags_nofault val : nofault (setEFlags val).
Proof. unfold setEFlags. nofault_tac. Qed.
#[export] Hint Resolve setEFlags_nofault : nofault.
Lemma writeEFlags_nofault flags mask : nofault (writeEFlags flags mask).
Proof. unfold writeEFlags. nofault_tac. Qed.
#[export] Hint Resolve writeEFlags_nofault : nofault.

Lemma writeEFlags_bits flags mask s :
  covers_flags mask = true -> coherent s -> real_level s ->
  match writeEFlags flags mask s with
  | Ret _ s' =>
      coherent s' /\ lf_flags_status s' = 0 /\ gen_reg s' = gen_reg s /\
      forall n, 0 <= n -> Z.testbit (eflags s') n =
        if Z.testbit mask n && Z.testbit supportMask n then Z.testbit flags n
        else Z.testbit (eflags (norm s)) n
  | _ => False
  end.
Proof.
  intros Hm Hc Hl. unfold writeEFlags. cbv zeta. unfold gets. erewrite bind_Ret by done.
  rewrite (written_eflags flags mask s Hm).
  pose proof (setEFlags_coherent (Z.lor (Z.ldiff (eflags (norm s)) (Z.land mask supportMask))
    (Z.land flags (Z.land mask supportMask))) s Hc Hl) as H.
  destruct (setEFlags _ s) as [[] s'|v e s'|]; [|done|done].
  destruct H as (? & He & ? & ?). split; [done|]. split; [done|]. split; [done|].
  intros n Hn. rewrite He, Z.lor_spec, Z.ldiff_spec, !Z.land_spec.
  destruct (Z.testbit mask n && Z.testbit supportMask n); cbn [negb];
    by rewrite ?andb_false_r, ?andb_true_r, ?orb_false_r.
Qed.

(** C23: in a state whose mode caches agree with CR0, EFLAGS and CS, and in real
    mode at level 0, writing EFLAGS under a mask that covers the six arithmetic
    flags replaces exactly the supported bits under the mask, takes every other bit
    from the architectural EFLAGS (pending arithmetic flags included), leaves
    nothing pending, keeps the registers, and leaves [cpu_mode], [user_pl],
    [fetchModeMask] and [alignment_check_mask] agreeing with CR0, EFLAGS and CS
    again.  It raises no exception and fails no assertion. *)
Theorem writeEFlags_correct flags mask s :
  covers_flags mask = true -> coherent s -> real_level s ->
  match writeEFlags flags mask s with
  | Ret _ s' =>
      coherent s' /\ lf_flags_status s' = 0 /\ gen_reg s' = gen_reg s /\
      forall n, 0 <= n -> Z.testbit (eflags s') n =
        if Z.testbit mask n && Z.testbit supportMask n then Z.testbit flags n
        else Z.testbit (eflags (norm s)) n
  | _ => False
  end.
Proof. apply writeEFlags_bits. Qed.

Lemma flat_machine_coherent : coherent flat_machine.
Proof. done. Qed.

Lemma writeEFlags_correct_witness :
  Z.testbit (eflags (norm flat_machine)) 17 = false /\
  match writeEFlags 0xffffffff (Z.lor EFlagsOSZAPCMask EFlagsVMMask) flat_machine with
  | Ret _ s' => coherent s' /\ cpu_mode s' = BX_MODE_IA32_V8086 /\ eflags s' = 0x208d5
  | _ => False
  end.
Proof.
  split; [reflexivity|].
  pose proof (writeEFlags_correct 0xffffffff (Z.lor EFlagsOSZAPCMask EFlagsVMMask) flat_machine
    eq_refl flat_machine_coherent ltac:(done)) as H.
  remember (writeEFlags _ _ _) as o eqn:E. vm_compute in E. subst o.
  split; [apply H|]. split; reflexivity.
Defined.
