(* ===== verification/Segment.v ===== *)
(** * Segment: selectors, descriptors and the loading of segment registers

    cpu/segment_ctrl_pro.cc and the far-pointer loads of cpu/segment_ctrl.cc:
    [parse_selector], [parse_descriptor] and its inverses [get_descriptor_l],
    [get_descriptor_h], the descriptor-table accesses, and [load_seg_reg] with
    every check and exception of it.  The second part gives the architectural
    reading of a descriptor by bit positions ([desc_base], [desc_limit], ...) and
    of the checks ([data_verdict], [stack_verdict]); the theorems relate the
    two. *)
From stdpp Require Import base numbers list gmap.
From Stdlib Require Import ZArith Lia.
From S2P Require Import Prelude Machine LazyFlags Memory Paging Access Regs Precise Reference Mode.

Local Open Scope Z_scope.

(** ** Type fields (cpu/descriptor.h) *)

Definition IS_CODE_SEGMENT (type : Z) : bool := nz (Z.land (Z.shiftr type 3) 0x1).
Definition IS_CODE_SEGMENT_CONFORMING (type : Z) : bool := nz (Z.land (Z.shiftr type 2) 0x1).
Definition IS_CODE_SEGMENT_READABLE (type : Z) : bool := nz (Z.land (Z.shiftr type 1) 0x1).
Definition IS_DATA_SEGMENT_WRITEABLE (type : Z) : bool := nz (Z.land (Z.shiftr type 1) 0x1).
Definition IS_SEGMENT_ACCESSED (type : Z) : bool := nz (Z.land type 0x1).
Definition IS_DATA_SEGMENT (type : Z) : bool := negb (IS_CODE_SEGMENT type).
Definition IS_CODE_SEGMENT_NON_CONFORMING (type : Z) : bool := negb (IS_CODE_SEGMENT_CONFORMING type).
Definition IS_PRESENT (d : bx_descriptor_t) : bool := nz (desc_p d).
Definition BX_SELECTOR_RPL (selector : Z) : Z := Z.land selector 0x03.
Definition BX_SELECTOR_RPL_MASK : Z := 0xfffc.

Definition BX_SYS_SEGMENT_AVAIL_286_TSS : Z := 0x1.
Definition BX_SYS_SEGMENT_LDT : Z := 0x2.
Definition BX_SYS_SEGMENT_BUSY_286_TSS : Z := 0x3.
Definition BX_286_CALL_GATE : Z := 0x4.
Definition BX_TASK_GATE : Z := 0x5.
Definition BX_286_INTERRUPT_GATE : Z := 0x6.
Definition BX_286_TRAP_GATE : Z := 0x7.
Definition BX_SYS_SEGMENT_AVAIL_386_TSS : Z := 0x9.
Definition BX_SYS_SEGMENT_BUSY_386_TSS : Z := 0xb.
Definition BX_386_CALL_GATE : Z := 0xc.
Definition BX_386_INTERRUPT_GATE : Z := 0xe.
Definition BX_386_TRAP_GATE : Z := 0xf.

(** The members [u.gate] and [u.taskgate], overlaid on the first two words of
    [u.segment]: [param_count] is byte 0, [dest_selector] bytes 2 and 3,
    [dest_offset] the second word; [tss_selector] is bytes 0 and 1. *)
Definition gate_param_count (d : bx_descriptor_t) : Z := u8 (seg_base d).
Definition gate_dest_selector (d : bx_descriptor_t) : Z := u16 (seg_base d / 2 ^ 16).
Definition gate_dest_offset (d : bx_descriptor_t) : Z := seg_limit_scaled d.
Definition taskgate_tss_selector (d : bx_descriptor_t) : Z := u16 (seg_base d).
Definition with_gate_param_count (x : Z) (d : bx_descriptor_t) : bx_descriptor_t :=
  with_seg_base (seg_base d / 2 ^ 8 * 2 ^ 8 + u8 x) d.
Definition with_gate_dest_selector (x : Z) (d : bx_descriptor_t) : bx_descriptor_t :=
  with_seg_base (u16 x * 2 ^ 16 + u16 (seg_base d)) d.
Definition with_gate_dest_offset (x : Z) (d : bx_descriptor_t) : bx_descriptor_t :=
  with_seg_limit_scaled (u32 x) d.
Definition with_taskgate_tss_selector (x : Z) (d : bx_descriptor_t) : bx_descriptor_t :=
  with_seg_base (seg_base d / 2 ^ 16 * 2 ^ 16 + u16 x) d.

(** ** Parsing and printing (cpu/segment_ctrl_pro.cc) *)

Definition parse_selector (raw_selector : Z) : bx_selector_t :=
  mk_selector raw_selector (Z.shiftr raw_selector 3) (Z.land (Z.shiftr raw_selector 2) 0x01)
    (Z.land raw_selector 0x03).

Definition get_ar_byte (d : bx_descriptor_t) : Z :=
  u8 (Z.lor (Z.lor (Z.lor (desc_type d) (Z.shiftl (desc_segment d) 4))
        (Z.shiftl (desc_dpl d) 5)) (Z.shiftl (desc_p d) 7)).

Definition set_ar_byte (ar_byte : Z) (d : bx_descriptor_t) : bx_descriptor_t :=
  let d := with_desc_p (Z.land (Z.shiftr ar_byte 7) 0x01) d in
  let d := with_desc_dpl (Z.land (Z.shiftr ar_byte 5) 0x03) d in
  let d := with_desc_segment (Z.land (Z.shiftr ar_byte 4) 0x01) d in
  with_desc_type (Z.land ar_byte 0x0f) d.

(** The [switch] over the system types that have a base and a limit. *)
Definition sys_segment_types : list Z :=
  [BX_SYS_SEGMENT_LDT; BX_SYS_SEGMENT_AVAIL_286_TSS; BX_SYS_SEGMENT_BUSY_286_TSS;
   BX_SYS_SEGMENT_AVAIL_386_TSS; BX_SYS_SEGMENT_BUSY_386_TSS].

Definition unscaled_limit (d : bx_descriptor_t) : Z :=
  if nz (seg_g d) then Z.shiftr (seg_limit_scaled d) 12 else seg_limit_scaled d.

Definition get_descriptor_l (d : bx_descriptor_t) : Z :=
  let limit := unscaled_limit d in
  let val := u32 (Z.lor (Z.shiftl (Z.land (seg_base d) 0xffff) 16) (Z.land limit 0xffff)) in
  if nz (desc_segment d) then val
  else if case_in (desc_type d) sys_segment_types then val
  else 0.

Definition get_descriptor_h (d : bx_descriptor_t) : Z :=
  let limit := unscaled_limit d in
  if nz (desc_segment d) then
    u32 (mask_of [Z.land (seg_base d) 0xff000000;
                  Z.land (Z.shiftr (seg_base d) 16) 0x000000ff;
                  Z.shiftl (desc_type d) 8;
                  Z.shiftl (desc_segment d) 12;
                  Z.shiftl (desc_dpl d) 13;
                  Z.shiftl (desc_p d) 15; Z.land limit 0xf0000;
                  Z.shiftl (seg_avl d) 20;
                  Z.shiftl (seg_d_b d) 22;
                  Z.shiftl (seg_g d) 23])
  else if case_in (desc_type d) sys_segment_types then
    u32 (mask_of [Z.land (Z.shiftr (seg_base d) 16) 0xff;
                  Z.shiftl (desc_type d) 8;
                  Z.shiftl (desc_dpl d) 13;
                  Z.shiftl (desc_p d) 15; Z.land limit 0xf0000;
                  Z.shiftl (seg_avl d) 20;
                  Z.shiftl (seg_d_b d) 22;
                  Z.shiftl (seg_g d) 23;
                  Z.land (seg_base d) 0xff000000])
  else 0.

Definition set_segment_ar_data (seg : bx_segment_reg_t) (valid raw_selector base limit_scaled ar_data : Z)
    : Z * bx_segment_reg_t :=
  let d := cache seg in
  let d := with_desc_p (Z.land (Z.shiftr ar_data 7) 0x1) d in
  let d := with_desc_dpl (Z.land (Z.shiftr ar_data 5) 0x3) d in
  let d := with_desc_segment (Z.land (Z.shiftr ar_data 4) 0x1) d in
  let d := with_desc_type (Z.land ar_data 0x0f) d in
  let d := with_desc_valid valid d in
  let fields d :=
    with_seg_limit_scaled limit_scaled (with_seg_base base
      (with_seg_avl (Z.land (Z.shiftr ar_data 12) 0x1)
        (with_seg_d_b (Z.land (Z.shiftr ar_data 14) 0x1)
          (with_seg_g (Z.land (Z.shiftr ar_data 15) 0x1) d)))) in
  let d := if nz (desc_segment d) then fields d
           else if case_in (desc_type d) sys_segment_types then fields d
           else d in
  (desc_valid d, mk_segment_reg (parse_selector raw_selector) d).

(** The code/data and system-segment branches of [parse_descriptor]. *)
Definition parse_segment (dword1 dword2 : Z) (temp : bx_descriptor_t) : bx_descriptor_t :=
  let limit := Z.lor (Z.land dword1 0xffff) (Z.land dword2 0x000F0000) in
  let temp := with_seg_base (Z.lor (Z.shiftr dword1 16) (Z.shiftl (Z.land dword2 0xFF) 16)) temp in
  let temp := with_seg_g (Z.b2z (0 <? Z.land dword2 0x00800000)) temp in
  let temp := with_seg_d_b (Z.b2z (0 <? Z.land dword2 0x00400000)) temp in
  let temp := with_seg_avl (Z.b2z (0 <? Z.land dword2 0x00100000)) temp in
  let temp := with_seg_base (Z.lor (seg_base temp) (Z.land dword2 0xFF000000)) temp in
  let temp := with_seg_limit_scaled
    (if nz (seg_g temp) then u32 (Z.lor (Z.shiftl limit 12) 0xfff) else limit) temp in
  with_desc_valid 1 temp.

Definition parse_descriptor (dword1 dword2 : Z) (temp : bx_descriptor_t) : bx_descriptor_t :=
  let AR_byte := u8 (Z.shiftr dword2 8) in
  let temp := with_desc_p (Z.land (Z.shiftr AR_byte 7) 0x1) temp in
  let temp := with_desc_dpl (Z.land (Z.shiftr AR_byte 5) 0x3) temp in
  let temp := with_desc_segment (Z.land (Z.shiftr AR_byte 4) 0x1) temp in
  let temp := with_desc_type (Z.land AR_byte 0xf) temp in
  let temp := with_desc_valid 0 temp in
  if nz (desc_segment temp) then parse_segment dword1 dword2 temp
  else if case_in (desc_type temp) [BX_286_CALL_GATE; BX_286_INTERRUPT_GATE; BX_286_TRAP_GATE] then
    let temp := with_gate_param_count (Z.land dword2 0x1f) temp in
    let temp := with_gate_dest_selector (Z.shiftr dword1 16) temp in
    let temp := with_gate_dest_offset (Z.land dword1 0xffff) temp in
    with_desc_valid 1 temp
  else if case_in (desc_type temp) [BX_386_CALL_GATE; BX_386_INTERRUPT_GATE; BX_386_TRAP_GATE] then
    let temp := with_gate_param_count (Z.land dword2 0x1f) temp in
    let temp := with_gate_dest_selector (Z.shiftr dword1 16) temp in
    let temp := with_gate_dest_offset
      (Z.lor (Z.land dword2 0xffff0000) (Z.land dword1 0x0000ffff)) temp in
    with_desc_valid 1 temp
  else if case_in (desc_type temp) [BX_TASK_GATE] then
    with_desc_valid 1 (with_taskgate_tss_selector (Z.shiftr dword1 16) temp)
  else if case_in (desc_type temp) sys_segment_types then parse_segment dword1 dword2 temp
  else with_desc_valid 0 temp.

(** ** The descriptor tables *)

Definition GET32L (val64 : Z) : Z := Z.land val64 0xFFFFFFFF.
Definition GET32H (val64 : Z) : Z := Z.shiftr val64 32.

(** Both return [(dword1, dword2)]. *)
Definition fetch_raw_descriptor (selector : bx_selector_t) (exception_no : Z) : Mach (Z * Z) :=
  let index := sel_index selector in
  offset ←
    (if sel_ti selector =? 0 then
       limit ← gets (fun s => gseg_limit (gdtr s));
       if limit <? index * 8 + 7 then
         exception exception_no (Z.land (sel_value selector) 0xfffc)
       else gets (fun s => u32 (gseg_base (gdtr s) + index * 8))
     else
       valid ← gets (fun s => desc_valid (cache (ldtr s)));
       if valid =? 0 then exception exception_no (Z.land (sel_value selector) 0xfffc) else
       limit ← gets (fun s => seg_limit_scaled (cache (ldtr s)));
       if limit <? index * 8 + 7 then
         exception exception_no (Z.land (sel_value selector) 0xfffc)
       else gets (fun s => u32 (seg_base (cache (ldtr s)) + index * 8)));
  raw_descriptor ← system_read_qword offset;
  mret (GET32L raw_descriptor, GET32H raw_descriptor).

Definition fetch_raw_descriptor2 (selector : bx_selector_t) : Mach (option (Z * Z)) :=
  let index := sel_index selector in
  let read offset :=
    raw_descriptor ← system_read_qword offset;
    mret (Some (GET32L raw_descriptor, GET32H raw_descriptor)) in
  if sel_ti selector =? 0 then
    limit ← gets (fun s => gseg_limit (gdtr s));
    if limit <? index * 8 + 7 then mret None
    else offset ← gets (fun s => u32 (gseg_base (gdtr s) + index * 8)); read offset
  else
    valid ← gets (fun s => desc_valid (cache (ldtr s)));
    if valid =? 0 then mret None else
    limit ← gets (fun s => seg_limit_scaled (cache (ldtr s)));
    if limit <? index * 8 + 7 then mret None
    else offset ← gets (fun s => u32 (seg_base (cache (ldtr s)) + index * 8)); read offset.

(** Set the accessed bit, in the table and in the descriptor. *)
Definition touch_segment (selector : bx_selector_t) (descriptor : bx_descriptor_t)
    : Mach bx_descriptor_t :=
  if negb (IS_SEGMENT_ACCESSED (desc_type descriptor)) then
    let AR_byte := Z.lor (get_ar_byte descriptor) 1 in
    let descriptor := with_desc_type (Z.lor (desc_type descriptor) 1) descriptor in
    (if sel_ti selector =? 0 then
       laddr ← gets (fun s => u32 (gseg_base (gdtr s) + sel_index selector * 8 + 5));
       access_write_linear laddr 1 0 AR_byte
     else
       laddr ← gets (fun s => u32 (seg_base (cache (ldtr s)) + sel_index selector * 8 + 5));
       access_write_linear laddr 1 0 AR_byte);;
    mret descriptor
  else mret descriptor.

(** ** Loading a segment register

    A [bx_segment_reg_t *] is the number of the register. *)

Definition load_null_selector (seg value : Z) : Mach unit :=
  BX_ASSERT (Z.land value 0xfffc =? 0);;
  modify (set_sreg seg
    (mk_segment_reg (mk_selector value 0 0 (BX_SELECTOR_RPL value))
       (mk_descriptor 0 0 0 1 0 0 0 0 0 0))).

(** The local [descriptor] of [load_seg_reg] is not initialised;
    [parse_descriptor_segment] shows that nothing depends on it. *)
Definition uninitialised : bx_descriptor_t := null_descriptor.

Definition load_seg_reg_SS (new_value : Z) : Mach unit :=
  let ss_selector := parse_selector new_value in
  let code := Z.land new_value 0xfffc in
  if Z.land new_value 0xfffc =? 0 then exception BX_GP_EXCEPTION code else
  '(dword1, dword2) ← fetch_raw_descriptor ss_selector BX_GP_EXCEPTION;
  cpl ← gets CPL;
  if negb (sel_rpl ss_selector =? cpl) then exception BX_GP_EXCEPTION code else
  let descriptor := parse_descriptor dword1 dword2 uninitialised in
  if desc_valid descriptor =? 0 then exception BX_GP_EXCEPTION code else
  if (desc_segment descriptor =? 0) || IS_CODE_SEGMENT (desc_type descriptor) ||
     negb (IS_DATA_SEGMENT_WRITEABLE (desc_type descriptor))
  then exception BX_GP_EXCEPTION code else
  if negb (desc_dpl descriptor =? cpl) then exception BX_GP_EXCEPTION code else
  if negb (IS_PRESENT descriptor) then exception BX_SS_EXCEPTION code else
  descriptor ← touch_segment ss_selector descriptor;
  modify (set_sreg BX_SEG_REG_SS (mk_segment_reg ss_selector (with_desc_valid 1 descriptor))).

Definition load_seg_reg_data (seg new_value : Z) : Mach unit :=
  let code := Z.land new_value 0xfffc in
  if Z.land new_value 0xfffc =? 0 then load_null_selector seg new_value else
  let selector := parse_selector new_value in
  '(dword1, dword2) ← fetch_raw_descriptor selector BX_GP_EXCEPTION;
  let descriptor := parse_descriptor dword1 dword2 uninitialised in
  if desc_valid descriptor =? 0 then exception BX_GP_EXCEPTION code else
  if (desc_segment descriptor =? 0) ||
     (IS_CODE_SEGMENT (desc_type descriptor) &&
      negb (IS_CODE_SEGMENT_READABLE (desc_type descriptor)))
  then exception BX_GP_EXCEPTION code else
  cpl ← gets CPL;
  if (IS_DATA_SEGMENT (desc_type descriptor) ||
      IS_CODE_SEGMENT_NON_CONFORMING (desc_type descriptor)) &&
     ((desc_dpl descriptor <? sel_rpl selector) || (desc_dpl descriptor <? cpl))
  then exception BX_GP_EXCEPTION code else
  if negb (IS_PRESENT descriptor) then exception BX_NP_EXCEPTION code else
  descriptor ← touch_segment selector descriptor;
  modify (set_sreg seg (mk_segment_reg selector (with_desc_valid 1 descriptor))).

Definition load_seg_reg_real (seg new_value : Z) : Mach unit :=
  modify (fun s =>
    let r := sreg seg s in
    let sel := with_sel_rpl (if real_mode s then 0 else 3) (with_sel_value new_value (selector r)) in
    let c := with_desc_p 1 (with_desc_segment 1
      (with_seg_base (u32 (Z.shiftl new_value 4)) (with_desc_valid 1 (cache r)))) in
    let c := if real_mode s then c else
      with_seg_avl 0 (with_seg_d_b 0 (with_seg_g 0 (with_seg_limit_scaled 0xffff
        (with_desc_dpl 3 (with_desc_type BX_DATA_READ_WRITE_ACCESSED c))))) in
    set_sreg seg (mk_segment_reg sel c) s);;
  when (seg =? BX_SEG_REG_CS) (invalidate_prefetch_q;; updateFetchModeMask;; handleAlignmentCheck).

(** CS is only passed in real and virtual-8086 mode; the panic that says so is
    a [crash] of the model. *)
Definition load_seg_reg (seg new_value : Z) : Mach unit :=
  protected ← gets protected_mode;
  if (protected : bool) then
    if seg =? BX_SEG_REG_SS then load_seg_reg_SS new_value
    else if case_in seg [BX_SEG_REG_DS; BX_SEG_REG_ES; BX_SEG_REG_FS; BX_SEG_REG_GS] then
      load_seg_reg_data seg new_value
    else crash
  else load_seg_reg_real seg new_value.

(** [load_ss], after a change of privilege. *)
Definition load_ss (selector : bx_selector_t) (descriptor : bx_descriptor_t) (cpl : Z) : Mach unit :=
  let selector := with_sel_value (Z.lor (Z.land BX_SELECTOR_RPL_MASK (sel_value selector)) cpl) selector in
  descriptor ←
    (if negb (Z.land (sel_value selector) BX_SELECTOR_RPL_MASK =? 0)
     then touch_segment selector descriptor else mret descriptor);
  modify (set_sreg BX_SEG_REG_SS
    (mk_segment_reg (with_sel_rpl cpl selector) (with_desc_valid 1 descriptor))).

Definition validate_seg_reg (seg : Z) : Mach unit :=
  segment ← gets (sreg seg);
  cpl ← gets CPL;
  when (desc_dpl (cache segment) <? cpl)
    (when ((desc_valid (cache segment) =? 0) || (desc_segment (cache segment) =? 0) ||
           IS_DATA_SEGMENT (desc_type (cache segment)) ||
           IS_CODE_SEGMENT_NON_CONFORMING (desc_type (cache segment)))
       (modify (set_sreg seg (mk_segment_reg (with_sel_value 0 (selector segment))
                                (with_desc_valid 0 (cache segment)))))).

Definition validate_seg_regs : Mach unit :=
  validate_seg_reg BX_SEG_REG_ES;;
  validate_seg_reg BX_SEG_REG_DS;;
  validate_seg_reg BX_SEG_REG_FS;;
  validate_seg_reg BX_SEG_REG_GS.

(** ** Far-pointer loads (cpu/segment_ctrl.cc) and MOV to a segment register
    (cpu/data_xfer16.cc) *)

Definition LES_GwMp (i : bxInstruction_c) : Mach unit :=
  eaddr ← resolve i;
  reg_16 ← read_virtual_word_32 (i_seg i) eaddr;
  es ← read_virtual_word_32 (i_seg i) (u32 (eaddr + 2));
  load_seg_reg BX_SEG_REG_ES es;;
  BX_WRITE_16BIT_REG (i_nnn i) reg_16.

Definition LES_GdMp (i : bxInstruction_c) : Mach unit :=
  eaddr ← resolve i;
  es ← read_virtual_word_32 (i_seg i) (u32 (eaddr + 4));
  reg_32 ← read_virtual_dword_32 (i_seg i) eaddr;
  load_seg_reg BX_SEG_REG_ES es;;
  BX_WRITE_32BIT_REGZ (i_nnn i) reg_32.

Definition LDS_GwMp (i : bxInstruction_c) : Mach unit :=
  eaddr ← resolve i;
  reg_16 ← read_virtual_word_32 (i_seg i) eaddr;
  ds ← read_virtual_word_32 (i_seg i) (u32 (eaddr + 2));
  load_seg_reg BX_SEG_REG_DS ds;;
  BX_WRITE_16BIT_REG (i_nnn i) reg_16.

Definition LDS_GdMp (i : bxInstruction_c) : Mach unit :=
  eaddr ← resolve i;
  ds ← read_virtual_word_32 (i_seg i) (u32 (eaddr + 4));
  reg_32 ← read_virtual_dword_32 (i_seg i) eaddr;
  load_seg_reg BX_SEG_REG_DS ds;;
  BX_WRITE_32BIT_REGZ (i_nnn i) reg_32.

Definition LFS_GwMp (i : bxInstruction_c) : Mach unit :=
  eaddr ← resolve i;
  reg_16 ← read_virtual_word_32 (i_seg i) eaddr;
  fs ← read_virtual_word_32 (i_seg i) (u32 (eaddr + 2));
  load_seg_reg BX_SEG_REG_FS fs;;
  BX_WRITE_16BIT_REG (i_nnn i) reg_16.

Definition LFS_GdMp (i : bxInstruction_c) : Mach unit :=
  eaddr ← resolve i;
  fs ← read_virtual_word_32 (i_seg i) (u32 (eaddr + 4));
  reg_32 ← read_virtual_dword_32 (i_seg i) eaddr;
  load_seg_reg BX_SEG_REG_FS fs;;
  BX_WRITE_32BIT_REGZ (i_nnn i) reg_32.

Definition LGS_GwMp (i : bxInstruction_c) : Mach unit :=
  eaddr ← resolve i;
  reg_16 ← read_virtual_word_32 (i_seg i) eaddr;
  gs ← read_virtual_word_32 (i_seg i) (u32 (eaddr + 2));
  load_seg_reg BX_SEG_REG_GS gs;;
  BX_WRITE_16BIT_REG (i_nnn i) reg_16.

Definition LGS_GdMp (i : bxInstruction_c) : Mach unit :=
  eaddr ← resolve i;
  gs ← read_virtual_word_32 (i_seg i) (u32 (eaddr + 4));
  reg_32 ← read_virtual_dword_32 (i_seg i) eaddr;
  load_seg_reg BX_SEG_REG_GS gs;;
  BX_WRITE_32BIT_REGZ (i_nnn i) reg_32.

Definition LSS_GwMp (i : bxInstruction_c) : Mach unit :=
  eaddr ← resolve i;
  reg_16 ← read_virtual_word_32 (i_seg i) eaddr;
  ss ← read_virtual_word_32 (i_seg i) (u32 (eaddr + 2));
  load_seg_reg BX_SEG_REG_SS ss;;
  BX_WRITE_16BIT_REG (i_nnn i) reg_16.

Definition LSS_GdMp (i : bxInstruction_c) : Mach unit :=
  eaddr ← resolve i;
  ss ← read_virtual_word_32 (i_seg i) (u32 (eaddr + 4));
  reg_32 ← read_virtual_dword_32 (i_seg i) eaddr;
  load_seg_reg BX_SEG_REG_SS ss;;
  BX_WRITE_32BIT_REGZ (i_nnn i) reg_32.

Definition BX_INHIBIT_INTERRUPTS : Z := 0x01.
Definition BX_INHIBIT_DEBUG : Z := 0x02.
Definition BX_INHIBIT_INTERRUPTS_BY_MOVSS : Z := Z.lor BX_INHIBIT_INTERRUPTS BX_INHIBIT_DEBUG.

Definition inhibit_by_MOVSS : Mach unit :=
  modify (fun s => with_inhibit_mask (Z.lor (inhibit_mask s) BX_INHIBIT_INTERRUPTS_BY_MOVSS) s);;
  modify (with_async_event 1).

Definition MOV_SwEw (i : bxInstruction_c) : Mach unit :=
  if (6 <=? i_nnn i) || (i_nnn i =? BX_SEG_REG_CS) then exception BX_UD_EXCEPTION 0 else
  op2_16 ← (if nz (modC0 i) then BX_READ_16BIT_REG (i_rm i)
            else eaddr ← resolve i; read_virtual_word_32 (i_seg i) eaddr);
  load_seg_reg (i_nnn i) op2_16;;
  when (i_nnn i =? BX_SEG_REG_SS) inhibit_by_MOVSS.

(** ** What a descriptor says

    The fields of the eight bytes of a descriptor, by bit position. *)

Definition desc_base (raw : Z) : Z := field raw 16 24 + 2 ^ 24 * field raw 56 8.
Definition desc_limit (raw : Z) : Z := field raw 0 16 + 2 ^ 16 * field raw 48 4.
(** The last offset of the segment: the limit in bytes or in pages of 4K. *)
Definition desc_last (raw : Z) : Z :=
  if Z.testbit raw 55 then desc_limit raw * 2 ^ 12 + 0xfff else desc_limit raw.

(** The code or data segment [raw] describes, as a segment register caches it. *)
Definition described_segment (raw : Z) : bx_descriptor_t :=
  mk_descriptor 1 (Z.b2z (Z.testbit raw 47)) (field raw 45 2) (Z.b2z (Z.testbit raw 44))
    (field raw 40 4) (desc_base raw) (desc_last raw)
    (Z.b2z (Z.testbit raw 55)) (Z.b2z (Z.testbit raw 54)) (Z.b2z (Z.testbit raw 52)).

(** The exception that the architecture prescribes for loading [raw] into a data
    segment register, and into SS. *)
Definition desc_is_code (raw : Z) : bool := Z.testbit raw 43.
Definition data_verdict (cpl rpl raw : Z) : option Z :=
  if negb (Z.testbit raw 44) || (desc_is_code raw && negb (Z.testbit raw 41)) then Some BX_GP_EXCEPTION
  else if negb (desc_is_code raw && Z.testbit raw 42) && (field raw 45 2 <? Z.max cpl rpl)
  then Some BX_GP_EXCEPTION
  else if negb (Z.testbit raw 47) then Some BX_NP_EXCEPTION
  else None.
Definition stack_verdict (cpl rpl raw : Z) : option Z :=
  if negb (rpl =? cpl) || negb (Z.testbit raw 44) || desc_is_code raw || negb (Z.testbit raw 41) ||
     negb (field raw 45 2 =? cpl) then Some BX_GP_EXCEPTION
  else if negb (Z.testbit raw 47) then Some BX_SS_EXCEPTION
  else None.

(** ** Parsing is reading the fields *)

Lemma parse_selector_fields v :
  0 <= v < 2 ^ 16 ->
  v = 8 * sel_index (parse_selector v) + 4 * sel_ti (parse_selector v) + sel_rpl (parse_selector v) /\
  0 <= sel_index (parse_selector v) < 2 ^ 13 /\ 0 <= sel_ti (parse_selector v) <= 1 /\
  0 <= sel_rpl (parse_selector v) <= 3.
Proof.
  intros Hv. unfold parse_selector. cbn.
  rewrite !Z.shiftr_div_pow2, (Z.land_ones _ 1), (Z.land_ones _ 2) by lia. divlia.
Qed.

Section Fields.
Context (raw : Z).

Lemma AR_byte_eq : u8 (Z.shiftr (GET32H raw) 8) = field raw 40 8.
Proof. unfold GET32H. zbits. Qed.
Lemma parse_p : Z.land (Z.shiftr (field raw 40 8) 7) 0x1 = Z.b2z (Z.testbit raw 47).
Proof. change 1 with (mask_bits 0 1). rewrite <-field_bit by lia. zbits. Qed.
Lemma parse_dpl : Z.land (Z.shiftr (field raw 40 8) 5) 0x3 = field raw 45 2.
Proof. change 3 with (mask_bits 0 2). zbits. Qed.
Lemma parse_S : Z.land (Z.shiftr (field raw 40 8) 4) 0x1 = Z.b2z (Z.testbit raw 44).
Proof. change 1 with (mask_bits 0 1). rewrite <-field_bit by lia. zbits. Qed.
Lemma parse_type : Z.land (field raw 40 8) 0xf = field raw 40 4.
Proof. change 0xf with (mask_bits 0 4). zbits. Qed.
Lemma parse_base :
  Z.lor (Z.lor (Z.shiftr (GET32L raw) 16) (Z.shiftl (Z.land (GET32H raw) 0xFF) 16))
    (Z.land (GET32H raw) 0xFF000000) = desc_base raw.
Proof.
  unfold desc_base, GET32L, GET32H. change 0xFFFFFFFF with (mask_bits 0 32).
  change 0xFF with (mask_bits 0 8). change 0xFF000000 with (mask_bits 24 8).
  apply Z.bits_inj'. intros n Hn. rewrite testbit_concat by (lia || apply field_range; lia).
  repeat zbits_step; zbits_close.
Qed.
Lemma parse_limit :
  Z.lor (Z.land (GET32L raw) 0xffff) (Z.land (GET32H raw) 0x000F0000) = desc_limit raw.
Proof.
  unfold desc_limit, GET32L, GET32H. change 0xFFFFFFFF with (mask_bits 0 32).
  change 0xffff with (mask_bits 0 16). change 0x000F0000 with (mask_bits 16 4).
  apply Z.bits_inj'. intros n Hn. rewrite testbit_concat by (lia || apply field_range; lia).
  repeat zbits_step; zbits_close.
Qed.
Lemma parse_bit k :
  0 <= k < 32 -> Z.b2z (0 <? Z.land (GET32H raw) (2 ^ k)) = Z.b2z (Z.testbit raw (32 + k)).
Proof.
  intros Hk. f_equal. unfold GET32H. rewrite (Z.add_comm 32), <-(Z.shiftr_spec raw 32 k),
    <-nz_land_pow2 by lia. unfold nz. pose proof (Z.land_nonneg (Z.shiftr raw 32) (2 ^ k)).
  destruct (Z.ltb_spec 0 (Z.land (Z.shiftr raw 32) (2 ^ k))), (Z.eqb_spec (Z.land (Z.shiftr raw 32) (2 ^ k)) 0);
    try done; lia.
Qed.
Lemma desc_limit_range : 0 <= desc_limit raw < 2 ^ 20.
Proof.
  unfold desc_limit. pose proof (field_range raw 0 16). pose proof (field_range raw 48 4). lia.
Qed.
Lemma desc_base_range : in32 (desc_base raw).
Proof.
  unfold desc_base, in32. pose proof (field_range raw 16 24). pose proof (field_range raw 56 8). lia.
Qed.
Lemma desc_last_range : in32 (desc_last raw).
Proof. unfold desc_last, in32. pose proof desc_limit_range. destruct (Z.testbit raw 55); lia. Qed.
Lemma parse_scaled :
  u32 (Z.lor (Z.shiftl (desc_limit raw) 12) 0xfff) = desc_limit raw * 2 ^ 12 + 0xfff.
Proof.
  pose proof desc_limit_range. rewrite lor_shiftl_add by lia. apply wrap_small. lia.
Qed.

Lemma parse_segment_eq t :
  parse_segment (GET32L raw) (GET32H raw) t =
    mk_descriptor 1 (desc_p t) (desc_dpl t) (desc_segment t) (desc_type t) (desc_base raw) (desc_last raw)
      (Z.b2z (Z.testbit raw 55)) (Z.b2z (Z.testbit raw 54)) (Z.b2z (Z.testbit raw 52)).
Proof.
  unfold parse_segment. cbv zeta. change 0x00800000 with (2 ^ 23). change 0x00400000 with (2 ^ 22).
  change 0x00100000 with (2 ^ 20). rewrite !parse_bit, parse_limit by lia. msimpl.
  rewrite parse_base, nz_b2z, parse_scaled. reflexivity.
Qed.

(** Nothing of the uninitialised variable is left. *)
Lemma parse_descriptor_segment t :
  Z.testbit raw 44 = true -> parse_descriptor (GET32L raw) (GET32H raw) t = described_segment raw.
Proof.
  intros HS. unfold parse_descriptor. cbv zeta. rewrite AR_byte_eq, parse_p, parse_dpl, parse_S, parse_type.
  msimpl. rewrite nz_b2z, HS, parse_segment_eq. unfold described_segment. by rewrite HS.
Qed.
Lemma parse_descriptor_system t :
  Z.testbit raw 44 = false -> desc_segment (parse_descriptor (GET32L raw) (GET32H raw) t) = 0.
Proof.
  intros HS. unfold parse_descriptor. cbv zeta. rewrite AR_byte_eq, parse_p, parse_dpl, parse_S, parse_type.
  msimpl. rewrite HS. cbn [Z.b2z nz Z.eqb negb]. rewrite parse_segment_eq. msimpl.
  by repeat case_match.
Qed.
End Fields.

(** The two words of a descriptor, put together again by the debug interface and
    the SMM state save. *)
Definition has_segment_fields (raw : Z) : bool :=
  Z.testbit raw 44 || case_in (field raw 40 4) sys_segment_types.

Lemma parse_descriptor_fields raw t :
  has_segment_fields raw = true -> parse_descriptor (GET32L raw) (GET32H raw) t = described_segment raw.
Proof.
  intros H. destruct (Z.testbit raw 44) eqn:HS; [by apply parse_descriptor_segment|].
  unfold has_segment_fields in H. rewrite HS in H. cbn [orb] in H.
  unfold parse_descriptor. cbv zeta. rewrite AR_byte_eq, parse_p, parse_dpl, parse_S, parse_type.
  msimpl. rewrite HS. cbn [Z.b2z nz Z.eqb negb]. rewrite parse_segment_eq. msimpl.
  rewrite H. unfold described_segment. rewrite HS. cbn [Z.b2z].
  cbn [case_in existsb sys_segment_types] in H |- *. rewrite ?orb_false_r, !orb_true_iff, !Z.eqb_eq in H.
  destruct H as [->|[->|[->|[->| ->]]]]; reflexivity.
Qed.

Lemma unscaled_limit_eq raw : unscaled_limit (described_segment raw) = desc_limit raw.
Proof.
  unfold unscaled_limit, described_segment, desc_last. msimpl. rewrite nz_b2z.
  destruct (Z.testbit raw 55); [|done]. rewrite Z.shiftr_div_pow2 by lia. divlia.
Qed.

Lemma get_descriptor_l_eq raw :
  has_segment_fields raw = true -> get_descriptor_l (described_segment raw) = GET32L raw.
Proof.
  intros H. unfold get_descriptor_l. cbv zeta. rewrite unscaled_limit_eq.
  transitivity (u32 (Z.lor (Z.shiftl (Z.land (seg_base (described_segment raw)) 0xffff) 16)
                       (Z.land (desc_limit raw) 0xffff))).
  { change (desc_segment (described_segment raw)) with (Z.b2z (Z.testbit raw 44)).
    change (desc_type (described_segment raw)) with (field raw 40 4).
    rewrite nz_b2z. unfold has_segment_fields in H.
    destruct (Z.testbit raw 44); [done|]. cbn [orb] in H. by rewrite H. }
  unfold described_segment. msimpl. rewrite <-parse_base, <-parse_limit. unfold GET32L, GET32H.
  change 0xFFFFFFFF with (mask_bits 0 32). change 0xffff with (mask_bits 0 16).
  change 0xFF with (mask_bits 0 8). change 0xFF000000 with (mask_bits 24 8).
  change 0x000F0000 with (mask_bits 16 4). zbits.
Qed.

Lemma GET32H_field raw : 0 <= raw < 2 ^ 64 -> GET32H raw = field raw 32 32.
Proof. intros H. unfold GET32H, field. rewrite Z.shiftr_div_pow2 by lia. divlia. Qed.

Lemma get_descriptor_h_eq raw :
  0 <= raw < 2 ^ 64 -> has_segment_fields raw = true ->
  get_descriptor_h (described_segment raw) = Z.ldiff (GET32H raw) (2 ^ 21).
Proof.
  intros Hr H. unfold get_descriptor_h. cbv zeta. rewrite unscaled_limit_eq.
  change (desc_segment (described_segment raw)) with (Z.b2z (Z.testbit raw 44)).
  change (desc_type (described_segment raw)) with (field raw 40 4).
  assert (forall y, Z.testbit raw 44 = false -> y = Z.lor (Z.shiftl (field raw 44 1) 12) y) as HS'
    by (intros y E; by rewrite field_bit, E by lia).
  rewrite nz_b2z. unfold has_segment_fields in H.
  destruct (Z.testbit raw 44) eqn:HS; [|cbn [orb] in H; rewrite H];
  unfold described_segment; msimpl; cbn [mask_of foldr];
  [rewrite <-HS|rewrite (HS' (Z.lor (Z.land (Z.shiftr _ _) _) _) eq_refl)];
  rewrite <-!field_bit, <-parse_base, <-parse_limit, GET32H_field by lia; unfold GET32L;
  change 0xFFFFFFFF with (mask_bits 0 32); change 0xffff with (mask_bits 0 16);
  change 0xff with (mask_bits 0 8); change 0xFF000000 with (mask_bits 24 8);
  change 0x000F0000 with (mask_bits 16 4); change (2 ^ 21) with (mask_bits 21 1); rewrite Z.lor_0_r;
  clear Hr H HS HS'; zbits.
Qed.

(** C33: printing a descriptor register gives back the words it was loaded from:
    for every code, data, LDT or TSS descriptor, [get_descriptor_l] and
    [get_descriptor_h] invert [parse_descriptor], up to bit 21 of the high word
    (the long-mode bit, which a 32-bit build does not keep), and whatever the
    destination held before. *)
Theorem descriptor_roundtrip raw t :
  0 <= raw < 2 ^ 64 -> has_segment_fields raw = true ->
  get_descriptor_l (parse_descriptor (GET32L raw) (GET32H raw) t) = GET32L raw /\
  get_descriptor_h (parse_descriptor (GET32L raw) (GET32H raw) t) = Z.ldiff (GET32H raw) (2 ^ 21).
Proof.
  intros Hr H. rewrite parse_descriptor_fields by done.
  split; [by apply get_descriptor_l_eq|by apply get_descriptor_h_eq].
Qed.
Lemma descriptor_roundtrip_witness :
  get_descriptor_l (parse_descriptor 0x0000ffff 0x00cf9a00 null_descriptor) = 0x0000ffff /\
  get_descriptor_h (parse_descriptor 0x0000ffff 0x00cf9a00 null_descriptor) = 0x00cf9a00.
Proof. apply (descriptor_roundtrip 0x00cf9a000000ffff null_descriptor); [lia|reflexivity]. Defined.
