(* ===== verification/SegLoad.v ===== *)
(** * SegLoad: what loading a segment register does

    [load_seg_reg] of cpu/segment_ctrl_pro.cc against the architecture's rules
    ([spec_load]); the invariants it keeps; and the instructions that load
    segment registers (cpu/segment_ctrl.cc, MOV_SwEw). *)
From stdpp Require Import base numbers list gmap.
From Stdlib Require Import ZArith Lia.
From S2P Require Import Prelude Machine LazyFlags Memory Paging Access Regs Precise Reference Mode Segment.

Local Open Scope Z_scope.

(** ** The architecture's rule

    Where the descriptor of selector [v] is, if it is within its table. *)
Definition table_entry (v : Z) (s : machine) : option Z :=
  if Z.testbit v 2 then
    if (desc_valid (cache (ldtr s)) =? 0) || (seg_limit_scaled (cache (ldtr s)) <? v / 8 * 8 + 7) then None
    else Some (u32 (seg_base (cache (ldtr s)) + v / 8 * 8))
  else if gseg_limit (gdtr s) <? v / 8 * 8 + 7 then None
  else Some (u32 (gseg_base (gdtr s) + v / 8 * 8)).

(** The register after loading [raw] through [v]: marked accessed. *)
Definition loaded (v raw : Z) : bx_segment_reg_t :=
  mk_segment_reg (parse_selector v) (with_desc_type (Z.setbit (field raw 40 4) 0) (described_segment raw)).
Definition loaded_null (v : Z) : bx_segment_reg_t :=
  mk_segment_reg (mk_selector v 0 0 v) (mk_descriptor 0 0 0 1 0 0 0 0 0 0).

Definition spec_load (n v : Z) : Mach unit :=
  if v <? 4 then
    if n =? BX_SEG_REG_SS then exception BX_GP_EXCEPTION 0 else modify (set_sreg n (loaded_null v))
  else
    entry ← gets (table_entry v);
    match entry with
    | None => exception BX_GP_EXCEPTION (v / 4 * 4)
    | Some a =>
        raw ← system_read_qword a;
        cpl ← gets CPL;
        match (if n =? BX_SEG_REG_SS then stack_verdict else data_verdict) cpl (v mod 4) raw with
        | Some vector => exception vector (v / 4 * 4)
        | None =>
            when (negb (Z.testbit raw 40))
              (access_write_linear (u32 (a + 5)) 1 0 (Z.setbit (field raw 40 8) 0));;
            modify (set_sreg n (loaded v raw))
        end
    end.

(** ** The code follows it *)

Lemma selector_code v : 0 <= v < 2 ^ 16 -> Z.land v 0xfffc = v / 4 * 4.
Proof.
  intros Hv. change 0xfffc with (mask_bits 2 14). apply Z.bits_inj'. intros n Hn.
  replace (v / 4 * 4) with (Z.shiftl (Z.shiftr v 2) 2)
    by (rewrite Z.shiftl_mul_pow2, Z.shiftr_div_pow2 by lia; done).
  rewrite Z.land_spec, testbit_mask_bits by lia. destruct (Z.leb_spec 2 n).
  - rewrite Z.shiftl_spec, Z.shiftr_spec, Z.sub_add by lia. destruct (Z.ltb_spec n (2 + 14)).
    + apply andb_true_r.
    + by rewrite andb_false_r, (testbit_above 16 v) by lia.
  - by rewrite Z.shiftl_spec_low, andb_false_r by lia.
Qed.
Lemma selector_null v : 0 <= v < 2 ^ 16 -> (Z.land v 0xfffc =? 0) = (v <? 4).
Proof.
  intros Hv. rewrite selector_code by done. apply eq_true_iff_eq. rewrite Z.eqb_eq, Z.ltb_lt. divlia.
Qed.
Lemma selector_ti v : (Z.land (Z.shiftr v 2) 1 =? 0) = negb (Z.testbit v 2).
Proof.
  rewrite land_1, Z.shiftr_spec by lia. change (0 + 2) with 2. by destruct (Z.testbit v 2).
Qed.
Lemma selector_rpl v : Z.land v 3 = v mod 4.
Proof. by apply (Z.land_ones v 2). Qed.

Lemma fetch_raw_descriptor_eq v s :
  0 <= v < 2 ^ 16 ->
  fetch_raw_descriptor (parse_selector v) BX_GP_EXCEPTION s =
    match table_entry v s with
    | None => Fault BX_GP_EXCEPTION (v / 4 * 4) s
    | Some a => (raw ← system_read_qword a; mret (GET32L raw, GET32H raw)) s
    end.
Proof.
  intros Hv. unfold fetch_raw_descriptor, table_entry, parse_selector. cbn [sel_index sel_ti sel_value].
  rewrite selector_ti, selector_code, Z.shiftr_div_pow2 by lia. change (2 ^ 3) with 8.
  unfold gets, raise. destruct (Z.testbit v 2); cbn [negb];
    unfold mbind, M_bind; cbv beta iota;
    repeat match goal with |- context [if ?b then _ else _] => destruct b; cbn [orb] end; reflexivity.
Qed.

Lemma type_bit raw k m :
  0 <= k < 4 -> m = 40 + k -> nz (Z.land (Z.shiftr (field raw 40 4) k) 1) = Z.testbit raw m.
Proof.
  intros Hk ->. change 1 with (2 ^ 0). rewrite nz_land_pow2, Z.shiftr_spec, testbit_field by lia.
  destruct (Z.ltb_spec (0 + k) 4); [|lia]. cbn. f_equal. lia.
Qed.
Lemma type_accessed raw : IS_SEGMENT_ACCESSED (field raw 40 4) = Z.testbit raw 40.
Proof. unfold IS_SEGMENT_ACCESSED. rewrite <-(type_bit raw 0 40) by lia. by rewrite Z.shiftr_0_r. Qed.
Lemma type_setbit raw : Z.lor (field raw 40 4) 1 = Z.setbit (field raw 40 4) 0.
Proof. by rewrite Z.setbit_spec'. Qed.
Lemma ar_byte_eq raw : get_ar_byte (described_segment raw) = field raw 40 8.
Proof.
  unfold get_ar_byte, described_segment. msimpl. rewrite <-!field_bit by lia. zbits.
Qed.

Lemma touch_segment_eq v raw s :
  0 <= v < 2 ^ 16 -> Z.testbit raw 44 = true -> forall a, table_entry v s = Some a ->
  touch_segment (parse_selector v) (described_segment raw) s =
    (when (negb (Z.testbit raw 40)) (access_write_linear (u32 (a + 5)) 1 0 (Z.setbit (field raw 40 8) 0));;
     mret (cache (loaded v raw))) s.
Proof.
  intros Hv HS a Ha. unfold touch_segment, loaded. cbn [cache].
  change (desc_type (described_segment raw)) with (field raw 40 4).
  rewrite type_accessed, ar_byte_eq. destruct (Z.testbit raw 40) eqn:H40; cbn [negb when].
  - unfold mret, M_ret, mbind, M_bind. f_equal. replace (Z.setbit (field raw 40 4) 0) with (field raw 40 4);
      [reflexivity|].
    apply Z.bits_inj'. intros n Hn. rewrite Z.setbit_eqb by lia. destruct (Z.eqb_spec 0 n) as [<-|]; [|done].
    rewrite testbit_field by lia. exact H40.
  - cbv zeta. cbn [parse_selector sel_ti sel_index]. rewrite selector_ti, type_setbit, Z.setbit_spec'.
    unfold table_entry in Ha. rewrite Z.shiftr_div_pow2 by lia. change (2 ^ 3) with 8.
    destruct (Z.testbit v 2); cbn [negb];
      match type of Ha with (if ?b then _ else _) = _ => destruct b; [done|] end; injection Ha as <-;
      unfold gets; unfold mbind, M_bind; cbv beta iota; rewrite !wrap_add_l by lia; reflexivity.
Qed.

(** Reading a descriptor does not change where the tables are. *)
Definition tables (s : machine) : bx_global_segment_reg_t * bx_segment_reg_t := (gdtr s, ldtr s).

Lemma system_read_tables s0 len a : preserves (fun s => tables s = tables s0) (system_read len a).
Proof.
  unfold system_read, host_read, access_read_linear, xlate_access, dtranslate_linear, set_xlation,
    translate_linear, translate_PDE4M, translate_PTE, page_fault, read_physical, write_physical,
    access_read_physical, access_write_physical, readPhysicalPage, writePhysicalPage.
  repeat first [preserves_step | apply preserves_modify; intros ? ?; assumption].
Qed.
Lemma table_entry_read v len a s raw s' :
  system_read len a s = Ret raw s' -> table_entry v s' = table_entry v s.
Proof.
  intros H. pose proof (system_read_tables s len a s eq_refl) as Ht. rewrite H in Ht.
  unfold tables in Ht. apply pair_equal_spec in Ht as [Hg Hl]. unfold table_entry. by rewrite Hg, Hl.
Qed.

(** After the verdicts: mark, then load. *)
Lemma touch_then_load n v raw s a :
  0 <= v < 2 ^ 16 -> Z.testbit raw 44 = true -> table_entry v s = Some a ->
  (d ← touch_segment (parse_selector v) (described_segment raw);
   modify (set_sreg n (mk_segment_reg (parse_selector v) (with_desc_valid 1 d)))) s =
  (when (negb (Z.testbit raw 40)) (access_write_linear (u32 (a + 5)) 1 0 (Z.setbit (field raw 40 8) 0));;
   modify (set_sreg n (loaded v raw))) s.
Proof.
  intros Hv HS Ha. unfold mbind at 1 2, M_bind at 1 2. rewrite (touch_segment_eq v raw s Hv HS a Ha).
  unfold mbind, M_bind. by destruct (when _ _ s).
Qed.

Section Verdict.
Context (raw : Z).

Lemma data_checks cpl rpl code {A} (k : Mach A) s :
  Z.testbit raw 44 = true -> let d := described_segment raw in
  (if desc_valid d =? 0 then exception BX_GP_EXCEPTION code else
   if (desc_segment d =? 0) || (IS_CODE_SEGMENT (desc_type d) && negb (IS_CODE_SEGMENT_READABLE (desc_type d)))
   then exception BX_GP_EXCEPTION code else
   if (IS_DATA_SEGMENT (desc_type d) || IS_CODE_SEGMENT_NON_CONFORMING (desc_type d)) &&
      ((desc_dpl d <? rpl) || (desc_dpl d <? cpl)) then exception BX_GP_EXCEPTION code else
   if negb (IS_PRESENT d) then exception BX_NP_EXCEPTION code else k) s =
  match data_verdict cpl rpl raw with Some vector => exception vector code s | None => k s end.
Proof.
  intros HS d. unfold data_verdict, IS_DATA_SEGMENT, IS_CODE_SEGMENT_NON_CONFORMING, IS_CODE_SEGMENT,
    IS_CODE_SEGMENT_READABLE, IS_CODE_SEGMENT_CONFORMING, IS_PRESENT, desc_is_code. unfold d, described_segment.
  msimpl. rewrite (type_bit raw 3 43), (type_bit raw 1 41), (type_bit raw 2 42), nz_b2z, HS by lia.
  cbn [Z.eqb Z.b2z negb orb].
  replace (field raw 45 2 <? Z.max cpl rpl) with ((field raw 45 2 <? rpl) || (field raw 45 2 <? cpl))
    by (apply eq_true_iff_eq; rewrite orb_true_iff, !Z.ltb_lt; lia).
  rewrite negb_andb.
  destruct (Z.testbit raw 43), (Z.testbit raw 41); cbn [negb andb orb];
    repeat match goal with |- context [if ?b then _ else _] => destruct b end; reflexivity.
Qed.

Lemma stack_checks cpl rpl code {A} (k : Mach A) s :
  Z.testbit raw 44 = true -> let d := described_segment raw in
  (if negb (rpl =? cpl) then exception BX_GP_EXCEPTION code else
   if desc_valid d =? 0 then exception BX_GP_EXCEPTION code else
   if (desc_segment d =? 0) || IS_CODE_SEGMENT (desc_type d) || negb (IS_DATA_SEGMENT_WRITEABLE (desc_type d))
   then exception BX_GP_EXCEPTION code else
   if negb (desc_dpl d =? cpl) then exception BX_GP_EXCEPTION code else
   if negb (IS_PRESENT d) then exception BX_SS_EXCEPTION code else k) s =
  match stack_verdict cpl rpl raw with Some vector => exception vector code s | None => k s end.
Proof.
  intros HS d. unfold stack_verdict, IS_CODE_SEGMENT, IS_DATA_SEGMENT_WRITEABLE, IS_PRESENT, desc_is_code.
  unfold d, described_segment. msimpl. rewrite (type_bit raw 3 43), (type_bit raw 1 41), nz_b2z, HS by lia.
  cbn [Z.eqb Z.b2z negb orb].
  destruct (rpl =? cpl), (Z.testbit raw 43), (Z.testbit raw 41); cbn [negb andb orb]; try done;
    repeat match goal with |- context [if ?b then _ else _] => destruct b end; reflexivity.
Qed.
End Verdict.

Lemma load_seg_reg_data_eq n v s :
  0 <= v < 2 ^ 16 -> (n =? BX_SEG_REG_SS) = false ->
  load_seg_reg_data n v s = spec_load n v s.
Proof.
  intros Hv Hn. unfold load_seg_reg_data, spec_load. cbv zeta. rewrite selector_null, Hn by done.
  destruct (Z.ltb_spec v 4) as [Hlt|Hge].
  { unfold load_null_selector.
    rewrite selector_null, (proj2 (Z.ltb_lt v 4)) by lia.
    unfold BX_SELECTOR_RPL. rewrite selector_rpl, Z.mod_small by lia. reflexivity. }
  rewrite selector_code by done. unfold mbind at 1, M_bind at 1. rewrite fetch_raw_descriptor_eq by done.
  rewrite (bind_gets (table_entry v)).
  destruct (table_entry v s) as [a|] eqn:Ha; [|done]. unfold mbind, M_bind.
  change (system_read_qword a s) with (system_read 8 a s).
  destruct (system_read 8 a s) as [raw s1|? ? ?|] eqn:Hr; [|done|done].
  apply (table_entry_read v) in Hr. rewrite Ha in Hr. unfold mret, M_ret. cbv beta iota.
  destruct (Z.testbit raw 44) eqn:HS.
  - rewrite (parse_descriptor_segment raw uninitialised HS).
    pose proof (data_checks raw (CPL s1) (v mod 4) (v / 4 * 4)
      (d ← touch_segment (parse_selector v) (described_segment raw);
       modify (set_sreg n (mk_segment_reg (parse_selector v) (with_desc_valid 1 d)))) s1 HS) as H.
    cbv zeta in H. rewrite (touch_then_load n v raw s1 a Hv HS Hr) in H.
    unfold gets. cbn [parse_selector sel_rpl]. rewrite selector_rpl. revert H.
    destruct (desc_valid (described_segment raw) =? 0); [intros H; destruct (data_verdict _ _ _); exact H|].
    destruct ((desc_segment (described_segment raw) =? 0) || _); [intros H; destruct (data_verdict _ _ _); exact H|].
    intros H. destruct (data_verdict _ _ _); exact H.
  - assert (data_verdict (CPL s1) (v mod 4) raw = Some BX_GP_EXCEPTION) as Hd
      by (unfold data_verdict; by rewrite HS).
    unfold gets. cbv beta iota. rewrite Hd.
    rewrite (parse_descriptor_system raw uninitialised HS). by destruct (desc_valid _ =? 0).
Qed.

Lemma load_seg_reg_SS_eq v s :
  0 <= v < 2 ^ 16 -> load_seg_reg_SS v s = spec_load BX_SEG_REG_SS v s.
Proof.
  intros Hv. unfold load_seg_reg_SS, spec_load. cbv zeta. rewrite selector_null by done.
  cbn [Z.eqb BX_SEG_REG_SS Pos.eqb].
  destruct (Z.ltb_spec v 4) as [Hlt|Hge].
  { rewrite selector_code by done. by rewrite Z.div_small by lia. }
  rewrite selector_code by done. unfold mbind at 1, M_bind at 1. rewrite fetch_raw_descriptor_eq by done.
  rewrite (bind_gets (table_entry v)).
  destruct (table_entry v s) as [a|] eqn:Ha; [|done]. unfold mbind, M_bind.
  change (system_read_qword a s) with (system_read 8 a s).
  destruct (system_read 8 a s) as [raw s1|? ? ?|] eqn:Hr; [|done|done].
  apply (table_entry_read v) in Hr. rewrite Ha in Hr. unfold mret, M_ret, gets. cbv beta iota.
  cbn [parse_selector sel_rpl]. rewrite selector_rpl.
  destruct (Z.testbit raw 44) eqn:HS.
  - rewrite (parse_descriptor_segment raw uninitialised HS).
    pose proof (stack_checks raw (CPL s1) (v mod 4) (v / 4 * 4)
      (d ← touch_segment (parse_selector v) (described_segment raw);
       modify (set_sreg BX_SEG_REG_SS (mk_segment_reg (parse_selector v) (with_desc_valid 1 d)))) s1 HS) as H.
    cbv zeta in H. rewrite (touch_then_load BX_SEG_REG_SS v raw s1 a Hv HS Hr) in H.
    destruct (stack_verdict _ _ _); exact H.
  - assert (stack_verdict (CPL s1) (v mod 4) raw = Some BX_GP_EXCEPTION) as Hd
      by (unfold stack_verdict; rewrite HS; by destruct (negb (_ =? _))).
    rewrite Hd. destruct (negb (_ =? _)); [done|].
    rewrite (parse_descriptor_system raw uninitialised HS). by destruct (desc_valid _ =? 0).
Qed.

Definition loadable : list Z := [BX_SEG_REG_SS; BX_SEG_REG_DS; BX_SEG_REG_ES; BX_SEG_REG_FS; BX_SEG_REG_GS].

(** C12: in protected mode, loading SS, DS, ES, FS or GS follows the
    architecture's rule on every branch: a null selector is refused in SS and
    loads an unusable segment elsewhere; a selector beyond its table, a
    descriptor of the wrong kind or privilege raises #GP, an absent segment #NP
    (#SS for the stack), all with the selector as error code and the register
    unchanged; otherwise the accessed bit is set in the table and the register
    holds the base, limit, type and attributes that the descriptor's bits
    describe. *)
Theorem load_seg_reg_correct n v s :
  protected_mode s = true -> In n loadable -> 0 <= v < 2 ^ 16 ->
  load_seg_reg n v s = spec_load n v s.
Proof.
  intros Hp Hn Hv. unfold load_seg_reg. rewrite (bind_gets protected_mode), Hp.
  unfold loadable in Hn. cbn [In] in Hn.
  destruct Hn as [<-|[<-|[<-|[<-|[<-|[]]]]]]; cbn -[load_seg_reg_data load_seg_reg_SS spec_load].
  - by apply load_seg_reg_SS_eq.
  - by apply load_seg_reg_data_eq.
  - by apply load_seg_reg_data_eq.
  - by apply load_seg_reg_data_eq.
  - by apply load_seg_reg_data_eq.
Qed.

(** A flat data segment at index 1 of a GDT at 0x2000. *)
Definition gdt_machine : machine :=
  with_gdtr (mk_global_segment_reg 0x2000 0xff)
    (with_memory (with_mem_vector (mem_store ∅ 0x2008 (le_split 8 0x00cf92000000ffff)) (memory flat_machine))
       flat_machine).

Lemma load_seg_reg_correct_witness :
  load_seg_reg BX_SEG_REG_DS 8 gdt_machine = spec_load BX_SEG_REG_DS 8 gdt_machine /\
  match spec_load BX_SEG_REG_DS 8 gdt_machine with
  | Ret _ s' => seg_limit_scaled (cache (sreg BX_SEG_REG_DS s')) = 0xffffffff /\
                mem_byte (mem_vector (memory s')) 0x200d = 0x93
  | _ => False
  end.
Proof.
  split; [|vm_compute; split; reflexivity].
  apply load_seg_reg_correct; [reflexivity|right; left; reflexivity|lia].
Defined.

(** ** The other relations *)

Lemma system_read_refines len a : refines (system_read len a) (system_read len a).
Proof. unfold system_read, host_read. refines_tac. Qed.
Lemma system_read_quiet len a : quiet (system_read len a).
Proof. unfold system_read, host_read. quiet_tac. Qed.
#[export] Hint Resolve system_read_refines : refines.
#[export] Hint Resolve system_read_quiet : quiet.

Lemma fetch_raw_descriptor_refines sel e : refines (fetch_raw_descriptor sel e) (fetch_raw_descriptor sel e).
Proof. unfold fetch_raw_descriptor, system_read_qword. refines_tac. Qed.
Lemma fetch_raw_descriptor_quiet sel e : quiet (fetch_raw_descriptor sel e).
Proof. unfold fetch_raw_descriptor, system_read_qword. quiet_tac. Qed.
Lemma fetch_raw_descriptor_wf sel e : preserves wf (fetch_raw_descriptor sel e).
Proof. unfold fetch_raw_descriptor, system_read_qword. preserves_tac. Qed.
Lemma fetch_raw_descriptor_steady sel e : steady (fetch_raw_descriptor sel e).
Proof. unfold fetch_raw_descriptor, system_read_qword. steady_tac. Qed.
Lemma touch_segment_refines sel d : refines (touch_segment sel d) (touch_segment sel d).
Proof. unfold touch_segment. refines_tac. Qed.
Lemma touch_segment_quiet sel d : quiet (touch_segment sel d).
Proof. unfold touch_segment. quiet_tac. Qed.
Lemma touch_segment_wf sel d : preserves wf (touch_segment sel d).
Proof. unfold touch_segment. preserves_tac. Qed.
Lemma touch_segment_steady sel d : steady (touch_segment sel d).
Proof. unfold touch_segment. steady_tac. Qed.
#[export] Hint Resolve fetch_raw_descriptor_refines touch_segment_refines : refines.
#[export] Hint Resolve fetch_raw_descriptor_quiet touch_segment_quiet : quiet.
#[export] Hint Resolve fetch_raw_descriptor_wf touch_segment_wf : preserves.
#[export] Hint Resolve fetch_raw_descriptor_steady touch_segment_steady : steady.

Lemma load_seg_reg_real_refines n v : refines (load_seg_reg_real n v) (load_seg_reg_real n v).
Proof. unfold load_seg_reg_real, invalidate_prefetch_q. refines_tac. Qed.
#[export] Hint Resolve load_seg_reg_real_refines : refines.
Lemma load_seg_reg_refines n v : refines (load_seg_reg n v) (load_seg_reg n v).
Proof.
  unfold load_seg_reg, load_seg_reg_SS, load_seg_reg_data, load_null_selector. refines_tac.
Qed.
#[export] Hint Resolve load_seg_reg_refines : refines.

(** Every exception comes before the register changes. *)
Lemma load_seg_reg_precise n v : precise (load_seg_reg n v).
Proof.
  unfold load_seg_reg, load_seg_reg_SS, load_seg_reg_data, load_null_selector, load_seg_reg_real,
    invalidate_prefetch_q, updateFetchModeMask.
  precise_tac.
Qed.
#[export] Hint Resolve load_seg_reg_precise : precise.

(** **** The invariant *)

Lemma fetch_raw_descriptor_yields sel e :
  yields (fetch_raw_descriptor sel e) (fun p => exists raw, p = (GET32L raw, GET32H raw)).
Proof.
  unfold fetch_raw_descriptor. apply yields_bind. intros a. apply yields_bind. intros raw.
  apply yields_ret. by exists raw.
Qed.
Lemma touch_segment_yields sel d :
  yields (touch_segment sel d) (fun d' => d' = d \/ d' = with_desc_type (Z.lor (desc_type d) 1) d).
Proof.
  unfold touch_segment. destruct (negb _); [|apply yields_ret; tauto].
  apply yields_bind. intros _. apply yields_ret. tauto.
Qed.
#[export] Hint Resolve fetch_raw_descriptor_yields touch_segment_yields : yields.

(** A descriptor with nothing but the valid bit set. *)
Lemma fresh_cache_ok d :
  in32 (seg_base d) -> in32 (seg_limit_scaled d) -> 0 <= desc_type d < 16 ->
  cache_ok (with_desc_valid 1 d).
Proof. intros. unfold cache_ok. msimpl. repeat split; try (unfold in32 in *; lia); done. Qed.

Lemma touched_cache_ok raw t d :
  (desc_segment (parse_descriptor (GET32L raw) (GET32H raw) t) =? 0) = false ->
  d = parse_descriptor (GET32L raw) (GET32H raw) t \/
  d = with_desc_type (Z.lor (desc_type (parse_descriptor (GET32L raw) (GET32H raw) t)) 1)
        (parse_descriptor (GET32L raw) (GET32H raw) t) ->
  cache_ok (with_desc_valid 1 d).
Proof.
  intros HS Hd. destruct (Z.testbit raw 44) eqn:E.
  2: { by rewrite (parse_descriptor_system raw t E) in HS. }
  rewrite (parse_descriptor_segment raw t E) in Hd.
  pose proof (desc_base_range raw). pose proof (desc_last_range raw).
  pose proof (field_range raw 40 4 ltac:(lia)).
  destruct Hd as [->| ->]; apply fresh_cache_ok; unfold described_segment; msimpl; try done.
  apply (lor_range 4); lia.
Qed.

Lemma load_null_selector_wf n v : preserves wf (load_null_selector n v).
Proof.
  unfold load_null_selector. apply preserves_bind; [apply BX_ASSERT_preserves|intros _].
  apply preserves_modify. intros s Hw. apply set_sreg_wf; [done|].
  unfold cache_ok, in32. cbn. repeat split; (lia || done).
Qed.
Lemma load_seg_reg_real_wf n v : preserves wf (load_seg_reg_real n v).
Proof.
  unfold load_seg_reg_real, invalidate_prefetch_q.
  apply preserves_bind; [|intros _; apply preserves_when; apply preserves_bind; [wf_modify|preserves_tac]].
  apply preserves_modify. intros s Hw. cbv zeta. apply set_sreg_wf; [done|].
  destruct (sreg_ok n s Hw) as (_ & Hl & Ht & _). pose proof (wrap_range 32 (Z.shiftl v 4) ltac:(lia)).
  cbn [cache]. unfold cache_ok, in32 in *.
  destruct (real_mode s); msimpl; unfold BX_DATA_READ_WRITE_ACCESSED;
    (split; [done|]); (split; [lia|]); (split; [lia|]); by split.
Qed.
#[export] Hint Resolve load_null_selector_wf load_seg_reg_real_wf : preserves.
Lemma load_checked_wf n v raw t :
  (desc_segment (parse_descriptor (GET32L raw) (GET32H raw) t) =? 0) = false ->
  preserves wf (d ← touch_segment (parse_selector v) (parse_descriptor (GET32L raw) (GET32H raw) t);
                modify (set_sreg n (mk_segment_reg (parse_selector v) (with_desc_valid 1 d)))).
Proof.
  intros HS. eapply preserves_bind_yields; [eauto with preserves|apply touch_segment_yields|].
  intros d Hd. apply preserves_modify. intros s Hw. apply set_sreg_wf; [done|].
  by apply (touched_cache_ok raw t).
Qed.
Lemma load_seg_reg_wf n v : preserves wf (load_seg_reg n v).
Proof.
  unfold load_seg_reg, load_seg_reg_SS, load_seg_reg_data. preserves_step; [preserves_tac|intros []].
  2: apply load_seg_reg_real_wf.
  destruct (n =? BX_SEG_REG_SS); [|destruct (case_in _ _); [|apply preserves_crash]];
    (destruct (Z.land v 0xfffc =? 0); [preserves_tac|]); cbv zeta;
    (eapply preserves_bind_yields; [eauto with preserves|apply fetch_raw_descriptor_yields|]);
    intros [d1 d2] [raw [= -> ->]]; cbv beta.
  - apply preserves_bind; [apply preserves_gets|intros cpl].
    do 2 (apply preserves_if; [apply preserves_raise|]).
    destruct (desc_segment _ =? 0) eqn:HS; cbn [orb]; [apply preserves_raise|].
    do 3 (apply preserves_if; [apply preserves_raise|]). by apply load_checked_wf.
  - apply preserves_if; [apply preserves_raise|].
    destruct (desc_segment _ =? 0) eqn:HS; cbn [orb]; [apply preserves_raise|].
    apply preserves_if; [apply preserves_raise|].
    apply preserves_bind; [apply preserves_gets|intros cpl].
    do 2 (apply preserves_if; [apply preserves_raise|]). by apply load_checked_wf.
Qed.
#[export] Hint Resolve load_seg_reg_wf : preserves.

(** **** Coherence *)

(** A register other than CS. *)
Lemma set_sreg_other_control n seg s : n <> BX_SEG_REG_CS -> control (set_sreg n seg s) = control s.
Proof.
  intros Hn. unfold control, CPL.
  assert (sreg BX_SEG_REG_CS (set_sreg n seg s) = sreg BX_SEG_REG_CS s) as ->; [|done].
  unfold sreg, set_sreg. msimpl. change (Z.to_nat BX_SEG_REG_CS) with 1%nat.
  rewrite !nth_lookup, list_lookup_insert_ne by (unfold BX_SEG_REG_CS in Hn; lia). done.
Qed.
Lemma load_seg_reg_steady n v : n <> BX_SEG_REG_CS -> steady (load_seg_reg n v).
Proof.
  intros Hn. assert ((n =? BX_SEG_REG_CS) = false) as Hcs by by apply Z.eqb_neq.
  unfold load_seg_reg, load_seg_reg_SS, load_seg_reg_data, load_null_selector, load_seg_reg_real.
  rewrite Hcs. cbn [when].
  repeat first
    [ progress (match goal with |- steady (modify _) => fail 1 | _ => steady_step end)
    | apply steady_modify; intros ?; apply set_sreg_other_control;
      first [assumption | done] ].
Qed.

(** Reloading CS outside protected mode changes what the caches describe, and
    updates them. *)
Lemma load_cs_coherent v : preserves coherent (load_seg_reg_real BX_SEG_REG_CS v).
Proof.
  intros s (Hm & _ & _ & Ha). unfold load_seg_reg_real. cbn [Z.eqb BX_SEG_REG_CS Pos.eqb when].
  set (f := fun s : machine => _). unfold invalidate_prefetch_q, updateFetchModeMask.
  rewrite bind_modify.
  assert (cpu_mode (f s) = cpu_mode s /\ mode_of (f s) = mode_of s /\
          alignment_check_mask (f s) = alignment_check_mask s) as (Hm1 & Hm2 & Ha1) by done.
  generalize dependent (f s). intros s1 Hm1 Hm2 Ha1.
  rewrite !bind_modify.
  set (s2 := with_user_pl _ _).
  rewrite handleAlignmentCheck_eq
    by (change (alignment_check_mask s2) with (alignment_check_mask s1); rewrite Ha1, Ha;
        destruct (checks_alignment s); tauto).
  unfold coherent. split; [|done]. change (cpu_mode _) with (cpu_mode s1). rewrite Hm1, Hm. symmetry. exact Hm2.
Qed.
Lemma load_seg_reg_coherent n v : preserves coherent (load_seg_reg n v).
Proof.
  destruct (decide (n = BX_SEG_REG_CS)) as [->|].
  - intros s Hs. unfold load_seg_reg. rewrite (bind_gets protected_mode).
    destruct (protected_mode s); [done|]. by apply load_cs_coherent.
  - apply steady_coherent. by apply load_seg_reg_steady.
Qed.

(** ** The instructions *)

(** The pointer is read, the selector loaded, then the offset written. *)
Definition ref_load_far (w n : Z) (i : bxInstruction_c) : Mach unit :=
  eaddr ← resolve i;
  if w =? 16 then
    off ← read_mem 16 (i_seg i) eaddr; sel ← read_mem 16 (i_seg i) (u32 (eaddr + 2));
    load_seg_reg n sel;; write_reg w (i_nnn i) off
  else
    sel ← read_mem 16 (i_seg i) (u32 (eaddr + 4)); off ← read_mem 32 (i_seg i) eaddr;
    load_seg_reg n sel;; write_reg w (i_nnn i) off.

Definition ref_mov_to_sreg (i : bxInstruction_c) : Mach unit :=
  if (6 <=? i_nnn i) || (i_nnn i =? BX_SEG_REG_CS) then exception BX_UD_EXCEPTION 0 else
  v ← fetch 16 RM i;
  load_seg_reg (i_nnn i) v;;
  when (i_nnn i =? BX_SEG_REG_SS) inhibit_by_MOVSS.

Definition segment_table : list (handler * handler) :=
  [(LES_GwMp, ref_load_far 16 BX_SEG_REG_ES); (LES_GdMp, ref_load_far 32 BX_SEG_REG_ES);
   (LDS_GwMp, ref_load_far 16 BX_SEG_REG_DS); (LDS_GdMp, ref_load_far 32 BX_SEG_REG_DS);
   (LFS_GwMp, ref_load_far 16 BX_SEG_REG_FS); (LFS_GdMp, ref_load_far 32 BX_SEG_REG_FS);
   (LGS_GwMp, ref_load_far 16 BX_SEG_REG_GS); (LGS_GdMp, ref_load_far 32 BX_SEG_REG_GS);
   (LSS_GwMp, ref_load_far 16 BX_SEG_REG_SS); (LSS_GdMp, ref_load_far 32 BX_SEG_REG_SS);
   (MOV_SwEw, ref_mov_to_sreg)].

Ltac segment_unfold :=
  cbv beta delta [LES_GwMp LES_GdMp LDS_GwMp LDS_GdMp LFS_GwMp LFS_GdMp LGS_GwMp LGS_GdMp LSS_GwMp
    LSS_GdMp MOV_SwEw ref_load_far ref_mov_to_sreg fetch read_mem read_reg write_reg inhibit_by_MOVSS];
  cbn [Z.eqb Pos.eqb]; unfold_widths.

(** [load_seg_reg] is its own reference: it does not depend on pending flags. *)
Lemma segment_implements : Forall implements segment_table.
Proof. table_tac ltac:(intros i; cbn [fst snd]; segment_unfold; refines_tac). Qed.
Lemma segment_keeps_wf : Forall keeps_wf segment_table.
Proof.
  table_tac ltac:(intros i; cbn [fst snd]; segment_unfold;
    repeat first [preserves_step | wf_modify]).
Qed.
Lemma segment_is_precise : Forall is_precise segment_table.
Proof. table_tac ltac:(intros i; cbn [fst snd]; segment_unfold; precise_tac). Qed.
Lemma segment_steady : Forall (fun p => forall i, steady (p.1 i)) segment_table.
Proof.
  table_tac ltac:(intros i; cbn [fst snd]; segment_unfold).
  all: try (match goal with |- context [6 <=? _] => idtac end;
            destruct (6 <=? i_nnn i); [apply steady_raise|]; cbn [orb];
            destruct (Z.eqb_spec (i_nnn i) BX_SEG_REG_CS); [apply steady_raise|]).
  all: repeat first [apply load_seg_reg_steady; done | steady_step].
Qed.
