(* ===== verification/Frame.v ===== *)
(** * Frame: what memory accesses and register writes leave alone

    The accesses of cpu/paging.cc, cpu/access.cc and cpu/access32.cc change the
    memory, the translation record, CR2, the note that a large page was seen, and the access bits of a segment
    register, and nothing else; the register macros change the register file.
    [Frame I] says that [I] looks at none of this, and the lemmas give
    [preserves I] for every access at once. *)
From stdpp Require Import base numbers list gmap.
From Stdlib Require Import ZArith Lia.
From S2P Require Import Prelude Machine LazyFlags Memory Paging Access Regs Precise Reference Mode Segment SegLoad.

Local Open Scope Z_scope.

(** A segment register without its access bits. *)
Definition unmarked (seg : bx_segment_reg_t) : bx_segment_reg_t :=
  with_cache (with_desc_valid 0 (cache seg)) seg.

Class Frame (I : machine -> Prop) : Prop := {
  frame_memory : forall m s, I s -> I (with_memory m s);
  frame_xlation : forall x s, I s -> I (with_address_xlation x s);
  frame_cr2 : forall x s, I s -> I (with_cr2 x s);
  frame_split : forall x s, I s -> I (with_TLB_split_large x s);
  frame_gen_reg : forall l s, I s -> I (with_gen_reg l s);
  frame_sreg : forall n seg s, unmarked seg = unmarked (sreg n s) -> I s -> I (set_sreg n seg s)
}.
#[export] Hint Mode Frame ! : typeclass_instances.

(** A property of other fields. *)
Ltac frame_tac := split; intros; assumption.

Lemma control_Frame s0 : Frame (fun s => control s = control s0).
Proof.
  split; try (intros; assumption). intros n seg s Hu H. pose proof (f_equal selector Hu) as Hs.
  pose proof (f_equal (fun x => seg_d_b (cache x)) Hu) as Hd. cbn in Hs, Hd.
  rewrite set_sreg_control; [done|by rewrite Hs|done].
Qed.

Lemma unmarked_set_sreg k n seg s :
  unmarked seg = unmarked (sreg n s) -> unmarked (sreg k (set_sreg n seg s)) = unmarked (sreg k s).
Proof.
  intros Hd. unfold sreg, set_sreg in *. msimpl. destruct (decide (Z.to_nat n = Z.to_nat k)) as [E|E].
  - rewrite E in *. destruct (decide (Z.to_nat k < length (sregs s))%nat).
    + by rewrite (nth_lookup_Some _ _ _ seg) by (by apply list_lookup_insert_eq).
    + rewrite list_insert_ge; [done|lia].
  - by rewrite !nth_lookup, list_lookup_insert_ne.
Qed.
Lemma unmarked_Frame {A} (f : bx_segment_reg_t -> A) k x : Frame (fun s => f (unmarked (sreg k s)) = x).
Proof.
  split; try (intros; assumption). intros n seg s Hu H. by rewrite unmarked_set_sreg.
Qed.
Lemma write_virtual_checks_unmarked seg o l : unmarked (snd (write_virtual_checks seg o l)) = unmarked seg.
Proof. unfold write_virtual_checks. by repeat case_match. Qed.
Lemma read_virtual_checks_unmarked seg o l : unmarked (snd (read_virtual_checks seg o l)) = unmarked seg.
Proof. unfold read_virtual_checks. by repeat case_match. Qed.

Section Frame.
Context (I : machine -> Prop) `{!Frame I}.

Ltac frame_step :=
  match goal with
  | |- preserves _ (modify (fun s => with_memory _ s)) => apply preserves_modify; intros; by apply frame_memory
  | |- preserves _ (modify (fun s => with_address_xlation _ s)) => apply preserves_modify; intros; by apply frame_xlation
  | |- preserves _ (modify (with_cr2 _)) => apply preserves_modify; intros; by apply frame_cr2
  | |- preserves _ (modify (with_TLB_split_large _)) => apply preserves_modify; intros; by apply frame_split
  | _ => preserves_step
  end.
Ltac frames := repeat frame_step.

Lemma RegRead_frame w m : RegRead w m -> preserves I m.
Proof. apply RegRead_preserves. Qed.
Lemma RegWrite_frame m : RegWrite m -> preserves I m.
Proof. intros (f & Hm & _) s Hs. rewrite Hm. by apply frame_gen_reg. Qed.

Lemma access_write_physical_frame a l : preserves I (access_write_physical a l).
Proof. unfold access_write_physical, writePhysicalPage. frames. Qed.
Lemma access_read_physical_frame a n : preserves I (access_read_physical a n).
Proof. unfold access_read_physical, readPhysicalPage. frames. Qed.
Hint Resolve access_write_physical_frame access_read_physical_frame : preserves.
Lemma dtranslate_linear_frame l p r : preserves I (dtranslate_linear l p r).
Proof.
  unfold dtranslate_linear, translate_linear, translate_PDE4M, translate_PTE, page_fault, read_physical,
    write_physical. frames.
Qed.
Hint Resolve dtranslate_linear_frame : preserves.
Lemma xlate_access_frame l n p r : preserves I (xlate_access l n p r).
Proof. unfold xlate_access, set_xlation. frames. Qed.
Hint Resolve xlate_access_frame : preserves.
Lemma access_write_linear_frame l n p d : preserves I (access_write_linear l n p d).
Proof. unfold access_write_linear. frames. Qed.
Lemma access_read_linear_frame l n p r : preserves I (access_read_linear l n p r).
Proof. unfold access_read_linear. frames. Qed.
Hint Resolve access_write_linear_frame access_read_linear_frame : preserves.
Lemma segment_checks_frame r c len n o :
  (forall seg o l, unmarked (snd (c seg o l)) = unmarked seg) -> preserves I (segment_checks r c len n o).
Proof.
  intros Hc. unfold segment_checks. intros s Hs.
  unfold mbind, M_bind, gets. cbn [when].
  unfold mret, M_ret. destruct (nz _); [by destruct (negb _)|].
  specialize (Hc (sreg n s) o (Z.of_nat len)).
  destruct (c (sreg n s) o (Z.of_nat len)) as [ok seg']. cbn [snd] in Hc.
  unfold modify. pose proof (frame_sreg n seg' s Hc Hs). by destruct (negb ok).
Qed.
Lemma write_checks_frame len n o : preserves I (segment_checks SegAccessWOK write_virtual_checks len n o).
Proof. apply segment_checks_frame, write_virtual_checks_unmarked. Qed.
Lemma read_checks_frame len n o : preserves I (segment_checks SegAccessROK read_virtual_checks len n o).
Proof. apply segment_checks_frame, read_virtual_checks_unmarked. Qed.
Hint Resolve write_checks_frame read_checks_frame : preserves.
Lemma write_virtual_32_frame len n o d : preserves I (write_virtual_32 len n o d).
Proof. unfold write_virtual_32, get_laddr32, alignment_ok. frames. Qed.
Lemma read_virtual_32_frame len n o : preserves I (read_virtual_32 len n o).
Proof. unfold read_virtual_32, get_laddr32, alignment_ok. frames. Qed.
Lemma write_new_stack_32_frame len seg o p d : preserves I (write_new_stack_32 len seg o p d).
Proof. unfold write_new_stack_32. frames. Qed.
Lemma system_read_frame len l : preserves I (system_read len l).
Proof. unfold system_read, host_read, read_physical. frames. Qed.
Lemma system_write_frame len l d : preserves I (system_write len l d).
Proof. unfold system_write, host_write, write_physical. frames. Qed.
Hint Resolve system_read_frame : preserves.
Lemma fetch_raw_descriptor_frame sel e : preserves I (fetch_raw_descriptor sel e).
Proof. unfold fetch_raw_descriptor, system_read_qword. frames. Qed.
Lemma fetch_raw_descriptor2_frame sel : preserves I (fetch_raw_descriptor2 sel).
Proof. unfold fetch_raw_descriptor2, system_read_qword. frames. Qed.
Lemma touch_segment_frame sel d : preserves I (touch_segment sel d).
Proof. unfold touch_segment. frames. Qed.
End Frame.

(** The [frame] database closes the leaves of an operation for any framed
    invariant. *)
Create HintDb frame discriminated.
#[export] Hint Constants Opaque : frame.
#[export] Hint Resolve preserves_ret preserves_gets preserves_raise preserves_crash BX_ASSERT_preserves
  dtranslate_linear_frame access_write_linear_frame access_read_linear_frame
  write_virtual_32_frame read_virtual_32_frame write_new_stack_32_frame system_read_frame system_write_frame
  fetch_raw_descriptor_frame fetch_raw_descriptor2_frame touch_segment_frame : frame.
#[export] Hint Extern 1 (preserves _ _) =>
  first [apply RegRead_frame with (w := 32); typeclasses eauto | apply RegRead_frame with (w := 16); typeclasses eauto
        | apply RegWrite_frame; typeclasses eauto] : frame.
#[export] Hint Extern 1 (Frame _) => typeclasses eauto : frame.

Ltac frame_step :=
  match goal with
  | |- forall _, _ => intros ?
  | |- preserves _ (mbind _ _) => apply preserves_bind
  | |- preserves _ (let _ := _ in _) => cbv zeta
  | |- preserves _ (match ?x with _ => _ end) => destruct x
  | |- preserves _ (when _ _) => apply preserves_when
  | |- preserves _ _ => solve [eauto with frame]
  | |- preserves _ (modify _) => apply preserves_modify; intros ? ?; assumption
  end.
Ltac frame_walk := repeat frame_step.
