(* ===== verification/Stack.v ===== *)
(** * Stack: PUSH, POP, PUSHA, POPA, ENTER and LEAVE

    cpu/stack.h, cpu/stack16.cc and cpu/stack32.cc.  The stack pointer is ESP or
    SP as the B bit of SS says; the width of the operand is independent of it.
    An instruction that changes ESP before its last access brackets itself with
    [RSP_SPECULATIVE] and [RSP_COMMIT] (cpu/cpu.h), and [exception()] then puts
    ESP back ([restore_rsp], cpu/exception.cc). *)
From stdpp Require Import base numbers list gmap.
From Stdlib Require Import ZArith Lia.
From S2P Require Import Prelude Machine LazyFlags Memory Paging Access Regs Precise Reference Mode Segment SegLoad Frame.

Local Open Scope Z_scope.

(** ** cpu/cpu.h and cpu/exception.cc *)

Definition RSP_SPECULATIVE : Mach unit :=
  modify (with_speculative_rsp 1);;
  esp ← ESP;
  modify (with_prev_rsp esp).
Definition RSP_COMMIT : Mach unit := modify (with_speculative_rsp 0).

(** [if (speculative_rsp) RSP = prev_rsp] *)
Definition restore_rsp : Mach unit :=
  spec ← gets speculative_rsp;
  when (nz spec) (rsp ← gets prev_rsp; set_ESP rsp).

(** [sregs[BX_SEG_REG_SS].cache.u.segment.d_b] *)
Definition SS_d_b : Mach Z := gets (fun s => seg_d_b (cache (sreg BX_SEG_REG_SS s))).

(** ** cpu/stack.h *)

Definition push_16 (value16 : Z) : Mach unit :=
  d_b ← SS_d_b;
  if nz d_b then
    esp ← ESP; write_virtual_word_32 BX_SEG_REG_SS (u32 (esp - 2)) value16;;
    esp ← ESP; set_ESP (esp - 2)
  else
    sp ← SP; write_virtual_word_32 BX_SEG_REG_SS (u16 (sp - 2)) value16;;
    sp ← SP; set_SP (sp - 2).

Definition pop_16 : Mach Z :=
  d_b ← SS_d_b;
  if nz d_b then
    esp ← ESP; value16 ← read_virtual_word_32 BX_SEG_REG_SS esp;
    esp ← ESP; set_ESP (esp + 2);;
    mret value16
  else
    sp ← SP; value16 ← read_virtual_word_32 BX_SEG_REG_SS sp;
    sp ← SP; set_SP (sp + 2);;
    mret value16.

Definition push_32 (value32 : Z) : Mach unit :=
  d_b ← SS_d_b;
  if nz d_b then
    esp ← ESP; write_virtual_dword_32 BX_SEG_REG_SS (u32 (esp - 4)) value32;;
    esp ← ESP; set_ESP (esp - 4)
  else
    sp ← SP; write_virtual_dword_32 BX_SEG_REG_SS (u16 (sp - 4)) value32;;
    sp ← SP; set_SP (sp - 4).

Definition pop_32 : Mach Z :=
  d_b ← SS_d_b;
  if nz d_b then
    esp ← ESP; value32 ← read_virtual_dword_32 BX_SEG_REG_SS esp;
    esp ← ESP; set_ESP (esp + 4);;
    mret value32
  else
    sp ← SP; value32 ← read_virtual_dword_32 BX_SEG_REG_SS sp;
    sp ← SP; set_SP (sp + 4);;
    mret value32.

(** ** cpu/stack16.cc *)

Definition PUSH_RX (i : bxInstruction_c) : Mach unit :=
  v ← BX_READ_16BIT_REG (opcodeReg i); push_16 v.
Definition POP_RX (i : bxInstruction_c) : Mach unit :=
  v ← pop_16; BX_WRITE_16BIT_REG (opcodeReg i) v.
Definition PUSH16_CS (i : bxInstruction_c) : Mach unit :=
  v ← gets (fun s => sel_value (selector (sreg BX_SEG_REG_CS s))); push_16 v.
Definition PUSH16_DS (i : bxInstruction_c) : Mach unit :=
  v ← gets (fun s => sel_value (selector (sreg BX_SEG_REG_DS s))); push_16 v.
Definition PUSH16_ES (i : bxInstruction_c) : Mach unit :=
  v ← gets (fun s => sel_value (selector (sreg BX_SEG_REG_ES s))); push_16 v.
Definition PUSH16_FS (i : bxInstruction_c) : Mach unit :=
  v ← gets (fun s => sel_value (selector (sreg BX_SEG_REG_FS s))); push_16 v.
Definition PUSH16_GS (i : bxInstruction_c) : Mach unit :=
  v ← gets (fun s => sel_value (selector (sreg BX_SEG_REG_GS s))); push_16 v.
Definition PUSH16_SS (i : bxInstruction_c) : Mach unit :=
  v ← gets (fun s => sel_value (selector (sreg BX_SEG_REG_SS s))); push_16 v.
Definition POP16_DS (i : bxInstruction_c) : Mach unit :=
  d_b ← SS_d_b;
  if nz d_b then
    esp ← ESP; ds ← read_virtual_word_32 BX_SEG_REG_SS esp;
    load_seg_reg BX_SEG_REG_DS ds;;
    esp ← ESP; set_ESP (esp + 2)
  else
    sp ← SP; ds ← read_virtual_word_32 BX_SEG_REG_SS sp;
    load_seg_reg BX_SEG_REG_DS ds;;
    sp ← SP; set_SP (sp + 2).
Definition POP16_ES (i : bxInstruction_c) : Mach unit :=
  d_b ← SS_d_b;
  if nz d_b then
    esp ← ESP; es ← read_virtual_word_32 BX_SEG_REG_SS esp;
    load_seg_reg BX_SEG_REG_ES es;;
    esp ← ESP; set_ESP (esp + 2)
  else
    sp ← SP; es ← read_virtual_word_32 BX_SEG_REG_SS sp;
    load_seg_reg BX_SEG_REG_ES es;;
    sp ← SP; set_SP (sp + 2).
Definition POP16_FS (i : bxInstruction_c) : Mach unit :=
  d_b ← SS_d_b;
  if nz d_b then
    esp ← ESP; fs ← read_virtual_word_32 BX_SEG_REG_SS esp;
    load_seg_reg BX_SEG_REG_FS fs;;
    esp ← ESP; set_ESP (esp + 2)
  else
    sp ← SP; fs ← read_virtual_word_32 BX_SEG_REG_SS sp;
    load_seg_reg BX_SEG_REG_FS fs;;
    sp ← SP; set_SP (sp + 2).
Definition POP16_GS (i : bxInstruction_c) : Mach unit :=
  d_b ← SS_d_b;
  if nz d_b then
    esp ← ESP; gs ← read_virtual_word_32 BX_SEG_REG_SS esp;
    load_seg_reg BX_SEG_REG_GS gs;;
    esp ← ESP; set_ESP (esp + 2)
  else
    sp ← SP; gs ← read_virtual_word_32 BX_SEG_REG_SS sp;
    load_seg_reg BX_SEG_REG_GS gs;;
    sp ← SP; set_SP (sp + 2).
Definition POP16_SS (i : bxInstruction_c) : Mach unit :=
  d_b ← SS_d_b;
  (if nz d_b then
    esp ← ESP; ss ← read_virtual_word_32 BX_SEG_REG_SS esp;
    load_seg_reg BX_SEG_REG_SS ss;;
    esp ← ESP; set_ESP (esp + 2)
  else
    sp ← SP; ss ← read_virtual_word_32 BX_SEG_REG_SS sp;
    load_seg_reg BX_SEG_REG_SS ss;;
    sp ← SP; set_SP (sp + 2));;
  inhibit_by_MOVSS.
Definition PUSH_Iw (i : bxInstruction_c) : Mach unit := push_16 (Iw i).
Definition PUSH_EwM (i : bxInstruction_c) : Mach unit :=
  eaddr ← resolve i; op1_16 ← read_virtual_word_32 (i_seg i) eaddr; push_16 op1_16.

(** The address is computed with the ESP after the pop. *)
Definition POP_EwM (i : bxInstruction_c) : Mach unit :=
  RSP_SPECULATIVE;;
  val16 ← pop_16;
  eaddr ← resolve i;
  write_virtual_word_32 (i_seg i) eaddr val16;;
  RSP_COMMIT.

Definition PUSHAD16 (i : bxInstruction_c) : Mach unit :=
  temp_ESP ← ESP;
  temp_SP ← SP;
  d_b ← SS_d_b;
  if nz d_b then
    ax ← AX; write_virtual_word_32 BX_SEG_REG_SS (u32 (temp_ESP - 2)) ax;;
    cx ← CX; write_virtual_word_32 BX_SEG_REG_SS (u32 (temp_ESP - 4)) cx;;
    dx ← DX; write_virtual_word_32 BX_SEG_REG_SS (u32 (temp_ESP - 6)) dx;;
    bx ← BX; write_virtual_word_32 BX_SEG_REG_SS (u32 (temp_ESP - 8)) bx;;
    write_virtual_word_32 BX_SEG_REG_SS (u32 (temp_ESP - 10)) temp_SP;;
    bp ← BP; write_virtual_word_32 BX_SEG_REG_SS (u32 (temp_ESP - 12)) bp;;
    si ← SI; write_virtual_word_32 BX_SEG_REG_SS (u32 (temp_ESP - 14)) si;;
    di ← DI; write_virtual_word_32 BX_SEG_REG_SS (u32 (temp_ESP - 16)) di;;
    esp ← ESP; set_ESP (esp - 16)
  else
    ax ← AX; write_virtual_word_32 BX_SEG_REG_SS (u16 (temp_SP - 2)) ax;;
    cx ← CX; write_virtual_word_32 BX_SEG_REG_SS (u16 (temp_SP - 4)) cx;;
    dx ← DX; write_virtual_word_32 BX_SEG_REG_SS (u16 (temp_SP - 6)) dx;;
    bx ← BX; write_virtual_word_32 BX_SEG_REG_SS (u16 (temp_SP - 8)) bx;;
    write_virtual_word_32 BX_SEG_REG_SS (u16 (temp_SP - 10)) temp_SP;;
    bp ← BP; write_virtual_word_32 BX_SEG_REG_SS (u16 (temp_SP - 12)) bp;;
    si ← SI; write_virtual_word_32 BX_SEG_REG_SS (u16 (temp_SP - 14)) si;;
    di ← DI; write_virtual_word_32 BX_SEG_REG_SS (u16 (temp_SP - 16)) di;;
    sp ← SP; set_SP (sp - 16).

Definition POPAD16 (i : bxInstruction_c) : Mach unit :=
  let finish '(di, si, bp, bx, dx, cx, ax) :=
    set_DI di;;
    set_SI si;;
    set_BP bp;;
    set_BX bx;;
    set_DX dx;;
    set_CX cx;;
    set_AX ax in
  d_b ← SS_d_b;
  if nz d_b then
     temp_ESP ← ESP;
     di ← read_virtual_word_32 BX_SEG_REG_SS (u32 (temp_ESP + 0));
     si ← read_virtual_word_32 BX_SEG_REG_SS (u32 (temp_ESP + 2));
     bp ← read_virtual_word_32 BX_SEG_REG_SS (u32 (temp_ESP + 4));
     _ ← read_virtual_word_32 BX_SEG_REG_SS (u32 (temp_ESP + 6));
     bx ← read_virtual_word_32 BX_SEG_REG_SS (u32 (temp_ESP + 8));
     dx ← read_virtual_word_32 BX_SEG_REG_SS (u32 (temp_ESP + 10));
     cx ← read_virtual_word_32 BX_SEG_REG_SS (u32 (temp_ESP + 12));
     ax ← read_virtual_word_32 BX_SEG_REG_SS (u32 (temp_ESP + 14));
     esp ← ESP; set_ESP (esp + 16);;
     finish (di, si, bp, bx, dx, cx, ax)
  else
     temp_SP ← SP;
     di ← read_virtual_word_32 BX_SEG_REG_SS (u16 (temp_SP + 0));
     si ← read_virtual_word_32 BX_SEG_REG_SS (u16 (temp_SP + 2));
     bp ← read_virtual_word_32 BX_SEG_REG_SS (u16 (temp_SP + 4));
     _ ← read_virtual_word_32 BX_SEG_REG_SS (u16 (temp_SP + 6));
     bx ← read_virtual_word_32 BX_SEG_REG_SS (u16 (temp_SP + 8));
     dx ← read_virtual_word_32 BX_SEG_REG_SS (u16 (temp_SP + 10));
     cx ← read_virtual_word_32 BX_SEG_REG_SS (u16 (temp_SP + 12));
     ax ← read_virtual_word_32 BX_SEG_REG_SS (u16 (temp_SP + 14));
     sp ← SP; set_SP (sp + 16);;
     finish (di, si, bp, bx, dx, cx, ax).

(** [while (--level) { ptr -= 2; push(read(ptr)); }]; [cast] is the width of
    [ptr]. *)
Fixpoint ENTER16_loop (cast : Z -> Z) (level : nat) (ptr : Z) : Mach unit :=
  match level with
  | O => mret tt
  | S level =>
      match level with
      | O => mret tt
      | S _ =>
          let ptr := cast (ptr - 2) in
          temp16 ← read_virtual_word_32 BX_SEG_REG_SS ptr;
          push_16 temp16;;
          ENTER16_loop cast level ptr
      end
  end.

Definition ENTER16_IwIb (i : bxInstruction_c) : Mach unit :=
  let imm16 := Iw i in
  let level := Z.land (Ib2 i) 0x1F in
  RSP_SPECULATIVE;;
  bp ← BP; push_16 bp;;
  frame_ptr16 ← SP;
  d_b ← SS_d_b;
  (if nz d_b then
     ebp ← EBP;
     when (0 <? level) (ENTER16_loop u32 (Z.to_nat level) ebp;; push_16 frame_ptr16);;
     esp ← ESP; set_ESP (esp - imm16);;
     esp ← ESP; read_RMW_virtual_word_32 BX_SEG_REG_SS esp;;
     set_BP frame_ptr16
   else
     bp ← BP;
     when (0 <? level) (ENTER16_loop u16 (Z.to_nat level) bp;; push_16 frame_ptr16);;
     sp ← SP; set_SP (sp - imm16);;
     sp ← SP; read_RMW_virtual_word_32 BX_SEG_REG_SS sp;;
     mret tt);;
  set_BP frame_ptr16;;
  RSP_COMMIT.

Definition LEAVE16 (i : bxInstruction_c) : Mach unit :=
  d_b ← SS_d_b;
  value16 ←
    (if nz d_b then
       ebp ← EBP; value16 ← read_virtual_word_32 BX_SEG_REG_SS ebp;
       ebp ← EBP; set_ESP (ebp + 2);;
       mret value16
     else
       bp ← BP; value16 ← read_virtual_word_32 BX_SEG_REG_SS bp;
       bp ← BP; set_SP (bp + 2);;
       mret value16);
  set_BP value16.

(** ** cpu/stack32.cc *)

Definition PUSH_ERX (i : bxInstruction_c) : Mach unit :=
  v ← BX_READ_32BIT_REG (opcodeReg i); push_32 v.
Definition POP_ERX (i : bxInstruction_c) : Mach unit :=
  v ← pop_32; BX_WRITE_32BIT_REGZ (opcodeReg i) v.
Definition PUSH32_CS (i : bxInstruction_c) : Mach unit :=
  v ← gets (fun s => sel_value (selector (sreg BX_SEG_REG_CS s))); push_32 v.
Definition PUSH32_DS (i : bxInstruction_c) : Mach unit :=
  v ← gets (fun s => sel_value (selector (sreg BX_SEG_REG_DS s))); push_32 v.
Definition PUSH32_ES (i : bxInstruction_c) : Mach unit :=
  v ← gets (fun s => sel_value (selector (sreg BX_SEG_REG_ES s))); push_32 v.
Definition PUSH32_FS (i : bxInstruction_c) : Mach unit :=
  v ← gets (fun s => sel_value (selector (sreg BX_SEG_REG_FS s))); push_32 v.
Definition PUSH32_GS (i : bxInstruction_c) : Mach unit :=
  v ← gets (fun s => sel_value (selector (sreg BX_SEG_REG_GS s))); push_32 v.
Definition PUSH32_SS (i : bxInstruction_c) : Mach unit :=
  v ← gets (fun s => sel_value (selector (sreg BX_SEG_REG_SS s))); push_32 v.
Definition POP32_DS (i : bxInstruction_c) : Mach unit :=
  d_b ← SS_d_b;
  if nz d_b then
    esp ← ESP; ds ← read_virtual_word_32 BX_SEG_REG_SS esp;
    load_seg_reg BX_SEG_REG_DS ds;;
    esp ← ESP; set_ESP (esp + 4)
  else
    sp ← SP; ds ← read_virtual_word_32 BX_SEG_REG_SS sp;
    load_seg_reg BX_SEG_REG_DS ds;;
    sp ← SP; set_SP (sp + 4).
Definition POP32_ES (i : bxInstruction_c) : Mach unit :=
  d_b ← SS_d_b;
  if nz d_b then
    esp ← ESP; es ← read_virtual_word_32 BX_SEG_REG_SS esp;
    load_seg_reg BX_SEG_REG_ES es;;
    esp ← ESP; set_ESP (esp + 4)
  else
    sp ← SP; es ← read_virtual_word_32 BX_SEG_REG_SS sp;
    load_seg_reg BX_SEG_REG_ES es;;
    sp ← SP; set_SP (sp + 4).
Definition POP32_FS (i : bxInstruction_c) : Mach unit :=
  d_b ← SS_d_b;
  if nz d_b then
    esp ← ESP; fs ← read_virtual_word_32 BX_SEG_REG_SS esp;
    load_seg_reg BX_SEG_REG_FS fs;;
    esp ← ESP; set_ESP (esp + 4)
  else
    sp ← SP; fs ← read_virtual_word_32 BX_SEG_REG_SS sp;
    load_seg_reg BX_SEG_REG_FS fs;;
    sp ← SP; set_SP (sp + 4).
Definition POP32_GS (i : bxInstruction_c) : Mach unit :=
  d_b ← SS_d_b;
  if nz d_b then
    esp ← ESP; gs ← read_virtual_word_32 BX_SEG_REG_SS esp;
    load_seg_reg BX_SEG_REG_GS gs;;
    esp ← ESP; set_ESP (esp + 4)
  else
    sp ← SP; gs ← read_virtual_word_32 BX_SEG_REG_SS sp;
    load_seg_reg BX_SEG_REG_GS gs;;
    sp ← SP; set_SP (sp + 4).
Definition POP32_SS (i : bxInstruction_c) : Mach unit :=
  d_b ← SS_d_b;
  (if nz d_b then
    esp ← ESP; ss ← read_virtual_word_32 BX_SEG_REG_SS esp;
    load_seg_reg BX_SEG_REG_SS ss;;
    esp ← ESP; set_ESP (esp + 4)
  else
    sp ← SP; ss ← read_virtual_word_32 BX_SEG_REG_SS sp;
    load_seg_reg BX_SEG_REG_SS ss;;
    sp ← SP; set_SP (sp + 4));;
  inhibit_by_MOVSS.
Definition PUSH_Id (i : bxInstruction_c) : Mach unit := push_32 (Id i).
Definition PUSH_EdM (i : bxInstruction_c) : Mach unit :=
  eaddr ← resolve i; op1_32 ← read_virtual_dword_32 (i_seg i) eaddr; push_32 op1_32.

(** The address is computed with the ESP after the pop. *)
Definition POP_EdM (i : bxInstruction_c) : Mach unit :=
  RSP_SPECULATIVE;;
  val32 ← pop_32;
  eaddr ← resolve i;
  write_virtual_dword_32 (i_seg i) eaddr val32;;
  RSP_COMMIT.

Definition PUSHAD32 (i : bxInstruction_c) : Mach unit :=
  temp_ESP ← ESP;
  temp_SP ← SP;
  d_b ← SS_d_b;
  if nz d_b then
    eax ← EAX; write_virtual_dword_32 BX_SEG_REG_SS (u32 (temp_ESP - 4)) eax;;
    ecx ← ECX; write_virtual_dword_32 BX_SEG_REG_SS (u32 (temp_ESP - 8)) ecx;;
    edx ← EDX; write_virtual_dword_32 BX_SEG_REG_SS (u32 (temp_ESP - 12)) edx;;
    ebx ← EBX; write_virtual_dword_32 BX_SEG_REG_SS (u32 (temp_ESP - 16)) ebx;;
    write_virtual_dword_32 BX_SEG_REG_SS (u32 (temp_ESP - 20)) temp_ESP;;
    ebp ← EBP; write_virtual_dword_32 BX_SEG_REG_SS (u32 (temp_ESP - 24)) ebp;;
    esi ← ESI; write_virtual_dword_32 BX_SEG_REG_SS (u32 (temp_ESP - 28)) esi;;
    edi ← EDI; write_virtual_dword_32 BX_SEG_REG_SS (u32 (temp_ESP - 32)) edi;;
    esp ← ESP; set_ESP (esp - 32)
  else
    eax ← EAX; write_virtual_dword_32 BX_SEG_REG_SS (u16 (temp_SP - 4)) eax;;
    ecx ← ECX; write_virtual_dword_32 BX_SEG_REG_SS (u16 (temp_SP - 8)) ecx;;
    edx ← EDX; write_virtual_dword_32 BX_SEG_REG_SS (u16 (temp_SP - 12)) edx;;
    ebx ← EBX; write_virtual_dword_32 BX_SEG_REG_SS (u16 (temp_SP - 16)) ebx;;
    write_virtual_dword_32 BX_SEG_REG_SS (u16 (temp_SP - 20)) temp_ESP;;
    ebp ← EBP; write_virtual_dword_32 BX_SEG_REG_SS (u16 (temp_SP - 24)) ebp;;
    esi ← ESI; write_virtual_dword_32 BX_SEG_REG_SS (u16 (temp_SP - 28)) esi;;
    edi ← EDI; write_virtual_dword_32 BX_SEG_REG_SS (u16 (temp_SP - 32)) edi;;
    sp ← SP; set_SP (sp - 32).

Definition POPAD32 (i : bxInstruction_c) : Mach unit :=
  let finish '(edi, esi, ebp, ebx, edx, ecx, eax) :=
    set_EDI edi;;
    set_ESI esi;;
    set_EBP ebp;;
    set_EBX ebx;;
    set_EDX edx;;
    set_ECX ecx;;
    set_EAX eax in
  d_b ← SS_d_b;
  if nz d_b then
     temp_ESP ← ESP;
     edi ← read_virtual_dword_32 BX_SEG_REG_SS (u32 (temp_ESP + 0));
     esi ← read_virtual_dword_32 BX_SEG_REG_SS (u32 (temp_ESP + 4));
     ebp ← read_virtual_dword_32 BX_SEG_REG_SS (u32 (temp_ESP + 8));
     _ ← read_virtual_dword_32 BX_SEG_REG_SS (u32 (temp_ESP + 12));
     ebx ← read_virtual_dword_32 BX_SEG_REG_SS (u32 (temp_ESP + 16));
     edx ← read_virtual_dword_32 BX_SEG_REG_SS (u32 (temp_ESP + 20));
     ecx ← read_virtual_dword_32 BX_SEG_REG_SS (u32 (temp_ESP + 24));
     eax ← read_virtual_dword_32 BX_SEG_REG_SS (u32 (temp_ESP + 28));
     esp ← ESP; set_ESP (esp + 32);;
     finish (edi, esi, ebp, ebx, edx, ecx, eax)
  else
     temp_SP ← SP;
     edi ← read_virtual_dword_32 BX_SEG_REG_SS (u16 (temp_SP + 0));
     esi ← read_virtual_dword_32 BX_SEG_REG_SS (u16 (temp_SP + 4));
     ebp ← read_virtual_dword_32 BX_SEG_REG_SS (u16 (temp_SP + 8));
     _ ← read_virtual_dword_32 BX_SEG_REG_SS (u16 (temp_SP + 12));
     ebx ← read_virtual_dword_32 BX_SEG_REG_SS (u16 (temp_SP + 16));
     edx ← read_virtual_dword_32 BX_SEG_REG_SS (u16 (temp_SP + 20));
     ecx ← read_virtual_dword_32 BX_SEG_REG_SS (u16 (temp_SP + 24));
     eax ← read_virtual_dword_32 BX_SEG_REG_SS (u16 (temp_SP + 28));
     sp ← SP; set_SP (sp + 32);;
     finish (edi, esi, ebp, ebx, edx, ecx, eax).

(** [while (--level) { ptr -= 4; push(read(ptr)); }]; [cast] is the width of
    [ptr]. *)
Fixpoint ENTER32_loop (cast : Z -> Z) (level : nat) (ptr : Z) : Mach unit :=
  match level with
  | O => mret tt
  | S level =>
      match level with
      | O => mret tt
      | S _ =>
          let ptr := cast (ptr - 4) in
          temp32 ← read_virtual_dword_32 BX_SEG_REG_SS ptr;
          push_32 temp32;;
          ENTER32_loop cast level ptr
      end
  end.

Definition ENTER32_IwIb (i : bxInstruction_c) : Mach unit :=
  let imm16 := Iw i in
  let level := Z.land (Ib2 i) 0x1F in
  RSP_SPECULATIVE;;
  bp ← EBP; push_32 bp;;
  frame_ptr32 ← ESP;
  d_b ← SS_d_b;
  (if nz d_b then
     ebp ← EBP;
     when (0 <? level) (ENTER32_loop u32 (Z.to_nat level) ebp;; push_32 frame_ptr32);;
     esp ← ESP; set_ESP (esp - imm16);;
     esp ← ESP; read_RMW_virtual_dword_32 BX_SEG_REG_SS esp;;
     mret tt
   else
     bp ← BP;
     when (0 <? level) (ENTER32_loop u16 (Z.to_nat level) bp;; push_32 frame_ptr32);;
     sp ← SP; set_SP (sp - imm16);;
     sp ← SP; read_RMW_virtual_dword_32 BX_SEG_REG_SS sp;;
     mret tt);;
  set_EBP frame_ptr32;;
  RSP_COMMIT.

Definition LEAVE32 (i : bxInstruction_c) : Mach unit :=
  d_b ← SS_d_b;
  value32 ←
    (if nz d_b then
       ebp ← EBP; value32 ← read_virtual_dword_32 BX_SEG_REG_SS ebp;
       ebp ← EBP; set_ESP (ebp + 4);;
       mret value32
     else
       bp ← BP; value32 ← read_virtual_dword_32 BX_SEG_REG_SS bp;
       bp ← BP; set_SP (bp + 4);;
       mret value32);
  set_EBP value32.

(** ** Reference

    [spw] is the width of the stack pointer. *)
Definition sp_width : Mach Z := d_b ← SS_d_b; mret (if nz d_b then 32 else 16).

Definition ref_push (w v : Z) : Mach unit :=
  spw ← sp_width;
  sp ← read_reg spw 4; write_mem w BX_SEG_REG_SS (wrap spw (sp - w / 8)) v;;
  sp ← read_reg spw 4; write_reg spw 4 (sp - w / 8).
Definition ref_pop (w : Z) : Mach Z :=
  spw ← sp_width;
  sp ← read_reg spw 4; v ← read_mem w BX_SEG_REG_SS sp;
  sp ← read_reg spw 4; write_reg spw 4 (sp + w / 8);;
  mret v.

Lemma push_16_eq v s : push_16 v s = ref_push 16 v s.
Proof. unfold push_16, ref_push, sp_width, SS_d_b, mbind, M_bind, gets. by destruct (nz _). Qed.
Lemma push_32_eq v s : push_32 v s = ref_push 32 v s.
Proof. unfold push_32, ref_push, sp_width, SS_d_b, mbind, M_bind, gets. by destruct (nz _). Qed.
Lemma pop_16_eq s : pop_16 s = ref_pop 16 s.
Proof. unfold pop_16, ref_pop, sp_width, SS_d_b, mbind, M_bind, gets. by destruct (nz _). Qed.
Lemma pop_32_eq s : pop_32 s = ref_pop 32 s.
Proof. unfold pop_32, ref_pop, sp_width, SS_d_b, mbind, M_bind, gets. by destruct (nz _). Qed.

(** ** Memory accesses and the register file

    [m] neither reads nor writes the general registers. *)
Definition regless {A} (m : Mach A) : Prop :=
  forall l s, m (with_gen_reg l s) = omap_state (with_gen_reg l) (m s).

Create HintDb regless discriminated.
#[export] Hint Constants Opaque : regless.

Lemma regless_ret {A} (a : A) : regless (mret a).
Proof. by intros l s. Qed.
Lemma regless_raise {A} v e : regless (raise (A := A) v e).
Proof. by intros l s. Qed.
Lemma regless_crash {A} : regless (crash (A := A)).
Proof. by intros l s. Qed.
Lemma regless_gets {A} (f : machine -> A) : (forall l s, f (with_gen_reg l s) = f s) -> regless (gets f).
Proof. intros H l s. unfold gets. cbn. by rewrite H. Qed.
Lemma regless_modify f : (forall l s, f (with_gen_reg l s) = with_gen_reg l (f s)) -> regless (modify f).
Proof. intros H l s. unfold modify. cbn. by rewrite H. Qed.
Lemma regless_bind {A B} (m : Mach A) (k : A -> Mach B) :
  regless m -> (forall a, regless (k a)) -> regless (m ≫= k).
Proof.
  intros Hm Hk l s. unfold mbind, M_bind. rewrite Hm. destruct (m s); cbn; [apply Hk|done|done].
Qed.
Lemma regless_when b m : regless m -> regless (when b m).
Proof. intros. destruct b; [done|apply regless_ret]. Qed.
#[export] Hint Resolve regless_ret regless_raise regless_crash : regless.

Ltac regless_step :=
  match goal with
  | |- forall _, _ => intros ?
  | |- regless (mbind _ _) => apply regless_bind
  | |- regless (let _ := _ in _) => cbv zeta
  | |- regless (match ?x with _ => _ end) => destruct x
  | |- regless (when _ _) => apply regless_when
  | |- regless (gets _) => apply regless_gets; reflexivity
  | |- regless (modify _) => apply regless_modify; reflexivity
  | |- regless _ => solve [eauto with regless]
  end.
Ltac regless_tac := repeat regless_step.

Lemma access_write_physical_regless a l : regless (access_write_physical a l).
Proof. unfold access_write_physical, writePhysicalPage. regless_tac. Qed.
Lemma access_read_physical_regless a n : regless (access_read_physical a n).
Proof. unfold access_read_physical, readPhysicalPage. regless_tac. Qed.
#[export] Hint Resolve access_write_physical_regless access_read_physical_regless : regless.
Lemma translate_linear_regless l p r : regless (translate_linear l p r).
Proof.
  unfold translate_linear, translate_PDE4M, translate_PTE, page_fault, read_physical, write_physical.
  regless_tac.
Qed.
#[export] Hint Resolve translate_linear_regless : regless.
Lemma xlate_access_regless l n p r : regless (xlate_access l n p r).
Proof. unfold xlate_access, dtranslate_linear, set_xlation. regless_tac. Qed.
#[export] Hint Resolve xlate_access_regless : regless.
Lemma access_write_linear_regless l n p d : regless (access_write_linear l n p d).
Proof. unfold access_write_linear. regless_tac. Qed.
Lemma access_read_linear_regless l n p r : regless (access_read_linear l n p r).
Proof. unfold access_read_linear. regless_tac. Qed.
#[export] Hint Resolve access_write_linear_regless access_read_linear_regless : regless.
Lemma segment_checks_regless r c len n o : regless (segment_checks r c len n o).
Proof. unfold segment_checks. regless_tac. Qed.
#[export] Hint Resolve segment_checks_regless : regless.
Lemma write_virtual_32_regless len n o d : regless (write_virtual_32 len n o d).
Proof. unfold write_virtual_32, get_laddr32, alignment_ok. regless_tac. Qed.
Lemma read_virtual_32_regless len n o : regless (read_virtual_32 len n o).
Proof. unfold read_virtual_32, get_laddr32, alignment_ok. regless_tac. Qed.
#[export] Hint Resolve write_virtual_32_regless read_virtual_32_regless : regless.

(** So it leaves them alone. *)
Lemma regless_gen_reg {A} (m : Mach A) s :
  regless m ->
  match m s with Ret _ s' | Fault _ _ s' => gen_reg s' = gen_reg s | Crash => True end.
Proof.
  intros H. specialize (H (gen_reg s) s). replace (with_gen_reg (gen_reg s) s) with s in H by by destruct s.
  rewrite H. by destruct (m s).
Qed.

(** *** The stack pointer in the register file *)

Definition sp_of (spw : Z) (g : list Z) : Z := wrap spw (nth 4 g 0).
Definition put_sp (spw : Z) (g : list Z) (v : Z) : list Z :=
  <[4%nat := if spw =? 16 then put_rx (nth 4 g 0) v else put_erx (nth 4 g 0) v]> g.

Definition sp_width_ok (spw : Z) : Prop := spw = 16 \/ spw = 32.

Lemma read_sp spw s : sp_width_ok spw -> read_reg spw 4 s = Ret (sp_of spw (gen_reg s)) s.
Proof. by intros [-> | ->]. Qed.
Lemma write_sp spw v s :
  sp_width_ok spw -> write_reg spw 4 v s = Ret tt (with_gen_reg (put_sp spw (gen_reg s) v) s).
Proof. by intros [-> | ->]. Qed.
Lemma nth_put_sp spw g v :
  length g = 11%nat ->
  nth 4 (put_sp spw g v) 0 = if spw =? 16 then put_rx (nth 4 g 0) v else put_erx (nth 4 g 0) v.
Proof.
  intros H. unfold put_sp. apply nth_lookup_Some, list_lookup_insert_eq. lia.
Qed.
Lemma put_sp_length spw g v : length (put_sp spw g v) = length g.
Proof. apply length_insert. Qed.
Lemma put_rx_low v x : wrap 16 (put_rx v x) = wrap 16 x.
Proof. unfold put_rx, wrap. rewrite Z.add_comm, Z.mod_add, Z.mod_mod; lia. Qed.
Lemma put_rx_twice v x y : put_rx (put_rx v x) y = put_rx v y.
Proof.
  unfold put_rx. pose proof (wrap_range 16 x ltac:(lia)).
  rewrite Z.div_add_l, (Z.div_small (u16 x)), Z.add_0_r by lia. done.
Qed.
Lemma sp_of_put spw g v :
  sp_width_ok spw -> length g = 11%nat -> sp_of spw (put_sp spw g v) = wrap spw v.
Proof.
  intros Hs Hl. unfold sp_of. rewrite nth_put_sp by done. destruct Hs as [-> | ->]; cbn [Z.eqb Pos.eqb].
  - apply put_rx_low.
  - unfold put_erx. by rewrite wrap_wrap.
Qed.
Lemma put_sp_put spw g v v' :
  sp_width_ok spw -> length g = 11%nat -> put_sp spw (put_sp spw g v) v' = put_sp spw g v'.
Proof.
  intros Hs Hl. unfold put_sp at 1 3. rewrite nth_put_sp by done. unfold put_sp.
  rewrite list_insert_insert_eq. f_equal.
  destruct Hs as [-> | ->]; cbn [Z.eqb Pos.eqb]; [apply put_rx_twice|done].
Qed.
Lemma put_sp_wrap spw g v : sp_width_ok spw -> put_sp spw g (wrap spw v) = put_sp spw g v.
Proof.
  intros [-> | ->]; unfold put_sp, put_rx, put_erx; cbn [Z.eqb Pos.eqb];
    by rewrite wrap_wrap.
Qed.

(** *** Memory accesses and the size of the stack *)

Definition stack_size (s : machine) : Z := seg_d_b (cache (sreg BX_SEG_REG_SS s)).

Lemma sp_width_eq s : sp_width s = Ret (if nz (stack_size s) then 32 else 16) s.
Proof. done. Qed.
Lemma sp_width_is_ok s : sp_width_ok (if nz (stack_size s) then 32 else 16).
Proof. destruct (nz _); [by right|by left]. Qed.

#[export] Instance stack_size_Frame x : Frame (fun s => stack_size s = x).
Proof. apply (unmarked_Frame (fun seg => seg_d_b (cache seg))). Qed.
Lemma write_virtual_32_sized x len n o d : preserves (fun s => stack_size s = x) (write_virtual_32 len n o d).
Proof. apply write_virtual_32_frame, _. Qed.
Lemma read_virtual_32_sized x len n o : preserves (fun s => stack_size s = x) (read_virtual_32 len n o).
Proof. apply read_virtual_32_frame, _. Qed.
#[export] Hint Resolve write_virtual_32_sized read_virtual_32_sized : preserves.

Definition mem_width (w : Z) : Prop := w = 16 \/ w = 32.

Lemma write_mem_sized x w n o v : preserves (fun s => stack_size s = x) (write_mem w n o v).
Proof. unfold write_mem. unfold_widths. preserves_tac. Qed.
Lemma read_mem_sized x w n o : preserves (fun s => stack_size s = x) (read_mem w n o).
Proof. unfold read_mem. unfold_widths. preserves_tac. Qed.
Lemma write_mem_regless w n o v : regless (write_mem w n o v).
Proof. unfold write_mem. unfold_widths. regless_tac. Qed.
Lemma read_mem_regless w n o : regless (read_mem w n o).
Proof. unfold read_mem. unfold_widths. regless_tac. Qed.

(** ** PUSHA and POPA

    The same as eight pushes or pops that give the registers back when one of
    them faults. *)
Definition atomically {A} (m : Mach A) : Mach A := fun s =>
  match m s with Fault v e s' => Fault v e (with_gen_reg (gen_reg s) s') | o => o end.

Fixpoint ref_pushes (w : Z) (l : list Z) : Mach unit :=
  match l with
  | [] => mret tt
  | v :: l => ref_push w v;; ref_pushes w l
  end.
Fixpoint ref_pops (w : Z) (n : nat) : Mach (list Z) :=
  match n with
  | O => mret []
  | S n => v ← ref_pop w; l ← ref_pops w n; mret (v :: l)
  end.

(** AX, CX, DX, BX, the SP from before, BP, SI, DI. *)
Definition ref_pusha (w : Z) : Mach unit :=
  l ← gets (fun s => (fun n => wrap w (reg n s)) <$> [0; 1; 2; 3; 4; 5; 6; 7]);
  atomically (ref_pushes w l).
(** The value popped for SP is dropped. *)
Definition ref_popa (w : Z) : Mach unit :=
  l ← atomically (ref_pops w 8);
  match l with
  | [di; si; bp; _; bx; dx; cx; ax] =>
      write_reg w 7 di;; write_reg w 6 si;; write_reg w 5 bp;; write_reg w 3 bx;;
      write_reg w 2 dx;; write_reg w 1 cx;; write_reg w 0 ax
  | _ => crash
  end.

(** The accesses alone, [k] bytes from [sp] on. *)
Fixpoint writes (w spw sp k : Z) (l : list Z) : Mach unit :=
  match l with
  | [] => mret tt
  | v :: l => write_mem w BX_SEG_REG_SS (wrap spw (sp - (k + w / 8))) v;; writes w spw sp (k + w / 8) l
  end.
Fixpoint reads (w spw sp k : Z) (n : nat) : Mach (list Z) :=
  match n with
  | O => mret []
  | S n => v ← read_mem w BX_SEG_REG_SS (wrap spw (sp + k)); l ← reads w spw sp (k + w / 8) n;
           mret (v :: l)
  end.

Lemma put_sp_same spw g : sp_width_ok spw -> regs_ok g -> put_sp spw g (sp_of spw g) = g.
Proof.
  intros Hs [Hl Hf]. unfold put_sp, sp_of.
  assert (g !! 4%nat = Some (nth 4 g 0)) as Hg.
  { destruct (lookup_lt_is_Some_2 g 4%nat ltac:(lia)) as [v Hv]. by rewrite (nth_lookup_Some _ _ _ _ Hv). }
  replace (if spw =? 16 then _ else _) with (nth 4 g 0); [by apply list_insert_id|].
  pose proof (nth_in32 4 g Hf). unfold in32 in *.
  destruct Hs as [-> | ->]; cbn [Z.eqb Pos.eqb]; unfold put_rx, put_erx.
  - rewrite wrap_wrap by lia. unfold wrap. pose proof (Z.div_mod (nth 4 g 0) (2 ^ 16)). lia.
  - rewrite wrap_wrap, wrap_small by lia. done.
Qed.
Lemma put_sp_ok spw g v : regs_ok g -> regs_ok (put_sp spw g v).
Proof.
  intros [Hl Hf]. split; [by rewrite put_sp_length|]. apply Forall_insert; [done|].
  pose proof (nth_in32 4 g Hf). destruct (spw =? 16); [by apply put_rx_range|by apply put_erx_range].
Qed.
Lemma with_gen_reg_twice g g' s : with_gen_reg g (with_gen_reg g' s) = with_gen_reg g s.
Proof. done. Qed.
Lemma with_gen_reg_same s : with_gen_reg (gen_reg s) s = s.
Proof. by destruct s. Qed.

(** One push, on explicit registers. *)
Lemma ref_push_regs w v spw g s :
  (if nz (stack_size s) then 32 else 16) = spw ->
  ref_push w v (with_gen_reg g s) =
    match write_mem w BX_SEG_REG_SS (wrap spw (sp_of spw g - w / 8)) v s with
    | Ret _ s1 => Ret tt (with_gen_reg (put_sp spw g (sp_of spw g - w / 8)) s1)
    | Fault vec e s1 => Fault vec e (with_gen_reg g s1)
    | Crash => Crash
    end.
Proof.
  intros Hw. assert (sp_width_ok spw) as Hs by (rewrite <-Hw; apply sp_width_is_ok).
  unfold ref_push, mbind, M_bind. rewrite sp_width_eq. change (stack_size (with_gen_reg g s)) with (stack_size s).
  rewrite Hw, read_sp by done. cbn [gen_reg with_gen_reg]. msimpl.
  rewrite (write_mem_regless w _ _ v g s). destruct (write_mem _ _ _ _ s); cbn [omap_state]; [|done|done].
  rewrite read_sp by done. msimpl. by rewrite write_sp by done.
Qed.
Lemma ref_pop_regs w spw g s :
  (if nz (stack_size s) then 32 else 16) = spw ->
  ref_pop w (with_gen_reg g s) =
    match read_mem w BX_SEG_REG_SS (sp_of spw g) s with
    | Ret v s1 => Ret v (with_gen_reg (put_sp spw g (sp_of spw g + w / 8)) s1)
    | Fault vec e s1 => Fault vec e (with_gen_reg g s1)
    | Crash => Crash
    end.
Proof.
  intros Hw. assert (sp_width_ok spw) as Hs by (rewrite <-Hw; apply sp_width_is_ok).
  unfold ref_pop, mbind, M_bind. rewrite sp_width_eq. change (stack_size (with_gen_reg g s)) with (stack_size s).
  rewrite Hw, read_sp by done. msimpl.
  rewrite (read_mem_regless w _ _ g s). destruct (read_mem _ _ _ s); cbn [omap_state]; [|done|done].
  rewrite read_sp by done. msimpl. by rewrite write_sp by done.
Qed.

Lemma pushes_writes w spw sp0 l : forall k s g,
  sp_width_ok spw -> (if nz (stack_size s) then 32 else 16) = spw -> regs_ok g ->
  sp_of spw g = wrap spw (sp0 - k) ->
  match writes w spw sp0 k l s with
  | Ret _ s1 => ref_pushes w l (with_gen_reg g s) =
      Ret tt (with_gen_reg (put_sp spw g (sp0 - (k + w / 8 * Z.of_nat (length l)))) s1)
  | Fault v e s1 => exists g', ref_pushes w l (with_gen_reg g s) = Fault v e (with_gen_reg g' s1)
  | Crash => ref_pushes w l (with_gen_reg g s) = Crash
  end.
Proof.
  induction l as [|v l IH]; intros k s g Hs Hw Hg Hsp; cbn [writes ref_pushes length].
  - cbn. unfold mret, M_ret. rewrite Z.mul_0_r, Z.add_0_r, <-(put_sp_wrap spw), <-Hsp, put_sp_same by done. done.
  - assert (0 <= spw) by (destruct Hs; lia).
    assert (wrap spw (sp_of spw g - w / 8) = wrap spw (sp0 - (k + w / 8))) as Hk
      by (rewrite Hsp, wrap_sub_l by done; f_equal; lia).
    unfold mbind, M_bind. rewrite (ref_push_regs w v spw g s Hw), Hk.
    pose proof (write_mem_sized (stack_size s) w BX_SEG_REG_SS (wrap spw (sp0 - (k + w / 8))) v s eq_refl) as Hx.
    destruct (write_mem _ _ _ _ s) as [[] s1|vec e s1|]; [|by exists g|done].
    set (g1 := put_sp spw g (sp_of spw g - w / 8)).
    assert (sp_of spw g1 = wrap spw (sp0 - (k + w / 8))) as Hsp1.
    { unfold g1. rewrite sp_of_put, Hk; [done|done|apply Hg]. }
    pose proof (IH (k + w / 8) s1 g1 Hs ltac:(by rewrite Hx) (put_sp_ok _ _ _ Hg) Hsp1) as HI.
    destruct (writes _ _ _ _ _ s1); [|done|done]. rewrite HI. unfold g1.
    rewrite put_sp_put by (done || apply Hg). do 3 f_equal. lia.
Qed.

Lemma pops_reads w spw sp0 n : forall k s g,
  sp_width_ok spw -> (if nz (stack_size s) then 32 else 16) = spw -> regs_ok g ->
  sp_of spw g = wrap spw (sp0 + k) ->
  match reads w spw sp0 k n s with
  | Ret l s1 => ref_pops w n (with_gen_reg g s) =
      Ret l (with_gen_reg (put_sp spw g (sp0 + (k + w / 8 * Z.of_nat n))) s1) /\ length l = n
  | Fault v e s1 => exists g', ref_pops w n (with_gen_reg g s) = Fault v e (with_gen_reg g' s1)
  | Crash => ref_pops w n (with_gen_reg g s) = Crash
  end.
Proof.
  induction n as [|n IH]; intros k s g Hs Hw Hg Hsp; cbn [reads ref_pops].
  - unfold mret, M_ret. rewrite Z.mul_0_r, Z.add_0_r, <-(put_sp_wrap spw), <-Hsp, put_sp_same by done. done.
  - assert (0 <= spw) by (destruct Hs; lia).
    unfold mbind, M_bind. rewrite (ref_pop_regs w spw g s Hw), Hsp.
    pose proof (read_mem_sized (stack_size s) w BX_SEG_REG_SS (wrap spw (sp0 + k)) s eq_refl) as Hx.
    destruct (read_mem _ _ _ s) as [v s1|vec e s1|]; [|by exists g|done].
    set (g1 := put_sp spw g (wrap spw (sp0 + k) + w / 8)).
    assert (sp_of spw g1 = wrap spw (sp0 + (k + w / 8))) as Hsp1.
    { unfold g1. rewrite sp_of_put, wrap_add_l; [f_equal; lia|done|done|apply Hg]. }
    pose proof (IH (k + w / 8) s1 g1 Hs ltac:(by rewrite Hx) (put_sp_ok _ _ _ Hg) Hsp1) as HI.
    destruct (reads _ _ _ _ _ s1) as [l s2|vec e s2|].
    + destruct HI as [-> Hl]. unfold mret, M_ret. split; [|cbn; by f_equal]. unfold g1.
      rewrite put_sp_put by (done || apply Hg). do 3 f_equal. lia.
    + destruct HI as [g' ->]. by exists g'.
    + by rewrite HI.
Qed.

Lemma writes_regless w spw sp l : forall k, regless (writes w spw sp k l).
Proof.
  induction l as [|v l IH]; intros k; cbn [writes]; [apply regless_ret|].
  apply regless_bind; [apply write_mem_regless|intros _; apply IH].
Qed.
Lemma reads_regless w spw sp n : forall k, regless (reads w spw sp k n).
Proof.
  induction n as [|n IH]; intros k; cbn [reads]; [apply regless_ret|].
  apply regless_bind; [apply read_mem_regless|intros v].
  apply regless_bind; [apply IH|intros; apply regless_ret].
Qed.

Lemma atomic_pushes w l s :
  wf s -> let spw := if nz (stack_size s) then 32 else 16 in
  atomically (ref_pushes w l) s =
    (writes w spw (sp_of spw (gen_reg s)) 0 l;;
     modify (with_gen_reg (put_sp spw (gen_reg s)
       (sp_of spw (gen_reg s) - w / 8 * Z.of_nat (length l))))) s.
Proof.
  intros [Hg _] spw. unfold atomically.
  pose proof (sp_width_is_ok s) as Hs. fold spw in Hs.
  pose proof (pushes_writes w spw (sp_of spw (gen_reg s)) l 0 s (gen_reg s) Hs eq_refl Hg
    ltac:(rewrite Z.sub_0_r; unfold sp_of; rewrite wrap_wrap; [done|destruct Hs; lia])) as H.
  pose proof (regless_gen_reg _ s (writes_regless w spw (sp_of spw (gen_reg s)) l 0)) as Hr. rewrite with_gen_reg_same in H. unfold mbind, M_bind, modify.
  destruct (writes _ _ _ _ _ s) as [[] s1|v e s1|].
  - by rewrite H.
  - destruct H as [g' ->]. rewrite with_gen_reg_twice, <-Hr, with_gen_reg_same. done.
  - by rewrite H.
Qed.
Lemma atomic_pops w n s :
  wf s -> let spw := if nz (stack_size s) then 32 else 16 in
  atomically (ref_pops w n) s =
    (l ← reads w spw (sp_of spw (gen_reg s)) 0 n;
     modify (with_gen_reg (put_sp spw (gen_reg s) (sp_of spw (gen_reg s) + w / 8 * Z.of_nat n)));;
     mret l) s.
Proof.
  intros [Hg _] spw. unfold atomically.
  pose proof (sp_width_is_ok s) as Hs. fold spw in Hs.
  pose proof (pops_reads w spw (sp_of spw (gen_reg s)) n 0 s (gen_reg s) Hs eq_refl Hg
    ltac:(rewrite Z.add_0_r; unfold sp_of; rewrite wrap_wrap; [done|destruct Hs; lia])) as H.
  pose proof (regless_gen_reg _ s (reads_regless w spw (sp_of spw (gen_reg s)) n 0)) as Hr. rewrite with_gen_reg_same in H. unfold mbind, M_bind, modify.
  destruct (reads _ _ _ _ _ s) as [l s1|v e s1|].
  - destruct H as [-> _]. done.
  - destruct H as [g' ->]. rewrite with_gen_reg_twice, <-Hr, with_gen_reg_same. done.
  - by rewrite H.
Qed.

(** The handlers read the registers between the accesses, which leave them
    alone. *)
Lemma bind_reg16 {A} n (k : Z -> Mach A) s :
  (BX_READ_16BIT_REG n ≫= k) s = k (u16 (nth (Z.to_nat n) (gen_reg s) 0)) s.
Proof. done. Qed.
Lemma bind_reg32 {A} n (k : Z -> Mach A) s :
  (BX_READ_32BIT_REG n ≫= k) s = k (u32 (nth (Z.to_nat n) (gen_reg s) 0)) s.
Proof. done. Qed.
Lemma access_step {A B C} (m m' : Mach A) (k : A -> Mach B) (j : A -> Mach C) (k' : C -> Mach B) s :
  m = m' -> regless m -> (forall a s1, gen_reg s1 = gen_reg s -> k a s1 = (j a ≫= k') s1) ->
  (m ≫= k) s = ((m' ≫= j) ≫= k') s.
Proof.
  intros <- Hm Hk. apply (regless_gen_reg _ s) in Hm. unfold mbind, M_bind in *.
  destruct (m s); [by apply Hk|done|done].
Qed.

Ltac reg_reads :=
  cbv beta delta [AX CX DX BX SP BP SI DI EAX ECX EDX EBX ESP EBP ESI EDI];
  repeat match goal with
  | |- (mbind ?k (BX_READ_16BIT_REG ?n)) ?s = _ => rewrite (bind_reg16 n k s); cbv beta
  | |- (mbind ?k (BX_READ_32BIT_REG ?n)) ?s = _ => rewrite (bind_reg32 n k s); cbv beta
  | |- (mbind ?k (gets ?f)) ?s = _ => rewrite (bind_gets f k s); cbv beta
  | H : gen_reg ?s = _ |- context [gen_reg ?s] => rewrite H
  end.
Ltac pusha_step :=
  reg_reads; cbn [writes];
  eapply access_step; [reflexivity|apply write_mem_regless|intros [] ? ?].

Definition reg_values (w : Z) (s : machine) : list Z :=
  (fun n => wrap w (reg n s)) <$> [0; 1; 2; 3; 4; 5; 6; 7].
Lemma ref_pusha_eq w s :
  wf s -> let spw := if nz (stack_size s) then 32 else 16 in
  ref_pusha w s =
    (writes w spw (sp_of spw (gen_reg s)) 0 (reg_values w s);;
     modify (with_gen_reg (put_sp spw (gen_reg s) (sp_of spw (gen_reg s) - w / 8 * 8)))) s.
Proof.
  intros Hw spw. pose proof (atomic_pushes w (reg_values w s) s Hw) as H. cbv zeta in H.
  change (Z.of_nat (length (reg_values w s))) with 8 in H. fold spw in H. rewrite <-H.
  unfold ref_pusha.
  match goal with |- (mbind ?k (gets ?f)) ?s = _ => rewrite (bind_gets f k s) end. reflexivity.
Qed.

Ltac pusha_tac :=
  intros Hw; rewrite ref_pusha_eq by done; cbv zeta;
  unfold PUSHAD16, PUSHAD32, SS_d_b, reg_values;
  change write_virtual_word_32 with (write_mem 16); change write_virtual_dword_32 with (write_mem 32);
  reg_reads; unfold stack_size; cbn [fmap list_fmap];
  destruct (nz _); repeat pusha_step;
  unfold set_ESP, set_SP; reg_reads;
  (etransitivity; [first [apply (write_sp 32); by right | apply (write_sp 16); by left]|]);
  cbn [writes];
  repeat match goal with H : gen_reg ?s = _ |- context [gen_reg ?s] => rewrite H end; reflexivity.

Lemma PUSHAD16_eq i s : wf s -> PUSHAD16 i s = ref_pusha 16 s.
Proof. pusha_tac. Qed.
Lemma PUSHAD32_eq i s : wf s -> PUSHAD32 i s = ref_pusha 32 s.
Proof. pusha_tac. Qed.

Lemma ref_popa_eq w s :
  wf s -> let spw := if nz (stack_size s) then 32 else 16 in
  ref_popa w s =
    (reads w spw (sp_of spw (gen_reg s)) 0 8 ≫= fun l =>
     modify (with_gen_reg (put_sp spw (gen_reg s) (sp_of spw (gen_reg s) + w / 8 * 8)));;
     match l with
     | [di; si; bp; _; bx; dx; cx; ax] =>
         write_reg w 7 di;; write_reg w 6 si;; write_reg w 5 bp;; write_reg w 3 bx;;
         write_reg w 2 dx;; write_reg w 1 cx;; write_reg w 0 ax
     | _ => crash
     end) s.
Proof.
  intros Hw spw. pose proof (atomic_pops w 8 s Hw) as H. cbv zeta in H. fold spw in H.
  change (Z.of_nat 8) with 8 in H. unfold ref_popa. unfold mbind at 1, M_bind at 1. rewrite H.
  unfold mbind, M_bind, modify, mret, M_ret. by destruct (reads _ _ _ _ _ s).
Qed.
Lemma reads_step {B} (m : Mach Z) (k : Z -> Mach B) w spw sp k0 n (K : list Z -> Mach B) s :
  m = read_mem w BX_SEG_REG_SS (wrap spw (sp + k0)) ->
  (forall v s1, gen_reg s1 = gen_reg s ->
     k v s1 = (reads w spw sp (k0 + w / 8) n ≫= fun l => K (v :: l)) s1) ->
  (m ≫= k) s = (reads w spw sp k0 (S n) ≫= K) s.
Proof.
  intros -> Hk. cbn [reads].
  pose proof (regless_gen_reg _ s (read_mem_regless w BX_SEG_REG_SS (wrap spw (sp + k0)))) as Hm.
  unfold mbind, M_bind in *. destruct (read_mem _ _ _ s) as [v s1|? ? ?|]; [|done|done].
  rewrite Hk by done. by destruct (reads _ _ _ _ _ s1).
Qed.
Lemma reads_end {B} w spw sp k f (K : list Z -> Mach B) s :
  (reads w spw sp k 0 ≫= fun l => modify f;; K l) s = K [] (f s).
Proof. done. Qed.

Ltac popa_tac :=
  intros Hw; rewrite ref_popa_eq by done; cbv zeta;
  unfold POPAD16, POPAD32, SS_d_b; cbv zeta;
  change read_virtual_word_32 with (read_mem 16); change read_virtual_dword_32 with (read_mem 32);
  reg_reads; unfold stack_size;
  destruct (nz _); reg_reads;
  do 8 (apply reads_step; [reflexivity|intros ? ? ?]);
  unfold set_ESP, set_SP; reg_reads;
  (etransitivity; [first [apply bind_Ret, (write_sp 32); by right | apply bind_Ret, (write_sp 16); by left]|]);
  repeat match goal with H : gen_reg ?s = _ |- context [gen_reg ?s] => rewrite H end;
  rewrite (reads_end _ _ _ _ _ (fun l => match l with [] => _ | _ => _ end)); unfold sp_of;
  change (16 / 8 * 8) with 16; change (32 / 8 * 8) with 32; reflexivity.

Lemma POPAD16_eq i s : wf s -> POPAD16 i s = ref_popa 16 s.
Proof. popa_tac. Qed.
Lemma POPAD32_eq i s : wf s -> POPAD32 i s = ref_popa 32 s.
Proof. popa_tac. Qed.

(** C32: PUSHA stores AX, CX, DX, BX, the SP from before, BP, SI and DI exactly
    as eight successive PUSHes would, for either operand size and either stack
    size, with the stack pointer wrapping as the pushes make it wrap; and POPA
    loads the registers as eight successive POPs would, dropping the value for
    SP.  When one of the accesses faults, the fault is that of the push or pop,
    what was stored before stays stored, and no register has changed. *)
Theorem pusha_popa_correct i s :
  wf s ->
  PUSHAD16 i s = ref_pusha 16 s /\ PUSHAD32 i s = ref_pusha 32 s /\
  POPAD16 i s = ref_popa 16 s /\ POPAD32 i s = ref_popa 32 s.
Proof. intros Hw. auto using PUSHAD16_eq, PUSHAD32_eq, POPAD16_eq, POPAD32_eq. Qed.

Lemma set_reg_wf n v s : in32 v -> wf s -> wf (set_reg n v s).
Proof.
  intros Hv [[Hl Hf] H]. split; [|exact H]. unfold set_reg. msimpl.
  split; [by rewrite length_insert|by apply Forall_insert].
Qed.

(** A 512-byte stack with ESP = 12: the fourth 32-bit push faults. *)
Definition small_stack : machine :=
  let ss := sreg BX_SEG_REG_SS flat_machine in
  set_sreg BX_SEG_REG_SS (with_cache (with_seg_limit_scaled 0x1ff (cache ss)) ss)
    (set_reg 0 0x11 (set_reg 4 12 flat_machine)).
Lemma small_stack_wf : wf small_stack.
Proof.
  apply set_sreg_wf.
  - apply (set_reg_wf 0 0x11), (set_reg_wf 4 12); [done|done|apply flat_machine_wf].
  - unfold cache_ok, in32. cbn. repeat split; (lia || done).
Qed.
Lemma pusha_popa_correct_witness :
  let i := demo_instruction 0x60 0 0 0 in
  PUSHAD32 i small_stack = ref_pusha 32 small_stack /\
  match PUSHAD32 i small_stack with
  | Fault v e s' => v = BX_SS_EXCEPTION /\ gen_reg s' = gen_reg small_stack /\
                    mem_byte (mem_vector (memory s')) 8 = 0x11
  | _ => False
  end.
Proof.
  split; [|vm_compute; repeat split].
  apply (pusha_popa_correct (demo_instruction 0x60 0 0 0) small_stack). exact small_stack_wf.
Defined.

(** ** PUSH and POP *)

Lemma write_read_mem w s n o v s' :
  mem_width w -> wf s -> 0 <= n < 6 -> in32 o -> Z.testbit (cr0 s) 31 = false ->
  write_mem w n o v s = Ret tt s' -> exists s'', read_mem w n o s' = Ret (wrap w v) s''.
Proof.
  intros [-> | ->] Hw Hn Ho Hpg H; cbn [write_mem read_mem] in *.
  - apply (write_read_virtual s n o 2 v s'); try done. right. by left.
  - apply (write_read_virtual s n o 4 v s'); try done. right. right. by left.
Qed.

Lemma ref_push_pop w v s s' :
  mem_width w -> wf s -> Z.testbit (cr0 s) 31 = false -> ref_push w v s = Ret tt s' ->
  exists s'', ref_pop w s' = Ret (wrap w v) s'' /\ gen_reg s'' = gen_reg s.
Proof.
  intros Hmw Hw Hpg. pose proof (sp_width_is_ok s) as Hs. destruct (Hw) as [Hg _].
  remember (if nz (stack_size s) then 32 else 16) as spw eqn:Hspw.
  rewrite <-(with_gen_reg_same s) at 1. rewrite (ref_push_regs w v spw (gen_reg s) s) by done.
  set (o := wrap spw (sp_of spw (gen_reg s) - w / 8)).
  assert (0 <= spw <= 32) as Hr by (destruct Hs; lia).
  assert (in32 o) as Ho by (by apply wrap_range_le).
  pose proof (write_mem_sized (stack_size s) w BX_SEG_REG_SS o v s eq_refl) as Hx.
  destruct (write_mem w BX_SEG_REG_SS o v s) as [[] s1|? ? ?|] eqn:E; [|done|done].
  intros [_ <-]%Ret_inj.
  apply write_read_mem in E as [s2 E]; try done.
  rewrite (ref_pop_regs w spw) by (by rewrite Hx). rewrite sp_of_put by (done || apply Hg).
  fold o. rewrite E. eexists. split; [reflexivity|]. msimpl.
  rewrite put_sp_put by (done || apply Hg). unfold o.
  rewrite <-(put_sp_wrap spw), wrap_add_l, Z.sub_add, put_sp_wrap by (done || lia). by apply put_sp_same.
Qed.

(** Without paging, on a well-formed machine, a value pushed is the value
    the next POP of the same size returns, and the two together leave every
    general register as it was, the stack pointer included: at both operand
    sizes, on a 16-bit and on a 32-bit stack, also where the stack pointer
    wraps. *)
Theorem push_pop_roundtrip v s s' :
  wf s -> Z.testbit (cr0 s) 31 = false ->
  (push_16 v s = Ret tt s' -> exists s'', pop_16 s' = Ret (u16 v) s'' /\ gen_reg s'' = gen_reg s) /\
  (push_32 v s = Ret tt s' -> exists s'', pop_32 s' = Ret (u32 v) s'' /\ gen_reg s'' = gen_reg s).
Proof.
  intros Hw Hpg. rewrite push_16_eq, push_32_eq, pop_16_eq, pop_32_eq.
  split; intros H; eapply ref_push_pop; try done; [by left|by right].
Qed.

(** SP = 1 on a 16-bit stack. *)
Definition wrapping_stack : machine :=
  let ss := sreg BX_SEG_REG_SS flat_machine in
  set_sreg BX_SEG_REG_SS (with_cache (with_seg_d_b 0 (cache ss)) ss) (set_reg 4 0x70001 flat_machine).
Lemma wrapping_stack_wf : wf wrapping_stack.
Proof.
  apply set_sreg_wf.
  - apply (set_reg_wf 4 0x70001); [done|apply flat_machine_wf].
  - unfold cache_ok, in32. cbn. repeat split; (lia || done).
Qed.
Lemma push_pop_roundtrip_witness :
  exists s' s'', push_32 0x12345678 wrapping_stack = Ret tt s' /\ reg 4 s' = 0x7fffd /\
    pop_32 s' = Ret 0x12345678 s'' /\ gen_reg s'' = gen_reg wrapping_stack.
Proof.
  destruct (push_32 0x12345678 wrapping_stack) as [[] s'|? ? ?|] eqn:E; [|vm_compute in E; discriminate E..].
  exists s'. destruct (push_pop_roundtrip 0x12345678 wrapping_stack s') as [_ H].
  - exact wrapping_stack_wf.
  - reflexivity.
  - destruct (H E) as (s'' & Hp & Hg). exists s''. split; [reflexivity|]. split; [|by split].
    vm_compute in E. injection E as <-. reflexivity.
Defined.

(** ** Faults with a speculative stack pointer

    What survives of the architectural state when only the stack pointer moves,
    with the copy that [exception()] restores it from. *)
Definition but_sp (s : machine) : Z * Z * list Z * Z * list bx_selector_t :=
  (speculative_rsp s, prev_rsp s, <[4%nat := 0]> (take 9 (gen_reg s)), eflags (norm s), selector <$> sregs s).

Definition moves_sp {A} (m : Mach A) : Prop :=
  forall s, match m s with Ret _ s' | Fault _ _ s' => but_sp s' = but_sp s | Crash => True end.
Definition sp_precise {A} (m : Mach A) : Prop :=
  forall s v e s', m s = Fault v e s' -> but_sp s' = but_sp s.

Create HintDb moves_sp discriminated.
#[export] Hint Constants Opaque : moves_sp.

Lemma control_rsp s s' :
  control s' = control s -> speculative_rsp s' = speculative_rsp s /\ prev_rsp s' = prev_rsp s.
Proof. unfold control. rewrite !pair_equal_spec. tauto. Qed.
Lemma arch_but_sp s s' : arch s' = arch s -> control s' = control s -> but_sp s' = but_sp s.
Proof.
  intros Ha [H1 H2]%control_rsp. unfold arch in Ha. rewrite !pair_equal_spec in Ha.
  destruct Ha as [[Hg He] Hs]. unfold but_sp. by rewrite H1, H2, Hg, He, Hs.
Qed.
Lemma moves_sp_quiet {A} (m : Mach A) : quiet m -> steady m -> moves_sp m.
Proof.
  intros Hq Hs s. specialize (Hq s). specialize (Hs s).
  destruct (m s); [by apply arch_but_sp|by apply arch_but_sp|done].
Qed.
Lemma moves_sp_bind {A B} (m : Mach A) (k : A -> Mach B) :
  moves_sp m -> (forall a, moves_sp (k a)) -> moves_sp (m ≫= k).
Proof.
  intros Hm Hk s. specialize (Hm s). unfold mbind, M_bind.
  destruct (m s) as [a s'|v e s'|]; [|done|done]. specialize (Hk a s').
  destruct (k a s'); [congruence|congruence|done].
Qed.
Lemma moves_sp_ret {A} (a : A) : moves_sp (mret a).
Proof. by intros s. Qed.
Lemma moves_sp_when b m : moves_sp m -> moves_sp (when b m).
Proof. intros. by destruct b. Qed.
Lemma set_reg_4_but_sp v s : but_sp (set_reg 4 v s) = but_sp s.
Proof.
  unfold but_sp, set_reg. msimpl. rewrite take_insert_lt by lia. by rewrite list_insert_insert_eq.
Qed.
Lemma set_ESP_moves v : moves_sp (set_ESP v).
Proof. intros s. apply set_reg_4_but_sp. Qed.
Lemma set_SP_moves v : moves_sp (set_SP v).
Proof. intros s. apply set_reg_4_but_sp. Qed.
#[export] Hint Resolve set_ESP_moves set_SP_moves : moves_sp.

Ltac moves_sp_step :=
  match goal with
  | |- forall _, _ => intros ?
  | |- moves_sp (mbind _ _) => apply moves_sp_bind
  | |- moves_sp (let _ := _ in _) => cbv zeta
  | |- moves_sp (match ?x with _ => _ end) => destruct x
  | |- moves_sp (when _ _) => apply moves_sp_when
  | |- moves_sp _ => solve [eauto with moves_sp | apply moves_sp_quiet; [quiet_tac|steady_tac]]
  end.
Ltac moves_sp_tac := repeat moves_sp_step.

Lemma sp_precise_moves {A} (m : Mach A) : moves_sp m -> sp_precise m.
Proof. intros H s v e s' E. specialize (H s). by rewrite E in H. Qed.
Lemma sp_precise_nofault {A} (m : Mach A) : nofault m -> sp_precise m.
Proof. intros H s v e s' E. specialize (H s). by rewrite E in H. Qed.
Lemma sp_precise_bind {A B} (m : Mach A) (k : A -> Mach B) :
  moves_sp m -> (forall a, sp_precise (k a)) -> sp_precise (m ≫= k).
Proof.
  intros Hm Hk s v e s' E. specialize (Hm s). unfold mbind, M_bind in E.
  destruct (m s) as [a s1|v1 e1 s1|].
  - rewrite <-Hm. by eapply Hk.
  - by apply Fault_inj in E as (_ & _ & <-).
  - done.
Qed.
Lemma sp_precise_tail {A B} (m : Mach A) (k : A -> Mach B) :
  sp_precise m -> (forall a, nofault (k a)) -> sp_precise (m ≫= k).
Proof.
  intros Hm Hk s v e s' E. unfold mbind, M_bind in E. destruct (m s) as [a s1|v1 e1 s1|] eqn:E1.
  - specialize (Hk a s1). by rewrite E in Hk.
  - apply Fault_inj in E as (_ & _ & <-). by eapply Hm.
  - done.
Qed.
Ltac sp_precise_step :=
  match goal with
  | |- forall _, _ => intros ?
  | |- sp_precise (match ?x with _ => _ end) => destruct x
  | |- sp_precise (mbind _ _) =>
      first [ apply sp_precise_bind; [solve [moves_sp_tac]|intros ?]
            | apply sp_precise_tail; [|solve [nofault_tac]] ]
  | |- sp_precise _ => first [ apply sp_precise_moves; solve [moves_sp_tac]
                             | apply sp_precise_nofault; solve [nofault_tac] ]
  end.
Ltac sp_precise_tac := repeat sp_precise_step.

(** An exception raised by [m] finds, once it has put ESP back, the
    architectural state that [m] began with. *)
Definition restartable {A} (m : Mach A) : Prop :=
  forall s v e s', wf s -> speculative_rsp s = 0 -> m s = Fault v e s' ->
    exists s'', restore_rsp s' = Ret tt s'' /\ arch s'' = arch s.

Lemma precise_restartable {A} (m : Mach A) : precise m -> steady m -> restartable m.
Proof.
  intros Hp Hs s v e s' _ H0 E. exists s'. split; [|by eapply Hp].
  specialize (Hs s). rewrite E in Hs. apply control_rsp in Hs as [Hs _].
  unfold restore_rsp. rewrite (bind_gets speculative_rsp), Hs, H0. done.
Qed.
Lemma speculative_restartable (m : Mach unit) : sp_precise m -> restartable (RSP_SPECULATIVE;; m).
Proof.
  intros Hm s v e s' [[Hl Hf] _] _ E.
  set (s1 := with_prev_rsp (u32 (reg 4 s)) (with_speculative_rsp 1 s)).
  change (m s1 = Fault v e s') in E. apply Hm in E. unfold but_sp in E. rewrite !pair_equal_spec in E.
  destruct E as [[[[H1 H2] Hg] He] Hs]. unfold restore_rsp. rewrite (bind_gets speculative_rsp), H1.
  change (nz (speculative_rsp s1)) with true. cbn [when].
  rewrite (bind_gets prev_rsp), H2. eexists. split; [reflexivity|].
  unfold arch, set_reg. msimpl. change (eflags (norm (set_reg 4 _ s'))) with (eflags (norm s')).
  rewrite !pair_equal_spec. split; [split|done]; [|done]. rewrite take_insert_lt by (cbn; lia).
  apply (f_equal (insert 4%nat (reg 4 s))) in Hg. rewrite !list_insert_insert_eq in Hg.
  pose proof (nth_in32 4 (gen_reg s) Hf) as Hr. unfold put_erx, s1. msimpl.
  rewrite wrap_wrap, (wrap_small 32 (reg 4 s)) by (lia || exact Hr).
  change (Z.to_nat 4) with 4%nat. rewrite Hg. apply list_insert_id. rewrite lookup_take_lt by lia.
  destruct (lookup_lt_is_Some_2 (gen_reg s) 4%nat ltac:(lia)) as [x Hx].
  unfold reg. change (Z.to_nat 4) with 4%nat. by rewrite (nth_lookup_Some _ _ _ _ Hx).
Qed.

(** ** The handlers *)

(** Handlers that do not bracket themselves with [RSP_SPECULATIVE]. *)
Definition plain_stack_handlers : list handler :=
  [PUSH_RX; PUSH_ERX; POP_RX; POP_ERX;
   PUSH16_CS; PUSH16_DS; PUSH16_ES; PUSH16_FS; PUSH16_GS; PUSH16_SS;
   PUSH32_CS; PUSH32_DS; PUSH32_ES; PUSH32_FS; PUSH32_GS; PUSH32_SS;
   POP16_DS; POP16_ES; POP16_FS; POP16_GS; POP16_SS;
   POP32_DS; POP32_ES; POP32_FS; POP32_GS; POP32_SS;
   PUSH_Iw; PUSH_Id; PUSH_EwM; PUSH_EdM; PUSHAD16; PUSHAD32; POPAD16; POPAD32; LEAVE16; LEAVE32].
Definition speculative_handlers : list handler := [POP_EwM; POP_EdM; ENTER16_IwIb; ENTER32_IwIb].
Definition stack_handlers : list handler := plain_stack_handlers ++ speculative_handlers.

Ltac stack_unfold :=
  cbv beta delta [PUSH_RX PUSH_ERX POP_RX POP_ERX
    PUSH16_CS PUSH16_DS PUSH16_ES PUSH16_FS PUSH16_GS PUSH16_SS
    PUSH32_CS PUSH32_DS PUSH32_ES PUSH32_FS PUSH32_GS PUSH32_SS
    POP16_DS POP16_ES POP16_FS POP16_GS POP16_SS POP32_DS POP32_ES POP32_FS POP32_GS POP32_SS
    PUSH_Iw PUSH_Id PUSH_EwM PUSH_EdM PUSHAD16 PUSHAD32 POPAD16 POPAD32 LEAVE16 LEAVE32
    POP_EwM POP_EdM ENTER16_IwIb ENTER32_IwIb
    inhibit_by_MOVSS SS_d_b RSP_COMMIT];
  cbv zeta; unfold_widths.

Lemma push_16_refines v : refines (push_16 v) (push_16 v).
Proof. unfold push_16, SS_d_b. unfold_widths. refines_tac. Qed.
Lemma push_32_refines v : refines (push_32 v) (push_32 v).
Proof. unfold push_32, SS_d_b. unfold_widths. refines_tac. Qed.
Lemma pop_16_refines : refines pop_16 pop_16.
Proof. unfold pop_16, SS_d_b. unfold_widths. refines_tac. Qed.
Lemma pop_32_refines : refines pop_32 pop_32.
Proof. unfold pop_32, SS_d_b. unfold_widths. refines_tac. Qed.
Lemma RSP_SPECULATIVE_refines : refines RSP_SPECULATIVE RSP_SPECULATIVE.
Proof. unfold RSP_SPECULATIVE. refines_tac. Qed.
#[export] Hint Resolve push_16_refines push_32_refines pop_16_refines pop_32_refines
  RSP_SPECULATIVE_refines : refines.
Lemma ENTER16_loop_S c l p :
  ENTER16_loop c (S (S l)) p =
    (v ← read_virtual_word_32 BX_SEG_REG_SS (c (p - 2)); push_16 v;;
     ENTER16_loop c (S l) (c (p - 2))).
Proof. done. Qed.
Lemma ENTER16_loop_refines c l : forall p, refines (ENTER16_loop c l p) (ENTER16_loop c l p).
Proof.
  induction l as [|[|l] IH]; intros p; [apply refines_ret..|].
  rewrite ENTER16_loop_S. unfold_widths. refines_tac.
Qed.
Lemma ENTER32_loop_S c l p :
  ENTER32_loop c (S (S l)) p =
    (v ← read_virtual_dword_32 BX_SEG_REG_SS (c (p - 4)); push_32 v;;
     ENTER32_loop c (S l) (c (p - 4))).
Proof. done. Qed.
Lemma ENTER32_loop_refines c l : forall p, refines (ENTER32_loop c l p) (ENTER32_loop c l p).
Proof.
  induction l as [|[|l] IH]; intros p; [apply refines_ret..|].
  rewrite ENTER32_loop_S. unfold_widths. refines_tac.
Qed.
#[export] Hint Resolve ENTER16_loop_refines ENTER32_loop_refines : refines.
Lemma stack_refines : Forall (fun h : handler => forall i, refines (h i) (h i)) stack_handlers.
Proof. table_tac ltac:(intros i; stack_unfold; refines_tac). Qed.

(** *** The invariants *)

Lemma push_16_wf v : preserves wf (push_16 v).
Proof. unfold push_16, SS_d_b. unfold_widths. preserves_tac. Qed.
Lemma push_32_wf v : preserves wf (push_32 v).
Proof. unfold push_32, SS_d_b. unfold_widths. preserves_tac. Qed.
Lemma pop_16_wf : preserves wf pop_16.
Proof. unfold pop_16, SS_d_b. unfold_widths. preserves_tac. Qed.
Lemma pop_32_wf : preserves wf pop_32.
Proof. unfold pop_32, SS_d_b. unfold_widths. preserves_tac. Qed.
Lemma RSP_SPECULATIVE_wf : preserves wf RSP_SPECULATIVE.
Proof. unfold RSP_SPECULATIVE. repeat first [preserves_step | wf_modify]. Qed.
#[export] Hint Resolve push_16_wf push_32_wf pop_16_wf pop_32_wf RSP_SPECULATIVE_wf : preserves.
Lemma ENTER16_loop_wf c l : forall p, preserves wf (ENTER16_loop c l p).
Proof.
  induction l as [|[|l] IH]; intros p; [apply preserves_ret..|].
  rewrite ENTER16_loop_S. unfold_widths. preserves_tac.
Qed.
Lemma ENTER32_loop_wf c l : forall p, preserves wf (ENTER32_loop c l p).
Proof.
  induction l as [|[|l] IH]; intros p; [apply preserves_ret..|].
  rewrite ENTER32_loop_S. unfold_widths. preserves_tac.
Qed.
#[export] Hint Resolve ENTER16_loop_wf ENTER32_loop_wf : preserves.
Lemma stack_wf : Forall (fun h : handler => forall i, preserves wf (h i)) stack_handlers.
Proof. table_tac ltac:(intros i; stack_unfold; repeat first [preserves_step | wf_modify]). Qed.

(** Every plain handler is [precise] and [steady]. *)
Lemma push_16_steady v : steady (push_16 v).
Proof. unfold push_16, SS_d_b. unfold_widths. steady_tac. Qed.
Lemma push_32_steady v : steady (push_32 v).
Proof. unfold push_32, SS_d_b. unfold_widths. steady_tac. Qed.
Lemma pop_16_steady : steady pop_16.
Proof. unfold pop_16, SS_d_b. unfold_widths. steady_tac. Qed.
Lemma pop_32_steady : steady pop_32.
Proof. unfold pop_32, SS_d_b. unfold_widths. steady_tac. Qed.
Lemma push_16_precise v : precise (push_16 v).
Proof. unfold push_16, SS_d_b. unfold_widths. precise_tac. Qed.
Lemma push_32_precise v : precise (push_32 v).
Proof. unfold push_32, SS_d_b. unfold_widths. precise_tac. Qed.
Lemma pop_16_precise : precise pop_16.
Proof. unfold pop_16, SS_d_b. unfold_widths. precise_tac. Qed.
Lemma pop_32_precise : precise pop_32.
Proof. unfold pop_32, SS_d_b. unfold_widths. precise_tac. Qed.
#[export] Hint Resolve push_16_steady push_32_steady pop_16_steady pop_32_steady : steady.
#[export] Hint Resolve push_16_precise push_32_precise pop_16_precise pop_32_precise : precise.
Lemma plain_stack_precise : Forall (fun h : handler => forall i, precise (h i)) plain_stack_handlers.
Proof. table_tac ltac:(intros i; stack_unfold; precise_tac). Qed.
Lemma plain_stack_steady : Forall (fun h : handler => forall i, steady (h i)) plain_stack_handlers.
Proof.
  table_tac ltac:(intros i; stack_unfold;
    repeat match goal with
    | |- steady (load_seg_reg _ _) => apply load_seg_reg_steady; done
    | _ => steady_step
    end).
Qed.

(** The others move nothing but the stack pointer before their last access. *)
Lemma push_16_moves v : moves_sp (push_16 v).
Proof. unfold push_16, SS_d_b. unfold_widths. moves_sp_tac. Qed.
Lemma push_32_moves v : moves_sp (push_32 v).
Proof. unfold push_32, SS_d_b. unfold_widths. moves_sp_tac. Qed.
Lemma pop_16_moves : moves_sp pop_16.
Proof. unfold pop_16, SS_d_b. unfold_widths. moves_sp_tac. Qed.
Lemma pop_32_moves : moves_sp pop_32.
Proof. unfold pop_32, SS_d_b. unfold_widths. moves_sp_tac. Qed.
#[export] Hint Resolve push_16_moves push_32_moves pop_16_moves pop_32_moves : moves_sp.
Lemma ENTER16_loop_moves c l : forall p, moves_sp (ENTER16_loop c l p).
Proof.
  induction l as [|[|l] IH]; intros p; [apply moves_sp_ret..|].
  rewrite ENTER16_loop_S. unfold_widths. moves_sp_tac.
Qed.
Lemma ENTER32_loop_moves c l : forall p, moves_sp (ENTER32_loop c l p).
Proof.
  induction l as [|[|l] IH]; intros p; [apply moves_sp_ret..|].
  rewrite ENTER32_loop_S. unfold_widths. moves_sp_tac.
Qed.
#[export] Hint Resolve ENTER16_loop_moves ENTER32_loop_moves : moves_sp.
Lemma stack_restartable : Forall (fun h : handler => forall i, restartable (h i)) stack_handlers.
Proof.
  apply Forall_app_2.
  - pose proof plain_stack_precise as Hp. pose proof plain_stack_steady as Hs.
    rewrite Forall_forall in *. intros h Hh i. apply precise_restartable; auto.
  - table_tac ltac:(intros i; stack_unfold; apply speculative_restartable; sp_precise_tac).
Qed.

(** *** Coherence *)


#[export] Hint Extern 2 (preserves coherent _) => apply steady_coherent; solve [steady_tac] : preserves.
Lemma ENTER16_loop_steady c l : forall p, steady (ENTER16_loop c l p).
Proof.
  induction l as [|[|l] IH]; intros p; [apply steady_ret..|].
  rewrite ENTER16_loop_S. unfold_widths. steady_tac.
Qed.
Lemma ENTER32_loop_steady c l : forall p, steady (ENTER32_loop c l p).
Proof.
  induction l as [|[|l] IH]; intros p; [apply steady_ret..|].
  rewrite ENTER32_loop_S. unfold_widths. steady_tac.
Qed.
#[export] Hint Resolve ENTER16_loop_steady ENTER32_loop_steady : steady.
Lemma stack_coherent : Forall (fun h : handler => forall i, preserves coherent (h i)) stack_handlers.
Proof.
  apply Forall_app_2.
  - eapply Forall_impl; [apply plain_stack_steady|]. intros h Hh i. by apply steady_coherent.
  - table_tac ltac:(intros i; stack_unfold; unfold RSP_SPECULATIVE;
      repeat match goal with
      | |- preserves _ (modify _) => apply preserves_modify; intros ? ?; assumption
      | _ => preserves_step
      end).
Qed.

(** Outside a faulting instruction the stack pointer is not speculative. *)
Lemma steady_commits {A} (m : Mach A) s :
  steady m -> speculative_rsp s = 0 -> match m s with Ret _ s' => speculative_rsp s' = 0 | _ => True end.
Proof.
  intros Hm H0. specialize (Hm s). destruct (m s); [|done|done].
  apply control_rsp in Hm as [-> _]. done.
Qed.
Definition commits {A} (m : Mach A) : Prop :=
  forall s, match m s with Ret _ s' => speculative_rsp s' = 0 | _ => True end.
Lemma commits_bind {A B} (m : Mach A) (k : A -> Mach B) : (forall a, commits (k a)) -> commits (m ≫= k).
Proof. intros Hk s. unfold mbind, M_bind. destruct (m s); [apply Hk|done|done]. Qed.
Lemma RSP_COMMIT_commits : commits RSP_COMMIT.
Proof. by intros s. Qed.
Lemma stack_commits :
  Forall (fun h : handler => forall i s, speculative_rsp s = 0 ->
    match h i s with Ret _ s' => speculative_rsp s' = 0 | _ => True end) stack_handlers.
Proof.
  apply Forall_app_2.
  - eapply Forall_impl; [apply plain_stack_steady|]. intros h Hh i s. by apply steady_commits.
  - assert (Forall (fun h : handler => forall i, commits (h i)) speculative_handlers) as H.
    { table_tac ltac:(intros i; match goal with |- commits (?h _) => unfold h end; cbv zeta;
        repeat (apply commits_bind; intros ?); apply RSP_COMMIT_commits). }
    eapply Forall_impl; [exact H|]. intros h Hh i s _. apply Hh.
Qed.
