(* ===== verification/FlagCtrl.v ===== *)
(** * FlagCtrl: the instructions that read and write EFLAGS

    cpu/flag_ctrl.cc: SAHF, LAHF, the single-flag instructions, PUSHF and POPF.
    Which bits POPF may change, and whether CLI, STI, PUSHF and POPF are allowed
    at all, depends on the mode, on CPL, on IOPL and on CR4.VME and CR4.PVI. *)
From stdpp Require Import base numbers list gmap.
From Stdlib Require Import ZArith Lia.
From S2P Require Import Prelude Machine LazyFlags Memory Paging Access Regs Precise Reference Mode Segment SegLoad Stack.

Local Open Scope Z_scope.

(** cpu/crregs.h *)
Definition cr4_get_VME (s : machine) : Z := cr_bit 0 (cr4 s).
Definition cr4_get_PVI (s : machine) : Z := cr_bit 1 (cr4 s).

(** ** cpu/flag_ctrl.cc *)

Definition SAHF (i : bxInstruction_c) : Mach unit :=
  ah ← AH; set_flag SF (Z.shiftr (Z.land ah 0x80) 7);;
  ah ← AH; set_flag ZF (Z.shiftr (Z.land ah 0x40) 6);;
  ah ← AH; set_flag AF (Z.shiftr (Z.land ah 0x10) 4);;
  ah ← AH; set_flag CF (Z.land ah 0x01);;
  ah ← AH; set_flag PF (Z.shiftr (Z.land ah 0x04) 2).

Definition LAHF (i : bxInstruction_c) : Mach unit :=
  fl ← read_eflags; set_AH (Z.land fl 0xFF).

Definition CLC (i : bxInstruction_c) : Mach unit := clear_flag CF.
Definition STC (i : bxInstruction_c) : Mach unit := assert_flag CF.

Definition CLI (i : bxInstruction_c) : Mach unit :=
  IOPL ← gets get_IOPL;
  prot ← gets protected_mode;
  if (prot : bool) then
    pvi ← gets cr4_get_PVI;
    cpl ← gets CPL;
    if nz pvi && (cpl =? 3) then
      if IOPL <? 3 then clear_VIF else clear_IF
    else
      if IOPL <? cpl then exception BX_GP_EXCEPTION 0 else clear_IF
  else
    v86 ← gets v8086_mode;
    if (v86 : bool) then
      if negb (IOPL =? 3) then
        vme ← gets cr4_get_VME;
        if nz vme then clear_VIF else exception BX_GP_EXCEPTION 0
      else clear_IF
    else clear_IF.

(** The tail of STI. *)
Definition STI_enable : Mach unit :=
  if_ ← gets get_IF;
  when (negb (nz if_))
    (assert_IF;;
     modify (fun s => with_inhibit_mask (Z.lor (inhibit_mask s) BX_INHIBIT_INTERRUPTS) s);;
     modify (with_async_event 1)).

Definition STI (i : bxInstruction_c) : Mach unit :=
  IOPL ← gets get_IOPL;
  prot ← gets protected_mode;
  if (prot : bool) then
    pvi ← gets cr4_get_PVI;
    cpl ← gets CPL;
    if nz pvi && ((cpl =? 3) && (IOPL <? 3)) then
      vip ← gets get_VIP;
      if negb (nz vip) then assert_VIF else exception BX_GP_EXCEPTION 0
    else
      if IOPL <? cpl then exception BX_GP_EXCEPTION 0 else STI_enable
  else
    v86 ← gets v8086_mode;
    if (v86 : bool) then
      if negb (IOPL =? 3) then
        vme ← gets cr4_get_VME;
        vip ← gets get_VIP;
        if nz vme && (vip =? 0) then assert_VIF else exception BX_GP_EXCEPTION 0
      else STI_enable
    else STI_enable.

Definition CLD (i : bxInstruction_c) : Mach unit := clear_DF.
Definition STD (i : bxInstruction_c) : Mach unit := assert_DF.
Definition CMC (i : bxInstruction_c) : Mach unit :=
  cf ← gets (get_flag CF); set_flag CF (Z.b2z (negb (nz cf))).

Definition PUSHF_Fw (i : bxInstruction_c) : Mach unit :=
  fl ← read_eflags;
  let flags := u16 fl in
  v86 ← gets v8086_mode;
  IOPL ← gets get_IOPL;
  if (v86 : bool) && (IOPL <? 3) then
    vme ← gets cr4_get_VME;
    if nz vme then
      let flags := Z.lor flags EFlagsIOPLMask in
      vif ← gets get_VIF;
      let flags := if nz vif then Z.lor flags EFlagsIFMask else Z.ldiff flags EFlagsIFMask in
      push_16 flags
    else exception BX_GP_EXCEPTION 0
  else push_16 flags.

Definition POPF_Fw (i : bxInstruction_c) : Mach unit :=
  let changeMask := mask_of [EFlagsOSZAPCMask; EFlagsTFMask; EFlagsDFMask; EFlagsNTMask] in
  RSP_SPECULATIVE;;
  flags16 ← pop_16;
  prot ← gets protected_mode;
  v86 ← gets v8086_mode;
  cpl ← gets CPL;
  IOPL ← gets get_IOPL;
  if (prot : bool) then
    let changeMask := if cpl =? 0 then Z.lor changeMask EFlagsIOPLMask else changeMask in
    let changeMask := if cpl <=? IOPL then Z.lor changeMask EFlagsIFMask else changeMask in
    writeEFlags flags16 changeMask;;
    RSP_COMMIT
  else if (v86 : bool) then
    if IOPL <? 3 then
      vme ← gets cr4_get_VME;
      if nz vme then
        vip ← gets get_VIP;
        if nz (Z.land flags16 EFlagsIFMask) && nz vip || nz (Z.land flags16 EFlagsTFMask) then
          exception BX_GP_EXCEPTION 0
        else
          let changeMask := Z.lor changeMask EFlagsVIFMask in
          let flags32 := if nz (Z.land flags16 EFlagsIFMask) then Z.lor flags16 EFlagsVIFMask else flags16 in
          writeEFlags flags32 changeMask;;
          RSP_COMMIT
      else exception BX_GP_EXCEPTION 0
    else
      let changeMask := Z.lor changeMask EFlagsIFMask in
      writeEFlags flags16 changeMask;;
      RSP_COMMIT
  else
    let changeMask := Z.lor changeMask (Z.lor EFlagsIOPLMask EFlagsIFMask) in
    writeEFlags flags16 changeMask;;
    RSP_COMMIT.

Definition PUSHF_Fd (i : bxInstruction_c) : Mach unit :=
  v86 ← gets v8086_mode;
  IOPL ← gets get_IOPL;
  if (v86 : bool) && (IOPL <? 3) then exception BX_GP_EXCEPTION 0 else
  fl ← read_eflags;
  push_32 (Z.land fl 0x00fcffff).

Definition POPF_Fd (i : bxInstruction_c) : Mach unit :=
  let changeMask := mask_of [EFlagsOSZAPCMask; EFlagsTFMask; EFlagsDFMask; EFlagsNTMask; EFlagsRFMask] in
  let changeMask := Z.lor changeMask (Z.lor EFlagsIDMask EFlagsACMask) in
  RSP_SPECULATIVE;;
  flags32 ← pop_32;
  prot ← gets protected_mode;
  v86 ← gets v8086_mode;
  cpl ← gets CPL;
  IOPL ← gets get_IOPL;
  if (prot : bool) then
    let changeMask := if cpl =? 0 then Z.lor changeMask EFlagsIOPLMask else changeMask in
    let changeMask := if cpl <=? IOPL then Z.lor changeMask EFlagsIFMask else changeMask in
    writeEFlags flags32 changeMask;;
    RSP_COMMIT
  else if (v86 : bool) then
    if IOPL <? 3 then exception BX_GP_EXCEPTION 0
    else
      let changeMask := Z.lor changeMask EFlagsIFMask in
      writeEFlags flags32 changeMask;;
      RSP_COMMIT
  else
    let changeMask := Z.lor changeMask (Z.lor EFlagsIOPLMask EFlagsIFMask) in
    writeEFlags flags32 changeMask;;
    RSP_COMMIT.

Definition SALC (i : bxInstruction_c) : Mach unit :=
  cf ← gets (get_flag CF);
  if nz cf then set_AL 0xff else set_AL 0x00.

(** ** The architecture's rules *)

(** IF may be changed; otherwise the virtual interrupt flag takes its place, if
    it is enabled. *)
Definition may_change_IF (s : machine) : bool :=
  if protected_mode s then CPL s <=? get_IOPL s
  else if v8086_mode s then get_IOPL s =? 3
  else true.
Definition virtual_IF (s : machine) : bool :=
  if protected_mode s then Z.testbit (cr4 s) 1 && (CPL s =? 3) else Z.testbit (cr4 s) 0.

Definition ref_cli : Mach unit :=
  may ← gets may_change_IF; virt ← gets virtual_IF;
  if (may : bool) then clear_IF
  else if (virt : bool) then clear_VIF
  else exception BX_GP_EXCEPTION 0.
Definition ref_sti : Mach unit :=
  may ← gets may_change_IF; virt ← gets virtual_IF; vip ← gets get_VIP;
  if (may : bool) then STI_enable
  else if (virt : bool) && (vip =? 0) then assert_VIF
  else exception BX_GP_EXCEPTION 0.

Definition ref_sahf : Mach unit :=
  ah ← AH;
  update_flags (override [(SF, Z.testbit ah 7); (ZF, Z.testbit ah 6); (AF, Z.testbit ah 4);
                          (CF, Z.testbit ah 0); (PF, Z.testbit ah 2)]).
Definition ref_lahf : Mach unit := fl ← gets eflags; set_AH (u8 fl).
Definition ref_cmc : Mach unit :=
  cf ← gets (flag CF); update_flags (override [(CF, negb cf)]).
Definition ref_salc : Mach unit :=
  cf ← gets (flag CF); set_AL (if (cf : bool) then 0xff else 0).

(** What PUSHF stores of EFLAGS: without VM and RF; in virtual-8086 mode with
    virtual interrupts, IOPL reads as 3 and IF as VIF. *)
Definition flags_image (w : Z) (s : machine) : option Z :=
  if v8086_mode s && negb (get_IOPL s =? 3) then
    if (w =? 16) && Z.testbit (cr4 s) 0 then
      let fl := Z.lor (u16 (eflags s)) (3 * 2 ^ 12) in
      Some (if Z.testbit (eflags s) 19 then Z.setbit fl 9 else Z.clearbit fl 9)
    else None
  else Some (if w =? 16 then u16 (eflags s) else Z.land (eflags s) 0x00fcffff).
Definition ref_pushf (w : Z) : Mach unit :=
  img ← gets (flags_image w);
  match img with
  | Some v => if w =? 16 then push_16 v else push_32 v
  | None => exception BX_GP_EXCEPTION 0
  end.

Lemma IOPL_range s : 0 <= get_IOPL s <= 3.
Proof.
  unfold get_IOPL. rewrite Z.land_comm, selector_rpl.
  pose proof (Z.mod_pos_bound (Z.shiftr (eflags s) 12) 4 ltac:(lia)). lia.
Qed.
Lemma IOPL_lt_3 s : (get_IOPL s <? 3) = negb (get_IOPL s =? 3).
Proof. pose proof (IOPL_range s). apply eq_true_iff_eq. rewrite negb_true_iff, Z.ltb_lt, Z.eqb_neq. lia. Qed.

Lemma CLI_eq i s : CLI i s = ref_cli s.
Proof.
  unfold CLI, ref_cli, may_change_IF, virtual_IF, cr4_get_PVI, cr4_get_VME.
  unfold gets, mbind, M_bind.
  destruct (protected_mode s); cbv beta iota.
  - rewrite nz_cr_bit by lia. destruct (Z.testbit (cr4 s) 1); cbn [andb].
    + destruct (Z.eqb_spec (CPL s) 3) as [->|].
      * by destruct (Z.ltb_spec (get_IOPL s) 3), (Z.leb_spec 3 (get_IOPL s)); try lia.
      * by destruct (Z.ltb_spec (get_IOPL s) (CPL s)), (Z.leb_spec (CPL s) (get_IOPL s)); try lia.
    + by destruct (Z.ltb_spec (get_IOPL s) (CPL s)), (Z.leb_spec (CPL s) (get_IOPL s)); try lia.
  - destruct (v8086_mode s); cbv beta iota; [|done].
    destruct (get_IOPL s =? 3); cbn [negb]; [done|]. cbv beta iota. rewrite nz_cr_bit by lia.
    by destruct (Z.testbit (cr4 s) 0).
Qed.
Lemma STI_eq i s : STI i s = ref_sti s.
Proof.
  pose proof (IOPL_range s).
  unfold STI, ref_sti, may_change_IF, virtual_IF, cr4_get_PVI, cr4_get_VME.
  unfold gets, mbind, M_bind.
  destruct (protected_mode s); cbv beta iota.
  - rewrite nz_cr_bit by lia. destruct (Z.testbit (cr4 s) 1); cbn [andb].
    + destruct (Z.eqb_spec (CPL s) 3) as [->|]; cbn [andb].
      * destruct (Z.ltb_spec (get_IOPL s) 3), (Z.leb_spec 3 (get_IOPL s)); try lia;
          unfold nz; destruct (get_VIP s =? 0); done.
      * by destruct (Z.ltb_spec (get_IOPL s) (CPL s)), (Z.leb_spec (CPL s) (get_IOPL s)); try lia.
    + by destruct (Z.ltb_spec (get_IOPL s) (CPL s)), (Z.leb_spec (CPL s) (get_IOPL s)); try lia.
  - destruct (v8086_mode s); cbv beta iota; [|done].
    destruct (get_IOPL s =? 3); cbn [negb]; [done|]. cbv beta iota. rewrite nz_cr_bit by lia.
    by destruct (Z.testbit (cr4 s) 0); destruct (get_VIP s =? 0).
Qed.

(** C31: CLI and STI change IF exactly when the mode, CPL and IOPL allow it
    (always in real mode, CPL at most IOPL in protected mode, IOPL 3 in
    virtual-8086 mode); otherwise, where CR4.PVI or CR4.VME provides a virtual
    interrupt flag, they change VIF instead, STI only if no virtual interrupt is
    pending; in all other cases they raise #GP(0) and change nothing. *)
Theorem cli_sti_correct i s : CLI i s = ref_cli s /\ STI i s = ref_sti s.
Proof. split; [apply CLI_eq|apply STI_eq]. Qed.

(** ** POPF *)

Definition may_change_IOPL (s : machine) : bool :=
  if protected_mode s then CPL s =? 0 else negb (v8086_mode s).

(** Virtual-8086 mode without the right to IF. *)
Definition restricted (s : machine) : bool := v8086_mode s && negb (get_IOPL s =? 3).

Definition popf_refused (w v : Z) (s : machine) : bool :=
  restricted s &&
  ((w =? 32) || negb (Z.testbit (cr4 s) 0) ||
   (Z.testbit v 9 && Z.testbit (eflags s) 20) || Z.testbit v 8).

(** The bits POPF changes: the arithmetic flags, TF, DF and NT always; RF, AC and
    ID with a 32-bit operand; IF and IOPL by privilege; VIF in place of IF. *)
Definition popf_changes (w : Z) (if_ iopl vif : bool) (n : Z) : bool :=
  case_in n [0; 2; 4; 6; 7; 8; 10; 11; 14]
  || ((w =? 32) && case_in n [16; 18; 21])
  || (if_ && (n =? 9)) || (iopl && case_in n [12; 13]) || (vif && (n =? 19)).
Definition popf_bit (w v : Z) (s : machine) (n : Z) : bool :=
  if popf_changes w (may_change_IF s) (may_change_IOPL s) (restricted s) n then
    Z.testbit v (if n =? 19 then 9 else n)
  else Z.testbit (eflags (norm s)) n.

(** A mask is the set of its bits; all of them are below 22. *)
Lemma mask_spec m f :
  0 <= m < 2 ^ 22 -> (forall n, 22 <= n -> f n = false) ->
  forallb (fun k => Bool.eqb (Z.testbit m k) (f k)) (Z.of_nat <$> seq 0 22) = true ->
  forall n, 0 <= n -> Z.testbit m n = f n.
Proof.
  intros Hm Hf Hall n Hn. destruct (Z_lt_le_dec n 22) as [Hlt|Hge].
  - rewrite forallb_forall in Hall. apply eqb_prop, Hall.
    apply list_elem_of_In, list_elem_of_fmap. exists (Z.to_nat n). split; [lia|]. apply elem_of_seq. lia.
  - by rewrite Hf, (testbit_above 22 m) by lia.
Qed.
Lemma popf_changes_above w a b c n : 22 <= n -> popf_changes w a b c n = false.
Proof.
  intros Hn. unfold popf_changes, case_in. cbn [existsb].
  rewrite !(proj2 (Z.eqb_neq n _)) by lia. by rewrite !andb_false_r.
Qed.

Definition popf_mask (w : Z) (if_ iopl vif : bool) : Z :=
  mask_of [EFlagsOSZAPCMask; EFlagsTFMask; EFlagsDFMask; EFlagsNTMask;
           if w =? 32 then mask_of [EFlagsRFMask; EFlagsIDMask; EFlagsACMask] else 0;
           if if_ then EFlagsIFMask else 0; if iopl then EFlagsIOPLMask else 0;
           if vif then EFlagsVIFMask else 0].
Lemma popf_mask_bits w a b c n :
  w = 16 \/ w = 32 -> 0 <= n ->
  Z.testbit (popf_mask w a b c) n && Z.testbit supportMask n = popf_changes w a b c n.
Proof.
  intros Hw Hn. rewrite <-Z.land_spec. apply mask_spec; [|intros; by apply popf_changes_above| |done].
  - destruct Hw as [-> | ->], a, b, c; vm_compute; split; congruence.
  - by destruct Hw as [-> | ->], a, b, c.
Qed.
Lemma popf_mask_covers w a b c : covers_flags (popf_mask w a b c) = true.
Proof. unfold popf_mask. by destruct (w =? 32), a, b, c. Qed.

(** The write that ends POPF. *)
Lemma popf_finish w a b c flags s1 :
  w = 16 \/ w = 32 -> coherent s1 -> real_level s1 ->
  match (writeEFlags flags (popf_mask w a b c);; RSP_COMMIT) s1 with
  | Ret _ s' =>
      coherent s' /\ speculative_rsp s' = 0 /\ lf_flags_status s' = 0 /\ gen_reg s' = gen_reg s1 /\
      forall n, 0 <= n -> Z.testbit (eflags s') n =
        if popf_changes w a b c n then Z.testbit flags n else Z.testbit (eflags (norm s1)) n
  | _ => False
  end.
Proof.
  intros Hw Hc Hl. pose proof (writeEFlags_bits flags (popf_mask w a b c) s1 (popf_mask_covers w a b c) Hc Hl) as H.
  unfold mbind, M_bind. destruct (writeEFlags _ _ s1) as [[] s'|? ? ?|]; [|done|done].
  destruct H as (H1 & H2 & H3 & H4). unfold RSP_COMMIT, modify. msimpl.
  split; [exact H1|]. split; [done|]. split; [done|]. split; [done|].
  intros n Hn. by rewrite H4, popf_mask_bits.
Qed.

Lemma pop_16_yields : yields pop_16 (fun v => 0 <= v < 2 ^ 16).
Proof.
  unfold pop_16, SS_d_b. unfold_widths. apply yields_bind. intros d. destruct (nz d);
    apply yields_bind; intros ?; (eapply yields_bind_with; [eauto with yields|]); intros v Hv;
    repeat (apply yields_bind; intros ?); by apply yields_ret.
Qed.
Lemma pop_32_yields : yields pop_32 (fun v => 0 <= v < 2 ^ 32).
Proof.
  unfold pop_32, SS_d_b. unfold_widths. apply yields_bind. intros d. destruct (nz d);
    apply yields_bind; intros ?; (eapply yields_bind_with; [eauto with yields|]); intros v Hv;
    repeat (apply yields_bind; intros ?); by apply yields_ret.
Qed.

(** What the guards of POPF look at does not change while it pops. *)
Definition popf_view (s : machine) : Z * Z * Z * Z := (cpu_mode s, CPL s, cr4 s, eflags (norm s)).

Lemma popped_view {A} (m : Mach A) s v s1 :
  moves_sp m -> steady m -> m s = Ret v s1 -> coherent s ->
  popf_view s1 = popf_view s /\ coherent s1 /\ cr0 s1 = cr0 s.
Proof.
  intros Hm Hs E Hc. specialize (Hm s). specialize (Hs s). rewrite E in Hm, Hs.
  split; [|split; [by eapply coherent_control|]].
  - unfold but_sp in Hm. unfold control in Hs. rewrite !pair_equal_spec in Hm. rewrite !pair_equal_spec in Hs.
    unfold popf_view. rewrite !pair_equal_spec. tauto.
  - unfold control in Hs. rewrite !pair_equal_spec in Hs. tauto.
Qed.
Lemma view_guards s s1 :
  popf_view s1 = popf_view s ->
  protected_mode s1 = protected_mode s /\ v8086_mode s1 = v8086_mode s /\ CPL s1 = CPL s /\
  get_IOPL s1 = get_IOPL s /\ cr4 s1 = cr4 s /\ nz (get_VIP s1) = Z.testbit (eflags s) 20 /\
  eflags (norm s1) = eflags (norm s).
Proof.
  unfold popf_view. rewrite !pair_equal_spec. intros [[[Hm Hc] H4] He].
  unfold protected_mode, v8086_mode. rewrite Hm, Hc, H4, He. split_and!; try done.
  - by rewrite <-(get_IOPL_norm s1), <-(get_IOPL_norm s), (f_equal (fun e => Z.land 3 (Z.shiftr e 12)) He : get_IOPL (norm s1) = get_IOPL (norm s)).
  - unfold get_VIP. rewrite get_eflag_spec by lia.
    rewrite <-(testbit_eflags_norm s1 20), He, testbit_eflags_norm by (by intros []). done.
Qed.

Definition spec_sp (s : machine) : machine := with_prev_rsp (u32 (reg 4 s)) (with_speculative_rsp 1 s).

(** POPF with operand size [w]. *)
Definition popf (w : Z) (i : bxInstruction_c) : Mach unit := if w =? 16 then POPF_Fw i else POPF_Fd i.
Definition pop (w : Z) : Mach Z := if w =? 16 then pop_16 else pop_32.

Lemma protected_not_v8086 s : protected_mode s = true -> v8086_mode s = false.
Proof.
  unfold protected_mode, v8086_mode, BX_MODE_IA32_PROTECTED, BX_MODE_IA32_V8086.
  rewrite Z.leb_le, Z.eqb_neq. lia.
Qed.

(** The decision of the two handlers, once the flags are popped. *)
Lemma popf_tail w i s v s1 :
  w = 16 \/ w = 32 -> pop w (spec_sp s) = Ret v s1 -> popf_view s1 = popf_view s -> 0 <= v < 2 ^ w ->
  popf w i s =
    if popf_refused w v s then Fault BX_GP_EXCEPTION 0 s1
    else (writeEFlags (if restricted s && Z.testbit v 9 then Z.lor v EFlagsVIFMask else v)
            (popf_mask w (may_change_IF s) (may_change_IOPL s) (restricted s));; RSP_COMMIT) s1.
Proof.
  intros Hw Hp Hv Hr. apply view_guards in Hv as (H1 & H2 & H3 & H4 & H5 & H6 & _).
  pose proof (IOPL_range s) as Hi.
  unfold popf_refused, may_change_IF, may_change_IOPL, restricted.
  destruct Hw as [-> | ->]; cbn [popf Z.eqb Pos.eqb pop] in *.
  - unfold POPF_Fw. cbv zeta.
    rewrite (bind_Ret RSP_SPECULATIVE _ s tt (spec_sp s)) by done.
    rewrite (bind_Ret _ _ _ _ _ Hp), !bind_gets, H1, H2, H3, H4.
    destruct (protected_mode s) eqn:Ep.
    + rewrite (protected_not_v8086 s Ep). cbn [andb]. by destruct (CPL s =? 0), (CPL s <=? get_IOPL s).
    + destruct (v8086_mode s); cbn [andb negb]; [|done]. rewrite IOPL_lt_3.
      destruct (get_IOPL s =? 3); cbn [andb negb]; [done|].
      rewrite bind_gets. unfold cr4_get_VME. rewrite H5, nz_cr_bit by lia.
      destruct (Z.testbit (cr4 s) 0); cbn [orb negb]; [|done].
      rewrite bind_gets, H6. unfold EFlagsIFMask, EFlagsTFMask. rewrite !nz_land_pow2 by lia.
      destruct (Z.testbit v 9 && _ || Z.testbit v 8); [done|]. by destruct (Z.testbit v 9).
  - unfold POPF_Fd. cbv zeta.
    rewrite (bind_Ret RSP_SPECULATIVE _ s tt (spec_sp s)) by done.
    rewrite (bind_Ret _ _ _ _ _ Hp), !bind_gets, H1, H2, H3, H4.
    destruct (protected_mode s) eqn:Ep.
    + rewrite (protected_not_v8086 s Ep). cbn [andb]. by destruct (CPL s =? 0), (CPL s <=? get_IOPL s).
    + destruct (v8086_mode s); cbn [andb negb]; [|done]. rewrite IOPL_lt_3.
      by destruct (get_IOPL s =? 3).
Qed.

Lemma spec_sp_coherent s : coherent s -> coherent (spec_sp s).
Proof. done. Qed.
Lemma popf_value w v s n :
  w = 16 \/ w = 32 -> 0 <= v < 2 ^ w -> 0 <= n -> restricted s && (w =? 32) = false ->
  Z.testbit (if restricted s && Z.testbit v 9 then Z.lor v EFlagsVIFMask else v) n =
  Z.testbit v (if (n =? 19) && restricted s then 9 else n).
Proof.
  intros Hw Hv Hn Hr. unfold EFlagsVIFMask. destruct (restricted s); [|by rewrite andb_false_r].
  destruct Hw as [-> | ->]; [|done]. cbn [andb]. rewrite andb_true_r.
  destruct (Z.eqb_spec n 19) as [->|Hne].
  - destruct (Z.testbit v 9); [|by apply (testbit_above 16)].
    by rewrite Z.lor_spec, (testbit_above 16 v) by lia.
  - destruct (Z.testbit v 9); [|done]. rewrite Z.lor_spec, Z.pow2_bits_false by lia. apply orb_false_r.
Qed.

Lemma popf_spec w i s :
  w = 16 \/ w = 32 -> coherent s -> real_level s ->
  match pop w (spec_sp s) with
  | Ret v s1 =>
      if popf_refused w v s then popf w i s = Fault BX_GP_EXCEPTION 0 s1
      else match popf w i s with
           | Ret _ s' =>
               coherent s' /\ speculative_rsp s' = 0 /\ lf_flags_status s' = 0 /\
               gen_reg s' = gen_reg s1 /\
               forall n, 0 <= n -> Z.testbit (eflags s') n = popf_bit w v s n
           | _ => False
           end
  | Fault v e s1 => popf w i s = Fault v e s1
  | Crash => popf w i s = Crash
  end.
Proof.
  intros Hw Hc Hl. destruct (pop w (spec_sp s)) as [v s1|v e s1|] eqn:E.
  - assert (moves_sp (pop w) /\ steady (pop w)) as [Hm Hs]
      by (unfold pop; destruct (w =? 16); eauto with moves_sp steady).
    destruct (popped_view _ _ _ _ Hm Hs E (spec_sp_coherent s Hc)) as (Hv & Hc1 & H0).
    change (popf_view (spec_sp s)) with (popf_view s) in Hv.
    assert (real_level s1) as Hl1.
    { unfold real_level. rewrite H0. apply view_guards in Hv as (_ & _ & -> & _). exact Hl. }
    assert (0 <= v < 2 ^ w) as Hr by (destruct Hw as [-> | ->]; [by apply pop_16_yields in E|by apply pop_32_yields in E]).
    rewrite (popf_tail w i s v s1 Hw E Hv Hr). destruct (popf_refused w v s) eqn:Href; [done|].
    assert (restricted s && (w =? 32) = false) as Hrw.
    { unfold popf_refused in Href. by destruct (restricted s), (w =? 32). }
    pose proof (popf_finish w (may_change_IF s) (may_change_IOPL s) (restricted s)
      (if restricted s && Z.testbit v 9 then Z.lor v EFlagsVIFMask else v) s1 Hw Hc1 Hl1) as H.
    apply view_guards in Hv as (_ & _ & _ & _ & _ & _ & He). rewrite He in H.
    destruct ((_ ;; RSP_COMMIT) s1) as [[] s'|? ? ?|]; [|done|done].
    destruct H as (A1 & A2 & A3 & A4 & A5). split_and!; try done.
    intros n Hn. rewrite A5 by done. unfold popf_bit. destruct (popf_changes _ _ _ _ n) eqn:Ech; [|done].
    rewrite (popf_value w) by done. f_equal. destruct (Z.eqb_spec n 19) as [->|]; [|done].
    unfold popf_changes in Ech. cbn in Ech. rewrite !andb_false_r in Ech. cbn in Ech.
    rewrite andb_true_r in Ech. by rewrite Ech.
  - destruct Hw as [-> | ->]; unfold popf, POPF_Fw, POPF_Fd; cbn [Z.eqb Pos.eqb]; cbv zeta;
      rewrite (bind_Ret RSP_SPECULATIVE _ s tt (spec_sp s)) by done; exact (bind_Fault _ _ _ _ _ _ E).
  - destruct Hw as [-> | ->]; unfold popf, POPF_Fw, POPF_Fd; cbn [Z.eqb Pos.eqb]; cbv zeta;
      rewrite (bind_Ret RSP_SPECULATIVE _ s tt (spec_sp s)) by done; exact (bind_Crash _ _ _ E).
Qed.

(** C22: in a state whose mode caches agree with its registers, and in real mode
    at level 0, POPF pops a word or a doubleword with the stack pointer marked
    speculative and passes on any fault of the pop.  In virtual-8086 mode
    with IOPL below 3 it raises #GP(0) unless the operand is 16 bits wide, CR4.VME
    is set, TF is clear and no pending virtual interrupt would be unmasked.
    Otherwise it changes exactly the bits that mode, CPL, IOPL and operand size
    allow (VIF from bit 9 in place of IF under VME), every other bit keeps its
    architectural value, nothing is left pending or speculative, the registers
    are those after the pop, and the caches of the mode agree with the new
    EFLAGS. *)
Theorem popf_correct i s :
  coherent s -> real_level s ->
  Forall (fun w =>
    match pop w (spec_sp s) with
    | Ret v s1 =>
        if popf_refused w v s then popf w i s = Fault BX_GP_EXCEPTION 0 s1
        else match popf w i s with
             | Ret _ s' =>
                 coherent s' /\ speculative_rsp s' = 0 /\ lf_flags_status s' = 0 /\
                 gen_reg s' = gen_reg s1 /\
                 forall n, 0 <= n -> Z.testbit (eflags s') n = popf_bit w v s n
             | _ => False
             end
    | Fault v e s1 => popf w i s = Fault v e s1
    | Crash => popf w i s = Crash
    end) [16; 32].
Proof.
  intros Hc Hl. repeat constructor; [apply (popf_spec 16)|apply (popf_spec 32)]; auto.
Qed.

(** CPL 3 with IOPL 0 and IF set; 0x200 less than all flags on the stack. *)
Definition user_machine : machine :=
  let seg := mk_segment_reg (mk_selector 0x13 2 0 3) flat_descriptor in
  with_user_pl 1 (with_eflags 0x202 (with_sregs (replicate 6 seg)
    (with_memory (with_mem_vector (mem_store ∅ 0x100 (le_split 4 0xfffffdff)) (memory flat_machine))
      (set_reg 4 0x100 flat_machine)))).
Lemma user_machine_coherent : coherent user_machine.
Proof. done. Qed.
Lemma popf_correct_witness :
  match popf 32 (demo_instruction 0x9d 0 0 0) user_machine with
  | Ret _ s' => coherent s' /\ reg 4 s' = 0x104 /\ eflags s' = 0x254fd7
  | _ => False
  end.
Proof.
  pose proof (popf_correct (demo_instruction 0x9d 0 0 0) user_machine user_machine_coherent ltac:(done)) as H.
  apply Forall_cons in H as [_ H]. apply Forall_cons in H as [H _].
  remember (pop 32 _) as p eqn:Ep. vm_compute in Ep. subst p.
  remember (popf_refused _ _ _) as r eqn:Er. vm_compute in Er. subst r.
  remember (popf 32 _ _) as o eqn:Eo. vm_compute in Eo. subst o.
  destruct H as [H _]. split; [exact H|]. split; reflexivity.
Defined.

(** ** The handlers *)

Lemma refines_at {A} (m m' m'' : Mach A) :
  refines m m' -> (forall s, m' (norm s) = m'' (norm s)) -> refines m m''.
Proof. intros H E s. by rewrite (H s). Qed.

(** Once nothing is pending, an update that looks at the flags sees the earlier
    ones. *)
Lemma flag_put g fl s : lf_flags_status s = 0 -> flag g (with_eflags (put_flags fl (eflags s)) s) = fl g.
Proof. intros H. rewrite flag_spec. msimpl. by rewrite H, Z.testbit_0_l, testbit_put_flags_flag. Qed.

Definition set_one (f : aflag) (b : bool) : Mach unit := update_flags (override [(f, b)]).
Lemma set_one_eq f b s :
  set_one f b s = Ret tt (with_eflags (put_flags (fun g => if bool_decide (f = g) then b else flag g s) (eflags s)) s).
Proof.
  unfold set_one, update_flags, modify. do 2 f_equal. apply put_flags_ext. intros g.
  unfold override. cbn. by destruct (bool_decide _).
Qed.
Lemma set_one_put f b fl s :
  lf_flags_status s = 0 ->
  set_one f b (with_eflags (put_flags fl (eflags s)) s) =
    Ret tt (with_eflags (put_flags (fun g => if bool_decide (f = g) then b else fl g) (eflags s)) s).
Proof.
  intros H. rewrite set_one_eq. msimpl. rewrite put_flags_put.
  change (with_eflags ?a (with_eflags ?b s)) with (with_eflags a s). do 2 f_equal.
  apply put_flags_ext. intros g. by rewrite flag_put.
Qed.

Lemma bit_of_land a k : 0 <= k -> Z.shiftr (Z.land a (2 ^ k)) k = Z.b2z (Z.testbit a k).
Proof.
  intros Hk. rewrite Z.shiftr_land. rewrite (Z.shiftr_div_pow2 (2 ^ k)), Z.div_same by lia.
  by rewrite land_1, Z.shiftr_spec.
Qed.
Lemma set_bit_refines f a k m :
  m = 2 ^ k -> 0 <= k -> refines (set_flag f (Z.shiftr (Z.land a m) k)) (set_one f (Z.testbit a k)).
Proof.
  intros -> Hk. rewrite bit_of_land by done. unfold set_one.
  eapply refines_at; [apply set_flag_refines; destruct (Z.testbit a k); cbn; lia|].
  intros s. by rewrite nz_b2z.
Qed.

Lemma SAHF_implements : implements (SAHF, fun _ => ref_sahf).
Proof.
  intros i. cbn [fst snd]. eapply refines_at with (m' :=
    ah ← AH; set_one SF (Z.testbit ah 7);; ah ← AH; set_one ZF (Z.testbit ah 6);;
    ah ← AH; set_one AF (Z.testbit ah 4);; ah ← AH; set_one CF (Z.testbit ah 0);;
    ah ← AH; set_one PF (Z.testbit ah 2)).
  - unfold SAHF.
    apply refines_bind; [solve [eauto with refines]|intros a1].
    apply refines_bind; [by apply (set_bit_refines SF a1 7)|intros _].
    apply refines_bind; [solve [eauto with refines]|intros a2].
    apply refines_bind; [by apply (set_bit_refines ZF a2 6)|intros _].
    apply refines_bind; [solve [eauto with refines]|intros a3].
    apply refines_bind; [by apply (set_bit_refines AF a3 4)|intros _].
    apply refines_bind; [solve [eauto with refines]|intros a4].
    apply refines_bind.
    { rewrite <-(Z.shiftr_0_r (Z.land a4 0x01)). by apply (set_bit_refines CF a4 0). }
    intros _. apply refines_bind; [solve [eauto with refines]|intros a5].
    by apply (set_bit_refines PF a5 2).
  - intros s. remember (norm s) as t eqn:Et.
    assert (lf_flags_status t = 0) as Hl by by subst t. clear Et.
    unfold AH, ref_sahf, mbind, M_bind, gets. rewrite set_one_eq.
    do 4 (rewrite set_one_put by done; change (reg 0 (with_eflags ?e t)) with (reg 0 t)).
    unfold AH, gets, update_flags, modify. by do 2 f_equal.
Qed.

Lemma LAHF_implements : implements (LAHF, fun _ => ref_lahf).
Proof.
  intros i. unfold LAHF, ref_lahf, read_eflags. cbn [fst snd].
  apply refines_bind; [apply force_flags_refines|intros fl].
  change 0xFF with (Z.ones 8). rewrite Z.land_ones by lia. solve [eauto with refines].
Qed.
Lemma CMC_implements : implements (CMC, fun _ => ref_cmc).
Proof.
  intros i s. unfold CMC, ref_cmc. cbn [fst snd]. rewrite bind_gets, get_flag_flag, bind_gets, flag_norm.
  rewrite (set_flag_refines CF (Z.b2z (negb (flag CF s))) (b2z_range _) s). by rewrite nz_b2z.
Qed.
Lemma SALC_implements : implements (SALC, fun _ => ref_salc).
Proof.
  intros i s. unfold SALC, ref_salc. cbn [fst snd]. rewrite !bind_gets, get_flag_flag, flag_norm.
  by destruct (flag CF s).
Qed.

(** PUSHF on materialised flags. *)
Definition eager_PUSHF_Fw : Mach unit :=
  fl ← gets eflags;
  v86 ← gets v8086_mode;
  IOPL ← gets get_IOPL;
  if (v86 : bool) && (IOPL <? 3) then
    vme ← gets cr4_get_VME;
    if nz vme then
      vif ← gets get_VIF;
      push_16 (if nz vif then Z.lor (Z.lor (u16 fl) EFlagsIOPLMask) EFlagsIFMask
               else Z.ldiff (Z.lor (u16 fl) EFlagsIOPLMask) EFlagsIFMask)
    else exception BX_GP_EXCEPTION 0
  else push_16 (u16 fl).

Lemma PUSHF_Fw_implements : implements (PUSHF_Fw, fun _ => ref_pushf 16).
Proof.
  intros i. cbn [fst snd]. apply refines_at with (m' := eager_PUSHF_Fw).
  - unfold PUSHF_Fw, eager_PUSHF_Fw, read_eflags. cbv zeta.
    apply refines_bind; [apply force_flags_refines|intros fl]. refines_tac.
  - intros s. generalize (norm s). clear s. intros s. unfold eager_PUSHF_Fw, ref_pushf, flags_image.
    rewrite !bind_gets, IOPL_lt_3. cbn [Z.eqb Pos.eqb].
    destruct (v8086_mode s && negb (get_IOPL s =? 3)); [|done]. cbn [andb].
    rewrite bind_gets. unfold cr4_get_VME. rewrite nz_cr_bit by lia. destruct (Z.testbit (cr4 s) 0); [|done].
    rewrite bind_gets. unfold get_VIF. rewrite get_eflag_spec by lia. cbv zeta.
    destruct (Z.testbit (eflags s) 19); [by rewrite Z.setbit_spec'|].
    unfold EFlagsIFMask. by rewrite Z.clearbit_spec'.
Qed.
Lemma PUSHF_Fd_implements : implements (PUSHF_Fd, fun _ => ref_pushf 32).
Proof.
  intros i. cbn [fst snd].
  apply refines_at with (m' := v86 ← gets v8086_mode; IOPL ← gets get_IOPL;
    if (v86 : bool) && (IOPL <? 3) then exception BX_GP_EXCEPTION 0 else
    fl ← gets eflags; push_32 (Z.land fl 0x00fcffff)).
  - unfold PUSHF_Fd, read_eflags. apply refines_bind; [refines_tac|intros v86].
    apply refines_bind; [refines_tac|intros IOPL]. apply refines_if; [refines_tac|].
    apply refines_bind; [apply force_flags_refines|intros fl]. refines_tac.
  - intros s. generalize (norm s). clear s. intros s. unfold ref_pushf, flags_image.
    rewrite !bind_gets, IOPL_lt_3. cbn [Z.eqb Pos.eqb andb].
    destruct (v8086_mode s && negb (get_IOPL s =? 3)); done.
Qed.

Lemma STI_enable_refines : refines STI_enable STI_enable.
Proof.
  unfold STI_enable, assert_IF, assert_eflag_async.
  intros s. rewrite !bind_gets. unfold get_IF. rewrite !get_eflag_spec, testbit_eflags_norm by (lia || by intros []).
  assert (forall b, refines (when b ((modify (with_async_event 1);; assert_eflag 9);;
     modify (fun s => with_inhibit_mask (Z.lor (inhibit_mask s) BX_INHIBIT_INTERRUPTS) s);;
     modify (with_async_event 1))) (when b ((modify (with_async_event 1);; assert_eflag 9);;
     modify (fun s => with_inhibit_mask (Z.lor (inhibit_mask s) BX_INHIBIT_INTERRUPTS) s);;
     modify (with_async_event 1)))) as H by (intros b; refines_tac).
  apply H.
Qed.
#[export] Hint Resolve STI_enable_refines : refines.

Lemma CLI_implements : implements (CLI, fun _ => ref_cli).
Proof.
  intros i. cbn [fst snd]. apply refines_at with (m' := CLI i); [|intros s; apply CLI_eq].
  unfold CLI, clear_IF, clear_VIF. refines_tac.
Qed.
Lemma STI_implements : implements (STI, fun _ => ref_sti).
Proof.
  intros i. cbn [fst snd]. apply refines_at with (m' := STI i); [|intros s; apply STI_eq].
  unfold STI, assert_VIF. refines_tac.
Qed.

Definition eflags_table : list (handler * handler) :=
  [(SAHF, fun _ => ref_sahf); (LAHF, fun _ => ref_lahf);
   (CLC, fun _ => update_flags (override [(CF, false)])); (STC, fun _ => update_flags (override [(CF, true)]));
   (CLI, fun _ => ref_cli); (STI, fun _ => ref_sti); (CLD, fun _ => clear_DF); (STD, fun _ => assert_DF);
   (CMC, fun _ => ref_cmc); (SALC, fun _ => ref_salc);
   (PUSHF_Fw, fun _ => ref_pushf 16); (PUSHF_Fd, fun _ => ref_pushf 32)].
Definition popf_table : list (handler * handler) := [(POPF_Fw, POPF_Fw); (POPF_Fd, POPF_Fd)].

Lemma eflags_implements : Forall implements eflags_table.
Proof.
  repeat apply Forall_cons_2; [..|apply Forall_nil; done].
  - exact SAHF_implements.
  - exact LAHF_implements.
  - intros i. apply clear_flag_refines.
  - intros i. apply assert_flag_refines.
  - exact CLI_implements.
  - exact STI_implements.
  - intros i. cbn [fst snd]. unfold CLD, clear_DF. refines_tac.
  - intros i. cbn [fst snd]. unfold STD, assert_DF. refines_tac.
  - exact CMC_implements.
  - exact SALC_implements.
  - exact PUSHF_Fw_implements.
  - exact PUSHF_Fd_implements.
Qed.
Lemma popf_implements : Forall implements popf_table.
Proof.
  table_tac ltac:(intros i; cbn [fst snd]; unfold POPF_Fw, POPF_Fd;
    repeat match goal with
    | |- refines (writeEFlags _ _) _ =>
        apply writeEFlags_refines; repeat (match goal with |- context [if ?b then _ else _] => destruct b end); done
    | |- refines RSP_COMMIT _ => unfold RSP_COMMIT
    | _ => refines_step
    end).
Qed.

(** *** The invariants *)

Lemma eflags_only_wf f : (forall s, exists e, f s = with_eflags e s) -> preserves wf (modify f).
Proof.
  intros Hf. apply preserves_modify. intros s Hw. destruct (Hf s) as [e ->].
  exact Hw.
Qed.
Lemma assert_eflag_wf n : preserves wf (assert_eflag n).
Proof. apply eflags_only_wf. intros s. by eexists. Qed.
Lemma clear_eflag_wf n : preserves wf (clear_eflag n).
Proof. apply eflags_only_wf. intros s. by eexists. Qed.
Lemma RSP_COMMIT_wf : preserves wf RSP_COMMIT.
Proof. wf_modify. Qed.
#[export] Hint Resolve assert_eflag_wf clear_eflag_wf RSP_COMMIT_wf : preserves.

Ltac eflags_unfold :=
  cbv beta delta [SAHF LAHF CLC STC CLI STI STI_enable CLD STD CMC SALC PUSHF_Fw PUSHF_Fd POPF_Fw POPF_Fd
    read_eflags clear_IF clear_VIF assert_VIF assert_IF assert_eflag_async clear_DF assert_DF];
  cbv zeta.
Lemma eflags_keeps_wf : Forall keeps_wf (eflags_table ++ popf_table).
Proof.
  table_tac ltac:(intros i; cbn [fst snd]; eflags_unfold;
    repeat match goal with
    | |- preserves _ (modify _) => wf_modify
    | _ => preserves_step
    end).
Qed.

(** Materialising the flags changes nothing a program can see. *)
Lemma force_flags_quiet : quiet force_flags.
Proof.
  intros s. pose proof (force_flags_refines s) as H. rewrite force_flags_eq in *. apply Ret_inj in H as [_ H].
  unfold arch. rewrite H. by destruct (nz _).
Qed.
Lemma force_flags_steady : steady force_flags.
Proof. eapply refines_steady; [apply force_flags_refines|apply steady_gets]. Qed.
#[export] Hint Resolve force_flags_quiet : quiet.
#[export] Hint Resolve force_flags_steady : steady.
Lemma eflags_precise : Forall is_precise eflags_table.
Proof.
  table_tac ltac:(intros i; cbn [fst snd]; eflags_unfold; unfold assert_eflag, clear_eflag; precise_tac).
Qed.

Lemma eflag_steady n f :
  n <> 17 -> n <> 18 -> (forall s, exists e, f s = with_eflags e s /\
    forall m, m <> n -> Z.testbit e m = Z.testbit (eflags s) m) -> steady (modify f).
Proof.
  intros H17 H18 Hf. apply steady_modify. intros s. destruct (Hf s) as (e & -> & He).
  unfold control, CPL, sreg. msimpl. by rewrite !He by done.
Qed.
Lemma assert_eflag_steady n : 0 <= n -> n <> 17 -> n <> 18 -> steady (assert_eflag n).
Proof.
  intros Hn H17 H18. apply (eflag_steady n); [done..|]. intros s. eexists. split; [reflexivity|].
  intros m Hm. by rewrite Z.lor_spec, Z.pow2_bits_false, orb_false_r by lia.
Qed.
Lemma clear_eflag_steady n : 0 <= n -> n <> 17 -> n <> 18 -> steady (clear_eflag n).
Proof.
  intros Hn H17 H18. apply (eflag_steady n); [done..|]. intros s. eexists. split; [reflexivity|].
  intros m Hm. by rewrite Z.ldiff_spec, Z.pow2_bits_false, andb_true_r by lia.
Qed.
#[export] Hint Extern 1 (steady (assert_eflag _)) => apply assert_eflag_steady; lia : steady.
#[export] Hint Extern 1 (steady (clear_eflag _)) => apply clear_eflag_steady; lia : steady.

Lemma eflags_steady : Forall (fun p => forall i, steady (p.1 i)) eflags_table.
Proof.
  assert (Forall (fun p => forall i, steady (p.2 i)) eflags_table) as Hs.
  { table_tac ltac:(intros i; cbn [fst snd];
      cbv beta delta [ref_sahf ref_lahf ref_cli ref_sti ref_cmc ref_salc ref_pushf STI_enable
        clear_IF clear_VIF assert_VIF assert_IF assert_eflag_async clear_DF assert_DF]; steady_tac). }
  pose proof eflags_implements as Hi. rewrite Forall_forall in Hs, Hi |- *.
  intros p Hp i. eapply refines_steady; [by apply Hi|by apply Hs].
Qed.

Lemma eflags_restartable : Forall (fun p => forall i, restartable (p.1 i)) (eflags_table ++ popf_table).
Proof.
  apply Forall_app_2.
  - pose proof eflags_precise as Hp. pose proof eflags_steady as Hs.
    rewrite Forall_forall in *. intros p Hin i. apply precise_restartable; [by apply Hp|by apply Hs].
  - table_tac ltac:(intros i; cbn [fst snd]; unfold POPF_Fw, POPF_Fd; cbv zeta;
      apply speculative_restartable; unfold RSP_COMMIT; sp_precise_tac).
Qed.

(** *** Coherence *)

Lemma writeEFlags_coherent flags mask : preserves coherent (writeEFlags flags mask).
Proof. unfold writeEFlags. apply preserves_bind; [apply preserves_gets|intros ?; apply setEFlags_keeps]. Qed.
Lemma eflags_coherent : Forall (fun p => forall i, preserves coherent (p.1 i)) (eflags_table ++ popf_table).
Proof.
  apply Forall_app_2.
  - eapply Forall_impl; [apply eflags_steady|]. intros p Hp i. by apply steady_coherent.
  - table_tac ltac:(intros i; cbn [fst snd]; unfold POPF_Fw, POPF_Fd, RSP_SPECULATIVE, RSP_COMMIT;
      repeat match goal with
      | |- preserves _ (modify _) => apply preserves_modify; intros ? ?; assumption
      | |- preserves _ (writeEFlags _ _) => apply writeEFlags_coherent
      | _ => preserves_step
      end).
Qed.

Lemma eflags_commits :
  Forall (fun p : handler * handler => forall i s, speculative_rsp s = 0 ->
    match p.1 i s with Ret _ s' => speculative_rsp s' = 0 | _ => True end) (eflags_table ++ popf_table).
Proof.
  apply Forall_app_2.
  - eapply Forall_impl; [apply eflags_steady|]. intros p Hp i s. by apply steady_commits.
  - table_tac ltac:(intros i s _; cbn [fst snd]; revert s;
      match goal with |- forall s, match ?h i s with _ => _ end => change (commits (h i)); unfold h end; cbv zeta;
      repeat match goal with
      | |- commits (mbind _ _) => apply commits_bind; intros ?
      | |- commits (match ?x with _ => _ end) => destruct x
      | |- commits RSP_COMMIT => apply RSP_COMMIT_commits
      | |- commits (exception _ _) => by intros ?
      end).
Qed.
