(* ===== verification/CtrlPro.v ===== *)
(** * CtrlPro: loading CS, and switching tasks

    cpu/ctrl_xfer_pro.cc ([check_cs], [load_cs], [branch_far32], [branch_far64]),
    [SetCR3] of cpu/crregs.cc, and the task switch of cpu/tasking.cc with its
    helpers. *)
From stdpp Require Import base numbers list gmap.
From Stdlib Require Import ZArith Lia.
From S2P Require Import Prelude Machine LazyFlags Memory Paging Access Regs Precise Reference Mode Segment SegLoad Stack FlagCtrl.

Local Open Scope Z_scope.

(** ** cpu/ctrl_xfer_pro.cc *)

Definition check_cs (descriptor : bx_descriptor_t) (cs_raw check_rpl check_cpl : Z) : Mach unit :=
  when ((desc_valid descriptor =? 0) || (desc_segment descriptor =? 0) || IS_DATA_SEGMENT (desc_type descriptor))
    (exception BX_GP_EXCEPTION (Z.land cs_raw 0xfffc));;
  (if IS_CODE_SEGMENT_NON_CONFORMING (desc_type descriptor) then
     when (negb (desc_dpl descriptor =? check_cpl)) (exception BX_GP_EXCEPTION (Z.land cs_raw 0xfffc));;
     when (check_cpl <? check_rpl) (exception BX_GP_EXCEPTION (Z.land cs_raw 0xfffc))
   else
     when (check_cpl <? desc_dpl descriptor) (exception BX_GP_EXCEPTION (Z.land cs_raw 0xfffc)));;
  when (negb (nz (desc_p descriptor))) (exception BX_NP_EXCEPTION (Z.land cs_raw 0xfffc)).

Definition load_cs (selector : bx_selector_t) (descriptor : bx_descriptor_t) (cpl : Z) : Mach unit :=
  let selector := with_sel_value (Z.lor (Z.land 0xfffc (sel_value selector)) cpl) selector in
  descriptor ← touch_segment selector descriptor;
  modify (set_sreg BX_SEG_REG_CS
    (mk_segment_reg (with_sel_rpl cpl selector) (with_desc_valid 1 descriptor)));;
  updateFetchModeMask;;
  handleAlignmentCheck;;
  invalidate_prefetch_q.

Definition branch_far32 (selector : bx_selector_t) (descriptor : bx_descriptor_t) (eip cpl : Z) : Mach unit :=
  when (seg_limit_scaled descriptor <? eip) (exception BX_GP_EXCEPTION 0);;
  load_cs selector descriptor cpl;;
  set_EIP eip.

Definition branch_far64 (selector : bx_selector_t) (descriptor : bx_descriptor_t) (rip cpl : Z) : Mach unit :=
  let rip := Z.land rip 0xffffffff in
  when (seg_limit_scaled descriptor <? rip) (exception BX_GP_EXCEPTION 0);;
  load_cs selector descriptor cpl;;
  set_EIP rip.

(** ** cpu/crregs.cc *)

Definition cr0_set_TS (val : Z) : Mach unit :=
  modify (fun s => with_cr0 (Z.lor (Z.ldiff (cr0 s) (Z.shiftl 1 3)) (Z.shiftl val 3)) s).

(** Returns whether the value was accepted. *)
Definition SetCR3 (val : Z) : Mach Z :=
  modify (with_cr3 val);;
  TLB_flush;;
  mret 1.

(** ** cpu/tasking.cc *)

Definition BX_TASK_FROM_CALL : Z := 0.
Definition BX_TASK_FROM_IRET : Z := 1.
Definition BX_TASK_FROM_JUMP : Z := 2.
Definition BX_TASK_FROM_INT : Z := 3.
Definition EFlagsValidMask : Z := 0x003f7fd5.
Definition BX_DEBUG_TRAP_TASK_SWITCH_BIT : Z := Z.shiftl 1 15.

(** [sregs[n].selector.value] *)
Definition sreg_value (n : Z) : Mach Z := gets (fun s => sel_value (selector (sreg n s))).

Definition task_switch_load_selector (seg : Z) (selector : bx_selector_t) (raw_selector cs_rpl : Z) : Mach unit :=
  when (negb (Z.land raw_selector 0xfffc =? 0))
    (good ← fetch_raw_descriptor2 selector;
     match good with
     | None => exception BX_TS_EXCEPTION (Z.land raw_selector 0xfffc)
     | Some (dword1, dword2) =>
         let descriptor := parse_descriptor dword1 dword2 uninitialised in
         if (desc_segment descriptor =? 0) ||
            (IS_CODE_SEGMENT (desc_type descriptor) && negb (IS_CODE_SEGMENT_READABLE (desc_type descriptor)))
         then exception BX_TS_EXCEPTION (Z.land raw_selector 0xfffc) else
         if (IS_DATA_SEGMENT (desc_type descriptor) || IS_CODE_SEGMENT_NON_CONFORMING (desc_type descriptor)) &&
            ((desc_dpl descriptor <? sel_rpl selector) || (desc_dpl descriptor <? cs_rpl))
         then exception BX_TS_EXCEPTION (Z.land raw_selector 0xfffc) else
         if negb (IS_PRESENT descriptor) then exception BX_NP_EXCEPTION (Z.land raw_selector 0xfffc) else
         descriptor ← touch_segment selector descriptor;
         modify (fun s => set_sreg seg (with_cache descriptor (sreg seg s)) s)
     end).

(** With another type in TR the caller's [ss] and [esp] stay uninitialised. *)
Definition get_SS_ESP_from_TSS (pl : Z) : Mach (Z * Z) :=
  tr ← gets tr;
  if (desc_type (cache tr) =? BX_SYS_SEGMENT_AVAIL_386_TSS) ||
     (desc_type (cache tr) =? BX_SYS_SEGMENT_BUSY_386_TSS) then
    let TSSstackaddr := u32 (8 * pl + 4) in
    if seg_limit_scaled (cache tr) <? u32 (TSSstackaddr + 7) then
      exception BX_TS_EXCEPTION (Z.land (sel_value (selector tr)) 0xfffc)
    else
      ss ← system_read_word (u32 (seg_base (cache tr) + TSSstackaddr + 4));
      esp ← system_read_dword (u32 (seg_base (cache tr) + TSSstackaddr));
      mret (ss, esp)
  else if (desc_type (cache tr) =? BX_SYS_SEGMENT_AVAIL_286_TSS) ||
          (desc_type (cache tr) =? BX_SYS_SEGMENT_BUSY_286_TSS) then
    let TSSstackaddr := u32 (4 * pl + 2) in
    if seg_limit_scaled (cache tr) <? u32 (TSSstackaddr + 3) then
      exception BX_TS_EXCEPTION (Z.land (sel_value (selector tr)) 0xfffc)
    else
      ss ← system_read_word (u32 (seg_base (cache tr) + TSSstackaddr + 2));
      esp ← system_read_word (u32 (seg_base (cache tr) + TSSstackaddr));
      mret (ss, esp)
  else crash.

(** Steps 1 and 2: the limits of the two TSSs, and that they are paged in. *)
Definition task_switch_check (tss_selector : bx_selector_t) (tss_descriptor : bx_descriptor_t) (source : Z)
    : Mach unit :=
  let new_TSS_max := if desc_type tss_descriptor <=? 3 then 0x2B else 0x67 in
  let nbase32 := seg_base tss_descriptor in
  let new_TSS_limit := seg_limit_scaled tss_descriptor in
  when (new_TSS_limit <? new_TSS_max)
    (exception BX_TS_EXCEPTION (Z.land (sel_value tss_selector) 0xfffc));;
  tr ← gets tr;
  let old_TSS_max := if desc_type (cache tr) <=? 3 then 0x29 else 0x5F in
  let old_TSS_limit := seg_limit_scaled (cache tr) in
  when (old_TSS_limit <? old_TSS_max)
    (exception BX_TS_EXCEPTION (Z.land (sel_value (selector tr)) 0xfffc));;
  pg ← gets cr0_get_PG;
  when (nz pg)
    (dtranslate_linear nbase32 0 BX_READ;;
     dtranslate_linear (u32 (nbase32 + new_TSS_max)) 0 BX_READ;;
     when ((source =? BX_TASK_FROM_CALL) || (source =? BX_TASK_FROM_INT))
       (dtranslate_linear nbase32 0 BX_WRITE;;
        dtranslate_linear (u32 (nbase32 + 1)) 0 BX_WRITE;;
        mret tt)).

(** Steps 3 to 5: the busy bit of the old TSS, and the old task's state. *)
Definition task_switch_save (tss_descriptor : bx_descriptor_t) (source : Z) : Mach unit :=
  tr ← gets tr;
  let obase32 := seg_base (cache tr) in
  let nbase32 := seg_base tss_descriptor in
  when ((source =? BX_TASK_FROM_JUMP) || (source =? BX_TASK_FROM_IRET))
    (gdt ← gets gdtr;
     let laddr := u32 (gseg_base gdt + Z.shiftl (sel_index (selector tr)) 3 + 4) in
     temp32 ← access_read_linear laddr 4 0 BX_RW;
     access_write_linear laddr 4 0 (Z.ldiff temp32 0x200));;
  oldEFLAGS ← read_eflags;
  let oldEFLAGS := if (desc_type tss_descriptor =? BX_SYS_SEGMENT_BUSY_286_TSS) ||
                      (desc_type tss_descriptor =? BX_SYS_SEGMENT_BUSY_386_TSS)
                   then Z.ldiff oldEFLAGS EFlagsNTMask else oldEFLAGS in
  pg ← gets cr0_get_PG;
  (if desc_type (cache tr) <=? 3 then
     when (nz pg)
       (dtranslate_linear (u32 (obase32 + 14)) 0 BX_WRITE;;
        dtranslate_linear (u32 (obase32 + 41)) 0 BX_WRITE;; mret tt);;
     ip ← IP; system_write_word (u32 (obase32 + 14)) ip;;
     system_write_word (u32 (obase32 + 16)) oldEFLAGS;;
     ax ← AX; system_write_word (u32 (obase32 + 18)) ax;;
     cx ← CX; system_write_word (u32 (obase32 + 20)) cx;;
     dx ← DX; system_write_word (u32 (obase32 + 22)) dx;;
     bx ← BX; system_write_word (u32 (obase32 + 24)) bx;;
     sp ← SP; system_write_word (u32 (obase32 + 26)) sp;;
     bp ← BP; system_write_word (u32 (obase32 + 28)) bp;;
     si ← SI; system_write_word (u32 (obase32 + 30)) si;;
     di ← DI; system_write_word (u32 (obase32 + 32)) di;;
     es ← sreg_value BX_SEG_REG_ES; system_write_word (u32 (obase32 + 34)) es;;
     cs ← sreg_value BX_SEG_REG_CS; system_write_word (u32 (obase32 + 36)) cs;;
     ss ← sreg_value BX_SEG_REG_SS; system_write_word (u32 (obase32 + 38)) ss;;
     ds ← sreg_value BX_SEG_REG_DS; system_write_word (u32 (obase32 + 40)) ds
   else
     when (nz pg)
       (dtranslate_linear (u32 (obase32 + 0x20)) 0 BX_WRITE;;
        dtranslate_linear (u32 (obase32 + 0x5d)) 0 BX_WRITE;; mret tt);;
     eip ← EIP; system_write_dword (u32 (obase32 + 0x20)) eip;;
     system_write_dword (u32 (obase32 + 0x24)) oldEFLAGS;;
     eax ← EAX; system_write_dword (u32 (obase32 + 0x28)) eax;;
     ecx ← ECX; system_write_dword (u32 (obase32 + 0x2c)) ecx;;
     edx ← EDX; system_write_dword (u32 (obase32 + 0x30)) edx;;
     ebx ← EBX; system_write_dword (u32 (obase32 + 0x34)) ebx;;
     esp ← ESP; system_write_dword (u32 (obase32 + 0x38)) esp;;
     ebp ← EBP; system_write_dword (u32 (obase32 + 0x3c)) ebp;;
     esi ← ESI; system_write_dword (u32 (obase32 + 0x40)) esi;;
     edi ← EDI; system_write_dword (u32 (obase32 + 0x44)) edi;;
     es ← sreg_value BX_SEG_REG_ES; system_write_word (u32 (obase32 + 0x48)) es;;
     cs ← sreg_value BX_SEG_REG_CS; system_write_word (u32 (obase32 + 0x4c)) cs;;
     ss ← sreg_value BX_SEG_REG_SS; system_write_word (u32 (obase32 + 0x50)) ss;;
     ds ← sreg_value BX_SEG_REG_DS; system_write_word (u32 (obase32 + 0x54)) ds;;
     fs ← sreg_value BX_SEG_REG_FS; system_write_word (u32 (obase32 + 0x58)) fs;;
     gs ← sreg_value BX_SEG_REG_GS; system_write_word (u32 (obase32 + 0x5c)) gs);;
  when ((source =? BX_TASK_FROM_CALL) || (source =? BX_TASK_FROM_INT))
    (system_write_word nbase32 (sel_value (selector tr))).

(** The locals that hold the new task's state. *)
Record task_state : Type := mk_task_state {
  newCR3 : Z; newEIP : Z; newEFLAGS : Z;
  newEAX : Z; newECX : Z; newEDX : Z; newEBX : Z; newESP : Z; newEBP : Z; newESI : Z; newEDI : Z;
  raw_es_selector : Z; raw_cs_selector : Z; raw_ss_selector : Z; raw_ds_selector : Z;
  raw_fs_selector : Z; raw_gs_selector : Z; raw_ldt_selector : Z;
  trap_word : Z
}.

(** Step 6. *)
Definition task_switch_read (tss_descriptor : bx_descriptor_t) : Mach task_state :=
  let nbase32 := seg_base tss_descriptor in
  if desc_type tss_descriptor <=? 3 then
    eip ← system_read_word (u32 (nbase32 + 14));
    efl ← system_read_word (u32 (nbase32 + 16));
    ax ← system_read_word (u32 (nbase32 + 18));
    cx ← system_read_word (u32 (nbase32 + 20));
    dx ← system_read_word (u32 (nbase32 + 22));
    bx ← system_read_word (u32 (nbase32 + 24));
    sp ← system_read_word (u32 (nbase32 + 26));
    bp ← system_read_word (u32 (nbase32 + 28));
    si ← system_read_word (u32 (nbase32 + 30));
    di ← system_read_word (u32 (nbase32 + 32));
    es ← system_read_word (u32 (nbase32 + 34));
    cs ← system_read_word (u32 (nbase32 + 36));
    ss ← system_read_word (u32 (nbase32 + 38));
    ds ← system_read_word (u32 (nbase32 + 40));
    ldt ← system_read_word (u32 (nbase32 + 42));
    mret (mk_task_state 0 eip efl (Z.lor 0xffff0000 ax) (Z.lor 0xffff0000 cx) (Z.lor 0xffff0000 dx)
            (Z.lor 0xffff0000 bx) (Z.lor 0xffff0000 sp) (Z.lor 0xffff0000 bp) (Z.lor 0xffff0000 si)
            (Z.lor 0xffff0000 di) es cs ss ds 0 0 ldt 0)
  else
    pg ← gets cr0_get_PG;
    cr3 ← (if nz pg then system_read_dword (u32 (nbase32 + 0x1c)) else mret 0);
    eip ← system_read_dword (u32 (nbase32 + 0x20));
    efl ← system_read_dword (u32 (nbase32 + 0x24));
    eax ← system_read_dword (u32 (nbase32 + 0x28));
    ecx ← system_read_dword (u32 (nbase32 + 0x2c));
    edx ← system_read_dword (u32 (nbase32 + 0x30));
    ebx ← system_read_dword (u32 (nbase32 + 0x34));
    esp ← system_read_dword (u32 (nbase32 + 0x38));
    ebp ← system_read_dword (u32 (nbase32 + 0x3c));
    esi ← system_read_dword (u32 (nbase32 + 0x40));
    edi ← system_read_dword (u32 (nbase32 + 0x44));
    es ← system_read_word (u32 (nbase32 + 0x48));
    cs ← system_read_word (u32 (nbase32 + 0x4c));
    ss ← system_read_word (u32 (nbase32 + 0x50));
    ds ← system_read_word (u32 (nbase32 + 0x54));
    fs ← system_read_word (u32 (nbase32 + 0x58));
    gs ← system_read_word (u32 (nbase32 + 0x5c));
    ldt ← system_read_word (u32 (nbase32 + 0x60));
    trap ← system_read_word (u32 (nbase32 + 0x64));
    mret (mk_task_state cr3 eip efl eax ecx edx ebx esp ebp esi edi es cs ss ds fs gs ldt trap).

(** Steps 7 to 11, up to the first load of a segment: from the commit point on
    the new task's registers are in place. *)
Definition set_selector (n raw : Z) : Mach unit :=
  modify (fun s => set_sreg n (mk_segment_reg (parse_selector raw) (cache (sreg n s))) s).
Definition invalidate_cache (n : Z) : Mach unit :=
  modify (fun s => set_sreg n (with_cache (with_desc_valid 0 (cache (sreg n s))) (sreg n s)) s).

Definition task_switch_commit (tss_selector : bx_selector_t) (tss_descriptor : bx_descriptor_t) (source : Z)
    (n : task_state) : Mach unit :=
  when (negb (source =? BX_TASK_FROM_IRET))
    (gdt ← gets gdtr;
     let laddr := u32 (gseg_base gdt + Z.shiftl (sel_index tss_selector) 3 + 4) in
     dword2 ← access_read_linear laddr 4 0 BX_RW;
     access_write_linear laddr 4 0 (Z.lor dword2 0x200));;
  modify (with_tr (mk_segment_reg tss_selector
    (with_desc_type (Z.lor (desc_type tss_descriptor) 2) tss_descriptor)));;
  cr0_set_TS 1;;
  modify (fun s => with_dr7 (Z.ldiff (dr7 s) 0x00000155) s);;
  let newEFLAGS := if (source =? BX_TASK_FROM_CALL) || (source =? BX_TASK_FROM_INT)
                   then Z.lor (newEFLAGS n) EFlagsNTMask else newEFLAGS n in
  set_EIP (newEIP n);;
  modify (with_prev_rip (newEIP n));;
  set_EAX (newEAX n);; set_ECX (newECX n);; set_EDX (newEDX n);; set_EBX (newEBX n);;
  set_ESP (newESP n);; set_EBP (newEBP n);; set_ESI (newESI n);; set_EDI (newEDI n);;
  modify (with_speculative_rsp 0);;
  writeEFlags newEFLAGS EFlagsValidMask;;
  set_selector BX_SEG_REG_CS (raw_cs_selector n);;
  set_selector BX_SEG_REG_SS (raw_ss_selector n);;
  set_selector BX_SEG_REG_DS (raw_ds_selector n);;
  set_selector BX_SEG_REG_ES (raw_es_selector n);;
  set_selector BX_SEG_REG_FS (raw_fs_selector n);;
  set_selector BX_SEG_REG_GS (raw_gs_selector n);;
  modify (fun s => with_ldtr (mk_segment_reg (parse_selector (raw_ldt_selector n)) (cache (ldtr s))) s);;
  modify (fun s => with_ldtr (with_cache (with_desc_valid 0 (cache (ldtr s))) (ldtr s)) s);;
  invalidate_cache BX_SEG_REG_CS;;
  invalidate_cache BX_SEG_REG_SS;;
  invalidate_cache BX_SEG_REG_DS;;
  invalidate_cache BX_SEG_REG_ES;;
  invalidate_cache BX_SEG_REG_FS;;
  invalidate_cache BX_SEG_REG_GS;;
  pg ← gets cr0_get_PG;
  when ((9 <=? desc_type tss_descriptor) && nz pg)
    (cr3 ← gets cr3;
     when (negb (newCR3 n =? cr3))
       (ok ← SetCR3 (newCR3 n);
        when (ok =? 0) (exception BX_GP_EXCEPTION 0))).

Definition set_CPL (v : Z) : Mach unit :=
  modify (fun s => set_sreg BX_SEG_REG_CS
    (mk_segment_reg (with_sel_rpl v (selector (sreg BX_SEG_REG_CS s))) (cache (sreg BX_SEG_REG_CS s))) s).

(** Step 11: LDTR. *)
Definition task_switch_LDTR (raw_ldt_selector : Z) : Mach unit :=
  let ldt_selector := parse_selector raw_ldt_selector in
  when (nz (sel_ti ldt_selector)) (exception BX_TS_EXCEPTION (Z.land raw_ldt_selector 0xfffc));;
  when (negb (Z.land raw_ldt_selector 0xfffc =? 0))
    (good ← fetch_raw_descriptor2 ldt_selector;
     match good with
     | None => exception BX_TS_EXCEPTION (Z.land raw_ldt_selector 0xfffc)
     | Some (dword1, dword2) =>
         let ldt_descriptor := parse_descriptor dword1 dword2 uninitialised in
         if (desc_valid ldt_descriptor =? 0) || negb (desc_type ldt_descriptor =? BX_SYS_SEGMENT_LDT) ||
            nz (desc_segment ldt_descriptor)
         then exception BX_TS_EXCEPTION (Z.land raw_ldt_selector 0xfffc) else
         if negb (IS_PRESENT ldt_descriptor)
         then exception BX_TS_EXCEPTION (Z.land raw_ldt_selector 0xfffc) else
         modify (fun s => with_ldtr (with_cache ldt_descriptor (ldtr s)) s)
     end).

Definition task_switch_SS (raw_ss_selector cs_rpl : Z) : Mach unit :=
  let ss_selector := parse_selector raw_ss_selector in
  if negb (Z.land raw_ss_selector 0xfffc =? 0) then
    good ← fetch_raw_descriptor2 ss_selector;
    match good with
    | None => exception BX_TS_EXCEPTION (Z.land raw_ss_selector 0xfffc)
    | Some (dword1, dword2) =>
        let ss_descriptor := parse_descriptor dword1 dword2 uninitialised in
        if (desc_valid ss_descriptor =? 0) || (desc_segment ss_descriptor =? 0) ||
           IS_CODE_SEGMENT (desc_type ss_descriptor) || negb (IS_DATA_SEGMENT_WRITEABLE (desc_type ss_descriptor))
        then exception BX_TS_EXCEPTION (Z.land raw_ss_selector 0xfffc) else
        if negb (IS_PRESENT ss_descriptor)
        then exception BX_SS_EXCEPTION (Z.land raw_ss_selector 0xfffc) else
        if negb (desc_dpl ss_descriptor =? cs_rpl)
        then exception BX_TS_EXCEPTION (Z.land raw_ss_selector 0xfffc) else
        if negb (desc_dpl ss_descriptor =? sel_rpl ss_selector)
        then exception BX_TS_EXCEPTION (Z.land raw_ss_selector 0xfffc) else
        ss_descriptor ← touch_segment ss_selector ss_descriptor;
        modify (fun s => set_sreg BX_SEG_REG_SS (with_cache ss_descriptor (sreg BX_SEG_REG_SS s)) s)
    end
  else exception BX_TS_EXCEPTION (Z.land raw_ss_selector 0xfffc).

Definition task_switch_CS (raw_cs_selector : Z) : Mach unit :=
  let cs_selector := parse_selector raw_cs_selector in
  if negb (Z.land raw_cs_selector 0xfffc =? 0) then
    good ← fetch_raw_descriptor2 cs_selector;
    match good with
    | None => exception BX_TS_EXCEPTION (Z.land raw_cs_selector 0xfffc)
    | Some (dword1, dword2) =>
        let cs_descriptor := parse_descriptor dword1 dword2 uninitialised in
        if (desc_valid cs_descriptor =? 0) || (desc_segment cs_descriptor =? 0) ||
           IS_DATA_SEGMENT (desc_type cs_descriptor)
        then exception BX_TS_EXCEPTION (Z.land raw_cs_selector 0xfffc) else
        if IS_CODE_SEGMENT_NON_CONFORMING (desc_type cs_descriptor) &&
           negb (desc_dpl cs_descriptor =? sel_rpl cs_selector)
        then exception BX_TS_EXCEPTION (Z.land raw_cs_selector 0xfffc) else
        if IS_CODE_SEGMENT_CONFORMING (desc_type cs_descriptor) && (sel_rpl cs_selector <? desc_dpl cs_descriptor)
        then exception BX_TS_EXCEPTION (Z.land raw_cs_selector 0xfffc) else
        if negb (IS_PRESENT cs_descriptor)
        then exception BX_NP_EXCEPTION (Z.land raw_cs_selector 0xfffc) else
        cs_descriptor ← touch_segment cs_selector cs_descriptor;
        modify (fun s => set_sreg BX_SEG_REG_CS (with_cache cs_descriptor (sreg BX_SEG_REG_CS s)) s)
    end
  else exception BX_TS_EXCEPTION (Z.land raw_cs_selector 0xfffc).

(** Step 11: the segment registers, in the new task's context. *)
Definition task_switch_segments (n : task_state) : Mach unit :=
  save_CPL ← gets CPL;
  set_CPL 3;;
  task_switch_LDTR (raw_ldt_selector n);;
  v86 ← gets v8086_mode;
  if (v86 : bool) then
    load_seg_reg BX_SEG_REG_SS (raw_ss_selector n);;
    load_seg_reg BX_SEG_REG_DS (raw_ds_selector n);;
    load_seg_reg BX_SEG_REG_ES (raw_es_selector n);;
    load_seg_reg BX_SEG_REG_FS (raw_fs_selector n);;
    load_seg_reg BX_SEG_REG_GS (raw_gs_selector n);;
    load_seg_reg BX_SEG_REG_CS (raw_cs_selector n)
  else
    let cs_rpl := sel_rpl (parse_selector (raw_cs_selector n)) in
    task_switch_SS (raw_ss_selector n) cs_rpl;;
    set_CPL save_CPL;;
    task_switch_load_selector BX_SEG_REG_DS (parse_selector (raw_ds_selector n)) (raw_ds_selector n) cs_rpl;;
    task_switch_load_selector BX_SEG_REG_ES (parse_selector (raw_es_selector n)) (raw_es_selector n) cs_rpl;;
    task_switch_load_selector BX_SEG_REG_FS (parse_selector (raw_fs_selector n)) (raw_fs_selector n) cs_rpl;;
    task_switch_load_selector BX_SEG_REG_GS (parse_selector (raw_gs_selector n)) (raw_gs_selector n) cs_rpl;;
    task_switch_CS (raw_cs_selector n);;
    updateFetchModeMask;;
    handleAlignmentCheck.

Definition task_switch (tss_selector : bx_selector_t) (tss_descriptor : bx_descriptor_t) (source : Z) : Mach unit :=
  invalidate_prefetch_q;;
  modify (with_debug_trap 0);;
  modify (with_inhibit_mask 0);;
  task_switch_check tss_selector tss_descriptor source;;
  task_switch_save tss_descriptor source;;
  n ← task_switch_read tss_descriptor;
  task_switch_commit tss_selector tss_descriptor source n;;
  task_switch_segments n;;
  when ((9 <=? desc_type tss_descriptor) && nz (Z.land (trap_word n) 0x1))
    (modify (fun s => with_debug_trap (Z.lor (debug_trap s) BX_DEBUG_TRAP_TASK_SWITCH_BIT) s);;
     modify (with_async_event 1)).

(** ** The relations *)

(** *** Pending flags do not matter *)

Lemma fetch_raw_descriptor2_refines sel : refines (fetch_raw_descriptor2 sel) (fetch_raw_descriptor2 sel).
Proof. unfold fetch_raw_descriptor2, system_read_qword. refines_tac. Qed.
Lemma system_write_refines len a v : refines (system_write len a v) (system_write len a v).
Proof. unfold system_write, host_write. refines_tac. Qed.
#[export] Hint Resolve fetch_raw_descriptor2_refines system_write_refines : refines.
Lemma read_eflags_refines : refines read_eflags read_eflags.
Proof.
  intros s. unfold read_eflags. rewrite (force_flags_refines s), force_flags_eq.
  rewrite (norm_known (norm s)) by done. reflexivity.
Qed.
#[export] Hint Resolve read_eflags_refines : refines.
Lemma load_cs_refines sel d c : refines (load_cs sel d c) (load_cs sel d c).
Proof. unfold load_cs, invalidate_prefetch_q. refines_tac. Qed.
Lemma load_ss_refines sel d c : refines (load_ss sel d c) (load_ss sel d c).
Proof. unfold load_ss. refines_tac. Qed.
Lemma get_SS_ESP_from_TSS_refines pl : refines (get_SS_ESP_from_TSS pl) (get_SS_ESP_from_TSS pl).
Proof. unfold get_SS_ESP_from_TSS, system_read_word, system_read_dword. refines_tac. Qed.
#[export] Hint Resolve load_cs_refines load_ss_refines get_SS_ESP_from_TSS_refines : refines.

Lemma task_switch_save_refines d source : refines (task_switch_save d source) (task_switch_save d source).
Proof.
  unfold task_switch_save, dtranslate_linear, sreg_value, system_write_word, system_write_dword. unfold_widths.
  refines_tac.
Qed.
Lemma task_switch_read_refines d : refines (task_switch_read d) (task_switch_read d).
Proof. unfold task_switch_read, system_read_word, system_read_dword. refines_tac. Qed.
Lemma task_switch_load_selector_refines n sel raw rpl :
  refines (task_switch_load_selector n sel raw rpl) (task_switch_load_selector n sel raw rpl).
Proof. unfold task_switch_load_selector. refines_tac. Qed.
#[export] Hint Resolve task_switch_save_refines task_switch_read_refines task_switch_load_selector_refines : refines.
Lemma task_switch_commit_refines sel d source n :
  refines (task_switch_commit sel d source n) (task_switch_commit sel d source n).
Proof.
  unfold task_switch_commit, cr0_set_TS, set_selector, invalidate_cache, SetCR3, TLB_flush. unfold_widths.
  repeat match goal with
  | |- refines (writeEFlags _ _) _ => apply writeEFlags_refines; reflexivity
  | _ => refines_step
  end.
Qed.
Lemma task_switch_segments_refines n : refines (task_switch_segments n) (task_switch_segments n).
Proof.
  unfold task_switch_segments, set_CPL, task_switch_LDTR, task_switch_SS, task_switch_CS. refines_tac.
Qed.
#[export] Hint Resolve task_switch_commit_refines task_switch_segments_refines : refines.
Lemma task_switch_refines sel d source : refines (task_switch sel d source) (task_switch sel d source).
Proof. unfold task_switch, invalidate_prefetch_q, task_switch_check, dtranslate_linear. refines_tac. Qed.
#[export] Hint Resolve task_switch_refines : refines.

(** *** The invariant *)

(** What [fetch_raw_descriptor] and [parse_descriptor] make of a code or data
    segment. *)
Definition is_segment (d : bx_descriptor_t) : Prop :=
  (exists raw t, d = parse_descriptor (GET32L raw) (GET32H raw) t) /\ (desc_segment d =? 0) = false.

Lemma with_valid_id d : desc_valid d = 1 -> with_desc_valid 1 d = d.
Proof. destruct d. cbn. by intros ->. Qed.
Lemma segment_valid d : is_segment d -> desc_valid d = 1.
Proof.
  intros ((raw & t & ->) & HS). destruct (Z.testbit raw 44) eqn:E.
  - by rewrite (parse_descriptor_segment raw t E).
  - by rewrite (parse_descriptor_system raw t E) in HS.
Qed.
Lemma segment_cache_ok d : is_segment d -> cache_ok (with_desc_valid 1 d).
Proof. intros ((raw & t & ->) & HS). apply (touched_cache_ok raw t); [done|tauto]. Qed.
Lemma touch_segment_ok sel d :
  is_segment d -> yields (touch_segment sel d) (fun d' => desc_valid d' = 1 /\ cache_ok (with_desc_valid 1 d')).
Proof.
  intros Hd s d' s' E. pose proof (segment_valid d Hd) as Hv.
  pose proof (touch_segment_yields sel d s d' s' E) as Hd'.
  split; [by destruct Hd' as [->| ->]|].
  destruct Hd as ((raw & t & ->) & HS). by apply (touched_cache_ok raw t).
Qed.
Lemma load_cs_wf sel d c : is_segment d -> preserves wf (load_cs sel d c).
Proof.
  intros Hd. unfold load_cs, invalidate_prefetch_q. cbv zeta.
  eapply preserves_bind_yields; [eauto with preserves|by apply touch_segment_ok|]. intros d' [_ Hc].
  apply preserves_bind; [|intros _; preserves_tac; wf_modify].
  apply preserves_modify. intros s Hw. by apply set_sreg_wf.
Qed.
Lemma load_ss_wf sel d c : is_segment d -> preserves wf (load_ss sel d c).
Proof.
  intros Hd. unfold load_ss. cbv zeta.
  eapply preserves_bind_yields with (P := fun d' => cache_ok (with_desc_valid 1 d')); [preserves_tac| |].
  - apply yields_if; [|by apply yields_ret, segment_cache_ok].
    intros s d' s' E. by apply (touch_segment_ok _ d Hd s d' s' E).
  - intros d' Hc. apply preserves_modify. intros s Hw. by apply set_sreg_wf.
Qed.

Lemma fetch_raw_descriptor2_yields sel :
  yields (fetch_raw_descriptor2 sel)
    (fun o => match o with Some p => exists raw, p = (GET32L raw, GET32H raw) | None => True end).
Proof.
  unfold fetch_raw_descriptor2. cbv zeta.
  repeat match goal with
  | |- yields (mbind _ _) _ => apply yields_bind; intros ?
  | |- yields (if _ then _ else _) _ => apply yields_if
  | |- yields (mret None) _ => by apply yields_ret
  | |- yields (mret (Some (GET32L ?raw, _))) _ => apply yields_ret; by exists raw
  end.
Qed.
Lemma fetch_raw_descriptor2_wf sel : preserves wf (fetch_raw_descriptor2 sel).
Proof. unfold fetch_raw_descriptor2, system_read_qword. preserves_tac. Qed.
#[export] Hint Resolve fetch_raw_descriptor2_wf : preserves.

(** A descriptor is fetched, checked to be a segment's, touched and cached. *)
Lemma cache_segment_wf n sel d :
  is_segment d ->
  preserves wf (d' ← touch_segment sel d; modify (fun s => set_sreg n (with_cache d' (sreg n s)) s)).
Proof.
  intros Hd. eapply preserves_bind_yields; [eauto with preserves|by apply touch_segment_ok|].
  intros d' [Hv Hc]. rewrite (with_valid_id d' Hv) in Hc.
  apply preserves_modify. intros s Hw. by apply set_sreg_wf.
Qed.
Lemma fetched_wf sel (k : option (Z * Z) -> Mach unit) :
  preserves wf (k None) -> (forall raw, preserves wf (k (Some (GET32L raw, GET32H raw)))) ->
  preserves wf (fetch_raw_descriptor2 sel ≫= k).
Proof.
  intros Hn Hs. eapply preserves_bind_yields; [eauto with preserves|apply fetch_raw_descriptor2_yields|].
  intros [p|]; [|done]. intros [raw ->]. apply Hs.
Qed.
Ltac checks_wf := repeat (apply preserves_if; [apply preserves_raise|]).
Lemma task_switch_load_selector_wf n sel raw rpl : preserves wf (task_switch_load_selector n sel raw rpl).
Proof.
  unfold task_switch_load_selector. apply preserves_when, fetched_wf; [apply preserves_raise|].
  intros r. cbv zeta. destruct (desc_segment _ =? 0) eqn:HS; cbn [orb]; [apply preserves_raise|]. checks_wf.
  apply cache_segment_wf. split; [by eexists _, _|done].
Qed.
Lemma task_switch_SS_wf raw rpl : preserves wf (task_switch_SS raw rpl).
Proof.
  unfold task_switch_SS. cbv zeta. apply preserves_if; [|apply preserves_raise].
  apply fetched_wf; [apply preserves_raise|]. intros r.
  destruct (desc_valid _ =? 0); cbn [orb]; [apply preserves_raise|].
  destruct (desc_segment _ =? 0) eqn:HS; cbn [orb]; [apply preserves_raise|]. checks_wf.
  apply cache_segment_wf. split; [by eexists _, _|done].
Qed.
Lemma task_switch_CS_wf raw : preserves wf (task_switch_CS raw).
Proof.
  unfold task_switch_CS. cbv zeta. apply preserves_if; [|apply preserves_raise].
  apply fetched_wf; [apply preserves_raise|]. intros r.
  destruct (desc_valid _ =? 0); cbn [orb]; [apply preserves_raise|].
  destruct (desc_segment _ =? 0) eqn:HS; cbn [orb]; [apply preserves_raise|]. checks_wf.
  apply cache_segment_wf. split; [by eexists _, _|done].
Qed.
#[export] Hint Resolve task_switch_load_selector_wf task_switch_SS_wf task_switch_CS_wf : preserves.

Lemma invalid_cache_ok d : cache_ok d -> cache_ok (with_desc_valid 0 d).
Proof. intros (? & ? & ? & _). unfold cache_ok. msimpl. split; [done|]. split; [done|]. split; [done|]. by split. Qed.
Lemma set_selector_wf n raw : preserves wf (set_selector n raw).
Proof. apply preserves_modify. intros s Hw. apply set_sreg_wf; [done|]. by apply sreg_ok. Qed.
Lemma invalidate_cache_wf n : preserves wf (invalidate_cache n).
Proof. apply preserves_modify. intros s Hw. apply set_sreg_wf; [done|]. by apply invalid_cache_ok, sreg_ok. Qed.
Lemma set_CPL_wf v : preserves wf (set_CPL v).
Proof. apply preserves_modify. intros s Hw. apply set_sreg_wf; [done|]. by apply sreg_ok. Qed.
#[export] Hint Resolve set_selector_wf invalidate_cache_wf set_CPL_wf : preserves.

Lemma system_read_dword_yields a : yields (system_read_dword a) in32.
Proof.
  unfold system_read_dword, system_read, host_read. apply yields_bind. intros e.
  apply yields_if; [apply (read_physical_yields _ 4)|]. apply (access_read_linear_yields a 4).
Qed.
Lemma task_switch_read_yields d : yields (task_switch_read d) (fun n => in32 (newCR3 n)).
Proof.
  unfold task_switch_read. cbv zeta. apply yields_if.
  - do 15 (apply yields_bind; intros ?). by apply yields_ret.
  - apply yields_bind; intros pg.
    apply (yields_bind_with _ _ in32); [apply yields_if; [apply system_read_dword_yields|by apply yields_ret]|].
    intros cr3 H3. do 18 (apply yields_bind; intros ?). by apply yields_ret.
Qed.
Lemma task_switch_save_wf d source : preserves wf (task_switch_save d source).
Proof.
  unfold task_switch_save, dtranslate_linear, sreg_value, system_write_word, system_write_dword, read_eflags.
  unfold_widths. preserves_tac.
Qed.
Lemma task_switch_read_wf d : preserves wf (task_switch_read d).
Proof. unfold task_switch_read, system_read_word, system_read_dword. preserves_tac. Qed.
Lemma task_switch_commit_wf sel d source n :
  in32 (newCR3 n) -> preserves wf (task_switch_commit sel d source n).
Proof.
  intros H3. unfold task_switch_commit, cr0_set_TS, SetCR3, TLB_flush. unfold_widths.
  repeat first [preserves_step | wf_modify].
  apply preserves_modify. intros s (? & ? & _ & ?). by split.
Qed.
Lemma task_switch_segments_wf n : preserves wf (task_switch_segments n).
Proof. unfold task_switch_segments, task_switch_LDTR. repeat first [preserves_step | wf_modify]. Qed.
#[export] Hint Resolve task_switch_save_wf task_switch_read_wf task_switch_segments_wf : preserves.
Lemma task_switch_wf sel d source : preserves wf (task_switch sel d source).
Proof.
  unfold task_switch, invalidate_prefetch_q, task_switch_check, dtranslate_linear.
  do 5 (apply preserves_bind; [repeat first [preserves_step | wf_modify]|intros _]).
  eapply preserves_bind_yields; [eauto with preserves|apply task_switch_read_yields|].
  intros n Hn. apply preserves_bind; [by apply task_switch_commit_wf|intros _].
  repeat first [preserves_step | wf_modify].
Qed.
#[export] Hint Resolve task_switch_wf : preserves.
