(* ===== verification/Exception.v ===== *)
(** * Exception: delivery of interrupts and exceptions

    cpu/exception.cc.  A handler that raises an exception leaves the emulator's
    C function through [exception()], which restores EIP and, if it is
    speculative, ESP, turns certain pairs of exceptions into a double fault,
    and delivers the exception through [interrupt()]; delivering it may raise
    another one.  [exception_loop] is that recursion, with the depth as fuel. *)
From stdpp Require Import base numbers list gmap.
From Stdlib Require Import ZArith Lia.
From S2P Require Import Prelude Machine LazyFlags Memory Paging Access Regs Precise Reference Mode Segment SegLoad Frame Stack FlagCtrl CtrlPro.

Local Open Scope Z_scope.

(** ** Entering a handler in protected mode *)

(** cpu/cpu.h *)
Definition BX_EXTERNAL_INTERRUPT : Z := 0.
Definition BX_NMI : Z := 2.
Definition BX_HARDWARE_EXCEPTION : Z := 3.
Definition BX_SOFTWARE_INTERRUPT : Z := 4.
Definition BX_PRIVILEGED_SOFTWARE_INTERRUPT : Z := 5.
Definition BX_SOFTWARE_EXCEPTION : Z := 6.

(** A task gate. *)
Definition int_task_gate (gate_descriptor : bx_descriptor_t) (push_error error_code : Z) : Mach unit :=
  let raw_tss_selector := taskgate_tss_selector gate_descriptor in
  let tss_selector := parse_selector raw_tss_selector in
  when (nz (sel_ti tss_selector)) (exception BX_GP_EXCEPTION (Z.land raw_tss_selector 0xfffc));;
  p ← fetch_raw_descriptor tss_selector BX_GP_EXCEPTION;
  let tss_descriptor := parse_descriptor p.1 p.2 uninitialised in
  when ((desc_valid tss_descriptor =? 0) || nz (desc_segment tss_descriptor))
    (exception BX_GP_EXCEPTION (Z.land raw_tss_selector 0xfffc));;
  when (negb (desc_type tss_descriptor =? BX_SYS_SEGMENT_AVAIL_286_TSS) &&
        negb (desc_type tss_descriptor =? BX_SYS_SEGMENT_AVAIL_386_TSS))
    (exception BX_GP_EXCEPTION (Z.land raw_tss_selector 0xfffc));;
  when (negb (IS_PRESENT tss_descriptor)) (exception BX_NP_EXCEPTION (Z.land raw_tss_selector 0xfffc));;
  task_switch tss_selector tss_descriptor BX_TASK_FROM_INT;;
  RSP_SPECULATIVE;;
  when (nz push_error)
    (if 9 <=? desc_type tss_descriptor then push_32 error_code else push_16 error_code);;
  eip ← EIP;
  limit ← gets (fun s => seg_limit_scaled (cache (sreg BX_SEG_REG_CS s)));
  when (limit <? eip) (exception BX_GP_EXCEPTION 0);;
  RSP_COMMIT.

(** Successive stores below [temp], [len] bytes each, through the new stack
    segment; [cast] is the width of the stack pointer. *)
Fixpoint write_frame (len : nat) (cast : Z -> Z) (pl temp k : Z) (new_stack : bx_segment_reg_t)
    (values : list (Mach Z)) : Mach bx_segment_reg_t :=
  match values with
  | [] => mret new_stack
  | v :: values =>
      data ← v;
      new_stack ← write_new_stack_32 len new_stack (cast (temp - (k + Z.of_nat len))) pl data;
      write_frame len cast pl temp (k + Z.of_nat len) new_stack values
  end.

(** The image of the interrupted context on the new stack; returns the new stack
    pointer. *)
Definition int_new_stack (gate_type : Z) (is_v8086_mode : bool) (pl : Z) (new_stack : bx_segment_reg_t)
    (cast : Z -> Z) (temp old_SS old_ESP old_CS old_EIP push_error error_code : Z) : Mach Z :=
  let len := if 14 <=? gate_type then 4%nat else 2%nat in
  let width v := if 14 <=? gate_type then v else u16 v in
  p ← (if is_v8086_mode then
         new_stack ← write_frame len cast pl temp 0 new_stack
           [sreg_value BX_SEG_REG_GS; sreg_value BX_SEG_REG_FS; sreg_value BX_SEG_REG_DS; sreg_value BX_SEG_REG_ES];
         mret (new_stack, cast (temp - 4 * Z.of_nat len))
       else mret (new_stack, temp));
  let '(new_stack, temp) := p in
  new_stack ← write_frame len cast pl temp 0 new_stack
    [mret old_SS; mret (width old_ESP); (fl ← read_eflags; mret (width fl)); mret old_CS; mret (width old_EIP)];
  let temp := cast (temp - 5 * Z.of_nat len) in
  if nz push_error then
    let temp := cast (temp - Z.of_nat len) in
    write_new_stack_32 len new_stack temp pl error_code;;
    mret temp
  else mret temp.

Definition clear_data_segment (n : Z) : Mach unit :=
  modify (fun s => set_sreg n
    (mk_segment_reg (with_sel_value 0 (selector (sreg n s))) (with_desc_valid 0 (cache (sreg n s)))) s).

(** INTERRUPT TO INNER PRIVILEGE *)
Definition int_inner (gate_type gate_dest_offset : Z) (cs_selector : bx_selector_t)
    (cs_descriptor : bx_descriptor_t) (push_error error_code : Z) : Mach unit :=
  let dpl := desc_dpl cs_descriptor in
  is_v8086_mode ← gets v8086_mode;
  p ← get_SS_ESP_from_TSS dpl;
  let '(SS_for_cpl_x, ESP_for_cpl_x) := p in
  when (is_v8086_mode && negb (dpl =? 0))
    (exception BX_GP_EXCEPTION (Z.land (sel_value cs_selector) 0xfffc));;
  when (Z.land SS_for_cpl_x 0xfffc =? 0) (exception BX_TS_EXCEPTION 0);;
  let ss_selector := parse_selector SS_for_cpl_x in
  p ← fetch_raw_descriptor ss_selector BX_TS_EXCEPTION;
  let ss_descriptor := parse_descriptor p.1 p.2 uninitialised in
  when (negb (sel_rpl ss_selector =? dpl)) (exception BX_TS_EXCEPTION (Z.land SS_for_cpl_x 0xfffc));;
  when (negb (desc_dpl ss_descriptor =? dpl)) (exception BX_TS_EXCEPTION (Z.land SS_for_cpl_x 0xfffc));;
  if (desc_valid ss_descriptor =? 0) || (desc_segment ss_descriptor =? 0) ||
     IS_CODE_SEGMENT (desc_type ss_descriptor) || negb (IS_DATA_SEGMENT_WRITEABLE (desc_type ss_descriptor))
  then exception BX_TS_EXCEPTION (Z.land SS_for_cpl_x 0xfffc) else
  when (negb (IS_PRESENT ss_descriptor)) (exception BX_SS_EXCEPTION (Z.land SS_for_cpl_x 0xfffc));;
  when (seg_limit_scaled cs_descriptor <? gate_dest_offset) (exception BX_GP_EXCEPTION 0);;
  old_ESP ← ESP;
  old_SS ← sreg_value BX_SEG_REG_SS;
  old_EIP ← EIP;
  old_CS ← sreg_value BX_SEG_REG_CS;
  let new_stack := mk_segment_reg
    (with_sel_value (Z.lor (Z.land 0xfffc (sel_value ss_selector)) dpl) (with_sel_rpl dpl ss_selector))
    ss_descriptor in
  (if nz (seg_d_b ss_descriptor) then
     temp_ESP ← int_new_stack gate_type is_v8086_mode dpl new_stack u32 ESP_for_cpl_x
                  old_SS old_ESP old_CS old_EIP push_error error_code;
     set_ESP temp_ESP
   else
     temp_SP ← int_new_stack gate_type is_v8086_mode dpl new_stack u16 (u16 ESP_for_cpl_x)
                 old_SS old_ESP old_CS old_EIP push_error error_code;
     set_SP temp_SP);;
  load_cs cs_selector cs_descriptor dpl;;
  load_ss ss_selector ss_descriptor dpl;;
  set_EIP gate_dest_offset;;
  when (negb (nz (Z.land gate_type 1))) clear_IF;;
  clear_TF;;
  clear_VM;;
  clear_RF;;
  clear_NT;;
  when is_v8086_mode
    (clear_data_segment BX_SEG_REG_GS;; clear_data_segment BX_SEG_REG_FS;;
     clear_data_segment BX_SEG_REG_DS;; clear_data_segment BX_SEG_REG_ES).

(** INTERRUPT TO SAME PRIVILEGE *)
Definition int_same (gate_type gate_dest_offset : Z) (cs_selector : bx_selector_t)
    (cs_descriptor : bx_descriptor_t) (push_error error_code : Z) : Mach unit :=
  v86 ← gets v8086_mode;
  when (v86 && (IS_CODE_SEGMENT_CONFORMING (desc_type cs_descriptor) || negb (desc_dpl cs_descriptor =? 0)))
    (exception BX_GP_EXCEPTION (Z.land (sel_value cs_selector) 0xfffc));;
  when (seg_limit_scaled cs_descriptor <? gate_dest_offset) (exception BX_GP_EXCEPTION 0);;
  (if 14 <=? gate_type then
     fl ← read_eflags; push_32 fl;;
     cs ← sreg_value BX_SEG_REG_CS; push_32 cs;;
     eip ← EIP; push_32 eip;;
     when (nz push_error) (push_32 error_code)
   else
     fl ← read_eflags; push_16 (u16 fl);;
     cs ← sreg_value BX_SEG_REG_CS; push_16 cs;;
     ip ← IP; push_16 ip;;
     when (nz push_error) (push_16 error_code));;
  cpl ← gets CPL;
  load_cs cs_selector cs_descriptor cpl;;
  set_EIP gate_dest_offset;;
  when (negb (nz (Z.land gate_type 1))) clear_IF;;
  clear_TF;;
  clear_NT;;
  clear_VM;;
  clear_RF.

(** The last branch is a panic the checks before it rule out. *)
Definition protected_mode_int (vector soft_int push_error error_code : Z) : Mach unit :=
  idt ← gets idtr;
  when (gseg_limit idt <? vector * 8 + 7) (exception BX_GP_EXCEPTION (vector * 8 + 2));;
  desctmp ← system_read_qword (u32 (gseg_base idt + vector * 8));
  let gate_descriptor := parse_descriptor (GET32L desctmp) (GET32H desctmp) uninitialised in
  let gate_type := desc_type gate_descriptor in
  when ((desc_valid gate_descriptor =? 0) || nz (desc_segment gate_descriptor))
    (exception BX_GP_EXCEPTION (vector * 8 + 2));;
  when (negb (case_in gate_type [BX_TASK_GATE; BX_286_INTERRUPT_GATE; BX_286_TRAP_GATE;
                                 BX_386_INTERRUPT_GATE; BX_386_TRAP_GATE]))
    (exception BX_GP_EXCEPTION (vector * 8 + 2));;
  cpl ← gets CPL;
  when (nz soft_int && (desc_dpl gate_descriptor <? cpl)) (exception BX_GP_EXCEPTION (vector * 8 + 2));;
  when (negb (IS_PRESENT gate_descriptor)) (exception BX_NP_EXCEPTION (vector * 8 + 2));;
  if gate_type =? BX_TASK_GATE then int_task_gate gate_descriptor push_error error_code
  else if case_in gate_type [BX_286_INTERRUPT_GATE; BX_286_TRAP_GATE; BX_386_INTERRUPT_GATE; BX_386_TRAP_GATE] then
    let gate_dest_selector := gate_dest_selector gate_descriptor in
    let gate_dest_offset := gate_dest_offset gate_descriptor in
    when (Z.land gate_dest_selector 0xfffc =? 0) (exception BX_GP_EXCEPTION 0);;
    let cs_selector := parse_selector gate_dest_selector in
    p ← fetch_raw_descriptor cs_selector BX_GP_EXCEPTION;
    let cs_descriptor := parse_descriptor p.1 p.2 uninitialised in
    cpl ← gets CPL;
    if (desc_valid cs_descriptor =? 0) || (desc_segment cs_descriptor =? 0) ||
       IS_DATA_SEGMENT (desc_type cs_descriptor) || (cpl <? desc_dpl cs_descriptor)
    then exception BX_GP_EXCEPTION (Z.land (sel_value cs_selector) 0xfffc) else
    when (negb (IS_PRESENT cs_descriptor)) (exception BX_NP_EXCEPTION (Z.land (sel_value cs_selector) 0xfffc));;
    when (cpl <? desc_dpl cs_descriptor) (exception BX_GP_EXCEPTION (Z.land (sel_value cs_selector) 0xfffc));;
    if IS_CODE_SEGMENT_NON_CONFORMING (desc_type cs_descriptor) && (desc_dpl cs_descriptor <? cpl)
    then int_inner gate_type gate_dest_offset cs_selector cs_descriptor push_error error_code
    else int_same gate_type gate_dest_offset cs_selector cs_descriptor push_error error_code
  else crash.

(** ** Real mode, and both *)

Definition real_mode_int (vector push_error error_code : Z) : Mach unit :=
  idt ← gets idtr;
  when (gseg_limit idt <? vector * 4 + 3) (exception BX_GP_EXCEPTION 0);;
  fl ← read_eflags; push_16 (u16 fl);;
  cs ← sreg_value BX_SEG_REG_CS; push_16 cs;;
  ip ← IP; push_16 ip;;
  new_ip ← system_read_word (u32 (gseg_base idt + 4 * vector));
  limit ← gets (fun s => seg_limit_scaled (cache (sreg BX_SEG_REG_CS s)));
  when (limit <? new_ip) (exception BX_GP_EXCEPTION 0);;
  cs_selector ← system_read_word (u32 (gseg_base idt + 4 * vector + 2));
  load_seg_reg BX_SEG_REG_CS cs_selector;;
  set_EIP new_ip;;
  clear_IF;;
  clear_TF;;
  clear_AC;;
  clear_RF.

Definition interrupt (vector type push_error error_code : Z) : Mach unit :=
  invalidate_prefetch_q;;
  let soft_int := if case_in type [BX_SOFTWARE_INTERRUPT; BX_SOFTWARE_EXCEPTION] then 1 else 0 in
  when (negb (case_in type [BX_SOFTWARE_INTERRUPT; BX_SOFTWARE_EXCEPTION; BX_PRIVILEGED_SOFTWARE_INTERRUPT;
                            BX_EXTERNAL_INTERRUPT; BX_NMI; BX_HARDWARE_EXCEPTION])) BX_PANIC;;
  modify (with_debug_trap 0);;
  modify (with_inhibit_mask 0);;
  RSP_SPECULATIVE;;
  real ← gets real_mode;
  (if (real : bool) then real_mode_int vector push_error error_code
   else protected_mode_int vector soft_int push_error error_code);;
  RSP_COMMIT.

(** ** exception() *)

Definition BX_ET_BENIGN : Z := 0.
Definition BX_ET_CONTRIBUTORY : Z := 1.
Definition BX_ET_PAGE_FAULT : Z := 2.
Definition BX_ET_DOUBLE_FAULT : Z := 10.

Definition is_exception_OK : list (list Z) :=
  [[1; 1; 1];   (* 1st exception is BENIGN *)
   [1; 0; 1];   (* 1st exception is CONTRIBUTORY *)
   [1; 0; 0]].  (* 1st exception is PAGE_FAULT *)

Definition BX_EXCEPTION_CLASS_TRAP : Z := 0.
Definition BX_EXCEPTION_CLASS_FAULT : Z := 1.
Definition BX_EXCEPTION_CLASS_ABORT : Z := 2.

Record BxExceptionInfo : Type := mk_exception_info {
  exception_type : Z; exception_class : Z; info_push_error : Z
}.

Definition BX_CPU_HANDLED_EXCEPTIONS : Z := 20.

Definition exceptions_info : list BxExceptionInfo :=
  [ mk_exception_info BX_ET_CONTRIBUTORY BX_EXCEPTION_CLASS_FAULT 0;  (* DE *)
    mk_exception_info BX_ET_BENIGN       BX_EXCEPTION_CLASS_FAULT 0;  (* DB *)
    mk_exception_info BX_ET_BENIGN       BX_EXCEPTION_CLASS_FAULT 0;  (* NMI *)
    mk_exception_info BX_ET_BENIGN       BX_EXCEPTION_CLASS_TRAP  0;  (* BP *)
    mk_exception_info BX_ET_BENIGN       BX_EXCEPTION_CLASS_TRAP  0;  (* OF *)
    mk_exception_info BX_ET_BENIGN       BX_EXCEPTION_CLASS_FAULT 0;  (* BR *)
    mk_exception_info BX_ET_BENIGN       BX_EXCEPTION_CLASS_FAULT 0;  (* UD *)
    mk_exception_info BX_ET_BENIGN       BX_EXCEPTION_CLASS_FAULT 0;  (* NM *)
    mk_exception_info BX_ET_DOUBLE_FAULT BX_EXCEPTION_CLASS_FAULT 1;  (* DF *)
    mk_exception_info BX_ET_BENIGN       BX_EXCEPTION_CLASS_FAULT 0;
    mk_exception_info BX_ET_CONTRIBUTORY BX_EXCEPTION_CLASS_FAULT 1;  (* TS *)
    mk_exception_info BX_ET_CONTRIBUTORY BX_EXCEPTION_CLASS_FAULT 1;  (* NP *)
    mk_exception_info BX_ET_CONTRIBUTORY BX_EXCEPTION_CLASS_FAULT 1;  (* SS *)
    mk_exception_info BX_ET_CONTRIBUTORY BX_EXCEPTION_CLASS_FAULT 1;  (* GP *)
    mk_exception_info BX_ET_PAGE_FAULT   BX_EXCEPTION_CLASS_FAULT 1;  (* PF *)
    mk_exception_info BX_ET_BENIGN       BX_EXCEPTION_CLASS_FAULT 0;
    mk_exception_info BX_ET_BENIGN       BX_EXCEPTION_CLASS_FAULT 0;  (* MF *)
    mk_exception_info BX_ET_BENIGN       BX_EXCEPTION_CLASS_FAULT 1;  (* AC *)
    mk_exception_info BX_ET_BENIGN       BX_EXCEPTION_CLASS_ABORT 0;  (* MC *)
    mk_exception_info BX_ET_BENIGN       BX_EXCEPTION_CLASS_FAULT 0;  (* XM *)
    mk_exception_info BX_ET_BENIGN       BX_EXCEPTION_CLASS_FAULT 0 ].

(** How a call of [exception()] ends: back in the decode loop; giving up on a
    third exception, with the state [BX_PANIC] aborts in; with an abort elsewhere;
    or with a read outside [is_exception_OK]. *)
Inductive delivery : Type :=
  | Delivered (s : machine)
  | TripleFault (s : machine)
  | Aborted
  | OutOfBounds.

(** [RIP = prev_rip; if (speculative_rsp) RSP = prev_rsp;] *)
Definition restore_rip_rsp : Mach unit :=
  rip ← gets prev_rip; set_EIP rip;; restore_rsp.

(** What happens before the check for a double fault. *)
Definition exception_prologue (vector class : Z) : Mach unit :=
  when (class =? BX_EXCEPTION_CLASS_FAULT)
    (restore_rip_rsp;;
     when (negb (vector =? BX_DB_EXCEPTION)) assert_RF);;
  when (vector =? BX_DB_EXCEPTION)
    (modify (fun s => with_dr6 (Z.lor (Z.land (dr6 s) 0xffff0ff0) (Z.land (debug_trap s) 0x0000e00f)) s);;
     modify (fun s => with_dr7 (Z.ldiff (dr7 s) 0x00002000) s));;
  modify (with_EXT 1).

(** [exceptions_info[vector]]; [exception()] panics on a vector that is not
    handled. *)
Definition info_of (vector : Z) : BxExceptionInfo :=
  if vector <? BX_CPU_HANDLED_EXCEPTIONS
  then nth (Z.to_nat vector) exceptions_info (mk_exception_info BX_ET_BENIGN BX_EXCEPTION_CLASS_FAULT 0)
  else mk_exception_info BX_ET_BENIGN BX_EXCEPTION_CLASS_FAULT 0.

(** Page faults have a different format. *)
Definition with_EXT_bit (vector error_code : Z) (s : machine) : Z :=
  if negb (vector =? BX_PF_EXCEPTION) && negb (vector =? BX_DF_EXCEPTION)
  then Z.lor (Z.land error_code 0xfffe) (EXT s) else error_code.

(** The exception is given up. *)
Definition gives_up (s : machine) : bool :=
  (0 <? errorno s) && ((2 <? errorno s) || (curr_exception s =? BX_ET_DOUBLE_FAULT)).

(** [is_exception_OK[curr_exception][exception_type]], if that is inside the
    array. *)
Definition exception_OK (curr type : Z) : option Z :=
  is_exception_OK !! Z.to_nat curr ≫= (fun row => row !! Z.to_nat type).

(** The end of [exception()]: delivery through the IDT; [again] is the call of
    [exception()] that the delivery itself may make. *)
Definition deliver (again : Z -> Z -> machine -> option delivery) (vector error_code : Z) (s : machine)
    : option delivery :=
  let s := with_errorno (errorno s + 1) (with_curr_exception (exception_type (info_of vector)) s) in
  let push_error := if real_mode s then 0 else info_push_error (info_of vector) in
  let error_code := if real_mode s then 0 else error_code in
  match interrupt vector BX_HARDWARE_EXCEPTION push_error error_code s with
  | Ret _ s => Some (Delivered (with_errorno 0 s))
  | Fault vector error_code s => again vector error_code s
  | Crash => Some Aborted
  end.

Fixpoint exception_loop (fuel : nat) (vector error_code : Z) (s : machine) : option delivery :=
  match fuel with
  | O => None
  | S fuel =>
      if negb (vector <? BX_CPU_HANDLED_EXCEPTIONS) then Some Aborted else
      let error_code := with_EXT_bit vector error_code s in
      if gives_up s then
        match restore_rip_rsp s with
        | Ret _ s => Some (TripleFault s)
        | _ => Some Aborted
        end
      else
      match exception_prologue vector (exception_class (info_of vector)) s with
      | Ret _ s =>
          if (0 <? errorno s) && negb (exception_type (info_of vector) =? BX_ET_DOUBLE_FAULT) then
            match exception_OK (curr_exception s) (exception_type (info_of vector)) with
            | None => Some OutOfBounds
            | Some ok =>
                if nz ok then deliver (exception_loop fuel) vector error_code s
                else exception_loop fuel BX_DF_EXCEPTION 0 s
            end
          else deliver (exception_loop fuel) vector error_code s
      | _ => Some Aborted
      end
  end.

(** ** The decode loop (cpu/cpu.cc)

    One instruction: EIP past it, the handler, the commit; an exception goes
    through [exception()] and back to the head of the loop. *)
Definition loop_head (s : machine) : machine :=
  with_EXT 0 (with_speculative_rsp 0 (with_prev_rip (u32 (reg BX_32BIT_REG_EIP s)) s)).

Definition cpu_step (fuel : nat) (h : handler) (i : bxInstruction_c) (ilen : Z) (s : machine) : option delivery :=
  match (eip ← EIP; set_EIP (eip + ilen);; h i;; eip ← EIP; modify (with_prev_rip eip)) s with
  | Ret _ s => Some (Delivered s)
  | Fault v e s =>
      match exception_loop fuel v e s with
      | Some (Delivered s) => Some (Delivered (loop_head s))
      | o => o
      end
  | Crash => Some Aborted
  end.

(** ** Frames *)

Section NewStack.
Context (I : machine -> Prop) `{!Frame I}.

Lemma write_frame_frame len c pl temp l :
  forall k st, Forall (preserves I) l -> preserves I (write_frame len c pl temp k st l).
Proof.
  induction l as [|v l IH]; intros k st Hl; cbn [write_frame]; [apply preserves_ret|].
  inversion_clear Hl. frame_walk.
Qed.
Lemma int_new_stack_frame gt v86 pl st c temp a b d e pe ec :
  preserves I read_eflags -> preserves I (int_new_stack gt v86 pl st c temp a b d e pe ec).
Proof.
  intros Hr. unfold int_new_stack, sreg_value. cbv zeta.
  apply preserves_bind; [destruct v86|intros [st' temp']].
  - apply preserves_bind; [apply write_frame_frame|frame_walk].
    repeat constructor; frame_walk.
  - apply preserves_ret.
  - apply preserves_bind; [apply write_frame_frame; repeat constructor; frame_walk|]. frame_walk.
Qed.
End NewStack.

(** ** Nested exceptions

    [errorno] and [curr_exception] are only written by [exception()]. *)
Section Pending.
Context (p : Z * Z).
Let I (s : machine) : Prop := (errorno s, curr_exception s) = p.
#[local] Instance pending_Frame : Frame I.
Proof. frame_tac. Qed.
Ltac pending_tac := unfold I; frame_walk.

Lemma push_16_pending v : preserves I (push_16 v).
Proof. unfold push_16, SS_d_b. unfold_widths. frame_walk. Qed.
Lemma push_32_pending v : preserves I (push_32 v).
Proof. unfold push_32, SS_d_b. unfold_widths. frame_walk. Qed.
Lemma read_eflags_pending : preserves I read_eflags.
Proof. unfold read_eflags, force_flags, setEFlagsOSZAPC. frame_walk. Qed.
Lemma setEFlags_pending v : preserves I (setEFlags v).
Proof. unfold setEFlags, handleAlignmentCheck, handleCpuModeChange, updateFetchModeMask. frame_walk. Qed.
Hint Resolve push_16_pending push_32_pending read_eflags_pending setEFlags_pending : frame.
Lemma load_seg_reg_pending n v : preserves I (load_seg_reg n v).
Proof.
  unfold load_seg_reg, load_seg_reg_SS, load_seg_reg_data, load_seg_reg_real, load_null_selector,
    invalidate_prefetch_q, updateFetchModeMask, handleAlignmentCheck. frame_walk.
Qed.
Lemma load_cs_pending sel d c : preserves I (load_cs sel d c).
Proof. unfold load_cs, updateFetchModeMask, handleAlignmentCheck, invalidate_prefetch_q. frame_walk. Qed.
Lemma load_ss_pending sel d c : preserves I (load_ss sel d c).
Proof. unfold load_ss. frame_walk. Qed.
Lemma get_SS_ESP_from_TSS_pending pl : preserves I (get_SS_ESP_from_TSS pl).
Proof. unfold get_SS_ESP_from_TSS, system_read_word, system_read_dword. frame_walk. Qed.
Hint Resolve load_seg_reg_pending load_cs_pending load_ss_pending get_SS_ESP_from_TSS_pending : frame.

Lemma task_switch_pending sel d source : preserves I (task_switch sel d source).
Proof.
  unfold task_switch, invalidate_prefetch_q, task_switch_check, task_switch_save, task_switch_read, task_switch_commit,
    task_switch_segments, task_switch_LDTR, task_switch_SS, task_switch_CS, task_switch_load_selector,
    set_CPL, set_selector, invalidate_cache, SetCR3, TLB_flush, cr0_set_TS, writeEFlags, sreg_value,
    updateFetchModeMask, handleAlignmentCheck, system_read_word, system_read_dword, system_write_word,
    system_write_dword.
  frame_walk.
Qed.
Hint Resolve task_switch_pending : frame.
Hint Resolve int_new_stack_frame : frame.
Ltac int_unfold :=
  unfold interrupt, real_mode_int, protected_mode_int, int_task_gate, int_inner, int_same, invalidate_prefetch_q,
    RSP_SPECULATIVE, RSP_COMMIT, sreg_value, clear_data_segment, clear_IF, clear_TF, clear_VM, clear_RF, clear_NT,
    clear_AC, set_VM, set_eflag, clear_eflag, handleCpuModeChange, updateFetchModeMask, system_read_qword, system_read_word.
Lemma interrupt_pending v t pe ec : preserves I (interrupt v t pe ec).
Proof. int_unfold. frame_walk. Qed.
Lemma exception_prologue_pending v c : preserves I (exception_prologue v c).
Proof.
  unfold exception_prologue, restore_rip_rsp, restore_rsp, assert_RF, assert_eflag_async, assert_eflag.
  frame_walk.
Qed.
End Pending.

Lemma exception_loop_S n vector error_code s :
  exception_loop (S n) vector error_code s =
    if negb (vector <? BX_CPU_HANDLED_EXCEPTIONS) then Some Aborted else
    if gives_up s then
      match restore_rip_rsp s with Ret _ s => Some (TripleFault s) | _ => Some Aborted end
    else
      match exception_prologue vector (exception_class (info_of vector)) s with
      | Ret _ s1 =>
          if (0 <? errorno s1) && negb (exception_type (info_of vector) =? BX_ET_DOUBLE_FAULT) then
            match exception_OK (curr_exception s1) (exception_type (info_of vector)) with
            | None => Some OutOfBounds
            | Some ok => if nz ok then deliver (exception_loop n) vector (with_EXT_bit vector error_code s) s1
                         else exception_loop n BX_DF_EXCEPTION 0 s1
            end
          else deliver (exception_loop n) vector (with_EXT_bit vector error_code s) s1
      | _ => Some Aborted
      end.
Proof. reflexivity. Qed.

Lemma interrupt_nested v t pe ec s v' e' s' :
  interrupt v t pe ec s = Fault v' e' s' -> errorno s' = errorno s /\ curr_exception s' = curr_exception s.
Proof.
  intros H. pose proof (interrupt_pending (errorno s, curr_exception s) v t pe ec s eq_refl) as Hp.
  rewrite H in Hp. by apply pair_equal_spec in Hp.
Qed.
Lemma prologue_nested v c s s' :
  exception_prologue v c s = Ret tt s' -> errorno s' = errorno s /\ curr_exception s' = curr_exception s.
Proof.
  intros H. pose proof (exception_prologue_pending (errorno s, curr_exception s) v c s eq_refl) as Hp.
  rewrite H in Hp. by apply pair_equal_spec in Hp.
Qed.

(** *** It ends *)

Definition ends (n : nat) (v e : Z) (s : machine) : Prop := is_Some (exception_loop n v e s).

Lemma ends_given_up n v e s : gives_up s = true -> ends (S n) v e s.
Proof.
  intros H. unfold ends. rewrite exception_loop_S, H. destruct (negb _); [by eexists|].
  destruct (restore_rip_rsp s); by eexists.
Qed.
Lemma deliver_ends n v e s :
  (forall v' e' s', errorno s' = errorno s + 1 -> curr_exception s' = exception_type (info_of v) -> ends n v' e' s') ->
  is_Some (deliver (exception_loop n) v e s).
Proof.
  intros H. unfold deliver. cbv zeta.
  destruct (interrupt _ _ _ _ _) as [[] s1|v' e' s1|] eqn:E; [by eexists| |by eexists].
  apply interrupt_nested in E as [E1 E2]. by apply H.
Qed.
Lemma double_fault_ends n e s : 0 <= errorno s -> ends (S (S n)) BX_DF_EXCEPTION e s.
Proof.
  intros H0. unfold ends. rewrite exception_loop_S. cbn [Z.ltb Z.compare Pos.compare Pos.compare_cont BX_DF_EXCEPTION BX_CPU_HANDLED_EXCEPTIONS negb].
  destruct (gives_up s) eqn:Hg.
  { destruct (restore_rip_rsp s); by eexists. }
  cbn [negb]. destruct (exception_prologue _ _ s) as [[] s1|? ? ?|] eqn:E; [|by eexists..].
  apply prologue_nested in E as [E1 E2]. rewrite andb_false_r.
  apply deliver_ends. intros v' e' s' H1 H2. apply ends_given_up. unfold gives_up.
  rewrite H1, H2, E1. cbn. rewrite orb_true_r, andb_true_r. apply Z.ltb_lt. lia.
Qed.
Lemma ends_step n v e s :
  0 <= errorno s -> (forall v' e' s', errorno s' = errorno s + 1 -> ends (S (S n)) v' e' s') ->
  ends (S (S (S n))) v e s.
Proof.
  intros H0 H. unfold ends. rewrite exception_loop_S. destruct (negb (v <? _)); [by eexists|].
  destruct (gives_up s).
  { destruct (restore_rip_rsp s); by eexists. }
  destruct (exception_prologue _ _ s) as [[] s1|? ? ?|] eqn:E; [|by eexists..].
  apply prologue_nested in E as [E1 E2].
  assert (is_Some (deliver (exception_loop (S (S n))) v (with_EXT_bit v e s) s1)) as Hd
    by (apply deliver_ends; intros v' e' s' H1 _; apply H; by rewrite H1, E1).
  destruct (_ && _); [|done]. destruct (exception_OK _ _) as [ok|]; [|by eexists].
  destruct (nz ok); [done|]. apply double_fault_ends. by rewrite E1.
Qed.
Lemma exception_ends v e s : 0 <= errorno s -> ends 5 v e s.
Proof.
  intros H0. assert (forall v e s, 3 <= errorno s -> ends 1 v e s) as H3
    by (intros v' e' s' H3; apply ends_given_up; unfold gives_up;
        rewrite (proj2 (Z.ltb_lt 0 _)), (proj2 (Z.ltb_lt 2 _)) by lia; done).
  assert (forall n v e s, 3 <= errorno s -> ends (S n) v e s) as H3'
    by (intros n v' e' s' H; apply ends_given_up; unfold gives_up;
        rewrite (proj2 (Z.ltb_lt 0 _)), (proj2 (Z.ltb_lt 2 _)) by lia; done).
  assert (forall v e s, 2 <= errorno s -> ends 3 v e s) as H2
    by (intros; apply ends_step; [lia|]; intros; apply H3'; lia).
  assert (forall v e s, 1 <= errorno s -> ends 4 v e s) as H1
    by (intros; apply ends_step; [lia|]; intros; apply H2; lia).
  apply ends_step; [done|]. intros. apply H1. lia.
Qed.
Lemma exception_more_fuel n m v e s d :
  exception_loop n v e s = Some d -> (n <= m)%nat -> exception_loop m v e s = Some d.
Proof.
  revert m v e s d. induction n as [|n IH]; intros m v e s d H Hm; [done|].
  destruct m as [|m]; [lia|]. rewrite exception_loop_S in *. destruct (negb (v <? _)); [done|].
  destruct (gives_up s); [done|].
  destruct (exception_prologue _ _ s) as [[] s1|? ? ?|]; [|done..].
  assert (forall e d, deliver (exception_loop n) v e s1 = Some d -> deliver (exception_loop m) v e s1 = Some d) as Hd.
  { intros e' d'. unfold deliver. cbv zeta. destruct (interrupt _ _ _ _ _); try done.
    intros. apply IH; [done|lia]. }
  destruct (_ && _); [|by apply Hd]. destruct (exception_OK _ _) as [ok|]; [|done].
  destruct (nz ok); [by apply Hd|]. apply IH; [done|lia].
Qed.

(** *** The table is read inside its bounds *)

(** A first exception that is being delivered is one of the three classes, or a
    double fault. *)
Definition nest_ok (s : machine) : Prop :=
  0 <= errorno s /\
  (0 < errorno s -> In (curr_exception s) [BX_ET_BENIGN; BX_ET_CONTRIBUTORY; BX_ET_PAGE_FAULT; BX_ET_DOUBLE_FAULT]).

Lemma info_type v :
  In (exception_type (info_of v)) [BX_ET_BENIGN; BX_ET_CONTRIBUTORY; BX_ET_PAGE_FAULT; BX_ET_DOUBLE_FAULT].
Proof.
  unfold info_of. destruct (v <? _); [|cbn; tauto]. generalize (Z.to_nat v). clear v. intros n.
  do 21 (destruct n as [|n]; [cbn; tauto|]). cbn. destruct n; cbn; tauto.
Qed.

Lemma in_bounds n v e s : nest_ok s -> exception_loop n v e s <> Some OutOfBounds.
Proof.
  revert v e s. induction n as [|n IH]; intros v e s [H0 H1]; [done|]. rewrite exception_loop_S.
  destruct (negb (v <? _)); [done|]. destruct (gives_up s) eqn:Hg; [by destruct (restore_rip_rsp s)|].
  destruct (exception_prologue _ _ s) as [[] s1|? ? ?|] eqn:E; [|done..].
  apply prologue_nested in E as [E1 E2]. pose proof (info_type v) as Ht.
  assert (forall e, deliver (exception_loop n) v e s1 <> Some OutOfBounds) as Hd.
  { intros e0. unfold deliver. cbv zeta.
    destruct (interrupt _ _ _ _ _) as [[] s2|v' e' s2|] eqn:E'; [done| |done].
    apply interrupt_nested in E' as [E3 E4]. apply IH. unfold nest_ok. rewrite E3, E4. msimpl.
    rewrite E1. split; [lia|]. intros _. exact Ht. }
  destruct (Z.ltb_spec 0 (errorno s1)) as [Hp|]; [|apply Hd]. rewrite E1 in Hp. specialize (H1 Hp).
  cbn [andb]. destruct (Z.eqb_spec (exception_type (info_of v)) BX_ET_DOUBLE_FAULT) as [|Hne]; [apply Hd|].
  assert (curr_exception s1 <> BX_ET_DOUBLE_FAULT) as Hc.
  { rewrite E2. intros Heq. unfold gives_up in Hg. rewrite Heq in Hg. cbn in Hg.
    rewrite orb_true_r, andb_true_r in Hg. apply Z.ltb_ge in Hg. lia. }
  rewrite <-E2 in H1. cbn [negb].
  assert (nest_ok s1) as Hn by (split; rewrite ?E1; [lia|]; by intros _).
  destruct (exception_OK _ _) as [ok|] eqn:Eok.
  - destruct (nz ok); [apply Hd|by apply IH].
  - exfalso. revert Eok. cbn [In] in H1, Ht.
    destruct H1 as [<-|[<-|[<-|[H1|[]]]]]; try (by destruct Hc);
      destruct Ht as [<-|[<-|[<-|[Ht|[]]]]]; try (by destruct Hne); done.
Qed.

(** C7: an exception that is not raised while another is being delivered is
    dealt with after at most five nested calls of [exception()], whatever the
    descriptor tables, the stacks and the page tables hold: it is delivered
    (and then no exception is recorded as pending any more), or the emulator
    stops with a triple fault or a panic.  The table that decides on double
    faults is never read out of bounds. *)
Theorem exception_terminates v e s :
  errorno s = 0 ->
  exists d, (forall fuel, (5 <= fuel)%nat -> exception_loop fuel v e s = Some d) /\ d <> OutOfBounds.
Proof.
  intros H0. destruct (exception_ends v e s ltac:(lia)) as [d Hd]. exists d. split.
  - intros fuel Hf. by apply (exception_more_fuel 5).
  - intros ->. revert Hd. apply in_bounds. split; lia.
Qed.

(** An empty IDT: #UD leads to #GP, then to #DF, then to the triple fault. *)
Lemma exception_terminates_witness :
  exists d, (forall fuel, (5 <= fuel)%nat -> exception_loop fuel BX_UD_EXCEPTION 0 flat_machine = Some d) /\
    match d with TripleFault s => errorno s = 3 /\ EXT s = 1 | _ => False end.
Proof.
  destruct (exception_terminates BX_UD_EXCEPTION 0 flat_machine eq_refl) as (d & H & _).
  exists d. split; [exact H|]. specialize (H 5%nat ltac:(lia)). vm_compute in H. injection H as <-.
  split; reflexivity.
Defined.

(** *** Double faults *)

Definition contributory (v : Z) : bool := case_in v [0; 10; 11; 12; 13].
(** Intel's table: a contributory exception while delivering a contributory one,
    a contributory exception or a page fault while delivering a page fault. *)
Definition doubles (first second : Z) : bool :=
  (contributory first && contributory second) ||
  ((first =? BX_PF_EXCEPTION) && (contributory second || (second =? BX_PF_EXCEPTION))).

Lemma below_20 (P : Z -> Prop) : Forall P (Z.of_nat <$> seq 0 20) -> forall v, 0 <= v < 20 -> P v.
Proof.
  intros H v Hv. rewrite Forall_forall in H. apply H, list_elem_of_fmap.
  exists (Z.to_nat v). split; [lia|]. apply elem_of_seq. lia.
Qed.
Lemma double_fault_table first second :
  0 <= first < 20 -> 0 <= second < 20 -> first <> BX_DF_EXCEPTION -> second <> BX_DF_EXCEPTION ->
  exception_OK (exception_type (info_of first)) (exception_type (info_of second)) =
    Some (Z.b2z (negb (doubles first second))).
Proof.
  intros Hf Hs. revert second Hs. pattern first. apply below_20; [|done].
  repeat constructor; intros second Hs; pattern second; (apply below_20; [|done]); repeat constructor; done.
Qed.
Lemma info_not_double v :
  0 <= v < 20 -> (exception_type (info_of v) =? BX_ET_DOUBLE_FAULT) = (v =? BX_DF_EXCEPTION).
Proof. intros Hv. pattern v. apply below_20; [|done]. repeat constructor. Qed.

(** C21: the second of two exceptions, raised while the first is being
    delivered, turns into a double fault exactly for the pairs of Intel's table
    (two contributory ones; a contributory one or a page fault during a page
    fault); for every other pair it is delivered itself.  It is given up, as a
    triple fault, with EIP and a speculative ESP put back, exactly when the first is
    a double fault or three exceptions are being delivered already. *)
Theorem double_fault_correct n first second e s :
  0 <= first < 20 -> 0 <= second < 20 -> second <> BX_DF_EXCEPTION ->
  1 <= errorno s -> curr_exception s = exception_type (info_of first) ->
  exception_loop (S n) second e s =
    if (first =? BX_DF_EXCEPTION) || (3 <=? errorno s) then
      match restore_rip_rsp s with Ret _ s1 => Some (TripleFault s1) | _ => Some Aborted end
    else
      match exception_prologue second (exception_class (info_of second)) s with
      | Ret _ s1 =>
          if doubles first second then exception_loop n BX_DF_EXCEPTION 0 s1
          else deliver (exception_loop n) second (with_EXT_bit second e s) s1
      | _ => Some Aborted
      end.
Proof.
  intros Hf Hs Hsd He Hc. rewrite exception_loop_S, (proj2 (Z.ltb_lt second _)) by apply Hs. cbn [negb].
  unfold gives_up. rewrite Hc, info_not_double, (proj2 (Z.ltb_lt 0 _)) by lia. cbn [andb].
  replace (2 <? errorno s) with (3 <=? errorno s) by zcases. rewrite orb_comm.
  destruct (Z.eqb_spec first BX_DF_EXCEPTION) as [|Hfd]; cbn [orb]; [done|]. destruct (3 <=? errorno s); [done|].
  destruct (exception_prologue _ _ s) as [[] s1|? ? ?|] eqn:E; [|done..].
  apply prologue_nested in E as [E1 E2].
  rewrite E1, E2, Hc, (info_not_double second), (proj2 (Z.eqb_neq second _)), (proj2 (Z.ltb_lt 0 _)) by (done || lia).
  cbn [negb andb]. rewrite double_fault_table by done. by destruct (doubles first second).
Qed.
Lemma double_fault_correct_witness :
  let s := with_errorno 1 (with_curr_exception BX_ET_PAGE_FAULT flat_machine) in
  doubles BX_PF_EXCEPTION BX_NP_EXCEPTION = true /\
  exception_loop 3 BX_NP_EXCEPTION 0 s =
    if (BX_PF_EXCEPTION =? BX_DF_EXCEPTION) || (3 <=? errorno s) then
      match restore_rip_rsp s with Ret _ s1 => Some (TripleFault s1) | _ => Some Aborted end
    else
      match exception_prologue BX_NP_EXCEPTION (exception_class (info_of BX_NP_EXCEPTION)) s with
      | Ret _ s1 =>
          if doubles BX_PF_EXCEPTION BX_NP_EXCEPTION then exception_loop 2 BX_DF_EXCEPTION 0 s1
          else deliver (exception_loop 2) BX_NP_EXCEPTION (with_EXT_bit BX_NP_EXCEPTION 0 s) s1
      | _ => Some Aborted
      end.
Proof.
  split; [reflexivity|].
  apply (double_fault_correct 2 BX_PF_EXCEPTION BX_NP_EXCEPTION 0
    (with_errorno 1 (with_curr_exception BX_ET_PAGE_FAULT flat_machine)));
    [split; vm_compute; congruence|split; vm_compute; congruence|vm_compute; congruence
    |vm_compute; congruence|reflexivity].
Defined.
