(* ===== verification/Delivery.v ===== *)
(** * Delivery: what the delivery of an exception keeps

    The pending flags, the invariant and the caches of the mode through
    [task_switch()], [interrupt()] and the recursion of [exception()]
    (cpu/tasking.cc, cpu/exception.cc). *)
From stdpp Require Import base numbers list gmap.
From Stdlib Require Import ZArith Lia.
From S2P Require Import Prelude Machine LazyFlags Memory Paging Access Regs Precise Reference Mode Segment SegLoad Frame Stack FlagCtrl CtrlPro Exception.

Local Open Scope Z_scope.

(** ** The caches of the mode

    A task switch that faults half way leaves CS changed but the caches derived
    from CS not yet updated; the mode itself is right throughout. *)
Definition mode_known (s : machine) : Prop :=
  cpu_mode s = mode_of s /\ (alignment_check_mask s = 0 \/ alignment_check_mask s = 0xF).

Lemma coherent_mode_known s : coherent s -> mode_known s.
Proof. intros (Hm & _ & _ & Ha). split; [done|]. rewrite Ha. destruct (checks_alignment s); tauto. Qed.

#[export] Instance mode_known_Frame : Frame mode_known.
Proof. frame_tac. Qed.

Lemma steady_mode_known {A} (m : Mach A) : steady m -> preserves mode_known m.
Proof.
  intros Hm s. specialize (Hm s). destruct (m s); [| |done]; unfold control in Hm;
    rewrite !pair_equal_spec in Hm; unfold mode_known, mode_of;
    destruct Hm as [[[[[[_ ->] _] [-> _]] _] [[[-> _] _] ->]] _]; done.
Qed.

(** [m] ends with every cache right if it returns, with the mode right if it
    raises an exception. *)
Definition settles {A} (m : Mach A) : Prop :=
  forall s, mode_known s ->
    match m s with Ret _ s' => coherent s' | Fault _ _ s' => mode_known s' | Crash => True end.

Lemma settles_after {A B} (m : Mach A) (k : A -> Mach B) :
  preserves mode_known m -> (forall a, settles (k a)) -> settles (m ≫= k).
Proof.
  intros Hm Hk s Hs. unfold mbind, M_bind. specialize (Hm s Hs). destruct (m s); [by apply Hk|done|done].
Qed.
Lemma settles_then {A B} (m : Mach A) (k : A -> Mach B) :
  settles m -> (forall a, preserves coherent (k a)) -> settles (m ≫= k).
Proof.
  intros Hm Hk s Hs. unfold mbind, M_bind. specialize (Hm s Hs). destruct (m s) as [a s'| |]; [|done|done].
  specialize (Hk a s' Hm). destruct (k a s'); [done|by apply coherent_mode_known|done].
Qed.
Lemma settles_raise {A} v e : settles (raise (A := A) v e).
Proof. by intros s. Qed.
Lemma settles_crash {A} : settles (crash (A := A)).
Proof. by intros s. Qed.

(** Whatever CS was, [handleAlignmentCheck] and [updateFetchModeMask] settle. *)
Lemma handleAlignmentCheck_known : preserves mode_known handleAlignmentCheck.
Proof. intros s [Hm Ha]. rewrite handleAlignmentCheck_eq by done. split; [done|]. cbn. destruct (checks_alignment s); tauto. Qed.
Lemma refresh_settles : settles (updateFetchModeMask;; handleAlignmentCheck).
Proof.
  intros s [Hm Ha]. unfold updateFetchModeMask. rewrite bind_modify, handleAlignmentCheck_eq by done. by split.
Qed.
Lemma setEFlags_settles val : settles (setEFlags val).
Proof.
  intros s [_ Ha]. destruct (setEFlags_eq val s) as [a ->]. set (s0 := with_lf_flags_status 0 _).
  rewrite (bind_Ret _ _ _ _ _ (handleAlignmentCheck_eq s0 Ha)). set (s1 := with_alignment_check_mask _ s0).
  pose proof (handleCpuModeChange_coherent s1 eq_refl) as H. by destruct (handleCpuModeChange s1).
Qed.
Lemma clear_VM_coherent : preserves coherent clear_VM.
Proof.
  intros s (_ & _ & _ & Ha). unfold clear_VM, set_VM, set_eflag. rewrite bind_modify. set (s1 := with_eflags _ s).
  assert (checks_alignment s1 = checks_alignment s) as Hc.
  { unfold checks_alignment. f_equal. unfold s1. msimpl. by rewrite Z.lor_spec, Z.ldiff_spec, andb_true_r, orb_false_r. }
  assert (alignment_check_mask s1 = (if checks_alignment s1 then 0xF else 0)) as Ha1 by by rewrite Hc.
  pose proof (handleCpuModeChange_coherent s1 Ha1) as H. by destruct (handleCpuModeChange s1).
Qed.
Lemma clear_AC_coherent : preserves coherent clear_AC.
Proof.
  intros s (Hm & Hu & Hf & _). unfold clear_AC, clear_eflag, modify. unfold mbind, M_bind, coherent.
  assert (forall m s1, checks_alignment (with_alignment_check_mask m s1) = checks_alignment s1) as -> by done.
  unfold checks_alignment at 1, mode_of. msimpl. rewrite !Z.ldiff_spec. cbn [Z.pow]. change (Z.testbit (2 ^ 18) 17) with false.
  change (Z.testbit (2 ^ 18) 18) with true. by rewrite !andb_false_r, andb_true_r.
Qed.

Lemma read_eflags_known : preserves mode_known read_eflags.
Proof. apply steady_mode_known, force_flags_steady. Qed.
Lemma writeEFlags_known v m : preserves mode_known (writeEFlags v m).
Proof.
  unfold writeEFlags. cbv zeta. apply preserves_bind; [apply preserves_gets|]. intros x s Hs.
  pose proof (setEFlags_settles x s Hs) as H. destruct (setEFlags x s); [by apply coherent_mode_known|done|done].
Qed.
Lemma load_seg_reg_known n v : n <> BX_SEG_REG_CS -> preserves mode_known (load_seg_reg n v).
Proof. intros Hn. by apply steady_mode_known, load_seg_reg_steady. Qed.
Lemma cr0_set_TS_known : preserves mode_known (cr0_set_TS 1).
Proof.
  apply preserves_modify. intros s [Hm Ha]. split; [|done]. unfold mode_of in *. msimpl.
  rewrite Hm, Z.lor_spec, Z.ldiff_spec. by rewrite andb_true_r, orb_false_r.
Qed.
#[local] Hint Resolve read_eflags_known writeEFlags_known cr0_set_TS_known : frame.

Lemma task_switch_commit_known sel d source n : preserves mode_known (task_switch_commit sel d source n).
Proof. unfold task_switch_commit, set_selector, invalidate_cache, SetCR3, TLB_flush. frame_walk. Qed.
Lemma task_switch_check_known sel d source : preserves mode_known (task_switch_check sel d source).
Proof. unfold task_switch_check. frame_walk. Qed.
Lemma task_switch_save_known d source : preserves mode_known (task_switch_save d source).
Proof. unfold task_switch_save, sreg_value, system_write_word, system_write_dword. frame_walk. Qed.
Lemma task_switch_read_known d : preserves mode_known (task_switch_read d).
Proof. unfold task_switch_read, system_read_word, system_read_dword. frame_walk. Qed.
Lemma task_switch_load_selector_known n sel raw rpl :
  preserves mode_known (task_switch_load_selector n sel raw rpl).
Proof. unfold task_switch_load_selector. frame_walk. Qed.
Lemma task_switch_LDTR_known raw : preserves mode_known (task_switch_LDTR raw).
Proof. unfold task_switch_LDTR. frame_walk. Qed.
Lemma task_switch_SS_known raw rpl : preserves mode_known (task_switch_SS raw rpl).
Proof. unfold task_switch_SS. frame_walk. Qed.
Lemma task_switch_CS_known raw : preserves mode_known (task_switch_CS raw).
Proof. unfold task_switch_CS. frame_walk. Qed.
Lemma set_CPL_known v : preserves mode_known (set_CPL v).
Proof. unfold set_CPL. frame_walk. Qed.
#[local] Hint Resolve task_switch_commit_known task_switch_check_known task_switch_save_known
  task_switch_read_known task_switch_load_selector_known task_switch_LDTR_known task_switch_SS_known
  task_switch_CS_known set_CPL_known : frame.

(** CS is the last register loaded in virtual-8086 mode. *)
Lemma load_CS_settles v : settles (load_seg_reg BX_SEG_REG_CS v).
Proof.
  intros s [Hm Ha]. unfold load_seg_reg. rewrite (bind_gets protected_mode).
  destruct (protected_mode s); [done|]. unfold load_seg_reg_real. cbn [Z.eqb BX_SEG_REG_CS Pos.eqb when].
  set (f := fun s : machine => _). unfold invalidate_prefetch_q. rewrite bind_modify.
  assert (mode_known (f s)) as Hf by done. generalize dependent (f s). intros s1 Hs1. rewrite bind_modify.
  by apply refresh_settles.
Qed.
Lemma task_switch_segments_settles n : settles (task_switch_segments n).
Proof.
  unfold task_switch_segments. apply settles_after; [apply preserves_gets|intros cpl].
  do 2 (apply settles_after; [solve [frame_walk]|intros _]).
  apply settles_after; [apply preserves_gets|intros []].
  - do 5 (apply settles_after; [by apply load_seg_reg_known|intros _]). apply load_CS_settles.
  - do 7 (apply settles_after; [solve [frame_walk]|intros _]). apply refresh_settles.
Qed.
Lemma task_switch_settles sel d source : settles (task_switch sel d source).
Proof.
  unfold task_switch, invalidate_prefetch_q.
  do 5 (apply settles_after; [solve [frame_walk]|intros _]).
  apply settles_after; [solve [frame_walk]|intros n].
  apply settles_after; [solve [frame_walk]|intros _].
  apply settles_then; [apply task_switch_segments_settles|intros _].
  apply preserves_when, preserves_bind; [by apply preserves_modify|intros _; by apply preserves_modify].
Qed.

(** ** Delivering an interrupt *)

(** *** The caches *)

Lemma coherent_steady {A} (m : Mach A) : steady m -> preserves coherent m.
Proof. apply steady_coherent. Qed.
Lemma load_cs_settles sel d c : settles (load_cs sel d c).
Proof.
  unfold load_cs. cbv zeta. apply settles_after; [solve [frame_walk]|intros d'].
  apply settles_after; [solve [frame_walk]|intros _]. intros s Hs.
  pose proof (refresh_settles s Hs) as H. unfold mbind, M_bind in *. destruct (updateFetchModeMask s); [|done..].
  destruct (handleAlignmentCheck _); done.
Qed.
Lemma load_ss_steady sel d c : steady (load_ss sel d c).
Proof.
  unfold load_ss. repeat match goal with
  | |- steady (modify _) => apply steady_modify; intros ?; by apply set_sreg_other_control
  | _ => steady_step
  end.
Qed.
Lemma clear_data_segment_steady n : n <> BX_SEG_REG_CS -> steady (clear_data_segment n).
Proof. intros Hn. apply steady_modify. intros s. by apply set_sreg_other_control. Qed.
Lemma set_EIP_steady v : steady (set_EIP v).
Proof. unfold set_EIP. unfold_widths. steady_tac. Qed.
Lemma push_16_known v : preserves mode_known (push_16 v).
Proof. apply steady_mode_known, push_16_steady. Qed.
Lemma push_32_known v : preserves mode_known (push_32 v).
Proof. apply steady_mode_known, push_32_steady. Qed.
Lemma RSP_SPECULATIVE_known : preserves mode_known RSP_SPECULATIVE.
Proof. unfold RSP_SPECULATIVE. frame_walk. Qed.
Lemma RSP_SPECULATIVE_coherent : preserves coherent RSP_SPECULATIVE.
Proof. unfold RSP_SPECULATIVE. repeat first [preserves_step | by apply preserves_modify]. Qed.
Lemma RSP_COMMIT_coherent : preserves coherent RSP_COMMIT.
Proof. by apply preserves_modify. Qed.

(** After CS is loaded, each step keeps the caches right. *)
Ltac coherent_walk :=
  repeat match goal with
  | |- forall _, _ => intros ?
  | |- preserves _ (mbind _ _) => apply preserves_bind
  | |- preserves _ (when _ _) => apply preserves_when
  | |- preserves _ (if _ then _ else _) => apply preserves_if
  | |- preserves _ (gets _) => apply preserves_gets
  | |- preserves _ (raise _ _) => apply preserves_raise
  | |- preserves _ clear_VM => apply clear_VM_coherent
  | |- preserves _ clear_AC => apply clear_AC_coherent
  | |- preserves _ RSP_SPECULATIVE => apply RSP_SPECULATIVE_coherent
  | |- preserves _ RSP_COMMIT => apply RSP_COMMIT_coherent
  | |- preserves _ (load_ss _ _ _) => apply steady_coherent, load_ss_steady
  | |- preserves _ (push_16 _) => apply steady_coherent, push_16_steady
  | |- preserves _ (push_32 _) => apply steady_coherent, push_32_steady
  | |- preserves _ (set_EIP _) => apply steady_coherent, set_EIP_steady
  | |- preserves _ (clear_data_segment _) => apply steady_coherent; by apply clear_data_segment_steady
  | |- preserves _ clear_IF => apply steady_coherent, clear_eflag_steady; lia
  | |- preserves _ clear_TF => apply steady_coherent, clear_eflag_steady; lia
  | |- preserves _ clear_RF => apply steady_coherent, clear_eflag_steady; lia
  | |- preserves _ clear_NT => apply steady_coherent, clear_eflag_steady; lia
  | |- preserves _ EIP => apply RegRead_preserves with (w := 32); typeclasses eauto
  end.

#[local] Hint Resolve push_16_known push_32_known RSP_SPECULATIVE_known int_new_stack_frame : frame.

(** What comes before the load of CS. *)
Ltac before := apply settles_after; [solve [frame_walk]|intros ?].
Lemma settles_if {A} (b : bool) (m m' : Mach A) : settles m -> settles m' -> settles (if b then m else m').
Proof. by destruct b. Qed.

Lemma int_same_settles gt off sel d pe ec : settles (int_same gt off sel d pe ec).
Proof.
  unfold int_same, sreg_value. repeat before. apply settles_then; [apply load_cs_settles|coherent_walk].
Qed.
Lemma int_inner_settles gt off sel d pe ec : settles (int_inner gt off sel d pe ec).
Proof.
  unfold int_inner, get_SS_ESP_from_TSS, system_read_word, system_read_dword, sreg_value. cbv zeta.
  before. apply settles_after; [solve [frame_walk]|intros [ss esp]]. repeat before.
  apply settles_if; [apply settles_raise|]. repeat before.
  apply settles_then; [apply load_cs_settles|coherent_walk].
Qed.
Lemma int_task_gate_settles g pe ec : settles (int_task_gate g pe ec).
Proof.
  unfold int_task_gate. cbv zeta. repeat before. apply settles_then; [apply task_switch_settles|coherent_walk].
Qed.
Lemma real_mode_int_settles v pe ec : settles (real_mode_int v pe ec).
Proof.
  unfold real_mode_int, sreg_value, system_read_word. repeat before.
  apply settles_then; [apply load_CS_settles|coherent_walk].
Qed.
Lemma protected_mode_int_settles v si pe ec : settles (protected_mode_int v si pe ec).
Proof.
  unfold protected_mode_int, system_read_qword. cbv zeta. repeat before.
  apply settles_if; [apply int_task_gate_settles|]. apply settles_if; [|apply settles_crash]. repeat before.
  apply settles_if; [apply settles_raise|]. repeat before.
  apply settles_if; [apply int_inner_settles|apply int_same_settles].
Qed.
Lemma interrupt_settles v t pe ec : settles (interrupt v t pe ec).
Proof.
  unfold interrupt, invalidate_prefetch_q. repeat before. apply settles_then; [|coherent_walk].
  apply settles_if; [apply real_mode_int_settles|apply protected_mode_int_settles].
Qed.

(** *** The invariant *)

Lemma write_frame_wf len c pl temp l :
  forall k st, Forall (preserves wf) l -> preserves wf (write_frame len c pl temp k st l).
Proof.
  induction l as [|v l IH]; intros k st Hl; cbn [write_frame]; [apply preserves_ret|].
  inversion_clear Hl. preserves_tac.
Qed.
Lemma read_eflags_wf : preserves wf read_eflags.
Proof. unfold read_eflags. eauto with preserves. Qed.
#[local] Hint Resolve read_eflags_wf : preserves.
Lemma int_new_stack_wf gt v86 pl st c temp a b d e pe ec :
  preserves wf (int_new_stack gt v86 pl st c temp a b d e pe ec).
Proof.
  unfold int_new_stack, sreg_value. cbv zeta. apply preserves_bind; [destruct v86|intros [st' temp']].
  - apply preserves_bind; [apply write_frame_wf; repeat first [apply Forall_cons_2 | apply Forall_nil_2]|]; preserves_tac.
  - apply preserves_ret.
  - apply preserves_bind; [apply write_frame_wf; repeat first [apply Forall_cons_2 | apply Forall_nil_2]|]; preserves_tac.
Qed.
#[local] Hint Resolve int_new_stack_wf : preserves.
Lemma clear_data_segment_wf n : preserves wf (clear_data_segment n).
Proof. apply preserves_modify. intros s Hw. apply set_sreg_wf; [done|]. by apply invalid_cache_ok, sreg_ok. Qed.
Lemma set_VM_wf v : preserves wf (set_VM v).
Proof.
  unfold set_VM, set_eflag. apply preserves_bind; [|intros _; apply handleCpuModeChange_wf].
  apply eflags_only_wf. intros s. by eexists.
Qed.
#[local] Hint Resolve clear_data_segment_wf set_VM_wf : preserves.
Ltac int_wf :=
  unfold clear_IF, clear_TF, clear_VM, clear_RF, clear_NT, clear_AC, RSP_SPECULATIVE, sreg_value,
    system_read_word, system_read_dword, system_read_qword;
  unfold_widths; repeat first [preserves_step | wf_modify].

Lemma int_same_wf gt off sel d pe ec : is_segment d -> preserves wf (int_same gt off sel d pe ec).
Proof. intros Hd. pose proof (fun c => load_cs_wf sel d c Hd). unfold int_same. int_wf. Qed.
Lemma parsed_segment raw t :
  (desc_segment (parse_descriptor (GET32L raw) (GET32H raw) t) =? 0) = false ->
  is_segment (parse_descriptor (GET32L raw) (GET32H raw) t).
Proof. intros HS. split; [by exists raw, t|done]. Qed.
Lemma int_inner_wf gt off sel d pe ec : is_segment d -> preserves wf (int_inner gt off sel d pe ec).
Proof.
  intros Hd. pose proof (fun c => load_cs_wf sel d c Hd) as Hcs. unfold int_inner, get_SS_ESP_from_TSS. cbv zeta.
  apply preserves_bind; [apply preserves_gets|intros v86]. apply preserves_bind; [solve [int_wf]|intros [ss esp]].
  do 2 (apply preserves_bind; [solve [int_wf]|intros _]).
  eapply preserves_bind_yields; [eauto with preserves|apply fetch_raw_descriptor_yields|].
  intros p [raw ->]. cbn [fst snd]. do 2 (apply preserves_bind; [solve [int_wf]|intros _]).
  destruct (desc_valid _ =? 0); cbn [orb]; [apply preserves_raise|].
  destruct (desc_segment (parse_descriptor (GET32L raw) _ _) =? 0) eqn:HS; cbn [orb]; [apply preserves_raise|].
  pose proof (fun c => load_ss_wf (parse_selector ss) _ c (parsed_segment raw uninitialised HS)) as Hss.
  int_wf.
Qed.
Lemma int_task_gate_wf g pe ec : preserves wf (int_task_gate g pe ec).
Proof. unfold int_task_gate. int_wf. Qed.
#[local] Hint Resolve int_task_gate_wf : preserves.
Lemma protected_mode_int_wf v si pe ec : preserves wf (protected_mode_int v si pe ec).
Proof.
  unfold protected_mode_int. cbv zeta. apply preserves_bind; [apply preserves_gets|intros idt].
  apply preserves_bind; [solve [int_wf]|intros _]. apply preserves_bind; [solve [int_wf]|intros tmp].
  do 2 (apply preserves_bind; [solve [int_wf]|intros _]). apply preserves_bind; [apply preserves_gets|intros cpl].
  do 2 (apply preserves_bind; [solve [int_wf]|intros _]).
  apply preserves_if; [eauto with preserves|]. apply preserves_if; [|apply preserves_crash].
  apply preserves_bind; [solve [int_wf]|intros _].
  eapply preserves_bind_yields; [eauto with preserves|apply fetch_raw_descriptor_yields|].
  intros p [raw ->]. cbn [fst snd]. apply preserves_bind; [apply preserves_gets|intros cpl'].
  destruct (desc_valid _ =? 0); cbn [orb]; [apply preserves_raise|].
  destruct (desc_segment (parse_descriptor (GET32L raw) _ _) =? 0) eqn:HS; cbn [orb]; [apply preserves_raise|].
  pose proof (parsed_segment raw _ HS). apply preserves_if; [apply preserves_raise|].
  do 2 (apply preserves_bind; [solve [int_wf]|intros _]).
  apply preserves_if; [by apply int_inner_wf|by apply int_same_wf].
Qed.
#[local] Hint Resolve protected_mode_int_wf : preserves.
Lemma interrupt_wf v t pe ec : preserves wf (interrupt v t pe ec).
Proof. unfold interrupt, real_mode_int, invalidate_prefetch_q. int_wf. Qed.

(** *** Pending flags *)

Lemma clear_VM_refines : refines clear_VM clear_VM.
Proof.
  unfold clear_VM, set_VM. apply refines_bind; [|intros _; refines_tac].
  apply (refines_other_bits _ (fun z => Z.lor (Z.ldiff z (2 ^ 17)) 0)); [done| |].
  - intros z g. rewrite Z.lor_0_r, Z.ldiff_spec. destruct g; by rewrite andb_true_r.
  - intros z z' m _ H. by rewrite !Z.lor_0_r, !Z.ldiff_spec, H.
Qed.
Lemma write_new_stack_32_refines len seg o p d :
  refines (write_new_stack_32 len seg o p d) (write_new_stack_32 len seg o p d).
Proof. unfold write_new_stack_32. refines_tac. Qed.
#[local] Hint Resolve clear_VM_refines write_new_stack_32_refines : refines.
Lemma write_frame_refines len c pl temp l :
  forall k st, Forall (fun m => refines m m) l ->
  refines (write_frame len c pl temp k st l) (write_frame len c pl temp k st l).
Proof.
  induction l as [|v l IH]; intros k st Hl; cbn [write_frame]; [apply refines_ret|].
  inversion_clear Hl. refines_tac.
Qed.
Lemma int_new_stack_refines gt v86 pl st c temp a b d e pe ec :
  refines (int_new_stack gt v86 pl st c temp a b d e pe ec) (int_new_stack gt v86 pl st c temp a b d e pe ec).
Proof.
  unfold int_new_stack, sreg_value. cbv zeta. apply refines_bind; [destruct v86|intros [st' temp']].
  - apply refines_bind; [apply write_frame_refines; repeat first [apply Forall_cons_2 | apply Forall_nil_2]|]; refines_tac.
  - apply refines_ret.
  - apply refines_bind; [apply write_frame_refines; repeat first [apply Forall_cons_2 | apply Forall_nil_2]|]; refines_tac.
Qed.
#[local] Hint Resolve int_new_stack_refines : refines.
Ltac int_refines :=
  unfold invalidate_prefetch_q, clear_IF, clear_TF, clear_RF, clear_NT, clear_AC, RSP_SPECULATIVE, RSP_COMMIT, sreg_value,
    clear_data_segment, system_read_word, system_read_dword, system_read_qword;
  unfold_widths; refines_tac.
Lemma int_same_refines gt off sel d pe ec : refines (int_same gt off sel d pe ec) (int_same gt off sel d pe ec).
Proof. unfold int_same. int_refines. Qed.
Lemma int_inner_refines gt off sel d pe ec : refines (int_inner gt off sel d pe ec) (int_inner gt off sel d pe ec).
Proof. unfold int_inner. int_refines. Qed.
Lemma int_task_gate_refines g pe ec : refines (int_task_gate g pe ec) (int_task_gate g pe ec).
Proof. unfold int_task_gate. int_refines. Qed.
#[local] Hint Resolve int_same_refines int_inner_refines int_task_gate_refines : refines.
Lemma interrupt_refines v t pe ec : refines (interrupt v t pe ec) (interrupt v t pe ec).
Proof. unfold interrupt, real_mode_int, protected_mode_int. int_refines. Qed.

(** ** exception() *)

Definition map_delivery (f : machine -> machine) (d : delivery) : delivery :=
  match d with
  | Delivered s => Delivered (f s)
  | TripleFault s => TripleFault (f s)
  | Aborted => Aborted
  | OutOfBounds => OutOfBounds
  end.

Lemma restore_rip_rsp_refines : refines restore_rip_rsp restore_rip_rsp.
Proof. unfold restore_rip_rsp, restore_rsp. int_refines. Qed.
Lemma exception_prologue_refines v c : refines (exception_prologue v c) (exception_prologue v c).
Proof.
  pose proof restore_rip_rsp_refines. unfold exception_prologue, assert_RF, assert_eflag_async. refines_tac.
Qed.

Definition commutes (again : Z -> Z -> machine -> option delivery) : Prop :=
  forall v e s, again v e (norm s) = map_delivery norm <$> again v e s.

Lemma deliver_norm again : commutes again -> commutes (deliver again).
Proof.
  intros Ha v e s. unfold deliver.
  set (s1 := with_errorno (errorno s + 1) (with_curr_exception (exception_type (info_of v)) s)).
  change (with_errorno (errorno (norm s) + 1) (with_curr_exception (exception_type (info_of v)) (norm s)))
    with (norm s1). change (real_mode (norm s1)) with (real_mode s1).
  generalize (if real_mode s1 then 0 else info_push_error (info_of v)) (if real_mode s1 then 0 else e).
  intros pe ec. rewrite <-(interrupt_refines v BX_HARDWARE_EXCEPTION pe ec s1).
  destruct (interrupt v BX_HARDWARE_EXCEPTION pe ec s1) as [[] s2|v2 e2 s2|]; cbn [omap_state]; [done|apply Ha|done].
Qed.
Lemma exception_loop_norm n : commutes (exception_loop n).
Proof.
  induction n as [|n IH]; intros v e s; [done|]. rewrite !exception_loop_S. destruct (negb (v <? _)); [done|].
  change (gives_up (norm s)) with (gives_up s). destruct (gives_up s).
  { rewrite <-(restore_rip_rsp_refines s). by destruct (restore_rip_rsp s). }
  rewrite <-(exception_prologue_refines v (exception_class (info_of v)) s).
  destruct (exception_prologue _ _ s) as [[] s1|? ? ?|]; cbn [omap_state]; [|done|done].
  change (errorno (norm s1)) with (errorno s1). change (curr_exception (norm s1)) with (curr_exception s1).
  change (with_EXT_bit v e (norm s)) with (with_EXT_bit v e s).
  destruct (_ && _); [|by apply deliver_norm]. destruct (exception_OK _ _) as [ok|]; [|done].
  destruct (nz ok); [by apply deliver_norm|apply IH].
Qed.

(** What the loop is left with. *)
Definition settled (d : delivery) : Prop :=
  match d with
  | Delivered s => wf s /\ coherent s /\ errorno s = 0 /\ speculative_rsp s = 0
  | TripleFault s => wf s
  | Aborted | OutOfBounds => True
  end.

Lemma interrupt_commits v t pe ec s s' : interrupt v t pe ec s = Ret tt s' -> speculative_rsp s' = 0.
Proof.
  assert (commits (interrupt v t pe ec)) as H
    by (unfold interrupt; cbv zeta; do 7 (apply commits_bind; intros ?); apply RSP_COMMIT_commits).
  specialize (H s). intros E. by rewrite E in H.
Qed.
Lemma restore_rip_rsp_wf : preserves wf restore_rip_rsp.
Proof. unfold restore_rip_rsp, restore_rsp. int_wf. Qed.
Lemma exception_prologue_wf v c : preserves wf (exception_prologue v c).
Proof.
  pose proof restore_rip_rsp_wf. unfold exception_prologue, assert_RF, assert_eflag_async.
  repeat first [preserves_step | wf_modify].
Qed.
Lemma exception_prologue_known v c : preserves mode_known (exception_prologue v c).
Proof.
  assert (preserves mode_known assert_RF) as Hr.
  { apply preserves_bind; [by apply preserves_modify|intros _].
    apply steady_mode_known, assert_eflag_steady; lia. }
  unfold exception_prologue, restore_rip_rsp, restore_rsp. frame_walk.
Qed.
Definition delivers (again : Z -> Z -> machine -> option delivery) : Prop :=
  forall v e s d, wf s -> mode_known s -> again v e s = Some d -> settled d.
Lemma deliver_settles again : delivers again -> delivers (deliver again).
Proof.
  intros Ha v e s d Hw Hm. unfold deliver. set (s1 := with_errorno _ _).
  generalize (if real_mode s1 then 0 else info_push_error (info_of v)) (if real_mode s1 then 0 else e).
  intros pe ec. pose proof (interrupt_wf v BX_HARDWARE_EXCEPTION pe ec s1 Hw) as Hw'.
  pose proof (interrupt_settles v BX_HARDWARE_EXCEPTION pe ec s1 Hm) as Hm'.
  destruct (interrupt v BX_HARDWARE_EXCEPTION pe ec s1) as [[] s2|v2 e2 s2|] eqn:E.
  - intros [= <-]. apply interrupt_commits in E. by split_and!.
  - by apply Ha.
  - by intros [= <-].
Qed.
Lemma exception_loop_settles n : delivers (exception_loop n).
Proof.
  induction n as [|n IH]; intros v e s d Hw Hm; [done|]. rewrite exception_loop_S.
  destruct (negb (v <? _)); [by intros [= <-]|].
  destruct (gives_up s).
  { pose proof (restore_rip_rsp_wf s Hw) as H. by destruct (restore_rip_rsp s); intros [= <-]. }
  pose proof (exception_prologue_wf v (exception_class (info_of v)) s Hw) as Hw1.
  pose proof (exception_prologue_known v (exception_class (info_of v)) s Hm) as Hm1.
  destruct (exception_prologue _ _ s) as [[] s1|? ? ?|]; [|by intros [= <-]..].
  destruct (_ && _); [|by apply (deliver_settles _ IH)]. destruct (exception_OK _ _) as [ok|]; [|by intros [= <-]].
  destruct (nz ok); [by apply (deliver_settles _ IH)|by apply IH].
Qed.
