(* ===== verification/Contract.v ===== *)
(** * Contract: what the decode loop relies on in a handler

    cpu/cpu.cc calls a handler through a pointer and relies on it for its
    invariants; [contract] is this interface, the groups of instructions are its
    instances. *)
From stdpp Require Import base numbers list gmap.
From Stdlib Require Import ZArith Lia.
From S2P Require Import Prelude Machine LazyFlags Memory Paging Access Regs Precise Reference Mode Segment SegLoad Frame Stack FlagCtrl CtrlPro Exception Delivery.

Local Open Scope Z_scope.

(** What only the decode loop and [exception()] write, but for [prev_rip], which
    a task switch sets too. *)
Definition pending (s : machine) : Z * Z * Z := (errorno s, curr_exception s, prev_rip s).
Definition nesting (s : machine) : Z * Z := (errorno s, curr_exception s).

Definition keeps_pending {A} (m : Mach A) : Prop :=
  forall p, preserves (fun s => pending s = p) m.
Definition keeps_nesting {A} (m : Mach A) : Prop :=
  forall p, preserves (fun s => nesting s = p) m.

Record contract (p : handler * handler) : Prop := {
  contract_refines : implements p;
  contract_wf : keeps_wf p;
  contract_coherent : forall i s, coherent s ->
    match p.1 i s with Ret _ s' => coherent s' | Fault _ _ s' => mode_known s' | Crash => True end;
  contract_commits : forall i s, speculative_rsp s = 0 ->
    match p.1 i s with Ret _ s' => speculative_rsp s' = 0 | _ => True end;
  contract_nesting : forall i, keeps_nesting (p.1 i)
}.

(** What only instructions that are not repeated, and transfer control only
    within a segment, promise: after an exception the instruction can begin
    again, and the caches of the mode are right even then. *)
Record restarts (p : handler * handler) : Prop := {
  restarts_arch : forall i, restartable (p.1 i);
  restarts_coherent : forall i, preserves coherent (p.1 i);
  restarts_pending : forall i, keeps_pending (p.1 i)
}.

#[export] Instance pending_Frame p : Frame (fun s => pending s = p).
Proof. frame_tac. Qed.

Lemma control_pending s s' : control s' = control s -> pending s' = pending s.
Proof. unfold control, pending. rewrite !pair_equal_spec. tauto. Qed.
Lemma steady_pending {A} (m : Mach A) : steady m -> keeps_pending m.
Proof.
  intros Hm p s <-. specialize (Hm s). destruct (m s); [by apply control_pending..|done].
Qed.

Lemma pending_nesting {A} (m : Mach A) : keeps_pending m -> keeps_nesting m.
Proof.
  intros Hm p s Hs. pose proof (Hm (pending s) s eq_refl) as H. unfold nesting, pending in *.
  destruct (m s); [| |done]; apply pair_equal_spec in H as [-> _]; exact Hs.
Qed.
Lemma contract_intro p :
  implements p -> keeps_wf p -> (forall i, preserves coherent (p.1 i)) ->
  (forall i s, speculative_rsp s = 0 -> match p.1 i s with Ret _ s' => speculative_rsp s' = 0 | _ => True end) ->
  (forall i, keeps_pending (p.1 i)) -> contract p.
Proof.
  intros Hi Hw Hc Ho Hp. split; [done|done| |done|].
  - intros i s Hs. specialize (Hc i s Hs). destruct (p.1 i s); [done|by apply coherent_mode_known|done].
  - intros i. by apply pending_nesting.
Qed.

(** Most handlers leave the control state alone and raise their exceptions
    before they change anything. *)
Lemma plain_contract p : implements p -> keeps_wf p -> (forall i, steady (p.1 i)) -> contract p.
Proof.
  intros Hi Hw Hs. apply contract_intro; [done|done|..].
  - intros i. by apply steady_coherent.
  - intros i s. by apply steady_commits.
  - intros i. by apply steady_pending.
Qed.
Lemma plain_contracts l :
  Forall implements l -> Forall keeps_wf l -> Forall (fun p => forall i, steady (p.1 i)) l -> Forall contract l.
Proof. rewrite !Forall_forall. intros Hi Hw Hs p Hin. by apply plain_contract; auto. Qed.
Lemma plain_restarts l :
  Forall is_precise l -> Forall (fun p => forall i, steady (p.1 i)) l -> Forall restarts l.
Proof.
  rewrite !Forall_forall. intros Hp Hs p Hin. assert (forall i, steady (p.1 i)) as H by exact (Hs p Hin).
  split; intros i; [apply precise_restartable; [by apply Hp|done]|by apply steady_coherent|by apply steady_pending].
Qed.

(** Instructions that write system registers but nothing the caches of the mode
    are computed from. *)
Definition core (s : machine) := fst (control s).
Definition calm {A} (m : Mach A) : Prop :=
  forall s, match m s with Ret _ s' | Fault _ _ s' => core s' = core s | Crash => True end.

Lemma steady_calm {A} (m : Mach A) : steady m -> calm m.
Proof. intros Hm s. specialize (Hm s). destruct (m s); [unfold core; by rewrite Hm..|done]. Qed.
Lemma calm_bind {A B} (m : Mach A) (k : A -> Mach B) : calm m -> (forall a, calm (k a)) -> calm (m ≫= k).
Proof.
  intros Hm Hk s. specialize (Hm s). unfold mbind, M_bind. destruct (m s) as [a s'|v e s'|]; [|done|done].
  specialize (Hk a s'). destruct (k a s'); [congruence|congruence|done].
Qed.
Lemma calm_modify f : (forall s, core (f s) = core s) -> calm (modify f).
Proof. intros H s. apply H. Qed.
Ltac calm_step :=
  match goal with
  | |- forall _, _ => intros ?
  | |- calm (mbind _ _) => apply calm_bind
  | |- calm (let _ := _ in _) => cbv zeta
  | |- calm (match ?x with _ => _ end) => destruct x
  | |- calm (modify _) => apply calm_modify; intros ?; reflexivity
  | |- calm _ => apply steady_calm; solve [steady_tac]
  end.
Ltac calm_tac := repeat calm_step.

Lemma core_coherent s s' : core s' = core s -> coherent s -> coherent s'.
Proof.
  unfold core, control, coherent, mode_of, checks_alignment. cbn [fst]. rewrite !pair_equal_spec.
  by intros [[[[[_ ->] _] [-> ->]] [-> ->]] [[[-> ->] ->] ->]].
Qed.
Lemma core_pending s s' :
  core s' = core s -> pending s' = pending s /\ speculative_rsp s' = speculative_rsp s.
Proof. unfold core, control, pending. cbn [fst]. rewrite !pair_equal_spec. tauto. Qed.

Lemma calm_contract p : implements p -> keeps_wf p -> (forall i, calm (p.1 i)) -> contract p.
Proof.
  intros Hi Hw Hs. apply contract_intro; [done|done|..].
  - intros i s Hc. specialize (Hs i s). destruct (p.1 i s); [by eapply core_coherent..|done].
  - intros i s H0. specialize (Hs i s). destruct (p.1 i s); [|done|done]. apply core_pending in Hs as [_ ->]. done.
  - intros i q s Hq. specialize (Hs i s). destruct (p.1 i s); [| |done]; by apply core_pending in Hs as [-> _].
Qed.
Lemma calm_restarts p : is_precise p -> (forall i, calm (p.1 i)) -> restarts p.
Proof.
  intros Hp Hs. split; intros i.
  - intros s v e s' _ H0 E. exists s'. split; [|by eapply Hp]. specialize (Hs i s). rewrite E in Hs.
    apply core_pending in Hs as [_ Hs]. unfold restore_rsp. by rewrite (bind_gets speculative_rsp), Hs, H0.
  - intros s Hc. specialize (Hs i s). destruct (p.1 i s); [by eapply core_coherent..|done].
  - intros q s Hq. specialize (Hs i s). destruct (p.1 i s); [| |done]; by apply core_pending in Hs as [-> _].
Qed.
Lemma calm_contracts l :
  Forall implements l -> Forall keeps_wf l -> Forall (fun p => forall i, calm (p.1 i)) l -> Forall contract l.
Proof. rewrite !Forall_forall. intros Hi Hw Hs p Hin. by apply calm_contract; auto. Qed.
Lemma calm_restarts_all l :
  Forall is_precise l -> Forall (fun p => forall i, calm (p.1 i)) l -> Forall restarts l.
Proof. rewrite !Forall_forall. intros Hp Hs p Hin. by apply calm_restarts; auto. Qed.

(** ** The instances so far *)

(** A handler that is its own reference. *)
Definition selves (l : list handler) : list (handler * handler) := (fun h => (h, h)) <$> l.
Lemma Forall_selves (P : handler * handler -> Prop) l : Forall (fun h => P (h, h)) l -> Forall P (selves l).
Proof. unfold selves. by rewrite Forall_fmap. Qed.

Ltac pending_tac :=
  intros p;
  repeat match goal with
  | |- preserves _ (when _ _) => apply preserves_when
  | |- _ => frame_step
  | |- preserves _ _ => apply steady_pending; unfold_widths; solve [steady_tac]
  end.
Lemma speculative_pending : Forall (fun h : handler => forall i, keeps_pending (h i)) speculative_handlers.
Proof. table_tac ltac:(intros i; match goal with |- keeps_pending (?h _) => unfold h end; unfold RSP_SPECULATIVE, RSP_COMMIT, SS_d_b; pending_tac).
Qed.
Lemma writeEFlags_pending flags mask p : preserves (fun s => pending s = p) (writeEFlags flags mask).
Proof.
  unfold writeEFlags, setEFlags, handleAlignmentCheck, handleCpuModeChange, updateFetchModeMask. frame_walk.
Qed.
#[local] Hint Resolve writeEFlags_pending : frame.
Lemma popf_pending : Forall (fun p => forall i, keeps_pending (p.1 i)) popf_table.
Proof.
  table_tac ltac:(intros i; cbn [fst]; unfold POPF_Fw, POPF_Fd, RSP_SPECULATIVE, RSP_COMMIT; pending_tac).
Qed.

Lemma segment_contracts : Forall contract segment_table.
Proof. apply plain_contracts; [apply segment_implements|apply segment_keeps_wf|apply segment_steady]. Qed.
Lemma segment_restarts : Forall restarts segment_table.
Proof. apply plain_restarts; [apply segment_is_precise|apply segment_steady]. Qed.

Lemma stack_pending : Forall (fun h : handler => forall i, keeps_pending (h i)) stack_handlers.
Proof.
  pose proof plain_stack_steady as H6. pose proof speculative_pending as H7. rewrite Forall_forall in *.
  intros h Hh i. apply elem_of_app in Hh as [Hh|Hh]; [by apply steady_pending, H6|by apply H7].
Qed.
Lemma stack_contracts : Forall contract (selves stack_handlers).
Proof.
  apply Forall_selves.
  pose proof stack_refines as H1. pose proof stack_wf as H2.
  pose proof stack_coherent as H4. pose proof stack_commits as H5. pose proof stack_pending as H6.
  rewrite Forall_forall in *. intros h Hh.
  apply contract_intro; [exact (H1 h Hh)|exact (H2 h Hh)|exact (H4 h Hh)|exact (H5 h Hh)|exact (H6 h Hh)].
Qed.
Lemma stack_restarts : Forall restarts (selves stack_handlers).
Proof.
  apply Forall_selves. pose proof stack_restartable as H1. pose proof stack_coherent as H4.
  pose proof stack_pending as H6. rewrite Forall_forall in *. intros h Hh.
  split; [exact (H1 h Hh)|exact (H4 h Hh)|exact (H6 h Hh)].
Qed.

Lemma eflags_pending : Forall (fun p => forall i, keeps_pending (p.1 i)) (eflags_table ++ popf_table).
Proof.
  pose proof eflags_steady as H6. pose proof popf_pending as H7. rewrite Forall_forall in *.
  intros p Hp i. apply elem_of_app in Hp as [Hp|Hp]; [by apply steady_pending, H6|by apply H7].
Qed.
Lemma eflags_contracts : Forall contract (eflags_table ++ popf_table).
Proof.
  pose proof (Forall_app_2 _ _ _ eflags_implements popf_implements) as H1.
  pose proof eflags_keeps_wf as H2.
  pose proof eflags_coherent as H4. pose proof eflags_commits as H5. pose proof eflags_pending as H6.
  rewrite Forall_forall in *. intros p Hp.
  apply contract_intro; [exact (H1 p Hp)|exact (H2 p Hp)|exact (H4 p Hp)|exact (H5 p Hp)|exact (H6 p Hp)].
Qed.
Lemma eflags_restarts : Forall restarts (eflags_table ++ popf_table).
Proof.
  pose proof eflags_restartable as H1. pose proof eflags_coherent as H4. pose proof eflags_pending as H6.
  rewrite Forall_forall in *. intros p Hp. split; [exact (H1 p Hp)|exact (H4 p Hp)|exact (H6 p Hp)].
Qed.
