(* ===== verification/Arith.v ===== *)
(** * Arith: the arithmetic instructions

    cpu/arith8.cc, cpu/arith16.cc and cpu/arith32.cc.  Each
    handler is followed, at the end of the file, by the eager instruction it
    implements. *)
From stdpp Require Import base numbers list gmap.
From Stdlib Require Import ZArith Lia.
From S2P Require Import Prelude Machine LazyFlags Memory Paging Access Regs Precise Reference.

Local Open Scope Z_scope.

(** ** cpu/arith8.cc *)

Definition ADD_EbGbM (i : bxInstruction_c) : Mach unit :=
  eaddr ← resolve i;
  op1 ← read_RMW_virtual_byte_32 (i_seg i) eaddr;
  op2 ← BX_READ_8BIT_REGx (i_nnn i);
  let sum := u8 (op1 + op2) in
  write_RMW_virtual_byte sum;;
  SET_FLAGS_OSZAPC_ADD_8 op1 op2 sum.

Definition ADD_GbEbR (i : bxInstruction_c) : Mach unit :=
  op1 ← BX_READ_8BIT_REGx (i_nnn i);
  op2 ← BX_READ_8BIT_REGx (i_rm i);
  let sum := u8 (op1 + op2) in
  BX_WRITE_8BIT_REGx (i_nnn i) sum;;
  SET_FLAGS_OSZAPC_ADD_8 op1 op2 sum.

Definition ADD_ALIb (i : bxInstruction_c) : Mach unit :=
  op1 ← AL;
  let op2 := Ib i in
  let sum := u8 (op1 + op2) in
  set_AL sum;;
  SET_FLAGS_OSZAPC_ADD_8 op1 op2 sum.

Definition ADC_EbGbM (i : bxInstruction_c) : Mach unit :=
  temp_CF ← gets (getB_flag CF);
  eaddr ← resolve i;
  op1 ← read_RMW_virtual_byte_32 (i_seg i) eaddr;
  op2 ← BX_READ_8BIT_REGx (i_nnn i);
  let sum := u8 (op1 + op2 + temp_CF) in
  write_RMW_virtual_byte sum;;
  SET_FLAGS_OSZAPC_8 op1 op2 sum (BX_LF_INSTR_ADD_ADC8 temp_CF).

Definition ADC_GbEbR (i : bxInstruction_c) : Mach unit :=
  temp_CF ← gets (getB_flag CF);
  op1 ← BX_READ_8BIT_REGx (i_nnn i);
  op2 ← BX_READ_8BIT_REGx (i_rm i);
  let sum := u8 (op1 + op2 + temp_CF) in
  BX_WRITE_8BIT_REGx (i_nnn i) sum;;
  SET_FLAGS_OSZAPC_8 op1 op2 sum (BX_LF_INSTR_ADD_ADC8 temp_CF).

Definition ADC_ALIb (i : bxInstruction_c) : Mach unit :=
  temp_CF ← gets (getB_flag CF);
  op1 ← AL;
  let op2 := Ib i in
  let sum := u8 (op1 + op2 + temp_CF) in
  set_AL sum;;
  SET_FLAGS_OSZAPC_8 op1 op2 sum (BX_LF_INSTR_ADD_ADC8 temp_CF).

Definition SBB_EbGbM (i : bxInstruction_c) : Mach unit :=
  temp_CF ← gets (getB_flag CF);
  eaddr ← resolve i;
  op1_8 ← read_RMW_virtual_byte_32 (i_seg i) eaddr;
  op2_8 ← BX_READ_8BIT_REGx (i_nnn i);
  let diff_8 := u8 (op1_8 - (op2_8 + temp_CF)) in
  write_RMW_virtual_byte diff_8;;
  SET_FLAGS_OSZAPC_8 op1_8 op2_8 diff_8 (BX_LF_INSTR_SUB_SBB8 temp_CF).

Definition SBB_GbEbR (i : bxInstruction_c) : Mach unit :=
  temp_CF ← gets (getB_flag CF);
  op1_8 ← BX_READ_8BIT_REGx (i_nnn i);
  op2_8 ← BX_READ_8BIT_REGx (i_rm i);
  let diff_8 := u8 (op1_8 - (op2_8 + temp_CF)) in
  BX_WRITE_8BIT_REGx (i_nnn i) diff_8;;
  SET_FLAGS_OSZAPC_8 op1_8 op2_8 diff_8 (BX_LF_INSTR_SUB_SBB8 temp_CF).

Definition SBB_ALIb (i : bxInstruction_c) : Mach unit :=
  temp_CF ← gets (getB_flag CF);
  op1_8 ← AL;
  let op2_8 := Ib i in
  let diff_8 := u8 (op1_8 - (op2_8 + temp_CF)) in
  set_AL diff_8;;
  SET_FLAGS_OSZAPC_8 op1_8 op2_8 diff_8 (BX_LF_INSTR_SUB_SBB8 temp_CF).

Definition SBB_EbIbM (i : bxInstruction_c) : Mach unit :=
  let op2_8 := Ib i in
  temp_CF ← gets (getB_flag CF);
  eaddr ← resolve i;
  op1_8 ← read_RMW_virtual_byte_32 (i_seg i) eaddr;
  let diff_8 := u8 (op1_8 - (op2_8 + temp_CF)) in
  write_RMW_virtual_byte diff_8;;
  SET_FLAGS_OSZAPC_8 op1_8 op2_8 diff_8 (BX_LF_INSTR_SUB_SBB8 temp_CF).

Definition SBB_EbIbR (i : bxInstruction_c) : Mach unit :=
  let op2_8 := Ib i in
  temp_CF ← gets (getB_flag CF);
  op1_8 ← BX_READ_8BIT_REGx (i_rm i);
  let diff_8 := u8 (op1_8 - (op2_8 + temp_CF)) in
  BX_WRITE_8BIT_REGx (i_rm i) diff_8;;
  SET_FLAGS_OSZAPC_8 op1_8 op2_8 diff_8 (BX_LF_INSTR_SUB_SBB8 temp_CF).

Definition SUB_EbGbM (i : bxInstruction_c) : Mach unit :=
  eaddr ← resolve i;
  op1_8 ← read_RMW_virtual_byte_32 (i_seg i) eaddr;
  op2_8 ← BX_READ_8BIT_REGx (i_nnn i);
  let diff_8 := u8 (op1_8 - op2_8) in
  write_RMW_virtual_byte diff_8;;
  SET_FLAGS_OSZAPC_SUB_8 op1_8 op2_8 diff_8.

Definition SUB_GbEbR (i : bxInstruction_c) : Mach unit :=
  op1_8 ← BX_READ_8BIT_REGx (i_nnn i);
  op2_8 ← BX_READ_8BIT_REGx (i_rm i);
  let diff_8 := u8 (op1_8 - op2_8) in
  BX_WRITE_8BIT_REGx (i_nnn i) diff_8;;
  SET_FLAGS_OSZAPC_SUB_8 op1_8 op2_8 diff_8.

Definition SUB_ALIb (i : bxInstruction_c) : Mach unit :=
  op1_8 ← AL;
  let op2_8 := Ib i in
  let diff_8 := u8 (op1_8 - op2_8) in
  set_AL diff_8;;
  SET_FLAGS_OSZAPC_SUB_8 op1_8 op2_8 diff_8.

Definition CMP_EbGbM (i : bxInstruction_c) : Mach unit :=
  eaddr ← resolve i;
  op1_8 ← read_virtual_byte_32 (i_seg i) eaddr;
  op2_8 ← BX_READ_8BIT_REGx (i_nnn i);
  let diff_8 := u8 (op1_8 - op2_8) in
  SET_FLAGS_OSZAPC_SUB_8 op1_8 op2_8 diff_8.

Definition CMP_GbEbR (i : bxInstruction_c) : Mach unit :=
  op1_8 ← BX_READ_8BIT_REGx (i_nnn i);
  op2_8 ← BX_READ_8BIT_REGx (i_rm i);
  let diff_8 := u8 (op1_8 - op2_8) in
  SET_FLAGS_OSZAPC_SUB_8 op1_8 op2_8 diff_8.

Definition CMP_ALIb (i : bxInstruction_c) : Mach unit :=
  op1_8 ← AL;
  let op2_8 := Ib i in
  let diff_8 := u8 (op1_8 - op2_8) in
  SET_FLAGS_OSZAPC_SUB_8 op1_8 op2_8 diff_8.

Definition XADD_EbGbM (i : bxInstruction_c) : Mach unit :=
  eaddr ← resolve i;
  op1 ← read_RMW_virtual_byte_32 (i_seg i) eaddr;
  op2 ← BX_READ_8BIT_REGx (i_nnn i);
  let sum := u8 (op1 + op2) in
  write_RMW_virtual_byte sum;;
  BX_WRITE_8BIT_REGx (i_nnn i) op1;;
  SET_FLAGS_OSZAPC_ADD_8 op1 op2 sum.

Definition XADD_EbGbR (i : bxInstruction_c) : Mach unit :=
  op1 ← BX_READ_8BIT_REGx (i_rm i);
  op2 ← BX_READ_8BIT_REGx (i_nnn i);
  let sum := u8 (op1 + op2) in
  BX_WRITE_8BIT_REGx (i_nnn i) op1;;
  BX_WRITE_8BIT_REGx (i_rm i) sum;;
  SET_FLAGS_OSZAPC_ADD_8 op1 op2 sum.

Definition ADD_EbIbM (i : bxInstruction_c) : Mach unit :=
  let op2 := Ib i in
  eaddr ← resolve i;
  op1 ← read_RMW_virtual_byte_32 (i_seg i) eaddr;
  let sum := u8 (op1 + op2) in
  write_RMW_virtual_byte sum;;
  SET_FLAGS_OSZAPC_ADD_8 op1 op2 sum.

Definition ADD_EbIbR (i : bxInstruction_c) : Mach unit :=
  let op2 := Ib i in
  op1 ← BX_READ_8BIT_REGx (i_rm i);
  let sum := u8 (op1 + op2) in
  BX_WRITE_8BIT_REGx (i_rm i) sum;;
  SET_FLAGS_OSZAPC_ADD_8 op1 op2 sum.

Definition ADC_EbIbM (i : bxInstruction_c) : Mach unit :=
  let op2 := Ib i in
  temp_CF ← gets (getB_flag CF);
  eaddr ← resolve i;
  op1 ← read_RMW_virtual_byte_32 (i_seg i) eaddr;
  let sum := u8 (op1 + op2 + temp_CF) in
  write_RMW_virtual_byte sum;;
  SET_FLAGS_OSZAPC_8 op1 op2 sum (BX_LF_INSTR_ADD_ADC8 temp_CF).

Definition ADC_EbIbR (i : bxInstruction_c) : Mach unit :=
  let op2 := Ib i in
  temp_CF ← gets (getB_flag CF);
  op1 ← BX_READ_8BIT_REGx (i_rm i);
  let sum := u8 (op1 + op2 + temp_CF) in
  BX_WRITE_8BIT_REGx (i_rm i) sum;;
  SET_FLAGS_OSZAPC_8 op1 op2 sum (BX_LF_INSTR_ADD_ADC8 temp_CF).

Definition SUB_EbIbM (i : bxInstruction_c) : Mach unit :=
  let op2_8 := Ib i in
  eaddr ← resolve i;
  op1_8 ← read_RMW_virtual_byte_32 (i_seg i) eaddr;
  let diff_8 := u8 (op1_8 - op2_8) in
  write_RMW_virtual_byte diff_8;;
  SET_FLAGS_OSZAPC_SUB_8 op1_8 op2_8 diff_8.

Definition SUB_EbIbR (i : bxInstruction_c) : Mach unit :=
  let op2_8 := Ib i in
  op1_8 ← BX_READ_8BIT_REGx (i_rm i);
  let diff_8 := u8 (op1_8 - op2_8) in
  BX_WRITE_8BIT_REGx (i_rm i) diff_8;;
  SET_FLAGS_OSZAPC_SUB_8 op1_8 op2_8 diff_8.

Definition CMP_EbIbM (i : bxInstruction_c) : Mach unit :=
  let op2_8 := Ib i in
  eaddr ← resolve i;
  op1_8 ← read_virtual_byte_32 (i_seg i) eaddr;
  let diff_8 := u8 (op1_8 - op2_8) in
  SET_FLAGS_OSZAPC_SUB_8 op1_8 op2_8 diff_8.

Definition CMP_EbIbR (i : bxInstruction_c) : Mach unit :=
  let op2_8 := Ib i in
  op1_8 ← BX_READ_8BIT_REGx (i_rm i);
  let diff_8 := u8 (op1_8 - op2_8) in
  SET_FLAGS_OSZAPC_SUB_8 op1_8 op2_8 diff_8.

Definition NEG_EbM (i : bxInstruction_c) : Mach unit :=
  eaddr ← resolve i;
  op1_8 ← read_RMW_virtual_byte_32 (i_seg i) eaddr;
  let op1_8 := u8 (- (s8 op1_8)) in
  write_RMW_virtual_byte op1_8;;
  SET_FLAGS_OSZAPC_RESULT_8 op1_8 BX_LF_INSTR_NEG8.

Definition NEG_EbR (i : bxInstruction_c) : Mach unit :=
  op1_8 ← BX_READ_8BIT_REGx (i_rm i);
  let op1_8 := u8 (- (s8 op1_8)) in
  BX_WRITE_8BIT_REGx (i_rm i) op1_8;;
  SET_FLAGS_OSZAPC_RESULT_8 op1_8 BX_LF_INSTR_NEG8.

Definition INC_EbM (i : bxInstruction_c) : Mach unit :=
  eaddr ← resolve i;
  op1_8 ← read_RMW_virtual_byte_32 (i_seg i) eaddr;
  let op1_8 := u8 (op1_8 + 1) in
  write_RMW_virtual_byte op1_8;;
  SET_FLAGS_OSZAPC_INC_8 op1_8.

Definition INC_EbR (i : bxInstruction_c) : Mach unit :=
  op1_8 ← BX_READ_8BIT_REGx (i_rm i);
  let op1_8 := u8 (op1_8 + 1) in
  BX_WRITE_8BIT_REGx (i_rm i) op1_8;;
  SET_FLAGS_OSZAPC_INC_8 op1_8.

Definition DEC_EbM (i : bxInstruction_c) : Mach unit :=
  eaddr ← resolve i;
  op1_8 ← read_RMW_virtual_byte_32 (i_seg i) eaddr;
  let op1_8 := u8 (op1_8 - 1) in
  write_RMW_virtual_byte op1_8;;
  SET_FLAGS_OSZAPC_DEC_8 op1_8.

Definition DEC_EbR (i : bxInstruction_c) : Mach unit :=
  op1_8 ← BX_READ_8BIT_REGx (i_rm i);
  let op1_8 := u8 (op1_8 - 1) in
  BX_WRITE_8BIT_REGx (i_rm i) op1_8;;
  SET_FLAGS_OSZAPC_DEC_8 op1_8.

Definition CMPXCHG_EbGbM (i : bxInstruction_c) : Mach unit :=
  eaddr ← resolve i;
  op1_8 ← read_RMW_virtual_byte_32 (i_seg i) eaddr;
  al ← AL;
  let diff_8 := u8 (al - op1_8) in
  SET_FLAGS_OSZAPC_SUB_8 al op1_8 diff_8;;
  if diff_8 =? 0 then
    op2_8 ← BX_READ_8BIT_REGx (i_nnn i);
    write_RMW_virtual_byte op2_8
  else
    set_AL op1_8.

Definition CMPXCHG_EbGbR (i : bxInstruction_c) : Mach unit :=
  op1_8 ← BX_READ_8BIT_REGx (i_rm i);
  al ← AL;
  let diff_8 := u8 (al - op1_8) in
  SET_FLAGS_OSZAPC_SUB_8 al op1_8 diff_8;;
  if diff_8 =? 0 then
    op2_8 ← BX_READ_8BIT_REGx (i_nnn i);
    BX_WRITE_8BIT_REGx (i_rm i) op2_8
  else
    set_AL op1_8.

(** ** cpu/arith16.cc *)

Definition INC_RX (i : bxInstruction_c) : Mach unit :=
  val ← BX_READ_16BIT_REG (opcodeReg i);
  let rx := u16 (val + 1) in
  BX_WRITE_16BIT_REG (opcodeReg i) rx;;
  SET_FLAGS_OSZAPC_INC_16 rx.

Definition DEC_RX (i : bxInstruction_c) : Mach unit :=
  val ← BX_READ_16BIT_REG (opcodeReg i);
  let rx := u16 (val - 1) in
  BX_WRITE_16BIT_REG (opcodeReg i) rx;;
  SET_FLAGS_OSZAPC_DEC_16 rx.

Definition ADD_EwGwM (i : bxInstruction_c) : Mach unit :=
  eaddr ← resolve i;
  op1_16 ← read_RMW_virtual_word_32 (i_seg i) eaddr;
  op2_16 ← BX_READ_16BIT_REG (i_nnn i);
  let sum_16 := u16 (op1_16 + op2_16) in
  write_RMW_virtual_word sum_16;;
  SET_FLAGS_OSZAPC_ADD_16 op1_16 op2_16 sum_16.

Definition ADD_GwEwR (i : bxInstruction_c) : Mach unit :=
  op1_16 ← BX_READ_16BIT_REG (i_nnn i);
  op2_16 ← BX_READ_16BIT_REG (i_rm i);
  let sum_16 := u16 (op1_16 + op2_16) in
  BX_WRITE_16BIT_REG (i_nnn i) sum_16;;
  SET_FLAGS_OSZAPC_ADD_16 op1_16 op2_16 sum_16.

Definition ADD_AXIw (i : bxInstruction_c) : Mach unit :=
  op1_16 ← AX;
  let op2_16 := Iw i in
  let sum_16 := u16 (op1_16 + op2_16) in
  set_AX sum_16;;
  SET_FLAGS_OSZAPC_ADD_16 op1_16 op2_16 sum_16.

Definition ADC_EwGwM (i : bxInstruction_c) : Mach unit :=
  temp_CF ← gets (getB_flag CF);
  eaddr ← resolve i;
  op1_16 ← read_RMW_virtual_word_32 (i_seg i) eaddr;
  op2_16 ← BX_READ_16BIT_REG (i_nnn i);
  let sum_16 := u16 (op1_16 + op2_16 + temp_CF) in
  write_RMW_virtual_word sum_16;;
  SET_FLAGS_OSZAPC_16 op1_16 op2_16 sum_16 (BX_LF_INSTR_ADD_ADC16 temp_CF).

Definition ADC_GwEwR (i : bxInstruction_c) : Mach unit :=
  temp_CF ← gets (getB_flag CF);
  op1_16 ← BX_READ_16BIT_REG (i_nnn i);
  op2_16 ← BX_READ_16BIT_REG (i_rm i);
  let sum_16 := u16 (op1_16 + op2_16 + temp_CF) in
  BX_WRITE_16BIT_REG (i_nnn i) sum_16;;
  SET_FLAGS_OSZAPC_16 op1_16 op2_16 sum_16 (BX_LF_INSTR_ADD_ADC16 temp_CF).

Definition ADC_AXIw (i : bxInstruction_c) : Mach unit :=
  temp_CF ← gets (getB_flag CF);
  op1_16 ← AX;
  let op2_16 := Iw i in
  let sum_16 := u16 (op1_16 + op2_16 + temp_CF) in
  set_AX sum_16;;
  SET_FLAGS_OSZAPC_16 op1_16 op2_16 sum_16 (BX_LF_INSTR_ADD_ADC16 temp_CF).

Definition SBB_EwGwM (i : bxInstruction_c) : Mach unit :=
  temp_CF ← gets (getB_flag CF);
  eaddr ← resolve i;
  op1_16 ← read_RMW_virtual_word_32 (i_seg i) eaddr;
  op2_16 ← BX_READ_16BIT_REG (i_nnn i);
  let diff_16 := u16 (op1_16 - (op2_16 + temp_CF)) in
  write_RMW_virtual_word diff_16;;
  SET_FLAGS_OSZAPC_16 op1_16 op2_16 diff_16 (BX_LF_INSTR_SUB_SBB16 temp_CF).

Definition SBB_GwEwR (i : bxInstruction_c) : Mach unit :=
  temp_CF ← gets (getB_flag CF);
  op1_16 ← BX_READ_16BIT_REG (i_nnn i);
  op2_16 ← BX_READ_16BIT_REG (i_rm i);
  let diff_16 := u16 (op1_16 - (op2_16 + temp_CF)) in
  BX_WRITE_16BIT_REG (i_nnn i) diff_16;;
  SET_FLAGS_OSZAPC_16 op1_16 op2_16 diff_16 (BX_LF_INSTR_SUB_SBB16 temp_CF).

Definition SBB_AXIw (i : bxInstruction_c) : Mach unit :=
  temp_CF ← gets (getB_flag CF);
  op1_16 ← AX;
  let op2_16 := Iw i in
  let diff_16 := u16 (op1_16 - (op2_16 + temp_CF)) in
  set_AX diff_16;;
  SET_FLAGS_OSZAPC_16 op1_16 op2_16 diff_16 (BX_LF_INSTR_SUB_SBB16 temp_CF).

Definition SBB_EwIwM (i : bxInstruction_c) : Mach unit :=
  temp_CF ← gets (getB_flag CF);
  let op2_16 := Iw i in
  eaddr ← resolve i;
  op1_16 ← read_RMW_virtual_word_32 (i_seg i) eaddr;
  let diff_16 := u16 (op1_16 - (op2_16 + temp_CF)) in
  write_RMW_virtual_word diff_16;;
  SET_FLAGS_OSZAPC_16 op1_16 op2_16 diff_16 (BX_LF_INSTR_SUB_SBB16 temp_CF).

Definition SBB_EwIwR (i : bxInstruction_c) : Mach unit :=
  temp_CF ← gets (getB_flag CF);
  let op2_16 := Iw i in
  op1_16 ← BX_READ_16BIT_REG (i_rm i);
  let diff_16 := u16 (op1_16 - (op2_16 + temp_CF)) in
  BX_WRITE_16BIT_REG (i_rm i) diff_16;;
  SET_FLAGS_OSZAPC_16 op1_16 op2_16 diff_16 (BX_LF_INSTR_SUB_SBB16 temp_CF).

Definition SUB_EwGwM (i : bxInstruction_c) : Mach unit :=
  eaddr ← resolve i;
  op1_16 ← read_RMW_virtual_word_32 (i_seg i) eaddr;
  op2_16 ← BX_READ_16BIT_REG (i_nnn i);
  let diff_16 := u16 (op1_16 - op2_16) in
  write_RMW_virtual_word diff_16;;
  SET_FLAGS_OSZAPC_SUB_16 op1_16 op2_16 diff_16.

Definition SUB_GwEwR (i : bxInstruction_c) : Mach unit :=
  op1_16 ← BX_READ_16BIT_REG (i_nnn i);
  op2_16 ← BX_READ_16BIT_REG (i_rm i);
  let diff_16 := u16 (op1_16 - op2_16) in
  BX_WRITE_16BIT_REG (i_nnn i) diff_16;;
  SET_FLAGS_OSZAPC_SUB_16 op1_16 op2_16 diff_16.

Definition SUB_AXIw (i : bxInstruction_c) : Mach unit :=
  op1_16 ← AX;
  let op2_16 := Iw i in
  let diff_16 := u16 (op1_16 - op2_16) in
  set_AX diff_16;;
  SET_FLAGS_OSZAPC_SUB_16 op1_16 op2_16 diff_16.

Definition CMP_EwGwM (i : bxInstruction_c) : Mach unit :=
  eaddr ← resolve i;
  op1_16 ← read_virtual_word_32 (i_seg i) eaddr;
  op2_16 ← BX_READ_16BIT_REG (i_nnn i);
  let diff_16 := u16 (op1_16 - op2_16) in
  SET_FLAGS_OSZAPC_SUB_16 op1_16 op2_16 diff_16.

Definition CMP_GwEwR (i : bxInstruction_c) : Mach unit :=
  op1_16 ← BX_READ_16BIT_REG (i_nnn i);
  op2_16 ← BX_READ_16BIT_REG (i_rm i);
  let diff_16 := u16 (op1_16 - op2_16) in
  SET_FLAGS_OSZAPC_SUB_16 op1_16 op2_16 diff_16.

Definition CMP_AXIw (i : bxInstruction_c) : Mach unit :=
  op1_16 ← AX;
  let op2_16 := Iw i in
  let diff_16 := u16 (op1_16 - op2_16) in
  SET_FLAGS_OSZAPC_SUB_16 op1_16 op2_16 diff_16.

Definition CBW (i : bxInstruction_c) : Mach unit :=
  al ← AL;
  set_AX (u16 (s8 al)).

Definition CWD (i : bxInstruction_c) : Mach unit :=
  ax ← AX;
  if nz (Z.land ax 0x8000) then set_DX 0xFFFF
  else set_DX 0x0000.

Definition XADD_EwGwM (i : bxInstruction_c) : Mach unit :=
  eaddr ← resolve i;
  op1_16 ← read_RMW_virtual_word_32 (i_seg i) eaddr;
  op2_16 ← BX_READ_16BIT_REG (i_nnn i);
  let sum_16 := u16 (op1_16 + op2_16) in
  write_RMW_virtual_word sum_16;;
  BX_WRITE_16BIT_REG (i_nnn i) op1_16;;
  SET_FLAGS_OSZAPC_ADD_16 op1_16 op2_16 sum_16.

Definition XADD_EwGwR (i : bxInstruction_c) : Mach unit :=
  op1_16 ← BX_READ_16BIT_REG (i_rm i);
  op2_16 ← BX_READ_16BIT_REG (i_nnn i);
  let sum_16 := u16 (op1_16 + op2_16) in
  BX_WRITE_16BIT_REG (i_nnn i) op1_16;;
  BX_WRITE_16BIT_REG (i_rm i) sum_16;;
  SET_FLAGS_OSZAPC_ADD_16 op1_16 op2_16 sum_16.

Definition ADD_EwIwM (i : bxInstruction_c) : Mach unit :=
  let op2_16 := Iw i in
  eaddr ← resolve i;
  op1_16 ← read_RMW_virtual_word_32 (i_seg i) eaddr;
  let sum_16 := u16 (op1_16 + op2_16) in
  write_RMW_virtual_word sum_16;;
  SET_FLAGS_OSZAPC_ADD_16 op1_16 op2_16 sum_16.

Definition ADD_EwIwR (i : bxInstruction_c) : Mach unit :=
  let op2_16 := Iw i in
  op1_16 ← BX_READ_16BIT_REG (i_rm i);
  let sum_16 := u16 (op1_16 + op2_16) in
  BX_WRITE_16BIT_REG (i_rm i) sum_16;;
  SET_FLAGS_OSZAPC_ADD_16 op1_16 op2_16 sum_16.

Definition ADC_EwIwM (i : bxInstruction_c) : Mach unit :=
  temp_CF ← gets (getB_flag CF);
  let op2_16 := Iw i in
  eaddr ← resolve i;
  op1_16 ← read_RMW_virtual_word_32 (i_seg i) eaddr;
  let sum_16 := u16 (op1_16 + op2_16 + temp_CF) in
  write_RMW_virtual_word sum_16;;
  SET_FLAGS_OSZAPC_16 op1_16 op2_16 sum_16 (BX_LF_INSTR_ADD_ADC16 temp_CF).

Definition ADC_EwIwR (i : bxInstruction_c) : Mach unit :=
  temp_CF ← gets (getB_flag CF);
  let op2_16 := Iw i in
  op1_16 ← BX_READ_16BIT_REG (i_rm i);
  let sum_16 := u16 (op1_16 + op2_16 + temp_CF) in
  BX_WRITE_16BIT_REG (i_rm i) sum_16;;
  SET_FLAGS_OSZAPC_16 op1_16 op2_16 sum_16 (BX_LF_INSTR_ADD_ADC16 temp_CF).

Definition SUB_EwIwM (i : bxInstruction_c) : Mach unit :=
  let op2_16 := Iw i in
  eaddr ← resolve i;
  op1_16 ← read_RMW_virtual_word_32 (i_seg i) eaddr;
  let diff_16 := u16 (op1_16 - op2_16) in
  write_RMW_virtual_word diff_16;;
  SET_FLAGS_OSZAPC_SUB_16 op1_16 op2_16 diff_16.

Definition SUB_EwIwR (i : bxInstruction_c) : Mach unit :=
  let op2_16 := Iw i in
  op1_16 ← BX_READ_16BIT_REG (i_rm i);
  let diff_16 := u16 (op1_16 - op2_16) in
  BX_WRITE_16BIT_REG (i_rm i) diff_16;;
  SET_FLAGS_OSZAPC_SUB_16 op1_16 op2_16 diff_16.

Definition CMP_EwIwM (i : bxInstruction_c) : Mach unit :=
  let op2_16 := Iw i in
  eaddr ← resolve i;
  op1_16 ← read_virtual_word_32 (i_seg i) eaddr;
  let diff_16 := u16 (op1_16 - op2_16) in
  SET_FLAGS_OSZAPC_SUB_16 op1_16 op2_16 diff_16.

Definition CMP_EwIwR (i : bxInstruction_c) : Mach unit :=
  let op2_16 := Iw i in
  op1_16 ← BX_READ_16BIT_REG (i_rm i);
  let diff_16 := u16 (op1_16 - op2_16) in
  SET_FLAGS_OSZAPC_SUB_16 op1_16 op2_16 diff_16.

Definition NEG_EwM (i : bxInstruction_c) : Mach unit :=
  eaddr ← resolve i;
  op1_16 ← read_RMW_virtual_word_32 (i_seg i) eaddr;
  let op1_16 := u16 (- (s16 op1_16)) in
  write_RMW_virtual_word op1_16;;
  SET_FLAGS_OSZAPC_RESULT_16 op1_16 BX_LF_INSTR_NEG16.

Definition NEG_EwR (i : bxInstruction_c) : Mach unit :=
  op1_16 ← BX_READ_16BIT_REG (i_rm i);
  let op1_16 := u16 (- (s16 op1_16)) in
  BX_WRITE_16BIT_REG (i_rm i) op1_16;;
  SET_FLAGS_OSZAPC_RESULT_16 op1_16 BX_LF_INSTR_NEG16.

Definition INC_EwM (i : bxInstruction_c) : Mach unit :=
  eaddr ← resolve i;
  op1_16 ← read_RMW_virtual_word_32 (i_seg i) eaddr;
  let op1_16 := u16 (op1_16 + 1) in
  write_RMW_virtual_word op1_16;;
  SET_FLAGS_OSZAPC_INC_16 op1_16.

Definition DEC_EwM (i : bxInstruction_c) : Mach unit :=
  eaddr ← resolve i;
  op1_16 ← read_RMW_virtual_word_32 (i_seg i) eaddr;
  let op1_16 := u16 (op1_16 - 1) in
  write_RMW_virtual_word op1_16;;
  SET_FLAGS_OSZAPC_DEC_16 op1_16.

Definition CMPXCHG_EwGwM (i : bxInstruction_c) : Mach unit :=
  eaddr ← resolve i;
  op1_16 ← read_RMW_virtual_word_32 (i_seg i) eaddr;
  ax ← AX;
  let diff_16 := u16 (ax - op1_16) in
  SET_FLAGS_OSZAPC_SUB_16 ax op1_16 diff_16;;
  if diff_16 =? 0 then
    op2_16 ← BX_READ_16BIT_REG (i_nnn i);
    write_RMW_virtual_word op2_16
  else
    set_AX op1_16.

Definition CMPXCHG_EwGwR (i : bxInstruction_c) : Mach unit :=
  op1_16 ← BX_READ_16BIT_REG (i_rm i);
  ax ← AX;
  let diff_16 := u16 (ax - op1_16) in
  SET_FLAGS_OSZAPC_SUB_16 ax op1_16 diff_16;;
  if diff_16 =? 0 then
    op2_16 ← BX_READ_16BIT_REG (i_nnn i);
    BX_WRITE_16BIT_REG (i_rm i) op2_16
  else
    set_AX op1_16.

(** ** cpu/arith32.cc *)

Definition INC_ERX (i : bxInstruction_c) : Mach unit :=
  val ← BX_READ_32BIT_REG (opcodeReg i);
  let erx := u32 (val + 1) in
  BX_WRITE_32BIT_REGZ (opcodeReg i) erx;;
  SET_FLAGS_OSZAPC_INC_32 erx.

Definition DEC_ERX (i : bxInstruction_c) : Mach unit :=
  val ← BX_READ_32BIT_REG (opcodeReg i);
  let erx := u32 (val - 1) in
  BX_WRITE_32BIT_REGZ (opcodeReg i) erx;;
  SET_FLAGS_OSZAPC_DEC_32 erx.

Definition ADD_EdGdM (i : bxInstruction_c) : Mach unit :=
  eaddr ← resolve i;
  op1_32 ← read_RMW_virtual_dword_32 (i_seg i) eaddr;
  op2_32 ← BX_READ_32BIT_REG (i_nnn i);
  let sum_32 := u32 (op1_32 + op2_32) in
  write_RMW_virtual_dword sum_32;;
  SET_FLAGS_OSZAPC_ADD_32 op1_32 op2_32 sum_32.

Definition ADD_GdEdR (i : bxInstruction_c) : Mach unit :=
  op1_32 ← BX_READ_32BIT_REG (i_nnn i);
  op2_32 ← BX_READ_32BIT_REG (i_rm i);
  let sum_32 := u32 (op1_32 + op2_32) in
  BX_WRITE_32BIT_REGZ (i_nnn i) sum_32;;
  SET_FLAGS_OSZAPC_ADD_32 op1_32 op2_32 sum_32.

Definition ADD_EAXId (i : bxInstruction_c) : Mach unit :=
  let op2_32 := Id i in
  op1_32 ← EAX;
  let sum_32 := u32 (op1_32 + op2_32) in
  set_EAX sum_32;;
  SET_FLAGS_OSZAPC_ADD_32 op1_32 op2_32 sum_32.

Definition ADC_EdGdM (i : bxInstruction_c) : Mach unit :=
  temp_CF ← gets (getB_flag CF);
  eaddr ← resolve i;
  op1_32 ← read_RMW_virtual_dword_32 (i_seg i) eaddr;
  op2_32 ← BX_READ_32BIT_REG (i_nnn i);
  let sum_32 := u32 (op1_32 + op2_32 + temp_CF) in
  write_RMW_virtual_dword sum_32;;
  SET_FLAGS_OSZAPC_32 op1_32 op2_32 sum_32 (BX_LF_INSTR_ADD_ADC32 temp_CF).

Definition ADC_GdEdR (i : bxInstruction_c) : Mach unit :=
  temp_CF ← gets (getB_flag CF);
  op1_32 ← BX_READ_32BIT_REG (i_nnn i);
  op2_32 ← BX_READ_32BIT_REG (i_rm i);
  let sum_32 := u32 (op1_32 + op2_32 + temp_CF) in
  BX_WRITE_32BIT_REGZ (i_nnn i) sum_32;;
  SET_FLAGS_OSZAPC_32 op1_32 op2_32 sum_32 (BX_LF_INSTR_ADD_ADC32 temp_CF).

Definition ADC_EAXId (i : bxInstruction_c) : Mach unit :=
  temp_CF ← gets (getB_flag CF);
  let op2_32 := Id i in
  op1_32 ← EAX;
  let sum_32 := u32 (op1_32 + op2_32 + temp_CF) in
  set_EAX sum_32;;
  SET_FLAGS_OSZAPC_32 op1_32 op2_32 sum_32 (BX_LF_INSTR_ADD_ADC32 temp_CF).

Definition SBB_EdGdM (i : bxInstruction_c) : Mach unit :=
  temp_CF ← gets (getB_flag CF);
  eaddr ← resolve i;
  op1_32 ← read_RMW_virtual_dword_32 (i_seg i) eaddr;
  op2_32 ← BX_READ_32BIT_REG (i_nnn i);
  let diff_32 := u32 (op1_32 - (op2_32 + temp_CF)) in
  write_RMW_virtual_dword diff_32;;
  SET_FLAGS_OSZAPC_32 op1_32 op2_32 diff_32 (BX_LF_INSTR_SUB_SBB32 temp_CF).

Definition SBB_GdEdR (i : bxInstruction_c) : Mach unit :=
  temp_CF ← gets (getB_flag CF);
  op1_32 ← BX_READ_32BIT_REG (i_nnn i);
  op2_32 ← BX_READ_32BIT_REG (i_rm i);
  let diff_32 := u32 (op1_32 - (op2_32 + temp_CF)) in
  BX_WRITE_32BIT_REGZ (i_nnn i) diff_32;;
  SET_FLAGS_OSZAPC_32 op1_32 op2_32 diff_32 (BX_LF_INSTR_SUB_SBB32 temp_CF).

Definition SBB_EAXId (i : bxInstruction_c) : Mach unit :=
  temp_CF ← gets (getB_flag CF);
  op1_32 ← EAX;
  let op2_32 := Id i in
  let diff_32 := u32 (op1_32 - (op2_32 + temp_CF)) in
  set_EAX diff_32;;
  SET_FLAGS_OSZAPC_32 op1_32 op2_32 diff_32 (BX_LF_INSTR_SUB_SBB32 temp_CF).

Definition SBB_EdIdM (i : bxInstruction_c) : Mach unit :=
  temp_CF ← gets (getB_flag CF);
  let op2_32 := Id i in
  eaddr ← resolve i;
  op1_32 ← read_RMW_virtual_dword_32 (i_seg i) eaddr;
  let diff_32 := u32 (op1_32 - (op2_32 + temp_CF)) in
  write_RMW_virtual_dword diff_32;;
  SET_FLAGS_OSZAPC_32 op1_32 op2_32 diff_32 (BX_LF_INSTR_SUB_SBB32 temp_CF).

Definition SBB_EdIdR (i : bxInstruction_c) : Mach unit :=
  temp_CF ← gets (getB_flag CF);
  let op2_32 := Id i in
  op1_32 ← BX_READ_32BIT_REG (i_rm i);
  let diff_32 := u32 (op1_32 - (op2_32 + temp_CF)) in
  BX_WRITE_32BIT_REGZ (i_rm i) diff_32;;
  SET_FLAGS_OSZAPC_32 op1_32 op2_32 diff_32 (BX_LF_INSTR_SUB_SBB32 temp_CF).

Definition SUB_EdGdM (i : bxInstruction_c) : Mach unit :=
  eaddr ← resolve i;
  op1_32 ← read_RMW_virtual_dword_32 (i_seg i) eaddr;
  op2_32 ← BX_READ_32BIT_REG (i_nnn i);
  let diff_32 := u32 (op1_32 - op2_32) in
  write_RMW_virtual_dword diff_32;;
  SET_FLAGS_OSZAPC_SUB_32 op1_32 op2_32 diff_32.

Definition SUB_GdEdR (i : bxInstruction_c) : Mach unit :=
  op1_32 ← BX_READ_32BIT_REG (i_nnn i);
  op2_32 ← BX_READ_32BIT_REG (i_rm i);
  let diff_32 := u32 (op1_32 - op2_32) in
  BX_WRITE_32BIT_REGZ (i_nnn i) diff_32;;
  SET_FLAGS_OSZAPC_SUB_32 op1_32 op2_32 diff_32.

Definition SUB_EAXId (i : bxInstruction_c) : Mach unit :=
  op1_32 ← EAX;
  let op2_32 := Id i in
  let diff_32 := u32 (op1_32 - op2_32) in
  set_EAX diff_32;;
  SET_FLAGS_OSZAPC_SUB_32 op1_32 op2_32 diff_32.

Definition CMP_EdGdM (i : bxInstruction_c) : Mach unit :=
  eaddr ← resolve i;
  op1_32 ← read_virtual_dword_32 (i_seg i) eaddr;
  op2_32 ← BX_READ_32BIT_REG (i_nnn i);
  let diff_32 := u32 (op1_32 - op2_32) in
  SET_FLAGS_OSZAPC_SUB_32 op1_32 op2_32 diff_32.

Definition CMP_GdEdR (i : bxInstruction_c) : Mach unit :=
  op1_32 ← BX_READ_32BIT_REG (i_nnn i);
  op2_32 ← BX_READ_32BIT_REG (i_rm i);
  let diff_32 := u32 (op1_32 - op2_32) in
  SET_FLAGS_OSZAPC_SUB_32 op1_32 op2_32 diff_32.

Definition CMP_EAXId (i : bxInstruction_c) : Mach unit :=
  op1_32 ← EAX;
  let op2_32 := Id i in
  let diff_32 := u32 (op1_32 - op2_32) in
  SET_FLAGS_OSZAPC_SUB_32 op1_32 op2_32 diff_32.

Definition CWDE (i : bxInstruction_c) : Mach unit :=
  ax ← AX;
  let tmp := u32 (s16 ax) in
  set_EAX tmp.

Definition CDQ (i : bxInstruction_c) : Mach unit :=
  eax ← EAX;
  if nz (Z.land eax 0x80000000) then set_EDX 0xFFFFFFFF
  else set_EDX 0x00000000.

Definition CMPXCHG_XBTS (i : bxInstruction_c) : Mach unit :=
  exception BX_UD_EXCEPTION 0.

Definition CMPXCHG_IBTS (i : bxInstruction_c) : Mach unit :=
  exception BX_UD_EXCEPTION 0.

Definition XADD_EdGdM (i : bxInstruction_c) : Mach unit :=
  eaddr ← resolve i;
  op1_32 ← read_RMW_virtual_dword_32 (i_seg i) eaddr;
  op2_32 ← BX_READ_32BIT_REG (i_nnn i);
  let sum_32 := u32 (op1_32 + op2_32) in
  write_RMW_virtual_dword sum_32;;
  BX_WRITE_32BIT_REGZ (i_nnn i) op1_32;;
  SET_FLAGS_OSZAPC_ADD_32 op1_32 op2_32 sum_32.

Definition XADD_EdGdR (i : bxInstruction_c) : Mach unit :=
  op1_32 ← BX_READ_32BIT_REG (i_rm i);
  op2_32 ← BX_READ_32BIT_REG (i_nnn i);
  let sum_32 := u32 (op1_32 + op2_32) in
  BX_WRITE_32BIT_REGZ (i_nnn i) op1_32;;
  BX_WRITE_32BIT_REGZ (i_rm i) sum_32;;
  SET_FLAGS_OSZAPC_ADD_32 op1_32 op2_32 sum_32.

Definition ADD_EdIdM (i : bxInstruction_c) : Mach unit :=
  eaddr ← resolve i;
  op1_32 ← read_RMW_virtual_dword_32 (i_seg i) eaddr;
  let op2_32 := Id i in
  let sum_32 := u32 (op1_32 + op2_32) in
  write_RMW_virtual_dword sum_32;;
  SET_FLAGS_OSZAPC_ADD_32 op1_32 op2_32 sum_32.

Definition ADD_EdIdR (i : bxInstruction_c) : Mach unit :=
  op1_32 ← BX_READ_32BIT_REG (i_rm i);
  let op2_32 := Id i in
  let sum_32 := u32 (op1_32 + op2_32) in
  BX_WRITE_32BIT_REGZ (i_rm i) sum_32;;
  SET_FLAGS_OSZAPC_ADD_32 op1_32 op2_32 sum_32.

Definition ADC_EdIdM (i : bxInstruction_c) : Mach unit :=
  temp_CF ← gets (getB_flag CF);
  let op2_32 := Id i in
  eaddr ← resolve i;
  op1_32 ← read_RMW_virtual_dword_32 (i_seg i) eaddr;
  let sum_32 := u32 (op1_32 + op2_32 + temp_CF) in
  write_RMW_virtual_dword sum_32;;
  SET_FLAGS_OSZAPC_32 op1_32 op2_32 sum_32 (BX_LF_INSTR_ADD_ADC32 temp_CF).

Definition ADC_EdIdR (i : bxInstruction_c) : Mach unit :=
  temp_CF ← gets (getB_flag CF);
  let op2_32 := Id i in
  op1_32 ← BX_READ_32BIT_REG (i_rm i);
  let sum_32 := u32 (op1_32 + op2_32 + temp_CF) in
  BX_WRITE_32BIT_REGZ (i_rm i) sum_32;;
  SET_FLAGS_OSZAPC_32 op1_32 op2_32 sum_32 (BX_LF_INSTR_ADD_ADC32 temp_CF).

Definition SUB_EdIdM (i : bxInstruction_c) : Mach unit :=
  let op2_32 := Id i in
  eaddr ← resolve i;
  op1_32 ← read_RMW_virtual_dword_32 (i_seg i) eaddr;
  let diff_32 := u32 (op1_32 - op2_32) in
  write_RMW_virtual_dword diff_32;;
  SET_FLAGS_OSZAPC_SUB_32 op1_32 op2_32 diff_32.

Definition SUB_EdIdR (i : bxInstruction_c) : Mach unit :=
  let op2_32 := Id i in
  op1_32 ← BX_READ_32BIT_REG (i_rm i);
  let diff_32 := u32 (op1_32 - op2_32) in
  BX_WRITE_32BIT_REGZ (i_rm i) diff_32;;
  SET_FLAGS_OSZAPC_SUB_32 op1_32 op2_32 diff_32.

Definition CMP_EdIdM (i : bxInstruction_c) : Mach unit :=
  eaddr ← resolve i;
  op1_32 ← read_virtual_dword_32 (i_seg i) eaddr;
  let op2_32 := Id i in
  let diff_32 := u32 (op1_32 - op2_32) in
  SET_FLAGS_OSZAPC_SUB_32 op1_32 op2_32 diff_32.

Definition CMP_EdIdR (i : bxInstruction_c) : Mach unit :=
  op1_32 ← BX_READ_32BIT_REG (i_rm i);
  let op2_32 := Id i in
  let diff_32 := u32 (op1_32 - op2_32) in
  SET_FLAGS_OSZAPC_SUB_32 op1_32 op2_32 diff_32.

Definition NEG_EdM (i : bxInstruction_c) : Mach unit :=
  eaddr ← resolve i;
  op1_32 ← read_RMW_virtual_dword_32 (i_seg i) eaddr;
  let op1_32 := u32 (- (s32 op1_32)) in
  write_RMW_virtual_dword op1_32;;
  SET_FLAGS_OSZAPC_RESULT_32 op1_32 BX_LF_INSTR_NEG32.

Definition NEG_EdR (i : bxInstruction_c) : Mach unit :=
  op1_32 ← BX_READ_32BIT_REG (i_rm i);
  let op1_32 := u32 (- (s32 op1_32)) in
  BX_WRITE_32BIT_REGZ (i_rm i) op1_32;;
  SET_FLAGS_OSZAPC_RESULT_32 op1_32 BX_LF_INSTR_NEG32.

Definition INC_EdM (i : bxInstruction_c) : Mach unit :=
  eaddr ← resolve i;
  op1_32 ← read_RMW_virtual_dword_32 (i_seg i) eaddr;
  let op1_32 := u32 (op1_32 + 1) in
  write_RMW_virtual_dword op1_32;;
  SET_FLAGS_OSZAPC_INC_32 op1_32.

Definition DEC_EdM (i : bxInstruction_c) : Mach unit :=
  eaddr ← resolve i;
  op1_32 ← read_RMW_virtual_dword_32 (i_seg i) eaddr;
  let op1_32 := u32 (op1_32 - 1) in
  write_RMW_virtual_dword op1_32;;
  SET_FLAGS_OSZAPC_DEC_32 op1_32.

Definition CMPXCHG_EdGdM (i : bxInstruction_c) : Mach unit :=
  eaddr ← resolve i;
  op1_32 ← read_RMW_virtual_dword_32 (i_seg i) eaddr;
  eax ← EAX;
  let diff_32 := u32 (eax - op1_32) in
  SET_FLAGS_OSZAPC_SUB_32 eax op1_32 diff_32;;
  if diff_32 =? 0 then
    op2_32 ← BX_READ_32BIT_REG (i_nnn i);
    write_RMW_virtual_dword op2_32
  else
    set_EAX op1_32.

Definition CMPXCHG_EdGdR (i : bxInstruction_c) : Mach unit :=
  op1_32 ← BX_READ_32BIT_REG (i_rm i);
  eax ← EAX;
  let diff_32 := u32 (eax - op1_32) in
  SET_FLAGS_OSZAPC_SUB_32 eax op1_32 diff_32;;
  if diff_32 =? 0 then
    op2_32 ← BX_READ_32BIT_REG (i_nnn i);
    BX_WRITE_32BIT_REGZ (i_rm i) op2_32
  else
    set_EAX op1_32.

Definition CMPXCHG8B (i : bxInstruction_c) : Mach unit :=
  eaddr ← resolve i;
  op1_64 ← read_RMW_virtual_qword_32 (i_seg i) eaddr;
  edx ← EDX;
  eax ← EAX;
  let op2_64 := Z.lor (Z.shiftl edx 32) eax in
  if op1_64 =? op2_64 then
    ecx ← ECX;
    ebx ← EBX;
    let op2_64 := Z.lor (Z.shiftl ecx 32) ebx in
    write_RMW_virtual_qword op2_64;;
    assert_flag ZF
  else
    set_EAX (u32 op1_64);;
    set_EDX (u32 (Z.shiftr op1_64 32));;
    clear_flag ZF.

(** ** The instruction each handler implements *)

Definition arith8_table : list (handler * handler) :=
  [
   (ADD_EbGbM, ref_alu ADD 8 Mem (Reg i_nnn));
   (ADD_GbEbR, ref_alu ADD 8 (Reg i_nnn) (Reg i_rm));
   (ADD_ALIb, ref_alu ADD 8 Acc Imm);
   (ADC_EbGbM, ref_alu ADC 8 Mem (Reg i_nnn));
   (ADC_GbEbR, ref_alu ADC 8 (Reg i_nnn) (Reg i_rm));
   (ADC_ALIb, ref_alu ADC 8 Acc Imm);
   (SBB_EbGbM, ref_alu SBB 8 Mem (Reg i_nnn));
   (SBB_GbEbR, ref_alu SBB 8 (Reg i_nnn) (Reg i_rm));
   (SBB_ALIb, ref_alu SBB 8 Acc Imm);
   (SBB_EbIbM, ref_alu SBB 8 Mem Imm);
   (SBB_EbIbR, ref_alu SBB 8 (Reg i_rm) Imm);
   (SUB_EbGbM, ref_alu SUB 8 Mem (Reg i_nnn));
   (SUB_GbEbR, ref_alu SUB 8 (Reg i_nnn) (Reg i_rm));
   (SUB_ALIb, ref_alu SUB 8 Acc Imm);
   (CMP_EbGbM, ref_alu CMP 8 Mem (Reg i_nnn));
   (CMP_GbEbR, ref_alu CMP 8 (Reg i_nnn) (Reg i_rm));
   (CMP_ALIb, ref_alu CMP 8 Acc Imm);
   (XADD_EbGbM, ref_xadd 8 Mem i_nnn);
   (XADD_EbGbR, ref_xadd 8 (Reg i_rm) i_nnn);
   (ADD_EbIbM, ref_alu ADD 8 Mem Imm);
   (ADD_EbIbR, ref_alu ADD 8 (Reg i_rm) Imm);
   (ADC_EbIbM, ref_alu ADC 8 Mem Imm);
   (ADC_EbIbR, ref_alu ADC 8 (Reg i_rm) Imm);
   (SUB_EbIbM, ref_alu SUB 8 Mem Imm);
   (SUB_EbIbR, ref_alu SUB 8 (Reg i_rm) Imm);
   (CMP_EbIbM, ref_alu CMP 8 Mem Imm);
   (CMP_EbIbR, ref_alu CMP 8 (Reg i_rm) Imm);
   (NEG_EbM, ref_neg 8 Mem);
   (NEG_EbR, ref_neg 8 (Reg i_rm));
   (INC_EbM, ref_inc 8 Mem);
   (INC_EbR, ref_inc 8 (Reg i_rm));
   (DEC_EbM, ref_dec 8 Mem);
   (DEC_EbR, ref_dec 8 (Reg i_rm));
   (CMPXCHG_EbGbM, ref_cmpxchg 8 Mem i_nnn);
   (CMPXCHG_EbGbR, ref_cmpxchg 8 (Reg i_rm) i_nnn) ].

Definition arith16_table : list (handler * handler) :=
  [
   (INC_RX, ref_inc 16 (Reg opcodeReg));
   (DEC_RX, ref_dec 16 (Reg opcodeReg));
   (ADD_EwGwM, ref_alu ADD 16 Mem (Reg i_nnn));
   (ADD_GwEwR, ref_alu ADD 16 (Reg i_nnn) (Reg i_rm));
   (ADD_AXIw, ref_alu ADD 16 Acc Imm);
   (ADC_EwGwM, ref_alu ADC 16 Mem (Reg i_nnn));
   (ADC_GwEwR, ref_alu ADC 16 (Reg i_nnn) (Reg i_rm));
   (ADC_AXIw, ref_alu ADC 16 Acc Imm);
   (SBB_EwGwM, ref_alu SBB 16 Mem (Reg i_nnn));
   (SBB_GwEwR, ref_alu SBB 16 (Reg i_nnn) (Reg i_rm));
   (SBB_AXIw, ref_alu SBB 16 Acc Imm);
   (SBB_EwIwM, ref_alu SBB 16 Mem Imm);
   (SBB_EwIwR, ref_alu SBB 16 (Reg i_rm) Imm);
   (SUB_EwGwM, ref_alu SUB 16 Mem (Reg i_nnn));
   (SUB_GwEwR, ref_alu SUB 16 (Reg i_nnn) (Reg i_rm));
   (SUB_AXIw, ref_alu SUB 16 Acc Imm);
   (CMP_EwGwM, ref_alu CMP 16 Mem (Reg i_nnn));
   (CMP_GwEwR, ref_alu CMP 16 (Reg i_nnn) (Reg i_rm));
   (CMP_AXIw, ref_alu CMP 16 Acc Imm);
   (CBW, ref_sext 8);
   (CWD, ref_sext_high 16);
   (XADD_EwGwM, ref_xadd 16 Mem i_nnn);
   (XADD_EwGwR, ref_xadd 16 (Reg i_rm) i_nnn);
   (ADD_EwIwM, ref_alu ADD 16 Mem Imm);
   (ADD_EwIwR, ref_alu ADD 16 (Reg i_rm) Imm);
   (ADC_EwIwM, ref_alu ADC 16 Mem Imm);
   (ADC_EwIwR, ref_alu ADC 16 (Reg i_rm) Imm);
   (SUB_EwIwM, ref_alu SUB 16 Mem Imm);
   (SUB_EwIwR, ref_alu SUB 16 (Reg i_rm) Imm);
   (CMP_EwIwM, ref_alu CMP 16 Mem Imm);
   (CMP_EwIwR, ref_alu CMP 16 (Reg i_rm) Imm);
   (NEG_EwM, ref_neg 16 Mem);
   (NEG_EwR, ref_neg 16 (Reg i_rm));
   (INC_EwM, ref_inc 16 Mem);
   (DEC_EwM, ref_dec 16 Mem);
   (CMPXCHG_EwGwM, ref_cmpxchg 16 Mem i_nnn);
   (CMPXCHG_EwGwR, ref_cmpxchg 16 (Reg i_rm) i_nnn) ].

Definition arith32_table : list (handler * handler) :=
  [
   (INC_ERX, ref_inc 32 (Reg opcodeReg));
   (DEC_ERX, ref_dec 32 (Reg opcodeReg));
   (ADD_EdGdM, ref_alu ADD 32 Mem (Reg i_nnn));
   (ADD_GdEdR, ref_alu ADD 32 (Reg i_nnn) (Reg i_rm));
   (ADD_EAXId, ref_alu ADD 32 Acc Imm);
   (ADC_EdGdM, ref_alu ADC 32 Mem (Reg i_nnn));
   (ADC_GdEdR, ref_alu ADC 32 (Reg i_nnn) (Reg i_rm));
   (ADC_EAXId, ref_alu ADC 32 Acc Imm);
   (SBB_EdGdM, ref_alu SBB 32 Mem (Reg i_nnn));
   (SBB_GdEdR, ref_alu SBB 32 (Reg i_nnn) (Reg i_rm));
   (SBB_EAXId, ref_alu SBB 32 Acc Imm);
   (SBB_EdIdM, ref_alu SBB 32 Mem Imm);
   (SBB_EdIdR, ref_alu SBB 32 (Reg i_rm) Imm);
   (SUB_EdGdM, ref_alu SUB 32 Mem (Reg i_nnn));
   (SUB_GdEdR, ref_alu SUB 32 (Reg i_nnn) (Reg i_rm));
   (SUB_EAXId, ref_alu SUB 32 Acc Imm);
   (CMP_EdGdM, ref_alu CMP 32 Mem (Reg i_nnn));
   (CMP_GdEdR, ref_alu CMP 32 (Reg i_nnn) (Reg i_rm));
   (CMP_EAXId, ref_alu CMP 32 Acc Imm);
   (CWDE, ref_sext 16);
   (CDQ, ref_sext_high 32);
   (CMPXCHG_XBTS, ref_ud);
   (CMPXCHG_IBTS, ref_ud);
   (XADD_EdGdM, ref_xadd 32 Mem i_nnn);
   (XADD_EdGdR, ref_xadd 32 (Reg i_rm) i_nnn);
   (ADD_EdIdM, ref_alu ADD 32 Mem Imm);
   (ADD_EdIdR, ref_alu ADD 32 (Reg i_rm) Imm);
   (ADC_EdIdM, ref_alu ADC 32 Mem Imm);
   (ADC_EdIdR, ref_alu ADC 32 (Reg i_rm) Imm);
   (SUB_EdIdM, ref_alu SUB 32 Mem Imm);
   (SUB_EdIdR, ref_alu SUB 32 (Reg i_rm) Imm);
   (CMP_EdIdM, ref_alu CMP 32 Mem Imm);
   (CMP_EdIdR, ref_alu CMP 32 (Reg i_rm) Imm);
   (NEG_EdM, ref_neg 32 Mem);
   (NEG_EdR, ref_neg 32 (Reg i_rm));
   (INC_EdM, ref_inc 32 Mem);
   (DEC_EdM, ref_dec 32 Mem);
   (CMPXCHG_EdGdM, ref_cmpxchg 32 Mem i_nnn);
   (CMPXCHG_EdGdR, ref_cmpxchg 32 (Reg i_rm) i_nnn);
   (CMPXCHG8B, ref_cmpxchg8b) ].

(** The sign-extending conversions and the 64-bit exchange. *)

Lemma CWD_implements : implements (CWD, ref_sext_high 16).
Proof.
  handler_intro. handler_step. rewrite (sext_high 16) by lia.
  change (2 ^ (16 - 1)) with 0x8000. destruct (nz _); handler_step.
Qed.
Lemma CDQ_implements : implements (CDQ, ref_sext_high 32).
Proof.
  handler_intro. handler_step. rewrite (sext_high 32) by lia.
  change (2 ^ (32 - 1)) with 0x80000000. destruct (nz _); handler_step.
Qed.
Lemma CMPXCHG8B_implements : implements (CMPXCHG8B, ref_cmpxchg8b).
Proof.
  handler_intro. do 4 handler_step. rewrite lor_shiftl_add by lia.
  handler_step; [do 2 handler_step; rewrite lor_shiftl_add by lia; repeat handler_step|].
  handler_step. rewrite Z.shiftr_div_pow2, (wrap_small 32 (_ / _)) by divlia. repeat handler_step.
Qed.
#[export] Hint Resolve CWD_implements CDQ_implements CMPXCHG8B_implements : implements.

Definition arith_table : list (handler * handler) := arith8_table ++ arith16_table ++ arith32_table.

Lemma arith8_implements : Forall implements arith8_table.
Proof. table_tac handler_tac. Qed.
Lemma arith16_implements : Forall implements arith16_table.
Proof. table_tac handler_tac. Qed.
Lemma arith32_implements : Forall implements arith32_table.
Proof. table_tac handler_tac. Qed.

Lemma arith_implements : Forall implements arith_table.
Proof.
  unfold arith_table. rewrite !Forall_app.
  auto using arith8_implements, arith16_implements, arith32_implements.
Qed.

(** C19: every handler of cpu/arith8.cc, cpu/arith16.cc and cpu/arith32.cc
    refines its instruction: run on a state with pending flags it faults,
    crashes or returns exactly when the eager instruction does on the
    architectural state, with the same exception and the same state in the end. *)
Theorem arith_correct :
  Forall (fun p => forall i s, omap_state norm (p.1 i s) = p.2 i (norm s)) arith_table.
Proof. exact arith_implements. Qed.

Lemma arith_keeps_wf : Forall keeps_wf arith_table.
Proof. unfold arith_table. rewrite !Forall_app. split_and!; table_tac wf_handler. Qed.

Lemma arith_is_precise : Forall is_precise arith_table.
Proof. unfold arith_table. rewrite !Forall_app. split_and!; table_tac precise_handler. Qed.
