(* ===== verification/Bcd.v ===== *)
(** * Bcd: decimal arithmetic

    cpu/bcd.cc: the adjustments of packed and unpacked decimal digits, and that
    they correct a binary addition or subtraction of decimal operands. *)
From stdpp Require Import base numbers list gmap.
From Stdlib Require Import ZArith Lia.
From S2P Require Import Prelude Machine LazyFlags Memory Paging Access Regs Precise Reference Mode Arith.

Local Open Scope Z_scope.

(** ** cpu/bcd.cc *)

Definition AAA (i : bxInstruction_c) : Mach unit :=
  al ← AL;
  af_ ← gets (get_flag AF);
  (if (9 <? Z.land al 0x0f) || nz af_ then
    ax ← AX;
    set_AX (u16 (ax + 0x106));;
    assert_flag AF;;
    assert_flag CF
   else
    clear_flag AF;;
    clear_flag CF);;
  al' ← AL;
  set_AL (Z.land al' 0x0f);;
  clear_flag OF;;
  clear_flag SF;;
  al'' ← AL;
  set_flag ZF (Z.b2z (al'' =? 0));;
  al''' ← AL;
  set_PF_base al'''.

Definition AAS (i : bxInstruction_c) : Mach unit :=
  al ← AL;
  af_ ← gets (get_flag AF);
  (if (0x09 <? Z.land al 0x0F) || nz af_ then
    ax ← AX;
    set_AX (u16 (ax - 0x106));;
    assert_flag AF;;
    assert_flag CF
   else
    clear_flag CF;;
    clear_flag AF);;
  al' ← AL;
  set_AL (Z.land al' 0x0f);;
  clear_flag OF;;
  clear_flag SF;;
  al'' ← AL;
  set_flag ZF (Z.b2z (al'' =? 0));;
  al''' ← AL;
  set_PF_base al'''.

Definition AAM (i : bxInstruction_c) : Mach unit :=
  let imm8 := Ib i in
  when (imm8 =? 0) (exception BX_DE_EXCEPTION 0);;
  al ← AL;
  set_AH (al / imm8);;
  set_AL (al mod imm8);;
  al' ← AL;
  SET_FLAGS_OSZAPC_LOGIC_8 al'.

Definition AAD (i : bxInstruction_c) : Mach unit :=
  tmp ← AH;
  let tmp := u16 (tmp * Ib i) in
  al ← AL;
  let tmp := u16 (tmp + al) in
  set_AX (Z.land tmp 0xff);;
  al' ← AL;
  SET_FLAGS_OSZAPC_LOGIC_8 al'.

Definition DAA (i : bxInstruction_c) : Mach unit :=
  tmpAL ← AL;
  let tmpCF := 0 in
  af_ ← gets (get_flag AF);
  tmpCF ← (if (0x09 <? Z.land tmpAL 0x0F) || nz af_ then
      cf_ ← gets (get_flag CF);
      al ← AL;
      let tmpCF := Z.b2z ((0xF9 <? al) || nz cf_) in
      set_AL (u8 (al + 0x06));;
      assert_flag AF;;
      mret tmpCF
     else
      clear_flag AF;;
      mret tmpCF);
  cf_ ← gets (get_flag CF);
  tmpCF ← (if (0x99 <? tmpAL) || nz cf_ then
      al ← AL;
      set_AL (u8 (al + 0x60));;
      mret 1
     else
      mret 0);
  clear_flag OF;;
  al ← AL;
  set_flag SF (Z.b2z (0x80 <=? al));;
  al' ← AL;
  set_flag ZF (Z.b2z (al' =? 0));;
  al'' ← AL;
  set_PF_base al'';;
  set_flag CF (u32 tmpCF).

Definition DAS (i : bxInstruction_c) : Mach unit :=
  tmpAL ← AL;
  let tmpCF := 0 in
  af_ ← gets (get_flag AF);
  tmpCF ← (if (0x09 <? Z.land tmpAL 0x0F) || nz af_ then
      cf_ ← gets (get_flag CF);
      al ← AL;
      let tmpCF := Z.b2z ((al <? 0x06) || nz cf_) in
      set_AL (u8 (al - 0x06));;
      assert_flag AF;;
      mret tmpCF
     else
      clear_flag AF;;
      mret tmpCF);
  cf_ ← gets (get_flag CF);
  tmpCF ← (if (0x99 <? tmpAL) || nz cf_ then
      al ← AL;
      set_AL (u8 (al - 0x60));;
      mret 1
     else
      mret tmpCF);
  clear_flag OF;;
  al ← AL;
  set_flag SF (Z.b2z (0x80 <=? al));;
  al' ← AL;
  set_flag ZF (Z.b2z (al' =? 0));;
  al'' ← AL;
  set_PF_base al'';;
  set_flag CF (u32 tmpCF).



(** ** The instructions

    One decision per digit, taken on the value and the flags from before. *)

(** ASCII adjustment: a digit above 9, or a half carry, moves [k] = 1 or -1
    to AH. *)
Definition ref_ascii (k : Z) (_ : bxInstruction_c) : Mach unit :=
  al ← AL; ax ← AX; af ← gets (flag AF);
  let adjust := (9 <? al mod 16) || af in
  let ax' := wrap 16 (ax + k * if adjust then 0x106 else 0) in
  set_AX (ax' / 256 * 256 + ax' mod 16);;
  r ← AL;
  write_arith_flags (result_flags 8 r false adjust adjust).

(** Decimal adjustment after an addition ([k] = 1) or a subtraction ([k] = -1):
    six for a low digit that overflowed, sixty for a high one. *)
Definition low_digit (al : Z) (af : bool) : bool := (9 <? al mod 16) || af.
Definition high_digit (al : Z) (cf : bool) : bool := (0x99 <? al) || cf.
Definition decimal_carry (k al : Z) (af cf : bool) : bool :=
  high_digit al cf || (k =? -1) && low_digit al af && (al <? 6).
Definition decimal_result (k al : Z) (af cf : bool) : Z :=
  wrap 8 (al + k * ((if low_digit al af then 6 else 0) + (if high_digit al cf then 0x60 else 0))).
Definition ref_decimal (k : Z) (_ : bxInstruction_c) : Mach unit :=
  al ← AL; af ← gets (flag AF); cf ← gets (flag CF);
  set_AL (decimal_result k al af cf);;
  r ← AL;
  write_arith_flags (result_flags 8 r false (low_digit al af) (decimal_carry k al af cf)).

(** Division of AL into digits of base imm8, and back. *)
Definition ref_aam (i : bxInstruction_c) : Mach unit :=
  if Ib i =? 0 then exception BX_DE_EXCEPTION 0 else
  al ← AL;
  set_AH (al / Ib i);; set_AL (al mod Ib i);;
  r ← AL;
  write_arith_flags (logic_flags 8 r).
Definition ref_aad (i : bxInstruction_c) : Mach unit :=
  ah ← AH; al ← AL;
  set_AX (wrap 8 (ah * Ib i + al));;
  r ← AL;
  write_arith_flags (logic_flags 8 r).

Definition bcd_table : list (handler * handler) :=
  [(AAA, ref_ascii 1); (AAS, ref_ascii (-1)); (AAM, ref_aam); (AAD, ref_aad);
   (DAA, ref_decimal 1); (DAS, ref_decimal (-1))].

(** *** From the lazy to the eager flags *)

Lemma refines_get_flag {B} f (k : Z -> Mach B) t e :
  (forall x, nz x = true -> refines (k x) t) -> (forall x, nz x = false -> refines (k x) e) ->
  refines (gets (get_flag f) ≫= k) (gets (flag f) ≫= fun b : bool => if b then t else e).
Proof.
  intros Ht He s. unfold gets, mbind, M_bind. rewrite flag_norm, <-(get_flag_flag f s).
  destruct (nz _) eqn:E; [by apply Ht|by apply He].
Qed.
Lemma refines_bind_if {A B} (b : bool) (m1 m2 : Mach A) (k : A -> Mach B) t e :
  refines (m1 ≫= k) t -> refines (m2 ≫= k) e ->
  refines ((if b then m1 else m2) ≫= k) (if b then t else e).
Proof. by destruct b. Qed.
Lemma set_PF_base_refines v : refines (set_PF_base v) (update_flags (override [(PF, even_parity v)])).
Proof.
  unfold set_PF_base. rewrite parity_lookup_u8.
  apply refines_flag_bits; try done; unfold EFlagsPFMask; change 4 with (2 ^ 2); flag_bits.
Qed.

Lemma set_b2z_refines f b : refines (set_flag f (Z.b2z b)) (update_flags (override [(f, b)])).
Proof. rewrite <-(nz_b2z b) at 2. apply set_flag_refines, b2z_range. Qed.
Lemma set_u32_b2z_refines f b : refines (set_flag f (u32 (Z.b2z b))) (update_flags (override [(f, b)])).
Proof. replace (u32 (Z.b2z b)) with (Z.b2z b) by (by destruct b). apply set_b2z_refines. Qed.
Ltac flag_leaf :=
  lazymatch goal with
  | |- refines (set_PF_base _) _ => apply set_PF_base_refines
  | |- refines (set_flag _ (Z.b2z _)) _ => apply set_b2z_refines
  | |- refines (set_flag _ (wrap _ (Z.b2z _))) _ => apply set_u32_b2z_refines
  | |- refines (set_flag _ (wrap _ 1)) _ => apply (set_u32_b2z_refines _ true)
  | |- refines (set_flag _ (wrap _ 0)) _ => apply (set_u32_b2z_refines _ false)
  | |- refines (clear_flag _) _ => apply clear_flag_refines
  | |- refines (assert_flag _) _ => apply assert_flag_refines
  | |- _ => solve [eauto with refines]
  end.

Ltac eager_step :=
  match goal with
  | |- forall _, _ => intros ?
  | |- refines (mbind _ (mbind _ _)) _ => apply refines_assoc_l
  | |- refines (mbind _ (mret _)) _ => apply refines_ret_l
  | |- refines (mbind _ (if _ then _ else _)) _ => apply refines_bind_if
  | |- refines (mbind ?k (gets (get_flag _))) _ =>
      eapply refines_get_flag;
        let Hx := fresh in intros ? Hx; try rewrite !Hx; clear Hx
  | |- refines (mbind _ _) _ => eapply refines_bind; [flag_leaf|intros ?]
  | |- refines (set_flag _ _) _ => flag_leaf
  | |- refines (set_PF_base _) _ => flag_leaf
  end; cbv beta zeta.

(** *** The eager handlers, on the accumulator and the flags

    On a state with nothing pending, given by its registers and flags, the
    steps compute. *)
Section Accumulator.
Context (t : machine) (Ht : lf_flags_status t = 0).

Definition acc (l : list Z) (fl : flags) : machine := with_eflags (put_flags fl (eflags t)) (with_gen_reg l t).

Lemma flag_acc f l fl : flag f (acc l fl) = fl f.
Proof. rewrite flag_spec. unfold acc. msimpl. by rewrite Ht, Z.testbit_0_l, testbit_put_flags_flag. Qed.
Lemma acc_flag {B} f (k : bool -> Mach B) l fl : (gets (flag f) ≫= k) (acc l fl) = k (fl f) (acc l fl).
Proof. unfold mbind, M_bind, gets. by rewrite flag_acc. Qed.
Lemma acc_AL {B} (k : Z -> Mach B) l fl : (AL ≫= k) (acc l fl) = k (rl (nth 0 l 0)) (acc l fl).
Proof. done. Qed.
Lemma acc_AX {B} (k : Z -> Mach B) l fl : (AX ≫= k) (acc l fl) = k (rx (nth 0 l 0)) (acc l fl).
Proof. done. Qed.
Lemma acc_set_AL {B} v (k : unit -> Mach B) l fl :
  (set_AL v ≫= k) (acc l fl) = k tt (acc (<[0%nat := put_rl (nth 0 l 0) v]> l) fl).
Proof. done. Qed.
Lemma acc_set_AX {B} v (k : unit -> Mach B) l fl :
  (set_AX v ≫= k) (acc l fl) = k tt (acc (<[0%nat := put_rx (nth 0 l 0) v]> l) fl).
Proof. done. Qed.
Lemma acc_write_flags fl' l fl : write_arith_flags fl' (acc l fl) = Ret tt (acc l fl').
Proof. unfold write_arith_flags, update_flags, modify, acc. msimpl. by rewrite put_flags_put. Qed.
Lemma acc_override ov l fl : update_flags (override ov) (acc l fl) = Ret tt (acc l (amend ov fl)).
Proof.
  rewrite <-(acc_write_flags (amend ov fl) l fl). apply update_flags_ext.
  intros g. unfold override, amend. by rewrite flag_acc.
Qed.
Lemma acc_override_bind {B} ov (k : unit -> Mach B) l fl :
  (update_flags (override ov) ≫= k) (acc l fl) = k tt (acc l (amend ov fl)).
Proof. unfold mbind, M_bind. by rewrite acc_override. Qed.
Lemma acc_eq l l' fl fl' : l = l' -> (forall g, fl g = fl' g) -> acc l fl = acc l' fl'.
Proof. intros -> H. unfold acc. by rewrite (put_flags_ext _ _ _ H). Qed.
End Accumulator.

Lemma norm_acc s : norm s = acc (norm s) (gen_reg s) (fun f => flag f s).
Proof. unfold acc, norm at 1. unfold norm. msimpl. by rewrite put_flags_put. Qed.

Lemma acc_ext {A} (m m' : Mach A) :
  (forall t l fl, lf_flags_status t = 0 -> m (acc t l fl) = m' (acc t l fl)) ->
  forall s, m (norm s) = m' (norm s).
Proof. intros H s. rewrite norm_acc. by apply H. Qed.

Ltac acc_step :=
  lazymatch goal with
  | |- context [(gets (flag _) ≫= _) (acc _ _ _)] => rewrite acc_flag by assumption
  | |- context [(AL ≫= _) (acc _ _ _)] => rewrite acc_AL
  | |- context [(AX ≫= _) (acc _ _ _)] => rewrite acc_AX
  | |- context [(set_AL _ ≫= _) (acc _ _ _)] => rewrite acc_set_AL
  | |- context [(set_AX _ ≫= _) (acc _ _ _)] => rewrite acc_set_AX
  | |- context [(update_flags _ ≫= _) (acc _ _ _)] => rewrite acc_override_bind by assumption
  | |- context [update_flags (override _) (acc _ _ _)] => rewrite acc_override by assumption
  | |- context [write_arith_flags _ (acc _ _ _)] => rewrite acc_write_flags
  | |- context [(if ?b then _ else _) (acc _ _ _)] => destruct b eqn:?
  end; cbv beta zeta.

Lemma rl_put_rl v x : rl (put_rl v x) = u8 x.
Proof. unfold rl, put_rl, wrap. pose proof (Z.mod_pos_bound x (2 ^ 8)). rewrite Z.add_comm, Z_mod_plus_full. apply Z.mod_mod. lia. Qed.
Lemma put_rl_put_rl v x y : put_rl (put_rl v x) y = put_rl v y.
Proof. unfold put_rl. pose proof (wrap_range 8 x). do 2 f_equal. divlia. Qed.
Lemma rx_put_rx v x : rx (put_rx v x) = u16 x.
Proof. unfold rx, put_rx, wrap. rewrite Z.add_comm, Z_mod_plus_full. apply Z.mod_mod. lia. Qed.
Lemma put_rl_put_rx v x y : put_rl (put_rx v x) y = put_rx v (u16 x / 2 ^ 8 * 2 ^ 8 + u8 y).
Proof. unfold put_rl, put_rx. pose proof (wrap_range 16 x). pose proof (wrap_range 8 y). rewrite (wrap_small 16 (_ + _)) by divlia. divlia. Qed.
Lemma rl_put_rx v x : rl (put_rx v x) = u8 x.
Proof. unfold rl, put_rx, wrap. divlia. Qed.
Lemma land_nibble a : Z.land a 15 = a mod 16.
Proof. by apply (Z.land_ones a 4). Qed.

Lemma amend_other f b g fl : f <> g -> amend [(f, b)] fl g = fl g.
Proof. intros H. unfold amend. cbn. by rewrite bool_decide_false. Qed.

Ltac digit_open :=
  intros i; cbn [fst snd]; match goal with |- refines (?h _) _ => unfold h end;
  eapply refines_ext; [repeat eager_step|];
  apply acc_ext; intros t l fl Ht; unfold ref_decimal, ref_ascii; repeat acc_step.
Lemma put_rl_ext v x y : u8 x = u8 y -> put_rl v x = put_rl v y.
Proof. unfold put_rl. by intros ->. Qed.
Lemma put_rx_ext v x y : u16 x = u16 y -> put_rx v x = put_rx v y.
Proof. unfold put_rx. by intros ->. Qed.
Lemma put_rl_same v x : u8 x = rl v -> v = put_rl v x.
Proof. unfold put_rl, rl, wrap. intros ->. divlia. Qed.
Ltac acc_value :=
  match goal with l : list Z |- _ => destruct l; cbn [nth insert list_insert]; [done|] end; f_equal;
  rewrite ?put_rl_put_rl, ?put_rl_put_rx, ?rl_put_rl, ?rl_put_rx, ?rx_put_rx;
  first [apply put_rl_same; rewrite ?Z.add_0_r, ?Z.mul_0_r, ?Z.add_0_r; unfold rl; by rewrite ?wrap_wrap
        | first [apply put_rl_ext | apply put_rx_ext]; unfold wrap, rl, rx; divlia].
Ltac digit_close :=
  f_equal; unfold decimal_result, decimal_carry, low_digit, high_digit;
  rewrite ?orb_true_r, ?orb_false_r, ?land_nibble in *; try discriminate; rewrite ?amend_other in * by done;
  repeat match goal with
  | H : ?x = ?x |- _ => clear H
  | H : ?f = _ |- context [?f] => rewrite H; rewrite ?orb_true_r, ?orb_false_r
  end;
  first [congruence |
    match goal with |- acc _ ?l1 _ = acc _ ?l2 _ => assert (l2 = l1) as ->; [symmetry; acc_value|] end;
    apply acc_eq; [done|intros []; try reflexivity]].
Lemma DAA_implements : implements (DAA, ref_decimal 1).
Proof. digit_open; digit_close. Qed.
Lemma DAS_implements : implements (DAS, ref_decimal (-1)).
Proof. digit_open; digit_close. Qed.
(** The digit left in AL, with AH of the adjusted AX. *)
Lemma digit_after v y : put_rl (put_rx v y) (rl (put_rx v y) mod 16) = put_rx v (u16 y / 256 * 256 + u16 y mod 16).
Proof.
  rewrite put_rl_put_rx, rl_put_rx. unfold put_rx. do 2 f_equal. unfold wrap. divlia.
Qed.
Lemma digit_kept v k :
  put_rl v (rl v mod 16) = put_rx v (u16 (rx v + k * 0) / 256 * 256 + u16 (rx v + k * 0) mod 16).
Proof.
  rewrite Z.mul_0_r, Z.add_0_r. unfold put_rl, put_rx, rl, rx, wrap. divlia.
Qed.
Lemma digit_sign v x : (128 <=? rl (put_rx v (x / 256 * 256 + x mod 16))) = false.
Proof. rewrite rl_put_rx. apply Z.leb_gt. unfold wrap. divlia. Qed.
Ltac ascii_close :=
  f_equal; rewrite ?orb_true_r, ?orb_false_r, ?land_nibble in *; try discriminate;
  repeat match goal with
  | H : ?x = ?x |- _ => clear H
  | H : ?f = _ |- context [?f] => rewrite H; rewrite ?orb_true_r, ?orb_false_r
  end; first [congruence |
    match goal with |- acc _ ?l1 _ = acc _ ?l2 _ => assert (l2 = l1) as <- end;
    [match goal with l : list Z |- _ => destruct l; cbn [nth insert list_insert]; [done|] end;
     first [rewrite digit_after | rewrite <-digit_kept]; by rewrite ?wrap_wrap
    |apply acc_eq; [done|intros []; try reflexivity];
     match goal with l : list Z |- _ => destruct l; [reflexivity|] end; symmetry; apply digit_sign]].
Lemma AAA_implements : implements (AAA, ref_ascii 1).
Proof. digit_open; ascii_close. Qed.
Lemma AAS_implements : implements (AAS, ref_ascii (-1)).
Proof. digit_open; ascii_close. Qed.
Lemma AAM_implements : implements (AAM, ref_aam).
Proof.
  intros i. cbn [fst snd]. unfold AAM, ref_aam. cbv zeta. apply refines_when_raise. intros _.
  unfold_widths. repeat handler_step.
Qed.
Lemma AAD_implements : implements (AAD, ref_aad).
Proof.
  intros i. cbn [fst snd]. unfold AAD, ref_aad. cbv zeta. unfold_widths.
  do 2 handler_step. rewrite (Z.land_ones _ 8), wrap_add_l by lia.
  change (wrap 16 (a * Ib i + a0) mod 2 ^ 8) with (wrap 8 (wrap 16 (a * Ib i + a0))).
  rewrite wrap_wrap_le by lia. repeat handler_step.
Qed.

Lemma bcd_implements : Forall implements bcd_table.
Proof.
  repeat apply Forall_cons_2; [apply AAA_implements|apply AAS_implements|apply AAM_implements
    |apply AAD_implements|apply DAA_implements|apply DAS_implements|by apply Forall_nil].
Qed.
Lemma bcd_keeps_wf : Forall keeps_wf bcd_table.
Proof. table_tac wf_handler. Qed.
Lemma bcd_is_precise : Forall is_precise bcd_table.
Proof. table_tac precise_handler. Qed.

(** ** Decimal sums and differences *)

(** Two decimal digits in a byte. *)
Definition bcd (n : Z) : Z := n / 10 * 16 + n mod 10.

(** The instruction pairs: a binary operation and its adjustment, the sign of
    the second operand, and whether a carry goes in. *)
Definition decimal_pairs : list (handler * handler * Z * bool) :=
  [(ADD_ALIb, DAA, 1, false); (ADC_ALIb, DAA, 1, true);
   (SUB_ALIb, DAS, -1, false); (SBB_ALIb, DAS, -1, true)].

(** Every pair of operands and carry, adjusted. *)
Definition adjusted (op : alu) (k x y c : Z) : Z * bool :=
  let r := alu_result op 8 x y c in
  let fl := alu_flags op 8 x y c in
  (decimal_result k r (fl AF) (fl CF), decimal_carry k r (fl AF) (fl CF)).
Definition adjusted_ok (op : alu) (k a b c : Z) : bool :=
  let total := a + k * (b + if alu_carry op then c else 0) in
  let '(r, cf) := adjusted op k (bcd a) (bcd b) c in
  (r =? bcd (total mod 100)) && eqb cf (negb ((0 <=? total) && (total <? 100))).
Lemma adjusted_all :
  forallb (fun p => forallb (fun a => forallb (fun b => forallb (fun c => adjusted_ok p.1 p.2 a b c) [0; 1])
    (seqZ 0 100)) (seqZ 0 100)) [(ADD, 1); (ADC, 1); (SUB, -1); (SBB, -1)] = true.
Proof. vm_compute. reflexivity. Qed.
Lemma adjusted_correct op k a b c :
  (op, k) ∈ [(ADD, 1); (ADC, 1); (SUB, -1); (SBB, -1)] -> 0 <= a < 100 -> 0 <= b < 100 -> 0 <= c <= 1 ->
  let total := a + k * (b + if alu_carry op then c else 0) in
  adjusted op k (bcd a) (bcd b) c = (bcd (total mod 100), negb ((0 <=? total) && (total <? 100))).
Proof.
  intros Hp Ha Hb Hc total. pose proof adjusted_all as H. rewrite forallb_forall in H.
  specialize (H (op, k) (proj1 (list_elem_of_In _ _) Hp)). rewrite forallb_forall in H.
  specialize (H a). rewrite <-list_elem_of_In, elem_of_seqZ, forallb_forall in H.
  specialize (H ltac:(lia) b). rewrite <-list_elem_of_In, elem_of_seqZ, forallb_forall in H.
  assert (In c [0; 1]) as Hin by (cbn; lia).
  specialize (H ltac:(lia) c Hin). cbn [fst snd] in H. unfold adjusted_ok in H. fold total in H.
  destruct (adjusted op k (bcd a) (bcd b) c) as [r cf].
  apply andb_true_iff in H as [Hr Hcf]. apply Z.eqb_eq in Hr as ->. by apply eqb_prop in Hcf as ->.
Qed.

(** The pair, run on its reference. *)
Lemma binary_run op i t v l fl : lf_flags_status t = 0 -> alu_writes op = true ->
  let c := Z.b2z (alu_carry op && fl CF) in
  ref_alu op 8 Acc Imm i (acc t (v :: l) fl) =
  Ret tt (acc t (put_rl v (alu_result op 8 (rl v) (Ib i) c) :: l) (alu_flags op 8 (rl v) (Ib i) c)).
Proof.
  intros Ht Hw c. unfold ref_alu. rewrite Hw.
  assert (carry_in op (acc t (v :: l) fl) = Ret c (acc t (v :: l) fl)) as E.
  { unfold carry_in, c. destruct (alu_carry op); [|done].
    unfold gets. by rewrite getB_flag_b2z, flag_acc. }
  unfold mbind at 1, M_bind at 1. rewrite E. rewrite <-(acc_write_flags t _ _ fl). reflexivity.
Qed.
Lemma adjusted_run op k i j t v l fl :
  (op, k) ∈ [(ADD, 1); (ADC, 1); (SUB, -1); (SBB, -1)] -> lf_flags_status t = 0 ->
  let '(r, cf) := adjusted op k (rl v) (Ib i) (Z.b2z (alu_carry op && fl CF)) in
  exists fl', (ref_alu op 8 Acc Imm i;; ref_decimal k j) (acc t (v :: l) fl) =
    Ret tt (acc t (put_rl v r :: l) fl') /\ fl' CF = cf.
Proof.
  intros Hp Ht. assert (alu_writes op = true /\ forall a b c, u8 (alu_result op 8 a b c) = alu_result op 8 a b c) as [Hw Hr].
  { repeat (apply elem_of_cons in Hp as [[= -> ->]|Hp]; [split; [done|intros; by apply wrap_wrap]|]). by apply elem_of_nil in Hp. }
  unfold adjusted. eexists. unfold mbind at 1, M_bind at 1. rewrite binary_run by done. split.
  - unfold ref_decimal. repeat acc_step. cbn [nth insert list_insert].
    rewrite put_rl_put_rl, rl_put_rl, Hr. reflexivity.
  - reflexivity.
Qed.

Lemma pair_run h r d rd i j s t :
  implements (h, r) -> implements (d, rd) -> (r i;; rd j) (norm s) = Ret tt t ->
  exists s', (h i;; d j) s = Ret tt s' /\ gen_reg s' = gen_reg t /\ (forall f, flag f s' = flag f t).
Proof.
  intros Hh Hd E. assert (refines (h i;; d j) (r i;; rd j)) as H by (apply refines_bind; [apply Hh|intros _; apply Hd]).
  specialize (H s). rewrite E in H. destruct ((h i;; d j) s) as [[] s'| |]; [|done|done].
  injection H as <-. exists s'. split; [done|]. split; [done|]. intros f. by rewrite flag_norm.
Qed.

Definition decimal_total (k : Z) (carries : bool) (a b : Z) (s : machine) : Z :=
  a + k * (b + if carries then Z.b2z (flag CF s) else 0).

Lemma decimal_pair h op d k i j a b s :
  (h, ref_alu op 8 Acc Imm) ∈ arith_table -> implements (d, ref_decimal k) ->
  (op, k) ∈ [(ADD, 1); (ADC, 1); (SUB, -1); (SBB, -1)] ->
  wf s -> 0 <= a < 100 -> 0 <= b < 100 -> rl (reg 0 s) = bcd a -> Ib i = bcd b ->
  let total := decimal_total k (alu_carry op) a b s in
  exists s', (h i;; d j) s = Ret tt s' /\ rl (reg 0 s') = bcd (total mod 100) /\
    flag CF s' = negb ((0 <=? total) && (total <? 100)).
Proof.
  intros Hh Hd Hp [[Hl _] _] Ha Hb Ea Eb total.
  pose proof arith_implements as Hi. rewrite Forall_forall in Hi. specialize (Hi _ Hh).
  destruct (gen_reg s) as [|v l] eqn:El; [done|].
  pose proof (adjusted_run op k i j (norm s) v l (fun f => flag f s) Hp eq_refl) as Hr.
  unfold reg in Ea. rewrite El in Ea. change (rl v = bcd a) in Ea. rewrite Ea, Eb in Hr.
  pose proof (adjusted_correct op k a b _ Hp Ha Hb (b2z_range (alu_carry op && flag CF s))) as Hc.
  replace (a + _) with total in Hc by (unfold total, decimal_total; by destruct (alu_carry op)).
  cbv zeta in Hc. rewrite Hc in Hr. destruct Hr as (fl' & Hr & Hcf).
  assert (norm s = acc (norm s) (v :: l) (fun f => flag f s)) as En by (rewrite norm_acc at 1; by rewrite El).
  rewrite <-En in Hr. destruct (pair_run _ _ _ _ i j s _ Hi Hd Hr) as (s' & Es & Eg & Ef).
  exists s'. split; [done|]. split.
  - unfold reg. rewrite Eg. cbn [acc with_eflags with_gen_reg gen_reg nth Z.to_nat].
    change (rl (put_rl v (bcd (total mod 100))) = bcd (total mod 100)). rewrite rl_put_rl.
    apply wrap_small. unfold bcd. divlia.
  - rewrite Ef, flag_acc; done.
Qed.

(** C25: decimal arithmetic: a binary ADD, ADC, SUB or SBB of two bytes that
    hold two decimal digits each, followed by DAA or DAS, leaves the two
    digits of the decimal sum or difference in AL and its carry or borrow in
    CF; the flags between the two instructions are the pending ones the first
    recorded. *)
Theorem decimal_arithmetic : Forall (fun p : handler * handler * Z * bool =>
  let '(op, adjust, k, carries) := p in forall i j a b s,
  wf s -> 0 <= a < 100 -> 0 <= b < 100 -> rl (reg 0 s) = bcd a -> Ib i = bcd b ->
  let total := decimal_total k carries a b s in
  exists s', (op i;; adjust j) s = Ret tt s' /\ rl (reg 0 s') = bcd (total mod 100) /\
    flag CF s' = negb ((0 <=? total) && (total <? 100))) decimal_pairs.
Proof.
  repeat apply Forall_cons_2; [..|by apply Forall_nil]; intros i j a b s;
    [apply (decimal_pair _ ADD)|apply (decimal_pair _ ADC)|apply (decimal_pair _ SUB)|apply (decimal_pair _ SBB)];
    
    lazymatch goal with
    | |- implements (DAA, _) => apply DAA_implements
    | |- implements (DAS, _) => apply DAS_implements
    | |- _ ∈ arith_table => unfold arith_table; rewrite elem_of_app; left; row_tac
    | |- _ => row_tac
    end.
Qed.
