(* ===== verification/Logical.v ===== *)
(** * Logical: AND, OR, XOR, NOT and TEST

    cpu/logical8.cc, cpu/logical16.cc and cpu/logical32.cc. *)
From stdpp Require Import base numbers list gmap.
From Stdlib Require Import ZArith Lia.
From S2P Require Import Prelude Machine LazyFlags Memory Paging Access Regs Precise Reference.

Local Open Scope Z_scope.

(** ** cpu/logical8.cc *)

Definition XOR_EbGbM (i : bxInstruction_c) : Mach unit :=
  eaddr ← resolve i;
  op1 ← read_RMW_virtual_byte_32 (i_seg i) eaddr;
  op2 ← BX_READ_8BIT_REGx (i_nnn i);
  let op1 := Z.lxor op1 op2 in
  write_RMW_virtual_byte op1;;
  SET_FLAGS_OSZAPC_LOGIC_8 op1.

Definition XOR_GbEbR (i : bxInstruction_c) : Mach unit :=
  op1 ← BX_READ_8BIT_REGx (i_nnn i);
  op2 ← BX_READ_8BIT_REGx (i_rm i);
  let op1 := Z.lxor op1 op2 in
  BX_WRITE_8BIT_REGx (i_nnn i) op1;;
  SET_FLAGS_OSZAPC_LOGIC_8 op1.

Definition XOR_ALIb (i : bxInstruction_c) : Mach unit :=
  op1 ← AL;
  let op1 := Z.lxor op1 (Ib i) in
  set_AL op1;;
  SET_FLAGS_OSZAPC_LOGIC_8 op1.

Definition XOR_EbIbM (i : bxInstruction_c) : Mach unit :=
  let op2 := Ib i in
  eaddr ← resolve i;
  op1 ← read_RMW_virtual_byte_32 (i_seg i) eaddr;
  let op1 := Z.lxor op1 op2 in
  write_RMW_virtual_byte op1;;
  SET_FLAGS_OSZAPC_LOGIC_8 op1.

Definition XOR_EbIbR (i : bxInstruction_c) : Mach unit :=
  let op2 := Ib i in
  op1 ← BX_READ_8BIT_REGx (i_rm i);
  let op1 := Z.lxor op1 op2 in
  BX_WRITE_8BIT_REGx (i_rm i) op1;;
  SET_FLAGS_OSZAPC_LOGIC_8 op1.

Definition OR_EbIbM (i : bxInstruction_c) : Mach unit :=
  let op2 := Ib i in
  eaddr ← resolve i;
  op1 ← read_RMW_virtual_byte_32 (i_seg i) eaddr;
  let op1 := Z.lor op1 op2 in
  write_RMW_virtual_byte op1;;
  SET_FLAGS_OSZAPC_LOGIC_8 op1.

Definition OR_EbIbR (i : bxInstruction_c) : Mach unit :=
  let op2 := Ib i in
  op1 ← BX_READ_8BIT_REGx (i_rm i);
  let op1 := Z.lor op1 op2 in
  BX_WRITE_8BIT_REGx (i_rm i) op1;;
  SET_FLAGS_OSZAPC_LOGIC_8 op1.

Definition NOT_EbM (i : bxInstruction_c) : Mach unit :=
  eaddr ← resolve i;
  op1_8 ← read_RMW_virtual_byte_32 (i_seg i) eaddr;
  let op1_8 := u8 (Z.lnot op1_8) in
  write_RMW_virtual_byte op1_8.

Definition NOT_EbR (i : bxInstruction_c) : Mach unit :=
  op1_8 ← BX_READ_8BIT_REGx (i_rm i);
  let op1_8 := u8 (Z.lnot op1_8) in
  BX_WRITE_8BIT_REGx (i_rm i) op1_8.

Definition OR_EbGbM (i : bxInstruction_c) : Mach unit :=
  eaddr ← resolve i;
  op1 ← read_RMW_virtual_byte_32 (i_seg i) eaddr;
  op2 ← BX_READ_8BIT_REGx (i_nnn i);
  let op1 := Z.lor op1 op2 in
  write_RMW_virtual_byte op1;;
  SET_FLAGS_OSZAPC_LOGIC_8 op1.

Definition OR_GbEbR (i : bxInstruction_c) : Mach unit :=
  op1 ← BX_READ_8BIT_REGx (i_nnn i);
  op2 ← BX_READ_8BIT_REGx (i_rm i);
  let op1 := Z.lor op1 op2 in
  BX_WRITE_8BIT_REGx (i_nnn i) op1;;
  SET_FLAGS_OSZAPC_LOGIC_8 op1.

Definition OR_ALIb (i : bxInstruction_c) : Mach unit :=
  op1 ← AL;
  let op2 := Ib i in
  let op1 := Z.lor op1 op2 in
  set_AL op1;;
  SET_FLAGS_OSZAPC_LOGIC_8 op1.

Definition AND_EbGbM (i : bxInstruction_c) : Mach unit :=
  eaddr ← resolve i;
  op1 ← read_RMW_virtual_byte_32 (i_seg i) eaddr;
  op2 ← BX_READ_8BIT_REGx (i_nnn i);
  let op1 := Z.land op1 op2 in
  write_RMW_virtual_byte op1;;
  SET_FLAGS_OSZAPC_LOGIC_8 op1.

Definition AND_GbEbR (i : bxInstruction_c) : Mach unit :=
  op1 ← BX_READ_8BIT_REGx (i_nnn i);
  op2 ← BX_READ_8BIT_REGx (i_rm i);
  let op1 := Z.land op1 op2 in
  BX_WRITE_8BIT_REGx (i_nnn i) op1;;
  SET_FLAGS_OSZAPC_LOGIC_8 op1.

Definition AND_ALIb (i : bxInstruction_c) : Mach unit :=
  op1 ← AL;
  let op2 := Ib i in
  let op1 := Z.land op1 op2 in
  set_AL op1;;
  SET_FLAGS_OSZAPC_LOGIC_8 op1.

Definition AND_EbIbM (i : bxInstruction_c) : Mach unit :=
  let op2 := Ib i in
  eaddr ← resolve i;
  op1 ← read_RMW_virtual_byte_32 (i_seg i) eaddr;
  let op1 := Z.land op1 op2 in
  write_RMW_virtual_byte op1;;
  SET_FLAGS_OSZAPC_LOGIC_8 op1.

Definition AND_EbIbR (i : bxInstruction_c) : Mach unit :=
  let op2 := Ib i in
  op1 ← BX_READ_8BIT_REGx (i_rm i);
  let op1 := Z.land op1 op2 in
  BX_WRITE_8BIT_REGx (i_rm i) op1;;
  SET_FLAGS_OSZAPC_LOGIC_8 op1.

Definition TEST_EbGbR (i : bxInstruction_c) : Mach unit :=
  op1 ← BX_READ_8BIT_REGx (i_rm i);
  op2 ← BX_READ_8BIT_REGx (i_nnn i);
  let op1 := Z.land op1 op2 in
  SET_FLAGS_OSZAPC_LOGIC_8 op1.

Definition TEST_ALIb (i : bxInstruction_c) : Mach unit :=
  op1 ← AL;
  let op2 := Ib i in
  let op1 := Z.land op1 op2 in
  SET_FLAGS_OSZAPC_LOGIC_8 op1.

Definition TEST_EbIbR (i : bxInstruction_c) : Mach unit :=
  op1 ← BX_READ_8BIT_REGx (i_rm i);
  let op1 := Z.land op1 (Ib i) in
  SET_FLAGS_OSZAPC_LOGIC_8 op1.

(** ** cpu/logical16.cc *)

Definition XOR_EwGwM (i : bxInstruction_c) : Mach unit :=
  eaddr ← resolve i;
  op1_16 ← read_RMW_virtual_word_32 (i_seg i) eaddr;
  op2_16 ← BX_READ_16BIT_REG (i_nnn i);
  let op1_16 := Z.lxor op1_16 op2_16 in
  write_RMW_virtual_word op1_16;;
  SET_FLAGS_OSZAPC_LOGIC_16 op1_16.

Definition XOR_GwEwR (i : bxInstruction_c) : Mach unit :=
  op1_16 ← BX_READ_16BIT_REG (i_nnn i);
  op2_16 ← BX_READ_16BIT_REG (i_rm i);
  let op1_16 := Z.lxor op1_16 op2_16 in
  BX_WRITE_16BIT_REG (i_nnn i) op1_16;;
  SET_FLAGS_OSZAPC_LOGIC_16 op1_16.

Definition XOR_AXIw (i : bxInstruction_c) : Mach unit :=
  op1_16 ← AX;
  let op1_16 := Z.lxor op1_16 (Iw i) in
  set_AX op1_16;;
  SET_FLAGS_OSZAPC_LOGIC_16 op1_16.

Definition XOR_EwIwM (i : bxInstruction_c) : Mach unit :=
  eaddr ← resolve i;
  op1_16 ← read_RMW_virtual_word_32 (i_seg i) eaddr;
  let op1_16 := Z.lxor op1_16 (Iw i) in
  write_RMW_virtual_word op1_16;;
  SET_FLAGS_OSZAPC_LOGIC_16 op1_16.

Definition XOR_EwIwR (i : bxInstruction_c) : Mach unit :=
  op1_16 ← BX_READ_16BIT_REG (i_rm i);
  let op1_16 := Z.lxor op1_16 (Iw i) in
  BX_WRITE_16BIT_REG (i_rm i) op1_16;;
  SET_FLAGS_OSZAPC_LOGIC_16 op1_16.

Definition OR_EwIwM (i : bxInstruction_c) : Mach unit :=
  eaddr ← resolve i;
  op1_16 ← read_RMW_virtual_word_32 (i_seg i) eaddr;
  let op1_16 := Z.lor op1_16 (Iw i) in
  write_RMW_virtual_word op1_16;;
  SET_FLAGS_OSZAPC_LOGIC_16 op1_16.

Definition OR_EwIwR (i : bxInstruction_c) : Mach unit :=
  op1_16 ← BX_READ_16BIT_REG (i_rm i);
  let op1_16 := Z.lor op1_16 (Iw i) in
  BX_WRITE_16BIT_REG (i_rm i) op1_16;;
  SET_FLAGS_OSZAPC_LOGIC_16 op1_16.

Definition NOT_EwM (i : bxInstruction_c) : Mach unit :=
  eaddr ← resolve i;
  op1_16 ← read_RMW_virtual_word_32 (i_seg i) eaddr;
  let op1_16 := u16 (Z.lnot op1_16) in
  write_RMW_virtual_word op1_16.

Definition NOT_EwR (i : bxInstruction_c) : Mach unit :=
  op1_16 ← BX_READ_16BIT_REG (i_rm i);
  let op1_16 := u16 (Z.lnot op1_16) in
  BX_WRITE_16BIT_REG (i_rm i) op1_16.

Definition OR_EwGwM (i : bxInstruction_c) : Mach unit :=
  eaddr ← resolve i;
  op1_16 ← read_RMW_virtual_word_32 (i_seg i) eaddr;
  op2_16 ← BX_READ_16BIT_REG (i_nnn i);
  let op1_16 := Z.lor op1_16 op2_16 in
  write_RMW_virtual_word op1_16;;
  SET_FLAGS_OSZAPC_LOGIC_16 op1_16.

Definition OR_GwEwR (i : bxInstruction_c) : Mach unit :=
  op1_16 ← BX_READ_16BIT_REG (i_nnn i);
  op2_16 ← BX_READ_16BIT_REG (i_rm i);
  let op1_16 := Z.lor op1_16 op2_16 in
  BX_WRITE_16BIT_REG (i_nnn i) op1_16;;
  SET_FLAGS_OSZAPC_LOGIC_16 op1_16.

Definition OR_AXIw (i : bxInstruction_c) : Mach unit :=
  op1_16 ← AX;
  let op2_16 := Iw i in
  let op1_16 := Z.lor op1_16 op2_16 in
  set_AX op1_16;;
  SET_FLAGS_OSZAPC_LOGIC_16 op1_16.

Definition AND_EwGwM (i : bxInstruction_c) : Mach unit :=
  eaddr ← resolve i;
  op1_16 ← read_RMW_virtual_word_32 (i_seg i) eaddr;
  op2_16 ← BX_READ_16BIT_REG (i_nnn i);
  let op1_16 := Z.land op1_16 op2_16 in
  write_RMW_virtual_word op1_16;;
  SET_FLAGS_OSZAPC_LOGIC_16 op1_16.

Definition AND_GwEwR (i : bxInstruction_c) : Mach unit :=
  op1_16 ← BX_READ_16BIT_REG (i_nnn i);
  op2_16 ← BX_READ_16BIT_REG (i_rm i);
  let op1_16 := Z.land op1_16 op2_16 in
  BX_WRITE_16BIT_REG (i_nnn i) op1_16;;
  SET_FLAGS_OSZAPC_LOGIC_16 op1_16.

Definition AND_AXIw (i : bxInstruction_c) : Mach unit :=
  op1_16 ← AX;
  let op2_16 := Iw i in
  let op1_16 := Z.land op1_16 op2_16 in
  set_AX op1_16;;
  SET_FLAGS_OSZAPC_LOGIC_16 op1_16.

Definition AND_EwIwM (i : bxInstruction_c) : Mach unit :=
  eaddr ← resolve i;
  op1_16 ← read_RMW_virtual_word_32 (i_seg i) eaddr;
  let op1_16 := Z.land op1_16 (Iw i) in
  write_RMW_virtual_word op1_16;;
  SET_FLAGS_OSZAPC_LOGIC_16 op1_16.

Definition AND_EwIwR (i : bxInstruction_c) : Mach unit :=
  op1_16 ← BX_READ_16BIT_REG (i_rm i);
  let op1_16 := Z.land op1_16 (Iw i) in
  BX_WRITE_16BIT_REG (i_rm i) op1_16;;
  SET_FLAGS_OSZAPC_LOGIC_16 op1_16.

Definition TEST_EwGwR (i : bxInstruction_c) : Mach unit :=
  op1_16 ← BX_READ_16BIT_REG (i_rm i);
  op2_16 ← BX_READ_16BIT_REG (i_nnn i);
  let op1_16 := Z.land op1_16 op2_16 in
  SET_FLAGS_OSZAPC_LOGIC_16 op1_16.

Definition TEST_AXIw (i : bxInstruction_c) : Mach unit :=
  op1_16 ← AX;
  let op2_16 := Iw i in
  let op1_16 := Z.land op1_16 op2_16 in
  SET_FLAGS_OSZAPC_LOGIC_16 op1_16.

Definition TEST_EwIwR (i : bxInstruction_c) : Mach unit :=
  op1_16 ← BX_READ_16BIT_REG (i_rm i);
  let op1_16 := Z.land op1_16 (Iw i) in
  SET_FLAGS_OSZAPC_LOGIC_16 op1_16.

(** ** cpu/logical32.cc *)

Definition XOR_EdGdM (i : bxInstruction_c) : Mach unit :=
  eaddr ← resolve i;
  op1_32 ← read_RMW_virtual_dword_32 (i_seg i) eaddr;
  op2_32 ← BX_READ_32BIT_REG (i_nnn i);
  let op1_32 := Z.lxor op1_32 op2_32 in
  write_RMW_virtual_dword op1_32;;
  SET_FLAGS_OSZAPC_LOGIC_32 op1_32.

Definition XOR_GdEdR (i : bxInstruction_c) : Mach unit :=
  op1_32 ← BX_READ_32BIT_REG (i_nnn i);
  op2_32 ← BX_READ_32BIT_REG (i_rm i);
  let op1_32 := Z.lxor op1_32 op2_32 in
  BX_WRITE_32BIT_REGZ (i_nnn i) op1_32;;
  SET_FLAGS_OSZAPC_LOGIC_32 op1_32.

Definition XOR_EAXId (i : bxInstruction_c) : Mach unit :=
  op1_32 ← EAX;
  let op1_32 := Z.lxor op1_32 (Id i) in
  set_EAX op1_32;;
  SET_FLAGS_OSZAPC_LOGIC_32 op1_32.

Definition XOR_EdIdM (i : bxInstruction_c) : Mach unit :=
  eaddr ← resolve i;
  op1_32 ← read_RMW_virtual_dword_32 (i_seg i) eaddr;
  let op1_32 := Z.lxor op1_32 (Id i) in
  write_RMW_virtual_dword op1_32;;
  SET_FLAGS_OSZAPC_LOGIC_32 op1_32.

Definition XOR_EdIdR (i : bxInstruction_c) : Mach unit :=
  op1_32 ← BX_READ_32BIT_REG (i_rm i);
  let op1_32 := Z.lxor op1_32 (Id i) in
  BX_WRITE_32BIT_REGZ (i_rm i) op1_32;;
  SET_FLAGS_OSZAPC_LOGIC_32 op1_32.

Definition OR_EdIdM (i : bxInstruction_c) : Mach unit :=
  eaddr ← resolve i;
  op1_32 ← read_RMW_virtual_dword_32 (i_seg i) eaddr;
  let op1_32 := Z.lor op1_32 (Id i) in
  write_RMW_virtual_dword op1_32;;
  SET_FLAGS_OSZAPC_LOGIC_32 op1_32.

Definition OR_EdIdR (i : bxInstruction_c) : Mach unit :=
  op1_32 ← BX_READ_32BIT_REG (i_rm i);
  let op1_32 := Z.lor op1_32 (Id i) in
  BX_WRITE_32BIT_REGZ (i_rm i) op1_32;;
  SET_FLAGS_OSZAPC_LOGIC_32 op1_32.

Definition NOT_EdM (i : bxInstruction_c) : Mach unit :=
  eaddr ← resolve i;
  op1_32 ← read_RMW_virtual_dword_32 (i_seg i) eaddr;
  let op1_32 := u32 (Z.lnot op1_32) in
  write_RMW_virtual_dword op1_32.

Definition NOT_EdR (i : bxInstruction_c) : Mach unit :=
  op1_32 ← BX_READ_32BIT_REG (i_rm i);
  let op1_32 := u32 (Z.lnot op1_32) in
  BX_WRITE_32BIT_REGZ (i_rm i) op1_32.

Definition OR_EdGdM (i : bxInstruction_c) : Mach unit :=
  eaddr ← resolve i;
  op1_32 ← read_RMW_virtual_dword_32 (i_seg i) eaddr;
  op2_32 ← BX_READ_32BIT_REG (i_nnn i);
  let op1_32 := Z.lor op1_32 op2_32 in
  write_RMW_virtual_dword op1_32;;
  SET_FLAGS_OSZAPC_LOGIC_32 op1_32.

Definition OR_GdEdR (i : bxInstruction_c) : Mach unit :=
  op1_32 ← BX_READ_32BIT_REG (i_nnn i);
  op2_32 ← BX_READ_32BIT_REG (i_rm i);
  let op1_32 := Z.lor op1_32 op2_32 in
  BX_WRITE_32BIT_REGZ (i_nnn i) op1_32;;
  SET_FLAGS_OSZAPC_LOGIC_32 op1_32.

Definition OR_EAXId (i : bxInstruction_c) : Mach unit :=
  op1_32 ← EAX;
  let op2_32 := Id i in
  let op1_32 := Z.lor op1_32 op2_32 in
  set_EAX op1_32;;
  SET_FLAGS_OSZAPC_LOGIC_32 op1_32.

Definition AND_EdGdM (i : bxInstruction_c) : Mach unit :=
  eaddr ← resolve i;
  op1_32 ← read_RMW_virtual_dword_32 (i_seg i) eaddr;
  op2_32 ← BX_READ_32BIT_REG (i_nnn i);
  let op1_32 := Z.land op1_32 op2_32 in
  write_RMW_virtual_dword op1_32;;
  SET_FLAGS_OSZAPC_LOGIC_32 op1_32.

Definition AND_GdEdR (i : bxInstruction_c) : Mach unit :=
  op1_32 ← BX_READ_32BIT_REG (i_nnn i);
  op2_32 ← BX_READ_32BIT_REG (i_rm i);
  let op1_32 := Z.land op1_32 op2_32 in
  BX_WRITE_32BIT_REGZ (i_nnn i) op1_32;;
  SET_FLAGS_OSZAPC_LOGIC_32 op1_32.

Definition AND_EAXId (i : bxInstruction_c) : Mach unit :=
  op1_32 ← EAX;
  let op2_32 := Id i in
  let op1_32 := Z.land op1_32 op2_32 in
  set_EAX op1_32;;
  SET_FLAGS_OSZAPC_LOGIC_32 op1_32.

Definition AND_EdIdM (i : bxInstruction_c) : Mach unit :=
  eaddr ← resolve i;
  op1_32 ← read_RMW_virtual_dword_32 (i_seg i) eaddr;
  let op1_32 := Z.land op1_32 (Id i) in
  write_RMW_virtual_dword op1_32;;
  SET_FLAGS_OSZAPC_LOGIC_32 op1_32.

Definition AND_EdIdR (i : bxInstruction_c) : Mach unit :=
  op1_32 ← BX_READ_32BIT_REG (i_rm i);
  let op1_32 := Z.land op1_32 (Id i) in
  BX_WRITE_32BIT_REGZ (i_rm i) op1_32;;
  SET_FLAGS_OSZAPC_LOGIC_32 op1_32.

Definition TEST_EdGdR (i : bxInstruction_c) : Mach unit :=
  op1_32 ← BX_READ_32BIT_REG (i_rm i);
  op2_32 ← BX_READ_32BIT_REG (i_nnn i);
  let op1_32 := Z.land op1_32 op2_32 in
  SET_FLAGS_OSZAPC_LOGIC_32 op1_32.

Definition TEST_EAXId (i : bxInstruction_c) : Mach unit :=
  op1_32 ← EAX;
  let op2_32 := Id i in
  let op1_32 := Z.land op1_32 op2_32 in
  SET_FLAGS_OSZAPC_LOGIC_32 op1_32.

Definition TEST_EdIdR (i : bxInstruction_c) : Mach unit :=
  op1_32 ← BX_READ_32BIT_REG (i_rm i);
  let op1_32 := Z.land op1_32 (Id i) in
  SET_FLAGS_OSZAPC_LOGIC_32 op1_32.

(** ** The instruction each handler implements *)

Definition logical8_table : list (handler * handler) :=
  [
   (XOR_EbGbM, ref_alu XOR 8 Mem (Reg i_nnn));
   (XOR_GbEbR, ref_alu XOR 8 (Reg i_nnn) (Reg i_rm));
   (XOR_ALIb, ref_alu XOR 8 Acc Imm);
   (XOR_EbIbM, ref_alu XOR 8 Mem Imm);
   (XOR_EbIbR, ref_alu XOR 8 (Reg i_rm) Imm);
   (OR_EbIbM, ref_alu OR 8 Mem Imm);
   (OR_EbIbR, ref_alu OR 8 (Reg i_rm) Imm);
   (NOT_EbM, ref_not 8 Mem);
   (NOT_EbR, ref_not 8 (Reg i_rm));
   (OR_EbGbM, ref_alu OR 8 Mem (Reg i_nnn));
   (OR_GbEbR, ref_alu OR 8 (Reg i_nnn) (Reg i_rm));
   (OR_ALIb, ref_alu OR 8 Acc Imm);
   (AND_EbGbM, ref_alu AND 8 Mem (Reg i_nnn));
   (AND_GbEbR, ref_alu AND 8 (Reg i_nnn) (Reg i_rm));
   (AND_ALIb, ref_alu AND 8 Acc Imm);
   (AND_EbIbM, ref_alu AND 8 Mem Imm);
   (AND_EbIbR, ref_alu AND 8 (Reg i_rm) Imm);
   (TEST_EbGbR, ref_alu TEST 8 (Reg i_rm) (Reg i_nnn));
   (TEST_ALIb, ref_alu TEST 8 Acc Imm);
   (TEST_EbIbR, ref_alu TEST 8 (Reg i_rm) Imm) ].

Definition logical16_table : list (handler * handler) :=
  [
   (XOR_EwGwM, ref_alu XOR 16 Mem (Reg i_nnn));
   (XOR_GwEwR, ref_alu XOR 16 (Reg i_nnn) (Reg i_rm));
   (XOR_AXIw, ref_alu XOR 16 Acc Imm);
   (XOR_EwIwM, ref_alu XOR 16 Mem Imm);
   (XOR_EwIwR, ref_alu XOR 16 (Reg i_rm) Imm);
   (OR_EwIwM, ref_alu OR 16 Mem Imm);
   (OR_EwIwR, ref_alu OR 16 (Reg i_rm) Imm);
   (NOT_EwM, ref_not 16 Mem);
   (NOT_EwR, ref_not 16 (Reg i_rm));
   (OR_EwGwM, ref_alu OR 16 Mem (Reg i_nnn));
   (OR_GwEwR, ref_alu OR 16 (Reg i_nnn) (Reg i_rm));
   (OR_AXIw, ref_alu OR 16 Acc Imm);
   (AND_EwGwM, ref_alu AND 16 Mem (Reg i_nnn));
   (AND_GwEwR, ref_alu AND 16 (Reg i_nnn) (Reg i_rm));
   (AND_AXIw, ref_alu AND 16 Acc Imm);
   (AND_EwIwM, ref_alu AND 16 Mem Imm);
   (AND_EwIwR, ref_alu AND 16 (Reg i_rm) Imm);
   (TEST_EwGwR, ref_alu TEST 16 (Reg i_rm) (Reg i_nnn));
   (TEST_AXIw, ref_alu TEST 16 Acc Imm);
   (TEST_EwIwR, ref_alu TEST 16 (Reg i_rm) Imm) ].

Definition logical32_table : list (handler * handler) :=
  [
   (XOR_EdGdM, ref_alu XOR 32 Mem (Reg i_nnn));
   (XOR_GdEdR, ref_alu XOR 32 (Reg i_nnn) (Reg i_rm));
   (XOR_EAXId, ref_alu XOR 32 Acc Imm);
   (XOR_EdIdM, ref_alu XOR 32 Mem Imm);
   (XOR_EdIdR, ref_alu XOR 32 (Reg i_rm) Imm);
   (OR_EdIdM, ref_alu OR 32 Mem Imm);
   (OR_EdIdR, ref_alu OR 32 (Reg i_rm) Imm);
   (NOT_EdM, ref_not 32 Mem);
   (NOT_EdR, ref_not 32 (Reg i_rm));
   (OR_EdGdM, ref_alu OR 32 Mem (Reg i_nnn));
   (OR_GdEdR, ref_alu OR 32 (Reg i_nnn) (Reg i_rm));
   (OR_EAXId, ref_alu OR 32 Acc Imm);
   (AND_EdGdM, ref_alu AND 32 Mem (Reg i_nnn));
   (AND_GdEdR, ref_alu AND 32 (Reg i_nnn) (Reg i_rm));
   (AND_EAXId, ref_alu AND 32 Acc Imm);
   (AND_EdIdM, ref_alu AND 32 Mem Imm);
   (AND_EdIdR, ref_alu AND 32 (Reg i_rm) Imm);
   (TEST_EdGdR, ref_alu TEST 32 (Reg i_rm) (Reg i_nnn));
   (TEST_EAXId, ref_alu TEST 32 Acc Imm);
   (TEST_EdIdR, ref_alu TEST 32 (Reg i_rm) Imm) ].

Definition logical_table : list (handler * handler) :=
  logical8_table ++ logical16_table ++ logical32_table.

Lemma logical_implements : Forall implements logical_table.
Proof. unfold logical_table. rewrite !Forall_app. split_and!; table_tac handler_tac. Qed.
(** C34: every handler of cpu/logical8.cc, cpu/logical16.cc and cpu/logical32.cc
    refines its instruction: the bitwise operation on the operands, CF, OF and AF
    cleared and the other flags those of the result; NOT and the flagless forms
    leave the flags alone. *)
Theorem logical_correct :
  Forall (fun p => forall i s, omap_state norm (p.1 i s) = p.2 i (norm s)) logical_table.
Proof. exact logical_implements. Qed.

Lemma logical_keeps_wf : Forall keeps_wf logical_table.
Proof. unfold logical_table. rewrite !Forall_app. split_and!; table_tac wf_handler. Qed.
Lemma logical_is_precise : Forall is_precise logical_table.
Proof. unfold logical_table. rewrite !Forall_app. split_and!; table_tac precise_handler. Qed.
