(* ===== verification/Mult.v ===== *)
(** * Mult: multiplication and division

    cpu/mult8.cc, cpu/mult16.cc and cpu/mult32.cc. *)
From stdpp Require Import base numbers list gmap.
From Stdlib Require Import ZArith Lia.
From S2P Require Import Prelude Machine LazyFlags Memory Paging Access Regs Precise Reference.

Local Open Scope Z_scope.

(** ** cpu/mult8.cc *)

Definition MUL_ALEbR (i : bxInstruction_c) : Mach unit :=
  op1 ← AL;
  op2 ← BX_READ_8BIT_REGx (i_rm i);
  let product_16 := op1 * op2 in
  let product_8l := Z.land product_16 0xFF in
  let product_8h := u8 (Z.shiftr product_16 8) in
  set_AX (u16 product_16);;
  SET_FLAGS_OSZAPC_LOGIC_8 product_8l;;
  when (negb (product_8h =? 0)) (ASSERT_FLAGS_OxxxxC).

Definition IMUL_ALEbR (i : bxInstruction_c) : Mach unit :=
  op1 ← AL;
  let op1 := s8 op1 in
  op2 ← BX_READ_8BIT_REGx (i_rm i);
  let op2 := s8 op2 in
  let product_16 := op1 * op2 in
  let product_8 := Z.land product_16 0xFF in
  set_AX (u16 product_16);;
  SET_FLAGS_OSZAPC_LOGIC_8 product_8;;
  when (negb (product_16 =? s8 product_16)) (ASSERT_FLAGS_OxxxxC).

Definition DIV_ALEbR (i : bxInstruction_c) : Mach unit :=
  op2 ← BX_READ_8BIT_REGx (i_rm i);
  when (op2 =? 0) (exception BX_DE_EXCEPTION 0);;
  op1 ← AX;
  let quotient_16 := op1 / op2 in
  let remainder_8 := op1 mod op2 in
  let quotient_8l := Z.land quotient_16 0xFF in
  when (negb (quotient_16 =? quotient_8l)) (exception BX_DE_EXCEPTION 0);;
  set_AL quotient_8l;;
  set_AH remainder_8.

Definition IDIV_ALEbR (i : bxInstruction_c) : Mach unit :=
  op1 ← AX;
  let op1 := s16 op1 in
  when (op1 =? s16 0x8000) (exception BX_DE_EXCEPTION 0);;
  op2 ← BX_READ_8BIT_REGx (i_rm i);
  let op2 := s8 op2 in
  when (op2 =? 0) (exception BX_DE_EXCEPTION 0);;
  let quotient_16 := s16 (Z.quot op1 op2) in
  let remainder_8 := s8 (Z.rem op1 op2) in
  let quotient_8l := s8 (Z.land quotient_16 0xFF) in
  when (negb (quotient_16 =? quotient_8l)) (exception BX_DE_EXCEPTION 0);;
  set_AL (u8 quotient_8l);;
  set_AH (u8 remainder_8).

(** ** cpu/mult16.cc *)

Definition MUL_AXEwR (i : bxInstruction_c) : Mach unit :=
  op1_16 ← AX;
  op2_16 ← BX_READ_16BIT_REG (i_rm i);
  let product_32 := op1_16 * op2_16 in
  let product_16l := Z.land product_32 0xFFFF in
  let product_16h := Z.shiftr product_32 16 in
  set_AX product_16l;;
  set_DX product_16h;;
  SET_FLAGS_OSZAPC_LOGIC_16 product_16l;;
  when (negb (product_16h =? 0)) (ASSERT_FLAGS_OxxxxC).

Definition IMUL_AXEwR (i : bxInstruction_c) : Mach unit :=
  op1_16 ← AX;
  let op1_16 := s16 op1_16 in
  op2_16 ← BX_READ_16BIT_REG (i_rm i);
  let op2_16 := s16 op2_16 in
  let product_32 := op1_16 * op2_16 in
  let product_16l := Z.land product_32 0xFFFF in
  let product_16h := u16 (Z.shiftr product_32 16) in
  set_AX product_16l;;
  set_DX product_16h;;
  SET_FLAGS_OSZAPC_LOGIC_16 product_16l;;
  when (negb (product_32 =? s16 product_32)) (ASSERT_FLAGS_OxxxxC).

Definition DIV_AXEwR (i : bxInstruction_c) : Mach unit :=
  op2_16 ← BX_READ_16BIT_REG (i_rm i);
  when (op2_16 =? 0) (exception BX_DE_EXCEPTION 0);;
  dx ← DX;
  ax ← AX;
  let op1_32 := Z.lor (Z.shiftl dx 16) ax in
  let quotient_32 := op1_32 / op2_16 in
  let remainder_16 := op1_32 mod op2_16 in
  let quotient_16l := Z.land quotient_32 0xFFFF in
  when (negb (quotient_32 =? quotient_16l)) (exception BX_DE_EXCEPTION 0);;
  set_AX quotient_16l;;
  set_DX remainder_16.

Definition IDIV_AXEwR (i : bxInstruction_c) : Mach unit :=
  dx ← DX;
  ax ← AX;
  let op1_32 := s32 (Z.lor (Z.shiftl dx 16) ax) in
  when (op1_32 =? s32 0x80000000) (exception BX_DE_EXCEPTION 0);;
  op2_16 ← BX_READ_16BIT_REG (i_rm i);
  let op2_16 := s16 op2_16 in
  when (op2_16 =? 0) (exception BX_DE_EXCEPTION 0);;
  let quotient_32 := s32 (Z.quot op1_32 op2_16) in
  let remainder_16 := s16 (Z.rem op1_32 op2_16) in
  let quotient_16l := s16 (Z.land quotient_32 0xFFFF) in
  when (negb (quotient_32 =? quotient_16l)) (exception BX_DE_EXCEPTION 0);;
  set_AX (u16 quotient_16l);;
  set_DX (u16 remainder_16).

Definition IMUL_GwEwIwR (i : bxInstruction_c) : Mach unit :=
  op2_16 ← BX_READ_16BIT_REG (i_rm i);
  let op2_16 := s16 op2_16 in
  let op3_16 := s16 (Iw i) in
  let product_32 := op2_16 * op3_16 in
  let product_16 := Z.land product_32 0xFFFF in
  BX_WRITE_16BIT_REG (i_nnn i) product_16;;
  SET_FLAGS_OSZAPC_LOGIC_16 product_16;;
  when (negb (product_32 =? s16 product_32)) (ASSERT_FLAGS_OxxxxC).

Definition IMUL_GwEwR (i : bxInstruction_c) : Mach unit :=
  op1_16 ← BX_READ_16BIT_REG (i_nnn i);
  let op1_16 := s16 op1_16 in
  op2_16 ← BX_READ_16BIT_REG (i_rm i);
  let op2_16 := s16 op2_16 in
  let product_32 := op1_16 * op2_16 in
  let product_16 := Z.land product_32 0xFFFF in
  BX_WRITE_16BIT_REG (i_nnn i) product_16;;
  SET_FLAGS_OSZAPC_LOGIC_16 product_16;;
  when (negb (product_32 =? s16 product_32)) (ASSERT_FLAGS_OxxxxC).

(** ** cpu/mult32.cc *)

Definition MUL_EAXEdR (i : bxInstruction_c) : Mach unit :=
  op1_32 ← EAX;
  op2_32 ← BX_READ_32BIT_REG (i_rm i);
  let product_64 := op1_32 * op2_32 in
  let product_32l := u32 product_64 in
  let product_32h := u32 (Z.shiftr product_64 32) in
  set_EAX product_32l;;
  set_EDX product_32h;;
  SET_FLAGS_OSZAPC_LOGIC_32 product_32l;;
  when (negb (product_32h =? 0)) (ASSERT_FLAGS_OxxxxC).

Definition IMUL_EAXEdR (i : bxInstruction_c) : Mach unit :=
  op1_32 ← EAX;
  let op1_32 := s32 op1_32 in
  op2_32 ← BX_READ_32BIT_REG (i_rm i);
  let op2_32 := s32 op2_32 in
  let product_64 := op1_32 * op2_32 in
  let product_32l := u32 product_64 in
  let product_32h := u32 (Z.shiftr (u64 product_64) 32) in
  set_EAX product_32l;;
  set_EDX product_32h;;
  SET_FLAGS_OSZAPC_LOGIC_32 product_32l;;
  when (negb (product_64 =? s32 product_64)) (ASSERT_FLAGS_OxxxxC).

Definition DIV_EAXEdR (i : bxInstruction_c) : Mach unit :=
  op2_32 ← BX_READ_32BIT_REG (i_rm i);
  when (op2_32 =? 0) (exception BX_DE_EXCEPTION 0);;
  edx ← EDX;
  eax ← EAX;
  let op1_64 := (Z.shiftl edx 32) + eax in
  let quotient_64 := op1_64 / op2_32 in
  let remainder_32 := op1_64 mod op2_32 in
  let quotient_32l := Z.land quotient_64 0xFFFFFFFF in
  when (negb (quotient_64 =? quotient_32l)) (exception BX_DE_EXCEPTION 0);;
  set_EAX quotient_32l;;
  set_EDX remainder_32.

Definition IDIV_EAXEdR (i : bxInstruction_c) : Mach unit :=
  edx ← EDX;
  eax ← EAX;
  let op1_64 := s64 (Z.lor (Z.shiftl edx 32) eax) in
  when (op1_64 =? s64 0x8000000000000000) (exception BX_DE_EXCEPTION 0);;
  op2_32 ← BX_READ_32BIT_REG (i_rm i);
  let op2_32 := s32 op2_32 in
  when (op2_32 =? 0) (exception BX_DE_EXCEPTION 0);;
  let quotient_64 := s64 (Z.quot op1_64 op2_32) in
  let remainder_32 := s32 (Z.rem op1_64 op2_32) in
  let quotient_32l := s32 (Z.land quotient_64 0xFFFFFFFF) in
  when (negb (quotient_64 =? quotient_32l)) (exception BX_DE_EXCEPTION 0);;
  set_EAX (u32 quotient_32l);;
  set_EDX (u32 remainder_32).

Definition IMUL_GdEdIdR (i : bxInstruction_c) : Mach unit :=
  op2_32 ← BX_READ_32BIT_REG (i_rm i);
  let op2_32 := s32 op2_32 in
  let op3_32 := s32 (Id i) in
  let product_64 := op2_32 * op3_32 in
  let product_32 := Z.land product_64 0xFFFFFFFF in
  BX_WRITE_32BIT_REGZ (i_nnn i) product_32;;
  SET_FLAGS_OSZAPC_LOGIC_32 product_32;;
  when (negb (product_64 =? s32 product_64)) (ASSERT_FLAGS_OxxxxC).

Definition IMUL_GdEdR (i : bxInstruction_c) : Mach unit :=
  op1_32 ← BX_READ_32BIT_REG (i_nnn i);
  let op1_32 := s32 op1_32 in
  op2_32 ← BX_READ_32BIT_REG (i_rm i);
  let op2_32 := s32 op2_32 in
  let product_64 := op1_32 * op2_32 in
  let product_32 := Z.land product_64 0xFFFFFFFF in
  BX_WRITE_32BIT_REGZ (i_nnn i) product_32;;
  SET_FLAGS_OSZAPC_LOGIC_32 product_32;;
  when (negb (product_64 =? s32 product_64)) (ASSERT_FLAGS_OxxxxC).

(** ** The instruction each handler implements *)

Definition mul_table : list (handler * handler) :=
    [(MUL_ALEbR, ref_mul false 8); (MUL_AXEwR, ref_mul false 16); (MUL_EAXEdR, ref_mul false 32);
     (IMUL_ALEbR, ref_mul true 8); (IMUL_AXEwR, ref_mul true 16); (IMUL_EAXEdR, ref_mul true 32);
     (IMUL_GwEwIwR, ref_imul 16 (Reg i_rm) Imm); (IMUL_GdEdIdR, ref_imul 32 (Reg i_rm) Imm);
     (IMUL_GwEwR, ref_imul 16 (Reg i_nnn) (Reg i_rm));
     (IMUL_GdEdR, ref_imul 32 (Reg i_nnn) (Reg i_rm))].
Definition div_table : list (handler * handler) :=
  [(DIV_ALEbR, ref_div 8); (DIV_AXEwR, ref_div 16); (DIV_EAXEdR, ref_div 32)].
Definition idiv_table : list (handler * handler) :=
  [(IDIV_ALEbR, ref_idiv 8); (IDIV_AXEwR, ref_idiv 16); (IDIV_EAXEdR, ref_idiv 32)].

(** ** Arithmetic of the products and quotients *)

Lemma land_u8 x : Z.land x 0xFF = u8 x.
Proof. apply (land_offset x 8). lia. Qed.
Lemma land_u16 x : Z.land x 0xFFFF = u16 x.
Proof. apply (land_offset x 16). lia. Qed.
Lemma land_u32 x : Z.land x 0xFFFFFFFF = u32 x.
Proof. apply (land_offset x 32). lia. Qed.

Lemma fits_signed_spec w p : 0 < w -> (p =? swrap w p) = fits_signed w p.
Proof.
  intros Hw. pose proof (swrap_range w p Hw). unfold fits_signed.
  destruct (Z.leb_spec (- 2 ^ (w - 1)) p), (Z.ltb_spec p (2 ^ (w - 1))); cbn [andb];
    try (apply Z.eqb_neq; lia).
  apply Z.eqb_eq. unfold swrap. pose proof (pow2_double w Hw). rewrite wrap_small; lia.
Qed.

Lemma high_half_zero w p : 0 <= w -> 0 <= p -> (p / 2 ^ w =? 0) = (p <? 2 ^ w).
Proof.
  intros Hw Hp. pose proof (Z.pow_pos_nonneg 2 w). destruct (Z.ltb_spec p (2 ^ w)).
  - by rewrite Z.div_small.
  - apply Z.eqb_neq. pose proof (Z.div_le_lower_bound p (2 ^ w) 1). lia.
Qed.

Lemma product_range w a b :
  0 <= w -> 0 <= a < 2 ^ w -> 0 <= b < 2 ^ w -> 0 <= a * b < 2 ^ w * 2 ^ w.
Proof. intros. nia. Qed.

Lemma high_half_range w a b :
  0 <= w -> 0 <= a < 2 ^ w -> 0 <= b < 2 ^ w -> 0 <= a * b / 2 ^ w < 2 ^ w.
Proof.
  intros. pose proof (product_range w a b). split; [apply Z.div_pos; nia|].
  apply Z.div_lt_upper_bound; nia.
Qed.

(** The high half of a wrapped double-width value. *)
Lemma wrap_div_high w z : 0 <= w -> wrap w (wrap (2 * w) z / 2 ^ w) = wrap w (z / 2 ^ w).
Proof.
  intros. apply Z.bits_inj'. intros n Hn. rewrite !testbit_wrap by lia.
  destruct (Z.ltb_spec n w); [|done]. cbn [andb].
  rewrite <-!Z.shiftr_div_pow2, !Z.shiftr_spec, testbit_wrap by lia.
  by rewrite (proj2 (Z.ltb_lt _ _)) by lia.
Qed.

(** Bring the two sides to the same arithmetic. *)
Ltac mult_norm :=
  rewrite ?land_u8, ?land_u16, ?land_u32, ?Z.shiftr_div_pow2 by lia;
  rewrite ?lor_shiftl_add by lia; rewrite ?Z.shiftl_mul_pow2 by lia.

Ltac mul_row w :=
  handler_intro; do 2 handler_step; mult_norm;
  rewrite ?(wrap_small w (_ * _ / _)) by (apply high_half_range; lia);
  rewrite ?high_half_zero by nia; rewrite ?fits_signed_spec by lia;
  rewrite ?(wrap_div_high w) by lia; repeat handler_step.

Lemma mul_implements : Forall implements mul_table.
Proof.
  repeat apply Forall_cons_2; [.. | apply Forall_nil; done].
  - mul_row 8.
  - mul_row 16.
  - mul_row 32.
  - mul_row 8.
  - mul_row 16.
  - mul_row 32.
  - mul_row 16.
  - mul_row 32.
  - mul_row 16.
  - mul_row 32.
Qed.

Lemma wrap_eqb w q : 0 <= w -> 0 <= q -> (q =? wrap w q) = (q <? 2 ^ w).
Proof.
  intros Hw Hq. pose proof (wrap_range w q Hw). destruct (Z.ltb_spec q (2 ^ w)).
  - by rewrite wrap_small, Z.eqb_refl by lia.
  - apply Z.eqb_neq. lia.
Qed.

(** The unsigned tail: store the quotient if it fits. *)
Lemma div_tail w n b (st : Z -> Z -> Mach unit) :
  0 <= w -> 0 <= n -> 0 <= b < 2 ^ w -> (b =? 0) = false ->
  (forall q r, refines (st q r) (st q r)) ->
  refines
    (when (negb (n / b =? wrap w (n / b))) (exception BX_DE_EXCEPTION 0);;
     st (wrap w (n / b)) (n mod b))
    (if n / b <? 2 ^ w then st (wrap w (n / b)) (wrap w (n mod b))
     else exception BX_DE_EXCEPTION 0).
Proof.
  intros Hw Hn Hb Hz%Z.eqb_neq Hst. pose proof (Z.mod_pos_bound n b).
  rewrite wrap_eqb by (try apply Z.div_pos; lia).
  apply refines_unless_raise. intros _. rewrite (wrap_small w (n mod b)) by lia. apply Hst.
Qed.

(** The signed quotient: only the most negative dividend can leave the double
    width, and then the quotient does not fit anyway. *)
Lemma quot_abs n b : b <> 0 -> Z.abs (Z.quot n b) = Z.abs n / Z.abs b.
Proof. intros. by rewrite <-Z.quot_abs, Z.quot_div_nonneg by lia. Qed.

Lemma abs_lt_fits w z : Z.abs z < 2 ^ (w - 1) -> 0 < w -> swrap w z = z.
Proof. intros. pose proof (pow2_double w). unfold swrap. rewrite wrap_small; lia. Qed.

Lemma quot_fits_double w n b :
  0 < w -> - 2 ^ (2 * w - 1) < n < 2 ^ (2 * w - 1) -> b <> 0 ->
  swrap (2 * w) (Z.quot n b) = Z.quot n b.
Proof.
  intros Hw Hn Hb. apply abs_lt_fits; [|lia]. rewrite quot_abs by done.
  apply Z.le_lt_trans with (Z.abs n); [|lia]. apply Z.div_le_upper_bound; nia.
Qed.

Lemma quot_min w b :
  0 < w -> b <> 0 -> - 2 ^ (w - 1) <= b < 2 ^ (w - 1) ->
  fits_signed w (Z.quot (- 2 ^ (2 * w - 1)) b) = false.
Proof.
  intros Hw Hb Hr. unfold fits_signed. apply andb_false_iff. rewrite Z.leb_gt, Z.ltb_ge.
  assert (2 ^ w <= Z.abs (Z.quot (- 2 ^ (2 * w - 1)) b)) as H.
  { rewrite quot_abs by done. apply Z.div_le_lower_bound; [lia|].
    rewrite Z.abs_opp, (Z.abs_eq (2 ^ _)) by lia.
    replace (2 * w - 1) with (w + (w - 1)) by lia. rewrite Z.pow_add_r by lia. nia. }
  pose proof (pow2_double w Hw). pose proof (Z.pow_pos_nonneg 2 (w - 1)). lia.
Qed.

Lemma rem_fits w n b :
  0 < w -> b <> 0 -> - 2 ^ (w - 1) <= b < 2 ^ (w - 1) -> swrap w (Z.rem n b) = Z.rem n b.
Proof. intros Hw Hb Hr. apply abs_lt_fits; [|done]. pose proof (Z.rem_bound_abs n b Hb). lia. Qed.

(** The signed tail, after the check for the most negative dividend. *)
Lemma idiv_tail w n b (st : Z -> Z -> Mach unit) :
  0 < w -> - 2 ^ (2 * w - 1) < n < 2 ^ (2 * w - 1) -> - 2 ^ (w - 1) <= b < 2 ^ (w - 1) ->
  (forall q r, refines (st q r) (st q r)) ->
  refines
    (when (b =? 0) (exception BX_DE_EXCEPTION 0);;
     when (negb (swrap (2 * w) (Z.quot n b) =? swrap w (wrap w (swrap (2 * w) (Z.quot n b)))))
       (exception BX_DE_EXCEPTION 0);;
     st (wrap w (swrap w (wrap w (swrap (2 * w) (Z.quot n b))))) (wrap w (swrap w (Z.rem n b))))
    (if b =? 0 then exception BX_DE_EXCEPTION 0
     else if fits_signed w (Z.quot n b) then st (wrap w (Z.quot n b)) (wrap w (Z.rem n b))
     else exception BX_DE_EXCEPTION 0).
Proof.
  intros Hw Hn Hb Hst. apply refines_when_raise. intros Hz%Z.eqb_neq.
  rewrite quot_fits_double, rem_fits by lia.
  assert (forall z, swrap w (wrap w z) = swrap w z) as Hsw.
  { intros z. unfold swrap. by rewrite wrap_add_l by lia. }
  rewrite !Hsw, fits_signed_spec, wrap_swrap by lia. by apply refines_unless_raise.
Qed.

(** The check for the most negative dividend. *)
Lemma idiv_head w n (m : Z -> Mach unit) (st : Z -> Z -> Mach unit) (rd : Mach Z) k :
  0 < w -> - 2 ^ (2 * w - 1) <= n < 2 ^ (2 * w - 1) -> RegRead w rd ->
  k = - 2 ^ (2 * w - 1) ->
  (n <> k -> forall b, 0 <= b < 2 ^ w ->
     refines (m b)
       (if swrap w b =? 0 then exception BX_DE_EXCEPTION 0
        else if fits_signed w (Z.quot n (swrap w b)) then
          st (wrap w (Z.quot n (swrap w b))) (wrap w (Z.rem n (swrap w b)))
        else exception BX_DE_EXCEPTION 0)) ->
  refines
    (when (n =? k) (exception BX_DE_EXCEPTION 0);; b ← rd; m b)
    (b ← rd;
     if swrap w b =? 0 then exception BX_DE_EXCEPTION 0
     else if fits_signed w (Z.quot n (swrap w b)) then
       st (wrap w (Z.quot n (swrap w b))) (wrap w (Z.rem n (swrap w b)))
     else exception BX_DE_EXCEPTION 0).
Proof.
  intros Hw Hn Hrd -> H. destruct (Z.eqb_spec n (- 2 ^ (2 * w - 1))) as [->|Hne]; cbn [when].
  - intros s. destruct Hrd as (f & Hf & Hr). unfold mbind, M_bind. rewrite Hf.
    destruct (Z.eqb_spec (swrap w (f (gen_reg (norm s)))) 0); [done|].
    by rewrite quot_min by (try apply swrap_range; done).
  - apply refines_ret_l. eapply refines_bind_yields; [by eapply RegRead_refines|by eapply RegRead_yields|].
    auto.
Qed.

Ltac div_row st :=
  handler_intro; handler_step; apply refines_when_raise; intros Hz;
  repeat handler_step; mult_norm;
  apply (fun H1 H2 H3 H4 => div_tail _ _ _ st H1 H2 H3 Hz H4); [lia|nia|lia|intros; repeat handler_step].

Lemma div_implements : Forall implements div_table.
Proof.
  repeat apply Forall_cons_2; [.. | apply Forall_nil; done].
  - div_row (fun q r => set_AL q;; set_AH r).
  - div_row (fun q r => set_AX q;; set_DX r).
  - div_row (fun q r => set_EAX q;; set_EDX r).
Qed.

Ltac idiv_row w st :=
  handler_intro; repeat handler_step; mult_norm;
  eapply (idiv_head w _ _ st); [lia|apply (swrap_range (2 * w)); lia|typeclasses eauto|reflexivity|];
  intros Hne b Hb; mult_norm;
  apply (idiv_tail w _ _ st); [lia| |apply swrap_range; lia|intros; repeat handler_step];
  match goal with |- _ < swrap ?v ?z < _ => pose proof (swrap_range v z ltac:(lia)) as Hz end;
  match type of Hne with _ <> ?k => let c := eval vm_compute in k in change k with c in Hne end;
  cbn -[swrap] in *; lia.

Lemma idiv_implements : Forall implements idiv_table.
Proof.
  repeat apply Forall_cons_2; [.. | apply Forall_nil; done].
  - idiv_row 8 (fun q r => set_AL q;; set_AH r).
  - idiv_row 16 (fun q r => set_AX q;; set_DX r).
  - idiv_row 32 (fun q r => set_EAX q;; set_EDX r).
Qed.

Definition mult_table : list (handler * handler) := mul_table ++ div_table ++ idiv_table.

Lemma mult_implements : Forall implements mult_table.
Proof. apply Forall_app_2; [apply mul_implements|]. apply Forall_app_2; [apply div_implements|apply idiv_implements]. Qed.
Lemma mult_keeps_wf : Forall keeps_wf mult_table.
Proof. unfold mult_table. rewrite !Forall_app. split_and!; table_tac wf_handler. Qed.
Lemma mult_is_precise : Forall is_precise mult_table.
Proof. unfold mult_table. rewrite !Forall_app. split_and!; table_tac precise_handler. Qed.

(** C26: every multiplication and division of cpu/mult8.cc, cpu/mult16.cc and
    cpu/mult32.cc, in any state, is the exact product or the truncated quotient
    and remainder of the unsigned or signed operands, with CF and OF set exactly
    when the upper half is significant, and #DE exactly for a zero divisor or a
    quotient that does not fit. *)
Theorem mult_correct :
  Forall (fun p => forall i s, omap_state norm (p.1 i s) = p.2 i (norm s)) mult_table.
Proof. exact mult_implements. Qed.

(** ** Division, on the registers *)

Lemma reg_set_ne n m v s : 0 <= n -> 0 <= m -> n <> m -> reg n (set_reg m v s) = reg n s.
Proof.
  intros. unfold reg, set_reg. msimpl. rewrite !nth_lookup.
  by rewrite list_lookup_insert_ne by lia.
Qed.
Lemma reg_set_eq n v s : length (gen_reg s) = 11%nat -> 0 <= n < 11 -> reg n (set_reg n v s) = v.
Proof.
  intros Hl Hn. unfold reg, set_reg. msimpl. rewrite nth_lookup.
  by rewrite list_lookup_insert_eq by lia.
Qed.

Lemma mult_row h r i s : (h, r) ∈ mult_table -> omap_state norm (h i s) = r i (norm s).
Proof. intros H. pose proof mult_implements as HF. rewrite Forall_forall in HF. apply (HF _ H). Qed.

Lemma DIV_row i s : omap_state norm (DIV_EAXEdR i s) = ref_div 32 i (norm s).
Proof. apply mult_row. row_tac. Qed.
Lemma IDIV_row i s : omap_state norm (IDIV_EAXEdR i s) = ref_idiv 32 i (norm s).
Proof. apply mult_row. row_tac. Qed.

(** The two registers after a division. *)
Lemma quotient_regs q r s :
  length (gen_reg s) = 11%nat ->
  set_quotient 32 q r s = Ret tt (set_reg 2 (u32 (u32 r)) (set_reg 0 (u32 (u32 q)) s)) /\
  reg 0 (set_reg 2 (u32 (u32 r)) (set_reg 0 (u32 (u32 q)) s)) = u32 q /\
  reg 2 (set_reg 2 (u32 (u32 r)) (set_reg 0 (u32 (u32 q)) s)) = u32 r.
Proof.
  intros Hs. split; [done|]. rewrite !wrap_wrap by lia. split.
  - rewrite (reg_set_ne 0 2), reg_set_eq by (done || lia). done.
  - apply reg_set_eq; [|lia]. unfold set_reg. msimpl. by rewrite length_insert.
Qed.

Section OnRegisters.
Context (i : bxInstruction_c) (s : machine).
Let b := erx (reg (i_rm i) s).
Let n := erx (reg 2 s) * 2 ^ 32 + erx (reg 0 s).

Lemma ref_div32_eq :
  ref_div 32 i s =
    (if b =? 0 then exception BX_DE_EXCEPTION 0
     else if n / b <? 2 ^ 32 then set_quotient 32 (n / b) (n mod b)
     else exception BX_DE_EXCEPTION 0) s.
Proof.
  unfold ref_div, mbind, M_bind. change (read_reg 32 (i_rm i) s) with (Ret (S := machine) b s).
  cbv beta iota. destruct (b =? 0); reflexivity.
Qed.
Lemma ref_idiv32_eq :
  ref_idiv 32 i s =
    (if s32 b =? 0 then exception BX_DE_EXCEPTION 0
     else if fits_signed 32 (Z.quot (s64 n) (s32 b)) then
       set_quotient 32 (Z.quot (s64 n) (s32 b)) (Z.rem (s64 n) (s32 b))
     else exception BX_DE_EXCEPTION 0) s.
Proof. reflexivity. Qed.
End OnRegisters.

(** What a machine-level equation says about the outcome. *)
Lemma outcome_raise {A} (m : Mach A) s v e :
  omap_state norm (m s) = raise v e (norm s) -> exists s', m s = Fault v e s' /\ norm s' = norm s.
Proof.
  unfold raise. destruct (m s) as [|v' e' s'|]; cbn; intros H; [done| |done].
  exists s'. apply Fault_inj in H as (-> & -> & ->). done.
Qed.
Lemma outcome_quotient (m : Mach unit) s q r :
  length (gen_reg s) = 11%nat -> omap_state norm (m s) = set_quotient 32 q r (norm s) ->
  exists s', m s = Ret tt s' /\ reg 0 s' = u32 q /\ reg 2 s' = u32 r.
Proof.
  intros Hl H. destruct (quotient_regs q r (norm s) Hl) as (E & E0 & E2). rewrite E in H.
  destruct (m s) as [[] s'| |]; try done. apply Ret_inj in H as [_ H]. exists s'.
  rewrite <-H in E0, E2. done.
Qed.

(** C38: DIV and IDIV at 32 bits satisfy the division identity on the registers:
    either the divisor is zero or the quotient does not fit, and #DE is raised
    with the architectural state unchanged, or EDX:EAX before is EAX after times
    the divisor plus EDX after, with a remainder smaller than the divisor (for
    IDIV in absolute value, with the sign of the dividend). *)
Theorem div_identity i s :
  wf s ->
  let b := erx (reg (i_rm i) s) in
  let n := erx (reg 2 s) * 2 ^ 32 + erx (reg 0 s) in
  match DIV_EAXEdR i s with
  | Ret _ s' => b <> 0 /\ n = erx (reg 0 s') * b + erx (reg 2 s') /\ erx (reg 2 s') < b
  | Fault v e s' => v = BX_DE_EXCEPTION /\ e = 0 /\ norm s' = norm s /\ (b = 0 \/ 2 ^ 32 <= n / b)
  | Crash => False
  end /\
  match IDIV_EAXEdR i s with
  | Ret _ s' => s32 b <> 0 /\ s64 n = s32 (reg 0 s') * s32 b + s32 (reg 2 s') /\
                Z.abs (s32 (reg 2 s')) < Z.abs (s32 b) /\ 0 <= s32 (reg 2 s') * s64 n
  | Fault v e s' => v = BX_DE_EXCEPTION /\ e = 0 /\ norm s' = norm s /\
                    (s32 b = 0 \/ fits_signed 32 (Z.quot (s64 n) (s32 b)) = false)
  | Crash => False
  end.
Proof.
  intros ((Hl & _) & _) b n. assert (0 <= b < 2 ^ 32) as Hb by (apply wrap_range; lia).
  assert (0 <= n) as Hn by (unfold n; pose proof (wrap_range 32 (reg 2 s)); pose proof (wrap_range 32 (reg 0 s)); unfold erx; lia).
  split.
  - pose proof (DIV_row i s) as H.
    rewrite ref_div32_eq in H.
    change (erx (reg (i_rm i) (norm s))) with b in H. 
    change (erx (reg 2 (norm s)) * 2 ^ 32 + erx (reg 0 (norm s))) with n in H.
    destruct (Z.eqb_spec b 0); [apply outcome_raise in H as (s' & -> & ?); by auto|].
    destruct (Z.ltb_spec (n / b) (2 ^ 32)); [|apply outcome_raise in H as (s' & -> & ?); by auto].
    apply outcome_quotient in H as (s' & -> & -> & ->); [|done].
    pose proof (Z.mod_pos_bound n b). assert (0 <= n / b) by (apply Z.div_pos; lia).
    unfold erx. rewrite !wrap_wrap, !wrap_small by lia. split; [done|]. split; [|lia].
    rewrite (Z.div_mod n b) at 1 by lia. lia.
  - pose proof (IDIV_row i s) as H.
    rewrite ref_idiv32_eq in H.
    change (erx (reg (i_rm i) (norm s))) with b in H. 
    change (erx (reg 2 (norm s)) * 2 ^ 32 + erx (reg 0 (norm s))) with n in H.
    destruct (Z.eqb_spec (s32 b) 0); [apply outcome_raise in H as (s' & -> & ?); by auto|].
    destruct (fits_signed _ _) eqn:Ef; [|apply outcome_raise in H as (s' & -> & ?); by auto].
    apply outcome_quotient in H as (s' & -> & -> & ->); [|done].
    pose proof (Z.rem_bound_abs (s64 n) (s32 b)). pose proof (swrap_range 32 b).
    unfold fits_signed in Ef. apply andb_prop in Ef as [? ?].
    assert (forall z, - 2 ^ 31 <= z < 2 ^ 31 -> s32 (u32 z) = z) as Es.
    { intros z Hz. rewrite swrap_wrap by lia. by apply swrap_small. }
    rewrite !Es by lia. split; [done|]. split; [|split; [lia|by apply Z.rem_sign_mul]].
    rewrite (Z.quot_rem (s64 n) (s32 b)) at 1 by lia. lia.
Qed.

(** 0x123456789 / 0x10, from EDX:EAX and ECX. *)
Lemma div_identity_witness :
  let s := demo_machine [0x23456789; 0x10; 1; 0; 0; 0; 0; 0; 0; 0; 0] in
  match DIV_EAXEdR (demo_instruction 0xf7 0 1 0) s with
  | Ret _ s' => 0x123456789 = erx (reg 0 s') * 0x10 + erx (reg 2 s')
  | _ => False
  end.
Proof.
  intros s. destruct (div_identity (demo_instruction 0xf7 0 1 0) s) as [H _].
  - apply demo_machine_wf. split; [done|]. repeat constructor; done.
  - destruct (DIV_EAXEdR _ s) eqn:E; [|vm_compute in E; discriminate E..]. exact (proj1 (proj2 H)).
Defined.
