(* ===== verification/ShiftSpec.v ===== *)
(** * Shifts and rotates: the reference

    What the shift and rotate instructions compute, as arithmetic and repeated
    one-bit steps, and the lemmas that relate it to the bit operations of
    cpu/shift8.cc, cpu/shift16.cc and cpu/shift32.cc.  [Shift] has the handlers. *)
From stdpp Require Import base numbers list gmap.
From Stdlib Require Import ZArith Lia.
From S2P Require Import Prelude Machine LazyFlags Memory Paging Access Regs Precise Reference.

Local Open Scope Z_scope.

(** ** Reference: shifts and rotates

    A rotate is its one-bit step, repeated; RCL and RCR rotate the carry flag
    along, as bit [w] of a word of [w + 1] bits.  The shifts are arithmetic. *)

Definition rotl1 (m v : Z) : Z := wrap m (2 * v) + v / 2 ^ (m - 1).
Definition rotr1 (m v : Z) : Z := v / 2 + v mod 2 * 2 ^ (m - 1).

Inductive shift : Type := ROL | ROR | RCL | RCR | SHL | SHR | SAR.

(** The count: five bits, for the rotates through carry modulo [w + 1]. *)
Definition shift_amount (op : shift) (w count : Z) : Z :=
  match op with
  | RCL | RCR => count mod 32 mod (w + 1)
  | _ => count mod 32
  end.

(** The result and the last bit shifted out. *)
Definition shift_value (op : shift) (w a cf n : Z) : Z * bool :=
  match op with
  | ROL => let r := Nat.iter (Z.to_nat n) (rotl1 w) a in (r, Z.testbit r 0)
  | ROR => let r := Nat.iter (Z.to_nat n) (rotr1 w) a in (r, Z.testbit r (w - 1))
  | RCL => let v := Nat.iter (Z.to_nat n) (rotl1 (w + 1)) (cf * 2 ^ w + a) in
           (wrap w v, Z.testbit v w)
  | RCR => let v := Nat.iter (Z.to_nat n) (rotr1 (w + 1)) (cf * 2 ^ w + a) in
           (wrap w v, Z.testbit v w)
  | SHL => (wrap w (a * 2 ^ n), Z.testbit (a * 2 ^ n) w)
  | SHR => (a / 2 ^ n, Z.testbit a (n - 1))
  | SAR => (wrap w (swrap w a / 2 ^ n), Z.testbit (swrap w a) (n - 1))
  end.

(** OF is defined for a count of one: the sign changed.  The handlers use the
    same formula for every count. *)
Definition shift_overflow (op : shift) (w r : Z) (cf : bool) : bool :=
  match op with
  | ROL | RCL | SHL => xorb cf (Z.testbit r (w - 1))
  | ROR | RCR | SHR => xorb (Z.testbit r (w - 2)) (Z.testbit r (w - 1))
  | SAR => false
  end.

(** Rotates set OF and CF only. *)
Definition shift_set_flags (op : shift) (w r : Z) (cf : bool) : Mach unit :=
  let ov := shift_overflow op w r cf in
  match op with
  | ROL | ROR | RCL | RCR => update_flags (override [(OF, ov); (CF, cf)])
  | _ => write_arith_flags (result_flags w r ov false cf)
  end.

(** A rotate by a multiple of the width does not write its operand. *)
Definition shift_stores (op : shift) (w n : Z) : bool :=
  match op with ROL | ROR => negb (n mod w =? 0) | _ => true end.

Definition shift_carry_in (op : shift) : Mach Z :=
  match op with RCL | RCR => gets (getB_flag CF) | _ => mret 0 end.

(** A count of zero changes nothing. *)
Definition ref_shift_tail (op : shift) (w : Z) (dst : place) (a count : Z)
    (i : bxInstruction_c) : Mach unit :=
  let n := shift_amount op w count in
  if n =? 0 then mret tt else
  cf ← shift_carry_in op;
  let r := shift_value op w a cf n in
  when (shift_stores op w n) (store_rmw w dst r.1 i);;
  shift_set_flags op w r.1 r.2.

(** The count is CL or an immediate; which one is read first differs. *)
Definition shift_count (by_CL : bool) (i : bxInstruction_c) : Mach Z :=
  if by_CL then CL else mret (Ib i).

Definition ref_shift (op : shift) (w : Z) (dst : place) (i : bxInstruction_c) : Mach unit :=
  match dst with
  | Mem =>
      a ← fetch_rmw w dst i;
      count ← shift_count (i_b1 i =? 0xd3) i;
      ref_shift_tail op w dst a count i
  | _ =>
      count ← shift_count (i_b1 i =? (if w =? 8 then 0xd2 else 0xd3)) i;
      a ← fetch_rmw w dst i;
      ref_shift_tail op w dst a count i
  end.

(** Double-precision shifts: the operand [a] with [b] moved in.  Beyond the width,
    which only the 16-bit forms reach, the comments of cpu/shift16.cc have [b] come
    again ([shiftd_value]); the code has [a] come again ([shiftd_code_value]). *)
Definition triple_doc (left : bool) (w a b : Z) : Z :=
  if left then (a * 2 ^ w + b) * 2 ^ w + b else (b * 2 ^ w + b) * 2 ^ w + a.
Definition shiftd_value (left : bool) (w a b n : Z) : Z * bool :=
  if left then (wrap w (triple_doc left w a b * 2 ^ n / 2 ^ (2 * w)), Z.testbit (a * 2 ^ w + b) (2 * w - n))
  else (wrap w (triple_doc left w a b / 2 ^ n), Z.testbit a (n - 1)).

Definition triple (w a b : Z) : Z := (a * 2 ^ w + b) * 2 ^ w + a.
Definition shiftd_code_value (left : bool) (w a b n : Z) : Z * bool :=
  if left then (wrap w (triple w a b * 2 ^ n / 2 ^ (2 * w)), Z.testbit (a * 2 ^ w + b) (2 * w - n))
  else (wrap w (triple w a b / 2 ^ n), Z.testbit a (n - 1)).

Definition ref_shiftd_tail (value : bool -> Z -> Z -> Z -> Z -> Z * bool) (left : bool) (w : Z) (dst : place) (a count : Z)
    (i : bxInstruction_c) : Mach unit :=
  let n := count mod 32 in
  if n =? 0 then mret tt else
  b ← read_reg w (i_nnn i);
  let r := value left w a b n in
  store_rmw w dst r.1 i;;
  shift_set_flags (if left then SHL else SHR) w r.1 r.2.

Definition shiftd_count (left : bool) (i : bxInstruction_c) : Mach Z :=
  if i_b1 i =? (if left then 0xa4 else 0xac) then mret (Ib i) else CL.

Definition ref_shiftd (value : bool -> Z -> Z -> Z -> Z -> Z * bool) (left mem_first : bool) (w : Z) (dst : place)
    (i : bxInstruction_c) : Mach unit :=
  if mem_first then
    a ← fetch_rmw w dst i; count ← shiftd_count left i; ref_shiftd_tail value left w dst a count i
  else
    count ← shiftd_count left i; a ← fetch_rmw w dst i; ref_shiftd_tail value left w dst a count i.

(** ** Bits of the rotates *)

Lemma testbit_rotl1 m v j :
  0 < m -> 0 <= v < 2 ^ m -> 0 <= j < m -> Z.testbit (rotl1 m v) j = Z.testbit v ((j - 1) mod m).
Proof.
  intros Hm Hv Hj. unfold rotl1. pose proof (pow2_double m Hm).
  assert (v / 2 ^ (m - 1) = Z.b2z (Z.testbit v (m - 1))) as E.
  { rewrite testbit_msb by lia. destruct (Z.leb_spec (2 ^ (m - 1)) v); cbn.
    - symmetry. apply Z.div_unique with (r := v - 2 ^ (m - 1)); lia.
    - apply Z.div_small. lia. }
  rewrite E. destruct (decide (j = 0)) as [->|].
  - replace ((0 - 1) mod m) with (m - 1) by (apply Z.mod_unique with (q := -1); lia).
    rewrite !Z.bit0_odd, Z.odd_add, <-!Z.bit0_odd, testbit_wrap by lia.
    rewrite (proj2 (Z.ltb_lt 0 m)), Z.bit0_odd, Z.odd_mul by lia. cbn [Z.odd andb].
    by destruct (Z.testbit v (m - 1)).
  - rewrite Z.mod_small by lia.
    assert (wrap m (2 * v) + Z.b2z (Z.testbit v (m - 1)) = Z.lor (wrap m (2 * v)) (Z.b2z (Z.testbit v (m - 1)))) as ->.
    { symmetry. apply lor_disjoint_add with (n := 1); [lia| |destruct (Z.testbit _ _); cbn; lia].
      change (2 ^ 1) with 2. change (wrap 1 (wrap m (2 * v)) = 0).
      rewrite wrap_wrap_le by lia. unfold wrap. change (2 ^ 1) with 2. rewrite Z.mul_comm. apply Z_mod_mult. }
    rewrite Z.lor_spec, testbit_wrap by lia. rewrite (proj2 (Z.ltb_lt j m)) by lia.
    rewrite (testbit_above 1 (Z.b2z _) j) by (destruct (Z.testbit _ _); cbn; lia).
    rewrite orb_false_r. cbn [andb]. replace j with (Z.succ (j - 1)) at 1 by lia.
    by rewrite Z.double_bits_succ.
Qed.

Lemma rotl1_range m v : 0 < m -> 0 <= v < 2 ^ m -> 0 <= rotl1 m v < 2 ^ m.
Proof.
  intros Hm Hv. unfold rotl1, wrap. pose proof (pow2_double m Hm).
  assert (v / 2 ^ (m - 1) < 2) by (apply Z.div_lt_upper_bound; lia).
  assert (0 <= v / 2 ^ (m - 1)) by (apply Z.div_pos; lia).
  assert ((2 * v) mod 2 ^ m mod 2 = 0).
  { replace (2 ^ m) with (2 * 2 ^ (m - 1)) by lia. rewrite Z.mul_mod_distr_l by lia.
    rewrite Z.mul_comm. apply Z_mod_mult. }
  pose proof (Z.mod_pos_bound (2 * v) (2 ^ m)). divlia.
Qed.

Lemma testbit_rotr1 m v j :
  0 < m -> 0 <= v < 2 ^ m -> 0 <= j < m -> Z.testbit (rotr1 m v) j = Z.testbit v ((j + 1) mod m).
Proof.
  intros Hm Hv Hj. unfold rotr1. pose proof (pow2_double m Hm).
  assert (v mod 2 = Z.b2z (Z.testbit v 0)) as -> by (symmetry; apply Z.bit0_mod).
  assert (0 <= v / 2 < 2 ^ (m - 1)) by divlia.
  assert (v / 2 + Z.b2z (Z.testbit v 0) * 2 ^ (m - 1) = Z.lor (Z.shiftl (Z.b2z (Z.testbit v 0)) (m - 1)) (v / 2)) as ->.
  { rewrite lor_shiftl_add by lia. lia. }
  rewrite Z.lor_spec, testbit_b2z_shiftl by lia.
  destruct (Z.eqb_spec j (m - 1)) as [->|].
  - replace ((m - 1 + 1) mod m) with 0 by (rewrite Z.sub_add, Z.mod_same; lia).
    rewrite (testbit_above (m - 1) (v / 2)) by lia. by rewrite andb_true_r, orb_false_r.
  - rewrite andb_false_r, Z.mod_small by lia. cbn [orb].
    change 2 with (2 ^ 1). rewrite <-Z.shiftr_div_pow2, Z.shiftr_spec by lia. done.
Qed.

Lemma rotr1_range m v : 0 < m -> 0 <= v < 2 ^ m -> 0 <= rotr1 m v < 2 ^ m.
Proof.
  intros Hm Hv. unfold rotr1. pose proof (pow2_double m Hm).
  pose proof (Z.mod_pos_bound v 2). assert (0 <= v / 2 < 2 ^ (m - 1)) by divlia. nia.
Qed.

(** The rotates as a function of the position. *)
Lemma rotl_iter m v n :
  0 < m -> 0 <= v < 2 ^ m ->
  0 <= Nat.iter n (rotl1 m) v < 2 ^ m /\
  forall j, 0 <= j < m -> Z.testbit (Nat.iter n (rotl1 m) v) j = Z.testbit v ((j - Z.of_nat n) mod m).
Proof.
  intros Hm Hv. induction n as [|n [IHr IH]].
  - split; [done|]. intros j Hj. cbn. by rewrite Z.sub_0_r, Z.mod_small by lia.
  - change (Nat.iter (S n) (rotl1 m) v) with (rotl1 m (Nat.iter n (rotl1 m) v)).
    split; [by apply rotl1_range|]. intros j Hj. rewrite testbit_rotl1 by done.
    rewrite IH by (apply Z.mod_pos_bound; lia). f_equal.
    rewrite Zminus_mod_idemp_l. f_equal. lia.
Qed.

Lemma rotr_iter m v n :
  0 < m -> 0 <= v < 2 ^ m ->
  0 <= Nat.iter n (rotr1 m) v < 2 ^ m /\
  forall j, 0 <= j < m -> Z.testbit (Nat.iter n (rotr1 m) v) j = Z.testbit v ((j + Z.of_nat n) mod m).
Proof.
  intros Hm Hv. induction n as [|n [IHr IH]].
  - split; [done|]. intros j Hj. cbn. by rewrite Z.add_0_r, Z.mod_small by lia.
  - change (Nat.iter (S n) (rotr1 m) v) with (rotr1 m (Nat.iter n (rotr1 m) v)).
    split; [by apply rotr1_range|]. intros j Hj. rewrite testbit_rotr1 by done.
    rewrite IH by (apply Z.mod_pos_bound; lia). f_equal.
    rewrite Zplus_mod_idemp_l. f_equal. lia.
Qed.

(** ** The expressions of the handlers *)

(** A bit of a shifted word, the position known to be in range. *)
Lemma testbit_shiftl a k j :
  0 <= k -> 0 <= j -> Z.testbit (Z.shiftl a k) j = (k <=? j) && Z.testbit a (j - k).
Proof.
  intros Hk Hj. rewrite Z.shiftl_spec by done.
  destruct (Z.leb_spec k j); [done|]. by rewrite Z.testbit_neg_r by lia.
Qed.

(** [w] bits and the carry above them. *)
Lemma testbit_carry_word w a (c : bool) j :
  0 < w -> 0 <= a < 2 ^ w -> 0 <= j <= w ->
  Z.testbit (Z.b2z c * 2 ^ w + a) j = if j =? w then c else Z.testbit a j.
Proof.
  intros Hw Ha Hj. rewrite <-lor_shiftl_add, Z.lor_spec, testbit_b2z_shiftl by lia.
  destruct (Z.eqb_spec j w) as [->|].
  - by rewrite (testbit_above w a), andb_true_r, orb_false_r by lia.
  - by rewrite andb_false_r.
Qed.
Lemma carry_word_range w a (c : bool) :
  0 < w -> 0 <= a < 2 ^ w -> 0 <= Z.b2z c * 2 ^ w + a < 2 ^ (w + 1).
Proof.
  intros. replace (w + 1) with (Z.succ w) by lia. rewrite Z.pow_succ_r by lia. destruct c; cbn; lia.
Qed.

(** Two words are equal below [w]. *)
Lemma wrap_bits w x y :
  0 <= w -> (forall j, 0 <= j < w -> Z.testbit x j = Z.testbit y j) -> wrap w x = wrap w y.
Proof.
  intros Hw H. apply Z.bits_inj'. intros j Hj. rewrite !testbit_wrap by done.
  destruct (Z.ltb_spec j w); [|done]. cbn. apply H. lia.
Qed.

(** [x mod m] for [x] in [[-m, 0)] or [[0, m)] or [[m, 2m)]. *)
Ltac mod_cases m :=
  repeat match goal with
  | |- context [?x mod m] =>
      first [ rewrite (Z.mod_small x m) by lia
            | replace (x mod m) with (x - m) by (apply Z.mod_unique with (q := 1); lia)
            | replace (x mod m) with (x + m) by (apply Z.mod_unique with (q := -1); lia) ]
  end.

Section Codes.
Context (w a : Z) (Hw : 0 < w) (Ha : 0 <= a < 2 ^ w).

(** Outside the operand there are no bits. *)
Lemma operand_above j : w <= j -> Z.testbit a j = false.
Proof. intros. by apply (testbit_above w); lia. Qed.

Lemma rol_code n :
  0 <= n -> n mod w <> 0 ->
  wrap w (Z.lor (Z.shiftl a (n mod w)) (Z.shiftr a (w - n mod w))) =
  Nat.iter (Z.to_nat n) (rotl1 w) a.
Proof.
  intros Hn Hk. destruct (rotl_iter w a (Z.to_nat n) Hw Ha) as [Hr Hb].
  rewrite <-(wrap_small w (Nat.iter _ _ _)) by done. apply wrap_bits; [lia|]. intros j Hj.
  rewrite Hb, Z.lor_spec, testbit_shiftl, Z.shiftr_spec by (pose proof (Z.mod_pos_bound n w); lia).
  rewrite Z2Nat.id, <-Zminus_mod_idemp_r by done.
  pose proof (Z.mod_pos_bound n w Hw). set (k := n mod w) in *.
  destruct (Z.leb_spec k j); cbn [andb orb].
  - rewrite (operand_above (j + _)), orb_false_r by lia. by mod_cases w.
  - mod_cases w. f_equal. lia.
Qed.

Lemma ror_code n :
  0 <= n -> n mod w <> 0 ->
  wrap w (Z.lor (Z.shiftr a (n mod w)) (Z.shiftl a (w - n mod w))) =
  Nat.iter (Z.to_nat n) (rotr1 w) a.
Proof.
  intros Hn Hk. destruct (rotr_iter w a (Z.to_nat n) Hw Ha) as [Hr Hb].
  rewrite <-(wrap_small w (Nat.iter _ _ _)) by done. apply wrap_bits; [lia|]. intros j Hj.
  rewrite Hb, Z.lor_spec, testbit_shiftl, Z.shiftr_spec by (pose proof (Z.mod_pos_bound n w); lia).
  rewrite Z2Nat.id, <-Zplus_mod_idemp_r by done.
  pose proof (Z.mod_pos_bound n w Hw). set (k := n mod w) in *.
  destruct (Z.leb_spec (w - k) j); cbn [andb orb].
  - rewrite (operand_above (j + _)) by lia. mod_cases w. cbn [orb]. f_equal. lia.
  - rewrite orb_false_r. by mod_cases w.
Qed.

(** A rotate by a multiple of the width is the identity. *)
Lemma rot_identity n :
  0 <= n -> n mod w = 0 ->
  Nat.iter (Z.to_nat n) (rotl1 w) a = a /\ Nat.iter (Z.to_nat n) (rotr1 w) a = a.
Proof.
  intros Hn Hk. destruct (rotl_iter w a (Z.to_nat n) Hw Ha) as [Hl Hbl].
  destruct (rotr_iter w a (Z.to_nat n) Hw Ha) as [Hr Hbr].
  split; rewrite <-(wrap_small w (Nat.iter _ _ a)) by done;
    (etransitivity; [|apply (wrap_small w a Ha)]); apply wrap_bits; try lia; intros j Hj.
  - rewrite Hbl, Z2Nat.id, <-Zminus_mod_idemp_r, Hk, Z.sub_0_r by done. by mod_cases w.
  - rewrite Hbr, Z2Nat.id, <-Zplus_mod_idemp_r, Hk, Z.add_0_r by done. by mod_cases w.
Qed.

Context (c : bool) (k : Z) (Hk : 1 <= k <= w).

Let v := Z.b2z c * 2 ^ w + a.

Lemma rcl_code :
  wrap w (Z.lor (Z.lor (Z.shiftl a k) (Z.shiftl (Z.b2z c) (k - 1))) (Z.shiftr a (w + 1 - k))) =
  wrap w (Nat.iter (Z.to_nat k) (rotl1 (w + 1)) v).
Proof.
  destruct (rotl_iter (w + 1) v (Z.to_nat k)) as [_ Hb]; [lia|by apply carry_word_range|].
  apply wrap_bits; [lia|]. intros j Hj. rewrite Hb, Z2Nat.id by lia.
  rewrite !Z.lor_spec, (testbit_shiftl a), testbit_b2z_shiftl, Z.shiftr_spec by lia. unfold v.
  destruct (Z.leb_spec k j), (Z.eqb_spec j (k - 1)); try lia; mod_cases (w + 1);
    rewrite testbit_carry_word by lia; zcases.
  - rewrite (operand_above (j + _)), andb_false_r, !orb_false_r by lia. done.
  - rewrite (operand_above (j + _)), andb_true_r, orb_false_r by lia. done.
  - rewrite andb_false_r. cbn [orb]. f_equal. lia.
Qed.
Lemma rcl_carry :
  Z.testbit (Nat.iter (Z.to_nat k) (rotl1 (w + 1)) v) w = Z.testbit a (w - k).
Proof.
  destruct (rotl_iter (w + 1) v (Z.to_nat k)) as [_ Hb]; [lia|by apply carry_word_range|].
  rewrite Hb, Z2Nat.id by lia. mod_cases (w + 1). unfold v.
  rewrite testbit_carry_word by lia. zcases.
Qed.

Lemma rcr_code :
  wrap w (Z.lor (Z.lor (Z.shiftr a k) (Z.shiftl (Z.b2z c) (w - k))) (Z.shiftl a (w + 1 - k))) =
  wrap w (Nat.iter (Z.to_nat k) (rotr1 (w + 1)) v).
Proof.
  destruct (rotr_iter (w + 1) v (Z.to_nat k)) as [_ Hb]; [lia|by apply carry_word_range|].
  apply wrap_bits; [lia|]. intros j Hj. rewrite Hb, Z2Nat.id by lia.
  rewrite !Z.lor_spec, (testbit_shiftl a), testbit_b2z_shiftl, Z.shiftr_spec by lia. unfold v.
  destruct (Z.leb_spec (w + 1 - k) j), (Z.eqb_spec j (w - k)); try lia; mod_cases (w + 1);
    rewrite testbit_carry_word by lia; zcases.
  - rewrite (operand_above (j + k)), andb_false_r by lia. cbn [orb]. f_equal. lia.
  - rewrite (operand_above (j + k)), andb_true_r, orb_false_r by lia. done.
  - rewrite andb_false_r, !orb_false_r. done.
Qed.
Lemma rcr_carry :
  Z.testbit (Nat.iter (Z.to_nat k) (rotr1 (w + 1)) v) w = Z.testbit a (k - 1).
Proof.
  destruct (rotr_iter (w + 1) v (Z.to_nat k)) as [_ Hb]; [lia|by apply carry_word_range|].
  rewrite Hb, Z2Nat.id by lia. mod_cases (w + 1). unfold v.
  rewrite testbit_carry_word by lia. zcases. f_equal. lia.
Qed.

End Codes.

(** *** Shifts *)

Lemma testbit_swrap w a j :
  0 < w -> 0 <= a < 2 ^ w -> 0 <= j ->
  Z.testbit (swrap w a) j = if j <? w then Z.testbit a j else Z.testbit a (w - 1).
Proof.
  intros Hw Ha Hj. destruct (Z.ltb_spec j w).
  - assert (wrap w (swrap w a) = wrap w a) as E by (apply wrap_swrap; lia).
    apply (f_equal (fun z => Z.testbit z j)) in E. rewrite !testbit_wrap in E by lia.
    by rewrite (proj2 (Z.ltb_lt j w)) in E by lia.
  - rewrite testbit_msb, swrap_unsigned by lia. pose proof (pow2_double w Hw).
    assert (2 ^ (w - 1) <= 2 ^ j) by (apply Z.pow_le_mono_r; lia).
    destruct (Z.ltb_spec a (2 ^ (w - 1))), (Z.leb_spec (2 ^ (w - 1)) a); try lia.
    + apply (testbit_above j); lia.
    + replace (a - 2 ^ w) with (Z.lnot (2 ^ w - 1 - a)) by (unfold Z.lnot; lia).
      rewrite Z.lnot_spec, (testbit_above j) by lia. done.
Qed.

Section ShiftCodes.
Context (w a n : Z) (Hw : 0 < w) (Ha : 0 <= a < 2 ^ w) (Hn : 1 <= n).

Lemma shl_beyond : w < n -> wrap w (a * 2 ^ n) = 0 /\ Z.testbit (a * 2 ^ n) w = false.
Proof.
  intros H. rewrite Z.mul_pow2_bits, Z.testbit_neg_r by lia. split; [|done].
  unfold wrap. replace n with (w + (n - w)) by lia. rewrite Z.pow_add_r, Z.mul_assoc by lia.
  rewrite (Z.mul_comm _ (2 ^ (n - w))), Z.mul_assoc. apply Z_mod_mult.
Qed.
Lemma shl_carry : n <= w -> Z.testbit a (w - n) = Z.testbit (a * 2 ^ n) w.
Proof. intros. by rewrite Z.mul_pow2_bits by lia. Qed.

Lemma sar_code :
  n < w ->
  (if nz (Z.land a (2 ^ (w - 1))) then wrap w (Z.lor (Z.shiftr a n) (Z.shiftl (2 ^ w - 1) (w - n)))
   else Z.shiftr a n) = wrap w (swrap w a / 2 ^ n).
Proof.
  intros H. rewrite nz_land_pow2 by lia. rewrite <-(Z.shiftr_div_pow2 (swrap w a)) by lia.
  assert (0 <= Z.shiftr a n < 2 ^ w) as Hr.
  { rewrite Z.shiftr_div_pow2 by lia. split; [apply Z.div_pos; lia|].
    apply Z.le_lt_trans with a; [|lia]. apply Z.div_le_upper_bound; nia. }
  rewrite <-(wrap_small w (Z.shiftr a n)) at 2 by done.
  destruct (Z.testbit a (w - 1)) eqn:E; apply wrap_bits; try lia; intros j Hj;
    rewrite ?Z.lor_spec, ?testbit_shiftl, !Z.shiftr_spec, testbit_swrap, ?E by lia;
    destruct (Z.ltb_spec (j + n) w); try done.
  - replace (w - n <=? j) with false by (symmetry; apply Z.leb_gt; lia). by rewrite orb_false_r.
  - replace (w - n <=? j) with true by (symmetry; apply Z.leb_le; lia).
    replace (2 ^ w - 1) with (Z.ones w) by (rewrite Z.ones_equiv; lia).
    rewrite Z.ones_spec_low by lia. cbn. by rewrite orb_true_r.
  - by rewrite (testbit_above w a) by lia.
Qed.

Lemma sar_beyond :
  w <= n ->
  (if nz (Z.land a (2 ^ (w - 1))) then 2 ^ w - 1 else 0) = wrap w (swrap w a / 2 ^ n) /\
  Z.testbit (swrap w a) (n - 1) = Z.testbit a (w - 1).
Proof.
  intros H. rewrite testbit_swrap by lia. rewrite nz_land_pow2, testbit_msb by lia. split.
  - pose proof (swrap_unsigned w a Hw Ha) as E. pose proof (pow2_double w Hw).
    assert (2 ^ w <= 2 ^ n) by (apply Z.pow_le_mono_r; lia).
    destruct (Z.ltb_spec a (2 ^ (w - 1))), (Z.leb_spec (2 ^ (w - 1)) a); try lia; rewrite E.
    + by rewrite Z.div_small, wrap_small by lia.
    + assert ((a - 2 ^ w) / 2 ^ n = -1) as -> by (symmetry; apply Z.div_unique with (r := a - 2 ^ w + 2 ^ n); lia).
      unfold wrap. apply Z.mod_unique with (q := -1); lia.
  - destruct (Z.ltb_spec (n - 1) w); [|done].
    replace (n - 1) with (w - 1) by lia. by rewrite testbit_msb by lia.
Qed.

Lemma sar_carry : n <= w -> Z.testbit a (n - 1) = Z.testbit (swrap w a) (n - 1).
Proof. intros. rewrite testbit_swrap by lia. by rewrite (proj2 (Z.ltb_lt _ _)) by lia. Qed.

End ShiftCodes.

(** *** Double-precision shifts *)

Section ShiftdCodes.
Context (w a b : Z) (Hw : 0 < w) (Ha : 0 <= a < 2 ^ w) (Hb : 0 <= b < 2 ^ w).

Lemma testbit_pair j : 0 <= j ->
  Z.testbit (a * 2 ^ w + b) j = if j <? w then Z.testbit b j else Z.testbit a (j - w).
Proof.
  intros Hj. rewrite <-lor_shiftl_add, Z.lor_spec, testbit_shiftl by lia.
  destruct (Z.ltb_spec j w), (Z.leb_spec w j); try lia; cbn [andb orb]; [done|].
  by rewrite (testbit_above w b), orb_false_r by lia.
Qed.
Lemma testbit_triple j : 0 <= j ->
  Z.testbit (triple w a b) j =
    if j <? w then Z.testbit a j else if j <? 2 * w then Z.testbit b (j - w)
    else Z.testbit a (j - 2 * w).
Proof.
  intros Hj. unfold triple. rewrite <-lor_shiftl_add, Z.lor_spec, testbit_shiftl by lia.
  destruct (Z.ltb_spec j w), (Z.leb_spec w j); try lia; cbn [andb orb]; [done|].
  rewrite (testbit_above w a), orb_false_r by lia. rewrite testbit_pair by lia.
  destruct (Z.ltb_spec (j - w) w), (Z.ltb_spec j (2 * w)); try lia; [done|]. f_equal. lia.
Qed.

(** The bits of the two reference values. *)
Lemma testbit_shld n j : 0 <= n <= 2 * w -> 0 <= j ->
  Z.testbit (triple w a b * 2 ^ n / 2 ^ (2 * w)) j = Z.testbit (triple w a b) (j + 2 * w - n).
Proof.
  intros. rewrite <-Z.shiftr_div_pow2, <-Z.shiftl_mul_pow2, Z.shiftr_spec, testbit_shiftl by lia.
  by rewrite (proj2 (Z.leb_le _ _)) by lia.
Qed.
Lemma testbit_shrd n j : 0 <= n -> 0 <= j ->
  Z.testbit (triple w a b / 2 ^ n) j = Z.testbit (triple w a b) (j + n).
Proof. intros. by rewrite <-Z.shiftr_div_pow2, Z.shiftr_spec by lia. Qed.

Lemma shld_code n :
  1 <= n < w ->
  wrap w (Z.lor (Z.shiftl a n) (Z.shiftr b (w - n))) = wrap w (triple w a b * 2 ^ n / 2 ^ (2 * w)).
Proof.
  intros Hn. apply wrap_bits; [lia|]. intros j Hj. rewrite testbit_shld, testbit_triple by lia.
  rewrite Z.lor_spec, testbit_shiftl, Z.shiftr_spec by lia. destruct (Z.leb_spec n j); zcases.
  - rewrite (testbit_above w b), orb_false_r by lia. f_equal. lia.
  - f_equal. lia.
Qed.
Lemma shrd_code n :
  1 <= n < w ->
  wrap w (Z.lor (Z.shiftl b (w - n)) (Z.shiftr a n)) = wrap w (triple w a b / 2 ^ n).
Proof.
  intros Hn. apply wrap_bits; [lia|]. intros j Hj. rewrite testbit_shrd, testbit_triple by lia.
  rewrite Z.lor_spec, testbit_shiftl, Z.shiftr_spec by lia. destruct (Z.leb_spec (w - n) j); zcases.
  - rewrite (testbit_above w a), orb_false_r by lia. f_equal. lia.
Qed.

(** Up to the width both say the same. *)
Lemma testbit_low p x j : 0 <= x < 2 ^ w -> w <= j -> Z.testbit (p * 2 ^ w + x) j = Z.testbit p (j - w).
Proof.
  intros Hx Hj. rewrite <-lor_shiftl_add, Z.lor_spec, testbit_shiftl by lia.
  by rewrite (testbit_above w x), orb_false_r, (proj2 (Z.leb_le w j)) by lia.
Qed.
Lemma shiftd_doc left n : 1 <= n <= w -> shiftd_code_value left w a b n = shiftd_value left w a b n.
Proof.
  intros Hn. destruct left; unfold shiftd_code_value, shiftd_value, triple_doc; f_equal; apply wrap_bits; try lia;
    intros j Hj.
  - rewrite testbit_shld, testbit_triple, <-Z.shiftr_div_pow2, <-Z.shiftl_mul_pow2, Z.shiftr_spec, testbit_shiftl by lia.
    rewrite (proj2 (Z.leb_le n _)), testbit_low, testbit_pair by lia. zcases; f_equal; lia.
  - rewrite testbit_shrd, testbit_triple, <-Z.shiftr_div_pow2, Z.shiftr_spec by lia. symmetry.
    rewrite <-lor_shiftl_add, Z.lor_spec, testbit_shiftl by lia. destruct (Z.leb_spec w (j + n)); cbn [andb].
    + rewrite (testbit_above w a), orb_false_r by lia. rewrite <-lor_shiftl_add, Z.lor_spec, testbit_shiftl by lia. zcases.
    + zcases.
Qed.
End ShiftdCodes.

(** The 16-bit versions work on a 32-bit word, and add the first operand again
    when the count exceeds 16. *)
Lemma shld16_code a b n :
  0 <= a < 2 ^ 16 -> 0 <= b < 2 ^ 16 -> 1 <= n < 32 ->
  Z.shiftr (if 16 <? n then
              u32 (Z.lor (u32 (Z.shiftl (Z.lor (Z.shiftl a 16) b) n)) (Z.shiftl a (n - 16)))
            else u32 (Z.shiftl (Z.lor (Z.shiftl a 16) b) n)) 16 =
  u16 (triple 16 a b * 2 ^ n / 2 ^ (2 * 16)).
Proof.
  intros Ha Hb Hn. apply Z.bits_inj'. intros j Hj.
  rewrite lor_shiftl_add by lia. rewrite Z.shiftr_spec, testbit_wrap, testbit_shld, testbit_triple by lia.
  destruct (Z.ltb_spec 16 n); rewrite !testbit_wrap, ?Z.lor_spec, ?testbit_wrap, !testbit_shiftl by lia;
    (destruct (Z.leb_spec n (j + 16)); [rewrite testbit_pair by lia|]);
    (destruct (Z.ltb_spec j 16), (Z.ltb_spec (j + 16) 32); try lia); cbn [andb orb]; try done;
    zcases; rewrite ?(testbit_above 16 a (j + 16 - (n - 16))), ?orb_false_r by lia; try (f_equal; lia).
Qed.
Lemma shrd16_code a b n :
  0 <= a < 2 ^ 16 -> 0 <= b < 2 ^ 16 -> 1 <= n < 32 ->
  u16 (if 16 <? n then
         u32 (Z.lor (Z.shiftr (Z.lor (Z.shiftl b 16) a) n) (Z.shiftl a (32 - n)))
       else Z.shiftr (Z.lor (Z.shiftl b 16) a) n) =
  u16 (triple 16 a b / 2 ^ n).
Proof.
  intros Ha Hb Hn. apply wrap_bits; [lia|]. intros j Hj.
  rewrite lor_shiftl_add, testbit_shrd, testbit_triple by lia.
  destruct (Z.ltb_spec 16 n); rewrite ?testbit_wrap, ?Z.lor_spec, ?Z.shiftr_spec, ?testbit_shiftl,
    testbit_pair by lia; [|zcases].
  rewrite (proj2 (Z.ltb_lt j 32)) by lia. cbn [andb].
  destruct (Z.leb_spec (32 - n) j); zcases; rewrite ?orb_false_r; [|done].
  rewrite (testbit_above 16 b), orb_false_l by lia. f_equal. lia.
Qed.

(** *** Bits as flag values *)

Lemma land_shiftr_1 a k : 0 <= k -> Z.land (Z.shiftr a k) 1 = Z.b2z (Z.testbit a k).
Proof. intros. rewrite land_1, Z.shiftr_spec by lia. by rewrite Z.add_0_l. Qed.
Lemma shiftr_msb w r : 0 < w -> 0 <= r < 2 ^ w -> Z.shiftr r (w - 1) = Z.b2z (Z.testbit r (w - 1)).
Proof.
  intros Hw Hr. rewrite Z.shiftr_div_pow2, testbit_msb by lia. pose proof (pow2_double w Hw).
  destruct (Z.leb_spec (2 ^ (w - 1)) r); cbn.
  - symmetry. apply Z.div_unique with (r := r - 2 ^ (w - 1)); lia.
  - apply Z.div_small. lia.
Qed.
Lemma lxor_b2z a b : Z.lxor (Z.b2z a) (Z.b2z b) = Z.b2z (xorb a b).
Proof. by destruct a, b. Qed.

Lemma left_overflow w r c : 0 < w -> 0 <= r < 2 ^ w ->
  Z.lxor (Z.b2z c) (Z.shiftr r (w - 1)) = Z.b2z (xorb c (Z.testbit r (w - 1))).
Proof. intros. by rewrite shiftr_msb, lxor_b2z by lia. Qed.

(** [((r << 1) ^ r) >> (w - 1)] and its truncations. *)
Lemma right_overflow w r : 1 < w ->
  Z.land (Z.shiftr (Z.lxor (Z.shiftl r 1) r) (w - 1)) 1 =
  Z.b2z (xorb (Z.testbit r (w - 2)) (Z.testbit r (w - 1))).
Proof.
  intros. rewrite land_shiftr_1, Z.lxor_spec, testbit_shiftl by lia.
  rewrite (proj2 (Z.leb_le _ _)) by lia. cbn [andb]. by replace (w - 1 - 1) with (w - 2) by lia.
Qed.
Lemma right_overflow_wrap w r : 1 < w ->
  Z.land (Z.shiftr (wrap w (Z.lxor (Z.shiftl r 1) r)) (w - 1)) 1 =
  Z.b2z (xorb (Z.testbit r (w - 2)) (Z.testbit r (w - 1))).
Proof.
  intros. rewrite <-right_overflow, !land_shiftr_1, testbit_wrap by lia.
  by rewrite (proj2 (Z.ltb_lt _ _)) by lia.
Qed.
Lemma right_overflow_top w r : 1 < w ->
  Z.shiftr (wrap w (Z.lxor (Z.shiftl r 1) r)) (w - 1) =
  Z.b2z (xorb (Z.testbit r (w - 2)) (Z.testbit r (w - 1))).
Proof.
  intros. rewrite <-right_overflow_wrap, land_shiftr_1, shiftr_msb by (try apply wrap_range; lia). done.
Qed.
