(* ===== verification/Shift.v ===== *)
(** * Shifts and rotates: the handlers

    ROL, ROR, RCL, RCR, SHL, SHR, SAR, SHLD and SHRD of cpu/shift8.cc,
    cpu/shift16.cc and cpu/shift32.cc.  Each one implements the reference of
    [ShiftSpec], keeps the state well formed and is precise. *)
From stdpp Require Import base numbers list gmap.
From Stdlib Require Import ZArith Lia.
From S2P Require Import Prelude Machine LazyFlags Memory Paging Access Regs Precise Reference ShiftSpec.

Local Open Scope Z_scope.

(** ** cpu/shift8.cc *)

Definition ROL_Eb (i : bxInstruction_c) : Mach unit :=
  count ← (if i_b1 i =? 0xd2 then CL else mret (Ib i));
  op1_8 ← (if nz (modC0 i) then
      BX_READ_8BIT_REGx (i_rm i)
     else
      eaddr ← resolve i;
      read_RMW_virtual_byte_32 (i_seg i) eaddr);
  if Z.land count 0x07 =? 0 then
    when (nz (Z.land count 0x18)) (
      let bit0 := Z.land op1_8 1 in
      let bit7 := Z.shiftr op1_8 7 in
      SET_FLAGS_OxxxxC (Z.lxor bit0 bit7) bit0)
  else
  let count := Z.land count 0x7 in
  let result_8 := u8 (Z.lor (Z.shiftl op1_8 count) (Z.shiftr op1_8 (u32 (8 - count)))) in
  (if nz (modC0 i) then BX_WRITE_8BIT_REGx (i_rm i) result_8
   else write_RMW_virtual_byte result_8);;
  let bit0 := Z.land result_8 1 in
  let bit7 := Z.shiftr result_8 7 in
  SET_FLAGS_OxxxxC (Z.lxor bit0 bit7) bit0.

Definition ROR_Eb (i : bxInstruction_c) : Mach unit :=
  count ← (if i_b1 i =? 0xd2 then CL else mret (Ib i));
  op1_8 ← (if nz (modC0 i) then
      BX_READ_8BIT_REGx (i_rm i)
     else
      eaddr ← resolve i;
      read_RMW_virtual_byte_32 (i_seg i) eaddr);
  if Z.land count 0x07 =? 0 then
    when (nz (Z.land count 0x18)) (
      let bit6 := Z.land (Z.shiftr op1_8 6) 1 in
      let bit7 := Z.land (Z.shiftr op1_8 7) 1 in
      SET_FLAGS_OxxxxC (Z.lxor bit6 bit7) bit7)
  else
  let count := Z.land count 0x7 in
  let result_8 := u8 (Z.lor (Z.shiftr op1_8 count) (Z.shiftl op1_8 (u32 (8 - count)))) in
  (if nz (modC0 i) then BX_WRITE_8BIT_REGx (i_rm i) result_8
   else write_RMW_virtual_byte result_8);;
  let bit6 := Z.land (Z.shiftr result_8 6) 1 in
  let bit7 := Z.land (Z.shiftr result_8 7) 1 in
  SET_FLAGS_OxxxxC (Z.lxor bit6 bit7) bit7.

Definition RCL_Eb (i : bxInstruction_c) : Mach unit :=
  count ← (if i_b1 i =? 0xd2 then CL else mret (Ib i));
  op1_8 ← (if nz (modC0 i) then
      BX_READ_8BIT_REGx (i_rm i)
     else
      eaddr ← resolve i;
      read_RMW_virtual_byte_32 (i_seg i) eaddr);
  let count := (Z.land count 0x1f) mod 9 in
  if negb (nz count) then
    mret tt
  else
  result_8 ← (if count =? 1 then
      cf_ ← gets (getB_flag CF);
      mret (u8 (Z.lor (Z.shiftl op1_8 1) cf_))
     else
      cf_ ← gets (getB_flag CF);
      mret (u8 (Z.lor (Z.lor (Z.shiftl op1_8 count) (Z.shiftl cf_ (u32 (count - 1))))
          (Z.shiftr op1_8 (u32 (9 - count))))));
  (if nz (modC0 i) then BX_WRITE_8BIT_REGx (i_rm i) result_8
   else write_RMW_virtual_byte result_8);;
  let cf := Z.land (Z.shiftr op1_8 (u32 (8 - count))) 0x01 in
  let of_ := Z.lxor cf (Z.shiftr result_8 7) in
  SET_FLAGS_OxxxxC of_ cf.

Definition RCR_Eb (i : bxInstruction_c) : Mach unit :=
  count ← (if i_b1 i =? 0xd2 then CL else mret (Ib i));
  op1_8 ← (if nz (modC0 i) then
      BX_READ_8BIT_REGx (i_rm i)
     else
      eaddr ← resolve i;
      read_RMW_virtual_byte_32 (i_seg i) eaddr);
  let count := (Z.land count 0x1f) mod 9 in
  if negb (nz count) then
    mret tt
  else
  cf_ ← gets (getB_flag CF);
  let result_8 := u8 (Z.lor (Z.lor (Z.shiftr op1_8 count) (Z.shiftl cf_ (u32 (8 - count))))
      (Z.shiftl op1_8 (u32 (9 - count)))) in
  (if nz (modC0 i) then BX_WRITE_8BIT_REGx (i_rm i) result_8
   else write_RMW_virtual_byte result_8);;
  let cf := Z.land (Z.shiftr op1_8 (u32 (count - 1))) 0x1 in
  let of_ := Z.land (Z.shiftr (Z.lxor (Z.shiftl result_8 1) result_8) 7) 0x1 in
  SET_FLAGS_OxxxxC of_ cf.

Definition SHL_Eb (i : bxInstruction_c) : Mach unit :=
  let of_ := 0 in
  let cf := 0 in
  count ← (if i_b1 i =? 0xd2 then CL else mret (Ib i));
  let count := Z.land count 0x1f in
  op1_8 ← (if nz (modC0 i) then
      BX_READ_8BIT_REGx (i_rm i)
     else
      eaddr ← resolve i;
      read_RMW_virtual_byte_32 (i_seg i) eaddr);
  if negb (nz count) then
    mret tt
  else
  '(result_8, cf, of_) ← (if count <=? 8 then
      let result_8 := u8 (Z.shiftl op1_8 count) in
      let cf := Z.land (Z.shiftr op1_8 (u32 (8 - count))) 0x1 in
      let of_ := Z.lxor cf (Z.shiftr result_8 7) in
      mret (result_8, cf, of_)
     else
      let result_8 := 0 in
      mret (result_8, cf, of_));
  (if nz (modC0 i) then BX_WRITE_8BIT_REGx (i_rm i) result_8
   else write_RMW_virtual_byte result_8);;
  SET_FLAGS_OSZAPC_LOGIC_8 result_8;;
  SET_FLAGS_OxxxxC of_ cf.

Definition SHR_Eb (i : bxInstruction_c) : Mach unit :=
  count ← (if i_b1 i =? 0xd2 then CL else mret (Ib i));
  let count := Z.land count 0x1f in
  op1_8 ← (if nz (modC0 i) then
      BX_READ_8BIT_REGx (i_rm i)
     else
      eaddr ← resolve i;
      read_RMW_virtual_byte_32 (i_seg i) eaddr);
  if negb (nz count) then
    mret tt
  else
  let result_8 := Z.shiftr op1_8 count in
  (if nz (modC0 i) then BX_WRITE_8BIT_REGx (i_rm i) result_8
   else write_RMW_virtual_byte result_8);;
  let cf := Z.land (Z.shiftr op1_8 (u32 (count - 1))) 0x1 in
  let of_ := Z.land (Z.shiftr (Z.lxor (Z.shiftl result_8 1) result_8) 7) 0x1 in
  SET_FLAGS_OSZAPC_LOGIC_8 result_8;;
  SET_FLAGS_OxxxxC of_ cf.

Definition SAR_Eb (i : bxInstruction_c) : Mach unit :=
  count ← (if i_b1 i =? 0xd2 then CL else mret (Ib i));
  let count := Z.land count 0x1f in
  op1_8 ← (if nz (modC0 i) then
      BX_READ_8BIT_REGx (i_rm i)
     else
      eaddr ← resolve i;
      read_RMW_virtual_byte_32 (i_seg i) eaddr);
  if negb (nz count) then
    mret tt
  else
  '(result_8, cf) ← (if count <? 8 then
      let result_8 := if nz (Z.land op1_8 0x80) then
          u8 (Z.lor (Z.shiftr op1_8 count) (Z.shiftl 0xff (u32 (8 - count))))
        else Z.shiftr op1_8 count in
      let cf := Z.land (Z.shiftr op1_8 (u32 (count - 1))) 0x1 in
      mret (result_8, cf)
     else
      let result_8 := if nz (Z.land op1_8 0x80) then 0xff else 0 in
      let cf := Z.land result_8 0x1 in
      mret (result_8, cf));
  SET_FLAGS_OSZAPC_LOGIC_8 result_8;;
  SET_FLAGS_OxxxxC 0 cf;;
  if nz (modC0 i) then BX_WRITE_8BIT_REGx (i_rm i) result_8
  else write_RMW_virtual_byte result_8.


(** ** cpu/shift16.cc *)

Definition SHLD_EwGwM (i : bxInstruction_c) : Mach unit :=
  count ← (if i_b1 i =? 0xa4 then mret (Ib i) else CL);
  let count := Z.land count 0x1f in
  eaddr ← resolve i;
  op1_16 ← read_RMW_virtual_word_32 (i_seg i) eaddr;
  if negb (nz count) then
    mret tt
  else
  op2_16 ← BX_READ_16BIT_REG (i_nnn i);
  let temp_32 := Z.lor (Z.shiftl op1_16 16) op2_16 in
  let result_32 := u32 (Z.shiftl temp_32 count) in
  let result_32 := if 16 <? count then
      u32 (Z.lor result_32 (Z.shiftl op1_16 (u32 (count - 16))))
    else result_32 in
  let result_16 := Z.shiftr result_32 16 in
  write_RMW_virtual_word result_16;;
  SET_FLAGS_OSZAPC_LOGIC_16 result_16;;
  let cf := Z.land (Z.shiftr temp_32 (u32 (32 - count))) 0x1 in
  let of_ := Z.lxor cf (Z.shiftr result_16 15) in
  SET_FLAGS_OxxxxC of_ cf.

Definition SHLD_EwGwR (i : bxInstruction_c) : Mach unit :=
  count ← (if i_b1 i =? 0xa4 then mret (Ib i) else CL);
  let count := Z.land count 0x1f in
  if negb (nz count) then
    mret tt
  else
  op1_16 ← BX_READ_16BIT_REG (i_rm i);
  op2_16 ← BX_READ_16BIT_REG (i_nnn i);
  let temp_32 := Z.lor (Z.shiftl op1_16 16) op2_16 in
  let result_32 := u32 (Z.shiftl temp_32 count) in
  let result_32 := if 16 <? count then
      u32 (Z.lor result_32 (Z.shiftl op1_16 (u32 (count - 16))))
    else result_32 in
  let result_16 := Z.shiftr result_32 16 in
  BX_WRITE_16BIT_REG (i_rm i) result_16;;
  SET_FLAGS_OSZAPC_LOGIC_16 result_16;;
  let cf := Z.land (Z.shiftr temp_32 (u32 (32 - count))) 0x1 in
  let of_ := Z.lxor cf (Z.shiftr result_16 15) in
  SET_FLAGS_OxxxxC of_ cf.

Definition SHRD_EwGwM (i : bxInstruction_c) : Mach unit :=
  count ← (if i_b1 i =? 0xac then mret (Ib i) else CL);
  let count := Z.land count 0x1f in
  eaddr ← resolve i;
  op1_16 ← read_RMW_virtual_word_32 (i_seg i) eaddr;
  if negb (nz count) then
    mret tt
  else
  op2_16 ← BX_READ_16BIT_REG (i_nnn i);
  let temp_32 := Z.lor (Z.shiftl op2_16 16) op1_16 in
  let result_32 := Z.shiftr temp_32 count in
  let result_32 := if 16 <? count then
      u32 (Z.lor result_32 (Z.shiftl op1_16 (u32 (32 - count))))
    else result_32 in
  let result_16 := u16 result_32 in
  write_RMW_virtual_word result_16;;
  SET_FLAGS_OSZAPC_LOGIC_16 result_16;;
  let cf := Z.land (Z.shiftr op1_16 (u32 (count - 1))) 0x1 in
  let of_ := Z.land (Z.shiftr (u16 (Z.lxor (Z.shiftl result_16 1) result_16)) 15) 0x1 in
  SET_FLAGS_OxxxxC of_ cf.

Definition SHRD_EwGwR (i : bxInstruction_c) : Mach unit :=
  count ← (if i_b1 i =? 0xac then mret (Ib i) else CL);
  let count := Z.land count 0x1f in
  if negb (nz count) then
    mret tt
  else
  op1_16 ← BX_READ_16BIT_REG (i_rm i);
  op2_16 ← BX_READ_16BIT_REG (i_nnn i);
  let temp_32 := Z.lor (Z.shiftl op2_16 16) op1_16 in
  let result_32 := Z.shiftr temp_32 count in
  let result_32 := if 16 <? count then
      u32 (Z.lor result_32 (Z.shiftl op1_16 (u32 (32 - count))))
    else result_32 in
  let result_16 := u16 result_32 in
  BX_WRITE_16BIT_REG (i_rm i) result_16;;
  SET_FLAGS_OSZAPC_LOGIC_16 result_16;;
  let cf := Z.land (Z.shiftr op1_16 (u32 (count - 1))) 0x1 in
  let of_ := Z.land (Z.shiftr (u16 (Z.lxor (Z.shiftl result_16 1) result_16)) 15) 0x1 in
  SET_FLAGS_OxxxxC of_ cf.

Definition ROL_Ew (i : bxInstruction_c) : Mach unit :=
  count ← (if i_b1 i =? 0xd3 then CL else mret (Ib i));
  op1_16 ← (if nz (modC0 i) then
      BX_READ_16BIT_REG (i_rm i)
     else
      eaddr ← resolve i;
      read_RMW_virtual_word_32 (i_seg i) eaddr);
  if Z.land count 0x0f =? 0 then
    when (nz (Z.land count 0x10)) (
      let bit0 := Z.land op1_16 0x1 in
      let bit15 := Z.shiftr op1_16 15 in
      SET_FLAGS_OxxxxC (Z.lxor bit0 bit15) bit0)
  else
  let count := Z.land count 0x0f in
  let result_16 := u16 (Z.lor (Z.shiftl op1_16 count) (Z.shiftr op1_16 (u32 (16 - count)))) in
  (if nz (modC0 i) then BX_WRITE_16BIT_REG (i_rm i) result_16
   else write_RMW_virtual_word result_16);;
  let bit0 := Z.land result_16 0x1 in
  let bit15 := Z.shiftr result_16 15 in
  SET_FLAGS_OxxxxC (Z.lxor bit0 bit15) bit0.

Definition ROR_Ew (i : bxInstruction_c) : Mach unit :=
  count ← (if i_b1 i =? 0xd3 then CL else mret (Ib i));
  op1_16 ← (if nz (modC0 i) then
      BX_READ_16BIT_REG (i_rm i)
     else
      eaddr ← resolve i;
      read_RMW_virtual_word_32 (i_seg i) eaddr);
  if Z.land count 0x0f =? 0 then
    when (nz (Z.land count 0x10)) (
      let bit14 := Z.land (Z.shiftr op1_16 14) 1 in
      let bit15 := Z.land (Z.shiftr op1_16 15) 1 in
      SET_FLAGS_OxxxxC (Z.lxor bit14 bit15) bit15)
  else
  let count := Z.land count 0x0f in
  let result_16 := u16 (Z.lor (Z.shiftr op1_16 count) (Z.shiftl op1_16 (u32 (16 - count)))) in
  (if nz (modC0 i) then BX_WRITE_16BIT_REG (i_rm i) result_16
   else write_RMW_virtual_word result_16);;
  let bit14 := Z.land (Z.shiftr result_16 14) 1 in
  let bit15 := Z.land (Z.shiftr result_16 15) 1 in
  SET_FLAGS_OxxxxC (Z.lxor bit14 bit15) bit15.

Definition RCL_Ew (i : bxInstruction_c) : Mach unit :=
  count ← (if i_b1 i =? 0xd3 then CL else mret (Ib i));
  let count := (Z.land count 0x1f) mod 17 in
  op1_16 ← (if nz (modC0 i) then
      BX_READ_16BIT_REG (i_rm i)
     else
      eaddr ← resolve i;
      read_RMW_virtual_word_32 (i_seg i) eaddr);
  if negb (nz count) then
    mret tt
  else
  result_16 ← (if count =? 1 then
      cf_ ← gets (getB_flag CF);
      mret (u16 (Z.lor (Z.shiftl op1_16 1) cf_))
     else
      result_16 ← (if count =? 16 then
          cf_ ← gets (getB_flag CF);
          mret (u16 (Z.lor (Z.shiftl cf_ 15) (Z.shiftr op1_16 1)))
         else
          cf_ ← gets (getB_flag CF);
          mret (u16 (Z.lor (Z.lor (Z.shiftl op1_16 count) (Z.shiftl cf_ (u32 (count - 1))))
              (Z.shiftr op1_16 (u32 (17 - count))))));
      mret result_16);
  (if nz (modC0 i) then BX_WRITE_16BIT_REG (i_rm i) result_16
   else write_RMW_virtual_word result_16);;
  let cf := Z.land (Z.shiftr op1_16 (u32 (16 - count))) 0x1 in
  let of_ := Z.lxor cf (Z.shiftr result_16 15) in
  SET_FLAGS_OxxxxC of_ cf.

Definition RCR_Ew (i : bxInstruction_c) : Mach unit :=
  count ← (if i_b1 i =? 0xd3 then CL else mret (Ib i));
  let count := (Z.land count 0x1f) mod 17 in
  op1_16 ← (if nz (modC0 i) then
      BX_READ_16BIT_REG (i_rm i)
     else
      eaddr ← resolve i;
      read_RMW_virtual_word_32 (i_seg i) eaddr);
  if negb (nz count) then
    mret tt
  else
  cf_ ← gets (getB_flag CF);
  let result_16 := u16 (Z.lor (Z.lor (Z.shiftr op1_16 count) (Z.shiftl cf_ (u32 (16 - count))))
      (Z.shiftl op1_16 (u32 (17 - count)))) in
  (if nz (modC0 i) then BX_WRITE_16BIT_REG (i_rm i) result_16
   else write_RMW_virtual_word result_16);;
  let cf := Z.land (Z.shiftr op1_16 (u32 (count - 1))) 0x1 in
  let of_ := Z.land (Z.shiftr (u16 (Z.lxor (Z.shiftl result_16 1) result_16)) 15) 0x1 in
  SET_FLAGS_OxxxxC of_ cf.

Definition SHL_Ew (i : bxInstruction_c) : Mach unit :=
  let of_ := 0 in
  let cf := 0 in
  count ← (if i_b1 i =? 0xd3 then CL else mret (Ib i));
  let count := Z.land count 0x1f in
  op1_16 ← (if nz (modC0 i) then
      BX_READ_16BIT_REG (i_rm i)
     else
      eaddr ← resolve i;
      read_RMW_virtual_word_32 (i_seg i) eaddr);
  if negb (nz count) then
    mret tt
  else
  '(result_16, cf, of_) ← (if count <=? 16 then
      let result_16 := u16 (Z.shiftl op1_16 count) in
      let cf := Z.land (Z.shiftr op1_16 (u32 (16 - count))) 0x1 in
      let of_ := Z.lxor cf (Z.shiftr result_16 15) in
      mret (result_16, cf, of_)
     else
      let result_16 := 0 in
      mret (result_16, cf, of_));
  (if nz (modC0 i) then BX_WRITE_16BIT_REG (i_rm i) result_16
   else write_RMW_virtual_word result_16);;
  SET_FLAGS_OSZAPC_LOGIC_16 result_16;;
  SET_FLAGS_OxxxxC of_ cf.

Definition SHR_Ew (i : bxInstruction_c) : Mach unit :=
  count ← (if i_b1 i =? 0xd3 then CL else mret (Ib i));
  let count := Z.land count 0x1f in
  op1_16 ← (if nz (modC0 i) then
      BX_READ_16BIT_REG (i_rm i)
     else
      eaddr ← resolve i;
      read_RMW_virtual_word_32 (i_seg i) eaddr);
  if negb (nz count) then
    mret tt
  else
  let result_16 := Z.shiftr op1_16 count in
  (if nz (modC0 i) then BX_WRITE_16BIT_REG (i_rm i) result_16
   else write_RMW_virtual_word result_16);;
  let cf := Z.land (Z.shiftr op1_16 (u32 (count - 1))) 0x1 in
  let of_ := Z.land (Z.shiftr (u16 (Z.lxor (Z.shiftl result_16 1) result_16)) 15) 0x1 in
  SET_FLAGS_OSZAPC_LOGIC_16 result_16;;
  SET_FLAGS_OxxxxC of_ cf.

Definition SAR_Ew (i : bxInstruction_c) : Mach unit :=
  count ← (if i_b1 i =? 0xd3 then CL else mret (Ib i));
  let count := Z.land count 0x1f in
  op1_16 ← (if nz (modC0 i) then
      BX_READ_16BIT_REG (i_rm i)
     else
      eaddr ← resolve i;
      read_RMW_virtual_word_32 (i_seg i) eaddr);
  if negb (nz count) then
    mret tt
  else
  '(result_16, cf) ← (if count <? 16 then
      let result_16 := if nz (Z.land op1_16 0x8000) then
          u16 (Z.lor (Z.shiftr op1_16 count) (Z.shiftl 0xffff (u32 (16 - count))))
        else Z.shiftr op1_16 count in
      let cf := Z.land (Z.shiftr op1_16 (u32 (count - 1))) 0x1 in
      mret (result_16, cf)
     else
      let result_16 := if nz (Z.land op1_16 0x8000) then 0xffff else 0 in
      let cf := Z.land result_16 0x1 in
      mret (result_16, cf));
  SET_FLAGS_OSZAPC_LOGIC_16 result_16;;
  SET_FLAGS_OxxxxC 0 cf;;
  if nz (modC0 i) then BX_WRITE_16BIT_REG (i_rm i) result_16
  else write_RMW_virtual_word result_16.


(** ** cpu/shift32.cc *)

Definition SHLD_EdGdM (i : bxInstruction_c) : Mach unit :=
  eaddr ← resolve i;
  op1_32 ← read_RMW_virtual_dword_32 (i_seg i) eaddr;
  count ← (if i_b1 i =? 0xa4 then mret (Ib i) else CL);
  let count := Z.land count 0x1f in
  if negb (nz count) then
    mret tt
  else
  op2_32 ← BX_READ_32BIT_REG (i_nnn i);
  let result_32 := u32 (Z.lor (Z.shiftl op1_32 count) (Z.shiftr op2_32 (u32 (32 - count)))) in
  write_RMW_virtual_dword result_32;;
  SET_FLAGS_OSZAPC_LOGIC_32 result_32;;
  let cf := Z.land (Z.shiftr op1_32 (u32 (32 - count))) 0x1 in
  let of_ := Z.lxor cf (Z.shiftr result_32 31) in
  SET_FLAGS_OxxxxC of_ cf.

Definition SHLD_EdGdR (i : bxInstruction_c) : Mach unit :=
  count ← (if i_b1 i =? 0xa4 then mret (Ib i) else CL);
  let count := Z.land count 0x1f in
  if negb (nz count) then
    mret tt
  else
  op1_32 ← BX_READ_32BIT_REG (i_rm i);
  op2_32 ← BX_READ_32BIT_REG (i_nnn i);
  let result_32 := u32 (Z.lor (Z.shiftl op1_32 count) (Z.shiftr op2_32 (u32 (32 - count)))) in
  BX_WRITE_32BIT_REGZ (i_rm i) result_32;;
  SET_FLAGS_OSZAPC_LOGIC_32 result_32;;
  let cf := Z.land (Z.shiftr op1_32 (u32 (32 - count))) 0x1 in
  let of_ := Z.lxor cf (Z.shiftr result_32 31) in
  SET_FLAGS_OxxxxC of_ cf.

Definition SHRD_EdGdM (i : bxInstruction_c) : Mach unit :=
  eaddr ← resolve i;
  op1_32 ← read_RMW_virtual_dword_32 (i_seg i) eaddr;
  count ← (if i_b1 i =? 0xac then mret (Ib i) else CL);
  let count := Z.land count 0x1f in
  if negb (nz count) then
    mret tt
  else
  op2_32 ← BX_READ_32BIT_REG (i_nnn i);
  let result_32 := u32 (Z.lor (Z.shiftl op2_32 (u32 (32 - count))) (Z.shiftr op1_32 count)) in
  write_RMW_virtual_dword result_32;;
  SET_FLAGS_OSZAPC_LOGIC_32 result_32;;
  let cf := Z.land (Z.shiftr op1_32 (u32 (count - 1))) 0x1 in
  let of_ := Z.shiftr (u32 (Z.lxor (Z.shiftl result_32 1) result_32)) 31 in
  SET_FLAGS_OxxxxC of_ cf.

Definition SHRD_EdGdR (i : bxInstruction_c) : Mach unit :=
  count ← (if i_b1 i =? 0xac then mret (Ib i) else CL);
  let count := Z.land count 0x1f in
  if negb (nz count) then
    mret tt
  else
  op1_32 ← BX_READ_32BIT_REG (i_rm i);
  op2_32 ← BX_READ_32BIT_REG (i_nnn i);
  let result_32 := u32 (Z.lor (Z.shiftl op2_32 (u32 (32 - count))) (Z.shiftr op1_32 count)) in
  BX_WRITE_32BIT_REGZ (i_rm i) result_32;;
  SET_FLAGS_OSZAPC_LOGIC_32 result_32;;
  let cf := Z.land (Z.shiftr op1_32 (u32 (count - 1))) 0x1 in
  let of_ := Z.shiftr (u32 (Z.lxor (Z.shiftl result_32 1) result_32)) 31 in
  SET_FLAGS_OxxxxC of_ cf.

Definition ROL_EdM (i : bxInstruction_c) : Mach unit :=
  eaddr ← resolve i;
  op1_32 ← read_RMW_virtual_dword_32 (i_seg i) eaddr;
  count ← (if i_b1 i =? 0xd3 then CL else mret (Ib i));
  let count := Z.land count 0x1f in
  if negb (nz count) then
    mret tt
  else
  let result_32 := u32 (Z.lor (Z.shiftl op1_32 count) (Z.shiftr op1_32 (u32 (32 - count)))) in
  write_RMW_virtual_dword result_32;;
  let bit0 := Z.land result_32 0x1 in
  let bit31 := Z.shiftr result_32 31 in
  SET_FLAGS_OxxxxC (Z.lxor bit0 bit31) bit0.

Definition ROL_EdR (i : bxInstruction_c) : Mach unit :=
  count ← (if i_b1 i =? 0xd3 then CL else mret (Ib i));
  let count := Z.land count 0x1f in
  if negb (nz count) then
    mret tt
  else
  op1_32 ← BX_READ_32BIT_REG (i_rm i);
  let result_32 := u32 (Z.lor (Z.shiftl op1_32 count) (Z.shiftr op1_32 (u32 (32 - count)))) in
  BX_WRITE_32BIT_REGZ (i_rm i) result_32;;
  let bit0 := Z.land result_32 0x1 in
  let bit31 := Z.shiftr result_32 31 in
  SET_FLAGS_OxxxxC (Z.lxor bit0 bit31) bit0.

Definition ROR_EdM (i : bxInstruction_c) : Mach unit :=
  eaddr ← resolve i;
  op1_32 ← read_RMW_virtual_dword_32 (i_seg i) eaddr;
  count ← (if i_b1 i =? 0xd3 then CL else mret (Ib i));
  let count := Z.land count 0x1f in
  if negb (nz count) then
    mret tt
  else
  let result_32 := u32 (Z.lor (Z.shiftr op1_32 count) (Z.shiftl op1_32 (u32 (32 - count)))) in
  write_RMW_virtual_dword result_32;;
  let bit31 := Z.land (Z.shiftr result_32 31) 1 in
  let bit30 := Z.land (Z.shiftr result_32 30) 1 in
  SET_FLAGS_OxxxxC (Z.lxor bit30 bit31) bit31.

Definition ROR_EdR (i : bxInstruction_c) : Mach unit :=
  count ← (if i_b1 i =? 0xd3 then CL else mret (Ib i));
  let count := Z.land count 0x1f in
  if negb (nz count) then
    mret tt
  else
  op1_32 ← BX_READ_32BIT_REG (i_rm i);
  let result_32 := u32 (Z.lor (Z.shiftr op1_32 count) (Z.shiftl op1_32 (u32 (32 - count)))) in
  BX_WRITE_32BIT_REGZ (i_rm i) result_32;;
  let bit31 := Z.land (Z.shiftr result_32 31) 1 in
  let bit30 := Z.land (Z.shiftr result_32 30) 1 in
  SET_FLAGS_OxxxxC (Z.lxor bit30 bit31) bit31.

Definition RCL_EdM (i : bxInstruction_c) : Mach unit :=
  eaddr ← resolve i;
  op1_32 ← read_RMW_virtual_dword_32 (i_seg i) eaddr;
  count ← (if i_b1 i =? 0xd3 then CL else mret (Ib i));
  let count := Z.land count 0x1f in
  if negb (nz count) then
    mret tt
  else
  result_32 ← (if count =? 1 then
      cf_ ← gets (getB_flag CF);
      mret (u32 (Z.lor (Z.shiftl op1_32 1) cf_))
     else
      cf_ ← gets (getB_flag CF);
      mret (u32 (Z.lor (Z.lor (Z.shiftl op1_32 count) (Z.shiftl cf_ (u32 (count - 1))))
          (Z.shiftr op1_32 (u32 (33 - count))))));
  write_RMW_virtual_dword result_32;;
  let cf := Z.land (Z.shiftr op1_32 (u32 (32 - count))) 0x1 in
  let of_ := Z.lxor cf (Z.shiftr result_32 31) in
  SET_FLAGS_OxxxxC of_ cf.

Definition RCL_EdR (i : bxInstruction_c) : Mach unit :=
  count ← (if i_b1 i =? 0xd3 then CL else mret (Ib i));
  let count := Z.land count 0x1f in
  if negb (nz count) then
    mret tt
  else
  op1_32 ← BX_READ_32BIT_REG (i_rm i);
  result_32 ← (if count =? 1 then
      cf_ ← gets (getB_flag CF);
      mret (u32 (Z.lor (Z.shiftl op1_32 1) cf_))
     else
      cf_ ← gets (getB_flag CF);
      mret (u32 (Z.lor (Z.lor (Z.shiftl op1_32 count) (Z.shiftl cf_ (u32 (count - 1))))
          (Z.shiftr op1_32 (u32 (33 - count))))));
  BX_WRITE_32BIT_REGZ (i_rm i) result_32;;
  let cf := Z.land (Z.shiftr op1_32 (u32 (32 - count))) 0x1 in
  let of_ := Z.lxor cf (Z.shiftr result_32 31) in
  SET_FLAGS_OxxxxC of_ cf.

Definition RCR_EdM (i : bxInstruction_c) : Mach unit :=
  eaddr ← resolve i;
  op1_32 ← read_RMW_virtual_dword_32 (i_seg i) eaddr;
  count ← (if i_b1 i =? 0xd3 then CL else mret (Ib i));
  let count := Z.land count 0x1f in
  if negb (nz count) then
    mret tt
  else
  result_32 ← (if count =? 1 then
      cf_ ← gets (getB_flag CF);
      mret (u32 (Z.lor (Z.shiftr op1_32 1) (Z.shiftl cf_ 31)))
     else
      cf_ ← gets (getB_flag CF);
      mret (u32 (Z.lor (Z.lor (Z.shiftr op1_32 count) (Z.shiftl cf_ (u32 (32 - count))))
          (Z.shiftl op1_32 (u32 (33 - count))))));
  write_RMW_virtual_dword result_32;;
  let cf := Z.land (Z.shiftr op1_32 (u32 (count - 1))) 0x1 in
  let of_ := Z.shiftr (u32 (Z.lxor (Z.shiftl result_32 1) result_32)) 31 in
  SET_FLAGS_OxxxxC of_ cf.

Definition RCR_EdR (i : bxInstruction_c) : Mach unit :=
  count ← (if i_b1 i =? 0xd3 then CL else mret (Ib i));
  let count := Z.land count 0x1f in
  if negb (nz count) then
    mret tt
  else
  op1_32 ← BX_READ_32BIT_REG (i_rm i);
  result_32 ← (if count =? 1 then
      cf_ ← gets (getB_flag CF);
      mret (u32 (Z.lor (Z.shiftr op1_32 1) (Z.shiftl cf_ 31)))
     else
      cf_ ← gets (getB_flag CF);
      mret (u32 (Z.lor (Z.lor (Z.shiftr op1_32 count) (Z.shiftl cf_ (u32 (32 - count))))
          (Z.shiftl op1_32 (u32 (33 - count))))));
  BX_WRITE_32BIT_REGZ (i_rm i) result_32;;
  let cf := Z.land (Z.shiftr op1_32 (u32 (count - 1))) 0x1 in
  let of_ := Z.shiftr (u32 (Z.lxor (Z.shiftl result_32 1) result_32)) 31 in
  SET_FLAGS_OxxxxC of_ cf.

Definition SHL_EdM (i : bxInstruction_c) : Mach unit :=
  eaddr ← resolve i;
  op1_32 ← read_RMW_virtual_dword_32 (i_seg i) eaddr;
  count ← (if i_b1 i =? 0xd3 then CL else mret (Ib i));
  let count := Z.land count 0x1f in
  if negb (nz count) then
    mret tt
  else
  let result_32 := u32 (Z.shiftl op1_32 count) in
  write_RMW_virtual_dword result_32;;
  let cf := Z.land (Z.shiftr op1_32 (u32 (32 - count))) 0x1 in
  let of_ := Z.lxor cf (Z.shiftr result_32 31) in
  SET_FLAGS_OSZAPC_LOGIC_32 result_32;;
  SET_FLAGS_OxxxxC of_ cf.

Definition SHL_EdR (i : bxInstruction_c) : Mach unit :=
  count ← (if i_b1 i =? 0xd3 then CL else mret (Ib i));
  let count := Z.land count 0x1f in
  if negb (nz count) then
    mret tt
  else
  op1_32 ← BX_READ_32BIT_REG (i_rm i);
  let result_32 := u32 (Z.shiftl op1_32 count) in
  let cf := Z.land (Z.shiftr op1_32 (u32 (32 - count))) 0x1 in
  let of_ := Z.lxor cf (Z.shiftr result_32 31) in
  BX_WRITE_32BIT_REGZ (i_rm i) result_32;;
  SET_FLAGS_OSZAPC_LOGIC_32 result_32;;
  SET_FLAGS_OxxxxC of_ cf.

Definition SHR_EdM (i : bxInstruction_c) : Mach unit :=
  eaddr ← resolve i;
  op1_32 ← read_RMW_virtual_dword_32 (i_seg i) eaddr;
  count ← (if i_b1 i =? 0xd3 then CL else mret (Ib i));
  let count := Z.land count 0x1f in
  if negb (nz count) then
    mret tt
  else
  let result_32 := Z.shiftr op1_32 count in
  write_RMW_virtual_dword result_32;;
  let cf := Z.land (Z.shiftr op1_32 (u32 (count - 1))) 0x1 in
  let of_ := Z.shiftr (u32 (Z.lxor (Z.shiftl result_32 1) result_32)) 31 in
  SET_FLAGS_OSZAPC_LOGIC_32 result_32;;
  SET_FLAGS_OxxxxC of_ cf.

Definition SHR_EdR (i : bxInstruction_c) : Mach unit :=
  count ← (if i_b1 i =? 0xd3 then CL else mret (Ib i));
  let count := Z.land count 0x1f in
  if negb (nz count) then
    mret tt
  else
  op1_32 ← BX_READ_32BIT_REG (i_rm i);
  let result_32 := Z.shiftr op1_32 count in
  BX_WRITE_32BIT_REGZ (i_rm i) result_32;;
  let cf := Z.land (Z.shiftr op1_32 (u32 (count - 1))) 0x1 in
  let of_ := Z.shiftr (u32 (Z.lxor (Z.shiftl result_32 1) result_32)) 31 in
  SET_FLAGS_OSZAPC_LOGIC_32 result_32;;
  SET_FLAGS_OxxxxC of_ cf.

Definition SAR_EdM (i : bxInstruction_c) : Mach unit :=
  eaddr ← resolve i;
  op1_32 ← read_RMW_virtual_dword_32 (i_seg i) eaddr;
  count ← (if i_b1 i =? 0xd3 then CL else mret (Ib i));
  let count := Z.land count 0x1f in
  if negb (nz count) then
    mret tt
  else
  let result_32 := if nz (Z.land op1_32 0x80000000) then
      u32 (Z.lor (Z.shiftr op1_32 count) (Z.shiftl 0xffffffff (u32 (32 - count))))
    else Z.shiftr op1_32 count in
  write_RMW_virtual_dword result_32;;
  SET_FLAGS_OSZAPC_LOGIC_32 result_32;;
  set_flag CF (Z.land (Z.shiftr op1_32 (u32 (count - 1))) 1);;
  clear_flag OF.

Definition SAR_EdR (i : bxInstruction_c) : Mach unit :=
  count ← (if i_b1 i =? 0xd3 then CL else mret (Ib i));
  let count := Z.land count 0x1f in
  if negb (nz count) then
    mret tt
  else
  op1_32 ← BX_READ_32BIT_REG (i_rm i);
  let result_32 := if nz (Z.land op1_32 0x80000000) then
      u32 (Z.lor (Z.shiftr op1_32 count) (Z.shiftl 0xffffffff (u32 (32 - count))))
    else Z.shiftr op1_32 count in
  BX_WRITE_32BIT_REGZ (i_rm i) result_32;;
  SET_FLAGS_OSZAPC_LOGIC_32 result_32;;
  set_flag CF (Z.land (Z.shiftr op1_32 (u32 (count - 1))) 1);;
  clear_flag OF.



(** ** The flags of the handlers *)

Lemma set_O_C_refines (o c : bool) :
  refines (SET_FLAGS_OxxxxC (Z.b2z o) (Z.b2z c)) (update_flags (override [(OF, o); (CF, c)])).
Proof.
  replace o with (nz (Z.b2z o)) at 2 by by destruct o.
  replace c with (nz (Z.b2z c)) at 2 by by destruct c.
  apply set_OxxxxC_refines; [destruct o|destruct c]; cbn; lia.
Qed.

Section ResultFlags.
Context (w r ins : Z) (Hw : width w) (Hr : 0 <= r < 2 ^ w) (Hins : ins = logic_code w).

Lemma logic_then_O_C_refines (o c : bool) :
  refines (SET_FLAGS_OSZAPC_RESULT_SIZE w r ins;; SET_FLAGS_OxxxxC (Z.b2z o) (Z.b2z c))
    (write_arith_flags (result_flags w r o false c)).
Proof.
  eapply refines_amend; [by apply set_logic_refines|apply set_O_C_refines|by intros []].
Qed.

(** SAR at 32 bits: CF, then OF. *)
Lemma logic_then_C_clear_O_refines (c : bool) :
  refines (SET_FLAGS_OSZAPC_RESULT_SIZE w r ins;; set_flag CF (Z.b2z c);; clear_flag OF)
    (write_arith_flags (result_flags w r false false c)).
Proof.
  apply refines_reassoc_l. eapply refines_amend; [|apply clear_flag_refines|].
  - eapply refines_amend; [by apply set_logic_refines|apply set_flag_refines; destruct c; cbn; lia|].
    intros g. reflexivity.
  - intros []; by destruct c.
Qed.
End ResultFlags.

(** ** From the count on

    [st] stores the result, [a] is the operand and [c] the count read. *)

Lemma byte_ind (P : Z -> bool) : forallb P (seqZ 0 256) = true -> forall c, 0 <= c < 2 ^ 8 -> P c = true.
Proof.
  intros H c Hc. rewrite forallb_forall in H. apply H, list_elem_of_In, elem_of_seqZ. lia.
Qed.
Lemma count_mod32 c : 0 <= c < 2 ^ 8 -> Z.land c 0x1f = c mod 32.
Proof. intros. by apply (Z.land_ones c 5). Qed.
Lemma count_small w c : w = 8 \/ w = 16 -> 0 <= c < 2 ^ 8 ->
  Z.land c (w - 1) = c mod 32 mod w /\
  (c mod 32 mod w = 0 -> nz (Z.land c (32 - w)) = negb (c mod 32 =? 0)).
Proof.
  intros Hw Hc.
  assert ((Z.land c (w - 1) =? c mod 32 mod w) &&
          (negb (c mod 32 mod w =? 0) || Bool.eqb (nz (Z.land c (32 - w))) (negb (c mod 32 =? 0))) = true) as E.
  { destruct Hw as [->| ->]; revert c Hc; apply byte_ind; vm_compute; reflexivity. }
  apply andb_prop in E as [E1 E2]. split; [lia|]. intros Hz. rewrite Hz in E2. cbn [negb orb] in E2.
  by apply eqb_prop.
Qed.

Section Tails.
Context (w : Z) (Hw : width w) (dst : place) (i : bxInstruction_c) (st : Z -> Mach unit).
Context (Hst : forall r, refines (st r) (store_rmw w dst r i)).
Context (a c : Z) (Ha : 0 <= a < 2 ^ w) (Hc : 0 <= c < 2 ^ 8).

Let n := c mod 32.
Let n_range : 0 <= n < 32.
Proof. apply Z.mod_pos_bound. lia. Qed.
Let w_pos : 1 < w <= 32.
Proof. destruct Hw as [->|[->| ->]]; lia. Qed.

Lemma nonzero z (A : Type) (x y : A) : (if negb (nz z) then x else y) = if z =? 0 then x else y.
Proof. unfold nz. by rewrite negb_involutive. Qed.

(** *** Rotates *)

Lemma rotl_flags_refines r : 0 <= r < 2 ^ w ->
  refines (SET_FLAGS_OxxxxC (Z.lxor (Z.land r 1) (Z.shiftr r (w - 1))) (Z.land r 1))
    (shift_set_flags ROL w r (Z.testbit r 0)).
Proof. intros. rewrite land_1, left_overflow by lia. apply set_O_C_refines. Qed.
Lemma rotr_flags_refines r :
  refines (SET_FLAGS_OxxxxC (Z.lxor (Z.land (Z.shiftr r (w - 2)) 1) (Z.land (Z.shiftr r (w - 1)) 1))
             (Z.land (Z.shiftr r (w - 1)) 1))
    (shift_set_flags ROR w r (Z.testbit r (w - 1))).
Proof. rewrite !land_shiftr_1, lxor_b2z by lia. apply set_O_C_refines. Qed.

Lemma rol_range k : 0 <= Nat.iter k (rotl1 w) a < 2 ^ w.
Proof. apply rotl_iter; lia. Qed.
Lemma ror_range k : 0 <= Nat.iter k (rotr1 w) a < 2 ^ w.
Proof. apply rotr_iter; lia. Qed.

(** The reference, once the count is known not to be zero. *)
Ltac tail_unfold :=
  unfold ref_shift_tail;
  cbn [shift_amount shift_carry_in shift_value shift_stores shift_set_flags
       shift_overflow fst snd negb when]; fold n.

Lemma ROL_small :
  w = 8 \/ w = 16 ->
  refines
    (if Z.land c (w - 1) =? 0 then
       when (nz (Z.land c (32 - w)))
         (SET_FLAGS_OxxxxC (Z.lxor (Z.land a 1) (Z.shiftr a (w - 1))) (Z.land a 1))
     else
       let k := Z.land c (w - 1) in
       let r := wrap w (Z.lor (Z.shiftl a k) (Z.shiftr a (u32 (w - k)))) in
       st r;; SET_FLAGS_OxxxxC (Z.lxor (Z.land r 1) (Z.shiftr r (w - 1))) (Z.land r 1))
    (ref_shift_tail ROL w dst a c i).
Proof.
  intros Hs. destruct (count_small w c Hs Hc) as [E1 E2]. cbv zeta. fold n in E1, E2. rewrite E1.
  tail_unfold. destruct (Z.eqb_spec (n mod w) 0) as [Hz|Hz].
  - rewrite E2 by done. destruct (n =? 0); [apply refines_ret|]. cbn [negb when].
    apply refines_ret_r. apply refines_ret_r. assert (Nat.iter (Z.to_nat n) (rotl1 w) a = a) as ->
      by (apply rot_identity; lia).
    by apply rotl_flags_refines.
  - destruct (Z.eqb_spec n 0) as [E|_]; [by rewrite E in Hz|]. cbn [negb when].
    apply refines_ret_r. pose proof (Z.mod_pos_bound n w).
    rewrite (wrap_small 32 (w - n mod w)) by (cbn; lia). rewrite rol_code by lia.
    apply refines_bind; [done|]. intros _. apply rotl_flags_refines, rol_range.
Qed.

Lemma ROR_small :
  w = 8 \/ w = 16 ->
  refines
    (if Z.land c (w - 1) =? 0 then
       when (nz (Z.land c (32 - w)))
         (SET_FLAGS_OxxxxC (Z.lxor (Z.land (Z.shiftr a (w - 2)) 1) (Z.land (Z.shiftr a (w - 1)) 1))
            (Z.land (Z.shiftr a (w - 1)) 1))
     else
       let k := Z.land c (w - 1) in
       let r := wrap w (Z.lor (Z.shiftr a k) (Z.shiftl a (u32 (w - k)))) in
       st r;;
       SET_FLAGS_OxxxxC (Z.lxor (Z.land (Z.shiftr r (w - 2)) 1) (Z.land (Z.shiftr r (w - 1)) 1))
         (Z.land (Z.shiftr r (w - 1)) 1))
    (ref_shift_tail ROR w dst a c i).
Proof.
  intros Hs. destruct (count_small w c Hs Hc) as [E1 E2]. cbv zeta. fold n in E1, E2. rewrite E1.
  tail_unfold. destruct (Z.eqb_spec (n mod w) 0) as [Hz|Hz].
  - rewrite E2 by done. destruct (n =? 0); [apply refines_ret|]. cbn [negb when].
    apply refines_ret_r. apply refines_ret_r. assert (Nat.iter (Z.to_nat n) (rotr1 w) a = a) as ->
      by (apply rot_identity; lia).
    apply rotr_flags_refines.
  - destruct (Z.eqb_spec n 0) as [E|_]; [by rewrite E in Hz|]. cbn [negb when].
    apply refines_ret_r. pose proof (Z.mod_pos_bound n w).
    rewrite (wrap_small 32 (w - n mod w)) by (cbn; lia). rewrite ror_code by lia.
    apply refines_bind; [done|]. intros _. apply rotr_flags_refines.
Qed.

Lemma ROL_full k :
  w = 32 -> k = n -> n <> 0 ->
  refines
    (let r := wrap w (Z.lor (Z.shiftl a k) (Z.shiftr a (u32 (w - k)))) in
     st r;; SET_FLAGS_OxxxxC (Z.lxor (Z.land r 1) (Z.shiftr r (w - 1))) (Z.land r 1))
    (ref_shift_tail ROL w dst a c i).
Proof.
  intros H32 -> Hn. cbv zeta. tail_unfold. rewrite (proj2 (Z.eqb_neq n 0)) by done. apply refines_ret_r.
  assert (n mod w = n) as E by (subst w; apply Z.mod_small; lia).
  pose proof (rol_code w a ltac:(lia) Ha n ltac:(lia) ltac:(lia)) as R. rewrite E in R.
  rewrite (wrap_small 32 (w - n)), R, E, (proj2 (Z.eqb_neq n 0)) by (cbn; lia). cbn [negb when].
  apply refines_bind; [done|]. intros _. apply rotl_flags_refines, rol_range.
Qed.
Lemma ROR_full k :
  w = 32 -> k = n -> n <> 0 ->
  refines
    (let r := wrap w (Z.lor (Z.shiftr a k) (Z.shiftl a (u32 (w - k)))) in
     st r;;
     SET_FLAGS_OxxxxC (Z.lxor (Z.land (Z.shiftr r (w - 2)) 1) (Z.land (Z.shiftr r (w - 1)) 1))
       (Z.land (Z.shiftr r (w - 1)) 1))
    (ref_shift_tail ROR w dst a c i).
Proof.
  intros H32 -> Hn. cbv zeta. tail_unfold. rewrite (proj2 (Z.eqb_neq n 0)) by done. apply refines_ret_r.
  assert (n mod w = n) as E by (subst w; apply Z.mod_small; lia).
  pose proof (ror_code w a ltac:(lia) Ha n ltac:(lia) ltac:(lia)) as R. rewrite E in R.
  rewrite (wrap_small 32 (w - n)), R, E, (proj2 (Z.eqb_neq n 0)) by (cbn; lia). cbn [negb when].
  apply refines_bind; [done|]. intros _. apply rotr_flags_refines.
Qed.

(** *** Rotates through the carry flag

    [val] computes the result from the carry flag. *)

Lemma rc_amount k : k = n mod (w + 1) -> 0 <= k <= w.
Proof. intros ->. pose proof (Z.mod_pos_bound n (w + 1)). lia. Qed.

Lemma RCL_tail k (val : Z -> Z) :
  k = n mod (w + 1) -> k <> 0 ->
  (forall b, val (Z.b2z b) =
     wrap w (Z.lor (Z.lor (Z.shiftl a k) (Z.shiftl (Z.b2z b) (k - 1))) (Z.shiftr a (w + 1 - k)))) ->
  refines
    (cf_ ← gets (getB_flag CF);
     st (val cf_);;
     let cf := Z.land (Z.shiftr a (u32 (w - k))) 1 in
     SET_FLAGS_OxxxxC (Z.lxor cf (Z.shiftr (val cf_) (w - 1))) cf)
    (ref_shift_tail RCL w dst a c i).
Proof.
  intros Hk H0 Hv. pose proof (rc_amount k Hk). tail_unfold. rewrite <-Hk.
  rewrite (proj2 (Z.eqb_neq k 0)) by done.
  eapply refines_bind_yields; [apply getB_flag_refines|apply getB_flag_yields|]. cbv beta.
  intros v Hv01. rewrite <-(b2z_nz v) by done. rewrite Hv, rcl_code by lia. cbn [when].
  apply refines_bind; [done|]. intros _. cbv zeta. rewrite (wrap_small 32 (w - k)) by (cbn; lia).
  rewrite land_shiftr_1, left_overflow, rcl_carry by (try apply wrap_range; lia).
  apply set_O_C_refines.
Qed.

Lemma RCR_tail k (val of_ : Z -> Z) :
  k = n mod (w + 1) -> k <> 0 ->
  (forall b, val (Z.b2z b) =
     wrap w (Z.lor (Z.lor (Z.shiftr a k) (Z.shiftl (Z.b2z b) (w - k))) (Z.shiftl a (w + 1 - k)))) ->
  (forall r, of_ r = Z.b2z (xorb (Z.testbit r (w - 2)) (Z.testbit r (w - 1)))) ->
  refines
    (cf_ ← gets (getB_flag CF);
     st (val cf_);;
     SET_FLAGS_OxxxxC (of_ (val cf_)) (Z.land (Z.shiftr a (u32 (k - 1))) 1))
    (ref_shift_tail RCR w dst a c i).
Proof.
  intros Hk H0 Hv Ho. pose proof (rc_amount k Hk). tail_unfold. rewrite <-Hk.
  rewrite (proj2 (Z.eqb_neq k 0)) by done.
  eapply refines_bind_yields; [apply getB_flag_refines|apply getB_flag_yields|]. cbv beta.
  intros v Hv01. rewrite <-(b2z_nz v) by done. rewrite Hv, rcr_code by lia. cbn [when].
  apply refines_bind; [done|]. intros _. rewrite (wrap_small 32 (k - 1)) by (cbn; lia).
  rewrite Ho, land_shiftr_1, rcr_carry by lia. apply set_O_C_refines.
Qed.
End Tails.

(** *** Shifts *)

Section ShiftTails.
Context (w ins : Z) (Hw : width w) (Hins : ins = logic_code w) (dst : place) (i : bxInstruction_c).
Context (st : Z -> Mach unit) (Hst : forall r, refines (st r) (store_rmw w dst r i)).
Context (a : Z) (Ha : 0 <= a < 2 ^ w).

Let w_pos : 1 < w <= 32.
Proof. destruct Hw as [->|[->| ->]]; lia. Qed.

Lemma shift_right_small n : 1 <= n -> 0 <= a / 2 ^ n < 2 ^ w.
Proof.
  intros. split; [apply Z.div_pos; lia|].
  apply Z.le_lt_trans with a; [|lia]. apply Z.div_le_upper_bound; nia.
Qed.

(** Store and set all six flags. *)
Lemma shift_finish op r cf of_ (c : bool) :
  op = SHL \/ op = SHR -> 0 <= r < 2 ^ w -> cf = Z.b2z c -> of_ = Z.b2z (shift_overflow op w r c) ->
  refines (st r;; SET_FLAGS_OSZAPC_RESULT_SIZE w r ins;; SET_FLAGS_OxxxxC of_ cf)
    (store_rmw w dst r i;; shift_set_flags op w r c).
Proof.
  intros Hop Hr -> ->. apply refines_bind; [done|]. intros _.
  destruct Hop as [->| ->]; by apply logic_then_O_C_refines.
Qed.

Section Count.
Context (c n : Z) (Hn : n = c mod 32) (H0 : n <> 0).
Let n_range : 1 <= n < 32.
Proof. pose proof (Z.mod_pos_bound c 32). lia. Qed.

Ltac tail_unfold :=
  unfold ref_shift_tail;
  cbn [shift_amount shift_carry_in shift_value shift_stores fst snd negb when];
  rewrite <-Hn, (proj2 (Z.eqb_neq n 0)) by done; apply refines_ret_r.

Lemma SHL_tail r cf of_ :
  r = wrap w (a * 2 ^ n) -> cf = Z.b2z (Z.testbit (a * 2 ^ n) w) -> of_ = Z.lxor cf (Z.shiftr r (w - 1)) ->
  refines (st r;; SET_FLAGS_OSZAPC_RESULT_SIZE w r ins;; SET_FLAGS_OxxxxC of_ cf)
    (ref_shift_tail SHL w dst a c i).
Proof.
  intros -> Ecf ->. tail_unfold. cbn [when]. apply shift_finish; [by left|apply wrap_range; lia|done|].
  rewrite Ecf. apply left_overflow; [lia|]. apply wrap_range. lia.
Qed.

Lemma SHR_tail of_ :
  of_ = Z.b2z (xorb (Z.testbit (a / 2 ^ n) (w - 2)) (Z.testbit (a / 2 ^ n) (w - 1))) ->
  refines
    (st (Z.shiftr a n);; SET_FLAGS_OSZAPC_RESULT_SIZE w (Z.shiftr a n) ins;;
     SET_FLAGS_OxxxxC of_ (Z.land (Z.shiftr a (u32 (n - 1))) 1))
    (ref_shift_tail SHR w dst a c i).
Proof.
  intros Ho. tail_unfold. cbn [when]. rewrite (wrap_small 32 (n - 1)) by (cbn; lia).
  rewrite land_shiftr_1, Z.shiftr_div_pow2 by lia.
  apply shift_finish; [by right|apply shift_right_small; lia|done|done].
Qed.

Lemma SAR_small_tail r cf :
  (forall v, flagless (store_rmw w dst v i)) -> r = wrap w (swrap w a / 2 ^ n) -> cf = Z.b2z (Z.testbit (swrap w a) (n - 1)) ->
  refines (SET_FLAGS_OSZAPC_RESULT_SIZE w r ins;; SET_FLAGS_OxxxxC 0 cf;; st r)
    (ref_shift_tail SAR w dst a c i).
Proof.
  intros Hf -> ->. tail_unfold. cbn [when]. apply refines_reassoc_l, refines_swap_write; [|done..].
  apply (logic_then_O_C_refines w _ ins) with (o := false); [done|apply wrap_range; lia|done].
Qed.
Lemma SAR_full_tail r cf :
  r = wrap w (swrap w a / 2 ^ n) -> cf = Z.b2z (Z.testbit (swrap w a) (n - 1)) ->
  refines (st r;; SET_FLAGS_OSZAPC_RESULT_SIZE w r ins;; set_flag CF cf;; clear_flag OF)
    (ref_shift_tail SAR w dst a c i).
Proof.
  intros -> ->. tail_unfold. cbn [when].
  apply refines_bind; [done|]. intros _. apply logic_then_C_clear_O_refines; [done|apply wrap_range; lia|done].
Qed.
End Count.
End ShiftTails.

(** ** Reading the operand and the count *)

Lemma count_refines (b : bool) i :
  refines (if b then CL else mret (Ib i)) (if b then CL else mret (Ib i)).
Proof. apply refines_if; eauto with refines. Qed.
Lemma count_yields (b : bool) i :
  yields (if b then CL else mret (Ib i)) (fun v => 0 <= v < 2 ^ 8).
Proof.
  apply yields_if; [eauto with yields|]. apply yields_ret. apply wrap_range. lia.
Qed.
Lemma immediate_count_refines (b : bool) i :
  refines (if b then mret (Ib i) else CL) (if b then mret (Ib i) else CL).
Proof. apply refines_if; eauto with refines. Qed.
Lemma immediate_count_yields (b : bool) i :
  yields (if b then mret (Ib i) else CL) (fun v => 0 <= v < 2 ^ 8).
Proof.
  apply yields_if; [|eauto with yields]. apply yields_ret. apply wrap_range. lia.
Qed.

(** *** The handlers' expressions, with their counts at 32 bits *)

Section Expressions.
Context (w a : Z) (Hw : 1 < w <= 32) (Ha : 0 <= a < 2 ^ w).

Lemma sub_wrap k l : 0 <= l - k < 2 ^ 32 -> u32 (l - k) = l - k.
Proof. apply wrap_small. Qed.

Lemma rcl_one b :
  wrap w (Z.lor (Z.shiftl a 1) (Z.b2z b)) =
  wrap w (Z.lor (Z.lor (Z.shiftl a 1) (Z.shiftl (Z.b2z b) (1 - 1))) (Z.shiftr a (w + 1 - 1))).
Proof.
  rewrite Z.shiftl_0_r, (Z.shiftr_div_pow2 a), Z.div_small, Z.lor_0_r by (rewrite ?Z.add_simpl_r; lia).
  done.
Qed.
Lemma rcl_all b :
  wrap w (Z.lor (Z.shiftl (Z.b2z b) (w - 1)) (Z.shiftr a 1)) =
  wrap w (Z.lor (Z.lor (Z.shiftl a w) (Z.shiftl (Z.b2z b) (w - 1))) (Z.shiftr a (w + 1 - w))).
Proof.
  replace (w + 1 - w) with 1 by lia. apply wrap_bits; [lia|]. intros j Hj.
  rewrite !Z.lor_spec, (testbit_shiftl a w) by lia. by rewrite (proj2 (Z.leb_gt w j)) by lia.
Qed.
Lemma rcr_one b :
  wrap w (Z.lor (Z.shiftr a 1) (Z.shiftl (Z.b2z b) (w - 1))) =
  wrap w (Z.lor (Z.lor (Z.shiftr a 1) (Z.shiftl (Z.b2z b) (w - 1))) (Z.shiftl a (w + 1 - 1))).
Proof.
  apply wrap_bits; [lia|]. intros j Hj. rewrite !Z.lor_spec, (testbit_shiftl a (w + 1 - 1)) by lia.
  by rewrite (proj2 (Z.leb_gt (w + 1 - 1) j)), orb_false_r by lia.
Qed.

Context (n : Z) (Hn : 1 <= n < 32).

Lemma shl_expr :
  n <= w ->
  wrap w (Z.shiftl a n) = wrap w (a * 2 ^ n) /\
  Z.land (Z.shiftr a (u32 (w - n))) 1 = Z.b2z (Z.testbit (a * 2 ^ n) w).
Proof.
  intros. rewrite sub_wrap, land_shiftr_1, Z.shiftl_mul_pow2, <-shl_carry by (cbn; lia). done.
Qed.
Lemma sar_expr :
  n < w ->
  (if nz (Z.land a (2 ^ (w - 1))) then
     wrap w (Z.lor (Z.shiftr a n) (Z.shiftl (2 ^ w - 1) (u32 (w - n))))
   else Z.shiftr a n) = wrap w (swrap w a / 2 ^ n) /\
  Z.land (Z.shiftr a (u32 (n - 1))) 1 = Z.b2z (Z.testbit (swrap w a) (n - 1)).
Proof.
  intros. rewrite !sub_wrap, land_shiftr_1, sar_code, <-sar_carry by (cbn; lia). done.
Qed.
Lemma sar_beyond_expr :
  w <= n ->
  (if nz (Z.land a (2 ^ (w - 1))) then 2 ^ w - 1 else 0) = wrap w (swrap w a / 2 ^ n) /\
  Z.land (if nz (Z.land a (2 ^ (w - 1))) then 2 ^ w - 1 else 0) 1 =
    Z.b2z (Z.testbit (swrap w a) (n - 1)).
Proof.
  intros H. destruct (sar_beyond w a n) as [E1 E2]; try lia. split; [done|].
  rewrite land_1, E2, nz_land_pow2 by lia. destruct (Z.testbit a (w - 1)); [|done].
  replace (2 ^ w - 1) with (Z.ones w) by (rewrite Z.ones_equiv; lia).
  by rewrite Z.ones_spec_low by lia.
Qed.
End Expressions.

(** ** The handlers *)

(** Read the count and a memory operand, or a register with its count tested. *)
Ltac count_step :=
  eapply refines_bind_yields;
  [first [apply count_refines | apply immediate_count_refines]
  |first [apply count_yields | apply immediate_count_yields]|];
  let c := fresh "c" in let Hc := fresh "Hc" in intros c Hc; cbv beta in Hc.
Ltac operand_step w dst :=
  match goal with i : bxInstruction_c |- _ =>
  eapply refines_bind_yields;
  [apply (fetch_rmw_refines w ltac:(width_tac) dst i ltac:(place_tac))
  |apply (fetch_rmw_yields w ltac:(width_tac) dst i ltac:(place_tac))|];
  let a := fresh "a" in let Ha := fresh "Ha" in intros a Ha; cbv beta in Ha end.

Ltac store_tac := intros ?; first [apply store_rmw_refines | apply store_rmw_flagless]; [width_tac|place_tac].

(** A count of zero. *)
Lemma tail_zero op w dst a c i :
  shift_amount op w c = 0 -> refines (mret tt) (ref_shift_tail op w dst a c i).
Proof. intros H. unfold ref_shift_tail. rewrite H. apply refines_ret. Qed.
Lemma tail_zero_skip op dst c i :
  shift_amount op 32 c = 0 ->
  refines (mret tt) (a ← fetch_rmw 32 (Reg i_rm) i; ref_shift_tail op 32 dst a c i).
Proof. intros H. unfold ref_shift_tail. rewrite H. intros s. reflexivity. Qed.

Lemma refines_bind_ret {A B C} (m : Mach A) (f : A -> B) (k : B -> Mach C) m' :
  refines (m ≫= fun x => k (f x)) m' -> refines (m ≫= fun x => mret (f x) ≫= k) m'.
Proof. done. Qed.

(** Go through the reads: [RM] operands after the count, memory operands before
    it, and register operands of the 32-bit forms after the test for zero. *)
Ltac zero_test :=
  rewrite nonzero; match goal with |- context [if ?k =? 0 then _ else _] =>
    let Hz := fresh "Hz" in destruct (Z.eqb_spec k 0) as [Hz|Hz] end.
Ltac shift_open :=
  intros i; cbn [fst snd]; match goal with |- refines (?h _) _ => unfold h end;
  unfold ref_shift, ref_shiftd, shift_count, shiftd_count; cbv zeta; cbn [Z.eqb Pos.eqb]; unfold_widths.
Ltac count_norm :=
  repeat match goal with Hc : 0 <= ?c < 2 ^ 8 |- context [Z.land ?c 31] => rewrite (count_mod32 c Hc) end.
Ltac rm_intro w := shift_open; count_step; operand_step w RM; count_norm.
Ltac mem_intro :=
  shift_open;
  match goal with i : bxInstruction_c |- _ =>
    apply (refines_reassoc_l _ (resolve i) (fun e => read_RMW_virtual_32 4 (i_seg i) e)) end;
  operand_step 32 Mem; count_step; count_norm.
Ltac reg_intro := shift_open; count_step; count_norm.


(** The side conditions of the lemmas above. *)
Ltac side := first [width_tac | reflexivity | assumption | store_tac | lia].

Ltac st_of w dst := match goal with i : bxInstruction_c |- _ => constr:(fun r => store_rmw w dst r i) end.

Lemma ROL_Eb_implements : implements (ROL_Eb, ref_shift ROL 8 RM).
Proof. rm_intro 8. apply (ROL_small 8) with (st := fun r => store_rmw 8 RM r i); side. Qed.
Lemma ROL_Ew_implements : implements (ROL_Ew, ref_shift ROL 16 RM).
Proof. rm_intro 16. apply (ROL_small 16) with (st := fun r => store_rmw 16 RM r i); side. Qed.
Lemma ROR_Eb_implements : implements (ROR_Eb, ref_shift ROR 8 RM).
Proof. rm_intro 8. apply (ROR_small 8) with (st := fun r => store_rmw 8 RM r i); side. Qed.
Lemma ROR_Ew_implements : implements (ROR_Ew, ref_shift ROR 16 RM).
Proof. rm_intro 16. apply (ROR_small 16) with (st := fun r => store_rmw 16 RM r i); side. Qed.
Lemma ROL_EdM_implements : implements (ROL_EdM, ref_shift ROL 32 Mem).
Proof.
  mem_intro. zero_test; [by apply tail_zero|]. 
  apply (ROL_full 32) with (st := fun r => store_rmw 32 Mem r i); side.
Qed.
Lemma ROL_EdR_implements : implements (ROL_EdR, ref_shift ROL 32 (Reg i_rm)).
Proof.
  reg_intro. zero_test; [by apply tail_zero_skip|]. operand_step 32 (Reg i_rm).
  apply (ROL_full 32) with (st := fun r => store_rmw 32 (Reg i_rm) r i); side.
Qed.
Lemma ROR_EdM_implements : implements (ROR_EdM, ref_shift ROR 32 Mem).
Proof.
  mem_intro. zero_test; [by apply tail_zero|]. 
  apply (ROR_full 32) with (st := fun r => store_rmw 32 Mem r i); side.
Qed.
Lemma ROR_EdR_implements : implements (ROR_EdR, ref_shift ROR 32 (Reg i_rm)).
Proof.
  reg_intro. zero_test; [by apply tail_zero_skip|]. operand_step 32 (Reg i_rm).
  apply (ROR_full 32) with (st := fun r => store_rmw 32 (Reg i_rm) r i); side.
Qed.

Ltac zero_tac := match goal with Hz : _ = 0 |- _ => first [exact Hz | cbn [shift_amount]; rewrite Hz; reflexivity] end.

(** Rotates through carry: the special cases of the code are instances of the
    general expression. *)

Lemma RCL_Eb_implements : implements (RCL_Eb, ref_shift RCL 8 RM).
Proof.
  rm_intro 8. zero_test; [apply tail_zero; zero_tac|].
  set (k := c mod 32 mod 9) in *. assert (0 <= k < 9) by (apply Z.mod_pos_bound; lia).
  assert (k = c mod 32 mod (8 + 1)) as Hk by (symmetry; done).
  destruct (Z.eqb_spec k 1) as [E|_].
  - apply refines_assoc_l, refines_bind_ret. rewrite E in *.
    apply (RCL_tail 8) with (st := fun r => store_rmw 8 RM r i) (val := fun cf_ => u8 (Z.lor (Z.shiftl a 1) cf_));
      first [side | intros b; apply (rcl_one 8); side].
  - apply refines_assoc_l, refines_bind_ret.
    apply (RCL_tail 8) with (st := fun r => store_rmw 8 RM r i) (val := fun cf_ => u8 (Z.lor (Z.lor (Z.shiftl a k) (Z.shiftl cf_ (u32 (k - 1)))) (Z.shiftr a (u32 (9 - k)))));
      first [side | intros b; cbv beta; rewrite !sub_wrap by (cbn; lia); reflexivity].
Qed.

Lemma RCL_Ew_implements : implements (RCL_Ew, ref_shift RCL 16 RM).
Proof.
  rm_intro 16. zero_test; [apply tail_zero; zero_tac|].
  set (k := c mod 32 mod 17) in *. assert (0 <= k < 17) by (apply Z.mod_pos_bound; lia).
  assert (k = c mod 32 mod (16 + 1)) as Hk by (symmetry; done).
  destruct (Z.eqb_spec k 1) as [E|_].
  - apply refines_assoc_l, refines_bind_ret. rewrite E in *.
    apply (RCL_tail 16) with (st := fun r => store_rmw 16 RM r i) (val := fun cf_ => u16 (Z.lor (Z.shiftl a 1) cf_));
      first [side | intros b; apply (rcl_one 16); side].
  - apply refines_assoc_l. destruct (Z.eqb_spec k 16) as [E|_].
    + apply refines_assoc_l, refines_bind_ret. rewrite E in *. 
      apply (RCL_tail 16) with (st := fun r => store_rmw 16 RM r i) (val := fun cf_ => u16 (Z.lor (Z.shiftl cf_ 15) (Z.shiftr a 1)));
        first [side | intros b; apply (rcl_all 16); side].
    + apply refines_assoc_l, refines_bind_ret.
      apply (RCL_tail 16) with (st := fun r => store_rmw 16 RM r i) (val := fun cf_ => u16 (Z.lor (Z.lor (Z.shiftl a k) (Z.shiftl cf_ (u32 (k - 1)))) (Z.shiftr a (u32 (17 - k)))));
        first [side | intros b; cbv beta; rewrite !sub_wrap by (cbn; lia); reflexivity].
Qed.

Lemma RCL_EdM_implements : implements (RCL_EdM, ref_shift RCL 32 Mem).
Proof.
  mem_intro. zero_test; [apply tail_zero; zero_tac|].
  set (k := c mod 32) in *. assert (0 <= k < 32) by (apply Z.mod_pos_bound; lia).
  assert (k = c mod 32 mod (32 + 1)) as Hk by (symmetry; apply Z.mod_small; fold k; lia).
  destruct (Z.eqb_spec k 1) as [E|_].
  - apply refines_assoc_l, refines_bind_ret. rewrite E in *.
    apply (RCL_tail 32) with (st := fun r => store_rmw 32 Mem r i) (val := fun cf_ => u32 (Z.lor (Z.shiftl a 1) cf_));
      first [side | intros b; apply (rcl_one 32); side].
  - apply refines_assoc_l, refines_bind_ret.
    apply (RCL_tail 32) with (st := fun r => store_rmw 32 Mem r i) (val := fun cf_ => u32 (Z.lor (Z.lor (Z.shiftl a k) (Z.shiftl cf_ (u32 (k - 1)))) (Z.shiftr a (u32 (33 - k)))));
      first [side | intros b; cbv beta; rewrite !sub_wrap by (cbn; lia); reflexivity].
Qed.

Lemma RCL_EdR_implements : implements (RCL_EdR, ref_shift RCL 32 (Reg i_rm)).
Proof.
  reg_intro. zero_test; [apply tail_zero_skip; zero_tac|]. operand_step 32 (Reg i_rm).
  set (k := c mod 32) in *. assert (0 <= k < 32) by (apply Z.mod_pos_bound; lia).
  assert (k = c mod 32 mod (32 + 1)) as Hk by (symmetry; apply Z.mod_small; fold k; lia).
  destruct (Z.eqb_spec k 1) as [E|_].
  - apply refines_assoc_l, refines_bind_ret. rewrite E in *.
    apply (RCL_tail 32) with (st := fun r => store_rmw 32 (Reg i_rm) r i) (val := fun cf_ => u32 (Z.lor (Z.shiftl a 1) cf_));
      first [side | intros b; apply (rcl_one 32); side].
  - apply refines_assoc_l, refines_bind_ret.
    apply (RCL_tail 32) with (st := fun r => store_rmw 32 (Reg i_rm) r i) (val := fun cf_ => u32 (Z.lor (Z.lor (Z.shiftl a k) (Z.shiftl cf_ (u32 (k - 1)))) (Z.shiftr a (u32 (33 - k)))));
      first [side | intros b; cbv beta; rewrite !sub_wrap by (cbn; lia); reflexivity].
Qed.

Lemma RCR_Eb_implements : implements (RCR_Eb, ref_shift RCR 8 RM).
Proof.
  rm_intro 8. zero_test; [apply tail_zero; zero_tac|].
  set (k := c mod 32 mod 9) in *. assert (0 <= k < 9) by (apply Z.mod_pos_bound; lia).
  assert (k = c mod 32 mod (8 + 1)) as Hk by (symmetry; done).
  apply (RCR_tail 8) with (st := fun r => store_rmw 8 RM r i)
    (val := fun cf_ => u8 (Z.lor (Z.lor (Z.shiftr a k) (Z.shiftl cf_ (u32 (8 - k)))) (Z.shiftl a (u32 (9 - k)))))
    (of_ := fun r => Z.land (Z.shiftr (Z.lxor (Z.shiftl r 1) r) 7) 1);
    first [side | intros b; cbv beta; rewrite !sub_wrap by (cbn; lia); reflexivity | intros r; apply (right_overflow 8); lia].
Qed.

Lemma RCR_Ew_implements : implements (RCR_Ew, ref_shift RCR 16 RM).
Proof.
  rm_intro 16. zero_test; [apply tail_zero; zero_tac|].
  set (k := c mod 32 mod 17) in *. assert (0 <= k < 17) by (apply Z.mod_pos_bound; lia).
  assert (k = c mod 32 mod (16 + 1)) as Hk by (symmetry; done).
  apply (RCR_tail 16) with (st := fun r => store_rmw 16 RM r i)
    (val := fun cf_ => u16 (Z.lor (Z.lor (Z.shiftr a k) (Z.shiftl cf_ (u32 (16 - k)))) (Z.shiftl a (u32 (17 - k)))))
    (of_ := fun r => Z.land (Z.shiftr (u16 (Z.lxor (Z.shiftl r 1) r)) 15) 1);
    first [side | intros b; cbv beta; rewrite !sub_wrap by (cbn; lia); reflexivity | intros r; apply (right_overflow_wrap 16); lia].
Qed.

Lemma RCR_EdM_implements : implements (RCR_EdM, ref_shift RCR 32 Mem).
Proof.
  mem_intro. zero_test; [apply tail_zero; zero_tac|].
  set (k := c mod 32) in *. assert (0 <= k < 32) by (apply Z.mod_pos_bound; lia).
  assert (k = c mod 32 mod (32 + 1)) as Hk by (symmetry; apply Z.mod_small; fold k; lia).
  destruct (Z.eqb_spec k 1) as [E|_]; apply refines_assoc_l, refines_bind_ret.
  - rewrite E in *. apply (RCR_tail 32) with (st := fun r => store_rmw 32 Mem r i)
      (val := fun cf_ => u32 (Z.lor (Z.shiftr a 1) (Z.shiftl cf_ 31)))
      (of_ := fun r => Z.shiftr (u32 (Z.lxor (Z.shiftl r 1) r)) 31);
      first [side | intros b; apply (rcr_one 32); side | intros r; apply (right_overflow_top 32); lia].
  - apply (RCR_tail 32) with (st := fun r => store_rmw 32 Mem r i)
      (val := fun cf_ => u32 (Z.lor (Z.lor (Z.shiftr a k) (Z.shiftl cf_ (u32 (32 - k)))) (Z.shiftl a (u32 (33 - k)))))
      (of_ := fun r => Z.shiftr (u32 (Z.lxor (Z.shiftl r 1) r)) 31);
      first [side | intros b; cbv beta; rewrite !sub_wrap by (cbn; lia); reflexivity | intros r; apply (right_overflow_top 32); lia].
Qed.

Lemma RCR_EdR_implements : implements (RCR_EdR, ref_shift RCR 32 (Reg i_rm)).
Proof.
  reg_intro. zero_test; [apply tail_zero_skip; zero_tac|]. operand_step 32 (Reg i_rm).
  set (k := c mod 32) in *. assert (0 <= k < 32) by (apply Z.mod_pos_bound; lia).
  assert (k = c mod 32 mod (32 + 1)) as Hk by (symmetry; apply Z.mod_small; fold k; lia).
  destruct (Z.eqb_spec k 1) as [E|_]; apply refines_assoc_l, refines_bind_ret.
  - rewrite E in *. apply (RCR_tail 32) with (st := fun r => store_rmw 32 (Reg i_rm) r i)
      (val := fun cf_ => u32 (Z.lor (Z.shiftr a 1) (Z.shiftl cf_ 31)))
      (of_ := fun r => Z.shiftr (u32 (Z.lxor (Z.shiftl r 1) r)) 31);
      first [side | intros b; apply (rcr_one 32); side | intros r; apply (right_overflow_top 32); lia].
  - apply (RCR_tail 32) with (st := fun r => store_rmw 32 (Reg i_rm) r i)
      (val := fun cf_ => u32 (Z.lor (Z.lor (Z.shiftr a k) (Z.shiftl cf_ (u32 (32 - k)))) (Z.shiftl a (u32 (33 - k)))))
      (of_ := fun r => Z.shiftr (u32 (Z.lxor (Z.shiftl r 1) r)) 31);
      first [side | intros b; cbv beta; rewrite !sub_wrap by (cbn; lia); reflexivity | intros r; apply (right_overflow_top 32); lia].
Qed.

(** The shifts; counts above the width only arise at 8 and 16 bits. *)
Ltac amount_set :=
  match goal with Hz : ?c mod 32 <> 0 |- _ =>
    assert (1 <= c mod 32 < 32) by (pose proof (Z.mod_pos_bound c 32); lia);
    set (n := c mod 32) in *
  end.

Lemma SHL_Eb_implements : implements (SHL_Eb, ref_shift SHL 8 RM).
Proof.
  rm_intro 8. zero_test; [apply tail_zero; zero_tac|]. amount_set.
  destruct (Z.leb_spec n 8); apply refines_ret_l; cbv beta iota;
    apply (SHL_tail 8) with (st := fun r => store_rmw 8 RM r i) (n := n); try side.
  - apply (shl_expr 8); side.
  - apply (shl_expr 8); side.
  - symmetry. apply (shl_beyond 8); side.
  - destruct (shl_beyond 8 a n) as [_ ->]; side.
Qed.

Lemma SHL_Ew_implements : implements (SHL_Ew, ref_shift SHL 16 RM).
Proof.
  rm_intro 16. zero_test; [apply tail_zero; zero_tac|]. amount_set.
  destruct (Z.leb_spec n 16); apply refines_ret_l; cbv beta iota;
    apply (SHL_tail 16) with (st := fun r => store_rmw 16 RM r i) (n := n); try side.
  - apply (shl_expr 16); side.
  - apply (shl_expr 16); side.
  - symmetry. apply (shl_beyond 16); side.
  - destruct (shl_beyond 16 a n) as [_ ->]; side.
Qed.

Lemma SHL_EdM_implements : implements (SHL_EdM, ref_shift SHL 32 Mem).
Proof.
  mem_intro. zero_test; [apply tail_zero; zero_tac|]. amount_set.
  apply (SHL_tail 32) with (st := fun r => store_rmw 32 Mem r i) (n := n); try side.
  - apply (shl_expr 32); side.
  - apply (shl_expr 32); side.
Qed.

Lemma SHL_EdR_implements : implements (SHL_EdR, ref_shift SHL 32 (Reg i_rm)).
Proof.
  reg_intro. zero_test; [apply tail_zero_skip; zero_tac|]. operand_step 32 (Reg i_rm). amount_set.
  apply (SHL_tail 32) with (st := fun r => store_rmw 32 (Reg i_rm) r i) (n := n); try side.
  - apply (shl_expr 32); side.
  - apply (shl_expr 32); side.
Qed.

Lemma SHR_Eb_implements : implements (SHR_Eb, ref_shift SHR 8 RM).
Proof.
  rm_intro 8. zero_test; [apply tail_zero; zero_tac|]. amount_set.
  apply (SHR_tail 8) with (st := fun r => store_rmw 8 RM r i) (n := n); try side.
  rewrite <-Z.shiftr_div_pow2 by lia. apply (right_overflow 8). lia.
Qed.

Lemma SHR_Ew_implements : implements (SHR_Ew, ref_shift SHR 16 RM).
Proof.
  rm_intro 16. zero_test; [apply tail_zero; zero_tac|]. amount_set.
  apply (SHR_tail 16) with (st := fun r => store_rmw 16 RM r i) (n := n); try side.
  rewrite <-Z.shiftr_div_pow2 by lia. apply (right_overflow_wrap 16). lia.
Qed.

Lemma SHR_EdM_implements : implements (SHR_EdM, ref_shift SHR 32 Mem).
Proof.
  mem_intro. zero_test; [apply tail_zero; zero_tac|]. amount_set.
  apply (SHR_tail 32) with (st := fun r => store_rmw 32 Mem r i) (n := n); try side.
  rewrite <-Z.shiftr_div_pow2 by lia. apply (right_overflow_top 32). lia.
Qed.

Lemma SHR_EdR_implements : implements (SHR_EdR, ref_shift SHR 32 (Reg i_rm)).
Proof.
  reg_intro. zero_test; [apply tail_zero_skip; zero_tac|]. operand_step 32 (Reg i_rm). amount_set.
  apply (SHR_tail 32) with (st := fun r => store_rmw 32 (Reg i_rm) r i) (n := n); try side.
  rewrite <-Z.shiftr_div_pow2 by lia. apply (right_overflow_top 32). lia.
Qed.

Lemma SAR_Eb_implements : implements (SAR_Eb, ref_shift SAR 8 RM).
Proof.
  rm_intro 8. zero_test; [apply tail_zero; zero_tac|]. amount_set.
  destruct (Z.ltb_spec n 8); apply refines_ret_l; cbv beta iota;
    apply (SAR_small_tail 8) with (st := fun r => store_rmw 8 RM r i) (n := n); try side.
  - apply (sar_expr 8); side.
  - apply (sar_expr 8); side.
  - apply (sar_beyond_expr 8); side.
  - apply (sar_beyond_expr 8); side.
Qed.

Lemma SAR_Ew_implements : implements (SAR_Ew, ref_shift SAR 16 RM).
Proof.
  rm_intro 16. zero_test; [apply tail_zero; zero_tac|]. amount_set.
  destruct (Z.ltb_spec n 16); apply refines_ret_l; cbv beta iota;
    apply (SAR_small_tail 16) with (st := fun r => store_rmw 16 RM r i) (n := n); try side.
  - apply (sar_expr 16); side.
  - apply (sar_expr 16); side.
  - apply (sar_beyond_expr 16); side.
  - apply (sar_beyond_expr 16); side.
Qed.

Lemma SAR_EdM_implements : implements (SAR_EdM, ref_shift SAR 32 Mem).
Proof.
  mem_intro. zero_test; [apply tail_zero; zero_tac|]. amount_set.
  apply (SAR_full_tail 32) with (st := fun r => store_rmw 32 Mem r i) (n := n); try side.
  - apply (sar_expr 32); side.
  - apply (sar_expr 32); side.
Qed.

Lemma SAR_EdR_implements : implements (SAR_EdR, ref_shift SAR 32 (Reg i_rm)).
Proof.
  reg_intro. zero_test; [apply tail_zero_skip; zero_tac|]. operand_step 32 (Reg i_rm). amount_set.
  apply (SAR_full_tail 32) with (st := fun r => store_rmw 32 (Reg i_rm) r i) (n := n); try side.
  - apply (sar_expr 32); side.
  - apply (sar_expr 32); side.
Qed.

(** *** Double-precision shifts *)

Lemma shiftd_zero left w dst a c i :
  c mod 32 = 0 -> refines (mret tt) (ref_shiftd_tail shiftd_code_value left w dst a c i).
Proof. intros H. unfold ref_shiftd_tail. rewrite H. apply refines_ret. Qed.
Lemma shiftd_zero_skip left w dst c i :
  w = 16 \/ w = 32 -> c mod 32 = 0 ->
  refines (mret tt) (a ← fetch_rmw w (Reg i_rm) i; ref_shiftd_tail shiftd_code_value left w dst a c i).
Proof.
  intros Hw H. unfold ref_shiftd_tail. rewrite H.
  by destruct Hw as [->| ->].
Qed.

Lemma shiftd_tail left w ins dst i a c (rd : Mach Z) (st : Z -> Mach unit) (r cf of_ : Z -> Z) :
  rd = read_reg w (i_nnn i) -> (forall v, refines (st v) (store_rmw w dst v i)) ->
  width w -> ins = logic_code w -> 0 <= a < 2 ^ w -> c mod 32 <> 0 ->
  (forall b, 0 <= b < 2 ^ w ->
     r b = (shiftd_code_value left w a b (c mod 32)).1 /\
     cf b = Z.b2z (shiftd_code_value left w a b (c mod 32)).2 /\
     of_ b = Z.b2z (shift_overflow (if left then SHL else SHR) w (r b)
                     (shiftd_code_value left w a b (c mod 32)).2)) ->
  refines
    (b ← rd;
     st (r b);;
     SET_FLAGS_OSZAPC_RESULT_SIZE w (r b) ins;;
     SET_FLAGS_OxxxxC (of_ b) (cf b))
    (ref_shiftd_tail shiftd_code_value left w dst a c i).
Proof.
  intros -> Hst Hw Hins Ha Hn E. unfold ref_shiftd_tail. rewrite (proj2 (Z.eqb_neq _ 0)) by done.
  eapply refines_bind_yields; [by apply read_reg_refines|by apply read_reg_yields|]. cbv beta.
  intros b Hb. destruct (E b Hb) as (Er & Ec & Eo). rewrite Er in Eo |- *.
  apply (shift_finish w ins Hw Hins dst i st); try done.
  - destruct left; tauto.
  - destruct Hw as [->|[->| ->]], left; apply wrap_range; lia.
Qed.

(** The expressions of the code. *)
Lemma shld32_expr a b n :
  0 <= a < 2 ^ 32 -> 0 <= b < 2 ^ 32 -> 1 <= n < 32 ->
  u32 (Z.lor (Z.shiftl a n) (Z.shiftr b (u32 (32 - n)))) = (shiftd_code_value true 32 a b n).1 /\
  Z.land (Z.shiftr a (u32 (32 - n))) 1 = Z.b2z (shiftd_code_value true 32 a b n).2.
Proof.
  intros. rewrite !sub_wrap, land_shiftr_1 by (cbn; lia). split; [apply (shld_code 32); lia|].
  cbn [shiftd_code_value snd]. rewrite testbit_pair by lia. f_equal. zcases. f_equal. lia.
Qed.
Lemma shrd32_expr a b n :
  0 <= a < 2 ^ 32 -> 0 <= b < 2 ^ 32 -> 1 <= n < 32 ->
  u32 (Z.lor (Z.shiftl b (u32 (32 - n))) (Z.shiftr a n)) = (shiftd_code_value false 32 a b n).1 /\
  Z.land (Z.shiftr a (u32 (n - 1))) 1 = Z.b2z (shiftd_code_value false 32 a b n).2.
Proof.
  intros. rewrite !sub_wrap, land_shiftr_1 by (cbn; lia). split; [apply (shrd_code 32); lia|done].
Qed.
Lemma shld16_expr a b n :
  0 <= a < 2 ^ 16 -> 0 <= b < 2 ^ 16 -> 1 <= n < 32 ->
  Z.shiftr (if 16 <? n then
              u32 (Z.lor (u32 (Z.shiftl (Z.lor (Z.shiftl a 16) b) n)) (Z.shiftl a (u32 (n - 16))))
            else u32 (Z.shiftl (Z.lor (Z.shiftl a 16) b) n)) 16 = (shiftd_code_value true 16 a b n).1 /\
  Z.land (Z.shiftr (Z.lor (Z.shiftl a 16) b) (u32 (32 - n))) 1 = Z.b2z (shiftd_code_value true 16 a b n).2.
Proof.
  intros. rewrite (sub_wrap n 32), land_shiftr_1 by (cbn; lia). split.
  - cbn [shiftd_code_value fst]. rewrite <-shld16_code by lia. destruct (Z.ltb_spec 16 n); [|done].
    by rewrite (sub_wrap 16 n) by (cbn; lia).
  - by rewrite lor_shiftl_add by lia.
Qed.
Lemma shrd16_expr a b n :
  0 <= a < 2 ^ 16 -> 0 <= b < 2 ^ 16 -> 1 <= n < 32 ->
  u16 (if 16 <? n then
         u32 (Z.lor (Z.shiftr (Z.lor (Z.shiftl b 16) a) n) (Z.shiftl a (u32 (32 - n))))
       else Z.shiftr (Z.lor (Z.shiftl b 16) a) n) = (shiftd_code_value false 16 a b n).1 /\
  Z.land (Z.shiftr a (u32 (n - 1))) 1 = Z.b2z (shiftd_code_value false 16 a b n).2.
Proof.
  intros. rewrite !sub_wrap, land_shiftr_1 by (cbn; lia). split; [by apply shrd16_code|done].
Qed.
Lemma shiftd_range left w a b n : 0 < w -> 0 <= (shiftd_code_value left w a b n).1 < 2 ^ w.
Proof. intros. destruct left; apply wrap_range; lia. Qed.

(** The result and CF by the lemma [H], OF by [left_overflow] or [Hof]. *)
Ltac shiftd_values H :=
  let b := fresh "b" in let Hb := fresh "Hb" in intros b Hb; cbv beta zeta;
  match goal with |- context [shiftd_code_value _ _ ?a _ ?n] =>
    match n with ?c mod 32 => assert (1 <= n < 32) by (pose proof (Z.mod_pos_bound c 32); lia) end;
    destruct (H a b n) as [Er Ec]; [assumption..|]; rewrite Er, Ec end;
  split; [reflexivity|split; [reflexivity|]].

Lemma SHLD_EwGwM_implements : implements (SHLD_EwGwM, ref_shiftd shiftd_code_value true false 16 Mem).
Proof.
  shift_open. count_step. count_norm.
  apply (refines_reassoc_l _ (resolve i) (fun e => read_RMW_virtual_32 2 (i_seg i) e)).
  operand_step 16 Mem. zero_test; [by apply shiftd_zero|].
  apply (shiftd_tail true 16) with (rd := BX_READ_16BIT_REG (i_nnn i)) (st := write_RMW_virtual_word) (r := fun b => Z.shiftr (if 16 <? c mod 32 then
        u32 (Z.lor (u32 (Z.shiftl (Z.lor (Z.shiftl a 16) b) (c mod 32))) (Z.shiftl a (u32 (c mod 32 - 16))))
      else u32 (Z.shiftl (Z.lor (Z.shiftl a 16) b) (c mod 32))) 16)
    (cf := fun b => Z.land (Z.shiftr (Z.lor (Z.shiftl a 16) b) (u32 (32 - c mod 32))) 1) (of_ := fun b => Z.lxor (Z.land (Z.shiftr (Z.lor (Z.shiftl a 16) b) (u32 (32 - c mod 32))) 1)
      (Z.shiftr (Z.shiftr (if 16 <? c mod 32 then
        u32 (Z.lor (u32 (Z.shiftl (Z.lor (Z.shiftl a 16) b) (c mod 32))) (Z.shiftl a (u32 (c mod 32 - 16))))
      else u32 (Z.shiftl (Z.lor (Z.shiftl a 16) b) (c mod 32))) 16) 15));
    [reflexivity|intros ?; reference_unfold; unfold_widths; eauto with refines|width_tac|reflexivity|assumption|assumption|].
  shiftd_values shld16_expr. apply (left_overflow 16); [lia|]. apply shiftd_range. lia.
Qed.

Lemma SHLD_EwGwR_implements : implements (SHLD_EwGwR, ref_shiftd shiftd_code_value true false 16 (Reg i_rm)).
Proof.
  reg_intro. zero_test; [apply shiftd_zero_skip; [lia|done]|]. operand_step 16 (Reg i_rm).
  apply (shiftd_tail true 16) with (rd := BX_READ_16BIT_REG (i_nnn i)) (st := BX_WRITE_16BIT_REG (i_rm i)) (r := fun b => Z.shiftr (if 16 <? c mod 32 then
        u32 (Z.lor (u32 (Z.shiftl (Z.lor (Z.shiftl a 16) b) (c mod 32))) (Z.shiftl a (u32 (c mod 32 - 16))))
      else u32 (Z.shiftl (Z.lor (Z.shiftl a 16) b) (c mod 32))) 16)
    (cf := fun b => Z.land (Z.shiftr (Z.lor (Z.shiftl a 16) b) (u32 (32 - c mod 32))) 1) (of_ := fun b => Z.lxor (Z.land (Z.shiftr (Z.lor (Z.shiftl a 16) b) (u32 (32 - c mod 32))) 1)
      (Z.shiftr (Z.shiftr (if 16 <? c mod 32 then
        u32 (Z.lor (u32 (Z.shiftl (Z.lor (Z.shiftl a 16) b) (c mod 32))) (Z.shiftl a (u32 (c mod 32 - 16))))
      else u32 (Z.shiftl (Z.lor (Z.shiftl a 16) b) (c mod 32))) 16) 15));
    [reflexivity|intros ?; reference_unfold; unfold_widths; eauto with refines|width_tac|reflexivity|assumption|assumption|].
  shiftd_values shld16_expr. apply (left_overflow 16); [lia|]. apply shiftd_range. lia.
Qed.

Lemma SHLD_EdGdM_implements : implements (SHLD_EdGdM, ref_shiftd shiftd_code_value true true 32 Mem).
Proof.
  mem_intro. zero_test; [by apply shiftd_zero|].
  apply (shiftd_tail true 32) with (rd := BX_READ_32BIT_REG (i_nnn i)) (st := write_RMW_virtual 4) (r := fun b => u32 (Z.lor (Z.shiftl a (c mod 32)) (Z.shiftr b (u32 (32 - c mod 32)))))
    (cf := fun b => Z.land (Z.shiftr a (u32 (32 - c mod 32))) 1) (of_ := fun b => Z.lxor (Z.land (Z.shiftr a (u32 (32 - c mod 32))) 1)
      (Z.shiftr (u32 (Z.lor (Z.shiftl a (c mod 32)) (Z.shiftr b (u32 (32 - c mod 32))))) 31));
    [reflexivity|intros ?; reference_unfold; unfold_widths; eauto with refines|width_tac|reflexivity|assumption|assumption|].
  shiftd_values shld32_expr. apply (left_overflow 32); [lia|]. apply shiftd_range. lia.
Qed.

Lemma SHLD_EdGdR_implements : implements (SHLD_EdGdR, ref_shiftd shiftd_code_value true false 32 (Reg i_rm)).
Proof.
  reg_intro. zero_test; [apply shiftd_zero_skip; [lia|done]|]. operand_step 32 (Reg i_rm).
  apply (shiftd_tail true 32) with (rd := BX_READ_32BIT_REG (i_nnn i)) (st := BX_WRITE_32BIT_REGZ (i_rm i)) (r := fun b => u32 (Z.lor (Z.shiftl a (c mod 32)) (Z.shiftr b (u32 (32 - c mod 32)))))
    (cf := fun b => Z.land (Z.shiftr a (u32 (32 - c mod 32))) 1) (of_ := fun b => Z.lxor (Z.land (Z.shiftr a (u32 (32 - c mod 32))) 1)
      (Z.shiftr (u32 (Z.lor (Z.shiftl a (c mod 32)) (Z.shiftr b (u32 (32 - c mod 32))))) 31));
    [reflexivity|intros ?; reference_unfold; unfold_widths; eauto with refines|width_tac|reflexivity|assumption|assumption|].
  shiftd_values shld32_expr. apply (left_overflow 32); [lia|]. apply shiftd_range. lia.
Qed.

Lemma SHRD_EwGwM_implements : implements (SHRD_EwGwM, ref_shiftd shiftd_code_value false false 16 Mem).
Proof.
  shift_open. count_step. count_norm.
  apply (refines_reassoc_l _ (resolve i) (fun e => read_RMW_virtual_32 2 (i_seg i) e)).
  operand_step 16 Mem. zero_test; [by apply shiftd_zero|].
  apply (shiftd_tail false 16) with (rd := BX_READ_16BIT_REG (i_nnn i)) (st := write_RMW_virtual_word) (r := fun b => u16 (if 16 <? c mod 32 then
        u32 (Z.lor (Z.shiftr (Z.lor (Z.shiftl b 16) a) (c mod 32)) (Z.shiftl a (u32 (32 - c mod 32))))
      else Z.shiftr (Z.lor (Z.shiftl b 16) a) (c mod 32)))
    (cf := fun b => Z.land (Z.shiftr a (u32 (c mod 32 - 1))) 1) (of_ := fun b => let r := u16 (if 16 <? c mod 32 then
        u32 (Z.lor (Z.shiftr (Z.lor (Z.shiftl b 16) a) (c mod 32)) (Z.shiftl a (u32 (32 - c mod 32))))
      else Z.shiftr (Z.lor (Z.shiftl b 16) a) (c mod 32)) in
      Z.land (Z.shiftr (u16 (Z.lxor (Z.shiftl r 1) r)) 15) 1);
    [reflexivity|intros ?; reference_unfold; unfold_widths; eauto with refines|width_tac|reflexivity|assumption|assumption|].
  shiftd_values shrd16_expr. apply (right_overflow_wrap 16). lia.
Qed.

Lemma SHRD_EwGwR_implements : implements (SHRD_EwGwR, ref_shiftd shiftd_code_value false false 16 (Reg i_rm)).
Proof.
  reg_intro. zero_test; [apply shiftd_zero_skip; [lia|done]|]. operand_step 16 (Reg i_rm).
  apply (shiftd_tail false 16) with (rd := BX_READ_16BIT_REG (i_nnn i)) (st := BX_WRITE_16BIT_REG (i_rm i)) (r := fun b => u16 (if 16 <? c mod 32 then
        u32 (Z.lor (Z.shiftr (Z.lor (Z.shiftl b 16) a) (c mod 32)) (Z.shiftl a (u32 (32 - c mod 32))))
      else Z.shiftr (Z.lor (Z.shiftl b 16) a) (c mod 32)))
    (cf := fun b => Z.land (Z.shiftr a (u32 (c mod 32 - 1))) 1) (of_ := fun b => let r := u16 (if 16 <? c mod 32 then
        u32 (Z.lor (Z.shiftr (Z.lor (Z.shiftl b 16) a) (c mod 32)) (Z.shiftl a (u32 (32 - c mod 32))))
      else Z.shiftr (Z.lor (Z.shiftl b 16) a) (c mod 32)) in
      Z.land (Z.shiftr (u16 (Z.lxor (Z.shiftl r 1) r)) 15) 1);
    [reflexivity|intros ?; reference_unfold; unfold_widths; eauto with refines|width_tac|reflexivity|assumption|assumption|].
  shiftd_values shrd16_expr. apply (right_overflow_wrap 16). lia.
Qed.

Lemma SHRD_EdGdM_implements : implements (SHRD_EdGdM, ref_shiftd shiftd_code_value false true 32 Mem).
Proof.
  mem_intro. zero_test; [by apply shiftd_zero|].
  apply (shiftd_tail false 32) with (rd := BX_READ_32BIT_REG (i_nnn i)) (st := write_RMW_virtual 4) (r := fun b => u32 (Z.lor (Z.shiftl b (u32 (32 - c mod 32))) (Z.shiftr a (c mod 32))))
    (cf := fun b => Z.land (Z.shiftr a (u32 (c mod 32 - 1))) 1) (of_ := fun b => let r := u32 (Z.lor (Z.shiftl b (u32 (32 - c mod 32))) (Z.shiftr a (c mod 32))) in
      Z.shiftr (u32 (Z.lxor (Z.shiftl r 1) r)) 31);
    [reflexivity|intros ?; reference_unfold; unfold_widths; eauto with refines|width_tac|reflexivity|assumption|assumption|].
  shiftd_values shrd32_expr. apply (right_overflow_top 32). lia.
Qed.

Lemma SHRD_EdGdR_implements : implements (SHRD_EdGdR, ref_shiftd shiftd_code_value false false 32 (Reg i_rm)).
Proof.
  reg_intro. zero_test; [apply shiftd_zero_skip; [lia|done]|]. operand_step 32 (Reg i_rm).
  apply (shiftd_tail false 32) with (rd := BX_READ_32BIT_REG (i_nnn i)) (st := BX_WRITE_32BIT_REGZ (i_rm i)) (r := fun b => u32 (Z.lor (Z.shiftl b (u32 (32 - c mod 32))) (Z.shiftr a (c mod 32))))
    (cf := fun b => Z.land (Z.shiftr a (u32 (c mod 32 - 1))) 1) (of_ := fun b => let r := u32 (Z.lor (Z.shiftl b (u32 (32 - c mod 32))) (Z.shiftr a (c mod 32))) in
      Z.shiftr (u32 (Z.lxor (Z.shiftl r 1) r)) 31);
    [reflexivity|intros ?; reference_unfold; unfold_widths; eauto with refines|width_tac|reflexivity|assumption|assumption|].
  shiftd_values shrd32_expr. apply (right_overflow_top 32). lia.
Qed.

(** ** All of them *)

Definition single_shift_table : list (handler * handler) :=
  [(ROL_Eb, ref_shift ROL 8 RM);
   (ROL_Ew, ref_shift ROL 16 RM);
   (ROR_Eb, ref_shift ROR 8 RM);
   (ROR_Ew, ref_shift ROR 16 RM);
   (ROL_EdM, ref_shift ROL 32 Mem);
   (ROL_EdR, ref_shift ROL 32 (Reg i_rm));
   (ROR_EdM, ref_shift ROR 32 Mem);
   (ROR_EdR, ref_shift ROR 32 (Reg i_rm));
   (RCL_Eb, ref_shift RCL 8 RM);
   (RCL_Ew, ref_shift RCL 16 RM);
   (RCL_EdM, ref_shift RCL 32 Mem);
   (RCL_EdR, ref_shift RCL 32 (Reg i_rm));
   (RCR_Eb, ref_shift RCR 8 RM);
   (RCR_Ew, ref_shift RCR 16 RM);
   (RCR_EdM, ref_shift RCR 32 Mem);
   (RCR_EdR, ref_shift RCR 32 (Reg i_rm));
   (SHL_Eb, ref_shift SHL 8 RM);
   (SHL_Ew, ref_shift SHL 16 RM);
   (SHL_EdM, ref_shift SHL 32 Mem);
   (SHL_EdR, ref_shift SHL 32 (Reg i_rm));
   (SHR_Eb, ref_shift SHR 8 RM);
   (SHR_Ew, ref_shift SHR 16 RM);
   (SHR_EdM, ref_shift SHR 32 Mem);
   (SHR_EdR, ref_shift SHR 32 (Reg i_rm));
   (SAR_Eb, ref_shift SAR 8 RM);
   (SAR_Ew, ref_shift SAR 16 RM);
   (SAR_EdM, ref_shift SAR 32 Mem);
   (SAR_EdR, ref_shift SAR 32 (Reg i_rm)) ].

(** The double shifts: to the left, whether the operand is read before the count,
    the width, and where the operand is. *)
Definition double_shifts : list (handler * (bool * bool * Z * place)) :=
  [(SHLD_EwGwM, (true, false, 16, Mem)); (SHLD_EwGwR, (true, false, 16, Reg i_rm));
   (SHLD_EdGdM, (true, true, 32, Mem)); (SHLD_EdGdR, (true, false, 32, Reg i_rm));
   (SHRD_EwGwM, (false, false, 16, Mem)); (SHRD_EwGwR, (false, false, 16, Reg i_rm));
   (SHRD_EdGdM, (false, true, 32, Mem)); (SHRD_EdGdR, (false, false, 32, Reg i_rm))].
Definition double_shift_table : list (handler * handler) :=
  [(SHLD_EwGwM, ref_shiftd shiftd_code_value true false 16 Mem);
   (SHLD_EwGwR, ref_shiftd shiftd_code_value true false 16 (Reg i_rm));
   (SHLD_EdGdM, ref_shiftd shiftd_code_value true true 32 Mem);
   (SHLD_EdGdR, ref_shiftd shiftd_code_value true false 32 (Reg i_rm));
   (SHRD_EwGwM, ref_shiftd shiftd_code_value false false 16 Mem);
   (SHRD_EwGwR, ref_shiftd shiftd_code_value false false 16 (Reg i_rm));
   (SHRD_EdGdM, ref_shiftd shiftd_code_value false true 32 Mem);
   (SHRD_EdGdR, ref_shiftd shiftd_code_value false false 32 (Reg i_rm))].
Definition shift_table : list (handler * handler) := single_shift_table ++ double_shift_table.

#[export] Hint Resolve ROL_Eb_implements ROL_Ew_implements ROR_Eb_implements ROR_Ew_implements
  ROL_EdM_implements ROL_EdR_implements ROR_EdM_implements ROR_EdR_implements RCL_Eb_implements
  RCL_Ew_implements RCL_EdM_implements RCL_EdR_implements RCR_Eb_implements RCR_Ew_implements
  RCR_EdM_implements RCR_EdR_implements SHL_Eb_implements SHL_Ew_implements SHL_EdM_implements
  SHL_EdR_implements SHR_Eb_implements SHR_Ew_implements SHR_EdM_implements SHR_EdR_implements
  SAR_Eb_implements SAR_Ew_implements SAR_EdM_implements SAR_EdR_implements
  SHLD_EwGwM_implements SHLD_EwGwR_implements SHLD_EdGdM_implements SHLD_EdGdR_implements
  SHRD_EwGwM_implements SHRD_EwGwR_implements SHRD_EdGdM_implements SHRD_EdGdR_implements :
  implements.

Lemma single_shift_implements : Forall implements single_shift_table.
Proof. table_tac ltac:(solve [eauto 1 with implements]). Qed.
Lemma double_shift_implements : Forall implements double_shift_table.
Proof. table_tac ltac:(solve [eauto 1 with implements]). Qed.
Lemma shift_implements : Forall implements shift_table.
Proof. apply Forall_app_2; [apply single_shift_implements|apply double_shift_implements]. Qed.

(** The count a double shift uses. *)
Definition shiftd_amount (left : bool) (i : bxInstruction_c) (s : machine) : Z :=
  (if i_b1 i =? (if left then 0xa4 else 0xac) then Ib i else rl (reg 1 s)) mod 32.

Lemma shiftd_tail_doc left w dst a c i s :
  width w -> 0 <= a < 2 ^ w -> c mod 32 <= w ->
  ref_shiftd_tail shiftd_code_value left w dst a c i s = ref_shiftd_tail shiftd_value left w dst a c i s.
Proof.
  intros Hw Ha Hc. unfold ref_shiftd_tail. cbv zeta. destruct (Z.eqb_spec (c mod 32) 0); [done|].
  pose proof (Z.mod_pos_bound c 32). unfold mbind at 1 3, M_bind at 1 3.
  pose proof (read_reg_yields w Hw (i_nnn i) s) as Hy.
  destruct (read_reg w (i_nnn i) s) as [b s'| |]; [|done|done]. specialize (Hy b s' eq_refl).
  rewrite shiftd_doc; [done|by destruct Hw as [->|[->| ->]]|done|done|lia].
Qed.
Lemma shiftd_count_eq left i s :
  exists c, shiftd_count left i s = Ret c s /\ c mod 32 = shiftd_amount left i s.
Proof. unfold shiftd_count, shiftd_amount, CL. destruct (i_b1 i =? _); by eexists. Qed.
Lemma shiftd_doc_row left first w dst i s :
  width w -> dst = Mem \/ dst = RM \/ dst = Reg i_rm -> (first = true -> w = 32) -> shiftd_amount left i s <= w ->
  ref_shiftd shiftd_code_value left first w dst i s = ref_shiftd shiftd_value left first w dst i s.
Proof.
  intros Hw Hd Hf Hn. unfold ref_shiftd. destruct first.
  - rewrite (Hf eq_refl) in *. unfold mbind, M_bind. pose proof (fetch_rmw_yields 32 Hw dst i Hd s) as Hy.
    destruct (fetch_rmw 32 dst i s) as [a s1| |]; [|done|done]. specialize (Hy a s1 eq_refl).
    destruct (shiftd_count_eq left i s1) as (c & -> & _).
    apply shiftd_tail_doc; [done|done|]. pose proof (Z.mod_pos_bound c 32). lia.
  - destruct (shiftd_count_eq left i s) as (c & Hc & En). rewrite !(bind_Ret _ _ _ _ _ Hc).
    unfold mbind, M_bind. pose proof (fetch_rmw_yields w Hw dst i Hd s) as Hy.
    destruct (fetch_rmw w dst i s) as [a s1| |]; [|done|done]. specialize (Hy a s1 eq_refl).
    apply shiftd_tail_doc; [done|done|lia].
Qed.

(** What is above 16 in the 16-bit forms: the code brings the first operand in
    again where the comment says the second. *)
Lemma shld16_beyond :
  shiftd_code_value true 16 0x1234 0xabcd 20 = (0xbcd1, false) /\ shiftd_value true 16 0x1234 0xabcd 20 = (0xbcda, false).
Proof. split; reflexivity. Qed.

Lemma double_shift_shapes :
  Forall (fun p : handler * (bool * bool * Z * place) => let '(_, (_, first, w, dst)) := p in
    width w /\ (dst = Mem \/ dst = RM \/ dst = Reg i_rm) /\ (first = true -> w = 32)) double_shifts.
Proof. table_tac ltac:(split; [width_tac|split; [tauto|done]]). Qed.

(** C20: every rotate and shift of cpu/shift8.cc, cpu/shift16.cc and
    cpu/shift32.cc refines its instruction, for every operand and every count, but
    for the 16-bit double shifts, for which the counts are those up to 16 (above, the
    code and its comments differ).  The rotates are repeated one-bit rotations
    (through the carry flag for RCL and RCR, modulo the width plus one), the shifts
    multiplications and divisions by powers of two, the double shifts act on both
    operands; CF is the last bit out, OF as the architecture defines it for a count
    of one, and a count of zero changes nothing. *)
Theorem shift_correct :
  Forall (fun p => forall i s, omap_state norm (p.1 i s) = p.2 i (norm s)) single_shift_table /\
  Forall (fun p : handler * (bool * bool * Z * place) => let '(h, (l, first, w, dst)) := p in forall i s,
      shiftd_amount l i s <= w ->
      omap_state norm (h i s) = ref_shiftd shiftd_value l first w dst i (norm s)) double_shifts.
Proof.
  split; [exact single_shift_implements|]. pose proof double_shift_implements as H.
  change double_shift_table with ((fun p : handler * (bool * bool * Z * place) => let '(h, (l, first, w, dst)) := p in
    (h, ref_shiftd shiftd_code_value l first w dst)) <$> double_shifts) in H. rewrite Forall_fmap in H. eapply Forall_impl; [apply Forall_and; exact (conj H double_shift_shapes)|].
  intros [h [[[l first] w] dst]] [Hi (Hw & Hd & Hf)] i s Hn. rewrite <-shiftd_doc_row; [apply (Hi i s)|done..].
Qed.

Lemma shift_keeps_wf : Forall keeps_wf shift_table.
Proof. apply Forall_app_2; table_tac wf_handler. Qed.
Lemma shift_is_precise : Forall is_precise shift_table.
Proof. apply Forall_app_2; table_tac precise_handler. Qed.

(** ** A rotate and its inverse *)

Lemma rotl_rotr n a : 0 <= a < 2 ^ 32 -> Nat.iter n (rotr1 32) (Nat.iter n (rotl1 32) a) = a.
Proof.
  intros Ha. destruct (rotl_iter 32 a n) as [Hl Hbl]; [lia..|].
  destruct (rotr_iter 32 (Nat.iter n (rotl1 32) a) n) as [Hr Hbr]; [lia..|].
  apply Z.bits_inj'. intros j Hj. destruct (Z.ltb_spec j 32).
  - rewrite Hbr, Hbl by (try apply Z.mod_pos_bound; lia). f_equal.
    rewrite Zminus_mod_idemp_l. rewrite Z.mod_small; lia.
  - by rewrite !(testbit_above 32) by lia.
Qed.

(** The registers after the immediate form of a 32-bit rotate. *)
Lemma rotate_regs h op f i t :
  implements (h, ref_shift op 32 (Reg i_rm)) -> (op = ROL /\ f = rotl1 32) \/ (op = ROR /\ f = rotr1 32) ->
  i_b1 i <> 0xd3 ->
  exists t', h i t = Ret tt t' /\
    gen_reg t' = if Ib i mod 32 =? 0 then gen_reg t
      else <[Z.to_nat (i_rm i) := u32 (Nat.iter (Z.to_nat (Ib i mod 32)) f (erx (reg (i_rm i) t)))]> (gen_reg t).
Proof.
  intros Hh Hop Hb. specialize (Hh i t). cbn [fst snd] in Hh.
  unfold ref_shift, shift_count in Hh. cbn [Z.eqb Pos.eqb] in Hh.
  rewrite (proj2 (Z.eqb_neq _ _) Hb) in Hh.
  change (omap_state norm (h i t) =
    ref_shift_tail op 32 (Reg i_rm) (erx (reg (i_rm i) t)) (Ib i) i (norm t)) in Hh.
  unfold ref_shift_tail in Hh. pose proof (Z.mod_pos_bound (Ib i) 32).
  destruct Hop as [[-> ->]|[-> ->]]; cbn [shift_amount shift_stores shift_carry_in] in Hh;
    rewrite (Z.mod_small (Ib i mod 32) 32) in Hh by lia;
    (destruct (Ib i mod 32 =? 0);
     [|cbn [negb when] in Hh]); (destruct (h i t) as [[] t'| |]; [|done..]);
    apply Ret_inj in Hh as [_ Hh]; exists t'; (split; [done|]);
    change (gen_reg t') with (gen_reg (norm t')); rewrite Hh; reflexivity.
Qed.

(** ROL and then ROR by the same immediate count restores every register. *)
Theorem rotate_roundtrip i s :
  wf s -> i_b1 i <> 0xd3 -> 0 <= i_rm i < 8 ->
  exists s', (ROL_EdR i;; ROR_EdR i) s = Ret tt s' /\ gen_reg s' = gen_reg s.
Proof.
  intros ((Hl & Hr) & _) Hb Hi. unfold mbind, M_bind.
  destruct (rotate_regs _ ROL (rotl1 32) i s ROL_EdR_implements) as (s1 & -> & E1); [by left|done|].
  destruct (rotate_regs _ ROR (rotr1 32) i s1 ROR_EdR_implements) as (s2 & -> & E2); [by right|done|].
  exists s2. split; [done|]. rewrite E2. destruct (Ib i mod 32 =? 0); [done|].
  assert (0 <= reg (i_rm i) s < 2 ^ 32) as Ha by (by apply nth_in32).
  unfold erx in *. rewrite (wrap_small 32 (reg _ s)) in E1 by done.
  destruct (rotl_iter 32 (reg (i_rm i) s) (Z.to_nat (Ib i mod 32))) as [Hrl _]; [lia|done|].
  rewrite E1, list_insert_insert_eq. unfold reg at 1. rewrite E1, nth_lookup, list_lookup_insert_eq by lia.
  cbn [from_option id]. rewrite !(wrap_small 32 (Nat.iter _ (rotl1 32) _)), rotl_rotr, wrap_small by done.
  apply list_insert_id. unfold reg. rewrite nth_lookup.
  destruct (lookup_lt_is_Some_2 (gen_reg s) (Z.to_nat (i_rm i))) as [v ->]; [lia|done].
Qed.
Lemma rotate_roundtrip_witness :
  let s := demo_machine [1; 0x80000001; 2; 3; 4; 5; 6; 7; 8; 9; 10] in
  exists s', (ROL_EdR (demo_instruction 0xc1 0 1 5);; ROR_EdR (demo_instruction 0xc1 0 1 5)) s = Ret tt s' /\
    gen_reg s' = gen_reg s.
Proof.
  intros s. apply (rotate_roundtrip (demo_instruction 0xc1 0 1 5) s); [|done|done].
  apply demo_machine_wf. split; [done|]. repeat constructor; done.
Defined.
