(* ===== verification/Bit.v ===== *)
(** * Bit: conditions, bit tests, scans and byte swaps

    cpu/bit.cc, cpu/bit16.cc and cpu/bit32.cc: SETcc, BT, BTS, BTR, BTC, BSF,
    BSR, POPCNT, BSWAP and MOVBE, and the instructions they implement. *)
From stdpp Require Import base numbers list gmap.
From Stdlib Require Import ZArith Lia.
From S2P Require Import Prelude Machine LazyFlags Memory Paging Access Regs Precise Reference ShiftSpec.

Local Open Scope Z_scope.

(** ** Loops

    The [while] loops of the bit scans, with the number of iterations left;
    [None] when it is used up. *)

Fixpoint BSF_loop (w : Z) (fuel : nat) (op1 op2 : Z) : option Z :=
  if Z.land op2 0x01 =? 0 then
    match fuel with
    | O => None
    | S fuel => BSF_loop w fuel (wrap w (op1 + 1)) (Z.shiftr op2 1)
    end
  else Some op1.

Fixpoint BSR_loop (w : Z) (fuel : nat) (op1 op2 : Z) : option Z :=
  if Z.land op2 (2 ^ (w - 1)) =? 0 then
    match fuel with
    | O => None
    | S fuel => BSR_loop w fuel (wrap w (op1 - 1)) (wrap w (Z.shiftl op2 1))
    end
  else Some op1.

Fixpoint POPCNT_loop (w : Z) (fuel : nat) (op1 op2 : Z) : option Z :=
  if op2 =? 0 then Some op1 else
  match fuel with
  | O => None
  | S fuel =>
      POPCNT_loop w fuel (if nz (Z.land op2 1) then wrap w (op1 + 1) else op1) (Z.shiftr op2 1)
  end.

(** ** cpu/bit.cc *)

Definition SETO_EbM (i : bxInstruction_c) : Mach unit :=
  eaddr ← resolve i;
  result_8 ← gets (getB_flag OF);
  let result_8 := u8 result_8 in
  write_virtual_byte_32 (i_seg i) eaddr result_8.

Definition SETO_EbR (i : bxInstruction_c) : Mach unit :=
  of_ ← gets (getB_flag OF);
  BX_WRITE_8BIT_REGx (i_rm i) (u8 of_).

Definition SETNO_EbM (i : bxInstruction_c) : Mach unit :=
  eaddr ← resolve i;
  of_ ← gets (getB_flag OF);
  let result_8 := Z.b2z (negb (nz of_)) in
  write_virtual_byte_32 (i_seg i) eaddr result_8.

Definition SETNO_EbR (i : bxInstruction_c) : Mach unit :=
  of_ ← gets (getB_flag OF);
  BX_WRITE_8BIT_REGx (i_rm i) (Z.b2z (negb (nz of_))).

Definition SETB_EbM (i : bxInstruction_c) : Mach unit :=
  eaddr ← resolve i;
  result_8 ← gets (getB_flag CF);
  let result_8 := u8 result_8 in
  write_virtual_byte_32 (i_seg i) eaddr result_8.

Definition SETB_EbR (i : bxInstruction_c) : Mach unit :=
  cf_ ← gets (getB_flag CF);
  BX_WRITE_8BIT_REGx (i_rm i) (u8 cf_).

Definition SETNB_EbM (i : bxInstruction_c) : Mach unit :=
  eaddr ← resolve i;
  cf_ ← gets (getB_flag CF);
  let result_8 := Z.b2z (negb (nz cf_)) in
  write_virtual_byte_32 (i_seg i) eaddr result_8.

Definition SETNB_EbR (i : bxInstruction_c) : Mach unit :=
  cf_ ← gets (getB_flag CF);
  BX_WRITE_8BIT_REGx (i_rm i) (Z.b2z (negb (nz cf_))).

Definition SETZ_EbM (i : bxInstruction_c) : Mach unit :=
  eaddr ← resolve i;
  result_8 ← gets (getB_flag ZF);
  let result_8 := u8 result_8 in
  write_virtual_byte_32 (i_seg i) eaddr result_8.

Definition SETZ_EbR (i : bxInstruction_c) : Mach unit :=
  zf_ ← gets (getB_flag ZF);
  BX_WRITE_8BIT_REGx (i_rm i) (u8 zf_).

Definition SETNZ_EbM (i : bxInstruction_c) : Mach unit :=
  eaddr ← resolve i;
  zf_ ← gets (getB_flag ZF);
  let result_8 := Z.b2z (negb (nz zf_)) in
  write_virtual_byte_32 (i_seg i) eaddr result_8.

Definition SETNZ_EbR (i : bxInstruction_c) : Mach unit :=
  zf_ ← gets (getB_flag ZF);
  BX_WRITE_8BIT_REGx (i_rm i) (Z.b2z (negb (nz zf_))).

Definition SETBE_EbM (i : bxInstruction_c) : Mach unit :=
  eaddr ← resolve i;
  cf_ ← gets (getB_flag CF);
  zf_ ← gets (getB_flag ZF);
  let result_8 := u8 (Z.lor cf_ zf_) in
  write_virtual_byte_32 (i_seg i) eaddr result_8.

Definition SETBE_EbR (i : bxInstruction_c) : Mach unit :=
  cf_ ← gets (getB_flag CF);
  zf_ ← gets (getB_flag ZF);
  BX_WRITE_8BIT_REGx (i_rm i) (u8 (Z.lor cf_ zf_)).

Definition SETNBE_EbM (i : bxInstruction_c) : Mach unit :=
  eaddr ← resolve i;
  cf_ ← gets (getB_flag CF);
  zf_ ← gets (getB_flag ZF);
  let result_8 := Z.b2z (negb (nz (Z.lor cf_ zf_))) in
  write_virtual_byte_32 (i_seg i) eaddr result_8.

Definition SETNBE_EbR (i : bxInstruction_c) : Mach unit :=
  cf_ ← gets (getB_flag CF);
  zf_ ← gets (getB_flag ZF);
  BX_WRITE_8BIT_REGx (i_rm i) (Z.b2z (negb (nz (Z.lor cf_ zf_)))).

Definition SETS_EbM (i : bxInstruction_c) : Mach unit :=
  eaddr ← resolve i;
  result_8 ← gets (getB_flag SF);
  let result_8 := u8 result_8 in
  write_virtual_byte_32 (i_seg i) eaddr result_8.

Definition SETS_EbR (i : bxInstruction_c) : Mach unit :=
  sf_ ← gets (getB_flag SF);
  BX_WRITE_8BIT_REGx (i_rm i) (u8 sf_).

Definition SETNS_EbM (i : bxInstruction_c) : Mach unit :=
  eaddr ← resolve i;
  sf_ ← gets (getB_flag SF);
  let result_8 := Z.b2z (negb (nz sf_)) in
  write_virtual_byte_32 (i_seg i) eaddr result_8.

Definition SETNS_EbR (i : bxInstruction_c) : Mach unit :=
  sf_ ← gets (getB_flag SF);
  BX_WRITE_8BIT_REGx (i_rm i) (Z.b2z (negb (nz sf_))).

Definition SETP_EbM (i : bxInstruction_c) : Mach unit :=
  eaddr ← resolve i;
  result_8 ← gets (getB_flag PF);
  let result_8 := u8 result_8 in
  write_virtual_byte_32 (i_seg i) eaddr result_8.

Definition SETP_EbR (i : bxInstruction_c) : Mach unit :=
  pf_ ← gets (getB_flag PF);
  BX_WRITE_8BIT_REGx (i_rm i) (u8 pf_).

Definition SETNP_EbM (i : bxInstruction_c) : Mach unit :=
  eaddr ← resolve i;
  pf_ ← gets (getB_flag PF);
  let result_8 := Z.b2z (negb (nz pf_)) in
  write_virtual_byte_32 (i_seg i) eaddr result_8.

Definition SETNP_EbR (i : bxInstruction_c) : Mach unit :=
  pf_ ← gets (getB_flag PF);
  BX_WRITE_8BIT_REGx (i_rm i) (Z.b2z (negb (nz pf_))).

Definition SETL_EbM (i : bxInstruction_c) : Mach unit :=
  eaddr ← resolve i;
  sf_ ← gets (getB_flag SF);
  of_ ← gets (getB_flag OF);
  let result_8 := u8 (Z.lxor sf_ of_) in
  write_virtual_byte_32 (i_seg i) eaddr result_8.

Definition SETL_EbR (i : bxInstruction_c) : Mach unit :=
  sf_ ← gets (getB_flag SF);
  of_ ← gets (getB_flag OF);
  BX_WRITE_8BIT_REGx (i_rm i) (u8 (Z.lxor sf_ of_)).

Definition SETNL_EbM (i : bxInstruction_c) : Mach unit :=
  eaddr ← resolve i;
  sf_ ← gets (getB_flag SF);
  of_ ← gets (getB_flag OF);
  let result_8 := Z.b2z (negb (nz (Z.lxor sf_ of_))) in
  write_virtual_byte_32 (i_seg i) eaddr result_8.

Definition SETNL_EbR (i : bxInstruction_c) : Mach unit :=
  sf_ ← gets (getB_flag SF);
  of_ ← gets (getB_flag OF);
  BX_WRITE_8BIT_REGx (i_rm i) (Z.b2z (negb (nz (Z.lxor sf_ of_)))).

Definition SETLE_EbM (i : bxInstruction_c) : Mach unit :=
  eaddr ← resolve i;
  zf_ ← gets (getB_flag ZF);
  sf_ ← gets (getB_flag SF);
  of_ ← gets (getB_flag OF);
  let result_8 := u8 (Z.lor zf_ (Z.lxor sf_ of_)) in
  write_virtual_byte_32 (i_seg i) eaddr result_8.

Definition SETLE_EbR (i : bxInstruction_c) : Mach unit :=
  zf_ ← gets (getB_flag ZF);
  sf_ ← gets (getB_flag SF);
  of_ ← gets (getB_flag OF);
  let result_8 := u8 (Z.lor zf_ (Z.lxor sf_ of_)) in
  BX_WRITE_8BIT_REGx (i_rm i) result_8.

Definition SETNLE_EbM (i : bxInstruction_c) : Mach unit :=
  eaddr ← resolve i;
  zf_ ← gets (getB_flag ZF);
  sf_ ← gets (getB_flag SF);
  of_ ← gets (getB_flag OF);
  let result_8 := Z.b2z (negb (nz (Z.lor zf_ (Z.lxor sf_ of_)))) in
  write_virtual_byte_32 (i_seg i) eaddr result_8.

Definition SETNLE_EbR (i : bxInstruction_c) : Mach unit :=
  zf_ ← gets (getB_flag ZF);
  sf_ ← gets (getB_flag SF);
  of_ ← gets (getB_flag OF);
  let result_8 := Z.b2z (negb (nz (Z.lor zf_ (Z.lxor sf_ of_)))) in
  BX_WRITE_8BIT_REGx (i_rm i) result_8.

Definition BSWAP_RX (i : bxInstruction_c) : Mach unit :=
  BX_WRITE_16BIT_REG (opcodeReg i) 0.

Definition BSWAP_ERX (i : bxInstruction_c) : Mach unit :=
  val32 ← BX_READ_32BIT_REG (opcodeReg i);
  let b0 := Z.land val32 0xff in
  let val32 := Z.shiftr val32 8 in
  let b1 := Z.land val32 0xff in
  let val32 := Z.shiftr val32 8 in
  let b2 := Z.land val32 0xff in
  let val32 := Z.shiftr val32 8 in
  let b3 := val32 in
  let val32 := u32 (Z.lor (Z.lor (Z.lor (Z.shiftl b0 24) (Z.shiftl b1 16)) (Z.shiftl b2 8)) b3) in
  BX_WRITE_32BIT_REGZ (opcodeReg i) val32.

Definition MOVBE_GwEw (i : bxInstruction_c) : Mach unit :=
  val16 ← (if nz (modC0 i) then
      BX_READ_16BIT_REG (i_rm i)
     else
      eaddr ← resolve i;
      read_virtual_word_32 (i_seg i) eaddr);
  let b0 := Z.land val16 0xff in
  let val16 := Z.shiftr val16 8 in
  let b1 := val16 in
  let val16 := u16 (Z.lor (Z.shiftl b0 8) b1) in
  BX_WRITE_16BIT_REG (i_nnn i) val16.

Definition MOVBE_EwGw (i : bxInstruction_c) : Mach unit :=
  val16 ← BX_READ_16BIT_REG (i_nnn i);
  let b0 := Z.land val16 0xff in
  let val16 := Z.shiftr val16 8 in
  let b1 := val16 in
  let val16 := u16 (Z.lor (Z.shiftl b0 8) b1) in
  if nz (modC0 i) then
    BX_WRITE_16BIT_REG (i_rm i) val16
  else
    eaddr ← resolve i;
    write_virtual_word_32 (i_seg i) eaddr val16.

Definition MOVBE_GdEd (i : bxInstruction_c) : Mach unit :=
  val32 ← (if nz (modC0 i) then
      BX_READ_32BIT_REG (i_rm i)
     else
      eaddr ← resolve i;
      read_virtual_dword_32 (i_seg i) eaddr);
  let b0 := Z.land val32 0xff in
  let val32 := Z.shiftr val32 8 in
  let b1 := Z.land val32 0xff in
  let val32 := Z.shiftr val32 8 in
  let b2 := Z.land val32 0xff in
  let val32 := Z.shiftr val32 8 in
  let b3 := val32 in
  let val32 := u32 (Z.lor (Z.lor (Z.lor (Z.shiftl b0 24) (Z.shiftl b1 16)) (Z.shiftl b2 8)) b3) in
  BX_WRITE_32BIT_REGZ (i_nnn i) val32.

Definition MOVBE_EdGd (i : bxInstruction_c) : Mach unit :=
  val32 ← BX_READ_32BIT_REG (i_nnn i);
  let b0 := Z.land val32 0xff in
  let val32 := Z.shiftr val32 8 in
  let b1 := Z.land val32 0xff in
  let val32 := Z.shiftr val32 8 in
  let b2 := Z.land val32 0xff in
  let val32 := Z.shiftr val32 8 in
  let b3 := val32 in
  let val32 := u32 (Z.lor (Z.lor (Z.lor (Z.shiftl b0 24) (Z.shiftl b1 16)) (Z.shiftl b2 8)) b3) in
  if nz (modC0 i) then
    BX_WRITE_32BIT_REGZ (i_rm i) val32
  else
    eaddr ← resolve i;
    write_virtual_dword_32 (i_seg i) eaddr val32.

(** ** cpu/bit16.cc *)

Definition BSF_GwEwR (i : bxInstruction_c) : Mach unit :=
  op2_16 ← BX_READ_16BIT_REG (i_rm i);
  if op2_16 =? 0 then assert_flag ZF
  else
    match BSF_loop 16 15 0 op2_16 with
    | Some op1_16 =>
        SET_FLAGS_OSZAPC_LOGIC_16 op1_16;;
        clear_flag ZF;;
        BX_WRITE_16BIT_REG (i_nnn i) op1_16
    | None => crash
    end.

Definition BSR_GwEwR (i : bxInstruction_c) : Mach unit :=
  op2_16 ← BX_READ_16BIT_REG (i_rm i);
  if op2_16 =? 0 then assert_flag ZF
  else
    match BSR_loop 16 15 15 op2_16 with
    | Some op1_16 =>
        SET_FLAGS_OSZAPC_LOGIC_16 op1_16;;
        clear_flag ZF;;
        BX_WRITE_16BIT_REG (i_nnn i) op1_16
    | None => crash
    end.

Definition BT_EwGwM (i : bxInstruction_c) : Mach unit :=
  eaddr ← resolve i;
  op2_16 ← BX_READ_16BIT_REG (i_nnn i);
  let index := Z.land op2_16 0x0f in
  let displacement32 := Z.quot (s16 (Z.land op2_16 0xfff0)) 16 in
  let op1_addr := u32 (eaddr + (2 * displacement32)) in
  let op1_addr := if negb (nz (as32L i)) then u16 op1_addr else op1_addr in
  op1_16 ← read_virtual_word_32 (i_seg i) op1_addr;
  set_flag CF (Z.land (Z.shiftr op1_16 index) 0x01).

Definition BT_EwGwR (i : bxInstruction_c) : Mach unit :=
  op1_16 ← BX_READ_16BIT_REG (i_rm i);
  op2_16 ← BX_READ_16BIT_REG (i_nnn i);
  let op2_16 := Z.land op2_16 0x0f in
  set_flag CF (Z.land (Z.shiftr op1_16 op2_16) 0x01).

Definition BTS_EwGwM (i : bxInstruction_c) : Mach unit :=
  eaddr ← resolve i;
  op2_16 ← BX_READ_16BIT_REG (i_nnn i);
  let index := Z.land op2_16 0x0f in
  let displacement32 := Z.quot (s16 (Z.land op2_16 0xfff0)) 16 in
  let op1_addr := u32 (eaddr + (2 * displacement32)) in
  let op1_addr := if negb (nz (as32L i)) then u16 op1_addr else op1_addr in
  op1_16 ← read_RMW_virtual_word_32 (i_seg i) op1_addr;
  let bit_i := Z.land (Z.shiftr op1_16 index) 0x01 in
  let op1_16 := u16 (Z.lor op1_16 (Z.shiftl 1 index)) in
  write_RMW_virtual_word op1_16;;
  set_flag CF bit_i.

Definition BTS_EwGwR (i : bxInstruction_c) : Mach unit :=
  op1_16 ← BX_READ_16BIT_REG (i_rm i);
  op2_16 ← BX_READ_16BIT_REG (i_nnn i);
  let op2_16 := Z.land op2_16 0x0f in
  set_flag CF (Z.land (Z.shiftr op1_16 op2_16) 0x01);;
  let op1_16 := u16 (Z.lor op1_16 (Z.shiftl 1 op2_16)) in
  BX_WRITE_16BIT_REG (i_rm i) op1_16.

Definition BTR_EwGwM (i : bxInstruction_c) : Mach unit :=
  eaddr ← resolve i;
  op2_16 ← BX_READ_16BIT_REG (i_nnn i);
  let index := Z.land op2_16 0x0f in
  let displacement32 := Z.quot (s16 (Z.land op2_16 0xfff0)) 16 in
  let op1_addr := u32 (eaddr + (2 * displacement32)) in
  let op1_addr := if negb (nz (as32L i)) then u16 op1_addr else op1_addr in
  op1_16 ← read_RMW_virtual_word_32 (i_seg i) op1_addr;
  let temp_cf := Z.land (Z.shiftr op1_16 index) 0x01 in
  let op1_16 := Z.land op1_16 (Z.lnot (Z.shiftl 1 index)) in
  write_RMW_virtual_word op1_16;;
  set_flag CF temp_cf.

Definition BTR_EwGwR (i : bxInstruction_c) : Mach unit :=
  op1_16 ← BX_READ_16BIT_REG (i_rm i);
  op2_16 ← BX_READ_16BIT_REG (i_nnn i);
  let op2_16 := Z.land op2_16 0x0f in
  set_flag CF (Z.land (Z.shiftr op1_16 op2_16) 0x01);;
  let op1_16 := Z.land op1_16 (Z.lnot (Z.shiftl 1 op2_16)) in
  BX_WRITE_16BIT_REG (i_rm i) op1_16.

Definition BTC_EwGwM (i : bxInstruction_c) : Mach unit :=
  eaddr ← resolve i;
  op2_16 ← BX_READ_16BIT_REG (i_nnn i);
  let index_16 := Z.land op2_16 0x0f in
  let displacement16 := s16 (Z.quot (s16 (Z.land op2_16 0xfff0)) 16) in
  let op1_addr := u32 (eaddr + (2 * displacement16)) in
  let op1_addr := if negb (nz (as32L i)) then u16 op1_addr else op1_addr in
  op1_16 ← read_RMW_virtual_word_32 (i_seg i) op1_addr;
  let temp_CF := Z.land (Z.shiftr op1_16 index_16) 0x01 in
  let op1_16 := u16 (Z.lxor op1_16 (Z.shiftl 1 index_16)) in
  write_RMW_virtual_word op1_16;;
  set_flag CF temp_CF.

Definition BTC_EwGwR (i : bxInstruction_c) : Mach unit :=
  op1_16 ← BX_READ_16BIT_REG (i_rm i);
  op2_16 ← BX_READ_16BIT_REG (i_nnn i);
  let op2_16 := Z.land op2_16 0x0f in
  let temp_CF := Z.land (Z.shiftr op1_16 op2_16) 0x01 in
  let op1_16 := u16 (Z.lxor op1_16 (Z.shiftl 1 op2_16)) in
  BX_WRITE_16BIT_REG (i_rm i) op1_16;;
  set_flag CF temp_CF.

Definition BT_EwIbM (i : bxInstruction_c) : Mach unit :=
  eaddr ← resolve i;
  op1_16 ← read_virtual_word_32 (i_seg i) eaddr;
  let op2_8 := Z.land (Ib i) 0xf in
  set_flag CF (Z.land (Z.shiftr op1_16 op2_8) 0x01).

Definition BT_EwIbR (i : bxInstruction_c) : Mach unit :=
  op1_16 ← BX_READ_16BIT_REG (i_rm i);
  let op2_8 := Z.land (Ib i) 0xf in
  set_flag CF (Z.land (Z.shiftr op1_16 op2_8) 0x01).

Definition BTS_EwIbM (i : bxInstruction_c) : Mach unit :=
  let op2_8 := Z.land (Ib i) 0xf in
  eaddr ← resolve i;
  op1_16 ← read_RMW_virtual_word_32 (i_seg i) eaddr;
  let temp_CF := Z.land (Z.shiftr op1_16 op2_8) 0x01 in
  let op1_16 := u16 (Z.lor op1_16 (Z.shiftl 1 op2_8)) in
  write_RMW_virtual_word op1_16;;
  set_flag CF temp_CF.

Definition BTS_EwIbR (i : bxInstruction_c) : Mach unit :=
  let op2_8 := Z.land (Ib i) 0xf in
  op1_16 ← BX_READ_16BIT_REG (i_rm i);
  let temp_CF := Z.land (Z.shiftr op1_16 op2_8) 0x01 in
  let op1_16 := u16 (Z.lor op1_16 (Z.shiftl 1 op2_8)) in
  BX_WRITE_16BIT_REG (i_rm i) op1_16;;
  set_flag CF temp_CF.

Definition BTC_EwIbM (i : bxInstruction_c) : Mach unit :=
  let op2_8 := Z.land (Ib i) 0xf in
  eaddr ← resolve i;
  op1_16 ← read_RMW_virtual_word_32 (i_seg i) eaddr;
  let temp_CF := Z.land (Z.shiftr op1_16 op2_8) 0x01 in
  let op1_16 := u16 (Z.lxor op1_16 (Z.shiftl 1 op2_8)) in
  write_RMW_virtual_word op1_16;;
  set_flag CF temp_CF.

Definition BTC_EwIbR (i : bxInstruction_c) : Mach unit :=
  let op2_8 := Z.land (Ib i) 0xf in
  op1_16 ← BX_READ_16BIT_REG (i_rm i);
  let temp_CF := Z.land (Z.shiftr op1_16 op2_8) 0x01 in
  let op1_16 := u16 (Z.lxor op1_16 (Z.shiftl 1 op2_8)) in
  BX_WRITE_16BIT_REG (i_rm i) op1_16;;
  set_flag CF temp_CF.

Definition BTR_EwIbM (i : bxInstruction_c) : Mach unit :=
  let op2_8 := Z.land (Ib i) 0xf in
  eaddr ← resolve i;
  op1_16 ← read_RMW_virtual_word_32 (i_seg i) eaddr;
  let temp_CF := Z.land (Z.shiftr op1_16 op2_8) 0x01 in
  let op1_16 := Z.land op1_16 (Z.lnot (Z.shiftl 1 op2_8)) in
  write_RMW_virtual_word op1_16;;
  set_flag CF temp_CF.

Definition BTR_EwIbR (i : bxInstruction_c) : Mach unit :=
  let op2_8 := Z.land (Ib i) 0xf in
  op1_16 ← BX_READ_16BIT_REG (i_rm i);
  let temp_CF := Z.land (Z.shiftr op1_16 op2_8) 0x01 in
  let op1_16 := Z.land op1_16 (Z.lnot (Z.shiftl 1 op2_8)) in
  BX_WRITE_16BIT_REG (i_rm i) op1_16;;
  set_flag CF temp_CF.

Definition POPCNT_GwEwR (i : bxInstruction_c) : Mach unit :=
  op2_16 ← BX_READ_16BIT_REG (i_rm i);
  match POPCNT_loop 16 16 0 op2_16 with
  | Some op1_16 =>
      let flags := if nz op1_16 then 0 else EFlagsZFMask in
      setEFlagsOSZAPC flags;;
      BX_WRITE_16BIT_REG (i_nnn i) op1_16
  | None => crash
  end.

(** ** cpu/bit32.cc *)

Definition BSF_GdEdR (i : bxInstruction_c) : Mach unit :=
  op2_32 ← BX_READ_32BIT_REG (i_rm i);
  if op2_32 =? 0 then assert_flag ZF
  else
    match BSF_loop 32 31 0 op2_32 with
    | Some op1_32 =>
        SET_FLAGS_OSZAPC_LOGIC_32 op1_32;;
        clear_flag ZF;;
        BX_WRITE_32BIT_REGZ (i_nnn i) op1_32
    | None => crash
    end.

Definition BSR_GdEdR (i : bxInstruction_c) : Mach unit :=
  op2_32 ← BX_READ_32BIT_REG (i_rm i);
  if op2_32 =? 0 then assert_flag ZF
  else
    match BSR_loop 32 31 31 op2_32 with
    | Some op1_32 =>
        SET_FLAGS_OSZAPC_LOGIC_32 op1_32;;
        clear_flag ZF;;
        BX_WRITE_32BIT_REGZ (i_nnn i) op1_32
    | None => crash
    end.

Definition BT_EdGdM (i : bxInstruction_c) : Mach unit :=
  eaddr ← resolve i;
  op2_32 ← BX_READ_32BIT_REG (i_nnn i);
  let index := Z.land op2_32 0x1f in
  let displacement32 := s32 (Z.quot (s32 (Z.land op2_32 0xffffffe0)) 32) in
  let op1_addr := u32 (eaddr + (4 * displacement32)) in
  let op1_addr := if negb (nz (as32L i)) then u16 op1_addr else op1_addr in
  op1_32 ← read_virtual_dword_32 (i_seg i) op1_addr;
  set_flag CF (Z.land (Z.shiftr op1_32 index) 0x01).

Definition BT_EdGdR (i : bxInstruction_c) : Mach unit :=
  op1_32 ← BX_READ_32BIT_REG (i_rm i);
  op2_32 ← BX_READ_32BIT_REG (i_nnn i);
  let op2_32 := Z.land op2_32 0x1f in
  set_flag CF (Z.land (Z.shiftr op1_32 op2_32) 0x01).

Definition BTS_EdGdM (i : bxInstruction_c) : Mach unit :=
  eaddr ← resolve i;
  op2_32 ← BX_READ_32BIT_REG (i_nnn i);
  let index := Z.land op2_32 0x1f in
  let displacement32 := s32 (Z.quot (s32 (Z.land op2_32 0xffffffe0)) 32) in
  let op1_addr := u32 (eaddr + (4 * displacement32)) in
  let op1_addr := if negb (nz (as32L i)) then u16 op1_addr else op1_addr in
  op1_32 ← read_RMW_virtual_dword_32 (i_seg i) op1_addr;
  let bit_i := Z.land (Z.shiftr op1_32 index) 0x01 in
  let op1_32 := u32 (Z.lor op1_32 (Z.shiftl 1 index)) in
  write_RMW_virtual_dword op1_32;;
  set_flag CF bit_i.

Definition BTS_EdGdR (i : bxInstruction_c) : Mach unit :=
  op1_32 ← BX_READ_32BIT_REG (i_rm i);
  op2_32 ← BX_READ_32BIT_REG (i_nnn i);
  let op2_32 := Z.land op2_32 0x1f in
  set_flag CF (Z.land (Z.shiftr op1_32 op2_32) 0x01);;
  let op1_32 := u32 (Z.lor op1_32 (Z.shiftl 1 op2_32)) in
  BX_WRITE_32BIT_REGZ (i_rm i) op1_32.

Definition BTR_EdGdM (i : bxInstruction_c) : Mach unit :=
  eaddr ← resolve i;
  op2_32 ← BX_READ_32BIT_REG (i_nnn i);
  let index := Z.land op2_32 0x1f in
  let displacement32 := s32 (Z.quot (s32 (Z.land op2_32 0xffffffe0)) 32) in
  let op1_addr := u32 (eaddr + (4 * displacement32)) in
  let op1_addr := if negb (nz (as32L i)) then u16 op1_addr else op1_addr in
  op1_32 ← read_RMW_virtual_dword_32 (i_seg i) op1_addr;
  let temp_cf := Z.land (Z.shiftr op1_32 index) 0x01 in
  let op1_32 := Z.land op1_32 (Z.lnot (Z.shiftl 1 index)) in
  write_RMW_virtual_dword op1_32;;
  set_flag CF temp_cf.

Definition BTR_EdGdR (i : bxInstruction_c) : Mach unit :=
  op1_32 ← BX_READ_32BIT_REG (i_rm i);
  op2_32 ← BX_READ_32BIT_REG (i_nnn i);
  let op2_32 := Z.land op2_32 0x1f in
  set_flag CF (Z.land (Z.shiftr op1_32 op2_32) 0x01);;
  let op1_32 := Z.land op1_32 (Z.lnot (Z.shiftl 1 op2_32)) in
  BX_WRITE_32BIT_REGZ (i_rm i) op1_32.

Definition BTC_EdGdM (i : bxInstruction_c) : Mach unit :=
  eaddr ← resolve i;
  op2_32 ← BX_READ_32BIT_REG (i_nnn i);
  let index_32 := Z.land op2_32 0x1f in
  let displacement32 := s32 (Z.quot (s32 (Z.land op2_32 0xffffffe0)) 32) in
  let op1_addr := u32 (eaddr + (4 * displacement32)) in
  let op1_addr := if negb (nz (as32L i)) then u16 op1_addr else op1_addr in
  op1_32 ← read_RMW_virtual_dword_32 (i_seg i) op1_addr;
  let temp_CF := Z.land (Z.shiftr op1_32 index_32) 0x01 in
  let op1_32 := u32 (Z.lxor op1_32 (Z.shiftl 1 index_32)) in
  set_flag CF temp_CF;;
  write_RMW_virtual_dword op1_32.

Definition BTC_EdGdR (i : bxInstruction_c) : Mach unit :=
  op1_32 ← BX_READ_32BIT_REG (i_rm i);
  op2_32 ← BX_READ_32BIT_REG (i_nnn i);
  let op2_32 := Z.land op2_32 0x1f in
  let temp_CF := Z.land (Z.shiftr op1_32 op2_32) 0x01 in
  let op1_32 := u32 (Z.lxor op1_32 (Z.shiftl 1 op2_32)) in
  set_flag CF temp_CF;;
  BX_WRITE_32BIT_REGZ (i_rm i) op1_32.

Definition BT_EdIbM (i : bxInstruction_c) : Mach unit :=
  eaddr ← resolve i;
  op1_32 ← read_virtual_dword_32 (i_seg i) eaddr;
  let op2_8 := Z.land (Ib i) 0x1f in
  set_flag CF (Z.land (Z.shiftr op1_32 op2_8) 0x01).

Definition BT_EdIbR (i : bxInstruction_c) : Mach unit :=
  op1_32 ← BX_READ_32BIT_REG (i_rm i);
  let op2_8 := Z.land (Ib i) 0x1f in
  set_flag CF (Z.land (Z.shiftr op1_32 op2_8) 0x01).

Definition BTS_EdIbM (i : bxInstruction_c) : Mach unit :=
  let op2_8 := Z.land (Ib i) 0x1f in
  eaddr ← resolve i;
  op1_32 ← read_RMW_virtual_dword_32 (i_seg i) eaddr;
  let temp_CF := Z.land (Z.shiftr op1_32 op2_8) 0x01 in
  let op1_32 := u32 (Z.lor op1_32 (Z.shiftl 1 op2_8)) in
  write_RMW_virtual_dword op1_32;;
  set_flag CF temp_CF.

Definition BTS_EdIbR (i : bxInstruction_c) : Mach unit :=
  let op2_8 := Z.land (Ib i) 0x1f in
  op1_32 ← BX_READ_32BIT_REG (i_rm i);
  let temp_CF := Z.land (Z.shiftr op1_32 op2_8) 0x01 in
  let op1_32 := u32 (Z.lor op1_32 (Z.shiftl 1 op2_8)) in
  BX_WRITE_32BIT_REGZ (i_rm i) op1_32;;
  set_flag CF temp_CF.

Definition BTC_EdIbM (i : bxInstruction_c) : Mach unit :=
  let op2_8 := Z.land (Ib i) 0x1f in
  eaddr ← resolve i;
  op1_32 ← read_RMW_virtual_dword_32 (i_seg i) eaddr;
  let temp_CF := Z.land (Z.shiftr op1_32 op2_8) 0x01 in
  let op1_32 := u32 (Z.lxor op1_32 (Z.shiftl 1 op2_8)) in
  write_RMW_virtual_dword op1_32;;
  set_flag CF temp_CF.

Definition BTC_EdIbR (i : bxInstruction_c) : Mach unit :=
  let op2_8 := Z.land (Ib i) 0x1f in
  op1_32 ← BX_READ_32BIT_REG (i_rm i);
  let temp_CF := Z.land (Z.shiftr op1_32 op2_8) 0x01 in
  let op1_32 := u32 (Z.lxor op1_32 (Z.shiftl 1 op2_8)) in
  BX_WRITE_32BIT_REGZ (i_rm i) op1_32;;
  set_flag CF temp_CF.

Definition BTR_EdIbM (i : bxInstruction_c) : Mach unit :=
  let op2_8 := Z.land (Ib i) 0x1f in
  eaddr ← resolve i;
  op1_32 ← read_RMW_virtual_dword_32 (i_seg i) eaddr;
  let temp_CF := Z.land (Z.shiftr op1_32 op2_8) 0x01 in
  let op1_32 := Z.land op1_32 (Z.lnot (Z.shiftl 1 op2_8)) in
  write_RMW_virtual_dword op1_32;;
  set_flag CF temp_CF.

Definition BTR_EdIbR (i : bxInstruction_c) : Mach unit :=
  let op2_8 := Z.land (Ib i) 0x1f in
  op1_32 ← BX_READ_32BIT_REG (i_rm i);
  let temp_CF := Z.land (Z.shiftr op1_32 op2_8) 0x01 in
  let op1_32 := Z.land op1_32 (Z.lnot (Z.shiftl 1 op2_8)) in
  BX_WRITE_32BIT_REGZ (i_rm i) op1_32;;
  set_flag CF temp_CF.

Definition POPCNT_GdEdR (i : bxInstruction_c) : Mach unit :=
  op2_32 ← BX_READ_32BIT_REG (i_rm i);
  match POPCNT_loop 32 32 0 op2_32 with
  | Some op1_32 =>
      let flags := if nz op1_32 then 0 else EFlagsZFMask in
      setEFlagsOSZAPC flags;;
      BX_WRITE_32BIT_REGZ (i_nnn i) op1_32
  | None => crash
  end.

(** ** Reference *)

(** The sixteen condition codes of the architecture. *)
Definition condition (cc : Z) (fl : flags) : bool :=
  let base := match cc / 2 with
    | 0 => fl OF
    | 1 => fl CF
    | 2 => fl ZF
    | 3 => fl CF || fl ZF
    | 4 => fl SF
    | 5 => fl PF
    | 6 => xorb (fl SF) (fl OF)
    | _ => fl ZF || xorb (fl SF) (fl OF)
    end in
  xorb base (Z.odd cc).
Definition flags_of (s : machine) : flags := fun f => flag f s.

Definition ref_setcc (cc : Z) (dst : place) (i : bxInstruction_c) : Mach unit :=
  match dst with
  | Mem => eaddr ← resolve i; fl ← gets flags_of; write_mem 8 (i_seg i) eaddr (Z.b2z (condition cc fl))
  | _ => fl ← gets flags_of; write_reg 8 (i_rm i) (Z.b2z (condition cc fl))
  end.

(** Bit test: the bit goes to CF; the others then set, clear or flip it. *)
Inductive bit_op : Type := BT | BTS | BTR | BTC.
Definition bit_result (op : bit_op) (a k : Z) : Z :=
  match op with
  | BT => a
  | BTS => Z.setbit a k
  | BTR => Z.clearbit a k
  | BTC => Z.lxor a (2 ^ k)
  end.
Definition bit_fetch (op : bit_op) (w seg addr : Z) : Mach Z :=
  match op with BT => read_mem w seg addr | _ => read_rmw w seg addr end.
Definition bit_finish (op : bit_op) (a k : Z) (st : Z -> Mach unit) : Mach unit :=
  match op with BT => mret tt | _ => st (bit_result op a k) end;;
  update_flags (override [(CF, Z.testbit a k)]).

(** A memory operand with the offset in a register is a bit string: the offset
    is signed and its multiples of the width move the address. *)
Definition ref_bit_string (op : bit_op) (w : Z) (i : bxInstruction_c) : Mach unit :=
  eaddr ← resolve i;
  off ← read_reg w (i_nnn i);
  let off := swrap w off in
  let addr := u32 (eaddr + w / 8 * (off / w)) in
  let addr := if nz (as32L i) then addr else u16 addr in
  a ← bit_fetch op w (i_seg i) addr;
  bit_finish op a (off mod w) (write_rmw w).
Definition ref_bit_reg (op : bit_op) (w : Z) (i : bxInstruction_c) : Mach unit :=
  a ← read_reg w (i_rm i);
  off ← read_reg w (i_nnn i);
  bit_finish op a (off mod w) (write_reg w (i_rm i)).
Definition ref_bit_imm (op : bit_op) (w : Z) (dst : place) (i : bxInstruction_c) : Mach unit :=
  match dst with
  | Mem => eaddr ← resolve i; a ← bit_fetch op w (i_seg i) eaddr;
           bit_finish op a (Ib i mod w) (write_rmw w)
  | _ => a ← read_reg w (i_rm i); bit_finish op a (Ib i mod w) (write_reg w (i_rm i))
  end.

(** Bit scans: the first set bit of the list of positions; none sets ZF and
    leaves the destination. *)
Definition upwards (w : Z) : list Z := seqZ 0 w.
Definition downwards (w : Z) : list Z := (fun j => w - 1 - j) <$> seqZ 0 w.
Definition ref_scan (order : Z -> list Z) (w : Z) (i : bxInstruction_c) : Mach unit :=
  a ← read_reg w (i_rm i);
  match find (Z.testbit a) (order w) with
  | None => update_flags (override [(ZF, true)])
  | Some k => write_reg w (i_nnn i) k;; write_arith_flags (amend [(ZF, false)] (logic_flags w k))
  end.
Definition ref_popcnt (w : Z) (i : bxInstruction_c) : Mach unit :=
  a ← read_reg w (i_rm i);
  let n := Z.of_nat (length (List.filter (Z.testbit a) (seqZ 0 w))) in
  write_reg w (i_nnn i) n;; write_arith_flags (fun f => bool_decide (f = ZF) && (n =? 0)).

(** Bytes reversed. *)
Definition byte_swap (len : nat) (a : Z) : Z := le_combine (rev (le_split len a)).
Definition ref_bswap (i : bxInstruction_c) : Mach unit :=
  a ← read_reg 32 (opcodeReg i); write_reg 32 (opcodeReg i) (byte_swap 4 a).
Definition ref_movbe_load (w : Z) (i : bxInstruction_c) : Mach unit :=
  a ← (if nz (modC0 i) then read_reg w (i_rm i) else eaddr ← resolve i; read_mem w (i_seg i) eaddr);
  write_reg w (i_nnn i) (byte_swap (Z.to_nat (w / 8)) a).
Definition ref_movbe_store (w : Z) (i : bxInstruction_c) : Mach unit :=
  a ← read_reg w (i_nnn i);
  let v := byte_swap (Z.to_nat (w / 8)) a in
  if nz (modC0 i) then write_reg w (i_rm i) v
  else eaddr ← resolve i; write_mem w (i_seg i) eaddr v.

Definition setcc_table : list (handler * handler) :=
  [
   (SETO_EbM, ref_setcc 0 Mem);
   (SETO_EbR, ref_setcc 0 (Reg i_rm));
   (SETNO_EbM, ref_setcc 1 Mem);
   (SETNO_EbR, ref_setcc 1 (Reg i_rm));
   (SETB_EbM, ref_setcc 2 Mem);
   (SETB_EbR, ref_setcc 2 (Reg i_rm));
   (SETNB_EbM, ref_setcc 3 Mem);
   (SETNB_EbR, ref_setcc 3 (Reg i_rm));
   (SETZ_EbM, ref_setcc 4 Mem);
   (SETZ_EbR, ref_setcc 4 (Reg i_rm));
   (SETNZ_EbM, ref_setcc 5 Mem);
   (SETNZ_EbR, ref_setcc 5 (Reg i_rm));
   (SETBE_EbM, ref_setcc 6 Mem);
   (SETBE_EbR, ref_setcc 6 (Reg i_rm));
   (SETNBE_EbM, ref_setcc 7 Mem);
   (SETNBE_EbR, ref_setcc 7 (Reg i_rm));
   (SETS_EbM, ref_setcc 8 Mem);
   (SETS_EbR, ref_setcc 8 (Reg i_rm));
   (SETNS_EbM, ref_setcc 9 Mem);
   (SETNS_EbR, ref_setcc 9 (Reg i_rm));
   (SETP_EbM, ref_setcc 10 Mem);
   (SETP_EbR, ref_setcc 10 (Reg i_rm));
   (SETNP_EbM, ref_setcc 11 Mem);
   (SETNP_EbR, ref_setcc 11 (Reg i_rm));
   (SETL_EbM, ref_setcc 12 Mem);
   (SETL_EbR, ref_setcc 12 (Reg i_rm));
   (SETNL_EbM, ref_setcc 13 Mem);
   (SETNL_EbR, ref_setcc 13 (Reg i_rm));
   (SETLE_EbM, ref_setcc 14 Mem);
   (SETLE_EbR, ref_setcc 14 (Reg i_rm));
   (SETNLE_EbM, ref_setcc 15 Mem);
   (SETNLE_EbR, ref_setcc 15 (Reg i_rm)) ].
Definition bt_table : list (handler * handler) :=
  [
   (BT_EwGwM, ref_bit_string BT 16);
   (BT_EwGwR, ref_bit_reg BT 16);
   (BTS_EwGwM, ref_bit_string BTS 16);
   (BTS_EwGwR, ref_bit_reg BTS 16);
   (BTR_EwGwM, ref_bit_string BTR 16);
   (BTR_EwGwR, ref_bit_reg BTR 16);
   (BTC_EwGwM, ref_bit_string BTC 16);
   (BTC_EwGwR, ref_bit_reg BTC 16);
   (BT_EwIbM, ref_bit_imm BT 16 Mem);
   (BT_EwIbR, ref_bit_imm BT 16 (Reg i_rm));
   (BTS_EwIbM, ref_bit_imm BTS 16 Mem);
   (BTS_EwIbR, ref_bit_imm BTS 16 (Reg i_rm));
   (BTC_EwIbM, ref_bit_imm BTC 16 Mem);
   (BTC_EwIbR, ref_bit_imm BTC 16 (Reg i_rm));
   (BTR_EwIbM, ref_bit_imm BTR 16 Mem);
   (BTR_EwIbR, ref_bit_imm BTR 16 (Reg i_rm));
   (BT_EdGdM, ref_bit_string BT 32);
   (BT_EdGdR, ref_bit_reg BT 32);
   (BTS_EdGdM, ref_bit_string BTS 32);
   (BTS_EdGdR, ref_bit_reg BTS 32);
   (BTR_EdGdM, ref_bit_string BTR 32);
   (BTR_EdGdR, ref_bit_reg BTR 32);
   (BTC_EdGdM, ref_bit_string BTC 32);
   (BTC_EdGdR, ref_bit_reg BTC 32);
   (BT_EdIbM, ref_bit_imm BT 32 Mem);
   (BT_EdIbR, ref_bit_imm BT 32 (Reg i_rm));
   (BTS_EdIbM, ref_bit_imm BTS 32 Mem);
   (BTS_EdIbR, ref_bit_imm BTS 32 (Reg i_rm));
   (BTC_EdIbM, ref_bit_imm BTC 32 Mem);
   (BTC_EdIbR, ref_bit_imm BTC 32 (Reg i_rm));
   (BTR_EdIbM, ref_bit_imm BTR 32 Mem);
   (BTR_EdIbR, ref_bit_imm BTR 32 (Reg i_rm)) ].
Definition scan_table : list (handler * handler) :=
  [
   (BSF_GwEwR, ref_scan upwards 16);
   (BSR_GwEwR, ref_scan downwards 16);
   (POPCNT_GwEwR, ref_popcnt 16);
   (BSF_GdEdR, ref_scan upwards 32);
   (BSR_GdEdR, ref_scan downwards 32);
   (POPCNT_GdEdR, ref_popcnt 32) ].
Definition swap_table : list (handler * handler) :=
  [
   (BSWAP_RX, fun i => write_reg 16 (opcodeReg i) 0);
   (BSWAP_ERX, ref_bswap);
   (MOVBE_GwEw, ref_movbe_load 16);
   (MOVBE_EwGw, ref_movbe_store 16);
   (MOVBE_GdEd, ref_movbe_load 32);
   (MOVBE_EdGd, ref_movbe_store 32) ].
Definition bit_table : list (handler * handler) := setcc_table ++ bt_table ++ scan_table ++ swap_table.

(** ** SETcc *)

Lemma refines_flags_value {B} (m : Mach B) (F : machine -> Z) G (k k' : Z -> Mach B) :
  (forall s, m s = k (F s) s) -> (forall s, F s = G (flags_of (norm s))) ->
  (forall z, refines (k z) (k' z)) -> refines m (fl ← gets flags_of; k' (G fl)).
Proof. intros Hm HF Hk s. by rewrite Hm, Hk, HF. Qed.

Ltac condition_tac :=
  intros s; cbv beta; rewrite !getB_flag_b2z; unfold condition, flags_of; rewrite !flag_norm;
  destruct (flag OF s), (flag CF s), (flag ZF s), (flag SF s), (flag PF s); reflexivity.

Ltac setcc_row :=
  intros i; cbn [fst snd]; match goal with |- refines (?h _) _ => unfold h end;
  unfold ref_setcc; cbv beta iota zeta; reference_unfold; unfold_widths;
  [> first
    [ apply refines_bind; [apply resolve_refines|]; intros e;
      eapply (refines_flags_value _ _ (fun fl => Z.b2z (condition _ fl))
        (fun v => write_virtual_32 1 (i_seg i) e v))
    | eapply (refines_flags_value _ _ (fun fl => Z.b2z (condition _ fl))
        (fun v => BX_WRITE_8BIT_REGx (i_rm i) v)) ];
  [ intros s; cbv [mbind M_bind gets]; reflexivity | condition_tac | intros; eauto with refines ] ].

Lemma setcc_implements : Forall implements setcc_table.
Proof. table_tac setcc_row. Qed.

(** ** Bit tests *)

Section BitValues.
Context (w a k : Z) (Hw : 0 < w) (Ha : 0 <= a < 2 ^ w) (Hk : 0 <= k < w).

Lemma bit_range : 0 <= Z.shiftl 1 k < 2 ^ w.
Proof. rewrite Z.shiftl_1_l. split; [lia|]. apply Z.pow_lt_mono_r; lia. Qed.
Lemma bts_value : wrap w (Z.lor a (Z.shiftl 1 k)) = Z.setbit a k.
Proof. apply wrap_small. apply lor_range; [lia|apply bit_range]. Qed.
Lemma btc_value : wrap w (Z.lxor a (Z.shiftl 1 k)) = Z.lxor a (2 ^ k).
Proof. rewrite <-Z.shiftl_1_l. apply wrap_small. apply lxor_range; [lia|apply bit_range]. Qed.
Lemma btr_value : Z.land a (Z.lnot (Z.shiftl 1 k)) = Z.clearbit a k.
Proof. by rewrite <-Z.ldiff_land. Qed.
Lemma set_CF_bit_refines :
  refines (set_flag CF (Z.land (Z.shiftr a k) 1)) (update_flags (override [(CF, Z.testbit a k)])).
Proof.
  rewrite land_1, Z.shiftr_spec, Z.add_0_l by lia.
  replace (Z.testbit a k) with (nz (Z.b2z (Z.testbit a k))) at 2 by apply nz_b2z.
  apply set_flag_refines. destruct (Z.testbit a k); cbn; lia.
Qed.

(** The bit is read before the store, and CF set on either side of it. *)
Lemma bit_finish_refines op r st st' :
  op <> BT -> r = bit_result op a k -> (forall v, refines (st v) (st' v)) ->
  refines (st r;; set_flag CF (Z.land (Z.shiftr a k) 1)) (bit_finish op a k st').
Proof.
  intros Hop -> Hst. unfold bit_finish. destruct op; [done|..];
    (apply refines_bind; [done|]; intros _; apply set_CF_bit_refines).
Qed.
Lemma bit_finish_swap op r st st' :
  op <> BT -> r = bit_result op a k -> (forall v, refines (st v) (st' v)) ->
  (forall v, flagless (st' v)) ->
  refines (set_flag CF (Z.land (Z.shiftr a k) 1);; st r) (bit_finish op a k st').
Proof.
  intros Hop -> Hst Hf. unfold bit_finish. destruct op; [done|..];
    (apply refines_swap_override; [apply set_CF_bit_refines|done|done]).
Qed.
End BitValues.

Lemma bit_index16 off : Z.land off 15 = off mod 16.
Proof. by apply (Z.land_ones off 4). Qed.
Lemma bit_index32 off : Z.land off 31 = off mod 32.
Proof. by apply (Z.land_ones off 5). Qed.
Lemma land_high w m off :
  0 <= m <= w -> 0 <= off < 2 ^ w -> Z.land off (2 ^ w - 2 ^ m) = 2 ^ m * (off / 2 ^ m).
Proof.
  intros Hm Hoff. replace (2 ^ w - 2 ^ m) with (Z.shiftl (Z.ones (w - m)) m).
  - rewrite Z.mul_comm, <-Z.shiftl_mul_pow2, <-Z.shiftr_div_pow2 by lia.
    apply Z.bits_inj'. intros j Hj. rewrite Z.land_spec, !testbit_shiftl by lia.
    destruct (Z.leb_spec m j); [|by rewrite andb_false_r]. cbn [andb].
    rewrite Z.shiftr_spec, Z.testbit_ones_nonneg by lia. replace (j - m + m) with j by lia.
    destruct (Z.ltb_spec (j - m) (w - m)); [apply andb_true_r|].
    by rewrite (testbit_above w off) by lia.
  - rewrite Z.shiftl_mul_pow2, Z.ones_equiv by lia.
    replace (2 ^ w) with (2 ^ (w - m) * 2 ^ m) by (rewrite <-Z.pow_add_r by lia; f_equal; lia). lia.
Qed.

(** The displacement of a bit string, in words of [w] bits. *)
Lemma bit_displacement w m off :
  (w = 16 /\ m = 4) \/ (w = 32 /\ m = 5) -> 0 <= off < 2 ^ w ->
  Z.quot (swrap w (Z.land off (2 ^ w - 2 ^ m))) (2 ^ m) = swrap w off / 2 ^ m.
Proof.
  intros Hw Hoff. rewrite land_high by lia.
  assert (2 ^ w = 2 ^ m * 2 ^ (w - m)) as E by (rewrite <-Z.pow_add_r by lia; f_equal; lia).
  assert (0 < 2 ^ m) by lia.
  assert (0 <= 2 ^ m * (off / 2 ^ m) < 2 ^ w) by (destruct Hw as [[-> ->]|[-> ->]]; divlia).
  rewrite !swrap_unsigned by lia.
  assert ((2 ^ m * (off / 2 ^ m) <? 2 ^ (w - 1)) = (off <? 2 ^ (w - 1))) as ->.
  { destruct Hw as [[-> ->]|[-> ->]]; apply eq_true_iff_eq; rewrite !Z.ltb_lt; divlia. }
  destruct (off <? 2 ^ (w - 1)).
  - rewrite Z.mul_comm. apply Z.quot_mul. lia.
  - rewrite E. replace (2 ^ m * (off / 2 ^ m) - 2 ^ m * 2 ^ (w - m)) with ((off / 2 ^ m - 2 ^ (w - m)) * 2 ^ m) by lia.
    rewrite Z.quot_mul by lia. replace (off - 2 ^ m * 2 ^ (w - m)) with (off + (- 2 ^ (w - m)) * 2 ^ m) by lia.
    rewrite Z.div_add by lia. lia.
Qed.
Lemma bit_disp16 off : 0 <= off < 2 ^ 16 -> Z.quot (s16 (Z.land off 0xfff0)) 16 = s16 off / 16.
Proof. intros. by apply (bit_displacement 16 4); [left|]. Qed.
Lemma bit_disp16_narrow off : 0 <= off < 2 ^ 16 -> s16 (s16 off / 16) = s16 off / 16.
Proof. intros. pose proof (swrap_range 16 off). apply swrap_small; divlia. Qed.
Lemma bit_disp32 off : 0 <= off < 2 ^ 32 -> s32 (Z.quot (s32 (Z.land off 0xffffffe0)) 32) = s32 off / 32.
Proof.
  intros. assert (Z.quot (s32 (Z.land off 0xffffffe0)) 32 = s32 off / 32) as ->
    by (by apply (bit_displacement 32 5); [right|]).
  pose proof (swrap_range 32 off). apply swrap_small; divlia.
Qed.
Lemma Ib_range i : 0 <= Ib i < 2 ^ 8.
Proof. apply wrap_range. lia. Qed.

Ltac bit_norm :=
  repeat match goal with
  | |- context [Z.quot (swrap 16 (Z.land ?x 65520)) 16] => rewrite (bit_disp16 x) by assumption
  | |- context [swrap 16 (swrap 16 ?x / 16)] => rewrite (bit_disp16_narrow x) by assumption
  | |- context [swrap 32 (Z.quot (swrap 32 (Z.land ?x 4294967264)) 32)] =>
      rewrite (bit_disp32 x) by assumption
  | |- context [swrap 16 ?x mod 16] => change (swrap 16 x mod 16) with (wrap 4 (swrap 16 x));
      rewrite (wrap_swrap 16 4 x) by lia; change (wrap 4 x) with (x mod 16)
  | |- context [swrap 32 ?x mod 32] => change (swrap 32 x mod 32) with (wrap 5 (swrap 32 x));
      rewrite (wrap_swrap 32 5 x) by lia; change (wrap 5 x) with (x mod 32)
  | |- context [Z.land ?x 15] => rewrite (bit_index16 x)
  | |- context [Z.land ?x 31] => rewrite (bit_index32 x)
  end.

Lemma string_address i x y :
  x = y -> (if negb (nz (as32L i)) then u16 x else x) = (if nz (as32L i) then y else u16 y).
Proof. intros ->. by destruct (nz _). Qed.

Ltac bit_value :=
  unfold bit_result; first [apply bts_value | apply btr_value | apply btc_value];
  first [lia | apply Z.mod_pos_bound; lia].
Ltac bit_end w :=
  bit_norm;
  first
  [ apply refines_ret_r; apply (set_CF_bit_refines w)
  | apply (bit_finish_refines w)
  | apply (bit_finish_swap w) ];
  try first [ lia | apply Z.mod_pos_bound; lia | bit_value | discriminate
            | intros ?; solve [eauto with refines] | intros ?; solve [eauto with flagless] ].

Ltac bit_open :=
  intros i; cbn [fst snd]; match goal with |- refines (?h _) _ => unfold h end;
  unfold ref_bit_reg, ref_bit_imm, ref_bit_string, bit_fetch; cbv zeta;
  pose proof (Ib_range i); reference_unfold; unfold_widths.
Ltac bit_step w :=
  match goal with
  | |- forall _, _ => intros ?
  | |- refines (_ ≫= _) (bit_finish _ _ _ _) => bit_end w
  | |- refines (set_flag _ _) _ => bit_end w
  | |- refines (_ (if negb (nz (as32L ?i)) then _ else _) ≫= _) _ =>
      bit_norm; rewrite (string_address i _ _ eq_refl)
  | |- _ => handler_step
  end.
Ltac bit_row w := bit_open; repeat bit_step w.

Lemma bt_implements : Forall implements bt_table.
Proof. table_tac ltac:(first [solve [bit_row 16] | solve [bit_row 32]]). Qed.

(** ** Bit scans: the loops end, on the bit they look for *)

Lemma land_1_eqb a : (Z.land a 1 =? 0) = negb (Z.testbit a 0).
Proof. rewrite land_1. by destruct (Z.testbit a 0). Qed.

Lemma land_pow2_eqb a n : 0 <= n -> (Z.land a (2 ^ n) =? 0) = negb (Z.testbit a n).
Proof. intros. rewrite <-nz_land_pow2 by done. unfold nz. by rewrite negb_involutive. Qed.

Lemma BSF_loop_spec w a n k :
  0 < w -> 0 <= k -> k + Z.of_nat n < 2 ^ w ->
  BSF_loop w n k (Z.shiftr a k) = find (Z.testbit a) (seqZ k (Z.of_nat (S n))).
Proof.
  intros Hw. revert k. induction n as [|n IH]; intros k Hk Hn; rewrite seqZ_cons by lia; cbn [find BSF_loop];
    rewrite land_1_eqb, Z.shiftr_spec, Z.add_0_l by lia; destruct (Z.testbit a k); cbn [negb]; try done.
  rewrite wrap_small, Z.shiftr_shiftr, IH by lia. do 2 f_equal; lia.
Qed.

Lemma BSR_loop_spec w a n k :
  0 < w < 2 ^ w -> 0 <= a < 2 ^ w -> 0 <= k -> k + Z.of_nat n < w ->
  BSR_loop w n (w - 1 - k) (wrap w (Z.shiftl a k)) =
  find (Z.testbit a) ((fun j => w - 1 - j) <$> seqZ k (Z.of_nat (S n))).
Proof.
  intros Hw Ha. revert k. induction n as [|n IH]; intros k Hk Hn; rewrite seqZ_cons by lia; cbn [find fmap list_fmap BSR_loop];
    rewrite land_pow2_eqb, testbit_wrap, testbit_shiftl by lia;
    rewrite (proj2 (Z.ltb_lt (w - 1) w)), (proj2 (Z.leb_le k (w - 1))) by lia; cbn [andb];
    destruct (Z.testbit a (w - 1 - k)); cbn [negb]; try done.
  rewrite wrap_small by lia. replace (w - 1 - k - 1) with (w - 1 - (k + 1)) by lia.
  replace (wrap w (Z.shiftl (wrap w (Z.shiftl a k)) 1)) with (wrap w (Z.shiftl a (k + 1))).
  - rewrite IH by lia. do 3 f_equal; lia.
  - rewrite !Z.shiftl_mul_pow2, Z.pow_add_r, Z.mul_assoc by lia. unfold wrap.
    by rewrite Z.mul_mod_idemp_l by lia.
Qed.

Lemma filter_none {A} (P : A -> bool) l : (forall x, x ∈ l -> P x = false) -> List.filter P l = [].
Proof.
  induction l as [|x l IH]; intros H; cbn; [done|]. rewrite H by by left. apply IH. intros y Hy.
  apply H. by right.
Qed.
Lemma no_bits_above a k n :
  0 <= k -> Z.shiftr a k = 0 -> List.filter (Z.testbit a) (seqZ k (Z.of_nat n)) = [].
Proof.
  intros Hk Ha. apply filter_none. intros j Hj%elem_of_seqZ.
  replace j with (j - k + k) by lia. rewrite <-Z.shiftr_spec, Ha by lia. apply Z.testbit_0_l.
Qed.

Lemma POPCNT_loop_spec w a n k c :
  0 < w -> 0 <= k -> 0 <= c -> c + Z.of_nat n < 2 ^ w -> Z.shiftr a (k + Z.of_nat n) = 0 ->
  POPCNT_loop w n c (Z.shiftr a k) =
  Some (c + Z.of_nat (length (List.filter (Z.testbit a) (seqZ k (Z.of_nat n))))).
Proof.
  intros Hw. revert k c. induction n as [|n IH]; intros k c Hk Hc Hn Ha; cbn [POPCNT_loop].
  - rewrite Z.add_0_r in Ha. rewrite Ha. cbn. by rewrite Z.add_0_r.
  - destruct (Z.eqb_spec (Z.shiftr a k) 0) as [E|_].
    { rewrite no_bits_above by done. cbn. by rewrite Z.add_0_r. }
    rewrite seqZ_cons by lia. cbn [List.filter].
    replace (Z.pred (Z.of_nat (S n))) with (Z.of_nat n) by lia.
    assert (nz (Z.land (Z.shiftr a k) 1) = Z.testbit a k) as ->.
    { rewrite land_shiftr_1, nz_b2z by lia. done. }
    rewrite Z.shiftr_shiftr by lia. replace (k + 1) with (Z.succ k) by lia.
    destruct (Z.testbit a k); [rewrite wrap_small by lia|];
      (rewrite IH; [|try lia..]); try (rewrite <-Ha; f_equal; lia); [|done].
    f_equal. cbn [length]. lia.
Qed.

Lemma scan_find w a l :
  0 < w -> 0 <= a < 2 ^ w -> (forall j, j ∈ l <-> 0 <= j < w) ->
  match find (Z.testbit a) l with Some k => a <> 0 /\ 0 <= k < w | None => a = 0 end.
Proof.
  intros Hw Ha Hl. destruct (find (Z.testbit a) l) as [k|] eqn:E.
  - apply find_some in E as [Hk Hb]. split; [|by apply Hl, list_elem_of_In].
    intros ->. by rewrite Z.testbit_0_l in Hb.
  - apply Z.bits_inj_0. intros j. destruct (decide (0 <= j < w)) as [Hj|Hj].
    + by apply (find_none _ _ E), list_elem_of_In, Hl.
    + destruct (decide (j < 0)); [by apply Z.testbit_neg_r|]. apply (testbit_above w); lia.
Qed.
Lemma elem_upwards w j : j ∈ upwards w <-> 0 <= j < w.
Proof. unfold upwards. rewrite elem_of_seqZ. lia. Qed.
Lemma elem_downwards w j : j ∈ downwards w <-> 0 <= j < w.
Proof.
  unfold downwards. rewrite list_elem_of_fmap. setoid_rewrite elem_of_seqZ. split.
  - intros (y & -> & ?). lia.
  - intros. exists (w - 1 - j). lia.
Qed.

Lemma scan_refines w ins a l loop (st st' : Z -> Mach unit) :
  width w -> ins = logic_code w -> 0 <= a < 2 ^ w -> (forall j, j ∈ l <-> 0 <= j < w) ->
  loop = find (Z.testbit a) l -> (forall v, refines (st v) (st' v)) -> (forall v, flagless (st' v)) ->
  refines
    (if a =? 0 then assert_flag ZF
     else match loop with
          | Some r => SET_FLAGS_OSZAPC_RESULT_SIZE w r ins;; clear_flag ZF;; st r
          | None => crash
          end)
    (match find (Z.testbit a) l with
     | None => update_flags (override [(ZF, true)])
     | Some k => st' k;; write_arith_flags (amend [(ZF, false)] (logic_flags w k))
     end).
Proof.
  intros Hw Hins Ha Hl -> Hst Hf. assert (0 < w < 2 ^ w) as [? ?] by (destruct Hw as [->|[->| ->]]; lia).
  pose proof (scan_find w a l ltac:(lia) Ha Hl) as Hs.
  destruct (find (Z.testbit a) l) as [k|].
  - destruct Hs as [Hne Hk]. rewrite (proj2 (Z.eqb_neq a 0)) by done.
    apply refines_reassoc_l, refines_swap_write; [|done..].
    eapply refines_amend; [apply set_logic_refines; [done|lia|done]|apply clear_flag_refines|done].
  - subst a. apply assert_flag_refines.
Qed.

Lemma popcnt_flags_refines n :
  refines (setEFlagsOSZAPC (if nz n then 0 else EFlagsZFMask))
    (write_arith_flags (fun f => bool_decide (f = ZF) && (n =? 0))).
Proof.
  eapply refines_ext; [apply setEFlagsOSZAPC_refines|]. intros s. apply update_flags_ext.
  intros g. unfold nz. destruct (n =? 0), g; reflexivity.
Qed.

(** The loops of the handlers, from their initial values. *)
Lemma shiftr_all w a : 0 <= a < 2 ^ w -> 0 <= w -> Z.shiftr a w = 0.
Proof. intros. rewrite Z.shiftr_div_pow2 by lia. apply Z.div_small. lia. Qed.

Ltac scan_open :=
  intros i; cbn [fst snd]; match goal with |- refines (?h _) _ => unfold h end;
  unfold ref_scan, ref_popcnt; cbv zeta; reference_unfold; unfold_widths; handler_step.
Ltac scan_row w order spec :=
  scan_open; apply (scan_refines w);
  [width_tac|reflexivity|assumption|apply order| |intros; eauto with refines|intros; eauto with flagless];
  match goal with |- _ = find (Z.testbit ?a) _ => spec a end.
Ltac popcnt_row w n :=
  scan_open;
  match goal with H : 0 <= ?a < 2 ^ w |- _ =>
    rewrite <-(Z.shiftr_0_r a) at 1; rewrite (POPCNT_loop_spec w a n 0 0);
    [|lia..|apply (shiftr_all w); [assumption|lia]] end;
  rewrite Z.add_0_l; apply refines_swap_write;
  [apply popcnt_flags_refines|eauto with refines|eauto with flagless].

Lemma scan_implements : Forall implements scan_table.
Proof.
  repeat apply Forall_cons_2; [.. | apply Forall_nil; done].
  - scan_row 16 elem_upwards ltac:(fun a => apply (BSF_loop_spec 16 a 15 0); lia).
  - scan_row 16 elem_downwards ltac:(fun a => etransitivity; [|apply (BSR_loop_spec 16 a 15 0); lia];
      rewrite Z.shiftl_0_r, wrap_small by lia; reflexivity).
  - popcnt_row 16 16%nat.
  - scan_row 32 elem_upwards ltac:(fun a => apply (BSF_loop_spec 32 a 31 0); lia).
  - scan_row 32 elem_downwards ltac:(fun a => etransitivity; [|apply (BSR_loop_spec 32 a 31 0); lia];
      rewrite Z.shiftl_0_r, wrap_small by lia; reflexivity).
  - popcnt_row 32 32%nat.
Qed.

(** ** Byte swaps *)

Lemma land_255 a : Z.land a 255 = a mod 2 ^ 8.
Proof. by apply (Z.land_ones a 8). Qed.
Lemma byte_swap16 a : 0 <= a < 2 ^ 16 ->
  u16 (Z.lor (Z.shiftl (Z.land a 0xff) 8) (Z.shiftr a 8)) = byte_swap 2 a.
Proof.
  intros. unfold byte_swap. cbn [le_split rev app le_combine].
  rewrite land_255, Z.shiftr_div_pow2 by lia.
  rewrite lor_shiftl_add by divlia. unfold wrap. divlia.
Qed.
Lemma lor_bytes b0 b1 b2 b3 :
  0 <= b0 -> 0 <= b1 < 2 ^ 8 -> 0 <= b2 < 2 ^ 8 -> 0 <= b3 < 2 ^ 8 ->
  Z.lor (Z.lor (Z.lor (Z.shiftl b0 24) (Z.shiftl b1 16)) (Z.shiftl b2 8)) b3 =
  b0 * 2 ^ 24 + b1 * 2 ^ 16 + b2 * 2 ^ 8 + b3.
Proof.
  intros. rewrite !Z.shiftl_mul_pow2, (lor_disjoint_add (b0 * 2 ^ 24) _ 24) by divlia.
  rewrite (lor_disjoint_add _ (b2 * 2 ^ 8) 16) by divlia. apply (lor_disjoint_add _ b3 8); divlia.
Qed.
Lemma byte_swap32 a : 0 <= a < 2 ^ 32 ->
  u32 (Z.lor (Z.lor (Z.lor (Z.shiftl (Z.land a 0xff) 24) (Z.shiftl (Z.land (Z.shiftr a 8) 0xff) 16))
                (Z.shiftl (Z.land (Z.shiftr (Z.shiftr a 8) 8) 0xff) 8))
         (Z.shiftr (Z.shiftr (Z.shiftr a 8) 8) 8)) = byte_swap 4 a.
Proof.
  intros. unfold byte_swap. cbn [le_split rev app le_combine].
  rewrite !land_255, !Z.shiftr_div_pow2, lor_bytes by divlia. unfold wrap. divlia.
Qed.

Ltac swap_step :=
  match goal with
  | |- context [wrap 16 (Z.lor (Z.shiftl (Z.land ?a 255) 8) _)] => rewrite (byte_swap16 a) by assumption
  | |- context [wrap 32 (Z.lor (Z.lor (Z.lor (Z.shiftl (Z.land ?a 255) 24) _) _) _)] =>
      rewrite (byte_swap32 a) by assumption
  | |- _ => handler_step
  end.
Ltac swap_row :=
  intros i; cbn [fst snd]; match goal with |- refines (?h _) _ => unfold h end;
  unfold ref_bswap, ref_movbe_load, ref_movbe_store; cbv zeta; reference_unfold; unfold_widths;
  try (destruct (nz (modC0 i))); repeat swap_step.

Lemma swap_implements : Forall implements swap_table.
Proof. table_tac swap_row. Qed.

Lemma bit_implements : Forall implements bit_table.
Proof.
  unfold bit_table. rewrite !Forall_app.
  auto using setcc_implements, bt_implements, scan_implements, swap_implements.
Qed.
(** C35: every handler of cpu/bit.cc, cpu/bit16.cc and cpu/bit32.cc refines its
    instruction: SETcc stores the condition, the bit tests address bit strings
    with signed offsets, the scans end within as many iterations as the operand
    has bits and find the lowest or highest set bit, POPCNT counts the bits, and
    the byte swaps reverse the bytes. *)
Theorem bit_correct :
  Forall (fun p => forall i s, omap_state norm (p.1 i s) = p.2 i (norm s)) bit_table.
Proof. exact bit_implements. Qed.

Lemma bit_keeps_wf : Forall keeps_wf bit_table.
Proof. unfold bit_table. rewrite !Forall_app. split_and!; table_tac wf_handler. Qed.
Lemma bit_is_precise : Forall is_precise bit_table.
Proof. unfold bit_table. rewrite !Forall_app. split_and!; table_tac precise_handler. Qed.
