(* ===== verification/DataXfer.v ===== *)
(** * DataXfer: moves, exchanges and conditional moves

    cpu/data_xfer8.cc, cpu/data_xfer16.cc, cpu/data_xfer32.cc and cpu/load32.cc;
    MOV to a segment register is in the segment files. *)
From stdpp Require Import base numbers list gmap.
From Stdlib Require Import ZArith Lia.
From S2P Require Import Prelude Machine LazyFlags Memory Paging Access Regs Precise Reference ShiftSpec Bit.

Local Open Scope Z_scope.

(** ** cpu/data_xfer8.cc *)

Definition MOV_RLIb (i : bxInstruction_c) : Mach unit :=
  BX_WRITE_8BIT_REGx (opcodeReg i) (Ib i).

Definition MOV_RHIb (i : bxInstruction_c) : Mach unit :=
  BX_WRITE_8BIT_REGH (Z.land (i_b1 i) 0x03) (Ib i).

Definition MOV_EbGbM (i : bxInstruction_c) : Mach unit :=
  eaddr ← resolve i;
  r ← BX_READ_8BIT_REGx (i_nnn i);
  write_virtual_byte_32 (i_seg i) eaddr r.

Definition MOV_GbEbM (i : bxInstruction_c) : Mach unit :=
  eaddr ← resolve i;
  val8 ← read_virtual_byte_32 (i_seg i) eaddr;
  BX_WRITE_8BIT_REGx (i_nnn i) val8.

Definition MOV_GbEbR (i : bxInstruction_c) : Mach unit :=
  op2 ← BX_READ_8BIT_REGx (i_rm i);
  BX_WRITE_8BIT_REGx (i_nnn i) op2.

Definition MOV_ALOd (i : bxInstruction_c) : Mach unit :=
  v ← read_virtual_byte_32 (i_seg i) (Id i);
  set_AL v.

Definition MOV_OdAL (i : bxInstruction_c) : Mach unit :=
  al ← AL;
  write_virtual_byte_32 (i_seg i) (Id i) al.

Definition MOV_EbIbM (i : bxInstruction_c) : Mach unit :=
  eaddr ← resolve i;
  write_virtual_byte_32 (i_seg i) eaddr (Ib i).

Definition XLAT (i : bxInstruction_c) : Mach unit :=
  if nz (as32L i) then
    ebx ← EBX;
    al ← AL;
    v ← read_virtual_byte_32 (i_seg i) (u32 (ebx + al));
    set_AL v
  else
    bx ← BX;
    al ← AL;
    v ← read_virtual_byte_32 (i_seg i) (u16 (bx + al));
    set_AL v.

Definition XCHG_EbGbM (i : bxInstruction_c) : Mach unit :=
  eaddr ← resolve i;
  op1 ← read_RMW_virtual_byte_32 (i_seg i) eaddr;
  op2 ← BX_READ_8BIT_REGx (i_nnn i);
  write_RMW_virtual_byte op2;;
  BX_WRITE_8BIT_REGx (i_nnn i) op1.

Definition XCHG_EbGbR (i : bxInstruction_c) : Mach unit :=
  op1 ← BX_READ_8BIT_REGx (i_rm i);
  op2 ← BX_READ_8BIT_REGx (i_nnn i);
  BX_WRITE_8BIT_REGx (i_nnn i) op1;;
  BX_WRITE_8BIT_REGx (i_rm i) op2.

(** ** cpu/data_xfer16.cc *)

Definition MOV_RXIw (i : bxInstruction_c) : Mach unit :=
  BX_WRITE_16BIT_REG (opcodeReg i) (Iw i).

Definition XCHG_RXAX (i : bxInstruction_c) : Mach unit :=
  temp16 ← AX;
  r ← BX_READ_16BIT_REG (opcodeReg i);
  set_AX r;;
  BX_WRITE_16BIT_REG (opcodeReg i) temp16.

Definition MOV_EwGwM (i : bxInstruction_c) : Mach unit :=
  eaddr ← resolve i;
  r ← BX_READ_16BIT_REG (i_nnn i);
  write_virtual_word_32 (i_seg i) eaddr r.

Definition MOV_GwEwR (i : bxInstruction_c) : Mach unit :=
  r ← BX_READ_16BIT_REG (i_rm i);
  BX_WRITE_16BIT_REG (i_nnn i) r.

Definition MOV_GwEwM (i : bxInstruction_c) : Mach unit :=
  eaddr ← resolve i;
  val16 ← read_virtual_word_32 (i_seg i) eaddr;
  BX_WRITE_16BIT_REG (i_nnn i) val16.

Definition MOV_EwSwR (i : bxInstruction_c) : Mach unit :=
  when (6 <=? i_nnn i) (exception BX_UD_EXCEPTION 0);;
  seg_reg ← gets (fun s => sel_value (selector (sreg (i_nnn i) s)));
  if nz (os32L i) then BX_WRITE_32BIT_REGZ (i_rm i) seg_reg
  else BX_WRITE_16BIT_REG (i_rm i) seg_reg.

Definition MOV_EwSwM (i : bxInstruction_c) : Mach unit :=
  when (6 <=? i_nnn i) (exception BX_UD_EXCEPTION 0);;
  eaddr ← resolve i;
  seg_reg ← gets (fun s => sel_value (selector (sreg (i_nnn i) s)));
  write_virtual_word_32 (i_seg i) eaddr seg_reg.

Definition LEA_GwM (i : bxInstruction_c) : Mach unit :=
  eaddr ← resolve i;
  BX_WRITE_16BIT_REG (i_nnn i) (u16 eaddr).

Definition MOV_AXOd (i : bxInstruction_c) : Mach unit :=
  v ← read_virtual_word_32 (i_seg i) (Id i);
  set_AX v.

Definition MOV_OdAX (i : bxInstruction_c) : Mach unit :=
  ax ← AX;
  write_virtual_word_32 (i_seg i) (Id i) ax.

Definition MOV_EwIwM (i : bxInstruction_c) : Mach unit :=
  eaddr ← resolve i;
  write_virtual_word_32 (i_seg i) eaddr (Iw i).

Definition MOVZX_GwEbM (i : bxInstruction_c) : Mach unit :=
  eaddr ← resolve i;
  op2_8 ← read_virtual_byte_32 (i_seg i) eaddr;
  BX_WRITE_16BIT_REG (i_nnn i) op2_8.

Definition MOVZX_GwEbR (i : bxInstruction_c) : Mach unit :=
  op2_8 ← BX_READ_8BIT_REGx (i_rm i);
  BX_WRITE_16BIT_REG (i_nnn i) op2_8.

Definition MOVSX_GwEbM (i : bxInstruction_c) : Mach unit :=
  eaddr ← resolve i;
  op2_8 ← read_virtual_byte_32 (i_seg i) eaddr;
  BX_WRITE_16BIT_REG (i_nnn i) (u16 (s8 op2_8)).

Definition MOVSX_GwEbR (i : bxInstruction_c) : Mach unit :=
  op2_8 ← BX_READ_8BIT_REGx (i_rm i);
  BX_WRITE_16BIT_REG (i_nnn i) (u16 (s8 op2_8)).

Definition XCHG_EwGwM (i : bxInstruction_c) : Mach unit :=
  eaddr ← resolve i;
  op1_16 ← read_RMW_virtual_word_32 (i_seg i) eaddr;
  op2_16 ← BX_READ_16BIT_REG (i_nnn i);
  write_RMW_virtual_word op2_16;;
  BX_WRITE_16BIT_REG (i_nnn i) op1_16.

Definition XCHG_EwGwR (i : bxInstruction_c) : Mach unit :=
  op1_16 ← BX_READ_16BIT_REG (i_rm i);
  op2_16 ← BX_READ_16BIT_REG (i_nnn i);
  BX_WRITE_16BIT_REG (i_nnn i) op1_16;;
  BX_WRITE_16BIT_REG (i_rm i) op2_16.

Definition CMOVO_GwEwR (i : bxInstruction_c) : Mach unit :=
  of_ ← gets (get_flag OF);
  when (nz of_) (
    r ← BX_READ_16BIT_REG (i_rm i);
    BX_WRITE_16BIT_REG (i_nnn i) r).

Definition CMOVNO_GwEwR (i : bxInstruction_c) : Mach unit :=
  of_ ← gets (get_flag OF);
  when (negb (nz of_)) (
    r ← BX_READ_16BIT_REG (i_rm i);
    BX_WRITE_16BIT_REG (i_nnn i) r).

Definition CMOVB_GwEwR (i : bxInstruction_c) : Mach unit :=
  cf_ ← gets (get_flag CF);
  when (nz cf_) (
    r ← BX_READ_16BIT_REG (i_rm i);
    BX_WRITE_16BIT_REG (i_nnn i) r).

Definition CMOVNB_GwEwR (i : bxInstruction_c) : Mach unit :=
  cf_ ← gets (get_flag CF);
  when (negb (nz cf_)) (
    r ← BX_READ_16BIT_REG (i_rm i);
    BX_WRITE_16BIT_REG (i_nnn i) r).

Definition CMOVZ_GwEwR (i : bxInstruction_c) : Mach unit :=
  zf_ ← gets (get_flag ZF);
  when (nz zf_) (
    r ← BX_READ_16BIT_REG (i_rm i);
    BX_WRITE_16BIT_REG (i_nnn i) r).

Definition CMOVNZ_GwEwR (i : bxInstruction_c) : Mach unit :=
  zf_ ← gets (get_flag ZF);
  when (negb (nz zf_)) (
    r ← BX_READ_16BIT_REG (i_rm i);
    BX_WRITE_16BIT_REG (i_nnn i) r).

Definition CMOVBE_GwEwR (i : bxInstruction_c) : Mach unit :=
  cf_ ← gets (get_flag CF);
  zf_ ← gets (get_flag ZF);
  when ((nz cf_) || (nz zf_)) (
    r ← BX_READ_16BIT_REG (i_rm i);
    BX_WRITE_16BIT_REG (i_nnn i) r).

Definition CMOVNBE_GwEwR (i : bxInstruction_c) : Mach unit :=
  cf_ ← gets (get_flag CF);
  zf_ ← gets (get_flag ZF);
  when (negb ((nz cf_) || (nz zf_))) (
    r ← BX_READ_16BIT_REG (i_rm i);
    BX_WRITE_16BIT_REG (i_nnn i) r).

Definition CMOVS_GwEwR (i : bxInstruction_c) : Mach unit :=
  sf_ ← gets (get_flag SF);
  when (nz sf_) (
    r ← BX_READ_16BIT_REG (i_rm i);
    BX_WRITE_16BIT_REG (i_nnn i) r).

Definition CMOVNS_GwEwR (i : bxInstruction_c) : Mach unit :=
  sf_ ← gets (get_flag SF);
  when (negb (nz sf_)) (
    r ← BX_READ_16BIT_REG (i_rm i);
    BX_WRITE_16BIT_REG (i_nnn i) r).

Definition CMOVP_GwEwR (i : bxInstruction_c) : Mach unit :=
  pf_ ← gets (get_flag PF);
  when (nz pf_) (
    r ← BX_READ_16BIT_REG (i_rm i);
    BX_WRITE_16BIT_REG (i_nnn i) r).

Definition CMOVNP_GwEwR (i : bxInstruction_c) : Mach unit :=
  pf_ ← gets (get_flag PF);
  when (negb (nz pf_)) (
    r ← BX_READ_16BIT_REG (i_rm i);
    BX_WRITE_16BIT_REG (i_nnn i) r).

Definition CMOVL_GwEwR (i : bxInstruction_c) : Mach unit :=
  sf_ ← gets (getB_flag SF);
  of_ ← gets (getB_flag OF);
  when (negb (sf_ =? of_)) (
    r ← BX_READ_16BIT_REG (i_rm i);
    BX_WRITE_16BIT_REG (i_nnn i) r).

Definition CMOVNL_GwEwR (i : bxInstruction_c) : Mach unit :=
  sf_ ← gets (getB_flag SF);
  of_ ← gets (getB_flag OF);
  when (sf_ =? of_) (
    r ← BX_READ_16BIT_REG (i_rm i);
    BX_WRITE_16BIT_REG (i_nnn i) r).

Definition CMOVLE_GwEwR (i : bxInstruction_c) : Mach unit :=
  zf_ ← gets (get_flag ZF);
  sf_ ← gets (getB_flag SF);
  of_ ← gets (getB_flag OF);
  when ((nz zf_) || (negb (sf_ =? of_))) (
    r ← BX_READ_16BIT_REG (i_rm i);
    BX_WRITE_16BIT_REG (i_nnn i) r).

Definition CMOVNLE_GwEwR (i : bxInstruction_c) : Mach unit :=
  zf_ ← gets (get_flag ZF);
  sf_ ← gets (getB_flag SF);
  of_ ← gets (getB_flag OF);
  when ((negb (nz zf_)) && (sf_ =? of_)) (
    r ← BX_READ_16BIT_REG (i_rm i);
    BX_WRITE_16BIT_REG (i_nnn i) r).

(** ** cpu/data_xfer32.cc *)

Definition XCHG_ERXEAX (i : bxInstruction_c) : Mach unit :=
  temp32 ← EAX;
  r ← BX_READ_32BIT_REG (opcodeReg i);
  set_EAX r;;
  BX_WRITE_32BIT_REGZ (opcodeReg i) temp32.

Definition MOV_ERXId (i : bxInstruction_c) : Mach unit :=
  BX_WRITE_32BIT_REGZ (opcodeReg i) (Id i).

Definition MOV32_EdGdM (i : bxInstruction_c) : Mach unit :=
  eaddr ← resolve i;
  r ← BX_READ_32BIT_REG (i_nnn i);
  write_virtual_dword_32 (i_seg i) eaddr r.

Definition MOV_GdEdR (i : bxInstruction_c) : Mach unit :=
  r ← BX_READ_32BIT_REG (i_rm i);
  BX_WRITE_32BIT_REGZ (i_nnn i) r.

Definition MOV32_GdEdM (i : bxInstruction_c) : Mach unit :=
  eaddr ← resolve i;
  val32 ← read_virtual_dword_32 (i_seg i) eaddr;
  BX_WRITE_32BIT_REGZ (i_nnn i) val32.

Definition LEA_GdM (i : bxInstruction_c) : Mach unit :=
  eaddr ← resolve i;
  BX_WRITE_32BIT_REGZ (i_nnn i) eaddr.

Definition MOV_EAXOd (i : bxInstruction_c) : Mach unit :=
  v ← read_virtual_dword_32 (i_seg i) (Id i);
  set_EAX v.

Definition MOV_OdEAX (i : bxInstruction_c) : Mach unit :=
  eax ← EAX;
  write_virtual_dword_32 (i_seg i) (Id i) eax.

Definition MOV_EdIdM (i : bxInstruction_c) : Mach unit :=
  eaddr ← resolve i;
  write_virtual_dword_32 (i_seg i) eaddr (Id i).

Definition MOVZX_GdEbM (i : bxInstruction_c) : Mach unit :=
  eaddr ← resolve i;
  op2_8 ← read_virtual_byte_32 (i_seg i) eaddr;
  BX_WRITE_32BIT_REGZ (i_nnn i) op2_8.

Definition MOVZX_GdEbR (i : bxInstruction_c) : Mach unit :=
  op2_8 ← BX_READ_8BIT_REGx (i_rm i);
  BX_WRITE_32BIT_REGZ (i_nnn i) op2_8.

Definition MOVZX_GdEwM (i : bxInstruction_c) : Mach unit :=
  eaddr ← resolve i;
  op2_16 ← read_virtual_word_32 (i_seg i) eaddr;
  BX_WRITE_32BIT_REGZ (i_nnn i) op2_16.

Definition MOVZX_GdEwR (i : bxInstruction_c) : Mach unit :=
  op2_16 ← BX_READ_16BIT_REG (i_rm i);
  BX_WRITE_32BIT_REGZ (i_nnn i) op2_16.

Definition MOVSX_GdEbM (i : bxInstruction_c) : Mach unit :=
  eaddr ← resolve i;
  op2_8 ← read_virtual_byte_32 (i_seg i) eaddr;
  BX_WRITE_32BIT_REGZ (i_nnn i) (u32 (s8 op2_8)).

Definition MOVSX_GdEbR (i : bxInstruction_c) : Mach unit :=
  op2_8 ← BX_READ_8BIT_REGx (i_rm i);
  BX_WRITE_32BIT_REGZ (i_nnn i) (u32 (s8 op2_8)).

Definition MOVSX_GdEwM (i : bxInstruction_c) : Mach unit :=
  eaddr ← resolve i;
  op2_16 ← read_virtual_word_32 (i_seg i) eaddr;
  BX_WRITE_32BIT_REGZ (i_nnn i) (u32 (s16 op2_16)).

Definition MOVSX_GdEwR (i : bxInstruction_c) : Mach unit :=
  op2_16 ← BX_READ_16BIT_REG (i_rm i);
  BX_WRITE_32BIT_REGZ (i_nnn i) (u32 (s16 op2_16)).

Definition XCHG_EdGdM (i : bxInstruction_c) : Mach unit :=
  eaddr ← resolve i;
  op1_32 ← read_RMW_virtual_dword_32 (i_seg i) eaddr;
  op2_32 ← BX_READ_32BIT_REG (i_nnn i);
  write_RMW_virtual_dword op2_32;;
  BX_WRITE_32BIT_REGZ (i_nnn i) op1_32.

Definition XCHG_EdGdR (i : bxInstruction_c) : Mach unit :=
  op1_32 ← BX_READ_32BIT_REG (i_rm i);
  op2_32 ← BX_READ_32BIT_REG (i_nnn i);
  BX_WRITE_32BIT_REGZ (i_nnn i) op1_32;;
  BX_WRITE_32BIT_REGZ (i_rm i) op2_32.

Definition CMOVO_GdEdR (i : bxInstruction_c) : Mach unit :=
  of_ ← gets (get_flag OF);
  when (nz of_) (
    r ← BX_READ_32BIT_REG (i_rm i);
    BX_WRITE_32BIT_REGZ (i_nnn i) r).

Definition CMOVNO_GdEdR (i : bxInstruction_c) : Mach unit :=
  of_ ← gets (get_flag OF);
  when (negb (nz of_)) (
    r ← BX_READ_32BIT_REG (i_rm i);
    BX_WRITE_32BIT_REGZ (i_nnn i) r).

Definition CMOVB_GdEdR (i : bxInstruction_c) : Mach unit :=
  cf_ ← gets (get_flag CF);
  when (nz cf_) (
    r ← BX_READ_32BIT_REG (i_rm i);
    BX_WRITE_32BIT_REGZ (i_nnn i) r).

Definition CMOVNB_GdEdR (i : bxInstruction_c) : Mach unit :=
  cf_ ← gets (get_flag CF);
  when (negb (nz cf_)) (
    r ← BX_READ_32BIT_REG (i_rm i);
    BX_WRITE_32BIT_REGZ (i_nnn i) r).

Definition CMOVZ_GdEdR (i : bxInstruction_c) : Mach unit :=
  zf_ ← gets (get_flag ZF);
  when (nz zf_) (
    r ← BX_READ_32BIT_REG (i_rm i);
    BX_WRITE_32BIT_REGZ (i_nnn i) r).

Definition CMOVNZ_GdEdR (i : bxInstruction_c) : Mach unit :=
  zf_ ← gets (get_flag ZF);
  when (negb (nz zf_)) (
    r ← BX_READ_32BIT_REG (i_rm i);
    BX_WRITE_32BIT_REGZ (i_nnn i) r).

Definition CMOVBE_GdEdR (i : bxInstruction_c) : Mach unit :=
  cf_ ← gets (get_flag CF);
  zf_ ← gets (get_flag ZF);
  when ((nz cf_) || (nz zf_)) (
    r ← BX_READ_32BIT_REG (i_rm i);
    BX_WRITE_32BIT_REGZ (i_nnn i) r).

Definition CMOVNBE_GdEdR (i : bxInstruction_c) : Mach unit :=
  cf_ ← gets (get_flag CF);
  zf_ ← gets (get_flag ZF);
  when (negb ((nz cf_) || (nz zf_))) (
    r ← BX_READ_32BIT_REG (i_rm i);
    BX_WRITE_32BIT_REGZ (i_nnn i) r).

Definition CMOVS_GdEdR (i : bxInstruction_c) : Mach unit :=
  sf_ ← gets (get_flag SF);
  when (nz sf_) (
    r ← BX_READ_32BIT_REG (i_rm i);
    BX_WRITE_32BIT_REGZ (i_nnn i) r).

Definition CMOVNS_GdEdR (i : bxInstruction_c) : Mach unit :=
  sf_ ← gets (get_flag SF);
  when (negb (nz sf_)) (
    r ← BX_READ_32BIT_REG (i_rm i);
    BX_WRITE_32BIT_REGZ (i_nnn i) r).

Definition CMOVP_GdEdR (i : bxInstruction_c) : Mach unit :=
  pf_ ← gets (get_flag PF);
  when (nz pf_) (
    r ← BX_READ_32BIT_REG (i_rm i);
    BX_WRITE_32BIT_REGZ (i_nnn i) r).

Definition CMOVNP_GdEdR (i : bxInstruction_c) : Mach unit :=
  pf_ ← gets (get_flag PF);
  when (negb (nz pf_)) (
    r ← BX_READ_32BIT_REG (i_rm i);
    BX_WRITE_32BIT_REGZ (i_nnn i) r).

Definition CMOVL_GdEdR (i : bxInstruction_c) : Mach unit :=
  sf_ ← gets (getB_flag SF);
  of_ ← gets (getB_flag OF);
  when (negb (sf_ =? of_)) (
    r ← BX_READ_32BIT_REG (i_rm i);
    BX_WRITE_32BIT_REGZ (i_nnn i) r).

Definition CMOVNL_GdEdR (i : bxInstruction_c) : Mach unit :=
  sf_ ← gets (getB_flag SF);
  of_ ← gets (getB_flag OF);
  when (sf_ =? of_) (
    r ← BX_READ_32BIT_REG (i_rm i);
    BX_WRITE_32BIT_REGZ (i_nnn i) r).

Definition CMOVLE_GdEdR (i : bxInstruction_c) : Mach unit :=
  zf_ ← gets (get_flag ZF);
  sf_ ← gets (getB_flag SF);
  of_ ← gets (getB_flag OF);
  when ((nz zf_) || (negb (sf_ =? of_))) (
    r ← BX_READ_32BIT_REG (i_rm i);
    BX_WRITE_32BIT_REGZ (i_nnn i) r).

Definition CMOVNLE_GdEdR (i : bxInstruction_c) : Mach unit :=
  zf_ ← gets (get_flag ZF);
  sf_ ← gets (getB_flag SF);
  of_ ← gets (getB_flag OF);
  when ((negb (nz zf_)) && (sf_ =? of_)) (
    r ← BX_READ_32BIT_REG (i_rm i);
    BX_WRITE_32BIT_REGZ (i_nnn i) r).

(** ** cpu/load32.cc

    The memory forms of many instructions load their operand into a temporary
    register and go on with the register form, [i->execute2]. *)

Definition LOAD_Eb (execute2 : handler) (i : bxInstruction_c) : Mach unit :=
  eaddr ← resolve i;
  v ← read_virtual_byte_32 (i_seg i) eaddr;
  set_TMP8L v;;
  execute2 i.

Definition LOAD_Ew (execute2 : handler) (i : bxInstruction_c) : Mach unit :=
  eaddr ← resolve i;
  v ← read_virtual_word_32 (i_seg i) eaddr;
  set_TMP16 v;;
  execute2 i.

Definition LOAD_Ed (execute2 : handler) (i : bxInstruction_c) : Mach unit :=
  eaddr ← resolve i;
  v ← read_virtual_dword_32 (i_seg i) eaddr;
  set_TMP32 v;;
  execute2 i.

(** ** Reference *)

Definition ref_mov (w : Z) (dst src : place) (i : bxInstruction_c) : Mach unit :=
  match dst with
  | Mem => eaddr ← resolve i; v ← fetch w src i; write_mem w (i_seg i) eaddr v
  | Reg r => v ← fetch w src i; write_reg w (r i) v
  | _ => mret tt
  end.

(** Accumulator and absolute address. *)
Definition ref_mov_from (w : Z) (i : bxInstruction_c) : Mach unit :=
  v ← read_mem w (i_seg i) (Id i); write_reg w 0 v.
Definition ref_mov_to (w : Z) (i : bxInstruction_c) : Mach unit :=
  v ← read_reg w 0; write_mem w (i_seg i) (Id i) v.

(** Zero and sign extension from [v] to [w] bits. *)
Definition ref_movx (signed : bool) (v w : Z) (src : place) (i : bxInstruction_c) : Mach unit :=
  a ← fetch v src i;
  write_reg w (i_nnn i) (if signed then wrap w (swrap v a) else a).

Definition ref_xchg (w : Z) (dst : place) (i : bxInstruction_c) : Mach unit :=
  a ← fetch_rmw w dst i;
  b ← read_reg w (i_nnn i);
  match dst with
  | Mem => write_rmw w b;; write_reg w (i_nnn i) a
  | _ => write_reg w (i_nnn i) a;; write_reg w (i_rm i) b
  end.
Definition ref_xchg_acc (w : Z) (i : bxInstruction_c) : Mach unit :=
  a ← read_reg w 0;
  b ← read_reg w (opcodeReg i);
  write_reg w 0 b;; write_reg w (opcodeReg i) a.

Definition ref_cmov (cc w : Z) (i : bxInstruction_c) : Mach unit :=
  fl ← gets flags_of;
  if condition cc fl then v ← read_reg w (i_rm i); write_reg w (i_nnn i) v else mret tt.

Definition ref_lea (w : Z) (i : bxInstruction_c) : Mach unit :=
  eaddr ← resolve i; write_reg w (i_nnn i) (wrap w eaddr).

(** AL := byte number AL of the table at EBX or BX. *)
Definition ref_xlat (i : bxInstruction_c) : Mach unit :=
  let w := if nz (as32L i) then 32 else 16 in
  b ← read_reg w 3;
  a ← read_reg 8 0;
  v ← read_mem 8 (i_seg i) (wrap w (b + a));
  write_reg 8 0 v.

Definition ref_mov_sreg (dst : place) (i : bxInstruction_c) : Mach unit :=
  if 6 <=? i_nnn i then exception BX_UD_EXCEPTION 0 else
  match dst with
  | Mem => eaddr ← resolve i; v ← gets (fun s => sel_value (selector (sreg (i_nnn i) s)));
           write_mem 16 (i_seg i) eaddr v
  | _ => v ← gets (fun s => sel_value (selector (sreg (i_nnn i) s)));
         write_reg (if nz (os32L i) then 32 else 16) (i_rm i) v
  end.

Definition mov_table : list (handler * handler) :=
  [
   (MOV_RLIb, ref_mov 8 (Reg opcodeReg) Imm);
   (MOV_EbGbM, ref_mov 8 Mem (Reg i_nnn));
   (MOV_GbEbM, ref_mov 8 (Reg i_nnn) Mem);
   (MOV_GbEbR, ref_mov 8 (Reg i_nnn) (Reg i_rm));
   (MOV_ALOd, ref_mov_from 8);
   (MOV_OdAL, ref_mov_to 8);
   (MOV_EbIbM, ref_mov 8 Mem Imm);
   (XLAT, ref_xlat);
   (XCHG_EbGbM, ref_xchg 8 Mem);
   (XCHG_EbGbR, ref_xchg 8 (Reg i_rm));
   (MOV_RXIw, ref_mov 16 (Reg opcodeReg) Imm);
   (XCHG_RXAX, ref_xchg_acc 16);
   (MOV_EwGwM, ref_mov 16 Mem (Reg i_nnn));
   (MOV_GwEwR, ref_mov 16 (Reg i_nnn) (Reg i_rm));
   (MOV_GwEwM, ref_mov 16 (Reg i_nnn) Mem);
   (MOV_EwSwR, ref_mov_sreg (Reg i_rm));
   (MOV_EwSwM, ref_mov_sreg Mem);
   (LEA_GwM, ref_lea 16);
   (MOV_AXOd, ref_mov_from 16);
   (MOV_OdAX, ref_mov_to 16);
   (MOV_EwIwM, ref_mov 16 Mem Imm);
   (MOVZX_GwEbM, ref_movx false 8 16 Mem);
   (MOVZX_GwEbR, ref_movx false 8 16 (Reg i_rm));
   (MOVSX_GwEbM, ref_movx true 8 16 Mem);
   (MOVSX_GwEbR, ref_movx true 8 16 (Reg i_rm));
   (XCHG_EwGwM, ref_xchg 16 Mem);
   (XCHG_EwGwR, ref_xchg 16 (Reg i_rm));
   (XCHG_ERXEAX, ref_xchg_acc 32);
   (MOV_ERXId, ref_mov 32 (Reg opcodeReg) Imm);
   (MOV32_EdGdM, ref_mov 32 Mem (Reg i_nnn));
   (MOV_GdEdR, ref_mov 32 (Reg i_nnn) (Reg i_rm));
   (MOV32_GdEdM, ref_mov 32 (Reg i_nnn) Mem);
   (LEA_GdM, ref_lea 32);
   (MOV_EAXOd, ref_mov_from 32);
   (MOV_OdEAX, ref_mov_to 32);
   (MOV_EdIdM, ref_mov 32 Mem Imm);
   (MOVZX_GdEbM, ref_movx false 8 32 Mem);
   (MOVZX_GdEbR, ref_movx false 8 32 (Reg i_rm));
   (MOVZX_GdEwM, ref_movx false 16 32 Mem);
   (MOVZX_GdEwR, ref_movx false 16 32 (Reg i_rm));
   (MOVSX_GdEbM, ref_movx true 8 32 Mem);
   (MOVSX_GdEbR, ref_movx true 8 32 (Reg i_rm));
   (MOVSX_GdEwM, ref_movx true 16 32 Mem);
   (MOVSX_GdEwR, ref_movx true 16 32 (Reg i_rm));
   (XCHG_EdGdM, ref_xchg 32 Mem);
   (XCHG_EdGdR, ref_xchg 32 (Reg i_rm));
   (MOV_RHIb, ref_mov 8 (Reg (fun i => 4 + i_b1 i mod 4)) Imm) ].
Definition cmov_table : list (handler * handler) :=
  [
   (CMOVO_GwEwR, ref_cmov 0 16);
   (CMOVNO_GwEwR, ref_cmov 1 16);
   (CMOVB_GwEwR, ref_cmov 2 16);
   (CMOVNB_GwEwR, ref_cmov 3 16);
   (CMOVZ_GwEwR, ref_cmov 4 16);
   (CMOVNZ_GwEwR, ref_cmov 5 16);
   (CMOVBE_GwEwR, ref_cmov 6 16);
   (CMOVNBE_GwEwR, ref_cmov 7 16);
   (CMOVS_GwEwR, ref_cmov 8 16);
   (CMOVNS_GwEwR, ref_cmov 9 16);
   (CMOVP_GwEwR, ref_cmov 10 16);
   (CMOVNP_GwEwR, ref_cmov 11 16);
   (CMOVL_GwEwR, ref_cmov 12 16);
   (CMOVNL_GwEwR, ref_cmov 13 16);
   (CMOVLE_GwEwR, ref_cmov 14 16);
   (CMOVNLE_GwEwR, ref_cmov 15 16);
   (CMOVO_GdEdR, ref_cmov 0 32);
   (CMOVNO_GdEdR, ref_cmov 1 32);
   (CMOVB_GdEdR, ref_cmov 2 32);
   (CMOVNB_GdEdR, ref_cmov 3 32);
   (CMOVZ_GdEdR, ref_cmov 4 32);
   (CMOVNZ_GdEdR, ref_cmov 5 32);
   (CMOVBE_GdEdR, ref_cmov 6 32);
   (CMOVNBE_GdEdR, ref_cmov 7 32);
   (CMOVS_GdEdR, ref_cmov 8 32);
   (CMOVNS_GdEdR, ref_cmov 9 32);
   (CMOVP_GdEdR, ref_cmov 10 32);
   (CMOVNP_GdEdR, ref_cmov 11 32);
   (CMOVL_GdEdR, ref_cmov 12 32);
   (CMOVNL_GdEdR, ref_cmov 13 32);
   (CMOVLE_GdEdR, ref_cmov 14 32);
   (CMOVNLE_GdEdR, ref_cmov 15 32) ].
Definition xfer_table : list (handler * handler) := mov_table ++ cmov_table.

(** ** Moves *)

Ltac xfer_open :=
  intros i; cbn [fst snd]; match goal with |- refines (?h _) _ => unfold h end;
  unfold ref_mov, ref_mov_from, ref_mov_to, ref_movx, ref_xchg, ref_xchg_acc, ref_lea, ref_xlat,
    ref_mov_sreg; cbv zeta.
Ltac xfer_step :=
  match goal with
  | |- context [wrap 32 ?e] => rewrite (wrap_small 32 e) by (first [assumption | lia])
  | |- refines (when ?b (exception _ _);; _) (if ?b then _ else _) => apply refines_when_raise; intros ?
  | |- _ => handler_step
  end.
Lemma selector_refines n :
  refines (gets (fun s => sel_value (selector (sreg n s)))) (gets (fun s => sel_value (selector (sreg n s)))).
Proof. by apply refines_gets. Qed.
#[export] Hint Resolve selector_refines : refines.
Ltac xfer_row :=
  xfer_open; try destruct (nz (as32L _)); try destruct (nz (os32L _));
  reference_unfold; unfold_widths; repeat xfer_step.

Lemma MOV_RHIb_implements :
  implements (MOV_RHIb, ref_mov 8 (Reg (fun i => 4 + i_b1 i mod 4)) Imm).
Proof.
  intros i. cbn [fst snd]. unfold MOV_RHIb, ref_mov. reference_unfold. apply refines_ret_r.
  assert (Z.land (i_b1 i) 3 = i_b1 i mod 4) as -> by (by apply (Z.land_ones _ 2)).
  unfold BX_WRITE_8BIT_REGx. pose proof (Z.mod_pos_bound (i_b1 i) 4).
  assert (nz (Z.land (4 + i_b1 i mod 4) 4) = true) as ->.
  { assert (i_b1 i mod 4 = 0 \/ i_b1 i mod 4 = 1 \/ i_b1 i mod 4 = 2 \/ i_b1 i mod 4 = 3)
      as [->|[->|[->| ->]]] by lia; done. }
  replace (4 + i_b1 i mod 4 - 4) with (i_b1 i mod 4) by lia. eauto with refines.
Qed.
#[export] Hint Resolve MOV_RHIb_implements : implements.

Lemma mov_implements : Forall implements mov_table.
Proof. table_tac ltac:(first [solve [eauto 1 with implements] | solve [xfer_row]]). Qed.

(** ** Conditional moves *)

Lemma refines_flags_cond (m k k' : Mach unit) (C : machine -> bool) cc :
  (forall s, m s = (if C s then k else mret tt) s) ->
  (forall s, C s = condition cc (flags_of (norm s))) -> refines k k' ->
  refines m (fl ← gets flags_of; if condition cc fl then k' else mret tt).
Proof.
  intros Hm HC Hk s. rewrite Hm, HC. change ((gets flags_of ≫= ?f) (norm s)) with (f (flags_of (norm s)) (norm s)).
  cbv beta. destruct (condition cc _); [apply Hk|done].
Qed.

Lemma b2z_eqb a b : (Z.b2z a =? Z.b2z b) = Bool.eqb a b.
Proof. by destruct a, b. Qed.

Ltac cmov_row :=
  intros i; cbn [fst snd]; match goal with |- refines (?h _) _ => unfold h end;
  unfold ref_cmov; reference_unfold;
  first [ eapply refines_flags_cond with (k := r ← BX_READ_16BIT_REG (i_rm i); BX_WRITE_16BIT_REG (i_nnn i) r)
            (k' := r ← BX_READ_16BIT_REG (i_rm i); BX_WRITE_16BIT_REG (i_nnn i) r)
        | eapply refines_flags_cond with (k := r ← BX_READ_32BIT_REG (i_rm i); BX_WRITE_32BIT_REGZ (i_nnn i) r)
            (k' := r ← BX_READ_32BIT_REG (i_rm i); BX_WRITE_32BIT_REGZ (i_nnn i) r) ];
  [ intros s; cbv [mbind M_bind gets when]; reflexivity
  | intros s; cbv beta; unfold condition, flags_of;
    rewrite ?get_flag_flag, ?getB_flag_b2z, ?b2z_eqb, ?flag_norm;
    destruct (flag OF s), (flag CF s), (flag ZF s), (flag SF s), (flag PF s); reflexivity
  | repeat handler_step ].

Lemma cmov_implements : Forall implements cmov_table.
Proof. table_tac cmov_row. Qed.

Lemma xfer_implements : Forall implements xfer_table.
Proof. apply Forall_app_2; [apply mov_implements|apply cmov_implements]. Qed.
(** C36: every move, exchange, extension, conditional move, LEA and XLAT of
    cpu/data_xfer8.cc, cpu/data_xfer16.cc and cpu/data_xfer32.cc (but MOV to a
    segment register, which SegLoad.v treats) refines its instruction; a conditional move tests the same condition as SETcc, on flags
    that may be pending. *)
Theorem xfer_correct :
  Forall (fun p => forall i s, omap_state norm (p.1 i s) = p.2 i (norm s)) xfer_table.
Proof. exact xfer_implements. Qed.

Lemma xfer_keeps_wf : Forall keeps_wf xfer_table.
Proof. unfold xfer_table. rewrite !Forall_app. split_and!; table_tac wf_handler. Qed.
Lemma xfer_is_precise : Forall is_precise xfer_table.
Proof. unfold xfer_table. rewrite !Forall_app. split_and!; table_tac precise_handler. Qed.

(** ** Operands loaded through the temporary register *)

Definition ref_load (w : Z) (r : handler) (i : bxInstruction_c) : Mach unit :=
  eaddr ← resolve i;
  v ← read_mem w (i_seg i) eaddr;
  write_reg w BX_TMP_REGISTER v;;
  r i.

(** The memory forms of a table of register forms. *)
Definition load_rows (T : list (handler * handler)) : list (handler * handler) :=
  ((fun p => (LOAD_Eb p.1, ref_load 8 p.2)) <$> T) ++
  ((fun p => (LOAD_Ew p.1, ref_load 16 p.2)) <$> T) ++
  ((fun p => (LOAD_Ed p.1, ref_load 32 p.2)) <$> T).

Lemma set_TMP_arch x s : arch (set_reg BX_TMP_REGISTER x s) = arch s.
Proof. unfold arch, set_reg. msimpl. change (Z.to_nat BX_TMP_REGISTER) with 10%nat.
  by rewrite take_insert_ge by lia.
Qed.
Lemma write_TMP_quiet w v : width w -> quiet (write_reg w BX_TMP_REGISTER v).
Proof. intros [->|[->| ->]] s; apply set_TMP_arch. Qed.

Section Load.
Context (T : list (handler * handler)).

Lemma load_implements : Forall implements T -> Forall implements (load_rows T).
Proof.
  intros HT. unfold load_rows. rewrite !Forall_app, !Forall_fmap.
  split_and!; (eapply Forall_impl; [exact HT|]); intros [h r] Hp i; cbn [fst snd compose];
    unfold LOAD_Eb, LOAD_Ew, LOAD_Ed, ref_load; reference_unfold; unfold_widths; do 3 handler_step;
    apply (Hp i).
Qed.
Lemma load_keeps_wf : Forall keeps_wf T -> Forall keeps_wf (load_rows T).
Proof.
  intros HT. unfold load_rows. rewrite !Forall_app, !Forall_fmap.
  split_and!; (eapply Forall_impl; [exact HT|]); intros [h r] Hp i; cbn [fst snd compose];
    unfold LOAD_Eb, LOAD_Ew, LOAD_Ed; unfold_widths; wf_tac; apply (Hp i).
Qed.
Lemma load_is_precise : Forall is_precise T -> Forall is_precise (load_rows T).
Proof.
  intros HT. unfold load_rows. rewrite !Forall_app, !Forall_fmap.
  split_and!; (eapply Forall_impl; [exact HT|]); intros [h r] Hp i; cbn [fst snd compose];
    unfold LOAD_Eb, LOAD_Ew, LOAD_Ed; unfold_widths.
  all: (apply precise_bind_quiet; [eauto with quiet|intros eaddr]);
    (apply precise_bind_quiet; [eauto with quiet|intros v]);
    (apply precise_bind_quiet; [|intros _; apply (Hp i)]).
  - apply (write_TMP_quiet 8). width_tac.
  - apply (write_TMP_quiet 16). width_tac.
  - apply (write_TMP_quiet 32). width_tac.
Qed.
End Load.
