(* ===== verification/Coherence.v ===== *)
(** * Coherence: no data instruction disturbs the caches of the mode

    The reference instructions are [steady]; a handler inherits that from the
    instruction it implements ([Mode.refines_steady]), so every handler of the
    tables keeps the processor mode, the privilege and alignment-check caches in
    agreement with CR0, EFLAGS and CS. *)
From stdpp Require Import base numbers list gmap.
From Stdlib Require Import ZArith Lia.
From S2P Require Import Prelude Machine LazyFlags Memory Paging Access Regs Precise Reference Mode.
From S2P Require Import Arith Bcd Logical Mult ShiftSpec Shift Bit DataXfer.

Local Open Scope Z_scope.

(** ** Operands *)

Lemma read_reg_steady w n : steady (read_reg w n).
Proof. unfold read_reg. steady_tac. Qed.
Lemma write_reg_steady w n v : steady (write_reg w n v).
Proof. unfold write_reg. steady_tac. Qed.
Lemma read_mem_steady w n o : steady (read_mem w n o).
Proof. unfold read_mem. unfold_widths. steady_tac. Qed.
Lemma write_mem_steady w n o v : steady (write_mem w n o v).
Proof. unfold write_mem. unfold_widths. steady_tac. Qed.
Lemma read_rmw_steady w n o : steady (read_rmw w n o).
Proof. unfold read_rmw. unfold_widths. steady_tac. Qed.
Lemma write_rmw_steady w v : steady (write_rmw w v).
Proof. unfold write_rmw. unfold_widths. steady_tac. Qed.
#[export] Hint Resolve read_reg_steady write_reg_steady read_mem_steady write_mem_steady
  read_rmw_steady write_rmw_steady : steady.
Lemma fetch_steady w p i : steady (fetch w p i).
Proof. unfold fetch. steady_tac. Qed.
#[export] Hint Resolve fetch_steady : steady.
Lemma fetch_rmw_steady w p i : steady (fetch_rmw w p i).
Proof. unfold fetch_rmw. steady_tac. Qed.
Lemma store_rmw_steady w p v i : steady (store_rmw w p v i).
Proof. unfold store_rmw. steady_tac. Qed.
Lemma carry_in_steady op : steady (carry_in op).
Proof. unfold carry_in. steady_tac. Qed.
Lemma update_keep_CF_steady fl : steady (update_keep_CF fl).
Proof. apply update_flags_steady. Qed.
Lemma wide_acc_steady w : steady (wide_acc w).
Proof. unfold wide_acc. steady_tac. Qed.
Lemma set_quotient_steady w q r : steady (set_quotient w q r).
Proof. unfold set_quotient. steady_tac. Qed.
Lemma shift_carry_in_steady op : steady (shift_carry_in op).
Proof. unfold shift_carry_in. steady_tac. Qed.
Lemma shift_set_flags_steady op w r b : steady (shift_set_flags op w r b).
Proof. unfold shift_set_flags. steady_tac. Qed.
Lemma shift_count_steady b i : steady (shift_count b i).
Proof. unfold shift_count. steady_tac. Qed.
Lemma shiftd_count_steady b i : steady (shiftd_count b i).
Proof. unfold shiftd_count. steady_tac. Qed.
#[export] Hint Resolve fetch_rmw_steady store_rmw_steady carry_in_steady update_keep_CF_steady
  wide_acc_steady set_quotient_steady shift_carry_in_steady shift_set_flags_steady
  shift_count_steady shiftd_count_steady : steady.

(** ** The instructions *)

Ltac steady_ref :=
  intros i; cbn [snd];
  cbv beta delta [
    ref_alu ref_inc ref_dec ref_neg ref_not ref_xadd ref_cmpxchg ref_sext ref_sext_high
    ref_cmpxchg8b ref_ud ref_mul ref_imul ref_div ref_idiv
    ref_shift ref_shift_tail ref_shiftd ref_shiftd_tail
    ref_setcc ref_bit_string ref_bit_reg ref_bit_imm bit_fetch bit_finish ref_scan ref_popcnt
    ref_bswap ref_movbe_load ref_movbe_store
    ref_mov ref_mov_from ref_mov_to ref_movx ref_xchg ref_xchg_acc ref_cmov ref_lea ref_xlat
    ref_mov_sreg ref_ascii ref_decimal ref_aam ref_aad];
  unfold_widths; steady_tac.

Definition steady_row (p : handler * handler) : Prop := forall i, steady (p.2 i).

Lemma arith_steady : Forall steady_row arith_table.
Proof.
  unfold arith_table, arith8_table, arith16_table, arith32_table. rewrite !Forall_app.
  split_and!; table_tac steady_ref.
Qed.
Lemma bcd_steady : Forall steady_row bcd_table.
Proof. table_tac steady_ref. Qed.
Lemma logical_steady : Forall steady_row logical_table.
Proof.
  unfold logical_table, logical8_table, logical16_table, logical32_table. rewrite !Forall_app.
  split_and!; table_tac steady_ref.
Qed.
Lemma mult_steady : Forall steady_row mult_table.
Proof. unfold mult_table, mul_table, div_table, idiv_table. rewrite !Forall_app. split_and!; table_tac steady_ref. Qed.
Lemma shift_steady : Forall steady_row shift_table.
Proof. unfold shift_table. rewrite ?Forall_app. split_and?; table_tac steady_ref. Qed.
Lemma bit_steady : Forall steady_row bit_table.
Proof.
  unfold bit_table, setcc_table, bt_table, scan_table, swap_table. rewrite !Forall_app.
  split_and!; table_tac steady_ref.
Qed.
Lemma xfer_steady : Forall steady_row xfer_table.
Proof. unfold xfer_table, mov_table, cmov_table. rewrite !Forall_app. split_and!; table_tac steady_ref. Qed.
Lemma load_steady T : Forall steady_row T -> Forall steady_row (load_rows T).
Proof.
  intros HT. unfold load_rows. rewrite !Forall_app, !Forall_fmap.
  split_and!; (eapply Forall_impl; [exact HT|]); intros [h r] Hp i; cbn [fst snd compose];
    unfold ref_load; steady_tac; apply (Hp i).
Qed.
