(* ===== verification/Protect.v ===== *)
(** * Protect: the instructions that query and load the protection tables

    cpu/protect_ctrl.cc: ARPL; LAR, LSL, VERR and VERW, which ask what a selector
    gives access to; and the loads and stores of GDTR, IDTR, LDTR and TR.  The
    queries and the loads of LDTR and TR are specified on the bits of the
    descriptor in memory. *)
From stdpp Require Import base numbers list gmap.
From Stdlib Require Import ZArith Lia.
From S2P Require Import Prelude Machine LazyFlags Memory Paging Access Regs Precise Reference Mode Segment SegLoad.
From S2P Require Import Frame Stack FlagCtrl CtrlPro Exception Delivery Contract Coherence.

Local Open Scope Z_scope.

(** ** cpu/protect_ctrl.cc *)

(** The operand of the instructions that take a selector. *)
Definition read_selector_Ew (i : bxInstruction_c) : Mach Z :=
  if nz (modC0 i) then BX_READ_16BIT_REG (i_rm i)
  else
    eaddr ← resolve i;
    read_virtual_word_32 (i_seg i) eaddr.

Definition ARPL_EwGw (i : bxInstruction_c) : Mach unit :=
  protected ← gets protected_mode;
  when (negb protected) (exception BX_UD_EXCEPTION 0);;
  op1_16 ←
    (if nz (modC0 i) then BX_READ_16BIT_REG (i_rm i)
     else eaddr ← resolve i; read_RMW_virtual_word_32 (i_seg i) eaddr);
  op2_16 ← BX_READ_16BIT_REG (i_nnn i);
  if Z.land op1_16 0x03 <? Z.land op2_16 0x03 then
    let op1_16 := Z.lor (Z.land op1_16 0xfffc) (Z.land op2_16 0x03) in
    (if nz (modC0 i) then BX_WRITE_16BIT_REG (i_rm i) op1_16
     else write_RMW_virtual_word op1_16);;
    assert_flag ZF
  else clear_flag ZF.

Definition LAR_GvEw (i : bxInstruction_c) : Mach unit :=
  protected ← gets protected_mode;
  when (negb protected) (exception BX_UD_EXCEPTION 0);;
  raw_selector ← read_selector_Ew i;
  if Z.land raw_selector 0xfffc =? 0 then clear_flag ZF else
  let selector := parse_selector raw_selector in
  dwords ← fetch_raw_descriptor2 selector;
  match dwords with
  | None => clear_flag ZF
  | Some (dword1, dword2) =>
      let descriptor := parse_descriptor dword1 dword2 uninitialised in
      if desc_valid descriptor =? 0 then clear_flag ZF else
      cpl ← gets CPL;
      let hidden := (desc_dpl descriptor <? cpl) || (desc_dpl descriptor <? sel_rpl selector) in
      if (if nz (desc_segment descriptor) then
            if IS_CODE_SEGMENT (desc_type descriptor) && IS_CODE_SEGMENT_CONFORMING (desc_type descriptor)
            then false else hidden
          else
            if case_in (desc_type descriptor)
                 [BX_SYS_SEGMENT_AVAIL_286_TSS; BX_SYS_SEGMENT_BUSY_286_TSS; BX_286_CALL_GATE; BX_TASK_GATE;
                  BX_SYS_SEGMENT_LDT; BX_SYS_SEGMENT_AVAIL_386_TSS; BX_SYS_SEGMENT_BUSY_386_TSS; BX_386_CALL_GATE]
            then hidden else true)
      then clear_flag ZF else
      assert_flag ZF;;
      if nz (os32L i) then BX_WRITE_32BIT_REGZ (i_nnn i) (Z.land dword2 0x00ffff00)
      else BX_WRITE_16BIT_REG (i_nnn i) (Z.land dword2 0xff00)
  end.

Definition LSL_GvEw (i : bxInstruction_c) : Mach unit :=
  protected ← gets protected_mode;
  when (negb protected) (exception BX_UD_EXCEPTION 0);;
  raw_selector ← read_selector_Ew i;
  if Z.land raw_selector 0xfffc =? 0 then clear_flag ZF else
  let selector := parse_selector raw_selector in
  dwords ← fetch_raw_descriptor2 selector;
  match dwords with
  | None => clear_flag ZF
  | Some (dword1, dword2) =>
      let descriptor_dpl := Z.land (Z.shiftr dword2 13) 0x03 in
      cpl ← gets CPL;
      let hidden := (descriptor_dpl <? cpl) || (descriptor_dpl <? sel_rpl selector) in
      let limit32 := Z.lor (Z.land dword1 0x0000ffff) (Z.land dword2 0x000f0000) in
      let limit32 := if nz (Z.land dword2 0x00800000) then Z.lor (u32 (Z.shiftl limit32 12)) 0x00000fff
                     else limit32 in
      if (if Z.land dword2 0x00001000 =? 0 then
            let type := Z.land (Z.shiftr dword2 8) 0x0000000f in
            if case_in type
                 [BX_SYS_SEGMENT_AVAIL_286_TSS; BX_SYS_SEGMENT_BUSY_286_TSS;
                  BX_SYS_SEGMENT_LDT; BX_SYS_SEGMENT_AVAIL_386_TSS; BX_SYS_SEGMENT_BUSY_386_TSS]
            then hidden else true
          else if negb (Z.land dword2 0x00000c00 =? 0x00000c00) then hidden else false)
      then clear_flag ZF else
      assert_flag ZF;;
      if nz (os32L i) then BX_WRITE_32BIT_REGZ (i_nnn i) limit32
      else BX_WRITE_16BIT_REG (i_nnn i) (u16 limit32)
  end.

(** Where SLDT and STR put the selector. *)
Definition write_selector_Ew (val16 : Z) (i : bxInstruction_c) : Mach unit :=
  if nz (modC0 i) then
    if nz (os32L i) then BX_WRITE_32BIT_REGZ (i_rm i) val16
    else BX_WRITE_16BIT_REG (i_rm i) val16
  else
    eaddr ← resolve i;
    write_virtual_word_32 (i_seg i) eaddr val16.

Definition SLDT_Ew (i : bxInstruction_c) : Mach unit :=
  protected ← gets protected_mode;
  when (negb protected) (exception BX_UD_EXCEPTION 0);;
  val16 ← gets (fun s => sel_value (selector (ldtr s)));
  write_selector_Ew val16 i.

Definition STR_Ew (i : bxInstruction_c) : Mach unit :=
  protected ← gets protected_mode;
  when (negb protected) (exception BX_UD_EXCEPTION 0);;
  val16 ← gets (fun s => sel_value (selector (tr s)));
  write_selector_Ew val16 i.

Definition LLDT_Ew (i : bxInstruction_c) : Mach unit :=
  protected ← gets protected_mode;
  when (negb protected) (exception BX_UD_EXCEPTION 0);;
  cpl ← gets CPL;
  when (negb (cpl =? 0)) (exception BX_GP_EXCEPTION 0);;
  raw_selector ← read_selector_Ew i;
  if Z.land raw_selector 0xfffc =? 0 then
    modify (fun s => with_ldtr
      (mk_segment_reg (with_sel_value raw_selector (selector (ldtr s)))
         (with_desc_valid 0 (cache (ldtr s)))) s)
  else
  let selector := parse_selector raw_selector in
  when (negb (sel_ti selector =? 0)) (exception BX_GP_EXCEPTION (Z.land raw_selector 0xfffc));;
  '(dword1, dword2) ← fetch_raw_descriptor selector BX_GP_EXCEPTION;
  let descriptor := parse_descriptor dword1 dword2 uninitialised in
  when ((desc_valid descriptor =? 0) || nz (desc_segment descriptor) ||
        negb (desc_type descriptor =? BX_SYS_SEGMENT_LDT))
    (exception BX_GP_EXCEPTION (Z.land raw_selector 0xfffc));;
  when (negb (IS_PRESENT descriptor)) (exception BX_NP_EXCEPTION (Z.land raw_selector 0xfffc));;
  modify (with_ldtr (mk_segment_reg selector (with_desc_valid 1 descriptor))).

Definition LTR_Ew (i : bxInstruction_c) : Mach unit :=
  protected ← gets protected_mode;
  when (negb protected) (exception BX_UD_EXCEPTION 0);;
  cpl ← gets CPL;
  when (negb (cpl =? 0)) (exception BX_GP_EXCEPTION 0);;
  raw_selector ← read_selector_Ew i;
  when (Z.land raw_selector BX_SELECTOR_RPL_MASK =? 0) (exception BX_GP_EXCEPTION 0);;
  let selector := parse_selector raw_selector in
  when (nz (sel_ti selector)) (exception BX_GP_EXCEPTION (Z.land raw_selector 0xfffc));;
  '(dword1, dword2) ← fetch_raw_descriptor selector BX_GP_EXCEPTION;
  let descriptor := parse_descriptor dword1 dword2 uninitialised in
  when ((desc_valid descriptor =? 0) || nz (desc_segment descriptor) ||
        (negb (desc_type descriptor =? BX_SYS_SEGMENT_AVAIL_286_TSS) &&
         negb (desc_type descriptor =? BX_SYS_SEGMENT_AVAIL_386_TSS)))
    (exception BX_GP_EXCEPTION (Z.land raw_selector 0xfffc));;
  when (negb (IS_PRESENT descriptor)) (exception BX_NP_EXCEPTION (Z.land raw_selector 0xfffc));;
  modify (with_tr (mk_segment_reg selector (with_desc_valid 1 descriptor)));;
  type ← gets (fun s => desc_type (cache (tr s)));
  modify (fun s => with_tr (with_cache (with_desc_type (Z.lor type 2) (cache (tr s))) (tr s)) s);;
  when (Z.land dword2 0x0200 =? 0)
    (laddr ← gets (fun s => u32 (gseg_base (gdtr s) + sel_index selector * 8 + 4));
     access_write_linear laddr 4 0 (Z.lor dword2 0x0200)).

Definition VERR_Ew (i : bxInstruction_c) : Mach unit :=
  protected ← gets protected_mode;
  when (negb protected) (exception BX_UD_EXCEPTION 0);;
  raw_selector ← read_selector_Ew i;
  if Z.land raw_selector 0xfffc =? 0 then clear_flag ZF else
  let selector := parse_selector raw_selector in
  dwords ← fetch_raw_descriptor2 selector;
  match dwords with
  | None => clear_flag ZF
  | Some (dword1, dword2) =>
      let descriptor := parse_descriptor dword1 dword2 uninitialised in
      let type := desc_type descriptor in
      if desc_segment descriptor =? 0 then clear_flag ZF else
      if desc_valid descriptor =? 0 then clear_flag ZF else
      cpl ← gets CPL;
      let hidden := (desc_dpl descriptor <? cpl) || (desc_dpl descriptor <? sel_rpl selector) in
      if IS_CODE_SEGMENT type then
        if IS_CODE_SEGMENT_CONFORMING type && IS_CODE_SEGMENT_READABLE type then assert_flag ZF else
        if negb (IS_CODE_SEGMENT_READABLE type) then clear_flag ZF else
        if hidden then clear_flag ZF else assert_flag ZF
      else
        if hidden then clear_flag ZF else assert_flag ZF
  end.

Definition VERW_Ew (i : bxInstruction_c) : Mach unit :=
  protected ← gets protected_mode;
  when (negb protected) (exception BX_UD_EXCEPTION 0);;
  raw_selector ← read_selector_Ew i;
  if Z.land raw_selector 0xfffc =? 0 then clear_flag ZF else
  let selector := parse_selector raw_selector in
  dwords ← fetch_raw_descriptor2 selector;
  match dwords with
  | None => clear_flag ZF
  | Some (dword1, dword2) =>
      let descriptor := parse_descriptor dword1 dword2 uninitialised in
      let type := desc_type descriptor in
      if (desc_segment descriptor =? 0) || IS_CODE_SEGMENT type then clear_flag ZF else
      if desc_valid descriptor =? 0 then clear_flag ZF else
      if IS_DATA_SEGMENT_WRITEABLE type then
        cpl ← gets CPL;
        if (desc_dpl descriptor <? cpl) || (desc_dpl descriptor <? sel_rpl selector) then clear_flag ZF
        else assert_flag ZF
      else clear_flag ZF
  end.

Definition SGDT_Ms (i : bxInstruction_c) : Mach unit :=
  limit_16 ← gets (fun s => u16 (gseg_limit (gdtr s)));
  base_32 ← gets (fun s => u32 (gseg_base (gdtr s)));
  eaddr ← resolve i;
  write_virtual_word_32 (i_seg i) eaddr limit_16;;
  write_virtual_dword_32 (i_seg i) (u32 (eaddr + 2)) base_32.

Definition SIDT_Ms (i : bxInstruction_c) : Mach unit :=
  limit_16 ← gets (fun s => u16 (gseg_limit (idtr s)));
  base_32 ← gets (fun s => u32 (gseg_base (idtr s)));
  eaddr ← resolve i;
  write_virtual_word_32 (i_seg i) eaddr limit_16;;
  write_virtual_dword_32 (i_seg i) (u32 (eaddr + 2)) base_32.

Definition LGDT_Ms (i : bxInstruction_c) : Mach unit :=
  v86 ← gets v8086_mode;
  when v86 (exception BX_GP_EXCEPTION 0);;
  real ← gets real_mode; cpl ← gets CPL;
  when (negb real && negb (cpl =? 0)) (exception BX_GP_EXCEPTION 0);;
  eaddr ← resolve i;
  limit_16 ← read_virtual_word_32 (i_seg i) eaddr;
  base_32 ← read_virtual_dword_32 (i_seg i) (u32 (eaddr + 2));
  let base_32 := if os32L i =? 0 then Z.land base_32 0x00ffffff else base_32 in
  modify (with_gdtr (mk_global_segment_reg base_32 limit_16)).

Definition LIDT_Ms (i : bxInstruction_c) : Mach unit :=
  v86 ← gets v8086_mode;
  when v86 (exception BX_GP_EXCEPTION 0);;
  real ← gets real_mode; cpl ← gets CPL;
  when (negb real && negb (cpl =? 0)) (exception BX_GP_EXCEPTION 0);;
  eaddr ← resolve i;
  base_32 ← read_virtual_dword_32 (i_seg i) (u32 (eaddr + 2));
  limit_16 ← read_virtual_word_32 (i_seg i) eaddr;
  let base_32 := if os32L i =? 0 then Z.land base_32 0x00ffffff else base_32 in
  modify (with_idtr (mk_global_segment_reg base_32 limit_16)).

(** ** The instructions, on the bits of the descriptor *)

(** Visible at the privilege of the program and of the selector; a conforming
    code segment always is. *)
Definition visible (cpl rpl raw : Z) : bool := Z.max cpl rpl <=? field raw 45 2.
Definition conforming (raw : Z) : bool := Z.testbit raw 44 && desc_is_code raw && Z.testbit raw 42.
Definition type_among (raw : Z) (l : list Z) : bool := existsb (Z.eqb (field raw 40 4)) l.

Definition verr_ok (cpl rpl raw : Z) : bool :=
  Z.testbit raw 44 && (negb (desc_is_code raw) || Z.testbit raw 41) && (conforming raw || visible cpl rpl raw).
Definition verw_ok (cpl rpl raw : Z) : bool :=
  Z.testbit raw 44 && negb (desc_is_code raw) && Z.testbit raw 41 && visible cpl rpl raw.
Definition lar_ok (cpl rpl raw : Z) : bool :=
  (Z.testbit raw 44 || type_among raw [1; 2; 3; 4; 5; 9; 11; 12]) && (conforming raw || visible cpl rpl raw).
Definition lsl_ok (cpl rpl raw : Z) : bool :=
  (Z.testbit raw 44 || type_among raw [1; 2; 3; 9; 11]) && (conforming raw || visible cpl rpl raw).

Definition needs_protected_mode : Mach unit :=
  protected ← gets protected_mode;
  when (negb protected) (exception BX_UD_EXCEPTION 0).
Definition needs_ring_0 : Mach unit :=
  cpl ← gets CPL;
  when (negb (cpl =? 0)) (exception BX_GP_EXCEPTION 0).
Definition answer_ZF (b : bool) : Mach unit := update_flags (override [(ZF, b)]).

(** Ask about selector [v]: no, for a null selector and for one beyond its
    table; otherwise as [accept] says, with [answer] if it says yes. *)
Definition query (accept : Z -> Z -> Z -> bool) (answer : Z -> Mach unit) (v : Z) : Mach unit :=
  if v <? 4 then answer_ZF false else
  entry ← gets (table_entry v);
  match entry with
  | None => answer_ZF false
  | Some a =>
      raw ← system_read_qword a;
      cpl ← gets CPL;
      answer_ZF (accept cpl (v mod 4) raw);;
      when (accept cpl (v mod 4) raw) (answer raw)
  end.
Definition ref_query (accept : Z -> Z -> Z -> bool) (answer : Z -> bxInstruction_c -> Mach unit)
    (i : bxInstruction_c) : Mach unit :=
  needs_protected_mode;;
  v ← fetch 16 RM i;
  query accept (fun raw => answer raw i) v.

Definition no_answer (_ : Z) (_ : bxInstruction_c) : Mach unit := mret tt.
(** The access rights: bytes 5 and 6 of the descriptor, byte 5 in a 16-bit
    register. *)
Definition lar_answer (raw : Z) (i : bxInstruction_c) : Mach unit :=
  if nz (os32L i) then write_reg 32 (i_nnn i) (field raw 40 16 * 2 ^ 8)
  else write_reg 16 (i_nnn i) (field raw 40 8 * 2 ^ 8).
Definition lsl_answer (raw : Z) (i : bxInstruction_c) : Mach unit :=
  if nz (os32L i) then write_reg 32 (i_nnn i) (desc_last raw)
  else write_reg 16 (i_nnn i) (u16 (desc_last raw)).

(** The RPL of the destination raised to that of the source. *)
Definition ref_arpl (i : bxInstruction_c) : Mach unit :=
  needs_protected_mode;;
  a ← fetch_rmw 16 RM i;
  b ← fetch 16 (Reg i_nnn) i;
  if a mod 4 <? b mod 4 then store_rmw 16 RM (a / 4 * 4 + b mod 4) i;; answer_ZF true
  else answer_ZF false.

(** Load LDTR or TR with selector [v] of a descriptor of one of the [types]. *)
Definition load_system (types : list Z) (load : Z -> Z -> Mach unit) (v : Z) : Mach unit :=
  if Z.testbit v 2 then exception BX_GP_EXCEPTION (v / 4 * 4) else
  entry ← gets (table_entry v);
  match entry with
  | None => exception BX_GP_EXCEPTION (v / 4 * 4)
  | Some a =>
      raw ← system_read_qword a;
      if Z.testbit raw 44 || negb (type_among raw types) then exception BX_GP_EXCEPTION (v / 4 * 4)
      else if negb (Z.testbit raw 47) then exception BX_NP_EXCEPTION (v / 4 * 4)
      else load a raw
  end.
Definition ref_lldt (i : bxInstruction_c) : Mach unit :=
  needs_protected_mode;; needs_ring_0;;
  v ← fetch 16 RM i;
  if v <? 4 then
    modify (fun s => with_ldtr
      (mk_segment_reg (with_sel_value v (selector (ldtr s))) (with_desc_valid 0 (cache (ldtr s)))) s)
  else load_system [2]
         (fun _ raw => modify (with_ldtr (mk_segment_reg (parse_selector v) (described_segment raw)))) v.
Definition ref_ltr (i : bxInstruction_c) : Mach unit :=
  needs_protected_mode;; needs_ring_0;;
  v ← fetch 16 RM i;
  if v <? 4 then exception BX_GP_EXCEPTION 0
  else load_system [1; 9]
         (fun a raw =>
            modify (with_tr (mk_segment_reg (parse_selector v)
              (with_desc_type (Z.setbit (field raw 40 4) 1) (described_segment raw))));;
            access_write_linear (u32 (a + 4)) 4 0 (Z.setbit (GET32H raw) 9)) v.

Definition query_table : list (handler * handler) :=
  [(LAR_GvEw, ref_query lar_ok lar_answer); (LSL_GvEw, ref_query lsl_ok lsl_answer);
   (VERR_Ew, ref_query verr_ok no_answer); (VERW_Ew, ref_query verw_ok no_answer);
   (ARPL_EwGw, ref_arpl)].
Definition store_handlers : list handler := [SLDT_Ew; STR_Ew; SGDT_Ms; SIDT_Ms].
Definition table_load_table : list (handler * handler) :=
  [(LLDT_Ew, ref_lldt); (LTR_Ew, ref_ltr); (LGDT_Ms, LGDT_Ms); (LIDT_Ms, LIDT_Ms)].
Definition protect_table : list (handler * handler) :=
  query_table ++ selves store_handlers ++ table_load_table.

(** ** They agree *)

Lemma fetch_raw_descriptor2_eq v s :
  fetch_raw_descriptor2 (parse_selector v) s =
    match table_entry v s with
    | None => Ret None s
    | Some a => (raw ← system_read_qword a; mret (Some (GET32L raw, GET32H raw))) s
    end.
Proof.
  unfold fetch_raw_descriptor2, table_entry, parse_selector. cbn [sel_index sel_ti sel_value].
  rewrite selector_ti, Z.shiftr_div_pow2 by lia. change (2 ^ 3) with 8.
  unfold gets. destruct (Z.testbit v 2); cbn [negb];
    unfold mbind, M_bind; cbv beta iota;
    repeat match goal with |- context [if ?b then _ else _] => destruct b; cbn [orb] end; reflexivity.
Qed.

(** Nothing but bit 44 and the type decides whether [parse_descriptor] takes it. *)
Lemma parse_descriptor_access raw t :
  let d := parse_descriptor (GET32L raw) (GET32H raw) t in
  desc_segment d = Z.b2z (Z.testbit raw 44) /\ desc_type d = field raw 40 4 /\ desc_dpl d = field raw 45 2 /\
  desc_p d = Z.b2z (Z.testbit raw 47).
Proof.
  intros d. subst d. destruct (Z.testbit raw 44) eqn:HS.
  { rewrite (parse_descriptor_segment raw t HS). unfold described_segment. msimpl. by rewrite HS. }
  unfold parse_descriptor. cbv zeta. rewrite AR_byte_eq, parse_p, parse_dpl, parse_S, parse_type.
  msimpl. rewrite HS. cbn [Z.b2z nz Z.eqb negb]. rewrite parse_segment_eq. msimpl.
  by repeat case_match.
Qed.
Lemma parse_descriptor_valid raw t :
  desc_valid (parse_descriptor (GET32L raw) (GET32H raw) t) =
    Z.b2z (Z.testbit raw 44 || type_among raw [1; 2; 3; 4; 5; 6; 7; 9; 11; 12; 14; 15]).
Proof.
  destruct (Z.testbit raw 44) eqn:HS; [by rewrite (parse_descriptor_segment raw t HS)|].
  unfold parse_descriptor, type_among. cbv zeta. rewrite AR_byte_eq, parse_p, parse_dpl, parse_S, parse_type.
  msimpl. rewrite HS. cbn [Z.b2z nz Z.eqb negb orb]. rewrite parse_segment_eq. msimpl.
  pose proof (field_range raw 40 4 ltac:(lia)). generalize dependent (field raw 40 4). intros x Hx.
  assert (x = 0 \/ x = 1 \/ x = 2 \/ x = 3 \/ x = 4 \/ x = 5 \/ x = 6 \/ x = 7 \/
          x = 8 \/ x = 9 \/ x = 10 \/ x = 11 \/ x = 12 \/ x = 13 \/ x = 14 \/ x = 15) as Hin by lia.
  repeat (destruct Hin as [->|Hin]; [reflexivity|]). by subst x.
Qed.
Lemma hidden_eq cpl rpl raw :
  (field raw 45 2 <? cpl) || (field raw 45 2 <? rpl) = negb (visible cpl rpl raw).
Proof.
  unfold visible. apply eq_true_iff_eq. rewrite orb_true_iff, negb_true_iff, !Z.ltb_lt, Z.leb_gt. lia.
Qed.

Lemma refines_gets_r {A B} (m : Mach B) (f : machine -> A) (k : A -> Mach B) :
  (forall x, refines m (k x)) -> refines m (gets f ≫= k).
Proof. intros H s. apply H. Qed.
Lemma query_no b (m : Mach unit) : b = false -> refines (clear_flag ZF) (answer_ZF b;; when b m).
Proof. intros ->. intros s. pose proof (clear_flag_refines ZF s) as H. exact H. Qed.
Lemma query_yes b (m m' : Mach unit) :
  b = true -> refines m m' -> refines (assert_flag ZF;; m) (answer_ZF b;; when b m').
Proof. intros -> Hm. apply refines_bind; [apply assert_flag_refines|]. by intros _. Qed.
Lemma query_just_yes b : b = true -> refines (assert_flag ZF) (answer_ZF b;; when b (mret tt)).
Proof. intros ->. intros s. pose proof (assert_flag_refines ZF s) as H. exact H. Qed.

Lemma query_refines accept answer v (k : option (Z * Z) -> Mach unit) :
  0 <= v < 2 ^ 16 -> refines (k None) (answer_ZF false) ->
  (forall raw, refines (k (Some (GET32L raw, GET32H raw)))
    (cpl ← gets CPL; answer_ZF (accept cpl (v mod 4) raw);; when (accept cpl (v mod 4) raw) (answer raw))) ->
  refines (if Z.land v 0xfffc =? 0 then clear_flag ZF else
           dwords ← fetch_raw_descriptor2 (parse_selector v); k dwords) (query accept answer v).
Proof.
  intros Hv H0 Hk. unfold query. rewrite selector_null by done.
  destruct (v <? 4); [apply clear_flag_refines|].
  intros s. unfold mbind at 1, M_bind at 1. rewrite fetch_raw_descriptor2_eq, (bind_gets (table_entry v)).
  change (table_entry v (norm s)) with (table_entry v s). destruct (table_entry v s) as [a|]; [|apply H0].
  transitivity (omap_state norm ((raw ← system_read_qword a; k (Some (GET32L raw, GET32H raw))) s)).
  { unfold mbind, M_bind, mret, M_ret. by destruct (system_read_qword a s). }
  revert s. apply refines_bind; [apply system_read_refines|]. exact Hk.
Qed.

Lemma protected_guard (m m' : Mach unit) :
  refines m m' ->
  refines (protected ← gets protected_mode; when (negb protected) (exception BX_UD_EXCEPTION 0);; m)
    (needs_protected_mode;; m').
Proof.
  intros Hm. unfold needs_protected_mode. apply refines_assoc_r.
  apply refines_bind; [by apply refines_gets|]. intros b.
  apply refines_bind; [apply refines_when, refines_raise|]. by intros _.
Qed.
Lemma ring_0_guard (m m' : Mach unit) :
  refines m m' ->
  refines (cpl ← gets CPL; when (negb (cpl =? 0)) (exception BX_GP_EXCEPTION 0);; m) (needs_ring_0;; m').
Proof.
  intros Hm. unfold needs_ring_0. apply refines_assoc_r.
  apply refines_bind; [by apply refines_gets|]. intros b.
  apply refines_bind; [apply refines_when, refines_raise|]. by intros _.
Qed.
Lemma read_selector_refines i (k k' : Z -> Mach unit) :
  (forall v, 0 <= v < 2 ^ 16 -> refines (k v) (k' v)) ->
  refines (read_selector_Ew i ≫= k) (fetch 16 RM i ≫= k').
Proof.
  intros Hk. apply (refines_bind_yields _ _ _ _ (fun v => 0 <= v < 2 ^ 16)); [| |exact Hk].
  - unfold read_selector_Ew, fetch, read_reg, read_mem. unfold_widths. refines_tac.
  - unfold read_selector_Ew. destruct (nz _).
    + apply RegRead_yields. typeclasses eauto.
    + apply yields_bind. intros a. unfold_widths. eauto with yields.
Qed.

Lemma VERR_implements : implements (VERR_Ew, ref_query verr_ok no_answer).
Proof.
  intros i. cbn [fst snd]. apply protected_guard, read_selector_refines. intros v Hv.
  apply query_refines; [done|apply clear_flag_refines|]. intros raw. cbv beta iota zeta.
  unfold IS_CODE_SEGMENT, IS_CODE_SEGMENT_CONFORMING, IS_CODE_SEGMENT_READABLE.
  rewrite parse_descriptor_valid. pose proof (parse_descriptor_access raw uninitialised) as H. cbv zeta in H.
  destruct H as (-> & -> & -> & _).
  rewrite (type_bit raw 3 43), (type_bit raw 2 42), (type_bit raw 1 41) by lia.
  cbn [parse_selector sel_rpl]. rewrite selector_rpl.
  unfold verr_ok, conforming, desc_is_code, no_answer.
  destruct (Z.testbit raw 44); cbn [Z.b2z Z.eqb orb andb negb]; [|apply refines_gets_r; intros cpl; by apply query_no].
  apply refines_bind; [by apply refines_gets|]. intros cpl. rewrite hidden_eq.
  destruct (Z.testbit raw 43), (Z.testbit raw 42), (Z.testbit raw 41), (visible _ _ _); cbn [andb orb negb];
    first [by apply query_no | by apply query_just_yes].
Qed.
Lemma VERW_implements : implements (VERW_Ew, ref_query verw_ok no_answer).
Proof.
  intros i. cbn [fst snd]. apply protected_guard, read_selector_refines. intros v Hv.
  apply query_refines; [done|apply clear_flag_refines|]. intros raw. cbv beta iota zeta.
  unfold IS_CODE_SEGMENT, IS_DATA_SEGMENT_WRITEABLE.
  rewrite parse_descriptor_valid. pose proof (parse_descriptor_access raw uninitialised) as H. cbv zeta in H.
  destruct H as (-> & -> & -> & _).
  rewrite (type_bit raw 3 43), (type_bit raw 1 41) by lia.
  cbn [parse_selector sel_rpl]. rewrite selector_rpl.
  unfold verw_ok, desc_is_code, no_answer.
  destruct (Z.testbit raw 44), (Z.testbit raw 43), (Z.testbit raw 41); cbn [Z.b2z Z.eqb orb andb negb];
    try (apply refines_gets_r; intros cpl; by apply query_no).
  apply refines_bind; [by apply refines_gets|]. intros cpl. rewrite hidden_eq.
  destruct (visible _ _ _); cbn [andb orb negb]; first [by apply query_no | by apply query_just_yes].
Qed.
Lemma LAR_answer_refines raw i :
  refines (if nz (os32L i) then BX_WRITE_32BIT_REGZ (i_nnn i) (Z.land (GET32H raw) 0x00ffff00)
           else BX_WRITE_16BIT_REG (i_nnn i) (Z.land (GET32H raw) 0xff00)) (lar_answer raw i).
Proof.
  unfold lar_answer, write_reg.
  assert (Z.land (GET32H raw) 0x00ffff00 = field raw 40 16 * 2 ^ 8) as ->.
  { rewrite <-Z.shiftl_mul_pow2 by lia. unfold GET32H. change 0x00ffff00 with (mask_bits 8 16). zbits. }
  assert (Z.land (GET32H raw) 0xff00 = field raw 40 8 * 2 ^ 8) as ->.
  { rewrite <-Z.shiftl_mul_pow2 by lia. unfold GET32H. change 0xff00 with (mask_bits 8 8). zbits. }
  refines_tac.
Qed.
Lemma lar_types raw :
  case_in (field raw 40 4)
    [BX_SYS_SEGMENT_AVAIL_286_TSS; BX_SYS_SEGMENT_BUSY_286_TSS; BX_286_CALL_GATE; BX_TASK_GATE;
     BX_SYS_SEGMENT_LDT; BX_SYS_SEGMENT_AVAIL_386_TSS; BX_SYS_SEGMENT_BUSY_386_TSS; BX_386_CALL_GATE] =
  type_among raw [1; 2; 3; 4; 5; 9; 11; 12].
Proof.
  apply eq_true_iff_eq. unfold case_in, type_among. rewrite !existsb_exists.
  split; intros (y & Hy & E); exists y; (split; [cbv in Hy |- *; tauto|done]).
Qed.
Lemma LAR_implements : implements (LAR_GvEw, ref_query lar_ok lar_answer).
Proof.
  intros i. cbn [fst snd]. apply protected_guard, read_selector_refines. intros v Hv.
  apply query_refines; [done|apply clear_flag_refines|]. intros raw. cbv beta iota zeta.
  unfold IS_CODE_SEGMENT, IS_CODE_SEGMENT_CONFORMING.
  rewrite parse_descriptor_valid. pose proof (parse_descriptor_access raw uninitialised) as H. cbv zeta in H.
  destruct H as (-> & -> & -> & _).
  rewrite (type_bit raw 3 43), (type_bit raw 2 42), nz_b2z by lia.
  cbn [parse_selector sel_rpl]. rewrite selector_rpl.
  pose proof (LAR_answer_refines raw i) as Ha. unfold lar_ok, conforming, desc_is_code.
  destruct (Z.testbit raw 44) eqn:HS; cbn [Z.b2z Z.eqb orb andb negb].
  - apply refines_bind; [by apply refines_gets|]. intros cpl. rewrite hidden_eq.
    destruct (Z.testbit raw 43), (Z.testbit raw 42), (visible _ _ _); cbn [andb orb negb];
      first [by apply query_no | by apply query_yes].
  - destruct (type_among raw [1; 2; 3; 4; 5; 9; 11; 12]) eqn:Ht.
    + assert (type_among raw [1; 2; 3; 4; 5; 6; 7; 9; 11; 12; 14; 15] = true) as ->.
      { unfold type_among in Ht |- *. apply existsb_exists in Ht as (x & Hx & E). apply existsb_exists.
        exists x. split; [cbn in *; tauto|done]. }
      cbn [Z.b2z Z.eqb]. apply refines_bind; [by apply refines_gets|]. intros cpl. rewrite hidden_eq.
      rewrite lar_types, Ht.
      destruct (visible _ _ _); cbn [andb orb negb]; first [by apply query_no | by apply query_yes].
    + rewrite lar_types, Ht.
      destruct (Z.b2z _ =? 0); [|apply refines_bind; [by apply refines_gets|]; intros cpl; by apply query_no].
      apply refines_gets_r. intros cpl. by apply query_no.
Qed.

Lemma LSL_limit raw :
  (let limit32 := Z.lor (Z.land (GET32L raw) 0x0000ffff) (Z.land (GET32H raw) 0x000f0000) in
   if nz (Z.land (GET32H raw) 0x00800000) then Z.lor (u32 (Z.shiftl limit32 12)) 0x00000fff else limit32) =
  desc_last raw.
Proof.
  cbv zeta. rewrite parse_limit. unfold desc_last. pose proof (desc_limit_range raw).
  change 0x00800000 with (2 ^ 23). rewrite nz_land_pow2 by lia. unfold GET32H. rewrite Z.shiftr_spec by lia.
  change (23 + 32) with 55. destruct (Z.testbit raw 55); [|done].
  rewrite wrap_small by (rewrite Z.shiftl_mul_pow2 by lia; lia). by rewrite lor_shiftl_add by lia.
Qed.
Lemma LSL_answer_refines raw i :
  refines (if nz (os32L i) then BX_WRITE_32BIT_REGZ (i_nnn i) (desc_last raw)
           else BX_WRITE_16BIT_REG (i_nnn i) (u16 (desc_last raw))) (lsl_answer raw i).
Proof. unfold lsl_answer, write_reg. refines_tac. Qed.
Lemma raw_bit raw k n : 0 <= k -> n = 32 + k -> (Z.land (GET32H raw) (2 ^ k) =? 0) = negb (Z.testbit raw n).
Proof.
  intros Hk ->. unfold GET32H. rewrite <-(negb_involutive (_ =? 0)). fold (nz (Z.land (Z.shiftr raw 32) (2 ^ k))).
  by rewrite nz_land_pow2, Z.shiftr_spec, (Z.add_comm k) by lia.
Qed.
Lemma raw_conforming raw :
  (Z.land (GET32H raw) 0x00000c00 =? 0x00000c00) = desc_is_code raw && Z.testbit raw 42.
Proof.
  assert (Z.land (GET32H raw) 0x00000c00 = field raw 42 2 * 2 ^ 10) as ->.
  { rewrite <-Z.shiftl_mul_pow2 by lia. unfold GET32H. change 0x00000c00 with (mask_bits 10 2). zbits. }
  assert (field raw 42 2 = Z.b2z (Z.testbit raw 42) + 2 * Z.b2z (desc_is_code raw)) as ->.
  { unfold desc_is_code. rewrite <-!field_bit by lia. unfold field. change (2 ^ 43) with (2 ^ 42 * 2).
    rewrite <-Z.div_div by lia. divlia. }
  by destruct (Z.testbit raw 42), (desc_is_code raw).
Qed.
Lemma LSL_implements : implements (LSL_GvEw, ref_query lsl_ok lsl_answer).
Proof.
  intros i. cbn [fst snd]. apply protected_guard, read_selector_refines. intros v Hv.
  apply query_refines; [done|apply clear_flag_refines|]. intros raw. cbv beta iota zeta.
  apply refines_bind; [by apply refines_gets|]. intros cpl.
  pose proof (LSL_limit raw) as Hl. cbv zeta in Hl. rewrite Hl. clear Hl.
  assert (Z.land (Z.shiftr (GET32H raw) 13) 0x03 = field raw 45 2) as ->.
  { unfold GET32H. change 3 with (mask_bits 0 2). zbits. }
  assert (Z.land (Z.shiftr (GET32H raw) 8) 0x0000000f = field raw 40 4) as ->.
  { unfold GET32H. change 0x0000000f with (mask_bits 0 4). zbits. }
  change 0x00001000 with (2 ^ 12). rewrite (raw_bit raw 12 44), raw_conforming by lia.
  cbn [parse_selector sel_rpl]. rewrite selector_rpl, hidden_eq.
  pose proof (LSL_answer_refines raw i) as Ha. unfold lsl_ok, conforming.
  assert (case_in (field raw 40 4)
    [BX_SYS_SEGMENT_AVAIL_286_TSS; BX_SYS_SEGMENT_BUSY_286_TSS;
     BX_SYS_SEGMENT_LDT; BX_SYS_SEGMENT_AVAIL_386_TSS; BX_SYS_SEGMENT_BUSY_386_TSS] =
    type_among raw [1; 2; 3; 9; 11]) as ->.
  { apply eq_true_iff_eq. unfold case_in, type_among. rewrite !existsb_exists.
    split; intros (y & Hy & E); exists y; (split; [cbv in Hy |- *; tauto|done]). }
  destruct (Z.testbit raw 44), (type_among _ _), (desc_is_code raw), (Z.testbit raw 42), (visible _ _ _);
    cbn [andb orb negb]; first [by apply query_no | by apply query_yes].
Qed.

Lemma raised_rpl a b :
  0 <= a < 2 ^ 16 -> Z.lor (Z.land a 0xfffc) (Z.land b 0x03) = a / 4 * 4 + b mod 4.
Proof.
  intros Ha. rewrite selector_code, selector_rpl by done.
  change 4 with (2 ^ 2) at 2. rewrite <-Z.shiftl_mul_pow2 by lia. apply lor_shiftl_add; [lia|].
  change (2 ^ 2) with 4. apply Z.mod_pos_bound. lia.
Qed.
Lemma ARPL_implements : implements (ARPL_EwGw, ref_arpl).
Proof.
  intros i. cbn [fst snd]. apply protected_guard.
  apply (refines_bind_yields _ _ _ _ (fun v => 0 <= v < 2 ^ 16)).
  - unfold fetch_rmw, read_reg, read_rmw. unfold_widths. refines_tac.
  - destruct (nz _); [apply RegRead_yields; typeclasses eauto|].
    apply yields_bind. intros a. unfold_widths. eauto with yields.
  - intros a Ha. apply refines_bind; [unfold fetch, read_reg; refines_tac|]. intros b.
    rewrite raised_rpl, !selector_rpl by done. destruct (a mod 4 <? b mod 4); [|apply clear_flag_refines].
    apply refines_bind; [|intros _; apply assert_flag_refines].
    unfold store_rmw, write_reg, write_rmw. refines_tac.
Qed.

(** The common part of LLDT and LTR. *)
Lemma load_system_refines types load v (bad : bx_descriptor_t -> bool) (k : Z -> Z -> Mach unit) :
  0 <= v < 2 ^ 16 ->
  (forall raw, bad (parse_descriptor (GET32L raw) (GET32H raw) uninitialised) =
               Z.testbit raw 44 || negb (type_among raw types)) ->
  (forall a raw s, table_entry v s = Some a -> Z.testbit raw 44 = false -> type_among raw types = true ->
     Z.testbit v 2 = false ->
     omap_state norm (k (GET32L raw) (GET32H raw) s) = load a raw (norm s)) ->
  refines
    (when (negb (sel_ti (parse_selector v) =? 0)) (exception BX_GP_EXCEPTION (Z.land v 0xfffc));;
     '(dword1, dword2) ← fetch_raw_descriptor (parse_selector v) BX_GP_EXCEPTION;
     when (bad (parse_descriptor dword1 dword2 uninitialised)) (exception BX_GP_EXCEPTION (Z.land v 0xfffc));;
     when (negb (IS_PRESENT (parse_descriptor dword1 dword2 uninitialised)))
       (exception BX_NP_EXCEPTION (Z.land v 0xfffc));;
     k dword1 dword2)
    (load_system types load v).
Proof.
  intros Hv Hbad Hk s. unfold load_system. cbn [parse_selector sel_ti]. rewrite selector_ti, selector_code by done.
  rewrite negb_involutive. destruct (Z.testbit v 2) eqn:Hti; [done|]. cbn [when].
  rewrite bind_mret. unfold mbind at 1, M_bind at 1. rewrite fetch_raw_descriptor_eq by done.
  rewrite (bind_gets (table_entry v)). change (table_entry v (norm s)) with (table_entry v s).
  destruct (table_entry v s) as [a|] eqn:Ha; [|done].
  pose proof (system_read_refines 8 a s) as Hr.
  destruct (system_read 8 a s) as [raw s1|e c s1|] eqn:E; cbn [omap_state] in Hr; symmetry in Hr.
  2: { by rewrite (bind_Fault (system_read_qword a) _ _ _ _ _ E), (bind_Fault (system_read_qword a) _ _ _ _ _ Hr). }
  2: { by rewrite (bind_Crash (system_read_qword a) _ _ E), (bind_Crash (system_read_qword a) _ _ Hr). }
  rewrite (bind_Ret (system_read_qword a) _ _ _ _ E), (bind_Ret (system_read_qword a) _ _ _ _ Hr).
  apply (table_entry_read v) in E. rewrite Ha in E. unfold mret at 1, M_ret at 1. cbv beta iota.
  rewrite Hbad. unfold IS_PRESENT. destruct (parse_descriptor_access raw uninitialised) as (_ & _ & _ & ->).
  rewrite nz_b2z. destruct (Z.testbit raw 44) eqn:HS; [done|]. cbn [orb].
  destruct (type_among raw types) eqn:Ht; [|done]. cbn [negb when]. rewrite bind_mret.
  destruct (Z.testbit raw 47); [|done]. cbn [negb when]. rewrite bind_mret. by apply Hk.
Qed.

Lemma LLDT_implements : implements (LLDT_Ew, ref_lldt).
Proof.
  intros i. cbn [fst snd]. apply protected_guard, ring_0_guard, read_selector_refines. intros v Hv.
  cbv zeta. rewrite selector_null by done.
  destruct (v <? 4); [by apply refines_modify|].
  apply (load_system_refines _ _ _
    (fun d => (desc_valid d =? 0) || nz (desc_segment d) || negb (desc_type d =? BX_SYS_SEGMENT_LDT))
    (fun d1 d2 => modify (with_ldtr (mk_segment_reg (parse_selector v)
       (with_desc_valid 1 (parse_descriptor d1 d2 uninitialised)))))); [done|..].
  - intros raw. destruct (parse_descriptor_access raw uninitialised) as (-> & -> & _).
    rewrite parse_descriptor_valid, nz_b2z. unfold type_among. cbn [existsb].
    destruct (Z.testbit raw 44); [by rewrite orb_true_r|]. rewrite orb_false_r.
    unfold BX_SYS_SEGMENT_LDT. by destruct (Z.eqb_spec (field raw 40 4) 2) as [->|]; [|rewrite orb_true_r].
  - intros a raw s Ha HS Ht Hti. rewrite parse_descriptor_fields; [done|].
    unfold has_segment_fields. rewrite HS. unfold type_among in Ht. cbn [existsb] in Ht.
    rewrite orb_false_r in Ht. apply Z.eqb_eq in Ht as ->. reflexivity.
Qed.

Lemma LTR_implements : implements (LTR_Ew, ref_ltr).
Proof.
  intros i. cbn [fst snd]. apply protected_guard, ring_0_guard, read_selector_refines. intros v Hv.
  cbv zeta. change BX_SELECTOR_RPL_MASK with 0xfffc. rewrite selector_null by done.
  apply refines_when_raise. intros _. unfold nz at 1.
  eapply (load_system_refines _ _ _
    (fun d => (desc_valid d =? 0) || nz (desc_segment d) ||
       (negb (desc_type d =? BX_SYS_SEGMENT_AVAIL_286_TSS) && negb (desc_type d =? BX_SYS_SEGMENT_AVAIL_386_TSS)))
    (fun d1 d2 => _)); [done|..].
  - intros raw. destruct (parse_descriptor_access raw uninitialised) as (-> & -> & _).
    rewrite parse_descriptor_valid, nz_b2z. unfold type_among. cbn [existsb].
    destruct (Z.testbit raw 44); [by rewrite orb_true_r|]. rewrite orb_false_r.
    unfold BX_SYS_SEGMENT_AVAIL_286_TSS, BX_SYS_SEGMENT_AVAIL_386_TSS.
    destruct (Z.eqb_spec (field raw 40 4) 1) as [->|]; [done|].
    destruct (Z.eqb_spec (field raw 40 4) 9) as [->|]; [done|]. by rewrite orb_true_r.
  - intros a raw s Ha HS Ht Hti. cbv beta. unfold type_among in Ht. cbn [existsb] in Ht.
    rewrite orb_false_r, orb_true_iff, !Z.eqb_eq in Ht.
    assert (has_segment_fields raw = true) as Hf
      by (unfold has_segment_fields; rewrite HS; by destruct Ht as [-> | ->]).
    rewrite parse_descriptor_fields by done.
    assert (Z.testbit raw 41 = false) as Hb.
    { rewrite <-(type_bit raw 1 41) by lia. by destruct Ht as [-> | ->]. }
    change 0x0200 with (2 ^ 9). rewrite (raw_bit raw 9 41), Hb by lia. cbn [negb when].
    rewrite bind_modify, (bind_gets (fun s => desc_type _)), bind_modify, bind_gets, bind_modify.
    set (t := with_tr _ _).
    assert (u32 (gseg_base (gdtr t) + sel_index (parse_selector v) * 8 + 4) = u32 (a + 4)) as ->.
    { change (gdtr t) with (gdtr s). unfold table_entry in Ha. rewrite Hti in Ha.
      destruct (_ <? _); [done|]. injection Ha as <-. cbn [parse_selector sel_index].
      by rewrite Z.shiftr_div_pow2, wrap_add_l by lia. }
    rewrite (access_write_linear_refines _ _ _ _ t). reflexivity.
Qed.

(** ** The interface of the loop *)

Ltac protect_unfold :=
  cbv beta delta [ARPL_EwGw LAR_GvEw LSL_GvEw VERR_Ew VERW_Ew SLDT_Ew STR_Ew LLDT_Ew LTR_Ew SGDT_Ms SIDT_Ms
    LGDT_Ms LIDT_Ms read_selector_Ew write_selector_Ew]; unfold_widths.

Lemma fetch_raw_descriptor2_steady sel : steady (fetch_raw_descriptor2 sel).
Proof. unfold fetch_raw_descriptor2, system_read_qword. steady_tac. Qed.
Lemma fetch_raw_descriptor2_quiet sel : quiet (fetch_raw_descriptor2 sel).
Proof. unfold fetch_raw_descriptor2, system_read_qword. quiet_tac. Qed.
Lemma clear_flag_steady f : steady (clear_flag f).
Proof. exact (refines_steady _ _ (clear_flag_refines f) (update_flags_steady _)). Qed.
Lemma assert_flag_steady f : steady (assert_flag f).
Proof. exact (refines_steady _ _ (assert_flag_refines f) (update_flags_steady _)). Qed.
#[export] Hint Resolve fetch_raw_descriptor2_steady clear_flag_steady assert_flag_steady : steady.
#[export] Hint Resolve fetch_raw_descriptor2_quiet : quiet.

Lemma protect_implements : Forall implements protect_table.
Proof.
  apply Forall_app_2; [|apply Forall_app_2].
  - repeat apply Forall_cons_2; try (by apply Forall_nil).
    + exact LAR_implements. + exact LSL_implements. + exact VERR_implements. + exact VERW_implements.
    + exact ARPL_implements.
  - apply Forall_selves. table_tac ltac:(intros i; cbn [fst snd]; protect_unfold; refines_tac).
  - apply Forall_cons_2; [exact LLDT_implements|]. apply Forall_cons_2; [exact LTR_implements|].
    table_tac ltac:(intros i; cbn [fst snd]; protect_unfold; refines_tac).
Qed.
Lemma protect_keeps_wf : Forall keeps_wf protect_table.
Proof.
  table_tac ltac:(intros i; cbn [fst]; protect_unfold; repeat first [preserves_step | wf_modify]).
Qed.
Lemma protect_calm : Forall (fun p => forall i, calm (p.1 i)) protect_table.
Proof. table_tac ltac:(intros i; cbn [fst]; protect_unfold; calm_tac). Qed.
Lemma protect_is_precise : Forall is_precise protect_table.
Proof. table_tac ltac:(intros i; cbn [fst]; protect_unfold; precise_tac). Qed.

Lemma protect_contracts : Forall contract protect_table.
Proof. apply calm_contracts; [apply protect_implements|apply protect_keeps_wf|apply protect_calm]. Qed.
Lemma protect_restarts : Forall restarts protect_table.
Proof. apply calm_restarts_all; [apply protect_is_precise|apply protect_calm]. Qed.

(** ** VERR tells whether a segment can be loaded *)

(** The only exception that [m] raises is vector [v]. *)
Definition raises_only {A} (v : Z) (m : Mach A) : Prop := forall s v' e s', m s = Fault v' e s' -> v' = v.

Lemma raises_only_bind {A B} v (m : Mach A) (k : A -> Mach B) :
  raises_only v m -> (forall a, raises_only v (k a)) -> raises_only v (m ≫= k).
Proof.
  intros Hm Hk s v' e s'. unfold mbind, M_bind. destruct (m s) as [a s1|? ? ?|] eqn:E; [apply Hk| |done].
  intros [= <- <- <-]. by eapply Hm.
Qed.
Lemma raises_only_nofault {A} v (m : Mach A) : nofault m -> raises_only v m.
Proof. intros Hm s v' e s' E. specialize (Hm s). rewrite E in Hm. destruct Hm. Qed.
Lemma raises_only_raise {A} v e : raises_only v (raise (A := A) v e).
Proof. by intros s v' e' s' [= <- _ _]. Qed.
Ltac raises_step :=
  match goal with
  | |- forall _, _ => intros ?
  | |- raises_only _ (mbind _ _) => apply raises_only_bind
  | |- raises_only _ (let _ := _ in _) => cbv zeta
  | |- raises_only _ (match ?x with _ => _ end) => destruct x
  | |- raises_only _ (when ?b _) => destruct b; cbn [when]
  | |- raises_only _ (raise _ _) => apply raises_only_raise
  | |- raises_only _ _ => apply raises_only_nofault; solve [nofault_tac]
  end.
Lemma access_write_linear_raises l n p d : raises_only BX_PF_EXCEPTION (access_write_linear l n p d).
Proof.
  unfold access_write_linear, xlate_access, dtranslate_linear, translate_linear, translate_PDE4M, translate_PTE,
    page_fault, set_xlation, read_physical, write_physical, access_read_physical, readPhysicalPage.
  repeat raises_step.
Qed.

Definition refused {S A} (o : outcome S A) : bool :=
  match o with Fault v _ _ => v =? BX_GP_EXCEPTION | _ => false end.

Lemma verr_verdict cpl rpl raw :
  verr_ok cpl rpl raw =
    match data_verdict cpl rpl raw with Some v => negb (v =? BX_GP_EXCEPTION) | None => true end.
Proof.
  unfold verr_ok, data_verdict, conforming, visible. rewrite (Z.ltb_antisym _ (field raw 45 2)).
  destruct (Z.testbit raw 44), (desc_is_code raw), (Z.testbit raw 41), (Z.testbit raw 42),
    (Z.max cpl rpl <=? field raw 45 2), (Z.testbit raw 47); reflexivity.
Qed.
Lemma flag_answer_ZF b (s s' : machine) : answer_ZF b (norm s) = Ret tt (norm s') -> flag ZF s' = b.
Proof.
  intros [_ H]%Ret_inj. rewrite <-flag_norm, <-H, flag_spec. unfold norm. msimpl.
  by rewrite Z.testbit_0_l, testbit_put_flags_flag.
Qed.

Lemma query_flag accept v s s1 :
  4 <= v -> query accept (fun _ => mret tt) v (norm s) = Ret tt (norm s1) ->
  match table_entry v s with
  | None => flag ZF s1 = false
  | Some a => match system_read_qword a s with
              | Ret raw s' => flag ZF s1 = accept (CPL s') (v mod 4) raw
              | _ => False
              end
  end.
Proof.
  intros Hv H. unfold query in H. rewrite (proj2 (Z.ltb_ge v 4)) in H by lia.
  rewrite (bind_gets (table_entry v)) in H. change (table_entry v (norm s)) with (table_entry v s) in H.
  destruct (table_entry v s) as [a|]; [|by eapply flag_answer_ZF].
  pose proof (system_read_refines 8 a s) as Hr. symmetry in Hr. unfold system_read_qword in *.
  destruct (system_read 8 a s) as [raw s'|? ? ?|]; cbn [omap_state] in Hr.
  - rewrite (bind_Ret _ _ _ _ _ Hr), (bind_gets CPL) in H. change (CPL (norm s')) with (CPL s') in H.
    destruct (accept _ _ _); [apply (flag_answer_ZF true s' s1)|apply (flag_answer_ZF false s' s1)]; exact H.
  - by rewrite (bind_Fault _ _ _ _ _ _ Hr) in H.
  - by rewrite (bind_Crash _ _ _ Hr) in H.
Qed.
Lemma load_refused n v s :
  4 <= v < 2 ^ 16 -> (n =? BX_SEG_REG_SS) = false ->
  refused (load_seg_reg_data n v s) =
  match table_entry v s with
  | None => true
  | Some a => match system_read_qword a s with
              | Ret raw s' => negb (verr_ok (CPL s') (v mod 4) raw)
              | o => refused o
              end
  end.
Proof.
  intros Hv Hn. rewrite load_seg_reg_data_eq by (lia || done). unfold spec_load.
  rewrite (proj2 (Z.ltb_ge v 4)), (bind_gets (table_entry v)) by lia.
  destruct (table_entry v s) as [a|]; [|done]. rewrite Hn.
  destruct (system_read_qword a s) as [raw s'|? ? ?|] eqn:E.
  - rewrite (bind_Ret _ _ _ _ _ E), (bind_gets CPL), verr_verdict.
    destruct (data_verdict _ _ _) as [x|]; [by destruct (Z.eqb_spec x BX_GP_EXCEPTION) as [->|]; [|apply Z.eqb_neq in n0]|].
    destruct (Z.testbit raw 40); [done|]. cbn [negb when].
    pose proof (access_write_linear_raises (u32 (a + 5)) 1 0 (Z.setbit (field raw 40 8) 0) s') as Hf.
    destruct (access_write_linear _ _ _ _ s') as [[] s2|x e s2|] eqn:E'.
    + by rewrite (bind_Ret _ _ _ _ _ E').
    + rewrite (bind_Fault _ _ _ _ _ _ E'). by rewrite (Hf _ _ _ eq_refl).
    + by rewrite (bind_Crash _ _ _ E').
  - by rewrite (bind_Fault _ _ _ _ _ _ E).
  - by rewrite (bind_Crash _ _ _ E).
Qed.

(** In protected mode, VERR of a non-null selector in a register (the
    register form; a selector from 4 up) says whether the selector can be loaded
    into DS, ES, FS or GS: when VERR completes, it has set ZF exactly when the
    load would not raise #GP, whatever the descriptor table holds. *)
Theorem verr_predicts_load n i s s1 v :
  In n [BX_SEG_REG_DS; BX_SEG_REG_ES; BX_SEG_REG_FS; BX_SEG_REG_GS] ->
  protected_mode s = true -> nz (modC0 i) = true ->
  BX_READ_16BIT_REG (i_rm i) s = Ret v s -> 4 <= v -> VERR_Ew i s = Ret tt s1 ->
  flag ZF s1 = negb (refused (load_seg_reg n v s)).
Proof.
  intros Hn Hp Hm Hr Hv HV. pose proof (VERR_implements i s) as H. cbn [fst snd] in H. rewrite HV in H.
  cbn [omap_state] in H. symmetry in H.
  unfold ref_query, needs_protected_mode, fetch, read_reg in H. rewrite Hm in H.
  rewrite (bind_Ret _ _ _ tt (norm s)) in H
    by (rewrite (bind_gets protected_mode); change (protected_mode (norm s)) with (protected_mode s); by rewrite Hp).
  assert (BX_READ_16BIT_REG (i_rm i) (norm s) = Ret v (norm s)) as Hr'
    by (change (BX_READ_16BIT_REG (i_rm i) (norm s)) with (omap_state norm (BX_READ_16BIT_REG (i_rm i) s));
        by rewrite Hr).
  rewrite (bind_Ret _ _ _ _ _ Hr') in H.
  assert (0 <= v < 2 ^ 16) by (eapply RegRead_yields; [typeclasses eauto|exact Hr]).
  apply query_flag in H; [|done]. unfold load_seg_reg. rewrite (bind_gets protected_mode), Hp.
  assert ((n =? BX_SEG_REG_SS) = false /\
          case_in n [BX_SEG_REG_DS; BX_SEG_REG_ES; BX_SEG_REG_FS; BX_SEG_REG_GS] = true) as [Hss ->]
    by (cbn [In] in Hn; by destruct Hn as [<-|[<-|[<-|[<-|[]]]]]).
  rewrite Hss, load_refused by (lia || done). destruct (table_entry v s) as [a|]; [|done].
  destruct (system_read_qword a s); [by rewrite negb_involutive|done|done].
Qed.

(** VERR AX with the flat data segment of [gdt_machine]. *)
Definition verr_instruction : bxInstruction_c := demo_instruction 0x00 4 0 0.
Lemma verr_predicts_load_witness :
  let s := with_gen_reg [8; 0; 0; 0; 0; 0; 0; 0; 0; 0; 0] gdt_machine in
  exists s1, VERR_Ew verr_instruction s = Ret tt s1 /\
    flag ZF s1 = negb (refused (load_seg_reg BX_SEG_REG_DS 8 s)) /\ flag ZF s1 = true.
Proof.
  intros s. destruct (VERR_Ew verr_instruction s) as [[] s1|? ? ?|] eqn:E;
    [|vm_compute in E; discriminate E|vm_compute in E; discriminate E].
  exists s1. split; [done|].
  assert (flag ZF s1 = negb (refused (load_seg_reg BX_SEG_REG_DS 8 s))) as H.
  { apply (verr_predicts_load BX_SEG_REG_DS verr_instruction s s1 8);
      [left; reflexivity|reflexivity|reflexivity|reflexivity|lia|exact E]. }
  split; [exact H|]. rewrite H. vm_compute. reflexivity.
Defined.
