(* ===== verification/SysCtrl.v ===== *)
(** * SysCtrl: control and debug registers, and the processor-control instructions

    cpu/crregs.cc: MOV to and from the control and debug registers, LMSW, SMSW,
    and the checks and side effects of writing CR0 and CR4; cpu/proc_ctrl.cc: the
    instructions that halt, flush or query the processor; INVLPG of
    cpu/paging.cc.  Writing CR0 is how a program changes the processor mode. *)
From stdpp Require Import base numbers list gmap.
From Stdlib Require Import ZArith Lia.
From S2P Require Import Prelude Machine LazyFlags Memory Paging Access Regs Precise Reference Mode Segment SegLoad.
From S2P Require Import Frame Stack FlagCtrl CtrlPro Exception Delivery Contract Coherence Protect.

Local Open Scope Z_scope.

(** ** cpu/crregs.cc *)

Definition BX_DEBUG_DR_ACCESS_BIT : Z := Z.shiftl 1 13.
Definition cr4_get_DE (s : machine) : Z := cr_bit 3 (cr4 s).
Definition cr4_get_TSD (s : machine) : Z := cr_bit 2 (cr4 s).
Definition cr4_get_PCE (s : machine) : Z := cr_bit 8 (cr4 s).

(** [if (!real_mode() && CPL!=0) exception(BX_GP_EXCEPTION, 0);] *)
Definition privileged : Mach unit :=
  real ← gets real_mode; cpl ← gets CPL;
  when (negb real && negb (cpl =? 0)) (exception BX_GP_EXCEPTION 0).

(** What both moves check before the privilege. *)
Definition debug_access (i : bxInstruction_c) : Mach unit :=
  de ← gets cr4_get_DE;
  when (nz de && (Z.land (i_nnn i) 0xE =? 4)) (exception BX_UD_EXCEPTION 0);;
  dr7_ ← gets dr7;
  when (nz (Z.land dr7_ 0x2000))
    (modify (fun s => with_debug_trap (Z.lor (debug_trap s) BX_DEBUG_DR_ACCESS_BIT) s);;
     exception BX_DB_EXCEPTION 0).

Definition MOV_DdRd (i : bxInstruction_c) : Mach unit :=
  debug_access i;;
  privileged;;
  invalidate_prefetch_q;;
  val_32 ← BX_READ_32BIT_REG (i_rm i);
  if case_in (i_nnn i) [0; 1; 2; 3] then
    TLB_invlpg val_32;;
    modify (fun s => with_dr (<[Z.to_nat (i_nnn i) := val_32]> (dr s)) s)
  else if case_in (i_nnn i) [4; 6] then
    modify (fun s => with_dr6 (Z.lor (Z.land (dr6 s) 0xffff0ff0) (Z.land val_32 0x0000e00f)) s)
  else if case_in (i_nnn i) [5; 7] then
    modify (with_dr7 (Z.lor (Z.land val_32 0xffff2fff) 0x00000400))
  else exception BX_UD_EXCEPTION 0.

Definition MOV_RdDd (i : bxInstruction_c) : Mach unit :=
  debug_access i;;
  privileged;;
  val_32 ←
    (if case_in (i_nnn i) [0; 1; 2; 3] then gets (fun s => nth (Z.to_nat (i_nnn i)) (dr s) 0)
     else if case_in (i_nnn i) [4; 6] then gets dr6
     else if case_in (i_nnn i) [5; 7] then gets dr7
     else exception BX_UD_EXCEPTION 0);
  BX_WRITE_32BIT_REGZ (i_rm i) val_32.

Definition read_CR0 : Mach Z := gets cr0.
Definition read_CR4 : Mach Z := gets cr4.

Definition check_CR0 (cr0_val : Z) : Z :=
  let temp_cr0 := Z.lor cr0_val 0x10 in
  if nz (cr_bit 31 temp_cr0) && negb (nz (cr_bit 0 temp_cr0)) then 0
  else if nz (cr_bit 29 temp_cr0) && negb (nz (cr_bit 30 temp_cr0)) then 0
  else 1.

(** [cr0.set32] sets ET again. *)
Definition SetCR0 (val : Z) : Mach Z :=
  if check_CR0 val =? 0 then mret 0 else
  oldCR0 ← gets cr0;
  let val_32 := Z.lor (GET32L val) 0x00000010 in
  modify (with_cr0 (Z.lor val_32 0x10));;
  handleAlignmentCheck;;
  handleCpuModeChange;;
  when (negb (Z.land oldCR0 0x80010001 =? Z.land val_32 0x80010001)) TLB_flush;;
  mret 1.

(** The bits of a Pentium: VME, PVI, TSD, DE, PSE and MCE. *)
Definition get_cr4_allow_mask (isa_extensions_bitmask : Z) : Z :=
  mask_of [Z.shiftl 1 0; Z.shiftl 1 1; Z.shiftl 1 2; Z.shiftl 1 3; Z.shiftl 1 4; Z.shiftl 1 6].

Definition check_CR4 (cr4_val : Z) (s : machine) : Z :=
  if nz (Z.ldiff cr4_val (get_cr4_allow_mask (isa_extensions_bitmask s))) then 0 else 1.

Definition SetCR4 (val : Z) : Mach Z :=
  ok ← gets (check_CR4 val);
  if ok =? 0 then mret 0 else
  modify (with_cr4 val);;
  mret 1.

Definition MOV_CdRd (i : bxInstruction_c) : Mach unit :=
  privileged;;
  val_32 ← BX_READ_32BIT_REG (i_rm i);
  if i_nnn i =? 0 then
    ok ← SetCR0 val_32;
    when (ok =? 0) (exception BX_GP_EXCEPTION 0)
  else if i_nnn i =? 2 then modify (with_cr2 val_32)
  else if i_nnn i =? 3 then
    ok ← SetCR3 val_32;
    when (ok =? 0) (exception BX_GP_EXCEPTION 0)
  else if i_nnn i =? 4 then
    ok ← SetCR4 val_32;
    when (ok =? 0) (exception BX_GP_EXCEPTION 0)
  else exception BX_UD_EXCEPTION 0.

Definition MOV_RdCd (i : bxInstruction_c) : Mach unit :=
  privileged;;
  val_32 ←
    (if i_nnn i =? 0 then read_CR0
     else if i_nnn i =? 2 then gets cr2
     else if i_nnn i =? 3 then gets cr3
     else if i_nnn i =? 4 then read_CR4
     else exception BX_UD_EXCEPTION 0);
  BX_WRITE_32BIT_REGZ (i_rm i) val_32.

Definition LMSW_Ew (i : bxInstruction_c) : Mach unit :=
  privileged;;
  msw ← read_selector_Ew i;
  pe ← gets cr0_get_PE;
  let msw := if nz pe then Z.lor msw 0x1 else msw in
  let msw := Z.land msw 0xf in
  cr0_ ← gets (fun s => Z.lor (Z.land (cr0 s) 0xfffffff0) msw);
  ok ← SetCR0 cr0_;
  when (ok =? 0) (exception BX_GP_EXCEPTION 0).

Definition SMSW_EwR (i : bxInstruction_c) : Mach unit :=
  msw ← read_CR0;
  if nz (os32L i) then BX_WRITE_32BIT_REGZ (i_rm i) msw
  else BX_WRITE_16BIT_REG (i_rm i) (Z.land msw 0xffff).

Definition SMSW_EwM (i : bxInstruction_c) : Mach unit :=
  cr0_ ← read_CR0;
  let msw := Z.land cr0_ 0xffff in
  eaddr ← resolve i;
  write_virtual_word_32 (i_seg i) eaddr msw.

Definition MOV_TdRd (i : bxInstruction_c) : Mach unit := exception BX_UD_EXCEPTION 0.
Definition MOV_RdTd (i : bxInstruction_c) : Mach unit := exception BX_UD_EXCEPTION 0.

(** ** cpu/proc_ctrl.cc *)

Definition BX_ACTIVITY_STATE_HLT : Z := 1.
Definition BX_CPU_SSE2 : Z := 0x00000400.

Definition UndefinedOpcode (i : bxInstruction_c) : Mach unit := exception BX_UD_EXCEPTION 0.

(** cpu/fetchdecode.cc: an opcode that is not defined, or not supported. *)
Definition BxError (i : bxInstruction_c) : Mach unit := exception BX_UD_EXCEPTION 0.
Definition NOP (i : bxInstruction_c) : Mach unit := mret tt.
Definition PAUSE (i : bxInstruction_c) : Mach unit := mret tt.
Definition PREFETCH (i : bxInstruction_c) : Mach unit := mret tt.

Definition HLT (i : bxInstruction_c) : Mach unit :=
  privileged;;
  modify (with_activity_state BX_ACTIVITY_STATE_HLT);;
  modify (with_async_event 1).

Definition CLTS (i : bxInstruction_c) : Mach unit :=
  privileged;;
  cr0_set_TS 0.

(** [flushICaches] is empty in this configuration. *)
Definition INVD (i : bxInstruction_c) : Mach unit :=
  privileged;;
  invalidate_prefetch_q.

Definition WBINVD (i : bxInstruction_c) : Mach unit :=
  privileged;;
  invalidate_prefetch_q.

(** The macro [A20ADDR] is empty in this configuration, and the translation of
    the address is its argument. *)
Definition CLFLUSH (i : bxInstruction_c) : Mach unit :=
  eaddr ← resolve i;
  laddr ← get_laddr32 (i_seg i) eaddr;
  segment_checks SegAccessROK execute_virtual_checks 1 (i_seg i) eaddr.

Definition RDPMC (i : bxInstruction_c) : Mach unit :=
  pce ← gets cr4_get_PCE; cpl ← gets CPL; real ← gets real_mode;
  if nz pce || (cpl =? 0) || real then
    isa ← gets isa_extensions_bitmask;
    ecx ← ECX;
    (if nz (Z.land isa BX_CPU_SSE2) then
       when (18 <=? Z.land ecx 0x7fffffff) (exception BX_GP_EXCEPTION 0)
     else
       when (2 <=? Z.land ecx 0xffffffff) (exception BX_GP_EXCEPTION 0));;
    set_EAX 0;;
    set_EDX 0
  else exception BX_GP_EXCEPTION 0.

(** The time-stamp counter stands still in this configuration. *)
Definition get_TSC : Z := 0.
Definition RDTSC (i : bxInstruction_c) : Mach unit :=
  tsd ← gets cr4_get_TSD; cpl ← gets CPL;
  if negb (nz tsd) || (cpl =? 0) then
    let ticks := get_TSC in
    set_EAX (GET32L ticks);;
    set_EDX (GET32H ticks)
  else exception BX_GP_EXCEPTION 0.

(** MONITOR and MWAIT are configured out; SYSENTER and SYSEXIT are empty below
    level 6. *)
Definition MONITOR (i : bxInstruction_c) : Mach unit := exception BX_UD_EXCEPTION 0.
Definition MWAIT (i : bxInstruction_c) : Mach unit := exception BX_UD_EXCEPTION 0.
Definition SYSENTER (i : bxInstruction_c) : Mach unit := mret tt.
Definition SYSEXIT (i : bxInstruction_c) : Mach unit := mret tt.

(** cpu/paging.cc *)
Definition INVLPG (i : bxInstruction_c) : Mach unit :=
  privileged;;
  eaddr ← resolve i;
  laddr ← get_laddr32 (i_seg i) eaddr;
  TLB_invlpg laddr.

(** ** Writing CR0 and CR4, by bit number *)

(** Paging needs protection, and write-through without cache is refused. *)
Definition cr0_ok (v : Z) : bool :=
  (negb (Z.testbit v 31) || Z.testbit v 0) && (negb (Z.testbit v 29) || Z.testbit v 30).
Definition set_cr0 (v : Z) : Mach unit :=
  modify (with_cr0 (Z.setbit v 4));;
  handleAlignmentCheck;;
  handleCpuModeChange.
Definition load_cr0 (v : Z) : Mach unit :=
  if cr0_ok v then set_cr0 v else exception BX_GP_EXCEPTION 0.
(** VME, PVI, TSD, DE, PSE and MCE. *)
Definition cr4_ok (v : Z) : bool := Z.land v 0x5f =? v.
Definition load_cr4 (v : Z) : Mach unit :=
  if cr4_ok v then modify (with_cr4 v) else exception BX_GP_EXCEPTION 0.

Definition ref_mov_to_cr (i : bxInstruction_c) : Mach unit :=
  privileged;;
  v ← fetch 32 (Reg i_rm) i;
  if i_nnn i =? 0 then load_cr0 v
  else if i_nnn i =? 2 then modify (with_cr2 v)
  else if i_nnn i =? 3 then modify (with_cr3 v)
  else if i_nnn i =? 4 then load_cr4 v
  else exception BX_UD_EXCEPTION 0.
(** PE, MP, EM and TS from the operand; PE is not cleared. *)
Definition ref_lmsw (i : bxInstruction_c) : Mach unit :=
  privileged;;
  v ← fetch 16 RM i;
  old ← gets cr0;
  let v := if Z.testbit old 0 then Z.setbit v 0 else v in
  load_cr0 (wrap 32 old / 2 ^ 4 * 2 ^ 4 + v mod 2 ^ 4).

Lemma check_CR0_eq v : (check_CR0 v =? 0) = negb (cr0_ok v).
Proof.
  unfold check_CR0, cr0_ok. cbv zeta. rewrite !nz_cr_bit, !Z.lor_spec by lia.
  change (Z.testbit 0x10 31) with false. change (Z.testbit 0x10 0) with false.
  change (Z.testbit 0x10 29) with false. change (Z.testbit 0x10 30) with false. rewrite !orb_false_r.
  by destruct (Z.testbit v 31), (Z.testbit v 0), (Z.testbit v 29), (Z.testbit v 30).
Qed.
Lemma SetCR0_eq v s :
  0 <= v < 2 ^ 32 ->
  (ok ← SetCR0 v; when (ok =? 0) (exception BX_GP_EXCEPTION 0)) s = load_cr0 v s.
Proof.
  intros Hv. unfold SetCR0, load_cr0. rewrite check_CR0_eq. destruct (cr0_ok v); [|done]. cbn [negb]. cbv zeta.
  assert (Z.lor (Z.lor (GET32L v) 0x10) 0x10 = Z.setbit v 4) as Hs.
  { rewrite <-Z.lor_assoc, Z.lor_diag, Z.setbit_spec'. f_equal.
    unfold GET32L. change 0xFFFFFFFF with (Z.ones 32). rewrite Z.land_ones by lia. by apply Z.mod_small. }
  rewrite Hs. unfold set_cr0, TLB_flush, gets, mbind, M_bind, modify. cbv beta iota.
  set (t := with_cr0 _ s).
  assert (exists m, handleAlignmentCheck t = Ret tt (with_alignment_check_mask m t)) as [m ->].
  { unfold handleAlignmentCheck, gets, mbind, M_bind, when, modify, mret, M_ret. cbv beta iota.
    assert (t = with_alignment_check_mask (alignment_check_mask t) t) as E by (unfold t; by destruct s).
    destruct ((CPL t =? 3) && _ && _), (alignment_check_mask t =? 0); cbn [negb];
      eexists; first [reflexivity | by rewrite <-E]. }
  destruct (handleCpuModeChange _) as [[] u|? ? ?|]; [by destruct (negb _)|done|done].
Qed.
Lemma SetCR4_eq v s :
  0 <= v < 2 ^ 32 ->
  (ok ← SetCR4 v; when (ok =? 0) (exception BX_GP_EXCEPTION 0)) s = load_cr4 v s.
Proof.
  intros Hv. unfold SetCR4, load_cr4, check_CR4, cr4_ok.
  change (get_cr4_allow_mask (isa_extensions_bitmask s)) with 0x5f.
  assert (nz (Z.ldiff v 0x5f) = negb (Z.land v 0x5f =? v)) as H.
  { unfold nz. f_equal. apply eq_true_iff_eq. rewrite !Z.eqb_eq. split; intros H.
    - apply Z.bits_inj'. intros n Hn. apply (f_equal (fun z => Z.testbit z n)) in H.
      rewrite Z.ldiff_spec, Z.bits_0 in H. rewrite Z.land_spec. by destruct (Z.testbit v n), (Z.testbit 0x5f n).
    - apply Z.bits_inj'. intros n Hn. rewrite <-H. rewrite Z.ldiff_spec, Z.land_spec, Z.bits_0.
      by destruct (Z.testbit v n), (Z.testbit 0x5f n). }
  unfold mbind at 1, M_bind at 1. unfold mbind at 1, M_bind at 1. unfold gets. cbv beta iota.
  change (get_cr4_allow_mask _) with 0x5f. rewrite H. by destruct (Z.land v 0x5f =? v).
Qed.

Lemma refines_eq_l {A} (m m1 m' : Mach A) : (forall s, m s = m1 s) -> refines m1 m' -> refines m m'.
Proof. intros E H s. by rewrite E. Qed.
Lemma set_cr0_refines v : refines (set_cr0 v) (set_cr0 v).
Proof. unfold set_cr0. refines_tac. Qed.
Lemma load_cr0_refines v : refines (load_cr0 v) (load_cr0 v).
Proof. unfold load_cr0. apply refines_if; [apply set_cr0_refines|apply refines_raise]. Qed.
Lemma load_cr4_refines v : refines (load_cr4 v) (load_cr4 v).
Proof. unfold load_cr4. refines_tac. Qed.
Lemma privileged_refines : refines privileged privileged.
Proof. unfold privileged. refines_tac. Qed.

Lemma MOV_CdRd_implements : implements (MOV_CdRd, ref_mov_to_cr).
Proof.
  intros i. cbn [fst snd]. unfold MOV_CdRd, ref_mov_to_cr, fetch, read_reg.
  apply refines_bind; [apply privileged_refines|intros _].
  eapply refines_bind_yields; [by eapply RegRead_refines; typeclasses eauto
    |by eapply RegRead_yields; typeclasses eauto|]. intros v Hv.
  repeat apply refines_if; [| | | |apply refines_raise].
  - eapply refines_eq_l; [intros s; by apply SetCR0_eq|apply load_cr0_refines].
  - by apply refines_modify.
  - eapply refines_eq_l; [|by apply refines_modify]. done.
  - eapply refines_eq_l; [intros s; by apply SetCR4_eq|apply load_cr4_refines].
Qed.

Lemma lmsw_value old v :
  0 <= v < 2 ^ 16 ->
  Z.lor (Z.land old 0xfffffff0) (Z.land v 0xf) = wrap 32 old / 2 ^ 4 * 2 ^ 4 + v mod 2 ^ 4.
Proof.
  intros Hv. change 0xf with (Z.ones 4). rewrite Z.land_ones by lia.
  assert (Z.land old 0xfffffff0 = Z.shiftl (wrap 32 old / 2 ^ 4) 4) as ->.
  { change 0xfffffff0 with (mask_bits 4 28). rewrite <-Z.shiftr_div_pow2 by lia. zbits. }
  rewrite lor_shiftl_add; [done|lia|]. apply Z.mod_pos_bound. lia.
Qed.

Lemma LMSW_implements : implements (LMSW_Ew, ref_lmsw).
Proof.
  intros i. cbn [fst snd]. unfold LMSW_Ew, ref_lmsw. apply refines_bind; [apply privileged_refines|intros _].
  apply read_selector_refines. intros v Hv s.
  rewrite (bind_gets cr0_get_PE), (bind_gets cr0). cbv zeta. rewrite bind_gets.
  unfold cr0_get_PE. rewrite nz_cr_bit by lia. change (cr0 (norm s)) with (cr0 s).
  rewrite <-(load_cr0_refines _ s). f_equal. rewrite lmsw_value.
  - rewrite SetCR0_eq by (pose proof (wrap_range 32 (cr0 s)); divlia).
    destruct (Z.testbit (cr0 s) 0); [by rewrite Z.setbit_spec'|done].
  - destruct (Z.testbit (cr0 s) 0); [|done]. apply (lor_range 16); lia.
Qed.

(** ** The interface of the loop *)

(** Instructions that change no system register, that change one nothing is
    computed from, and that may change CR0. *)
Definition plain_sys_handlers : list handler :=
  [MOV_RdDd; MOV_RdCd; SMSW_EwR; SMSW_EwM; MOV_TdRd; MOV_RdTd; UndefinedOpcode; NOP; PAUSE; PREFETCH; INVD; WBINVD;
   CLFLUSH; RDPMC; RDTSC; MONITOR; MWAIT; SYSENTER; SYSEXIT; INVLPG; BxError].
Definition calm_sys_handlers : list handler := [MOV_DdRd; HLT].
Definition cr_table : list (handler * handler) :=
  [(MOV_CdRd, ref_mov_to_cr); (LMSW_Ew, ref_lmsw); (CLTS, CLTS)].
Definition sys_table : list (handler * handler) :=
  selves plain_sys_handlers ++ selves calm_sys_handlers ++ cr_table.

Ltac sys_unfold :=
  cbv beta delta [MOV_RdDd MOV_RdCd SMSW_EwR SMSW_EwM MOV_TdRd MOV_RdTd UndefinedOpcode NOP PAUSE PREFETCH INVD WBINVD
    CLFLUSH RDPMC RDTSC MONITOR MWAIT SYSENTER SYSEXIT INVLPG BxError MOV_DdRd HLT CLTS privileged debug_access read_CR0
    read_CR4 TLB_invlpg invalidate_prefetch_q cr0_set_TS read_selector_Ew get_laddr32]; cbv zeta; unfold_widths.

Lemma execute_virtual_checks_unmarked seg o l : unmarked (snd (execute_virtual_checks seg o l)) = unmarked seg.
Proof. unfold execute_virtual_checks. by repeat case_match. Qed.
Lemma execute_virtual_checks_sel seg o l : selector (snd (execute_virtual_checks seg o l)) = selector seg.
Proof. exact (f_equal selector (execute_virtual_checks_unmarked seg o l)). Qed.
Lemma execute_virtual_checks_d_b seg o l : seg_d_b (cache (snd (execute_virtual_checks seg o l))) = seg_d_b (cache seg).
Proof. exact (f_equal (fun x => seg_d_b (cache x)) (execute_virtual_checks_unmarked seg o l)). Qed.
#[local] Hint Resolve execute_virtual_checks_sel execute_virtual_checks_d_b : steady.

Lemma execute_virtual_checks_ok seg offset length :
  cache_ok (cache seg) -> cache_ok (cache (snd (execute_virtual_checks seg offset length))).
Proof.
  intros H. pose proof (read_virtual_checks_ok seg offset length H) as Hr.
  unfold execute_virtual_checks, read_virtual_checks in *.
  destruct (desc_valid (cache seg) =? 0); [done|]. destruct (desc_p (cache seg) =? 0); [done|].
  destruct (case_in _ [0; 1; 2; 3; 10; 11; 14; 15]); [done|]. by repeat case_match.
Qed.
Lemma execute_checks_wf len n o : preserves wf (segment_checks SegAccessROK execute_virtual_checks len n o).
Proof. apply segment_checks_wf, execute_virtual_checks_ok. Qed.
#[local] Hint Resolve execute_virtual_checks_sel : quiet.
#[local] Hint Resolve execute_checks_wf : preserves.

(** The handlers that are their own reference. *)
Lemma plain_sys_refines : Forall implements (selves plain_sys_handlers).
Proof. apply Forall_selves. table_tac ltac:(intros i; cbn [fst snd]; sys_unfold; refines_tac). Qed.
Lemma plain_sys_wf : Forall keeps_wf (selves plain_sys_handlers).
Proof. apply Forall_selves. table_tac ltac:(intros i; cbn [fst]; sys_unfold; repeat first [preserves_step | wf_modify]). Qed.
Lemma plain_sys_steady : Forall (fun p => forall i, steady (p.1 i)) (selves plain_sys_handlers).
Proof. apply Forall_selves. table_tac ltac:(intros i; cbn [fst]; sys_unfold; steady_tac). Qed.
Lemma plain_sys_precise : Forall is_precise (selves plain_sys_handlers).
Proof. apply Forall_selves. table_tac ltac:(intros i; cbn [fst]; sys_unfold; precise_tac). Qed.

Lemma calm_sys_refines : Forall implements (selves calm_sys_handlers).
Proof. apply Forall_selves. table_tac ltac:(intros i; cbn [fst snd]; sys_unfold; refines_tac). Qed.
Lemma calm_sys_wf : Forall keeps_wf (selves calm_sys_handlers).
Proof. apply Forall_selves. table_tac ltac:(intros i; cbn [fst]; sys_unfold; repeat first [preserves_step | wf_modify]). Qed.
Lemma calm_sys_calm : Forall (fun p => forall i, calm (p.1 i)) (selves calm_sys_handlers).
Proof. apply Forall_selves. table_tac ltac:(intros i; cbn [fst]; sys_unfold; calm_tac). Qed.
Lemma calm_sys_precise : Forall is_precise (selves calm_sys_handlers).
Proof. apply Forall_selves. table_tac ltac:(intros i; cbn [fst]; sys_unfold; precise_tac). Qed.

Lemma load_cr0_coherent v : preserves coherent (load_cr0 v).
Proof.
  intros s (Hm & Hu & Hf & Ha). unfold load_cr0. destruct (cr0_ok v); [|done]. unfold set_cr0. rewrite bind_modify.
  set (t := with_cr0 _ s).
  rewrite (bind_Ret _ _ _ _ _ (handleAlignmentCheck_eq t ltac:(change (alignment_check_mask t) with
    (alignment_check_mask s); rewrite Ha; destruct (checks_alignment s); tauto))).
  set (u := with_alignment_check_mask _ t).
  pose proof (handleCpuModeChange_coherent u eq_refl) as H. by destruct (handleCpuModeChange u).
Qed.
Lemma coherent_norm s : coherent (norm s) <-> coherent s.
Proof. split; apply coherent_control; [symmetry|]; apply control_norm. Qed.
Lemma refines_coherent {A} (m m' : Mach A) : refines m m' -> preserves coherent m' -> preserves coherent m.
Proof.
  intros Hr Hc s Hs. specialize (Hr s). specialize (Hc (norm s) (proj2 (coherent_norm s) Hs)).
  rewrite <-Hr in Hc. by destruct (m s); cbn [omap_state] in Hc; rewrite ?coherent_norm in Hc.
Qed.
Lemma privileged_steady : steady privileged.
Proof. unfold privileged. steady_tac. Qed.
#[local] Hint Resolve load_cr0_coherent : preserves.
Lemma cr0_set_TS_coherent b : (b = 0 \/ b = 1) -> preserves coherent (cr0_set_TS b).
Proof.
  intros Hb. apply preserves_modify. intros s (Hm & Hu & Hf & Ha). unfold coherent, mode_of, checks_alignment, CPL, sreg in *.
  msimpl. rewrite !Z.lor_spec, !Z.ldiff_spec. destruct Hb as [-> | ->]; cbn [Z.shiftl Pos.iter Z.mul];
  rewrite ?Z.bits_0; change (Z.testbit 8 0) with false; change (Z.testbit 8 18) with false;
    by rewrite !andb_true_r, !orb_false_r.
Qed.
Lemma cr_coherent : Forall (fun p => forall i, preserves coherent (p.1 i)) cr_table.
Proof.
  assert (forall v, preserves coherent (load_cr4 v)) as H4
    by (intros; unfold load_cr4; apply preserves_if; [by apply preserves_modify|apply preserves_raise]).
  repeat apply Forall_cons_2; try (by apply Forall_nil); intros i; cbn [fst].
  - eapply refines_coherent; [apply MOV_CdRd_implements|]. cbn [snd]. unfold ref_mov_to_cr.
    apply preserves_bind; [apply steady_coherent, privileged_steady|intros _].
    apply preserves_bind; [apply steady_coherent, fetch_steady|intros v].
    apply preserves_if; [apply load_cr0_coherent|]. do 2 (apply preserves_if; [by apply preserves_modify|]).
    apply preserves_if; [apply H4|apply preserves_raise].
  - eapply refines_coherent; [apply LMSW_implements|]. cbn [snd]. unfold ref_lmsw.
    apply preserves_bind; [apply steady_coherent, privileged_steady|intros _].
    apply preserves_bind; [apply steady_coherent, fetch_steady|intros v].
    apply preserves_bind; [apply preserves_gets|intros old]. cbv zeta. apply load_cr0_coherent.
  - apply preserves_bind; [apply steady_coherent, privileged_steady|intros _]. apply cr0_set_TS_coherent. tauto.
Qed.
Lemma CLTS_implements : implements (CLTS, CLTS).
Proof. intros i. cbn [fst snd]. sys_unfold. refines_tac. Qed.
Lemma cr_implements : Forall implements cr_table.
Proof.
  repeat apply Forall_cons_2; try (by apply Forall_nil);
    [exact MOV_CdRd_implements|exact LMSW_implements|exact CLTS_implements].
Qed.
Lemma SetCR0_wf v : preserves wf (SetCR0 v).
Proof. unfold SetCR0, TLB_flush. repeat first [preserves_step | wf_modify]. Qed.
Lemma SetCR4_wf v : preserves wf (SetCR4 v).
Proof. unfold SetCR4. repeat first [preserves_step | wf_modify]. Qed.
Lemma SetCR3_wf v : in32 v -> preserves wf (SetCR3 v).
Proof.
  intros Hv. unfold SetCR3, TLB_flush. apply preserves_bind; [|intros _; preserves_tac].
  apply preserves_modify. intros s (H1 & H2 & _ & H3). split; [exact H1|]. split; [exact H2|]. by split.
Qed.
Lemma privileged_wf : preserves wf privileged.
Proof. unfold privileged. preserves_tac. Qed.
#[local] Hint Resolve SetCR0_wf SetCR4_wf privileged_wf : preserves.
Lemma cr_keeps_wf : Forall keeps_wf cr_table.
Proof.
  repeat apply Forall_cons_2; try (by apply Forall_nil); intros i; cbn [fst].
  - unfold MOV_CdRd. apply preserves_bind; [apply privileged_wf|intros _].
    eapply preserves_bind_yields; [eauto with preserves|eapply RegRead_yields; typeclasses eauto|].
    intros v Hv. pose proof (SetCR3_wf v Hv). repeat first [preserves_step | wf_modify].
  - unfold LMSW_Ew, read_selector_Ew. unfold_widths. repeat first [preserves_step | wf_modify].
  - unfold CLTS, cr0_set_TS. repeat first [preserves_step | wf_modify].
Qed.

(** Nothing else that the loop relies on changes, and a refused value changes
    nothing. *)
Section Kept.
Context (I : machine -> Prop) `{!Frame I}
  (Hcr0 : forall x s, I s -> I (with_cr0 x s)) (Hcr3 : forall x s, I s -> I (with_cr3 x s))
  (Hcr4 : forall x s, I s -> I (with_cr4 x s)) (Hmode : forall x s, I s -> I (with_cpu_mode x s))
  (Hmask : forall x s, I s -> I (with_alignment_check_mask x s)) (Hpl : forall x s, I s -> I (with_user_pl x s))
  (Hfetch : forall x s, I s -> I (with_fetchModeMask x s)) (Hsreg : forall n x s, I s -> I (set_sreg n x s)).
Ltac kept_step :=
  match goal with
  | |- preserves _ (modify (with_cr2 _)) => apply preserves_modify; intros ? ?; by apply frame_cr2
  | |- preserves _ (modify _) => apply preserves_modify; intros ? ?; by auto 10
  | |- preserves _ (resolve _) => assumption || eauto
  | |- preserves _ handleAlignmentCheck => assumption
  | |- preserves _ handleCpuModeChange => assumption
  | _ => frame_step
  end.
Ltac kept := repeat kept_step.
Lemma cr_kept : Forall (fun p => forall i, preserves I (p.1 i)) cr_table.
Proof.
  assert (preserves I handleAlignmentCheck) by (unfold handleAlignmentCheck; kept).
  assert (preserves I handleCpuModeChange) by (unfold handleCpuModeChange, updateFetchModeMask; kept).
  assert (forall i, preserves I (resolve i)) as Hr
    by (intros; unfold resolve, BxResolve16BaseIndex, BxResolve32Base, BxResolve32BaseIndex; preserves_tac).
  repeat apply Forall_cons_2; try (by apply Forall_nil); intros i; cbn [fst];
    unfold MOV_CdRd, LMSW_Ew, CLTS, privileged, SetCR0, SetCR3, SetCR4, cr0_set_TS, read_selector_Ew, TLB_flush;
    unfold_widths; kept.
Qed.
End Kept.
Lemma cr_pending : Forall (fun p => forall i, keeps_pending (p.1 i)) cr_table.
Proof.
  apply Forall_forall. intros p Hp i q.
  pose proof (cr_kept (fun s => pending s = q) ltac:(done) ltac:(done) ltac:(done) ltac:(done) ltac:(done)
    ltac:(done) ltac:(done) ltac:(done)) as H.
  rewrite Forall_forall in H. exact (H p Hp i).
Qed.
#[local] Instance speculative_Frame : Frame (fun s => speculative_rsp s = 0).
Proof. frame_tac. Qed.
Lemma cr_speculative : Forall (fun p => forall i, preserves (fun s => speculative_rsp s = 0) (p.1 i)) cr_table.
Proof. by apply cr_kept. Qed.

Lemma arch_norm s : arch (norm s) = arch s.
Proof.
  unfold arch. f_equal. f_equal. change (put_flags (fun f => flag f (norm s)) (eflags (norm s)) = eflags (norm s)).
  unfold norm at 2 3. msimpl. rewrite put_flags_put. apply put_flags_ext. intros f. apply flag_norm.
Qed.
Lemma refines_precise {A} (m m' : Mach A) : refines m m' -> precise m' -> precise m.
Proof.
  intros Hr Hp s v e s' E. specialize (Hr s). rewrite E in Hr. symmetry in Hr. apply Hp in Hr.
  by rewrite !arch_norm in Hr.
Qed.
Lemma set_cr0_nofault v : nofault (set_cr0 v).
Proof. unfold set_cr0, handleAlignmentCheck, handleCpuModeChange, updateFetchModeMask. nofault_tac. Qed.
Lemma load_cr0_precise v : precise (load_cr0 v).
Proof. unfold load_cr0. destruct (cr0_ok v); [apply precise_nofault, set_cr0_nofault|precise_tac]. Qed.
Lemma load_cr4_precise v : precise (load_cr4 v).
Proof. unfold load_cr4. precise_tac. Qed.
Lemma privileged_quiet : quiet privileged.
Proof. unfold privileged. quiet_tac. Qed.
#[local] Hint Resolve privileged_quiet : quiet.
Lemma fetch_quiet w p i : quiet (fetch w p i).
Proof. unfold fetch, read_reg, read_mem. unfold_widths. quiet_tac. Qed.
Lemma cr_is_precise : Forall is_precise cr_table.
Proof.
  repeat apply Forall_cons_2; try (by apply Forall_nil); intros i; cbn [fst].
  - eapply refines_precise; [apply MOV_CdRd_implements|]. cbn [snd]. unfold ref_mov_to_cr.
    apply precise_bind_quiet; [apply privileged_quiet|intros _].
    apply precise_bind_quiet; [apply fetch_quiet|intros v].
    destruct (i_nnn i =? 0); [apply load_cr0_precise|]. destruct (i_nnn i =? 2); [precise_tac|].
    destruct (i_nnn i =? 3); [precise_tac|]. destruct (i_nnn i =? 4); [apply load_cr4_precise|precise_tac].
  - eapply refines_precise; [apply LMSW_implements|]. cbn [snd]. unfold ref_lmsw.
    apply precise_bind_quiet; [apply privileged_quiet|intros _].
    apply precise_bind_quiet; [apply fetch_quiet|intros v].
    apply precise_bind_quiet; [quiet_tac|intros old]. cbv zeta. apply load_cr0_precise.
  - unfold CLTS, cr0_set_TS. precise_tac.
Qed.

Lemma speculative_commits (m : Mach unit) s :
  preserves (fun s => speculative_rsp s = 0) m ->
  speculative_rsp s = 0 -> match m s with Ret _ s' => speculative_rsp s' = 0 | _ => True end.
Proof. intros Hm Hs. specialize (Hm s Hs). by destruct (m s). Qed.
Lemma precise_unspeculative (m : Mach unit) :
  precise m -> preserves (fun s => speculative_rsp s = 0) m -> restartable m.
Proof.
  intros Hp Hm s v e s' _ H0 E. exists s'. split; [|by eapply Hp]. specialize (Hm s H0). rewrite E in Hm.
  unfold restore_rsp. by rewrite (bind_gets speculative_rsp), Hm.
Qed.
Lemma sys_contracts : Forall contract sys_table.
Proof.
  apply Forall_app_2; [|apply Forall_app_2].
  - apply plain_contracts; [apply plain_sys_refines|apply plain_sys_wf|apply plain_sys_steady].
  - apply calm_contracts; [apply calm_sys_refines|apply calm_sys_wf|apply calm_sys_calm].
  - pose proof cr_implements as H1. pose proof cr_keeps_wf as H2. pose proof cr_coherent as H3.
    pose proof cr_speculative as H4. pose proof cr_pending as H5. rewrite Forall_forall in *. intros p Hp.
    apply contract_intro; [exact (H1 p Hp)|exact (H2 p Hp)|exact (H3 p Hp)| |exact (H5 p Hp)].
    intros i s. apply speculative_commits, H4, Hp.
Qed.
Lemma sys_restarts : Forall restarts sys_table.
Proof.
  apply Forall_app_2; [|apply Forall_app_2].
  - apply plain_restarts; [apply plain_sys_precise|apply plain_sys_steady].
  - apply calm_restarts_all; [apply calm_sys_precise|apply calm_sys_calm].
  - pose proof cr_is_precise as H1. pose proof cr_coherent as H3. pose proof cr_speculative as H4.
    pose proof cr_pending as H5. rewrite Forall_forall in *. intros p Hp.
    split; [|exact (H3 p Hp)|exact (H5 p Hp)]. intros i. apply precise_unspeculative; [by apply H1|by apply H4].
Qed.
Lemma sys_is_precise : Forall is_precise sys_table.
Proof. apply Forall_app_2; [apply plain_sys_precise|]. apply Forall_app_2; [apply calm_sys_precise|apply cr_is_precise]. Qed.

(** ** Changing the mode *)

Lemma privileged_passes s : real_mode s || (CPL s =? 0) = true -> privileged s = Ret tt s.
Proof.
  intros H. unfold privileged. rewrite (bind_gets real_mode), (bind_gets CPL).
  by destruct (real_mode s), (CPL s =? 0).
Qed.
(** CR0 and the caches of the mode; in real mode CS becomes a data segment that is
    present and can be written. *)
Definition cr0_changed (v mode mask user fetch : Z) (s : machine) : machine :=
  with_user_pl user (with_fetchModeMask fetch (with_cpu_mode mode (with_alignment_check_mask mask
    (with_cr0 (Z.setbit v 4) (if Z.testbit v 0 then s else real_cs s))))).
Lemma set_cr0_eq v s :
  coherent s -> CPL s = 0 ->
  exists mode mask user fetch, set_cr0 v s = Ret tt (cr0_changed v mode mask user fetch s) /\
    coherent (cr0_changed v mode mask user fetch s).
Proof.
  intros (_ & _ & _ & Ha) Hl. unfold set_cr0. rewrite bind_modify. set (t := with_cr0 _ s).
  assert (forall k, (handleAlignmentCheck;; k) t =
    k (with_alignment_check_mask (if checks_alignment t then 0xF else 0) t) :> outcome machine unit) as Hal.
  { intros k. apply (bind_Ret _ (fun _ => k) _ tt), handleAlignmentCheck_eq.
    change (alignment_check_mask t) with (alignment_check_mask s). rewrite Ha. destruct (checks_alignment s); tauto. }
  rewrite Hal. set (u := with_alignment_check_mask _ t). assert (real_level u) as Hu by by intros _.
  pose proof (handleCpuModeChange_returns u eq_refl Hu) as Hco. revert Hco.
  rewrite (handleCpuModeChange_run u Hu). unfold updateFetchModeMask, modify, cr0_changed. intros Hco.
  assert (Z.testbit (cr0 u) 0 = Z.testbit v 0) as Hv by (change (cr0 u) with (Z.setbit v 4); by rewrite Z.setbit_neq).
  rewrite Hv in *. destruct (Z.testbit v 0); do 4 eexists; (split; [reflexivity|exact Hco]).
Qed.

(** C16: MOV to CR0 at level 0 changes the processor mode consistently: a value with
    paging but no protection, or with NW but not CD, raises #GP(0) and changes
    nothing; any other value becomes CR0 with ET set, the processor mode is the one
    PE and VM say, and all caches of the mode agree with it.  Nothing else changes,
    but that without PE the descriptor cache of CS becomes that of a present data
    segment that can be read and written. *)
Theorem mode_switch_correct i s v :
  coherent s -> i_nnn i = 0 -> BX_READ_32BIT_REG (i_rm i) s = Ret v s -> CPL s = 0 ->
  match MOV_CdRd i s with
  | Ret _ s' =>
      cr0_ok v = true /\ coherent s' /\
      cpu_mode s' = (if Z.testbit v 0 then
                       if Z.testbit (eflags s) 17 then BX_MODE_IA32_V8086 else BX_MODE_IA32_PROTECTED
                     else BX_MODE_IA32_REAL) /\
      exists mode mask user fetch, s' = cr0_changed v mode mask user fetch s
  | Fault x e s' => cr0_ok v = false /\ x = BX_GP_EXCEPTION /\ e = 0 /\ s' = s
  | Crash => False
  end.
Proof.
  intros Hc Hn Hr Hl. assert (real_mode s || (CPL s =? 0) = true) as Hp by (rewrite Hl; apply orb_true_r).
  unfold MOV_CdRd. rewrite (bind_Ret _ _ _ _ _ (privileged_passes s Hp)).
  rewrite (bind_Ret _ _ _ _ _ Hr), Hn. cbn [Z.eqb].
  rewrite SetCR0_eq by (eapply RegRead_yields; [typeclasses eauto|exact Hr]).
  unfold load_cr0. destruct (cr0_ok v); [|done].
  destruct (set_cr0_eq v s Hc Hl) as (mode & mask & user & fetch & -> & Hc'). split; [done|]. split; [done|].
  split; [|by do 4 eexists]. destruct Hc' as [-> _]. unfold mode_of, cr0_changed. msimpl.
  rewrite Z.setbit_neq by lia. by destruct (Z.testbit v 0).
Qed.
Lemma mode_switch_correct_witness :
  let s := with_gen_reg [0; 0; 0; 0; 0; 0; 0; 0; 0; 0; 0] flat_machine in
  match MOV_CdRd (demo_instruction 0x122 0 0 0) s with
  | Ret _ s' =>
      coherent s' /\ cpu_mode s' = BX_MODE_IA32_REAL /\ exists mode mask user fetch, s' = cr0_changed 0 mode mask user fetch s
  | _ => False
  end.
Proof.
  intros s. pose proof (mode_switch_correct (demo_instruction 0x122 0 0 0) s 0
    ltac:(unfold coherent; vm_compute; tauto) eq_refl eq_refl eq_refl) as H.
  destruct (MOV_CdRd _ s) as [[] s'|x e s'|]; [|destruct H as [H _]; discriminate H|exact H].
  destruct H as (_ & H1 & H2 & H3). split; [exact H1|]. split; [exact H2|exact H3].
Defined.
