(* ===== verification/StringOps.v ===== *)
(** * StringOps: the string instructions and their repetition

    cpu/string.cc, and [repeat] and [repeat_ZF] of cpu/cpu.cc (the build has
    neither the repeat speedups nor the trace cache nor the debugger).  One
    iteration is a handler of its own; the loops run it until the count is zero,
    until ZF says so, or until an asynchronous event is pending, in which case
    EIP goes back to the instruction. *)
From stdpp Require Import base numbers list gmap.
From Stdlib Require Import ZArith Lia.
From S2P Require Import Prelude Opcodes Machine LazyFlags Memory Paging Access Regs Precise Reference Mode Segment SegLoad Frame Stack FlagCtrl Delivery Contract Coherence.

Local Open Scope Z_scope.

(** ** One iteration (cpu/string.cc) *)

Definition MOVSB16_XbYb (i : bxInstruction_c) : Mach unit :=
  si ← SI; temp8 ← read_virtual_byte_32 (i_seg i) si;
  di ← DI; write_virtual_byte_32 BX_SEG_REG_ES di temp8;;
  df ← gets get_DF;
  if nz df then
    si ← SI; set_SI (u16 (si - 1));;
    di ← DI; set_DI (u16 (di - 1))
  else
    si ← SI; set_SI (u16 (si + 1));;
    di ← DI; set_DI (u16 (di + 1)).

Definition MOVSB32_XbYb (i : bxInstruction_c) : Mach unit :=
  esi ← ESI; temp8 ← read_virtual_byte_32 (i_seg i) esi;
  edi ← EDI; write_virtual_byte_32 BX_SEG_REG_ES edi temp8;;
  df ← gets get_DF;
  if nz df then
    esi ← ESI; set_ESI (u32 (esi - 1));;
    edi ← EDI; set_EDI (u32 (edi - 1))
  else
    esi ← ESI; set_ESI (u32 (esi + 1));;
    edi ← EDI; set_EDI (u32 (edi + 1)).

Definition MOVSW16_XwYw (i : bxInstruction_c) : Mach unit :=
  si ← SI;
  di ← DI;
  temp16 ← read_virtual_word_32 (i_seg i) si;
  write_virtual_word_32 BX_SEG_REG_ES di temp16;;
  df ← gets get_DF;
  let si := if nz df then u16 (si - 2) else u16 (si + 2) in
  let di := if nz df then u16 (di - 2) else u16 (di + 2) in
  set_SI si;;
  set_DI di.

Definition MOVSW32_XwYw (i : bxInstruction_c) : Mach unit :=
  esi ← ESI;
  edi ← EDI;
  temp16 ← read_virtual_word_32 (i_seg i) esi;
  write_virtual_word_32 BX_SEG_REG_ES edi temp16;;
  df ← gets get_DF;
  let esi := if nz df then u32 (esi - 2) else u32 (esi + 2) in
  let edi := if nz df then u32 (edi - 2) else u32 (edi + 2) in
  set_ESI esi;;
  set_EDI edi.

Definition MOVSD16_XdYd (i : bxInstruction_c) : Mach unit :=
  si ← SI;
  di ← DI;
  temp32 ← read_virtual_dword_32 (i_seg i) si;
  write_virtual_dword_32 BX_SEG_REG_ES di temp32;;
  df ← gets get_DF;
  let si := if nz df then u16 (si - 4) else u16 (si + 4) in
  let di := if nz df then u16 (di - 4) else u16 (di + 4) in
  set_SI si;;
  set_DI di.

Definition MOVSD32_XdYd (i : bxInstruction_c) : Mach unit :=
  esi ← ESI;
  edi ← EDI;
  temp32 ← read_virtual_dword_32 (i_seg i) esi;
  write_virtual_dword_32 BX_SEG_REG_ES edi temp32;;
  df ← gets get_DF;
  let esi := if nz df then u32 (esi - 4) else u32 (esi + 4) in
  let edi := if nz df then u32 (edi - 4) else u32 (edi + 4) in
  set_ESI esi;;
  set_EDI edi.

Definition CMPSB16_XbYb (i : bxInstruction_c) : Mach unit :=
  si ← SI;
  di ← DI;
  op1_8 ← read_virtual_byte_32 (i_seg i) si;
  op2_8 ← read_virtual_byte_32 BX_SEG_REG_ES di;
  let diff_8 := u8 (op1_8 - op2_8) in
  SET_FLAGS_OSZAPC_SUB_8 op1_8 op2_8 diff_8;;
  df ← gets get_DF;
  let si := if nz df then u16 (si - 1) else u16 (si + 1) in
  let di := if nz df then u16 (di - 1) else u16 (di + 1) in
  set_DI di;;
  set_SI si.

Definition CMPSB32_XbYb (i : bxInstruction_c) : Mach unit :=
  esi ← ESI;
  edi ← EDI;
  op1_8 ← read_virtual_byte_32 (i_seg i) esi;
  op2_8 ← read_virtual_byte_32 BX_SEG_REG_ES edi;
  let diff_8 := u8 (op1_8 - op2_8) in
  SET_FLAGS_OSZAPC_SUB_8 op1_8 op2_8 diff_8;;
  df ← gets get_DF;
  let esi := if nz df then u32 (esi - 1) else u32 (esi + 1) in
  let edi := if nz df then u32 (edi - 1) else u32 (edi + 1) in
  set_EDI edi;;
  set_ESI esi.

Definition CMPSW16_XwYw (i : bxInstruction_c) : Mach unit :=
  si ← SI;
  di ← DI;
  op1_16 ← read_virtual_word_32 (i_seg i) si;
  op2_16 ← read_virtual_word_32 BX_SEG_REG_ES di;
  let diff_16 := u16 (op1_16 - op2_16) in
  SET_FLAGS_OSZAPC_SUB_16 op1_16 op2_16 diff_16;;
  df ← gets get_DF;
  let si := if nz df then u16 (si - 2) else u16 (si + 2) in
  let di := if nz df then u16 (di - 2) else u16 (di + 2) in
  set_DI di;;
  set_SI si.

Definition CMPSW32_XwYw (i : bxInstruction_c) : Mach unit :=
  esi ← ESI;
  edi ← EDI;
  op1_16 ← read_virtual_word_32 (i_seg i) esi;
  op2_16 ← read_virtual_word_32 BX_SEG_REG_ES edi;
  let diff_16 := u16 (op1_16 - op2_16) in
  SET_FLAGS_OSZAPC_SUB_16 op1_16 op2_16 diff_16;;
  df ← gets get_DF;
  let esi := if nz df then u32 (esi - 2) else u32 (esi + 2) in
  let edi := if nz df then u32 (edi - 2) else u32 (edi + 2) in
  set_EDI edi;;
  set_ESI esi.

Definition CMPSD16_XdYd (i : bxInstruction_c) : Mach unit :=
  si ← SI;
  di ← DI;
  op1_32 ← read_virtual_dword_32 (i_seg i) si;
  op2_32 ← read_virtual_dword_32 BX_SEG_REG_ES di;
  let diff_32 := u32 (op1_32 - op2_32) in
  SET_FLAGS_OSZAPC_SUB_32 op1_32 op2_32 diff_32;;
  df ← gets get_DF;
  let si := if nz df then u16 (si - 4) else u16 (si + 4) in
  let di := if nz df then u16 (di - 4) else u16 (di + 4) in
  set_DI di;;
  set_SI si.

Definition CMPSD32_XdYd (i : bxInstruction_c) : Mach unit :=
  esi ← ESI;
  edi ← EDI;
  op1_32 ← read_virtual_dword_32 (i_seg i) esi;
  op2_32 ← read_virtual_dword_32 BX_SEG_REG_ES edi;
  let diff_32 := u32 (op1_32 - op2_32) in
  SET_FLAGS_OSZAPC_SUB_32 op1_32 op2_32 diff_32;;
  df ← gets get_DF;
  let esi := if nz df then u32 (esi - 4) else u32 (esi + 4) in
  let edi := if nz df then u32 (edi - 4) else u32 (edi + 4) in
  set_EDI edi;;
  set_ESI esi.

Definition SCASB16_ALXb (i : bxInstruction_c) : Mach unit :=
  op1_8 ← AL;
  di ← DI;
  op2_8 ← read_virtual_byte_32 BX_SEG_REG_ES di;
  let diff_8 := u8 (op1_8 - op2_8) in
  SET_FLAGS_OSZAPC_SUB_8 op1_8 op2_8 diff_8;;
  df ← gets get_DF;
  let di := if nz df then u16 (di - 1) else u16 (di + 1) in
  set_DI di.

Definition SCASB32_ALXb (i : bxInstruction_c) : Mach unit :=
  op1_8 ← AL;
  edi ← EDI;
  op2_8 ← read_virtual_byte_32 BX_SEG_REG_ES edi;
  let diff_8 := u8 (op1_8 - op2_8) in
  SET_FLAGS_OSZAPC_SUB_8 op1_8 op2_8 diff_8;;
  df ← gets get_DF;
  let edi := if nz df then u32 (edi - 1) else u32 (edi + 1) in
  set_EDI edi.

Definition SCASW16_AXXw (i : bxInstruction_c) : Mach unit :=
  op1_16 ← AX;
  di ← DI;
  op2_16 ← read_virtual_word_32 BX_SEG_REG_ES di;
  let diff_16 := u16 (op1_16 - op2_16) in
  SET_FLAGS_OSZAPC_SUB_16 op1_16 op2_16 diff_16;;
  df ← gets get_DF;
  let di := if nz df then u16 (di - 2) else u16 (di + 2) in
  set_DI di.

Definition SCASW32_AXXw (i : bxInstruction_c) : Mach unit :=
  op1_16 ← AX;
  edi ← EDI;
  op2_16 ← read_virtual_word_32 BX_SEG_REG_ES edi;
  let diff_16 := u16 (op1_16 - op2_16) in
  SET_FLAGS_OSZAPC_SUB_16 op1_16 op2_16 diff_16;;
  df ← gets get_DF;
  let edi := if nz df then u32 (edi - 2) else u32 (edi + 2) in
  set_EDI edi.

Definition SCASD16_EAXXd (i : bxInstruction_c) : Mach unit :=
  op1_32 ← EAX;
  di ← DI;
  op2_32 ← read_virtual_dword_32 BX_SEG_REG_ES di;
  let diff_32 := u32 (op1_32 - op2_32) in
  SET_FLAGS_OSZAPC_SUB_32 op1_32 op2_32 diff_32;;
  df ← gets get_DF;
  let di := if nz df then u16 (di - 4) else u16 (di + 4) in
  set_DI di.

Definition SCASD32_EAXXd (i : bxInstruction_c) : Mach unit :=
  op1_32 ← EAX;
  edi ← EDI;
  op2_32 ← read_virtual_dword_32 BX_SEG_REG_ES edi;
  let diff_32 := u32 (op1_32 - op2_32) in
  SET_FLAGS_OSZAPC_SUB_32 op1_32 op2_32 diff_32;;
  df ← gets get_DF;
  let edi := if nz df then u32 (edi - 4) else u32 (edi + 4) in
  set_EDI edi.

Definition STOSB16_YbAL (i : bxInstruction_c) : Mach unit :=
  di ← DI;
  al ← AL; write_virtual_byte_32 BX_SEG_REG_ES di al;;
  df ← gets get_DF;
  let di := if nz df then u16 (di - 1) else u16 (di + 1) in
  set_DI di.

Definition STOSB32_YbAL (i : bxInstruction_c) : Mach unit :=
  edi ← EDI;
  al ← AL; write_virtual_byte_32 BX_SEG_REG_ES edi al;;
  df ← gets get_DF;
  let edi := if nz df then u32 (edi - 1) else u32 (edi + 1) in
  set_EDI edi.

Definition STOSW16_YwAX (i : bxInstruction_c) : Mach unit :=
  di ← DI;
  ax ← AX; write_virtual_word_32 BX_SEG_REG_ES di ax;;
  df ← gets get_DF;
  let di := if nz df then u16 (di - 2) else u16 (di + 2) in
  set_DI di.

Definition STOSW32_YwAX (i : bxInstruction_c) : Mach unit :=
  edi ← EDI;
  ax ← AX; write_virtual_word_32 BX_SEG_REG_ES edi ax;;
  df ← gets get_DF;
  let edi := if nz df then u32 (edi - 2) else u32 (edi + 2) in
  set_EDI edi.

Definition STOSD16_YdEAX (i : bxInstruction_c) : Mach unit :=
  di ← DI;
  eax ← EAX; write_virtual_dword_32 BX_SEG_REG_ES di eax;;
  df ← gets get_DF;
  let di := if nz df then u16 (di - 4) else u16 (di + 4) in
  set_DI di.

Definition STOSD32_YdEAX (i : bxInstruction_c) : Mach unit :=
  edi ← EDI;
  eax ← EAX; write_virtual_dword_32 BX_SEG_REG_ES edi eax;;
  df ← gets get_DF;
  let edi := if nz df then u32 (edi - 4) else u32 (edi + 4) in
  set_EDI edi.

Definition LODSB16_ALXb (i : bxInstruction_c) : Mach unit :=
  si ← SI;
  al ← read_virtual_byte_32 (i_seg i) si; set_AL al;;
  df ← gets get_DF;
  let si := if nz df then u16 (si - 1) else u16 (si + 1) in
  set_SI si.

Definition LODSB32_ALXb (i : bxInstruction_c) : Mach unit :=
  esi ← ESI;
  al ← read_virtual_byte_32 (i_seg i) esi; set_AL al;;
  df ← gets get_DF;
  let esi := if nz df then u32 (esi - 1) else u32 (esi + 1) in
  set_ESI esi.

Definition LODSW16_AXXw (i : bxInstruction_c) : Mach unit :=
  si ← SI;
  ax ← read_virtual_word_32 (i_seg i) si; set_AX ax;;
  df ← gets get_DF;
  let si := if nz df then u16 (si - 2) else u16 (si + 2) in
  set_SI si.

Definition LODSW32_AXXw (i : bxInstruction_c) : Mach unit :=
  esi ← ESI;
  ax ← read_virtual_word_32 (i_seg i) esi; set_AX ax;;
  df ← gets get_DF;
  let esi := if nz df then u32 (esi - 2) else u32 (esi + 2) in
  set_ESI esi.

Definition LODSD16_EAXXd (i : bxInstruction_c) : Mach unit :=
  si ← SI;
  eax ← read_virtual_dword_32 (i_seg i) si; set_EAX eax;;
  df ← gets get_DF;
  let si := if nz df then u16 (si - 4) else u16 (si + 4) in
  set_SI si.

Definition LODSD32_EAXXd (i : bxInstruction_c) : Mach unit :=
  esi ← ESI;
  eax ← read_virtual_dword_32 (i_seg i) esi; set_EAX eax;;
  df ← gets get_DF;
  let esi := if nz df then u32 (esi - 4) else u32 (esi + 4) in
  set_ESI esi.

(** ** The loops (cpu/cpu.cc)

    [while (1) { if (count != 0) { execute; count--; } if (stop || count == 0) return;
    if (async_event) break; }]; the result says whether the loop was left by
    [return].  [count] is ECX or CX; the fuel is one more than the count at the
    beginning, and [rep_loop_eq] below shows that it never runs out. *)
Fixpoint rep_loop (fuel : nat) (count : Mach Z) (set_count : Z -> Mach unit) (stop : machine -> bool)
    (execute : Mach unit) : Mach bool :=
  match fuel with
  | O => crash
  | S fuel =>
      c ← count;
      when (negb (c =? 0)) (execute;; c ← count; set_count (c - 1));;
      stopped ← gets stop;
      c ← count;
      if stopped || (c =? 0) then mret true else
      async ← gets async_event;
      if nz async then mret false
      else rep_loop fuel count set_count stop execute
  end.

Definition rep_count (i : bxInstruction_c) : Mach Z := if nz (as32L i) then ECX else CX.
Definition set_rep_count (i : bxInstruction_c) (v : Z) : Mach unit :=
  if nz (as32L i) then set_ECX (u32 v) else set_CX (u16 v).

(** The part of both functions after the test for a repeat prefix. *)
Definition rep_iterate (i : bxInstruction_c) (stop : machine -> bool) (execute : handler) : Mach unit :=
  c ← rep_count i;
  returned ← rep_loop (S (Z.to_nat c)) (rep_count i) (set_rep_count i) stop (execute i);
  when (negb returned) (rip ← gets prev_rip; set_EIP rip).

Definition repeat (i : bxInstruction_c) (execute : handler) : Mach unit :=
  if negb (nz (repUsedL i)) then execute i
  else rep_iterate i (fun _ => false) execute.

Definition repeat_ZF (i : bxInstruction_c) (execute : handler) : Mach unit :=
  let rep := repUsedValue i in
  if rep =? 0 then execute i
  else if rep =? 3 then rep_iterate i (fun s => negb (nz (get_flag ZF s))) execute
  else rep_iterate i (fun s => nz (get_flag ZF s)) execute.

(** ** The handlers *)

Definition REP_MOVSB_XbYb (i : bxInstruction_c) : Mach unit :=
  if nz (as32L i) then repeat i MOVSB32_XbYb else repeat i MOVSB16_XbYb.
Definition REP_MOVSW_XwYw (i : bxInstruction_c) : Mach unit :=
  if nz (as32L i) then repeat i MOVSW32_XwYw else repeat i MOVSW16_XwYw.
Definition REP_MOVSD_XdYd (i : bxInstruction_c) : Mach unit :=
  if nz (as32L i) then repeat i MOVSD32_XdYd else repeat i MOVSD16_XdYd.
Definition REP_CMPSB_XbYb (i : bxInstruction_c) : Mach unit :=
  if nz (as32L i) then repeat_ZF i CMPSB32_XbYb else repeat_ZF i CMPSB16_XbYb.
Definition REP_CMPSW_XwYw (i : bxInstruction_c) : Mach unit :=
  if nz (as32L i) then repeat_ZF i CMPSW32_XwYw else repeat_ZF i CMPSW16_XwYw.
Definition REP_CMPSD_XdYd (i : bxInstruction_c) : Mach unit :=
  if nz (as32L i) then repeat_ZF i CMPSD32_XdYd else repeat_ZF i CMPSD16_XdYd.
Definition REP_SCASB_ALXb (i : bxInstruction_c) : Mach unit :=
  if nz (as32L i) then repeat_ZF i SCASB32_ALXb else repeat_ZF i SCASB16_ALXb.
Definition REP_SCASW_AXXw (i : bxInstruction_c) : Mach unit :=
  if nz (as32L i) then repeat_ZF i SCASW32_AXXw else repeat_ZF i SCASW16_AXXw.
Definition REP_SCASD_EAXXd (i : bxInstruction_c) : Mach unit :=
  if nz (as32L i) then repeat_ZF i SCASD32_EAXXd else repeat_ZF i SCASD16_EAXXd.
Definition REP_STOSB_YbAL (i : bxInstruction_c) : Mach unit :=
  if nz (as32L i) then repeat i STOSB32_YbAL else repeat i STOSB16_YbAL.
Definition REP_STOSW_YwAX (i : bxInstruction_c) : Mach unit :=
  if nz (as32L i) then repeat i STOSW32_YwAX else repeat i STOSW16_YwAX.
Definition REP_STOSD_YdEAX (i : bxInstruction_c) : Mach unit :=
  if nz (as32L i) then repeat i STOSD32_YdEAX else repeat i STOSD16_YdEAX.
Definition REP_LODSB_ALXb (i : bxInstruction_c) : Mach unit :=
  if nz (as32L i) then repeat i LODSB32_ALXb else repeat i LODSB16_ALXb.
Definition REP_LODSW_AXXw (i : bxInstruction_c) : Mach unit :=
  if nz (as32L i) then repeat i LODSW32_AXXw else repeat i LODSW16_AXXw.
Definition REP_LODSD_EAXXd (i : bxInstruction_c) : Mach unit :=
  if nz (as32L i) then repeat i LODSD32_EAXXd else repeat i LODSD16_EAXXd.

(** ** The instructions

    [w] is the width of an element, [aw] that of the index registers. *)
Definition string_step (w aw : Z) (df v : Z) : Z := if nz df then wrap aw (v - w / 8) else wrap aw (v + w / 8).

Definition ref_movs (w aw : Z) (i : bxInstruction_c) : Mach unit :=
  si ← read_reg aw 6;
  di ← read_reg aw 7;
  v ← read_mem w (i_seg i) si;
  write_mem w BX_SEG_REG_ES di v;;
  df ← gets get_DF;
  write_reg aw 6 (string_step w aw df si);;
  write_reg aw 7 (string_step w aw df di).
Definition ref_cmps (w aw : Z) (i : bxInstruction_c) : Mach unit :=
  si ← read_reg aw 6;
  di ← read_reg aw 7;
  a ← read_mem w (i_seg i) si;
  b ← read_mem w BX_SEG_REG_ES di;
  write_arith_flags (sub_flags w a b 0);;
  df ← gets get_DF;
  write_reg aw 7 (string_step w aw df di);;
  write_reg aw 6 (string_step w aw df si).
Definition ref_scas (w aw : Z) (i : bxInstruction_c) : Mach unit :=
  a ← read_reg w 0;
  di ← read_reg aw 7;
  b ← read_mem w BX_SEG_REG_ES di;
  write_arith_flags (sub_flags w a b 0);;
  df ← gets get_DF;
  write_reg aw 7 (string_step w aw df di).
Definition ref_stos (w aw : Z) (i : bxInstruction_c) : Mach unit :=
  di ← read_reg aw 7;
  a ← read_reg w 0;
  write_mem w BX_SEG_REG_ES di a;;
  df ← gets get_DF;
  write_reg aw 7 (string_step w aw df di).
Definition ref_lods (w aw : Z) (i : bxInstruction_c) : Mach unit :=
  si ← read_reg aw 6;
  v ← read_mem w (i_seg i) si;
  write_reg w 0 v;;
  df ← gets get_DF;
  write_reg aw 6 (string_step w aw df si).

Definition string_table : list (handler * handler) :=
  [(MOVSB16_XbYb, ref_movs 8 16); (MOVSB32_XbYb, ref_movs 8 32); (MOVSW16_XwYw, ref_movs 16 16);
   (MOVSW32_XwYw, ref_movs 16 32); (MOVSD16_XdYd, ref_movs 32 16); (MOVSD32_XdYd, ref_movs 32 32);
   (CMPSB16_XbYb, ref_cmps 8 16); (CMPSB32_XbYb, ref_cmps 8 32); (CMPSW16_XwYw, ref_cmps 16 16);
   (CMPSW32_XwYw, ref_cmps 16 32); (CMPSD16_XdYd, ref_cmps 32 16); (CMPSD32_XdYd, ref_cmps 32 32);
   (SCASB16_ALXb, ref_scas 8 16); (SCASB32_ALXb, ref_scas 8 32); (SCASW16_AXXw, ref_scas 16 16);
   (SCASW32_AXXw, ref_scas 16 32); (SCASD16_EAXXd, ref_scas 32 16); (SCASD32_EAXXd, ref_scas 32 32);
   (STOSB16_YbAL, ref_stos 8 16); (STOSB32_YbAL, ref_stos 8 32); (STOSW16_YwAX, ref_stos 16 16);
   (STOSW32_YwAX, ref_stos 16 32); (STOSD16_YdEAX, ref_stos 32 16); (STOSD32_YdEAX, ref_stos 32 32);
   (LODSB16_ALXb, ref_lods 8 16); (LODSB32_ALXb, ref_lods 8 32); (LODSW16_AXXw, ref_lods 16 16);
   (LODSW32_AXXw, ref_lods 16 32); (LODSD16_EAXXd, ref_lods 32 16); (LODSD32_EAXXd, ref_lods 32 32)].

(** *** One iteration implements its instruction *)

Ltac string_unfold :=
  cbv beta iota zeta delta [ref_movs ref_cmps ref_scas ref_stos ref_lods string_step
    read_reg write_reg read_mem write_mem];
  change (8 / 8) with 1; change (16 / 8) with 2; change (32 / 8) with 4; unfold_widths.
Ltac string_open :=
  intros i; cbn [fst snd]; match goal with |- refines (?h _) _ => unfold h end; string_unfold.

(** MOVSB looks at the index registers again after each access, which does not
    change them. *)
Definition reg_of (aw n : Z) (g : list Z) : Z := wrap aw (nth (Z.to_nat n) g 0).

Section MovsByte.
Context (aw : Z) (Haw : aw = 16 \/ aw = 32).

Lemma read_reg_of n s : read_reg aw n s = Ret (reg_of aw n (gen_reg s)) s.
Proof. destruct Haw as [-> | ->]; reflexivity. Qed.
Lemma read_after_write {A} n k v (f : Z -> Mach A) s :
  Z.to_nat n <> Z.to_nat k ->
  (write_reg aw n v;; x ← read_reg aw k; f x) s = (write_reg aw n v;; f (reg_of aw k (gen_reg s))) s.
Proof.
  intros H. assert (exists x, write_reg aw n v s = Ret tt (set_reg n x s)) as [x E].
  { destruct Haw as [-> | ->]; eexists; reflexivity. }
  unfold mbind, M_bind. rewrite E, read_reg_of. unfold reg_of, set_reg. msimpl.
  by rewrite !nth_lookup, list_lookup_insert_ne.
Qed.

Definition movs_byte (i : bxInstruction_c) : Mach unit :=
  si ← read_reg aw 6; v ← read_virtual_32 1 (i_seg i) si;
  di ← read_reg aw 7; write_virtual_32 1 BX_SEG_REG_ES di v;;
  df ← gets get_DF;
  if nz df then
    si ← read_reg aw 6; write_reg aw 6 (wrap aw (si - 1));;
    di ← read_reg aw 7; write_reg aw 7 (wrap aw (di - 1))
  else
    si ← read_reg aw 6; write_reg aw 6 (wrap aw (si + 1));;
    di ← read_reg aw 7; write_reg aw 7 (wrap aw (di + 1)).

Lemma bind_read_reg {A} n (f : Z -> Mach A) s :
  (x ← read_reg aw n; f x) s = f (reg_of aw n (gen_reg s)) s.
Proof. unfold mbind, M_bind. by rewrite read_reg_of. Qed.
Lemma bind_regless {A B} (m : Mach A) (k k' : A -> Mach B) s :
  regless m -> (forall a s', gen_reg s' = gen_reg s -> k a s' = k' a s') -> (m ≫= k) s = (m ≫= k') s.
Proof.
  intros Hm Hk. pose proof (regless_gen_reg m s Hm) as H. unfold mbind, M_bind.
  destruct (m s) as [a s'| |]; [by apply Hk|done|done].
Qed.

Lemma movs_byte_eq i s : movs_byte i s = ref_movs 8 aw i s.
Proof.
  unfold movs_byte, ref_movs, string_step. change (8 / 8) with 1. cbv [read_mem write_mem]. unfold_widths.
  rewrite !bind_read_reg. apply bind_regless; [apply read_virtual_32_regless|]. intros v s1 H1.
  rewrite bind_read_reg, H1. apply bind_regless; [apply write_virtual_32_regless|]. intros [] s2 H2.
  rewrite !(bind_gets get_DF). destruct (nz _); rewrite bind_read_reg, (read_after_write 6 7), H2, H1 by done; done.
Qed.
End MovsByte.

Lemma MOVSB16_implements : implements (MOVSB16_XbYb, ref_movs 8 16).
Proof.
  assert (forall i, refines (ref_movs 8 16 i) (ref_movs 8 16 i)) as H.
  { intros i. string_unfold. repeat handler_step. }
  intros i s. cbn [fst snd]. rewrite <-(H i s). f_equal. apply (movs_byte_eq 16). by left.
Qed.
Lemma MOVSB32_implements : implements (MOVSB32_XbYb, ref_movs 8 32).
Proof.
  assert (forall i, refines (ref_movs 8 32 i) (ref_movs 8 32 i)) as H.
  { intros i. string_unfold. repeat handler_step. }
  intros i s. cbn [fst snd]. rewrite <-(H i s). f_equal. apply (movs_byte_eq 32). by right.
Qed.
#[local] Hint Resolve MOVSB16_implements MOVSB32_implements : implements.

Lemma string_implements : Forall implements string_table.
Proof. table_tac ltac:(first [solve [eauto 1 with implements] | string_open; repeat handler_step]). Qed.
Lemma string_keeps_wf : Forall keeps_wf string_table.
Proof. table_tac wf_handler. Qed.
Lemma string_is_precise : Forall is_precise string_table.
Proof. table_tac precise_handler. Qed.
Lemma string_refs_steady : Forall steady_row string_table.
Proof.
  table_tac ltac:(intros i; cbn [snd]; unfold ref_movs, ref_cmps, ref_scas, ref_stos, ref_lods; steady_tac).
Qed.
Lemma string_steady : Forall (fun p => forall i, steady (p.1 i)) string_table.
Proof.
  pose proof string_refs_steady as Hs. pose proof string_implements as Hi. rewrite Forall_forall in Hs, Hi |- *.
  intros p Hp i. eapply refines_steady; [by apply Hi|by apply Hs].
Qed.

(** *** The count survives an iteration *)

Definition count_of (i : bxInstruction_c) (s : machine) : Z :=
  reg_of (if nz (as32L i) then 32 else 16) 1 (gen_reg s).

Definition keeps_ECX {A} (m : Mach A) : Prop := forall c, preserves (fun s => reg 1 s = c) m.

Lemma regless_keeps_ECX {A} (m : Mach A) : regless m -> keeps_ECX m.
Proof.
  intros Hm c s Hs. pose proof (regless_gen_reg m s Hm) as H. unfold reg in *.
  destruct (m s); [by rewrite H..|done].
Qed.
Lemma read_mem_keeps_ECX w n o : keeps_ECX (read_mem w n o).
Proof. apply regless_keeps_ECX. unfold read_mem. unfold_widths. regless_tac. Qed.
Lemma write_mem_keeps_ECX w n o v : keeps_ECX (write_mem w n o v).
Proof. apply regless_keeps_ECX. unfold write_mem. unfold_widths. regless_tac. Qed.
Lemma set_reg_other n v s : Z.to_nat n <> 1%nat -> reg 1 (set_reg n v s) = reg 1 s.
Proof. intros. unfold reg, set_reg. msimpl. by rewrite !nth_lookup, list_lookup_insert_ne. Qed.
Lemma write_acc_keeps_ECX w v : keeps_ECX (write_reg w 0 v).
Proof.
  intros c. unfold write_reg. repeat case_match; apply preserves_modify; intros s <-; by apply set_reg_other.
Qed.
Lemma write_index_keeps_ECX aw n v :
  aw = 16 \/ aw = 32 -> n = 6 \/ n = 7 -> keeps_ECX (write_reg aw n v).
Proof.
  intros [-> | ->] Hn c; apply preserves_modify; intros s <-; apply set_reg_other; by destruct Hn as [-> | ->].
Qed.
Lemma write_arith_flags_keeps_ECX fl : keeps_ECX (write_arith_flags fl).
Proof. intros c. by apply preserves_modify. Qed.
Lemma read_reg_keeps_ECX w n : keeps_ECX (read_reg w n).
Proof. intros c. unfold read_reg, BX_READ_8BIT_REGx. repeat case_match; apply preserves_gets. Qed.
Lemma gets_keeps_ECX {A} (f : machine -> A) : keeps_ECX (gets f).
Proof. intros c. apply preserves_gets. Qed.
Lemma bind_keeps_ECX {A B} (m : Mach A) (k : A -> Mach B) :
  keeps_ECX m -> (forall a, keeps_ECX (k a)) -> keeps_ECX (m ≫= k).
Proof. intros Hm Hk c. apply preserves_bind; [apply Hm|]. intros a. apply Hk. Qed.

Create HintDb keeps_ECX discriminated.
#[local] Hint Resolve read_mem_keeps_ECX write_mem_keeps_ECX write_acc_keeps_ECX write_index_keeps_ECX
  write_arith_flags_keeps_ECX read_reg_keeps_ECX gets_keeps_ECX : keeps_ECX.
#[local] Hint Extern 1 (_ \/ _) => first [left; reflexivity | right; reflexivity] : keeps_ECX.

Lemma refines_keeps_ECX {A} (m m' : Mach A) : refines m m' -> keeps_ECX m' -> keeps_ECX m.
Proof.
  intros Hr Hk c s Hs. specialize (Hr s). specialize (Hk c (norm s) Hs). rewrite <-Hr in Hk. by destruct (m s).
Qed.
Lemma string_refs_keep_ECX : Forall (fun p => forall i, keeps_ECX (p.2 i)) string_table.
Proof.
  table_tac ltac:(intros i; cbn [snd]; unfold ref_movs, ref_cmps, ref_scas, ref_stos, ref_lods;
    repeat match goal with |- keeps_ECX (mbind _ _) => apply bind_keeps_ECX; [|intros ?] | |- _ => solve [eauto with keeps_ECX] end).
Qed.
Lemma string_keeps_ECX : Forall (fun p => forall i, keeps_ECX (p.1 i)) string_table.
Proof.
  pose proof string_refs_keep_ECX as Hs. pose proof string_implements as Hi. rewrite Forall_forall in Hs, Hi |- *.
  intros p Hp i. eapply refines_keeps_ECX; [by apply Hi|by apply Hs].
Qed.

(** *** The loop *)

Section Loop.
Context (i : bxInstruction_c) (stop : machine -> bool) (execute : handler).
Context (Hwf : preserves wf (execute i)) (Hkeep : keeps_ECX (execute i)).

Lemma rep_count_eq s : rep_count i s = Ret (count_of i s) s.
Proof. unfold rep_count, count_of. by destruct (nz (as32L i)). Qed.
Lemma count_of_range s : 0 <= count_of i s.
Proof. unfold count_of, reg_of. by destruct (nz (as32L i)); apply wrap_range. Qed.

(** One iteration, and one turn of the loop: [Some] when it is left. *)
Definition rep_iteration : Mach unit := execute i;; c ← rep_count i; set_rep_count i (c - 1).
Definition rep_turn : Mach (option bool) :=
  c ← rep_count i;
  when (negb (c =? 0)) rep_iteration;;
  stopped ← gets stop;
  c ← rep_count i;
  if stopped || (c =? 0) then mret (Some true) else
  async ← gets async_event;
  if nz async then mret (Some false) else mret None.

Lemma rep_loop_S fuel s :
  rep_loop (S fuel) (rep_count i) (set_rep_count i) stop (execute i) s =
  (o ← rep_turn;
   match o with Some b => mret b | None => rep_loop fuel (rep_count i) (set_rep_count i) stop (execute i) end) s.
Proof.
  cbn [rep_loop]. unfold rep_turn, rep_iteration. unfold mbind, M_bind. rewrite !rep_count_eq.
  destruct (when (negb (count_of i s =? 0)) _ s) as [[] s1| |]; [|done|done].
  unfold gets. rewrite !rep_count_eq. destruct (stop s1 || _); [done|]. by destruct (nz (async_event s1)).
Qed.

(** An iteration takes one from a count that is not zero. *)
Lemma set_rep_count_ok v s :
  wf s -> exists s', set_rep_count i v s = Ret tt s' /\ wf s' /\
    count_of i s' = wrap (if nz (as32L i) then 32 else 16) v.
Proof.
  intros Hw. assert (preserves wf (set_rep_count i v)) as Hp.
  { unfold set_rep_count. wf_tac. }
  specialize (Hp s Hw). destruct Hw as [[Hl _] _]. unfold set_rep_count, count_of, reg_of in *.
  assert (forall x, nth 1 (<[1%nat := x]> (gen_reg s)) 0 = x) as Hn.
  { intros x. apply nth_lookup_Some, list_lookup_insert_eq. lia. }
  destruct (nz (as32L i)); eexists; (split; [reflexivity|]); (split; [exact Hp|]); unfold set_reg; msimpl;
    change (Z.to_nat 1) with 1%nat; rewrite Hn.
  - unfold put_erx. by rewrite !wrap_wrap by lia.
  - rewrite put_rx_low. by rewrite !wrap_wrap by lia.
Qed.
Lemma rep_iteration_ok s :
  wf s -> 0 < count_of i s ->
  match rep_iteration s with
  | Ret _ s' => wf s' /\ count_of i s' = count_of i s - 1
  | Fault v e s' => execute i s = Fault v e s' /\ wf s'
  | Crash => True
  end.
Proof.
  intros Hw Hc. pose proof (Hwf s Hw) as H1. pose proof (Hkeep _ s eq_refl) as H2.
  unfold rep_iteration, mbind, M_bind. destruct (execute i s) as [[] s1|v e s1|]; [|done|done].
  assert (count_of i s1 = count_of i s) as E by (unfold count_of, reg_of, reg in *; by rewrite H2).
  rewrite rep_count_eq, E. destruct (set_rep_count_ok (count_of i s - 1) s1 H1) as (s2 & -> & Hw2 & ->).
  split; [done|]. apply wrap_small. unfold count_of, reg_of in *.
  destruct (nz (as32L i)); pose proof (wrap_range 32 (nth (Z.to_nat 1) (gen_reg s) 0));
    pose proof (wrap_range 16 (nth (Z.to_nat 1) (gen_reg s) 0)); lia.
Qed.

(** The turns after which the loop goes on. *)
Inductive rep_turns : nat -> machine -> machine -> Prop :=
  | rep_turns_none s : rep_turns 0 s s
  | rep_turns_more k s s1 s2 :
      rep_iteration s = Ret tt s1 -> stop s1 = false -> async_event s1 = 0 -> 0 < count_of i s1 ->
      rep_turns k s1 s2 -> rep_turns (S k) s s2.

(** The last turn: nothing is left to do, or an iteration that faults or after
    which the loop is left; the result says whether the instruction is done. *)
Definition rep_end : Mach bool :=
  c ← gets (count_of i);
  if c =? 0 then mret true else
  rep_iteration;;
  gets (fun s => stop s || (count_of i s =? 0)).

(** Why the loop is left. *)
Definition rep_left (o : outcome machine bool) : Prop :=
  match o with
  | Ret true s => stop s = true \/ count_of i s = 0
  | Ret false s => async_event s <> 0
  | _ => True
  end.

Lemma rep_turn_zero s : count_of i s = 0 -> rep_turn s = Ret (Some true) s.
Proof.
  intros E. unfold rep_turn, mbind, M_bind. rewrite rep_count_eq, E. cbn [Z.eqb negb when].
  unfold gets, mret, M_ret. by rewrite rep_count_eq, E, orb_true_r.
Qed.
Lemma rep_turn_more s :
  count_of i s <> 0 ->
  rep_turn s =
    match rep_iteration s with
    | Ret _ s1 =>
        Ret (if stop s1 || (count_of i s1 =? 0) then Some true
             else if nz (async_event s1) then Some false else None) s1
    | Fault v e s1 => Fault v e s1
    | Crash => Crash
    end.
Proof.
  intros E%Z.eqb_neq. unfold rep_turn, mbind, M_bind. rewrite rep_count_eq, E. cbn [negb when].
  destruct (rep_iteration s) as [[] s1| |]; [|done|done]. unfold gets. rewrite rep_count_eq.
  destruct (_ || _); [done|]. by destruct (nz _).
Qed.

Lemma rep_loop_ends fuel s :
  wf s -> count_of i s < Z.of_nat fuel ->
  exists k s0, rep_turns k s s0 /\ wf s0 /\ count_of i s0 = count_of i s - Z.of_nat k /\
    rep_loop fuel (rep_count i) (set_rep_count i) stop (execute i) s = rep_end s0 /\ rep_left (rep_end s0).
Proof.
  revert s. induction fuel as [|fuel IH]; intros s Hw Hc; [pose proof (count_of_range s); lia|].
  rewrite rep_loop_S. unfold mbind, M_bind. destruct (Z.eq_dec (count_of i s) 0) as [E|E].
  { exists 0%nat, s. rewrite rep_turn_zero by done. split_and!; [constructor|done|lia|..];
      unfold rep_end; rewrite bind_gets, E; [done|by right]. }
  rewrite rep_turn_more by done. pose proof (count_of_range s).
  pose proof (rep_iteration_ok s Hw ltac:(lia)) as Hi.
  assert (rep_end s = (rep_iteration;; gets (fun s => stop s || (count_of i s =? 0))) s) as Ee.
  { unfold rep_end. rewrite bind_gets. by apply Z.eqb_neq in E as ->. }
  unfold mbind, M_bind, gets in Ee.
  destruct (rep_iteration s) as [[] s1|v e s1|] eqn:Er;
    [|exists 0%nat, s; rewrite Ee; split_and!; [constructor|done|lia|done|done]..].
  destruct Hi as [Hw1 Hc1]. destruct (stop s1 || (count_of i s1 =? 0)) eqn:Es.
  { exists 0%nat, s. rewrite Ee. split_and!; [constructor|done|lia|done|].
    apply orb_true_iff in Es as [Es|Es%Z.eqb_eq]; [by left|by right]. }
  apply orb_false_iff in Es as [Es Ez%Z.eqb_neq]. destruct (nz (async_event s1)) eqn:Ea.
  { exists 0%nat, s. rewrite Ee. split_and!; [constructor|done|lia|done|]. by apply negb_true_iff, Z.eqb_neq in Ea. }
  destruct (IH s1 Hw1 ltac:(lia)) as (k & s0 & Ht & Hw0 & Hc0 & Hl & He).
  exists (S k), s0. split_and!; [|done|lia|done|done].
  apply rep_turns_more with s1; [done|done|by apply negb_false_iff, Z.eqb_eq in Ea|pose proof (count_of_range s1); lia|done].
Qed.

Lemma rep_end_count s :
  wf s ->
  match rep_end s with
  | Ret false s' => 0 < count_of i s' < count_of i s
  | Fault v e s' => execute i s = Fault v e s'
  | _ => True
  end.
Proof.
  intros Hw. pose proof (count_of_range s). unfold rep_end. rewrite bind_gets.
  destruct (Z.eqb_spec (count_of i s) 0) as [E|E]; [done|].
  pose proof (rep_iteration_ok s Hw ltac:(lia)) as Hi. unfold mbind, M_bind, gets.
  destruct (rep_iteration s) as [[] s1|v e s1|]; [|by destruct Hi|done].
  destruct (Z.eqb_spec (count_of i s1) 0); [by rewrite orb_true_r|]. pose proof (count_of_range s1).
  destruct (stop s1); [done|]. cbn [orb]. lia.
Qed.
End Loop.

(** *** Repeated instructions *)

Lemma preserves_steady {A} (m : Mach A) : (forall c, preserves (fun s => control s = c) m) -> steady m.
Proof. intros H s. apply (H _ s eq_refl). Qed.
Lemma steady_preserves {A} (m : Mach A) c : steady m -> preserves (fun s => control s = c) m.
Proof. intros H s <-. apply H. Qed.

Section Rep.
Context (i : bxInstruction_c) (stop : machine -> bool).

Lemma rep_count_refines : refines (rep_count i) (rep_count i).
Proof. unfold rep_count. refines_tac. Qed.
Lemma set_rep_count_refines v : refines (set_rep_count i v) (set_rep_count i v).
Proof. unfold set_rep_count. refines_tac. Qed.
Hint Resolve rep_count_refines set_rep_count_refines : refines.

Lemma rep_loop_refines fuel (m m' : Mach unit) :
  (forall s, stop s = stop (norm s)) -> refines m m' ->
  refines (rep_loop fuel (rep_count i) (set_rep_count i) stop m)
    (rep_loop fuel (rep_count i) (set_rep_count i) stop m').
Proof.
  intros Hs Hm. induction fuel as [|fuel IH]; cbn [rep_loop]; [apply refines_crash|].
  refines_tac. by apply refines_gets.
Qed.
Lemma rep_iterate_refines (h r : handler) :
  (forall s, stop s = stop (norm s)) -> refines (h i) (r i) ->
  refines (rep_iterate i stop h) (rep_iterate i stop r).
Proof.
  intros Hs Hm. pose proof (fun n => rep_loop_refines n _ _ Hs Hm). unfold rep_iterate, set_EIP. refines_tac.
Qed.

Lemma rep_count_preserves I : preserves I (rep_count i).
Proof. unfold rep_count. destruct (nz _); apply preserves_gets. Qed.
Lemma rep_loop_preserves I fuel (m : Mach unit) :
  preserves I m -> (forall v, preserves I (set_rep_count i v)) ->
  preserves I (rep_loop fuel (rep_count i) (set_rep_count i) stop m).
Proof.
  intros Hm Hv. pose proof (rep_count_preserves I). induction fuel as [|fuel IH]; cbn [rep_loop]; preserves_tac.
Qed.
Lemma rep_iterate_preserves I (h : handler) :
  preserves I (h i) -> (forall v, preserves I (set_rep_count i v)) -> (forall v, preserves I (set_EIP v)) ->
  preserves I (rep_iterate i stop h).
Proof.
  intros Hm Hv He. pose proof (rep_count_preserves I). pose proof (fun n => rep_loop_preserves I n _ Hm Hv).
  unfold rep_iterate. preserves_tac.
Qed.
Lemma rep_iterate_steady (h : handler) : steady (h i) -> steady (rep_iterate i stop h).
Proof.
  intros Hm. assert (forall v, steady (set_rep_count i v)) as Hv by (intros v; unfold set_rep_count; steady_tac).
  assert (forall v, steady (set_EIP v)) as He by (intros v; steady_tac).
  apply preserves_steady. intros c. by apply rep_iterate_preserves; auto using steady_preserves.
Qed.
End Rep.

Section Repeat.
Context (rep : bxInstruction_c -> handler -> Mach unit) (Hrep : rep = repeat \/ rep = repeat_ZF).

Lemma repeat_refines i (h r : handler) : refines (h i) (r i) -> refines (rep i h) (rep i r).
Proof.
  intros H. assert (forall s, nz (get_flag ZF s) = nz (get_flag ZF (norm s))) as Hz.
  { intros s. by rewrite !get_flag_flag, flag_norm. }
  destruct Hrep as [-> | ->]; unfold repeat, repeat_ZF; repeat case_match; try done;
    apply rep_iterate_refines; try done; intros s; by rewrite Hz.
Qed.
Lemma repeat_preserves I i (h : handler) :
  preserves I (h i) -> (forall v, preserves I (set_rep_count i v)) -> (forall v, preserves I (set_EIP v)) ->
  preserves I (rep i h).
Proof.
  intros. destruct Hrep as [-> | ->]; unfold repeat, repeat_ZF; repeat case_match; try done;
    by apply rep_iterate_preserves.
Qed.
Lemma repeat_wf i (h : handler) : preserves wf (h i) -> preserves wf (rep i h).
Proof.
  intros H. apply repeat_preserves; [done|intros v; unfold set_rep_count; wf_tac..].
Qed.
Lemma repeat_steady i (h : handler) : steady (h i) -> steady (rep i h).
Proof.
  intros. destruct Hrep as [-> | ->]; unfold repeat, repeat_ZF; repeat case_match; try done;
    by apply rep_iterate_steady.
Qed.
End Repeat.

(** An instruction with its repeat prefix: the address size chooses the registers. *)
Definition ref_rep (rep : bxInstruction_c -> handler -> Mach unit) (r : Z -> handler) (i : bxInstruction_c) : Mach unit :=
  rep i (r (if nz (as32L i) then 32 else 16)).

Definition rep_table : list (handler * handler) :=
  [(REP_MOVSB_XbYb, ref_rep repeat (ref_movs 8)); (REP_MOVSW_XwYw, ref_rep repeat (ref_movs 16));
   (REP_MOVSD_XdYd, ref_rep repeat (ref_movs 32)); (REP_CMPSB_XbYb, ref_rep repeat_ZF (ref_cmps 8));
   (REP_CMPSW_XwYw, ref_rep repeat_ZF (ref_cmps 16)); (REP_CMPSD_XdYd, ref_rep repeat_ZF (ref_cmps 32));
   (REP_SCASB_ALXb, ref_rep repeat_ZF (ref_scas 8)); (REP_SCASW_AXXw, ref_rep repeat_ZF (ref_scas 16));
   (REP_SCASD_EAXXd, ref_rep repeat_ZF (ref_scas 32)); (REP_STOSB_YbAL, ref_rep repeat (ref_stos 8));
   (REP_STOSW_YwAX, ref_rep repeat (ref_stos 16)); (REP_STOSD_YdEAX, ref_rep repeat (ref_stos 32));
   (REP_LODSB_ALXb, ref_rep repeat (ref_lods 8)); (REP_LODSW_AXXw, ref_rep repeat (ref_lods 16));
   (REP_LODSD_EAXXd, ref_rep repeat (ref_lods 32))].

(** Every row runs two rows of [string_table], one for each address size. *)
Definition repeats (p : handler * handler) : Prop :=
  exists rep h16 h32 r, (rep = repeat \/ rep = repeat_ZF) /\
    (h16, r 16) ∈ string_table /\ (h32, r 32) ∈ string_table /\
    p.2 = ref_rep rep r /\ forall i, p.1 i = rep i (if nz (as32L i) then h32 else h16).

Lemma repeats_intro rep h16 h32 r h :
  (forall i, h i = rep i (if nz (as32L i) then h32 else h16)) -> (rep = repeat \/ rep = repeat_ZF) ->
  (h16, r 16) ∈ string_table -> (h32, r 32) ∈ string_table -> repeats (h, ref_rep rep r).
Proof. intros. by exists rep, h16, h32, r. Qed.
Ltac find_row :=
  cbv beta; unfold string_table;
  repeat match goal with
  | |- (?h, _) ∈ (?h, _) :: _ => left
  | |- _ ∈ _ :: _ => right
  end.
Lemma rep_rows : Forall repeats rep_table.
Proof.
  table_tac ltac:(eapply repeats_intro;
    [intros i; match goal with |- ?h i = _ => unfold h end; destruct (nz (as32L i)); reflexivity
    |first [left; reflexivity|right; reflexivity]|find_row|find_row]).
Qed.
Lemma string_row p : p ∈ string_table ->
  implements p /\ keeps_wf p /\ is_precise p /\ (forall i, steady (p.1 i)) /\ (forall i, keeps_ECX (p.1 i)).
Proof.
  pose proof string_implements as H1. pose proof string_keeps_wf as H2. pose proof string_is_precise as H3.
  pose proof string_steady as H4. pose proof string_keeps_ECX as H5. rewrite Forall_forall in *.
  intros Hp. split_and!; [exact (H1 p Hp)|exact (H2 p Hp)|exact (H3 p Hp)|exact (H4 p Hp)|exact (H5 p Hp)].
Qed.
Lemma rep_implements : Forall implements rep_table.
Proof.
  eapply Forall_impl; [exact rep_rows|]. intros [h r'] (rep & h16 & h32 & r & Hr & H1 & H2 & E1 & E2) i.
  cbn [fst snd] in *. rewrite E1, E2. unfold ref_rep. apply string_row in H1 as [H1 _], H2 as [H2 _].
  destruct (nz (as32L i)); by apply repeat_refines.
Qed.
Lemma rep_keeps_wf : Forall keeps_wf rep_table.
Proof.
  eapply Forall_impl; [exact rep_rows|]. intros [h r'] (rep & h16 & h32 & r & Hr & H1 & H2 & _ & E2) i.
  cbn [fst snd] in *. rewrite E2. apply string_row in H1 as (_ & H1 & _), H2 as (_ & H2 & _).
  destruct (nz (as32L i)); by apply repeat_wf.
Qed.
Lemma rep_steady : Forall (fun p => forall i, steady (p.1 i)) rep_table.
Proof.
  eapply Forall_impl; [exact rep_rows|]. intros [h r'] (rep & h16 & h32 & r & Hr & H1 & H2 & _ & E2) i.
  cbn [fst snd] in *. rewrite E2. apply string_row in H1 as (_ & _ & _ & H1 & _), H2 as (_ & _ & _ & H2 & _).
  destruct (nz (as32L i)); by apply repeat_steady.
Qed.

Lemma string_contracts : Forall contract (string_table ++ rep_table).
Proof.
  apply plain_contracts; apply Forall_app_2; auto using string_implements, rep_implements, string_keeps_wf,
    rep_keeps_wf, string_steady, rep_steady.
Qed.
Lemma string_restarts : Forall restarts string_table.
Proof. apply plain_restarts; [apply string_is_precise|apply string_steady]. Qed.

(** Where a repeated instruction faults. *)
Lemma rep_iterate_faults i stop (h : handler) s v e s' :
  preserves wf (h i) -> keeps_ECX (h i) -> wf s -> rep_iterate i stop h s = Fault v e s' ->
  exists k s0, rep_turns i stop h k s s0 /\ h i s0 = Fault v e s'.
Proof.
  intros Hwf Hk Hw. pose proof (count_of_range i s) as Hc.
  destruct (rep_loop_ends i stop h Hwf Hk (S (Z.to_nat (count_of i s))) s Hw ltac:(lia))
    as (k & s0 & Ht & Hw0 & Hc0 & Hl & He).
  pose proof (rep_end_count i stop h Hwf Hk s0 Hw0) as Hend.
  unfold rep_iterate. rewrite (bind_Ret _ _ _ _ _ (rep_count_eq i s)). unfold mbind, M_bind. rewrite Hl.
  destruct (rep_end i stop h s0) as [[] s1|v1 e1 s1|]; [done|done| |done].
  intros (-> & -> & ->)%Fault_inj. by exists k, s0.
Qed.
Lemma rep_faults p i s v e s' :
  p ∈ rep_table -> wf s -> p.1 i s = Fault v e s' ->
  exists h r stop k s0, (h, r) ∈ string_table /\ rep_turns i stop h k s s0 /\ h i s0 = Fault v e s'.
Proof.
  intros Hp Hw. pose proof rep_rows as H. rewrite Forall_forall in H.
  destruct (H p Hp) as (rep & h16 & h32 & r & Hr & H1 & H2 & _ & ->).
  set (h := if nz (as32L i) then h32 else h16).
  assert (exists r', (h, r') ∈ string_table) as [r' Hs].
  { unfold h. destruct (nz (as32L i)); eexists; [exact H2|exact H1]. }
  pose proof (string_row _ Hs) as (_ & Hwf & _ & _ & Hk). specialize (Hwf i). specialize (Hk i). cbn [fst] in Hwf, Hk.
  assert (h i s = Fault v e s' -> exists k s0, rep_turns i (fun _ => false) h k s s0 /\ h i s0 = Fault v e s') as H0.
  { intros E. exists 0%nat, s. split; [constructor|done]. }
  intros E. assert (exists stop k s0, rep_turns i stop h k s s0 /\ h i s0 = Fault v e s') as (stop & k & s0 & Ht & Hf).
  { destruct Hr as [-> | ->]; unfold repeat, repeat_ZF in E; repeat case_match; eexists;
      solve [by apply H0 | by apply rep_iterate_faults]. }
  by exists h, r', stop, k, s0.
Qed.

(** C15: a repeated string instruction always ends.  From a well-formed state the
    loop does some whole iterations after which it goes on (the stop condition
    false, no event pending, the count not yet zero), each taking one from the
    count, and a last turn: there is nothing to do because the count is zero; or
    an iteration raises an exception; or after the iteration the stop condition
    holds or the count is zero, and the instruction is done; or an asynchronous
    event is pending, and EIP goes back to the instruction with a count that is
    smaller than at the beginning, so that it gets done sooner or later. *)
Theorem rep_iterate_ends p i stop s :
  p ∈ string_table -> wf s ->
  exists k s0, rep_turns i stop p.1 k s s0 /\ count_of i s0 = count_of i s - Z.of_nat k /\
    rep_left i stop (rep_end i stop p.1 s0) /\
    match rep_end i stop p.1 s0 with
    | Ret true s' => rep_iterate i stop p.1 s = Ret tt s'
    | Ret false s' =>
        rep_iterate i stop p.1 s = set_EIP (prev_rip s') s' /\ 0 < count_of i s' < count_of i s
    | Fault v e s' => rep_iterate i stop p.1 s = Fault v e s' /\ p.1 i s0 = Fault v e s' /\ arch s' = arch s0
    | Crash => rep_iterate i stop p.1 s = Crash
    end.
Proof.
  intros Hp Hw. apply string_row in Hp as (_ & Hwf & Hpr & _ & Hk).
  pose proof (count_of_range i s) as Hc.
  destruct (rep_loop_ends i stop p.1 (Hwf i) (Hk i) (S (Z.to_nat (count_of i s))) s Hw ltac:(lia))
    as (k & s0 & Ht & Hw0 & Hc0 & Hl & He).
  exists k, s0. split_and!; [done|done|done|].
  pose proof (rep_end_count i stop p.1 (Hwf i) (Hk i) s0 Hw0) as Hend.
  unfold rep_iterate. rewrite (bind_Ret _ _ _ _ _ (rep_count_eq i s)). unfold mbind, M_bind. rewrite Hl.
  destruct (rep_end i stop p.1 s0) as [[] s'|v e s'|]; cbn [negb when].
  - done.
  - split; [reflexivity|lia].
  - split_and!; [done|done|]. by apply (Hpr i s0 v e s').
  - done.
Qed.

(** STOSB with ECX = 3. *)
Lemma rep_iterate_ends_witness :
  let i := mk_instruction Resolve32Base BX_IA_ERROR 2 (2 ^ 4 + 3) BX_SEG_REG_DS 0xaa 0 0 0 0 0 0xc0 0 0 in
  let s := set_reg 1 3 (set_reg 0 0x41 flat_machine) in
  exists k s0, rep_turns i (fun _ => false) STOSB32_YbAL k s s0 /\ count_of i s0 = 3 - Z.of_nat k.
Proof.
  intros i s. destruct (rep_iterate_ends (STOSB32_YbAL, ref_stos 8 32) i (fun _ => false) s) as (k & s0 & Ht & Hc & _);
    [find_row|apply set_reg_wf; [done|]; apply set_reg_wf; [done|apply flat_machine_wf]|].
  exists k, s0. split; [exact Ht|exact Hc].
Defined.
