(* ===== verification/PortIO.v ===== *)
(** * PortIO: port input and output

    cpu/io.cc (the build has no repeat speedups): IN, OUT, INS, OUTS, and
    [allow_io], which lets a program below the I/O privilege level use a port only
    if the permission map of its task says so.  In this configuration there are
    no devices: [BX_INP] is zero and [BX_OUTP] does nothing. *)
From stdpp Require Import base numbers list gmap.
From Stdlib Require Import ZArith Lia.
From S2P Require Import Prelude Opcodes Machine LazyFlags Memory Paging Access Regs Precise Reference Mode Segment SegLoad Frame.
From S2P Require Import Stack FlagCtrl CtrlPro Exception Delivery Contract Coherence Protect StringOps.

Local Open Scope Z_scope.

(** ** cpu/io.cc *)

Definition BX_INP : Z := 0.
Definition BX_OUTP : Mach unit := mret tt.

Definition allow_io (port len : Z) : Mach Z :=
  pe ← gets cr0_get_PE; vm ← gets get_VM; cpl ← gets CPL; iopl ← gets get_IOPL;
  if nz pe && (nz vm || (iopl <? cpl)) then
    tr_ ← gets tr;
    if (desc_valid (cache tr_) =? 0) ||
       (negb (desc_type (cache tr_) =? BX_SYS_SEGMENT_AVAIL_386_TSS) &&
        negb (desc_type (cache tr_) =? BX_SYS_SEGMENT_BUSY_386_TSS)) then mret 0 else
    if seg_limit_scaled (cache tr_) <? 103 then mret 0 else
    io_base ← system_read_word (u32 (seg_base (cache tr_) + 102));
    tr_ ← gets tr;
    if seg_limit_scaled (cache tr_) <=? u32 (io_base + port / 8) then mret 0 else
    permission16 ← system_read_word (u32 (seg_base (cache tr_) + io_base + port / 8));
    let bit_index := Z.land port 0x7 in
    let mask := Z.shiftl 1 len - 1 in
    if nz (Z.land (Z.shiftr permission16 bit_index) mask) then mret 0 else mret 1
  else mret 1.

(** [if (! allow_io(i, port, len)) exception(BX_GP_EXCEPTION, 0);] *)
Definition check_io (port len : Z) : Mach unit :=
  ok ← allow_io port len;
  when (ok =? 0) (exception BX_GP_EXCEPTION 0).

Definition IN_ALIb (i : bxInstruction_c) : Mach unit := check_io (Ib i) 1;; set_AL BX_INP.
Definition IN_AXIb (i : bxInstruction_c) : Mach unit := check_io (Ib i) 2;; set_AX BX_INP.
Definition IN_EAXIb (i : bxInstruction_c) : Mach unit := check_io (Ib i) 4;; set_EAX BX_INP.
Definition OUT_IbAL (i : bxInstruction_c) : Mach unit := check_io (Ib i) 1;; BX_OUTP.
Definition OUT_IbAX (i : bxInstruction_c) : Mach unit := check_io (Ib i) 2;; BX_OUTP.
Definition OUT_IbEAX (i : bxInstruction_c) : Mach unit := check_io (Ib i) 4;; BX_OUTP.
Definition IN_ALDX (i : bxInstruction_c) : Mach unit := port ← DX; check_io port 1;; set_AL BX_INP.
Definition IN_AXDX (i : bxInstruction_c) : Mach unit := port ← DX; check_io port 2;; set_AX BX_INP.
Definition IN_EAXDX (i : bxInstruction_c) : Mach unit := port ← DX; check_io port 4;; set_EAX BX_INP.
Definition OUT_DXAL (i : bxInstruction_c) : Mach unit := port ← DX; check_io port 1;; BX_OUTP.
Definition OUT_DXAX (i : bxInstruction_c) : Mach unit := port ← DX; check_io port 2;; BX_OUTP.
Definition OUT_DXEAX (i : bxInstruction_c) : Mach unit := port ← DX; check_io port 4;; BX_OUTP.

(** One iteration of INS: the destination is checked before the port is read. *)
Definition INSB16_YbDX (i : bxInstruction_c) : Mach unit :=
  di ← DI; _ ← read_RMW_virtual_byte_32 BX_SEG_REG_ES di;
  write_RMW_virtual_byte BX_INP;;
  df ← gets get_DF;
  if nz df then di ← DI; set_DI (u16 (di - 1)) else di ← DI; set_DI (u16 (di + 1)).
Definition INSB32_YbDX (i : bxInstruction_c) : Mach unit :=
  edi ← EDI; _ ← read_RMW_virtual_byte_32 BX_SEG_REG_ES edi;
  write_RMW_virtual_byte BX_INP;;
  df ← gets get_DF;
  if nz df then edi ← EDI; set_EDI (u32 (edi - 1)) else edi ← EDI; set_EDI (u32 (edi + 1)).
Definition INSW16_YwDX (i : bxInstruction_c) : Mach unit :=
  di ← DI; _ ← read_RMW_virtual_word_32 BX_SEG_REG_ES di;
  write_RMW_virtual_word BX_INP;;
  df ← gets get_DF;
  if nz df then di ← DI; set_DI (u16 (di - 2)) else di ← DI; set_DI (u16 (di + 2)).
Definition INSW32_YwDX (i : bxInstruction_c) : Mach unit :=
  edi ← EDI;
  let incr := 2 in
  _ ← read_RMW_virtual_word_32 BX_SEG_REG_ES edi;
  write_RMW_virtual_word BX_INP;;
  df ← gets get_DF;
  if nz df then edi ← EDI; set_EDI (u32 (edi - incr)) else edi ← EDI; set_EDI (u32 (edi + incr)).
Definition INSD16_YdDX (i : bxInstruction_c) : Mach unit :=
  di ← DI; _ ← read_RMW_virtual_dword_32 BX_SEG_REG_ES di;
  write_RMW_virtual_dword BX_INP;;
  df ← gets get_DF;
  if nz df then di ← DI; set_DI (u16 (di - 4)) else di ← DI; set_DI (u16 (di + 4)).
Definition INSD32_YdDX (i : bxInstruction_c) : Mach unit :=
  edi ← EDI; _ ← read_RMW_virtual_dword_32 BX_SEG_REG_ES edi;
  write_RMW_virtual_dword BX_INP;;
  df ← gets get_DF;
  if nz df then edi ← EDI; set_EDI (u32 (edi - 4)) else edi ← EDI; set_EDI (u32 (edi + 4)).

(** One iteration of OUTS. *)
Definition OUTSB16_DXXb (i : bxInstruction_c) : Mach unit :=
  si ← SI; _ ← read_virtual_byte_32 (i_seg i) si;
  BX_OUTP;;
  df ← gets get_DF;
  if nz df then si ← SI; set_SI (u16 (si - 1)) else si ← SI; set_SI (u16 (si + 1)).
Definition OUTSB32_DXXb (i : bxInstruction_c) : Mach unit :=
  esi ← ESI; _ ← read_virtual_byte_32 (i_seg i) esi;
  BX_OUTP;;
  df ← gets get_DF;
  if nz df then esi ← ESI; set_ESI (u32 (esi - 1)) else esi ← ESI; set_ESI (u32 (esi + 1)).
Definition OUTSW16_DXXw (i : bxInstruction_c) : Mach unit :=
  si ← SI; _ ← read_virtual_word_32 (i_seg i) si;
  BX_OUTP;;
  df ← gets get_DF;
  if nz df then si ← SI; set_SI (u16 (si - 2)) else si ← SI; set_SI (u16 (si + 2)).
Definition OUTSW32_DXXw (i : bxInstruction_c) : Mach unit :=
  esi ← ESI;
  let incr := 2 in
  _ ← read_virtual_word_32 (i_seg i) esi;
  BX_OUTP;;
  df ← gets get_DF;
  if nz df then esi ← ESI; set_ESI (u32 (esi - incr)) else esi ← ESI; set_ESI (u32 (esi + incr)).
Definition OUTSD16_DXXd (i : bxInstruction_c) : Mach unit :=
  si ← SI; _ ← read_virtual_dword_32 (i_seg i) si;
  BX_OUTP;;
  df ← gets get_DF;
  if nz df then si ← SI; set_SI (u16 (si - 4)) else si ← SI; set_SI (u16 (si + 4)).
Definition OUTSD32_DXXd (i : bxInstruction_c) : Mach unit :=
  esi ← ESI; _ ← read_virtual_dword_32 (i_seg i) esi;
  BX_OUTP;;
  df ← gets get_DF;
  if nz df then esi ← ESI; set_ESI (u32 (esi - 4)) else esi ← ESI; set_ESI (u32 (esi + 4)).

Definition REP_INSB_YbDX (i : bxInstruction_c) : Mach unit :=
  port ← DX; check_io port 1;;
  if nz (as32L i) then repeat i INSB32_YbDX else repeat i INSB16_YbDX.
Definition REP_INSW_YwDX (i : bxInstruction_c) : Mach unit :=
  port ← DX; check_io port 2;;
  if nz (as32L i) then repeat i INSW32_YwDX else repeat i INSW16_YwDX.
Definition REP_INSD_YdDX (i : bxInstruction_c) : Mach unit :=
  port ← DX; check_io port 4;;
  if nz (as32L i) then repeat i INSD32_YdDX else repeat i INSD16_YdDX.
Definition REP_OUTSB_DXXb (i : bxInstruction_c) : Mach unit :=
  port ← DX; check_io port 1;;
  if nz (as32L i) then repeat i OUTSB32_DXXb else repeat i OUTSB16_DXXb.
Definition REP_OUTSW_DXXw (i : bxInstruction_c) : Mach unit :=
  port ← DX; check_io port 2;;
  if nz (as32L i) then repeat i OUTSW32_DXXw else repeat i OUTSW16_DXXw.
Definition REP_OUTSD_DXXd (i : bxInstruction_c) : Mach unit :=
  port ← DX; check_io port 4;;
  if nz (as32L i) then repeat i OUTSD32_DXXd else repeat i OUTSD16_DXXd.

(** ** The instructions *)

(** A program whose use of the ports is subject to the permission map of its task. *)
Definition restricted_io (s : machine) : bool :=
  nz (cr0_get_PE s) && (nz (get_VM s) || (get_IOPL s <? CPL s)).
Definition is_386_tss (d : bx_descriptor_t) : bool :=
  nz (desc_valid d) && existsb (Z.eqb (desc_type d)) [BX_SYS_SEGMENT_AVAIL_386_TSS; BX_SYS_SEGMENT_BUSY_386_TSS].
(** One bit for each port, clear if the port is open. *)
Definition ports_open (bits port len : Z) : bool :=
  forallb (fun k => negb (Z.testbit bits (port mod 8 + k))) (seqZ 0 len).

Definition ref_allow_io (port len : Z) : Mach bool :=
  restricted ← gets restricted_io;
  if negb restricted then mret true else
  d ← gets (fun s => cache (tr s));
  if negb (is_386_tss d && (103 <=? seg_limit_scaled d)) then mret false else
  io_base ← system_read_word (u32 (seg_base d + 102));
  d ← gets (fun s => cache (tr s));
  if negb (u32 (io_base + port / 8) <? seg_limit_scaled d) then mret false else
  bits ← system_read_word (u32 (seg_base d + io_base + port / 8));
  mret (ports_open bits port len).
Definition ref_check_io (port len : Z) : Mach unit :=
  allowed ← ref_allow_io port len; when (negb allowed) (raise BX_GP_EXCEPTION 0).

Definition imm_port (i : bxInstruction_c) : Mach Z := mret (Ib i).
Definition dx_port (i : bxInstruction_c) : Mach Z := read_reg 16 2.

Definition ref_in (w : Z) (port : bxInstruction_c -> Mach Z) (i : bxInstruction_c) : Mach unit :=
  p ← port i; ref_check_io p (w / 8);; write_reg w 0 0.
Definition ref_out (w : Z) (port : bxInstruction_c -> Mach Z) (i : bxInstruction_c) : Mach unit :=
  p ← port i; ref_check_io p (w / 8).

(** The element is written only after the access was found to be possible; the index
    register is read again for the step. *)
Definition ref_ins (w aw : Z) (i : bxInstruction_c) : Mach unit :=
  di ← read_reg aw 7;
  _ ← read_rmw w BX_SEG_REG_ES di;
  write_rmw w 0;;
  df ← gets get_DF;
  di ← read_reg aw 7; write_reg aw 7 (string_step w aw df di).
Definition ref_outs (w aw : Z) (i : bxInstruction_c) : Mach unit :=
  si ← read_reg aw 6;
  _ ← read_mem w (i_seg i) si;
  df ← gets get_DF;
  si ← read_reg aw 6; write_reg aw 6 (string_step w aw df si).
Definition ref_rep_io (w : Z) (r : Z -> handler) (i : bxInstruction_c) : Mach unit :=
  p ← dx_port i; ref_check_io p (w / 8);; ref_rep repeat r i.

Definition in_out_table : list (handler * handler) :=
  [(IN_ALIb, ref_in 8 imm_port); (IN_AXIb, ref_in 16 imm_port); (IN_EAXIb, ref_in 32 imm_port);
   (OUT_IbAL, ref_out 8 imm_port); (OUT_IbAX, ref_out 16 imm_port); (OUT_IbEAX, ref_out 32 imm_port);
   (IN_ALDX, ref_in 8 dx_port); (IN_AXDX, ref_in 16 dx_port); (IN_EAXDX, ref_in 32 dx_port);
   (OUT_DXAL, ref_out 8 dx_port); (OUT_DXAX, ref_out 16 dx_port); (OUT_DXEAX, ref_out 32 dx_port)].
Definition io_step_table : list (handler * handler) :=
  [(INSB16_YbDX, ref_ins 8 16); (INSB32_YbDX, ref_ins 8 32); (INSW16_YwDX, ref_ins 16 16);
   (INSW32_YwDX, ref_ins 16 32); (INSD16_YdDX, ref_ins 32 16); (INSD32_YdDX, ref_ins 32 32);
   (OUTSB16_DXXb, ref_outs 8 16); (OUTSB32_DXXb, ref_outs 8 32); (OUTSW16_DXXw, ref_outs 16 16);
   (OUTSW32_DXXw, ref_outs 16 32); (OUTSD16_DXXd, ref_outs 32 16); (OUTSD32_DXXd, ref_outs 32 32)].
Definition rep_io_table : list (handler * handler) :=
  [(REP_INSB_YbDX, ref_rep_io 8 (ref_ins 8)); (REP_INSW_YwDX, ref_rep_io 16 (ref_ins 16));
   (REP_INSD_YdDX, ref_rep_io 32 (ref_ins 32)); (REP_OUTSB_DXXb, ref_rep_io 8 (ref_outs 8));
   (REP_OUTSW_DXXw, ref_rep_io 16 (ref_outs 16)); (REP_OUTSD_DXXd, ref_rep_io 32 (ref_outs 32))].

(** *** The permission map *)

Lemma ports_closed_eq bits port len :
  0 <= len ->
  nz (Z.land (Z.shiftr bits (Z.land port 7)) (Z.shiftl 1 len - 1)) = negb (ports_open bits port len).
Proof.
  intros Hl. unfold ports_open. change 7 with (Z.ones 3). rewrite Z.land_ones by lia. change (2 ^ 3) with 8.
  rewrite Z.shiftl_1_l, Z.sub_1_r, <-Z.ones_equiv.
  pose proof (Z.mod_pos_bound port 8 ltac:(lia)) as Hp.
  unfold nz. f_equal. apply eq_true_iff_eq. rewrite Z.eqb_eq, forallb_forall. split; intros H.
  - intros k Hk. apply list_elem_of_In, elem_of_seqZ in Hk.
    apply (f_equal (fun z => Z.testbit z k)) in H.
    rewrite Z.bits_0, Z.land_spec, Z.shiftr_spec, Z.testbit_ones_nonneg in H by lia.
    rewrite (proj2 (Z.ltb_lt k len)), andb_true_r, Z.add_comm in H by lia. by rewrite H.
  - apply Z.bits_inj_iff'. intros k Hk. rewrite Z.bits_0, Z.land_spec, Z.shiftr_spec, Z.testbit_ones_nonneg by lia.
    destruct (Z.ltb_spec k len) as [Hlt|]; [|by rewrite andb_false_r].
    rewrite andb_true_r, Z.add_comm. apply negb_true_iff, H, list_elem_of_In, elem_of_seqZ. lia.
Qed.

Lemma is_386_tss_eq d :
  (desc_valid d =? 0) ||
  (negb (desc_type d =? BX_SYS_SEGMENT_AVAIL_386_TSS) && negb (desc_type d =? BX_SYS_SEGMENT_BUSY_386_TSS)) =
  negb (is_386_tss d).
Proof.
  unfold is_386_tss, nz. cbn [existsb]. rewrite orb_false_r, negb_andb, negb_involutive, negb_orb. done.
Qed.
Lemma allow_io_eq port len s :
  0 <= len ->
  allow_io port len s = (allowed ← ref_allow_io port len; mret (Z.b2z allowed)) s.
Proof.
  intros Hl. unfold allow_io, ref_allow_io, gets, mbind, M_bind, mret, M_ret.
  fold (restricted_io s). destruct (restricted_io s); [cbn [negb]|done]. rewrite is_386_tss_eq.
  destruct (is_386_tss _); [cbn [negb andb]|done]. rewrite (Z.leb_antisym _ 103), negb_involutive.
  destruct (_ <? 103); [done|].
  destruct (system_read_word _ s) as [io_base s1| |]; [|done|done]. rewrite (Z.leb_antisym (u32 _)).
  destruct (negb (u32 _ <? _)); [done|].
  destruct (system_read_word _ s1) as [bits s2| |]; [|done|done].
  rewrite ports_closed_eq by done. by destruct (ports_open bits port len).
Qed.
Lemma restricted_io_norm s : restricted_io s = restricted_io (norm s).
Proof.
  assert (refines (gets get_VM) (gets get_VM)) as H by eflag_bit.
  specialize (H s). injection H as H. unfold restricted_io. by rewrite H, get_IOPL_norm.
Qed.
Lemma check_io_refines port len : 0 <= len -> refines (check_io port len) (ref_check_io port len).
Proof.
  intros Hl.
  assert (refines (ref_allow_io port len) (ref_allow_io port len)) as H.
  { unfold ref_allow_io, system_read_word. refines_tac; apply refines_gets; [apply restricted_io_norm|done..]. }
  assert (refines (ref_check_io port len) (ref_check_io port len)) as H'.
  { unfold ref_check_io. refines_tac. }
  intros s. rewrite <-(H' s). f_equal. unfold check_io, ref_check_io, mbind, M_bind.
  rewrite allow_io_eq by done. unfold mbind, M_bind.
  destruct (ref_allow_io port len s) as [[] s1| |]; done.
Qed.

(** *** The handlers *)

Lemma check_io_bind port len (m m' : Mach unit) :
  0 <= len -> refines m m' -> refines (check_io port len;; m) (ref_check_io port len;; m').
Proof. intros Hl Hm. apply refines_bind; [by apply check_io_refines|by intros []]. Qed.
Lemma check_io_end port len : 0 <= len -> refines (check_io port len;; BX_OUTP) (ref_check_io port len).
Proof.
  intros Hl s. rewrite <-(check_io_refines port len Hl s). unfold BX_OUTP, mbind, M_bind.
  by destruct (check_io port len s) as [[] ?| |].
Qed.
Lemma refines_mret_r {A B} (m : Mach B) (a : A) (k : A -> Mach B) : refines m (k a) -> refines m (mret a ≫= k).
Proof. done. Qed.

Ltac io_widths := change (8 / 8) with 1; change (16 / 8) with 2; change (32 / 8) with 4.
Ltac in_out_tac :=
  intros i; cbn [fst snd]; match goal with |- refines (?h _) _ => unfold h end;
  cbv beta iota zeta delta [ref_in ref_out imm_port dx_port read_reg write_reg]; io_widths;
  repeat match goal with
  | |- forall _, _ => intros ?
  | |- refines _ (mbind _ (mret _)) => apply refines_mret_r; cbv beta
  | |- refines (mbind _ (check_io _ _)) (ref_check_io _ _) => apply check_io_end; lia
  | |- refines (mbind _ (check_io _ _)) (mbind _ (ref_check_io _ _)) => apply check_io_bind; [lia|refines_tac]
  | |- refines (mbind _ DX) _ => apply refines_bind; [solve [refines_tac]|]
  end.
Lemma in_out_implements : Forall implements in_out_table.
Proof. table_tac in_out_tac. Qed.
Lemma io_step_implements : Forall implements io_step_table.
Proof.
  table_tac ltac:(intros i; cbn [fst snd]; match goal with |- refines (?h _) _ => unfold h end;
    cbv beta iota zeta delta [ref_ins ref_outs BX_INP BX_OUTP read_rmw write_rmw]; string_unfold; repeat handler_step).
Qed.

(** Every repeated row checks the port and runs two rows of [io_step_table]. *)
Definition repeats_io (p : handler * handler) : Prop :=
  exists w h16 h32 r, 0 <= w / 8 /\ (h16, r 16) ∈ io_step_table /\ (h32, r 32) ∈ io_step_table /\
    p.2 = ref_rep_io w r /\
    forall i, p.1 i = (port ← DX; check_io port (w / 8);; repeat i (if nz (as32L i) then h32 else h16)).
Lemma repeats_io_intro w h16 h32 r h :
  (forall i, h i = (port ← DX; check_io port (w / 8);; repeat i (if nz (as32L i) then h32 else h16))) ->
  0 <= w / 8 -> (h16, r 16) ∈ io_step_table -> (h32, r 32) ∈ io_step_table -> repeats_io (h, ref_rep_io w r).
Proof. intros. by exists w, h16, h32, r. Qed.
Lemma rep_io_rows : Forall repeats_io rep_io_table.
Proof.
  table_tac ltac:(eapply repeats_io_intro;
    [intros i; match goal with |- ?h i = _ => unfold h end; destruct (nz (as32L i)); reflexivity
    |done|unfold io_step_table; find_row|unfold io_step_table; find_row]).
Qed.

(** *** Well-formedness, control registers, faults *)

Ltac io_unfold := unfold check_io, allow_io, system_read_word, BX_OUTP.
Lemma check_io_wf port len : preserves wf (check_io port len).
Proof. io_unfold. wf_tac. Qed.
Lemma check_io_steady port len : steady (check_io port len).
Proof. io_unfold. steady_tac. Qed.
Lemma check_io_precise port len : precise (check_io port len).
Proof. io_unfold. precise_tac. Qed.
#[local] Hint Resolve check_io_wf : preserves.
#[local] Hint Resolve check_io_steady : steady.
#[local] Hint Resolve check_io_precise : precise.

Lemma in_out_keeps_wf : Forall keeps_wf (in_out_table ++ io_step_table).
Proof.
  table_tac ltac:(intros i; cbn [fst]; match goal with |- preserves wf (?h _) => unfold h end;
    unfold BX_INP, BX_OUTP; unfold_widths; wf_tac).
Qed.
Lemma in_out_steady : Forall (fun p => forall i, steady (p.1 i)) (in_out_table ++ io_step_table).
Proof.
  table_tac ltac:(intros i; cbn [fst]; match goal with |- steady (?h _) => unfold h end; unfold BX_OUTP;
    unfold_widths; steady_tac).
Qed.
Lemma in_out_is_precise : Forall is_precise (in_out_table ++ io_step_table).
Proof.
  table_tac ltac:(intros i; cbn [fst]; match goal with |- precise (?h _) => unfold h end;
    unfold BX_OUTP; unfold_widths; precise_tac).
Qed.

Lemma rep_io_row p : p ∈ io_step_table ->
  implements p /\ keeps_wf p /\ (forall i, steady (p.1 i)).
Proof.
  pose proof io_step_implements as H1. pose proof in_out_keeps_wf as H2. pose proof in_out_steady as H3.
  apply Forall_app in H2 as [_ H2], H3 as [_ H3]. rewrite Forall_forall in *.
  intros Hp. split_and!; [exact (H1 p Hp)|exact (H2 p Hp)|exact (H3 p Hp)].
Qed.
Lemma rep_io_implements : Forall implements rep_io_table.
Proof.
  eapply Forall_impl; [exact rep_io_rows|]. intros [h r'] (w & h16 & h32 & r & Hw & H1 & H2 & E1 & E2) i.
  cbn [fst snd] in *. rewrite E1, E2. unfold ref_rep_io, ref_rep. apply rep_io_row in H1 as [H1 _], H2 as [H2 _].
  apply refines_bind; [unfold dx_port; refines_tac|]. intros port. apply check_io_bind; [done|].
  destruct (nz (as32L i)); apply repeat_refines; auto.
Qed.
Lemma rep_io_keeps_wf : Forall keeps_wf rep_io_table.
Proof.
  eapply Forall_impl; [exact rep_io_rows|]. intros [h r'] (w & h16 & h32 & r & Hw & H1 & H2 & E1 & E2) i.
  cbn [fst snd] in *. rewrite E2. apply rep_io_row in H1 as (_ & H1 & _), H2 as (_ & H2 & _).
  assert (preserves wf (repeat i (if nz (as32L i) then h32 else h16))).
  { destruct (nz (as32L i)); apply repeat_wf; auto. }
  wf_tac.
Qed.
Lemma rep_io_steady : Forall (fun p => forall i, steady (p.1 i)) rep_io_table.
Proof.
  eapply Forall_impl; [exact rep_io_rows|]. intros [h r'] (w & h16 & h32 & r & Hw & H1 & H2 & E1 & E2) i.
  cbn [fst snd] in *. rewrite E2. apply rep_io_row in H1 as (_ & _ & H1), H2 as (_ & _ & H2).
  assert (steady (repeat i (if nz (as32L i) then h32 else h16))).
  { destruct (nz (as32L i)); apply repeat_steady; auto. }
  steady_tac.
Qed.

Lemma io_contracts : Forall contract (in_out_table ++ io_step_table ++ rep_io_table).
Proof.
  rewrite app_assoc. apply plain_contracts.
  - repeat apply Forall_app_2; auto using in_out_implements, io_step_implements, rep_io_implements.
  - apply Forall_app_2; [exact in_out_keeps_wf|exact rep_io_keeps_wf].
  - apply Forall_app_2; [exact in_out_steady|exact rep_io_steady].
Qed.
Lemma io_restarts : Forall restarts (in_out_table ++ io_step_table).
Proof. apply plain_restarts; [apply in_out_is_precise|apply in_out_steady]. Qed.

(** ** Who may use a port *)

(** The handlers that use ports, with the first port and the number of ports. *)
Definition imm_of (i : bxInstruction_c) (_ : machine) : Z := Ib i.
Definition dx_of (_ : bxInstruction_c) (s : machine) : Z := rx (reg 2 s).
Definition port_users : list (handler * ((bxInstruction_c -> machine -> Z) * Z)) :=
  [(IN_ALIb, (imm_of, 1)); (IN_AXIb, (imm_of, 2)); (IN_EAXIb, (imm_of, 4));
   (OUT_IbAL, (imm_of, 1)); (OUT_IbAX, (imm_of, 2)); (OUT_IbEAX, (imm_of, 4));
   (IN_ALDX, (dx_of, 1)); (IN_AXDX, (dx_of, 2)); (IN_EAXDX, (dx_of, 4));
   (OUT_DXAL, (dx_of, 1)); (OUT_DXAX, (dx_of, 2)); (OUT_DXEAX, (dx_of, 4));
   (REP_INSB_YbDX, (dx_of, 1)); (REP_INSW_YwDX, (dx_of, 2)); (REP_INSD_YdDX, (dx_of, 4));
   (REP_OUTSB_DXXb, (dx_of, 1)); (REP_OUTSW_DXXw, (dx_of, 2)); (REP_OUTSD_DXXd, (dx_of, 4))].

(** The task state segment lies at [base], its permission map at the offset it holds
    at 102; all the bits of the ports are within its limit and clear. *)
Definition granted (port len : Z) (s : machine) : Prop :=
  let d := cache (tr s) in
  is_386_tss d = true /\ 103 <= seg_limit_scaled d /\
  exists io_base s1 bits s2,
    system_read_word (u32 (seg_base d + 102)) s = Ret io_base s1 /\
    u32 (io_base + port / 8) < seg_limit_scaled d /\
    system_read_word (u32 (seg_base d + io_base + port / 8)) s1 = Ret bits s2 /\
    forall k, 0 <= k < len -> Z.testbit bits (port mod 8 + k) = false.

Lemma ref_allow_io_granted port len s s' :
  restricted_io s = true -> ref_allow_io port len s = Ret true s' -> granted port len s.
Proof.
  intros Hr. unfold ref_allow_io, gets, mbind, M_bind, mret, M_ret. rewrite Hr. cbn [negb].
  destruct (is_386_tss _) eqn:Ht; [cbn [negb andb]|done].
  destruct (Z.leb_spec 103 (seg_limit_scaled (cache (tr s)))) as [Hl|]; [cbn [negb]|done].
  pose proof (system_read_steady 2 (u32 (seg_base (cache (tr s)) + 102)) s) as Hs.
  fold (system_read_word (u32 (seg_base (cache (tr s)) + 102))) in Hs.
  destruct (system_read_word _ s) as [io_base s1| |] eqn:E1; [|done|done].
  assert (tr s1 = tr s) as -> by (unfold control in Hs; cbn in Hs; by simplify_eq).
  destruct (Z.ltb_spec (u32 (io_base + port / 8)) (seg_limit_scaled (cache (tr s)))) as [Hb|]; [cbn [negb]|done].
  destruct (system_read_word _ s1) as [bits s2| |] eqn:E2; [|done|done]. intros [=Ho _].
  split_and!; [done|done|]. exists io_base, s1, bits, s2. split_and!; [done|done|done|].
  intros k Hk. unfold ports_open in Ho. rewrite forallb_forall in Ho. apply negb_true_iff, Ho, list_elem_of_In, elem_of_seqZ. lia.
Qed.

(** Nothing the program could notice has happened. *)
Definition refused_unchanged (o : outcome machine unit) (s : machine) : Prop :=
  match o with
  | Ret _ _ => False
  | Fault _ _ s' => arch s' = arch s /\ control s' = control s
  | Crash => True
  end.
Lemma check_io_granted port len (m : Mach unit) s :
  0 <= len -> restricted_io s = true ->
  granted port len s \/ refused_unchanged ((check_io port len;; m) s) s.
Proof.
  intros Hl Hr. assert (quiet (check_io port len)) as Hq by (io_unfold; quiet_tac).
  specialize (Hq s). pose proof (check_io_steady port len s) as Hc.
  unfold mbind, M_bind. destruct (check_io port len s) as [[] s1|v e s1|] eqn:E; [left|right; done..].
  revert E. unfold check_io, mbind, M_bind. rewrite allow_io_eq by done. unfold mbind, M_bind.
  destruct (ref_allow_io port len s) as [[] s2| |] eqn:E2; [intros _|done..]. by eapply ref_allow_io_granted.
Qed.
Lemma port_users_check u i s :
  u ∈ port_users -> 0 <= u.2.2 /\ exists m : Mach unit, u.1 i s = (check_io (u.2.1 i s) u.2.2;; m) s.
Proof.
  unfold port_users. rewrite !elem_of_cons. intros Hu.
  repeat destruct Hu as [->|Hu]; [..|by apply not_elem_of_nil in Hu]; (split; [done|eexists; reflexivity]).
Qed.

(** C14: the ports are protected.  In virtual-8086 mode, or at a privilege level
    below the I/O privilege level, an instruction that uses a port (IN, OUT, and
    INS and OUTS with their repetition) gets past its check only if TR holds a
    386 task state segment, the permission map is inside its limit, and the bit
    of every one of the 1, 2 or 4 ports is clear, also across the byte boundary
    of the map.  Otherwise it raises an exception and leaves registers, flags and
    control registers as they are. *)
Theorem port_access_protected u i s :
  u ∈ port_users -> restricted_io s = true ->
  granted (u.2.1 i s) u.2.2 s \/ refused_unchanged (u.1 i s) s.
Proof.
  intros Hu Hr. destruct (port_users_check u i s Hu) as [Hl [m ->]]. by apply check_io_granted.
Qed.

(** A task at level 3 whose permission map opens port 9 and closes port 10: IN AL, 9
    reads it, and IN AX, 9 is refused. *)
Definition io_machine : machine :=
  with_tr (mk_segment_reg (mk_selector 0x30 6 0 0) (mk_descriptor SegValidCache 1 0 0 0xb 0x4000 0x88 0 0 0))
  (with_memory (with_mem_vector
     (mem_store (mem_store ∅ 0x4066 (le_split 2 0x68)) 0x4069 (le_split 2 0xfffd)) (memory user_machine))
  user_machine).
Definition in_9 : bxInstruction_c := mk_instruction Resolve32Base BX_IA_ERROR 2 (2 ^ 4 + 3) BX_SEG_REG_DS 0 0 0 0 0 0 0 9 0.
Lemma port_access_protected_witness :
  (exists s', IN_ALIb in_9 io_machine = Ret tt s') /\ granted 9 1 io_machine /\
  exists s', IN_AXIb in_9 io_machine = Fault BX_GP_EXCEPTION 0 s'.
Proof.
  split_and!; [eexists; vm_compute; reflexivity| |eexists; vm_compute; reflexivity].
  destruct (port_access_protected (IN_ALIb, (imm_of, 1)) in_9 io_machine) as [H|H]; [left|vm_compute; reflexivity| |].
  - exact H.
  - vm_compute in H. destruct H.
Defined.
