(* ===== verification/CtrlXfer.v ===== *)
(** * CtrlXfer: near jumps, calls and returns

    The near transfers of cpu/ctrl_xfer16.cc and cpu/ctrl_xfer32.cc: JMP, Jcc,
    JCXZ, LOOP, CALL and RET.  (The far ones are in FarXfer.)  [LOOPcc] reads ZF
    only when the count is not zero; reading it has no effect, so the model reads
    it first. *)
From stdpp Require Import base numbers list gmap.
From Stdlib Require Import ZArith Lia.
From S2P Require Import Prelude Machine LazyFlags Memory Paging Access Regs Precise Reference Mode Segment SegLoad Frame Stack FlagCtrl CtrlPro Exception Delivery Contract.
From S2P Require Import Arith Logical Mult ShiftSpec Shift Bit DataXfer Coherence.

Local Open Scope Z_scope.

(** [sregs[BX_SEG_REG_CS].cache.u.segment.limit_scaled] *)
Definition CS_limit (s : machine) : Z := seg_limit_scaled (cache (sreg BX_SEG_REG_CS s)).

(** ** cpu/ctrl_xfer16.cc *)

Definition branch_near16 (new_IP : Z) : Mach unit :=
  limit ← gets CS_limit;
  when (limit <? new_IP) (exception BX_GP_EXCEPTION 0);;
  set_EIP new_IP.

Definition RETnear16_Iw (i : bxInstruction_c) : Mach unit :=
  RSP_SPECULATIVE;;
  return_IP ← pop_16;
  limit ← gets CS_limit;
  when (limit <? return_IP) (exception BX_GP_EXCEPTION 0);;
  set_EIP return_IP;;
  let imm16 := Iw i in
  d_b ← SS_d_b;
  (if nz d_b then esp ← ESP; set_ESP (u32 (esp + imm16)) else sp ← SP; set_SP (u16 (sp + imm16)));;
  RSP_COMMIT.
Definition RETnear16 (i : bxInstruction_c) : Mach unit :=
  RSP_SPECULATIVE;;
  return_IP ← pop_16;
  limit ← gets CS_limit;
  when (limit <? return_IP) (exception BX_GP_EXCEPTION 0);;
  set_EIP return_IP;;
  RSP_COMMIT.
Definition CALL_Jw (i : bxInstruction_c) : Mach unit :=
  RSP_SPECULATIVE;;
  ip ← IP; push_16 ip;;
  ip ← IP; branch_near16 (u16 (ip + Iw i));;
  RSP_COMMIT.
Definition CALL_EwR (i : bxInstruction_c) : Mach unit :=
  new_IP ← BX_READ_16BIT_REG (i_rm i);
  RSP_SPECULATIVE;;
  ip ← IP; push_16 ip;;
  branch_near16 new_IP;;
  RSP_COMMIT.
Definition JMP_Jw (i : bxInstruction_c) : Mach unit :=
  ip ← IP; branch_near16 (u16 (ip + Iw i)).
Definition JO_Jw (i : bxInstruction_c) : Mach unit :=
  of_ ← gets (get_flag OF);
  when (nz of_) (ip ← IP; branch_near16 (u16 (ip + Iw i))).
Definition JNO_Jw (i : bxInstruction_c) : Mach unit :=
  of_ ← gets (get_flag OF);
  when (negb (nz of_)) (ip ← IP; branch_near16 (u16 (ip + Iw i))).
Definition JB_Jw (i : bxInstruction_c) : Mach unit :=
  cf_ ← gets (get_flag CF);
  when (nz cf_) (ip ← IP; branch_near16 (u16 (ip + Iw i))).
Definition JNB_Jw (i : bxInstruction_c) : Mach unit :=
  cf_ ← gets (get_flag CF);
  when (negb (nz cf_)) (ip ← IP; branch_near16 (u16 (ip + Iw i))).
Definition JZ_Jw (i : bxInstruction_c) : Mach unit :=
  zf_ ← gets (get_flag ZF);
  when (nz zf_) (ip ← IP; branch_near16 (u16 (ip + Iw i))).
Definition JNZ_Jw (i : bxInstruction_c) : Mach unit :=
  zf_ ← gets (get_flag ZF);
  when (negb (nz zf_)) (ip ← IP; branch_near16 (u16 (ip + Iw i))).
Definition JBE_Jw (i : bxInstruction_c) : Mach unit :=
  cf_ ← gets (get_flag CF); zf_ ← gets (get_flag ZF);
  when (nz cf_ || nz zf_) (ip ← IP; branch_near16 (u16 (ip + Iw i))).
Definition JNBE_Jw (i : bxInstruction_c) : Mach unit :=
  cf_ ← gets (get_flag CF); zf_ ← gets (get_flag ZF);
  when (negb (nz cf_ || nz zf_)) (ip ← IP; branch_near16 (u16 (ip + Iw i))).
Definition JS_Jw (i : bxInstruction_c) : Mach unit :=
  sf_ ← gets (get_flag SF);
  when (nz sf_) (ip ← IP; branch_near16 (u16 (ip + Iw i))).
Definition JNS_Jw (i : bxInstruction_c) : Mach unit :=
  sf_ ← gets (get_flag SF);
  when (negb (nz sf_)) (ip ← IP; branch_near16 (u16 (ip + Iw i))).
Definition JP_Jw (i : bxInstruction_c) : Mach unit :=
  pf_ ← gets (get_flag PF);
  when (nz pf_) (ip ← IP; branch_near16 (u16 (ip + Iw i))).
Definition JNP_Jw (i : bxInstruction_c) : Mach unit :=
  pf_ ← gets (get_flag PF);
  when (negb (nz pf_)) (ip ← IP; branch_near16 (u16 (ip + Iw i))).
Definition JL_Jw (i : bxInstruction_c) : Mach unit :=
  sf_ ← gets (getB_flag SF); of_ ← gets (getB_flag OF);
  when (negb (sf_ =? of_)) (ip ← IP; branch_near16 (u16 (ip + Iw i))).
Definition JNL_Jw (i : bxInstruction_c) : Mach unit :=
  sf_ ← gets (getB_flag SF); of_ ← gets (getB_flag OF);
  when (sf_ =? of_) (ip ← IP; branch_near16 (u16 (ip + Iw i))).
Definition JLE_Jw (i : bxInstruction_c) : Mach unit :=
  zf_ ← gets (get_flag ZF); sf_ ← gets (getB_flag SF); of_ ← gets (getB_flag OF);
  when (nz zf_ || negb (sf_ =? of_)) (ip ← IP; branch_near16 (u16 (ip + Iw i))).
Definition JNLE_Jw (i : bxInstruction_c) : Mach unit :=
  zf_ ← gets (get_flag ZF); sf_ ← gets (getB_flag SF); of_ ← gets (getB_flag OF);
  when (negb (nz zf_) && (sf_ =? of_)) (ip ← IP; branch_near16 (u16 (ip + Iw i))).
Definition JMP_EwR (i : bxInstruction_c) : Mach unit :=
  new_IP ← BX_READ_16BIT_REG (i_rm i); branch_near16 new_IP.
Definition JCXZ_Jb (i : bxInstruction_c) : Mach unit :=
  temp_ECX ← (if nz (as32L i) then ECX else CX);
  when (temp_ECX =? 0) (ip ← IP; branch_near16 (u16 (ip + Iw i))).
Definition LOOPNE16_Jb (i : bxInstruction_c) : Mach unit :=
  if nz (as32L i) then
    count ← ECX;
    let count := u32 (count - 1) in
    zf ← gets (get_flag ZF);
    when (negb (count =? 0) && (zf =? 0)) (ip ← IP; branch_near16 (u16 (ip + Iw i)));;
    set_ECX count
  else
    count ← CX;
    let count := u16 (count - 1) in
    zf ← gets (get_flag ZF);
    when (negb (count =? 0) && (zf =? 0)) (ip ← IP; branch_near16 (u16 (ip + Iw i)));;
    set_CX count.
Definition LOOPE16_Jb (i : bxInstruction_c) : Mach unit :=
  if nz (as32L i) then
    count ← ECX;
    let count := u32 (count - 1) in
    zf ← gets (get_flag ZF);
    when (negb (count =? 0) && nz zf) (ip ← IP; branch_near16 (u16 (ip + Iw i)));;
    set_ECX count
  else
    count ← CX;
    let count := u16 (count - 1) in
    zf ← gets (get_flag ZF);
    when (negb (count =? 0) && nz zf) (ip ← IP; branch_near16 (u16 (ip + Iw i)));;
    set_CX count.
Definition LOOP16_Jb (i : bxInstruction_c) : Mach unit :=
  if nz (as32L i) then
    count ← ECX;
    let count := u32 (count - 1) in
    when (negb (count =? 0)) (ip ← IP; branch_near16 (u16 (ip + Iw i)));;
    set_ECX count
  else
    count ← CX;
    let count := u16 (count - 1) in
    when (negb (count =? 0)) (ip ← IP; branch_near16 (u16 (ip + Iw i)));;
    set_CX count.

(** ** cpu/ctrl_xfer32.cc *)

Definition branch_near32 (new_EIP : Z) : Mach unit :=
  limit ← gets CS_limit;
  when (limit <? new_EIP) (exception BX_GP_EXCEPTION 0);;
  set_EIP new_EIP.

Definition RETnear32_Iw (i : bxInstruction_c) : Mach unit :=
  RSP_SPECULATIVE;;
  let imm16 := Iw i in
  return_EIP ← pop_32;
  limit ← gets CS_limit;
  when (limit <? return_EIP) (exception BX_GP_EXCEPTION 0);;
  set_EIP return_EIP;;
  d_b ← SS_d_b;
  (if nz d_b then esp ← ESP; set_ESP (u32 (esp + imm16)) else sp ← SP; set_SP (u16 (sp + imm16)));;
  RSP_COMMIT.
Definition RETnear32 (i : bxInstruction_c) : Mach unit :=
  RSP_SPECULATIVE;;
  return_EIP ← pop_32;
  limit ← gets CS_limit;
  when (limit <? return_EIP) (exception BX_GP_EXCEPTION 0);;
  set_EIP return_EIP;;
  RSP_COMMIT.
Definition CALL_Jd (i : bxInstruction_c) : Mach unit :=
  eip ← EIP;
  let new_EIP := u32 (eip + Id i) in
  RSP_SPECULATIVE;;
  eip ← EIP; push_32 eip;;
  branch_near32 new_EIP;;
  RSP_COMMIT.
Definition CALL_EdR (i : bxInstruction_c) : Mach unit :=
  new_EIP ← BX_READ_32BIT_REG (i_rm i);
  RSP_SPECULATIVE;;
  eip ← EIP; push_32 eip;;
  branch_near32 new_EIP;;
  RSP_COMMIT.
Definition JMP_Jd (i : bxInstruction_c) : Mach unit :=
  eip ← EIP; branch_near32 (u32 (eip + s32 (Id i))).
Definition JO_Jd (i : bxInstruction_c) : Mach unit :=
  of_ ← gets (get_flag OF);
  when (nz of_) (eip ← EIP; branch_near32 (u32 (eip + s32 (Id i)))).
Definition JNO_Jd (i : bxInstruction_c) : Mach unit :=
  of_ ← gets (get_flag OF);
  when (negb (nz of_)) (eip ← EIP; branch_near32 (u32 (eip + s32 (Id i)))).
Definition JB_Jd (i : bxInstruction_c) : Mach unit :=
  cf_ ← gets (get_flag CF);
  when (nz cf_) (eip ← EIP; branch_near32 (u32 (eip + s32 (Id i)))).
Definition JNB_Jd (i : bxInstruction_c) : Mach unit :=
  cf_ ← gets (get_flag CF);
  when (negb (nz cf_)) (eip ← EIP; branch_near32 (u32 (eip + s32 (Id i)))).
Definition JZ_Jd (i : bxInstruction_c) : Mach unit :=
  zf_ ← gets (get_flag ZF);
  when (nz zf_) (eip ← EIP; branch_near32 (u32 (eip + s32 (Id i)))).
Definition JNZ_Jd (i : bxInstruction_c) : Mach unit :=
  zf_ ← gets (get_flag ZF);
  when (negb (nz zf_)) (eip ← EIP; branch_near32 (u32 (eip + s32 (Id i)))).
Definition JBE_Jd (i : bxInstruction_c) : Mach unit :=
  cf_ ← gets (get_flag CF); zf_ ← gets (get_flag ZF);
  when (nz cf_ || nz zf_) (eip ← EIP; branch_near32 (u32 (eip + s32 (Id i)))).
Definition JNBE_Jd (i : bxInstruction_c) : Mach unit :=
  cf_ ← gets (get_flag CF); zf_ ← gets (get_flag ZF);
  when (negb (nz cf_ || nz zf_)) (eip ← EIP; branch_near32 (u32 (eip + s32 (Id i)))).
Definition JS_Jd (i : bxInstruction_c) : Mach unit :=
  sf_ ← gets (get_flag SF);
  when (nz sf_) (eip ← EIP; branch_near32 (u32 (eip + s32 (Id i)))).
Definition JNS_Jd (i : bxInstruction_c) : Mach unit :=
  sf_ ← gets (get_flag SF);
  when (negb (nz sf_)) (eip ← EIP; branch_near32 (u32 (eip + s32 (Id i)))).
Definition JP_Jd (i : bxInstruction_c) : Mach unit :=
  pf_ ← gets (get_flag PF);
  when (nz pf_) (eip ← EIP; branch_near32 (u32 (eip + s32 (Id i)))).
Definition JNP_Jd (i : bxInstruction_c) : Mach unit :=
  pf_ ← gets (get_flag PF);
  when (negb (nz pf_)) (eip ← EIP; branch_near32 (u32 (eip + s32 (Id i)))).
Definition JL_Jd (i : bxInstruction_c) : Mach unit :=
  sf_ ← gets (getB_flag SF); of_ ← gets (getB_flag OF);
  when (negb (sf_ =? of_)) (eip ← EIP; branch_near32 (u32 (eip + s32 (Id i)))).
Definition JNL_Jd (i : bxInstruction_c) : Mach unit :=
  sf_ ← gets (getB_flag SF); of_ ← gets (getB_flag OF);
  when (sf_ =? of_) (eip ← EIP; branch_near32 (u32 (eip + s32 (Id i)))).
Definition JLE_Jd (i : bxInstruction_c) : Mach unit :=
  zf_ ← gets (get_flag ZF); sf_ ← gets (getB_flag SF); of_ ← gets (getB_flag OF);
  when (nz zf_ || negb (sf_ =? of_)) (eip ← EIP; branch_near32 (u32 (eip + s32 (Id i)))).
Definition JNLE_Jd (i : bxInstruction_c) : Mach unit :=
  zf_ ← gets (get_flag ZF); sf_ ← gets (getB_flag SF); of_ ← gets (getB_flag OF);
  when (negb (nz zf_) && (sf_ =? of_)) (eip ← EIP; branch_near32 (u32 (eip + s32 (Id i)))).
Definition JMP_EdR (i : bxInstruction_c) : Mach unit :=
  new_EIP ← BX_READ_32BIT_REG (i_rm i); branch_near32 new_EIP.
Definition JECXZ_Jb (i : bxInstruction_c) : Mach unit :=
  temp_ECX ← (if nz (as32L i) then ECX else CX);
  when (temp_ECX =? 0) (eip ← EIP; branch_near32 (u32 (eip + s32 (Id i)))).
Definition LOOPNE32_Jb (i : bxInstruction_c) : Mach unit :=
  if nz (as32L i) then
    count ← ECX;
    let count := u32 (count - 1) in
    zf ← gets (get_flag ZF);
    when (negb (count =? 0) && (zf =? 0)) (eip ← EIP; branch_near32 (u32 (eip + s32 (Id i))));;
    set_ECX count
  else
    count ← CX;
    let count := u16 (count - 1) in
    zf ← gets (get_flag ZF);
    when (negb (count =? 0) && (zf =? 0)) (eip ← EIP; branch_near32 (u32 (eip + s32 (Id i))));;
    set_CX count.
Definition LOOPE32_Jb (i : bxInstruction_c) : Mach unit :=
  if nz (as32L i) then
    count ← ECX;
    let count := u32 (count - 1) in
    zf ← gets (get_flag ZF);
    when (negb (count =? 0) && nz zf) (eip ← EIP; branch_near32 (u32 (eip + s32 (Id i))));;
    set_ECX count
  else
    count ← CX;
    let count := u16 (count - 1) in
    zf ← gets (get_flag ZF);
    when (negb (count =? 0) && nz zf) (eip ← EIP; branch_near32 (u32 (eip + s32 (Id i))));;
    set_CX count.
Definition LOOP32_Jb (i : bxInstruction_c) : Mach unit :=
  if nz (as32L i) then
    count ← ECX;
    let count := u32 (count - 1) in
    when (negb (count =? 0)) (eip ← EIP; branch_near32 (u32 (eip + s32 (Id i))));;
    set_ECX count
  else
    count ← CX;
    let count := u16 (count - 1) in
    when (negb (count =? 0)) (eip ← EIP; branch_near32 (u32 (eip + s32 (Id i))));;
    set_CX count.

(** ** The instructions *)

(** The target of a relative jump, and the jump. *)
Definition ref_jump (w : Z) (i : bxInstruction_c) : Mach unit :=
  match w with
  | 16 => ip ← read_reg 16 BX_32BIT_REG_EIP; branch_near16 (wrap 16 (ip + Iw i))
  | _ => eip ← read_reg 32 BX_32BIT_REG_EIP; branch_near32 (wrap 32 (eip + Id i))
  end.
Definition ref_jcc (cc w : Z) (i : bxInstruction_c) : Mach unit :=
  fl ← gets flags_of; if condition cc fl then ref_jump w i else mret tt.
Definition ref_jcxz (w : Z) (i : bxInstruction_c) : Mach unit :=
  c ← read_reg (if nz (as32L i) then 32 else 16) 1; if c =? 0 then ref_jump w i else mret tt.

(** [ok] says which ZF lets the loop go on. *)
Definition ref_loop (ok : bool -> bool) (w : Z) (i : bxInstruction_c) : Mach unit :=
  let aw := if nz (as32L i) then 32 else 16 in
  c ← read_reg aw 1;
  let c := wrap aw (c - 1) in
  fl ← gets flags_of;
  (if negb (c =? 0) && ok (fl ZF) then ref_jump w i else mret tt);;
  write_reg aw 1 c.

Definition jump_table : list (handler * handler) :=
  [(JO_Jw, ref_jcc 0 16); (JNO_Jw, ref_jcc 1 16); (JB_Jw, ref_jcc 2 16);
   (JNB_Jw, ref_jcc 3 16); (JZ_Jw, ref_jcc 4 16); (JNZ_Jw, ref_jcc 5 16);
   (JBE_Jw, ref_jcc 6 16); (JNBE_Jw, ref_jcc 7 16); (JS_Jw, ref_jcc 8 16);
   (JNS_Jw, ref_jcc 9 16); (JP_Jw, ref_jcc 10 16); (JNP_Jw, ref_jcc 11 16);
   (JL_Jw, ref_jcc 12 16); (JNL_Jw, ref_jcc 13 16); (JLE_Jw, ref_jcc 14 16);
   (JNLE_Jw, ref_jcc 15 16); (JCXZ_Jb, ref_jcxz 16); (LOOPNE16_Jb, ref_loop negb 16);
   (LOOPE16_Jb, ref_loop (fun zf => zf) 16); (LOOP16_Jb, ref_loop (fun _ => true) 16); (JMP_Jw, ref_jump 16);
   (JO_Jd, ref_jcc 0 32); (JNO_Jd, ref_jcc 1 32); (JB_Jd, ref_jcc 2 32);
   (JNB_Jd, ref_jcc 3 32); (JZ_Jd, ref_jcc 4 32); (JNZ_Jd, ref_jcc 5 32);
   (JBE_Jd, ref_jcc 6 32); (JNBE_Jd, ref_jcc 7 32); (JS_Jd, ref_jcc 8 32);
   (JNS_Jd, ref_jcc 9 32); (JP_Jd, ref_jcc 10 32); (JNP_Jd, ref_jcc 11 32);
   (JL_Jd, ref_jcc 12 32); (JNL_Jd, ref_jcc 13 32); (JLE_Jd, ref_jcc 14 32);
   (JNLE_Jd, ref_jcc 15 32); (JECXZ_Jb, ref_jcxz 32); (LOOPNE32_Jb, ref_loop negb 32);
   (LOOPE32_Jb, ref_loop (fun zf => zf) 32); (LOOP32_Jb, ref_loop (fun _ => true) 32); (JMP_Jd, ref_jump 32)].
Definition indirect_handlers : list handler := [JMP_EwR; JMP_EdR].
Definition call_handlers : list handler :=
  [RETnear16_Iw; RETnear16; CALL_Jw; CALL_EwR; RETnear32_Iw; RETnear32; CALL_Jd; CALL_EdR].

(** *** They implement them *)

Lemma branch_near16_refines v : refines (branch_near16 v) (branch_near16 v).
Proof. unfold branch_near16. refines_tac. Qed.
Lemma branch_near32_refines v : refines (branch_near32 v) (branch_near32 v).
Proof. unfold branch_near32. refines_tac. Qed.
#[export] Hint Resolve branch_near16_refines branch_near32_refines : refines.

Lemma jump16_refines i : refines (ip ← IP; branch_near16 (u16 (ip + Iw i))) (ref_jump 16 i).
Proof. cbv [ref_jump read_reg]. repeat handler_step. Qed.
Lemma jump32_refines i : refines (eip ← EIP; branch_near32 (u32 (eip + s32 (Id i)))) (ref_jump 32 i).
Proof.
  cbv [ref_jump read_reg]. apply refines_bind; [eauto with refines|]. intros eip.
  rewrite <-(wrap_add_r 32 eip (s32 (Id i))), wrap_swrap, wrap_add_r by lia. eauto with refines.
Qed.
#[export] Hint Resolve jump16_refines jump32_refines : refines.

Lemma refines_jcc (m k : Mach unit) (C : machine -> bool) cc w i :
  (forall s, m s = (if C s then k else mret tt) s) -> refines k (ref_jump w i) ->
  (forall s, C s = condition cc (flags_of (norm s))) -> refines m (ref_jcc cc w i).
Proof. intros Hm Hk HC. by apply (refines_flags_cond m k (ref_jump w i) C cc). Qed.
Ltac jump_open := intros i; cbn [fst snd]; match goal with |- refines (?h _) _ => unfold h end.
Ltac flag_cases :=
  intros s; cbv beta; unfold condition, flags_of;
  rewrite ?get_flag_flag, ?getB_flag_b2z, ?b2z_eqb, ?flag_norm;
  destruct (flag OF s), (flag CF s), (flag ZF s), (flag SF s), (flag PF s); reflexivity.
Ltac jump_refines_tac :=
  lazymatch goal with
  | |- refines _ (ref_jump 16 _) => apply jump16_refines
  | |- refines _ (ref_jump 32 _) => apply jump32_refines
  end.
Ltac jcc_row :=
  intros i; cbn [fst snd]; match goal with |- refines (?h _) _ => unfold h end;
  match goal with
  | |- context [branch_near16] => eapply (refines_jcc _ (ip ← IP; branch_near16 (u16 (ip + Iw i))))
  | |- _ => eapply (refines_jcc _ (eip ← EIP; branch_near32 (u32 (eip + s32 (Id i)))))
  end;
  [ intros s; cbv [mbind M_bind gets when]; reflexivity
  | jump_refines_tac | flag_cases ].

(** JCXZ and LOOP. *)
Lemma refines_guard (b : bool) (m m' : Mach unit) :
  refines m m' -> refines (when b m) (if b then m' else mret tt).
Proof. intros H. by destruct b. Qed.
Section LoopTurn.
Context (go : bool) (k j wr wr' : Mach unit) (Hk : refines k j) (Hwr : refines wr wr').
Lemma loop_turn_ZF (G : Z -> bool) (ok : bool -> bool) :
  (forall z, G z = ok (nz z)) ->
  refines (zf ← gets (get_flag ZF); when (go && G zf) k;; wr)
          (fl ← gets flags_of; (if go && ok (fl ZF) then j else mret tt);; wr').
Proof.
  intros HG s. rewrite (bind_gets (get_flag ZF)), (bind_gets flags_of). unfold flags_of.
  rewrite HG, get_flag_flag, flag_norm.
  generalize (ok (flag ZF s)). intros b. revert s. apply refines_bind; [by apply refines_guard|intros _; exact Hwr].
Qed.
Lemma loop_turn :
  refines (when go k;; wr) (fl ← gets flags_of; (if go && true then j else mret tt);; wr').
Proof.
  intros s. rewrite (bind_gets flags_of), andb_true_r. revert s.
  apply refines_bind; [by apply refines_guard|intros _; exact Hwr].
Qed.
End LoopTurn.

Ltac jcxz_row :=
  intros i; cbn [fst snd]; match goal with |- refines (?h _) _ => unfold h end; unfold ref_jcxz;
  destruct (nz (as32L i)); (apply refines_bind; [cbv [read_reg]; eauto with refines|]); intros c;
  apply refines_guard; jump_refines_tac.
Ltac loop_row :=
  intros i; cbn [fst snd]; match goal with |- refines (?h _) _ => unfold h end; unfold ref_loop;
  destruct (nz (as32L i)); cbv zeta; (apply refines_bind; [cbv [read_reg]; eauto with refines|]); intros c;
  match goal with
  | |- context [_ && (_ =? 0)] => apply loop_turn_ZF with (G := fun zf => zf =? 0) (ok := negb)
  | |- context [get_flag ZF] => apply loop_turn_ZF with (G := nz) (ok := fun zf => zf)
  | |- _ => apply loop_turn
  end; try jump_refines_tac; first [ by intros z; unfold nz; rewrite ?negb_involutive | cbv [write_reg]; eauto with refines ].
Lemma jump_implements : Forall implements jump_table.
Proof.
  table_tac ltac:(idtac; lazymatch goal with
    | |- implements (_, ref_jcc _ _) => jcc_row
    | |- implements (_, ref_jcxz _) => jcxz_row
    | |- implements (_, ref_loop _ _) => loop_row
    | |- implements (_, ref_jump _) => jump_open; jump_refines_tac
    end).
Qed.
Lemma branch_near16_wf v : preserves wf (branch_near16 v).
Proof. unfold branch_near16. wf_tac. Qed.
Lemma branch_near32_wf v : preserves wf (branch_near32 v).
Proof. unfold branch_near32. wf_tac. Qed.
#[export] Hint Resolve branch_near16_wf branch_near32_wf : preserves.
Lemma jump_keeps_wf : Forall keeps_wf jump_table.
Proof. table_tac wf_handler. Qed.
Lemma branch_near16_precise v : precise (branch_near16 v).
Proof. unfold branch_near16. precise_tac. Qed.
Lemma branch_near32_precise v : precise (branch_near32 v).
Proof. unfold branch_near32. precise_tac. Qed.
#[export] Hint Resolve branch_near16_precise branch_near32_precise : precise.
Lemma jump_is_precise : Forall is_precise jump_table.
Proof. table_tac precise_handler. Qed.
Lemma branch_near16_steady v : steady (branch_near16 v).
Proof. unfold branch_near16. steady_tac. Qed.
Lemma branch_near32_steady v : steady (branch_near32 v).
Proof. unfold branch_near32. steady_tac. Qed.
#[export] Hint Resolve branch_near16_steady branch_near32_steady : steady.
Lemma jump_steady : Forall (fun p => forall i, steady (p.1 i)) jump_table.
Proof. table_tac ltac:(intros i; cbn [fst]; match goal with |- steady (?h _) => unfold h end; steady_tac). Qed.
Lemma jump_contracts : Forall contract jump_table.
Proof. apply plain_contracts; [apply jump_implements|apply jump_keeps_wf|apply jump_steady]. Qed.
Lemma jump_restarts : Forall restarts jump_table.
Proof. apply plain_restarts; [apply jump_is_precise|apply jump_steady]. Qed.

(** Jumps to a register. *)
Definition indirect_table : list (handler * handler) := selves indirect_handlers.
Lemma indirect_implements : Forall implements indirect_table.
Proof. apply Forall_selves. table_tac ltac:(jump_open; unfold_widths; refines_tac). Qed.
Lemma indirect_keeps_wf : Forall keeps_wf indirect_table.
Proof. apply Forall_selves. table_tac wf_handler. Qed.
Lemma indirect_is_precise : Forall is_precise indirect_table.
Proof. apply Forall_selves. table_tac precise_handler. Qed.
Lemma indirect_steady : Forall steady_row indirect_table.
Proof.
  apply Forall_selves.
  table_tac ltac:(intros i; cbn [snd]; match goal with |- steady (?h _) => unfold h end; steady_tac).
Qed.

(** Calls and returns, which move the stack pointer speculatively. *)
Ltac call_unfold :=
  intros i; cbn [fst snd];
  cbv beta delta [RETnear16_Iw RETnear16 CALL_Jw CALL_EwR RETnear32_Iw RETnear32 CALL_Jd CALL_EdR
    RSP_COMMIT SS_d_b]; cbv zeta.
Lemma call_refines : Forall (fun h : handler => forall i, refines (h i) (h i)) call_handlers.
Proof. table_tac ltac:(call_unfold; refines_tac). Qed.
Lemma call_wf : Forall (fun h : handler => forall i, preserves wf (h i)) call_handlers.
Proof. table_tac ltac:(call_unfold; repeat first [preserves_step | wf_modify]). Qed.
Lemma call_coherent : Forall (fun h : handler => forall i, preserves coherent (h i)) call_handlers.
Proof.
  table_tac ltac:(call_unfold; unfold RSP_SPECULATIVE;
      repeat match goal with
      | |- preserves _ (modify _) => apply preserves_modify; intros ? ?; assumption
      | _ => preserves_step
      end).
Qed.

(** What comes before [RSP_SPECULATIVE] changes nothing. *)
Lemma restartable_bind {A} (m : Mach A) (k : A -> Mach unit) :
  quiet m -> steady m -> preserves wf m -> (forall a, restartable (k a)) -> restartable (m ≫= k).
Proof.
  intros Hq Hs Hw Hk s v e s' W S0 E. specialize (Hq s). specialize (Hs s). specialize (Hw s W).
  unfold mbind, M_bind in E. destruct (m s) as [a s1|v1 e1 s1|] eqn:Em; [| |done].
  - apply control_rsp in Hs as [Hs _]. rewrite S0 in Hs.
    destruct (Hk a s1 v e s' Hw Hs E) as (s'' & Hr & Ha). exists s''. split; [done|]. by rewrite Ha.
  - apply Fault_inj in E as (-> & -> & ->). exists s'. split; [|done]. apply control_rsp in Hs as [Hs _].
    unfold restore_rsp. rewrite (bind_gets speculative_rsp), Hs, S0. done.
Qed.
Lemma sp_precise_precise {A} (m : Mach A) : precise m -> steady m -> sp_precise m.
Proof.
  intros Hp Hs s v e s' E. pose proof (Hp s v e s' E). specialize (Hs s). rewrite E in Hs.
  by apply arch_but_sp.
Qed.
Lemma call_restartable : Forall (fun h : handler => forall i, restartable (h i)) call_handlers.
Proof.
  table_tac ltac:(call_unfold;
    repeat match goal with
    | |- restartable (mbind _ RSP_SPECULATIVE) => apply speculative_restartable
    | |- restartable (mbind _ _) => apply restartable_bind; [quiet_tac|steady_tac|preserves_tac|intros ?]
    end; sp_precise_tac; apply sp_precise_precise; eauto with precise steady).
Qed.
Lemma call_commits : Forall (fun h : handler => forall i, commits (h i)) call_handlers.
Proof.
  table_tac ltac:(intros i; match goal with |- commits (?h _) => unfold h end; cbv zeta;
        repeat (apply commits_bind; intros ?); apply RSP_COMMIT_commits).
Qed.
Lemma call_pending : Forall (fun h : handler => forall i, keeps_pending (h i)) call_handlers.
Proof. table_tac ltac:(call_unfold; unfold RSP_SPECULATIVE; pending_tac). Qed.

(** ** Handlers behind a load *)

(** What a contract asks of a handler's run, [LOAD_Ew] and the like before it or not. *)
Definition orderly (m : Mach unit) : Prop :=
  (forall s, coherent s ->
     match m s with Ret _ s' => coherent s' | Fault _ _ s' => mode_known s' | Crash => True end) /\
  (forall s, speculative_rsp s = 0 -> match m s with Ret _ s' => speculative_rsp s' = 0 | _ => True end) /\
  keeps_nesting m.
Lemma orderly_bind {A} (m : Mach A) (k : A -> Mach unit) :
  steady m -> (forall a, orderly (k a)) -> orderly (m ≫= k).
Proof.
  intros Hm Hk. split_and!.
  - intros s Hs. pose proof (steady_coherent m Hm s Hs) as H1. unfold mbind, M_bind.
    destruct (m s) as [a s1|v e s1|]; [by apply (Hk a)|by apply coherent_mode_known|done].
  - intros s H0. pose proof (steady_commits m s Hm H0) as H1. unfold mbind, M_bind.
    destruct (m s) as [a s1|v e s1|]; [|done|done]. by apply (Hk a).
  - intros p. apply preserves_bind; [by apply pending_nesting, steady_pending|intros a; apply (Hk a)].
Qed.
Lemma contract_orderly p : contract p <-> implements p /\ keeps_wf p /\ forall i, orderly (p.1 i).
Proof.
  unfold orderly. split.
  - intros [Hi Hw Hc Ho Hp]. split_and!; [done|done|]. intros i. split_and!; [apply Hc|apply Ho|apply Hp].
  - intros (Hi & Hw & Hs). split; [done|done|..]; intros i; apply (Hs i).
Qed.
Ltac load_unfold :=
  intros i; cbn [fst snd compose] in *; unfold LOAD_Eb, LOAD_Ew, LOAD_Ed; unfold_widths.
Lemma load_contracts T : Forall contract T -> Forall contract (load_rows T).
Proof.
  intros HT. assert (forall P : handler * handler -> Prop, (forall p, contract p -> P p) -> Forall P T) as H
    by (intros P HP; eapply Forall_impl; [exact HT|exact HP]).
  pose proof (load_implements T (H _ contract_refines)) as Hi.
  pose proof (load_keeps_wf T (H _ contract_wf)) as Hw.
  assert (Forall (fun p => forall i, orderly (p.1 i)) (load_rows T)) as Hs.
  { unfold load_rows. rewrite !Forall_app, !Forall_fmap.
    split_and!; apply H; intros [h r] Hp; load_unfold; repeat (apply orderly_bind; [steady_tac|intros ?]);
      by apply (contract_orderly (h, r)). }
  rewrite Forall_forall in *. intros p Hp. apply contract_orderly. auto.
Qed.
Lemma load_restarts T : Forall restarts T -> Forall restarts (load_rows T).
Proof.
  intros HT. unfold load_rows. rewrite !Forall_app, !Forall_fmap.
  pose proof (write_TMP_quiet 8) as H8. pose proof (write_TMP_quiet 16) as H16.
  pose proof (write_TMP_quiet 32) as H32.
  split_and!; (eapply Forall_impl; [exact HT|]); intros [h r] [Hp Hc Hk]; (split; load_unfold);
    first [ repeat (apply restartable_bind;
      [first [by apply H8; width_tac|by apply H16; width_tac|by apply H32; width_tac|quiet_tac]
      |steady_tac|preserves_tac|intros ?]); apply Hp
    | repeat (apply preserves_bind; [apply steady_coherent; steady_tac|intros ?]); apply Hc
    | intros p; repeat (apply preserves_bind; [apply steady_pending; steady_tac|intros ?]); apply Hk ].
Qed.

Ltac find_elem := repeat match goal with |- ?h ∈ ?h :: _ => left | |- _ ∈ _ :: _ => right end.
Definition call_table : list (handler * handler) :=
  selves call_handlers ++ load_rows (selves [CALL_EwR; CALL_EdR]).
Lemma loaded_calls (P : handler * handler -> Prop) :
  Forall P (selves call_handlers) -> Forall P (selves [CALL_EwR; CALL_EdR]).
Proof.
  rewrite !Forall_forall. intros H p Hp. apply H. unfold selves in *.
  apply list_elem_of_fmap in Hp as (h & -> & Hh). apply list_elem_of_fmap. exists h. split; [done|].
  apply elem_of_cons in Hh as [->|[->|[]%elem_of_nil]%elem_of_cons]; unfold call_handlers; find_elem.
Qed.
Lemma call_contracts : Forall contract call_table.
Proof.
  assert (Forall contract (selves call_handlers)) as H.
  { apply Forall_selves. pose proof call_refines as H1. pose proof call_wf as H2. pose proof call_coherent as H3.
    pose proof call_commits as H4. pose proof call_pending as H5. rewrite Forall_forall in *. intros h Hh.
    apply contract_intro; [exact (H1 h Hh)|exact (H2 h Hh)|exact (H3 h Hh)| |exact (H5 h Hh)]. intros i s _. by apply H4. }
  apply Forall_app_2; [done|]. by apply load_contracts, loaded_calls.
Qed.
Lemma call_restarts : Forall restarts call_table.
Proof.
  assert (Forall restarts (selves call_handlers)) as H.
  { apply Forall_selves. pose proof call_restartable as H1. pose proof call_coherent as H3.
    pose proof call_pending as H5. rewrite Forall_forall in *. intros h Hh.
    split; [exact (H1 h Hh)|exact (H3 h Hh)|exact (H5 h Hh)]. }
  apply Forall_app_2; [done|]. by apply load_restarts, loaded_calls.
Qed.

(** ** A near transfer stays in its code segment *)

Definition eip_of (s : machine) : Z := reg BX_32BIT_REG_EIP s.
Definition in_segment {A} (m : Mach A) : Prop :=
  forall s, match m s with
  | Ret _ s' => CS_limit s' = CS_limit s /\ (eip_of s' = eip_of s \/ eip_of s' <= CS_limit s)
  | _ => True
  end.
Lemma in_segment_bind_yields {A B} (m : Mach A) (k : A -> Mach B) (P : A -> Prop) :
  in_segment m -> yields m P -> (forall a, P a -> in_segment (k a)) -> in_segment (m ≫= k).
Proof.
  intros Hm Hy Hk s. specialize (Hm s). specialize (Hy s). unfold mbind, M_bind.
  destruct (m s) as [a s1|v e s1|]; [|done|done]. specialize (Hk a (Hy a s1 eq_refl) s1).
  destruct (k a s1) as [b s2|v e s2|]; [|done|done]. destruct Hm as [L1 E1], Hk as [L2 E2].
  rewrite L1 in *. split; [done|]. destruct E2 as [->|E2]; auto.
Qed.
Lemma in_segment_bind {A B} (m : Mach A) (k : A -> Mach B) :
  in_segment m -> (forall a, in_segment (k a)) -> in_segment (m ≫= k).
Proof. intros Hm Hk. apply (in_segment_bind_yields _ _ (fun _ => True)); [done| |auto]. done. Qed.
#[export] Instance CS_limit_Frame x : Frame (fun s => CS_limit s = x).
Proof. apply (unmarked_Frame (fun seg => seg_limit_scaled (cache seg))). Qed.
Lemma in_segment_frame {A} (m : Mach A) :
  regless m -> (forall x, preserves (fun s => CS_limit s = x) m) -> in_segment m.
Proof.
  intros Hr Hp s. pose proof (regless_gen_reg m s Hr) as Hg. specialize (Hp (CS_limit s) s eq_refl).
  unfold eip_of, reg. destruct (m s); [|done|done]. rewrite Hg. auto.
Qed.
Lemma nth_insert_or (l : list Z) n x : nth n (<[n := x]> l) 0 = x \/ nth n (<[n := x]> l) 0 = nth n l 0.
Proof.
  destruct (decide (n < length l)%nat).
  - left. apply nth_lookup_Some. by apply list_lookup_insert_eq.
  - right. by rewrite list_insert_ge by lia.
Qed.
Lemma in_segment_EIP v n e {B} (k : Mach B) : 0 <= v -> in_segment k ->
  in_segment (limit ← gets CS_limit; when (limit <? v) (raise n e);; set_EIP v;; k).
Proof.
  intros Hv Hk s. unfold mbind, M_bind, gets. destruct (Z.ltb_spec (CS_limit s) v); [done|].
  cbn [when]. unfold mret, M_ret, set_EIP, BX_WRITE_32BIT_REGZ, modify.
  set (s1 := set_reg _ _ s). specialize (Hk s1). change (CS_limit s1) with (CS_limit s) in Hk.
  destruct (k s1) as [b s2|? ? s2|]; [|done|done]. destruct Hk as [-> [->|E]]; (split; [done|]); [|by right].
  unfold eip_of, reg, s1, set_reg. msimpl.
  destruct (nth_insert_or (gen_reg s) (Z.to_nat BX_32BIT_REG_EIP) (put_erx (reg BX_32BIT_REG_EIP s) v)) as [-> | ->];
    [|by left]. right. unfold put_erx. unfold wrap. pose proof (Z.mod_le v (2 ^ 32)). lia.
Qed.
Lemma in_segment_branch v n e : 0 <= v ->
  in_segment (limit ← gets CS_limit; when (limit <? v) (raise n e);; set_EIP v).
Proof.
  intros Hv. pose proof (in_segment_EIP v n e (mret tt) Hv) as H. intros s. specialize (H ltac:(intros ?; cbn; auto) s).
  unfold mbind, M_bind in *. unfold gets in *. by destruct (when _ _ s) as [[] s1|? ? s1|].
Qed.
Create HintDb in_segment discriminated.
#[export] Hint Constants Opaque : in_segment.
Lemma in_segment_ret {A} (a : A) : in_segment (mret a).
Proof. intros s. cbn. auto. Qed.
Lemma in_segment_gets {A} (f : machine -> A) : in_segment (gets f).
Proof. intros s. cbn. auto. Qed.
Lemma in_segment_raise {A} n e : in_segment (raise (A := A) n e).
Proof. by intros s. Qed.
Lemma in_segment_crash {A} : in_segment (crash (A := A)).
Proof. by intros s. Qed.
Lemma in_segment_when b (m : Mach unit) : in_segment m -> in_segment (when b m).
Proof. destruct b; [done|]. intros _. apply in_segment_ret. Qed.
Lemma in_segment_read w m : RegRead w m -> in_segment m.
Proof. intros (f & Hm & _) s. rewrite Hm. auto. Qed.
Lemma in_segment_reg n (f : machine -> Z) :
  n <> BX_32BIT_REG_EIP -> 0 <= n -> in_segment (modify (fun s => set_reg n (f s) s)).
Proof.
  intros Hn H0 s. cbn. split; [done|]. left. unfold eip_of, reg, set_reg. msimpl.
  rewrite !nth_lookup, list_lookup_insert_ne; [done|]. change BX_32BIT_REG_EIP with 8 in *. lia.
Qed.
Lemma in_segment_write n m :
  0 <= n -> n <> BX_32BIT_REG_EIP ->
  (exists f : machine -> Z, m = modify (fun s => set_reg n (f s) s)) -> in_segment m.
Proof. intros H0 Hn [f ->]. by apply in_segment_reg. Qed.
#[export] Hint Extern 1 (in_segment (set_ESP _)) => by apply (in_segment_write 4); [..|eexists] : in_segment.
#[export] Hint Extern 1 (in_segment (set_SP _)) => by apply (in_segment_write 4); [..|eexists] : in_segment.
#[export] Hint Extern 1 (in_segment (set_ECX _)) => by apply (in_segment_write 1); [..|eexists] : in_segment.
#[export] Hint Extern 1 (in_segment (set_CX _)) => by apply (in_segment_write 1); [..|eexists] : in_segment.
#[export] Hint Extern 1 (in_segment (set_TMP8L _)) => by apply (in_segment_write 10); [..|eexists] : in_segment.
#[export] Hint Extern 1 (in_segment (set_TMP16 _)) => by apply (in_segment_write 10); [..|eexists] : in_segment.
#[export] Hint Extern 1 (in_segment (set_TMP32 _)) => by apply (in_segment_write 10); [..|eexists] : in_segment.
Lemma write_virtual_32_in_segment len n o d : in_segment (write_virtual_32 len n o d).
Proof. apply in_segment_frame; [apply write_virtual_32_regless|intros x; apply write_virtual_32_frame, _]. Qed.
Lemma read_virtual_32_in_segment len n o : in_segment (read_virtual_32 len n o).
Proof. apply in_segment_frame; [apply read_virtual_32_regless|intros x; apply read_virtual_32_frame, _]. Qed.
#[export] Hint Resolve in_segment_ret in_segment_gets in_segment_raise in_segment_crash
  write_virtual_32_in_segment read_virtual_32_in_segment : in_segment.
Ltac in_segment_step :=
  match goal with
  | |- forall _, _ => intros ?
  | |- in_segment (let _ := _ in _) => cbv zeta
  | |- in_segment (mbind _ (gets CS_limit)) =>
      first [apply in_segment_branch; lia | apply in_segment_EIP; [lia|]]
  | |- in_segment (mbind _ _) =>
      first [eapply in_segment_bind_yields; [|solve [eauto with yields]|intros ?; cbv beta; intros ?]
            | apply in_segment_bind]
  | |- in_segment (match ?x with _ => _ end) => destruct x
  | |- in_segment (when _ _) => apply in_segment_when
  | |- in_segment (modify _) => let s := fresh in intros s; cbn; by auto
  | |- in_segment _ => first [ solve [eauto with in_segment] | eapply in_segment_read; typeclasses eauto ]
  end.
Ltac in_segment_tac := repeat in_segment_step.
Lemma push_16_in_segment v : in_segment (push_16 v).
Proof. unfold push_16, SS_d_b. unfold_widths. in_segment_tac. Qed.
Lemma push_32_in_segment v : in_segment (push_32 v).
Proof. unfold push_32, SS_d_b. unfold_widths. in_segment_tac. Qed.
Lemma pop_16_in_segment : in_segment pop_16.
Proof. unfold pop_16, SS_d_b. unfold_widths. in_segment_tac. Qed.
Lemma pop_32_in_segment : in_segment pop_32.
Proof. unfold pop_32, SS_d_b. unfold_widths. in_segment_tac. Qed.
Lemma branch_near16_in_segment v : 0 <= v -> in_segment (branch_near16 v).
Proof. intros Hv. unfold branch_near16. in_segment_tac. Qed.
Lemma branch_near32_in_segment v : 0 <= v -> in_segment (branch_near32 v).
Proof. intros Hv. unfold branch_near32. in_segment_tac. Qed.
#[export] Hint Extern 2 (0 <= _) => first [lia | by apply wrap_range] : in_segment.
#[local] Hint Resolve pop_16_yields pop_32_yields : yields.
Lemma resolve_in_segment i : in_segment (resolve i).
Proof. unfold resolve, BxResolve16BaseIndex, BxResolve32Base, BxResolve32BaseIndex. in_segment_tac. Qed.
#[export] Hint Resolve resolve_in_segment push_16_in_segment push_32_in_segment pop_16_in_segment pop_32_in_segment
  branch_near16_in_segment branch_near32_in_segment : in_segment.

Definition near_table : list (handler * handler) :=
  jump_table ++ (indirect_table ++ load_rows indirect_table) ++ call_table.
Ltac near_bounds :=
  intros i; cbn [fst]; match goal with |- in_segment (?h _) => unfold h end;
  unfold RSP_SPECULATIVE, RSP_COMMIT, SS_d_b; in_segment_tac.
Lemma jump_in_segment : Forall (fun p => forall i, in_segment (p.1 i)) jump_table.
Proof. table_tac near_bounds. Qed.
Lemma indirect_in_segment : Forall (fun p => forall i, in_segment (p.1 i)) indirect_table.
Proof. apply Forall_selves. table_tac near_bounds. Qed.
Lemma call_in_segment : Forall (fun p => forall i, in_segment (p.1 i)) (selves call_handlers).
Proof. apply Forall_selves. table_tac near_bounds. Qed.
Lemma load_in_segment T :
  Forall (fun p => forall i, in_segment (p.1 i)) T -> Forall (fun p => forall i, in_segment (p.1 i)) (load_rows T).
Proof.
  intros HT. unfold load_rows. rewrite !Forall_app, !Forall_fmap.
  split_and!; (eapply Forall_impl; [exact HT|]); intros [h r] Hp; load_unfold; in_segment_tac; apply Hp.
Qed.

(** C17: a near jump, call or return that completes, with its operand in a
    register or in memory, leaves the limit of the code segment alone and EIP
    either where it was (a jump not taken) or not beyond that limit. *)
Theorem near_transfers_bounded :
  Forall (fun p => forall i s s', p.1 i s = Ret tt s' ->
    CS_limit s' = CS_limit s /\ (eip_of s' = eip_of s \/ eip_of s' <= CS_limit s)) near_table.
Proof.
  assert (Forall (fun p => forall i, in_segment (p.1 i)) near_table) as H.
  { pose proof indirect_in_segment as Hi. pose proof call_in_segment as Hc.
    apply Forall_app_2; [apply jump_in_segment|]. apply Forall_app_2.
    - apply Forall_app_2; [done|by apply load_in_segment].
    - apply Forall_app_2; [done|]. by apply load_in_segment, loaded_calls. }
  eapply Forall_impl; [exact H|]. intros [h r] Hp i s s' E. cbn [fst] in *.
  specialize (Hp i s). by rewrite E in Hp.
Qed.
