(* ===== verification/FarXfer.v ===== *)
(** * FarXfer: far jumps, calls and returns, IRET, virtual-8086 mode, software interrupts

    cpu/jmp_far.cc, cpu/call_far.cc, cpu/ret_far.cc, cpu/iret.cc, cpu/vm8086.cc,
    cpu/soft_int.cc, and the far handlers of cpu/ctrl_xfer16.cc and
    cpu/ctrl_xfer32.cc.  The parts for long mode are not compiled. *)
From stdpp Require Import base numbers list gmap.
From Stdlib Require Import ZArith Lia.
From S2P Require Import Prelude Machine LazyFlags Memory Paging Access Regs Precise Reference Mode Segment SegLoad Frame Stack FlagCtrl CtrlPro Exception Delivery Contract.
From S2P Require Import Arith Logical Mult ShiftSpec Shift Bit DataXfer Coherence CtrlXfer.

Local Open Scope Z_scope.

(** ** cpu/jmp_far.cc *)

Definition task_gate (selector : bx_selector_t) (gate_descriptor : bx_descriptor_t) (source : Z) : Mach unit :=
  when (negb (IS_PRESENT gate_descriptor)) (exception BX_NP_EXCEPTION (Z.land (sel_value selector) 0xfffc));;
  let raw_tss_selector := taskgate_tss_selector gate_descriptor in
  let tss_selector := parse_selector raw_tss_selector in
  when (nz (sel_ti tss_selector)) (exception BX_GP_EXCEPTION (Z.land raw_tss_selector 0xfffc));;
  p ← fetch_raw_descriptor tss_selector BX_GP_EXCEPTION;
  let tss_descriptor := parse_descriptor p.1 p.2 uninitialised in
  when ((desc_valid tss_descriptor =? 0) || nz (desc_segment tss_descriptor))
    (exception BX_GP_EXCEPTION (Z.land raw_tss_selector 0xfffc));;
  when (negb (desc_type tss_descriptor =? BX_SYS_SEGMENT_AVAIL_286_TSS) &&
        negb (desc_type tss_descriptor =? BX_SYS_SEGMENT_AVAIL_386_TSS))
    (exception BX_GP_EXCEPTION (Z.land raw_tss_selector 0xfffc));;
  when (negb (IS_PRESENT tss_descriptor)) (exception BX_NP_EXCEPTION (Z.land raw_tss_selector 0xfffc));;
  task_switch tss_selector tss_descriptor source;;
  d_b ← gets (fun s => seg_d_b (cache (sreg BX_SEG_REG_CS s)));
  temp_eIP ← (if nz d_b then EIP else IP);
  limit ← gets CS_limit;
  when (limit <? temp_eIP) (exception BX_GP_EXCEPTION 0).

Definition jmp_call_gate (selector : bx_selector_t) (gate_descriptor : bx_descriptor_t) : Mach unit :=
  when (negb (IS_PRESENT gate_descriptor)) (exception BX_NP_EXCEPTION (Z.land (sel_value selector) 0xfffc));;
  let gate_cs_raw := gate_dest_selector gate_descriptor in
  when (Z.land gate_cs_raw 0xfffc =? 0) (exception BX_GP_EXCEPTION 0);;
  let gate_cs_selector := parse_selector gate_cs_raw in
  p ← fetch_raw_descriptor gate_cs_selector BX_GP_EXCEPTION;
  let gate_cs_descriptor := parse_descriptor p.1 p.2 uninitialised in
  cpl ← gets CPL;
  check_cs gate_cs_descriptor gate_cs_raw 0 cpl;;
  cpl ← gets CPL;
  branch_far32 gate_cs_selector gate_cs_descriptor (gate_dest_offset gate_descriptor) cpl.

(** The switch to an available TSS, common to jumps and calls; [EIP] must be in
    the new code segment. *)
Definition switch_to_tss (selector : bx_selector_t) (descriptor : bx_descriptor_t) (cs_raw source : Z) : Mach unit :=
  when ((desc_valid descriptor =? 0) || nz (sel_ti selector)) (exception BX_GP_EXCEPTION (Z.land cs_raw 0xfffc));;
  when (negb (IS_PRESENT descriptor)) (exception BX_NP_EXCEPTION (Z.land cs_raw 0xfffc));;
  task_switch selector descriptor source;;
  eip ← EIP;
  limit ← gets CS_limit;
  when (limit <? eip) (exception BX_GP_EXCEPTION 0).

Definition jump_protected (i : bxInstruction_c) (cs_raw disp : Z) : Mach unit :=
  when (Z.land cs_raw 0xfffc =? 0) (exception BX_GP_EXCEPTION 0);;
  let selector := parse_selector cs_raw in
  p ← fetch_raw_descriptor selector BX_GP_EXCEPTION;
  let descriptor := parse_descriptor p.1 p.2 uninitialised in
  if negb (desc_segment descriptor =? 0) then
    cpl ← gets CPL;
    check_cs descriptor cs_raw (BX_SELECTOR_RPL cs_raw) cpl;;
    cpl ← gets CPL;
    branch_far64 selector descriptor disp cpl
  else
    cpl ← gets CPL;
    when (desc_dpl descriptor <? cpl) (exception BX_GP_EXCEPTION (Z.land cs_raw 0xfffc));;
    when (desc_dpl descriptor <? sel_rpl selector) (exception BX_GP_EXCEPTION (Z.land cs_raw 0xfffc));;
    if case_in (desc_type descriptor) [BX_SYS_SEGMENT_AVAIL_286_TSS; BX_SYS_SEGMENT_AVAIL_386_TSS] then
      switch_to_tss selector descriptor cs_raw BX_TASK_FROM_JUMP
    else if desc_type descriptor =? BX_TASK_GATE then task_gate selector descriptor BX_TASK_FROM_JUMP
    else if case_in (desc_type descriptor) [BX_286_CALL_GATE; BX_386_CALL_GATE] then
      jmp_call_gate selector descriptor
    else exception BX_GP_EXCEPTION (Z.land cs_raw 0xfffc).

(** ** cpu/call_far.cc *)

(** [write_new_stack_word_32] and [write_new_stack_dword_32] through the SS
    register itself, whose cache bits they update. *)
Definition live_stack_checks (len : nat) (offset : Z) : Mach unit :=
  seg ← gets (sreg BX_SEG_REG_SS);
  cpl ← gets CPL;
  let error_code := if negb (sel_rpl (selector seg) =? cpl)
                    then Z.land (sel_value (selector seg)) 0xfffc else 0 in
  if nz (Z.land (desc_valid (cache seg)) SegAccessWOK) then
    when (negb (fast_limit_ok len offset (seg_limit_scaled (cache seg)))) (exception BX_SS_EXCEPTION error_code)
  else
    let '(ok, seg') := write_virtual_checks seg offset (Z.of_nat len) in
    modify (set_sreg BX_SEG_REG_SS seg');;
    when (negb ok) (exception BX_SS_EXCEPTION error_code).
Definition write_live_stack_32 (len : nat) (offset curr_pl data : Z) : Mach unit :=
  live_stack_checks len offset;;
  base ← gets (fun s => seg_base (cache (sreg BX_SEG_REG_SS s)));
  let laddr := u32 (base + offset) in
  let user := curr_pl =? 3 in
  ac ← gets alignment_check_mask;
  when (nz ac && user && nz (Z.land laddr (Z.of_nat len - 1))) (exception BX_AC_EXCEPTION 0);;
  access_write_linear laddr len curr_pl data.

(** The parameters copied from the old stack, the last one first. *)
Definition gate_parameter (len : nat) (return_ESP : Z) (n : nat) : Mach Z :=
  read_virtual_32 len BX_SEG_REG_SS (u32 (return_ESP + Z.of_nat n * Z.of_nat len)).

(** The frame of a call to more privilege: the old SS:ESP, the parameters, the
    return address; returns the new stack pointer. *)
Definition call_gate_frame (len : nat) (cast : Z -> Z) (pl temp : Z) (new_stack : bx_segment_reg_t)
    (return_SS return_ESP return_CS return_EIP : Z) (param_count : nat) : Mach Z :=
  let narrow := wrap (8 * Z.of_nat len) in
  write_frame len cast pl temp 0 new_stack
    ([mret return_SS; mret (narrow return_ESP)] ++
     (gate_parameter len return_ESP <$> rev (seq 0 param_count)) ++
     [mret return_CS; mret (narrow return_EIP)]);;
  mret (cast (temp - Z.of_nat len * (4 + Z.of_nat param_count))).

(** CALL GATE TO MORE PRIVILEGE *)
Definition call_gate_inner (gate_descriptor : bx_descriptor_t) (cs_selector : bx_selector_t)
    (cs_descriptor : bx_descriptor_t) : Mach unit :=
  let new_EIP := gate_dest_offset gate_descriptor in
  let dpl := desc_dpl cs_descriptor in
  p ← get_SS_ESP_from_TSS dpl;
  let '(SS_for_cpl_x, ESP_for_cpl_x) := p in
  when (Z.land SS_for_cpl_x 0xfffc =? 0) (exception BX_TS_EXCEPTION 0);;
  let ss_selector := parse_selector SS_for_cpl_x in
  p ← fetch_raw_descriptor ss_selector BX_TS_EXCEPTION;
  let ss_descriptor := parse_descriptor p.1 p.2 uninitialised in
  when (negb (sel_rpl ss_selector =? dpl)) (exception BX_TS_EXCEPTION (Z.land SS_for_cpl_x 0xfffc));;
  when (negb (desc_dpl ss_descriptor =? dpl)) (exception BX_TS_EXCEPTION (Z.land SS_for_cpl_x 0xfffc));;
  if (desc_valid ss_descriptor =? 0) || (desc_segment ss_descriptor =? 0) ||
     IS_CODE_SEGMENT (desc_type ss_descriptor) || negb (IS_DATA_SEGMENT_WRITEABLE (desc_type ss_descriptor))
  then exception BX_TS_EXCEPTION (Z.land SS_for_cpl_x 0xfffc) else
  when (negb (IS_PRESENT ss_descriptor)) (exception BX_SS_EXCEPTION (Z.land SS_for_cpl_x 0xfffc));;
  let param_count := Z.to_nat (Z.land (gate_param_count gate_descriptor) 0x1f) in
  return_SS ← sreg_value BX_SEG_REG_SS;
  ss_d_b ← SS_d_b;
  return_ESP ← (if nz ss_d_b then ESP else SP);
  return_CS ← sreg_value BX_SEG_REG_CS;
  return_EIP ← (if nz (seg_d_b cs_descriptor) then EIP else IP);
  let new_stack := mk_segment_reg
    (with_sel_value (Z.lor (Z.land 0xfffc (sel_value ss_selector)) dpl) (with_sel_rpl dpl ss_selector))
    ss_descriptor in
  let len := if desc_type gate_descriptor =? BX_386_CALL_GATE then 4%nat else 2%nat in
  (if nz (seg_d_b ss_descriptor) then
     temp_ESP ← call_gate_frame len u32 dpl ESP_for_cpl_x new_stack
                  return_SS return_ESP return_CS return_EIP param_count;
     set_ESP temp_ESP
   else
     temp_SP ← call_gate_frame len u16 dpl (u16 ESP_for_cpl_x) new_stack
                 return_SS return_ESP return_CS return_EIP param_count;
     set_SP temp_SP);;
  when (seg_limit_scaled cs_descriptor <? new_EIP) (exception BX_GP_EXCEPTION 0);;
  load_ss ss_selector ss_descriptor dpl;;
  load_cs cs_selector cs_descriptor dpl;;
  set_EIP new_EIP.

Definition call_gate (gate_descriptor : bx_descriptor_t) : Mach unit :=
  let dest_selector := gate_dest_selector gate_descriptor in
  let new_EIP := gate_dest_offset gate_descriptor in
  when (Z.land dest_selector 0xfffc =? 0) (exception BX_GP_EXCEPTION 0);;
  let cs_selector := parse_selector dest_selector in
  p ← fetch_raw_descriptor cs_selector BX_GP_EXCEPTION;
  let cs_descriptor := parse_descriptor p.1 p.2 uninitialised in
  cpl ← gets CPL;
  if (desc_valid cs_descriptor =? 0) || (desc_segment cs_descriptor =? 0) ||
     IS_DATA_SEGMENT (desc_type cs_descriptor) || (cpl <? desc_dpl cs_descriptor)
  then exception BX_GP_EXCEPTION (Z.land dest_selector 0xfffc) else
  when (negb (IS_PRESENT cs_descriptor)) (exception BX_NP_EXCEPTION (Z.land dest_selector 0xfffc));;
  if IS_CODE_SEGMENT_NON_CONFORMING (desc_type cs_descriptor) && (desc_dpl cs_descriptor <? cpl)
  then call_gate_inner gate_descriptor cs_selector cs_descriptor
  else
    cs ← sreg_value BX_SEG_REG_CS;
    (if desc_type gate_descriptor =? BX_386_CALL_GATE
     then push_32 cs;; eip ← EIP; push_32 eip
     else push_16 cs;; ip ← IP; push_16 ip);;
    cpl ← gets CPL;
    branch_far32 cs_selector cs_descriptor new_EIP cpl.

(** The call of a code segment: the return address on the stack, then CS:EIP,
    then ESP. *)
Definition call_segment (i : bxInstruction_c) (cs_selector : bx_selector_t) (cs_descriptor : bx_descriptor_t)
    (cs_raw disp : Z) : Mach unit :=
  cpl ← gets CPL;
  check_cs cs_descriptor cs_raw (BX_SELECTOR_RPL cs_raw) cpl;;
  d_b ← SS_d_b;
  temp_RSP ← (if nz d_b then ESP else SP);
  cs ← sreg_value BX_SEG_REG_CS;
  temp_RSP ←
    (if nz (os32L i) then
       write_live_stack_32 4 (u32 (temp_RSP - 4)) (desc_dpl cs_descriptor) cs;;
       eip ← EIP;
       write_live_stack_32 4 (u32 (temp_RSP - 8)) (desc_dpl cs_descriptor) eip;;
       mret (u32 (temp_RSP - 8))
     else
       write_live_stack_32 2 (u32 (temp_RSP - 2)) (desc_dpl cs_descriptor) cs;;
       ip ← IP;
       write_live_stack_32 2 (u32 (temp_RSP - 4)) (desc_dpl cs_descriptor) ip;;
       mret (u32 (temp_RSP - 4)));
  cpl ← gets CPL;
  branch_far64 cs_selector cs_descriptor disp cpl;;
  d_b ← SS_d_b;
  if nz d_b then set_ESP temp_RSP else set_SP (u16 temp_RSP).

Definition call_protected (i : bxInstruction_c) (cs_raw disp : Z) : Mach unit :=
  when (Z.land cs_raw 0xfffc =? 0) (exception BX_GP_EXCEPTION 0);;
  let cs_selector := parse_selector cs_raw in
  p ← fetch_raw_descriptor cs_selector BX_GP_EXCEPTION;
  let cs_descriptor := parse_descriptor p.1 p.2 uninitialised in
  when (desc_valid cs_descriptor =? 0) (exception BX_GP_EXCEPTION (Z.land cs_raw 0xfffc));;
  if negb (desc_segment cs_descriptor =? 0) then call_segment i cs_selector cs_descriptor cs_raw disp
  else
    let gate_descriptor := cs_descriptor in
    let gate_selector := cs_selector in
    cpl ← gets CPL;
    when (desc_dpl gate_descriptor <? cpl) (exception BX_GP_EXCEPTION (Z.land cs_raw 0xfffc));;
    when (desc_dpl gate_descriptor <? sel_rpl gate_selector) (exception BX_GP_EXCEPTION (Z.land cs_raw 0xfffc));;
    if case_in (desc_type gate_descriptor) [BX_SYS_SEGMENT_AVAIL_286_TSS; BX_SYS_SEGMENT_AVAIL_386_TSS] then
      switch_to_tss gate_selector gate_descriptor cs_raw BX_TASK_FROM_CALL
    else if desc_type gate_descriptor =? BX_TASK_GATE then task_gate gate_selector gate_descriptor BX_TASK_FROM_CALL
    else if case_in (desc_type gate_descriptor) [BX_286_CALL_GATE; BX_386_CALL_GATE] then
      when (negb (IS_PRESENT gate_descriptor)) (exception BX_NP_EXCEPTION (Z.land cs_raw 0xfffc));;
      call_gate gate_descriptor
    else exception BX_GP_EXCEPTION (Z.land cs_raw 0xfffc).

(** ** cpu/ret_far.cc *)

(** What [return_protected] and [iret_protected] ask of the stack segment of an
    outer level; [absent] is the exception for a segment that is not present. *)
Definition check_outer_ss (ss_selector : bx_selector_t) (ss_descriptor : bx_descriptor_t) (raw_ss_selector rpl absent : Z)
    : Mach unit :=
  when ((desc_valid ss_descriptor =? 0) || (desc_segment ss_descriptor =? 0) ||
        IS_CODE_SEGMENT (desc_type ss_descriptor) || negb (IS_DATA_SEGMENT_WRITEABLE (desc_type ss_descriptor)))
    (exception BX_GP_EXCEPTION (Z.land raw_ss_selector 0xfffc));;
  when (negb (desc_dpl ss_descriptor =? rpl)) (exception BX_GP_EXCEPTION (Z.land raw_ss_selector 0xfffc));;
  when (negb (IS_PRESENT ss_descriptor)) (exception absent (Z.land raw_ss_selector 0xfffc)).

Definition return_protected (i : bxInstruction_c) (pop_bytes : Z) : Mach unit :=
  d_b ← SS_d_b;
  temp_RSP ← (if nz d_b then ESP else SP);
  let stack_param_offset := if nz (os32L i) then 8 else 4 in
  raw_cs_selector ← (if nz (os32L i) then v ← read_virtual_dword_32 BX_SEG_REG_SS (u32 (temp_RSP + 4)); mret (u16 v)
                     else read_virtual_word_32 BX_SEG_REG_SS (u32 (temp_RSP + 2)));
  return_RIP ← (if nz (os32L i) then read_virtual_dword_32 BX_SEG_REG_SS temp_RSP
                else read_virtual_word_32 BX_SEG_REG_SS temp_RSP);
  when (Z.land raw_cs_selector 0xfffc =? 0) (exception BX_GP_EXCEPTION 0);;
  let cs_selector := parse_selector raw_cs_selector in
  p ← fetch_raw_descriptor cs_selector BX_GP_EXCEPTION;
  let cs_descriptor := parse_descriptor p.1 p.2 uninitialised in
  cpl ← gets CPL;
  when (sel_rpl cs_selector <? cpl) (exception BX_GP_EXCEPTION (Z.land raw_cs_selector 0xfffc));;
  check_cs cs_descriptor raw_cs_selector 0 (sel_rpl cs_selector);;
  if sel_rpl cs_selector =? cpl then
    branch_far64 cs_selector cs_descriptor return_RIP cpl;;
    d_b ← SS_d_b;
    if nz d_b then esp ← ESP; set_ESP (u32 (esp + stack_param_offset + pop_bytes))
    else sp ← SP; set_SP (u16 (sp + stack_param_offset + pop_bytes))
  else
    raw_ss_selector ←
      read_virtual_word_32 BX_SEG_REG_SS (u32 (temp_RSP + (if nz (os32L i) then 12 else 6) + pop_bytes));
    return_RSP ← (if nz (os32L i) then read_virtual_dword_32 BX_SEG_REG_SS (u32 (temp_RSP + 8 + pop_bytes))
                  else read_virtual_word_32 BX_SEG_REG_SS (u32 (temp_RSP + 4 + pop_bytes)));
    let ss_selector := parse_selector raw_ss_selector in
    when (Z.land raw_ss_selector 0xfffc =? 0) (exception BX_GP_EXCEPTION 0);;
    p ← fetch_raw_descriptor ss_selector BX_GP_EXCEPTION;
    let ss_descriptor := parse_descriptor p.1 p.2 uninitialised in
    when (negb (sel_rpl ss_selector =? sel_rpl cs_selector))
      (exception BX_GP_EXCEPTION (Z.land raw_ss_selector 0xfffc));;
    check_outer_ss ss_selector ss_descriptor raw_ss_selector (sel_rpl cs_selector) BX_SS_EXCEPTION;;
    branch_far64 cs_selector cs_descriptor return_RIP (sel_rpl cs_selector);;
    when (negb (Z.land raw_ss_selector 0xfffc =? 0)) (load_ss ss_selector ss_descriptor (sel_rpl cs_selector));;
    (if nz (seg_d_b ss_descriptor) then set_ESP (u32 (return_RSP + pop_bytes))
     else set_SP (u16 (return_RSP + pop_bytes)));;
    validate_seg_regs.

(** ** cpu/vm8086.cc *)

Definition v8086_cache (selector_value : Z) : bx_descriptor_t :=
  mk_descriptor (Z.lor SegValidCache (Z.lor SegAccessROK SegAccessWOK)) 1 3 1 BX_DATA_READ_WRITE_ACCESSED
    (u32 (Z.shiftl selector_value 4)) 0xffff 0 0 0.
Definition init_v8086_sreg (n : Z) : Mach unit :=
  modify (fun s => set_sreg n (mk_segment_reg (with_sel_rpl 3 (selector (sreg n s)))
                                 (v8086_cache (sel_value (selector (sreg n s))))) s).
Fixpoint init_v8086_sregs (count : nat) (n : Z) : Mach unit :=
  match count with
  | O => mret tt
  | S count => init_v8086_sreg n;; init_v8086_sregs count (n + 1)
  end.
Definition init_v8086_mode : Mach unit :=
  init_v8086_sregs 6 0;;
  handleCpuModeChange;;
  handleAlignmentCheck.

Definition set_sel_value (n v : Z) : Mach unit :=
  modify (fun s => set_sreg n (mk_segment_reg (with_sel_value v (selector (sreg n s))) (cache (sreg n s))) s).

Definition stack_return_to_v86 (new_eip raw_cs_selector flags32 : Z) : Mach unit :=
  d_b ← SS_d_b;
  temp_ESP ← (if nz d_b then ESP else SP);
  new_esp ← read_virtual_dword_32 BX_SEG_REG_SS (u32 (temp_ESP + 12));
  raw_ss_selector ← read_virtual_dword_32 BX_SEG_REG_SS (u32 (temp_ESP + 16));
  raw_es_selector ← read_virtual_dword_32 BX_SEG_REG_SS (u32 (temp_ESP + 20));
  raw_ds_selector ← read_virtual_dword_32 BX_SEG_REG_SS (u32 (temp_ESP + 24));
  raw_fs_selector ← read_virtual_dword_32 BX_SEG_REG_SS (u32 (temp_ESP + 28));
  raw_gs_selector ← read_virtual_dword_32 BX_SEG_REG_SS (u32 (temp_ESP + 32));
  writeEFlags flags32 EFlagsValidMask;;
  set_sel_value BX_SEG_REG_CS (u16 raw_cs_selector);;
  set_EIP (Z.land new_eip 0xffff);;
  set_sel_value BX_SEG_REG_ES (u16 raw_es_selector);;
  set_sel_value BX_SEG_REG_DS (u16 raw_ds_selector);;
  set_sel_value BX_SEG_REG_FS (u16 raw_fs_selector);;
  set_sel_value BX_SEG_REG_GS (u16 raw_gs_selector);;
  set_sel_value BX_SEG_REG_SS (u16 raw_ss_selector);;
  set_ESP new_esp;;
  init_v8086_mode.

Definition iret16_stack_return_from_v86 (i : bxInstruction_c) : Mach unit :=
  iopl ← gets get_IOPL;
  vme ← gets cr4_get_VME;
  when ((iopl <? 3) && (vme =? 0)) (exception BX_GP_EXCEPTION 0);;
  ip ← pop_16;
  cs_raw ← pop_16;
  flags16 ← pop_16;
  vme ← gets cr4_get_VME;
  iopl ← gets get_IOPL;
  if nz vme && (iopl <? 3) then
    vip ← gets get_VIP;
    when ((nz (Z.land flags16 EFlagsIFMask) && nz vip) || nz (Z.land flags16 EFlagsTFMask))
      (exception BX_GP_EXCEPTION 0);;
    load_seg_reg BX_SEG_REG_CS cs_raw;;
    set_EIP ip;;
    let changeMask := Z.lor EFlagsOSZAPCMask (Z.lor EFlagsTFMask (Z.lor EFlagsDFMask (Z.lor EFlagsNTMask EFlagsVIFMask))) in
    let flags32 := if nz (Z.land flags16 EFlagsIFMask) then Z.lor flags16 EFlagsVIFMask else flags16 in
    writeEFlags flags32 changeMask
  else
    load_seg_reg BX_SEG_REG_CS cs_raw;;
    set_EIP ip;;
    write_flags flags16 0 1.

Definition iret32_stack_return_from_v86 (i : bxInstruction_c) : Mach unit :=
  iopl ← gets get_IOPL;
  when (iopl <? 3) (exception BX_GP_EXCEPTION 0);;
  let change_mask := Z.lor EFlagsOSZAPCMask (Z.lor EFlagsTFMask (Z.lor EFlagsIFMask
                       (Z.lor EFlagsDFMask (Z.lor EFlagsNTMask EFlagsRFMask)))) in
  let change_mask := Z.lor change_mask (Z.lor EFlagsIDMask EFlagsACMask) in
  eip ← pop_32;
  cs_raw ← pop_32;
  flags32 ← pop_32;
  load_seg_reg BX_SEG_REG_CS (u16 cs_raw);;
  set_EIP eip;;
  writeEFlags flags32 change_mask.

(** The redirection itself: the interrupt goes through the table at address 0. *)
Definition v86_redirect (vector : Z) : Mach unit :=
  fl ← read_eflags;
  temp_CS ← system_read_word (vector * 4 + 2);
  temp_IP ← system_read_word (vector * 4);
  iopl ← gets get_IOPL;
  vif ← gets get_VIF;
  let temp_flags := u16 fl in
  let temp_flags :=
    if iopl <? 3 then
      let temp_flags := Z.lor temp_flags EFlagsIOPLMask in
      if nz vif then Z.lor temp_flags EFlagsIFMask else Z.ldiff temp_flags EFlagsIFMask
    else temp_flags in
  old_IP ← IP;
  old_CS ← sreg_value BX_SEG_REG_CS;
  push_16 temp_flags;;
  push_16 old_CS;;
  push_16 old_IP;;
  load_seg_reg BX_SEG_REG_CS temp_CS;;
  set_EIP temp_IP;;
  clear_TF;;
  clear_RF;;
  iopl ← gets get_IOPL;
  if iopl =? 3 then clear_IF else clear_VIF.

(** Returns whether the interrupt was redirected. *)
Definition v86_redirect_interrupt (vector : Z) : Mach bool :=
  vme ← gets cr4_get_VME;
  redirected ←
    (if nz vme then
       tr ← gets tr;
       let tr_base := seg_base (cache tr) in
       let tr_limit := seg_limit_scaled (cache tr) in
       when (tr_limit <? 103) (exception BX_GP_EXCEPTION 0);;
       io_base ← system_read_word (u32 (tr_base + 102));
       let offset := u32 (io_base - 32 + Z.shiftr vector 3) in
       when (tr_limit <? offset) (exception BX_GP_EXCEPTION 0);;
       vme_redirection_bitmap ← system_read_byte (u32 (tr_base + offset));
       if negb (nz (Z.land vme_redirection_bitmap (Z.shiftl 1 (Z.land vector 7))))
       then v86_redirect vector;; mret true
       else mret false
     else mret false);
  if (redirected : bool) then mret true
  else
    iopl ← gets get_IOPL;
    when (iopl <? 3) (exception BX_GP_EXCEPTION 0);;
    mret false.

(** ** cpu/iret.cc *)

(** NT = 1: RETURN FROM NESTED TASK *)
Definition iret_nested_task : Mach unit :=
  tr ← gets tr;
  raw_link_selector ← system_read_word (seg_base (cache tr));
  let link_selector := parse_selector raw_link_selector in
  when (nz (sel_ti link_selector)) (exception BX_TS_EXCEPTION (Z.land raw_link_selector 0xfffc));;
  p ← fetch_raw_descriptor link_selector BX_TS_EXCEPTION;
  let tss_descriptor := parse_descriptor p.1 p.2 uninitialised in
  when ((desc_valid tss_descriptor =? 0) || nz (desc_segment tss_descriptor))
    (exception BX_TS_EXCEPTION (Z.land raw_link_selector 0xfffc));;
  when (negb (desc_type tss_descriptor =? BX_SYS_SEGMENT_BUSY_286_TSS) &&
        negb (desc_type tss_descriptor =? BX_SYS_SEGMENT_BUSY_386_TSS))
    (exception BX_TS_EXCEPTION (Z.land raw_link_selector 0xfffc));;
  when (negb (IS_PRESENT tss_descriptor)) (exception BX_NP_EXCEPTION (Z.land raw_link_selector 0xfffc));;
  task_switch link_selector tss_descriptor BX_TASK_FROM_IRET;;
  eip ← EIP;
  limit ← gets CS_limit;
  when (limit <? eip) (exception BX_GP_EXCEPTION 0).

(** The bits IRET may change, at this CPL and IOPL. *)
Definition iret_mask (cpl iopl : Z) : Z :=
  let changeMask := Z.lor EFlagsOSZAPCMask (Z.lor EFlagsTFMask (Z.lor EFlagsDFMask (Z.lor EFlagsNTMask EFlagsRFMask))) in
  let changeMask := Z.lor changeMask (Z.lor EFlagsIDMask EFlagsACMask) in
  let changeMask := if cpl <=? iopl then Z.lor changeMask EFlagsIFMask else changeMask in
  if cpl =? 0 then Z.lor changeMask (Z.lor EFlagsVIPMask (Z.lor EFlagsVIFMask EFlagsIOPLMask)) else changeMask.

(** INTERRUPT RETURN TO SAME LEVEL *)
Definition iret_same (i : bxInstruction_c) (cs_selector : bx_selector_t) (cs_descriptor : bx_descriptor_t)
    (new_eip new_flags : Z) : Mach unit :=
  branch_far32 cs_selector cs_descriptor new_eip (sel_rpl cs_selector);;
  cpl ← gets CPL;
  iopl ← gets get_IOPL;
  (if nz (os32L i) then writeEFlags new_flags (iret_mask cpl iopl)
   else write_flags new_flags (Z.b2z (cpl =? 0)) (Z.b2z (cpl <=? iopl)));;
  let top_nbytes_same := if nz (os32L i) then 12 else 6 in
  d_b ← SS_d_b;
  if nz d_b then esp ← ESP; set_ESP (u32 (esp + top_nbytes_same))
  else sp ← SP; set_SP (u16 (sp + top_nbytes_same)).

(** INTERRUPT RETURN TO OUTER PRIVILEGE LEVEL *)
Definition iret_outer (i : bxInstruction_c) (cs_selector : bx_selector_t) (cs_descriptor : bx_descriptor_t)
    (temp_ESP : Z) : Mach unit :=
  raw_ss_selector ← read_virtual_word_32 BX_SEG_REG_SS (u32 (temp_ESP + (if nz (os32L i) then 16 else 8)));
  when (Z.land raw_ss_selector 0xfffc =? 0) (exception BX_GP_EXCEPTION 0);;
  let ss_selector := parse_selector raw_ss_selector in
  when (negb (sel_rpl ss_selector =? sel_rpl cs_selector))
    (exception BX_GP_EXCEPTION (Z.land raw_ss_selector 0xfffc));;
  p ← fetch_raw_descriptor ss_selector BX_GP_EXCEPTION;
  let ss_descriptor := parse_descriptor p.1 p.2 uninitialised in
  check_outer_ss ss_selector ss_descriptor raw_ss_selector (sel_rpl cs_selector) BX_NP_EXCEPTION;;
  new_esp ← (if nz (os32L i) then read_virtual_dword_32 BX_SEG_REG_SS (u32 (temp_ESP + 12))
             else read_virtual_word_32 BX_SEG_REG_SS (u32 (temp_ESP + 6)));
  new_eflags ← (if nz (os32L i) then read_virtual_dword_32 BX_SEG_REG_SS (u32 (temp_ESP + 8))
                else read_virtual_word_32 BX_SEG_REG_SS (u32 (temp_ESP + 4)));
  new_eip ← (if nz (os32L i) then read_virtual_dword_32 BX_SEG_REG_SS temp_ESP
             else read_virtual_word_32 BX_SEG_REG_SS temp_ESP);
  cpl ← gets CPL;
  iopl ← gets get_IOPL;
  let changeMask := iret_mask cpl iopl in
  let changeMask := if nz (os32L i) then changeMask else Z.land changeMask 0xffff in
  branch_far32 cs_selector cs_descriptor new_eip (sel_rpl cs_selector);;
  writeEFlags new_eflags changeMask;;
  load_ss ss_selector ss_descriptor (sel_rpl cs_selector);;
  (if nz (seg_d_b ss_descriptor) then set_ESP new_esp else set_SP (u16 new_esp));;
  validate_seg_regs.

(** Both, once the image of CS, EIP and EFLAGS is read. *)
Definition iret_segment (i : bxInstruction_c) (temp_ESP raw_cs_selector new_eip new_flags : Z) : Mach unit :=
  let cs_selector := parse_selector raw_cs_selector in
  when (Z.land raw_cs_selector 0xfffc =? 0) (exception BX_GP_EXCEPTION 0);;
  p ← fetch_raw_descriptor cs_selector BX_GP_EXCEPTION;
  let cs_descriptor := parse_descriptor p.1 p.2 uninitialised in
  cpl ← gets CPL;
  when (sel_rpl cs_selector <? cpl) (exception BX_GP_EXCEPTION (Z.land raw_cs_selector 0xfffc));;
  check_cs cs_descriptor raw_cs_selector 0 (sel_rpl cs_selector);;
  if sel_rpl cs_selector =? cpl then iret_same i cs_selector cs_descriptor new_eip new_flags
  else iret_outer i cs_selector cs_descriptor temp_ESP.

(** NT = 0: INTERRUPT RETURN ON STACK -or STACK_RETURN_TO_V86 *)
Definition iret_stack (i : bxInstruction_c) : Mach unit :=
  d_b ← SS_d_b;
  temp_ESP ← (if nz d_b then ESP else SP);
  if nz (os32L i) then
    new_eflags ← read_virtual_dword_32 BX_SEG_REG_SS (u32 (temp_ESP + 8));
    raw_cs_selector ← read_virtual_dword_32 BX_SEG_REG_SS (u32 (temp_ESP + 4));
    new_eip ← read_virtual_dword_32 BX_SEG_REG_SS temp_ESP;
    cpl ← gets CPL;
    if nz (Z.land new_eflags EFlagsVMMask) && (cpl =? 0)
    then stack_return_to_v86 new_eip (u16 raw_cs_selector) new_eflags
    else iret_segment i temp_ESP (u16 raw_cs_selector) new_eip new_eflags
  else
    new_flags ← read_virtual_word_32 BX_SEG_REG_SS (u32 (temp_ESP + 4));
    raw_cs_selector ← read_virtual_word_32 BX_SEG_REG_SS (u32 (temp_ESP + 2));
    new_ip ← read_virtual_word_32 BX_SEG_REG_SS temp_ESP;
    iret_segment i temp_ESP raw_cs_selector new_ip new_flags.
Definition iret_protected (i : bxInstruction_c) : Mach unit :=
  nt ← gets get_NT;
  if nz nt then iret_nested_task else iret_stack i.

(** ** The far handlers of cpu/ctrl_xfer16.cc *)

(** Real and virtual-8086 mode: the limit of CS, then CS and EIP. *)
Definition real_far_branch (cs_raw ip : Z) : Mach unit :=
  limit ← gets CS_limit;
  when (limit <? ip) (exception BX_GP_EXCEPTION 0);;
  load_seg_reg BX_SEG_REG_CS cs_raw;;
  set_EIP ip.

Definition RETfar16_Iw (i : bxInstruction_c) : Mach unit :=
  invalidate_prefetch_q;;
  let imm16 := s16 (Iw i) in
  protected ← gets protected_mode;
  if (protected : bool) then return_protected i (u16 imm16) else
  RSP_SPECULATIVE;;
  ip ← pop_16;
  cs_raw ← pop_16;
  real_far_branch cs_raw ip;;
  d_b ← SS_d_b;
  (if nz d_b then esp ← ESP; set_ESP (u32 (esp + imm16)) else sp ← SP; set_SP (u16 (sp + imm16)));;
  RSP_COMMIT.
Definition RETfar16 (i : bxInstruction_c) : Mach unit :=
  invalidate_prefetch_q;;
  protected ← gets protected_mode;
  if (protected : bool) then return_protected i 0 else
  RSP_SPECULATIVE;;
  ip ← pop_16;
  cs_raw ← pop_16;
  real_far_branch cs_raw ip;;
  RSP_COMMIT.
Definition CALL16_Ap (i : bxInstruction_c) : Mach unit :=
  invalidate_prefetch_q;;
  let disp16 := Iw i in
  let cs_raw := Iw2 i in
  RSP_SPECULATIVE;;
  protected ← gets protected_mode;
  (if (protected : bool) then call_protected i cs_raw disp16
   else
     cs ← sreg_value BX_SEG_REG_CS; push_16 cs;;
     ip ← IP; push_16 ip;;
     real_far_branch cs_raw disp16);;
  RSP_COMMIT.
Definition CALL16_Ep (i : bxInstruction_c) : Mach unit :=
  invalidate_prefetch_q;;
  eaddr ← resolve i;
  op1_16 ← read_virtual_word_32 (i_seg i) eaddr;
  cs_raw ← read_virtual_word_32 (i_seg i) (u32 (eaddr + 2));
  RSP_SPECULATIVE;;
  protected ← gets protected_mode;
  (if (protected : bool) then call_protected i cs_raw op1_16
   else
     cs ← sreg_value BX_SEG_REG_CS; push_16 cs;;
     ip ← IP; push_16 ip;;
     real_far_branch cs_raw op1_16);;
  RSP_COMMIT.
Definition JMP16_Ep (i : bxInstruction_c) : Mach unit :=
  invalidate_prefetch_q;;
  eaddr ← resolve i;
  op1_16 ← read_virtual_word_32 (i_seg i) eaddr;
  cs_raw ← read_virtual_word_32 (i_seg i) (u32 (eaddr + 2));
  protected ← gets protected_mode;
  if (protected : bool) then jump_protected i cs_raw op1_16 else real_far_branch cs_raw op1_16.
Definition IRET16 (i : bxInstruction_c) : Mach unit :=
  invalidate_prefetch_q;;
  modify (with_disable_NMI 0);;
  protected ← gets protected_mode;
  if (protected : bool) then iret_protected i else
  RSP_SPECULATIVE;;
  v86 ← gets v8086_mode;
  (if (v86 : bool) then iret16_stack_return_from_v86 i
   else
     ip ← pop_16;
     cs_raw ← pop_16;
     flags ← pop_16;
     real_far_branch cs_raw ip;;
     write_flags flags 1 1);;
  RSP_COMMIT.

(** ** The far handlers of cpu/ctrl_xfer32.cc *)

Definition RETfar32_Iw (i : bxInstruction_c) : Mach unit :=
  invalidate_prefetch_q;;
  let imm16 := Iw i in
  protected ← gets protected_mode;
  if (protected : bool) then return_protected i imm16 else
  RSP_SPECULATIVE;;
  eip ← pop_32;
  cs_raw ← pop_32;
  real_far_branch (u16 cs_raw) eip;;
  d_b ← SS_d_b;
  (if nz d_b then esp ← ESP; set_ESP (u32 (esp + imm16)) else sp ← SP; set_SP (u16 (sp + imm16)));;
  RSP_COMMIT.
Definition RETfar32 (i : bxInstruction_c) : Mach unit :=
  invalidate_prefetch_q;;
  protected ← gets protected_mode;
  if (protected : bool) then return_protected i 0 else
  RSP_SPECULATIVE;;
  eip ← pop_32;
  cs_raw ← pop_32;
  real_far_branch (u16 cs_raw) eip;;
  RSP_COMMIT.

(** Here the limit is checked before the return address is pushed. *)
Definition CALL32_Ap (i : bxInstruction_c) : Mach unit :=
  invalidate_prefetch_q;;
  let disp32 := Id i in
  let cs_raw := Iw2 i in
  RSP_SPECULATIVE;;
  protected ← gets protected_mode;
  (if (protected : bool) then call_protected i cs_raw disp32
   else
     limit ← gets CS_limit;
     when (limit <? disp32) (exception BX_GP_EXCEPTION 0);;
     cs ← sreg_value BX_SEG_REG_CS; push_32 cs;;
     eip ← EIP; push_32 eip;;
     load_seg_reg BX_SEG_REG_CS cs_raw;;
     set_EIP disp32);;
  RSP_COMMIT.
Definition CALL32_Ep (i : bxInstruction_c) : Mach unit :=
  invalidate_prefetch_q;;
  eaddr ← resolve i;
  op1_32 ← read_virtual_dword_32 (i_seg i) eaddr;
  cs_raw ← read_virtual_word_32 (i_seg i) (u32 (eaddr + 4));
  RSP_SPECULATIVE;;
  protected ← gets protected_mode;
  (if (protected : bool) then call_protected i cs_raw op1_32
   else
     limit ← gets CS_limit;
     when (limit <? op1_32) (exception BX_GP_EXCEPTION 0);;
     cs ← sreg_value BX_SEG_REG_CS; push_32 cs;;
     eip ← EIP; push_32 eip;;
     load_seg_reg BX_SEG_REG_CS cs_raw;;
     set_EIP op1_32);;
  RSP_COMMIT.
Definition JMP_Ap (i : bxInstruction_c) : Mach unit :=
  invalidate_prefetch_q;;
  let disp32 := if nz (os32L i) then Id i else Iw i in
  let cs_raw := Iw2 i in
  protected ← gets protected_mode;
  if (protected : bool) then jump_protected i cs_raw disp32 else real_far_branch cs_raw disp32.
Definition JMP32_Ep (i : bxInstruction_c) : Mach unit :=
  invalidate_prefetch_q;;
  eaddr ← resolve i;
  op1_32 ← read_virtual_dword_32 (i_seg i) eaddr;
  cs_raw ← read_virtual_word_32 (i_seg i) (u32 (eaddr + 4));
  protected ← gets protected_mode;
  if (protected : bool) then jump_protected i cs_raw op1_32 else real_far_branch cs_raw op1_32.
Definition IRET32 (i : bxInstruction_c) : Mach unit :=
  invalidate_prefetch_q;;
  modify (with_disable_NMI 0);;
  protected ← gets protected_mode;
  if (protected : bool) then iret_protected i else
  RSP_SPECULATIVE;;
  v86 ← gets v8086_mode;
  (if (v86 : bool) then iret32_stack_return_from_v86 i
   else
     eip ← pop_32;
     cs_raw ← pop_32;
     eflags32 ← pop_32;
     real_far_branch (u16 cs_raw) eip;;
     writeEFlags eflags32 0x00257fd5);;
  RSP_COMMIT.

(** ** cpu/soft_int.cc *)

Definition BOUND_GwMa (i : bxInstruction_c) : Mach unit :=
  op1_16 ← BX_READ_16BIT_REG (i_nnn i);
  eaddr ← resolve i;
  bound_min ← read_virtual_word_32 (i_seg i) eaddr;
  bound_max ← read_virtual_word_32 (i_seg i) (u32 (eaddr + 2));
  when ((s16 op1_16 <? s16 bound_min) || (s16 bound_max <? s16 op1_16)) (exception BX_BR_EXCEPTION 0).
Definition BOUND_GdMa (i : bxInstruction_c) : Mach unit :=
  op1_32 ← BX_READ_32BIT_REG (i_nnn i);
  eaddr ← resolve i;
  bound_min ← read_virtual_dword_32 (i_seg i) eaddr;
  bound_max ← read_virtual_dword_32 (i_seg i) (u32 (eaddr + 4));
  when ((s32 op1_32 <? s32 bound_min) || (s32 bound_max <? s32 op1_32)) (exception BX_BR_EXCEPTION 0).

Definition INT1 (i : bxInstruction_c) : Mach unit :=
  modify (with_EXT 1);;
  interrupt 1 BX_PRIVILEGED_SOFTWARE_INTERRUPT 0 0;;
  modify (with_EXT 0).
Definition INT3 (i : bxInstruction_c) : Mach unit := interrupt 3 BX_SOFTWARE_EXCEPTION 0 0.
Definition INT_Ib (i : bxInstruction_c) : Mach unit :=
  let vector := Ib i in
  RSP_SPECULATIVE;;
  v86 ← gets v8086_mode;
  redirected ← (if (v86 : bool) then v86_redirect_interrupt vector else mret false);
  when (negb redirected) (interrupt vector BX_SOFTWARE_INTERRUPT 0 0);;
  RSP_COMMIT.
Definition INTO (i : bxInstruction_c) : Mach unit :=
  of_ ← gets (get_flag OF);
  when (nz of_) (interrupt 4 BX_SOFTWARE_EXCEPTION 0 0).

Definition far_handlers : list handler :=
  [RETfar16_Iw; RETfar16; CALL16_Ap; CALL16_Ep; JMP16_Ep; IRET16;
   RETfar32_Iw; RETfar32; CALL32_Ap; CALL32_Ep; JMP_Ap; JMP32_Ep; IRET32;
   INT1; INT3; INT_Ib].
Definition bound_handlers : list handler := [BOUND_GwMa; BOUND_GdMa].

(** INTO reads a flag that may be pending. *)
Definition ref_into (i : bxInstruction_c) : Mach unit :=
  fl ← gets flags_of; when (fl OF) (interrupt 4 BX_SOFTWARE_EXCEPTION 0 0).
Definition far_table : list (handler * handler) := selves far_handlers ++ [(INTO, ref_into)].

(** ** Pending flags do not matter *)

Lemma check_cs_refines d raw rpl cpl : refines (check_cs d raw rpl cpl) (check_cs d raw rpl cpl).
Proof. unfold check_cs. refines_tac. Qed.
Lemma branch_far32_refines sel d ip cpl : refines (branch_far32 sel d ip cpl) (branch_far32 sel d ip cpl).
Proof. unfold branch_far32. refines_tac. Qed.
Lemma branch_far64_refines sel d ip cpl : refines (branch_far64 sel d ip cpl) (branch_far64 sel d ip cpl).
Proof. unfold branch_far64. refines_tac. Qed.
Lemma validate_seg_regs_refines : refines validate_seg_regs validate_seg_regs.
Proof. unfold validate_seg_regs, validate_seg_reg. refines_tac. Qed.
#[local] Hint Resolve check_cs_refines branch_far32_refines branch_far64_refines validate_seg_regs_refines
  interrupt_refines : refines.
Ltac far_refines :=
  unfold sreg_value, SS_d_b, system_read_word, system_read_byte; unfold_widths; refines_tac.

Lemma task_gate_refines sel d source : refines (task_gate sel d source) (task_gate sel d source).
Proof. unfold task_gate. far_refines. Qed.
Lemma switch_to_tss_refines sel d raw source : refines (switch_to_tss sel d raw source) (switch_to_tss sel d raw source).
Proof. unfold switch_to_tss. far_refines. Qed.
Lemma jmp_call_gate_refines sel d : refines (jmp_call_gate sel d) (jmp_call_gate sel d).
Proof. unfold jmp_call_gate. far_refines. Qed.
#[local] Hint Resolve task_gate_refines switch_to_tss_refines jmp_call_gate_refines : refines.
Lemma jump_protected_refines i raw disp : refines (jump_protected i raw disp) (jump_protected i raw disp).
Proof. unfold jump_protected. far_refines. Qed.

Lemma write_live_stack_32_refines len o pl v : refines (write_live_stack_32 len o pl v) (write_live_stack_32 len o pl v).
Proof. unfold write_live_stack_32, live_stack_checks. far_refines. Qed.
Lemma call_gate_frame_refines len c pl temp st a b d e n :
  refines (call_gate_frame len c pl temp st a b d e n) (call_gate_frame len c pl temp st a b d e n).
Proof.
  unfold call_gate_frame. cbv zeta. apply refines_bind; [apply write_frame_refines|intros; apply refines_ret].
  rewrite !Forall_app, Forall_fmap. split_and!; try (repeat constructor; apply refines_ret).
  apply Forall_true. intros k. unfold compose, gate_parameter. eauto with refines.
Qed.
#[local] Hint Resolve write_live_stack_32_refines call_gate_frame_refines : refines.
Lemma call_gate_inner_refines g sel d : refines (call_gate_inner g sel d) (call_gate_inner g sel d).
Proof. unfold call_gate_inner. far_refines. Qed.
#[local] Hint Resolve call_gate_inner_refines : refines.
Lemma call_gate_refines g : refines (call_gate g) (call_gate g).
Proof. unfold call_gate. far_refines. Qed.
Lemma call_segment_refines i sel d raw disp : refines (call_segment i sel d raw disp) (call_segment i sel d raw disp).
Proof. unfold call_segment. far_refines. Qed.
#[local] Hint Resolve call_gate_refines call_segment_refines : refines.
Lemma call_protected_refines i raw disp : refines (call_protected i raw disp) (call_protected i raw disp).
Proof. unfold call_protected. far_refines. Qed.

Lemma check_outer_ss_refines sel d raw rpl e : refines (check_outer_ss sel d raw rpl e) (check_outer_ss sel d raw rpl e).
Proof. unfold check_outer_ss. far_refines. Qed.
#[local] Hint Resolve check_outer_ss_refines : refines.
Lemma return_protected_refines i n : refines (return_protected i n) (return_protected i n).
Proof. unfold return_protected. far_refines. Qed.

Lemma iret_mask_covers cpl iopl : covers_flags (iret_mask cpl iopl) = true.
Proof. unfold iret_mask. by destruct (cpl <=? iopl), (cpl =? 0). Qed.
Lemma iret_mask_covers16 cpl iopl : covers_flags (Z.land (iret_mask cpl iopl) 0xffff) = true.
Proof. unfold iret_mask. by destruct (cpl <=? iopl), (cpl =? 0). Qed.
Ltac flag_mask := first [apply iret_mask_covers | apply iret_mask_covers16 | reflexivity].
#[local] Hint Extern 1 (refines (writeEFlags _ _) _) => apply writeEFlags_refines; solve [flag_mask] : refines.
Lemma init_v8086_mode_refines : refines init_v8086_mode init_v8086_mode.
Proof. unfold init_v8086_mode. cbn [init_v8086_sregs]. unfold init_v8086_sreg. far_refines. Qed.
#[local] Hint Resolve init_v8086_mode_refines : refines.
Lemma stack_return_to_v86_refines a b c : refines (stack_return_to_v86 a b c) (stack_return_to_v86 a b c).
Proof. unfold stack_return_to_v86, set_sel_value. far_refines. Qed.
#[local] Hint Extern 1 (refines (gets get_NT) _) => eflag_bit : refines.
Lemma iret_nested_task_refines : refines iret_nested_task iret_nested_task.
Proof. unfold iret_nested_task. far_refines. Qed.
Lemma iret_same_refines i sel d a b : refines (iret_same i sel d a b) (iret_same i sel d a b).
Proof. unfold iret_same. far_refines. Qed.
Lemma iret_outer_refines i sel d a : refines (iret_outer i sel d a) (iret_outer i sel d a).
Proof. unfold iret_outer. cbv zeta. destruct (nz (os32L i)); far_refines. Qed.
#[local] Hint Resolve stack_return_to_v86_refines iret_nested_task_refines iret_same_refines iret_outer_refines : refines.
Lemma iret_protected_refines i : refines (iret_protected i) (iret_protected i).
Proof. unfold iret_protected, iret_stack, iret_segment. far_refines. Qed.
Lemma iret16_v86_refines i : refines (iret16_stack_return_from_v86 i) (iret16_stack_return_from_v86 i).
Proof. unfold iret16_stack_return_from_v86. far_refines. Qed.
Lemma iret32_v86_refines i : refines (iret32_stack_return_from_v86 i) (iret32_stack_return_from_v86 i).
Proof. unfold iret32_stack_return_from_v86. far_refines. Qed.
Lemma v86_redirect_refines v : refines (v86_redirect v) (v86_redirect v).
Proof. unfold v86_redirect, clear_TF, clear_RF, clear_IF, clear_VIF. far_refines. Qed.
#[local] Hint Resolve v86_redirect_refines : refines.
Lemma v86_redirect_interrupt_refines v : refines (v86_redirect_interrupt v) (v86_redirect_interrupt v).
Proof. unfold v86_redirect_interrupt. far_refines. Qed.
Lemma real_far_branch_refines a b : refines (real_far_branch a b) (real_far_branch a b).
Proof. unfold real_far_branch. far_refines. Qed.
#[local] Hint Resolve jump_protected_refines call_protected_refines return_protected_refines iret_protected_refines
  iret16_v86_refines iret32_v86_refines v86_redirect_interrupt_refines real_far_branch_refines : refines.

Ltac far_open :=
  intros i; cbn [fst snd]; match goal with |- _ (?h _) _ => unfold h | |- _ (?h _) => unfold h end;
  unfold RSP_COMMIT, SS_d_b, invalidate_prefetch_q; cbv zeta.
Lemma far_implements : Forall implements far_table.
Proof.
  apply Forall_app_2.
  - apply Forall_selves. table_tac ltac:(far_open; far_refines).
  - apply Forall_cons_2; [|by apply Forall_nil]. intros i. cbn [fst snd]. unfold INTO, ref_into.
    intros s. rewrite (bind_gets (get_flag OF)), (bind_gets flags_of). unfold flags_of.
    rewrite get_flag_flag, flag_norm. generalize (flag OF s). intros b. revert s. by apply refines_when, interrupt_refines.
Qed.

(** ** The invariant *)

#[local] Hint Resolve read_eflags_wf interrupt_wf task_switch_wf clear_data_segment_wf : preserves.
Lemma check_cs_wf d raw rpl cpl : preserves wf (check_cs d raw rpl cpl).
Proof. unfold check_cs. preserves_tac. Qed.
#[local] Hint Resolve check_cs_wf : preserves.
(** A descriptor that passed [check_cs] is that of a segment. *)
Lemma checked_segment d raw rpl cpl (k : Mach unit) :
  (forall b, d = parse_descriptor (GET32L b) (GET32H b) uninitialised -> is_segment d -> preserves wf k) ->
  (exists b, d = parse_descriptor (GET32L b) (GET32H b) uninitialised) ->
  preserves wf (check_cs d raw rpl cpl;; k).
Proof.
  intros Hk [b Hd]. destruct (desc_segment d =? 0) eqn:HS.
  - intros s Hs. unfold check_cs, mbind, M_bind. rewrite HS, orb_true_r. done.
  - apply preserves_bind; [apply check_cs_wf|intros _]. apply (Hk b); [done|]. split; [|done]. by eexists _, _.
Qed.
Ltac far_wf :=
  unfold sreg_value, SS_d_b, system_read_word, system_read_byte; unfold_widths; repeat first [preserves_step | wf_modify].

Lemma branch_far32_wf sel d ip cpl : is_segment d -> preserves wf (branch_far32 sel d ip cpl).
Proof. intros Hd. pose proof (load_cs_wf sel d cpl Hd). unfold branch_far32. far_wf. Qed.
Lemma branch_far64_wf sel d ip cpl : is_segment d -> preserves wf (branch_far64 sel d ip cpl).
Proof. intros Hd. pose proof (load_cs_wf sel d cpl Hd). unfold branch_far64. far_wf. Qed.
Lemma task_gate_wf sel d source : preserves wf (task_gate sel d source).
Proof. unfold task_gate. far_wf. Qed.
Lemma switch_to_tss_wf sel d raw source : preserves wf (switch_to_tss sel d raw source).
Proof. unfold switch_to_tss. far_wf. Qed.
#[local] Hint Resolve branch_far32_wf branch_far64_wf task_gate_wf switch_to_tss_wf : preserves.
(** Fetching a descriptor, with what is known of it. *)
Ltac fetch_step raw :=
  eapply preserves_bind_yields; [eauto with preserves|apply fetch_raw_descriptor_yields|];
  let p := fresh "p" in intros p [raw ->]; cbn [fst snd].
Lemma jmp_call_gate_wf sel d : preserves wf (jmp_call_gate sel d).
Proof.
  unfold jmp_call_gate. cbv zeta. do 2 (preserves_step; [solve [far_wf]|intros _]). fetch_step raw.
  preserves_step; [solve [far_wf]|intros cpl]. eapply checked_segment; [|by eexists]. intros b _ Hs. far_wf.
Qed.
#[local] Hint Resolve jmp_call_gate_wf : preserves.
Lemma jump_protected_wf i raw disp : preserves wf (jump_protected i raw disp).
Proof.
  unfold jump_protected. cbv zeta. preserves_step; [solve [far_wf]|intros _]. fetch_step b.
  apply preserves_if; [|far_wf]. preserves_step; [solve [far_wf]|intros cpl].
  eapply checked_segment; [|by eexists]. intros b' _ Hs. far_wf.
Qed.

(** [live_stack_checks] only marks SS. *)
Lemma live_stack_checks_only (I : machine -> Prop) len o :
  (forall s, I s -> I (set_sreg BX_SEG_REG_SS (snd (write_virtual_checks (sreg BX_SEG_REG_SS s) o (Z.of_nat len))) s)) ->
  preserves I (live_stack_checks len o).
Proof.
  intros HI s Hs. unfold live_stack_checks, mbind, M_bind, gets. cbv zeta. specialize (HI s Hs).
  destruct (nz (Z.land _ _)); [by apply preserves_when; [apply preserves_raise|]|].
  destruct (write_virtual_checks _ _ _) as [ok seg']. cbn [snd] in HI.
  unfold modify. by apply preserves_when; [apply preserves_raise|].
Qed.
Lemma write_live_stack_32_wf len o pl v : preserves wf (write_live_stack_32 len o pl v).
Proof.
  unfold write_live_stack_32. cbv zeta. apply preserves_bind; [apply live_stack_checks_only|intros _; far_wf].
  intros s Hw. apply set_sreg_wf; [done|]. by apply write_virtual_checks_ok, sreg_ok.
Qed.
Lemma call_gate_frame_wf len c pl temp st a b d e n : preserves wf (call_gate_frame len c pl temp st a b d e n).
Proof.
  unfold call_gate_frame. cbv zeta. apply preserves_bind; [apply write_frame_wf|intros; apply preserves_ret].
  rewrite !Forall_app, Forall_fmap. split_and!; [table_tac ltac:(apply preserves_ret)| |table_tac ltac:(apply preserves_ret)].
  apply Forall_true. intros k. unfold compose, gate_parameter. eauto with preserves.
Qed.
#[local] Hint Resolve write_live_stack_32_wf call_gate_frame_wf : preserves.
Lemma call_gate_inner_wf g sel d : is_segment d -> preserves wf (call_gate_inner g sel d).
Proof.
  intros Hd. pose proof (fun c => load_cs_wf sel d c Hd) as Hcs. unfold call_gate_inner, get_SS_ESP_from_TSS. cbv zeta.
  apply preserves_bind; [solve [far_wf; unfold system_read_dword; far_wf]|intros [ss esp]].
  preserves_step; [solve [far_wf]|intros _]. fetch_step raw. do 2 (preserves_step; [solve [far_wf]|intros _]).
  destruct (desc_valid _ =? 0); cbn [orb]; [apply preserves_raise|].
  destruct (desc_segment (parse_descriptor (GET32L raw) _ _) =? 0) eqn:HS; cbn [orb]; [apply preserves_raise|].
  pose proof (fun c => load_ss_wf (parse_selector ss) _ c (parsed_segment raw uninitialised HS)) as Hss.
  far_wf.
Qed.
#[local] Hint Resolve call_gate_inner_wf : preserves.
Lemma call_gate_wf g : preserves wf (call_gate g).
Proof.
  unfold call_gate. cbv zeta. preserves_step; [solve [far_wf]|intros _]. fetch_step raw.
  preserves_step; [solve [far_wf]|intros cpl]. destruct (desc_valid _ =? 0); cbn [orb]; [apply preserves_raise|].
  destruct (desc_segment (parse_descriptor (GET32L raw) _ _) =? 0) eqn:HS; cbn [orb]; [apply preserves_raise|].
  pose proof (parsed_segment raw uninitialised HS). far_wf.
Qed.
Lemma call_segment_wf i sel d raw disp :
  (exists b, d = parse_descriptor (GET32L b) (GET32H b) uninitialised) -> preserves wf (call_segment i sel d raw disp).
Proof.
  intros Hd. unfold call_segment. cbv zeta. preserves_step; [solve [far_wf]|intros cpl].
  apply checked_segment; [|done]. intros b _ Hs. far_wf.
Qed.
#[local] Hint Resolve call_gate_wf call_segment_wf : preserves.
Lemma call_protected_wf i raw disp : preserves wf (call_protected i raw disp).
Proof.
  unfold call_protected. cbv zeta. preserves_step; [solve [far_wf]|intros _]. fetch_step b.
  preserves_step; [solve [far_wf]|intros _]. apply preserves_if; [apply call_segment_wf; by eexists|far_wf].
Qed.
Lemma validate_seg_reg_wf n : preserves wf (validate_seg_reg n).
Proof.
  intros s Hw. unfold validate_seg_reg, mbind, M_bind, gets. pose proof (sreg_ok n s Hw) as Hc.
  destruct (_ <? _); cbn [when]; [|done]. destruct (_ || _); cbn [when]; [|done].
  apply set_sreg_wf; [done|]. by apply invalid_cache_ok.
Qed.
Lemma validate_seg_regs_wf : preserves wf validate_seg_regs.
Proof. unfold validate_seg_regs. repeat (apply preserves_bind; [apply validate_seg_reg_wf|intros _]). apply validate_seg_reg_wf. Qed.
Lemma check_outer_ss_wf sel d raw rpl e : preserves wf (check_outer_ss sel d raw rpl e).
Proof. unfold check_outer_ss. far_wf. Qed.
#[local] Hint Resolve validate_seg_regs_wf check_outer_ss_wf : preserves.
Lemma checked_outer_ss sel d raw rpl e (k : Mach unit) :
  (is_segment d -> preserves wf k) ->
  (exists b, d = parse_descriptor (GET32L b) (GET32H b) uninitialised) ->
  preserves wf (check_outer_ss sel d raw rpl e;; k).
Proof.
  intros Hk [b Hd]. destruct (desc_segment d =? 0) eqn:HS.
  - intros s Hs. unfold check_outer_ss, mbind, M_bind. rewrite HS, orb_true_r. done.
  - apply preserves_bind; [apply check_outer_ss_wf|intros _]. apply Hk. split; [|done]. by eexists _, _.
Qed.
Lemma return_protected_wf i n : preserves wf (return_protected i n).
Proof.
  unfold return_protected. cbv zeta. unfold SS_d_b. unfold_widths.
  do 2 (preserves_step; [solve [far_wf]|intros ?]). preserves_step; [solve [far_wf]|intros raw].
  preserves_step; [solve [far_wf]|intros rip]. preserves_step; [solve [far_wf]|intros _]. fetch_step b.
  preserves_step; [solve [far_wf]|intros cpl]. preserves_step; [solve [far_wf]|intros _].
  eapply checked_segment; [|by eexists]. intros b' _ Hs. apply preserves_if; [far_wf|].
  do 2 (preserves_step; [solve [far_wf]|intros ?]). preserves_step; [solve [far_wf]|intros _]. fetch_step b2.
  preserves_step; [solve [far_wf]|intros _]. eapply checked_outer_ss; [|by eexists]. intros Hss.
  pose proof (fun sel c => load_ss_wf sel _ c Hss). far_wf.
Qed.

Lemma v8086_cache_ok v : cache_ok (v8086_cache v).
Proof.
  unfold v8086_cache, cache_ok, in32. cbn. pose proof (wrap_range 32 (Z.shiftl v 4)). repeat split; (lia || done).
Qed.
Lemma init_v8086_mode_wf : preserves wf init_v8086_mode.
Proof.
  unfold init_v8086_mode. apply preserves_bind; [|intros _; far_wf]. generalize 6%nat 0. intros n.
  induction n as [|n IH]; intros k; cbn [init_v8086_sregs]; [apply preserves_ret|].
  apply preserves_bind; [|intros _; apply IH]. apply preserves_modify. intros s Hw.
  apply set_sreg_wf; [done|apply v8086_cache_ok].
Qed.
Lemma set_sel_value_wf n v : preserves wf (set_sel_value n v).
Proof. apply preserves_modify. intros s Hw. apply set_sreg_wf; [done|]. by apply sreg_ok. Qed.
#[local] Hint Resolve init_v8086_mode_wf set_sel_value_wf : preserves.
Lemma stack_return_to_v86_wf a b c : preserves wf (stack_return_to_v86 a b c).
Proof. unfold stack_return_to_v86. far_wf. Qed.
Lemma iret_nested_task_wf : preserves wf iret_nested_task.
Proof. unfold iret_nested_task. far_wf. Qed.
Lemma write_flags_wf fl a b : preserves wf (write_flags fl a b).
Proof. unfold write_flags. far_wf. Qed.
#[local] Hint Resolve stack_return_to_v86_wf iret_nested_task_wf write_flags_wf : preserves.
Lemma iret_same_wf i sel d a b : is_segment d -> preserves wf (iret_same i sel d a b).
Proof. intros Hd. unfold iret_same. far_wf. Qed.
Lemma iret_outer_wf i sel d a : is_segment d -> preserves wf (iret_outer i sel d a).
Proof.
  intros Hd. unfold iret_outer. cbv zeta. unfold_widths. preserves_step; [solve [far_wf]|intros raw].
  do 2 (preserves_step; [solve [far_wf]|intros _]). fetch_step b. eapply checked_outer_ss; [|by eexists]. intros Hss.
  pose proof (fun sel c => load_ss_wf sel _ c Hss). far_wf.
Qed.
Lemma iret_segment_wf i a b c d : preserves wf (iret_segment i a b c d).
Proof.
  unfold iret_segment. cbv zeta. preserves_step; [solve [far_wf]|intros _]. fetch_step raw.
  preserves_step; [solve [far_wf]|intros cpl]. preserves_step; [solve [far_wf]|intros _].
  eapply checked_segment; [|by eexists]. intros b' _ Hs. apply preserves_if; [by apply iret_same_wf|by apply iret_outer_wf].
Qed.
#[local] Hint Resolve iret_segment_wf : preserves.
Lemma iret_protected_wf i : preserves wf (iret_protected i).
Proof. unfold iret_protected, iret_stack. far_wf. Qed.
Lemma iret16_v86_wf i : preserves wf (iret16_stack_return_from_v86 i).
Proof. unfold iret16_stack_return_from_v86. far_wf. Qed.
Lemma iret32_v86_wf i : preserves wf (iret32_stack_return_from_v86 i).
Proof. unfold iret32_stack_return_from_v86. far_wf. Qed.
Lemma v86_redirect_wf v : preserves wf (v86_redirect v).
Proof. unfold v86_redirect, clear_TF, clear_RF, clear_IF, clear_VIF. far_wf. Qed.
#[local] Hint Resolve v86_redirect_wf : preserves.
Lemma v86_redirect_interrupt_wf v : preserves wf (v86_redirect_interrupt v).
Proof. unfold v86_redirect_interrupt. far_wf. Qed.
Lemma real_far_branch_wf a b : preserves wf (real_far_branch a b).
Proof. unfold real_far_branch. far_wf. Qed.
#[local] Hint Resolve jump_protected_wf call_protected_wf return_protected_wf iret_protected_wf
  iret16_v86_wf iret32_v86_wf v86_redirect_interrupt_wf real_far_branch_wf : preserves.
Lemma far_keeps_wf : Forall keeps_wf far_table.
Proof.
  apply Forall_app_2.
  - apply Forall_selves. table_tac ltac:(far_open; far_wf).
  - table_tac ltac:(far_open; far_wf).
Qed.

(** ** The caches of the mode *)

(** The caches right at the end, or at least the mode if an exception is raised. *)
Definition lands {A} (m : Mach A) : Prop :=
  forall s, coherent s ->
    match m s with Ret _ s' => coherent s' | Fault _ _ s' => mode_known s' | Crash => True end.

Create HintDb lands discriminated.
#[export] Hint Constants Opaque : lands.
Lemma lands_bind {A B} (m : Mach A) (k : A -> Mach B) : lands m -> (forall a, lands (k a)) -> lands (m ≫= k).
Proof.
  intros Hm Hk s Hs. specialize (Hm s Hs). unfold mbind, M_bind.
  destruct (m s); [by apply Hk|done|done].
Qed.
Lemma lands_coherent {A} (m : Mach A) : preserves coherent m -> lands m.
Proof. intros Hm s Hs. specialize (Hm s Hs). destruct (m s); [done|by apply coherent_mode_known|done]. Qed.
Lemma lands_steady {A} (m : Mach A) : steady m -> lands m.
Proof. intros Hm. by apply lands_coherent, steady_coherent. Qed.
Lemma lands_settles {A} (m : Mach A) : settles m -> lands m.
Proof. intros Hm s Hs. by apply Hm, coherent_mode_known. Qed.
Lemma lands_when b (m : Mach unit) : lands m -> lands (when b m).
Proof. destruct b; [done|]. intros _ s Hs. done. Qed.

#[local] Hint Resolve load_ss_steady set_EIP_steady : steady.
Lemma clear_eflag_lands n : 0 <= n -> n <> 17 -> n <> 18 -> lands (clear_eflag n).
Proof. intros. apply lands_steady, clear_eflag_steady; lia. Qed.
Lemma RSP_SPECULATIVE_lands : lands RSP_SPECULATIVE.
Proof. apply lands_coherent, RSP_SPECULATIVE_coherent. Qed.
Lemma RSP_COMMIT_lands : lands RSP_COMMIT.
Proof. apply lands_coherent, RSP_COMMIT_coherent. Qed.
Lemma task_switch_lands sel d source : lands (task_switch sel d source).
Proof. apply lands_settles, task_switch_settles. Qed.
Lemma interrupt_lands v t pe ec : lands (interrupt v t pe ec).
Proof. apply lands_settles, interrupt_settles. Qed.
Lemma load_cs_lands sel d c : lands (load_cs sel d c).
Proof. apply lands_settles, load_cs_settles. Qed.
Lemma load_CS_lands v : lands (load_seg_reg BX_SEG_REG_CS v).
Proof. apply lands_settles, load_CS_settles. Qed.
Lemma writeEFlags_lands fl m : lands (writeEFlags fl m).
Proof.
  apply lands_settles. unfold writeEFlags. apply settles_after; [apply preserves_gets|intros v]. apply setEFlags_settles.
Qed.
#[export] Hint Resolve RSP_SPECULATIVE_lands RSP_COMMIT_lands task_switch_lands interrupt_lands load_cs_lands
  load_CS_lands writeEFlags_lands : lands.
Ltac lands_step :=
  match goal with
  | |- forall _, _ => intros ?
  | |- lands (let _ := _ in _) => cbv zeta
  | |- lands (mbind _ _) => apply lands_bind
  | |- lands (match ?x with _ => _ end) => destruct x
  | |- lands (when _ _) => apply lands_when
  | |- lands (clear_eflag _) => apply clear_eflag_lands; lia
  | |- lands (modify _) => apply lands_coherent, preserves_modify; intros ? ?; assumption
  | |- lands _ => first [ solve [eauto with lands] | apply lands_steady; solve [steady_tac] ]
  end.
Ltac lands_tac :=
  unfold sreg_value, SS_d_b, system_read_word, system_read_byte, system_read_dword; unfold_widths; repeat lands_step.

Lemma check_cs_lands d raw rpl cpl : lands (check_cs d raw rpl cpl).
Proof. unfold check_cs. lands_tac. Qed.
Lemma branch_far32_lands sel d ip cpl : lands (branch_far32 sel d ip cpl).
Proof. unfold branch_far32. lands_tac. Qed.
Lemma branch_far64_lands sel d ip cpl : lands (branch_far64 sel d ip cpl).
Proof. unfold branch_far64. lands_tac. Qed.
#[export] Hint Resolve check_cs_lands branch_far32_lands branch_far64_lands : lands.
Lemma jump_protected_lands i raw disp : lands (jump_protected i raw disp).
Proof. unfold jump_protected, switch_to_tss, task_gate, jmp_call_gate. lands_tac. Qed.
Lemma write_live_stack_32_coherent len o pl v : preserves coherent (write_live_stack_32 len o pl v).
Proof.
  unfold write_live_stack_32. cbv zeta. apply preserves_bind; [apply live_stack_checks_only|intros _].
  - intros s Hs. eapply coherent_control; [|exact Hs]. by apply set_sreg_other_control.
  - apply steady_coherent. steady_tac.
Qed.
Lemma write_new_stack_32_steady len seg o p d : steady (write_new_stack_32 len seg o p d).
Proof. unfold write_new_stack_32. steady_tac. Qed.
#[local] Hint Resolve write_new_stack_32_steady : steady.
Lemma write_frame_steady len c pl temp l :
  forall k st, Forall steady l -> steady (write_frame len c pl temp k st l).
Proof.
  induction l as [|v l IH]; intros k st Hl; cbn [write_frame]; [apply steady_ret|].
  inversion_clear Hl. steady_tac.
Qed.
Lemma call_gate_frame_steady len c pl temp st a b d e n : steady (call_gate_frame len c pl temp st a b d e n).
Proof.
  unfold call_gate_frame. cbv zeta. apply steady_bind; [apply write_frame_steady|intros; apply steady_ret].
  rewrite !Forall_app, Forall_fmap. split_and!; [table_tac ltac:(apply steady_ret)| |table_tac ltac:(apply steady_ret)].
  apply Forall_true. intros k. unfold compose, gate_parameter. eauto with steady.
Qed.
#[local] Hint Resolve call_gate_frame_steady : steady.
Lemma call_protected_lands i raw disp : lands (call_protected i raw disp).
Proof.
  assert (forall len o pl v, lands (write_live_stack_32 len o pl v)) as Hl
    by (intros; apply lands_coherent, write_live_stack_32_coherent).
  unfold call_protected, call_segment, call_gate, call_gate_inner, get_SS_ESP_from_TSS, switch_to_tss, task_gate. lands_tac.
Qed.
Lemma validate_seg_regs_steady : steady validate_seg_regs.
Proof.
  unfold validate_seg_regs, validate_seg_reg. repeat match goal with
  | |- steady (modify _) => apply steady_modify; intros ?; by apply set_sreg_other_control
  | _ => steady_step
  end.
Qed.
#[local] Hint Resolve validate_seg_regs_steady : steady.
Lemma return_protected_lands i n : lands (return_protected i n).
Proof. unfold return_protected, check_outer_ss. lands_tac. Qed.
Lemma init_v8086_sregs_known n : forall k, preserves mode_known (init_v8086_sregs n k).
Proof.
  induction n as [|n IH]; intros k; cbn [init_v8086_sregs]; [apply preserves_ret|].
  apply preserves_bind; [by apply preserves_modify|intros _; apply IH].
Qed.
Lemma mode_change_settles : settles (handleCpuModeChange;; handleAlignmentCheck).
Proof.
  intros s [_ Ha]. unfold mbind at 1, M_bind at 1. rewrite handleCpuModeChange_eq. cbv zeta.
  set (s1 := with_cpu_mode (mode_of s) s).
  assert (forall s2, mode_known s2 -> match match updateFetchModeMask s2 with
    | Ret _ s' => handleAlignmentCheck s' | Fault v e s' => Fault v e s' | Crash => Crash end with
    | Ret _ s' => coherent s' | Fault _ _ s' => mode_known s' | Crash => True end) as H
    by (intros s2 H2; exact (refresh_settles s2 H2)).
  destruct (Z.testbit (cr0 s) 0); [by apply H|]. destruct (CPL s =? 0); [by apply H|done].
Qed.
Lemma init_v8086_mode_lands : lands init_v8086_mode.
Proof.
  apply lands_settles. unfold init_v8086_mode. apply settles_after; [apply init_v8086_sregs_known|intros _].
  apply mode_change_settles.
Qed.
Lemma set_sel_value_lands n v : lands (set_sel_value n v).
Proof. apply lands_steady, steady_modify. intros s. by apply set_sreg_control. Qed.
Lemma write_flags_lands fl a b : lands (write_flags fl a b).
Proof. unfold write_flags. lands_tac. Qed.
#[export] Hint Resolve jump_protected_lands call_protected_lands return_protected_lands
  init_v8086_mode_lands set_sel_value_lands write_flags_lands : lands.
Lemma iret_protected_lands i : lands (iret_protected i).
Proof.
  unfold iret_protected, iret_stack, iret_nested_task, stack_return_to_v86, iret_segment, iret_same, iret_outer, check_outer_ss.
  lands_tac.
Qed.
Lemma iret16_v86_lands i : lands (iret16_stack_return_from_v86 i).
Proof. unfold iret16_stack_return_from_v86. lands_tac. Qed.
Lemma iret32_v86_lands i : lands (iret32_stack_return_from_v86 i).
Proof. unfold iret32_stack_return_from_v86. lands_tac. Qed.
Lemma v86_redirect_interrupt_lands v : lands (v86_redirect_interrupt v).
Proof.
  unfold v86_redirect_interrupt, v86_redirect, clear_TF, clear_RF, clear_IF, clear_VIF, read_eflags. lands_tac.
Qed.
Lemma real_far_branch_lands a b : lands (real_far_branch a b).
Proof. unfold real_far_branch. lands_tac. Qed.
#[export] Hint Resolve iret_protected_lands iret16_v86_lands iret32_v86_lands v86_redirect_interrupt_lands
  real_far_branch_lands : lands.
Lemma far_lands : Forall (fun p => forall i, lands (p.1 i)) far_table.
Proof.
  apply Forall_app_2.
  - apply Forall_selves. table_tac ltac:(far_open; lands_tac).
  - table_tac ltac:(far_open; lands_tac).
Qed.

(** ** What an exception is combined and restarted by *)

Ltac untouched :=
  unfold get_SS_ESP_from_TSS; unfold sreg_value, SS_d_b, system_read_word, system_read_byte, system_read_dword,
    check_cs, check_outer_ss, branch_far32, branch_far64, load_ss, validate_seg_regs, validate_seg_reg,
    write_flags, set_sel_value; unfold_widths; frame_walk.

Lemma resolve_any (I : machine -> Prop) i : preserves I (resolve i).
Proof. unfold resolve, BxResolve16BaseIndex, BxResolve32Base, BxResolve32BaseIndex. preserves_tac. Qed.
#[local] Hint Resolve resolve_any : frame.

Section Frames.
Context (I : machine -> Prop) `{!Frame I}.
Lemma write_live_stack_32_frame len o pl v : preserves I (write_live_stack_32 len o pl v).
Proof.
  unfold write_live_stack_32. cbv zeta. apply preserves_bind; [apply live_stack_checks_only|intros _; frame_walk].
  intros s Hs. apply frame_sreg; [apply write_virtual_checks_unmarked|done].
Qed.
Lemma call_gate_frame_frame len c pl temp st a b d e n : preserves I (call_gate_frame len c pl temp st a b d e n).
Proof.
  unfold call_gate_frame. cbv zeta. apply preserves_bind; [apply write_frame_frame; [apply _|]|intros; apply preserves_ret].
  rewrite !Forall_app, Forall_fmap. split_and!; [table_tac ltac:(apply preserves_ret)| |table_tac ltac:(apply preserves_ret)].
  apply Forall_true. intros k. unfold compose, gate_parameter. eauto with frame.
Qed.
Lemma push_16_frame v : preserves I (push_16 v).
Proof. unfold push_16, SS_d_b. unfold_widths. frame_walk. Qed.
Lemma push_32_frame v : preserves I (push_32 v).
Proof. unfold push_32, SS_d_b. unfold_widths. frame_walk. Qed.
Lemma pop_16_frame : preserves I pop_16.
Proof. unfold pop_16, SS_d_b. unfold_widths. frame_walk. Qed.
Lemma pop_32_frame : preserves I pop_32.
Proof. unfold pop_32, SS_d_b. unfold_widths. frame_walk. Qed.
End Frames.
#[export] Hint Resolve push_16_frame push_32_frame pop_16_frame pop_32_frame write_live_stack_32_frame call_gate_frame_frame : frame.

(** The nesting of exceptions. *)
Section Nesting.
Context (p : Z * Z).
Let I (s : machine) : Prop := (errorno s, curr_exception s) = p.
#[local] Instance nesting_Frame : Frame I.
Proof. frame_tac. Qed.
Hint Resolve read_eflags_pending load_seg_reg_pending load_cs_pending
  task_switch_pending interrupt_pending : frame.
Lemma writeEFlags_nesting fl m : preserves I (writeEFlags fl m).
Proof. unfold writeEFlags. apply preserves_bind; [apply preserves_gets|intros ?; apply setEFlags_pending]. Qed.
Hint Resolve writeEFlags_nesting : frame.
Lemma jump_protected_nesting i raw disp : preserves I (jump_protected i raw disp).
Proof. unfold jump_protected, switch_to_tss, task_gate, jmp_call_gate. untouched. Qed.
Lemma return_protected_nesting i n : preserves I (return_protected i n).
Proof. unfold return_protected. untouched. Qed.
Lemma call_protected_nesting i raw disp : preserves I (call_protected i raw disp).
Proof. unfold call_protected, call_segment, call_gate, call_gate_inner, switch_to_tss, task_gate. untouched. Qed.
Lemma init_v8086_mode_nesting : preserves I init_v8086_mode.
Proof.
  unfold init_v8086_mode, handleCpuModeChange, handleAlignmentCheck, updateFetchModeMask. cbn [init_v8086_sregs].
  unfold init_v8086_sreg. untouched.
Qed.
Hint Resolve init_v8086_mode_nesting : frame.
Lemma iret_protected_nesting i : preserves I (iret_protected i).
Proof.
  unfold iret_protected, iret_stack, iret_nested_task, stack_return_to_v86, iret_segment, iret_same, iret_outer. untouched.
Qed.
Lemma v86_redirect_interrupt_nesting v : preserves I (v86_redirect_interrupt v).
Proof.
  unfold v86_redirect_interrupt, v86_redirect, clear_TF, clear_RF, clear_IF, clear_VIF, clear_eflag. untouched.
Qed.
Hint Resolve jump_protected_nesting return_protected_nesting call_protected_nesting iret_protected_nesting
  v86_redirect_interrupt_nesting : frame.
Lemma far_nesting : Forall (fun p => forall i, preserves I (p.1 i)) far_table.
Proof.
  assert (Forall (fun h : handler => forall i, preserves I (h i)) (far_handlers ++ [INTO])) as [H1 H2]%Forall_app.
  { table_tac ltac:(far_open; unfold iret16_stack_return_from_v86, iret32_stack_return_from_v86, real_far_branch,
      RSP_SPECULATIVE; untouched). }
  apply Forall_app_2; [by apply Forall_selves|]. apply Forall_cons_2; [|done]. by inversion_clear H2.
Qed.
End Nesting.

(** A stack pointer that was not speculative is not so at the end. *)
Section Commits.
Let I (s : machine) : Prop := speculative_rsp s = 0.
#[local] Instance speculative_Frame : Frame I.
Proof. frame_tac. Qed.
Lemma load_cs_commits sel d c : preserves I (load_cs sel d c).
Proof. unfold load_cs, updateFetchModeMask, handleAlignmentCheck, invalidate_prefetch_q. frame_walk. Qed.
Lemma writeEFlags_commits fl m : preserves I (writeEFlags fl m).
Proof.
  unfold writeEFlags, setEFlags, handleAlignmentCheck, handleCpuModeChange, updateFetchModeMask. frame_walk.
Qed.
Lemma load_seg_reg_commits n v : preserves I (load_seg_reg n v).
Proof.
  unfold load_seg_reg, load_seg_reg_SS, load_seg_reg_data, load_seg_reg_real, load_null_selector,
    invalidate_prefetch_q, updateFetchModeMask, handleAlignmentCheck. frame_walk.
Qed.
Hint Resolve load_cs_commits writeEFlags_commits load_seg_reg_commits : frame.
Lemma task_switch_commits sel d source : preserves I (task_switch sel d source).
Proof.
  unfold task_switch, invalidate_prefetch_q, task_switch_check, task_switch_save, task_switch_read, task_switch_commit,
    task_switch_segments, task_switch_LDTR, task_switch_SS, task_switch_CS, task_switch_load_selector,
    set_CPL, set_selector, invalidate_cache, SetCR3, TLB_flush, cr0_set_TS, sreg_value, read_eflags, force_flags,
    setEFlagsOSZAPC, updateFetchModeMask, handleAlignmentCheck, system_read_word, system_read_dword, system_write_word,
    system_write_dword.
  repeat match goal with
  | |- preserves I (modify (with_speculative_rsp 0)) => by apply preserves_modify
  | _ => frame_step
  end.
Qed.
Hint Resolve task_switch_commits : frame.
Lemma jump_protected_commits i raw disp : preserves I (jump_protected i raw disp).
Proof. unfold jump_protected, switch_to_tss, task_gate, jmp_call_gate. untouched. Qed.
Lemma return_protected_commits i n : preserves I (return_protected i n).
Proof. unfold return_protected. untouched. Qed.
Lemma iret_protected_commits i : preserves I (iret_protected i).
Proof.
  unfold iret_protected, iret_stack, iret_nested_task, stack_return_to_v86, iret_segment, iret_same, iret_outer,
    init_v8086_mode, handleCpuModeChange, handleAlignmentCheck, updateFetchModeMask. cbn [init_v8086_sregs].
  unfold init_v8086_sreg. untouched.
Qed.
Lemma real_far_branch_commits a b : preserves I (real_far_branch a b).
Proof. unfold real_far_branch. untouched. Qed.
Lemma resolve_commits i : preserves I (resolve i).
Proof. apply resolve_any. Qed.
Lemma read_virtual_32_commits len n o : preserves I (read_virtual_32 len n o).
Proof. eauto with frame. Qed.
End Commits.

(** Two ways to end: committed, or never speculative. *)
Definition ends_plain (m : Mach unit) : Prop :=
  forall s, speculative_rsp s = 0 -> match m s with Ret _ s' => speculative_rsp s' = 0 | _ => True end.
Lemma plain_preserves (m : Mach unit) : preserves (fun s => speculative_rsp s = 0) m -> ends_plain m.
Proof. intros Hm s Hs. specialize (Hm s Hs). by destruct (m s). Qed.
Lemma plain_commits m : commits m -> ends_plain m.
Proof. intros Hm s _. apply Hm. Qed.
Lemma plain_bind {A} (m : Mach A) k :
  preserves (fun s => speculative_rsp s = 0) m -> (forall a, ends_plain (k a)) -> ends_plain (m ≫= k).
Proof.
  intros Hm Hk s Hs. specialize (Hm s Hs). unfold mbind, M_bind. destruct (m s); [by apply Hk|done|done].
Qed.
Lemma plain_then (m : Mach unit) f :
  commits m -> (forall s, speculative_rsp (f s) = speculative_rsp s) -> ends_plain (m;; modify f).
Proof.
  intros Hm Hf s _. specialize (Hm s). unfold mbind, M_bind. destruct (m s); [|done|done]. cbn. by rewrite Hf.
Qed.
Lemma plain_when b m : ends_plain m -> ends_plain (when b m).
Proof. destruct b; [done|]. intros _ s Hs. exact Hs. Qed.
Ltac plain_tac :=
  repeat match goal with
  | |- ends_plain (mbind _ RSP_SPECULATIVE) =>
      apply plain_commits; repeat (apply commits_bind; intros ?); apply RSP_COMMIT_commits
  | |- ends_plain (mbind _ (interrupt _ _ _ _)) => apply plain_then; [by auto|done]
  | |- ends_plain (mbind _ _) =>
      apply plain_bind;
      [first [apply preserves_gets | apply resolve_commits | apply read_virtual_32_commits
             | apply preserves_modify; intros ? ?; assumption | frame_walk]|intros ?]
  | |- ends_plain (when _ (interrupt _ _ _ _)) => apply plain_when, plain_commits; by auto
  | |- ends_plain (interrupt _ _ _ _) => apply plain_commits; by auto
  | |- ends_plain (if _ then _ else _) => case_match
  | |- ends_plain _ => apply plain_preserves; by auto
  end.
Lemma far_commits : Forall (fun p => forall i, ends_plain (p.1 i)) far_table.
Proof.
  assert (forall v t pe ec, commits (interrupt v t pe ec)) as Hint.
  { intros. intros s. destruct (interrupt v t pe ec s) as [[] s'|? ? ?|] eqn:E; [by eapply interrupt_commits|done|done]. }
  assert (Forall (fun h : handler => forall i, ends_plain (h i)) (far_handlers ++ [INTO])) as [H1 H2]%Forall_app.
  { pose proof jump_protected_commits. pose proof return_protected_commits. pose proof iret_protected_commits.
    pose proof real_far_branch_commits.
    table_tac ltac:(intros i; match goal with |- ends_plain (?h _) => unfold h end;
      unfold invalidate_prefetch_q; unfold_widths; cbv zeta; plain_tac). }
  apply Forall_app_2; [by apply Forall_selves|]. apply Forall_cons_2; [|done]. by inversion_clear H2.
Qed.
Lemma far_contracts : Forall contract far_table.
Proof.
  pose proof far_implements as H1. pose proof far_keeps_wf as H2. pose proof far_lands as H3.
  pose proof far_commits as H4. pose proof far_nesting as H5. rewrite Forall_forall in H1, H2, H3, H4.
  apply Forall_forall. intros p Hp. split; [exact (H1 p Hp)|exact (H2 p Hp)|exact (H3 p Hp)|exact (H4 p Hp)|].
  intros i q. specialize (H5 q). rewrite Forall_forall in H5. exact (H5 p Hp i).
Qed.

(** ** BOUND *)

Lemma bound_implements : Forall implements (selves bound_handlers).
Proof. apply Forall_selves. table_tac ltac:(far_open; far_refines). Qed.
Lemma bound_keeps_wf : Forall keeps_wf (selves bound_handlers).
Proof. apply Forall_selves. table_tac wf_handler. Qed.
Lemma bound_is_precise : Forall is_precise (selves bound_handlers).
Proof. apply Forall_selves. table_tac precise_handler. Qed.
Lemma bound_steady : Forall (fun p => forall i, steady (p.1 i)) (selves bound_handlers).
Proof. apply Forall_selves. table_tac ltac:(far_open; unfold_widths; steady_tac). Qed.
Lemma bound_contracts : Forall contract (selves bound_handlers).
Proof. apply plain_contracts; [apply bound_implements|apply bound_keeps_wf|apply bound_steady]. Qed.
Lemma bound_restarts : Forall restarts (selves bound_handlers).
Proof. apply plain_restarts; [apply bound_is_precise|apply bound_steady]. Qed.
