(* ===== verification/Rings.v ===== *)
(** * Rings: far transfers and privilege

    What cpu/jmp_far.cc, cpu/call_far.cc, cpu/ret_far.cc and cpu/iret.cc do to
    the privilege level and to the instruction pointer: a jump keeps the level, a
    call never lowers the privilege, a return never raises it, and EIP is inside
    the code segment it arrives in. *)
From stdpp Require Import base numbers list gmap.
From Stdlib Require Import ZArith Lia.
From S2P Require Import Prelude Machine LazyFlags Memory Paging Access Regs Precise Reference Mode Segment SegLoad Frame Stack FlagCtrl CtrlPro Exception Delivery Contract.
From S2P Require Import Arith Logical Mult ShiftSpec Shift Bit DataXfer Coherence CtrlXfer FarXfer.

Local Open Scope Z_scope.

(** ** Where a transfer starts and where it arrives *)

(** Level [c], in a machine with its six segment registers. *)
Definition at_level (c : Z) (s : machine) : Prop := length (sregs s) = 6%nat /\ CPL s = c.

(** SS is a segment of level [c]. *)
Definition own_stack (c : Z) (s : machine) : Prop :=
  sel_rpl (selector (sreg BX_SEG_REG_SS s)) = c /\ desc_dpl (cache (sreg BX_SEG_REG_SS s)) = c.

(** At level [c] with EIP inside the code segment; on a stack of this level if
    [st]. *)
Definition arrived (st : bool) (c : Z) (s : machine) : Prop :=
  at_level c s /\ eip_of s <= CS_limit s /\ (st = true -> own_stack c s).

(** From [I] to [P], if it returns. *)
Definition arrives {A} (I P : machine -> Prop) (m : Mach A) : Prop :=
  forall s, I s -> match m s with Ret _ s' => P s' | _ => True end.

#[export] Instance at_level_Frame c : Frame (at_level c).
Proof.
  pose proof (unmarked_Frame (fun seg => sel_rpl (selector seg)) BX_SEG_REG_CS c) as H. unfold at_level.
  split; try (intros; assumption). intros n seg s Hu [Hl Hc]. split.
  - unfold set_sreg. msimpl. by rewrite length_insert.
  - exact (@frame_sreg _ H n seg s Hu Hc).
Qed.
#[export] Instance own_stack_Frame c : Frame (own_stack c).
Proof.
  pose proof (unmarked_Frame (fun seg => sel_rpl (selector seg)) BX_SEG_REG_SS c) as H1.
  pose proof (unmarked_Frame (fun seg => desc_dpl (cache seg)) BX_SEG_REG_SS c) as H2. unfold own_stack.
  split; try (intros; assumption). intros n seg s Hu [Ha Hb].
  split; [exact (@frame_sreg _ H1 n seg s Hu Ha)|exact (@frame_sreg _ H2 n seg s Hu Hb)].
Qed.

Section Arrives.
Context (I P : machine -> Prop).
Lemma arrives_bind {A B} (Q : machine -> Prop) (m : Mach A) (k : A -> Mach B) :
  arrives I Q m -> (forall a, arrives Q P (k a)) -> arrives I P (m ≫= k).
Proof.
  intros Hm Hk s Hs. specialize (Hm s Hs). unfold mbind, M_bind. destruct (m s); [by apply Hk|done|done].
Qed.
Lemma arrives_preserves {A} (m : Mach A) : preserves P m -> arrives P P m.
Proof. intros Hm s Hs. specialize (Hm s Hs). by destruct (m s). Qed.
Lemma arrives_after {A B} (m : Mach A) (k : A -> Mach B) :
  preserves I m -> (forall a, arrives I P (k a)) -> arrives I P (m ≫= k).
Proof.
  intros Hm Hk s Hs. specialize (Hm s Hs). unfold mbind, M_bind. destruct (m s); [by apply Hk|done|done].
Qed.
Lemma arrives_after_yields {A B} (m : Mach A) (k : A -> Mach B) (Q : A -> Prop) :
  preserves I m -> yields m Q -> (forall a, Q a -> arrives I P (k a)) -> arrives I P (m ≫= k).
Proof.
  intros Hm Hy Hk s Hs. specialize (Hm s Hs). specialize (Hy s). unfold mbind, M_bind.
  destruct (m s) as [a s1|? ? ?|]; [|done|done]. by apply Hk; [apply (Hy a s1)|].
Qed.
Lemma arrives_CPL {B} c (k : Z -> Mach B) :
  (forall s, I s -> CPL s = c) -> arrives I P (k c) -> arrives I P (gets CPL ≫= k).
Proof. intros Hc Hk s Hs. unfold mbind, M_bind, gets. rewrite (Hc s Hs). by apply Hk. Qed.
Lemma arrives_unless {B} (b : bool) v e (k : Mach B) :
  (b = false -> arrives I P k) -> arrives I P (when b (raise v e);; k).
Proof. intros Hk s Hs. destruct b; [done|]. by apply Hk. Qed.
Lemma arrives_raise {A} v e : arrives I P (raise (A := A) v e).
Proof. by intros s Hs. Qed.
Lemma arrives_if {A} (b : bool) (m m' : Mach A) :
  (b = true -> arrives I P m) -> (b = false -> arrives I P m') -> arrives I P (if b then m else m').
Proof. destruct b; auto. Qed.
End Arrives.

(** ** Loading CS *)

Lemma nth_eip l v : 0 <= v -> nth 8 (<[8%nat := u32 v]> l) 0 <= v.
Proof.
  intros Hv. destruct (decide (8 < length l)%nat).
  - rewrite (nth_lookup_Some _ _ _ (u32 v)) by (by apply list_lookup_insert_eq).
    unfold wrap. apply Z.mod_le; lia.
  - rewrite nth_overflow; [done|]. rewrite length_insert. lia.
Qed.
Lemma sreg_set_other n k seg s : Z.to_nat n <> Z.to_nat k -> sreg k (set_sreg n seg s) = sreg k s.
Proof. intros H. unfold sreg, set_sreg. msimpl. by rewrite !nth_lookup, list_lookup_insert_ne. Qed.

(** CS and EIP as [branch_far32] and [branch_far64] leave them. *)
Lemma touched_limit sel d : yields (touch_segment sel d)
  (fun d' => seg_limit_scaled d' = seg_limit_scaled d /\ desc_dpl d' = desc_dpl d).
Proof. intros s d' s' E. apply touch_segment_yields in E as [-> | ->]; done. Qed.
Lemma refresh_same s :
  match (updateFetchModeMask;; handleAlignmentCheck;; invalidate_prefetch_q) s with
  | Ret _ s' => sregs s' = sregs s /\ gen_reg s' = gen_reg s
  | _ => False
  end.
Proof.
  unfold updateFetchModeMask, invalidate_prefetch_q, handleAlignmentCheck. rewrite bind_modify.
  unfold mbind, M_bind, gets. destruct (_ && _).
  - destruct (alignment_check_mask _ =? 0); by split.
  - destruct (alignment_check_mask _ =? 0); by split.
Qed.
(** From level [c], on the stack of level [cpl] already if [st]. *)
Definition departs (st : bool) (c cpl : Z) (s : machine) : Prop := at_level c s /\ (st = true -> own_stack cpl s).
#[export] Instance departs_Frame st c cpl : Frame (departs st c cpl).
Proof.
  unfold departs. split; try (intros; assumption). intros n seg s Hu [H1 H2]. split; [by apply frame_sreg|].
  intros E. apply frame_sreg; auto.
Qed.

(** A machine with [seg] in CS and EIP at [ip]. *)
Lemma new_cs_arrived st c cpl seg ip s s' :
  departs st c cpl s -> sel_rpl (selector seg) = cpl -> 0 <= ip <= seg_limit_scaled (cache seg) ->
  sregs s' = sregs (set_sreg BX_SEG_REG_CS seg s) -> arrived st cpl (set_reg BX_32BIT_REG_EIP (put_erx 0 ip) s').
Proof.
  intros [[Hl Hc] Hst] Hr Hip Hs.
  assert (sreg BX_SEG_REG_CS s' = seg) as HCS.
  { unfold sreg. rewrite Hs. apply (sreg_set_sreg BX_SEG_REG_CS). rewrite Hl. change (Z.to_nat BX_SEG_REG_CS) with 1%nat. lia. }
  assert (sreg BX_SEG_REG_SS s' = sreg BX_SEG_REG_SS s) as HSS.
  { unfold sreg at 1. rewrite Hs. by apply (sreg_set_other BX_SEG_REG_CS BX_SEG_REG_SS). }
  split; [split|split].
  - change (length (sregs s') = 6%nat). rewrite Hs. unfold set_sreg. msimpl. by rewrite length_insert.
  - change (CPL s' = cpl). unfold CPL. by rewrite HCS.
  - change (CS_limit (set_reg _ _ s')) with (CS_limit s'). unfold CS_limit. rewrite HCS.
    unfold eip_of, reg, set_reg, put_erx. msimpl. change (Z.to_nat BX_32BIT_REG_EIP) with 8%nat.
    pose proof (nth_eip (gen_reg s') ip). lia.
  - intros E. specialize (Hst E). change (own_stack cpl s'). unfold own_stack. rewrite HSS. exact Hst.
Qed.
Lemma load_cs_arrives st c sel d cpl ip :
  0 <= ip <= seg_limit_scaled d -> arrives (departs st c cpl) (arrived st cpl) (load_cs sel d cpl;; set_EIP ip).
Proof.
  intros Hip s Hs. unfold load_cs. cbv zeta. unfold mbind, M_bind.
  pose proof (touched_limit (with_sel_value (Z.lor (Z.land 0xfffc (sel_value sel)) cpl) sel) d s) as Hd.
  pose proof (touch_segment_frame (departs st c cpl)
    (with_sel_value (Z.lor (Z.land 0xfffc (sel_value sel)) cpl) sel) d s Hs) as H1.
  destruct (touch_segment _ d s) as [d' s1|? ? ?|]; [|done|done]. destruct (Hd d' s1 eq_refl) as [Hlim _].
  unfold modify at 1. set (seg := mk_segment_reg _ _). pose proof (refresh_same (set_sreg BX_SEG_REG_CS seg s1)) as H2.
  unfold mbind, M_bind in H2. destruct (updateFetchModeMask _) as [[] s2|? ? ?|]; [|done|done].
  destruct (handleAlignmentCheck s2) as [[] s3|? ? ?|]; [|done|done].
  destruct (invalidate_prefetch_q s3) as [[] s4|? ? ?|]; [|done|done]. destruct H2 as [H2 _].
  apply (new_cs_arrived st c cpl seg ip s1 s4); [done|done| |done]. cbn. by rewrite Hlim.
Qed.
Lemma branch_far32_arrives st c sel d ip cpl :
  0 <= ip -> arrives (departs st c cpl) (arrived st cpl) (branch_far32 sel d ip cpl).
Proof. intros Hip. apply arrives_unless. intros Hl%Z.ltb_ge. apply load_cs_arrives. lia. Qed.
Lemma branch_far64_arrives st c sel d ip cpl :
  arrives (departs st c cpl) (arrived st cpl) (branch_far64 sel d ip cpl).
Proof.
  apply arrives_unless. intros Hl%Z.ltb_ge. apply load_cs_arrives. split; [|done]. apply Z.land_nonneg. lia.
Qed.

(** ** After CS is loaded *)

Section After.
Context (st : bool) (c : Z).
Lemma set_reg_arrived n v s : n <> BX_32BIT_REG_EIP -> 0 <= n -> arrived st c s -> arrived st c (set_reg n v s).
Proof.
  intros Hn H0 (Hl & He & Hst). split; [exact Hl|split; [|exact Hst]].
  change (CS_limit (set_reg n v s)) with (CS_limit s). unfold eip_of, reg, set_reg in *. msimpl.
  rewrite nth_lookup, list_lookup_insert_ne, <-nth_lookup; [done|]. change BX_32BIT_REG_EIP with 8 in *. lia.
Qed.
Lemma set_ESP_arrived v : preserves (arrived st c) (set_ESP v).
Proof. apply preserves_modify. intros s Hs. by apply set_reg_arrived. Qed.
Lemma set_SP_arrived v : preserves (arrived st c) (set_SP v).
Proof. apply preserves_modify. intros s Hs. by apply set_reg_arrived. Qed.
Lemma other_sreg_arrived n seg s :
  case_in n [BX_SEG_REG_ES; BX_SEG_REG_DS; BX_SEG_REG_FS; BX_SEG_REG_GS] = true ->
  arrived st c s -> arrived st c (set_sreg n seg s).
Proof.
  intros Hn ((Hl & Hc) & He & Hst).
  assert (Z.to_nat n <> Z.to_nat BX_SEG_REG_CS /\ Z.to_nat n <> Z.to_nat BX_SEG_REG_SS) as [H1 H2].
  { cbn [case_in existsb] in Hn. rewrite !orb_true_iff, !Z.eqb_eq in Hn.
    destruct Hn as [->|[->|[->|[->|Hn]]]]; [by split..|done]. }
  split; [split|split].
  - unfold set_sreg. msimpl. by rewrite length_insert.
  - unfold CPL. by rewrite sreg_set_other.
  - change (eip_of (set_sreg n seg s)) with (eip_of s). unfold CS_limit. by rewrite sreg_set_other.
  - intros E. specialize (Hst E). unfold own_stack. by rewrite sreg_set_other.
Qed.
Lemma validate_seg_reg_arrived n :
  case_in n [BX_SEG_REG_ES; BX_SEG_REG_DS; BX_SEG_REG_FS; BX_SEG_REG_GS] = true ->
  preserves (arrived st c) (validate_seg_reg n).
Proof.
  intros Hn. unfold validate_seg_reg. repeat (apply preserves_bind; [apply preserves_gets|intros ?]).
  do 2 apply preserves_when. apply preserves_modify. intros s. by apply other_sreg_arrived.
Qed.
Lemma validate_seg_regs_arrived : preserves (arrived st c) validate_seg_regs.
Proof.
  unfold validate_seg_regs. repeat (apply preserves_bind; [by apply validate_seg_reg_arrived|intros _]).
  by apply validate_seg_reg_arrived.
Qed.
Lemma real_cs_arrived s : arrived st c s -> arrived st c (real_cs s).
Proof.
  intros ((Hl & Hc) & He & Hst).
  assert (sreg BX_SEG_REG_CS (real_cs s) = with_cache (with_desc_type BX_DATA_READ_WRITE_ACCESSED
    (with_desc_segment 1 (with_desc_p 1 (cache (sreg BX_SEG_REG_CS s))))) (sreg BX_SEG_REG_CS s)) as HCS.
  { apply sreg_set_sreg. rewrite Hl. change (Z.to_nat BX_SEG_REG_CS) with 1%nat. lia. }
  split; [split|split].
  - unfold real_cs, set_sreg. msimpl. by rewrite length_insert.
  - unfold CPL. by rewrite HCS.
  - change (eip_of (real_cs s)) with (eip_of s). unfold CS_limit. by rewrite HCS.
  - intros E. specialize (Hst E). unfold own_stack, real_cs. by rewrite sreg_set_other.
Qed.
Lemma writeEFlags_arrived fl m : preserves (arrived st c) (writeEFlags fl m).
Proof.
  unfold writeEFlags, setEFlags, handleAlignmentCheck, handleCpuModeChange, updateFetchModeMask.
  repeat match goal with
  | |- preserves _ (modify _) => apply preserves_modify; first [intros ? ?; assumption | exact real_cs_arrived]
  | _ => preserves_step
  end.
Qed.
Lemma write_flags_arrived fl a b : preserves (arrived st c) (write_flags fl a b).
Proof. apply writeEFlags_arrived. Qed.
Lemma touch_segment_arrived sel d : preserves (arrived st c) (touch_segment sel d).
Proof.
  assert (regless (touch_segment sel d)) as Hr by (unfold touch_segment; regless_tac).
  intros s (Hl & He & Hst). pose proof (regless_gen_reg _ s Hr) as Hg.
  pose proof (touch_segment_frame (departs st c c) sel d s (conj Hl Hst)) as H1.
  pose proof (touch_segment_frame (fun s' => CS_limit s' = CS_limit s) sel d s eq_refl) as H2.
  destruct (touch_segment sel d s); [| |done]; destruct H1 as [H1 H3]; (split; [done|split; [|done]]);
    unfold eip_of, reg; by rewrite Hg, H2.
Qed.
End After.

Lemma new_ss_arrived c st seg s :
  sel_rpl (selector seg) = c -> desc_dpl (cache seg) = c -> arrived st c s ->
  arrived true c (set_sreg BX_SEG_REG_SS seg s).
Proof.
  intros Hr Hd ((Hl & Hc) & He & _). split; [split|split].
  - unfold set_sreg. msimpl. by rewrite length_insert.
  - unfold CPL. by rewrite sreg_set_other.
  - change (eip_of (set_sreg BX_SEG_REG_SS seg s)) with (eip_of s). unfold CS_limit. by rewrite sreg_set_other.
  - intros _. unfold own_stack. rewrite sreg_set_sreg; [done|]. rewrite Hl.
    change (Z.to_nat BX_SEG_REG_SS) with 2%nat. lia.
Qed.
Lemma load_ss_arrives c st sel d : desc_dpl d = c -> arrives (arrived st c) (arrived true c) (load_ss sel d c).
Proof.
  intros Hd. unfold load_ss. cbv zeta. apply arrives_after_yields with (Q := fun d' => desc_dpl d' = c).
  - apply preserves_if; [apply touch_segment_arrived|apply preserves_ret].
  - destruct (negb _); [|by apply yields_ret]. intros s d' s' E. apply touched_limit in E as [_ ->]. done.
  - intros d' Hd' s Hs. by apply (new_ss_arrived c st).
Qed.
(** The stack loaded first, from another level. *)
Lemma load_ss_departs c cpl sel d : desc_dpl d = cpl -> arrives (at_level c) (departs true c cpl) (load_ss sel d cpl).
Proof.
  intros Hd. unfold load_ss. cbv zeta. apply arrives_after_yields with (Q := fun d' => desc_dpl d' = cpl).
  - apply preserves_if; [apply touch_segment_frame, _|apply preserves_ret].
  - destruct (negb _); [|by apply yields_ret]. intros s d' s' E. apply touched_limit in E as [_ ->]. done.
  - intros d' Hd' s [Hl Hc]. split; [split|intros _; unfold own_stack].
    + unfold set_sreg. msimpl. by rewrite length_insert.
    + unfold CPL. by rewrite sreg_set_other.
    + rewrite sreg_set_sreg; [done|]. rewrite Hl. change (Z.to_nat BX_SEG_REG_SS) with 2%nat. lia.
Qed.

(** ** The transfers *)

Lemma arrives_weaken {A} (I I' P P' : machine -> Prop) (m : Mach A) :
  (forall s, I s -> I' s) -> (forall s, P' s -> P s) -> arrives I' P' m -> arrives I P m.
Proof. intros HI HP Hm s Hs. specialize (Hm s (HI s Hs)). destruct (m s); [by apply HP|done|done]. Qed.

(** At a level related to [c] by [R], inside the code segment, and on a stack of
    that level if the level changed. *)
Definition transferred (R : Z -> Z -> Prop) (c : Z) (s : machine) : Prop :=
  R c (CPL s) /\ eip_of s <= CS_limit s /\ (CPL s = c \/ own_stack (CPL s) s).
Lemma arrived_same (R : Z -> Z -> Prop) st c s : R c c -> arrived st c s -> transferred R c s.
Proof. intros HR ((Hl & Hc) & He & Hst). unfold transferred. rewrite Hc. auto. Qed.
Lemma arrived_other (R : Z -> Z -> Prop) c c' s : R c c' -> arrived true c' s -> transferred R c s.
Proof. intros HR ((Hl & Hc) & He & Hst). unfold transferred. rewrite Hc. auto. Qed.

Lemma arrives_outer_ss (I P : machine -> Prop) sel d raw rpl e (k : Mach unit) :
  (desc_dpl d = rpl -> arrives I P k) -> arrives I P (check_outer_ss sel d raw rpl e;; k).
Proof.
  intros Hk s Hs. unfold check_outer_ss. unfold mbind, M_bind. destruct (_ || _); [done|]. cbn [when].
  unfold mret, M_ret. destruct (desc_dpl d =? rpl) eqn:E; cbn [negb when]; [|done].
  destruct (negb (IS_PRESENT d)); [done|]. apply Hk; [lia|done].
Qed.

Section Transfers.
Context (c : Z).
Ltac before_cs :=
  match goal with
  | |- arrives _ _ (let _ := _ in _) => cbv zeta
  | |- arrives _ _ (mbind _ (when _ (raise _ _))) => apply arrives_unless; intros ?
  | |- arrives _ _ (mbind _ (check_outer_ss _ _ _ _ _)) => apply arrives_outer_ss; intros ?
  | |- arrives _ _ (mbind _ (gets CPL)) => apply (arrives_CPL _ _ c); [by intros ? []|]
  | |- arrives _ _ (mbind _ (branch_far32 _ _ _ _)) => fail 1
  | |- arrives _ _ (mbind _ (branch_far64 _ _ _ _)) => fail 1
  | |- arrives _ _ (mbind _ (load_ss _ _ _)) => fail 1
  | |- arrives _ _ (mbind _ (read_virtual_32 _ _ _)) =>
      eapply arrives_after_yields; [solve [frame_walk]|apply read_virtual_32_yields|intros ?; cbv beta; intros ?]
  | |- arrives _ _ (mbind _ _) => apply arrives_after; [solve [unfold check_cs, check_outer_ss; frame_walk]|intros ?]
  | |- arrives _ _ (if _ then _ else _) => apply arrives_if; intros ?
  | |- arrives _ _ (raise _ _) => apply arrives_raise
  end.
Ltac after_cs :=
  repeat match goal with
  | |- forall _, _ => intros ?
  | |- preserves _ (mbind _ _) => apply preserves_bind
  | |- preserves _ (if _ then _ else _) => apply preserves_if
  | |- preserves _ (gets _) => apply preserves_gets
  | |- preserves _ ESP => apply RegRead_preserves with (w := 32); typeclasses eauto
  | |- preserves _ SP => apply RegRead_preserves with (w := 16); typeclasses eauto
  | |- preserves _ (set_ESP _) => apply set_ESP_arrived
  | |- preserves _ (set_SP _) => apply set_SP_arrived
  | |- preserves _ (writeEFlags _ _) => apply writeEFlags_arrived
  | |- preserves _ (write_flags _ _ _) => apply write_flags_arrived
  | |- preserves _ validate_seg_regs => apply validate_seg_regs_arrived
  end.
Lemma branch64 (R : Z -> Z -> Prop) sel d ip :
  R c c -> arrives (at_level c) (transferred R c) (branch_far64 sel d ip c).
Proof.
  intros HR. eapply arrives_weaken; [| |apply (branch_far64_arrives false c)].
  - intros s Hs. by split.
  - intros s. by apply arrived_same.
Qed.
Lemma branch32 (R : Z -> Z -> Prop) sel d ip :
  R c c -> 0 <= ip -> arrives (at_level c) (transferred R c) (branch_far32 sel d ip c).
Proof.
  intros HR Hip. eapply arrives_weaken; [| |by apply (branch_far32_arrives false c)].
  - intros s Hs. by split.
  - intros s. by apply arrived_same.
Qed.

Lemma return_transfers i n : arrives (at_level c) (transferred Z.le c) (return_protected i n).
Proof.
  unfold return_protected, SS_d_b. unfold_widths. repeat before_cs.
  - apply (arrives_weaken _ (departs false c c) _ (arrived false c)); [by split|intros s; by apply arrived_same|].
    eapply arrives_bind; [apply branch_far64_arrives|]. intros _. apply arrives_preserves. after_cs.
  - set (c' := sel_rpl (parse_selector _)) in *.
    apply (arrives_weaken _ (departs false c c') _ (arrived true c')); [by split| |].
    { intros s. apply arrived_other. lia. }
    eapply arrives_bind; [apply branch_far64_arrives|]. intros _.
    match goal with H : (Z.land _ 0xfffc =? 0) = false |- arrives _ _ (mbind _ (when (negb (Z.land _ 0xfffc =? 0)) _)) =>
      rewrite H end. cbn [negb when].
    eapply arrives_bind; [by apply load_ss_arrives|]. intros _. apply arrives_preserves. after_cs.
Qed.

Lemma iret_same_transfers i sel d eip fl :
  0 <= eip -> sel_rpl sel = c -> arrives (at_level c) (transferred Z.le c) (iret_same i sel d eip fl).
Proof.
  intros He <-. unfold iret_same, SS_d_b.
  apply (arrives_weaken _ (departs false (sel_rpl sel) (sel_rpl sel)) _ (arrived false (sel_rpl sel)));
    [by split|intros s; by apply arrived_same|].
  eapply arrives_bind; [by apply branch_far32_arrives|]. intros _. apply arrives_preserves. after_cs.
Qed.
Lemma iret_outer_transfers i sel d esp :
  c <= sel_rpl sel -> arrives (at_level c) (transferred Z.le c) (iret_outer i sel d esp).
Proof.
  intros Hc. unfold iret_outer. unfold_widths. destruct (nz (os32L i)); repeat before_cs;
    (apply (arrives_weaken _ (departs false c (sel_rpl sel)) _ (arrived true (sel_rpl sel)));
     [by split|intros s; by apply arrived_other|]);
    (eapply arrives_bind; [apply branch_far32_arrives; lia|]); intros _;
    (eapply arrives_bind; [apply arrives_preserves, writeEFlags_arrived|]); intros _;
    (eapply arrives_bind; [by apply load_ss_arrives|]); intros _; apply arrives_preserves; after_cs.
Qed.
Lemma iret_segment_transfers i esp raw eip fl :
  0 <= eip -> arrives (at_level c) (transferred Z.le c) (iret_segment i esp raw eip fl).
Proof.
  intros He. unfold iret_segment. repeat before_cs.
  - apply iret_same_transfers; [done|lia].
  - apply iret_outer_transfers. lia.
Qed.

(** *** Jumps and calls *)

Lemma gate_offset_nonneg a b t :
  (desc_segment (parse_descriptor a b t) =? 0) = true ->
  case_in (desc_type (parse_descriptor a b t)) [BX_286_CALL_GATE; BX_386_CALL_GATE] = true ->
  0 <= gate_dest_offset (parse_descriptor a b t).
Proof.
  unfold parse_descriptor. cbv zeta. msimpl. set (sg := Z.land (Z.shiftr (u8 _) 4) 1).
  set (ty := Z.land (u8 _) 0xf). unfold nz. destruct (sg =? 0) eqn:Hsg; cbn [negb].
  2: { unfold parse_segment. msimpl. rewrite Hsg. done. }
  intros _. unfold gate_dest_offset, with_gate_dest_offset.
  destruct (case_in ty [BX_286_CALL_GATE; _; _]) eqn:H1; [intros _; msimpl; apply wrap_range; lia|].
  destruct (case_in ty [BX_386_CALL_GATE; _; _]) eqn:H2.
  - intros _. msimpl. apply wrap_range. lia.
  - cbn [case_in existsb] in H1, H2. rewrite !orb_false_iff in H1. rewrite !orb_false_iff in H2.
    destruct H1 as [H1 _], H2 as [H2 _].
    destruct (case_in ty [BX_TASK_GATE]); [|destruct (case_in ty sys_segment_types)];
      match goal with |- context [desc_type ?d] => change (desc_type d) with ty end;
      cbn [case_in existsb]; by rewrite H1, H2.
Qed.

(** The descriptor of a TSS or of a task gate. *)
Definition switches_task (d : bx_descriptor_t) : bool :=
  (desc_segment d =? 0) &&
  case_in (desc_type d) [BX_SYS_SEGMENT_AVAIL_286_TSS; BX_SYS_SEGMENT_AVAIL_386_TSS; BX_TASK_GATE].

Lemma no_switch d :
  negb (desc_segment d =? 0) = false -> switches_task d = false ->
  (desc_segment d =? 0) = true /\
  case_in (desc_type d) [BX_SYS_SEGMENT_AVAIL_286_TSS; BX_SYS_SEGMENT_AVAIL_386_TSS] = false /\
  (desc_type d =? BX_TASK_GATE) = false.
Proof.
  unfold switches_task. intros ->%negb_false_iff. cbn [andb case_in existsb].
  intros [H1 [H2 [H3 _]%orb_false_iff]%orb_false_iff]%orb_false_iff. by rewrite H1, H2, H3.
Qed.
Lemma jmp_call_gate_transfers sel a b :
  let d := parse_descriptor a b uninitialised in
  (desc_segment d =? 0) = true -> case_in (desc_type d) [BX_286_CALL_GATE; BX_386_CALL_GATE] = true ->
  arrives (at_level c) (transferred eq c) (jmp_call_gate sel d).
Proof.
  intros d Hs Ht. pose proof (gate_offset_nonneg a b uninitialised Hs Ht).
  unfold jmp_call_gate. repeat before_cs. by apply branch32.
Qed.
(** After the descriptor is fetched. *)
Lemma fetched {B} (I P : machine -> Prop) sel v (k : Z * Z -> Mach B) s p s0 `{!Frame I} :
  I s -> fetch_raw_descriptor sel v s = Ret p s0 -> arrives I P (k p) ->
  match (fetch_raw_descriptor sel v ≫= k) s with Ret _ s' => P s' | _ => True end.
Proof.
  intros Hs Hf Hk. rewrite (bind_Ret _ _ _ _ _ Hf). apply Hk.
  pose proof (fetch_raw_descriptor_frame I sel v s Hs) as H. by rewrite Hf in H.
Qed.
Lemma jump_transfers i raw disp s p s0 :
  at_level c s -> fetch_raw_descriptor (parse_selector raw) BX_GP_EXCEPTION s = Ret p s0 ->
  switches_task (parse_descriptor p.1 p.2 uninitialised) = false ->
  match jump_protected i raw disp s with Ret _ s' => transferred eq c s' | _ => True end.
Proof.
  intros Hs Hf Hw. unfold jump_protected. cbv zeta. unfold mbind at 1, M_bind at 1.
  destruct (Z.land raw 0xfffc =? 0); [done|]. cbn [when]. unfold mret, M_ret.
  eapply fetched; [by apply at_level_Frame|exact Hs|exact Hf|]. cbv beta. before_cs.
  - repeat before_cs. by apply branch64.
  - destruct (no_switch _ H Hw) as (Hsg & -> & ->). repeat before_cs. by apply jmp_call_gate_transfers.
Qed.

Lemma call_gate_inner_transfers a b sel d :
  let g := parse_descriptor a b uninitialised in
  (desc_segment g =? 0) = true -> case_in (desc_type g) [BX_286_CALL_GATE; BX_386_CALL_GATE] = true ->
  desc_dpl d <= c -> arrives (at_level c) (transferred Z.ge c) (call_gate_inner g sel d).
Proof.
  intros g Hs Ht Hd. pose proof (gate_offset_nonneg a b uninitialised Hs Ht) as Hoff. fold g in Hoff.
  unfold call_gate_inner, get_SS_ESP_from_TSS, sreg_value, SS_d_b. cbv zeta.
  apply arrives_after; [unfold system_read_word, system_read_dword; frame_walk|intros [ss esp]].
  repeat before_cs. set (ssd := parse_descriptor _ _ _) in *.
  apply (arrives_weaken _ (at_level c) _ (arrived true (desc_dpl d))); [done|intros s; apply arrived_other; lia|].
  eapply arrives_bind; [apply load_ss_departs; lia|]. intros _. apply load_cs_arrives. lia.
Qed.
Lemma call_gate_transfers a b :
  let g := parse_descriptor a b uninitialised in
  (desc_segment g =? 0) = true -> case_in (desc_type g) [BX_286_CALL_GATE; BX_386_CALL_GATE] = true ->
  arrives (at_level c) (transferred Z.ge c) (call_gate g).
Proof.
  intros g Hs Ht. pose proof (gate_offset_nonneg a b uninitialised Hs Ht) as Hoff. fold g in Hoff.
  unfold call_gate, sreg_value. repeat before_cs.
  - apply call_gate_inner_transfers; [done|done|]. apply andb_true_iff in H2 as [_ H2]. lia.
  - apply branch32; lia.
Qed.
Lemma call_segment_transfers i sel d raw disp :
  arrives (at_level c) (transferred Z.ge c) (call_segment i sel d raw disp).
Proof.
  unfold call_segment, sreg_value, SS_d_b. repeat before_cs.
  apply (arrives_weaken _ (departs false c c) _ (arrived false c)); [by split|intros s; apply arrived_same; lia|].
  eapply arrives_bind; [apply branch_far64_arrives|]. intros _. apply arrives_preserves. after_cs.
Qed.
Lemma call_transfers i raw disp s p s0 :
  at_level c s -> fetch_raw_descriptor (parse_selector raw) BX_GP_EXCEPTION s = Ret p s0 ->
  switches_task (parse_descriptor p.1 p.2 uninitialised) = false ->
  match call_protected i raw disp s with Ret _ s' => transferred Z.ge c s' | _ => True end.
Proof.
  intros Hs Hf Hw. unfold call_protected. cbv zeta. unfold mbind at 1, M_bind at 1.
  destruct (Z.land raw 0xfffc =? 0); [done|]. cbn [when]. unfold mret, M_ret.
  eapply fetched; [by apply at_level_Frame|exact Hs|exact Hf|]. cbv beta. do 2 before_cs.
  - apply call_segment_transfers.
  - destruct (no_switch _ H0 Hw) as (Hsg & -> & ->). repeat before_cs. by apply call_gate_transfers.
Qed.
End Transfers.

(** *** Into virtual-8086 mode *)

Lemma init_v8086_sregs_after n : forall k s s', length (sregs s) = 6%nat -> 0 <= k -> k + Z.of_nat n <= 6 ->
  init_v8086_sregs n k s = Ret tt s' ->
  length (sregs s') = 6%nat /\ gen_reg s' = gen_reg s /\
  forall j, 0 <= j < k + Z.of_nat n -> (k <= j -> sreg j s' = mk_segment_reg (with_sel_rpl 3 (selector (sreg j s)))
                                       (v8086_cache (sel_value (selector (sreg j s))))) /\
                                       (j < k -> sreg j s' = sreg j s).
Proof.
  induction n as [|n IH]; intros k s s' Hl H0 Hk E; cbn [init_v8086_sregs] in E.
  - apply Ret_inj in E as [_ <-]. split; [done|]. split; [done|]. intros j Hj. split; [lia|done].
  - unfold init_v8086_sreg in E. rewrite bind_modify in E.
    set (s1 := set_sreg k _ s) in E. destruct (IH (k + 1) s1 s') as (Hl1 & Hg1 & Hj1); [|lia|lia|exact E|].
    { unfold s1, set_sreg. msimpl. by rewrite length_insert. }
    split; [done|]. split; [done|]. intros j Hj. destruct (Hj1 j ltac:(lia)) as [H1 H2].
    assert (j <> k -> sreg j s1 = sreg j s) as Ho by (intros; unfold s1; apply sreg_set_other; lia).
    split; intros Hjk.
    + destruct (decide (j = k)) as [->|]; [|rewrite <-Ho by done; apply H1; lia].
      rewrite H2 by lia. unfold s1. apply sreg_set_sreg. lia.
    + rewrite H2, Ho by lia. done.
Qed.
Definition six (s : machine) : Prop := length (sregs s) = 6%nat.
Lemma six_writeEFlags fl m : preserves six (writeEFlags fl m).
Proof.
  unfold writeEFlags, setEFlags, handleAlignmentCheck, handleCpuModeChange, updateFetchModeMask.
  repeat match goal with
  | |- preserves _ (modify _) => apply preserves_modify;
      first [intros ? ?; assumption | intros s Hs; unfold six, set_sreg; msimpl; by rewrite length_insert]
  | _ => preserves_step
  end.
Qed.
Definition real_ip (s : machine) : Prop := six s /\ eip_of s <= 0xffff.
Lemma set_sel_value_real_ip n v : preserves real_ip (set_sel_value n v).
Proof.
  apply preserves_modify. intros s [Hs He]. split; [|done]. unfold six, set_sreg. msimpl. by rewrite length_insert.
Qed.
Lemma init_v8086_mode_arrives : arrives real_ip (arrived true 3) init_v8086_mode.
Proof.
  unfold init_v8086_mode. apply arrives_bind with (Q := arrived true 3).
  - intros s [Hl He]. destruct (init_v8086_sregs 6 0 s) as [[] s'|? ? ?|] eqn:E; [|done|done].
    destruct (init_v8086_sregs_after 6 0 s s' Hl ltac:(lia) ltac:(lia) E) as (Hl' & Hg & Hj).
    assert (forall j, 0 <= j < 6 -> sel_rpl (selector (sreg j s')) = 3 /\ desc_dpl (cache (sreg j s')) = 3 /\
      seg_limit_scaled (cache (sreg j s')) = 0xffff) as H
      by (intros j Hr; destruct (Hj j ltac:(lia)) as [Hj1 _]; by rewrite Hj1 by lia).
    split; [split; [done|]|split].
    + apply (H BX_SEG_REG_CS). done.
    + unfold CS_limit, eip_of, reg in *. destruct (H BX_SEG_REG_CS ltac:(done)) as (_ & _ & ->). by rewrite Hg.
    + intros _. destruct (H BX_SEG_REG_SS ltac:(done)) as (H1 & H2 & _). by split.
  - intros _. apply arrives_preserves.
    unfold handleAlignmentCheck, handleCpuModeChange, updateFetchModeMask.
    repeat match goal with
    | |- preserves _ (modify _) => apply preserves_modify; first [intros ? ?; assumption | exact (real_cs_arrived true 3)]
    | _ => preserves_step
    end.
Qed.
Lemma set_EIP_real_ip v : 0 <= v <= 0xffff -> arrives six real_ip (set_EIP v).
Proof.
  intros Hv s Hs. split; [exact Hs|]. unfold eip_of, reg, set_reg, put_erx. msimpl.
  change (Z.to_nat BX_32BIT_REG_EIP) with 8%nat. pose proof (nth_eip (gen_reg s) v). lia.
Qed.
Lemma stack_return_to_v86_arrives c eip raw fl :
  arrives (at_level c) (arrived true 3) (stack_return_to_v86 eip raw fl).
Proof.
  unfold stack_return_to_v86, SS_d_b. unfold_widths. do 8 (apply arrives_after; [solve [frame_walk]|intros ?]).
  apply (arrives_weaken _ six _ (arrived true 3)); [by intros s [Hl _]|done|].
  apply arrives_after; [apply six_writeEFlags|intros _].
  apply arrives_after; [|intros _].
  { apply preserves_modify. intros s Hs. unfold six, set_sreg. msimpl. by rewrite length_insert. }
  eapply arrives_bind; [apply set_EIP_real_ip|intros _].
  { rewrite (Z.land_ones _ 16) by lia. pose proof (Z.mod_pos_bound eip (2 ^ 16)). lia. }
  do 5 (apply arrives_after; [apply set_sel_value_real_ip|intros _]).
  apply arrives_after; [|intros _; apply init_v8086_mode_arrives].
  apply preserves_modify. intros s [Hs He]. split; [exact Hs|]. unfold eip_of, reg, set_reg in *. msimpl.
  rewrite nth_lookup, list_lookup_insert_ne, <-nth_lookup; [done|]. change (Z.to_nat BX_32BIT_REG_EIP) with 8%nat. lia.
Qed.
Lemma iret_stack_transfers c i : arrives (at_level c) (transferred Z.le c) (iret_stack i).
Proof.
  unfold iret_stack, SS_d_b. unfold_widths. do 2 (apply arrives_after; [solve [frame_walk]|intros ?]).
  apply arrives_if; intros _; do 2 (apply arrives_after; [solve [frame_walk]|intros ?]);
    (eapply arrives_after_yields; [solve [frame_walk]|apply read_virtual_32_yields|intros eip He]; cbv beta in He).
  - apply (arrives_CPL _ _ c); [by intros s []|]. apply arrives_if; intros H.
    + eapply arrives_weaken; [done| |apply (stack_return_to_v86_arrives c)]. intros s. apply arrived_other.
      apply andb_true_iff in H as [_ H]. lia.
    + apply iret_segment_transfers. lia.
  - apply iret_segment_transfers. lia.
Qed.
Lemma iret_transfers c i s :
  at_level c s -> get_NT s = 0 -> match iret_protected i s with Ret _ s' => transferred Z.le c s' | _ => True end.
Proof. intros Hs Hn. unfold iret_protected. rewrite (bind_gets get_NT), Hn. by apply iret_stack_transfers. Qed.

(** C4: far transfers that switch no task respect the rings (a jump or call to
    a TSS or a task gate and the return from a nested task take the level the
    incoming task was left at, and are excluded).  Whatever is in the descriptor
    tables and on the stack: a far jump that switches no task ends at the privilege
    level it started from; a far call that switches no task at this or a more
    privileged level; a far return, and an interrupt return outside a nested
    task (into virtual-8086 mode included), at this or a less privileged level.
    If the level changes, SS has become a segment of the new level, and EIP is
    never beyond the limit of the code segment arrived in. *)
Theorem ring_protection i s :
  wf s ->
  (forall raw disp p s0 s',
     fetch_raw_descriptor (parse_selector raw) BX_GP_EXCEPTION s = Ret p s0 ->
     switches_task (parse_descriptor p.1 p.2 uninitialised) = false ->
     (jump_protected i raw disp s = Ret tt s' -> transferred eq (CPL s) s') /\
     (call_protected i raw disp s = Ret tt s' -> transferred Z.ge (CPL s) s')) /\
  (forall n s', return_protected i n s = Ret tt s' -> transferred Z.le (CPL s) s') /\
  (forall s', get_NT s = 0 -> iret_protected i s = Ret tt s' -> transferred Z.le (CPL s) s').
Proof.
  intros Hw. assert (at_level (CPL s) s) as Hs by (split; [apply Hw|done]). split_and!.
  - intros raw disp p s0 s' Hf Ht. split; intros E.
    + pose proof (jump_transfers _ i raw disp s p s0 Hs Hf Ht) as H. by rewrite E in H.
    + pose proof (call_transfers _ i raw disp s p s0 Hs Hf Ht) as H. by rewrite E in H.
  - intros n s' E. pose proof (return_transfers _ i n s Hs) as H. by rewrite E in H.
  - intros s' Hn E. pose proof (iret_transfers _ i s Hs Hn) as H. by rewrite E in H.
Qed.

(** A user program at level 3, a call gate of level 3 to level 0 with one
    parameter, and a TSS with the stack of level 0. *)
Definition user_segment (type : Z) : bx_descriptor_t := mk_descriptor SegValidCache 1 3 1 type 0 0xffffffff 1 1 0.
Definition gate_machine : machine :=
  with_sregs ([mk_segment_reg (mk_selector 0x23 4 0 3) (user_segment 3);
               mk_segment_reg (mk_selector 0x1b 3 0 3) (user_segment 0xb)] ++
              replicate 4 (mk_segment_reg (mk_selector 0x23 4 0 3) (user_segment 3)))
  (with_tr (mk_segment_reg (mk_selector 0x30 6 0 0) (mk_descriptor SegValidCache 1 0 0 0xb 0x4000 0x67 0 0 0))
  (with_gdtr (mk_global_segment_reg 0x2000 0xff)
  (with_memory (with_mem_vector
     (mem_store (mem_store (mem_store (mem_store (mem_store (mem_store ∅
        0x2008 (le_split 8 0x00cf9a000000ffff)) 0x2010 (le_split 8 0x00cf92000000ffff))
        0x2028 (le_split 8 0x0000ec0100081234)) 0x4004 (le_split 4 0x1000)) 0x4008 (le_split 4 0x10))
        0x5000 (le_split 4 77)) (memory flat_machine))
  (set_reg 4 0x5000 (set_reg BX_32BIT_REG_EIP 0x100 flat_machine))))).
Lemma gate_machine_wf : wf gate_machine.
Proof.
  split; [|split]; [split; [done|repeat constructor; done]| |repeat split; (done || lia)].
  split; [done|]. repeat constructor; (lia || done).
Qed.
Lemma ring_protection_witness :
  exists s', call_protected (demo_instruction 0x9a 0 0 0) 0x2b 0 gate_machine = Ret tt s' /\
    transferred Z.ge 3 s' /\ CPL s' = 0 /\ eip_of s' = 0x1234 /\ reg 4 s' = 0xfec /\
    mem_byte (mem_vector (memory s')) 0xff4 = 77.
Proof.
  destruct (fetch_raw_descriptor (parse_selector 0x2b) BX_GP_EXCEPTION gate_machine) as [p s0|? ? ?|] eqn:Ef;
    [|vm_compute in Ef; discriminate Ef..].
  destruct (call_protected (demo_instruction 0x9a 0 0 0) 0x2b 0 gate_machine) as [[] s'|? ? ?|] eqn:E;
    [|vm_compute in E; discriminate E..].
  exists s'. split; [done|]. split.
  - destruct (ring_protection (demo_instruction 0x9a 0 0 0) gate_machine gate_machine_wf) as [H _].
    apply (H 0x2b 0 p s0 s' Ef); [|exact E]. vm_compute in Ef. injection Ef as <- _. reflexivity.
  - vm_compute in E. injection E as <-. repeat split; reflexivity.
Defined.
