(* ===== verification/Decode.v ===== *)
(** * Decode: from bytes to instructions

    [fetchDecode32()] of cpu/fetchdecode.cc with the setters of cpu/instr.h: the
    prefixes, the opcode, the ModRM and SIB bytes with the displacement, the
    group tables, the LOCK prefix and the immediate. *)
From stdpp Require Import base numbers list gmap.
From Stdlib Require Import ZArith Lia.
From S2P Require Import Prelude Opcodes OpcodeTables Machine Memory.

Local Open Scope Z_scope.

(** ** Setters (cpu/instr.h) *)

Definition set_ResolveModrm (x : resolver) (i : bxInstruction_c) : bxInstruction_c :=
  mk_instruction x (ia_opcode i) (ilen i) (metaInfo1 i) (i_seg i) (i_b1 i) (i_nnn i) (i_rm i)
    (sibBase i) (sibIndex i) (sibScale i) (i_modrm i) (form_w0 i) (form_w1 i).
Definition setIaOpcode (x : bx_ia_opcode) (i : bxInstruction_c) : bxInstruction_c :=
  mk_instruction (ResolveModrm i) x (ilen i) (metaInfo1 i) (i_seg i) (i_b1 i) (i_nnn i) (i_rm i)
    (sibBase i) (sibIndex i) (sibScale i) (i_modrm i) (form_w0 i) (form_w1 i).
Definition setILen (x : Z) (i : bxInstruction_c) : bxInstruction_c :=
  mk_instruction (ResolveModrm i) (ia_opcode i) x (metaInfo1 i) (i_seg i) (i_b1 i) (i_nnn i) (i_rm i)
    (sibBase i) (sibIndex i) (sibScale i) (i_modrm i) (form_w0 i) (form_w1 i).
Definition set_metaInfo1 (x : Z) (i : bxInstruction_c) : bxInstruction_c :=
  mk_instruction (ResolveModrm i) (ia_opcode i) (ilen i) (u8 x) (i_seg i) (i_b1 i) (i_nnn i) (i_rm i)
    (sibBase i) (sibIndex i) (sibScale i) (i_modrm i) (form_w0 i) (form_w1 i).
Definition setSeg (x : Z) (i : bxInstruction_c) : bxInstruction_c :=
  mk_instruction (ResolveModrm i) (ia_opcode i) (ilen i) (metaInfo1 i) x (i_b1 i) (i_nnn i) (i_rm i)
    (sibBase i) (sibIndex i) (sibScale i) (i_modrm i) (form_w0 i) (form_w1 i).
Definition setB1 (x : Z) (i : bxInstruction_c) : bxInstruction_c :=
  mk_instruction (ResolveModrm i) (ia_opcode i) (ilen i) (metaInfo1 i) (i_seg i) (Z.land x 0xff) (i_nnn i) (i_rm i)
    (sibBase i) (sibIndex i) (sibScale i) (i_modrm i) (form_w0 i) (form_w1 i).
Definition setNnn (x : Z) (i : bxInstruction_c) : bxInstruction_c :=
  mk_instruction (ResolveModrm i) (ia_opcode i) (ilen i) (metaInfo1 i) (i_seg i) (i_b1 i) x (i_rm i)
    (sibBase i) (sibIndex i) (sibScale i) (i_modrm i) (form_w0 i) (form_w1 i).
Definition setRm (x : Z) (i : bxInstruction_c) : bxInstruction_c :=
  mk_instruction (ResolveModrm i) (ia_opcode i) (ilen i) (metaInfo1 i) (i_seg i) (i_b1 i) (i_nnn i) x
    (sibBase i) (sibIndex i) (sibScale i) (i_modrm i) (form_w0 i) (form_w1 i).
Definition setOpcodeReg : Z -> bxInstruction_c -> bxInstruction_c := setRm.
Definition setSibBase (x : Z) (i : bxInstruction_c) : bxInstruction_c :=
  mk_instruction (ResolveModrm i) (ia_opcode i) (ilen i) (metaInfo1 i) (i_seg i) (i_b1 i) (i_nnn i) (i_rm i)
    x (sibIndex i) (sibScale i) (i_modrm i) (form_w0 i) (form_w1 i).
Definition setSibIndex (x : Z) (i : bxInstruction_c) : bxInstruction_c :=
  mk_instruction (ResolveModrm i) (ia_opcode i) (ilen i) (metaInfo1 i) (i_seg i) (i_b1 i) (i_nnn i) (i_rm i)
    (sibBase i) x (sibScale i) (i_modrm i) (form_w0 i) (form_w1 i).
Definition setSibScale (x : Z) (i : bxInstruction_c) : bxInstruction_c :=
  mk_instruction (ResolveModrm i) (ia_opcode i) (ilen i) (metaInfo1 i) (i_seg i) (i_b1 i) (i_nnn i) (i_rm i)
    (sibBase i) (sibIndex i) x (i_modrm i) (form_w0 i) (form_w1 i).
Definition setModRM (x : Z) (i : bxInstruction_c) : bxInstruction_c :=
  mk_instruction (ResolveModrm i) (ia_opcode i) (ilen i) (metaInfo1 i) (i_seg i) (i_b1 i) (i_nnn i) (i_rm i)
    (sibBase i) (sibIndex i) (sibScale i) x (form_w0 i) (form_w1 i).
Definition set_form_w0 (x : Z) (i : bxInstruction_c) : bxInstruction_c :=
  mk_instruction (ResolveModrm i) (ia_opcode i) (ilen i) (metaInfo1 i) (i_seg i) (i_b1 i) (i_nnn i) (i_rm i)
    (sibBase i) (sibIndex i) (sibScale i) (i_modrm i) x (form_w1 i).
Definition set_form_w1 (x : Z) (i : bxInstruction_c) : bxInstruction_c :=
  mk_instruction (ResolveModrm i) (ia_opcode i) (ilen i) (metaInfo1 i) (i_seg i) (i_b1 i) (i_nnn i) (i_rm i)
    (sibBase i) (sibIndex i) (sibScale i) (i_modrm i) (form_w0 i) x.

Definition set_Id (x : Z) (i : bxInstruction_c) : bxInstruction_c := set_form_w0 (put_erx (form_w0 i) x) i.
Definition set_Iw (x : Z) (i : bxInstruction_c) : bxInstruction_c := set_form_w0 (put_rx (form_w0 i) x) i.
Definition set_Ib (x : Z) (i : bxInstruction_c) : bxInstruction_c := set_form_w0 (put_rl (form_w0 i) x) i.
Definition set_displ32u (x : Z) (i : bxInstruction_c) : bxInstruction_c := set_form_w1 (put_erx (form_w1 i) x) i.
Definition set_displ16u (x : Z) (i : bxInstruction_c) : bxInstruction_c := set_form_w1 (put_rx (form_w1 i) x) i.
Definition set_Iw2 (x : Z) (i : bxInstruction_c) : bxInstruction_c := set_form_w1 (put_rx (form_w1 i) x) i.
Definition set_Ib2 (x : Z) (i : bxInstruction_c) : bxInstruction_c := set_form_w1 (put_rl (form_w1 i) x) i.

Definition init (os32 as32 : Z) (i : bxInstruction_c) : bxInstruction_c :=
  set_metaInfo1 (Z.lor (Z.shiftl os32 3) (Z.shiftl as32 4)) i.
Definition setOs32B (bit : Z) (i : bxInstruction_c) : bxInstruction_c :=
  set_metaInfo1 (Z.lor (Z.land (metaInfo1 i) (Z.lnot (Z.shiftl 1 3))) (Z.shiftl bit 3)) i.
Definition setAs32B (bit : Z) (i : bxInstruction_c) : bxInstruction_c :=
  set_metaInfo1 (Z.lor (Z.land (metaInfo1 i) (Z.lnot (Z.shiftl 1 4))) (Z.shiftl bit 4)) i.
Definition setRepUsed (value : Z) (i : bxInstruction_c) : bxInstruction_c :=
  set_metaInfo1 (Z.lor (Z.land (metaInfo1 i) (Z.lnot 3)) value) i.
Definition assertModC0 (i : bxInstruction_c) : bxInstruction_c :=
  set_metaInfo1 (Z.lor (metaInfo1 i) (Z.shiftl 1 2)) i.

(** ** Reading the instruction

    [iptr] is what the pointer of that name points at, [ilen] the number of bytes
    taken, and [remain] how many there may be.  [Refused] is [return(-1)];
    [Stuck] is a read beyond the bytes or beyond a table, or a failed
    assertion. *)

Inductive fetched (A : Type) : Type :=
  | Fetched (a : A) (iptr : list Z) (ilen : Z)
  | Refused
  | Stuck.
Arguments Fetched {A} a iptr ilen.
Arguments Refused {A}.
Arguments Stuck {A}.
Definition Fetch (A : Type) : Type := Z -> list Z -> Z -> fetched A.

#[export] Instance Fetch_ret : MRet Fetch := fun A a _ iptr ilen => Fetched a iptr ilen.
#[export] Instance Fetch_bind : MBind Fetch := fun A B f m remain iptr ilen =>
  match m remain iptr ilen with
  | Fetched a iptr ilen => f a remain iptr ilen
  | Refused => Refused
  | Stuck => Stuck
  end.
Definition refuse {A} : Fetch A := fun _ _ _ => Refused.
Definition stuck {A} : Fetch A := fun _ _ _ => Stuck.

(** [if (ilen + n < remain) ... else return(-1)] *)
Definition room (n : Z) : Fetch unit := fun remain iptr ilen =>
  if ilen + n <? remain then Fetched tt iptr ilen else Refused.
(** [*iptr++] *)
Definition FetchBYTE : Fetch Z := fun _ iptr ilen =>
  match iptr with b :: iptr => Fetched b iptr (ilen + 1) | [] => Stuck end.
Definition FetchWORD : Fetch Z :=
  b0 ← FetchBYTE; b1 ← FetchBYTE; mret (le_combine [b0; b1]).
Definition FetchDWORD : Fetch Z :=
  b0 ← FetchBYTE; b1 ← FetchBYTE; b2 ← FetchBYTE; b3 ← FetchBYTE; mret (le_combine [b0; b1; b2; b3]).
(** An element of a table. *)
Definition entry {A} (table : list A) (n : Z) : Fetch A :=
  match nth_error table (Z.to_nat n) with Some e => mret e | None => stuck end.

(** ** Tables of cpu/fetchdecode.cc *)

Definition BX_SEG_REG_NULL := 7.
Definition BxOpcodeHasModrm32 : list Z := [
  1;1;1;1;0;0;0;0;1;1;1;1;0;0;0;0; 1;1;1;1;0;0;0;0;1;1;1;1;0;0;0;0;
  1;1;1;1;0;0;0;0;1;1;1;1;0;0;0;0; 1;1;1;1;0;0;0;0;1;1;1;1;0;0;0;0;
  0;0;0;0;0;0;0;0;0;0;0;0;0;0;0;0; 0;0;0;0;0;0;0;0;0;0;0;0;0;0;0;0;
  0;0;1;1;0;0;0;0;0;1;0;1;0;0;0;0; 0;0;0;0;0;0;0;0;0;0;0;0;0;0;0;0;
  1;1;1;1;1;1;1;1;1;1;1;1;1;1;1;1; 0;0;0;0;0;0;0;0;0;0;0;0;0;0;0;0;
  0;0;0;0;0;0;0;0;0;0;0;0;0;0;0;0; 0;0;0;0;0;0;0;0;0;0;0;0;0;0;0;0;
  1;1;0;0;1;1;1;1;0;0;0;0;0;0;0;0; 1;1;1;1;0;0;0;0;1;1;1;1;1;1;1;1;
  0;0;0;0;0;0;0;0;0;0;0;0;0;0;0;0; 0;0;0;0;0;0;1;1;0;0;0;0;0;0;1;1;
  1;1;1;1;0;0;0;0;0;0;0;0;0;1;0;1; 1;1;1;1;1;1;1;1;1;1;1;1;1;1;1;1;
  1;1;1;1;1;0;1;0;1;1;1;1;1;1;1;1; 0;0;0;0;0;0;0;0;1;0;1;0;0;0;0;0;
  1;1;1;1;1;1;1;1;1;1;1;1;1;1;1;1; 1;1;1;1;1;1;1;1;1;1;1;1;1;1;1;1;
  1;1;1;1;1;1;1;1;1;1;1;1;1;1;1;1; 1;1;1;1;1;1;1;0;1;1;0;0;1;1;1;1;
  0;0;0;0;0;0;0;0;0;0;0;0;0;0;0;0; 1;1;1;1;1;1;1;1;1;1;1;1;1;1;1;1;
  0;0;0;1;1;1;0;0;0;0;0;1;1;1;1;1; 1;1;1;1;1;1;1;1;1;1;1;1;1;1;1;1;
  1;1;1;1;1;1;1;1;0;0;0;0;0;0;0;0; 1;1;1;1;1;1;1;1;1;1;1;1;1;1;1;1;
  1;1;1;1;1;1;1;1;1;1;1;1;1;1;1;1; 1;1;1;1;1;1;1;1;1;1;1;1;1;1;1;0].
Definition Resolve16BaseReg : list Z := [3; 3; 5; 5; 6; 7; 5; 3].
Definition Resolve16IndexReg : list Z :=
  [6; 7; 6; 7; BX_NIL_REGISTER; BX_NIL_REGISTER; BX_NIL_REGISTER; BX_NIL_REGISTER].
Definition sreg_mod00_rm16 : list Z :=
  [BX_SEG_REG_DS; BX_SEG_REG_DS; BX_SEG_REG_SS; BX_SEG_REG_SS;
   BX_SEG_REG_DS; BX_SEG_REG_DS; BX_SEG_REG_DS; BX_SEG_REG_DS].
Definition sreg_mod01or10_rm16 : list Z :=
  [BX_SEG_REG_DS; BX_SEG_REG_DS; BX_SEG_REG_SS; BX_SEG_REG_SS;
   BX_SEG_REG_DS; BX_SEG_REG_DS; BX_SEG_REG_SS; BX_SEG_REG_DS].
Definition sreg_mod0_base32 : list Z :=
  [BX_SEG_REG_DS; BX_SEG_REG_DS; BX_SEG_REG_DS; BX_SEG_REG_DS;
   BX_SEG_REG_SS; BX_SEG_REG_DS; BX_SEG_REG_DS; BX_SEG_REG_DS].
Definition sreg_mod1or2_base32 : list Z :=
  [BX_SEG_REG_DS; BX_SEG_REG_DS; BX_SEG_REG_DS; BX_SEG_REG_DS;
   BX_SEG_REG_SS; BX_SEG_REG_SS; BX_SEG_REG_DS; BX_SEG_REG_DS].

(** ** Prefixes and opcode *)

Definition SSE_PREFIX_NONE := 0.
Definition SSE_PREFIX_66 := 1.
Definition SSE_PREFIX_F2 := 2.
Definition SSE_PREFIX_F3 := 3.

(** The locals that the prefixes set. *)
Record prefixes : Type := mk_prefixes {
  p_i : bxInstruction_c;
  os_32 : Z;
  lock : bool;
  sse_prefix : Z;
  seg_override : Z
}.
Definition on_i (f : bxInstruction_c -> bxInstruction_c) (p : prefixes) : prefixes :=
  mk_prefixes (f (p_i p)) (os_32 p) (lock p) (sse_prefix p) (seg_override p).

(** What a prefix byte does; [None] for any other byte. *)
Definition prefix_byte (is_32 b1 : Z) (p : prefixes) : option prefixes :=
  if b1 =? 0x66 then
    let os := Z.b2z (negb (nz is_32)) in
    Some (mk_prefixes (setOs32B os (p_i p)) os (lock p)
            (if sse_prefix p =? 0 then SSE_PREFIX_66 else sse_prefix p) (seg_override p))
  else if b1 =? 0x67 then Some (on_i (setAs32B (Z.b2z (negb (nz is_32)))) p)
  else if case_in b1 [0xf2; 0xf3] then
    Some (mk_prefixes (setRepUsed (Z.land b1 3) (p_i p)) (os_32 p) (lock p) (Z.land b1 3) (seg_override p))
  else if case_in b1 [0x26; 0x2e; 0x36; 0x3e] then
    Some (mk_prefixes (p_i p) (os_32 p) (lock p) (sse_prefix p) (Z.land (Z.shiftr b1 3) 3))
  else if case_in b1 [0x64; 0x65] then
    Some (mk_prefixes (p_i p) (os_32 p) (lock p) (sse_prefix p) (Z.land b1 0xf))
  else if b1 =? 0xf0 then Some (mk_prefixes (p_i p) (os_32 p) true (sse_prefix p) (seg_override p))
  else None.

(** The label [fetch_b1]: the opcode (0x100 and more after 0F) and the prefixes.
    Every turn takes a byte. *)
Fixpoint fetch_b1_loop (is_32 : Z) (p : prefixes) (remain : Z) (iptr : list Z) (ilen : Z) : fetched (Z * prefixes) :=
  match iptr with
  | [] => Stuck
  | b1 :: iptr =>
      let ilen := ilen + 1 in
      if b1 =? 0x0f then (room 0;; b ← FetchBYTE; mret (Z.lor 0x100 b, p)) remain iptr ilen
      else match prefix_byte is_32 b1 p with
           | Some p => if ilen <? remain then fetch_b1_loop is_32 p remain iptr ilen else Refused
           | None => Fetched (b1, p) iptr ilen
           end
  end.
Definition fetch_b1 (is_32 : Z) (p : prefixes) : Fetch (Z * prefixes) := fetch_b1_loop is_32 p.

(** ** ModRM, SIB and displacement *)

Definition displ32 (i : bxInstruction_c) : Fetch bxInstruction_c :=
  room 3;; d ← FetchDWORD; mret (set_displ32u d i).
Definition displ16 (i : bxInstruction_c) : Fetch bxInstruction_c :=
  room 1;; d ← FetchWORD; mret (set_displ16u d i).

(** 32-bit addressing; the segment register and the instruction. *)
Definition modrm32 (mod_ rm : Z) (i : bxInstruction_c) : Fetch (Z * bxInstruction_c) :=
  let i := set_ResolveModrm Resolve32Base i in
  let tail (seg : Z) (i : bxInstruction_c) : Fetch (Z * bxInstruction_c) :=
    if mod_ =? 0x40 then room 0;; d ← FetchBYTE; mret (seg, set_displ32u (s8 d) i)
    else i ← displ32 i; mret (seg, i) in
  if negb (rm =? 4) then
    if mod_ =? 0x00 then
      if rm =? 5 then i ← displ32 (setSibBase BX_NIL_REGISTER i); mret (BX_SEG_REG_DS, i)
      else mret (BX_SEG_REG_DS, i)
    else seg ← entry sreg_mod1or2_base32 rm; tail seg i
  else
    room 0;; sib ← FetchBYTE;
    let base := Z.land sib 0x7 in
    let index := Z.land (Z.shiftr sib 3) 0x7 in
    let i := setSibBase base (setSibScale (Z.shiftr (Z.shiftr sib 3) 3) i) in
    let i := if negb (index =? 4) then setSibIndex index (set_ResolveModrm Resolve32BaseIndex i) else i in
    if mod_ =? 0x00 then
      seg ← entry sreg_mod0_base32 base;
      if base =? 5 then i ← displ32 (setSibBase BX_NIL_REGISTER i); mret (seg, i) else mret (seg, i)
    else seg ← entry sreg_mod1or2_base32 base; tail seg i.

(** 16-bit addressing. *)
Definition modrm16 (mod_ rm : Z) (i : bxInstruction_c) : Fetch (Z * bxInstruction_c) :=
  base ← entry Resolve16BaseReg rm;
  index ← entry Resolve16IndexReg rm;
  let i := setSibIndex index (setSibBase base (set_ResolveModrm Resolve16BaseIndex i)) in
  if mod_ =? 0x00 then
    seg ← entry sreg_mod00_rm16 rm;
    if rm =? 6 then i ← displ16 (setSibBase BX_NIL_REGISTER i); mret (seg, i) else mret (seg, i)
  else
    seg ← entry sreg_mod01or10_rm16 rm;
    if mod_ =? 0x40 then room 0;; d ← FetchBYTE; mret (seg, set_displ16u (s8 d) i)
    else i ← displ16 i; mret (seg, i).

(** The ModRM byte: [mod], [nnn], [rm], the segment register and the
    instruction. *)
Record modrm_t : Type := mk_modrm { m_b2 : Z; m_mod : Z; m_nnn : Z; m_rm : Z; m_seg : Z; m_i : bxInstruction_c }.
Definition decode_modrm (b1 : Z) (i : bxInstruction_c) : Fetch modrm_t :=
  room 0;; b2 ← FetchBYTE;
  let mod_ := if Z.land b1 (Z.lnot 3) =? 0x120 then 0xc0 else Z.land b2 0xc0 in
  let nnn := Z.land (Z.shiftr b2 3) 0x7 in
  let rm := Z.land b2 0x7 in
  let i := setNnn nnn (setModRM b2 i) in
  if mod_ =? 0xc0 then mret (mk_modrm b2 mod_ nnn rm BX_SEG_REG_DS (setRm rm (assertModC0 i))) else
  let i := set_displ32u 0 (setSibIndex BX_NIL_REGISTER (setSibBase rm (setRm BX_TMP_REGISTER i))) in
  '(seg, i) ← (if nz (as32L i) then modrm32 mod_ rm i else modrm16 mod_ rm i);
  mret (mk_modrm b2 mod_ nnn rm seg i).

(** ** Groups of opcodes *)

(** The loop [while(attr & BxGroupX)]; every turn but the last goes down a
    table. *)
Fixpoint resolve_group (fuel : nat) (b2 b3 nnn os_32 sse_prefix attr : Z) (e : BxOpcodeInfo_t) : Fetch (Z * BxOpcodeInfo_t) :=
  match fuel with
  | O => stuck
  | S fuel =>
      let group := Z.land attr BxGroupX in
      if group =? 0 then mret (attr, e) else
      let attr := Z.land attr (Z.lnot BxGroupX) in
      let down (n : Z) : Fetch (Z * BxOpcodeInfo_t) :=
        e ← entry (AnotherArray e) n;
        resolve_group fuel b2 b3 nnn os_32 sse_prefix (Z.lor attr (Attr e)) e in
      let only (prefix : Z) : Fetch (Z * BxOpcodeInfo_t) :=
        e ← (if negb (sse_prefix =? prefix) then entry BxOpcodeGroupSSE_ERR 0 else mret e);
        resolve_group fuel b2 b3 nnn os_32 sse_prefix attr e in
      if group =? BxGroupN then down nnn
      else if group =? Bx3ByteOp then down b3
      else if group =? BxOSizeGrp then down os_32
      else if group =? BxPrefixSSE then
        if nz sse_prefix then down (sse_prefix - 1) else resolve_group fuel b2 b3 nnn os_32 sse_prefix attr e
      else if group =? BxPrefixSSE66 then only SSE_PREFIX_66
      else if group =? BxPrefixSSEF2 then only SSE_PREFIX_F2
      else if group =? BxPrefixSSEF3 then only SSE_PREFIX_F3
      else if group =? BxFPEscape then down (Z.land b2 0x3f)
      else refuse
  end.
Definition group_depth : nat := 4.

(** What precedes the LOCK check: the attributes, the instruction, the segment
    register, [nnn] and [rm]. *)
Record opcode_t : Type := mk_opcode { o_attr : Z; o_IA : bx_ia_opcode; o_seg : Z; o_nnn : Z; o_rm : Z; o_i : bxInstruction_c }.
Definition decode_opcode (b1 : Z) (p : prefixes) : Fetch opcode_t :=
  let offset := Z.shiftl (os_32 p) 9 in
  e ← entry BxOpcodeInfo32R (b1 + offset);
  has_modrm ← entry BxOpcodeHasModrm32 b1;
  if nz has_modrm then
    b3 ← (if Z.land (Attr e) BxGroupX =? Bx3ByteOp then room 0;; FetchBYTE else mret 0);
    m ← decode_modrm b1 (p_i p);
    e ← entry (if m_mod m =? 0xc0 then BxOpcodeInfo32R else BxOpcodeInfo32M) (b1 + offset);
    '(attr, e) ← resolve_group group_depth (m_b2 m) b3 (m_nnn m) (os_32 p) (sse_prefix p) (Attr e) e;
    mret (mk_opcode attr (IA e) (m_seg m) (m_nnn m) (m_rm m) (m_i m))
  else
    let attr := Attr e in
    let group := Z.land attr BxGroupX in
    (if (group =? BxPrefixSSE) || (group =? 0) then mret tt else stuck);;
    e ← (if (group =? BxPrefixSSE) && nz (sse_prefix p) then entry (AnotherArray e) (sse_prefix p - 1) else mret e);
    mret (mk_opcode attr (IA e) BX_SEG_REG_DS 0 0 (setOpcodeReg (Z.land b1 7) (p_i p))).

(** ** The immediate *)

Definition decode_immediate (imm_mode : Z) (i : bxInstruction_c) : Fetch bxInstruction_c :=
  if imm_mode =? 0 then mret i
  else if imm_mode =? BxImmediate_I1 then mret (set_Ib 1 i)
  else if imm_mode =? BxImmediate_Ib then room 0;; b ← FetchBYTE; mret (set_Ib b i)
  else if imm_mode =? BxImmediate_Ib_SE then
    room 0;; b ← FetchBYTE; mret (if nz (os32L i) then set_Id (s8 b) i else set_Iw (s8 b) i)
  else if imm_mode =? BxImmediate_Iw then room 1;; w ← FetchWORD; mret (set_Iw w i)
  else if imm_mode =? BxImmediate_Id then room 3;; d ← FetchDWORD; mret (set_Id d i)
  else if imm_mode =? BxImmediate_BrOff8 then room 0;; b ← FetchBYTE; mret (set_Id (s8 b) i)
  else if imm_mode =? BxImmediate_IwIb then
    room 2;; w ← FetchWORD; b ← FetchBYTE; mret (set_Ib2 b (set_Iw w i))
  else if imm_mode =? BxImmediate_IwIw then
    room 3;; w ← FetchWORD; w2 ← FetchWORD; mret (set_Iw2 w2 (set_Iw w i))
  else if imm_mode =? BxImmediate_IdIw then
    room 5;; d ← FetchDWORD; w2 ← FetchWORD; mret (set_Iw2 w2 (set_Id d i))
  else if imm_mode =? BxImmediate_O then
    if nz (as32L i) then room 3;; d ← FetchDWORD; mret (set_Id d i)
    else room 1;; w ← FetchWORD; mret (set_Id w i)
  else refuse.

(** ** fetchDecode32

    [i] is the structure that is filled in, with what it held before; [d_b] is
    that of CS.  The pointers [execute] and [execute2] are the entries of
    [BxOpcodesTable] for [ia_opcode]. *)

Definition no_prefixes (d_b : Z) (i : bxInstruction_c) : prefixes :=
  mk_prefixes (init d_b d_b (set_ResolveModrm ResolveNull i)) d_b false SSE_PREFIX_NONE BX_SEG_REG_NULL.
(** From the LOCK check on. *)
Definition finish (b1 : Z) (p : prefixes) (o : opcode_t) (i : bxInstruction_c) : bxInstruction_c :=
  let ia_opcode := if lock p && negb (nz (Z.land (o_attr o) BxLockable)) then BX_IA_ERROR else o_IA o in
  let i := setSeg (if seg_override p =? BX_SEG_REG_NULL then o_seg o else seg_override p) i in
  let i := if nz (Z.land (o_attr o) BxArithDstRM) then setNnn (o_rm o) (setRm (o_nnn o) i) else i in
  setIaOpcode ia_opcode (setB1 b1 i).
Definition decode_body (d_b : Z) (i : bxInstruction_c) : Fetch bxInstruction_c :=
  '(b1, p) ← fetch_b1 d_b (no_prefixes d_b i);
  o ← decode_opcode b1 p;
  i ← decode_immediate (Z.land (o_attr o) BxImmediate) (set_Id 0 (o_i o));
  mret (finish b1 p o i).
Definition get_ilen : Fetch Z := fun _ iptr ilen => Fetched ilen iptr ilen.
Definition decode_instruction (d_b : Z) (i : bxInstruction_c) : Fetch bxInstruction_c :=
  i ← decode_body d_b i; ilen ← get_ilen; mret (setILen ilen i).

Definition fetchDecode32 (d_b : Z) (iptr : list Z) (i : bxInstruction_c) (remainingInPage : Z) : fetched bxInstruction_c :=
  decode_instruction d_b i (if remainingInPage <? 15 then remainingInPage else 15) iptr 0.

(** ** What a step of the decoder reads

    [reads k m k' Q]: with [k] bytes known to be there, [m] does not get stuck;
    if it does not refuse either, it has taken some bytes [l], leaves [k'] known
    to be there, and its result satisfies [Q]; and it does the same on any bytes
    that begin with [l], whatever the limit. *)

Create HintDb reads.
Definition is_byte (b : Z) : Prop := 0 <= b < 2 ^ 8.
Definition reads_at {A} (k : Z) (m : Fetch A) (k' : Z) (Q : A -> Prop) (remain : Z) (iptr : list Z) (ilen : Z) : Prop :=
  match m remain iptr ilen with
  | Fetched a iptr' ilen' =>
      Q a /\ exists l, iptr = l ++ iptr' /\ ilen' = ilen + Z.of_nat (length l) /\
        ilen + k <= ilen' + k' <= remain /\
        forall rest remain', ilen' + k' <= remain' -> m remain' (l ++ rest) ilen = Fetched a rest ilen'
  | Refused => True
  | Stuck => False
  end.
Definition reads {A} (k : Z) (m : Fetch A) (k' : Z) (Q : A -> Prop) : Prop :=
  forall remain iptr ilen, ilen + k <= remain <= ilen + Z.of_nat (length iptr) -> Forall is_byte iptr ->
  reads_at k m k' Q remain iptr ilen.

Lemma reads_ret {A} k k' (a : A) (Q : A -> Prop) : k = k' -> Q a -> reads k (mret a) k' Q.
Proof. intros <- Ha remain iptr ilen H _. split; [done|]. exists []. cbn. split_and!; try lia; done. Qed.
Lemma reads_bind {A B} k (m : Fetch A) k1 P (f : A -> Fetch B) k2 Q :
  reads k m k1 P -> (forall a, P a -> reads k1 (f a) k2 Q) -> reads k (a ← m; f a) k2 Q.
Proof.
  intros Hm Hf remain iptr ilen H Hb. unfold reads, reads_at, mbind, Fetch_bind in *. specialize (Hm remain iptr ilen H Hb).
  destruct (m remain iptr ilen) as [a iptr1 ilen1| |]; [|done|done].
  destruct Hm as (Ha & l1 & -> & -> & Hk & Hl1). rewrite length_app in H. apply Forall_app in Hb as [_ Hb].
  assert (ilen + Z.of_nat (length l1) + k1 <= remain <= ilen + Z.of_nat (length l1) + Z.of_nat (length iptr1)) as H1 by lia.
  specialize (Hf a Ha remain iptr1 _ H1 Hb).
  destruct (f a remain iptr1 _) as [b iptr2 ilen2| |]; [|done|done].
  destruct Hf as (Hq & l2 & -> & -> & Hk2 & Hl2). split; [done|]. exists (l1 ++ l2).
  rewrite app_assoc, length_app. split_and!; try lia; [done|]. intros rest remain' Hr.
  rewrite <-app_assoc, Hl1 by lia. apply Hl2. lia.
Qed.
Lemma reads_weaken {A} k (m : Fetch A) k' (P Q : A -> Prop) : reads k m k' P -> (forall a, P a -> Q a) -> reads k m k' Q.
Proof.
  intros Hm HQ remain iptr ilen H Hb. unfold reads, reads_at in *. specialize (Hm remain iptr ilen H Hb).
  destruct (m remain iptr ilen); [|done|done]. destruct Hm as [Ha Hm]. split; [by apply HQ|done].
Qed.
Lemma reads_refuse {A} k k' (Q : A -> Prop) : reads k refuse k' Q.
Proof. done. Qed.
Lemma reads_room n : 0 <= n -> reads 0 (room n) (n + 1) (fun _ => True).
Proof.
  intros Hn remain iptr ilen H _. unfold reads_at, room. destruct (Z.ltb_spec (ilen + n) remain); [|done].
  split; [done|]. exists []. cbn [length app Z.of_nat]. split_and!; try lia; [done|]. intros rest remain' Hr.
  destruct (Z.ltb_spec (ilen + n) remain'); [done|lia].
Qed.
Lemma reads_BYTE k : 1 <= k -> reads k FetchBYTE (k - 1) is_byte.
Proof.
  intros Hk remain iptr ilen H Hb. destruct iptr as [|b iptr]; [cbn in H; lia|]. inversion_clear Hb. unfold reads_at. cbn [FetchBYTE].
  split; [done|]. exists [b]. cbn [length app Z.of_nat Pos.of_succ_nat]. split_and!; try lia; done.
Qed.
Lemma reads_entry {A} k (table : list A) n (P : A -> Prop) :
  0 <= n < Z.of_nat (length table) -> Forall P table -> reads k (entry table n) k P.
Proof.
  intros Hn HP. unfold entry. destruct (nth_error table (Z.to_nat n)) as [e|] eqn:E.
  - apply reads_ret; [done|]. rewrite Forall_forall in HP. apply HP, list_elem_of_In. by eapply nth_error_In.
  - apply nth_error_None in E. lia.
Qed.
Lemma reads_if {A} (b : bool) k (m m' : Fetch A) k' Q :
  (b = true -> reads k m k' Q) -> (b = false -> reads k m' k' Q) -> reads k (if b then m else m') k' Q.
Proof. destruct b; auto. Qed.
Lemma reads_get_ilen k : reads k get_ilen k (fun _ => True).
Proof. intros remain iptr ilen H _. split; [done|]. exists []. cbn. split_and!; try lia; done. Qed.

(** Walks through a step, up to what it returns. *)
Ltac reads_step :=
  lazymatch goal with
  | |- reads _ (mbind _ _) _ _ => eapply reads_bind; [|let H := fresh in intros ? H; cbn beta in H]
  | |- reads _ (mret _) _ _ => apply reads_ret; [first [reflexivity | lia]|]
  | |- reads _ (if _ then _ else _) _ _ => apply reads_if; intros ?
  | |- reads _ refuse _ _ => apply reads_refuse
  | |- reads _ (room _) _ _ => apply reads_room; lia
  | |- reads _ FetchBYTE _ _ => apply reads_BYTE; lia
  | |- reads _ (match ?x with pair _ _ => _ end) _ _ => destruct x
  | |- reads _ _ _ _ => solve [eauto with reads]
  end.
Ltac reads_walk := cbv zeta; repeat (reads_step; cbv zeta).

(** ** The pieces *)

Lemma FetchWORD_reads k : 2 <= k -> reads k FetchWORD (k - 2) (fun w => 0 <= w < 2 ^ 16).
Proof. intros Hk. unfold FetchWORD. reads_walk. apply (le_combine_range [a; a0]). Qed.
Lemma FetchDWORD_reads k : 4 <= k -> reads k FetchDWORD (k - 4) (fun w => 0 <= w < 2 ^ 32).
Proof. intros Hk. unfold FetchDWORD. reads_walk. apply (le_combine_range [a; a0; a1; a2]). Qed.
#[export] Hint Extern 1 (reads _ FetchWORD _ _) => apply FetchWORD_reads; lia : reads.
#[export] Hint Extern 1 (reads _ FetchDWORD _ _) => apply FetchDWORD_reads; lia : reads.

(** The memory operand: the resolver, its registers and the scale are in range,
    and the rest of the instruction is not touched. *)
Definition is_sreg (n : Z) : Prop := 0 <= n <= BX_SEG_REG_GS.
Definition is_reg (n : Z) : Prop := 0 <= n <= BX_NIL_REGISTER.
Definition mem_operand (i : bxInstruction_c) : Prop :=
  is_reg (sibBase i) /\ is_reg (sibIndex i) /\
  match ResolveModrm i with ResolveNull => False | Resolve32BaseIndex => 0 <= sibScale i <= 3 | _ => True end.
Definition mem_operand_of (i : bxInstruction_c) (x : Z * bxInstruction_c) : Prop :=
  is_sreg x.1 /\ mem_operand x.2 /\ i_rm x.2 = i_rm i /\ metaInfo1 x.2 = metaInfo1 i.

Lemma mem_operand_displ32 d i i0 seg : mem_operand_of i0 (seg, i) -> mem_operand_of i0 (seg, set_displ32u d i).
Proof. done. Qed.
Lemma mem_operand_displ16 d i i0 seg : mem_operand_of i0 (seg, i) -> mem_operand_of i0 (seg, set_displ16u d i).
Proof. done. Qed.
Lemma displ32_reads i i0 seg :
  mem_operand_of i0 (seg, i) -> reads 0 (displ32 i) 0 (fun i' => mem_operand_of i0 (seg, i')).
Proof. intros Hi. unfold displ32. reads_walk. done. Qed.
Lemma displ16_reads i i0 seg :
  mem_operand_of i0 (seg, i) -> reads 0 (displ16 i) 0 (fun i' => mem_operand_of i0 (seg, i')).
Proof. intros Hi. unfold displ16. reads_walk. done. Qed.

Lemma land_7_range x : 0 <= Z.land x 7 < 8.
Proof. change 7 with (Z.ones 3). rewrite Z.land_ones by lia. by apply Z.mod_pos_bound. Qed.
Lemma shiftr_byte_range n b : 0 <= n -> is_byte b -> 0 <= Z.shiftr b n < 2 ^ 8.
Proof.
  intros Hn [H0 H1]. rewrite Z.shiftr_div_pow2 by done. split; [apply Z.div_pos; lia|].
  apply Z.le_lt_trans with b; [apply Z.div_le_upper_bound; nia|done].
Qed.
Lemma sib_scale_range b : is_byte b -> 0 <= Z.shiftr (Z.shiftr b 3) 3 <= 3.
Proof.
  intros [H0 H1]. rewrite !Z.shiftr_div_pow2 by lia. change (2 ^ 3) with 8. rewrite Z.div_div by lia.
  split; [apply Z.div_pos; lia|]. assert (b / (8 * 8) < 4) by (apply Z.div_lt_upper_bound; lia). lia.
Qed.

Ltac ranges := unfold mem_operand_of, mem_operand, is_sreg, is_reg, BX_SEG_REG_DS, BX_SEG_REG_SS, BX_SEG_REG_GS, BX_NIL_REGISTER, BX_TMP_REGISTER in *.
Lemma sregs_ok : Forall is_sreg sreg_mod1or2_base32 /\ Forall is_sreg sreg_mod0_base32 /\
  Forall is_sreg sreg_mod00_rm16 /\ Forall is_sreg sreg_mod01or10_rm16.
Proof. split_and!; repeat constructor; ranges; lia. Qed.
Lemma resolve16_ok : Forall is_reg Resolve16BaseReg /\ Forall is_reg Resolve16IndexReg.
Proof. split; repeat constructor; ranges; lia. Qed.

Lemma modrm32_tail (b : bool) i i0 seg :
  mem_operand_of i0 (seg, i) ->
  reads 0 (if b then room 0;; d ← FetchBYTE; mret (seg, set_displ32u (s8 d) i) else i ← displ32 i; mret (seg, i)) 0
    (mem_operand_of i0).
Proof.
  intros Hi. apply reads_if; intros _; [reads_walk; done|].
  eapply reads_bind; [by apply displ32_reads|]. intros i' Hi'. by apply reads_ret.
Qed.
Lemma modrm32_reads mod_ rm i :
  0 <= rm < 8 -> is_reg (sibBase i) -> is_reg (sibIndex i) -> reads 0 (modrm32 mod_ rm i) 0 (mem_operand_of i).
Proof.
  intros Hrm Hb Hx. destruct sregs_ok as (S1 & S2 & _ & _). unfold modrm32. cbv zeta.
  assert (forall s, is_sreg s -> mem_operand_of i (s, set_ResolveModrm Resolve32Base i)) as H32
    by (intros; ranges; cbn; intuition).
  apply reads_if; intros _.
  - apply reads_if; intros _; [apply reads_if; intros _|].
    + eapply reads_bind; [apply (displ32_reads _ i BX_SEG_REG_DS)|intros i' Hi'; by apply reads_ret].
      ranges; cbn; intuition lia.
    + apply reads_ret; [done|]. apply H32. ranges; lia.
    + eapply reads_bind; [by eapply reads_entry|]. intros s Hs. apply modrm32_tail. by apply H32.
  - eapply reads_bind; [by apply reads_room|]. intros _ _. eapply reads_bind; [by apply reads_BYTE|]. intros b Hbyte.
    pose proof (land_7_range b). pose proof (land_7_range (Z.shiftr b 3)). pose proof (sib_scale_range b Hbyte).
    set (i' := if negb _ then _ else _).
    assert (forall s, is_sreg s -> mem_operand_of i (s, i')) as Hi'.
    { intros s Hs. subst i'. destruct (negb _); ranges; cbn; intuition lia. }
    apply reads_if; intros _.
    + eapply reads_bind; [eapply reads_entry; [cbn; lia|exact S2]|]. intros s Hs. apply reads_if; intros _.
      * eapply reads_bind; [apply (displ32_reads _ i s)|intros i'' H''; by apply reads_ret].
        specialize (Hi' s Hs). ranges; cbn in *; intuition lia.
      * apply reads_ret; [done|]. by apply Hi'.
    + eapply reads_bind; [eapply reads_entry; [cbn; lia|exact S1]|]. intros s Hs. apply modrm32_tail. by apply Hi'.
Qed.
Lemma modrm16_reads mod_ rm i : 0 <= rm < 8 -> reads 0 (modrm16 mod_ rm i) 0 (mem_operand_of i).
Proof.
  intros Hrm. destruct sregs_ok as (_ & _ & S1 & S2), resolve16_ok as [R1 R2]. unfold modrm16.
  eapply reads_bind; [by eapply reads_entry|]. intros base Hb. eapply reads_bind; [by eapply reads_entry|]. intros index Hx.
  cbv zeta. set (i' := setSibIndex _ _).
  assert (forall s, is_sreg s -> mem_operand_of i (s, i')) as Hi' by (intros; subst i'; ranges; cbn; intuition).
  apply reads_if; intros _; (eapply reads_bind; [by eapply reads_entry|]); intros s Hs; apply reads_if; intros _.
  - eapply reads_bind; [apply (displ16_reads _ i s)|intros i'' H''; by apply reads_ret].
    specialize (Hi' s Hs). ranges; cbn in *; intuition lia.
  - apply reads_ret; [done|]. by apply Hi'.
  - reads_walk. by apply Hi'.
  - eapply reads_bind; [apply (displ16_reads _ i s); by apply Hi'|intros i'' H''; by apply reads_ret].
Qed.

(** A register operand, or a memory operand with [rm] the temporary register. *)
Definition modrm_ok (m : modrm_t) : Prop :=
  is_byte (m_b2 m) /\ 0 <= m_nnn m < 8 /\ 0 <= m_rm m < 8 /\ is_sreg (m_seg m) /\
  if m_mod m =? 0xc0 then
    ResolveModrm (m_i m) = ResolveNull /\ i_rm (m_i m) = m_rm m /\ Z.testbit (metaInfo1 (m_i m)) 2 = true
  else mem_operand (m_i m) /\ i_rm (m_i m) = BX_TMP_REGISTER /\ Z.testbit (metaInfo1 (m_i m)) 2 = false.
(** The instruction before its ModRM byte. *)
Definition fresh_i (i : bxInstruction_c) : Prop := ResolveModrm i = ResolveNull /\ Z.testbit (metaInfo1 i) 2 = false.

Lemma decode_modrm_reads b1 i : fresh_i i -> reads 0 (decode_modrm b1 i) 0 modrm_ok.
Proof.
  intros [Hn Hm]. unfold decode_modrm. eapply reads_bind; [by apply reads_room|]. intros _ _.
  eapply reads_bind; [by apply reads_BYTE|]. intros b2 Hb2. cbv zeta.
  pose proof (land_7_range b2). pose proof (land_7_range (Z.shiftr b2 3)).
  generalize (if Z.land b1 (Z.lnot 3) =? 0x120 then 0xc0 else Z.land b2 0xc0). intros mod_. apply reads_if; intros Emod.
  - apply reads_ret; [done|]. unfold modrm_ok. cbn [m_b2 m_mod m_nnn m_rm m_seg m_i]. rewrite Emod.
    split_and!; try done; [ranges; lia..|]. unfold setRm, assertModC0, set_metaInfo1. cbn [metaInfo1].
    by rewrite testbit_wrap, Z.lor_spec, orb_true_r by lia.
  - set (i' := set_displ32u 0 _).
    eapply reads_bind with (P := mem_operand_of i'); [apply reads_if; intros _|].
    + apply modrm32_reads; [done|ranges; cbn; lia..].
    + by apply modrm16_reads.
    + intros [s i''] (Hs & Hi & Hr & Hm'). apply reads_ret; [done|]. unfold modrm_ok.
      cbn [m_b2 m_mod m_nnn m_rm m_seg m_i fst snd] in *. rewrite Emod. split_and!; try done; try lia; try apply Hs; try apply Hi.
      by rewrite Hm'.
Qed.

(** ** Prefixes *)

Definition prefixes_ok (p : prefixes) : Prop :=
  fresh_i (p_i p) /\ 0 <= os_32 p <= 1 /\ 0 <= sse_prefix p <= 3 /\
  (seg_override p = BX_SEG_REG_NULL \/ is_sreg (seg_override p)).
Lemma fresh_meta m i : Z.testbit m 2 = false -> fresh_i i -> fresh_i (set_metaInfo1 m i).
Proof. intros H [Hn _]. split; [done|]. unfold set_metaInfo1. cbn [metaInfo1]. by rewrite testbit_wrap by lia. Qed.
Lemma fresh_bits m a b : Z.testbit m 2 = false -> Z.testbit b 2 = false -> Z.testbit (Z.lor (Z.land m a) b) 2 = false.
Proof. intros H1 H2. by rewrite Z.lor_spec, Z.land_spec, H1, H2. Qed.
Lemma testbit_2_b2z b n : 3 <= n -> Z.testbit (Z.shiftl (Z.b2z b) n) 2 = false.
Proof. intros. by rewrite Z.shiftl_spec_low by lia. Qed.
Lemma prefix_byte_ok is_32 b1 p p' : prefixes_ok p -> prefix_byte is_32 b1 p = Some p' -> prefixes_ok p'.
Proof.
  intros ((Hn & Hm) & Ho & Hs & Hg). unfold prefix_byte.
  assert (forall x, Z.testbit x 2 = false -> fresh_i (set_metaInfo1 x (p_i p))) as Hf by (intros; by apply fresh_meta).
  assert (0 <= Z.b2z (negb (nz is_32)) <= 1) by (destruct (negb _); cbn; lia).
  repeat (case_match; [intros [= <-]|]); [..|done]; unfold prefixes_ok;
    repeat match goal with
    | E : case_in _ _ = true |- _ =>
        apply existsb_exists in E as (y & Hy & ->%Z.eqb_eq); cbn [In] in Hy; destruct_or! Hy; try done; subst y
    end; cbn [p_i os_32 sse_prefix seg_override on_i]; split_and!; try done; try lia;
    try (apply Hf, fresh_bits; [done|]; first [done | by apply testbit_2_b2z]);
    try (case_match; unfold SSE_PREFIX_66; lia); try (right; by vm_compute).
Qed.
Lemma lor_0x100 b : is_byte b -> Z.lor 0x100 b = 0x100 + b.
Proof.
  intros Hb. apply Z.bits_inj. intros n. unfold is_byte in Hb.
  symmetry. rewrite <-Z.lxor_lor, <-Z.add_nocarry_lxor; [done| |];
    (apply Z.bits_inj; intros m; rewrite Z.land_spec, Z.bits_0; change 0x100 with (2 ^ 8); rewrite Z.pow2_bits_eqb by lia;
     destruct (Z.eqb_spec 8 m) as [<-|]; [by rewrite (testbit_above 8 b 8)|done]).
Qed.
Lemma reads_at_cons {A} k k1 b1 (m m' : Fetch A) k' Q remain iptr ilen :
  (forall remain' iptr', ilen + 1 + k1 <= remain' -> m remain' (b1 :: iptr') ilen = m' remain' iptr' (ilen + 1)) ->
  k <= 1 + k1 -> ilen + 1 + k1 <= remain -> reads_at k1 m' k' Q remain iptr (ilen + 1) ->
  reads_at k m k' Q remain (b1 :: iptr) ilen.
Proof.
  intros Hm Hk Hr. unfold reads_at. rewrite Hm by done.
  destruct (m' remain iptr (ilen + 1)) as [a iptr' ilen'| |]; [|done|done].
  intros (Ha & l & -> & -> & Hk' & Hl). split; [done|]. exists (b1 :: l). cbn [length app].
  split_and!; try lia; [done|]. intros rest remain' Hr'. rewrite Hm by lia. by apply Hl.
Qed.
Lemma fetch_b1_reads is_32 p :
  prefixes_ok p -> reads 1 (fetch_b1 is_32 p) 0 (fun x => 0 <= x.1 < 512 /\ prefixes_ok x.2).
Proof.
  intros Hp remain iptr. revert p Hp. induction iptr as [|b1 iptr IH]; intros p Hp ilen H Hb; [cbn in H; lia|].
  inversion_clear Hb as [|? ? Hb1 Hb']. cbn [length] in H. destruct (b1 =? 0x0f) eqn:E0.
  { eapply (reads_at_cons _ 0 _ _ (room 0;; b ← FetchBYTE; mret (Z.lor 0x100 b, p)));
      [intros; cbn [fetch_b1 fetch_b1_loop]; by rewrite E0|lia|lia|].
    assert (reads 0 (room 0;; b ← FetchBYTE; mret (Z.lor 0x100 b, p)) 0 (fun x => 0 <= x.1 < 512 /\ prefixes_ok x.2)) as Hm.
    { reads_walk. split; [|done]. cbn [fst]. rewrite lor_0x100 by done. unfold is_byte in *. lia. }
    apply Hm; [lia|done]. }
  destruct (prefix_byte is_32 b1 p) as [p'|] eqn:Ep.
  - destruct (Z.ltb_spec (ilen + 1) remain).
    + eapply (reads_at_cons _ 1 _ _ (fetch_b1 is_32 p')); [|lia|lia|apply IH; [by eapply prefix_byte_ok|lia|done]].
      intros remain' iptr' Hr. unfold fetch_b1. cbn [fetch_b1_loop]. rewrite E0, Ep.
      destruct (Z.ltb_spec (ilen + 1) remain'); [done|lia].
    + unfold reads_at, fetch_b1. cbn [fetch_b1_loop]. rewrite E0, Ep. destruct (Z.ltb_spec (ilen + 1) remain); [lia|done].
  - eapply (reads_at_cons _ 0 _ _ (mret (b1, p))); [|lia|lia|].
    + intros. unfold fetch_b1. cbn [fetch_b1_loop]. by rewrite E0, Ep.
    + apply reads_ret; [done| |lia|done]. split; [|done]. unfold is_byte in *. cbn [fst]. lia.
Qed.

(** ** Groups *)

(** The instructions that the comment in cpu/fetchdecode.cc says can be locked:
    ADD, ADC, AND, BTC, BTR, BTS, CMPXCHG, CMPXCHG8B, DEC, INC, NEG, NOT, OR,
    SBB, SUB, XOR, XADD and XCHG with a memory destination. *)
Definition lockable (op : bx_ia_opcode) : bool :=
  match op with
  | BX_IA_ADC_EbGbM | BX_IA_ADC_EbIbM | BX_IA_ADC_EwGwM | BX_IA_ADC_EwIwM | BX_IA_ADC_EdGdM | BX_IA_ADC_EdIdM
  | BX_IA_ADD_EbGbM | BX_IA_ADD_EbIbM | BX_IA_ADD_EwGwM | BX_IA_ADD_EwIwM | BX_IA_ADD_EdGdM | BX_IA_ADD_EdIdM
  | BX_IA_AND_EbGbM | BX_IA_AND_EbIbM | BX_IA_AND_EwGwM | BX_IA_AND_EwIwM | BX_IA_AND_EdGdM | BX_IA_AND_EdIdM
  | BX_IA_BTC_EwGwM | BX_IA_BTC_EwIbM | BX_IA_BTC_EdGdM | BX_IA_BTC_EdIbM
  | BX_IA_BTR_EwGwM | BX_IA_BTR_EwIbM | BX_IA_BTR_EdGdM | BX_IA_BTR_EdIbM
  | BX_IA_BTS_EwGwM | BX_IA_BTS_EwIbM | BX_IA_BTS_EdGdM | BX_IA_BTS_EdIbM
  | BX_IA_CMPXCHG_EbGbM | BX_IA_CMPXCHG_EwGwM | BX_IA_CMPXCHG_EdGdM | BX_IA_CMPXCHG8B
  | BX_IA_DEC_EbM | BX_IA_DEC_EwM | BX_IA_DEC_EdM | BX_IA_INC_EbM | BX_IA_INC_EwM | BX_IA_INC_EdM
  | BX_IA_NEG_EbM | BX_IA_NEG_EwM | BX_IA_NEG_EdM | BX_IA_NOT_EbM | BX_IA_NOT_EwM | BX_IA_NOT_EdM
  | BX_IA_OR_EbGbM | BX_IA_OR_EbIbM | BX_IA_OR_EwGwM | BX_IA_OR_EwIwM | BX_IA_OR_EdGdM | BX_IA_OR_EdIdM
  | BX_IA_SBB_EbGbM | BX_IA_SBB_EbIbM | BX_IA_SBB_EwGwM | BX_IA_SBB_EwIwM | BX_IA_SBB_EdGdM | BX_IA_SBB_EdIdM
  | BX_IA_SUB_EbGbM | BX_IA_SUB_EbIbM | BX_IA_SUB_EwGwM | BX_IA_SUB_EwIwM | BX_IA_SUB_EdGdM | BX_IA_SUB_EdIdM
  | BX_IA_XOR_EbGbM | BX_IA_XOR_EbIbM | BX_IA_XOR_EwGwM | BX_IA_XOR_EwIwM | BX_IA_XOR_EdGdM | BX_IA_XOR_EdIdM
  | BX_IA_XADD_EbGbM | BX_IA_XADD_EwGwM | BX_IA_XADD_EdGdM
  | BX_IA_XCHG_EbGbM | BX_IA_XCHG_EwGwM | BX_IA_XCHG_EdGdM => true
  | _ => false
  end.

(** An instruction with its attributes: with a memory operand it can be locked if
    it is one of those, and [rm] and [nnn] are not exchanged; with a register
    operand it cannot be locked.  Its kind of immediate is known, and is not one
    that takes the place of a displacement. *)
Definition leaf_ok (mem : bool) (attr : Z) (op : bx_ia_opcode) : bool :=
  Bool.eqb (nz (Z.land attr BxLockable)) (mem && lockable op) &&
  negb (mem && nz (Z.land attr BxArithDstRM)) &&
  (case_in (Z.land attr BxImmediate)
     [0; BxImmediate_I1; BxImmediate_Ib; BxImmediate_Ib_SE; BxImmediate_Iw; BxImmediate_Id; BxImmediate_BrOff8; BxImmediate_O] ||
   negb mem && case_in (Z.land attr BxImmediate) [BxImmediate_IwIb; BxImmediate_IwIw; BxImmediate_IdIw]).
(** Every index [resolve_group] can use is inside its table, and every
    instruction it can arrive at is right. *)
Fixpoint group_ok (fuel : nat) (mem : bool) (attr : Z) (e : BxOpcodeInfo_t) : bool :=
  match fuel with
  | O => false
  | S fuel =>
      let group := Z.land attr BxGroupX in
      if group =? 0 then leaf_ok mem attr (IA e) else
      let attr := Z.land attr (Z.lnot BxGroupX) in
      let all (n : nat) : bool :=
        (n <=? length (AnotherArray e))%nat &&
        forallb (fun e => group_ok fuel mem (Z.lor attr (Attr e)) e) (AnotherArray e) in
      let only : bool := group_ok fuel mem attr e && forallb (group_ok fuel mem attr) BxOpcodeGroupSSE_ERR in
      if group =? BxGroupN then all 8%nat
      else if group =? Bx3ByteOp then all 256%nat
      else if group =? BxOSizeGrp then all 2%nat
      else if group =? BxPrefixSSE then all 3%nat && group_ok fuel mem attr e
      else if group =? BxPrefixSSE66 then only
      else if group =? BxPrefixSSEF2 then only
      else if group =? BxPrefixSSEF3 then only
      else (group =? BxFPEscape) && all 64%nat
  end.
Lemma forallb_Forall {A} (f : A -> bool) l : forallb f l = true -> Forall (fun x => f x = true) l.
Proof. intros H. apply Forall_forall. intros x Hx. rewrite forallb_forall in H. by apply H, list_elem_of_In. Qed.
(** A check of every entry of a table, which may ask whether its opcode has a ModRM
    byte. *)
Definition check_table (f : Z -> BxOpcodeInfo_t -> bool) (table : list BxOpcodeInfo_t) : bool :=
  forallb (fun k => match nth_error BxOpcodeHasModrm32 k, nth_error table k, nth_error table (k + 512) with
                    | Some m, Some e, Some e' => f m e && f m e'
                    | _, _, _ => false
                    end) (seq 0 512).
Lemma check_entry f table b1 os m e :
  check_table f table = true -> 0 <= b1 < 512 -> 0 <= os <= 1 ->
  nth_error BxOpcodeHasModrm32 (Z.to_nat b1) = Some m -> nth_error table (Z.to_nat (b1 + Z.shiftl os 9)) = Some e ->
  f m e = true.
Proof.
  intros H Hb Ho Hm He. apply forallb_Forall in H. rewrite Forall_forall in H.
  specialize (H (Z.to_nat b1) ltac:(apply elem_of_seq; lia)). cbn beta in H. rewrite Hm in H.
  assert (os = 0 \/ os = 1) as [-> | ->] by lia.
  - change (Z.shiftl 0 9) with 0 in He. rewrite Z.add_0_r in He. rewrite He in H.
    destruct (nth_error _ (_ + 512)); [|done]. by apply andb_true_iff in H as [H _].
  - change (Z.shiftl 1 9) with 512 in He. replace (Z.to_nat (b1 + 512)) with (Z.to_nat b1 + 512)%nat in He by lia.
    rewrite He in H. destruct (nth_error table (Z.to_nat b1)); [|done]. by apply andb_true_iff in H as [_ H].
Qed.
Lemma tables_ok mem :
  check_table (fun m e => (m =? 0) || group_ok group_depth mem (Attr e) e)
    (if mem then BxOpcodeInfo32M else BxOpcodeInfo32R) = true.
Proof. destruct mem; vm_compute; reflexivity. Qed.

Lemma group_down fuel mem attr e n k b2 b3 nnn os sse :
  0 <= k < Z.of_nat n ->
  (forall attr e, group_ok fuel mem attr e = true ->
    reads 0 (resolve_group fuel b2 b3 nnn os sse attr e) 0 (fun x => leaf_ok mem x.1 (IA x.2) = true)) ->
  (n <=? length (AnotherArray e))%nat && forallb (fun e => group_ok fuel mem (Z.lor attr (Attr e)) e) (AnotherArray e) = true ->
  reads 0 (e ← entry (AnotherArray e) k; resolve_group fuel b2 b3 nnn os sse (Z.lor attr (Attr e)) e) 0
    (fun x => leaf_ok mem x.1 (IA x.2) = true).
Proof.
  intros Hk IH [Hn%Nat.leb_le Hall]%andb_true_iff. eapply reads_bind; [|intros e' He'; apply IH; exact He'].
  apply reads_entry; [lia|]. by apply forallb_Forall in Hall.
Qed.
Lemma group_only fuel mem attr e p b2 b3 nnn os sse :
  (forall attr e, group_ok fuel mem attr e = true ->
    reads 0 (resolve_group fuel b2 b3 nnn os sse attr e) 0 (fun x => leaf_ok mem x.1 (IA x.2) = true)) ->
  group_ok fuel mem attr e && forallb (group_ok fuel mem attr) BxOpcodeGroupSSE_ERR = true ->
  reads 0 (e ← (if negb (sse =? p) then entry BxOpcodeGroupSSE_ERR 0 else mret e);
           resolve_group fuel b2 b3 nnn os sse attr e) 0 (fun x => leaf_ok mem x.1 (IA x.2) = true).
Proof.
  intros IH [He Hall]%andb_true_iff. eapply reads_bind; [|intros e' He'; apply IH; exact He'].
  apply reads_if; intros _; [|by apply reads_ret]. apply reads_entry; [done|].
  by apply forallb_Forall in Hall.
Qed.
Lemma resolve_group_reads fuel mem b2 b3 nnn os sse :
  is_byte b3 -> 0 <= nnn < 8 -> 0 <= os <= 1 -> 0 <= sse <= 3 -> forall attr e, group_ok fuel mem attr e = true ->
  reads 0 (resolve_group fuel b2 b3 nnn os sse attr e) 0 (fun x => leaf_ok mem x.1 (IA x.2) = true).
Proof.
  intros Hb3 Hn Ho Hs. induction fuel as [|fuel IH]; intros attr e; [done|]. cbn [group_ok resolve_group]. cbv zeta.
  unfold is_byte in Hb3. destruct (Z.land attr BxGroupX =? 0); [intros; by apply reads_ret|].
  repeat match goal with
  | |- context [if Z.land attr BxGroupX =? ?g then _ else _] => destruct (Z.land attr BxGroupX =? g)
  end; cbn [andb]; intros H;
    first [done | solve [eapply group_only; [exact IH|exact H]] | solve [eapply group_down; [|exact IH|exact H]; lia] | idtac].
  - apply andb_true_iff in H as [H H']. destruct (nz sse) eqn:E; [|by apply IH].
    eapply group_down; [|exact IH|exact H]. unfold nz in E. lia.
  - eapply group_down; [|exact IH|exact H]. change 63 with (Z.ones 6). rewrite Z.land_ones by lia. by apply Z.mod_pos_bound.
Qed.

(** An entry for an opcode without ModRM byte. *)
Definition bare_ok (e : BxOpcodeInfo_t) : bool :=
  let group := Z.land (Attr e) BxGroupX in
  ((group =? 0) || (group =? BxPrefixSSE) && (3 <=? length (AnotherArray e))%nat) && leaf_ok false (Attr e) (IA e).
Lemma bare_entries : check_table (fun m e => nz m || bare_ok e) BxOpcodeInfo32R = true.
Proof. vm_compute. reflexivity. Qed.

(** ** The opcode with its operands *)

Definition operand_ok (mem : bool) (i : bxInstruction_c) : Prop :=
  if mem then mem_operand i /\ i_rm i = BX_TMP_REGISTER /\ Z.testbit (metaInfo1 i) 2 = false
  else ResolveModrm i = ResolveNull /\ 0 <= i_rm i < 8.
Definition opcode_ok (o : opcode_t) : Prop :=
  exists mem, leaf_ok mem (o_attr o) (o_IA o) = true /\ is_sreg (o_seg o) /\ 0 <= o_nnn o < 8 /\ 0 <= o_rm o < 8 /\
    operand_ok mem (o_i o).
Lemma entry_eq {A} k (table : list A) n :
  0 <= n < Z.of_nat (length table) -> reads k (entry table n) k (fun e => nth_error table (Z.to_nat n) = Some e).
Proof.
  intros Hn. unfold entry. destruct (nth_error table (Z.to_nat n)) as [e|] eqn:E; [by apply reads_ret|].
  apply nth_error_None in E. lia.
Qed.
Lemma offset_range b1 os : 0 <= b1 < 512 -> 0 <= os <= 1 -> 0 <= b1 + Z.shiftl os 9 < 1024.
Proof. intros. assert (os = 0 \/ os = 1) as [-> | ->] by lia;
  [change (Z.shiftl 0 9) with 0|change (Z.shiftl 1 9) with 512]; lia. Qed.

Lemma decode_opcode_reads b1 p :
  0 <= b1 < 512 -> prefixes_ok p -> reads 0 (decode_opcode b1 p) 0 opcode_ok.
Proof.
  intros Hb1 (Hi & Ho & Hs & _). pose proof (offset_range b1 (os_32 p) Hb1 Ho) as Hoff. 
  unfold decode_opcode. cbv zeta. eapply reads_bind; [by apply entry_eq|]. intros e He.
  eapply reads_bind; [by apply entry_eq|]. intros hm Hhm. apply reads_if; intros Em.
  - eapply reads_bind with (P := is_byte).
    { apply reads_if; intros _; [reads_walk|by apply reads_ret]. }
    intros b3 Hb3. eapply reads_bind; [by apply decode_modrm_reads|]. intros m (Hb2 & Hn & Hr & Hseg & Hop).
    eapply reads_bind with (P := fun e => group_ok group_depth (negb (m_mod m =? 0xc0)) (Attr e) e = true).
    { eapply reads_weaken; [apply entry_eq; by destruct (m_mod m =? 0xc0)|]. intros e' He'.
      pose proof (check_entry _ _ b1 (os_32 p) hm e' (tables_ok (negb (m_mod m =? 0xc0))) Hb1 Ho Hhm) as H. cbn beta in H.
      unfold nz in Em. apply negb_true_iff in Em. rewrite Em in H. apply H. by destruct (m_mod m =? 0xc0). }
    intros e' He'. eapply reads_bind; [apply resolve_group_reads; done|]. intros [attr e''] Hl. apply reads_ret; [done|].
    exists (negb (m_mod m =? 0xc0)). cbn in Hl |- *. split_and!; try lia; try done; try apply Hseg.
    destruct (m_mod m =? 0xc0); cbn; [|done]. destruct Hop as (? & -> & _). done.
  - assert (bare_ok e = true) as Hbare.
    { pose proof (check_entry _ _ b1 (os_32 p) hm e bare_entries Hb1 Ho Hhm He) as H. cbn beta in H. by rewrite Em in H. }
    unfold bare_ok in Hbare. cbv zeta in Hbare. apply andb_true_iff in Hbare as [Hg Hl].
    eapply reads_bind with (P := fun _ => True).
    { destruct (Z.land (Attr e) BxGroupX =? 0) eqn:E0, (Z.land (Attr e) BxGroupX =? BxPrefixSSE);
        cbn [orb andb] in Hg |- *; first [by apply reads_ret|discriminate Hg]. }
    intros _ _. eapply reads_bind with (P := fun _ => True).
    { apply reads_if; intros Eg; [|by apply reads_ret]. apply andb_true_iff in Eg as [Eg Es]. rewrite Eg in Hg.
      apply Z.eqb_eq in Eg. rewrite Eg in Hg. cbn [andb orb Z.eqb BxPrefixSSE] in Hg. apply Nat.leb_le in Hg.
      unfold nz in Es. apply reads_entry; [lia|by apply Forall_true]. }
    intros e' _. apply reads_ret; [done|]. exists false. pose proof (land_7_range b1). destruct Hi as [Hi _].
    cbn. split_and!; try done; ranges; lia.
Qed.

(** ** The immediate, and the whole *)

(** [f] changes neither the operand nor the attributes before it. *)
Definition same_operand (i i' : bxInstruction_c) : Prop :=
  ResolveModrm i' = ResolveModrm i /\ i_rm i' = i_rm i /\ metaInfo1 i' = metaInfo1 i /\ sibBase i' = sibBase i /\
  sibIndex i' = sibIndex i /\ sibScale i' = sibScale i.
Lemma same_operand_ok mem i i' : same_operand i i' -> operand_ok mem i -> operand_ok mem i'.
Proof.
  intros (Hr & Hm & Hi & Hb & Hx & Hs). unfold operand_ok, mem_operand. by rewrite Hr, Hm, Hi, Hb, Hx, Hs.
Qed.
Lemma decode_immediate_reads imm_mode i : reads 0 (decode_immediate imm_mode i) 0 (same_operand i).
Proof.
  unfold decode_immediate. reads_walk; first [done | by destruct (nz (os32L i))].
Qed.

(** What the decoder delivers: a segment register; registers that exist; the
    pointer to the resolver null exactly if there is no memory operand. *)
Definition decoded_ok (i : bxInstruction_c) : Prop :=
  is_sreg (i_seg i) /\ (operand_ok true i \/ operand_ok false i).
Lemma decode_instruction_eq d_b i remain iptr ilen :
  decode_instruction d_b i remain iptr ilen =
    match decode_body d_b i remain iptr ilen with
    | Fetched i iptr' ilen' => Fetched (setILen ilen' i) iptr' ilen'
    | Refused => Refused
    | Stuck => Stuck
    end.
Proof. unfold decode_instruction, mbind, Fetch_bind. by destruct (decode_body d_b i remain iptr ilen). Qed.
Lemma init_fresh d_b i : 0 <= d_b <= 1 -> fresh_i (init d_b d_b (set_ResolveModrm ResolveNull i)).
Proof. intros. split; [done|]. by assert (d_b = 0 \/ d_b = 1) as [-> | ->] by lia. Qed.
Lemma no_prefixes_ok d_b i : 0 <= d_b <= 1 -> prefixes_ok (no_prefixes d_b i).
Proof. intros Hd. split; [by apply init_fresh|]. split; [exact Hd|]. split; [done|by left]. Qed.
Lemma finish_ok mem b1 p o i :
  prefixes_ok p -> is_sreg (o_seg o) -> 0 <= o_nnn o < 8 -> leaf_ok mem (o_attr o) (o_IA o) = true -> operand_ok mem i ->
  is_sreg (i_seg (finish b1 p o i)) /\ operand_ok mem (finish b1 p o i).
Proof.
  intros (_ & _ & _ & Hp) Hs Hn Hl Hi. unfold finish. cbv zeta. split.
  - assert (is_sreg (if seg_override p =? BX_SEG_REG_NULL then o_seg o else seg_override p)) as H
      by (destruct Hp as [-> |]; [done|by case_match]).
    by destruct (nz (Z.land (o_attr o) BxArithDstRM)).
  - unfold leaf_ok in Hl. rewrite !andb_true_iff in Hl. destruct Hl as [[_ Hd] _]. destruct mem; cbn [andb] in Hd.
    + apply negb_true_iff in Hd. by rewrite Hd.
    + destruct (nz (Z.land (o_attr o) BxArithDstRM)); [|exact Hi]. by destruct Hi as [Hnull _].
Qed.
Lemma decode_body_reads d_b i : 0 <= d_b <= 1 -> reads 1 (decode_body d_b i) 0 decoded_ok.
Proof.
  intros Hd. unfold decode_body. eapply reads_bind; [by apply fetch_b1_reads, no_prefixes_ok|].
  intros [b1 p] [Hb1 Hp]. cbn [fst snd] in *. eapply reads_bind; [by apply decode_opcode_reads|].
  intros o (mem & Hl & Hs & Hn & Hr & Ho). eapply reads_bind; [apply decode_immediate_reads|].
  intros j Hj. apply reads_ret; [done|]. apply (same_operand_ok mem) in Hj; [|exact Ho].
  destruct (finish_ok mem b1 p o j Hp Hs Hn Hl Hj) as [Hf1 Hf2]. split; [done|]. destruct mem; [by left|by right].
Qed.

Lemma decode_at d_b iptr i remainingInPage :
  0 <= d_b <= 1 -> Forall is_byte iptr -> 1 <= remainingInPage <= Z.of_nat (length iptr) ->
  reads_at 1 (decode_body d_b i) 0 decoded_ok (if remainingInPage <? 15 then remainingInPage else 15) iptr 0.
Proof.
  intros Hd Hb Hr. apply decode_body_reads; [done| |done]. destruct (Z.ltb_spec remainingInPage 15); lia.
Qed.

(** C9: the decoder stays inside its input and its tables.  Given at least one
    byte and no more than there are, [fetchDecode32()] reads no byte beyond them,
    no entry beyond the end of a table and fails no assertion; an instruction it
    returns is 1 to 15 bytes long and made of the first bytes, and names a segment
    register, registers that exist and, if and only if it has a memory operand, a
    function that computes its address. *)
Theorem decode_bounds d_b iptr i remainingInPage :
  0 <= d_b <= 1 -> Forall is_byte iptr -> 1 <= remainingInPage <= Z.of_nat (length iptr) ->
  match fetchDecode32 d_b iptr i remainingInPage with
  | Fetched i' rest n =>
      n = ilen i' /\ 1 <= n <= 15 /\ n <= remainingInPage /\ rest = drop (Z.to_nat n) iptr /\ decoded_ok i'
  | Refused => True
  | Stuck => False
  end.
Proof.
  intros Hd Hb Hr. pose proof (decode_at d_b iptr i _ Hd Hb Hr) as H. unfold fetchDecode32. rewrite decode_instruction_eq.
  unfold reads_at in H. destruct (decode_body d_b i _ iptr 0) as [i' rest n| |]; [|done|done].
  destruct H as (Hi & l & -> & -> & Hk & _). destruct (Z.ltb_spec remainingInPage 15);
    (split_and!; [done|lia..| |exact Hi]); rewrite Z.add_0_l, Nat2Z.id; by rewrite drop_app_length.
Qed.
(** MOV EAX, [ESP+8]. *)
Definition blank_i : bxInstruction_c := mk_instruction ResolveNull BX_IA_ERROR 0 0 0 0 0 0 0 0 0 0 0 0.
Lemma decode_bounds_witness :
  exists i', fetchDecode32 1 [0x8b; 0x44; 0x24; 0x08; 0xcc] blank_i 5 = Fetched i' [0xcc] 4 /\
    ilen i' = 4 /\ decoded_ok i' /\ ia_opcode i' = BX_IA_MOV32_GdEdM.
Proof.
  assert (Forall is_byte [0x8b; 0x44; 0x24; 0x08; 0xcc]) as Hb by (repeat constructor; done).
  pose proof (decode_bounds 1 [0x8b; 0x44; 0x24; 0x08; 0xcc] blank_i 5 ltac:(lia) Hb ltac:(cbn; lia)) as H.
  destruct (fetchDecode32 1 [0x8b; 0x44; 0x24; 0x08; 0xcc] blank_i 5) as [i' rest n| |] eqn:E;
    [|vm_compute in E; discriminate E..].
  destruct H as (Hn & _ & _ & _ & Hi). vm_compute in E. injection E as <- <- <-. eexists. split; [reflexivity|].
  split; [reflexivity|]. split; [exact Hi|reflexivity].
Defined.

(** What the decoder returns depends on the bytes of the instruction alone:
    the same bytes followed by others, and under any other limit that includes
    them, are decoded to the same instruction.  So an instruction that
    [boundaryFetch()] has put together from two pages is the one that lies across
    them. *)
Theorem decode_local d_b iptr i remainingInPage i' rest n :
  0 <= d_b <= 1 -> Forall is_byte iptr -> 1 <= remainingInPage <= Z.of_nat (length iptr) ->
  fetchDecode32 d_b iptr i remainingInPage = Fetched i' rest n ->
  forall rest' remaining', n <= remaining' ->
  fetchDecode32 d_b (take (Z.to_nat n) iptr ++ rest') i remaining' = Fetched i' rest' n.
Proof.
  intros Hd Hb Hr. pose proof (decode_at d_b iptr i _ Hd Hb Hr) as H. unfold fetchDecode32. rewrite decode_instruction_eq.
  unfold reads_at in H. destruct (decode_body d_b i _ iptr 0) as [j rest0 n0| |]; [|discriminate..].
  destruct H as (_ & l & -> & -> & Hk & Hl). intros [= <- <- <-] rest' remaining' Hr'. rewrite decode_instruction_eq.
  rewrite Z.add_0_l, Nat2Z.id, take_app_length. rewrite Z.add_0_l in Hl, Hk. rewrite Hl; [done|].
  destruct (Z.ltb_spec remainingInPage 15), (Z.ltb_spec remaining' 15); lia.
Qed.
Lemma decode_local_witness :
  exists i', fetchDecode32 1 [0x8b; 0x44; 0x24; 0x08; 0xcc] blank_i 5 = Fetched i' [0xcc] 4 /\
    fetchDecode32 1 [0x8b; 0x44; 0x24; 0x08; 0xf4; 0xf4] blank_i 6 = Fetched i' [0xf4; 0xf4] 4.
Proof.
  assert (Forall is_byte [0x8b; 0x44; 0x24; 0x08; 0xcc]) as Hb by (repeat constructor; done).
  eexists. split; [vm_compute; reflexivity|].
  apply (decode_local 1 [0x8b; 0x44; 0x24; 0x08; 0xcc] blank_i 5 _ [0xcc] 4 ltac:(lia) Hb ltac:(cbn; lia)) with (rest' := [0xf4; 0xf4]);
    [vm_compute; reflexivity|lia].
Defined.

(** ** The LOCK prefix *)

Definition is_prefix (b : Z) : bool := case_in b [0x66; 0x67; 0xf2; 0xf3; 0x26; 0x2e; 0x36; 0x3e; 0x64; 0x65; 0xf0].
(** The prefixes at the beginning of some bytes. *)
Fixpoint prefix_run (iptr : list Z) : list Z :=
  match iptr with
  | b :: iptr => if is_prefix b then b :: prefix_run iptr else []
  | [] => []
  end.
Lemma prefix_byte_lock is_32 b1 p :
  match prefix_byte is_32 b1 p with
  | Some p' => is_prefix b1 = true /\ lock p' = lock p || (b1 =? 0xf0)
  | None => is_prefix b1 = false
  end.
Proof.
  unfold prefix_byte, is_prefix, case_in. cbn [existsb].
  repeat match goal with |- context [b1 =? ?k] => destruct (Z.eqb_spec b1 k); [subst b1; cbn; by rewrite ?orb_false_r, ?orb_true_r|] end.
  done.
Qed.
Lemma fetch_b1_lock is_32 remain iptr : forall p ilen b1 p' iptr' ilen',
  fetch_b1 is_32 p remain iptr ilen = Fetched (b1, p') iptr' ilen' ->
  lock p' = lock p || existsb (Z.eqb 0xf0) (prefix_run iptr).
Proof.
  induction iptr as [|b iptr IH]; intros p ilen b1 p' iptr' ilen'; [done|]. unfold fetch_b1. cbn [fetch_b1_loop].
  destruct (Z.eqb_spec b 0x0f) as [->|Hb].
  { cbn [prefix_run is_prefix case_in existsb Z.eqb Pos.eqb orb]. unfold mbind, Fetch_bind, room, FetchBYTE. repeat case_match; try done.
    intros [= <- <- <-]. by rewrite orb_false_r. }
  pose proof (prefix_byte_lock is_32 b p) as H. cbn [prefix_run].
  destruct (prefix_byte is_32 b p) as [q|].
  - destruct H as [-> Hq]. destruct (_ <? _); [|done]. intros ->%IH. rewrite Hq. cbn [existsb].
    by rewrite orb_assoc, (Z.eqb_sym b).
  - rewrite H. intros [= <- <- <- <-]. by rewrite orb_false_r.
Qed.

Lemma bind_inv {A B} (m : Fetch A) (f : A -> Fetch B) remain iptr ilen b iptr' ilen' :
  (a ← m; f a) remain iptr ilen = Fetched b iptr' ilen' ->
  exists a iptr1 ilen1, m remain iptr ilen = Fetched a iptr1 ilen1 /\ f a remain iptr1 ilen1 = Fetched b iptr' ilen'.
Proof. unfold mbind, Fetch_bind. destruct (m remain iptr ilen); [|discriminate..]. eauto. Qed.
Definition has_bytes (k : Z) (remain : Z) (iptr : list Z) (ilen : Z) : Prop :=
  ilen + k <= remain <= ilen + Z.of_nat (length iptr) /\ Forall is_byte iptr.
Lemma reads_inv {A} k (m : Fetch A) k' Q remain iptr ilen a iptr' ilen' :
  reads k m k' Q -> has_bytes k remain iptr ilen -> m remain iptr ilen = Fetched a iptr' ilen' ->
  Q a /\ has_bytes k' remain iptr' ilen'.
Proof.
  intros Hm [Hr Hb] E. specialize (Hm remain iptr ilen Hr Hb). unfold reads_at in Hm. rewrite E in Hm.
  destruct Hm as (Ha & l & -> & -> & Hk & _). rewrite length_app in Hr. apply Forall_app in Hb as [_ Hb].
  repeat split; try done; lia.
Qed.
Lemma has_bytes_start iptr remainingInPage :
  Forall is_byte iptr -> 1 <= remainingInPage <= Z.of_nat (length iptr) ->
  has_bytes 1 (if remainingInPage <? 15 then remainingInPage else 15) iptr 0.
Proof. intros Hb Hr. split; [|done]. destruct (Z.ltb_spec remainingInPage 15); lia. Qed.

Lemma decode_inv d_b i remain iptr ilen i' rest n :
  decode_instruction d_b i remain iptr ilen = Fetched i' rest n ->
  exists b1 p iptr1 n1 o iptr2 n2 j, fetch_b1 d_b (no_prefixes d_b i) remain iptr ilen = Fetched (b1, p) iptr1 n1 /\
    decode_opcode b1 p remain iptr1 n1 = Fetched o iptr2 n2 /\
    decode_immediate (Z.land (o_attr o) BxImmediate) (set_Id 0 (o_i o)) remain iptr2 n2 = Fetched j rest n /\
    i' = setILen n (finish b1 p o j).
Proof.
  intros (k & iptr0 & n0 & ([b1 p] & iptr1 & n1 & E1 & (o & iptr2 & n2 & E2 & (j & iptr3 & n3 & E3 & E4)%bind_inv)%bind_inv)%bind_inv & E5)%bind_inv.
  injection E4 as <- <- <-. injection E5 as <- <- <-. exists b1, p, iptr1, n1, o, iptr2, n2, j. done.
Qed.

(** The LOCK prefix.  With LOCK among its prefixes an instruction is
    undefined unless it is one of those the architecture allows to be locked, with
    a memory destination. *)
Theorem lock_prefix d_b iptr i remainingInPage i' rest n :
  0 <= d_b <= 1 -> Forall is_byte iptr -> 1 <= remainingInPage <= Z.of_nat (length iptr) ->
  fetchDecode32 d_b iptr i remainingInPage = Fetched i' rest n -> In 0xf0 (prefix_run iptr) ->
  ia_opcode i' = BX_IA_ERROR \/ lockable (ia_opcode i') = true /\ operand_ok true i'.
Proof.
  intros Hd Hb Hr (b1 & p & iptr1 & n1 & o & iptr2 & n2 & j & E1 & E2 & E3 & ->)%decode_inv Hlock.
  pose proof (has_bytes_start iptr remainingInPage Hb Hr) as H0.
  pose proof (reads_inv _ _ _ _ _ _ _ _ _ _ (fetch_b1_reads d_b _ (no_prefixes_ok d_b i Hd)) H0 E1) as [[Hb1 Hp] H1].
  pose proof (reads_inv _ _ _ _ _ _ _ _ _ _ (decode_opcode_reads b1 p Hb1 Hp) H1 E2) as [(mem & Hl & Hs & Hn & Hm & Ho) H2].
  pose proof (reads_inv _ _ _ _ _ _ _ _ _ _ (decode_immediate_reads _ _) H2 E3) as [Hj _].
  apply (same_operand_ok mem) in Hj; [|exact Ho].
  destruct (finish_ok mem b1 p o j Hp Hs Hn Hl Hj) as [_ Hf].
  change (ia_opcode (setILen n _)) with (if lock p && negb (nz (Z.land (o_attr o) BxLockable)) then BX_IA_ERROR else o_IA o).
  assert (lock p = true) as -> by (apply fetch_b1_lock in E1; rewrite E1; apply existsb_exists; by exists 0xf0).
  unfold leaf_ok in Hl. rewrite !andb_true_iff in Hl. destruct Hl as [[Hl%eqb_prop _] _].
  destruct (nz (Z.land (o_attr o) BxLockable)); [right|by left]. symmetry in Hl. apply andb_true_iff in Hl as [-> Hl].
  split; [exact Hl|exact Hf].
Qed.
(** LOCK ADD [EAX], EAX and LOCK ADD EAX, EAX. *)
Lemma lock_prefix_witness :
  exists i1 i2, fetchDecode32 1 [0xf0; 0x01; 0x00] blank_i 3 = Fetched i1 [] 3 /\
    ia_opcode i1 = BX_IA_ADD_EdGdM /\
    fetchDecode32 1 [0xf0; 0x01; 0xc0] blank_i 3 = Fetched i2 [] 3 /\
    (ia_opcode i2 = BX_IA_ERROR \/ lockable (ia_opcode i2) = true /\ operand_ok true i2).
Proof.
  assert (Forall is_byte [0xf0; 0x01; 0xc0]) as Hb by (repeat constructor; done).
  do 2 eexists. split; [vm_compute; reflexivity|]. split; [reflexivity|].
  assert (fetchDecode32 1 [0xf0; 0x01; 0xc0] blank_i 3 =
    Fetched (match fetchDecode32 1 [0xf0; 0x01; 0xc0] blank_i 3 with Fetched i _ _ => i | _ => blank_i end) [] 3) as E
    by (vm_compute; reflexivity).
  split; [exact E|]. apply (lock_prefix 1 [0xf0; 0x01; 0xc0] blank_i 3 _ [] 3 ltac:(lia) Hb ltac:(cbn; lia) E).
  left. reflexivity.
Defined.
