(* ===== verification/Operand.v ===== *)
(** * Operand: memory operands, encoded and decoded

    The addressing modes of the processor, their encoding in ModRM, SIB and
    displacement bytes, and that [fetchDecode32()] (cpu/fetchdecode.cc) and the
    resolvers (cpu/resolver.cc) get back the effective address and the default
    segment. *)
From stdpp Require Import base numbers list gmap.
From Stdlib Require Import ZArith Lia.
From S2P Require Import Prelude Opcodes OpcodeTables Machine Memory Decode.

Local Open Scope Z_scope.

(** ** Addressing modes *)

(** The register pairs of 16-bit addressing. *)
Inductive base16 : Type := BX_SI | BX_DI | BP_SI | BP_DI | SI_ | DI_ | BP_ | BX_.
(** 16-bit: a register pair or nothing, and a displacement; 32-bit: a base
    register or none, an index register with its scale or none, a displacement. *)
Inductive address : Type :=
  | Address16 (base : option base16) (disp : Z)
  | Address32 (base : option Z) (index : option (Z * Z)) (disp : Z).

Definition pair16 (b : base16) : Z * Z :=
  match b with
  | BX_SI => (3, 6) | BX_DI => (3, 7) | BP_SI => (5, 6) | BP_DI => (5, 7)
  | SI_ => (6, BX_NIL_REGISTER) | DI_ => (7, BX_NIL_REGISTER) | BP_ => (5, BX_NIL_REGISTER) | BX_ => (3, BX_NIL_REGISTER)
  end.
Definition uses_bp (b : base16) : bool := match b with BP_SI | BP_DI | BP_ => true | _ => false end.

(** A register of 0 to 7; the index is not ESP; the displacement is a number of
    the address size. *)
Definition address_ok (a : address) : Prop :=
  match a with
  | Address16 _ disp => - 2 ^ 15 <= disp < 2 ^ 15
  | Address32 base index disp =>
      match base with Some b => 0 <= b < 8 | None => True end /\
      match index with Some (x, k) => 0 <= x < 8 /\ x <> 4 /\ 0 <= k <= 3 | None => True end /\
      - 2 ^ 31 <= disp < 2 ^ 31
  end.
Definition is_address32 (a : address) : bool := match a with Address16 _ _ => false | Address32 _ _ _ => true end.

(** What the architecture says of them. *)
Definition effective_address (a : address) (s : machine) : Z :=
  match a with
  | Address16 base disp =>
      u16 (match base with
           | Some b => (match pair16 b with (r, x) => rx (reg r s) + (if x =? BX_NIL_REGISTER then 0 else rx (reg x s)) end)
           | None => 0
           end + disp)
  | Address32 base index disp =>
      u32 (match base with Some b => erx (reg b s) | None => 0 end +
           match index with Some (x, k) => erx (reg x s) * 2 ^ k | None => 0 end + disp)
  end.
Definition default_segment (a : address) : Z :=
  match a with
  | Address16 (Some b) _ => if uses_bp b then BX_SEG_REG_SS else BX_SEG_REG_DS
  | Address32 (Some b) _ _ => if (b =? 4) || (b =? 5) then BX_SEG_REG_SS else BX_SEG_REG_DS
  | _ => BX_SEG_REG_DS
  end.

(** ** Encoding *)

Definition modrm_byte (mod_ nnn rm : Z) : Z := mod_ * 64 + nnn * 8 + rm.
Definition rm16 (b : base16) : Z :=
  match b with BX_SI => 0 | BX_DI => 1 | BP_SI => 2 | BP_DI => 3 | SI_ => 4 | DI_ => 5 | BP_ => 6 | BX_ => 7 end.
(** The displacement in no, one or [n] bytes, with the [mod] that says so;
    [always] if [mod] 0 would mean something else. *)
Definition encode_displacement (n : nat) (always : bool) (disp : Z) : Z * list Z :=
  if (disp =? 0) && negb always then (0, [])
  else if (-128 <=? disp) && (disp <? 128) then (1, [u8 disp])
  else (2, le_split n disp).
(** [mod], [rm] and what follows the ModRM byte. *)
Definition encode_operand (a : address) : Z * Z * list Z :=
  match a with
  | Address16 None disp => (0, 6, le_split 2 disp)
  | Address16 (Some b) disp => let '(m, d) := encode_displacement 2 (rm16 b =? 6) disp in (m, rm16 b, d)
  | Address32 None None disp => (0, 5, le_split 4 disp)
  | Address32 None (Some (x, k)) disp => (0, 4, modrm_byte k x 5 :: le_split 4 disp)
  | Address32 (Some b) None disp =>
      let '(m, d) := encode_displacement 4 (b =? 5) disp in
      if b =? 4 then (m, 4, modrm_byte 0 4 4 :: d) else (m, b, d)
  | Address32 (Some b) (Some (x, k)) disp =>
      let '(m, d) := encode_displacement 4 (b =? 5) disp in (m, 4, modrm_byte k x b :: d)
  end.
Definition encode_address (nnn : Z) (a : address) : list Z :=
  let '(m, rm, l) := encode_operand a in modrm_byte m nnn rm :: l.

(** ** Decoding *)

Lemma modrm_fields m n r :
  0 <= m < 4 -> 0 <= n < 8 -> 0 <= r < 8 ->
  Z.land (modrm_byte m n r) 0xc0 = m * 64 /\ Z.land (Z.shiftr (modrm_byte m n r) 3) 7 = n /\
  Z.land (modrm_byte m n r) 7 = r /\ Z.shiftr (Z.shiftr (modrm_byte m n r) 3) 3 = m.
Proof.
  intros Hm Hn Hr.
  assert (Forall (fun m => Forall (fun n => Forall (fun r =>
    (Z.land (modrm_byte m n r) 0xc0 =? m * 64) && (Z.land (Z.shiftr (modrm_byte m n r) 3) 7 =? n) &&
    (Z.land (modrm_byte m n r) 7 =? r) && (Z.shiftr (Z.shiftr (modrm_byte m n r) 3) 3 =? m) = true)
    (seqZ 0 8)) (seqZ 0 8)) (seqZ 0 4)) as H by (repeat constructor).
  rewrite Forall_forall in H. specialize (H m ltac:(apply elem_of_seqZ; lia)).
  rewrite Forall_forall in H. specialize (H n ltac:(apply elem_of_seqZ; lia)).
  rewrite Forall_forall in H. specialize (H r ltac:(apply elem_of_seqZ; lia)). cbn beta in H.
  rewrite !andb_true_iff, !Z.eqb_eq in H. tauto.
Qed.

Lemma FetchBYTE_cons remain b l ilen : FetchBYTE remain (b :: l) ilen = Fetched b l (ilen + 1).
Proof. done. Qed.
Lemma FetchWORD_split remain v l ilen : FetchWORD remain (le_split 2 v ++ l) ilen = Fetched (u16 v) l (ilen + 2).
Proof.
  unfold FetchWORD, mbind, Fetch_bind. cbn [le_split app FetchBYTE]. unfold mret, Fetch_ret.
  change [u8 v; u8 (v / 2 ^ 8)] with (le_split 2 v). rewrite le_combine_split. f_equal. lia.
Qed.
Lemma FetchDWORD_split remain v l ilen : FetchDWORD remain (le_split 4 v ++ l) ilen = Fetched (u32 v) l (ilen + 4).
Proof.
  unfold FetchDWORD, mbind, Fetch_bind. cbn [le_split app FetchBYTE]. unfold mret, Fetch_ret.
  change [u8 v; u8 (v / 2 ^ 8); u8 (v / 2 ^ 8 / 2 ^ 8); u8 (v / 2 ^ 8 / 2 ^ 8 / 2 ^ 8)] with (le_split 4 v).
  rewrite le_combine_split. f_equal. lia.
Qed.
Lemma room_passes n remain l ilen : ilen + n < remain -> room n remain l ilen = Fetched tt l ilen.
Proof. intros H. unfold room. destruct (Z.ltb_spec (ilen + n) remain); [done|lia]. Qed.

(** The displacement, read as [displ] reads it, is [disp], and the other parts of
    the operand are as they were. *)
Definition displaced (displ : bxInstruction_c -> Z) (disp : Z) (i i' : bxInstruction_c) : Prop :=
  displ i' = disp /\ sibBase i' = sibBase i /\ sibIndex i' = sibIndex i /\ sibScale i' = sibScale i /\
  ResolveModrm i' = ResolveModrm i /\ i_nnn i' = i_nnn i.
Lemma displaced32_set d i : displaced displ32s (s32 d) i (set_displ32u d i).
Proof.
  split; [|done]. unfold displ32s, set_displ32u, put_erx. cbn [form_w1 set_form_w1]. by rewrite swrap_wrap.
Qed.
Lemma displaced16_set d i : displaced displ16s (s16 d) i (set_displ16u d i).
Proof.
  split; [|done]. unfold displ16s, set_displ16u, put_rx. cbn [form_w1 set_form_w1]. rewrite <-swrap_wrap by lia.
  rewrite Z.mul_comm, Z.add_comm. unfold wrap at 1. rewrite Z.mul_comm, Z_mod_plus_full. fold (wrap 16 (u16 d)).
  by rewrite wrap_wrap, swrap_wrap by lia.
Qed.
Lemma displ32_run disp i remain l ilen :
  - 2 ^ 31 <= disp < 2 ^ 31 -> ilen + 4 <= remain ->
  exists i', displ32 i remain (le_split 4 disp ++ l) ilen = Fetched i' l (ilen + 4) /\ displaced displ32s disp i i'.
Proof.
  intros Hd Hr. eexists. unfold displ32, mbind, Fetch_bind. rewrite room_passes by lia. rewrite FetchDWORD_split.
  split; [reflexivity|]. replace disp with (s32 (u32 disp)) at 1; [apply displaced32_set|].
  rewrite swrap_wrap by lia. by apply swrap_small.
Qed.
Lemma displ16_run disp i remain l ilen :
  - 2 ^ 15 <= disp < 2 ^ 15 -> ilen + 2 <= remain ->
  exists i', displ16 i remain (le_split 2 disp ++ l) ilen = Fetched i' l (ilen + 2) /\ displaced displ16s disp i i'.
Proof.
  intros Hd Hr. eexists. unfold displ16, mbind, Fetch_bind. rewrite room_passes by lia. rewrite FetchWORD_split.
  split; [reflexivity|]. replace disp with (s16 (u16 disp)) at 1; [apply displaced16_set|].
  rewrite swrap_wrap by lia. by apply swrap_small.
Qed.

(** The instruction computes the address. *)
Definition addresses (i : bxInstruction_c) (a : address) : Prop :=
  forall s, reg BX_NIL_REGISTER s = 0 -> resolve i s = Ret (effective_address a s) s.
Definition base_reg (base : option Z) : Z := default BX_NIL_REGISTER base.
Lemma addresses32 i base index disp :
  sibBase i = base_reg base -> displ32s i = disp ->
  match index with
  | Some (x, k) => ResolveModrm i = Resolve32BaseIndex /\ sibIndex i = x /\ sibScale i = k /\ 0 <= k
  | None => ResolveModrm i = Resolve32Base
  end -> addresses i (Address32 base index disp).
Proof.
  intros Hb Hd Hx s Hs. unfold resolve, effective_address.
  assert (erx (reg (base_reg base) s) = match base with Some b => erx (reg b s) | None => 0 end) as Eb
    by (destruct base; cbn; [done|by rewrite Hs]).
  destruct index as [[x k]|].
  - destruct Hx as (-> & Hx & Hk & Hk0). unfold BxResolve32BaseIndex, BX_READ_32BIT_REG, gets, mbind, M_bind, mret, M_ret.
    rewrite Hb, Hd, Hx, Hk, Eb. f_equal. rewrite Z.shiftl_mul_pow2 by lia.
    rewrite <-wrap_add_l, (wrap_add_r 32 _ (_ * _)), wrap_add_l by lia. done.
  - rewrite Hx. unfold BxResolve32Base, BX_READ_32BIT_REG, gets, mbind, M_bind, mret, M_ret.
    rewrite Hb, Hd, Eb. f_equal. f_equal. lia.
Qed.
Lemma addresses16 i base disp :
  sibBase i = match base with Some b => (pair16 b).1 | None => BX_NIL_REGISTER end ->
  sibIndex i = match base with Some b => (pair16 b).2 | None => BX_NIL_REGISTER end ->
  displ16s i = disp -> ResolveModrm i = Resolve16BaseIndex -> addresses i (Address16 base disp).
Proof.
  intros Hb Hx Hd Hr s Hs. unfold resolve, effective_address. rewrite Hr.
  unfold BxResolve16BaseIndex, BX_READ_16BIT_REG, gets, mbind, M_bind, mret, M_ret. rewrite Hb, Hx, Hd.
  f_equal. f_equal. f_equal. destruct base as [b|]; [|by rewrite Hs].
  destruct b; cbn [pair16 fst snd]; try done; change (_ =? BX_NIL_REGISTER) with true; by rewrite Hs.
Qed.
(** The tail of [modrm32] and of [modrm16] reads the displacement. *)
Lemma encode_displacement_cases n always disp :
  (disp = 0 /\ always = false /\ encode_displacement n always disp = (0, [])) \/
  (-128 <= disp < 128 /\ encode_displacement n always disp = (1, [u8 disp])) \/
  encode_displacement n always disp = (2, le_split n disp).
Proof.
  unfold encode_displacement. destruct (Z.eqb_spec disp 0), always; cbn [andb negb]; auto;
    (destruct (Z.leb_spec (-128) disp), (Z.ltb_spec disp 128); cbn [andb]; auto).
Qed.
Lemma s8_byte disp : -128 <= disp < 128 -> s8 (u8 disp) = disp.
Proof. intros. rewrite swrap_wrap by lia. by apply swrap_small. Qed.
Lemma s8_displaced32 disp i : -128 <= disp < 128 -> displaced displ32s disp i (set_displ32u (s8 (u8 disp)) i).
Proof.
  intros H. rewrite s8_byte by done. replace disp with (s32 disp) at 1; [apply displaced32_set|]. apply swrap_small; lia.
Qed.
Lemma s8_displaced16 disp i : -128 <= disp < 128 -> displaced displ16s disp i (set_displ16u (s8 (u8 disp)) i).
Proof.
  intros H. rewrite s8_byte by done. replace disp with (s16 disp) at 1; [apply displaced16_set|]. apply swrap_small; lia.
Qed.

(** What comes after the ModRM byte, for an instruction [i] with [rm] as its base,
    no index and no displacement. *)
Definition operand_run (m : Z) (l : list Z) (parse : Fetch (Z * bxInstruction_c)) (a : address) (nnn : Z) : Prop :=
  forall remain rest ilen, ilen + Z.of_nat (length l) <= remain ->
  exists i', parse remain (l ++ rest) ilen = Fetched (default_segment a, i') rest (ilen + Z.of_nat (length l)) /\
    addresses i' a /\ i_nnn i' = nnn.

(** A displacement and what it goes with. *)
Lemma tail32_run m always d disp (seg : Z) (i : bxInstruction_c) :
  encode_displacement 4 always disp = (m, d) -> m <> 0 -> - 2 ^ 31 <= disp < 2 ^ 31 ->
  forall remain rest ilen, ilen + Z.of_nat (length d) <= remain ->
  exists i', (if m * 64 =? 0x40 then room 0;; b ← FetchBYTE; mret (seg, set_displ32u (s8 b) i) else i ← displ32 i; mret (seg, i))
    remain (d ++ rest) ilen = Fetched (seg, i') rest (ilen + Z.of_nat (length d)) /\ displaced displ32s disp i i'.
Proof.
  intros He Hm Hd remain rest ilen Hr.
  destruct (encode_displacement_cases 4 always disp) as [(_ & _ & E)|[(Hs & E)|E]]; rewrite E in He; apply pair_equal_spec in He as [<- <-]; [done| |].
  - change (1 * 64 =? 0x40) with true. cbv match. unfold mbind, Fetch_bind. cbn [length] in Hr. rewrite room_passes by lia.
    cbn [app FetchBYTE]. eexists. split; [reflexivity|]. by apply s8_displaced32.
  - change (2 * 64 =? 0x40) with false. cbv match. rewrite le_split_length in *.
    destruct (displ32_run disp i remain rest ilen Hd ltac:(lia)) as (i' & E' & Hi'). exists i'. unfold mbind, Fetch_bind.
    by rewrite E'.
Qed.
(** 32-bit addressing without SIB byte. *)
Lemma modrm32_plain b m d disp i :
  0 <= b < 8 -> b <> 4 -> encode_displacement 4 (b =? 5) disp = (m, d) -> - 2 ^ 31 <= disp < 2 ^ 31 ->
  sibBase i = b -> form_w1 i = 0 ->
  operand_run m d (modrm32 (m * 64) b i) (Address32 (Some b) None disp) (i_nnn i).
Proof.
  intros Hb H4 He Hd Hi Hw remain rest ilen Hr. unfold modrm32. cbv zeta.
  replace (b =? 4) with false by lia. cbn [negb].
  destruct (Z.eq_dec m 0) as [-> |Hm].
  - change (0 * 64 =? 0) with true. cbv match.
    destruct (encode_displacement_cases 4 (b =? 5) disp) as [(-> & H5 & E)|[(Hs & E)|E]]; rewrite E in He; try discriminate He.
    injection He as <-. rewrite H5. eexists. split; [cbn; rewrite Z.add_0_r; f_equal; f_equal; cbn; by replace (b =? 4) with false by lia; rewrite H5|].
    split; [|done]. apply addresses32; [done| |done]. unfold displ32s. cbn. by rewrite Hw.
  - replace (m * 64 =? 0) with false by lia. 
    destruct (nth_error sreg_mod1or2_base32 (Z.to_nat b)) as [seg|] eqn:Es; [|apply nth_error_None in Es; cbn in Es; lia].
    assert (seg = default_segment (Address32 (Some b) None disp)) as ->.
    { assert (b = 0 \/ b = 1 \/ b = 2 \/ b = 3 \/ b = 5 \/ b = 6 \/ b = 7) as Hc by lia.
      destruct_or! Hc; rewrite Hc in Es |- *; vm_compute in Es |- *; congruence. }
    destruct (tail32_run m (b =? 5) d disp (default_segment (Address32 (Some b) None disp)) (set_ResolveModrm Resolve32Base i)
      He Hm Hd remain rest ilen Hr) as (i' & E & Hi'). exists i'.
    unfold mbind at 1, Fetch_bind at 1. unfold entry. rewrite Es. split; [exact E|].
    destruct Hi' as (Hd' & Hb' & _ & _ & Hr' & Hn'). split; [|done].
    apply addresses32; [by rewrite Hb'|done|done].
Qed.

(** 32-bit addressing with SIB byte. *)
Definition sib_index (x k : Z) : option (Z * Z) := if x =? 4 then None else Some (x, k).
Definition sib_i (x k b : Z) (i : bxInstruction_c) : bxInstruction_c :=
  let i := setSibBase b (setSibScale k (set_ResolveModrm Resolve32Base i)) in
  if negb (x =? 4) then setSibIndex x (set_ResolveModrm Resolve32BaseIndex i) else i.
Lemma modrm32_sib_eq mod_ i k x b remain rest ilen :
  0 <= k <= 3 -> 0 <= x < 8 -> 0 <= b < 8 -> ilen < remain ->
  modrm32 mod_ 4 i remain (modrm_byte k x b :: rest) ilen =
    (if mod_ =? 0x00 then
       seg ← entry sreg_mod0_base32 b;
       if b =? 5 then i ← displ32 (setSibBase BX_NIL_REGISTER (sib_i x k b i)); mret (seg, i) else mret (seg, sib_i x k b i)
     else
       seg ← entry sreg_mod1or2_base32 b;
       if mod_ =? 0x40 then room 0;; d ← FetchBYTE; mret (seg, set_displ32u (s8 d) (sib_i x k b i))
       else i ← displ32 (sib_i x k b i); mret (seg, i)) remain rest (ilen + 1).
Proof.
  intros Hk Hx Hb Hr. destruct (modrm_fields k x b ltac:(lia) Hx Hb) as (_ & Ex & Eb & Ek).
  unfold modrm32. cbv zeta. change (4 =? 4) with true. cbn [negb]. unfold mbind at 1, Fetch_bind at 1.
  rewrite room_passes by lia. unfold mbind at 1, Fetch_bind at 1. rewrite FetchBYTE_cons. rewrite Ex, Eb, Ek. reflexivity.
Qed.
Lemma sib_addresses x k base disp i j i' :
  0 <= k -> displaced displ32s disp j i' ->
  ResolveModrm j = (if x =? 4 then Resolve32Base else Resolve32BaseIndex) -> sibBase j = base_reg base ->
  ((x =? 4) = false -> sibIndex j = x) -> sibScale j = k -> i_nnn j = i_nnn i ->
  addresses i' (Address32 base (sib_index x k) disp) /\ i_nnn i' = i_nnn i.
Proof.
  intros Hk (Hd & ? & ? & ? & ? & ?) Hr Hb Hx Hs Hn. split; [|congruence].
  apply addresses32; [congruence|done|]. unfold sib_index.
  destruct (x =? 4); [congruence|]. rewrite Hx in * by done. split_and!; congruence.
Qed.
Lemma sib_i_fields x k b i :
  ResolveModrm (sib_i x k b i) = (if x =? 4 then Resolve32Base else Resolve32BaseIndex) /\ sibBase (sib_i x k b i) = b /\
  ((x =? 4) = false -> sibIndex (sib_i x k b i) = x) /\ sibScale (sib_i x k b i) = k /\ i_nnn (sib_i x k b i) = i_nnn i /\
  form_w1 (sib_i x k b i) = form_w1 i.
Proof. unfold sib_i. by destruct (x =? 4). Qed.
Lemma entry_run {A} (table : list A) n e remain l ilen :
  nth_error table (Z.to_nat n) = Some e -> entry table n remain l ilen = Fetched e l ilen.
Proof. intros H. unfold entry. by rewrite H. Qed.
Lemma base_segment b index disp :
  0 <= b < 8 -> nth_error sreg_mod1or2_base32 (Z.to_nat b) = Some (default_segment (Address32 (Some b) index disp)) /\
  (b <> 5 -> nth_error sreg_mod0_base32 (Z.to_nat b) = Some (default_segment (Address32 (Some b) index disp))).
Proof.
  intros Hb. assert (b = 0 \/ b = 1 \/ b = 2 \/ b = 3 \/ b = 4 \/ b = 5 \/ b = 6 \/ b = 7) as Hc by lia.
  destruct_or! Hc; subst b; (split; [reflexivity|intros; first [reflexivity|done]]).
Qed.

Lemma modrm32_sib b x k m d disp i :
  0 <= b < 8 -> 0 <= x < 8 -> 0 <= k <= 3 -> encode_displacement 4 (b =? 5) disp = (m, d) -> - 2 ^ 31 <= disp < 2 ^ 31 ->
  form_w1 i = 0 ->
  operand_run m (modrm_byte k x b :: d) (modrm32 (m * 64) 4 i) (Address32 (Some b) (sib_index x k) disp) (i_nnn i).
Proof.
  intros Hb Hx Hk He Hd Hw remain rest ilen Hr. cbn [length app] in *. rewrite modrm32_sib_eq by lia.
  destruct (base_segment b (sib_index x k) disp Hb) as [S1 S2].
  destruct (sib_i_fields x k b i) as (Fr & Fb & Fx & Fk & Fn & Fw).
  destruct (Z.eq_dec m 0) as [-> |Hm].
  - change (0 * 64 =? 0) with true. cbv match.
    destruct (encode_displacement_cases 4 (b =? 5) disp) as [(-> & H5 & E)|[(Hs & E)|E]]; rewrite E in He; try discriminate He.
    apply pair_equal_spec in He as [_ <-]. unfold mbind, Fetch_bind. rewrite (entry_run _ _ _ _ _ _ (S2 ltac:(lia))), H5.
    eexists. split; [reflexivity|]. eapply sib_addresses with (j := sib_i x k b i); try done; [lia|].
    split; [|done]. unfold displ32s. by rewrite Fw, Hw.
  - replace (m * 64 =? 0) with false by lia. unfold mbind at 1, Fetch_bind at 1. rewrite (entry_run _ _ _ _ _ _ S1).
    destruct (tail32_run m (b =? 5) d disp (default_segment (Address32 (Some b) (sib_index x k) disp)) (sib_i x k b i)
      He Hm Hd remain rest (ilen + 1) ltac:(lia)) as (i' & E & Hi'). exists i'. split; [rewrite E; f_equal; lia|].
    eapply sib_addresses; try done; lia.
Qed.
(** A SIB byte without base. *)
Lemma modrm32_sib_none x k disp i :
  0 <= x < 8 -> 0 <= k <= 3 -> - 2 ^ 31 <= disp < 2 ^ 31 ->
  operand_run 0 (modrm_byte k x 5 :: le_split 4 disp) (modrm32 0 4 i) (Address32 None (sib_index x k) disp) (i_nnn i).
Proof.
  intros Hx Hk Hd remain rest ilen Hr. cbn [length app] in Hr |- *. rewrite le_split_length in *.
  rewrite modrm32_sib_eq by lia. destruct (sib_i_fields x k 5 i) as (Fr & Fb & Fx & Fk & Fn & Fw).
  change (0 =? 0) with true. change (5 =? 5) with true. cbv match. unfold mbind at 1, Fetch_bind at 1.
  rewrite (entry_run _ _ BX_SEG_REG_DS) by done.
  destruct (displ32_run disp (setSibBase BX_NIL_REGISTER (sib_i x k 5 i)) remain rest (ilen + 1) Hd ltac:(lia)) as (i' & E & Hi').
  exists i'. unfold mbind, Fetch_bind. rewrite E. split; [unfold mret, Fetch_ret; f_equal; lia|].
  eapply sib_addresses; try done; lia.
Qed.
(** A displacement alone. *)
Lemma modrm32_none disp i :
  - 2 ^ 31 <= disp < 2 ^ 31 -> operand_run 0 (le_split 4 disp) (modrm32 0 5 i) (Address32 None None disp) (i_nnn i).
Proof.
  intros Hd remain rest ilen Hr. rewrite le_split_length in *. unfold modrm32. cbv zeta.
  change (5 =? 4) with false. change (0 =? 0) with true. change (5 =? 5) with true. cbn [negb].
  destruct (displ32_run disp (setSibBase BX_NIL_REGISTER (set_ResolveModrm Resolve32Base i)) remain rest ilen Hd ltac:(lia)) as (i' & E & Hi').
  exists i'. unfold mbind, Fetch_bind. rewrite E. split; [done|]. destruct Hi' as (Hd' & Hb' & _ & _ & Hr' & Hn').
  split; [|done]. by apply addresses32.
Qed.

(** 16-bit addressing. *)
Lemma rm16_tables b :
  nth_error Resolve16BaseReg (Z.to_nat (rm16 b)) = Some (pair16 b).1 /\
  nth_error Resolve16IndexReg (Z.to_nat (rm16 b)) = Some (pair16 b).2 /\
  (rm16 b <> 6 -> nth_error sreg_mod00_rm16 (Z.to_nat (rm16 b)) = Some (default_segment (Address16 (Some b) 0))) /\
  nth_error sreg_mod01or10_rm16 (Z.to_nat (rm16 b)) = Some (default_segment (Address16 (Some b) 0)).
Proof. by destruct b. Qed.
Lemma modrm16_base b m d disp i :
  encode_displacement 2 (rm16 b =? 6) disp = (m, d) -> - 2 ^ 15 <= disp < 2 ^ 15 -> form_w1 i = 0 ->
  operand_run m d (modrm16 (m * 64) (rm16 b) i) (Address16 (Some b) disp) (i_nnn i).
Proof.
  intros He Hd Hw remain rest ilen Hr. destruct (rm16_tables b) as (T1 & T2 & T3 & T4). unfold modrm16.
  unfold mbind at 1, Fetch_bind at 1. rewrite (entry_run _ _ _ _ _ _ T1). unfold mbind at 1, Fetch_bind at 1.
  rewrite (entry_run _ _ _ _ _ _ T2). cbv zeta. set (j := setSibIndex _ _).
  assert (forall i', displaced displ16s disp j i' -> addresses i' (Address16 (Some b) disp) /\ i_nnn i' = i_nnn i) as Hj.
  { intros i' (Hd' & Hb' & Hx' & _ & Hr' & Hn'). split; [|done]. by apply addresses16. }
  destruct (encode_displacement_cases 2 (rm16 b =? 6) disp) as [(-> & H6 & E)|[(Hs & E)|E]]; rewrite E in He;
    apply pair_equal_spec in He as [<- <-].
  - change (0 * 64 =? 0) with true. cbv match. unfold mbind, Fetch_bind. rewrite (entry_run _ _ _ _ _ _ (T3 ltac:(lia))), H6.
    exists j. split; [unfold mret, Fetch_ret; cbn [length Z.of_nat app]; f_equal; lia|]. apply Hj. split; [|done].
    unfold displ16s. cbn. by rewrite Hw.
  - change (1 * 64 =? 0) with false. change (1 * 64 =? 0x40) with true. cbv match. unfold mbind, Fetch_bind.
    rewrite (entry_run _ _ _ _ _ _ T4). cbn [length] in Hr. rewrite room_passes by lia. cbn [app FetchBYTE].
    eexists. split; [reflexivity|]. by apply Hj, s8_displaced16.
  - change (2 * 64 =? 0) with false. change (2 * 64 =? 0x40) with false. cbv match. unfold mbind, Fetch_bind.
    rewrite (entry_run _ _ _ _ _ _ T4). rewrite le_split_length in *.
    destruct (displ16_run disp j remain rest ilen Hd ltac:(lia)) as (i' & E' & Hi'). exists i'. rewrite E'. split; [done|]. by apply Hj.
Qed.
Lemma modrm16_none disp i :
  - 2 ^ 15 <= disp < 2 ^ 15 -> operand_run 0 (le_split 2 disp) (modrm16 0 6 i) (Address16 None disp) (i_nnn i).
Proof.
  intros Hd remain rest ilen Hr. rewrite le_split_length in *. unfold modrm16. unfold mbind at 1, Fetch_bind at 1.
  rewrite (entry_run _ _ 5) by done. unfold mbind at 1, Fetch_bind at 1. rewrite (entry_run _ _ BX_NIL_REGISTER) by done.
  change (0 =? 0) with true. change (6 =? 6) with true. cbv zeta match. unfold mbind at 1, Fetch_bind at 1.
  rewrite (entry_run _ _ BX_SEG_REG_DS) by done.
  destruct (displ16_run disp (setSibBase BX_NIL_REGISTER (setSibIndex BX_NIL_REGISTER (setSibBase 5 (set_ResolveModrm Resolve16BaseIndex i))))
    remain rest ilen Hd ltac:(lia)) as (i' & E & Hi').
  exists i'. unfold mbind, Fetch_bind. rewrite E. split; [done|]. destruct Hi' as (Hd' & Hb' & Hx' & _ & Hr' & Hn').
  split; [|done]. by apply addresses16.
Qed.

(** ** Together *)

Lemma encode_displacement_mod n always disp m d : encode_displacement n always disp = (m, d) -> 0 <= m <= 2.
Proof.
  intros He. destruct (encode_displacement_cases n always disp) as [(_ & _ & E)|[(_ & E)|E]]; rewrite E in He;
    apply pair_equal_spec in He as [<- _]; lia.
Qed.
Lemma operand_decoded a m rm l i :
  address_ok a -> encode_operand a = (m, rm, l) -> sibBase i = rm -> form_w1 i = 0 ->
  0 <= m <= 2 /\ 0 <= rm < 8 /\
  operand_run m l (if is_address32 a then modrm32 (m * 64) rm i else modrm16 (m * 64) rm i) a (i_nnn i).
Proof.
  intros Ha He Hb Hw.
  destruct a as [[b|] disp|[b|] [[x k]|] disp]; cbn [encode_operand is_address32 address_ok] in *.
  - destruct (encode_displacement 2 _ disp) as [m' d'] eqn:E. apply pair_equal_spec in He as [[<- <-]%pair_equal_spec <-].
    pose proof (encode_displacement_mod _ _ _ _ _ E). split; [done|]. split; [destruct b; cbn; lia|]. by apply modrm16_base.
  - apply pair_equal_spec in He as [[<- <-]%pair_equal_spec <-]. split; [lia|]. split; [lia|]. by apply modrm16_none.
  - destruct (encode_displacement 4 _ disp) as [m' d'] eqn:E. apply pair_equal_spec in He as [[<- <-]%pair_equal_spec <-].
    pose proof (encode_displacement_mod _ _ _ _ _ E). destruct Ha as (Ha & (Hx & H4 & Hk) & Hd). split; [done|]. split; [lia|].
    replace (Some (x, k)) with (sib_index x k) by (unfold sib_index; by replace (x =? 4) with false by lia).
    by apply modrm32_sib.
  - destruct (encode_displacement 4 _ disp) as [m' d'] eqn:E. destruct Ha as (Ha & _ & Hd).
    pose proof (encode_displacement_mod _ _ _ _ _ E). destruct (Z.eqb_spec b 4) as [->|Hn];
      apply pair_equal_spec in He as [[<- <-]%pair_equal_spec <-]; (split; [done|]); (split; [lia|]).
    + change None with (sib_index 4 0). by apply modrm32_sib.
    + by apply modrm32_plain.
  - apply pair_equal_spec in He as [[<- <-]%pair_equal_spec <-]. destruct Ha as (_ & (Hx & H4 & Hk) & Hd). split; [lia|]. split; [lia|].
    replace (Some (x, k)) with (sib_index x k) by (unfold sib_index; by replace (x =? 4) with false by lia).
    by apply modrm32_sib_none.
  - apply pair_equal_spec in He as [[<- <-]%pair_equal_spec <-]. split; [lia|]. split; [lia|]. apply modrm32_none, Ha.
Qed.
Lemma decode_modrm_encode b1 i nnn a remain rest ilen :
  address_ok a -> 0 <= nnn < 8 -> Z.land b1 (Z.lnot 3) <> 0x120 -> nz (as32L i) = is_address32 a ->
  ilen + Z.of_nat (length (encode_address nnn a)) <= remain ->
  exists b2 mod_ rm i', decode_modrm b1 i remain (encode_address nnn a ++ rest) ilen =
      Fetched (mk_modrm b2 mod_ nnn rm (default_segment a) i') rest (ilen + Z.of_nat (length (encode_address nnn a))) /\
    mod_ <> 0xc0 /\ addresses i' a /\ i_nnn i' = nnn.
Proof.
  intros Ha Hn Hb1 Has. unfold encode_address. destruct (encode_operand a) as [[m rm] l] eqn:Ee. intros Hr.
  cbn [length app] in *.
  assert (forall i, sibBase i = rm -> form_w1 i = 0 -> 0 <= m <= 2 /\ 0 <= rm < 8 /\
    operand_run m l (if is_address32 a then modrm32 (m * 64) rm i else modrm16 (m * 64) rm i) a (i_nnn i)) as Hop
    by (intros; by apply operand_decoded).
  unfold decode_modrm. unfold mbind at 1, Fetch_bind at 1. rewrite room_passes by lia. unfold mbind at 1, Fetch_bind at 1.
  rewrite FetchBYTE_cons. cbv zeta. replace (Z.land b1 (Z.lnot 3) =? 0x120) with false by lia.
  set (j := set_displ32u 0 (setSibIndex BX_NIL_REGISTER (setSibBase (Z.land (modrm_byte m nnn rm) 7) (setRm BX_TMP_REGISTER
    (setNnn (Z.land (Z.shiftr (modrm_byte m nnn rm) 3) 7) (setModRM (modrm_byte m nnn rm) i)))))).
  destruct (Hop (setSibBase rm j) eq_refl eq_refl) as (Hm & Hrm & _).
  destruct (modrm_fields m nnn rm ltac:(lia) Hn Hrm) as (E1 & E2 & E3 & _).
  destruct (Hop j) as (_ & _ & Hrun); [by subst j|done|]. rewrite E1. replace (m * 64 =? 0xc0) with false by lia.
  destruct (Hrun remain rest (ilen + 1) ltac:(lia)) as (i' & E & Hi' & Hnnn). do 3 eexists. exists i'.
  unfold mbind, Fetch_bind. change (as32L j) with (as32L i). rewrite Has, E3, E.
  split; [rewrite E2; unfold mret, Fetch_ret; f_equal; lia|]. split; [lia|]. split; [done|].
  rewrite Hnnn. subst j. cbn. exact E2.
Qed.

(** The immediate is stored apart from the displacement, unless it is one of two
    parts. *)
Lemma immediate_keeps imm_mode i :
  reads 0 (decode_immediate imm_mode i) 0 (fun j => same_operand i j /\ i_nnn j = i_nnn i /\
    (form_w1 j = form_w1 i \/ case_in imm_mode [BxImmediate_IwIb; BxImmediate_IwIw; BxImmediate_IdIw] = true)).
Proof.
  unfold decode_immediate. reads_walk; (split; [by repeat case_match|]); (split; [by repeat case_match|]);
    first [left; by repeat case_match | right; unfold case_in; cbn [existsb];
           repeat match goal with H : (imm_mode =? _) = true |- _ => rewrite H; clear H end; by rewrite ?orb_true_r].
Qed.
Lemma addresses_ext i j a :
  same_operand i j -> form_w1 j = form_w1 i -> addresses i a -> addresses j a.
Proof.
  intros (Hr & _ & _ & Hb & Hx & Hs) Hw H s Hn. rewrite <-(H s Hn).
  unfold resolve, BxResolve16BaseIndex, BxResolve32Base, BxResolve32BaseIndex, displ16s, displ32s.
  by rewrite Hr, Hb, Hx, Hs, Hw.
Qed.
Lemma two_byte_entries b1 os e :
  0 <= b1 < 512 -> 0 <= os <= 1 -> b1 <> 0x138 -> b1 <> 0x13a ->
  nth_error BxOpcodeInfo32R (Z.to_nat (b1 + Z.shiftl os 9)) = Some e -> (Z.land (Attr e) BxGroupX =? Bx3ByteOp) = false.
Proof.
  intros Hb Ho H1 H2 He.
  assert (Forall (fun k => match nth_error BxOpcodeInfo32R k with
    | Some e => negb (Z.land (Attr e) BxGroupX =? Bx3ByteOp) || case_in (Z.of_nat k mod 512) [0x138; 0x13a] | None => false end = true)
    (seq 0 1024)) as H by (apply (forallb_Forall (fun k => match nth_error BxOpcodeInfo32R k with Some e => _ | None => _ end)); vm_compute; reflexivity).
  rewrite Forall_forall in H. pose proof (offset_range b1 os Hb Ho).
  specialize (H (Z.to_nat (b1 + Z.shiftl os 9)) ltac:(apply elem_of_seq; lia)). cbn beta in H. rewrite He in H.
  apply orb_true_iff in H as [H|H]; [by apply negb_true_iff|]. exfalso.
  rewrite Z2Nat.id in H by lia.
  assert ((b1 + Z.shiftl os 9) mod 512 = b1) as E.
  { assert (os = 0 \/ os = 1) as [-> | ->] by lia; [change (Z.shiftl 0 9) with 0|change (Z.shiftl 1 9) with (1 * 512)].
    - rewrite Z.add_0_r. by apply Z.mod_small.
    - rewrite Z_mod_plus_full. by apply Z.mod_small. }
  rewrite E in H. unfold case_in in H. cbn [existsb] in H. lia.
Qed.

(** The ModRM byte that [decode_opcode] finds. *)
Lemma opcode_modrm b1 p remain iptr ilen o iptr' ilen' :
  0 <= b1 < 512 -> prefixes_ok p -> nth_error BxOpcodeHasModrm32 (Z.to_nat b1) = Some 1 -> b1 <> 0x138 -> b1 <> 0x13a ->
  decode_opcode b1 p remain iptr ilen = Fetched o iptr' ilen' ->
  exists m iptr1 ilen1, decode_modrm b1 (p_i p) remain iptr ilen = Fetched m iptr1 ilen1 /\
    o_seg o = m_seg m /\ o_i o = m_i m.
Proof.
  intros Hb1 (_ & Ho & _) Hm H1 H2. unfold decode_opcode. cbv zeta.
  destruct (nth_error BxOpcodeInfo32R (Z.to_nat (b1 + Z.shiftl (os_32 p) 9))) as [e|] eqn:He.
  2: { apply nth_error_None in He. pose proof (offset_range b1 (os_32 p) Hb1 Ho). change (length BxOpcodeInfo32R) with 1024%nat in He. lia. }
  unfold mbind at 1, Fetch_bind at 1. rewrite (entry_run _ _ _ _ _ _ He).
  unfold mbind at 1, Fetch_bind at 1. rewrite (entry_run _ _ _ _ _ _ Hm). change (nz 1) with true. cbv match.
  unfold mbind at 1, Fetch_bind at 1. rewrite (two_byte_entries b1 (os_32 p) e Hb1 Ho H1 H2 He). cbn [mret Fetch_ret].
  intros (m & iptr1 & ilen1 & E & (e1 & iptr2 & ilen2 & _ & ([attr e2] & iptr3 & ilen3 & _ & E3)%bind_inv)%bind_inv)%bind_inv.
  injection E3 as <- _ _. by exists m, iptr1, ilen1.
Qed.
Lemma modrm_determined b1 i nnn a remain rest ilen m iptr1 ilen1 :
  fresh_i i -> address_ok a -> 0 <= nnn < 8 -> Z.land b1 (Z.lnot 3) <> 0x120 -> nz (as32L i) = is_address32 a ->
  has_bytes 0 remain (encode_address nnn a ++ rest) ilen ->
  decode_modrm b1 i remain (encode_address nnn a ++ rest) ilen = Fetched m iptr1 ilen1 ->
  m_seg m = default_segment a /\ mem_operand (m_i m) /\ addresses (m_i m) a /\ i_nnn (m_i m) = nnn.
Proof.
  intros Hi Ha Hn Hb1 Has [Hr Hb] E.
  pose proof (decode_modrm_reads b1 i Hi remain _ ilen Hr Hb) as H. unfold reads_at in H. rewrite E in H.
  destruct H as (Hm & l & El & _ & Hk & Hl).
  set (remain' := Z.max ilen1 (ilen + Z.of_nat (length (encode_address nnn a)))).
  destruct (decode_modrm_encode b1 i nnn a remain' rest ilen Ha Hn Hb1 Has ltac:(lia)) as (b2 & mod_ & rm & i' & E' & Hmod & Hi' & Hnnn).
  specialize (Hl iptr1 remain' ltac:(lia)). rewrite <-El, E' in Hl. injection Hl as <- _ _.
  destruct Hm as (_ & _ & _ & _ & Hop). cbn [m_mod m_i m_seg] in *. replace (mod_ =? 0xc0) with false in Hop by lia.
  by destruct Hop as [Hop _].
Qed.

(** C10: memory operands round-trip.  Take any addressing mode (a 16-bit register
    pair, or a 32-bit base and scaled index, each with a displacement) and put its
    ModRM, SIB and displacement bytes after any opcode that has a ModRM byte, with
    any prefixes before it that select the address size.  If [fetchDecode32()]
    returns an instruction, its [nnn] is the one encoded, its segment register is
    the override or else SS for a base of (E)SP or (E)BP and DS otherwise, and the
    resolver the decoder chose computes the effective address of that mode. *)
Theorem operand_roundtrip d_b iptr i remainingInPage b1 p n1 nnn a rest i' rest' n :
  0 <= d_b <= 1 -> Forall is_byte iptr -> 1 <= remainingInPage <= Z.of_nat (length iptr) ->
  fetch_b1 d_b (no_prefixes d_b i) (if remainingInPage <? 15 then remainingInPage else 15) iptr 0 =
    Fetched (b1, p) (encode_address nnn a ++ rest) n1 ->
  nth_error BxOpcodeHasModrm32 (Z.to_nat b1) = Some 1 -> b1 <> 0x138 -> b1 <> 0x13a -> Z.land b1 (Z.lnot 3) <> 0x120 ->
  address_ok a -> 0 <= nnn < 8 -> nz (as32L (p_i p)) = is_address32 a ->
  fetchDecode32 d_b iptr i remainingInPage = Fetched i' rest' n ->
  i_nnn i' = nnn /\ i_seg i' = (if seg_override p =? BX_SEG_REG_NULL then default_segment a else seg_override p) /\
  forall s, reg BX_NIL_REGISTER s = 0 -> resolve i' s = Ret (effective_address a s) s.
Proof.
  intros Hd Hb Hr E Hm H1 H2 Hb1 Ha Hn Has (b1' & p' & iptr1 & n1' & o & iptr2 & n2 & j & E1 & E2 & E3 & ->)%decode_inv.
  rewrite E in E1. injection E1 as <- <- <- <-. pose proof (has_bytes_start iptr remainingInPage Hb Hr) as H0.
  pose proof (reads_inv _ _ _ _ _ _ _ _ _ _ (fetch_b1_reads d_b _ (no_prefixes_ok d_b i Hd)) H0 E) as [[Hr1 Hp] Hbytes].
  cbn [fst snd] in *. pose proof (reads_inv _ _ _ _ _ _ _ _ _ _ (decode_opcode_reads b1 p Hr1 Hp) Hbytes E2) as [(mem & Hl & _ & _ & _ & Ho) Hbytes2].
  destruct (opcode_modrm _ _ _ _ _ _ _ _ Hr1 Hp Hm H1 H2 E2) as (m & iptr3 & n3 & Em & Hseg & Hi).
  destruct (modrm_determined _ _ _ _ _ _ _ _ _ _ (proj1 Hp) Ha Hn Hb1 Has Hbytes Em) as (Hs & Hmem & Haddr & Hnnn).
  pose proof (reads_inv _ _ _ _ _ _ _ _ _ _ (immediate_keeps _ _) Hbytes2 E3) as [(Hj & Hjn & Hw) _].
  destruct mem; [|destruct Ho as [Ho _]; destruct Hmem as (_ & _ & Hmem); rewrite <-Hi, Ho in Hmem; done].
  unfold leaf_ok in Hl. rewrite !andb_true_iff in Hl. destruct Hl as [[_ Hdst%negb_true_iff] Himm]. cbn [andb] in Hdst.
  destruct Hw as [Hw|Hw]; [|exfalso; apply orb_true_iff in Himm as [Himm|[=]]; unfold case_in in Hw, Himm; cbn [existsb] in Hw, Himm;
    unfold BxImmediate_I1, BxImmediate_Ib, BxImmediate_Ib_SE, BxImmediate_Iw, BxImmediate_Id, BxImmediate_BrOff8, BxImmediate_O,
      BxImmediate_IwIb, BxImmediate_IwIw, BxImmediate_IdIw in *; lia].
  unfold finish. cbv zeta. rewrite Hdst. cbn [i_nnn i_seg setILen setIaOpcode setB1 setSeg]. split; [by rewrite Hjn, <-Hnnn, Hi|].
  split; [by rewrite Hseg, Hs|]. apply (addresses_ext j); [done|done|]. apply (addresses_ext (o_i o)); [exact Hj|exact Hw|].
  by rewrite Hi.
Qed.
(** MOV EDX, GS:[EBP+ESI*4-8]. *)
Definition gs_operand : address := Address32 (Some 5) (Some (6, 2)) (-8).
Lemma operand_roundtrip_witness :
  let iptr := [0x65; 0x8b] ++ encode_address 2 gs_operand in
  exists i', fetchDecode32 1 iptr blank_i 5 = Fetched i' [] 5 /\ iptr = [0x65; 0x8b; 0x54; 0xb5; 0xf8] /\
    i_nnn i' = 2 /\ i_seg i' = BX_SEG_REG_GS /\
    forall s, reg BX_NIL_REGISTER s = 0 -> resolve i' s = Ret (effective_address gs_operand s) s.
Proof.
  intros iptr. assert (Forall is_byte iptr) as Hb by (repeat constructor; done).
  destruct (fetchDecode32 1 iptr blank_i 5) as [i' rest n| |] eqn:E; [|vm_compute in E; discriminate E..].
  assert (rest = [] /\ n = 5) as [-> ->] by (vm_compute in E; by injection E).
  exists i'. split; [done|]. split; [reflexivity|].
  destruct (fetch_b1 1 (no_prefixes 1 blank_i) 5 iptr 0) as [[b1 p] l n1| |] eqn:E1; [|vm_compute in E1; discriminate E1..].
  assert (b1 = 0x8b /\ l = encode_address 2 gs_operand ++ [] /\ seg_override p = BX_SEG_REG_GS /\ nz (as32L (p_i p)) = true)
    as (-> & -> & Hs & Has) by (vm_compute in E1; by injection E1 as <- <- <- _).
  pose proof (operand_roundtrip 1 iptr blank_i 5 0x8b p n1 2 gs_operand [] i' [] 5) as H. rewrite Hs in H.
  apply H; try done; lia.
Defined.
