(* ===== verification/Handlers.v ===== *)
(** * Handlers: all of them together

    The tables of the instruction groups put together; sequences of handlers, as
    the execution loop of cpu/cpu.cc calls them; and CMP followed by SETcc. *)
From stdpp Require Import base numbers list gmap.
From Stdlib Require Import ZArith Lia.
From S2P Require Import Prelude Machine LazyFlags Memory Paging Access Regs Precise Reference Mode Segment SegLoad Stack FlagCtrl CtrlPro Exception Delivery Contract.
From S2P Require Import Arith Bcd Logical Mult ShiftSpec Shift Bit DataXfer Coherence Protect SysCtrl StringOps PortIO CtrlXfer FarXfer.

Local Open Scope Z_scope.

Definition register_table : list (handler * handler) :=
  arith_table ++ bcd_table ++ logical_table ++ mult_table ++ shift_table ++ bit_table ++ xfer_table ++
  indirect_table.

(** The handlers themselves, and behind a load of their operand. *)
Definition operand_table : list (handler * handler) := register_table ++ load_rows register_table.

Definition precise_table : list (handler * handler) :=
  operand_table ++ segment_table ++ selves plain_stack_handlers ++ eflags_table ++ string_table ++
  jump_table ++ selves bound_handlers ++ protect_table ++ sys_table ++ in_out_table ++ io_step_table.

(** The instructions that begin again after an exception, and all of them: a
    repeated string instruction goes on where it was, a far transfer may have
    loaded CS or switched tasks already. *)
Definition restart_table : list (handler * handler) :=
  operand_table ++ segment_table ++ selves stack_handlers ++ (eflags_table ++ popf_table) ++ string_table ++
  jump_table ++ call_table ++ selves bound_handlers ++ protect_table ++ sys_table ++ in_out_table ++ io_step_table.

Definition handler_table : list (handler * handler) := restart_table ++ rep_table ++ rep_io_table ++ far_table.

Lemma operand_implements : Forall implements operand_table.
Proof.
  assert (Forall implements register_table).
  { unfold register_table. rewrite !Forall_app. auto 10 using arith_implements, bcd_implements, logical_implements,
      mult_implements, shift_implements, bit_implements, xfer_implements, indirect_implements. }
  apply Forall_app_2; [done|by apply load_implements].
Qed.
Lemma operand_keeps_wf : Forall keeps_wf operand_table.
Proof.
  assert (Forall keeps_wf register_table).
  { unfold register_table. rewrite !Forall_app. auto 10 using arith_keeps_wf, bcd_keeps_wf, logical_keeps_wf,
      mult_keeps_wf, shift_keeps_wf, bit_keeps_wf, xfer_keeps_wf, indirect_keeps_wf. }
  apply Forall_app_2; [done|by apply load_keeps_wf].
Qed.
Lemma operand_is_precise : Forall is_precise operand_table.
Proof.
  assert (Forall is_precise register_table).
  { unfold register_table. rewrite !Forall_app. auto 10 using arith_is_precise, bcd_is_precise, logical_is_precise,
      mult_is_precise, shift_is_precise, bit_is_precise, xfer_is_precise, indirect_is_precise. }
  apply Forall_app_2; [done|by apply load_is_precise].
Qed.
Lemma operand_steady : Forall (fun p => forall i, steady (p.1 i)) operand_table.
Proof.
  assert (Forall steady_row operand_table) as Hs.
  { assert (Forall steady_row register_table).
    { unfold register_table. rewrite !Forall_app. auto 10 using arith_steady, bcd_steady, logical_steady,
        mult_steady, shift_steady, bit_steady, xfer_steady, indirect_steady. }
    apply Forall_app_2; [done|by apply load_steady]. }
  pose proof operand_implements as Hi. rewrite Forall_forall in Hs, Hi |- *.
  intros p Hp i. eapply refines_steady; [by apply Hi|by apply Hs].
Qed.
Lemma operand_contracts : Forall contract operand_table.
Proof. apply plain_contracts; [apply operand_implements|apply operand_keeps_wf|apply operand_steady]. Qed.
Lemma handler_contracts : Forall contract handler_table.
Proof.
  pose proof string_contracts as [Hs Hr]%Forall_app. pose proof io_contracts as [Hi [Hst Hri]%Forall_app]%Forall_app.
  apply Forall_app_2; [|apply Forall_app_2; [done|apply Forall_app_2; [done|apply far_contracts]]]. apply Forall_app_2; [apply operand_contracts|].
  apply Forall_app_2; [apply segment_contracts|]. apply Forall_app_2; [apply stack_contracts|].
  apply Forall_app_2; [apply eflags_contracts|]. apply Forall_app_2; [done|].
  apply Forall_app_2; [apply jump_contracts|]. apply Forall_app_2; [apply call_contracts|].
  apply Forall_app_2; [apply bound_contracts|]. apply Forall_app_2; [apply protect_contracts|].
  apply Forall_app_2; [apply sys_contracts|by apply Forall_app_2].
Qed.
Lemma row_contract p : p ∈ handler_table -> contract p.
Proof. intros Hp. pose proof handler_contracts as H. rewrite Forall_forall in H. by apply H. Qed.
Lemma restart_row p : p ∈ restart_table -> p ∈ handler_table.
Proof. intros Hp. unfold handler_table. rewrite elem_of_app. by left. Qed.
Lemma row_restarts p : p ∈ restart_table -> restarts p.
Proof.
  assert (Forall restarts restart_table) as H.
  { pose proof (plain_restarts _ operand_is_precise operand_steady).
    apply Forall_app_2; [done|]. apply Forall_app_2; [apply segment_restarts|].
    apply Forall_app_2; [apply stack_restarts|]. apply Forall_app_2; [apply eflags_restarts|].
    apply Forall_app_2; [apply string_restarts|]. apply Forall_app_2; [apply jump_restarts|].
    apply Forall_app_2; [apply call_restarts|].
    apply Forall_app_2; [apply bound_restarts|]. apply Forall_app_2; [apply protect_restarts|].
    apply Forall_app_2; [apply sys_restarts|apply io_restarts]. }
  rewrite Forall_forall in H. apply H.
Qed.

(** C24: every modelled handler keeps the machine well formed, whether it
    returns or raises an exception: eleven 32-bit registers, six segment
    registers whose access bits are justified by their descriptors, no TLB
    entries, and a pending-flags record that the flag getters can evaluate. *)
Theorem handlers_wf :
  Forall (fun p => forall i s, wf s ->
    match p.1 i s with Ret _ s' | Fault _ _ s' => wf s' | Crash => True end) handler_table.
Proof. eapply Forall_impl; [exact handler_contracts|]. intros p Hp i. apply (contract_wf _ Hp i). Qed.

(** Every modelled handler that does not move ESP speculatively raises its
    exceptions before it changes anything the program can see: the registers,
    the flags (pending ones included) and the selectors are those from before
    the instruction. *)
Theorem handlers_precise :
  Forall (fun p => forall i s v e s', p.1 i s = Fault v e s' -> arch s' = arch s) precise_table.
Proof.
  unfold precise_table. rewrite !Forall_app.
  pose proof (Forall_selves is_precise _ plain_stack_precise).
  pose proof in_out_is_precise as [Hio Hst]%Forall_app.
  auto 12 using operand_is_precise, segment_is_precise, eflags_precise, string_is_precise, jump_is_precise, bound_is_precise,
    protect_is_precise, sys_is_precise.
Qed.

(** Every modelled handler that completes leaves the cached processor
    mode, privilege, fetch size and alignment-check mask in agreement with what
    CR0, EFLAGS and CS say; one that raises an exception does so too, far
    transfers apart, which then leave at least the mode right. *)
Theorem handlers_coherent :
  Forall (fun p => forall i s, coherent s ->
    match p.1 i s with Ret _ s' => coherent s' | Fault _ _ s' => mode_known s' | Crash => True end) handler_table /\
  Forall (fun p => forall i s v e s', coherent s -> p.1 i s = Fault v e s' -> coherent s') (restart_table ++ rep_table ++ rep_io_table).
Proof.
  split; [eapply Forall_impl; [exact handler_contracts|]; intros p Hp i; apply (contract_coherent _ Hp i)|].
  assert (forall p : handler * handler, (forall i, preserves coherent (p.1 i)) ->
    forall i s v e s', coherent s -> p.1 i s = Fault v e s' -> coherent s') as Hf.
  { intros [h r] Hc i s v e s' Hs E. cbn [fst] in *. specialize (Hc i s Hs). by rewrite E in Hc. }
  apply Forall_app_2; [|apply Forall_app_2]; apply Forall_forall; intros p Hp; apply Hf.
  - apply restarts_coherent. by apply row_restarts.
  - pose proof rep_steady as Hr. rewrite Forall_forall in Hr. intros i. apply steady_coherent. exact (Hr p Hp i).
  - pose proof rep_io_steady as Hr. rewrite Forall_forall in Hr. intros i. apply steady_coherent. exact (Hr p Hp i).
Qed.

(** ** Sequences of instructions *)

Fixpoint exec (prog : list (handler * bxInstruction_c)) : Mach unit :=
  match prog with
  | [] => mret tt
  | (h, i) :: prog => h i;; exec prog
  end.

(** The handlers of a program, and the instructions they implement. *)
Definition row : Type := (handler * handler) * bxInstruction_c.
Definition emulated (prog : list row) : list (handler * bxInstruction_c) :=
  (fun x => (x.1.1, x.2)) <$> prog.
Definition specified (prog : list row) : list (handler * bxInstruction_c) :=
  (fun x => (x.1.2, x.2)) <$> prog.

Definition modelled (prog : list row) : Prop := Forall (fun x => x.1 ∈ handler_table) prog.
Definition unrepeated (prog : list row) : Prop := Forall (fun x => x.1 ∈ restart_table) prog.

Lemma exec_refines prog : modelled prog -> refines (exec (emulated prog)) (exec (specified prog)).
Proof.
  induction 1 as [|[[h r] i] l Hx _ IH]; cbn; [apply refines_ret|].
  apply refines_bind; [apply (contract_refines _ (row_contract _ Hx))|]. intros _. apply IH.
Qed.
Lemma exec_wf prog : modelled prog -> preserves wf (exec (emulated prog)).
Proof.
  induction 1 as [|[[h r] i] l Hx _ IH]; cbn; [apply preserves_ret|].
  apply preserves_bind; [apply (contract_wf _ (row_contract _ Hx))|]. intros _. apply IH.
Qed.

(** A sequence of handlers run with pending flags is the sequence of their
    instructions run on the architectural state: the same outcome and, nothing
    being lost or computed differently because it was postponed, the same
    architectural state; and the machine stays well formed throughout. *)
Theorem program_correct prog s :
  modelled prog ->
  omap_state norm (exec (emulated prog) s) = exec (specified prog) (norm s) /\
  (wf s -> match exec (emulated prog) s with Ret _ s' | Fault _ _ s' => wf s' | Crash => True end).
Proof. intros Hp. split; [by apply exec_refines|by apply exec_wf]. Qed.

(** If a sequence of handlers, repeated string instructions excepted, raises an exception, one instruction raised
    it, all instructions before completed, and once [exception()] has put back a
    speculative ESP, the registers, the flags and the selectors are those with
    which that instruction began. *)
Theorem program_precise prog s v e s' :
  unrepeated prog -> wf s -> speculative_rsp s = 0 -> exec (emulated prog) s = Fault v e s' ->
  exists done h i rest s0 s'', emulated prog = done ++ (h, i) :: rest /\
    exec done s = Ret tt s0 /\ h i s0 = Fault v e s' /\ restore_rsp s' = Ret tt s'' /\ arch s'' = arch s0.
Proof.
  intros Hp. revert s.
  induction Hp as [|[[h r] i] l Hx _ IH]; intros s Hw Hs H; [done|]. cbn in H. unfold mbind, M_bind in H.
  pose proof (row_contract _ (restart_row _ Hx)) as Hr. pose proof (contract_wf _ Hr i s Hw) as Hw1.
  pose proof (contract_commits _ Hr i s Hs) as Hc. cbn [fst] in Hw1, Hc.
  destruct (h i s) as [[] s1|v1 e1 s1|] eqn:E; [|apply Fault_inj in H as (-> & -> & ->)|done].
  - destruct (IH s1 Hw1 Hc H) as (pre & h' & i' & rest & s0 & s'' & El & Ed & Ef & Ea).
    exists ((h, i) :: pre), h', i', rest, s0, s''. split; [cbn; by f_equal|]. split; [|done].
    cbn. unfold mbind, M_bind. by rewrite E.
  - destruct (restarts_arch _ (row_restarts _ Hx) i s v e s' Hw Hs E) as (s'' & Er & Ea).
    by exists [], h, i, (emulated l), s, s''.
Qed.

(** ADD AL, 1; then DIV by ECX = 0, which raises #DE. *)
Definition demo_program : list row :=
  [(ADD_ALIb, ref_alu ADD 8 Acc Imm, demo_instruction 0x04 0 0 1);
   (DIV_EAXEdR, ref_div 32, demo_instruction 0xf7 0 1 0)].
Lemma demo_program_unrepeated : unrepeated demo_program.
Proof.
  assert ((ADD_ALIb, ref_alu ADD 8 Acc Imm) ∈ arith8_table) by row_tac.
  assert ((DIV_EAXEdR, ref_div 32) ∈ div_table) by row_tac.
  apply Forall_cons_2; [|apply Forall_cons_2; [|by apply Forall_nil]]; cbn [fst];
    unfold restart_table, operand_table, register_table, arith_table, mult_table; rewrite !elem_of_app; tauto.
Qed.
Lemma demo_program_modelled : modelled demo_program.
Proof. eapply Forall_impl; [apply demo_program_unrepeated|]. intros x. apply restart_row. Qed.
Lemma program_correct_witness :
  omap_state norm (exec (emulated demo_program) flat_machine) =
    exec (specified demo_program) (norm flat_machine).
Proof. apply (program_correct demo_program flat_machine), demo_program_modelled. Defined.
Lemma program_precise_witness :
  exists s', exec (emulated demo_program) flat_machine = Fault BX_DE_EXCEPTION 0 s' /\
    exists done h i rest s0 s'', emulated demo_program = done ++ (h, i) :: rest /\
      exec done flat_machine = Ret tt s0 /\ h i s0 = Fault BX_DE_EXCEPTION 0 s' /\
      restore_rsp s' = Ret tt s'' /\ arch s'' = arch s0.
Proof.
  destruct (exec (emulated demo_program) flat_machine) as [|v e s'|] eqn:E;
    [vm_compute in E; discriminate E| |vm_compute in E; discriminate E].
  assert (v = BX_DE_EXCEPTION /\ e = 0) as [-> ->] by (vm_compute in E; injection E as <- <- _; done).
  exists s'. split; [done|].
  apply (program_precise demo_program); [apply demo_program_unrepeated|apply flat_machine_wf|reflexivity|exact E].
Defined.

(** ** CMP and the conditions *)

Lemma condition_ext cc fl fl' : (forall f, fl f = fl' f) -> condition cc fl = condition cc fl'.
Proof. intros H. unfold condition. by rewrite !H. Qed.

(** The relations the condition codes test after a comparison. *)
Definition compare_table : list (handler * (Z * (Z -> Z -> bool))) :=
  [ (SETB_EbR, (2, Z.ltb)); (SETNB_EbR, (3, fun a b => negb (a <? b)));
    (SETZ_EbR, (4, Z.eqb)); (SETNZ_EbR, (5, fun a b => negb (a =? b)));
    (SETBE_EbR, (6, Z.leb)); (SETNBE_EbR, (7, fun a b => negb (a <=? b)));
    (SETL_EbR, (12, fun a b => s32 a <? s32 b)); (SETNL_EbR, (13, fun a b => negb (s32 a <? s32 b)));
    (SETLE_EbR, (14, fun a b => s32 a <=? s32 b)); (SETNLE_EbR, (15, fun a b => negb (s32 a <=? s32 b))) ].

Section Compare.
Context (a b : Z) (Ha : 0 <= a < 2 ^ 32) (Hb : 0 <= b < 2 ^ 32).
Let fl := sub_flags 32 a b 0.

Lemma compare_ZF : fl ZF = (a =? b).
Proof. unfold fl, sub_flags, result_flags. rewrite Z.sub_0_r. by apply wrap_sub_eqb. Qed.
Lemma compare_CF : fl CF = (a <? b).
Proof. unfold fl, sub_flags, result_flags. by rewrite Z.add_0_r. Qed.
Lemma compare_signed : xorb (fl SF) (fl OF) = (s32 a <? s32 b).
Proof.
  unfold fl, sub_flags, result_flags, fits_signed. rewrite !Z.sub_0_r, wrap_sub_cases by lia.
  rewrite !swrap_unsigned by lia. change (2 ^ (32 - 1)) with 2147483648.
  change (2 ^ 32) with 4294967296 in *. zcases.
Qed.
Lemma compare_le : (a <? b) || (a =? b) = (a <=? b).
Proof. zcases. Qed.
Lemma compare_signed_le : (a =? b) || (s32 a <? s32 b) = (s32 a <=? s32 b).
Proof.
  rewrite !swrap_unsigned by lia. change (2 ^ (32 - 1)) with 2147483648.
  change (2 ^ 32) with 4294967296 in *. zcases.
Qed.

Lemma compare_conditions :
  Forall (fun p : handler * (Z * (Z -> Z -> bool)) => condition p.2.1 fl = p.2.2 a b) compare_table.
Proof.
  repeat apply Forall_cons_2; try (by apply Forall_nil); unfold condition; cbn -[swrap fl];
    rewrite ?compare_ZF, ?compare_CF, ?compare_signed, ?compare_le, ?compare_signed_le; by rewrite ?xorb_false_r, ?xorb_true_r.
Qed.
End Compare.

Lemma compare_rows :
  Forall (fun p : handler * (Z * (Z -> Z -> bool)) => implements (p.1, ref_setcc p.2.1 (Reg i_rm)))
    compare_table.
Proof.
  pose proof setcc_implements as HF. rewrite Forall_forall in HF.
  repeat apply Forall_cons_2; try (by apply Forall_nil); cbn [fst snd]; apply HF; row_tac.
Qed.
Lemma CMP_GdEdR_implements : implements (CMP_GdEdR, ref_alu CMP 32 (Reg i_nnn) (Reg i_rm)).
Proof.
  pose proof arith32_implements as HF. rewrite Forall_forall in HF. apply HF. row_tac.
Qed.

Definition final {A} (m : Mach A) (s : machine) : machine :=
  match m s with Ret _ s' | Fault _ _ s' => s' | Crash => s end.

Lemma compare_set_regs h cc i j s :
  implements (h, ref_setcc cc (Reg i_rm)) ->
  let a := erx (reg (i_nnn i) s) in
  let b := erx (reg (i_rm i) s) in
  exists s', (CMP_GdEdR i;; h j) s = Ret tt s' /\
    gen_reg s' =
    gen_reg (final (BX_WRITE_8BIT_REGx (i_rm j) (Z.b2z (condition cc (sub_flags 32 a b 0)))) s).
Proof.
  intros Hh a b.
  assert (refines (CMP_GdEdR i;; h j)
    (ref_alu CMP 32 (Reg i_nnn) (Reg i_rm) i;; ref_setcc cc (Reg i_rm) j)) as H
    by (apply refines_bind; [apply CMP_GdEdR_implements|intros _; apply Hh]).
  specialize (H s). set (t := with_eflags (put_flags (sub_flags 32 a b 0) (eflags (norm s))) (norm s)).
  change (omap_state norm ((CMP_GdEdR i;; h j) s) =
    BX_WRITE_8BIT_REGx (i_rm j) (Z.b2z (condition cc (flags_of t))) t) in H.
  rewrite (condition_ext cc _ (sub_flags 32 a b 0)) in H.
  2: { intros f. unfold flags_of. rewrite flag_spec. unfold t, norm. msimpl.
       by rewrite Z.testbit_0_l, testbit_put_flags_flag. }
  destruct ((CMP_GdEdR i;; h j) s) as [[] s'|v e s'|];
    unfold BX_WRITE_8BIT_REGx, final in *; destruct (nz (Z.land (i_rm j) 4)); try done;
    apply Ret_inj in H as [_ H]; exists s'; (split; [done|]);
    change (gen_reg s') with (gen_reg (norm s')); rewrite H; reflexivity.
Qed.

(** C37: CMP of two 32-bit registers followed by SETB, SETNB, SETZ, SETNZ, SETBE,
    SETNBE, SETL, SETNL, SETLE or SETNLE stores one exactly when the operands
    are so related as unsigned or as signed numbers, and changes no other
    register; from any state, the flags never being materialised in between. *)
Theorem compare_and_set :
  Forall (fun p : handler * (Z * (Z -> Z -> bool)) => forall i j s,
    let a := erx (reg (i_nnn i) s) in
    let b := erx (reg (i_rm i) s) in
    exists s', (CMP_GdEdR i;; p.1 j) s = Ret tt s' /\
      gen_reg s' = gen_reg (final (BX_WRITE_8BIT_REGx (i_rm j) (Z.b2z (p.2.2 a b))) s))
    compare_table.
Proof.
  pose proof compare_rows as HR. rewrite Forall_forall in HR. apply Forall_forall.
  intros p Hp i j s a b. pose proof (compare_conditions a b) as HC.
  rewrite Forall_forall in HC. rewrite <-(HC ltac:(by apply wrap_range) ltac:(by apply wrap_range) p Hp).
  by apply compare_set_regs, HR.
Qed.
