(* ===== verification/Seal.v ===== *)
(** * Seal: a program below ring 0 does not change the system registers

    Outside real mode, a handler that runs at a privilege level other than 0
    leaves CR0, CR3, CR4, the descriptor-table registers, LDTR, TR, the debug
    registers and the activity state as they are, however it ends.  Far transfers
    are the exception: they may switch tasks, or reach ring 0 through a gate,
    which is the subject of Rings. *)
From stdpp Require Import base numbers list gmap.
From Stdlib Require Import ZArith Lia.
From S2P Require Import Prelude Machine LazyFlags Memory Paging Access Regs Precise Reference Mode Segment SegLoad Frame.
From S2P Require Import Stack FlagCtrl CtrlPro Exception Delivery Contract DataXfer Coherence Protect SysCtrl StringOps PortIO.
From S2P Require Import CtrlXfer FarXfer Handlers.

Local Open Scope Z_scope.

Definition sealed (s : machine) := (cr0 s, cr4 s, sysregs s).
Definition unprivileged (s : machine) : bool := negb (real_mode s) && negb (CPL s =? 0).
(** [m] leaves them alone when it is run below ring 0. *)
Definition seals (m : Mach unit) : Prop :=
  forall s, unprivileged s = true ->
  match m s with Ret _ s' | Fault _ _ s' => sealed s' = sealed s | Crash => True end.

Definition row_seals (p : handler * handler) : Prop := forall i, seals (p.1 i).

#[export] Instance sealed_Frame x : Frame (fun s => sealed s = x).
Proof. frame_tac. Qed.
Lemma control_sealed s s' : control s' = control s -> sealed s' = sealed s.
Proof. unfold control, sealed. rewrite !pair_equal_spec. by intros [[[[[[[[_ _] ->] ->] _] _] _] _] ->]. Qed.
Lemma steady_sealed {A} (m : Mach A) x : steady m -> preserves (fun s => sealed s = x) m.
Proof. intros Hm s <-. specialize (Hm s). destruct (m s); [by apply control_sealed..|done]. Qed.
Lemma preserves_seals (m : Mach unit) : (forall x, preserves (fun s => sealed s = x) m) -> seals m.
Proof. intros Hm s _. apply (Hm (sealed s) s eq_refl). Qed.
Lemma steady_seals (m : Mach unit) : steady m -> seals m.
Proof. intros Hm. apply preserves_seals. intros x. by apply steady_sealed. Qed.
(** What a privileged instruction does first. *)
Lemma privileged_refuses s : unprivileged s = true -> privileged s = Fault BX_GP_EXCEPTION 0 s.
Proof.
  unfold unprivileged, privileged. intros [H1 H2]%andb_true_iff. unfold gets, mbind, M_bind.
  by rewrite H1, H2.
Qed.
Lemma privileged_seals (m : Mach unit) : seals (privileged;; m).
Proof. intros s Hs. unfold mbind, M_bind. by rewrite privileged_refuses. Qed.

Ltac sealed_walk :=
  repeat match goal with
  | |- preserves _ (when _ _) => apply preserves_when
  | |- _ => frame_step
  | |- preserves _ _ => apply steady_sealed; unfold_widths; solve [steady_tac]
  end.
(** Most handlers change none of them at any privilege. *)
Definition keeps_sealed (p : handler * handler) : Prop := forall i x, preserves (fun s => sealed s = x) (p.1 i).
Lemma steady_keeps_sealed (T : list (handler * handler)) :
  Forall (fun p => forall i, steady (p.1 i)) T -> Forall keeps_sealed T.
Proof. intros H. eapply Forall_impl; [exact H|]. intros p Hp i x. apply steady_sealed, Hp. Qed.
Lemma speculative_sealed : Forall keeps_sealed (selves speculative_handlers).
Proof.
  apply Forall_selves. table_tac ltac:(intros i x; cbn [fst]; match goal with |- preserves _ (?h _) => unfold h end;
    unfold RSP_SPECULATIVE, RSP_COMMIT, SS_d_b; sealed_walk).
Qed.
Lemma writeEFlags_sealed flags mask x : preserves (fun s => sealed s = x) (writeEFlags flags mask).
Proof.
  unfold writeEFlags, setEFlags, handleAlignmentCheck, handleCpuModeChange, updateFetchModeMask. frame_walk.
Qed.
#[local] Hint Resolve writeEFlags_sealed : frame.
Lemma popf_sealed : Forall keeps_sealed popf_table.
Proof.
  table_tac ltac:(intros i x; cbn [fst]; unfold POPF_Fw, POPF_Fd, RSP_SPECULATIVE, RSP_COMMIT; sealed_walk).
Qed.
Lemma call_sealed : Forall keeps_sealed call_table.
Proof.
  assert (Forall keeps_sealed (selves call_handlers)) as H.
  { apply Forall_selves. table_tac ltac:(call_unfold; unfold RSP_SPECULATIVE; intros x; sealed_walk). }
  apply Forall_app_2; [done|]. apply loaded_calls in H.
  unfold load_rows. rewrite !Forall_app, !Forall_fmap.
  split_and!; (eapply Forall_impl; [exact H|]); intros [h r] Hp; load_unfold; intros x; sealed_walk; apply (Hp i x).
Qed.

(** The instructions that load a system register. *)
Lemma protected_refuses (m : Mach unit) :
  seals (protected ← gets protected_mode; when (negb protected) (exception BX_UD_EXCEPTION 0);;
         cpl ← gets CPL; when (negb (cpl =? 0)) (exception BX_GP_EXCEPTION 0);; m).
Proof.
  intros s [_ H]%andb_true_iff. unfold gets, mbind, M_bind. destruct (protected_mode s); [|done].
  cbn [negb when]. unfold mret, M_ret. by rewrite H.
Qed.
Lemma table_load_refuses (m : Mach unit) :
  seals (v86 ← gets v8086_mode; when v86 (exception BX_GP_EXCEPTION 0);;
         real ← gets real_mode; cpl ← gets CPL;
         when (negb real && negb (cpl =? 0)) (exception BX_GP_EXCEPTION 0);; m).
Proof.
  intros s H. unfold unprivileged in H. unfold gets, mbind, M_bind. destruct (v8086_mode s); [done|].
  cbn [negb when]. unfold mret, M_ret. by rewrite H.
Qed.
Lemma protect_seals : Forall row_seals protect_table.
Proof.
  repeat apply Forall_app_2; table_tac ltac:(intros i; cbn [fst];
    lazymatch goal with
    | |- seals (LLDT_Ew _) => apply protected_refuses
    | |- seals (LTR_Ew _) => apply protected_refuses
    | |- seals (LGDT_Ms _) => apply table_load_refuses
    | |- seals (LIDT_Ms _) => apply table_load_refuses
    | |- _ => apply steady_seals; protect_unfold; steady_tac
    end).
Qed.
Lemma debug_seals i (m : Mach unit) : seals (debug_access i;; privileged;; m).
Proof.
  intros s Hs.
  assert (debug_access i s = Ret tt s \/
    exists v e s', debug_access i s = Fault v e s' /\ sealed s' = sealed s) as [E|(v & e & s' & E & Hf)].
  { unfold debug_access, gets, mbind, M_bind. destruct (_ && _); [right; by eexists _, _, _|].
    cbn [when]. unfold mret, M_ret. destruct (nz (Z.land (dr7 s) _)); [right; by eexists _, _, _|by left]. }
  - unfold mbind, M_bind. by rewrite E, privileged_refuses.
  - unfold mbind, M_bind. by rewrite E.
Qed.
Lemma sys_seals : Forall row_seals sys_table.
Proof.
  apply Forall_app_2; [|apply Forall_app_2].
  - eapply Forall_impl; [apply plain_sys_steady|]. intros p Hp i. apply steady_seals, Hp.
  - table_tac ltac:(intros i; cbn [fst];
      lazymatch goal with
      | |- seals (MOV_DdRd _) => apply debug_seals
      | |- seals (HLT _) => apply privileged_seals
      end).
  - table_tac ltac:(intros i; apply privileged_seals).
Qed.

(** The instructions that have nothing to do with the system registers, and all but
    the far transfers. *)
Definition ordinary_table : list (handler * handler) :=
  operand_table ++ segment_table ++ selves stack_handlers ++ (eflags_table ++ popf_table) ++ string_table ++
  jump_table ++ call_table ++ selves bound_handlers ++ in_out_table ++ io_step_table ++ rep_table ++ rep_io_table.
Lemma by_group (P : handler * handler -> Prop) :
  Forall P ordinary_table -> Forall P protect_table -> Forall P sys_table ->
  Forall P (restart_table ++ rep_table ++ rep_io_table).
Proof. unfold ordinary_table, restart_table. rewrite !Forall_app. tauto. Qed.
Lemma ordinary_sealed : Forall keeps_sealed ordinary_table.
Proof.
  pose proof (steady_keeps_sealed _ in_out_steady) as [Hio Hst]%Forall_app.
  assert (Forall keeps_sealed (selves stack_handlers)) as Hs.
  { unfold selves, stack_handlers. rewrite fmap_app. apply Forall_app_2; [|apply speculative_sealed].
    apply steady_keeps_sealed, Forall_selves, plain_stack_steady. }
  unfold ordinary_table. rewrite !Forall_app.
  auto 20 using steady_keeps_sealed, operand_steady, segment_steady, eflags_steady, popf_sealed, string_steady, jump_steady,
    call_sealed, bound_steady, rep_steady, rep_io_steady.
Qed.

