(* ===== verification/Cpu.v ===== *)
(** * Cpu: the decode loop

    One turn of the loop of cpu/cpu.cc around any modelled handler, exceptions
    and their delivery included, and sequences of turns. *)
From stdpp Require Import base numbers list gmap.
From Stdlib Require Import ZArith Lia.
From S2P Require Import Prelude Opcodes Machine LazyFlags Memory Paging Access Regs Precise Reference Mode Segment SegLoad Frame Stack FlagCtrl CtrlPro Exception Delivery Contract.
From S2P Require Import Arith Logical Mult ShiftSpec Shift Bit DataXfer Coherence StringOps CtrlXfer FarXfer Handlers.

Local Open Scope Z_scope.

(** ** One turn *)

(** What holds at the head of the loop. *)
Definition cpu_ok (s : machine) : Prop :=
  wf s /\ coherent s /\ errorno s = 0 /\ speculative_rsp s = 0 /\ prev_rip s = u32 (reg BX_32BIT_REG_EIP s).

(** EIP past the instruction, and the handler. *)
Definition step_body (h : handler) (i : bxInstruction_c) (ilen : Z) : Mach unit :=
  eip ← EIP; set_EIP (eip + ilen);; h i;; eip ← EIP; modify (with_prev_rip eip).

Definition advance (ilen : Z) (s : machine) : machine :=
  set_reg BX_32BIT_REG_EIP (u32 (u32 (reg BX_32BIT_REG_EIP s) + ilen)) s.

Lemma step_body_eq h i ilen s :
  step_body h i ilen s =
    match h i (advance ilen s) with
    | Ret _ s' => Ret tt (with_prev_rip (u32 (reg BX_32BIT_REG_EIP s')) s')
    | Fault v e s' => Fault v e s'
    | Crash => Crash
    end.
Proof. reflexivity. Qed.

Lemma advance_ok ilen s : wf s -> wf (advance ilen s).
Proof. intros Hw. apply set_reg_wf; [|done]. apply wrap_range. lia. Qed.

Section Turn.
Context (p : handler * handler) (Hp : contract p) (i : bxInstruction_c) (ilen : Z).

(** The turn on the pending flags is the turn on the architectural state. *)
Lemma step_refines fuel s :
  cpu_step fuel p.2 i ilen (norm s) = map_delivery norm <$> cpu_step fuel p.1 i ilen s.
Proof.
  assert (refines (step_body p.1 i ilen) (step_body p.2 i ilen)) as H.
  { pose proof (contract_refines _ Hp i). unfold step_body, EIP, set_EIP. unfold_widths. refines_tac. }
  specialize (H s). unfold cpu_step. fold (step_body p.1 i ilen) (step_body p.2 i ilen). rewrite <-H.
  destruct (step_body p.1 i ilen s) as [[] s1|v e s1|]; cbn [omap_state]; [done| |done].
  rewrite exception_loop_norm. by destruct (exception_loop fuel v e s1) as [[]|].
Qed.

(** A handler that returns, or faults, hands on what the loop needs. *)
Lemma step_body_ok s :
  cpu_ok s ->
  match step_body p.1 i ilen s with
  | Ret _ s' => cpu_ok s'
  | Fault _ _ s' => wf s' /\ mode_known s' /\ errorno s' = 0
  | Crash => True
  end.
Proof.
  intros (Hw & Hc & He & Hs & Hr). rewrite step_body_eq. apply (advance_ok ilen) in Hw.
  pose proof (contract_wf _ Hp i _ Hw) as H1.
  pose proof (contract_coherent _ Hp i (advance ilen s) Hc) as H2.
  pose proof (contract_commits _ Hp i (advance ilen s) Hs) as H3.
  pose proof (contract_nesting _ Hp i _ (advance ilen s) eq_refl) as H4.
  destruct (p.1 i (advance ilen s)) as [[] s'|v e s'|]; [| |done];
    unfold nesting in H4; apply pair_equal_spec in H4 as [H4 _].
  - split_and!; try done. by rewrite <-He.
  - split_and!; try done. by rewrite <-He.
Qed.

(** Every turn ends, and leaves the machine ready for the next one. *)
Definition next_ok (d : delivery) : Prop :=
  match d with
  | Delivered s' => cpu_ok s'
  | TripleFault s' => wf s'
  | Aborted => True
  | OutOfBounds => False
  end.
Lemma step_ok s :
  cpu_ok s -> exists d, (forall fuel, (5 <= fuel)%nat -> cpu_step fuel p.1 i ilen s = Some d) /\ next_ok d.
Proof.
  intros Hok. pose proof (step_body_ok s Hok) as H. unfold cpu_step. fold (step_body p.1 i ilen).
  destruct (step_body p.1 i ilen s) as [[] s1|v e s1|]; [by exists (Delivered s1)| |by exists Aborted].
  destruct H as (Hw & Hc & He). destruct (exception_ends v e s1 ltac:(lia)) as [d Hd].
  pose proof (exception_loop_settles 5 v e s1 d Hw Hc Hd) as Hset.
  assert (d <> OutOfBounds) as Hb by (intros ->; revert Hd; apply in_bounds; split; lia).
  exists (match d with Delivered s => Delivered (loop_head s) | d => d end). split.
  - intros fuel Hf. rewrite (exception_more_fuel 5 fuel v e s1 d) by done. by destruct d.
  - destruct d as [s2|s2| |]; try done. by destruct Hset as (? & ? & ? & ?).
Qed.
End Turn.

(** ** Restarting *)

Lemma restore_rip_rsp_arch s s' :
  restore_rsp s = Ret tt s' ->
  exists s'', restore_rip_rsp s = Ret tt s'' /\
    arch s'' = (<[8%nat := u32 (prev_rip s)]> (take 9 (gen_reg s')), eflags (norm s'), selector <$> sregs s').
Proof.
  unfold restore_rip_rsp, restore_rsp. rewrite !(bind_gets prev_rip), !(bind_gets speculative_rsp).
  unfold set_EIP, BX_WRITE_32BIT_REGZ. rewrite bind_modify, (bind_gets speculative_rsp).
  change (speculative_rsp (set_reg BX_32BIT_REG_EIP _ s)) with (speculative_rsp s).
  destruct (nz (speculative_rsp s)); cbn [when].
  - unfold set_ESP. rewrite !(bind_gets prev_rsp). unfold BX_WRITE_32BIT_REGZ, modify.
    intros [_ <-]%Ret_inj. eexists. split; [reflexivity|]. unfold arch, set_reg. msimpl.
    change (Z.to_nat BX_32BIT_REG_EIP) with 8%nat. change (Z.to_nat 4) with 4%nat.
    by rewrite !take_insert_lt, list_insert_insert_ne by lia.
  - intros [_ <-]%Ret_inj. eexists. split; [reflexivity|]. unfold arch, set_reg. msimpl.
    change (Z.to_nat BX_32BIT_REG_EIP) with 8%nat. by rewrite take_insert_lt by lia.
Qed.
Lemma assert_RF_arch s :
  match assert_RF s with
  | Ret _ s' => arch s' = (take 9 (gen_reg s), Z.lor (eflags (norm s)) EFlagsRFMask, selector <$> sregs s)
  | _ => False
  end.
Proof.
  pose proof (assert_eflag_refines 16 ltac:(lia) ltac:(by intros []) (with_async_event 1 s)) as H.
  unfold assert_RF, assert_eflag_async. rewrite bind_modify. unfold assert_eflag, modify in *.
  cbn [omap_state] in H. apply Ret_inj in H as [_ H]. unfold arch. rewrite H. reflexivity.
Qed.

(** The registers and the selectors of [s], and its flags with RF set (for any
    vector but #DB). *)
Definition fault_arch (v : Z) (s : machine) : list Z * Z * list bx_selector_t :=
  (take 9 (gen_reg s),
   if v =? BX_DB_EXCEPTION then eflags (norm s) else Z.lor (eflags (norm s)) EFlagsRFMask,
   selector <$> sregs s).

Lemma prologue_arch v s s' :
  restore_rip_rsp s = Ret tt s' ->
  exists s'', exception_prologue v BX_EXCEPTION_CLASS_FAULT s = Ret tt s'' /\ arch s'' = fault_arch v s'.
Proof.
  intros H. unfold exception_prologue, fault_arch. cbn [Z.eqb BX_EXCEPTION_CLASS_FAULT Pos.eqb when].
  unfold mbind, M_bind. rewrite H. destruct (v =? BX_DB_EXCEPTION); cbn [negb when].
  - unfold mret, M_ret, modify. eexists. by split.
  - pose proof (assert_RF_arch s') as HR. destruct (assert_RF s') as [[] s1|? ? ?|]; [|done|done].
    unfold mret, M_ret, modify. eexists. split; [reflexivity|]. exact HR.
Qed.

Lemma advance_arch ilen s :
  wf s -> <[8%nat := u32 (u32 (reg BX_32BIT_REG_EIP s))]> (take 9 (gen_reg (advance ilen s))) = take 9 (gen_reg s).
Proof.
  intros [[Hl Hf] _]. unfold advance, set_reg. msimpl. change (Z.to_nat BX_32BIT_REG_EIP) with 8%nat.
  rewrite take_insert_lt by lia. rewrite list_insert_insert_eq.
  apply list_insert_id. rewrite lookup_take_lt by lia.
  destruct (lookup_lt_is_Some_2 (gen_reg s) 8 ltac:(lia)) as [x Hx].
  unfold reg. change (Z.to_nat BX_32BIT_REG_EIP) with 8%nat. rewrite (nth_lookup_Some _ _ _ _ Hx).
  eapply Forall_lookup_1 in Hf; [|exact Hx]. rewrite (wrap_small 32 x Hf). by rewrite wrap_small.
Qed.
(** EIP back at the instruction. *)
Definition rewind (rip : Z) (s : machine) : machine := set_reg BX_32BIT_REG_EIP (u32 rip) s.

Lemma delivery_arch v s0 s1 s3 :
  restore_rsp s1 = Ret tt s3 -> arch s3 = arch s0 ->
  exists s2, exception_prologue v BX_EXCEPTION_CLASS_FAULT s1 = Ret tt s2 /\
    arch s2 = fault_arch v (rewind (prev_rip s1) s0).
Proof.
  intros Hr3 Ha3. destruct (restore_rip_rsp_arch s1 s3 Hr3) as (s4 & Hr4 & Ha4).
  destruct (prologue_arch v s1 s4 Hr4) as (s2 & Hr2 & Ha2). exists s2. split; [done|]. rewrite Ha2.
  unfold arch in Ha3, Ha4. rewrite !pair_equal_spec in Ha3. rewrite !pair_equal_spec in Ha4.
  destruct Ha3 as [[G3 F3] S3], Ha4 as [[G4 F4] S4]. unfold fault_arch. rewrite G4, F4, S4, G3, F3, S3.
  unfold rewind, set_reg. msimpl. change (Z.to_nat BX_32BIT_REG_EIP) with 8%nat. by rewrite take_insert_lt by lia.
Qed.
Lemma rewind_advance v ilen s :
  wf s -> fault_arch v (rewind (u32 (reg BX_32BIT_REG_EIP s)) (advance ilen s)) = fault_arch v s.
Proof.
  intros Hw. pose proof (advance_arch ilen s Hw) as H. unfold fault_arch, rewind. unfold set_reg at 1. msimpl.
  change (Z.to_nat BX_32BIT_REG_EIP) with 8%nat. rewrite take_insert_lt, H by lia. done.
Qed.
Lemma step_fault (p : handler * handler) i ilen s v e s1 :
  (forall i, keeps_pending (p.1 i)) -> cpu_ok s -> step_body p.1 i ilen s = Fault v e s1 ->
  p.1 i (advance ilen s) = Fault v e s1 /\ wf (advance ilen s) /\ prev_rip s1 = u32 (reg BX_32BIT_REG_EIP s).
Proof.
  intros Hp (Hw & Hc & He & Hs & Hr). rewrite step_body_eq.
  pose proof (Hp i _ (advance ilen s) eq_refl) as H4.
  destruct (p.1 i (advance ilen s)) as [|v' e' s'|] eqn:E; [done| |done].
  intros (-> & -> & ->)%Fault_inj. unfold pending in H4. rewrite !pair_equal_spec in H4. destruct H4 as [_ H4].
  split_and!; [done|by apply advance_ok|]. rewrite H4. exact Hr.
Qed.
Lemma step_restarts p i ilen s v e s1 :
  restarts p -> cpu_ok s -> step_body p.1 i ilen s = Fault v e s1 ->
  exists s2, exception_prologue v BX_EXCEPTION_CLASS_FAULT s1 = Ret tt s2 /\ arch s2 = fault_arch v s.
Proof.
  intros Hre Hok Hf. destruct (step_fault p i ilen s v e s1 (restarts_pending _ Hre) Hok Hf) as (E & Hw & Hr).
  destruct Hok as (Hw0 & _ & _ & Hs & _). destruct (restarts_arch _ Hre i _ v e s1 Hw Hs E) as (s3 & Hr3 & Ha3).
  destruct (delivery_arch v _ _ _ Hr3 Ha3) as (s2 & H2 & A2). exists s2. split; [done|].
  by rewrite A2, Hr, rewind_advance.
Qed.


(** C18: an exception of class fault in a repeated string instruction resumes
    where it was.  The state from which [exception()] delivers it is, for the
    program, that after some whole iterations and before the one that faulted
    (index registers, count, flags and the bytes moved agree), with EIP back at
    the instruction and RF added. *)
Theorem rep_fault_resumes p i ilen s v e s1 :
  p ∈ rep_table -> cpu_ok s -> step_body p.1 i ilen s = Fault v e s1 ->
  exists h r stop k s0 s2, (h, r) ∈ string_table /\ rep_turns i stop h k (advance ilen s) s0 /\
    h i s0 = Fault v e s1 /\
    exception_prologue v BX_EXCEPTION_CLASS_FAULT s1 = Ret tt s2 /\
    arch s2 = fault_arch v (rewind (u32 (reg BX_32BIT_REG_EIP s)) s0).
Proof.
  intros Hp Hok Hf. pose proof rep_steady as Hrs. rewrite Forall_forall in Hrs.
  assert (forall i, steady (p.1 i)) as Hst1 by exact (Hrs p Hp).
  destruct (step_fault p i ilen s v e s1 (fun i => steady_pending _ (Hst1 i)) Hok Hf) as (E & Hw & Hr).
  destruct (rep_faults p i _ v e s1 Hp Hw E) as (h & r & stop & k & s0 & Hs & Ht & Hf0).
  pose proof (string_row _ Hs) as (_ & _ & Hpr & Hst & _).
  assert (speculative_rsp s1 = 0) as Hsp.
  { specialize (Hst1 i (advance ilen s)). rewrite E in Hst1. apply control_rsp in Hst1 as [-> _]. by destruct Hok as (_ & _ & _ & ? & _). }
  assert (restore_rsp s1 = Ret tt s1) as Hr1.
  { unfold restore_rsp. by rewrite (bind_gets speculative_rsp), Hsp. }
  destruct (delivery_arch v s0 s1 s1 Hr1 (Hpr i s0 v e s1 Hf0)) as (s2 & H2 & A2).
  exists h, r, stop, k, s0, s2. split_and!; [done|done|done|done|]. by rewrite A2, Hr.
Qed.

(** ** Sequences of turns *)

Fixpoint cpu_run (fuel : nat) (prog : list (handler * bxInstruction_c * Z)) (s : machine) : option delivery :=
  match prog with
  | [] => Some (Delivered s)
  | (h, i, ilen) :: prog =>
      match cpu_step fuel h i ilen s with
      | Some (Delivered s) => cpu_run fuel prog s
      | o => o
      end
  end.

(** A row of the table, the instruction and its length, one for each turn. *)
Definition turn : Type := (handler * handler) * bxInstruction_c * Z.
Definition emulated_turns (prog : list turn) : list (handler * bxInstruction_c * Z) :=
  (fun x => (x.1.1.1, x.1.2, x.2)) <$> prog.
Definition specified_turns (prog : list turn) : list (handler * bxInstruction_c * Z) :=
  (fun x => (x.1.1.2, x.1.2, x.2)) <$> prog.

Lemma run_ends prog s :
  Forall (fun x : turn => x.1.1 ∈ handler_table) prog -> cpu_ok s ->
  exists d, next_ok d /\ forall fuel, (5 <= fuel)%nat -> cpu_run fuel (emulated_turns prog) s = Some d.
Proof.
  intros Hp. revert s. induction Hp as [|[[p i] ilen] prog Hx _ IH]; intros s Hs.
  { by exists (Delivered s). }
  apply row_contract in Hx. destruct (step_ok p Hx i ilen s Hs) as (d & Hd & Hok).
  destruct d as [s1|s1| |]; [|eexists; split; [exact Hok|]; intros fuel Hf; cbn; by rewrite (Hd fuel Hf)..].
  destruct (IH s1 Hok) as (d & Hok' & Hd'). exists d. split; [done|]. intros fuel Hf. cbn.
  rewrite (Hd fuel Hf). by apply Hd'.
Qed.
Lemma run_refines prog fuel s :
  Forall (fun x : turn => x.1.1 ∈ handler_table) prog ->
  cpu_run fuel (specified_turns prog) (norm s) = map_delivery norm <$> cpu_run fuel (emulated_turns prog) s.
Proof.
  intros Hp. revert s. induction Hp as [|[[p i] ilen] prog Hx _ IH]; intros s; [done|]. cbn.
  apply row_contract in Hx. rewrite (step_refines p Hx). destruct (cpu_step fuel p.1 i ilen s) as [[]|]; cbn; auto.
Qed.

(** C1: the decode loop, run over any sequence of modelled instructions from a
    state in which its invariant holds, always ends, nested exceptions needing a
    depth of no more than five: with all instructions done or their exceptions
    delivered, in a triple fault, or at a point the emulator cannot get past,
    never by reading outside a table.  Run with pending flags it ends the same way, in the same
    architectural state, as the specified instructions run on the materialised
    flags; and the invariant (well-formed state, caches in agreement with the
    registers, nothing speculative, no exception recorded as being delivered)
    holds again. *)
Theorem cpu_run_correct prog s :
  Forall (fun x : turn => x.1.1 ∈ handler_table) prog -> cpu_ok s ->
  exists d, next_ok d /\ forall fuel, (5 <= fuel)%nat ->
    cpu_run fuel (emulated_turns prog) s = Some d /\
    cpu_run fuel (specified_turns prog) (norm s) = Some (map_delivery norm d).
Proof.
  intros Hp Hs. destruct (run_ends prog s Hp Hs) as (d & Hok & Hd). exists d. split; [done|]. intros fuel Hf.
  rewrite (run_refines prog fuel s Hp), (Hd fuel Hf). done.
Qed.

(** A code segment at 8, and an interrupt gate for #DE. *)
Definition idt_machine : machine :=
  with_gdtr (mk_global_segment_reg 0x2000 0xff) (with_idtr (mk_global_segment_reg 0x3000 0x7ff)
    (with_memory (with_mem_vector
        (mem_store (mem_store ∅ 0x2008 (le_split 8 0x00cf9a000000ffff)) 0x3000 (le_split 8 0x00008e0000081234))
        (memory flat_machine))
      (set_reg 4 0x1000 flat_machine))).
Lemma idt_machine_ok : cpu_ok idt_machine.
Proof. split; [|done]. apply (set_reg_wf 4 0x1000); [done|apply flat_machine_wf]. Qed.

(** INC AL; then DIV by ECX = 0, at 2. *)
Definition demo_turns : list turn :=
  [((ADD_ALIb, ref_alu ADD 8 Acc Imm), demo_instruction 0x04 0 0 1, 2);
   ((DIV_EAXEdR, ref_div 32), demo_instruction 0xf7 0 1 0, 2)].
Lemma ADD_ALIb_row : (ADD_ALIb, ref_alu ADD 8 Acc Imm) ∈ restart_table.
Proof.
  assert ((ADD_ALIb, ref_alu ADD 8 Acc Imm) ∈ arith8_table) by row_tac.
  unfold restart_table, operand_table, register_table, arith_table. rewrite !elem_of_app. tauto.
Qed.
Lemma DIV_EAXEdR_row : (DIV_EAXEdR, ref_div 32) ∈ restart_table.
Proof.
  assert ((DIV_EAXEdR, ref_div 32) ∈ div_table) by row_tac.
  unfold restart_table, operand_table, register_table, mult_table. rewrite !elem_of_app. tauto.
Qed.
(** REP MOVSB with ECX = 3 into the last two bytes of a segment of 64K. *)
Definition rep_instruction (b1 : Z) : bxInstruction_c :=
  mk_instruction Resolve32Base BX_IA_ERROR 2 (2 ^ 4 + 2 ^ 3 + 3) BX_SEG_REG_DS b1 0 0 0 0 0 0xc0 0 0.
Definition short_machine : machine :=
  set_sreg BX_SEG_REG_ES (mk_segment_reg (mk_selector 0x10 2 0 0) (mk_descriptor SegValidCache 1 0 1 3 0 0xffff 0 1 0))
    (set_reg 1 3 (set_reg 6 0x100 (set_reg 7 0xfffe flat_machine))).
Lemma short_machine_ok : cpu_ok short_machine.
Proof.
  split; [|done]. split; [|split]; [split; [done|repeat constructor; done]| |repeat split; (done || lia)].
  split; [done|]. repeat constructor; (lia || done).
Qed.
Lemma rep_fault_resumes_witness :
  exists s1, step_body REP_MOVSB_XbYb (rep_instruction 0xa4) 2 short_machine = Fault BX_GP_EXCEPTION 0 s1 /\
    exists h r stop k s0 s2, (h, r) ∈ string_table /\
      rep_turns (rep_instruction 0xa4) stop h k (advance 2 short_machine) s0 /\
      h (rep_instruction 0xa4) s0 = Fault BX_GP_EXCEPTION 0 s1 /\
      exception_prologue BX_GP_EXCEPTION BX_EXCEPTION_CLASS_FAULT s1 = Ret tt s2 /\
      arch s2 = fault_arch BX_GP_EXCEPTION (rewind 0 s0).
Proof.
  destruct (step_body REP_MOVSB_XbYb (rep_instruction 0xa4) 2 short_machine) as [|v e s1|] eqn:E;
    [vm_compute in E; discriminate E| |vm_compute in E; discriminate E].
  assert (v = BX_GP_EXCEPTION /\ e = 0) as (-> & ->) by (vm_compute in E; injection E as <- <- _; done).
  exists s1. split; [done|].
  apply (rep_fault_resumes (REP_MOVSB_XbYb, ref_rep repeat (ref_movs 8)) (rep_instruction 0xa4) 2 short_machine _ 0);
    [left|exact short_machine_ok|exact E].
Defined.

Lemma cpu_run_correct_witness :
  exists d, next_ok d /\ cpu_run 5 (emulated_turns demo_turns) idt_machine = Some d /\
    match d with
    | Delivered s => reg 0 s = 1 /\ reg 4 s = 0xff4 /\ reg BX_32BIT_REG_EIP s = 0x1234 /\
                     mem_byte (mem_vector (memory s)) 0xff4 = 2
    | _ => False
    end.
Proof.
  destruct (cpu_run_correct demo_turns idt_machine) as (d & Hok & Hd);
    [repeat apply Forall_cons_2; [exact (restart_row _ ADD_ALIb_row)|exact (restart_row _ DIV_EAXEdR_row)|by apply Forall_nil]|exact idt_machine_ok|].
  exists d. split; [exact Hok|]. destruct (Hd 5%nat (Nat.le_refl 5)) as [H _]. split; [exact H|].
  clear Hok Hd. vm_compute in H. injection H as <-. repeat split; reflexivity.
Defined.

