(* ===== verification/Reset.v ===== *)
(** * Reset: the state after a reset, and what always holds of it

    cpu/init.cc: [reset()] and [assert_checks()], with
    [get_cpu_version_information()] of cpu/cpuid.cc.  [assert_checks] states the
    consistency of the system registers that the rest of the emulator relies on;
    here it is shown of every state that instructions and exceptions can lead to
    from a reset, but for one check, which LTR can violate. *)
From stdpp Require Import base numbers list gmap.
From Stdlib Require Import ZArith Lia.
From S2P Require Import Prelude Machine LazyFlags Memory Paging Access Regs Precise Reference Mode Segment SegLoad Frame.
From S2P Require Import Stack FlagCtrl CtrlPro Exception Delivery Contract DataXfer Coherence Protect SysCtrl StringOps PortIO.
From S2P Require Import CtrlXfer FarXfer Handlers Seal Cpu.

Local Open Scope Z_scope.

(** ** cpu/cpuid.cc *)

Definition BX_CPU_MMX : Z := 0x00000010.
Definition get_cpu_version_information (s : machine) : Z :=
  let family := 5 in
  let model := if nz (Z.land (isa_extensions_bitmask s) BX_CPU_MMX) then 4 else 1 in
  let stepping := 3 in
  Z.lor (Z.lor (Z.shiftl family 8) (Z.shiftl model 4)) stepping.

(** ** cpu/init.cc *)

Definition BX_ACTIVITY_STATE_ACTIVE : Z := 0.

(** The parts of the processor outside this model (SMM, the FPU, the time-stamp
    counter, pending NMI and INIT) are reset too. *)
Definition reset : Mach unit :=
  set_EAX 0;;
  set_EBX 0;;
  set_ECX 0;;
  version ← gets get_cpu_version_information;
  set_EDX version;;
  set_EBP 0;;
  set_ESI 0;;
  set_EDI 0;;
  set_ESP 0;;
  BX_WRITE_32BIT_REGZ BX_NIL_REGISTER 0;;
  setEFlags 0x2;;
  modify (with_inhibit_mask 0);;
  modify (with_activity_state BX_ACTIVITY_STATE_ACTIVE);;
  modify (with_debug_trap 0);;
  set_EIP 0x0000FFF0;;
  modify (with_prev_rip 0x0000FFF0);;
  modify (set_sreg BX_SEG_REG_CS (mk_segment_reg (parse_selector 0xf000)
    (mk_descriptor (Z.lor SegValidCache (Z.lor SegAccessROK SegAccessWOK)) 1 0 1 BX_DATA_READ_WRITE_ACCESSED
       0xFFFF0000 0xFFFF 0 0 0)));;
  updateFetchModeMask;;
  modify (set_sreg BX_SEG_REG_DS (mk_segment_reg (parse_selector 0x0000)
    (mk_descriptor (Z.lor SegValidCache (Z.lor SegAccessROK SegAccessWOK)) 1 0 1 BX_DATA_READ_WRITE_ACCESSED
       0x00000000 0xFFFF 0 0 0)));;
  modify (fun s => set_sreg BX_SEG_REG_SS (sreg BX_SEG_REG_DS s) s);;
  modify (fun s => set_sreg BX_SEG_REG_ES (sreg BX_SEG_REG_DS s) s);;
  modify (fun s => set_sreg BX_SEG_REG_FS (sreg BX_SEG_REG_DS s) s);;
  modify (fun s => set_sreg BX_SEG_REG_GS (sreg BX_SEG_REG_DS s) s);;
  modify (with_gdtr (mk_global_segment_reg 0x00000000 0xFFFF));;
  modify (with_idtr (mk_global_segment_reg 0x00000000 0xFFFF));;
  modify (fun s => with_ldtr (mk_segment_reg (mk_selector 0x0000 0x0000 0 0)
    (mk_descriptor 1 1 0 0 BX_SYS_SEGMENT_LDT 0x00000000 0xFFFF 0 (seg_d_b (cache (ldtr s))) 0)) s);;
  modify (fun s => with_tr (mk_segment_reg (mk_selector 0x0000 0x0000 0 0)
    (mk_descriptor 1 1 0 0 BX_SYS_SEGMENT_BUSY_386_TSS 0x00000000 0xFFFF 0 (seg_d_b (cache (tr s))) 0)) s);;
  modify (with_dr [0; 0; 0; 0]);;
  modify (with_dr7 0x00000400);;
  modify (with_dr6 0xFFFF0FF0);;
  modify (with_disable_NMI 0);;
  modify (with_alignment_check_mask 0);;
  modify (with_cr0 (Z.lor 0x60000010 0x10));;
  modify (with_cr2 0);;
  modify (with_cr3 0);;
  modify (with_cr4 0);;
  modify (with_EXT 0);;
  modify (with_errorno 0);;
  TLB_flush;;
  modify (with_eipPageBias 0);;
  modify (with_eipPageWindowSize 0);;
  modify (with_eipFetchPtr 0);;
  handleCpuModeChange.

(** The checks of [assert_checks()]: each is true where the function would not
    panic. *)
Definition assert_mode (s : machine) : bool :=
  if nz (cr0_get_PE s) then
    if nz (get_VM s) then cpu_mode s =? BX_MODE_IA32_V8086 else cpu_mode s =? BX_MODE_IA32_PROTECTED
  else cpu_mode s =? BX_MODE_IA32_REAL.
Definition assert_CR0 (s : machine) : bool := nz (check_CR0 (cr0 s)).
Definition assert_CR4 (s : machine) : bool := nz (check_CR4 (cr4 s) s).
Definition assert_LDTR (s : machine) : bool :=
  if nz (desc_valid (cache (ldtr s))) then desc_type (cache (ldtr s)) =? BX_SYS_SEGMENT_LDT else true.
Definition tss_286 (type : Z) : bool := case_in type [BX_SYS_SEGMENT_BUSY_286_TSS; BX_SYS_SEGMENT_AVAIL_286_TSS].
Definition tss_386 (type : Z) : bool := case_in type [BX_SYS_SEGMENT_BUSY_386_TSS; BX_SYS_SEGMENT_AVAIL_386_TSS].
Definition assert_TR (s : machine) : bool :=
  if nz (desc_valid (cache (tr s))) then tss_286 (desc_type (cache (tr s))) || tss_386 (desc_type (cache (tr s)))
  else true.
Definition assert_TSS286 (s : machine) : bool :=
  if nz (desc_valid (cache (tr s))) && tss_286 (desc_type (cache (tr s))) then
    (seg_g (cache (tr s)) =? 0) && (seg_avl (cache (tr s)) =? 0)
  else true.
Definition assert_checks (s : machine) : bool :=
  assert_mode s && assert_CR0 s && assert_CR4 s && assert_LDTR s && assert_TR s && assert_TSS286 s.

(** ** After a reset *)

(** What a reset starts from: an allocated register file, no TLB, and level 0
    if the processor is in real mode (which [handleCpuModeChange], called for
    the new EFLAGS before CS is set, asserts). *)
Definition allocated (s : machine) : Prop :=
  regs_ok (gen_reg s) /\ length (sregs s) = 6%nat /\ TLB s = ∅ /\ real_level s.

Lemma handleAlignmentCheck_run s : exists m, handleAlignmentCheck s = Ret tt (with_alignment_check_mask m s).
Proof.
  assert (with_alignment_check_mask (alignment_check_mask s) s = s) as Hs by by destruct s.
  unfold handleAlignmentCheck, gets, modify, when, mbind, M_bind, mret, M_ret. repeat case_match; eexists;
    first [reflexivity | by rewrite Hs].
Qed.

Lemma setEFlags_run v s :
  real_level s ->
  exists t, setEFlags v s = Ret tt t /\ gen_reg t = gen_reg s /\ eflags t = v /\ lf_flags_status t = 0 /\
    length (sregs t) = length (sregs s) /\ TLB t = TLB s /\ isa_extensions_bitmask t = isa_extensions_bitmask s.
Proof.
  intros Hl. destruct (setEFlags_eq v s) as [a ->]. set (s0 := with_lf_flags_status 0 _).
  destruct (handleAlignmentCheck_run s0) as [m Hm]. rewrite (bind_Ret _ _ _ _ _ Hm), handleCpuModeChange_run by done.
  unfold updateFetchModeMask, modify. eexists. split; [reflexivity|]. msimpl.
  destruct (Z.testbit _ 0); unfold real_cs, set_sreg; msimpl; rewrite ?length_insert; by split_and!.
Qed.

Lemma regs_ok_cases l : regs_ok l ->
  exists a b c d e f g h i j k, l = [a; b; c; d; e; f; g; h; i; j; k] /\ in32 k.
Proof.
  intros [Hl Hf]. do 11 (destruct l as [|? l]; [discriminate|]). destruct l; [|discriminate].
  do 10 apply Forall_cons in Hf as [_ Hf]. apply Forall_cons in Hf as [H _]. do 11 eexists. split; [reflexivity|exact H].
Qed.
Lemma length_6 {A} (l : list A) : length l = 6%nat -> exists a b c d e f, l = [a; b; c; d; e; f].
Proof. intros. do 6 (destruct l as [|? l]; [discriminate|]). destruct l; [|discriminate]. do 6 eexists. reflexivity. Qed.

(** Where a processor begins. *)
Definition reset_vector : bx_segment_reg_t :=
  mk_segment_reg (mk_selector 0xf000 0x1e00 0 0)
    (mk_descriptor (Z.lor SegValidCache (Z.lor SegAccessROK SegAccessWOK)) 1 0 1 3 0xFFFF0000 0xFFFF 0 0 0).

Lemma reset_cache_ok base : in32 base ->
  cache_ok (mk_descriptor 7 1 0 1 3 base 0xFFFF 0 0 0).
Proof. intros Hb. unfold cache_ok, in32 in *. cbn. repeat split; (lia || done). Qed.
Lemma reset_run s :
  allocated s ->
  exists s', reset s = Ret tt s' /\ cpu_ok (loop_head s') /\ assert_checks s' = true /\
    cpu_mode s' = BX_MODE_IA32_REAL /\ sreg BX_SEG_REG_CS s' = reset_vector /\ reg BX_32BIT_REG_EIP s' = 0xfff0.
Proof.
  intros (Hg & Hs & Ht & Hl). destruct (regs_ok_cases _ Hg) as (r0 & r1 & r2 & r3 & r4 & r5 & r6 & r7 & r8 & r9 & r10 & Eg & H10).
  unfold reset, set_EAX, set_EBX, set_ECX, set_EDX, set_EBP, set_ESI, set_EDI, set_ESP, set_EIP, BX_WRITE_32BIT_REGZ,
    TLB_flush, updateFetchModeMask.
  rewrite !bind_modify, bind_gets, !bind_modify.
  match goal with |- context [mbind _ _ ?t] => set (s9 := t) end.
  assert (exists x, in32 x /\ gen_reg s9 = [0; 0; x; 0; 0; 0; 0; 0; r8; 0; r10]) as (v & Hv & E9).
  { exists (u32 (get_cpu_version_information s)). split; [by apply wrap_range|].
    unfold s9, set_reg. msimpl. rewrite Eg. reflexivity. }
  assert (length (sregs s9) = 6%nat /\ TLB s9 = ∅) as [S9 T9] by done. assert (real_level s9) as L9 by done. clearbody s9.
  destruct (setEFlags_run 2 s9 L9) as (t & Et & Gt & Ft & Lt & St & Tt & _).
  rewrite (bind_Ret _ _ _ _ _ Et), !bind_modify, bind_mret, !bind_modify, handleCpuModeChange_run.
  2: { intros _. rewrite S9 in St. destruct (length_6 _ St) as (g0 & g1 & g2 & g3 & g4 & g5 & Es). destruct t. cbn in *. by subst. }
  rewrite S9 in St. rewrite E9 in Gt. rewrite T9 in Tt. clear - Hv H10 Gt Ft Lt St Tt.
  destruct (length_6 _ St) as (g0 & g1 & g2 & g3 & g4 & g5 & Es). destruct t. cbn in *. subst.
  unfold updateFetchModeMask, modify. eexists. split; [reflexivity|].
  split; [|by split_and!]. split; [|by split_and!].
  split; [|split].
  - split; [reflexivity|]. cbn. repeat apply Forall_cons_2; first [exact Hv|exact H10|by apply Forall_nil|by split].
  - split; [reflexivity|]. 
    match goal with |- Forall _ ?l => let l' := eval vm_compute in l in
      replace l with l' by (vm_compute; reflexivity) end.
    do 6 (apply Forall_cons_2; [apply reset_cache_ok; by split|]). by apply Forall_nil.
  - split; [by split|]. split; [reflexivity|]. split; [by split|]. split; [reflexivity|]. by split.
Qed.

(** ** What always holds *)

Definition is_tss (type : Z) : bool := tss_286 type || tss_386 type.
(** The checks of [assert_checks()] on CR0, CR4, LDTR and TR: all but the one
    on the mode, which [coherent] gives, and the one on a 286 TSS, which does
    not always hold. *)
Definition registers_ok (s : machine) : Prop :=
  assert_CR0 s = true /\ assert_CR4 s = true /\ assert_LDTR s = true /\ assert_TR s = true.

#[export] Instance registers_ok_Frame : Frame registers_ok.
Proof. frame_tac. Qed.
Lemma sealed_registers s s' : sealed s' = sealed s -> registers_ok s -> registers_ok s'.
Proof.
  unfold sealed, sysregs, registers_ok, assert_CR0, assert_CR4, assert_LDTR, assert_TR, check_CR4.
  rewrite !pair_equal_spec. by intros [[-> ->] [[[[[[[[[_ _] ->] ->] _] _] _] _] _] ->]].
Qed.
Lemma steady_registers {A} (m : Mach A) : steady m -> preserves registers_ok m.
Proof.
  intros Hm s Hs. specialize (Hm s). destruct (m s); [by eapply sealed_registers, Hs; apply control_sealed..|done].
Qed.
Lemma sealed_keeps_registers {A} (m : Mach A) :
  (forall x, preserves (fun s => sealed s = x) m) -> preserves registers_ok m.
Proof. intros Hm s Hs. specialize (Hm _ s eq_refl). destruct (m s); [by eapply sealed_registers..|done]. Qed.

(** A test that raises an exception says something about what follows it. *)
Lemma preserves_guard {A} (I : machine -> Prop) b v e (k : Mach A) :
  (b = false -> preserves I k) -> preserves I (when b (raise v e);; k).
Proof. intros H. destruct b; [by intros s Hs|]. intros s Hs. by apply H. Qed.

(** *** The control registers *)

Lemma assert_CR0_ok s : assert_CR0 s = cr0_ok (cr0 s).
Proof. unfold assert_CR0, nz. by rewrite check_CR0_eq, negb_involutive. Qed.
(** Writing TS leaves the other bits of CR0. *)
Lemma cr0_ok_TS v c : v = 0 \/ v = 1 -> cr0_ok (Z.lor (Z.ldiff c (Z.shiftl 1 3)) (Z.shiftl v 3)) = cr0_ok c.
Proof.
  intros Hv. unfold cr0_ok. rewrite !Z.lor_spec, !Z.ldiff_spec.
  destruct Hv as [-> | ->]; by rewrite ?andb_true_r, ?orb_false_r.
Qed.
Lemma set_TS_registers v : v = 0 \/ v = 1 -> preserves registers_ok (cr0_set_TS v).
Proof.
  intros Hv. apply preserves_modify. intros s (H0 & H4 & Hl & Ht). split_and!; [|done|done|done].
  rewrite assert_CR0_ok in *. msimpl. by rewrite cr0_ok_TS.
Qed.
Lemma cr0_ok_ET v : cr0_ok (Z.setbit v 4) = cr0_ok v.
Proof. unfold cr0_ok. by rewrite !Z.setbit_neq by lia. Qed.
Lemma load_cr0_registers v : preserves registers_ok (load_cr0 v).
Proof.
  unfold load_cr0. destruct (cr0_ok v) eqn:Hv; [|apply preserves_raise].
  unfold set_cr0. apply preserves_bind; [|intros _].
  - apply preserves_modify. intros s (H0 & H4 & Hl & Ht). split_and!; [|done|done|done].
    rewrite assert_CR0_ok. msimpl. by rewrite cr0_ok_ET.
  - unfold handleAlignmentCheck, handleCpuModeChange, updateFetchModeMask. frame_walk.
Qed.

Lemma norm_registers s : registers_ok (norm s) <-> registers_ok s.
Proof. done. Qed.
Lemma refines_registers {A} (m m' : Mach A) : refines m m' -> preserves registers_ok m' -> preserves registers_ok m.
Proof.
  intros Hr Hm s Hs. specialize (Hr s). specialize (Hm (norm s) Hs). rewrite <-Hr in Hm. by destruct (m s).
Qed.
Lemma load_cr4_registers v : preserves registers_ok (load_cr4 v).
Proof.
  unfold load_cr4. destruct (cr4_ok v) eqn:Hv; [|apply preserves_raise].
  apply preserves_modify. intros s (H0 & H4 & Hl & Ht). split_and!; [done| |done|done].
  unfold assert_CR4, check_CR4. msimpl.
  replace (nz (Z.ldiff v _)) with false; [done|]. symmetry. apply negb_false_iff, Z.eqb_eq.
  apply Z.eqb_eq in Hv. rewrite <-Hv. apply Z.bits_inj'. intros n Hn.
  rewrite Z.bits_0, Z.ldiff_spec, Z.land_spec. change (get_cr4_allow_mask _) with 0x5f.
  by destruct (Z.testbit v n), (Z.testbit 0x5f n).
Qed.
Ltac registers_step :=
  match goal with
  | |- preserves _ (load_cr0 _) => apply load_cr0_registers
  | |- preserves _ (load_cr4 _) => apply load_cr4_registers
  | |- preserves _ (cr0_set_TS _) => apply set_TS_registers; lia
  | |- _ => frame_step
  | |- preserves _ _ => apply steady_registers; unfold_widths; solve [steady_tac]
  end.
Ltac registers_walk := repeat registers_step.

Lemma fetch_registers w p i : preserves registers_ok (fetch w p i).
Proof. apply steady_registers. unfold fetch, read_reg, read_mem. unfold_widths. steady_tac. Qed.
Lemma privileged_registers : preserves registers_ok privileged.
Proof. unfold privileged. frame_walk. Qed.
#[local] Hint Resolve fetch_registers privileged_registers : frame.
Lemma sys_registers : Forall (fun p => forall i, preserves registers_ok (p.1 i)) sys_table.
Proof.
  apply Forall_app_2; [|apply Forall_app_2].
  - eapply Forall_impl; [apply plain_sys_steady|]. intros p Hp i. apply steady_registers, Hp.
  - table_tac ltac:(intros i; cbn [fst]; unfold MOV_DdRd, HLT, debug_access, TLB_invlpg, invalidate_prefetch_q; registers_walk).
  - repeat apply Forall_cons_2; try (by apply Forall_nil); intros i; cbn [fst].
    + eapply refines_registers; [apply MOV_CdRd_implements|]. cbn [snd]. unfold ref_mov_to_cr. registers_walk.
    + eapply refines_registers; [apply LMSW_implements|]. cbn [snd]. unfold ref_lmsw. registers_walk.
    + unfold CLTS. registers_walk.
Qed.

(** *** LDTR and TR *)

Lemma is_tss_busy type : is_tss type = true -> is_tss (Z.lor type 2) = true.
Proof.
  unfold is_tss, tss_286, tss_386, case_in. cbn [existsb]. rewrite !orb_false_r, !orb_true_iff, !Z.eqb_eq.
  by intros [[-> | ->] | [-> | ->]]; cbn; tauto.
Qed.
Lemma with_tr_registers seg s :
  is_tss (desc_type (cache seg)) = true -> registers_ok s -> registers_ok (with_tr seg s).
Proof.
  intros H (H0 & H4 & Hl & Ht). split_and!; [done|done|done|]. unfold assert_TR. msimpl. unfold is_tss in H.
  rewrite H. by destruct (nz _).
Qed.
Lemma with_ldtr_registers seg s :
  desc_valid (cache seg) = 0 \/ desc_type (cache seg) = BX_SYS_SEGMENT_LDT -> registers_ok s -> registers_ok (with_ldtr seg s).
Proof.
  intros H (H0 & H4 & Hl & Ht). split_and!; [done|done| |done]. unfold assert_LDTR. msimpl.
  destruct H as [-> | ->]; [done|]. by destruct (nz _).
Qed.
Lemma needs_registers : preserves registers_ok needs_protected_mode /\ preserves registers_ok needs_ring_0.
Proof. unfold needs_protected_mode, needs_ring_0. split; frame_walk. Qed.
Lemma load_system_registers types load v :
  (forall a raw, type_among raw types = true -> preserves registers_ok (load a raw)) ->
  preserves registers_ok (load_system types load v).
Proof.
  intros H. unfold load_system, system_read_qword. destruct (Z.testbit v 2); [apply preserves_raise|].
  apply preserves_bind; [apply preserves_gets|]. intros [a|]; [|apply preserves_raise].
  apply preserves_bind; [frame_walk|]. intros raw.
  destruct (Z.testbit raw 44); [apply preserves_raise|]. destruct (type_among raw types) eqn:E; [|apply preserves_raise].
  cbn [negb orb]. destruct (negb _); [apply preserves_raise|]. by apply H.
Qed.
Lemma protect_registers : Forall (fun p => forall i, preserves registers_ok (p.1 i)) protect_table.
Proof.
  destruct needs_registers as [Hp Hr].
  apply Forall_app_2; [|apply Forall_app_2; [|repeat apply Forall_cons_2; try (by apply Forall_nil)]].
  - table_tac ltac:(intros i; cbn [fst]; apply steady_registers; protect_unfold; steady_tac).
  - table_tac ltac:(intros i; cbn [fst]; apply steady_registers; protect_unfold; steady_tac).
  - intros i. eapply refines_registers; [apply LLDT_implements|]. cbn [snd]. unfold ref_lldt.
    apply preserves_bind; [done|intros _]. apply preserves_bind; [done|intros _].
    apply preserves_bind; [apply fetch_registers|intros v]. destruct (v <? 4).
    + apply preserves_modify. intros s. apply with_ldtr_registers. by left.
    + apply load_system_registers. intros a raw Ht. apply preserves_modify. intros s.
      apply with_ldtr_registers. right. unfold type_among in Ht. cbn [existsb] in Ht. rewrite orb_false_r in Ht.
      by apply Z.eqb_eq in Ht.
  - intros i. eapply refines_registers; [apply LTR_implements|]. cbn [snd]. unfold ref_ltr.
    apply preserves_bind; [done|intros _]. apply preserves_bind; [done|intros _].
    apply preserves_bind; [apply fetch_registers|intros v]. destruct (v <? 4); [apply preserves_raise|].
    apply load_system_registers. intros a raw Ht. apply preserves_bind; [|intros _; frame_walk].
    apply preserves_modify. intros s. apply with_tr_registers. unfold type_among in Ht. cbn [existsb] in Ht.
    rewrite orb_false_r, orb_true_iff, !Z.eqb_eq in Ht. cbn [cache with_desc_type desc_type]. by destruct Ht as [-> | ->].
  - intros i. cbn [fst]. protect_unfold. registers_walk.
  - intros i. cbn [fst]. protect_unfold. registers_walk.
Qed.

(** *** Task switches, far transfers and interrupts *)

Lemma writeEFlags_registers flags mask : preserves registers_ok (writeEFlags flags mask).
Proof. apply sealed_keeps_registers. intros x. apply writeEFlags_sealed. Qed.
Lemma read_eflags_registers : preserves registers_ok read_eflags.
Proof. apply steady_registers, force_flags_steady. Qed.
Lemma load_seg_reg_registers n v : preserves registers_ok (load_seg_reg n v).
Proof.
  unfold load_seg_reg, load_seg_reg_SS, load_seg_reg_data, load_seg_reg_real, load_null_selector,
    invalidate_prefetch_q, updateFetchModeMask, handleAlignmentCheck. frame_walk.
Qed.
Lemma load_cs_registers sel d c : preserves registers_ok (load_cs sel d c).
Proof. unfold load_cs, updateFetchModeMask, handleAlignmentCheck, invalidate_prefetch_q. frame_walk. Qed.
#[local] Hint Resolve writeEFlags_registers read_eflags_registers load_seg_reg_registers load_cs_registers : frame.

Lemma task_switch_LDTR_registers raw : preserves registers_ok (task_switch_LDTR raw).
Proof.
  unfold task_switch_LDTR. cbv zeta. apply preserves_guard. intros _.
  apply preserves_when, preserves_bind; [frame_walk|]. intros [[dword1 dword2]|]; [|apply preserves_raise].
  destruct (desc_valid _ =? 0); [apply preserves_raise|].
  destruct (Z.eqb_spec (desc_type (parse_descriptor dword1 dword2 uninitialised)) BX_SYS_SEGMENT_LDT) as [E|];
    [|apply preserves_raise]. cbn [negb orb].
  destruct (nz _); [apply preserves_raise|]. destruct (negb _); [apply preserves_raise|].
  apply preserves_modify. intros s. apply with_ldtr_registers. by right.
Qed.
Lemma ldtr_selector_registers sel : preserves registers_ok (modify (fun s => with_ldtr (mk_segment_reg sel (cache (ldtr s))) s)).
Proof. apply preserves_modify. by intros s. Qed.
Lemma ldtr_invalid_registers :
  preserves registers_ok (modify (fun s => with_ldtr (with_cache (with_desc_valid 0 (cache (ldtr s))) (ldtr s)) s)).
Proof. apply preserves_modify. intros s. apply with_ldtr_registers. by left. Qed.
Lemma task_switch_commit_registers sel d source n :
  is_tss (desc_type d) = true -> preserves registers_ok (task_switch_commit sel d source n).
Proof.
  intros Hd. unfold task_switch_commit, set_selector, invalidate_cache, SetCR3, TLB_flush.
  apply preserves_bind; [frame_walk|intros _]. apply preserves_bind; [|intros _].
  { apply preserves_modify. intros s. apply with_tr_registers. cbn. by apply is_tss_busy. }
  repeat match goal with
  | |- preserves _ (modify (fun s => with_ldtr (mk_segment_reg _ (cache (ldtr s))) s)) => apply ldtr_selector_registers
  | |- preserves _ (modify (fun s => with_ldtr (with_cache _ (ldtr s)) s)) => apply ldtr_invalid_registers
  | |- _ => registers_step
  end.
Qed.
#[local] Hint Resolve task_switch_LDTR_registers : frame.
Lemma task_switch_registers sel d source :
  is_tss (desc_type d) = true -> preserves registers_ok (task_switch sel d source).
Proof.
  intros Hd. pose proof (task_switch_commit_registers sel d source).
  unfold task_switch, invalidate_prefetch_q, task_switch_check, task_switch_save, task_switch_read,
    task_switch_segments, task_switch_SS, task_switch_CS, task_switch_load_selector,
    set_CPL, sreg_value, updateFetchModeMask, handleAlignmentCheck, system_read_word, system_read_dword, system_write_word,
    system_write_dword.
  repeat match goal with
  | |- preserves _ (task_switch_commit _ _ _ _) => by auto
  | |- _ => frame_step
  end.
Qed.

Lemma not_and_tss type a b :
  negb (type =? a) && negb (type =? b) = false -> is_tss a = true -> is_tss b = true -> is_tss type = true.
Proof. destruct (Z.eqb_spec type a); [by subst|]. destruct (Z.eqb_spec type b); [by subst|done]. Qed.
Lemma in_tss type a b : case_in type [a; b] = true -> is_tss a = true -> is_tss b = true -> is_tss type = true.
Proof.
  unfold case_in. cbn [existsb]. rewrite orb_false_r, orb_true_iff, !Z.eqb_eq. by intros [-> | ->].
Qed.

(** The test of the type before a task switch. *)
Ltac tss_switch :=
  apply preserves_guard; let H := fresh in intros H; apply not_and_tss in H; [|reflexivity..];
  apply preserves_bind; [frame_walk|intros _]; apply preserves_bind; [by apply task_switch_registers|intros _].
Lemma int_task_gate_registers gate pe ec : preserves registers_ok (int_task_gate gate pe ec).
Proof.
  unfold int_task_gate. cbv zeta. apply preserves_guard. intros _. apply preserves_bind; [frame_walk|intros p].
  apply preserves_guard. intros _. tss_switch. unfold RSP_SPECULATIVE, RSP_COMMIT, push_16, push_32, SS_d_b. unfold_widths.
  frame_walk.
Qed.
Lemma iret_nested_task_registers : preserves registers_ok iret_nested_task.
Proof.
  unfold iret_nested_task, system_read_word. apply preserves_bind; [frame_walk|intros tr_].
  apply preserves_bind; [frame_walk|intros raw]. cbv zeta. apply preserves_guard. intros _.
  apply preserves_bind; [frame_walk|intros p]. apply preserves_guard. intros _. tss_switch. frame_walk.
Qed.
Lemma task_gate_registers sel gate source : preserves registers_ok (task_gate sel gate source).
Proof.
  unfold task_gate. cbv zeta. apply preserves_guard. intros _. apply preserves_guard. intros _.
  apply preserves_bind; [frame_walk|intros p]. apply preserves_guard. intros _. tss_switch. frame_walk.
Qed.
Lemma switch_to_tss_registers sel d raw source :
  is_tss (desc_type d) = true -> preserves registers_ok (switch_to_tss sel d raw source).
Proof.
  intros Hd. unfold switch_to_tss. apply preserves_guard. intros _. apply preserves_guard. intros _.
  apply preserves_bind; [by apply task_switch_registers|intros _]. frame_walk.
Qed.
#[local] Hint Resolve int_task_gate_registers iret_nested_task_registers task_gate_registers : frame.

Ltac untouched_registers :=
  unfold get_SS_ESP_from_TSS; unfold sreg_value, SS_d_b, system_read_word, system_read_byte, system_read_dword,
    check_cs, check_outer_ss, branch_far32, branch_far64, load_ss, validate_seg_regs, validate_seg_reg,
    write_flags, set_sel_value; unfold_widths;
  repeat match goal with
  | |- preserves _ (if case_in ?t ?l then switch_to_tss _ _ _ _ else _) =>
      let E := fresh "E" in destruct (case_in t l) eqn:E;
      [apply switch_to_tss_registers, (in_tss _ _ _ E); reflexivity|]
  | |- _ => frame_step
  end.
Lemma jump_protected_registers i raw disp : preserves registers_ok (jump_protected i raw disp).
Proof. unfold jump_protected, jmp_call_gate. untouched_registers. Qed.
Lemma return_protected_registers i n : preserves registers_ok (return_protected i n).
Proof. unfold return_protected. untouched_registers. Qed.
Lemma call_protected_registers i raw disp : preserves registers_ok (call_protected i raw disp).
Proof. unfold call_protected, call_segment, call_gate, call_gate_inner. untouched_registers. Qed.
Lemma init_v8086_mode_registers : preserves registers_ok init_v8086_mode.
Proof.
  unfold init_v8086_mode, handleCpuModeChange, handleAlignmentCheck, updateFetchModeMask. cbn [init_v8086_sregs].
  unfold init_v8086_sreg. untouched_registers.
Qed.
#[local] Hint Resolve init_v8086_mode_registers : frame.
Lemma iret_protected_registers i : preserves registers_ok (iret_protected i).
Proof.
  unfold iret_protected, iret_stack, stack_return_to_v86, iret_segment, iret_same, iret_outer. untouched_registers.
Qed.
Lemma v86_redirect_interrupt_registers v : preserves registers_ok (v86_redirect_interrupt v).
Proof.
  unfold v86_redirect_interrupt, v86_redirect, clear_TF, clear_RF, clear_IF, clear_VIF, clear_eflag. untouched_registers.
Qed.
#[local] Hint Resolve int_new_stack_frame : frame.
Lemma interrupt_registers v t pe ec : preserves registers_ok (interrupt v t pe ec).
Proof.
  unfold interrupt, real_mode_int, protected_mode_int, int_inner, int_same, invalidate_prefetch_q,
    RSP_SPECULATIVE, RSP_COMMIT, sreg_value, clear_data_segment, clear_IF, clear_TF, clear_VM, clear_RF, clear_NT,
    clear_AC, set_VM, set_eflag, clear_eflag, handleCpuModeChange, updateFetchModeMask, system_read_qword.
  untouched_registers.
Qed.
#[local] Hint Resolve jump_protected_registers return_protected_registers call_protected_registers
  iret_protected_registers v86_redirect_interrupt_registers interrupt_registers resolve_any : frame.
Lemma far_registers : Forall (fun p => forall i, preserves registers_ok (p.1 i)) far_table.
Proof.
  assert (Forall (fun h : handler => forall i, preserves registers_ok (h i)) (far_handlers ++ [INTO])) as [H1 H2]%Forall_app.
  { table_tac ltac:(far_open; unfold iret16_stack_return_from_v86, iret32_stack_return_from_v86, real_far_branch,
      RSP_SPECULATIVE; untouched_registers). }
  apply Forall_app_2; [by apply Forall_selves|]. apply Forall_cons_2; [|done]. by inversion_clear H2.
Qed.
Lemma handler_registers : Forall (fun p => forall i, preserves registers_ok (p.1 i)) handler_table.
Proof.
  assert (Forall (fun p => forall i, preserves registers_ok (p.1 i)) (restart_table ++ rep_table ++ rep_io_table))
    as [H1 [H2 H3]%Forall_app]%Forall_app.
  { apply by_group; [|apply protect_registers|apply sys_registers].
    eapply Forall_impl; [exact ordinary_sealed|]. intros p Hp i. apply sealed_keeps_registers. intros x. apply Hp. }
  unfold handler_table. rewrite !Forall_app. auto using far_registers.
Qed.

(** *** Exceptions *)

Definition delivered_ok (o : option delivery) : Prop :=
  match o with Some (Delivered s) | Some (TripleFault s) => registers_ok s | _ => True end.
Lemma prologue_registers v c : preserves registers_ok (exception_prologue v c).
Proof.
  unfold exception_prologue, restore_rip_rsp, restore_rsp, assert_RF, assert_eflag_async, assert_eflag. frame_walk.
Qed.
Lemma restore_rip_rsp_registers : preserves registers_ok restore_rip_rsp.
Proof. unfold restore_rip_rsp, restore_rsp. frame_walk. Qed.
Lemma deliver_registers again v e s :
  (forall v e s, registers_ok s -> delivered_ok (again v e s)) -> registers_ok s -> delivered_ok (deliver again v e s).
Proof.
  intros Ha Hs. unfold deliver. cbv zeta. set (s1 := with_errorno _ _). assert (registers_ok s1) as H1 by exact Hs.
  generalize (if real_mode s1 then 0 else info_push_error (info_of v)). intros pe.
  generalize (if real_mode s1 then 0 else e). intros ec.
  pose proof (interrupt_registers v BX_HARDWARE_EXCEPTION pe ec s1 H1) as H.
  destruct (interrupt _ _ _ _ s1) as [[] s2|v2 e2 s2|]; [exact H|by apply Ha|done].
Qed.
Lemma exception_loop_registers n : forall v e s, registers_ok s -> delivered_ok (exception_loop n v e s).
Proof.
  induction n as [|n IH]; intros v e s Hs; [done|]. rewrite exception_loop_S. destruct (negb (v <? _)); [done|]. destruct (gives_up s).
  { pose proof (restore_rip_rsp_registers s Hs) as H. by destruct (restore_rip_rsp s). }
  pose proof (prologue_registers v (exception_class (info_of v)) s Hs) as H.
  destruct (exception_prologue _ _ s) as [[] s1|? ? ?|]; [|done|done].
  destruct (_ && _); [|by apply deliver_registers]. destruct (exception_OK _ _) as [ok|]; [|done].
  destruct (nz ok); [by apply deliver_registers|by apply IH].
Qed.

(** *** The loop *)

Lemma step_registers p i ilen fuel s :
  p ∈ handler_table -> registers_ok s -> delivered_ok (cpu_step fuel p.1 i ilen s).
Proof.
  intros Hp Hs. assert (preserves registers_ok (p.1 i)) as H.
  { pose proof handler_registers as H. rewrite Forall_forall in H. exact (H p Hp i). }
  specialize (H (advance ilen s) Hs). unfold cpu_step. fold (step_body p.1 i ilen). rewrite step_body_eq.
  destruct (p.1 i (advance ilen s)) as [[] s1|v e s1|]; [exact H| |done].
  pose proof (exception_loop_registers fuel v e s1 H) as Hd. by destruct (exception_loop fuel v e s1) as [[]|].
Qed.
Lemma run_registers prog fuel s :
  Forall (fun x : turn => x.1.1 ∈ handler_table) prog -> registers_ok s ->
  delivered_ok (cpu_run fuel (emulated_turns prog) s).
Proof.
  intros Hp. revert s. induction Hp as [|[[p i] ilen] prog Hx _ IH]; intros s Hs; [exact Hs|]. cbn.
  pose proof (step_registers p i ilen fuel s Hx Hs) as H. destruct (cpu_step fuel p.1 i ilen s) as [[s1|s1| |]|]; auto.
Qed.
Lemma coherent_assert_mode s : coherent s -> assert_mode s = true.
Proof.
  intros [Hm _]. unfold assert_mode. rewrite Hm. unfold mode_of, cr0_get_PE, get_VM. rewrite nz_cr_bit, get_eflag_spec by lia.
  by destruct (Z.testbit (cr0 s) 0), (Z.testbit (eflags s) 17).
Qed.

(** C5: from a reset the system registers stay consistent.  A reset of an
    allocated processor leaves it in real mode at F000:FFF0 with everything
    [assert_checks()] asks for; and whatever modelled instructions are then run,
    with the exceptions they raise, the run ends, and in the state it ends with
    the cached mode is the one CR0 and EFLAGS say, CR0 and CR4 hold acceptable
    values, LDTR holds an LDT if it is valid and TR a TSS.  These are the checks
    of [assert_checks()] but one: that a 286 TSS in TR has its G and AVL bits
    clear, which LTR does not ensure ([ltr_tss286]).  After a triple fault, which
    stops the processor, the mode is not spoken of. *)
Theorem consistent_from_reset prog s :
  allocated s -> Forall (fun x : turn => x.1.1 ∈ handler_table) prog ->
  exists s0, reset s = Ret tt s0 /\ assert_checks s0 = true /\
    cpu_mode s0 = BX_MODE_IA32_REAL /\ sreg BX_SEG_REG_CS s0 = reset_vector /\ reg BX_32BIT_REG_EIP s0 = 0xfff0 /\
    exists d, (forall fuel, (5 <= fuel)%nat -> cpu_run fuel (emulated_turns prog) (loop_head s0) = Some d) /\
      match d with
      | Delivered s' => assert_mode s' = true /\ registers_ok s'
      | TripleFault s' => registers_ok s'
      | Aborted => True
      | OutOfBounds => False
      end.
Proof.
  intros Ha Hp. destruct (reset_run s Ha) as (s0 & Hr & Hok & Hc & Hm & Hcs & Hip). exists s0. split_and!; try done.
  destruct (run_ends prog (loop_head s0) Hp Hok) as (d & Hn & Hd). exists d. split; [exact Hd|].
  assert (registers_ok (loop_head s0)) as Hg.
  { unfold assert_checks in Hc. rewrite !andb_true_iff in Hc. destruct Hc as [[[[[_ ?] ?] ?] ?] _]. by split_and!. }
  pose proof (run_registers prog 5 (loop_head s0) Hp Hg) as H. rewrite (Hd 5%nat) in H by lia.
  destruct d as [s1|s1| |]; [|done|done|done]. split; [|done]. apply coherent_assert_mode. by destruct Hn as (_ & ? & _).
Qed.
Lemma consistent_from_reset_witness :
  allocated flat_machine /\
  exists s0 d, reset flat_machine = Ret tt s0 /\ assert_checks s0 = true /\
    cpu_run 5 (emulated_turns demo_turns) (loop_head s0) = Some d /\
    match d with Delivered s' => assert_mode s' = true /\ registers_ok s' | TripleFault s' => registers_ok s' | _ => True end.
Proof.
  assert (allocated flat_machine) as Ha by (split; [apply flat_machine_wf|done]). split; [exact Ha|].
  destruct (consistent_from_reset demo_turns flat_machine Ha) as (s0 & Hr & Hc & _ & _ & _ & d & Hd & H).
  { repeat apply Forall_cons_2; [exact (restart_row _ ADD_ALIb_row)|exact (restart_row _ DIV_EAXEdR_row)|by apply Forall_nil]. }
  exists s0, d. split_and!; [exact Hr|exact Hc|by apply Hd|]. by destruct d.
Defined.

(** A descriptor of an available 286 TSS that has its granularity bit set, at 8. *)
Definition tss286_machine : machine :=
  with_gdtr (mk_global_segment_reg 0x2000 0xff) (set_reg 1 8
    (with_memory (with_mem_vector (mem_store ∅ 0x2008 (le_split 8 0x008081000000ffff)) (memory flat_machine)) flat_machine)).

(** LTR takes it all the same: the one check of [assert_checks()] that does not
    always hold. *)
Lemma ltr_tss286 :
  assert_checks tss286_machine = true /\
  match LTR_Ew (demo_instruction 0x00 3 1 0) tss286_machine with
  | Ret _ s => assert_TSS286 s = false
  | _ => False
  end.
Proof. vm_compute. auto. Qed.
