(* ===== verification/Execute.v ===== *)
(** * Execute: from an opcode to its handler

    The table of cpu/ia_opcodes.h that gives each opcode its handlers and the
    features it belongs to, and what [init_FetchDecodeTables()] makes of it for a
    processor without some of the features.  Every handler it can give is one of
    those of the files before. *)
From stdpp Require Import base numbers list gmap.
From Stdlib Require Import ZArith Lia.
From S2P Require Import Prelude Opcodes Machine Reference Segment SegLoad Stack FlagCtrl Contract Arith Bcd Logical Mult Shift Bit DataXfer Protect SysCtrl StringOps PortIO CtrlXfer FarXfer Paging Handlers Reset.

Local Open Scope Z_scope.

(** ** The features an instruction belongs to (cpu/cpu.h, cpu/ia_opcodes.h) *)

Definition BX_CPU_CLFLUSH : Z := 0x00000100.
Definition BX_CPU_SYSENTER_SYSEXIT : Z := 0x00000080.
Definition BX_CPU_MONITOR_MWAIT : Z := 0x00010000.
Definition BX_CPU_X87 : Z := 0x00000001.
Definition BX_CPU_SSE3 : Z := 0x00000800.
Definition BX_CPU_P6 : Z := 0x00000008.
Definition BX_CPU_486 : Z := 0x00000002.
Definition BX_CPU_PENTIUM : Z := 0x00000004.
Definition BX_CPU_3DNOW : Z := 0x00000020.
Definition BX_CPU_X86_64 : Z := 0x02000000.
Definition BX_CPU_FXSAVE_FXRSTOR : Z := 0x00000040.
Definition BX_CPU_SSE : Z := 0x00000200.
Definition BX_CPU_SSSE3 : Z := 0x00001000.
Definition BX_CPU_SSE4_1 : Z := 0x00002000.
Definition BX_CPU_SSE4_2 : Z := 0x00004000.
Definition BX_CPU_MOVBE : Z := 0x00400000.
Definition BX_CPU_XSAVE : Z := 0x00100000.
Definition BX_CPU_AES_PCLMULQDQ : Z := 0x00200000.
Definition BX_CPU_VMX : Z := 0x00020000.

Definition BxOpcodeFeatures (ia_opcode : bx_ia_opcode) : Z :=
  match ia_opcode with
  | BX_IA_CLFLUSH
      => BX_CPU_CLFLUSH
  | BX_IA_SYSENTER | BX_IA_SYSEXIT
      => BX_CPU_SYSENTER_SYSEXIT
  | BX_IA_MONITOR | BX_IA_MWAIT
      => BX_CPU_MONITOR_MWAIT
  | BX_IA_FWAIT | BX_IA_FLD_STi | BX_IA_FLD_SINGLE_REAL | BX_IA_FLD_DOUBLE_REAL | BX_IA_FLD_EXTENDED_REAL
  | BX_IA_FILD_WORD_INTEGER | BX_IA_FILD_DWORD_INTEGER | BX_IA_FILD_QWORD_INTEGER | BX_IA_FBLD_PACKED_BCD
  | BX_IA_FST_STi | BX_IA_FSTP_STi | BX_IA_FST_SINGLE_REAL | BX_IA_FSTP_SINGLE_REAL | BX_IA_FST_DOUBLE_REAL
  | BX_IA_FSTP_DOUBLE_REAL | BX_IA_FSTP_EXTENDED_REAL | BX_IA_FIST_WORD_INTEGER | BX_IA_FISTP_WORD_INTEGER
  | BX_IA_FIST_DWORD_INTEGER | BX_IA_FISTP_DWORD_INTEGER | BX_IA_FISTP_QWORD_INTEGER | BX_IA_FBSTP_PACKED_BCD
  | BX_IA_FNINIT | BX_IA_FNCLEX | BX_IA_FRSTOR | BX_IA_FNSAVE | BX_IA_FLDENV | BX_IA_FNSTENV | BX_IA_FLDCW
  | BX_IA_FNSTCW | BX_IA_FNSTSW | BX_IA_FNSTSW_AX | BX_IA_FLD1 | BX_IA_FLDL2T | BX_IA_FLDL2E | BX_IA_FLDPI
  | BX_IA_FLDLG2 | BX_IA_FLDLN2 | BX_IA_FLDZ | BX_IA_FADD_ST0_STj | BX_IA_FADD_STi_ST0 | BX_IA_FADD_SINGLE_REAL
  | BX_IA_FADD_DOUBLE_REAL | BX_IA_FIADD_WORD_INTEGER | BX_IA_FIADD_DWORD_INTEGER | BX_IA_FMUL_ST0_STj
  | BX_IA_FMUL_STi_ST0 | BX_IA_FMUL_SINGLE_REAL | BX_IA_FMUL_DOUBLE_REAL | BX_IA_FIMUL_WORD_INTEGER
  | BX_IA_FIMUL_DWORD_INTEGER | BX_IA_FSUB_ST0_STj | BX_IA_FSUBR_ST0_STj | BX_IA_FSUB_STi_ST0 | BX_IA_FSUBR_STi_ST0
  | BX_IA_FSUB_SINGLE_REAL | BX_IA_FSUBR_SINGLE_REAL | BX_IA_FSUB_DOUBLE_REAL | BX_IA_FSUBR_DOUBLE_REAL
  | BX_IA_FISUB_WORD_INTEGER | BX_IA_FISUBR_WORD_INTEGER | BX_IA_FISUB_DWORD_INTEGER | BX_IA_FISUBR_DWORD_INTEGER
  | BX_IA_FDIV_ST0_STj | BX_IA_FDIVR_ST0_STj | BX_IA_FDIV_STi_ST0 | BX_IA_FDIVR_STi_ST0 | BX_IA_FDIV_SINGLE_REAL
  | BX_IA_FDIVR_SINGLE_REAL | BX_IA_FDIV_DOUBLE_REAL | BX_IA_FDIVR_DOUBLE_REAL | BX_IA_FIDIV_WORD_INTEGER
  | BX_IA_FIDIVR_WORD_INTEGER | BX_IA_FIDIV_DWORD_INTEGER | BX_IA_FIDIVR_DWORD_INTEGER | BX_IA_FCOM_STi
  | BX_IA_FCOMP_STi | BX_IA_FUCOM_STi | BX_IA_FUCOMP_STi | BX_IA_FCOM_SINGLE_REAL | BX_IA_FCOMP_SINGLE_REAL
  | BX_IA_FCOM_DOUBLE_REAL | BX_IA_FCOMP_DOUBLE_REAL | BX_IA_FICOM_WORD_INTEGER | BX_IA_FICOMP_WORD_INTEGER
  | BX_IA_FICOM_DWORD_INTEGER | BX_IA_FICOMP_DWORD_INTEGER | BX_IA_FCOMPP | BX_IA_FUCOMPP | BX_IA_FXCH_STi
  | BX_IA_FNOP | BX_IA_FPLEGACY | BX_IA_FCHS | BX_IA_FABS | BX_IA_FTST | BX_IA_FXAM | BX_IA_FDECSTP | BX_IA_FINCSTP
  | BX_IA_FFREE_STi | BX_IA_FFREEP_STi | BX_IA_F2XM1 | BX_IA_FYL2X | BX_IA_FPTAN | BX_IA_FPATAN | BX_IA_FXTRACT
  | BX_IA_FPREM1 | BX_IA_FPREM | BX_IA_FYL2XP1 | BX_IA_FSQRT | BX_IA_FSINCOS | BX_IA_FRNDINT | BX_IA_FSCALE
  | BX_IA_FSIN | BX_IA_FCOS
      => BX_CPU_X87
  | BX_IA_FISTTP16 | BX_IA_FISTTP32 | BX_IA_FISTTP64
      => Z.lor BX_CPU_X87 BX_CPU_SSE3
  | BX_IA_FCOMI_ST0_STj | BX_IA_FCOMIP_ST0_STj | BX_IA_FUCOMI_ST0_STj | BX_IA_FUCOMIP_ST0_STj | BX_IA_FCMOV_ST0_STj
      => Z.lor BX_CPU_X87 BX_CPU_P6
  | BX_IA_CPUID | BX_IA_BSWAP_RX | BX_IA_BSWAP_ERX | BX_IA_INVD | BX_IA_WBINVD | BX_IA_XADD_EbGbM | BX_IA_XADD_EbGbR
  | BX_IA_XADD_EdGdM | BX_IA_XADD_EdGdR | BX_IA_XADD_EwGwM | BX_IA_XADD_EwGwR | BX_IA_CMPXCHG_EbGbM
  | BX_IA_CMPXCHG_EbGbR | BX_IA_CMPXCHG_EdGdM | BX_IA_CMPXCHG_EdGdR | BX_IA_CMPXCHG_EwGwM | BX_IA_CMPXCHG_EwGwR
      => BX_CPU_486
  | BX_IA_CMPXCHG8B | BX_IA_WRMSR | BX_IA_RDMSR | BX_IA_RDTSC
      => BX_CPU_PENTIUM
  | BX_IA_PUNPCKLBW_PqQd | BX_IA_PUNPCKLWD_PqQd | BX_IA_PUNPCKLDQ_PqQd | BX_IA_PACKSSWB_PqQq | BX_IA_PCMPGTB_PqQq
  | BX_IA_PCMPGTW_PqQq | BX_IA_PCMPGTD_PqQq | BX_IA_PACKUSWB_PqQq | BX_IA_PUNPCKHBW_PqQq | BX_IA_PUNPCKHWD_PqQq
  | BX_IA_PUNPCKHDQ_PqQq | BX_IA_PACKSSDW_PqQq | BX_IA_MOVD_PqEdR | BX_IA_MOVD_PqEdM | BX_IA_MOVQ_PqQqR
  | BX_IA_MOVQ_PqQqM | BX_IA_PCMPEQB_PqQq | BX_IA_PCMPEQW_PqQq | BX_IA_PCMPEQD_PqQq | BX_IA_EMMS | BX_IA_MOVD_EdPdR
  | BX_IA_MOVD_EdPdM | BX_IA_MOVQ_QqPqR | BX_IA_MOVQ_QqPqM | BX_IA_PSRLW_PqQq | BX_IA_PSRLD_PqQq | BX_IA_PSRLQ_PqQq
  | BX_IA_PMULLW_PqQq | BX_IA_PSUBUSB_PqQq | BX_IA_PSUBUSW_PqQq | BX_IA_PAND_PqQq | BX_IA_PADDUSB_PqQq
  | BX_IA_PADDUSW_PqQq | BX_IA_PANDN_PqQq | BX_IA_PSRAW_PqQq | BX_IA_PSRAD_PqQq | BX_IA_PMULHW_PqQq
  | BX_IA_PSUBSB_PqQq | BX_IA_PSUBSW_PqQq | BX_IA_POR_PqQq | BX_IA_PADDSB_PqQq | BX_IA_PADDSW_PqQq | BX_IA_PXOR_PqQq
  | BX_IA_PSLLW_PqQq | BX_IA_PSLLD_PqQq | BX_IA_PSLLQ_PqQq | BX_IA_PMADDWD_PqQq | BX_IA_PSUBB_PqQq | BX_IA_PSUBW_PqQq
  | BX_IA_PSUBD_PqQq | BX_IA_PADDB_PqQq | BX_IA_PADDW_PqQq | BX_IA_PADDD_PqQq | BX_IA_PSRLW_PqIb | BX_IA_PSRAW_PqIb
  | BX_IA_PSLLW_PqIb | BX_IA_PSRLD_PqIb | BX_IA_PSRAD_PqIb | BX_IA_PSLLD_PqIb | BX_IA_PSRLQ_PqIb | BX_IA_PSLLQ_PqIb
      => BX_CPU_MMX
  | BX_IA_FEMMS
      => BX_CPU_3DNOW
  | BX_IA_PREFETCHW
      => Z.lor BX_CPU_3DNOW BX_CPU_X86_64
  | BX_IA_CMOVB_GdEdM | BX_IA_CMOVB_GdEdR | BX_IA_CMOVB_GwEwM | BX_IA_CMOVB_GwEwR | BX_IA_CMOVBE_GdEdM
  | BX_IA_CMOVBE_GdEdR | BX_IA_CMOVBE_GwEwM | BX_IA_CMOVBE_GwEwR | BX_IA_CMOVL_GdEdM | BX_IA_CMOVL_GdEdR
  | BX_IA_CMOVL_GwEwM | BX_IA_CMOVL_GwEwR | BX_IA_CMOVLE_GdEdM | BX_IA_CMOVLE_GdEdR | BX_IA_CMOVLE_GwEwM
  | BX_IA_CMOVLE_GwEwR | BX_IA_CMOVNB_GdEdM | BX_IA_CMOVNB_GdEdR | BX_IA_CMOVNB_GwEwM | BX_IA_CMOVNB_GwEwR
  | BX_IA_CMOVNBE_GdEdM | BX_IA_CMOVNBE_GdEdR | BX_IA_CMOVNBE_GwEwM | BX_IA_CMOVNBE_GwEwR | BX_IA_CMOVNL_GdEdM
  | BX_IA_CMOVNL_GdEdR | BX_IA_CMOVNL_GwEwM | BX_IA_CMOVNL_GwEwR | BX_IA_CMOVNLE_GdEdM | BX_IA_CMOVNLE_GdEdR
  | BX_IA_CMOVNLE_GwEwM | BX_IA_CMOVNLE_GwEwR | BX_IA_CMOVNO_GdEdM | BX_IA_CMOVNO_GdEdR | BX_IA_CMOVNO_GwEwM
  | BX_IA_CMOVNO_GwEwR | BX_IA_CMOVNP_GdEdM | BX_IA_CMOVNP_GdEdR | BX_IA_CMOVNP_GwEwM | BX_IA_CMOVNP_GwEwR
  | BX_IA_CMOVNS_GdEdM | BX_IA_CMOVNS_GdEdR | BX_IA_CMOVNS_GwEwM | BX_IA_CMOVNS_GwEwR | BX_IA_CMOVNZ_GdEdM
  | BX_IA_CMOVNZ_GdEdR | BX_IA_CMOVNZ_GwEwM | BX_IA_CMOVNZ_GwEwR | BX_IA_CMOVO_GdEdM | BX_IA_CMOVO_GdEdR
  | BX_IA_CMOVO_GwEwM | BX_IA_CMOVO_GwEwR | BX_IA_CMOVP_GdEdM | BX_IA_CMOVP_GdEdR | BX_IA_CMOVP_GwEwM
  | BX_IA_CMOVP_GwEwR | BX_IA_CMOVS_GdEdM | BX_IA_CMOVS_GdEdR | BX_IA_CMOVS_GwEwM | BX_IA_CMOVS_GwEwR
  | BX_IA_CMOVZ_GdEdM | BX_IA_CMOVZ_GdEdR | BX_IA_CMOVZ_GwEwM | BX_IA_CMOVZ_GwEwR | BX_IA_RDPMC
      => BX_CPU_P6
  | BX_IA_FXSAVE | BX_IA_FXRSTOR
      => BX_CPU_FXSAVE_FXRSTOR
  | BX_IA_LDMXCSR | BX_IA_STMXCSR | BX_IA_PREFETCH | BX_IA_ANDPS_VpsWps | BX_IA_ORPS_VpsWps | BX_IA_XORPS_VpsWps
  | BX_IA_ANDNPS_VpsWps | BX_IA_MOVUPS_VpsWpsR | BX_IA_MOVUPS_VpsWpsM | BX_IA_MOVUPS_WpsVpsR | BX_IA_MOVUPS_WpsVpsM
  | BX_IA_MOVSS_VssWssR | BX_IA_MOVSS_VssWssM | BX_IA_MOVSS_WssVssM | BX_IA_MOVHLPS_VpsWpsR | BX_IA_MOVLPS_VpsMq
  | BX_IA_MOVLPS_MqVps | BX_IA_MOVLHPS_VpsWpsR | BX_IA_MOVHPS_VpsMq | BX_IA_MOVHPS_MqVps | BX_IA_MOVAPS_VpsWpsR
  | BX_IA_MOVAPS_VpsWpsM | BX_IA_MOVAPS_WpsVpsR | BX_IA_MOVAPS_WpsVpsM | BX_IA_CVTPI2PS_VpsQqR
  | BX_IA_CVTPI2PS_VpsQqM | BX_IA_CVTSI2SS_VssEdR | BX_IA_CVTSI2SS_VssEdM | BX_IA_MOVNTPS_MpsVps
  | BX_IA_CVTTPS2PI_PqWps | BX_IA_CVTTSS2SI_GdWss | BX_IA_CVTPS2PI_PqWps | BX_IA_CVTSS2SI_GdWss
  | BX_IA_UCOMISS_VssWss | BX_IA_COMISS_VpsWps | BX_IA_MOVMSKPS_GdVRps | BX_IA_SQRTPS_VpsWps | BX_IA_SQRTSS_VssWss
  | BX_IA_RSQRTPS_VpsWps | BX_IA_RSQRTSS_VssWss | BX_IA_RCPPS_VpsWps | BX_IA_RCPSS_VssWss | BX_IA_ADDPS_VpsWps
  | BX_IA_ADDSS_VssWss | BX_IA_MULPS_VpsWps | BX_IA_MULSS_VssWss | BX_IA_SUBPS_VpsWps | BX_IA_SUBSS_VssWss
  | BX_IA_MINPS_VpsWps | BX_IA_MINSS_VssWss | BX_IA_DIVPS_VpsWps | BX_IA_DIVSS_VssWss | BX_IA_MAXPS_VpsWps
  | BX_IA_MAXSS_VssWss | BX_IA_PSHUFLW_VdqWdqIb | BX_IA_CMPPS_VpsWpsIb | BX_IA_CMPSS_VssWssIb | BX_IA_SHUFPS_VpsWpsIb
  | BX_IA_PAVGB_PqQq | BX_IA_PAVGW_PqQq | BX_IA_PMAXSW_PqQq
      => BX_CPU_SSE
  | BX_IA_PSHUFW_PqQqIb | BX_IA_PINSRW_PqEwIb | BX_IA_PEXTRW_GdPqIb | BX_IA_PMOVMSKB_GdPRq | BX_IA_PMINUB_PqQq
  | BX_IA_PMAXUB_PqQq | BX_IA_PMULHUW_PqQq | BX_IA_MOVNTQ_MqPq | BX_IA_PMINSW_PqQq | BX_IA_PSADBW_PqQq
  | BX_IA_MASKMOVQ_PqPRq
      => Z.lor BX_CPU_SSE BX_CPU_3DNOW
  | BX_IA_MOVSD_VsdWsdR | BX_IA_MOVSD_VsdWsdM | BX_IA_MOVSD_WsdVsdM | BX_IA_CVTPI2PD_VpdQqR | BX_IA_CVTPI2PD_VpdQqM
  | BX_IA_CVTSI2SD_VsdEdR | BX_IA_CVTSI2SD_VsdEdM | BX_IA_CVTTPD2PI_PqWpd | BX_IA_CVTTSD2SI_GdWsd
  | BX_IA_CVTPD2PI_PqWpd | BX_IA_CVTSD2SI_GdWsd | BX_IA_UCOMISD_VsdWsd | BX_IA_COMISD_VpdWpd | BX_IA_MOVMSKPD_GdVRpd
  | BX_IA_SQRTPD_VpdWpd | BX_IA_SQRTSD_VsdWsd | BX_IA_ADDPD_VpdWpd | BX_IA_ADDSD_VsdWsd | BX_IA_MULPD_VpdWpd
  | BX_IA_MULSD_VsdWsd | BX_IA_CVTPS2PD_VpsWps | BX_IA_CVTPD2PS_VpdWpd | BX_IA_CVTSD2SS_VsdWsd
  | BX_IA_CVTSS2SD_VssWss | BX_IA_CVTDQ2PS_VpsWdq | BX_IA_CVTPS2DQ_VdqWps | BX_IA_CVTTPS2DQ_VdqWps
  | BX_IA_SUBPD_VpdWpd | BX_IA_SUBSD_VsdWsd | BX_IA_MINPD_VpdWpd | BX_IA_MINSD_VsdWsd | BX_IA_DIVPD_VpdWpd
  | BX_IA_DIVSD_VsdWsd | BX_IA_MAXPD_VpdWpd | BX_IA_MAXSD_VsdWsd | BX_IA_UNPCKHPD_VpdWdq | BX_IA_UNPCKLPD_VpdWdq
  | BX_IA_PUNPCKHDQ_VdqWdq | BX_IA_PUNPCKLDQ_VdqWdq | BX_IA_MOVAPD_VpdWpdR | BX_IA_MOVAPD_VpdWpdM
  | BX_IA_MOVAPD_WpdVpdR | BX_IA_MOVAPD_WpdVpdM | BX_IA_MOVDQA_VdqWdqR | BX_IA_MOVDQA_VdqWdqM | BX_IA_MOVDQA_WdqVdqR
  | BX_IA_MOVDQA_WdqVdqM | BX_IA_MOVDQU_VdqWdqR | BX_IA_MOVDQU_VdqWdqM | BX_IA_MOVDQU_WdqVdqR | BX_IA_MOVDQU_WdqVdqM
  | BX_IA_MOVHPD_MqVsd | BX_IA_MOVHPD_VsdMq | BX_IA_MOVLPD_MqVsd | BX_IA_MOVLPD_VsdMq | BX_IA_MOVNTDQ_MdqVdq
  | BX_IA_MOVNTPD_MpdVpd | BX_IA_MOVUPD_VpdWpdR | BX_IA_MOVUPD_VpdWpdM | BX_IA_MOVUPD_WpdVpdR | BX_IA_MOVUPD_WpdVpdM
  | BX_IA_ANDNPD_VpdWpd | BX_IA_ANDPD_VpdWpd | BX_IA_ORPD_VpdWpd | BX_IA_PAND_VdqWdq | BX_IA_PANDN_VdqWdq
  | BX_IA_POR_VdqWdq | BX_IA_PXOR_VdqWdq | BX_IA_XORPD_VpdWpd | BX_IA_PUNPCKLBW_VdqWdq | BX_IA_PUNPCKLWD_VdqWdq
  | BX_IA_UNPCKLPS_VpsWdq | BX_IA_PACKSSWB_VdqWdq | BX_IA_PCMPGTB_VdqWdq | BX_IA_PCMPGTW_VdqWdq
  | BX_IA_PCMPGTD_VdqWdq | BX_IA_PACKUSWB_VdqWdq | BX_IA_PUNPCKHBW_VdqWdq | BX_IA_PUNPCKHWD_VdqWdq
  | BX_IA_UNPCKHPS_VpsWdq | BX_IA_PACKSSDW_VdqWdq | BX_IA_PUNPCKLQDQ_VdqWdq | BX_IA_PUNPCKHQDQ_VdqWdq
  | BX_IA_MOVD_VdqEdR | BX_IA_MOVD_VdqEdM | BX_IA_PSHUFD_VdqWdqIb | BX_IA_PSHUFHW_VdqWdqIb | BX_IA_PCMPEQB_VdqWdq
  | BX_IA_PCMPEQW_VdqWdq | BX_IA_PCMPEQD_VdqWdq | BX_IA_MOVD_EdVdR | BX_IA_MOVD_EdVdM | BX_IA_MOVQ_VqWqR
  | BX_IA_MOVQ_VqWqM | BX_IA_CMPPD_VpdWpdIb | BX_IA_CMPSD_VsdWsdIb | BX_IA_MOVNTI_MdGd | BX_IA_PINSRW_VdqEwIb
  | BX_IA_PEXTRW_GdUdqIb | BX_IA_SHUFPD_VpdWpdIb | BX_IA_PSRLW_VdqWdq | BX_IA_PSRLD_VdqWdq | BX_IA_PSRLQ_VdqWdq
  | BX_IA_PADDQ_PqQq | BX_IA_PADDQ_VdqWdq | BX_IA_PMULLW_VdqWdq | BX_IA_MOVQ_WqVqR | BX_IA_MOVQ_WqVqM
  | BX_IA_MOVDQ2Q_PqVRq | BX_IA_MOVQ2DQ_VdqQq | BX_IA_PMOVMSKB_GdUdq | BX_IA_PSUBUSB_VdqWdq | BX_IA_PSUBUSW_VdqWdq
  | BX_IA_PMINUB_VdqWdq | BX_IA_PADDUSB_VdqWdq | BX_IA_PADDUSW_VdqWdq | BX_IA_PMAXUB_VdqWdq | BX_IA_PAVGB_VdqWdq
  | BX_IA_PSRAW_VdqWdq | BX_IA_PSRAD_VdqWdq | BX_IA_PAVGW_VdqWdq | BX_IA_PMULHUW_VdqWdq | BX_IA_PMULHW_VdqWdq
  | BX_IA_CVTTPD2DQ_VqWpd | BX_IA_CVTPD2DQ_VqWpd | BX_IA_CVTDQ2PD_VpdWq | BX_IA_PSUBSB_VdqWdq | BX_IA_PSUBSW_VdqWdq
  | BX_IA_PMINSW_VdqWdq | BX_IA_PADDSB_VdqWdq | BX_IA_PADDSW_VdqWdq | BX_IA_PMAXSW_VdqWdq | BX_IA_PSLLW_VdqWdq
  | BX_IA_PSLLD_VdqWdq | BX_IA_PSLLQ_VdqWdq | BX_IA_PMULUDQ_PqQq | BX_IA_PMULUDQ_VdqWdq | BX_IA_PMADDWD_VdqWdq
  | BX_IA_PSADBW_VdqWdq | BX_IA_MASKMOVDQU_VdqUdq | BX_IA_PSUBB_VdqWdq | BX_IA_PSUBW_VdqWdq | BX_IA_PSUBD_VdqWdq
  | BX_IA_PSUBQ_PqQq | BX_IA_PSUBQ_VdqWdq | BX_IA_PADDB_VdqWdq | BX_IA_PADDW_VdqWdq | BX_IA_PADDD_VdqWdq
  | BX_IA_PSRLW_UdqIb | BX_IA_PSRAW_UdqIb | BX_IA_PSLLW_UdqIb | BX_IA_PSRLD_UdqIb | BX_IA_PSRAD_UdqIb
  | BX_IA_PSLLD_UdqIb | BX_IA_PSRLQ_UdqIb | BX_IA_PSRLDQ_UdqIb | BX_IA_PSLLQ_UdqIb | BX_IA_PSLLDQ_UdqIb
  | BX_IA_LFENCE | BX_IA_SFENCE | BX_IA_MFENCE
      => BX_CPU_SSE2
  | BX_IA_MOVDDUP_VpdWq | BX_IA_MOVSLDUP_VpsWps | BX_IA_MOVSHDUP_VpsWps | BX_IA_HADDPD_VpdWpd | BX_IA_HADDPS_VpsWps
  | BX_IA_HSUBPD_VpdWpd | BX_IA_HSUBPS_VpsWps | BX_IA_ADDSUBPD_VpdWpd | BX_IA_ADDSUBPS_VpsWps | BX_IA_LDDQU_VdqMdq
      => BX_CPU_SSE3
  | BX_IA_PSHUFB_PqQq | BX_IA_PHADDW_PqQq | BX_IA_PHADDD_PqQq | BX_IA_PHADDSW_PqQq | BX_IA_PMADDUBSW_PqQq
  | BX_IA_PHSUBSW_PqQq | BX_IA_PHSUBW_PqQq | BX_IA_PHSUBD_PqQq | BX_IA_PSIGNB_PqQq | BX_IA_PSIGNW_PqQq
  | BX_IA_PSIGND_PqQq | BX_IA_PMULHRSW_PqQq | BX_IA_PABSB_PqQq | BX_IA_PABSW_PqQq | BX_IA_PABSD_PqQq
  | BX_IA_PALIGNR_PqQqIb | BX_IA_PSHUFB_VdqWdq | BX_IA_PHADDW_VdqWdq | BX_IA_PHADDD_VdqWdq | BX_IA_PHADDSW_VdqWdq
  | BX_IA_PMADDUBSW_VdqWdq | BX_IA_PHSUBSW_VdqWdq | BX_IA_PHSUBW_VdqWdq | BX_IA_PHSUBD_VdqWdq | BX_IA_PSIGNB_VdqWdq
  | BX_IA_PSIGNW_VdqWdq | BX_IA_PSIGND_VdqWdq | BX_IA_PMULHRSW_VdqWdq | BX_IA_PABSB_VdqWdq | BX_IA_PABSW_VdqWdq
  | BX_IA_PABSD_VdqWdq | BX_IA_PALIGNR_VdqWdqIb
      => BX_CPU_SSSE3
  | BX_IA_PBLENDVB_VdqWdq | BX_IA_BLENDVPS_VpsWps | BX_IA_BLENDVPD_VpdWpd | BX_IA_PTEST_VdqWdq | BX_IA_PMULDQ_VdqWdq
  | BX_IA_PCMPEQQ_VdqWdq | BX_IA_PACKUSDW_VdqWdq | BX_IA_PMOVSXBW_VdqWq | BX_IA_PMOVSXBD_VdqWd | BX_IA_PMOVSXBQ_VdqWw
  | BX_IA_PMOVSXWD_VdqWq | BX_IA_PMOVSXWQ_VdqWd | BX_IA_PMOVSXDQ_VdqWq | BX_IA_PMOVZXBW_VdqWq | BX_IA_PMOVZXBD_VdqWd
  | BX_IA_PMOVZXBQ_VdqWw | BX_IA_PMOVZXWD_VdqWq | BX_IA_PMOVZXWQ_VdqWd | BX_IA_PMOVZXDQ_VdqWq | BX_IA_PMINSB_VdqWdq
  | BX_IA_PMINSD_VdqWdq | BX_IA_PMINUW_VdqWdq | BX_IA_PMINUD_VdqWdq | BX_IA_PMAXSB_VdqWdq | BX_IA_PMAXSD_VdqWdq
  | BX_IA_PMAXUW_VdqWdq | BX_IA_PMAXUD_VdqWdq | BX_IA_PMULLD_VdqWdq | BX_IA_PHMINPOSUW_VdqWdq
  | BX_IA_ROUNDPS_VpsWpsIb | BX_IA_ROUNDPD_VpdWpdIb | BX_IA_ROUNDSS_VssWssIb | BX_IA_ROUNDSD_VsdWsdIb
  | BX_IA_BLENDPS_VpsWpsIb | BX_IA_BLENDPD_VpdWpdIb | BX_IA_PBLENDW_VdqWdqIb | BX_IA_PEXTRB_EbdVdqIb
  | BX_IA_PEXTRW_EwdVdqIb | BX_IA_PEXTRD_EdVdqIb | BX_IA_EXTRACTPS_EdVpsIb | BX_IA_PINSRB_VdqEbIb
  | BX_IA_INSERTPS_VpsWssIb | BX_IA_PINSRD_VdqEdIb | BX_IA_DPPS_VpsWpsIb | BX_IA_DPPD_VpdWpdIb
  | BX_IA_MPSADBW_VdqWdqIb | BX_IA_MOVNTDQA_VdqMdq
      => BX_CPU_SSE4_1
  | BX_IA_CRC32_GdEb | BX_IA_CRC32_GdEw | BX_IA_CRC32_GdEd | BX_IA_PCMPGTQ_VdqWdq | BX_IA_PCMPESTRM_VdqWdqIb
  | BX_IA_PCMPESTRI_VdqWdqIb | BX_IA_PCMPISTRM_VdqWdqIb | BX_IA_PCMPISTRI_VdqWdqIb | BX_IA_POPCNT_GdEdR
  | BX_IA_POPCNT_GdEdM | BX_IA_POPCNT_GwEwR | BX_IA_POPCNT_GwEwM
      => BX_CPU_SSE4_2
  | BX_IA_MOVBE_GwEw | BX_IA_MOVBE_GdEd | BX_IA_MOVBE_EwGw | BX_IA_MOVBE_EdGd
      => BX_CPU_MOVBE
  | BX_IA_XRSTOR | BX_IA_XSAVE | BX_IA_XSETBV | BX_IA_XGETBV
      => BX_CPU_XSAVE
  | BX_IA_AESIMC_VdqWdq | BX_IA_AESENC_VdqWdq | BX_IA_AESENCLAST_VdqWdq | BX_IA_AESDEC_VdqWdq
  | BX_IA_AESDECLAST_VdqWdq | BX_IA_AESKEYGENASSIST_VdqWdqIb | BX_IA_PCLMULQDQ_VdqWdqIb
      => BX_CPU_AES_PCLMULQDQ
  | BX_IA_VMXON_Mq | BX_IA_VMXOFF | BX_IA_VMCALL | BX_IA_VMLAUNCH | BX_IA_VMRESUME | BX_IA_VMCLEAR_Mq
  | BX_IA_VMPTRLD_Mq | BX_IA_VMPTRST_Mq | BX_IA_VMREAD_EdGd | BX_IA_VMWRITE_GdEd
      => BX_CPU_VMX
  | BX_IA_INVEPT | BX_IA_INVVPID
      => Z.lor BX_CPU_X86_64 BX_CPU_VMX
  | _ => 0
  end.

(** ** The handlers (cpu/ia_opcodes.h)

    [execute1], given [execute2] where it is one of the LOAD handlers; [None] for
    the handlers that are not modelled. *)
Definition BxOpcodesTable (ia_opcode : bx_ia_opcode) : option handler :=
  match ia_opcode with
  | BX_IA_ERROR => Some BxError | BX_IA_AAA => Some AAA | BX_IA_AAD => Some AAD | BX_IA_AAM => Some AAM
  | BX_IA_AAS => Some AAS | BX_IA_DAA => Some DAA | BX_IA_DAS => Some DAS | BX_IA_ADC_ALIb => Some ADC_ALIb
  | BX_IA_ADC_AXIw => Some ADC_AXIw | BX_IA_ADC_EAXId => Some ADC_EAXId | BX_IA_ADC_EbGbM => Some ADC_EbGbM
  | BX_IA_ADC_EbIbM => Some ADC_EbIbM | BX_IA_ADC_EbIbR => Some ADC_EbIbR | BX_IA_ADC_EdGdM => Some ADC_EdGdM
  | BX_IA_ADC_EdIdM => Some ADC_EdIdM | BX_IA_ADC_EdIdR => Some ADC_EdIdR | BX_IA_ADC_EwGwM => Some ADC_EwGwM
  | BX_IA_ADC_EwIwM => Some ADC_EwIwM | BX_IA_ADC_EwIwR => Some ADC_EwIwR
  | BX_IA_ADC_GbEbM => Some (LOAD_Eb ADC_GbEbR) | BX_IA_ADC_GbEbR => Some ADC_GbEbR
  | BX_IA_ADC_GdEdM => Some (LOAD_Ed ADC_GdEdR) | BX_IA_ADC_GdEdR => Some ADC_GdEdR
  | BX_IA_ADC_GwEwM => Some (LOAD_Ew ADC_GwEwR) | BX_IA_ADC_GwEwR => Some ADC_GwEwR | BX_IA_ADD_ALIb => Some ADD_ALIb
  | BX_IA_ADD_AXIw => Some ADD_AXIw | BX_IA_ADD_EAXId => Some ADD_EAXId | BX_IA_ADD_EbGbM => Some ADD_EbGbM
  | BX_IA_ADD_EbIbM => Some ADD_EbIbM | BX_IA_ADD_EbIbR => Some ADD_EbIbR | BX_IA_ADD_EdGdM => Some ADD_EdGdM
  | BX_IA_ADD_EdIdM => Some ADD_EdIdM | BX_IA_ADD_EdIdR => Some ADD_EdIdR | BX_IA_ADD_EwGwM => Some ADD_EwGwM
  | BX_IA_ADD_EwIwM => Some ADD_EwIwM | BX_IA_ADD_EwIwR => Some ADD_EwIwR
  | BX_IA_ADD_GbEbM => Some (LOAD_Eb ADD_GbEbR) | BX_IA_ADD_GbEbR => Some ADD_GbEbR
  | BX_IA_ADD_GdEdM => Some (LOAD_Ed ADD_GdEdR) | BX_IA_ADD_GdEdR => Some ADD_GdEdR
  | BX_IA_ADD_GwEwM => Some (LOAD_Ew ADD_GwEwR) | BX_IA_ADD_GwEwR => Some ADD_GwEwR | BX_IA_AND_ALIb => Some AND_ALIb
  | BX_IA_AND_AXIw => Some AND_AXIw | BX_IA_AND_EAXId => Some AND_EAXId | BX_IA_AND_EbGbM => Some AND_EbGbM
  | BX_IA_AND_EbIbM => Some AND_EbIbM | BX_IA_AND_EbIbR => Some AND_EbIbR | BX_IA_AND_EdGdM => Some AND_EdGdM
  | BX_IA_AND_EdIdM => Some AND_EdIdM | BX_IA_AND_EdIdR => Some AND_EdIdR | BX_IA_AND_EwGwM => Some AND_EwGwM
  | BX_IA_AND_EwIwM => Some AND_EwIwM | BX_IA_AND_EwIwR => Some AND_EwIwR
  | BX_IA_AND_GbEbM => Some (LOAD_Eb AND_GbEbR) | BX_IA_AND_GbEbR => Some AND_GbEbR
  | BX_IA_AND_GdEdM => Some (LOAD_Ed AND_GdEdR) | BX_IA_AND_GdEdR => Some AND_GdEdR
  | BX_IA_AND_GwEwM => Some (LOAD_Ew AND_GwEwR) | BX_IA_AND_GwEwR => Some AND_GwEwR
  | BX_IA_ARPL_EwGw => Some ARPL_EwGw | BX_IA_BOUND_GdMa => Some BOUND_GdMa | BX_IA_BOUND_GwMa => Some BOUND_GwMa
  | BX_IA_BSF_GdEdR => Some BSF_GdEdR | BX_IA_BSF_GdEdM => Some (LOAD_Ed BSF_GdEdR)
  | BX_IA_BSF_GwEwR => Some BSF_GwEwR | BX_IA_BSF_GwEwM => Some (LOAD_Ew BSF_GwEwR)
  | BX_IA_BSR_GdEdR => Some BSR_GdEdR | BX_IA_BSR_GdEdM => Some (LOAD_Ed BSR_GdEdR)
  | BX_IA_BSR_GwEwR => Some BSR_GwEwR | BX_IA_BSR_GwEwM => Some (LOAD_Ew BSR_GwEwR) | BX_IA_BT_EdGdM => Some BT_EdGdM
  | BX_IA_BT_EdGdR => Some BT_EdGdR | BX_IA_BT_EdIbM => Some BT_EdIbM | BX_IA_BT_EdIbR => Some BT_EdIbR
  | BX_IA_BT_EwGwM => Some BT_EwGwM | BX_IA_BT_EwGwR => Some BT_EwGwR | BX_IA_BT_EwIbM => Some BT_EwIbM
  | BX_IA_BT_EwIbR => Some BT_EwIbR | BX_IA_BTC_EdGdM => Some BTC_EdGdM | BX_IA_BTC_EdGdR => Some BTC_EdGdR
  | BX_IA_BTC_EdIbM => Some BTC_EdIbM | BX_IA_BTC_EdIbR => Some BTC_EdIbR | BX_IA_BTC_EwGwM => Some BTC_EwGwM
  | BX_IA_BTC_EwGwR => Some BTC_EwGwR | BX_IA_BTC_EwIbM => Some BTC_EwIbM | BX_IA_BTC_EwIbR => Some BTC_EwIbR
  | BX_IA_BTR_EdGdM => Some BTR_EdGdM | BX_IA_BTR_EdGdR => Some BTR_EdGdR | BX_IA_BTR_EdIbM => Some BTR_EdIbM
  | BX_IA_BTR_EdIbR => Some BTR_EdIbR | BX_IA_BTR_EwGwM => Some BTR_EwGwM | BX_IA_BTR_EwGwR => Some BTR_EwGwR
  | BX_IA_BTR_EwIbM => Some BTR_EwIbM | BX_IA_BTR_EwIbR => Some BTR_EwIbR | BX_IA_BTS_EdGdM => Some BTS_EdGdM
  | BX_IA_BTS_EdGdR => Some BTS_EdGdR | BX_IA_BTS_EdIbM => Some BTS_EdIbM | BX_IA_BTS_EdIbR => Some BTS_EdIbR
  | BX_IA_BTS_EwGwM => Some BTS_EwGwM | BX_IA_BTS_EwGwR => Some BTS_EwGwR | BX_IA_BTS_EwIbM => Some BTS_EwIbM
  | BX_IA_BTS_EwIbR => Some BTS_EwIbR | BX_IA_CALL_EdM => Some (LOAD_Ed CALL_EdR) | BX_IA_CALL_EdR => Some CALL_EdR
  | BX_IA_CALL_EwM => Some (LOAD_Ew CALL_EwR) | BX_IA_CALL_EwR => Some CALL_EwR | BX_IA_CALL_Jd => Some CALL_Jd
  | BX_IA_CALL_Jw => Some CALL_Jw | BX_IA_CALL16_Ap => Some CALL16_Ap | BX_IA_CALL16_Ep => Some CALL16_Ep
  | BX_IA_CALL32_Ap => Some CALL32_Ap | BX_IA_CALL32_Ep => Some CALL32_Ep | BX_IA_CBW => Some CBW
  | BX_IA_CDQ => Some CDQ | BX_IA_CLC => Some CLC | BX_IA_CLD => Some CLD | BX_IA_CLFLUSH => Some CLFLUSH
  | BX_IA_CLI => Some CLI | BX_IA_CLTS => Some CLTS | BX_IA_CMC => Some CMC | BX_IA_CMP_ALIb => Some CMP_ALIb
  | BX_IA_CMP_AXIw => Some CMP_AXIw | BX_IA_CMP_EAXId => Some CMP_EAXId | BX_IA_CMP_EbGbM => Some CMP_EbGbM
  | BX_IA_CMP_EbIbM => Some CMP_EbIbM | BX_IA_CMP_EbIbR => Some CMP_EbIbR | BX_IA_CMP_EdGdM => Some CMP_EdGdM
  | BX_IA_CMP_EdIdM => Some CMP_EdIdM | BX_IA_CMP_EdIdR => Some CMP_EdIdR | BX_IA_CMP_EwGwM => Some CMP_EwGwM
  | BX_IA_CMP_EwIwM => Some CMP_EwIwM | BX_IA_CMP_EwIwR => Some CMP_EwIwR
  | BX_IA_CMP_GbEbM => Some (LOAD_Eb CMP_GbEbR) | BX_IA_CMP_GbEbR => Some CMP_GbEbR
  | BX_IA_CMP_GdEdM => Some (LOAD_Ed CMP_GdEdR) | BX_IA_CMP_GdEdR => Some CMP_GdEdR
  | BX_IA_CMP_GwEwM => Some (LOAD_Ew CMP_GwEwR) | BX_IA_CMP_GwEwR => Some CMP_GwEwR
  | BX_IA_CMPXCHG_IBTS => Some CMPXCHG_IBTS | BX_IA_CMPXCHG_XBTS => Some CMPXCHG_XBTS | BX_IA_CWD => Some CWD
  | BX_IA_CWDE => Some CWDE | BX_IA_DEC_EbM => Some DEC_EbM | BX_IA_DEC_EbR => Some DEC_EbR
  | BX_IA_DEC_EdR => Some DEC_ERX | BX_IA_DEC_EdM => Some DEC_EdM | BX_IA_DEC_ERX => Some DEC_ERX
  | BX_IA_DEC_EwR => Some DEC_RX | BX_IA_DEC_EwM => Some DEC_EwM | BX_IA_DEC_RX => Some DEC_RX
  | BX_IA_DIV_ALEbR => Some DIV_ALEbR | BX_IA_DIV_ALEbM => Some (LOAD_Eb DIV_ALEbR)
  | BX_IA_DIV_AXEwR => Some DIV_AXEwR | BX_IA_DIV_AXEwM => Some (LOAD_Ew DIV_AXEwR)
  | BX_IA_DIV_EAXEdR => Some DIV_EAXEdR | BX_IA_DIV_EAXEdM => Some (LOAD_Ed DIV_EAXEdR)
  | BX_IA_ENTER16_IwIb => Some ENTER16_IwIb | BX_IA_ENTER32_IwIb => Some ENTER32_IwIb | BX_IA_HLT => Some HLT
  | BX_IA_IDIV_ALEbR => Some IDIV_ALEbR | BX_IA_IDIV_ALEbM => Some (LOAD_Eb IDIV_ALEbR)
  | BX_IA_IDIV_AXEwR => Some IDIV_AXEwR | BX_IA_IDIV_AXEwM => Some (LOAD_Ew IDIV_AXEwR)
  | BX_IA_IDIV_EAXEdR => Some IDIV_EAXEdR | BX_IA_IDIV_EAXEdM => Some (LOAD_Ed IDIV_EAXEdR)
  | BX_IA_IMUL_ALEbR => Some IMUL_ALEbR | BX_IA_IMUL_ALEbM => Some (LOAD_Eb IMUL_ALEbR)
  | BX_IA_IMUL_AXEwR => Some IMUL_AXEwR | BX_IA_IMUL_AXEwM => Some (LOAD_Ew IMUL_AXEwR)
  | BX_IA_IMUL_EAXEdR => Some IMUL_EAXEdR | BX_IA_IMUL_EAXEdM => Some (LOAD_Ed IMUL_EAXEdR)
  | BX_IA_IMUL_GdEdR => Some IMUL_GdEdR | BX_IA_IMUL_GdEdM => Some (LOAD_Ed IMUL_GdEdR)
  | BX_IA_IMUL_GdEdIdR => Some IMUL_GdEdIdR | BX_IA_IMUL_GdEdIdM => Some (LOAD_Ed IMUL_GdEdIdR)
  | BX_IA_IMUL_GwEwR => Some IMUL_GwEwR | BX_IA_IMUL_GwEwM => Some (LOAD_Ew IMUL_GwEwR)
  | BX_IA_IMUL_GwEwIwR => Some IMUL_GwEwIwR | BX_IA_IMUL_GwEwIwM => Some (LOAD_Ew IMUL_GwEwIwR)
  | BX_IA_IN_ALDX => Some IN_ALDX | BX_IA_IN_ALIb => Some IN_ALIb | BX_IA_IN_AXDX => Some IN_AXDX
  | BX_IA_IN_AXIb => Some IN_AXIb | BX_IA_IN_EAXDX => Some IN_EAXDX | BX_IA_IN_EAXIb => Some IN_EAXIb
  | BX_IA_INC_EbM => Some INC_EbM | BX_IA_INC_EbR => Some INC_EbR | BX_IA_INC_EdR => Some INC_ERX
  | BX_IA_INC_EdM => Some INC_EdM | BX_IA_INC_ERX => Some INC_ERX | BX_IA_INC_EwR => Some INC_RX
  | BX_IA_INC_EwM => Some INC_EwM | BX_IA_INC_RX => Some INC_RX | BX_IA_INT_Ib => Some INT_Ib
  | BX_IA_INT1 => Some INT1 | BX_IA_INT3 => Some INT3 | BX_IA_INTO => Some INTO | BX_IA_IRET16 => Some IRET16
  | BX_IA_IRET32 => Some IRET32 | BX_IA_JB_Jd => Some JB_Jd | BX_IA_JB_Jw => Some JB_Jw | BX_IA_JBE_Jd => Some JBE_Jd
  | BX_IA_JBE_Jw => Some JBE_Jw | BX_IA_JCXZ_Jb => Some JCXZ_Jb | BX_IA_JECXZ_Jb => Some JECXZ_Jb
  | BX_IA_JL_Jd => Some JL_Jd | BX_IA_JL_Jw => Some JL_Jw | BX_IA_JLE_Jd => Some JLE_Jd | BX_IA_JLE_Jw => Some JLE_Jw
  | BX_IA_JMP_Ap => Some JMP_Ap | BX_IA_JMP_EdM => Some (LOAD_Ed JMP_EdR) | BX_IA_JMP_EdR => Some JMP_EdR
  | BX_IA_JMP_EwM => Some (LOAD_Ew JMP_EwR) | BX_IA_JMP_EwR => Some JMP_EwR | BX_IA_JMP_Jd => Some JMP_Jd
  | BX_IA_JMP_Jw => Some JMP_Jw | BX_IA_JMP16_Ep => Some JMP16_Ep | BX_IA_JMP32_Ep => Some JMP32_Ep
  | BX_IA_JNB_Jd => Some JNB_Jd | BX_IA_JNB_Jw => Some JNB_Jw | BX_IA_JNBE_Jd => Some JNBE_Jd
  | BX_IA_JNBE_Jw => Some JNBE_Jw | BX_IA_JNL_Jd => Some JNL_Jd | BX_IA_JNL_Jw => Some JNL_Jw
  | BX_IA_JNLE_Jd => Some JNLE_Jd | BX_IA_JNLE_Jw => Some JNLE_Jw | BX_IA_JNO_Jd => Some JNO_Jd
  | BX_IA_JNO_Jw => Some JNO_Jw | BX_IA_JNP_Jd => Some JNP_Jd | BX_IA_JNP_Jw => Some JNP_Jw
  | BX_IA_JNS_Jd => Some JNS_Jd | BX_IA_JNS_Jw => Some JNS_Jw | BX_IA_JNZ_Jd => Some JNZ_Jd
  | BX_IA_JNZ_Jw => Some JNZ_Jw | BX_IA_JO_Jd => Some JO_Jd | BX_IA_JO_Jw => Some JO_Jw | BX_IA_JP_Jd => Some JP_Jd
  | BX_IA_JP_Jw => Some JP_Jw | BX_IA_JS_Jd => Some JS_Jd | BX_IA_JS_Jw => Some JS_Jw | BX_IA_JZ_Jd => Some JZ_Jd
  | BX_IA_JZ_Jw => Some JZ_Jw | BX_IA_LAHF => Some LAHF | BX_IA_LAR_GvEw => Some LAR_GvEw
  | BX_IA_LDS_GdMp => Some LDS_GdMp | BX_IA_LDS_GwMp => Some LDS_GwMp | BX_IA_LEA_GdM => Some LEA_GdM
  | BX_IA_LEA_GwM => Some LEA_GwM | BX_IA_LEAVE16 => Some LEAVE16 | BX_IA_LEAVE32 => Some LEAVE32
  | BX_IA_LES_GdMp => Some LES_GdMp | BX_IA_LES_GwMp => Some LES_GwMp | BX_IA_LFS_GdMp => Some LFS_GdMp
  | BX_IA_LFS_GwMp => Some LFS_GwMp | BX_IA_LGDT_Ms => Some LGDT_Ms | BX_IA_LGS_GdMp => Some LGS_GdMp
  | BX_IA_LGS_GwMp => Some LGS_GwMp | BX_IA_LIDT_Ms => Some LIDT_Ms | BX_IA_LLDT_Ew => Some LLDT_Ew
  | BX_IA_LMSW_Ew => Some LMSW_Ew | BX_IA_LOOP16_Jb => Some LOOP16_Jb | BX_IA_LOOPE16_Jb => Some LOOPE16_Jb
  | BX_IA_LOOPNE16_Jb => Some LOOPNE16_Jb | BX_IA_LOOP32_Jb => Some LOOP32_Jb | BX_IA_LOOPE32_Jb => Some LOOPE32_Jb
  | BX_IA_LOOPNE32_Jb => Some LOOPNE32_Jb | BX_IA_LSL_GvEw => Some LSL_GvEw | BX_IA_LSS_GdMp => Some LSS_GdMp
  | BX_IA_LSS_GwMp => Some LSS_GwMp | BX_IA_LTR_Ew => Some LTR_Ew | BX_IA_MOV_ALOd => Some MOV_ALOd
  | BX_IA_MOV_AXOd => Some MOV_AXOd | BX_IA_MOV_CdRd => Some MOV_CdRd | BX_IA_MOV_DdRd => Some MOV_DdRd
  | BX_IA_MOV_EAXOd => Some MOV_EAXOd | BX_IA_MOV_EbGbM => Some MOV_EbGbM | BX_IA_MOV_EbIbM => Some MOV_EbIbM
  | BX_IA_MOV_EbIbR => Some MOV_RLIb | BX_IA_MOV_EdIdM => Some MOV_EdIdM | BX_IA_MOV_EdIdR => Some MOV_ERXId
  | BX_IA_MOV_ERXId => Some MOV_ERXId | BX_IA_MOV_EwGwM => Some MOV_EwGwM | BX_IA_MOV_EwIwM => Some MOV_EwIwM
  | BX_IA_MOV_EwIwR => Some MOV_RXIw | BX_IA_MOV_EwSwM => Some MOV_EwSwM | BX_IA_MOV_EwSwR => Some MOV_EwSwR
  | BX_IA_MOV_GbEbM => Some MOV_GbEbM | BX_IA_MOV_GbEbR => Some MOV_GbEbR | BX_IA_MOV32_EdGdM => Some MOV32_EdGdM
  | BX_IA_MOV32_GdEdM => Some MOV32_GdEdM | BX_IA_MOV_GdEdR => Some MOV_GdEdR | BX_IA_MOV_GwEwM => Some MOV_GwEwM
  | BX_IA_MOV_GwEwR => Some MOV_GwEwR | BX_IA_MOV_OdAL => Some MOV_OdAL | BX_IA_MOV_OdAX => Some MOV_OdAX
  | BX_IA_MOV_OdEAX => Some MOV_OdEAX | BX_IA_MOV_RdCd => Some MOV_RdCd | BX_IA_MOV_RdDd => Some MOV_RdDd
  | BX_IA_MOV_RdTd => Some MOV_RdTd | BX_IA_MOV_RHIb => Some MOV_RHIb | BX_IA_MOV_RLIb => Some MOV_RLIb
  | BX_IA_MOV_RXIw => Some MOV_RXIw | BX_IA_MOV_SwEw => Some MOV_SwEw | BX_IA_MOV_TdRd => Some MOV_TdRd
  | BX_IA_MOVSX_GdEbM => Some MOVSX_GdEbM | BX_IA_MOVSX_GdEbR => Some MOVSX_GdEbR
  | BX_IA_MOVSX_GdEwM => Some MOVSX_GdEwM | BX_IA_MOVSX_GdEwR => Some MOVSX_GdEwR
  | BX_IA_MOVSX_GwEbM => Some MOVSX_GwEbM | BX_IA_MOVSX_GwEbR => Some MOVSX_GwEbR
  | BX_IA_MOVZX_GdEbM => Some MOVZX_GdEbM | BX_IA_MOVZX_GdEbR => Some MOVZX_GdEbR
  | BX_IA_MOVZX_GdEwM => Some MOVZX_GdEwM | BX_IA_MOVZX_GdEwR => Some MOVZX_GdEwR
  | BX_IA_MOVZX_GwEbM => Some MOVZX_GwEbM | BX_IA_MOVZX_GwEbR => Some MOVZX_GwEbR | BX_IA_MUL_ALEbR => Some MUL_ALEbR
  | BX_IA_MUL_ALEbM => Some (LOAD_Eb MUL_ALEbR) | BX_IA_MUL_AXEwR => Some MUL_AXEwR
  | BX_IA_MUL_AXEwM => Some (LOAD_Ew MUL_AXEwR) | BX_IA_MUL_EAXEdR => Some MUL_EAXEdR
  | BX_IA_MUL_EAXEdM => Some (LOAD_Ed MUL_EAXEdR) | BX_IA_NEG_EbM => Some NEG_EbM | BX_IA_NEG_EbR => Some NEG_EbR
  | BX_IA_NEG_EdM => Some NEG_EdM | BX_IA_NEG_EdR => Some NEG_EdR | BX_IA_NEG_EwM => Some NEG_EwM
  | BX_IA_NEG_EwR => Some NEG_EwR | BX_IA_NOP => Some NOP | BX_IA_PAUSE => Some PAUSE | BX_IA_NOT_EbM => Some NOT_EbM
  | BX_IA_NOT_EbR => Some NOT_EbR | BX_IA_NOT_EdM => Some NOT_EdM | BX_IA_NOT_EdR => Some NOT_EdR
  | BX_IA_NOT_EwM => Some NOT_EwM | BX_IA_NOT_EwR => Some NOT_EwR | BX_IA_OR_ALIb => Some OR_ALIb
  | BX_IA_OR_AXIw => Some OR_AXIw | BX_IA_OR_EAXId => Some OR_EAXId | BX_IA_OR_EbGbM => Some OR_EbGbM
  | BX_IA_OR_EbIbM => Some OR_EbIbM | BX_IA_OR_EbIbR => Some OR_EbIbR | BX_IA_OR_EdGdM => Some OR_EdGdM
  | BX_IA_OR_EdIdM => Some OR_EdIdM | BX_IA_OR_EdIdR => Some OR_EdIdR | BX_IA_OR_EwGwM => Some OR_EwGwM
  | BX_IA_OR_EwIwM => Some OR_EwIwM | BX_IA_OR_EwIwR => Some OR_EwIwR | BX_IA_OR_GbEbM => Some (LOAD_Eb OR_GbEbR)
  | BX_IA_OR_GbEbR => Some OR_GbEbR | BX_IA_OR_GdEdM => Some (LOAD_Ed OR_GdEdR) | BX_IA_OR_GdEdR => Some OR_GdEdR
  | BX_IA_OR_GwEwM => Some (LOAD_Ew OR_GwEwR) | BX_IA_OR_GwEwR => Some OR_GwEwR | BX_IA_OUT_DXAL => Some OUT_DXAL
  | BX_IA_OUT_DXAX => Some OUT_DXAX | BX_IA_OUT_DXEAX => Some OUT_DXEAX | BX_IA_OUT_IbAL => Some OUT_IbAL
  | BX_IA_OUT_IbAX => Some OUT_IbAX | BX_IA_OUT_IbEAX => Some OUT_IbEAX | BX_IA_POP_EdM => Some POP_EdM
  | BX_IA_POP_EdR => Some POP_ERX | BX_IA_POP_ERX => Some POP_ERX | BX_IA_POP_EwM => Some POP_EwM
  | BX_IA_POP_EwR => Some POP_RX | BX_IA_POP_RX => Some POP_RX | BX_IA_POP16_DS => Some POP16_DS
  | BX_IA_POP16_ES => Some POP16_ES | BX_IA_POP16_FS => Some POP16_FS | BX_IA_POP16_GS => Some POP16_GS
  | BX_IA_POP16_SS => Some POP16_SS | BX_IA_POP32_DS => Some POP32_DS | BX_IA_POP32_ES => Some POP32_ES
  | BX_IA_POP32_FS => Some POP32_FS | BX_IA_POP32_GS => Some POP32_GS | BX_IA_POP32_SS => Some POP32_SS
  | BX_IA_POPAD16 => Some POPAD16 | BX_IA_POPAD32 => Some POPAD32 | BX_IA_POPF_Fd => Some POPF_Fd
  | BX_IA_POPF_Fw => Some POPF_Fw | BX_IA_PUSH_EdM => Some PUSH_EdM | BX_IA_PUSH_EdR => Some PUSH_ERX
  | BX_IA_PUSH_ERX => Some PUSH_ERX | BX_IA_PUSH_EwM => Some PUSH_EwM | BX_IA_PUSH_EwR => Some PUSH_RX
  | BX_IA_PUSH_Id => Some PUSH_Id | BX_IA_PUSH_Iw => Some PUSH_Iw | BX_IA_PUSH_RX => Some PUSH_RX
  | BX_IA_PUSH16_CS => Some PUSH16_CS | BX_IA_PUSH16_DS => Some PUSH16_DS | BX_IA_PUSH16_ES => Some PUSH16_ES
  | BX_IA_PUSH16_FS => Some PUSH16_FS | BX_IA_PUSH16_GS => Some PUSH16_GS | BX_IA_PUSH16_SS => Some PUSH16_SS
  | BX_IA_PUSH32_CS => Some PUSH32_CS | BX_IA_PUSH32_DS => Some PUSH32_DS | BX_IA_PUSH32_ES => Some PUSH32_ES
  | BX_IA_PUSH32_FS => Some PUSH32_FS | BX_IA_PUSH32_GS => Some PUSH32_GS | BX_IA_PUSH32_SS => Some PUSH32_SS
  | BX_IA_PUSHAD16 => Some PUSHAD16 | BX_IA_PUSHAD32 => Some PUSHAD32 | BX_IA_PUSHF_Fd => Some PUSHF_Fd
  | BX_IA_PUSHF_Fw => Some PUSHF_Fw | BX_IA_RCL_Eb => Some RCL_Eb | BX_IA_RCL_Ew => Some RCL_Ew
  | BX_IA_RCR_Eb => Some RCR_Eb | BX_IA_RCR_Ew => Some RCR_Ew | BX_IA_REP_CMPSB_XbYb => Some REP_CMPSB_XbYb
  | BX_IA_REP_CMPSD_XdYd => Some REP_CMPSD_XdYd | BX_IA_REP_CMPSW_XwYw => Some REP_CMPSW_XwYw
  | BX_IA_REP_INSB_YbDX => Some REP_INSB_YbDX | BX_IA_REP_INSD_YdDX => Some REP_INSD_YdDX
  | BX_IA_REP_INSW_YwDX => Some REP_INSW_YwDX | BX_IA_REP_LODSB_ALXb => Some REP_LODSB_ALXb
  | BX_IA_REP_LODSD_EAXXd => Some REP_LODSD_EAXXd | BX_IA_REP_LODSW_AXXw => Some REP_LODSW_AXXw
  | BX_IA_REP_MOVSB_XbYb => Some REP_MOVSB_XbYb | BX_IA_REP_MOVSD_XdYd => Some REP_MOVSD_XdYd
  | BX_IA_REP_MOVSW_XwYw => Some REP_MOVSW_XwYw | BX_IA_REP_OUTSB_DXXb => Some REP_OUTSB_DXXb
  | BX_IA_REP_OUTSD_DXXd => Some REP_OUTSD_DXXd | BX_IA_REP_OUTSW_DXXw => Some REP_OUTSW_DXXw
  | BX_IA_REP_SCASB_ALXb => Some REP_SCASB_ALXb | BX_IA_REP_SCASD_EAXXd => Some REP_SCASD_EAXXd
  | BX_IA_REP_SCASW_AXXw => Some REP_SCASW_AXXw | BX_IA_REP_STOSB_YbAL => Some REP_STOSB_YbAL
  | BX_IA_REP_STOSD_YdEAX => Some REP_STOSD_YdEAX | BX_IA_REP_STOSW_YwAX => Some REP_STOSW_YwAX
  | BX_IA_RETfar16 => Some RETfar16 | BX_IA_RETfar16_Iw => Some RETfar16_Iw | BX_IA_RETfar32 => Some RETfar32
  | BX_IA_RETfar32_Iw => Some RETfar32_Iw | BX_IA_RETnear16 => Some RETnear16
  | BX_IA_RETnear16_Iw => Some RETnear16_Iw | BX_IA_RETnear32 => Some RETnear32
  | BX_IA_RETnear32_Iw => Some RETnear32_Iw | BX_IA_ROL_Eb => Some ROL_Eb | BX_IA_ROL_Ew => Some ROL_Ew
  | BX_IA_ROR_Eb => Some ROR_Eb | BX_IA_ROR_Ew => Some ROR_Ew | BX_IA_RCR_EdM => Some RCR_EdM
  | BX_IA_RCL_EdM => Some RCL_EdM | BX_IA_ROL_EdM => Some ROL_EdM | BX_IA_ROR_EdM => Some ROR_EdM
  | BX_IA_SAR_EdM => Some SAR_EdM | BX_IA_SHL_EdM => Some SHL_EdM | BX_IA_SHR_EdM => Some SHR_EdM
  | BX_IA_RCR_EdR => Some RCR_EdR | BX_IA_RCL_EdR => Some RCL_EdR | BX_IA_ROL_EdR => Some ROL_EdR
  | BX_IA_ROR_EdR => Some ROR_EdR | BX_IA_SAR_EdR => Some SAR_EdR | BX_IA_SHL_EdR => Some SHL_EdR
  | BX_IA_SHR_EdR => Some SHR_EdR | BX_IA_SAHF => Some SAHF | BX_IA_SALC => Some SALC | BX_IA_SAR_Eb => Some SAR_Eb
  | BX_IA_SAR_Ew => Some SAR_Ew | BX_IA_SBB_ALIb => Some SBB_ALIb | BX_IA_SBB_AXIw => Some SBB_AXIw
  | BX_IA_SBB_EAXId => Some SBB_EAXId | BX_IA_SBB_EbGbM => Some SBB_EbGbM | BX_IA_SBB_EbIbM => Some SBB_EbIbM
  | BX_IA_SBB_EbIbR => Some SBB_EbIbR | BX_IA_SBB_EdGdM => Some SBB_EdGdM | BX_IA_SBB_EdIdM => Some SBB_EdIdM
  | BX_IA_SBB_EdIdR => Some SBB_EdIdR | BX_IA_SBB_EwGwM => Some SBB_EwGwM | BX_IA_SBB_EwIwM => Some SBB_EwIwM
  | BX_IA_SBB_EwIwR => Some SBB_EwIwR | BX_IA_SBB_GbEbM => Some (LOAD_Eb SBB_GbEbR)
  | BX_IA_SBB_GbEbR => Some SBB_GbEbR | BX_IA_SBB_GdEdM => Some (LOAD_Ed SBB_GdEdR)
  | BX_IA_SBB_GdEdR => Some SBB_GdEdR | BX_IA_SBB_GwEwM => Some (LOAD_Ew SBB_GwEwR)
  | BX_IA_SBB_GwEwR => Some SBB_GwEwR | BX_IA_SETB_EbM => Some SETB_EbM | BX_IA_SETB_EbR => Some SETB_EbR
  | BX_IA_SETBE_EbM => Some SETBE_EbM | BX_IA_SETBE_EbR => Some SETBE_EbR | BX_IA_SETL_EbM => Some SETL_EbM
  | BX_IA_SETL_EbR => Some SETL_EbR | BX_IA_SETLE_EbM => Some SETLE_EbM | BX_IA_SETLE_EbR => Some SETLE_EbR
  | BX_IA_SETNB_EbM => Some SETNB_EbM | BX_IA_SETNB_EbR => Some SETNB_EbR | BX_IA_SETNBE_EbM => Some SETNBE_EbM
  | BX_IA_SETNBE_EbR => Some SETNBE_EbR | BX_IA_SETNL_EbM => Some SETNL_EbM | BX_IA_SETNL_EbR => Some SETNL_EbR
  | BX_IA_SETNLE_EbM => Some SETNLE_EbM | BX_IA_SETNLE_EbR => Some SETNLE_EbR | BX_IA_SETNO_EbM => Some SETNO_EbM
  | BX_IA_SETNO_EbR => Some SETNO_EbR | BX_IA_SETNP_EbM => Some SETNP_EbM | BX_IA_SETNP_EbR => Some SETNP_EbR
  | BX_IA_SETNS_EbM => Some SETNS_EbM | BX_IA_SETNS_EbR => Some SETNS_EbR | BX_IA_SETNZ_EbM => Some SETNZ_EbM
  | BX_IA_SETNZ_EbR => Some SETNZ_EbR | BX_IA_SETO_EbM => Some SETO_EbM | BX_IA_SETO_EbR => Some SETO_EbR
  | BX_IA_SETP_EbM => Some SETP_EbM | BX_IA_SETP_EbR => Some SETP_EbR | BX_IA_SETS_EbM => Some SETS_EbM
  | BX_IA_SETS_EbR => Some SETS_EbR | BX_IA_SETZ_EbM => Some SETZ_EbM | BX_IA_SETZ_EbR => Some SETZ_EbR
  | BX_IA_SGDT_Ms => Some SGDT_Ms | BX_IA_SHL_Eb => Some SHL_Eb | BX_IA_SHL_Ew => Some SHL_Ew
  | BX_IA_SHLD_EdGdR => Some SHLD_EdGdR | BX_IA_SHLD_EdGdM => Some SHLD_EdGdM | BX_IA_SHLD_EwGwR => Some SHLD_EwGwR
  | BX_IA_SHLD_EwGwM => Some SHLD_EwGwM | BX_IA_SHR_Eb => Some SHR_Eb | BX_IA_SHR_Ew => Some SHR_Ew
  | BX_IA_SHRD_EdGdR => Some SHRD_EdGdR | BX_IA_SHRD_EdGdM => Some SHRD_EdGdM | BX_IA_SHRD_EwGwR => Some SHRD_EwGwR
  | BX_IA_SHRD_EwGwM => Some SHRD_EwGwM | BX_IA_SIDT_Ms => Some SIDT_Ms | BX_IA_SLDT_Ew => Some SLDT_Ew
  | BX_IA_SMSW_EwR => Some SMSW_EwR | BX_IA_SMSW_EwM => Some SMSW_EwM | BX_IA_STC => Some STC | BX_IA_STD => Some STD
  | BX_IA_STI => Some STI | BX_IA_STR_Ew => Some STR_Ew | BX_IA_SUB_ALIb => Some SUB_ALIb
  | BX_IA_SUB_AXIw => Some SUB_AXIw | BX_IA_SUB_EAXId => Some SUB_EAXId | BX_IA_SUB_EbGbM => Some SUB_EbGbM
  | BX_IA_SUB_EbIbM => Some SUB_EbIbM | BX_IA_SUB_EbIbR => Some SUB_EbIbR | BX_IA_SUB_EdGdM => Some SUB_EdGdM
  | BX_IA_SUB_EdIdM => Some SUB_EdIdM | BX_IA_SUB_EdIdR => Some SUB_EdIdR | BX_IA_SUB_EwGwM => Some SUB_EwGwM
  | BX_IA_SUB_EwIwM => Some SUB_EwIwM | BX_IA_SUB_EwIwR => Some SUB_EwIwR
  | BX_IA_SUB_GbEbM => Some (LOAD_Eb SUB_GbEbR) | BX_IA_SUB_GbEbR => Some SUB_GbEbR
  | BX_IA_SUB_GdEdM => Some (LOAD_Ed SUB_GdEdR) | BX_IA_SUB_GdEdR => Some SUB_GdEdR
  | BX_IA_SUB_GwEwM => Some (LOAD_Ew SUB_GwEwR) | BX_IA_SUB_GwEwR => Some SUB_GwEwR | BX_IA_SYSENTER => Some SYSENTER
  | BX_IA_SYSEXIT => Some SYSEXIT | BX_IA_TEST_ALIb => Some TEST_ALIb | BX_IA_TEST_AXIw => Some TEST_AXIw
  | BX_IA_TEST_EAXId => Some TEST_EAXId | BX_IA_TEST_EbGbM => Some (LOAD_Eb TEST_EbGbR)
  | BX_IA_TEST_EbGbR => Some TEST_EbGbR | BX_IA_TEST_EbIbM => Some (LOAD_Eb TEST_EbIbR)
  | BX_IA_TEST_EbIbR => Some TEST_EbIbR | BX_IA_TEST_EdGdM => Some (LOAD_Ed TEST_EdGdR)
  | BX_IA_TEST_EdGdR => Some TEST_EdGdR | BX_IA_TEST_EdIdM => Some (LOAD_Ed TEST_EdIdR)
  | BX_IA_TEST_EdIdR => Some TEST_EdIdR | BX_IA_TEST_EwGwM => Some (LOAD_Ew TEST_EwGwR)
  | BX_IA_TEST_EwGwR => Some TEST_EwGwR | BX_IA_TEST_EwIwM => Some (LOAD_Ew TEST_EwIwR)
  | BX_IA_TEST_EwIwR => Some TEST_EwIwR | BX_IA_VERR_Ew => Some VERR_Ew | BX_IA_VERW_Ew => Some VERW_Ew
  | BX_IA_XCHG_EbGbM => Some XCHG_EbGbM | BX_IA_XCHG_EbGbR => Some XCHG_EbGbR | BX_IA_XCHG_EdGdM => Some XCHG_EdGdM
  | BX_IA_XCHG_EdGdR => Some XCHG_EdGdR | BX_IA_XCHG_ERXEAX => Some XCHG_ERXEAX | BX_IA_XCHG_EwGwM => Some XCHG_EwGwM
  | BX_IA_XCHG_EwGwR => Some XCHG_EwGwR | BX_IA_XCHG_RXAX => Some XCHG_RXAX | BX_IA_XLAT => Some XLAT
  | BX_IA_XOR_ALIb => Some XOR_ALIb | BX_IA_XOR_AXIw => Some XOR_AXIw | BX_IA_XOR_EAXId => Some XOR_EAXId
  | BX_IA_XOR_EbGbM => Some XOR_EbGbM | BX_IA_XOR_EbIbM => Some XOR_EbIbM | BX_IA_XOR_EbIbR => Some XOR_EbIbR
  | BX_IA_XOR_EdGdM => Some XOR_EdGdM | BX_IA_XOR_EdIdM => Some XOR_EdIdM | BX_IA_XOR_EdIdR => Some XOR_EdIdR
  | BX_IA_XOR_EwGwM => Some XOR_EwGwM | BX_IA_XOR_EwIwM => Some XOR_EwIwM | BX_IA_XOR_EwIwR => Some XOR_EwIwR
  | BX_IA_XOR_GbEbM => Some (LOAD_Eb XOR_GbEbR) | BX_IA_XOR_GbEbR => Some XOR_GbEbR
  | BX_IA_XOR_GdEdM => Some (LOAD_Ed XOR_GdEdR) | BX_IA_XOR_GdEdR => Some XOR_GdEdR
  | BX_IA_XOR_GwEwM => Some (LOAD_Ew XOR_GwEwR) | BX_IA_XOR_GwEwR => Some XOR_GwEwR | BX_IA_MONITOR => Some MONITOR
  | BX_IA_MWAIT => Some MWAIT | BX_IA_BSWAP_RX => Some BSWAP_RX | BX_IA_BSWAP_ERX => Some BSWAP_ERX
  | BX_IA_INVD => Some INVD | BX_IA_WBINVD => Some WBINVD | BX_IA_XADD_EbGbM => Some XADD_EbGbM
  | BX_IA_XADD_EbGbR => Some XADD_EbGbR | BX_IA_XADD_EdGdM => Some XADD_EdGdM | BX_IA_XADD_EdGdR => Some XADD_EdGdR
  | BX_IA_XADD_EwGwM => Some XADD_EwGwM | BX_IA_XADD_EwGwR => Some XADD_EwGwR
  | BX_IA_CMPXCHG_EbGbM => Some CMPXCHG_EbGbM | BX_IA_CMPXCHG_EbGbR => Some CMPXCHG_EbGbR
  | BX_IA_CMPXCHG_EdGdM => Some CMPXCHG_EdGdM | BX_IA_CMPXCHG_EdGdR => Some CMPXCHG_EdGdR
  | BX_IA_CMPXCHG_EwGwM => Some CMPXCHG_EwGwM | BX_IA_CMPXCHG_EwGwR => Some CMPXCHG_EwGwR
  | BX_IA_INVLPG => Some INVLPG | BX_IA_CMPXCHG8B => Some CMPXCHG8B | BX_IA_RDTSC => Some RDTSC
  | BX_IA_PREFETCHW => Some NOP | BX_IA_CMOVB_GdEdM => Some (LOAD_Ed CMOVB_GdEdR)
  | BX_IA_CMOVB_GdEdR => Some CMOVB_GdEdR | BX_IA_CMOVB_GwEwM => Some (LOAD_Ew CMOVB_GwEwR)
  | BX_IA_CMOVB_GwEwR => Some CMOVB_GwEwR | BX_IA_CMOVBE_GdEdM => Some (LOAD_Ed CMOVBE_GdEdR)
  | BX_IA_CMOVBE_GdEdR => Some CMOVBE_GdEdR | BX_IA_CMOVBE_GwEwM => Some (LOAD_Ew CMOVBE_GwEwR)
  | BX_IA_CMOVBE_GwEwR => Some CMOVBE_GwEwR | BX_IA_CMOVL_GdEdM => Some (LOAD_Ed CMOVL_GdEdR)
  | BX_IA_CMOVL_GdEdR => Some CMOVL_GdEdR | BX_IA_CMOVL_GwEwM => Some (LOAD_Ew CMOVL_GwEwR)
  | BX_IA_CMOVL_GwEwR => Some CMOVL_GwEwR | BX_IA_CMOVLE_GdEdM => Some (LOAD_Ed CMOVLE_GdEdR)
  | BX_IA_CMOVLE_GdEdR => Some CMOVLE_GdEdR | BX_IA_CMOVLE_GwEwM => Some (LOAD_Ew CMOVLE_GwEwR)
  | BX_IA_CMOVLE_GwEwR => Some CMOVLE_GwEwR | BX_IA_CMOVNB_GdEdM => Some (LOAD_Ed CMOVNB_GdEdR)
  | BX_IA_CMOVNB_GdEdR => Some CMOVNB_GdEdR | BX_IA_CMOVNB_GwEwM => Some (LOAD_Ew CMOVNB_GwEwR)
  | BX_IA_CMOVNB_GwEwR => Some CMOVNB_GwEwR | BX_IA_CMOVNBE_GdEdM => Some (LOAD_Ed CMOVNBE_GdEdR)
  | BX_IA_CMOVNBE_GdEdR => Some CMOVNBE_GdEdR | BX_IA_CMOVNBE_GwEwM => Some (LOAD_Ew CMOVNBE_GwEwR)
  | BX_IA_CMOVNBE_GwEwR => Some CMOVNBE_GwEwR | BX_IA_CMOVNL_GdEdM => Some (LOAD_Ed CMOVNL_GdEdR)
  | BX_IA_CMOVNL_GdEdR => Some CMOVNL_GdEdR | BX_IA_CMOVNL_GwEwM => Some (LOAD_Ew CMOVNL_GwEwR)
  | BX_IA_CMOVNL_GwEwR => Some CMOVNL_GwEwR | BX_IA_CMOVNLE_GdEdM => Some (LOAD_Ed CMOVNLE_GdEdR)
  | BX_IA_CMOVNLE_GdEdR => Some CMOVNLE_GdEdR | BX_IA_CMOVNLE_GwEwM => Some (LOAD_Ew CMOVNLE_GwEwR)
  | BX_IA_CMOVNLE_GwEwR => Some CMOVNLE_GwEwR | BX_IA_CMOVNO_GdEdM => Some (LOAD_Ed CMOVNO_GdEdR)
  | BX_IA_CMOVNO_GdEdR => Some CMOVNO_GdEdR | BX_IA_CMOVNO_GwEwM => Some (LOAD_Ew CMOVNO_GwEwR)
  | BX_IA_CMOVNO_GwEwR => Some CMOVNO_GwEwR | BX_IA_CMOVNP_GdEdM => Some (LOAD_Ed CMOVNP_GdEdR)
  | BX_IA_CMOVNP_GdEdR => Some CMOVNP_GdEdR | BX_IA_CMOVNP_GwEwM => Some (LOAD_Ew CMOVNP_GwEwR)
  | BX_IA_CMOVNP_GwEwR => Some CMOVNP_GwEwR | BX_IA_CMOVNS_GdEdM => Some (LOAD_Ed CMOVNS_GdEdR)
  | BX_IA_CMOVNS_GdEdR => Some CMOVNS_GdEdR | BX_IA_CMOVNS_GwEwM => Some (LOAD_Ew CMOVNS_GwEwR)
  | BX_IA_CMOVNS_GwEwR => Some CMOVNS_GwEwR | BX_IA_CMOVNZ_GdEdM => Some (LOAD_Ed CMOVNZ_GdEdR)
  | BX_IA_CMOVNZ_GdEdR => Some CMOVNZ_GdEdR | BX_IA_CMOVNZ_GwEwM => Some (LOAD_Ew CMOVNZ_GwEwR)
  | BX_IA_CMOVNZ_GwEwR => Some CMOVNZ_GwEwR | BX_IA_CMOVO_GdEdM => Some (LOAD_Ed CMOVO_GdEdR)
  | BX_IA_CMOVO_GdEdR => Some CMOVO_GdEdR | BX_IA_CMOVO_GwEwM => Some (LOAD_Ew CMOVO_GwEwR)
  | BX_IA_CMOVO_GwEwR => Some CMOVO_GwEwR | BX_IA_CMOVP_GdEdM => Some (LOAD_Ed CMOVP_GdEdR)
  | BX_IA_CMOVP_GdEdR => Some CMOVP_GdEdR | BX_IA_CMOVP_GwEwM => Some (LOAD_Ew CMOVP_GwEwR)
  | BX_IA_CMOVP_GwEwR => Some CMOVP_GwEwR | BX_IA_CMOVS_GdEdM => Some (LOAD_Ed CMOVS_GdEdR)
  | BX_IA_CMOVS_GdEdR => Some CMOVS_GdEdR | BX_IA_CMOVS_GwEwM => Some (LOAD_Ew CMOVS_GwEwR)
  | BX_IA_CMOVS_GwEwR => Some CMOVS_GwEwR | BX_IA_CMOVZ_GdEdM => Some (LOAD_Ed CMOVZ_GdEdR)
  | BX_IA_CMOVZ_GdEdR => Some CMOVZ_GdEdR | BX_IA_CMOVZ_GwEwM => Some (LOAD_Ew CMOVZ_GwEwR)
  | BX_IA_CMOVZ_GwEwR => Some CMOVZ_GwEwR | BX_IA_RDPMC => Some RDPMC | BX_IA_UD2A => Some UndefinedOpcode
  | BX_IA_UD2B => Some UndefinedOpcode | BX_IA_PREFETCH => Some PREFETCH | BX_IA_LFENCE => Some NOP
  | BX_IA_SFENCE => Some NOP | BX_IA_MFENCE => Some NOP | BX_IA_MOVBE_GwEw => Some MOVBE_GwEw
  | BX_IA_MOVBE_GdEd => Some MOVBE_GdEd | BX_IA_MOVBE_EwGw => Some MOVBE_EwGw | BX_IA_MOVBE_EdGd => Some MOVBE_EdGd
  | BX_IA_POPCNT_GdEdR => Some POPCNT_GdEdR | BX_IA_POPCNT_GdEdM => Some (LOAD_Ed POPCNT_GdEdR)
  | BX_IA_POPCNT_GwEwR => Some POPCNT_GwEwR | BX_IA_POPCNT_GwEwM => Some (LOAD_Ew POPCNT_GwEwR)
  | _ => None
  end.
(** Where the row of an opcode is in [handler_table]. *)
Definition opcode_row (ia_opcode : bx_ia_opcode) : Z :=
  match ia_opcode with
  | BX_IA_ERROR => 1734 | BX_IA_AAA => 112 | BX_IA_AAD => 115 | BX_IA_AAM => 114 | BX_IA_AAS => 113
  | BX_IA_DAA => 116 | BX_IA_DAS => 117 | BX_IA_ADC_ALIb => 5 | BX_IA_ADC_AXIw => 42 | BX_IA_ADC_EAXId => 79
  | BX_IA_ADC_EbGbM => 3 | BX_IA_ADC_EbIbM => 21 | BX_IA_ADC_EbIbR => 22 | BX_IA_ADC_EdGdM => 77
  | BX_IA_ADC_EdIdM => 99 | BX_IA_ADC_EdIdR => 100 | BX_IA_ADC_EwGwM => 40 | BX_IA_ADC_EwIwM => 60
  | BX_IA_ADC_EwIwR => 61 | BX_IA_ADC_GbEbM => 391 | BX_IA_ADC_GbEbR => 4 | BX_IA_ADC_GdEdM => 1239
  | BX_IA_ADC_GdEdR => 78 | BX_IA_ADC_GwEwM => 815 | BX_IA_ADC_GwEwR => 41 | BX_IA_ADD_ALIb => 2
  | BX_IA_ADD_AXIw => 39 | BX_IA_ADD_EAXId => 76 | BX_IA_ADD_EbGbM => 0 | BX_IA_ADD_EbIbM => 19
  | BX_IA_ADD_EbIbR => 20 | BX_IA_ADD_EdGdM => 74 | BX_IA_ADD_EdIdM => 97 | BX_IA_ADD_EdIdR => 98
  | BX_IA_ADD_EwGwM => 37 | BX_IA_ADD_EwIwM => 58 | BX_IA_ADD_EwIwR => 59 | BX_IA_ADD_GbEbM => 388
  | BX_IA_ADD_GbEbR => 1 | BX_IA_ADD_GdEdM => 1236 | BX_IA_ADD_GdEdR => 75 | BX_IA_ADD_GwEwM => 812
  | BX_IA_ADD_GwEwR => 38 | BX_IA_AND_ALIb => 132 | BX_IA_AND_AXIw => 152 | BX_IA_AND_EAXId => 172
  | BX_IA_AND_EbGbM => 130 | BX_IA_AND_EbIbM => 133 | BX_IA_AND_EbIbR => 134 | BX_IA_AND_EdGdM => 170
  | BX_IA_AND_EdIdM => 173 | BX_IA_AND_EdIdR => 174 | BX_IA_AND_EwGwM => 150 | BX_IA_AND_EwIwM => 153
  | BX_IA_AND_EwIwR => 154 | BX_IA_AND_GbEbM => 518 | BX_IA_AND_GbEbR => 131 | BX_IA_AND_GdEdM => 1332
  | BX_IA_AND_GdEdR => 171 | BX_IA_AND_GwEwM => 925 | BX_IA_AND_GwEwR => 151 | BX_IA_ARPL_EwGw => 1705
  | BX_IA_BOUND_GdMa => 1700 | BX_IA_BOUND_GwMa => 1699 | BX_IA_BSF_GdEdR => 297 | BX_IA_BSF_GdEdM => 1458
  | BX_IA_BSF_GwEwR => 294 | BX_IA_BSF_GwEwM => 1068 | BX_IA_BSR_GdEdR => 298 | BX_IA_BSR_GdEdM => 1459
  | BX_IA_BSR_GwEwR => 295 | BX_IA_BSR_GwEwM => 1069 | BX_IA_BT_EdGdM => 278 | BX_IA_BT_EdGdR => 279
  | BX_IA_BT_EdIbM => 286 | BX_IA_BT_EdIbR => 287 | BX_IA_BT_EwGwM => 262 | BX_IA_BT_EwGwR => 263
  | BX_IA_BT_EwIbM => 270 | BX_IA_BT_EwIbR => 271 | BX_IA_BTC_EdGdM => 284 | BX_IA_BTC_EdGdR => 285
  | BX_IA_BTC_EdIbM => 290 | BX_IA_BTC_EdIbR => 291 | BX_IA_BTC_EwGwM => 268 | BX_IA_BTC_EwGwR => 269
  | BX_IA_BTC_EwIbM => 274 | BX_IA_BTC_EwIbR => 275 | BX_IA_BTR_EdGdM => 282 | BX_IA_BTR_EdGdR => 283
  | BX_IA_BTR_EdIbM => 292 | BX_IA_BTR_EdIbR => 293 | BX_IA_BTR_EwGwM => 266 | BX_IA_BTR_EwGwR => 267
  | BX_IA_BTR_EwIbM => 276 | BX_IA_BTR_EwIbR => 277 | BX_IA_BTS_EdGdM => 280 | BX_IA_BTS_EdGdR => 281
  | BX_IA_BTS_EdIbM => 288 | BX_IA_BTS_EdIbR => 289 | BX_IA_BTS_EwGwM => 264 | BX_IA_BTS_EwGwR => 265
  | BX_IA_BTS_EwIbM => 272 | BX_IA_BTS_EwIbR => 273 | BX_IA_CALL_EdM => 1698 | BX_IA_CALL_EdR => 1692
  | BX_IA_CALL_EwM => 1695 | BX_IA_CALL_EwR => 1688 | BX_IA_CALL_Jd => 1691 | BX_IA_CALL_Jw => 1687
  | BX_IA_CALL16_Ap => 1787 | BX_IA_CALL16_Ep => 1788 | BX_IA_CALL32_Ap => 1793 | BX_IA_CALL32_Ep => 1794
  | BX_IA_CBW => 54 | BX_IA_CDQ => 92 | BX_IA_CLC => 1601 | BX_IA_CLD => 1605 | BX_IA_CLFLUSH => 1726
  | BX_IA_CLI => 1603 | BX_IA_CLTS => 1739 | BX_IA_CMC => 1607 | BX_IA_CMP_ALIb => 16 | BX_IA_CMP_AXIw => 53
  | BX_IA_CMP_EAXId => 90 | BX_IA_CMP_EbGbM => 14 | BX_IA_CMP_EbIbM => 25 | BX_IA_CMP_EbIbR => 26
  | BX_IA_CMP_EdGdM => 88 | BX_IA_CMP_EdIdM => 103 | BX_IA_CMP_EdIdR => 104 | BX_IA_CMP_EwGwM => 51
  | BX_IA_CMP_EwIwM => 64 | BX_IA_CMP_EwIwR => 65 | BX_IA_CMP_GbEbM => 402 | BX_IA_CMP_GbEbR => 15
  | BX_IA_CMP_GdEdM => 1250 | BX_IA_CMP_GdEdR => 89 | BX_IA_CMP_GwEwM => 826 | BX_IA_CMP_GwEwR => 52
  | BX_IA_CMPXCHG_IBTS => 94 | BX_IA_CMPXCHG_XBTS => 93 | BX_IA_CWD => 55 | BX_IA_CWDE => 91 | BX_IA_DEC_EbM => 31
  | BX_IA_DEC_EbR => 32 | BX_IA_DEC_EdR | BX_IA_DEC_ERX => 73 | BX_IA_DEC_EdM => 108
  | BX_IA_DEC_EwR | BX_IA_DEC_RX => 36 | BX_IA_DEC_EwM => 69 | BX_IA_DIV_ALEbR => 188 | BX_IA_DIV_ALEbM => 575
  | BX_IA_DIV_AXEwR => 189 | BX_IA_DIV_AXEwM => 963 | BX_IA_DIV_EAXEdR => 190 | BX_IA_DIV_EAXEdM => 1351
  | BX_IA_ENTER16_IwIb => 1597 | BX_IA_ENTER32_IwIb => 1598 | BX_IA_HLT => 1736 | BX_IA_IDIV_ALEbR => 191
  | BX_IA_IDIV_ALEbM => 578 | BX_IA_IDIV_AXEwR => 192 | BX_IA_IDIV_AXEwM => 966 | BX_IA_IDIV_EAXEdR => 193
  | BX_IA_IDIV_EAXEdM => 1354 | BX_IA_IMUL_ALEbR => 181 | BX_IA_IMUL_ALEbM => 568 | BX_IA_IMUL_AXEwR => 182
  | BX_IA_IMUL_AXEwM => 956 | BX_IA_IMUL_EAXEdR => 183 | BX_IA_IMUL_EAXEdM => 1344 | BX_IA_IMUL_GdEdR => 187
  | BX_IA_IMUL_GdEdM => 1348 | BX_IA_IMUL_GdEdIdR => 185 | BX_IA_IMUL_GdEdIdM => 1346 | BX_IA_IMUL_GwEwR => 186
  | BX_IA_IMUL_GwEwM => 960 | BX_IA_IMUL_GwEwIwR => 184 | BX_IA_IMUL_GwEwIwM => 958 | BX_IA_IN_ALDX => 1746
  | BX_IA_IN_ALIb => 1740 | BX_IA_IN_AXDX => 1747 | BX_IA_IN_AXIb => 1741 | BX_IA_IN_EAXDX => 1748
  | BX_IA_IN_EAXIb => 1742 | BX_IA_INC_EbM => 29 | BX_IA_INC_EbR => 30 | BX_IA_INC_EdR | BX_IA_INC_ERX => 72
  | BX_IA_INC_EdM => 107 | BX_IA_INC_EwR | BX_IA_INC_RX => 35 | BX_IA_INC_EwM => 68 | BX_IA_INT_Ib => 1800
  | BX_IA_INT1 => 1798 | BX_IA_INT3 => 1799 | BX_IA_INTO => 1801 | BX_IA_IRET16 => 1790 | BX_IA_IRET32 => 1797
  | BX_IA_JB_Jd => 1666 | BX_IA_JB_Jw => 1645 | BX_IA_JBE_Jd => 1670 | BX_IA_JBE_Jw => 1649 | BX_IA_JCXZ_Jb => 1659
  | BX_IA_JECXZ_Jb => 1680 | BX_IA_JL_Jd => 1676 | BX_IA_JL_Jw => 1655 | BX_IA_JLE_Jd => 1678 | BX_IA_JLE_Jw => 1657
  | BX_IA_JMP_Ap => 1795 | BX_IA_JMP_EdM => 1547 | BX_IA_JMP_EdR => 386 | BX_IA_JMP_EwM => 1159
  | BX_IA_JMP_EwR => 385 | BX_IA_JMP_Jd => 1684 | BX_IA_JMP_Jw => 1663 | BX_IA_JMP16_Ep => 1789
  | BX_IA_JMP32_Ep => 1796 | BX_IA_JNB_Jd => 1667 | BX_IA_JNB_Jw => 1646 | BX_IA_JNBE_Jd => 1671
  | BX_IA_JNBE_Jw => 1650 | BX_IA_JNL_Jd => 1677 | BX_IA_JNL_Jw => 1656 | BX_IA_JNLE_Jd => 1679
  | BX_IA_JNLE_Jw => 1658 | BX_IA_JNO_Jd => 1665 | BX_IA_JNO_Jw => 1644 | BX_IA_JNP_Jd => 1675 | BX_IA_JNP_Jw => 1654
  | BX_IA_JNS_Jd => 1673 | BX_IA_JNS_Jw => 1652 | BX_IA_JNZ_Jd => 1669 | BX_IA_JNZ_Jw => 1648 | BX_IA_JO_Jd => 1664
  | BX_IA_JO_Jw => 1643 | BX_IA_JP_Jd => 1674 | BX_IA_JP_Jw => 1653 | BX_IA_JS_Jd => 1672 | BX_IA_JS_Jw => 1651
  | BX_IA_JZ_Jd => 1668 | BX_IA_JZ_Jw => 1647 | BX_IA_LAHF => 1600 | BX_IA_LAR_GvEw => 1701 | BX_IA_LDS_GdMp => 1551
  | BX_IA_LDS_GwMp => 1550 | BX_IA_LEA_GdM => 338 | BX_IA_LEA_GwM => 323 | BX_IA_LEAVE16 => 1593
  | BX_IA_LEAVE32 => 1594 | BX_IA_LES_GdMp => 1549 | BX_IA_LES_GwMp => 1548 | BX_IA_LFS_GdMp => 1553
  | BX_IA_LFS_GwMp => 1552 | BX_IA_LGDT_Ms => 1712 | BX_IA_LGS_GdMp => 1555 | BX_IA_LGS_GwMp => 1554
  | BX_IA_LIDT_Ms => 1713 | BX_IA_LLDT_Ew => 1710 | BX_IA_LMSW_Ew => 1738 | BX_IA_LOOP16_Jb => 1662
  | BX_IA_LOOPE16_Jb => 1661 | BX_IA_LOOPNE16_Jb => 1660 | BX_IA_LOOP32_Jb => 1683 | BX_IA_LOOPE32_Jb => 1682
  | BX_IA_LOOPNE32_Jb => 1681 | BX_IA_LSL_GvEw => 1702 | BX_IA_LSS_GdMp => 1557 | BX_IA_LSS_GwMp => 1556
  | BX_IA_LTR_Ew => 1711 | BX_IA_MOV_ALOd => 310 | BX_IA_MOV_AXOd => 324 | BX_IA_MOV_CdRd => 1737
  | BX_IA_MOV_DdRd => 1735 | BX_IA_MOV_EAXOd => 339 | BX_IA_MOV_EbGbM => 307 | BX_IA_MOV_EbIbM => 312
  | BX_IA_MOV_EbIbR | BX_IA_MOV_RLIb => 306 | BX_IA_MOV_EdIdM => 341 | BX_IA_MOV_EdIdR | BX_IA_MOV_ERXId => 334
  | BX_IA_MOV_EwGwM => 318 | BX_IA_MOV_EwIwM => 326 | BX_IA_MOV_EwIwR | BX_IA_MOV_RXIw => 316
  | BX_IA_MOV_EwSwM => 322 | BX_IA_MOV_EwSwR => 321 | BX_IA_MOV_GbEbM => 308 | BX_IA_MOV_GbEbR => 309
  | BX_IA_MOV32_EdGdM => 335 | BX_IA_MOV32_GdEdM => 337 | BX_IA_MOV_GdEdR => 336 | BX_IA_MOV_GwEwM => 320
  | BX_IA_MOV_GwEwR => 319 | BX_IA_MOV_OdAL => 311 | BX_IA_MOV_OdAX => 325 | BX_IA_MOV_OdEAX => 340
  | BX_IA_MOV_RdCd => 1715 | BX_IA_MOV_RdDd => 1714 | BX_IA_MOV_RdTd => 1719 | BX_IA_MOV_RHIb => 352
  | BX_IA_MOV_SwEw => 1558 | BX_IA_MOV_TdRd => 1718 | BX_IA_MOVSX_GdEbM => 346 | BX_IA_MOVSX_GdEbR => 347
  | BX_IA_MOVSX_GdEwM => 348 | BX_IA_MOVSX_GdEwR => 349 | BX_IA_MOVSX_GwEbM => 329 | BX_IA_MOVSX_GwEbR => 330
  | BX_IA_MOVZX_GdEbM => 342 | BX_IA_MOVZX_GdEbR => 343 | BX_IA_MOVZX_GdEwM => 344 | BX_IA_MOVZX_GdEwR => 345
  | BX_IA_MOVZX_GwEbM => 327 | BX_IA_MOVZX_GwEbR => 328 | BX_IA_MUL_ALEbR => 178 | BX_IA_MUL_ALEbM => 565
  | BX_IA_MUL_AXEwR => 179 | BX_IA_MUL_AXEwM => 953 | BX_IA_MUL_EAXEdR => 180 | BX_IA_MUL_EAXEdM => 1341
  | BX_IA_NEG_EbM => 27 | BX_IA_NEG_EbR => 28 | BX_IA_NEG_EdM => 105 | BX_IA_NEG_EdR => 106 | BX_IA_NEG_EwM => 66
  | BX_IA_NEG_EwR => 67 | BX_IA_NOP | BX_IA_PREFETCHW | BX_IA_LFENCE | BX_IA_SFENCE | BX_IA_MFENCE => 1721
  | BX_IA_PAUSE => 1722 | BX_IA_NOT_EbM => 125 | BX_IA_NOT_EbR => 126 | BX_IA_NOT_EdM => 165 | BX_IA_NOT_EdR => 166
  | BX_IA_NOT_EwM => 145 | BX_IA_NOT_EwR => 146 | BX_IA_OR_ALIb => 129 | BX_IA_OR_AXIw => 149 | BX_IA_OR_EAXId => 169
  | BX_IA_OR_EbGbM => 127 | BX_IA_OR_EbIbM => 123 | BX_IA_OR_EbIbR => 124 | BX_IA_OR_EdGdM => 167
  | BX_IA_OR_EdIdM => 163 | BX_IA_OR_EdIdR => 164 | BX_IA_OR_EwGwM => 147 | BX_IA_OR_EwIwM => 143
  | BX_IA_OR_EwIwR => 144 | BX_IA_OR_GbEbM => 515 | BX_IA_OR_GbEbR => 128 | BX_IA_OR_GdEdM => 1329
  | BX_IA_OR_GdEdR => 168 | BX_IA_OR_GwEwM => 922 | BX_IA_OR_GwEwR => 148 | BX_IA_OUT_DXAL => 1749
  | BX_IA_OUT_DXAX => 1750 | BX_IA_OUT_DXEAX => 1751 | BX_IA_OUT_IbAL => 1743 | BX_IA_OUT_IbAX => 1744
  | BX_IA_OUT_IbEAX => 1745 | BX_IA_POP_EdM => 1596 | BX_IA_POP_EdR | BX_IA_POP_ERX => 1562 | BX_IA_POP_EwM => 1595
  | BX_IA_POP_EwR | BX_IA_POP_RX => 1561 | BX_IA_POP16_DS => 1575 | BX_IA_POP16_ES => 1576 | BX_IA_POP16_FS => 1577
  | BX_IA_POP16_GS => 1578 | BX_IA_POP16_SS => 1579 | BX_IA_POP32_DS => 1580 | BX_IA_POP32_ES => 1581
  | BX_IA_POP32_FS => 1582 | BX_IA_POP32_GS => 1583 | BX_IA_POP32_SS => 1584 | BX_IA_POPAD16 => 1591
  | BX_IA_POPAD32 => 1592 | BX_IA_POPF_Fd => 1612 | BX_IA_POPF_Fw => 1611 | BX_IA_PUSH_EdM => 1588
  | BX_IA_PUSH_EdR | BX_IA_PUSH_ERX => 1560 | BX_IA_PUSH_EwM => 1587 | BX_IA_PUSH_EwR | BX_IA_PUSH_RX => 1559
  | BX_IA_PUSH_Id => 1586 | BX_IA_PUSH_Iw => 1585 | BX_IA_PUSH16_CS => 1563 | BX_IA_PUSH16_DS => 1564
  | BX_IA_PUSH16_ES => 1565 | BX_IA_PUSH16_FS => 1566 | BX_IA_PUSH16_GS => 1567 | BX_IA_PUSH16_SS => 1568
  | BX_IA_PUSH32_CS => 1569 | BX_IA_PUSH32_DS => 1570 | BX_IA_PUSH32_ES => 1571 | BX_IA_PUSH32_FS => 1572
  | BX_IA_PUSH32_GS => 1573 | BX_IA_PUSH32_SS => 1574 | BX_IA_PUSHAD16 => 1589 | BX_IA_PUSHAD32 => 1590
  | BX_IA_PUSHF_Fd => 1610 | BX_IA_PUSHF_Fw => 1609 | BX_IA_RCL_Eb => 202 | BX_IA_RCL_Ew => 203 | BX_IA_RCR_Eb => 206
  | BX_IA_RCR_Ew => 207 | BX_IA_REP_CMPSB_XbYb => 1767 | BX_IA_REP_CMPSD_XdYd => 1769 | BX_IA_REP_CMPSW_XwYw => 1768
  | BX_IA_REP_INSB_YbDX => 1779 | BX_IA_REP_INSD_YdDX => 1781 | BX_IA_REP_INSW_YwDX => 1780
  | BX_IA_REP_LODSB_ALXb => 1776 | BX_IA_REP_LODSD_EAXXd => 1778 | BX_IA_REP_LODSW_AXXw => 1777
  | BX_IA_REP_MOVSB_XbYb => 1764 | BX_IA_REP_MOVSD_XdYd => 1766 | BX_IA_REP_MOVSW_XwYw => 1765
  | BX_IA_REP_OUTSB_DXXb => 1782 | BX_IA_REP_OUTSD_DXXd => 1784 | BX_IA_REP_OUTSW_DXXw => 1783
  | BX_IA_REP_SCASB_ALXb => 1770 | BX_IA_REP_SCASD_EAXXd => 1772 | BX_IA_REP_SCASW_AXXw => 1771
  | BX_IA_REP_STOSB_YbAL => 1773 | BX_IA_REP_STOSD_YdEAX => 1775 | BX_IA_REP_STOSW_YwAX => 1774
  | BX_IA_RETfar16 => 1786 | BX_IA_RETfar16_Iw => 1785 | BX_IA_RETfar32 => 1792 | BX_IA_RETfar32_Iw => 1791
  | BX_IA_RETnear16 => 1686 | BX_IA_RETnear16_Iw => 1685 | BX_IA_RETnear32 => 1690 | BX_IA_RETnear32_Iw => 1689
  | BX_IA_ROL_Eb => 194 | BX_IA_ROL_Ew => 195 | BX_IA_ROR_Eb => 196 | BX_IA_ROR_Ew => 197 | BX_IA_RCR_EdM => 208
  | BX_IA_RCL_EdM => 204 | BX_IA_ROL_EdM => 198 | BX_IA_ROR_EdM => 200 | BX_IA_SAR_EdM => 220 | BX_IA_SHL_EdM => 212
  | BX_IA_SHR_EdM => 216 | BX_IA_RCR_EdR => 209 | BX_IA_RCL_EdR => 205 | BX_IA_ROL_EdR => 199 | BX_IA_ROR_EdR => 201
  | BX_IA_SAR_EdR => 221 | BX_IA_SHL_EdR => 213 | BX_IA_SHR_EdR => 217 | BX_IA_SAHF => 1599 | BX_IA_SALC => 1608
  | BX_IA_SAR_Eb => 218 | BX_IA_SAR_Ew => 219 | BX_IA_SBB_ALIb => 8 | BX_IA_SBB_AXIw => 45 | BX_IA_SBB_EAXId => 82
  | BX_IA_SBB_EbGbM => 6 | BX_IA_SBB_EbIbM => 9 | BX_IA_SBB_EbIbR => 10 | BX_IA_SBB_EdGdM => 80
  | BX_IA_SBB_EdIdM => 83 | BX_IA_SBB_EdIdR => 84 | BX_IA_SBB_EwGwM => 43 | BX_IA_SBB_EwIwM => 46
  | BX_IA_SBB_EwIwR => 47 | BX_IA_SBB_GbEbM => 394 | BX_IA_SBB_GbEbR => 7 | BX_IA_SBB_GdEdM => 1242
  | BX_IA_SBB_GdEdR => 81 | BX_IA_SBB_GwEwM => 818 | BX_IA_SBB_GwEwR => 44 | BX_IA_SETB_EbM => 234
  | BX_IA_SETB_EbR => 235 | BX_IA_SETBE_EbM => 242 | BX_IA_SETBE_EbR => 243 | BX_IA_SETL_EbM => 254
  | BX_IA_SETL_EbR => 255 | BX_IA_SETLE_EbM => 258 | BX_IA_SETLE_EbR => 259 | BX_IA_SETNB_EbM => 236
  | BX_IA_SETNB_EbR => 237 | BX_IA_SETNBE_EbM => 244 | BX_IA_SETNBE_EbR => 245 | BX_IA_SETNL_EbM => 256
  | BX_IA_SETNL_EbR => 257 | BX_IA_SETNLE_EbM => 260 | BX_IA_SETNLE_EbR => 261 | BX_IA_SETNO_EbM => 232
  | BX_IA_SETNO_EbR => 233 | BX_IA_SETNP_EbM => 252 | BX_IA_SETNP_EbR => 253 | BX_IA_SETNS_EbM => 248
  | BX_IA_SETNS_EbR => 249 | BX_IA_SETNZ_EbM => 240 | BX_IA_SETNZ_EbR => 241 | BX_IA_SETO_EbM => 230
  | BX_IA_SETO_EbR => 231 | BX_IA_SETP_EbM => 250 | BX_IA_SETP_EbR => 251 | BX_IA_SETS_EbM => 246
  | BX_IA_SETS_EbR => 247 | BX_IA_SETZ_EbM => 238 | BX_IA_SETZ_EbR => 239 | BX_IA_SGDT_Ms => 1708
  | BX_IA_SHL_Eb => 210 | BX_IA_SHL_Ew => 211 | BX_IA_SHLD_EdGdR => 225 | BX_IA_SHLD_EdGdM => 224
  | BX_IA_SHLD_EwGwR => 223 | BX_IA_SHLD_EwGwM => 222 | BX_IA_SHR_Eb => 214 | BX_IA_SHR_Ew => 215
  | BX_IA_SHRD_EdGdR => 229 | BX_IA_SHRD_EdGdM => 228 | BX_IA_SHRD_EwGwR => 227 | BX_IA_SHRD_EwGwM => 226
  | BX_IA_SIDT_Ms => 1709 | BX_IA_SLDT_Ew => 1706 | BX_IA_SMSW_EwR => 1716 | BX_IA_SMSW_EwM => 1717
  | BX_IA_STC => 1602 | BX_IA_STD => 1606 | BX_IA_STI => 1604 | BX_IA_STR_Ew => 1707 | BX_IA_SUB_ALIb => 13
  | BX_IA_SUB_AXIw => 50 | BX_IA_SUB_EAXId => 87 | BX_IA_SUB_EbGbM => 11 | BX_IA_SUB_EbIbM => 23
  | BX_IA_SUB_EbIbR => 24 | BX_IA_SUB_EdGdM => 85 | BX_IA_SUB_EdIdM => 101 | BX_IA_SUB_EdIdR => 102
  | BX_IA_SUB_EwGwM => 48 | BX_IA_SUB_EwIwM => 62 | BX_IA_SUB_EwIwR => 63 | BX_IA_SUB_GbEbM => 399
  | BX_IA_SUB_GbEbR => 12 | BX_IA_SUB_GdEdM => 1247 | BX_IA_SUB_GdEdR => 86 | BX_IA_SUB_GwEwM => 823
  | BX_IA_SUB_GwEwR => 49 | BX_IA_SYSENTER => 1731 | BX_IA_SYSEXIT => 1732 | BX_IA_TEST_ALIb => 136
  | BX_IA_TEST_AXIw => 156 | BX_IA_TEST_EAXId => 176 | BX_IA_TEST_EbGbM => 522 | BX_IA_TEST_EbGbR => 135
  | BX_IA_TEST_EbIbM => 524 | BX_IA_TEST_EbIbR => 137 | BX_IA_TEST_EdGdM => 1336 | BX_IA_TEST_EdGdR => 175
  | BX_IA_TEST_EdIdM => 1338 | BX_IA_TEST_EdIdR => 177 | BX_IA_TEST_EwGwM => 929 | BX_IA_TEST_EwGwR => 155
  | BX_IA_TEST_EwIwM => 931 | BX_IA_TEST_EwIwR => 157 | BX_IA_VERR_Ew => 1703 | BX_IA_VERW_Ew => 1704
  | BX_IA_XCHG_EbGbM => 314 | BX_IA_XCHG_EbGbR => 315 | BX_IA_XCHG_EdGdM => 350 | BX_IA_XCHG_EdGdR => 351
  | BX_IA_XCHG_ERXEAX => 333 | BX_IA_XCHG_EwGwM => 331 | BX_IA_XCHG_EwGwR => 332 | BX_IA_XCHG_RXAX => 317
  | BX_IA_XLAT => 313 | BX_IA_XOR_ALIb => 120 | BX_IA_XOR_AXIw => 140 | BX_IA_XOR_EAXId => 160
  | BX_IA_XOR_EbGbM => 118 | BX_IA_XOR_EbIbM => 121 | BX_IA_XOR_EbIbR => 122 | BX_IA_XOR_EdGdM => 158
  | BX_IA_XOR_EdIdM => 161 | BX_IA_XOR_EdIdR => 162 | BX_IA_XOR_EwGwM => 138 | BX_IA_XOR_EwIwM => 141
  | BX_IA_XOR_EwIwR => 142 | BX_IA_XOR_GbEbM => 506 | BX_IA_XOR_GbEbR => 119 | BX_IA_XOR_GdEdM => 1320
  | BX_IA_XOR_GdEdR => 159 | BX_IA_XOR_GwEwM => 913 | BX_IA_XOR_GwEwR => 139 | BX_IA_MONITOR => 1729
  | BX_IA_MWAIT => 1730 | BX_IA_BSWAP_RX => 300 | BX_IA_BSWAP_ERX => 301 | BX_IA_INVD => 1724 | BX_IA_WBINVD => 1725
  | BX_IA_XADD_EbGbM => 17 | BX_IA_XADD_EbGbR => 18 | BX_IA_XADD_EdGdM => 95 | BX_IA_XADD_EdGdR => 96
  | BX_IA_XADD_EwGwM => 56 | BX_IA_XADD_EwGwR => 57 | BX_IA_CMPXCHG_EbGbM => 33 | BX_IA_CMPXCHG_EbGbR => 34
  | BX_IA_CMPXCHG_EdGdM => 109 | BX_IA_CMPXCHG_EdGdR => 110 | BX_IA_CMPXCHG_EwGwM => 70 | BX_IA_CMPXCHG_EwGwR => 71
  | BX_IA_INVLPG => 1733 | BX_IA_CMPXCHG8B => 111 | BX_IA_RDTSC => 1728 | BX_IA_CMOVB_GdEdM => 1532
  | BX_IA_CMOVB_GdEdR => 371 | BX_IA_CMOVB_GwEwM => 1129 | BX_IA_CMOVB_GwEwR => 355 | BX_IA_CMOVBE_GdEdM => 1536
  | BX_IA_CMOVBE_GdEdR => 375 | BX_IA_CMOVBE_GwEwM => 1133 | BX_IA_CMOVBE_GwEwR => 359 | BX_IA_CMOVL_GdEdM => 1542
  | BX_IA_CMOVL_GdEdR => 381 | BX_IA_CMOVL_GwEwM => 1139 | BX_IA_CMOVL_GwEwR => 365 | BX_IA_CMOVLE_GdEdM => 1544
  | BX_IA_CMOVLE_GdEdR => 383 | BX_IA_CMOVLE_GwEwM => 1141 | BX_IA_CMOVLE_GwEwR => 367 | BX_IA_CMOVNB_GdEdM => 1533
  | BX_IA_CMOVNB_GdEdR => 372 | BX_IA_CMOVNB_GwEwM => 1130 | BX_IA_CMOVNB_GwEwR => 356 | BX_IA_CMOVNBE_GdEdM => 1537
  | BX_IA_CMOVNBE_GdEdR => 376 | BX_IA_CMOVNBE_GwEwM => 1134 | BX_IA_CMOVNBE_GwEwR => 360
  | BX_IA_CMOVNL_GdEdM => 1543 | BX_IA_CMOVNL_GdEdR => 382 | BX_IA_CMOVNL_GwEwM => 1140 | BX_IA_CMOVNL_GwEwR => 366
  | BX_IA_CMOVNLE_GdEdM => 1545 | BX_IA_CMOVNLE_GdEdR => 384 | BX_IA_CMOVNLE_GwEwM => 1142
  | BX_IA_CMOVNLE_GwEwR => 368 | BX_IA_CMOVNO_GdEdM => 1531 | BX_IA_CMOVNO_GdEdR => 370 | BX_IA_CMOVNO_GwEwM => 1128
  | BX_IA_CMOVNO_GwEwR => 354 | BX_IA_CMOVNP_GdEdM => 1541 | BX_IA_CMOVNP_GdEdR => 380 | BX_IA_CMOVNP_GwEwM => 1138
  | BX_IA_CMOVNP_GwEwR => 364 | BX_IA_CMOVNS_GdEdM => 1539 | BX_IA_CMOVNS_GdEdR => 378 | BX_IA_CMOVNS_GwEwM => 1136
  | BX_IA_CMOVNS_GwEwR => 362 | BX_IA_CMOVNZ_GdEdM => 1535 | BX_IA_CMOVNZ_GdEdR => 374 | BX_IA_CMOVNZ_GwEwM => 1132
  | BX_IA_CMOVNZ_GwEwR => 358 | BX_IA_CMOVO_GdEdM => 1530 | BX_IA_CMOVO_GdEdR => 369 | BX_IA_CMOVO_GwEwM => 1127
  | BX_IA_CMOVO_GwEwR => 353 | BX_IA_CMOVP_GdEdM => 1540 | BX_IA_CMOVP_GdEdR => 379 | BX_IA_CMOVP_GwEwM => 1137
  | BX_IA_CMOVP_GwEwR => 363 | BX_IA_CMOVS_GdEdM => 1538 | BX_IA_CMOVS_GdEdR => 377 | BX_IA_CMOVS_GwEwM => 1135
  | BX_IA_CMOVS_GwEwR => 361 | BX_IA_CMOVZ_GdEdM => 1534 | BX_IA_CMOVZ_GdEdR => 373 | BX_IA_CMOVZ_GwEwM => 1131
  | BX_IA_CMOVZ_GwEwR => 357 | BX_IA_RDPMC => 1727 | BX_IA_UD2A | BX_IA_UD2B => 1720 | BX_IA_PREFETCH => 1723
  | BX_IA_MOVBE_GwEw => 302 | BX_IA_MOVBE_GdEd => 304 | BX_IA_MOVBE_EwGw => 303 | BX_IA_MOVBE_EdGd => 305
  | BX_IA_POPCNT_GdEdR => 299 | BX_IA_POPCNT_GdEdM => 1460 | BX_IA_POPCNT_GwEwR => 296 | BX_IA_POPCNT_GwEwM => 1070
  | _ => 0
  end.
Lemma opcode_row_ok op :
  match BxOpcodesTable op with
  | Some h => fst <$> handler_table !! Z.to_nat (opcode_row op) = Some h
  | None => True
  end.
Proof. destruct op; first [exact I | reflexivity]. Qed.

(** A handler with the instruction it implements, from [handler_table]. *)
Definition opcode_entry (op : bx_ia_opcode) : option (handler * handler) :=
  _ ← BxOpcodesTable op; handler_table !! Z.to_nat (opcode_row op).
Lemma opcode_entry_fst op : fst <$> opcode_entry op = BxOpcodesTable op.
Proof. unfold opcode_entry. pose proof (opcode_row_ok op) as H. by destruct (BxOpcodesTable op). Qed.
Lemma opcode_entry_row op p : opcode_entry op = Some p -> p ∈ handler_table.
Proof. unfold opcode_entry. destruct (BxOpcodesTable op); [|done]. apply list_elem_of_lookup_2. Qed.
Lemma BxError_row : (BxError, BxError) ∈ handler_table.
Proof. apply (opcode_entry_row BX_IA_ERROR). reflexivity. Qed.

(** ** A processor without some features (cpu/fetchdecode.cc) *)

Definition unsupported (features : Z) (op : bx_ia_opcode) : bool :=
  nz (BxOpcodeFeatures op) && (Z.land (BxOpcodeFeatures op) features =? 0).
(** [BxOpcodesTable[n].execute1] after it. *)
Definition init_FetchDecodeTables (features : Z) (op : bx_ia_opcode) : option handler :=
  if unsupported features op then Some BxError else BxOpcodesTable op.

(** What a table of handlers implements: none is outside [handler_table]. *)
Definition dispatch : Type := bx_ia_opcode -> option (handler * handler).
Definition sound_dispatch (t : dispatch) : Prop := forall op p, t op = Some p -> p ∈ handler_table.
(** As it is compiled in, and after [init_FetchDecodeTables()]. *)
Definition built_in : dispatch := opcode_entry.
Definition initialised (features : Z) : dispatch := fun op =>
  if unsupported features op then Some (BxError, BxError) else opcode_entry op.

Lemma built_in_fst op : fst <$> built_in op = BxOpcodesTable op.
Proof. apply opcode_entry_fst. Qed.
Lemma initialised_fst features op : fst <$> initialised features op = init_FetchDecodeTables features op.
Proof. unfold initialised, init_FetchDecodeTables. destruct (unsupported _ op); [done|]. apply opcode_entry_fst. Qed.
Lemma built_in_sound : sound_dispatch built_in.
Proof. intros op p. apply opcode_entry_row. Qed.
Lemma initialised_sound features : sound_dispatch (initialised features).
Proof.
  intros op p. unfold initialised. destruct (unsupported _ op); [|apply opcode_entry_row].
  intros [= <-]. apply BxError_row.
Qed.

(** The integer instructions of a processor up to the Pentium: all are modelled
    but four. *)
Definition integer_features : Z := Z.lor BX_CPU_486 BX_CPU_PENTIUM.
Lemma unmodelled_opcodes op :
  initialised integer_features op = None -> op ∈ [BX_IA_RSM; BX_IA_CPUID; BX_IA_WRMSR; BX_IA_RDMSR].
Proof.
  intros H. apply (f_equal (fmap fst)) in H. rewrite initialised_fst in H.
  destruct op; try discriminate H; rewrite !elem_of_cons; tauto.
Qed.

(** An opcode that needs two features is left in with one of them: FCMOV of the
    P6 on a Pentium. *)
Lemma FCMOV_needs_P6 :
  BxOpcodeFeatures BX_IA_FCMOV_ST0_STj = Z.lor BX_CPU_X87 BX_CPU_P6 /\
  unsupported (Z.lor BX_CPU_X87 BX_CPU_PENTIUM) BX_IA_FCMOV_ST0_STj = false.
Proof. done. Qed.
