(* ===== verification/Fetch.v ===== *)
(** * Fetch: from memory to instructions

    The window on the page of code (cpu/cpu.cc, [prefetch()]), fetching from it
    and across its end (cpu/icache.cc), the cache of decoded instructions
    (cpu/icache.h), the loop of cpu/cpu.cc around them, and how whitebochs.cc
    fetches its one instruction. *)
From stdpp Require Import base numbers list gmap.
From Stdlib Require Import ZArith Lia.
From S2P Require Import Prelude Opcodes OpcodeTables Machine LazyFlags Memory Paging Access Regs Precise Reference Mode Segment Frame Exception Delivery Contract Decode.
From S2P Require Import Stack Mult SysCtrl StringOps CtrlXfer FarXfer Handlers Cpu Reset Execute.

Local Open Scope Z_scope.

(** ** The window (cpu/cpu.cc) *)

Definition TLB_NoExecute : Z := 0x4.

(** Nothing fills the TLB: its entries are as in static storage, zero. *)
Definition tlb_entry (n : Z) (s : machine) : bx_TLB_entry := default (mk_TLB_entry 0 0 0 0 0) (TLB s !! n).

Definition CS_d_b (s : machine) : Z := seg_d_b (cache (sreg BX_SEG_REG_CS s)).

(** The page of [laddr], from the TLB or by a walk, and the host address it is at. *)
Definition prefetch_page (laddr : Z) : Mach unit :=
  let lpf := LPFOf laddr in
  tlbEntry ← gets (tlb_entry (BX_TLB_INDEX_OF lpf 0));
  user ← gets user_pl;
  fetchPtr ←
    (if (tlb_lpf tlbEntry =? lpf) && negb (nz (Z.land (tlb_accessBits tlbEntry) (Z.lor TLB_NoExecute user))) then
       modify (with_pAddrPage (tlb_ppf tlbEntry));;
       mret (tlb_hostPageAddr tlbEntry)
     else
       cpl ← gets CPL;
       pAddr ← translate_linear laddr cpl BX_EXECUTE;
       modify (with_pAddrPage (LPFOf pAddr));;
       mret 0);
  if nz fetchPtr then modify (with_eipFetchPtr fetchPtr)
  else page ← gets pAddrPage; p ← getHostMemAddr page; modify (with_eipFetchPtr p).

Definition prefetch : Mach unit :=
  eip ← EIP;
  laddr ← get_laddr32 BX_SEG_REG_CS eip;
  let pageOffset := PAGE_OFFSET laddr in
  let eipPageBias := u32 (pageOffset - eip) in
  modify (with_eipPageBias eipPageBias);;
  limit ← gets CS_limit;
  when (limit <? eip) (exception BX_GP_EXCEPTION 0);;
  modify (with_eipPageWindowSize 4096);;
  when (u32 (limit + eipPageBias) <? 4096) (modify (with_eipPageWindowSize (u32 (limit + eipPageBias + 1))));;
  prefetch_page laddr.

(** ** Fetching (cpu/icache.cc)

    The bytes at a host address, as many as an instruction can have or the region
    holds. *)
Definition host_bytes (p : Z) (s : machine) : list Z :=
  let a := p - physmem_base in
  if a <? 0 then [] else
  mem_bytes (mem_vector (memory s)) a (Z.to_nat (Z.min 15 (mem_len (memory s) + 4096 - a))).
(** The loop [for (j = 0; j < n; j++) buffer[j] = *fetchPtr++], for [n <= 15]. *)
Definition copy_bytes (p n : Z) : Mach (list Z) :=
  l ← gets (host_bytes p);
  if n <=? Z.of_nat (length l) then mret (take (Z.to_nat n) l) else crash.

Section Storage.
(** What a decoding that is refused leaves in the instruction. *)
Variable leftover : Z -> list Z -> bxInstruction_c -> Z -> bxInstruction_c.

Definition boundaryFetch (fetchPtr remainingInPage : Z) (i : bxInstruction_c) : Mach bxInstruction_c :=
  when (15 <=? remainingInPage) (exception BX_GP_EXCEPTION 0);;
  chunk ← copy_bytes fetchPtr remainingInPage;
  eip ← EIP;
  set_EIP (eip + remainingInPage);;
  prefetch;;
  window ← gets eipPageWindowSize;
  let fetchBufferLimit := if window <? 15 then window else 15 in
  p ← gets eipFetchPtr;
  chunk2 ← copy_bytes p fetchBufferLimit;
  d_b ← gets CS_d_b;
  match fetchDecode32 d_b (chunk ++ chunk2) i (remainingInPage + fetchBufferLimit) with
  | Fetched i _ _ => prev ← gets prev_rip; set_EIP prev;; mret i
  | Refused => exception BX_GP_EXCEPTION 0
  | Stuck => crash
  end.

(** Decode in place, or by [boundaryFetch()] if that is refused: the instruction,
    and whether it can be cached. *)
Definition fetch_at (fetchPtr remainingInPage : Z) (i : bxInstruction_c) : Mach (bxInstruction_c * bool) :=
  bytes ← gets (host_bytes fetchPtr);
  d_b ← gets CS_d_b;
  match fetchDecode32 d_b bytes i remainingInPage with
  | Fetched i _ _ => mret (i, true)
  | Refused => i ← boundaryFetch fetchPtr remainingInPage (leftover d_b bytes i remainingInPage); mret (i, false)
  | Stuck => crash
  end.
Definition fetchInstruction (iStorage : bxInstruction_c) (eipBiased : Z) : Mach (bxInstruction_c * bool) :=
  window ← gets eipPageWindowSize;
  p ← gets eipFetchPtr;
  fetch_at (p + eipBiased) (u32 (window - eipBiased)) iStorage.

(** whitebochs.cc: the address is linear, and is used as a physical one. *)
Definition fetch_and_decode (rip : Z) (i : bxInstruction_c) : Mach bxInstruction_c :=
  p ← getHostMemAddr rip;
  r ← fetch_at p (u32 (Z.land rip 0x1000 + 0xfff - rip)) i;
  mret r.1.
End Storage.

(** ** The cache of instructions (cpu/icache.h) *)

Definition ICacheWriteStampInvalid : Z := 0xffffffff.
Definition ICacheWriteStampStart : Z := 0x7fffffff.
Definition ICacheWriteStampFetchModeMask : Z := u32 (Z.lnot ICacheWriteStampStart).
Definition BxICacheEntries : Z := 64 * 1024.

Record bxICacheEntry_c : Type := mk_icache_entry {
  e_pAddr : Z;
  e_writeStamp : Z;
  e_i : bxInstruction_c
}.
(** The entries and the stamps of the pages.  The constructor sets the stamps of the
    entries to the invalid one; what else the entries hold and the stamps of the
    pages, whose initialisation is commented out, may be anything to begin with. *)
Record icache : Type := mk_icache {
  ic_entry : Z -> bxICacheEntry_c;
  ic_stamps : Z -> Z
}.

Definition stamp_hash (pAddr : Z) : Z := Z.shiftr pAddr 12.
Definition getPageWriteStamp (c : icache) (pAddr : Z) : Z := ic_stamps c (stamp_hash pAddr).
Definition setPageWriteStamp (pAddr stamp : Z) (c : icache) : icache :=
  mk_icache (ic_entry c) (fun n => if n =? stamp_hash pAddr then stamp else ic_stamps c n).
Definition markICache (pAddr : Z) (c : icache) : icache :=
  setPageWriteStamp pAddr (Z.lor (getPageWriteStamp c pAddr) ICacheWriteStampFetchModeMask) c.
Definition decWriteStamp (pAddr : Z) (c : icache) : icache :=
  let stamp := getPageWriteStamp c pAddr in
  if nz (Z.land stamp ICacheWriteStampFetchModeMask) then
    setPageWriteStamp pAddr (Z.land (u32 (stamp - 1)) (u32 (Z.lnot ICacheWriteStampFetchModeMask))) c
  else c.

Definition icache_hash (pAddr mask : Z) : Z := Z.lxor (Z.land pAddr (BxICacheEntries - 1)) mask.
Definition get_entry (pAddr mask : Z) (c : icache) : bxICacheEntry_c := ic_entry c (icache_hash pAddr mask).
Definition set_entry (pAddr mask : Z) (e : bxICacheEntry_c) (c : icache) : icache :=
  mk_icache (fun n => if n =? icache_hash pAddr mask then e else ic_entry c n) (ic_stamps c).
Definition flushICacheEntries (c : icache) : icache :=
  mk_icache (fun n => mk_icache_entry (e_pAddr (ic_entry c n)) ICacheWriteStampInvalid (e_i (ic_entry c n))) (ic_stamps c).

Section Loop.
(** What a decoding that is refused, and a fetch that raises an exception, leave in
    the instruction. *)
Variable leftover : Z -> list Z -> bxInstruction_c -> Z -> bxInstruction_c.
Variable faulted : bxInstruction_c -> machine -> bxInstruction_c.

(** [*currPageWriteStampPtr]: [prefetch()] points it at the stamp of the page. *)
Definition current_stamp (c : icache) (s : machine) : Z := getPageWriteStamp c (pAddrPage s).

(** The entry is the one of [pAddr]; it stays invalid if the fetch does not return,
    or decodes across a boundary. *)
Definition serveICacheMiss (eipBiased pAddr : Z) (c : icache) (s : machine) : outcome machine bxInstruction_c * icache :=
  let mask := fetchModeMask s in
  let e := get_entry pAddr mask c in
  let invalid (i : bxInstruction_c) := set_entry pAddr mask (mk_icache_entry (e_pAddr e) ICacheWriteStampInvalid i) c in
  match fetchInstruction leftover (e_i e) eipBiased s with
  | Ret (i, true) s' =>
      (Ret i s', markICache pAddr (set_entry pAddr mask (mk_icache_entry pAddr (current_stamp c s') i) c))
  | Ret (i, false) s' => (Ret i s', invalid i)
  | Fault v x s' => (Fault v x s', invalid (faulted (e_i e) (norm s')))
  | Crash => (Crash, c)
  end.

(** ** The loop (cpu/cpu.cc)

    [eipBiased], after [prefetch()] if EIP has left the window. *)
Definition locate : Mach Z :=
  eip ← EIP;
  bias ← gets eipPageBias;
  window ← gets eipPageWindowSize;
  if window <=? u32 (eip + bias) then
    prefetch;; eip ← EIP; bias ← gets eipPageBias; mret (u32 (eip + bias))
  else mret (u32 (eip + bias)).

Definition fetch_cached (c : icache) (s : machine) : outcome machine bxInstruction_c * icache :=
  match locate s with
  | Ret eipBiased s =>
      let pAddr := u32 (pAddrPage s + eipBiased) in
      let entry := get_entry pAddr (fetchModeMask s) c in
      if negb (e_pAddr entry =? pAddr) || negb (e_writeStamp entry =? current_stamp c s) then
        serveICacheMiss eipBiased pAddr c s
      else (Ret (e_i entry) s, c)
  | Fault v x s => (Fault v x s, c)
  | Crash => (Crash, c)
  end.

(** How some turns of the loop end: with the last one done, or where it cannot go on. *)
Inductive loop_end : Type :=
  | Ended (d : delivery)
  | Unmodelled (ia_opcode : bx_ia_opcode).
Definition map_end (f : machine -> machine) (e : loop_end) : loop_end :=
  match e with Ended d => Ended (map_delivery f d) | Unmodelled op => Unmodelled op end.

Definition deliver_fault (fuel : nat) (v e : Z) (s : machine) : option delivery :=
  match exception_loop fuel v e s with
  | Some (Delivered s) => Some (Delivered (loop_head s))
  | o => o
  end.

Definition loop_turn (table : bx_ia_opcode -> option handler) (fuel : nat) (c : icache) (s : machine) :
    option loop_end * icache :=
  match fetch_cached c s with
  | (Ret i s, c) =>
      (match table (ia_opcode i) with
       | Some execute => Ended <$> cpu_step fuel execute i (ilen i) s
       | None => Some (Unmodelled (ia_opcode i))
       end, c)
  | (Fault v e s, c) => (Ended <$> deliver_fault fuel v e s, c)
  | (Crash, c) => (Some (Ended Aborted), c)
  end.

Fixpoint cpu_loop (table : bx_ia_opcode -> option handler) (fuel turns : nat) (c : icache) (s : machine) :
    option loop_end :=
  match turns with
  | O => Some (Ended (Delivered s))
  | S turns =>
      match loop_turn table fuel c s with
      | (Some (Ended (Delivered s)), c) => cpu_loop table fuel turns c s
      | (o, _) => o
      end
  end.
End Loop.

(** ** What fetching leaves alone *)

Lemma host_bytes_norm p s : host_bytes p (norm s) = host_bytes p s.
Proof. done. Qed.

Lemma prefetch_steady : steady prefetch.
Proof. unfold prefetch, prefetch_page, get_laddr32, EIP, getHostMemAddr. unfold_widths. steady_tac. Qed.
Lemma prefetch_refines : refines prefetch prefetch.
Proof. unfold prefetch, prefetch_page, EIP, getHostMemAddr, get_laddr32. unfold_widths. cbv zeta. refines_tac. Qed.
Lemma prefetch_wf : preserves wf prefetch.
Proof. unfold prefetch, prefetch_page, EIP, getHostMemAddr, get_laddr32. unfold_widths. cbv zeta. repeat first [preserves_step | wf_modify]. Qed.

#[export] Hint Resolve prefetch_steady : steady.
#[export] Hint Resolve prefetch_refines : refines.
#[export] Hint Resolve prefetch_wf : preserves.
Ltac fetch_unfold := unfold fetchInstruction, fetch_at, boundaryFetch, copy_bytes, locate, EIP, set_EIP; unfold_widths; cbv zeta.
Ltac fetch_wf := repeat first [preserves_step | wf_modify].

Section Kept.
Variable leftover : Z -> list Z -> bxInstruction_c -> Z -> bxInstruction_c.

Lemma boundaryFetch_steady p n i : steady (boundaryFetch p n i).
Proof. fetch_unfold. steady_tac. Qed.
Lemma boundaryFetch_wf p n i : preserves wf (boundaryFetch p n i).
Proof. fetch_unfold. fetch_wf. Qed.
Lemma boundaryFetch_refines p n i : refines (boundaryFetch p n i) (boundaryFetch p n i).
Proof. fetch_unfold. refines_tac. Qed.
Lemma fetchInstruction_steady i e : steady (fetchInstruction leftover i e).
Proof. fetch_unfold. steady_tac. Qed.
Lemma fetchInstruction_wf i e : preserves wf (fetchInstruction leftover i e).
Proof. fetch_unfold. fetch_wf. Qed.
Lemma fetchInstruction_refines i e : refines (fetchInstruction leftover i e) (fetchInstruction leftover i e).
Proof. fetch_unfold. refines_tac. Qed.
End Kept.
Lemma locate_steady : steady locate.
Proof. fetch_unfold. steady_tac. Qed.
Lemma locate_wf : preserves wf locate.
Proof. fetch_unfold. fetch_wf. Qed.
Lemma locate_refines : refines locate locate.
Proof. fetch_unfold. refines_tac. Qed.

(** All a walk can change: memory, CR2, and a mark that there are large pages. *)
Definition walked (s0 s : machine) : Prop :=
  exists m c t, s = with_memory m (with_cr2 c (with_TLB_split_large t s0)) /\ mem_len m = mem_len (memory s0).
Lemma walked_refl s : walked s s.
Proof. exists (memory s), (cr2 s), (TLB_split_large s). by destruct s. Qed.

Section Walked.
Context (s0 : machine).
Lemma walked_memory m s : mem_len m = mem_len (memory s) -> walked s0 s -> walked s0 (with_memory m s).
Proof. intros E (m' & c & t & -> & Hm). exists m, c, t. split; [done|]. by rewrite E. Qed.
Lemma walked_cr2 x s : walked s0 s -> walked s0 (with_cr2 x s).
Proof. intros (m' & c & t & -> & Hm). by exists m', x, t. Qed.
Lemma walked_split x s : walked s0 s -> walked s0 (with_TLB_split_large x s).
Proof. intros (m' & c & t & -> & Hm). by exists m', c, x. Qed.

Ltac walked_step :=
  match goal with
  | |- preserves _ (modify (fun s => with_memory _ s)) => apply preserves_modify; intros ? ?; by apply walked_memory
  | |- preserves _ (modify (with_cr2 _)) => apply preserves_modify; intros ? ?; by apply walked_cr2
  | |- preserves _ (modify (with_TLB_split_large _)) => apply preserves_modify; intros ? ?; by apply walked_split
  | _ => preserves_step
  end.
Lemma translate_linear_walked l p r : preserves (walked s0) (translate_linear l p r).
Proof.
  unfold translate_linear, translate_PDE4M, translate_PTE, page_fault, read_physical, write_physical,
    access_read_physical, access_write_physical, readPhysicalPage, writePhysicalPage. repeat walked_step.
Qed.
End Walked.

(** ** What [prefetch()] does *)

(** The physical page of [laddr].  The entries of the TLB being zero, that of the
    page at 0 is found there. *)
Definition code_page (laddr : Z) : Mach Z :=
  page ← (if LPFOf laddr =? 0 then mret 0
          else cpl ← gets CPL; pAddr ← translate_linear laddr cpl BX_EXECUTE; mret (LPFOf pAddr));
  len ← gets (fun s => mem_len (memory s));
  if page <? len then mret page else crash.
Definition at_page (page : Z) (s : machine) : machine := with_eipFetchPtr (physmem_base + page) (with_pAddrPage page s).

Lemma walked_TLB s0 s : walked s0 s -> TLB s = TLB s0.
Proof. by intros (m & c & t & -> & _). Qed.
Lemma code_page_walked laddr s :
  match code_page laddr s with
  | Ret page s' => walked s s' /\ page < mem_len (memory s')
  | Fault _ _ s' => walked s s'
  | Crash => True
  end.
Proof.
  pose proof (translate_linear_walked s laddr (CPL s) BX_EXECUTE s (walked_refl s)) as H. unfold code_page.
  destruct (LPFOf laddr =? 0).
  - unfold mbind, M_bind, mret, M_ret, gets. destruct (Z.ltb_spec 0 (mem_len (memory s))); [|done].
    split; [apply walked_refl|done].
  - unfold mbind, M_bind, gets. destruct (translate_linear laddr (CPL s) BX_EXECUTE s) as [pAddr s'| |]; [|done|done].
    unfold mret, M_ret. destruct (Z.ltb_spec (LPFOf pAddr) (mem_len (memory s'))); [done|done].
Qed.
Lemma prefetch_page_eq laddr s :
  TLB s = ∅ ->
  prefetch_page laddr s =
    match code_page laddr s with
    | Ret page s' => Ret tt (at_page page s')
    | Fault v e s' => Fault v e s'
    | Crash => Crash
    end.
Proof.
  intros Ht. unfold prefetch_page, code_page. rewrite (bind_gets (tlb_entry _)), (bind_gets user_pl).
  unfold tlb_entry. rewrite Ht, lookup_empty. cbn [default tlb_lpf tlb_accessBits tlb_ppf tlb_hostPageAddr].
  rewrite Z.land_0_l, (Z.eqb_sym 0). unfold getHostMemAddr, mbind, M_bind, gets, modify, mret, M_ret.
  destruct (LPFOf laddr =? 0); cbn [andb negb nz Z.eqb].
  - cbn. by destruct (0 <? mem_len (memory s)).
  - destruct (translate_linear laddr (CPL s) BX_EXECUTE s) as [pAddr s'| |]; [|done|done]. cbn.
    by destruct (LPFOf pAddr <? mem_len (memory s')).
Qed.

Definition fetch_eip (s : machine) : Z := u32 (reg BX_32BIT_REG_EIP s).
Definition code_laddr (eip : Z) (s : machine) : Z := u32 (seg_base (cache (sreg BX_SEG_REG_CS s)) + eip).
Definition bias_at (eip : Z) (s : machine) : Z := u32 (PAGE_OFFSET (code_laddr eip s) - eip).
Definition window_at (eip : Z) (s : machine) : Z :=
  if u32 (CS_limit s + bias_at eip s) <? 4096 then u32 (CS_limit s + bias_at eip s + 1) else 4096.
Definition with_window (eip : Z) (s : machine) : machine :=
  with_eipPageWindowSize (window_at eip s) (with_eipPageBias (bias_at eip s) s).

Lemma prefetch_eq s :
  TLB s = ∅ ->
  prefetch s =
    if CS_limit s <? fetch_eip s then Fault BX_GP_EXCEPTION 0 (with_eipPageBias (bias_at (fetch_eip s) s) s)
    else match code_page (code_laddr (fetch_eip s) s) (with_window (fetch_eip s) s) with
         | Ret page s' => Ret tt (at_page page s')
         | Fault v e s' => Fault v e s'
         | Crash => Crash
         end.
Proof.
  intros Ht. rewrite <-prefetch_page_eq by done. unfold prefetch, EIP, BX_READ_32BIT_REG, get_laddr32.
  rewrite (bind_gets (fun s => erx (reg BX_32BIT_REG_EIP s))). change (erx (reg BX_32BIT_REG_EIP s)) with (fetch_eip s).
  rewrite bind_gets, bind_modify, bind_gets. fold (code_laddr (fetch_eip s) s) (bias_at (fetch_eip s) s).
  change (CS_limit (with_eipPageBias _ s)) with (CS_limit s). destruct (CS_limit s <? fetch_eip s); [done|].
  unfold with_window, window_at, when, mbind, M_bind, modify, mret, M_ret.
  by destruct (u32 (CS_limit s + bias_at (fetch_eip s) s) <? 4096).
Qed.

(** ** One turn *)

(** EIP is back at the instruction when a fetch returns. *)
Definition restores_eip {A} (m : Mach A) : Prop :=
  forall s a s', m s = Ret a s' -> length (gen_reg s') = 11%nat -> fetch_eip s' = u32 (prev_rip s').
Lemma restores_bind {A B} (m : Mach A) (k : A -> Mach B) : (forall a, restores_eip (k a)) -> restores_eip (m ≫= k).
Proof. intros Hk s b s'. unfold mbind, M_bind. destruct (m s) as [a s1| |]; [apply Hk|done|done]. Qed.
Lemma boundaryFetch_restores p n i : restores_eip (boundaryFetch p n i).
Proof.
  unfold boundaryFetch. cbv zeta. repeat (apply restores_bind; intros ?). case_match; [|done|done].
  unfold set_EIP, BX_WRITE_32BIT_REGZ. intros s x s' E Hl. apply Ret_inj in E as [<- <-].
  assert (length (gen_reg s) = 11%nat) by (revert Hl; unfold set_reg; cbn [gen_reg with_gen_reg]; by rewrite length_insert).
  unfold fetch_eip. rewrite reg_set_eq by (done || (unfold BX_32BIT_REG_EIP; lia)). cbn. unfold put_erx. by rewrite wrap_wrap by lia.
Qed.

Lemma prefetch_regs s :
  TLB s = ∅ -> match prefetch s with Ret _ s' => gen_reg s' = gen_reg s | _ => True end.
Proof.
  intros Ht. rewrite prefetch_eq by done. destruct (CS_limit s <? fetch_eip s); [done|].
  pose proof (code_page_walked (code_laddr (fetch_eip s) s) (with_window (fetch_eip s) s)) as H.
  destruct (code_page _ _) as [page s'| |]; [|done|done]. destruct H as [(m & c & t & -> & _) _]. done.
Qed.
Lemma locate_regs s :
  TLB s = ∅ -> match locate s with Ret _ s' => gen_reg s' = gen_reg s | _ => True end.
Proof.
  intros Ht. pose proof (prefetch_regs s Ht) as H. unfold locate, EIP, BX_READ_32BIT_REG.
  rewrite !bind_gets. destruct (eipPageWindowSize s <=? _); [|done].
  unfold mbind, M_bind. by destruct (prefetch s).
Qed.

Section Turn.
Variable leftover : Z -> list Z -> bxInstruction_c -> Z -> bxInstruction_c.
Variable faulted : bxInstruction_c -> machine -> bxInstruction_c.

Definition fetched_ok {A} (o : outcome machine A) : Prop :=
  match o with
  | Ret _ s' => cpu_ok s'
  | Fault _ _ s' => wf s' /\ mode_known s' /\ errorno s' = 0
  | Crash => True
  end.
Lemma steady_ok {A} (m : Mach A) s :
  steady m -> preserves wf m -> cpu_ok s -> (forall a s', m s = Ret a s' -> wf s' -> fetch_eip s' = u32 (prev_rip s')) -> fetched_ok (m s).
Proof.
  intros Hst Hwf (Hw & Hc & He & Hs & Hr) Hip. specialize (Hst s). specialize (Hwf s Hw). unfold fetched_ok.
  destruct (m s) as [a s'|v e s'|] eqn:E; [| |done]; pose proof (coherent_control _ _ Hst Hc) as Hc';
    pose proof (control_pending _ _ Hst) as Hp; unfold pending in Hp; rewrite !pair_equal_spec in Hp; destruct Hp as [[Hp1 _] Hp2].
  - split_and!; try done; [by rewrite Hp1| |].
    + apply control_rsp in Hst as [-> _]. done.
    + specialize (Hip a s' eq_refl Hwf). change (u32 (reg BX_32BIT_REG_EIP s')) with (fetch_eip s'). rewrite Hip, Hp2, Hr.
      by rewrite wrap_wrap by lia.
  - split_and!; [done|by apply coherent_mode_known|by rewrite Hp1].
Qed.
End Turn.

Lemma locate_ok s : cpu_ok s -> fetched_ok (locate s).
Proof.
  intros Hok. apply steady_ok; [apply locate_steady|apply locate_wf|done|]. intros a s' E _.
  destruct Hok as (Hw & _ & _ & _ & Hr). pose proof (locate_regs s ltac:(apply Hw)) as H. rewrite E in H.
  pose proof (locate_steady s) as Hst. rewrite E in Hst. apply control_pending in Hst. unfold pending in Hst.
  rewrite !pair_equal_spec in Hst. destruct Hst as [_ ->]. rewrite Hr, wrap_wrap by lia. unfold fetch_eip, reg. by rewrite H.
Qed.
Section Loop_ok.
Variable leftover : Z -> list Z -> bxInstruction_c -> Z -> bxInstruction_c.
Variable faulted : bxInstruction_c -> machine -> bxInstruction_c.

Lemma fetchInstruction_ok i e s : cpu_ok s -> fetched_ok (fetchInstruction leftover i e s).
Proof.
  intros Hok. apply steady_ok; [apply fetchInstruction_steady|apply fetchInstruction_wf|done|].
  intros a s' E [[Hl _] _]. revert E. unfold fetchInstruction, fetch_at. rewrite !bind_gets.
  destruct (fetchDecode32 _ _ _ _); [| |done].
  - intros [_ <-]%Ret_inj. destruct Hok as (_ & _ & _ & _ & ->). by rewrite wrap_wrap by lia.
  - unfold mbind, M_bind. destruct (boundaryFetch _ _ _ _) as [i' s1| |] eqn:E; [|done|done].
    intros [_ <-]%Ret_inj. by eapply boundaryFetch_restores.
Qed.

(** The instruction comes from the cache or from memory; either way the loop can go on. *)
Lemma fetch_cached_ok c s : cpu_ok s -> fetched_ok (fetch_cached leftover faulted c s).1.
Proof.
  intros Hok. pose proof (locate_ok s Hok) as H. unfold fetch_cached.
  destruct (locate s) as [e s1|v x s1|]; [|done|done]. destruct (_ || _); [|done]. unfold serveICacheMiss.
  pose proof (fetchInstruction_ok (e_i (get_entry (u32 (pAddrPage s1 + e)) (fetchModeMask s1) c)) e s1 H) as Hf.
  by destruct (fetchInstruction _ _ _ _) as [[i []]| |].
Qed.
Lemma fetch_cached_norm c s :
  fetch_cached leftover faulted c (norm s) =
    (omap_state norm (fetch_cached leftover faulted c s).1, (fetch_cached leftover faulted c s).2).
Proof.
  unfold fetch_cached. rewrite <-(locate_refines s). destruct (locate s) as [e s1|v x s1|]; [|done|done].
  cbn [omap_state]. change (pAddrPage (norm s1)) with (pAddrPage s1). change (fetchModeMask (norm s1)) with (fetchModeMask s1).
  change (current_stamp c (norm s1)) with (current_stamp c s1). destruct (_ || _); [|done]. unfold serveICacheMiss.
  rewrite <-fetchInstruction_refines. change (fetchModeMask (norm s1)) with (fetchModeMask s1).
  destruct (fetchInstruction _ _ _ _) as [[i []] s2| |]; try done. cbn. by rewrite (norm_known (norm _)).
Qed.

Lemma deliver_fault_ok v e s :
  wf s -> mode_known s -> errorno s = 0 ->
  exists d, (forall fuel, (5 <= fuel)%nat -> deliver_fault fuel v e s = Some d) /\ next_ok d.
Proof.
  intros Hw Hc He. destruct (exception_ends v e s ltac:(lia)) as [d Hd].
  pose proof (exception_loop_settles 5 v e s d Hw Hc Hd) as Hset.
  assert (d <> OutOfBounds) as Hb by (intros ->; revert Hd; apply in_bounds; split; lia).
  exists (match d with Delivered s => Delivered (loop_head s) | d => d end). split.
  - intros fuel Hf. unfold deliver_fault. rewrite (exception_more_fuel 5 fuel v e s d) by done. by destruct d.
  - destruct d as [s2|s2| |]; try done. by destruct Hset as (? & ? & ? & ?).
Qed.
Lemma deliver_fault_norm fuel v e s :
  deliver_fault fuel v e (norm s) = map_delivery norm <$> deliver_fault fuel v e s.
Proof. unfold deliver_fault. rewrite exception_loop_norm. by destruct (exception_loop fuel v e s) as [[]|]. Qed.

Definition end_ok (e : loop_end) : Prop := match e with Ended d => next_ok d | Unmodelled _ => True end.
Section Dispatch.
Context (t : dispatch) (Ht : sound_dispatch t).
(** What the loop executes, and what it is specified to execute. *)
Definition executed (op : bx_ia_opcode) : option handler := fst <$> t op.
Definition specified (op : bx_ia_opcode) : option handler := snd <$> t op.

Lemma loop_turn_ok c s :
  cpu_ok s ->
  exists d c', end_ok d /\ forall fuel, (5 <= fuel)%nat -> loop_turn leftover faulted executed fuel c s = (Some d, c').
Proof.
  intros Hok. pose proof (fetch_cached_ok c s Hok) as H. unfold loop_turn.
  destruct (fetch_cached leftover faulted c s) as [[i s1|v e s1|] c']; cbn [fst] in H.
  - unfold executed. destruct (t (ia_opcode i)) as [p|] eqn:E; cbn; [|by exists (Unmodelled (ia_opcode i)), c'].
    apply Ht, row_contract in E. destruct (step_ok p E i (ilen i) s1 H) as (d & Hd & Hn).
    exists (Ended d), c'. split; [done|]. intros fuel Hf. by rewrite (Hd fuel Hf).
  - destruct H as (Hw & Hc & He). destruct (deliver_fault_ok v e s1 Hw Hc He) as (d & Hd & Hn).
    exists (Ended d), c'. split; [done|]. intros fuel Hf. by rewrite (Hd fuel Hf).
  - by exists (Ended Aborted), c'.
Qed.
Lemma loop_turn_norm fuel c s :
  loop_turn leftover faulted specified fuel c (norm s) =
    (map_end norm <$> (loop_turn leftover faulted executed fuel c s).1, (loop_turn leftover faulted executed fuel c s).2).
Proof.
  unfold loop_turn. rewrite fetch_cached_norm.
  destruct (fetch_cached leftover faulted c s) as [[i s1|v e s1|] c']; cbn [fst snd omap_state]; [| |done].
  - unfold executed, specified. destruct (t (ia_opcode i)) as [p|] eqn:E; [|done]. cbn.
    apply Ht, row_contract in E. rewrite (step_refines p E). by destruct (cpu_step fuel p.1 i (ilen i) s1).
  - rewrite deliver_fault_norm. by destruct (deliver_fault fuel v e s1).
Qed.

(** C2: the loop of the processor, from the bytes in memory: [prefetch()], the
    decoder, the cache of decoded instructions (whatever it holds to begin with),
    the table of handlers and the delivery of exceptions, those of fetching
    included.  Any number of turns ends, nested exceptions needing a depth of no
    more than five: with all of them done, in a triple fault, at a point the
    emulator cannot get past, or at an instruction that is not modelled; never by
    reading outside a table.  What the handlers do on pending flags is what their
    specifications do on the architectural state, and the invariant of the loop
    holds again. *)
Theorem cpu_loop_correct turns c s :
  cpu_ok s ->
  exists d, end_ok d /\ forall fuel, (5 <= fuel)%nat ->
    cpu_loop leftover faulted executed fuel turns c s = Some d /\
    cpu_loop leftover faulted specified fuel turns c (norm s) = Some (map_end norm d).
Proof.
  revert c s. induction turns as [|turns IH]; intros c s Hok; [by exists (Ended (Delivered s))|].
  destruct (loop_turn_ok c s Hok) as (d & c' & Hd & Hl).
  destruct d as [[s1|s1| |]|op].
  1: { destruct (IH c' s1 Hd) as (d & Hd' & H'). exists d. split; [done|]. intros fuel Hf. cbn [cpu_loop].
       rewrite loop_turn_norm, (Hl fuel Hf). by apply H'. }
  all: eexists; split; [exact Hd|]; intros fuel Hf; cbn [cpu_loop]; by rewrite loop_turn_norm, (Hl fuel Hf).
Qed.
End Dispatch.
End Loop_ok.

(** ** Which bytes an instruction is decoded from *)

Section Bytes.
Variable leftover : Z -> list Z -> bxInstruction_c -> Z -> bxInstruction_c.

(** Where the code at [eip] is in physical memory, and how much of it there is up
    to the end of the page or of the segment. *)
Definition code_at (eip : Z) : Mach (Z * Z) :=
  modify (fun s => with_eipPageBias (bias_at eip s) s);;
  limit ← gets CS_limit;
  when (limit <? eip) (exception BX_GP_EXCEPTION 0);;
  modify (with_window eip);;
  laddr ← gets (code_laddr eip);
  page ← code_page laddr;
  modify (at_page page);;
  mret (page + PAGE_OFFSET laddr, Z.min (4096 - PAGE_OFFSET laddr) (limit - eip + 1)).

(** The instruction at EIP: decoded from the bytes in its page, or if they are not
    enough, from those followed by the ones at the beginning of the next. *)
Definition ref_cross (eip p n : Z) (i : bxInstruction_c) : Mach bxInstruction_c :=
  when (15 <=? n) (exception BX_GP_EXCEPTION 0);;
  first ← copy_bytes p n;
  set_EIP (eip + n);;
  r ← code_at (u32 (eip + n));
  second ← copy_bytes (physmem_base + r.1) (Z.min 15 r.2);
  d_b ← gets CS_d_b;
  match fetchDecode32 d_b (first ++ second) i (n + Z.min 15 r.2) with
  | Fetched i _ _ => prev ← gets prev_rip; set_EIP prev;; mret i
  | Refused => exception BX_GP_EXCEPTION 0
  | Stuck => crash
  end.
Definition ref_fetch (i : bxInstruction_c) : Mach (bxInstruction_c * bool) :=
  eip ← EIP;
  r ← code_at eip;
  bytes ← gets (host_bytes (physmem_base + r.1));
  d_b ← gets CS_d_b;
  match fetchDecode32 d_b bytes i r.2 with
  | Fetched i _ _ => mret (i, true)
  | Refused => i ← ref_cross eip (physmem_base + r.1) r.2 (leftover d_b bytes i r.2); mret (i, false)
  | Stuck => crash
  end.

(** No segment whose end comes round to its beginning inside a page. *)
Definition CS_base (s : machine) : Z := seg_base (cache (sreg BX_SEG_REG_CS s)).
Definition window_sound (s : machine) : Prop :=
  0 <= CS_limit s < 2 ^ 32 /\ (CS_limit s < 2 ^ 32 - 4096 \/ PAGE_OFFSET (CS_base s) = 0).

Lemma prefetch_code s :
  TLB s = ∅ ->
  prefetch s =
    match code_at (fetch_eip s) s with
    | Ret _ s' => Ret tt s'
    | Fault v e s' => Fault v e s'
    | Crash => Crash
    end.
Proof.
  intros Ht. rewrite prefetch_eq by done. unfold code_at. rewrite bind_modify, bind_gets.
  change (CS_limit (with_eipPageBias _ s)) with (CS_limit s). destruct (CS_limit s <? fetch_eip s); [done|].
  unfold when. rewrite bind_mret, bind_modify, bind_gets.
  change (with_window (fetch_eip s) (with_eipPageBias (bias_at (fetch_eip s) s) s)) with (with_window (fetch_eip s) s).
  change (code_laddr (fetch_eip s) (with_window (fetch_eip s) s)) with (code_laddr (fetch_eip s) s).
  unfold mbind, M_bind. by destruct (code_page _ _).
Qed.

Lemma page_offset_eq x : PAGE_OFFSET x = x mod 4096.
Proof. unfold PAGE_OFFSET. exact (Z.land_ones x 12 ltac:(lia)). Qed.
Lemma code_offset eip s : PAGE_OFFSET (code_laddr eip s) = (CS_base s + eip) mod 4096.
Proof.
  rewrite page_offset_eq. unfold code_laddr. fold (CS_base s).
  exact (wrap_wrap_le 12 32 (CS_base s + eip) ltac:(lia)).
Qed.
Section Window.
Context (eip : Z) (s : machine) (Hs : window_sound s) (He : 0 <= eip <= CS_limit s).
Let off : Z := PAGE_OFFSET (code_laddr eip s).
Let rest : Z := Z.min (4096 - off) (CS_limit s - eip + 1).

Lemma code_offset_range : 0 <= off < 4096.
Proof. unfold off. rewrite code_offset. apply Z.mod_pos_bound. lia. Qed.
Lemma biased_offset : u32 (eip + bias_at eip s) = off.
Proof.
  pose proof code_offset_range. unfold bias_at. fold off. rewrite wrap_add_r by lia.
  replace (eip + (off - eip)) with off by lia. apply wrap_small. lia.
Qed.
Lemma offset_fits : CS_limit s - eip + off < 2 ^ 32.
Proof.
  pose proof code_offset_range. destruct Hs as [Hl [Ha|Ha]]; [lia|]. rewrite page_offset_eq in Ha.
  assert (off = eip mod 4096) as ->.
  { unfold off. rewrite code_offset, Z.add_mod, Ha, Z.add_0_l, Z.mod_mod by lia. done. }
  pose proof (Z.mod_le eip 4096 ltac:(lia) ltac:(lia)). lia.
Qed.
Lemma window_rest : u32 (window_at eip s - off) = rest.
Proof.
  pose proof code_offset_range. pose proof offset_fits. unfold window_at, bias_at. fold off.
  rewrite wrap_add_r by lia. replace (CS_limit s + u32 (off - eip) + 1) with (CS_limit s + 1 + u32 (off - eip)) by lia.
  rewrite wrap_add_r by lia. rewrite (wrap_small 32 (CS_limit s + (off - eip))) by lia. unfold rest.
  destruct (Z.ltb_spec (CS_limit s + (off - eip)) 4096).
  - rewrite (wrap_small 32 (CS_limit s + 1 + _)) by lia. rewrite wrap_small by lia. lia.
  - rewrite wrap_small by lia. lia.
Qed.
(** What comes after it is the beginning of a page. *)
Lemma next_offset : u32 (eip + rest) <= CS_limit s -> PAGE_OFFSET (code_laddr (u32 (eip + rest)) s) = 0.
Proof.
  pose proof code_offset_range as Ho. intros Hn. assert (rest = 4096 - off) as Hr.
  { destruct (Z.le_gt_cases (4096 - off) (CS_limit s - eip + 1)); [unfold rest; lia|].
    destruct Hs as [Hl Ha]. replace (eip + rest) with (CS_limit s + 1) in Hn by (unfold rest; lia).
    destruct (Z.eq_dec (CS_limit s) (2 ^ 32 - 1)) as [El|]; [|rewrite wrap_small in Hn; lia].
    destruct Ha as [|Ha]; [lia|]. rewrite page_offset_eq in Ha.
    assert (off = eip mod 4096) as Eo.
    { unfold off. rewrite code_offset, Z.add_mod, Ha, Z.add_0_l, Z.mod_mod by lia. done. }
    pose proof (Z.div_mod eip 4096 ltac:(lia)). lia. }
  rewrite Hr, page_offset_eq. unfold code_laddr. fold (CS_base s). rewrite wrap_add_r by lia.
  change (wrap 12 (u32 (CS_base s + (eip + (4096 - off)))) = 0). rewrite wrap_wrap_le by lia. unfold wrap. unfold off. rewrite code_offset. pose proof (Z.div_mod (CS_base s + eip) 4096 ltac:(lia)) as Hd.
  replace (CS_base s + _) with ((1 + (CS_base s + eip) / 4096) * 4096) by lia. apply Z.mod_mul. lia.
Qed.
End Window.
End Bytes.
Section Fetched.
Variable leftover : Z -> list Z -> bxInstruction_c -> Z -> bxInstruction_c.

(** What it leaves behind. *)
Lemma code_at_Ret eip s r s' :
  code_at eip s = Ret r s' ->
  eip <= CS_limit s /\
  r = (eipFetchPtr s' - physmem_base + PAGE_OFFSET (code_laddr eip s),
       Z.min (4096 - PAGE_OFFSET (code_laddr eip s)) (CS_limit s - eip + 1)) /\
  (gen_reg s', sregs s', TLB s', prev_rip s', eipPageBias s', eipPageWindowSize s') =
    (gen_reg s, sregs s, TLB s, prev_rip s, bias_at eip s, window_at eip s).
Proof.
  unfold code_at. rewrite bind_modify, bind_gets. change (CS_limit (with_eipPageBias _ s)) with (CS_limit s).
  destruct (Z.ltb_spec (CS_limit s) eip); [done|]. unfold when. rewrite bind_mret, bind_modify, bind_gets.
  set (s0 := with_window eip _). change (code_laddr eip s0) with (code_laddr eip s).
  pose proof (code_page_walked (code_laddr eip s) s0) as Hw. unfold mbind, M_bind.
  destruct (code_page (code_laddr eip s) s0) as [page s1| |]; [|done|done].
  intros [<- <-]%Ret_inj. destruct Hw as [(m & c & t & -> & _) _]. split; [done|]. split; [|done].
  unfold at_page. cbn [eipFetchPtr with_eipFetchPtr]. f_equal. lia.
Qed.

(** [boundaryFetch()] goes on at the beginning of the next page. *)
Lemma prefetch_next {A} (k : Mach A) eip n s :
  length (gen_reg s) = 11%nat -> TLB s = ∅ ->
  (set_EIP (eip + n);; prefetch;; k) s =
    (set_EIP (eip + n);; r ← code_at (u32 (eip + n)); k) s.
Proof.
  intros Hl Ht. unfold set_EIP, BX_WRITE_32BIT_REGZ. rewrite !bind_modify. set (s1 := set_reg _ _ s).
  assert (fetch_eip s1 = u32 (eip + n)) as He.
  { unfold fetch_eip, s1. rewrite reg_set_eq by (done || (unfold BX_32BIT_REG_EIP; lia)). unfold put_erx. by rewrite wrap_wrap by lia. }
  unfold mbind, M_bind. rewrite prefetch_code by done. rewrite He. by destruct (code_at _ s1).
Qed.

Lemma window_next eip s :
  window_sound s -> 0 <= eip <= CS_limit s -> PAGE_OFFSET (code_laddr eip s) = 0 ->
  window_at eip s = Z.min 4096 (CS_limit s - eip + 1).
Proof.
  intros Hs He Ho. pose proof (window_rest eip s Hs He) as H. rewrite Ho, !Z.sub_0_r in H. rewrite <-H. symmetry.
  apply wrap_small. unfold window_at. pose proof (wrap_range 32 (CS_limit s + bias_at eip s + 1)).
  destruct (_ <? _); lia.
Qed.
Lemma bind_same {A B} (m : Mach A) (k k' : A -> Mach B) s :
  (forall a s', m s = Ret a s' -> k a s' = k' a s') -> (m ≫= k) s = (m ≫= k') s.
Proof. intros H. unfold mbind, M_bind. destruct (m s); auto. Qed.
Lemma copy_bytes_state p n s l s' : copy_bytes p n s = Ret l s' -> s' = s.
Proof. unfold copy_bytes. rewrite bind_gets. destruct (n <=? _); [|done]. by intros [_ <-]%Ret_inj. Qed.

Lemma boundary_code p n i s :
  length (gen_reg s) = 11%nat -> TLB s = ∅ -> window_sound s -> fetch_eip s <= CS_limit s ->
  n = Z.min (4096 - PAGE_OFFSET (code_laddr (fetch_eip s) s)) (CS_limit s - fetch_eip s + 1) ->
  boundaryFetch p n i s = ref_cross (fetch_eip s) p n i s.
Proof.
  intros Hl Ht Hs He Hn. assert (0 <= fetch_eip s) as H0 by (apply wrap_range; lia).
  unfold boundaryFetch, ref_cross, when. destruct (15 <=? n); [done|]. rewrite !bind_mret.
  apply bind_same. intros first ? ->%copy_bytes_state.
  unfold EIP, BX_READ_32BIT_REG. rewrite bind_gets. change (erx (reg BX_32BIT_REG_EIP s)) with (fetch_eip s).
  rewrite prefetch_next by done. unfold set_EIP, BX_WRITE_32BIT_REGZ. rewrite !bind_modify.
  set (s1 := set_reg _ _ s). apply bind_same. intros r s2 E. rewrite !bind_gets.
  apply code_at_Ret in E as (He2 & -> & E). rewrite !pair_equal_spec in E. destruct E as [[[[[_ Hsr] _] _] _] ->].
  cbn [fst snd]. change (CS_limit s1) with (CS_limit s) in *.
  change (PAGE_OFFSET (code_laddr (u32 (fetch_eip s + n)) s1)) with (PAGE_OFFSET (code_laddr (u32 (fetch_eip s + n)) s)).
  change (window_at (u32 (fetch_eip s + n)) s1) with (window_at (u32 (fetch_eip s + n)) s).
  pose proof (next_offset (fetch_eip s) s Hs (conj H0 He)) as Ho. rewrite <-Hn in Ho. rewrite (Ho He2).
  pose proof (wrap_range 32 (fetch_eip s + n) ltac:(lia)).
  rewrite (window_next _ s Hs) by (lia || auto).
  replace (physmem_base + (eipFetchPtr s2 - physmem_base + 0)) with (eipFetchPtr s2) by lia.
  set (w := Z.min 4096 _). replace (if w <? 15 then w else 15) with (Z.min 15 w) by (destruct (Z.ltb_spec w 15); lia).
  done.
Qed.

Lemma locate_code s :
  TLB s = ∅ -> eipPageWindowSize s = 0 ->
  locate s = (r ← code_at (fetch_eip s); mret (u32 (fetch_eip s + bias_at (fetch_eip s) s))) s.
Proof.
  intros Ht Hz. unfold locate, EIP, BX_READ_32BIT_REG. rewrite !bind_gets, Hz.
  pose proof (wrap_range 32 (erx (reg BX_32BIT_REG_EIP s) + eipPageBias s)).
  destruct (Z.leb_spec 0 (u32 (erx (reg BX_32BIT_REG_EIP s) + eipPageBias s))) as [_|?]; [|lia].
  unfold mbind, M_bind. rewrite prefetch_code by done. destruct (code_at (fetch_eip s) s) as [r s1| |] eqn:E; [|done|done].
  apply code_at_Ret in E as (_ & _ & E). rewrite !pair_equal_spec in E. destruct E as [[[[[Hg _] _] _] Hb] _].
  unfold gets, mret, M_ret. unfold fetch_eip, reg, erx. by rewrite Hg, Hb.
Qed.
End Fetched.

(** ** A program in memory *)

(** [idt_machine] with EIP at 0x5ffd and there, across the end of the page, INC
    EAX, MOV ECX, 0x00560000 and DIV ECX; and with 0 for the 0x56. *)
Definition program (b : Z) : list Z := [0x40; 0xb9; 0; 0; b; 0; 0xf7; 0xf1].
Definition program_machine (eip b : Z) : machine :=
  loop_head (with_memory (with_mem_vector (mem_store (mem_vector (memory idt_machine)) 0x5ffd (program b)) (memory idt_machine))
    (set_reg BX_32BIT_REG_EIP eip (set_reg 1 7 idt_machine))).
Lemma program_machine_ok eip b : in32 eip -> cpu_ok (program_machine eip b).
Proof.
  intros He. unfold program_machine. set (v := mem_store _ _ _).
  assert (wf (set_reg BX_32BIT_REG_EIP eip (set_reg 1 7 idt_machine))) as Hw
    by (do 2 (apply set_reg_wf; [done|]); apply idt_machine_ok).
  split; [exact Hw|]. split_and!; [by split_and!|done..].
Qed.
Definition no_storage (d_b : Z) (bytes : list Z) (i : bxInstruction_c) (n : Z) : bxInstruction_c := i.
Definition empty_icache : icache :=
  mk_icache (fun _ => mk_icache_entry 0 ICacheWriteStampInvalid (demo_instruction 0 0 0 0)) (fun _ => 0).

(** Three turns: EAX is 1, and the interrupt table has been used for #DE. *)
Lemma cpu_loop_correct_witness :
  exists d, end_ok d /\
    cpu_loop no_storage (fun i _ => i) (executed built_in) 5 3 empty_icache (program_machine 0x5ffd 0) = Some d /\
    match d with
    | Ended (Delivered s) => reg 0 s = 1 /\ reg 1 s = 0 /\ reg BX_32BIT_REG_EIP s = 0x1234
    | _ => False
    end.
Proof.
  destruct (cpu_loop_correct no_storage (fun i _ => i) built_in built_in_sound 3 empty_icache (program_machine 0x5ffd 0))
    as (d & Hok & Hd); [by apply program_machine_ok|].
  exists d. split; [exact Hok|]. destruct (Hd 5%nat (Nat.le_refl 5)) as [H _]. split; [exact H|].
  clear Hok Hd. vm_compute in H. injection H as <-. repeat split; reflexivity.
Defined.


(** ** Where the code does not do what it means to *)

(** With a segment that begins inside a page and reaches the top of memory, the sum
    of limit and bias wraps: the window ends before EIP. *)
Definition unaligned_machine : machine :=
  with_sregs (replicate 6 (mk_segment_reg (mk_selector 0x10 2 0 0) (mk_descriptor 7 1 0 1 3 0x800 0xffffffff 1 1 0))) flat_machine.
Lemma window_wraps :
  window_at 0x10 unaligned_machine = 0x800 /\ PAGE_OFFSET (code_laddr 0x10 unaligned_machine) = 0x810.
Proof. done. Qed.

(** A store does not touch the stamps of the pages, and an instruction that has been
    cached is executed again after it has been overwritten. *)
Definition inc_machine (b : Z) : machine :=
  loop_head (with_memory (with_mem_vector (mem_store ∅ 0x5000 [b]) (memory flat_machine)) (set_reg BX_32BIT_REG_EIP 0x5000 flat_machine)).
Lemma stale_code :
  let fetch := fetch_cached no_storage (fun i _ => i) in
  let c := (fetch (fetch empty_icache (inc_machine 0x40)).2 (inc_machine 0x40)).2 in
  match (fetch empty_icache (inc_machine 0x48)).1, (fetch c (inc_machine 0x48)).1 with
  | Ret fresh _, Ret cached _ => ia_opcode fresh = BX_IA_DEC_ERX /\ ia_opcode cached = BX_IA_INC_ERX
  | _, _ => False
  end.
Proof. vm_compute. auto. Qed.
